(* ===== verification/_CoqProject ===== *)
-Q . S2P
Prelude.v
PyStr.v
PyStrFacts.v
PyFloat.v
PyTime.v
PyTimeParse.v
PyJson.v
PyText.v
Host.v
Effects.v
Url.v
Wire.v
TelemetryModel.v
TelemetryWire.v
AiContract.v
Overlay.v
Gateway.v
TelemetryIngest.v
TelemetryBuffer.v
RedisBuffer.v
Settings.v
TelemetrySink.v
SinkThreads.v
Security.v
StreamPath.v
Streaming.v
AuditChain.v
Backfill.v
Logging.v
AiAdapter.v
Health.v
Compose.v
Evidence.v
Recovery.v
Release.v
ReleaseGate.v
AuditOffload.v
PyDecimal.v
Firewall.v
NetworkAudit.v
Secrets.v
Hazards.v
License.v
PyXml.v
Quality.v
Performance.v
IsoAssurance.v
SafetyGates.v
PolicyGates.v
FinalEvidence.v
ChangeImpact.v
Http.v
Tracing.v
App.v
Assets.v
MediaControl.v
TurnRelay.v
RespClient.v
CacheProfile.v
IcePath.v
PyRegex.v
PyAst.v
SourceTree.v
CodeQuality.v
CriticalCode.v
PostgisSmoke.v
Hygiene.v
PyQuote.v
MavenSbom.v
MavenLicense.v
OsLicense.v
SuiteEvidence.v
MixedEvidence.v
WriterEvidence.v
RetentionEvidence.v
GeoIndexEvidence.v
BoundedEvidence.v
MigrationEvidence.v
OwnScopeEvidence.v
GroupEvidence.v
