(* ===== verification/Prelude.v ===== *)
(** * GCS-Saker: verification of the Python backend and its operations tools

    GCS-Saker is a ground-control system.  Its Python part, modelled here, is a
    FastAPI backend ([backend/]) that ingests telemetry, serves stream and AI
    data and issues tokens, and a set of operations tools ([scripts/]) that
    verify audit evidence, repair the telemetry history, gate releases, drive
    the lifecycle of the deployed services and check how they are exposed.

    ** How the parts interact

    Vehicles and sidecars speak protobuf: [Wire] is the hand-written codec, and
    [TelemetryWire], [Overlay] and [Gateway] are the messages built on it.  A
    telemetry record ([TelemetryModel]) reaches the backend by HTTP or MQTT
    ([TelemetryIngest]); it updates an in-memory read model and either the
    database directly or a write buffer ([TelemetryBuffer], in memory, or
    [RedisBuffer]) whose callers drain it into bulk SQL ([TelemetrySink], and
    [SinkThreads] for callers in several threads).  The
    HTTP API authenticates with tokens and cookies ([Security]), is configured
    from the environment and secret files ([Settings]), answers stream lookups
    from a registry merged with the media server's state ([Streaming], over the
    paths of [StreamPath]), forwards frames to AI processors ([AiAdapter],
    [AiContract]), reports readiness ([Health]) and logs through a redacting
    pipeline ([Logging]).  [App] assembles it: the route table with the role
    each route asks for, and the middlewares around it, with spans from
    [Tracing] over the messages of [Http].  A gateway's assets are paged from
    the database ([Assets]), and media control is reached over a client of its
    own ([MediaControl]).  [AuditChain] verifies exported audit evidence and
    [Backfill] assigns missing telemetry identifiers under guard.

    The other tools act on the machine they run on.  [Compose] starts and stops
    the services in order; [Recovery] stops one on purpose, restarts it and
    judges the recovery; [ReleaseGate] admits a deployment and records it with
    the manifest of [Release]; [AuditOffload] moves anchors to locked storage and
    rehearses their restoration with [AuditChain]; [Firewall] and [NetworkAudit]
    compare ports, rules and networks with their policies; [Secrets] writes the
    runtime secrets.  The reports judge a release candidate from controlled
    documents: [Hazards] which safety hazards are closed, [License] which
    packages may be distributed, on the coordinates [MavenSbom] corrects and the
    evidence [MavenLicense] and [OsLicense] collect, [ChangeImpact] whose code a
    change touches, [Quality] which requirements the test evidence verifies,
    [Performance] whether measured samples meet the thresholds; eight reports
    over single test suites ([MixedEvidence] to [GroupEvidence]) share
    [SuiteEvidence]; [IsoAssurance], [SafetyGates]
    and [PolicyGates] check the controlled documents themselves, and
    [FinalEvidence] runs the commands a delivery rests on.  [TurnRelay] speaks
    STUN to the media relay, [CacheProfile] starts each cache profile and drives
    it with the client of [RespClient], [PostgisSmoke] drives the spatial
    database, and [IcePath] judges which path a media connection took.  Three
    gates read the sources of the repository themselves: [CodeQuality] measures
    their functions, [CriticalCode] looks for constructs that hide failures, and
    [Hygiene] checks names, sizes and migrations.  What such a tool does is a trace of events ([Effects]), or
    a sequence of system calls of which any may fail ([Secrets]).

    ** How the model corresponds to the code

    A definition that translates code carries the path and lines it translates
    in its doc comment, relative to [src/].  Dataclasses and pydantic models are
    records, enums inductive types, dicts association lists in insertion order
    (section [dict] below).  A function that may raise returns [result A]: the
    value or the exception, with the part of the class hierarchy the [except]
    clauses depend on.  State is passed explicitly; where threads interleave the
    steps are a relation, and a call is a program of atomic operations with a
    weakest precondition over the records it holds ([SinkThreads]).  A tool that runs commands is a computation over the
    history of what it did so far; the machine that answers is an arbitrary
    function of that history.  The files, in dependency order:

    - this file: exceptions and the error monad, dicts, loops, automation;
    - [PyStr], [PyStrFacts], [PyFloat], [PyTime], [PyTimeParse], [PyJson],
      [PyText], [Url]: what the sources use of Python's strings (as UTF-8),
      binary64 floats, datetimes, JSON values, text with its characters and
      [urllib.parse];
    - [PyRegex], [PyAst], [SourceTree]: regular expressions as [re] matches
      them, syntax trees with [ast.walk], and the files of a source tree;
    - [Host], [Effects]: paths and files; the monad of command-running tools,
      its Hoare triples and its traces;
    - [Wire]: [modules/protocol_v2/wire.py], [wire_helpers.py];
    - [TelemetryModel]: [model/telemetry_model.py];
    - [TelemetryWire]: [modules/protocol_v2/telemetry*.py], [telemetry_wire/];
    - [AiContract]: [modules/ai_contract/];
    - [Overlay]: [modules/protocol_v2/ai_overlay*.py];
    - [Gateway]: [modules/protocol_v2/gateway_service*.py], [stream_control.py];
    - [TelemetryIngest]: [modules/telemetry_ingest/], [mqtt/telemetry_sink.py],
      [sql/telemetry_sql.py], [api/telemetry.py];
    - [TelemetryBuffer], [RedisBuffer], [TelemetrySink], [SinkThreads]:
      [modules/telemetry_buffer/];
    - [Settings]: the settings modules of [core/], [modules/map_config/];
    - [Security]: [core/security*.py], [api/auth*.py], [api/errors.py];
    - [StreamPath]: [model/stream_model.py];
    - [Streaming]: [modules/streaming/], [api/stream.py];
    - [AuditChain]: [scripts/ops/audit_chain_verify.py],
      [audit_anchor_verify.py], [verify_audit_recovery.py];
    - [Backfill]: [scripts/ops/telemetry_backfill_safety.py],
      [telemetry_identity_backfill.py];
    - [Logging]: [core/structured_logging.py];
    - [AiAdapter]: [modules/ai_adapter/];
    - [Health]: [modules/health/], [api/health.py];
    - [Compose]: [scripts/ops/compose_lifecycle.py];
    - [Recovery]: [scripts/ops/recovery_qualification.py],
      [recovery_qualification_support.py];
    - [Release]: [scripts/ops/release_manifest.py],
      [verify_mobile_release_evidence.py];
    - [ReleaseGate]: [scripts/ops/release_gate.py], [release_drift_report.py],
      [generate_admin_mfa_material.py];
    - [AuditOffload]: [scripts/ops/s3_object_lock_offload.py],
      [audit_offload_restore_drill.py];
    - [PyDecimal]: decimal texts and [int]; [Firewall], [NetworkAudit]:
      [scripts/ops/server01_firewall_drift_check.py],
      [docker_network_path_audit.py];
    - [Secrets]: [scripts/ops/materialize_secret_bundle.py],
      [enroll_legacy_runtime_secrets.py];
    - [Evidence], [Hazards]: what evidence reports share, and
      [scripts/reports/hazard_closure_qualification.py];
    - [License], [ChangeImpact]: [scripts/reports/license_compliance.py],
      [change_impact_qualification.py];
    - [PyXml]: elements of an XML document; [Quality], [Performance]:
      [scripts/reports/software_quality_measurement.py],
      [performance_stability_qualification.py];
    - [IsoAssurance]: [scripts/gates/iso_assurance_gate.py];
    - [SafetyGates]: [scripts/gates/system_safety_gate.py],
      [safety_control_traceability_gate.py];
    - [PolicyGates]: [scripts/gates/vulnerability_response_gate.py],
      [supply_chain_policy_gate.py];
    - [FinalEvidence]: [scripts/gates/m7_final_evidence_gate.py],
      [m10_runtime_evidence_gate.py];
    - [Http], [Tracing], [App]: HTTP messages and applications,
      [core/tracing.py], [main.py] and [api/contracts.py];
    - [Assets]: [api/unmaned_assets.py], [sql/mediate_sql.py];
    - [MediaControl]: [modules/media_control_grpc/client.py];
    - [TurnRelay]: [scripts/smoke/turn_relay_smoke.py];
    - [RespClient], [CacheProfile]: [scripts/smoke/dragonfly_profile_smoke.py];
    - [IcePath]: [scripts/smoke/webrtc_ice_smoke.py], [ice_pair_observation.py],
      [latency_budget.py];
    - [PostgisSmoke]: [scripts/smoke/postgis_runtime_smoke.py];
    - [CodeQuality], [CriticalCode], [Hygiene]:
      [scripts/gates/code_quality_baseline.py], [critical_code_contract.py],
      [repository_hygiene_contract.py];
    - [PyQuote]: percent encoding; [MavenSbom], [MavenLicense], [OsLicense]:
      [scripts/reports/reconcile_maven_sbom.py], [maven_license_evidence.py],
      [os_package_license_evidence.py];
    - [SuiteEvidence] and, on it, [MixedEvidence], [WriterEvidence],
      [RetentionEvidence], [GeoIndexEvidence], [BoundedEvidence],
      [MigrationEvidence], [OwnScopeEvidence] and [GroupEvidence]:
      [scripts/reports/telemetry_mixed_evidence.py],
      [telemetry_writer_evidence.py], [telemetry_retention_evidence.py],
      [geo_retention_index_evidence.py], [bounded_retention_evidence.py],
      [geo_schema_migration_evidence.py], [telemetry_own_scope_evidence.py] and
      [group_closure_evidence.py].

    ** Interfaces

    A component that others use through a contract is a type class with its
    laws, so that clients are proved against the contract: the telemetry source
    of the encoder, the telemetry write buffer (instances: memory and Redis),
    the database session of the ingest path and of the account store, the Redis
    client, and the SQL statements of the backfill.  Code that is not under
    [src/] (PyJWT, passlib, SQLAlchemy, Redis, PostgreSQL, httpx, pydantic's
    coercions, SHA-256, the JSON, YAML and XML codecs, the Python parser, the Unicode tables) is a parameter with named hypotheses or
    laws; each has a concrete instance that a witness evaluates.

    ** What the theorems show

    - Codecs: every value a sender can hold is read back from its encoding, for
      varints, fields, the telemetry envelope, overlay events, gateway envelopes
      and stream commands; decoding any bytes terminates with a value or a
      [ValueError]; which inputs an encoder refuses.
    - Telemetry: the ingest paths keep the rows they do not name; in any
      interleaving of any number of callers over a buffer whose bookkeeping does
      not raise, and whatever the bulk sink does, history is neither lost nor
      duplicated; over any buffer, a flush loses its batch only when a buffer
      operation raises at one of two places; run alone, the operations of a call
      are the sequential method; by how much the pending history may exceed its
      configured limit.
    - Security: a token is accepted only for its use; login needs the stored
      password; a refresh re-reads the account; the browser guards; what
      accepted settings and secrets look like.
    - Streams: the two parsers accept exactly the renderings of well-formed
      paths; lookups answer from the merged registry with the right status; the
      media client never has two requests in flight and serves only lists the
      server delivered, within the configured ages; one caller's steps refine
      the sequential function.
    - Audit: the head hash binds the content of an export up to a hash
      collision; a verified anchor directory is complete, signed and monotone; a
      verified recovery is the anchored chain.
    - Backfill: only an authorised run changes the database; a run terminates,
      makes the progress its bounds allow and can be resumed.
    - Lifecycle and recovery: services start in the order of the policy, each
      only after the ones before it are healthy, and stop in reverse; starting
      terminates; nothing is ever recreated; a production service is stopped
      only with every approval in place, and a scenario reported as passed did
      stop, restart and reconcile.
    - Releases: a validated manifest covers every service once with pinned
      images; the gate writes one only when every check passed; two manifests
      are in sync exactly when no service differs; which TURN ranges and
      administrator secrets are accepted.
    - Offload: evidence exists only of an upload whose locked version was read
      back, and of a restored export that the offloaded anchor binds.
    - Exposure: what a drift check that exits with 0 has found of bindings,
      rules and ports, and what it has not; the network audit passes exactly when
      the document is segmented as the policy says, as far as it judges the
      entries of the published ports.
    - Secrets: whichever system call fails, no file is ever torn or overwritten
      unasked, and success means exactly the validated secrets.
    - Hazards: a hazard is reported closed exactly when its trace, its declared
      status, its accepted risk and its evidence, among the manifests that were
      given, close it, and no report passes on its own.
    - Licenses and changes: what the license report leaves, in which order, and
      that an enforced run ends with 0 only when every package is cleared; a change report is clean only for a change that stays
      within its owner or was reviewed for exactly its paths.
    - Packages: a package URL is read back whatever its parts hold;
      reconciliation replaces the locators that one resolved coordinate corrects,
      nothing else, and settles; a license is resolved exactly by climbing through three parents at
      most; what the license text of a system package is reduced to.
    - Suite evidence: a report that passes rests on a suite without a failure
      and on the measurements its contract asks for, each within its limits.
    - Quality and performance: a row of a measurement says what the collected
      evidence says, in whatever order it came; a performance report passes only
      on samples whose 95th percentile, of the right rank, meets the threshold;
      neither verdict is ever a pass.
    - Gates: measures and procedures refer to each other without a gap; safety
      controls and hazards trace both ways; complete evidence rests on commands
      that ran and exited with zero.
    - TURN: an authenticated request is read back with the integrity and the
      fingerprint STUN asks for; an allocation follows the long-term credential
      mechanism, in four messages at most.
    - Cache profiles: every reply is read back however the network cuts it;
      when reading ends, and when it does not; whatever fails, what follows the
      comparison of the profiles is their clean-up; what a passed contract
      observed.
    - ICE paths: a relay-only offer holds relayed candidates alone; which
      inspections, waits and latencies pass.
    - Spatial database: what a passing smoke test prints the runtime evidence
      gate validates, and it is what six statements answered.
    - Source gates: the matcher finds a match exactly where the meaning of the
      pattern has one, and iterating misses none; a passing quality check means
      that no offender grew and none is new, and a written baseline passes; the
      measured functions of a braced language are spans of balanced lines; the
      critical-code and hygiene contracts pass exactly when every node, text and
      path they list is clean.
    - The assembled service: an endpoint runs only after the dependencies of the
      first route that matches, which endpoints are public, and that nothing
      under a guarded prefix is; what headers a response reaches the client
      with, and the one line that is logged for it; spans leave the process only
      for an internal collector, in bounded batches.
    - Assets and media control: the pages of a gateway's assets are the assets,
      each once and in order; the client uses mutual TLS unless told otherwise
      and sends nothing on a closed channel.
    - Logging, readiness and AI analyses: no value under a sensitive key is
      rendered; 200 means ready; an event is stored exactly on success.

    Where the code departs from its purpose or its documents the theorem states
    what it does (for instance [duplicate_key_batch_is_stuck],
    [postgres_upsert_buildable], [history_growth_bound], [invalidate_race]).

    ** Fuel

    The varint encoder takes the bit length of the value, seven bits going per
    round; the message decoder, UTF-8 validation, stripping, line splitting and
    the fraction trimming take the length of their input, of which every round
    consumes a part; JSON equality takes the nesting depth.  The loops of the
    backfill and of the verifiers recurse on their bound or list.  The health
    wait of the lifecycle takes fuel for its polls; [start_terminates] says how
    many polls suffice.  The poll of a recovery recurses on its number of
    attempts.  The Base32 codec and the STUN parser take the length of their
    input ([parse_attributes_fuel]).  The reader of cache replies takes the bytes
    that arrive; on a connection that closes inside a text no fuel is enough
    ([resp_read_termination]).  A repetition of a pattern is bounded by what lies
    ahead, since every round takes a character, and the walk of a syntax tree by
    its nodes; the parts of a query plan take its nesting depth
    ([flatten_plan_enough]).

    ** What is not modelled

    The data classes of companies and mediation, which nothing operates on, the
    generated protobuf modules, metrics and log output, the framework's own
    documentation routes, timers and threads as such (their operations are
    interleaved instead), tests, peer connections and their media, the other
    smoke tests, gates and reports, benchmarks, and the services in Go, Kotlin and TypeScript.
    Argument parsing and [Path.resolve] are left out of the tools: they take
    parsed arguments and resolved paths.  A buffer operation that raises is
    taken to leave the buffer as it was, a YAML date is held as a number (like a
    date it is neither a text nor a container), strings with lone surrogates are outside
    the model, and all NaNs are one value. *)

From stdpp Require Export base list gmap strings pretty.
From Stdlib Require Export ZArith Lia.
#[export] Set Default Proof Using "Type".

(** * Python exceptions and the error monad

    Every fallible function of the development returns [result A]: the value
    of a normal return, or the exception that leaves the call.  Exception
    classes are the ones the modelled sources name; [subclass] is the part of
    the Python class hierarchy their [except] clauses depend on. *)

Inductive exn_class : Type :=
  | ExcException
  | ExcValueError
  | ExcRuntimeError
  | ExcKeyError
  | ExcTypeError
  | ExcIndexError
  | ExcAssertionError
  | ExcOverflowError
  | ExcOSError
  | ExcAttributeError
  | ExcZeroDivisionError
  | ExcUnicodeError
  | ExcJSONDecodeError
  | ExcValidationError
  | ExcStreamPathError
  | ExcPlaybackUrlBuilderError
  | ExcMediaMTXClientError
  | ExcTelemetryBufferFullError
  | ExcSecretFileError
  | ExcSettingsConfigurationError
  | ExcAuthConfigError
  | ExcAIProcessorUnavailableError
  | ExcAIProcessorNotFoundError
  | ExcAuditChainError
  | ExcAuditAnchorError
  | ExcIdentityBackfillError
  | ExcReleaseManifestError
  | ExcRecoveryQualificationError
  | ExcLifecycleError
  | ExcNetworkAuditError
  | ExcSecretMaterializationError
  | ExcObjectLockError
  | ExcMobileEvidenceError
  | ExcAuditDrillError
  | ExcSubprocessError
  | ExcSystemExit
  | ExcHazardClosureError
  | ExcChangeImpactError
  | ExcLicenseComplianceError
  | ExcMavenReconciliationError
  | ExcMavenLicenseEvidenceError
  | ExcOsLicenseEvidenceError
  | ExcArchitectureIntentError
  | ExcSuiteEvidenceError
  | ExcParseError
  | ExcFileNotFoundError
  | ExcQualityMeasurementError
  | ExcPerformanceQualificationError
  | ExcIsoAssuranceError
  | ExcSupplyChainPolicyError
  | ExcSafetyControlTraceabilityError
  | ExcVulnerabilityPolicyError
  | ExcSystemSafetyError
  | ExcStructError
  | ExcDriverError.

#[export] Instance exn_class_eq_dec : EqDecision exn_class.
Proof. solve_decision. Defined.

(** The direct base class, where the sources (or the language) give one. *)
Definition base_class (c : exn_class) : option exn_class :=
  match c with
  | ExcException | ExcSystemExit => None
  | ExcUnicodeError | ExcJSONDecodeError | ExcStreamPathError
  | ExcPlaybackUrlBuilderError | ExcAIProcessorNotFoundError
  | ExcAuditAnchorError | ExcValidationError | ExcQualityMeasurementError => Some ExcValueError
  | ExcMediaMTXClientError | ExcTelemetryBufferFullError | ExcSecretFileError
  | ExcSettingsConfigurationError | ExcAIProcessorUnavailableError
  | ExcIdentityBackfillError | ExcReleaseManifestError
  | ExcRecoveryQualificationError | ExcLifecycleError | ExcNetworkAuditError
  | ExcSecretMaterializationError | ExcObjectLockError
  | ExcMobileEvidenceError | ExcAuditDrillError | ExcHazardClosureError
  | ExcChangeImpactError | ExcMavenReconciliationError
  | ExcMavenLicenseEvidenceError | ExcOsLicenseEvidenceError | ExcSuiteEvidenceError
  | ExcPerformanceQualificationError => Some ExcRuntimeError
  | ExcAuthConfigError => Some ExcSettingsConfigurationError
  | ExcAuditChainError | ExcLicenseComplianceError | ExcIsoAssuranceError
  | ExcSupplyChainPolicyError | ExcSafetyControlTraceabilityError
  | ExcVulnerabilityPolicyError | ExcSystemSafetyError | ExcArchitectureIntentError => Some ExcAssertionError
  | ExcFileNotFoundError => Some ExcOSError
  | _ => Some ExcException
  end.

(** [subclass c d]: an [except d] clause catches an exception of class [c].
    No chain of the hierarchy above is longer than four. *)
Definition subclass (c d : exn_class) : bool :=
  let up o := o ≫= base_class in
  bool_decide (Some d ∈ [Some c; up (Some c); up (up (Some c)); up (up (up (Some c)))]).

Inductive exn : Type :=
  | PyErr (cls : exn_class) (msg : string)
  | HttpErr (status : Z) (detail : string) (headers : list (string * string)).

#[export] Instance exn_eq_dec : EqDecision exn.
Proof. solve_decision. Defined.

Inductive result (A : Type) : Type :=
  | Ok (a : A)
  | Raise (e : exn).
Arguments Ok {A} a.
Arguments Raise {A} e.

#[export] Instance result_ret : MRet result := λ A a, Ok a.
#[export] Instance result_bind : MBind result := λ A B f m,
  match m with Ok a => f a | Raise e => Raise e end.
#[export] Instance result_fmap : FMap result := λ A B f m,
  match m with Ok a => Ok (f a) | Raise e => Raise e end.
#[export] Instance result_eq_dec `{EqDecision A} : EqDecision (result A).
Proof. solve_decision. Defined.

(** [raise ValueError("...")] and its siblings. *)
Definition value_error {A} (msg : string) : result A := Raise (PyErr ExcValueError msg).
Definition throw {A} (c : exn_class) (msg : string) : result A := Raise (PyErr c msg).

(** [if b: raise e] followed by the rest of the body. *)
Definition raise_if (b : bool) (c : exn_class) (msg : string) : result () :=
  if b then throw c msg else Ok ().

Definition is_ok {A} (m : result A) : bool :=
  match m with Ok _ => true | Raise _ => false end.

Definition to_option {A} (m : result A) : option A :=
  match m with Ok a => Some a | Raise _ => None end.

(** [try: m except d: handler] *)
Definition catch {A} (m : result A) (d : exn_class) (handler : string → result A) : result A :=
  match m with
  | Raise (PyErr c msg) => if subclass c d then handler msg else m
  | _ => m
  end.

(** [try: m except (d1, d2, ...): handler] *)
Definition catch_any {A} (m : result A) (ds : list exn_class)
    (handler : string → result A) : result A :=
  match m with
  | Raise (PyErr c msg) => if existsb (subclass c) ds then handler msg else m
  | _ => m
  end.

(** ** Lemmas on the monad *)

Lemma bind_Ok {A B} (m : result A) (f : A → result B) b :
  m ≫= f = Ok b ↔ ∃ a, m = Ok a ∧ f a = Ok b.
Proof. destruct m; naive_solver. Qed.

Lemma bind_Ok_l {A B} (a : A) (f : A → result B) : Ok a ≫= f = f a.
Proof. reflexivity. Qed.

Lemma bind_Raise {A B} (m : result A) (f : A → result B) e :
  m ≫= f = Raise e ↔ m = Raise e ∨ ∃ a, m = Ok a ∧ f a = Raise e.
Proof. destruct m; naive_solver. Qed.

Lemma raise_if_Ok b c msg u : raise_if b c msg = Ok u ↔ b = false.
Proof. destruct b, u; cbn; naive_solver. Qed.

Lemma raise_if_Raise b c msg e : raise_if b c msg = Raise e ↔ b = true ∧ e = PyErr c msg.
Proof. destruct b; cbn; unfold throw; naive_solver. Qed.

Lemma catch_Ok {A} (a : A) d h : catch (Ok a) d h = Ok a.
Proof. reflexivity. Qed.

Lemma is_ok_true {A} (m : result A) : is_ok m = true ↔ ∃ a, m = Ok a.
Proof. destruct m; naive_solver. Qed.

Lemma mapM_Ok {A B} (f : A → result B) (l : list A) (k : list B) :
  mapM f l = Ok k ↔ Forall2 (λ a b, f a = Ok b) l k.
Proof.
  revert k; induction l as [|a l IH]; intros k; cbn.
  - split; [intros [= <-]; constructor | by inversion 1].
  - rewrite bind_Ok. setoid_rewrite bind_Ok. split.
    + intros (b & Hb & k' & Hk & [= <-]). constructor; [done|]. by apply IH.
    + inversion 1 as [|? b ? k' Hb Hk]; subst.
      exists b. split; [done|]. exists k'. split; [by apply IH|done].
Qed.

Lemma mapM_Ok_fmap {A B} (f : A → result B) (g : A → B) (l : list A) :
  (∀ a, a ∈ l → f a = Ok (g a)) → mapM f l = Ok (g <$> l).
Proof.
  intros H. apply mapM_Ok. induction l as [|a l IH]; constructor.
  - apply H. left.
  - apply IH. intros b Hb. apply H. by right.
Qed.

Lemma mapM_Ok_length {A B} (f : A → result B) l k : mapM f l = Ok k → length k = length l.
Proof. rewrite mapM_Ok. intros H. symmetry. by eapply Forall2_length. Qed.

Lemma mapM_each {A B} (f : A → result B) l k : mapM f l = Ok k → Forall (λ a, ∃ b, f a = Ok b) l.
Proof. intros H%mapM_Ok. induction H as [|a b l k Hab _ IH]; constructor; eauto. Qed.

Lemma mapM_Raise {A B} (f : A → result B) l e :
  mapM f l = Raise e → ∃ a, a ∈ l ∧ f a = Raise e.
Proof.
  induction l as [|a l IH]; cbn; [done|]. rewrite bind_Raise.
  intros [H|(b & _ & H)]; [exists a; split; [left|done]|].
  apply bind_Raise in H as [H|(k & _ & [=])].
  destruct (IH H) as (a' & ? & ?). exists a'. split; [by right|done].
Qed.

(** ** Shared automation *)

Create HintDb saker.
#[export] Hint Rewrite @bind_Ok_l : saker.
#[export] Hint Resolve Z.mod_pos_bound : saker.

(** Split every successful bind and guard of a hypothesis into its parts. *)
Ltac inv_ok :=
  repeat match goal with
  | H : _ ≫= _ = Ok _ |- _ =>
      apply bind_Ok in H; let a := fresh "a" in let Ha := fresh "Ha" in
      destruct H as (a & Ha & H)
  | H : raise_if _ _ _ = Ok _ |- _ => apply raise_if_Ok in H
  | H : Ok _ = Ok _ |- _ => injection H as H
  | H : Raise _ = Ok _ |- _ => discriminate H
  | H : Ok _ = Raise _ |- _ => discriminate H
  | H : mret _ = Ok _ |- _ => unfold mret, result_ret in H
  | H : (match ?a with (_, _) => _ end) = Ok _ |- _ => is_var a; destruct a
  end.

(** Turn boolean connectives in the context into propositions. *)
Ltac split_bools :=
  repeat match goal with
  | H : (_ && _) = true |- _ => apply andb_true_iff in H; destruct H
  | H : (_ || _) = false |- _ => apply orb_false_iff in H; destruct H
  | H : negb _ = true |- _ => apply negb_true_iff in H
  | H : negb _ = false |- _ => apply negb_false_iff in H
  | H : bool_decide _ = true |- _ => apply bool_decide_eq_true_1 in H
  | H : bool_decide _ = false |- _ => apply bool_decide_eq_false_1 in H
  | H : String.eqb _ _ = true |- _ => apply String.eqb_eq in H
  | H : String.eqb _ _ = false |- _ => apply String.eqb_neq in H
  | H : (_ =? _)%Z = true |- _ => apply Z.eqb_eq in H
  | H : (_ =? _)%Z = false |- _ => apply Z.eqb_neq in H
  | H : (_ <? _)%Z = true |- _ => apply Z.ltb_lt in H
  | H : (_ <? _)%Z = false |- _ => apply Z.ltb_ge in H
  | H : (_ <=? _)%Z = true |- _ => apply Z.leb_le in H
  | H : (_ <=? _)%Z = false |- _ => apply Z.leb_gt in H
  end.

(** Case on the condition of an [if] in the goal. *)
Ltac case_if :=
  match goal with
  | |- context [if ?b then _ else _] => destruct b eqn:?
  end.

(** Case on the condition of an [if] in a hypothesis. *)
Ltac case_if_in H :=
  match type of H with
  | context [if ?b then _ else _] => destruct b eqn:?
  end.

(** ** Association lists as Python dicts

    A Python [dict] keeps insertion order; an update of a present key keeps
    the key's place, a new key goes to the end. *)

Section dict.
Context {K V : Type} `{EqDecision K}.
Implicit Types d : list (K * V).

Fixpoint dict_get (d : list (K * V)) (k : K) : option V :=
  match d with
  | [] => None
  | (k', v) :: d' => if decide (k = k') then Some v else dict_get d' k
  end.

Fixpoint dict_set (d : list (K * V)) (k : K) (v : V) : list (K * V) :=
  match d with
  | [] => [(k, v)]
  | (k', v') :: d' => if decide (k = k') then (k', v) :: d' else (k', v') :: dict_set d' k v
  end.

Fixpoint dict_del (d : list (K * V)) (k : K) : list (K * V) :=
  match d with
  | [] => []
  | (k', v') :: d' => if decide (k = k') then d' else (k', v') :: dict_del d' k
  end.

Definition dict_keys (d : list (K * V)) : list K := d.*1.
Definition dict_values (d : list (K * V)) : list V := d.*2.
Definition dict_has (d : list (K * V)) (k : K) : bool :=
  match dict_get d k with Some _ => true | None => false end.

(** A dict never holds a key twice. *)
Definition dict_wf (d : list (K * V)) : Prop := NoDup (dict_keys d).

Lemma dict_get_set d k v k' :
  dict_get (dict_set d k v) k' = if decide (k' = k) then Some v else dict_get d k'.
Proof.
  induction d as [|[k0 v0] d IH]; cbn; [done|].
  destruct (decide (k = k0)) as [->|]; cbn.
  - destruct (decide (k' = k0)); done.
  - destruct (decide (k' = k0)) as [->|]; [|done].
    destruct (decide (k0 = k)); congruence.
Qed.

Lemma dict_get_set_eq d k v : dict_get (dict_set d k v) k = Some v.
Proof. rewrite dict_get_set. by destruct (decide (k = k)). Qed.

Lemma dict_get_set_ne d k k' v : k' ≠ k → dict_get (dict_set d k v) k' = dict_get d k'.
Proof. intros. rewrite dict_get_set. by destruct (decide (k' = k)). Qed.

Lemma dict_get_None d k : dict_get d k = None ↔ k ∉ dict_keys d.
Proof.
  unfold dict_keys. induction d as [|[k0 v0] d IH]; cbn.
  - split; [by intros _ ?%elem_of_nil | done].
  - rewrite not_elem_of_cons, <-IH. destruct (decide (k = k0)); naive_solver.
Qed.

Lemma dict_get_Some_key d k v : dict_get d k = Some v → k ∈ dict_keys d.
Proof.
  intros H. destruct (decide (k ∈ dict_keys d)) as [|Hn]; [done|].
  apply dict_get_None in Hn. congruence.
Qed.

Lemma dict_get_elem d k v : dict_get d k = Some v → (k, v) ∈ d.
Proof.
  induction d as [|[k0 v0] d IH]; cbn; [done|].
  destruct (decide (k = k0)) as [->|]; [intros [= <-]; left|intros; right; auto].
Qed.

Lemma dict_elem_get d k v : dict_wf d → (k, v) ∈ d → dict_get d k = Some v.
Proof.
  unfold dict_wf, dict_keys. induction d as [|[k0 v0] d IH]; cbn; [by intros _ ?%elem_of_nil|].
  intros [Hn Hnd]%NoDup_cons [[= -> ->]|Hin]%elem_of_cons.
  - by destruct (decide (k0 = k0)).
  - destruct (decide (k = k0)) as [->|]; [|auto].
    destruct Hn. apply list_elem_of_fmap. by exists (k0, v).
Qed.

Lemma dict_keys_set d k v :
  dict_keys (dict_set d k v) = if decide (k ∈ dict_keys d) then dict_keys d else dict_keys d ++ [k].
Proof.
  unfold dict_keys. induction d as [|[k0 v0] d IH]; cbn; [destruct decide as [?%elem_of_nil|]; done|].
  destruct (decide (k = k0)) as [->|Hne]; cbn.
  - by rewrite decide_True by left.
  - rewrite IH. destruct (decide (k ∈ d.*1)) as [Hin|Hn].
    + by rewrite decide_True by (by right).
    + by rewrite decide_False by (rewrite not_elem_of_cons; done).
Qed.

Lemma dict_set_new d k v : k ∉ dict_keys d → dict_set d k v = d ++ [(k, v)].
Proof.
  unfold dict_keys. induction d as [|[k0 v0] d IH]; cbn; [done|].
  rewrite not_elem_of_cons. intros [Hne Hd]. rewrite decide_False by done. by rewrite IH.
Qed.

Lemma dict_set_wf d k v : dict_wf d → dict_wf (dict_set d k v).
Proof.
  unfold dict_wf. rewrite dict_keys_set. destruct decide; [done|].
  intros. apply NoDup_app. split; [done|]. split; [|apply NoDup_singleton].
  intros x Hx ->%list_elem_of_singleton. done.
Qed.

Lemma dict_del_notin d k : k ∉ dict_keys d → dict_del d k = d.
Proof.
  unfold dict_keys. induction d as [|[k0 v0] d IH]; cbn; [done|].
  rewrite not_elem_of_cons. intros [? ?]. destruct decide; [done|]. by rewrite IH.
Qed.

Lemma dict_keys_del d k : dict_wf d → ∀ x, x ∈ dict_keys (dict_del d k) ↔ x ∈ dict_keys d ∧ x ≠ k.
Proof.
  unfold dict_wf, dict_keys. intros Hwf x. induction d as [|[k0 v0] d IH]; cbn.
  - rewrite elem_of_nil. naive_solver.
  - apply NoDup_cons in Hwf as [Hn Hd]. destruct (decide (k = k0)) as [->|]; cbn.
    + rewrite elem_of_cons. naive_solver.
    + rewrite !elem_of_cons, IH by done. naive_solver.
Qed.

Lemma dict_del_wf d k : dict_wf d → dict_wf (dict_del d k).
Proof.
  unfold dict_wf, dict_keys. induction d as [|[k0 v0] d IH]; cbn; [done|].
  intros [Hn Hd]%NoDup_cons. destruct (decide (k = k0)) as [->|]; [done|]; cbn.
  apply NoDup_cons. split; [|auto]. intros Hin. apply Hn.
  by apply (dict_keys_del d k Hd).
Qed.

Lemma dict_get_del d k k' : dict_wf d →
  dict_get (dict_del d k) k' = if decide (k' = k) then None else dict_get d k'.
Proof.
  unfold dict_wf, dict_keys. induction d as [|[k0 v0] d IH]; cbn; [by destruct decide|].
  intros [Hn Hd]%NoDup_cons. specialize (IH Hd).
  destruct (decide (k = k0)) as [->|]; cbn.
  - destruct (decide (k' = k0)) as [->|]; [by apply dict_get_None|done].
  - destruct (decide (k' = k0)) as [->|]; [by destruct decide; congruence|done].
Qed.

(** Filling a dict from a list of pairs. *)
Lemma foldl_dict_set_keys (pairs : list (K * V)) d k :
  k ∈ dict_keys (foldl (λ d p, dict_set d p.1 p.2) d pairs) ↔ k ∈ dict_keys d ∨ k ∈ pairs.*1.
Proof.
  revert d. induction pairs as [|[a b] pairs IH]; intros d.
  - cbn. rewrite elem_of_nil. tauto.
  - rewrite fmap_cons. cbn [foldl fst snd]. rewrite IH, dict_keys_set, elem_of_cons. destruct (decide (a ∈ dict_keys d)).
    + split; [tauto|]. intros [?|[->|?]]; tauto.
    + rewrite elem_of_app, list_elem_of_singleton. tauto.
Qed.

Lemma foldl_dict_set_NoDup (pairs : list (K * V)) d :
  NoDup (dict_keys d ++ pairs.*1) → foldl (λ d p, dict_set d p.1 p.2) d pairs = d ++ pairs.
Proof.
  revert d. induction pairs as [|[a b] pairs IH]; intros d H; cbn; [by rewrite app_nil_r|].
  assert (a ∉ dict_keys d) as Ha.
  { apply NoDup_app in H as (_ & H & _). intros Hin. apply (H a Hin). left. }
  rewrite dict_set_new by done. rewrite IH; [by rewrite <-app_assoc|].
  unfold dict_keys. rewrite fmap_app. cbn. by rewrite <-app_assoc.
Qed.
End dict.

#[export] Hint Resolve dict_set_wf dict_del_wf : saker.
#[export] Hint Rewrite @dict_get_set_eq : saker.

(** ** Loops

    [for x in l: s = f(s, x)] where the body may raise. *)
Fixpoint for_in {S A} (f : S → A → result S) (s : S) (l : list A) : result S :=
  match l with
  | [] => Ok s
  | a :: l' => s' ← f s a; for_in f s' l'
  end.

Lemma for_in_app {S A} (f : S → A → result S) s l1 l2 :
  for_in f s (l1 ++ l2) = (s' ← for_in f s l1; for_in f s' l2).
Proof. revert s; induction l1 as [|a l1 IH]; intros s; cbn; [done|]. by destruct (f s a); cbn. Qed.

Lemma for_in_Ok_foldl {S A} (f : S → A → result S) (g : S → A → S) s l :
  (∀ s a, a ∈ l → f s a = Ok (g s a)) → for_in f s l = Ok (foldl g s l).
Proof.
  revert s; induction l as [|a l IH]; intros s H; cbn; [done|].
  rewrite H by left. cbn. apply IH. intros. apply H. by right.
Qed.

Lemma for_in_invariant {S A} (P : S → Prop) (f : S → A → result S) s l s' :
  P s → (∀ s a s', a ∈ l → P s → f s a = Ok s' → P s') → for_in f s l = Ok s' → P s'.
Proof.
  revert s; induction l as [|a l IH]; intros s Hs Hf; cbn; [by intros [= <-]|].
  rewrite bind_Ok. intros (s1 & H1 & H2). apply (IH s1); [|intros|done].
  - by eapply Hf; [left| |].
  - by eapply Hf; [right| |].
Qed.

(** [all(f(x) for x in l)] and [any(f(x) for x in l)] where [f] may raise: they
    stop at the first answer. *)
Fixpoint all_in {A} (f : A → result bool) (l : list A) : result bool :=
  match l with [] => Ok true | a :: l' => b ← f a; if b : bool then all_in f l' else Ok false end.
Fixpoint any_in {A} (f : A → result bool) (l : list A) : result bool :=
  match l with [] => Ok false | a :: l' => b ← f a; if b : bool then Ok true else any_in f l' end.

(** [a and b], [a or b], [not a] on conditions that may raise. *)
Definition and_r (a b : result bool) : result bool := x ← a; if x : bool then b else Ok false.
Definition or_r (a b : result bool) : result bool := x ← a; if x : bool then Ok true else b.
Definition not_r (a : result bool) : result bool := negb <$> a.

Lemma all_in_Ok {A} (f : A → result bool) l : all_in f l = Ok true ↔ Forall (λ a, f a = Ok true) l.
Proof.
  induction l as [|a l IH]; cbn; [by split|]. rewrite Forall_cons, bind_Ok, <-IH.
  split; [intros ([|] & Ha & H); [done|discriminate]|intros [Ha H]; by exists true].
Qed.

Lemma and_r_Ok a b : and_r a b = Ok true ↔ a = Ok true ∧ b = Ok true.
Proof. destruct a as [[]|]; cbn; naive_solver. Qed.

Lemma or_r_false a b : or_r a b = Ok false ↔ a = Ok false ∧ b = Ok false.
Proof. destruct a as [[]|]; cbn; naive_solver. Qed.

Lemma not_r_Ok a b : not_r a = Ok b ↔ a = Ok (negb b).
Proof. destruct a as [[]|], b; cbn; naive_solver. Qed.

Lemma any_in_true {A} (f : A → result bool) l : any_in f l = Ok true → ∃ a, a ∈ l ∧ f a = Ok true.
Proof.
  induction l as [|a l IH]; cbn; [discriminate|]. rewrite bind_Ok. intros ([] & Ha & H).
  - exists a. split; [left|done].
  - destruct (IH H) as (b & Hb & Hf). exists b. split; [by right|done].
Qed.

Lemma any_in_false {A} (f : A → result bool) l : any_in f l = Ok false ↔ Forall (λ a, f a = Ok false) l.
Proof.
  induction l as [|a l IH]; cbn; [by split|]. rewrite Forall_cons, bind_Ok, <-IH. split.
  - intros ([] & Ha & H); [discriminate H|done].
  - intros [Ha H]. by exists false.
Qed.

(** [[x for x in l if f(x)]] where [f] may raise. *)
Fixpoint filter_in {A} (f : A → result bool) (l : list A) : result (list A) :=
  match l with
  | [] => Ok []
  | a :: l' => b ← f a; rest ← filter_in f l'; Ok (if b : bool then a :: rest else rest)
  end.

Lemma filter_in_nil {A} (f : A → result bool) l :
  filter_in f l = Ok [] ↔ Forall (λ a, f a = Ok false) l.
Proof.
  induction l as [|a l IH]; cbn; [by split|]. rewrite Forall_cons, bind_Ok, <-IH. split.
  - intros (b & Ha & (rest & Hr & H)%bind_Ok). destruct b; [discriminate H|]. injection H as ->. done.
  - intros [Ha Hr]. exists false. split; [done|]. by rewrite Hr.
Qed.

(** ** Lists *)

Lemma existsb_false {A} (f : A → bool) l : existsb f l = false → Forall (λ a, f a = false) l.
Proof.
  induction l as [|a l IH]; cbn; [done|]. rewrite orb_false_iff. intros [Ha H]. constructor; auto.
Qed.

Lemma filter_none {A} (f : A → bool) l : List.filter f l = [] → Forall (λ a, f a = false) l.
Proof.
  induction l as [|a l IH]; cbn; [done|]. destruct (f a) eqn:E; [discriminate|]. intros H. constructor; auto.
Qed.

Lemma Forall2_compose {A B C} (P : A → B → Prop) (Q : B → C → Prop) (R : A → C → Prop) l k m :
  (∀ a b c, P a b → Q b c → R a c) → Forall2 P l k → Forall2 Q k m → Forall2 R l m.
Proof.
  intros HR Hl. revert m. induction Hl as [|a b l k Hab _ IH]; intros m Hm; inversion Hm; subst;
    constructor; eauto.
Qed.

(** ** Reachability: rule induction on runs *)

Lemma rtc_invariant {S} (R : relation S) (P : S → Prop) x y :
  (∀ a b, R a b → P a → P b) → P x → rtc R x y → P y.
Proof. intros HR Hx Hr. induction Hr as [|a b c Hab _ IH]; [done|]. apply IH. by eapply HR. Qed.

(** A handler that only raises cannot produce a result. *)
Lemma catch_reraise {A} (m : result A) d h a :
  (∀ msg, is_ok (h msg) = false) → catch m d h = Ok a → m = Ok a.
Proof.
  intros Hh. destruct m as [b|[c msg|st dt hd]]; cbn; [done| |done].
  destruct (subclass c d); [|done]. intros E. specialize (Hh msg). by rewrite E in Hh.
Qed.

Lemma catch_any_reraise {A} (m : result A) ds h a :
  (∀ msg, is_ok (h msg) = false) → catch_any m ds h = Ok a → m = Ok a.
Proof.
  intros Hh. destruct m as [b|[c msg|st dt hd]]; cbn; [done| |done].
  destruct (existsb _ _); [|done]. intros E. specialize (Hh msg). by rewrite E in Hh.
Qed.
