(* ===== verification/PyStr.v ===== *)
(** Python [str] and [bytes].

    A Python string is represented by its UTF-8 encoding: a [string] of the
    Standard Library is a sequence of 8-bit characters, [str.encode("utf-8")]
    is the change of view [utf8_encode] and [bytes.decode("utf-8")] is the
    strict validity check [utf8_decode].  Equality, concatenation, prefix
    tests, splitting and replacing at ASCII characters and lexicographic order
    agree with the code-point view because UTF-8 is self-synchronising and
    order preserving; [len] counts code points ([str_len]).  Strings with lone
    surrogates have no UTF-8 encoding and are outside the model. *)

From stdpp Require Import base list strings.
From Stdlib Require Import ZArith Lia Ascii Strings.Byte.
From S2P Require Import Prelude.

#[local] Open Scope Z_scope.

(** ** Bytes *)

Definition byte_to_Z (b : byte) : Z := Z.of_N (Byte.to_N b).

Definition byte_of_Z (z : Z) : byte :=
  match Byte.of_N (Z.to_N (z mod 256)) with Some b => b | None => x00 end.

Lemma byte_to_Z_range b : 0 <= byte_to_Z b < 256.
Proof. unfold byte_to_Z. pose proof (Byte.to_N_bounded b). lia. Qed.

Lemma byte_to_of_Z z : byte_to_Z (byte_of_Z z) = z mod 256.
Proof.
  unfold byte_to_Z, byte_of_Z. pose proof (Z.mod_pos_bound z 256 ltac:(lia)) as Hb.
  destruct (Byte.of_N _) as [b|] eqn:E.
  - apply Byte.to_of_N in E. rewrite E. lia.
  - apply Byte.of_N_None_iff in E. lia.
Qed.

Lemma byte_to_of_Z_small z : 0 <= z < 256 → byte_to_Z (byte_of_Z z) = z.
Proof. intros. rewrite byte_to_of_Z. by apply Z.mod_small. Qed.

Lemma byte_of_to_Z b : byte_of_Z (byte_to_Z b) = b.
Proof.
  unfold byte_of_Z. rewrite Z.mod_small by apply byte_to_Z_range.
  unfold byte_to_Z. rewrite N2Z.id, Byte.of_to_N. done.
Qed.

#[export] Hint Resolve byte_to_Z_range : saker.

(** ** UTF-8 *)

Definition is_cont (b : Z) : bool := (128 <=? b) && (b <=? 191).

(** Length of the well-formed UTF-8 sequence a byte list starts with (RFC 3629:
    no overlong forms, no surrogates, nothing above U+10FFFF); 0 if there is none. *)
Definition utf8_step (l : list byte) : nat :=
  match byte_to_Z <$> l with
  | b0 :: rest =>
      if b0 <? 128 then 1%nat else
      match rest with
      | b1 :: rest1 =>
          if (194 <=? b0) && (b0 <=? 223) && is_cont b1 then 2%nat else
          match rest1 with
          | b2 :: rest2 =>
              if (224 <=? b0) && (b0 <=? 239) && is_cont b1 && is_cont b2
                 && negb ((b0 =? 224) && (b1 <? 160)) && negb ((b0 =? 237) && (159 <? b1))
              then 3%nat else
              match rest2 with
              | b3 :: _ =>
                  if (240 <=? b0) && (b0 <=? 244) && is_cont b1 && is_cont b2 && is_cont b3
                     && negb ((b0 =? 240) && (b1 <? 144)) && negb ((b0 =? 244) && (143 <? b1))
                  then 4%nat else 0%nat
              | [] => 0%nat
              end
          | [] => 0%nat
          end
      | [] => 0%nat
      end
  | [] => 0%nat
  end.

Fixpoint utf8_valid_fuel (fuel : nat) (l : list byte) : bool :=
  match l, fuel with
  | [], _ => true
  | _, O => false
  | _, S fuel' =>
      match utf8_step l with
      | O => false
      | n => utf8_valid_fuel fuel' (drop n l)
      end
  end.

(** Every step consumes at least one byte, so the length is enough fuel. *)
Definition utf8_valid (l : list byte) : bool := utf8_valid_fuel (length l) l.

(** [s.encode("utf-8")] *)
Definition utf8_encode (s : string) : list byte := String.list_byte_of_string s.

(** [b.decode("utf-8")] *)
Definition utf8_decode (l : list byte) : result string :=
  if utf8_valid l then Ok (String.string_of_list_byte l)
  else throw ExcUnicodeError "invalid utf-8".

(** A string the model's representation invariant holds for. *)
Definition wf_str (s : string) : bool := utf8_valid (utf8_encode s).

Lemma utf8_decode_encode s : wf_str s = true → utf8_decode (utf8_encode s) = Ok s.
Proof.
  unfold wf_str, utf8_decode. intros ->. unfold utf8_encode.
  by rewrite String.string_of_list_byte_of_string.
Qed.

Lemma utf8_decode_Ok l s : utf8_decode l = Ok s → utf8_encode s = l ∧ wf_str s = true.
Proof.
  unfold utf8_decode, wf_str, utf8_encode. destruct (utf8_valid l) eqn:E; [|done].
  intros [= <-]. by rewrite String.list_byte_of_string_of_list_byte.
Qed.

(** [len(s)]: the code points, that is the bytes that do not continue one. *)
Definition str_len (s : string) : nat :=
  length (filter (λ b, is_cont (byte_to_Z b) = false) (utf8_encode s)).

(** ** Searching, splitting and replacing *)

Definition is_empty (s : string) : bool := match s with "" => true | _ => false end.

(** [truthy s]: [if s] *)
Definition truthy (s : string) : bool := negb (is_empty s).

Definition startswith (p s : string) : bool := String.prefix p s.

Fixpoint string_rev_acc (s acc : string) : string :=
  match s with "" => acc | String a s' => string_rev_acc s' (String a acc) end.
Definition string_rev (s : string) : string := string_rev_acc s "".

Definition endswith (p s : string) : bool := String.prefix (string_rev p) (string_rev s).

(** [sub in s] *)
Fixpoint contains (sub s : string) : bool :=
  String.prefix sub s || match s with "" => false | String _ s' => contains sub s' end.

Fixpoint has_char (c : ascii) (s : string) : bool :=
  match s with "" => false | String a s' => Ascii.eqb a c || has_char c s' end.

Fixpoint forall_chars (P : ascii → bool) (s : string) : bool :=
  match s with "" => true | String a s' => P a && forall_chars P s' end.

(** [s.split(c)] for a one-character separator. *)
Fixpoint split_on (c : ascii) (s : string) : list string :=
  match s with
  | "" => [""]
  | String a s' =>
      match split_on c s' with
      | w :: ws => if Ascii.eqb a c then "" :: w :: ws else String a w :: ws
      | [] => []
      end
  end.

(** [s.split(c, 1)]: the text before the first [c] and, if there is one, after it. *)
Fixpoint split_once (c : ascii) (s : string) : string * option string :=
  match s with
  | "" => ("", None)
  | String a s' =>
      if Ascii.eqb a c then ("", Some s')
      else let '(w, r) := split_once c s' in (String a w, r)
  end.

(** [sep.join(l)] *)
Fixpoint join (sep : string) (l : list string) : string :=
  match l with
  | [] => ""
  | [x] => x
  | x :: l' => x +:+ sep +:+ join sep l'
  end.

(** [s.replace(c, d)] for one-character strings. *)
Fixpoint replace_char (c d : ascii) (s : string) : string :=
  match s with
  | "" => ""
  | String a s' => String (if Ascii.eqb a c then d else a) (replace_char c d s')
  end.

Fixpoint string_drop (n : nat) (s : string) : string :=
  match n, s with
  | O, _ => s
  | S n', "" => ""
  | S n', String _ s' => string_drop n' s'
  end.

Fixpoint string_take (n : nat) (s : string) : string :=
  match n, s with
  | S n', String a s' => String a (string_take n' s')
  | _, _ => ""
  end.

(** [s.removeprefix(p)] and [s.removesuffix(p)] *)
Definition removeprefix (p s : string) : string :=
  if startswith p s then string_drop (String.length p) s else s.
Definition removesuffix (p s : string) : string :=
  if endswith p s then string_take (String.length s - String.length p) s else s.

(** [s.replace(old, new, 1)] for a non-empty [old]. *)
Fixpoint replace_first (old new s : string) : string :=
  if String.prefix old s then new +:+ string_drop (String.length old) s else
  match s with "" => "" | String a s' => String a (replace_first old new s') end.

(** [s.lstrip(c)] and [s.rstrip(c)] for one character. *)
Fixpoint lstrip_char (c : ascii) (s : string) : string :=
  match s with
  | String a s' => if Ascii.eqb a c then lstrip_char c s' else s
  | "" => ""
  end.
Definition rstrip_char (c : ascii) (s : string) : string :=
  string_rev (lstrip_char c (string_rev s)).

(** ** White space *)

Definition code (a : ascii) : Z := Z.of_N (N_of_ascii a).

(** Bytes of the white-space code point a string starts with, 0 if it starts
    with none: the ASCII ones, U+0085, U+00A0, U+1680, U+2000-U+200A, U+2028,
    U+2029, U+202F, U+205F and U+3000. *)
Definition space_bytes (b0 b1 b2 : Z) : nat :=
  if ((9 <=? b0) && (b0 <=? 13)) || ((28 <=? b0) && (b0 <=? 32)) then 1%nat
  else if (b0 =? 194) && ((b1 =? 133) || (b1 =? 160)) then 2%nat
  else if (b0 =? 225) && (b1 =? 154) && (b2 =? 128) then 3%nat
  else if (b0 =? 226) && (b1 =? 128)
          && (((128 <=? b2) && (b2 <=? 138)) || (b2 =? 168) || (b2 =? 169) || (b2 =? 175)) then 3%nat
  else if (b0 =? 226) && (b1 =? 129) && (b2 =? 159) then 3%nat
  else if (b0 =? 227) && (b1 =? 128) && (b2 =? 128) then 3%nat
  else 0%nat.

Definition char_at (n : nat) (s : string) : Z :=
  match String.get n s with Some a => code a | None => 0 end.

Definition space_head (s : string) : nat :=
  match s with "" => 0%nat | _ => space_bytes (char_at 0 s) (char_at 1 s) (char_at 2 s) end.

(** The same at the end, on the reversed string. *)
Definition space_tail (r : string) : nat :=
  match r with
  | "" => 0%nat
  | _ =>
      if Nat.eqb (space_bytes (char_at 0 r) 0 0) 1 then 1%nat
      else if Nat.eqb (space_bytes (char_at 1 r) (char_at 0 r) 0) 2 then 2%nat
      else if Nat.eqb (space_bytes (char_at 2 r) (char_at 1 r) (char_at 0 r)) 3 then 3%nat
      else 0%nat
  end.

Fixpoint strip_while (width : string → nat) (fuel : nat) (s : string) : string :=
  match fuel with
  | O => s
  | S fuel' => match width s with O => s | n => strip_while width fuel' (string_drop n s) end
  end.

Definition lstrip (s : string) : string := strip_while space_head (String.length s) s.
Definition rstrip (s : string) : string :=
  string_rev (strip_while space_tail (String.length s) (string_rev s)).

(** [s.strip()] *)
Definition strip (s : string) : string := rstrip (lstrip s).

(** ** Case *)

Definition is_ascii (a : ascii) : bool := code a <? 128.

Definition lower_ascii (a : ascii) : ascii :=
  if (65 <=? code a) && (code a <=? 90) then ascii_of_N (Z.to_N (code a + 32)) else a.
Definition upper_ascii (a : ascii) : ascii :=
  if (97 <=? code a) && (code a <=? 122) then ascii_of_N (Z.to_N (code a - 32)) else a.

Fixpoint map_chars (f : ascii → ascii) (s : string) : string :=
  match s with "" => "" | String a s' => String (f a) (map_chars f s') end.

(** [s.lower()]: ASCII letters are mapped here; a string with other characters
    goes through [unicode_lower], the Unicode character database's full mapping. *)
Definition lower (unicode_lower : string → string) (s : string) : string :=
  if forall_chars is_ascii s then map_chars lower_ascii s else unicode_lower s.

(** ** Character classes of the source's regular expressions *)

Definition is_alpha (a : ascii) : bool :=
  ((65 <=? code a) && (code a <=? 90)) || ((97 <=? code a) && (code a <=? 122)).
Definition is_digit (a : ascii) : bool := (48 <=? code a) && (code a <=? 57).
Definition is_alnum (a : ascii) : bool := is_alpha a || is_digit a.
Definition is_lower_hex (a : ascii) : bool :=
  is_digit a || ((97 <=? code a) && (code a <=? 102)).

(** ** Decimal numbers *)

(** [str(n)] and the [{n}] of an f-string. *)
Definition str_of_Z (n : Z) : string := pretty n.

Definition digit_value (a : ascii) : Z := code a - 48.

Fixpoint digits_to_Z_acc (s : string) (acc : Z) : Z :=
  match s with "" => acc | String a s' => digits_to_Z_acc s' (10 * acc + digit_value a) end.

(** The value of a string of ASCII digits. *)
Definition digits_to_Z (s : string) : Z := digits_to_Z_acc s 0.

(** [f"{n:02}"]: at least two characters, padded with zeros after the sign. *)
Definition pad2 (n : Z) : string :=
  if (0 <=? n) && (n <? 10) then "0" +:+ str_of_Z n else str_of_Z n.
