(* ===== verification/PyStrFacts.v ===== *)
(** Laws of the string operations of [PyStr]: splitting and joining, the
    characters of a concatenation, and the prefix, suffix and substring tests
    read as decompositions of the text. *)

From stdpp Require Import base list strings.
From Stdlib Require Import ZArith Lia Ascii.
From S2P Require Import Prelude PyStr.

#[local] Set Default Proof Using "Type".
#[local] Arguments String.append !_ _ /.
#[local] Arguments string_rev : simpl never.

Lemma app_nil_str s : s +:+ "" = s.
Proof. induction s as [|a s IH]; cbn; [done|]. by rewrite IH. Qed.

Lemma app_assoc_str a b c : (a +:+ b) +:+ c = a +:+ b +:+ c.
Proof. induction a as [|x a IH]; cbn; [done|]. by rewrite IH. Qed.

Lemma length_app_str a b : String.length (a +:+ b) = String.length a + String.length b.
Proof. induction a as [|x a IH]; cbn; [done|]. by rewrite IH. Qed.

Lemma forall_chars_app P a b : forall_chars P (a +:+ b) = forall_chars P a && forall_chars P b.
Proof. induction a as [|x a IH]; cbn; [done|]. by rewrite IH, andb_assoc. Qed.

Lemma has_char_app c a b : has_char c (a +:+ b) = has_char c a || has_char c b.
Proof. induction a as [|x a IH]; cbn; [done|]. by rewrite IH, orb_assoc. Qed.

Lemma has_char_forall P c s : forall_chars P s = true → P c = false → has_char c s = false.
Proof.
  induction s as [|a s IH]; cbn; [done|]. intros [Ha Hs]%andb_true_iff Hc.
  rewrite IH by done. destruct (Ascii.eqb_spec a c) as [->|]; [congruence|done].
Qed.

Lemma forall_chars_mono (P Q : ascii → bool) s :
  (∀ a, P a = true → Q a = true) → forall_chars P s = true → forall_chars Q s = true.
Proof. intros H. induction s as [|a s IH]; cbn; [done|]. intros [? ?]%andb_true_iff. by rewrite H, IH. Qed.

(** ** Splitting *)

Lemma split_on_nonempty c s : split_on c s ≠ [].
Proof.
  induction s as [|a s IH]; cbn; [done|].
  destruct (split_on c s) as [|w ws]; [done|]. by destruct (Ascii.eqb a c).
Qed.

Lemma split_on_free c s : has_char c s = false → split_on c s = [s].
Proof.
  induction s as [|a s IH]; cbn; [done|]. intros [Ha Hs]%orb_false_iff.
  by rewrite IH, Ha by done.
Qed.

Lemma split_on_app c s t : split_on c (s +:+ String c t) = split_on c s ++ split_on c t.
Proof.
  induction s as [|a s IH]; cbn.
  - rewrite Ascii.eqb_refl. pose proof (split_on_nonempty c t).
    by destruct (split_on c t).
  - rewrite IH. pose proof (split_on_nonempty c s).
    destruct (split_on c s) as [|w ws]; [done|]; cbn. by destruct (Ascii.eqb a c).
Qed.

Lemma split_on_cons_free c s t : has_char c s = false → split_on c (s +:+ String c t) = s :: split_on c t.
Proof. intros. by rewrite split_on_app, split_on_free. Qed.

Lemma split_on_join c s : join (String c "") (split_on c s) = s.
Proof.
  induction s as [|a s IH]; cbn; [done|].
  pose proof (split_on_nonempty c s). destruct (split_on c s) as [|w ws]; [done|].
  destruct (Ascii.eqb_spec a c) as [->|]; cbn in *; [by rewrite IH|].
  destruct ws; cbn in *; by rewrite IH.
Qed.

Lemma split_on_elem_free c s w : w ∈ split_on c s → has_char c w = false.
Proof.
  revert w; induction s as [|a s IH]; intros w; cbn.
  - by intros ->%list_elem_of_singleton.
  - pose proof (split_on_nonempty c s). destruct (split_on c s) as [|w0 ws] eqn:E; [done|].
    destruct (Ascii.eqb a c) eqn:Ha.
    + intros [->|Hw]%elem_of_cons; [done|]. by apply IH.
    + intros [->|Hw]%elem_of_cons; cbn.
      * rewrite Ha. cbn. apply IH. left.
      * apply IH. by right.
Qed.

(** ** Reversal, prefixes and suffixes *)

Lemma string_rev_acc_app s acc : string_rev_acc s acc = string_rev s +:+ acc.
Proof.
  unfold string_rev. revert acc. induction s as [|a s IH]; intros acc; cbn; [done|].
  rewrite (IH (String a acc)), (IH (String a "")), app_assoc_str. done.
Qed.

Lemma string_rev_cons a s : string_rev (String a s) = string_rev s +:+ String a "".
Proof. unfold string_rev at 1; cbn. by rewrite string_rev_acc_app. Qed.

Lemma string_rev_app a b : string_rev (a +:+ b) = string_rev b +:+ string_rev a.
Proof.
  induction a as [|x a IH]; cbn [String.append].
  - change (string_rev "") with "". by rewrite app_nil_str.
  - cbn. by rewrite !string_rev_cons, IH, app_assoc_str.
Qed.

Lemma string_rev_involutive s : string_rev (string_rev s) = s.
Proof.
  induction s as [|a s IH]; [done|]. by rewrite string_rev_cons, string_rev_app, IH.
Qed.

Lemma startswith_spec p s : startswith p s = true ↔ ∃ t, s = p +:+ t.
Proof.
  unfold startswith. revert s; induction p as [|a p IH]; intros s.
  - split; [intros _; by exists s|]. intros _. by destruct s.
  - destruct s as [|b s]; cbn.
    + split; [done|]. by intros (t & [=]).
    + destruct (ascii_dec a b) as [->|Hne].
      * rewrite IH. split; intros (t & Ht); exists t; congruence.
      * split; [done|]. intros (t & [= ? ?]). congruence.
Qed.

Lemma endswith_spec p s : endswith p s = true ↔ ∃ t, s = t +:+ p.
Proof.
  unfold endswith. fold (startswith (string_rev p) (string_rev s)).
  rewrite startswith_spec. split; intros (t & Ht).
  - exists (string_rev t). rewrite <-(string_rev_involutive s), Ht, string_rev_app.
    by rewrite string_rev_involutive.
  - exists (string_rev t). by rewrite Ht, string_rev_app.
Qed.

Lemma contains_spec sub s : contains sub s = true → ∃ u v, s = u +:+ sub +:+ v.
Proof.
  induction s as [|a s IH]; cbn [contains]; intros [H|H]%orb_true_iff.
  - apply startswith_spec in H as (t & ->). by exists "", t.
  - done.
  - apply startswith_spec in H as (t & ->). by exists "", t.
  - destruct (IH H) as (u & v & ->). by exists (String a u), v.
Qed.

(** ** Replacing a character *)

Lemma replace_char_app c d a b : replace_char c d (a +:+ b) = replace_char c d a +:+ replace_char c d b.
Proof. induction a as [|x a IH]; cbn; [done|]. by rewrite IH. Qed.

Lemma replace_char_free c d s : has_char c s = false → replace_char c d s = s.
Proof.
  induction s as [|a s IH]; cbn; [done|]. intros [Ha Hs]%orb_false_iff. by rewrite Ha, IH.
Qed.

Lemma replace_char_back c d s : has_char d s = false → replace_char d c (replace_char c d s) = s.
Proof.
  induction s as [|a s IH]; cbn; [done|]. intros [Ha Hs]%orb_false_iff. rewrite IH by done.
  destruct (Ascii.eqb_spec a c) as [->|]; [by rewrite Ascii.eqb_refl|by rewrite Ha].
Qed.

Lemma has_char_replace c d s : c ≠ d → has_char c (replace_char c d s) = false.
Proof.
  intros Hcd. induction s as [|a s IH]; cbn; [done|]. rewrite IH, orb_false_r.
  destruct (Ascii.eqb_spec a c); apply Ascii.eqb_neq; congruence.
Qed.

Lemma has_char_replace_other x c d s :
  x ≠ d → has_char x s = false → has_char x (replace_char c d s) = false.
Proof.
  intros Hx. induction s as [|a s IH]; cbn; [done|]. intros [Ha Hs]%orb_false_iff.
  rewrite IH by done. destruct (Ascii.eqb a c); [|by rewrite Ha].
  rewrite orb_false_r. apply Ascii.eqb_neq. congruence.
Qed.

Lemma split_join_plain c l : l ≠ [] → (∀ s, s ∈ l → has_char c s = false) →
  split_on c (join (String c "") l) = l.
Proof.
  induction l as [|x l IH]; [done|]. intros _ Hl. destruct l as [|y l].
  - cbn. apply split_on_free, Hl. left.
  - change (join (String c "") (x :: y :: l)) with (x +:+ String c (join (String c "") (y :: l))).
    rewrite split_on_cons_free by (apply Hl; left). rewrite IH; [done|done|].
    intros s Hs. apply Hl. by right.
Qed.

Lemma has_char_join c x l : c ≠ x → (∀ s, s ∈ l → has_char c s = false) →
  has_char c (join (String x "") l) = false.
Proof.
  intros Hcx. induction l as [|y l IH]; [done|]. intros Hl. destruct l as [|z l].
  - apply Hl. left.
  - change (join (String x "") (y :: z :: l)) with (y +:+ String x (join (String x "") (z :: l))).
    rewrite has_char_app. cbn [has_char].
    rewrite Hl by left. rewrite IH by (intros; apply Hl; by right).
    rewrite orb_false_r. apply Ascii.eqb_neq. congruence.
Qed.

Lemma is_empty_true s : is_empty s = true ↔ s = "".
Proof. by destruct s. Qed.

Lemma truthy_true s : truthy s = true ↔ s ≠ "".
Proof. destruct s; cbn; naive_solver. Qed.

Lemma string_drop_app p r : string_drop (String.length p) (p +:+ r) = r.
Proof. induction p as [|c p IH]; [by destruct r|]. exact IH. Qed.

Lemma removeprefix_app p r : removeprefix p (p +:+ r) = r.
Proof.
  unfold removeprefix. assert (startswith p (p +:+ r) = true) as -> by (apply startswith_spec; by exists r).
  apply string_drop_app.
Qed.

(** ** Splitting at the last separator *)

(** [s.rsplit(c, 1)] of a text that holds [c]. *)
Definition rsplit_once (c : ascii) (s : string) : option (string * string) :=
  match split_once c (string_rev s) with
  | (w, Some r) => Some (string_rev r, string_rev w)
  | (_, None) => None
  end.

Lemma has_char_rev c s : has_char c (string_rev s) = has_char c s.
Proof.
  induction s as [|a s IH]; [done|]. rewrite string_rev_cons, has_char_app, IH. cbn. by rewrite orb_false_r, orb_comm.
Qed.

Lemma split_once_found c a b : has_char c a = false → split_once c (a +:+ String c b) = (a, Some b).
Proof.
  induction a as [|x a IH]; intros H.
  - change ("" +:+ String c b) with (String c b). cbn. by rewrite Ascii.eqb_refl.
  - cbn in H. apply orb_false_iff in H as [H1 H2]. change (String x a +:+ String c b) with (String x (a +:+ String c b)).
    cbn. rewrite IH by done. by rewrite H1.
Qed.

Lemma split_once_none c s : has_char c s = false → split_once c s = (s, None).
Proof.
  induction s as [|x s IH]; intros H; [done|]. cbn in H. apply orb_false_iff in H as [H1 H2]. cbn. rewrite IH by done. by rewrite H1.
Qed.

Lemma rsplit_once_found c a b : has_char c b = false → rsplit_once c (a +:+ String c "" +:+ b) = Some (a, b).
Proof.
  intros H. unfold rsplit_once. rewrite !string_rev_app. change (string_rev (String c "")) with (String c "").
  rewrite app_assoc_str. change (String c "" +:+ string_rev a) with (String c (string_rev a)).
  rewrite split_once_found by (by rewrite has_char_rev). by rewrite !string_rev_involutive.
Qed.

Lemma string_take_app p r : string_take (String.length p) (p +:+ r) = p.
Proof. induction p as [|a p IH]; cbn; [by destruct r|]. by f_equal. Qed.

Lemma removesuffix_app p r : removesuffix p (r +:+ p) = r.
Proof.
  unfold removesuffix. rewrite (proj2 (endswith_spec p _)) by (by exists r). rewrite length_app_str.
  replace (String.length r + String.length p - String.length p)%nat with (String.length r) by lia. apply string_take_app.
Qed.

Lemma removesuffix_cases p s : s = removesuffix p s ∨ s = removesuffix p s +:+ p.
Proof.
  destruct (endswith p s) eqn:E.
  - apply endswith_spec in E as [t ->]. right. by rewrite removesuffix_app.
  - left. unfold removesuffix. by rewrite E.
Qed.

Lemma split_once_Some c s a b : split_once c s = (a, Some b) → s = a +:+ String c b ∧ has_char c a = false.
Proof.
  revert a. induction s as [|x s IH]; intros a; cbn; [done|]. destruct (Ascii.eqb_spec x c) as [->|Hne].
  - by intros [= <- <-].
  - destruct (split_once c s) as [a' o] eqn:E. intros [= <- ->]. destruct (IH _ eq_refl) as [-> Ha]. split; [done|].
    cbn. by rewrite (proj2 (Ascii.eqb_neq _ _)) by done.
Qed.

Lemma split_once_None c s a : split_once c s = (a, None) → a = s ∧ has_char c s = false.
Proof.
  revert a. induction s as [|x s IH]; intros a; cbn; [by intros [= <-]|]. destruct (Ascii.eqb_spec x c) as [->|Hne]; [done|].
  destruct (split_once c s) as [a' o] eqn:E. intros [= <- ->]. by destruct (IH _ eq_refl) as [-> ->].
Qed.

Lemma rsplit_once_None c s : rsplit_once c s = None → has_char c s = false.
Proof.
  unfold rsplit_once. destruct (split_once c (string_rev s)) as [x [y|]] eqn:E; [done|]. intros _.
  apply split_once_None in E as [_ H]. by rewrite has_char_rev in H.
Qed.

Lemma rsplit_once_Some c s a b : rsplit_once c s = Some (a, b) → s = a +:+ String c "" +:+ b ∧ has_char c b = false.
Proof.
  unfold rsplit_once. destruct (split_once c (string_rev s)) as [x [y|]] eqn:E; [|done]. intros [= <- <-].
  apply split_once_Some in E as [E Hx]. split; [|by rewrite has_char_rev].
  apply (f_equal string_rev) in E. rewrite string_rev_involutive in E. rewrite E, string_rev_app, string_rev_cons.
  by rewrite <-app_assoc_str.
Qed.

(** A text without a character that ends a text lies behind its last occurrence. *)
Lemma free_suffix c u v t p : u +:+ String c v = t +:+ p → has_char c p = false → ∃ w, v = w +:+ p.
Proof.
  intros E Hp. apply (f_equal string_rev) in E. rewrite !string_rev_app, string_rev_cons in E.
  assert (∀ p', has_char c p' = false → ∀ v', (v' +:+ String c "") +:+ string_rev u = p' +:+ string_rev t → ∃ w, v' = p' +:+ w) as H.
  { clear. induction p' as [|x p' IH]; intros Hp [|y v'] E; cbn in *; try by eexists.
    - injection E as <- _. by rewrite Ascii.eqb_refl in Hp.
    - apply orb_false_iff in Hp as [_ Hp]. injection E as -> E. destruct (IH Hp _ E) as [w ->]. by exists w. }
  destruct (H (string_rev p)) with (v' := string_rev v) as [w Hw]; [by rewrite has_char_rev|exact E|].
  exists (string_rev w). apply (f_equal string_rev) in Hw. by rewrite string_rev_app, !string_rev_involutive in Hw.
Qed.

(** Two ways to cut one text: one cut lies at or behind the other. *)
Lemma app_cut a b c d : a +:+ b = c +:+ d →
  (∃ x, c = a +:+ x ∧ b = x +:+ d) ∨ (∃ x, a = c +:+ x ∧ d = x +:+ b).
Proof.
  revert c. induction a as [|x a IH]; intros c E; [left; by exists c|].
  destruct c as [|y c]; [right; by exists (String x a)|].
  cbn in E. injection E as -> E. destruct (IH _ E) as [(z & -> & ->)|(z & -> & ->)]; [left|right]; by exists z.
Qed.

(** A text whose last part lacks a character does not end with a suffix that ends with it. *)
Lemma endswith_last p c u w : w ≠ "" → has_char c w = false → endswith (p +:+ String c "") (u +:+ w) = false.
Proof.
  intros Hw Hc. apply not_true_iff_false. rewrite endswith_spec. intros (t & E).
  apply (f_equal string_rev) in E. rewrite !string_rev_app in E. rewrite <-has_char_rev in Hc.
  destruct (string_rev w) as [|x w'] eqn:Er.
  - apply Hw. apply (f_equal string_rev) in Er. by rewrite string_rev_involutive in Er.
  - change (string_rev (String c "")) with (String c "") in E. cbn in E. injection E as -> _.
    cbn in Hc. by rewrite Ascii.eqb_refl in Hc.
Qed.
