(* ===== verification/PyFloat.v ===== *)
(** Python [float] and [struct.pack("<d")].

    A Python float is a primitive binary64 number.  [struct] stores it as the
    eight little-endian bytes of its IEEE 754 interchange encoding; [pack_double]
    and [unpack_double] compute that encoding, and [unpack_pack_double] is the
    round trip.  All NaNs are one value here, packed as the quiet NaN Python's
    [float("nan")] holds; a NaN payload is not represented. *)

From stdpp Require Import base list strings.
From Stdlib Require Import ZArith Lia Strings.Byte Floats.
From S2P Require Import Prelude PyStr.

#[local] Open Scope Z_scope.

(** ** Little-endian integers *)

Fixpoint le_split (n : nat) (z : Z) : list byte :=
  match n with
  | O => []
  | S n' => byte_of_Z z :: le_split n' (z / 256)
  end.

Fixpoint le_combine (l : list byte) : Z :=
  match l with
  | [] => 0
  | b :: l' => byte_to_Z b + 256 * le_combine l'
  end.

Lemma length_le_split n z : length (le_split n z) = n.
Proof. revert z; induction n; intros; cbn; auto. Qed.

Lemma le_combine_split n z : 0 <= z < 256 ^ Z.of_nat n → le_combine (le_split n z) = z.
Proof.
  revert z; induction n as [|n IH]; intros z Hz; cbn -[Z.pow Z.mul]; [lia|].
  rewrite byte_to_of_Z, IH.
  - pose proof (Z.div_mod z 256). lia.
  - rewrite Nat2Z.inj_succ, Z.pow_succ_r in Hz by lia. split.
    + apply Z.div_pos; lia.
    + apply Z.div_lt_upper_bound; lia.
Qed.

Lemma le_combine_range l : 0 <= le_combine l < 256 ^ Z.of_nat (length l).
Proof.
  induction l as [|b l IH]; cbn [le_combine length]; [cbn; lia|].
  rewrite Nat2Z.inj_succ, Z.pow_succ_r by lia.
  pose proof (byte_to_Z_range b). nia.
Qed.

Lemma le_split_combine l : le_split (length l) (le_combine l) = l.
Proof.
  induction l as [|b l IH]; cbn [le_combine length le_split]; [done|].
  pose proof (byte_to_Z_range b).
  replace ((byte_to_Z b + 256 * le_combine l) / 256) with (le_combine l)
    by (rewrite (Z.mul_comm 256), Z.div_add, Z.div_small by lia; lia).
  rewrite IH. f_equal. rewrite <-(byte_of_to_Z b) at 2. unfold byte_of_Z.
  replace ((byte_to_Z b + 256 * le_combine l) mod 256) with (byte_to_Z b mod 256);
    [done|]. rewrite (Z.mul_comm 256), Z.mod_add by lia. done.
Qed.

(** ** The binary64 interchange encoding *)

Definition sign_bits (s : bool) : Z := if s then 2 ^ 63 else 0.

Definition bits_of_spec (f : spec_float) : Z :=
  match f with
  | S754_zero s => sign_bits s
  | S754_infinity s => sign_bits s + 2047 * 2 ^ 52
  | S754_nan => 2047 * 2 ^ 52 + 2 ^ 51
  | S754_finite s m e =>
      sign_bits s +
      (if Z.pos m <? 2 ^ 52 then Z.pos m else (e + 1075) * 2 ^ 52 + (Z.pos m - 2 ^ 52))
  end.

Definition spec_of_bits (b : Z) : spec_float :=
  let s := 2 ^ 63 <=? b in
  let ex := (b / 2 ^ 52) mod 2 ^ 11 in
  let mant := b mod 2 ^ 52 in
  if ex =? 0 then
    if mant =? 0 then S754_zero s else S754_finite s (Z.to_pos mant) (-1074)
  else if ex =? 2047 then
    if mant =? 0 then S754_infinity s else S754_nan
  else S754_finite s (Z.to_pos (mant + 2 ^ 52)) (ex - 1075).

(** [struct.pack("<d", x)] *)
Definition pack_double (x : float) : list byte := le_split 8 (bits_of_spec (Prim2SF x)).

(** [struct.unpack("<d", b)[0]] for a string of eight bytes. *)
Definition unpack_double (b : list byte) : float := SF2Prim (spec_of_bits (le_combine b)).

Lemma digits2_pos_bound m :
  2 ^ (Z.pos (digits2_pos m) - 1) <= Z.pos m < 2 ^ Z.pos (digits2_pos m).
Proof.
  induction m as [m IH|m IH|]; cbn [digits2_pos]; [..|cbn; lia];
    rewrite Pos2Z.inj_succ;
    replace (Z.succ (Z.pos (digits2_pos m)) - 1) with (Z.succ (Z.pos (digits2_pos m) - 1)) by lia;
    rewrite !Z.pow_succ_r by lia; lia.
Qed.

(** A finite number is normal (full 53-bit significand) or subnormal. *)
Lemma finite_cases s m e :
  SpecFloat.valid_binary FloatOps.prec FloatOps.emax (S754_finite s m e) = true →
  (2 ^ 52 <= Z.pos m < 2 ^ 53 ∧ -1074 <= e <= 971) ∨ (Z.pos m < 2 ^ 52 ∧ e = -1074).
Proof.
  cbn [SpecFloat.valid_binary]. unfold bounded, canonical_mantissa, SpecFloat.fexp, SpecFloat.emin.
  change FloatOps.prec with 53. change FloatOps.emax with 1024.
  rewrite andb_true_iff, Z.eqb_eq, Z.leb_le. intros [Hc He].
  pose proof (digits2_pos_bound m) as Hd. set (d := Z.pos (digits2_pos m)) in *.
  assert (d = 53 ∨ (d < 53 ∧ e = -1074)) as [->|[Hlt ->]] by lia.
  - left. change (53 - 1) with 52 in Hd. lia.
  - right. split; [|done]. destruct Hd as [_ Hd].
    eapply Z.lt_le_trans; [exact Hd|]. apply Z.pow_le_mono_r; lia.
Qed.

Lemma sign_of_bits s x : 0 <= x < 2 ^ 63 → (2 ^ 63 <=? sign_bits s + x) = s.
Proof. intros Hx. destruct s; cbn [sign_bits]; [apply Z.leb_le|apply Z.leb_gt]; lia. Qed.

Lemma fields_of_bits s ex mant : 0 <= ex < 2 ^ 11 → 0 <= mant < 2 ^ 52 →
  let b := sign_bits s + (ex * 2 ^ 52 + mant) in
  (2 ^ 63 <=? b) = s ∧ (b / 2 ^ 52) mod 2 ^ 11 = ex ∧ b mod 2 ^ 52 = mant.
Proof.
  intros Hex Hm b. assert (b = ((if s then 2048 else 0) + ex) * 2 ^ 52 + mant) as Hb.
  { unfold b. destruct s; cbn [sign_bits]; lia. }
  split; [apply sign_of_bits; lia|]. rewrite Hb. split.
  - rewrite Z.div_add_l, (Z.div_small mant) by lia.
    destruct s; [|rewrite Z.mod_small; lia].
    replace (2048 + ex + 0) with (ex + 1 * 2 ^ 11) by lia.
    rewrite Z.mod_add, Z.mod_small; lia.
  - rewrite Z.add_comm, Z.mod_add, Z.mod_small; lia.
Qed.

Lemma bits_of_spec_range f :
  SpecFloat.valid_binary FloatOps.prec FloatOps.emax f = true → 0 <= bits_of_spec f < 256 ^ 8.
Proof.
  intros Hv. change (256 ^ 8) with (2 ^ 63 + 2 ^ 63).
  destruct f as [s|s| |s m e]; cbn [bits_of_spec]; try (destruct s; cbn; lia); [cbn; lia|].
  apply finite_cases in Hv. destruct (Z.ltb_spec (Z.pos m) (2 ^ 52)).
  - destruct s; cbn [sign_bits]; lia.
  - destruct Hv as [[? ?]|[? ?]]; destruct s; cbn [sign_bits]; lia.
Qed.

Lemma spec_of_bits_of_spec f :
  SpecFloat.valid_binary FloatOps.prec FloatOps.emax f = true → spec_of_bits (bits_of_spec f) = f.
Proof.
  intros Hv. destruct f as [s|s| |s m e].
  - by destruct s.
  - by destruct s.
  - done.
  - apply finite_cases in Hv. cbn [bits_of_spec].
    destruct (Z.ltb_spec (Z.pos m) (2 ^ 52)) as [Hlt|Hge].
    + assert (e = -1074) as -> by lia.
      destruct (fields_of_bits s 0 (Z.pos m)) as (H1 & H2 & H3); [lia..|].
      rewrite Z.mul_0_l, Z.add_0_l in H1, H2, H3.
      unfold spec_of_bits. rewrite H1, H2, H3. done.
    + destruct Hv as [[Hm He]|[? ?]]; [|lia].
      destruct (fields_of_bits s (e + 1075) (Z.pos m - 2 ^ 52)) as (H1 & H2 & H3); [lia..|].
      unfold spec_of_bits. rewrite H1, H2, H3.
      rewrite (proj2 (Z.eqb_neq _ _)) by lia. rewrite (proj2 (Z.eqb_neq _ _)) by lia.
      f_equal; [|lia]. rewrite Z.sub_add. done.
Qed.

Lemma length_pack_double x : length (pack_double x) = 8%nat.
Proof. apply length_le_split. Qed.

Lemma unpack_pack_double x : unpack_double (pack_double x) = x.
Proof.
  unfold unpack_double, pack_double. pose proof (Prim2SF_valid x) as Hv.
  rewrite le_combine_split by (by apply bits_of_spec_range).
  by rewrite spec_of_bits_of_spec, SF2Prim_Prim2SF.
Qed.

#[global] Opaque pack_double unpack_double.
#[export] Hint Rewrite length_pack_double unpack_pack_double : saker.

(** ** Exact comparison with integers

    [float == int] and the order on finite floats compare exact values. *)

Definition float_is_Z (x : float) (n : Z) : bool :=
  match Prim2SF x with
  | S754_zero _ => n =? 0
  | S754_finite s m e =>
      let v := if s then Z.neg m else Z.pos m in
      if 0 <=? e then v * 2 ^ e =? n else v =? n * 2 ^ (- e)
  | _ => false
  end.

(** [int(x)]: truncation toward zero; infinities and NaN raise. *)
Definition trunc_float (x : float) : result Z :=
  match Prim2SF x with
  | S754_zero _ => Ok 0
  | S754_finite s m e =>
      let v := if 0 <=? e then Z.pos m * 2 ^ e else Z.pos m / 2 ^ (- e) in
      Ok (if s then - v else v)
  | S754_infinity _ => throw ExcOverflowError "cannot convert float infinity to integer"
  | S754_nan => value_error "cannot convert float NaN to integer"
  end.

(** ** Arithmetic on integers through floats *)

Definition spec_of_Z (z : Z) : spec_float :=
  match z with
  | Z0 => S754_zero false
  | Zpos p => S754_finite false p 0
  | Zneg p => S754_finite true p 0
  end.

(** [a / b] on integers: the exact quotient rounded once, to nearest even.
    The operands' mantissas are the whole integers, so nothing is lost before
    the division. *)
Definition true_div (a b : Z) : result float :=
  if b =? 0 then throw ExcZeroDivisionError "division by zero" else
  match SFdiv FloatOps.prec FloatOps.emax (spec_of_Z a) (spec_of_Z b) with
  | S754_infinity _ =>
      throw ExcOverflowError "integer division result too large for a float"
  | q => Ok (SF2Prim q)
  end.

(** [float(n)]: the nearest float. *)
Definition float_of_int (n : Z) : result float := true_div n 1.

(** Nearest integer to [num / den] for positive [den], ties to even. *)
Definition div_half_even (num den : Z) : Z :=
  let q := num / den in
  let r := num mod den in
  if (2 * r <? den) || ((2 * r =? den) && Z.even q) then q else q + 1.

(** [round(x, digits)]: the exact value of [x] rounded to a multiple of
    [10 ** -digits], half to even, then to the nearest float.  Infinities and
    NaN are returned unchanged, and the sign of a zero result is that of [x]. *)
Definition round_digits (x : float) (digits : Z) : float :=
  match Prim2SF x with
  | S754_finite s m e =>
      let scale := 10 ^ digits in
      let q := if 0 <=? e then Z.pos m * 2 ^ e * scale
               else div_half_even (Z.pos m * scale) (2 ^ (- e)) in
      match true_div q scale with
      | Ok y => if s then (- y)%float else y
      | Raise _ => x
      end
  | _ => x
  end.

Lemma div_half_even_nearest num den : 0 < den →
  2 * Z.abs (num - den * div_half_even num den) <= den.
Proof.
  intros Hden. unfold div_half_even. pose proof (Z.div_mod num den ltac:(lia)) as Hd.
  pose proof (Z.mod_pos_bound num den Hden) as Hm.
  destruct ((2 * (num mod den) <? den) || _) eqn:E.
  - apply orb_true_iff in E as [E|E]; [apply Z.ltb_lt in E|
      apply andb_true_iff in E as [E _]; apply Z.eqb_eq in E]; lia.
  - apply orb_false_iff in E as [E _]. apply Z.ltb_ge in E. lia.
Qed.

(** [round(x)]: the nearest integer, ties to even; infinities and NaN raise. *)
Definition round_float (x : float) : result Z :=
  match Prim2SF x with
  | S754_zero _ => Ok 0
  | S754_finite s m e =>
      let q := if 0 <=? e then Z.pos m * 2 ^ e else div_half_even (Z.pos m) (2 ^ (- e)) in
      Ok (if s then - q else q)
  | S754_infinity _ => throw ExcOverflowError "cannot convert float infinity to integer"
  | S754_nan => value_error "cannot convert float NaN to integer"
  end.

(** [x <= n] for a float and an integer compares exact values. *)
Definition float_le_Z (x : float) (n : Z) : bool :=
  match Prim2SF x with
  | S754_zero _ => 0 <=? n
  | S754_finite s m e =>
      let v := if s then Z.neg m else Z.pos m in
      if 0 <=? e then v * 2 ^ e <=? n else v <=? n * 2 ^ (- e)
  | S754_infinity s => s
  | S754_nan => false
  end.

(** [n <= x] *)
Definition Z_le_float (n : Z) (x : float) : bool :=
  match Prim2SF x with
  | S754_zero _ => n <=? 0
  | S754_finite s m e =>
      let v := if s then Z.neg m else Z.pos m in
      if 0 <=? e then n <=? v * 2 ^ e else n * 2 ^ (- e) <=? v
  | S754_infinity s => negb s
  | S754_nan => false
  end.
