(* ===== verification/PyTime.v ===== *)
(** Python [datetime] as the sources use it.

    A datetime is its wall-clock time, in microseconds from 1970-01-01T00:00:00
    on the proleptic Gregorian calendar, and its UTC offset in microseconds when
    it carries a time zone. *)

From stdpp Require Import base list strings.
From Stdlib Require Import ZArith Lia Floats.
From S2P Require Import Prelude PyStr PyFloat.

#[local] Open Scope Z_scope.

Record datetime : Type := mkDatetime { dt_wall : Z; dt_offset : option Z }.

#[export] Instance datetime_eq_dec : EqDecision datetime.
Proof. solve_decision. Defined.

(** [value.tzinfo is None] *)
Definition is_naive (d : datetime) : bool :=
  match dt_offset d with None => true | Some _ => false end.

(** [value.replace(tzinfo=timezone.utc)] *)
Definition replace_utc (d : datetime) : datetime := mkDatetime (dt_wall d) (Some 0).

(** Microseconds since the epoch of an aware datetime. *)
Definition instant (d : datetime) : Z := dt_wall d - default 0 (dt_offset d).

(** [value.timestamp()] of an aware datetime: the exact difference to the epoch
    in microseconds, divided once. *)
Definition timestamp (d : datetime) : result float := true_div (instant d) 1000000.

(** [value.astimezone(timezone.utc)] of an aware datetime. *)
Definition to_utc (d : datetime) : datetime := mkDatetime (instant d) (Some 0).

(** Aware datetimes are compared by instant. *)
Definition dt_ltb (a b : datetime) : bool := instant a <? instant b.
Definition dt_leb (a b : datetime) : bool := instant a <=? instant b.

(** ** Calendar dates *)

Definition is_leap (y : Z) : bool :=
  (y mod 4 =? 0) && (negb (y mod 100 =? 0) || (y mod 400 =? 0)).

Definition days_in_month (y m : Z) : Z :=
  if m =? 2 then (if is_leap y then 29 else 28)
  else if (m =? 4) || (m =? 6) || (m =? 9) || (m =? 11) then 30 else 31.

(** [date(y, m, d)] does not raise. *)
Definition valid_date (y m d : Z) : bool :=
  (1 <=? y) && (y <=? 9999) && (1 <=? m) && (m <=? 12) && (1 <=? d) && (d <=? days_in_month y m).
