(* ===== verification/PyTimeParse.v ===== *)
(** Reading a [datetime] from text: the two formats the tools use.

    [fromisoformat] covers the extended format with seconds (the one the
    anchor writer produces) and [strptime_compact] the sixteen characters of
    ["%Y%m%dT%H%M%SZ"]; on a text of another shape the standard library's
    answer is a parameter. *)

From stdpp Require Import base list strings.
From Stdlib Require Import ZArith Lia Ascii.
From S2P Require Import Prelude PyStr PyTime.

#[local] Open Scope Z_scope.

(** ** Days of the proleptic Gregorian calendar *)

Definition days_before_year (y : Z) : Z :=
  let y := y - 1 in y * 365 + y / 4 - y / 100 + y / 400.

(** The days of the first [n] months. *)
Fixpoint days_before_month (y : Z) (n : nat) : Z :=
  match n with O => 0 | S n' => days_before_month y n' + days_in_month y (Z.of_nat n) end.

(** Days from 1970-01-01. *)
Definition days_from_civil (y m d : Z) : Z :=
  days_before_year y + days_before_month y (Z.to_nat (m - 1)) + d - 719163.

Definition seconds_of (y mo d h mi s : Z) : Z :=
  days_from_civil y mo d * 86400 + h * 3600 + mi * 60 + s.

Definition valid_clock (h mi s : Z) : bool := (h <=? 23) && (mi <=? 59) && (s <=? 59).

Example epoch_day : days_from_civil 1970 1 1 = 0.
Proof. reflexivity. Qed.

Example leap_day : seconds_of 2024 2 29 12 34 56 = 1709210096.
Proof. reflexivity. Qed.

(** ** Fixed-width fields *)

(** Take [n] digits; the value and the rest. *)
Definition take_digits (n : nat) (s : string) : option (Z * string) :=
  let w := string_take n s in
  if Nat.eqb (String.length w) n && forall_chars is_digit w
  then Some (digits_to_Z w, string_drop n s) else None.

Definition take_char (P : ascii → bool) (s : string) : option (ascii * string) :=
  match s with String a s' => if P a then Some (a, s') else None | "" => None end.

Fixpoint span_digits (s : string) : string * string :=
  match s with
  | String a s' => if is_digit a then let '(w, r) := span_digits s' in (String a w, r) else ("", s)
  | "" => ("", "")
  end.

(** ["HH:MM"] *)
Definition take_hhmm (s : string) : option (Z * Z * string) :=
  '(h, s) ← take_digits 2 s;
  '(_, s) ← take_char (Ascii.eqb ":") s;
  '(m, s) ← take_digits 2 s;
  Some (h, m, s).

(** The first six digits of a fraction, as microseconds. *)
Definition fraction_micros (w : string) : Z :=
  digits_to_Z (string_take 6 (w +:+ "000000")).

(** The shape of the extended format: date, clock, microseconds and an offset
    as sign, hours and minutes. *)
Record iso_fields : Type := mkIso {
  iso_date : Z * Z * Z; iso_clock : Z * Z * Z; iso_micros : Z; iso_offset : option (bool * Z * Z) }.

Definition parse_iso_offset (s : string) : option (option (bool * Z * Z)) :=
  match s with
  | "" => Some None
  | "Z" => Some (Some (true, 0, 0))
  | _ =>
      '(sign, s) ← take_char (λ a, Ascii.eqb a "+" || Ascii.eqb a "-") s;
      '(h, m, s) ← take_hhmm s;
      if is_empty s then Some (Some (Ascii.eqb sign "+", h, m)) else None
  end.

Definition parse_iso_fields (s : string) : option iso_fields :=
  '(y, s) ← take_digits 4 s;
  '(_, s) ← take_char (Ascii.eqb "-") s;
  '(mo, s) ← take_digits 2 s;
  '(_, s) ← take_char (Ascii.eqb "-") s;
  '(d, s) ← take_digits 2 s;
  '(_, s) ← take_char (λ a, Ascii.eqb a "T" || Ascii.eqb a " ") s;
  '(h, mi, s) ← take_hhmm s;
  '(_, s) ← take_char (Ascii.eqb ":") s;
  '(sec, s) ← take_digits 2 s;
  '(micros, s) ← match s with
                 | String "." s' =>
                     let '(w, r) := span_digits s' in
                     if is_empty w then None else Some (fraction_micros w, r)
                 | _ => Some (0, s)
                 end;
  off ← parse_iso_offset s;
  Some (mkIso (y, mo, d) (h, mi, sec) micros off).

Definition offset_micros (o : bool * Z * Z) : Z :=
  let '(positive, h, m) := o in (if positive then 1 else -1) * (h * 3600 + m * 60) * 1000000.

Definition valid_offset (o : option (bool * Z * Z)) : bool :=
  match o with None => true | Some (_, h, m) => (h <=? 23) && (m <=? 59) end.

Section parse.
Context (iso_other strptime_other : string → option datetime).

Definition some_or_value_error {A} (o : option A) (msg : string) : result A :=
  match o with Some a => Ok a | None => value_error msg end.

(** [datetime.fromisoformat(s)] *)
Definition fromisoformat (s : string) : result datetime :=
  match parse_iso_fields s with
  | None => some_or_value_error (iso_other s) "Invalid isoformat string"
  | Some (mkIso (y, mo, d) (h, mi, sec) micros off) =>
      if valid_date y mo d && valid_clock h mi sec && valid_offset off then
        Ok (mkDatetime (seconds_of y mo d h mi sec * 1000000 + micros) (offset_micros <$> off))
      else value_error "out of range"
  end.

Definition parse_compact (s : string) : option (Z * Z * Z * (Z * Z * Z)) :=
  '(y, s) ← take_digits 4 s;
  '(mo, s) ← take_digits 2 s;
  '(d, s) ← take_digits 2 s;
  '(_, s) ← take_char (Ascii.eqb "T") s;
  '(h, s) ← take_digits 2 s;
  '(mi, s) ← take_digits 2 s;
  '(sec, s) ← take_digits 2 s;
  if String.eqb s "Z" then Some (y, mo, d, (h, mi, sec)) else None.

(** [datetime.strptime(s, "%Y%m%dT%H%M%SZ")]: a naive datetime. *)
Definition strptime_compact (s : string) : result datetime :=
  match parse_compact s with
  | None => some_or_value_error (strptime_other s) "time data does not match format"
  | Some (y, mo, d, (h, mi, sec)) =>
      if valid_date y mo d && valid_clock h mi sec then
        Ok (mkDatetime (seconds_of y mo d h mi sec * 1000000) None)
      else value_error "out of range"
  end.
End parse.

Example fromisoformat_offset :
  fromisoformat (λ _, None) "2024-02-29T12:34:56.789+09:00"
  = Ok (mkDatetime (1709210096789000) (Some 32400000000)).
Proof. reflexivity. Qed.

Example strptime_example :
  strptime_compact (λ _, None) "20240229T123456Z" = Ok (mkDatetime 1709210096000000 None).
Proof. reflexivity. Qed.

Example strptime_bad : is_ok (strptime_compact (λ _, None) "20230229T123456Z") = false.
Proof. reflexivity. Qed.

(** ** Formatting *)

(** The civil date of a day counted from 1970-01-01: eras of 400 years that
    start on the first of March. *)
Definition civil_of_days (days : Z) : Z * Z * Z :=
  let z := days + 719468 in
  let era := z / 146097 in
  let doe := z - era * 146097 in
  let yoe := (doe - doe / 1460 + doe / 36524 - doe / 146096) / 365 in
  let doy := doe - (365 * yoe + yoe / 4 - yoe / 100) in
  let mp := (5 * doy + 2) / 153 in
  let day := doy - (153 * mp + 2) / 5 + 1 in
  let month := if mp <? 10 then mp + 3 else mp - 9 in
  (yoe + era * 400 + (if month <=? 2 then 1 else 0), month, day).

(** [n] in decimal, with zeros to [width]. *)
Definition pad (width : nat) (n : Z) : string :=
  let s := str_of_Z n in
  Nat.iter (width - String.length s) (String "0") s.

Definition date_str (sep : string) (wall : Z) : string :=
  let '(y, m, d) := civil_of_days (wall / 86400000000) in
  pad 4 y +:+ sep +:+ pad 2 m +:+ sep +:+ pad 2 d.

Definition clock_str (sep : string) (wall : Z) : string :=
  let s := (wall / 1000000) mod 86400 in
  pad 2 (s / 3600) +:+ sep +:+ pad 2 (s / 60 mod 60) +:+ sep +:+ pad 2 (s mod 60).

(** [value.isoformat()] *)
Definition isoformat (d : datetime) : string :=
  let micros := dt_wall d mod 1000000 in
  date_str "-" (dt_wall d) +:+ "T" +:+ clock_str ":" (dt_wall d)
  +:+ (if micros =? 0 then "" else "." +:+ pad 6 micros)
  +:+ match dt_offset d with
      | None => ""
      | Some off =>
          let a := Z.abs off in
          (if off <? 0 then "-" else "+") +:+ pad 2 (a / 3600000000) +:+ ":" +:+ pad 2 (a / 60000000 mod 60)
          +:+ (if (a mod 60000000) =? 0 then "" else ":" +:+ pad 2 (a / 1000000 mod 60)
               +:+ (if a mod 1000000 =? 0 then "" else "." +:+ pad 6 (a mod 1000000)))
      end.

(** [value.strftime("%Y%m%dT%H%M%SZ")] *)
Definition strftime_compact (d : datetime) : string :=
  date_str "" (dt_wall d) +:+ "T" +:+ clock_str "" (dt_wall d) +:+ "Z".

(** [date.fromisoformat(s)] as days from 1970-01-01: ["YYYY-MM-DD"] and
    ["YYYYMMDD"]; week dates are left to [week_date]. *)
Definition date_fromisoformat (week_date : string → option Z) (s : string) : result Z :=
  let parsed :=
    '(y, r) ← take_digits 4 s;
    let dashed := startswith "-" r in
    let r := if dashed : bool then string_drop 1 r else r in
    '(m, r) ← take_digits 2 r;
    '(_, r) ← (if dashed : bool then take_char (Ascii.eqb "-") r else Some ("-"%char, r));
    '(d, r) ← take_digits 2 r;
    if is_empty r then Some (y, m, d) else None in
  match parsed with
  | Some (y, m, d) => if valid_date y m d then Ok (days_from_civil y m d)
                      else value_error "date value out of range"
  | None => some_or_value_error (week_date s) ("Invalid isoformat string: " +:+ s)
  end.

(** [datetime.now(...).date()] as days from 1970-01-01. *)
Definition date_of (d : datetime) : Z := dt_wall d / 86400000000.

Example isoformat_leap :
  isoformat (mkDatetime (1709210096 * 1000000 + 250) (Some 0)) = "2024-02-29T12:34:56.000250+00:00".
Proof. reflexivity. Qed.

Example compact_new_year : strftime_compact (mkDatetime (-1000000) (Some 0)) = "19691231T235959Z".
Proof. reflexivity. Qed.

Example date_iso : date_fromisoformat (λ _, None) "2024-02-29" = Ok 19782.
Proof. reflexivity. Qed.
