(* ===== verification/PyJson.v ===== *)
(** JSON values as Python holds them after [json.loads].

    Objects are dicts in insertion order.  Python compares [True == 1] and
    [1 == 1.0], and a NaN differs from itself; [py_eq] is that equality.
    [is_int] is [isinstance(x, int)], which holds of booleans; [type_is_int] is
    [type(x) is int]. *)

From stdpp Require Import base list strings.
From Stdlib Require Import ZArith Lia Floats.
From S2P Require Import Prelude PyStr PyFloat.

#[local] Open Scope Z_scope.

Inductive jval : Type :=
  | JNull
  | JBool (b : bool)
  | JInt (n : Z)
  | JFloat (x : float)
  | JStr (s : string)
  | JList (l : list jval)
  | JObj (d : list (string * jval)).

(** The numeric value of a boolean or an integer. *)
Definition as_int (v : jval) : option Z :=
  match v with JBool true => Some 1 | JBool false => Some 0 | JInt n => Some n | _ => None end.

Fixpoint py_eq_fuel (fuel : nat) (a b : jval) : bool :=
  match fuel with
  | O => false
  | S fuel' =>
      match a, b with
      | JNull, JNull => true
      | JStr s, JStr t => String.eqb s t
      | JFloat x, JFloat y => (x =? y)%float
      | JFloat x, _ => match as_int b with Some n => float_is_Z x n | None => false end
      | _, JFloat y => match as_int a with Some n => float_is_Z y n | None => false end
      | JList l, JList m =>
          Nat.eqb (length l) (length m)
          && forallb (λ xy, py_eq_fuel fuel' xy.1 xy.2) (zip l m)
      | JObj d, JObj e =>
          Nat.eqb (length d) (length e)
          && forallb (λ kv, match dict_get e kv.1 with
                            | Some w => py_eq_fuel fuel' kv.2 w
                            | None => false
                            end) d
      | _, _ => match as_int a, as_int b with Some m, Some n => m =? n | _, _ => false end
      end
  end.

Fixpoint depth (v : jval) : nat :=
  match v with
  | JList l => S (fold_right (λ x n, Nat.max (depth x) n) 0%nat l)
  | JObj d => S (fold_right (λ kv n, Nat.max (depth kv.2) n) 0%nat d)
  | _ => 1%nat
  end.

(** [a == b]: each level of nesting takes one unit of fuel. *)
Definition py_eq (a b : jval) : bool := py_eq_fuel (depth a) a b.

Definition is_int (v : jval) : bool := match v with JBool _ | JInt _ => true | _ => false end.
Definition type_is_int (v : jval) : bool := match v with JInt _ => true | _ => false end.
Definition is_str (v : jval) : bool := match v with JStr _ => true | _ => false end.
Definition is_dict (v : jval) : bool := match v with JObj _ => true | _ => false end.
Definition is_list (v : jval) : bool := match v with JList _ => true | _ => false end.
Definition is_number (v : jval) : bool :=
  match v with JBool _ | JInt _ | JFloat _ => true | _ => false end.

(** [v is True] *)
Definition is_true (v : jval) : bool := match v with JBool true => true | _ => false end.

(** [bool(v)] *)
Definition j_truthy (v : jval) : bool :=
  match v with
  | JNull => false
  | JBool b => b
  | JInt n => negb (n =? 0)
  | JFloat x => negb (x =? 0)%float
  | JStr s => truthy s
  | JList l => match l with [] => false | _ => true end
  | JObj d => match d with [] => false | _ => true end
  end.

(** [v[key]] on a dict; subscripting anything else by a string is a [TypeError]. *)
Definition j_getitem (v : jval) (key : string) : result jval :=
  match v with
  | JObj d => match dict_get d key with Some w => Ok w | None => throw ExcKeyError key end
  | _ => throw ExcTypeError "not subscriptable by a string"
  end.

(** [v.get(key)] on a dict; other values have no [get]. *)
Definition j_get (v : jval) (key : string) : result jval :=
  match v with
  | JObj d => Ok (default JNull (dict_get d key))
  | _ => throw ExcAttributeError "get"
  end.

(** [v.get(key)] on a value already known to be a dict. *)
Definition obj_get (d : list (string * jval)) (key : string) : jval := default JNull (dict_get d key).

(** [set(v)] of a dict's keys compared with a list of names. *)
Definition same_keys (d : list (string * jval)) (names : list string) : bool :=
  forallb (λ k, bool_decide (k ∈ names)) (dict_keys d)
  && forallb (λ k, bool_decide (k ∈ dict_keys d)) names.

(** A value [json.dumps] writes so that [json.loads] reads the same value back:
    keys are distinct and floats finite. *)
Fixpoint json_plain (v : jval) : bool :=
  match v with
  | JFloat x => is_finite x
  | JList l => forallb json_plain l
  | JObj d => bool_decide (NoDup d.*1) && forallb (λ kv, json_plain kv.2) d
  | _ => true
  end.

(** Errors of using a value as something it is not. *)
Definition type_error {A} (msg : string) : result A := throw ExcTypeError msg.

(** A string argument. *)
Definition as_str (v : jval) : result string :=
  match v with JStr s => Ok s | _ => type_error "must be str" end.

(** The items of [for x in v]; iterating a dict gives its keys, a string its characters. *)
Definition j_items (v : jval) : result (list jval) :=
  match v with
  | JList l => Ok l
  | JObj d => Ok (JStr <$> dict_keys d)
  | JStr s => Ok ((λ c, JStr (String c "")) <$> String.list_ascii_of_string s)
  | _ => type_error "object is not iterable"
  end.

(** [name in v] *)
Definition j_contains (name : string) (v : jval) : result bool :=
  match v with
  | JList l => Ok (existsb (λ x, py_eq (JStr name) x) l)
  | JObj d => Ok (dict_has d name)
  | JStr s => Ok (contains name s)
  | _ => type_error "argument is not iterable"
  end.

(** [v.get(key, default)] *)
Definition j_get_or (v : jval) (key : string) (dflt : jval) : result jval :=
  match v with
  | JObj d => Ok (default dflt (dict_get d key))
  | _ => throw ExcAttributeError "get"
  end.

(** A value that can be a member of a set or a key of a dict. *)
Definition hashable (v : jval) : bool := match v with JList _ | JObj _ => false | _ => true end.

(** A plain value equals itself. *)
Lemma float_eqb_refl x : is_finite x = true → (x =? x)%float = true.
Proof. unfold is_finite, is_nan. by destruct (x =? x)%float. Qed.

Lemma py_eq_fuel_refl fuel : ∀ v, (depth v <= fuel)%nat → json_plain v = true → py_eq_fuel fuel v v = true.
Proof.
  induction fuel as [|fuel IH]; intros v Hd Hp; [destruct v; cbn in Hd; lia|].
  destruct v as [|[]|n|x|s|l|d]; cbn [py_eq_fuel as_int]; try done.
  - apply Z.eqb_refl.
  - by apply float_eqb_refl.
  - apply String.eqb_refl.
  - rewrite Nat.eqb_refl. cbn [andb json_plain depth] in *. induction l as [|x l IHl]; [done|].
    cbn [forallb zip fst snd fold_right] in *. apply andb_true_iff in Hp as [Hx Hp]. cbn. rewrite IH by (done || lia).
    apply IHl; [lia|done].
  - rewrite Nat.eqb_refl. cbn [andb json_plain depth] in *. apply andb_true_iff in Hp as [Hnd Hp]. apply bool_decide_eq_true in Hnd.
    assert (∀ k v, (k, v) ∈ d → dict_get d k = Some v) as Hg by (intros k v; by apply dict_elem_get).
    revert Hg. generalize d at 2 3. intros d0 Hg. clear Hnd. induction d as [|[k v] d IHd]; [done|].
    cbn [forallb fold_right fst snd] in *. apply andb_true_iff in Hp as [Hx Hp].
    rewrite (Hg k v) by left. rewrite IH by (done || lia). apply IHd; [lia|done|]. intros k' v' Hkv. apply Hg. by right.
Qed.

Lemma py_eq_refl v : json_plain v = true → py_eq v v = true.
Proof. by apply py_eq_fuel_refl. Qed.
