(* ===== verification/PyText.v ===== *)
(** Text helpers of the tools: [str.splitlines], [str(value)] of a JSON value,
    [int(text)], the order [sorted] gives floats, [<] on JSON values, CRC-32, and
    the characters of a text.

    [repr] of a float or a container, and [int] of a text with non-ASCII digits,
    are parameters. *)

From stdpp Require Import base list strings sorting.
From Stdlib Require Import ZArith Lia Ascii Floats.
From S2P Require Import Prelude PyStr PyStrFacts PyFloat PyJson.

#[local] Open Scope Z_scope.

(** ** Lines *)

(** Bytes of the line boundary a text starts with, 0 if there is none: \n, \v,
    \f, \r, \r\n, U+001C to U+001E, U+0085, U+2028 and U+2029. *)
Definition line_break (s : string) : nat :=
  let b0 := char_at 0 s in let b1 := char_at 1 s in let b2 := char_at 2 s in
  if is_empty s then 0%nat
  else if (b0 =? 13) && (b1 =? 10) then 2%nat
  else if ((10 <=? b0) && (b0 <=? 13)) || ((28 <=? b0) && (b0 <=? 30)) then 1%nat
  else if (b0 =? 194) && (b1 =? 133) then 2%nat
  else if (b0 =? 226) && (b1 =? 128) && ((b2 =? 168) || (b2 =? 169)) then 3%nat
  else 0%nat.

Definition cons_line (a : ascii) (l : list string) : list string :=
  match l with [] => [String a ""] | w :: ws => String a w :: ws end.

(** The lines of [s]; every step consumes a byte, so the length is enough fuel. *)
Fixpoint splitlines_fuel (fuel : nat) (s : string) : list string :=
  match fuel, s with
  | O, _ | _, "" => []
  | S fuel', String a s' =>
      match line_break s with
      | O => match s' with
             | "" => [String a ""]
             | _ => if Nat.eqb (line_break s') 0 then cons_line a (splitlines_fuel fuel' s')
                    else String a "" :: splitlines_fuel fuel' (string_drop (line_break s') s')
             end
      | n => "" :: splitlines_fuel fuel' (string_drop n s)
      end
  end.

(** [s.splitlines()] *)
Definition splitlines (s : string) : list string := splitlines_fuel (String.length s) s.

Example splitlines_unicode :
  splitlines ("a" +:+ String "226" (String "128" (String "168" "b")) +:+ String "010" "") = ["a"; "b"].
Proof. reflexivity. Qed.

Example splitlines_blank : splitlines (String "010" (String "010" "x")) = [""; ""; "x"].
Proof. reflexivity. Qed.

(** ** [str] *)

Definition py_str (py_repr : jval → string) (v : jval) : string :=
  match v with
  | JStr s => s
  | JInt n => str_of_Z n
  | JBool true => "True"
  | JBool false => "False"
  | JNull => "None"
  | _ => py_repr v
  end.

Lemma py_eq_str v s : py_eq v (JStr s) = true ↔ v = JStr s.
Proof.
  unfold py_eq. destruct v; cbn; try (split; [discriminate|intros [=]]).
  - destruct b; by split.
  - rewrite String.eqb_eq. naive_solver.
Qed.

(** ** [int] *)

(** Digits with single underscores between them. *)
Fixpoint int_digits (s : string) (after_digit : bool) : bool :=
  match s with
  | "" => after_digit
  | String c s' => if is_digit c then int_digits s' true
                   else (code c =? 95) && after_digit && int_digits s' false
  end.

Fixpoint drop_underscores (s : string) : string :=
  match s with
  | "" => ""
  | String c s' => if code c =? 95 then drop_underscores s' else String c (drop_underscores s')
  end.

(** [int(s)]: surrounding white space, a sign, digits; at most 4300 digits.  A
    text with a byte beyond ASCII is left to [int_other]. *)
Definition py_int (int_other : string → option Z) (s : string) : result Z :=
  let invalid := value_error ("invalid literal for int() with base 10: " +:+ s) in
  let body := strip s in
  if negb (forall_chars is_ascii body) then
    match int_other body with Some n => Ok n | None => invalid end
  else
    let '(sign, digits) := match body with
                           | String "-" d => (-1, d)
                           | String "+" d => (1, d)
                           | d => (1, d)
                           end in
    if negb (int_digits digits false) then invalid
    else let digits := drop_underscores digits in
    if Nat.ltb 4300 (String.length digits) then value_error "Exceeds the limit for integer string conversion"
    else Ok (sign * digits_to_Z digits).

Example py_int_plain : py_int (λ _, None) " 4_096 " = Ok 4096.
Proof. reflexivity. Qed.

Example py_int_underscore : is_ok (py_int (λ _, None) "4__0") = false.
Proof. reflexivity. Qed.

(** ** Sorted strings

    UTF-8 bytes are in the order of the code points they encode. *)
Definition str_le (a b : string) : Prop := String.leb a b = true.
#[export] Instance str_le_dec : RelDecision str_le.
Proof. intros a b. unfold str_le. apply _. Defined.

(** [sorted(l)] *)
Definition py_sorted (l : list string) : list string := merge_sort str_le l.

Lemma py_sorted_perm l : py_sorted l ≡ₚ l.
Proof. apply merge_sort_Permutation. Qed.

Lemma elem_of_py_sorted x l : x ∈ py_sorted l ↔ x ∈ l.
Proof. by rewrite py_sorted_perm. Qed.

Lemma py_sorted_nil l : py_sorted l = [] ↔ l = [].
Proof.
  split; [|by intros ->]. intros H. apply Permutation_nil_r. by rewrite <-H, py_sorted_perm.
Qed.

#[export] Instance str_le_trans : Transitive str_le.
Proof.
  intros a b c H1 H2. apply Is_true_true. transitivity b; by apply Is_true_true_2.
Qed.
#[export] Instance str_le_total : Total str_le.
Proof. intros a b. apply String.leb_total. Qed.

Lemma py_sorted_last l x : last (py_sorted l) = Some x → x ∈ l ∧ ∀ y, y ∈ l → str_le y x.
Proof.
  intros H. split; [by apply elem_of_py_sorted, last_Some_elem_of|].
  apply last_Some in H as (l' & Hl'). intros y. rewrite <-elem_of_py_sorted, Hl', elem_of_app.
  assert (Sorted str_le (l' ++ [x])) as Hs by (rewrite <-Hl'; apply (Sorted_merge_sort str_le)).
  apply Sorted_StronglySorted in Hs; [|apply _].
  intros [Hy| ->%list_elem_of_singleton].
  - apply (StronglySorted_app_1_elem_of str_le l' [x]); [done|done|left].
  - destruct (str_le_total x x); done.
Qed.

(** [len(set(l)) == len(l)]; [remove_dups l] stands for [set(l)]. *)
Lemma length_remove_dups_NoDup {A} `{EqDecision A} (l : list A) :
  length (remove_dups l) = length l ↔ NoDup l.
Proof.
  assert (remove_dups l ⊆+ l) as Hs.
  { apply NoDup_submseteq; [apply NoDup_remove_dups|]. intros x. by rewrite elem_of_remove_dups. }
  split; intros H.
  - rewrite <-(submseteq_length_Permutation _ _ Hs) by lia. apply NoDup_remove_dups.
  - apply Permutation_length, NoDup_Permutation; [apply NoDup_remove_dups|done|].
    intros x. apply elem_of_remove_dups.
Qed.

(** [re.fullmatch("[0-9a-f]{n}", s)] *)
Definition lower_hex (n : nat) (s : string) : bool :=
  forall_chars is_lower_hex s && Nat.eqb (String.length s) n.

(** Some white space somewhere in [s]. *)
Fixpoint has_space (s : string) : bool :=
  match s with "" => false | String _ s' => negb (Nat.eqb (space_head s) 0) || has_space s' end.

(** [s.split()]: the words between runs of white space; every step consumes a byte. *)
Fixpoint words_fuel (fuel : nat) (s : string) : list string :=
  match fuel, s with
  | O, _ | _, "" => []
  | S fuel', String a s' =>
      match space_head s with
      | O => if is_empty s' || negb (Nat.eqb (space_head s') 0) then String a "" :: words_fuel fuel' s'
             else cons_line a (words_fuel fuel' s')
      | n => words_fuel fuel' (string_drop n s)
      end
  end.
Definition words (s : string) : list string := words_fuel (String.length s) s.

Example words_blank : words "  443/tcp   ALLOW  Anywhere " = ["443/tcp"; "ALLOW"; "Anywhere"].
Proof. reflexivity. Qed.

(** [int(v)] of a JSON value. *)
Definition j_int (int_other : string → option Z) (v : jval) : result Z :=
  match v with
  | JStr s => py_int int_other s
  | JFloat x => trunc_float x
  | _ => match as_int v with Some n => Ok n | None => type_error "int() argument" end
  end.

(** [a <= b] where at least one side is a number or a string. *)
Definition j_le (a b : jval) : result bool :=
  match a, b with
  | JFloat x, JFloat y => Ok (x <=? y)%float
  | JFloat x, _ => match as_int b with Some n => Ok (float_le_Z x n) | None => type_error "'<=' not supported" end
  | _, JFloat y => match as_int a with Some n => Ok (Z_le_float n y) | None => type_error "'<=' not supported" end
  | JStr s, JStr t => Ok (String.leb s t)
  | _, _ => match as_int a, as_int b with
            | Some m, Some n => Ok (m <=? n)
            | _, _ => type_error "'<=' not supported"
            end
  end.

(** ** Sorted floats

    The order [<=] of floats that are not NaN is the lexicographic order of
    their sign, exponent and significand. *)

Definition float_key (x : float) : Z * Z * Z :=
  match Prim2SF x with
  | S754_zero _ => (0, 0, 0)
  | S754_infinity s => (if s then -2 else 2, 0, 0)
  | S754_finite s m e => if s then (-1, - e, Z.neg m) else (1, e, Z.pos m)
  | S754_nan => (3, 0, 0)
  end.

Definition key_le (a b : Z * Z * Z) : Prop :=
  let '(s, e, m) := a in let '(s', e', m') := b in s < s' ∨ s = s' ∧ (e < e' ∨ e = e' ∧ m <= m').
#[export] Instance key_le_dec : RelDecision key_le.
Proof. intros [[s e] m] [[s' e'] m']. unfold key_le. apply _. Defined.

Definition float_order (x y : float) : Prop := key_le (float_key x) (float_key y).
#[export] Instance float_order_dec : RelDecision float_order.
Proof. intros x y. unfold float_order. apply _. Defined.
#[export] Instance float_order_trans : Transitive float_order.
Proof.
  intros x y z. unfold float_order, key_le. destruct (float_key x) as [[??]?], (float_key y) as [[??]?], (float_key z) as [[??]?]. lia.
Qed.
#[export] Instance float_order_total : Total float_order.
Proof. intros x y. unfold float_order, key_le. destruct (float_key x) as [[??]?], (float_key y) as [[??]?]. lia. Qed.

Lemma is_nan_spec x : is_nan x = false → Prim2SF x ≠ S754_nan.
Proof. unfold is_nan. rewrite FloatAxioms.eqb_spec. intros H E. by rewrite E in H. Qed.

Lemma float_leb_order x y : is_nan x = false → is_nan y = false → float_order x y → (x <=? y)%float = true.
Proof.
  intros Hx%is_nan_spec Hy%is_nan_spec. rewrite FloatAxioms.leb_spec. unfold float_order, float_key, SFleb, SFcompare.
  destruct (Prim2SF x) as [[]|[]| |[] m e], (Prim2SF y) as [[]|[]| |[] m' e']; try done; cbn; try lia.
  all: change (Pos.compare_cont Eq m m') with (m ?= m')%positive.
  all: destruct (Z.compare_spec e e') as [->|?|?], (Pos.compare_spec m m'); cbn; intros; try done; lia.
Qed.

(** [sorted(l)]; where a NaN falls, and what it does to the order of the others,
    is left to [sort_nan]. *)
Definition sorted_floats (sort_nan : list float → list float) (l : list float) : list float :=
  if existsb is_nan l then sort_nan l else merge_sort float_order l.

(** The element at a rank has the smaller ones before it and the larger ones after. *)
Lemma sorted_floats_rank sort_nan l i x :
  existsb is_nan l = false → sorted_floats sort_nan l !! i = Some x →
  ∃ lower upper, l ≡ₚ lower ++ x :: upper ∧ length lower = i
    ∧ Forall (λ y, (y <=? x)%float = true) lower ∧ Forall (λ y, (x <=? y)%float = true) upper.
Proof.
  unfold sorted_floats. intros Hn Hx. rewrite Hn in Hx. apply existsb_false in Hn.
  pose proof (merge_sort_Permutation float_order l) as Hp. rewrite <-Hp in Hn.
  pose proof (StronglySorted_merge_sort float_order l) as Hs.
  exists (take i (merge_sort float_order l)), (drop (S i) (merge_sort float_order l)).
  rewrite <-(take_drop_middle _ _ _ Hx) in Hn, Hs, Hp. apply Forall_app in Hn as [Hl [Hxn Hu]%Forall_cons].
  split; [done|]. split; [rewrite length_take; apply lookup_lt_Some in Hx; lia|].
  apply StronglySorted_app in Hs as (Hlx & _ & [Hxu _]%StronglySorted_cons). split.
  - apply Forall_forall. intros y Hy. apply float_leb_order; [by eapply Forall_forall in Hl|done|]. apply Hlx; [done|left].
  - apply Forall_forall. intros y Hy. apply float_leb_order; [done|by eapply Forall_forall in Hu|]. by eapply Forall_forall in Hxu.
Qed.

(** ** Comparisons *)

(** [a < b] where at least one side is a number or a string. *)
Definition j_lt (a b : jval) : result bool :=
  let refused := type_error "'<' not supported" in
  match a, b with
  | JFloat x, JFloat y => Ok (x <? y)%float
  | JFloat x, _ => match as_int b with Some n => Ok (negb (is_nan x) && negb (Z_le_float n x)) | None => refused end
  | _, JFloat y => match as_int a with Some n => Ok (negb (is_nan y) && negb (float_le_Z y n)) | None => refused end
  | JStr s, JStr t => Ok (negb (String.leb t s))
  | _, _ => match as_int a, as_int b with
            | Some m, Some n => Ok (m <? n)
            | _, _ => refused
            end
  end.

(** ** CRC-32 *)

Definition crc_bit (c : Z) : Z := if Z.odd c then Z.lxor (Z.shiftr c 1) 0xEDB88320 else Z.shiftr c 1.
Definition crc_byte (c : Z) (b : Byte.byte) : Z := Nat.iter 8 crc_bit (Z.lxor c (byte_to_Z b)).

(** [zlib.crc32], [binascii.crc32] *)
Definition crc32 (l : list Byte.byte) : Z := Z.lxor (foldl crc_byte 0xFFFFFFFF l) 0xFFFFFFFF.

Example crc32_check : crc32 (utf8_encode "123456789") = 0xCBF43926.
Proof. vm_compute. reflexivity. Qed.

(** ** Characters

    A character is the UTF-8 text of one code point. *)
Definition char : Type := string.

Fixpoint chars_fuel (fuel : nat) (s : string) : list char :=
  match s, fuel with
  | "", _ | _, O => []
  | _, S fuel =>
      let n := Nat.max 1 (utf8_step (utf8_encode (string_take 4 s))) in
      string_take n s :: chars_fuel fuel (string_drop n s)
  end.

(** Every character has a byte, so the length is enough fuel. *)
Definition chars (s : string) : list char := chars_fuel (String.length s) s.

Definition text_of_chars (l : list char) : string := fold_right String.append "" l.

Lemma take_drop_string n : ∀ s, string_take n s +:+ string_drop n s = s.
Proof. induction n as [|n IH]; intros [|a s]; try done. exact (f_equal (String a) (IH s)). Qed.

Lemma length_drop_string n : ∀ s, (String.length (string_drop n s) <= String.length s - n)%nat.
Proof. induction n as [|n IH]; intros [|a s]; cbn; try lia. apply IH. Qed.

Lemma text_of_chars_fuel fuel : ∀ s, (String.length s <= fuel)%nat → text_of_chars (chars_fuel fuel s) = s.
Proof.
  induction fuel as [|fuel IH]; intros [|a s] Hs; try done; [cbn in Hs; lia|].
  cbn [chars_fuel]. set (n := Nat.max _ _). assert (1 <= n)%nat by lia. clearbody n.
  cbn [text_of_chars fold_right]. fold (text_of_chars (chars_fuel fuel (string_drop n (String a s)))).
  rewrite IH; [apply take_drop_string|]. pose proof (length_drop_string n (String a s)). cbn in *. lia.
Qed.

(** The characters of a string are the string. *)
Lemma text_of_chars_of s : text_of_chars (chars s) = s.
Proof. by apply text_of_chars_fuel. Qed.

Lemma text_of_chars_app l k : text_of_chars (l ++ k) = text_of_chars l +:+ text_of_chars k.
Proof. induction l as [|x l IH]; [done|]. change (x +:+ text_of_chars (l ++ k) = (x +:+ text_of_chars l) +:+ text_of_chars k).
  by rewrite IH, app_assoc_str.
Qed.

(** [v[i]] for a literal index. *)
Definition j_index (v : jval) (i : nat) : result jval :=
  match v with
  | JList l => match l !! i with Some x => Ok x | None => throw ExcIndexError "list index out of range" end
  | JStr s => match chars s !! i with Some x => Ok (JStr x) | None => throw ExcIndexError "string index out of range" end
  | JObj _ => throw ExcKeyError (str_of_Z (Z.of_nat i))
  | _ => type_error "not subscriptable"
  end.
