(* ===== verification/Host.v ===== *)
(** The machine the operations tools run on: POSIX paths as [pathlib] keeps
    them, files, and text read from them. *)

From stdpp Require Import base list strings.
From Stdlib Require Import ZArith Lia Ascii Strings.Byte.
From S2P Require Import Prelude PyStr.

#[local] Open Scope Z_scope.

(** ** Paths *)

(** A POSIX path: whether it is absolute, and its parts. *)
Record fs_path : Type := mkPath { p_absolute : bool; p_parts : list string }.

Definition parse_path (s : string) : fs_path :=
  mkPath (startswith "/" s) (filter (λ part, part ≠ "" ∧ part ≠ ".") (split_on "/" s)).

(** [path.parent / name] *)
Definition sibling (p : fs_path) (name : string) : fs_path :=
  mkPath (p_absolute p) (removelast (p_parts p) ++ [name]).

#[export] Instance fs_path_eq_dec : EqDecision fs_path.
Proof. solve_decision. Defined.

(** [path / name] *)
Definition path_div (p : fs_path) (name : string) : fs_path :=
  let q := parse_path name in
  if p_absolute q then q else mkPath (p_absolute p) (p_parts p ++ p_parts q).

(** [str(path)]; a path of two leading slashes, which POSIX leaves open, is read as one. *)
Definition path_str (p : fs_path) : string :=
  if p_absolute p then "/" +:+ join "/" (p_parts p)
  else match p_parts p with [] => "." | parts => join "/" parts end.

Definition path_name (p : fs_path) : string := default "" (last (p_parts p)).
Definition path_parent (p : fs_path) : fs_path := mkPath (p_absolute p) (removelast (p_parts p)).

(** The part of a file name from its last dot, if a character precedes and one follows it. *)
Definition path_suffix (p : fs_path) : string :=
  match reverse (split_on "." (path_name p)) with
  | ext :: (_ :: _) as stem => if is_empty ext || is_empty (join "." (reverse stem)) then "" else "." +:+ ext
  | _ => ""
  end.

Example path_suffix_json : path_suffix (parse_path "/etc/a.b.json") = ".json".
Proof. reflexivity. Qed.

Example path_suffix_single : path_suffix (parse_path "/etc/b.json") = ".json".
Proof. reflexivity. Qed.

Example path_suffix_hidden : path_suffix (parse_path "/etc/.json") = "".
Proof. reflexivity. Qed.

(** ** Files *)

Record file_info : Type := mkFileInfo {
  f_is_symlink : bool;
  f_is_file : bool;
  f_uid : Z;
  f_gid : Z;
  f_mode : Z;
  f_size : Z;
  f_bytes : result (list byte)
}.

(** The operating system the tool runs on. *)
Record host : Type := mkHost {
  os_posix : bool;
  os_euid : Z;
  os_groups : list Z;
  os_env : string → option string;
  os_file : fs_path → file_info
}.

(** Text mode reads every line ending as a line feed. *)
Fixpoint universal_newlines (s : string) : string :=
  match s with
  | "" => ""
  | String c s' =>
      if code c =? 13 then
        match s' with
        | String d s'' => if code d =? 10 then String d (universal_newlines s'')
                          else String "010" (universal_newlines s')
        | "" => String "010" ""
        end
      else String c (universal_newlines s')
  end.

(** The bytes of a text file as its text. *)
Definition text_of (bytes : list byte) : result string := universal_newlines <$> utf8_decode bytes.

(** [path.read_text(encoding="utf-8")] *)
Definition read_text (f : file_info) : result string := bytes ← f_bytes f; text_of bytes.

(** The files as a tool that only reads them sees them; each query may fail. *)
Record files : Type := mkFiles {
  fs_is_file : fs_path → result bool;
  fs_is_dir : fs_path → result bool;
  fs_size : fs_path → result Z;
  fs_mode : fs_path → result Z;
  fs_read : fs_path → result (list byte)
}.

Definition fs_text (fs : files) (p : fs_path) : result string := bytes ← fs_read fs p; text_of bytes.
