(* ===== verification/Effects.v ===== *)
(** Command-running tools: a monad of computations over the history of what the
    tool did.

    A tool acts on a machine it does not control.  Every interaction (a command
    run, a clock read, a pause, a request, a line printed, a file written or removed) is an
    [event] that records what came back; a computation maps the history so far
    to an outcome and the events it adds, and the answers are whatever function
    of the history the [world] is.  Loops that poll take fuel; [None] is the
    outcome of a loop whose fuel ran out.  [triple] is the Hoare logic of the
    monad, over histories. *)

From stdpp Require Import base list strings.
From Stdlib Require Import ZArith Lia Floats.
From S2P Require Import Prelude PyStr PyTime PyJson Host.

#[local] Open Scope Z_scope.

(** What an HTTP request gives: a response, an error status
    ([urllib.error.HTTPError]), no response ([URLError]), or another exception. *)
Inductive fetched : Type :=
  | Response (status : Z)
  | HttpStatusError (code : Z)
  | NoResponse
  | FetchRaised (e : exn).

(** The status the callers read off: 0 without a response. *)
Definition fetched_status (o : fetched) : result Z :=
  match o with
  | Response status | HttpStatusError status => Ok status
  | NoResponse => Ok 0
  | FetchRaised e => Raise e
  end.

Inductive event : Type :=
  | Ran (command : list string) (timeout : option Z) (outcome : result string)
  | Executed (command : list string) (outcome : result (Z * string))
  | Clocked (now : float)
  | Dated (now : datetime)
  | Slept (seconds : float)
  | Requested (url : string) (outcome : fetched)
  | Printed (line : jval)
  | Complained (line : jval)
  | Created (path : fs_path) (document : jval) (outcome : result ())
  | Copied (source target : fs_path) (outcome : result ())
  | Removed (path : fs_path).

Definition history : Type := list event.

(** The machine: how it answers after a history. *)
Record world : Type := mkWorld {
  w_run : history → list string → option Z → result string;
  w_exec : history → list string → result (Z * string);
  w_clock : history → float;
  w_date : history → datetime;
  w_fetch : history → string → fetched;
  w_create : history → fs_path → jval → result ();
  w_copy : history → fs_path → fs_path → result ()
}.

Definition eff (A : Type) : Type := history → option (result A) * history.

#[export] Instance eff_ret : MRet eff := λ A a _, (Some (Ok a), []).
#[export] Instance eff_bind : MBind eff := λ A B f m h,
  match m h with
  | (Some (Ok a), t) => let '(r, t') := f a (h ++ t) in (r, t ++ t')
  | (Some (Raise e), t) => (Some (Raise e), t)
  | (None, t) => (None, t)
  end.
#[export] Instance eff_fmap : FMap eff := λ A B f m, m ≫= λ a, mret (f a).

(** A computation without events. *)
Definition lift {A} (r : result A) : eff A := λ _, (Some r, []).
Definition raise {A} (c : exn_class) (msg : string) : eff A := lift (throw c msg).
Definition out_of_fuel {A} : eff A := λ _, (None, []).

(** [try: m except classes: handler] *)
Definition try_except {A} (m : eff A) (classes : list exn_class) (handler : string → eff A) : eff A := λ h,
  match m h with
  | (Some (Raise (PyErr c msg)), t) =>
      if existsb (subclass c) classes
      then let '(r, t') := handler msg (h ++ t) in (r, t ++ t')
      else (Some (Raise (PyErr c msg)), t)
  | r => r
  end.

(** [try: m except classes as error: handler] *)
Definition try_as {A} (m : eff A) (classes : list exn_class) (handler : exn → eff A) : eff A := λ h,
  match m h with
  | (Some (Raise (PyErr c msg)), t) =>
      if existsb (subclass c) classes
      then let '(r, t') := handler (PyErr c msg) (h ++ t) in (r, t ++ t')
      else (Some (Raise (PyErr c msg)), t)
  | r => r
  end.

(** [try: m finally: cleanup]: an exception of the cleanup replaces the outcome. *)
Definition try_finally {A} (m : eff A) (cleanup : eff ()) : eff A := λ h,
  match m h with
  | (Some r, t) =>
      match cleanup (h ++ t) with
      | (Some (Ok _), t') => (Some r, t ++ t')
      | (Some (Raise e), t') => (Some (Raise e), t ++ t')
      | (None, t') => (None, t ++ t')
      end
  | (None, t) => (None, t)
  end.

(** [for x in l: f(x)] *)
Fixpoint for_each {A} (f : A → eff ()) (l : list A) : eff () :=
  match l with [] => mret () | a :: l' => _ ← f a; for_each f l' end.

(** [[f(x) for x in l]] of computations on the machine. *)
Fixpoint map_eff {A B} (f : A → eff B) (l : list A) : eff (list B) :=
  match l with [] => mret [] | a :: l' => b ← f a; bs ← map_eff f l'; mret (b :: bs) end.

Section operations.
Context (w : world).

(** [subprocess.run(command, check=True, ..., timeout=timeout).stdout.strip()] *)
Definition run (command : list string) (timeout : option Z) : eff string := λ h,
  let outcome := w_run w h command timeout in (Some outcome, [Ran command timeout outcome]).

(** [subprocess.run(command, check=False, ...)]: the exit status and the output. *)
Definition execute (command : list string) : eff (Z * string) := λ h,
  let outcome := w_exec w h command in (Some outcome, [Executed command outcome]).

(** [time.monotonic()] *)
Definition monotonic : eff float := λ h, let now := w_clock w h in (Some (Ok now), [Clocked now]).

(** [datetime.now(timezone.utc)] *)
Definition utcnow : eff datetime := λ h, let now := w_date w h in (Some (Ok now), [Dated now]).

Definition sleep (seconds : float) : eff () := λ _, (Some (Ok ()), [Slept seconds]).

Definition fetch (url : string) : eff fetched := λ h,
  let outcome := w_fetch w h url in (Some (Ok outcome), [Requested url outcome]).

(** A line on standard output, or on standard error. *)
Definition print (line : jval) : eff () := λ _, (Some (Ok ()), [Printed line]).
Definition complain (line : jval) : eff () := λ _, (Some (Ok ()), [Complained line]).

(** [with path.open("x") as stream: json.dump(document, stream)] *)
Definition create (path : fs_path) (document : jval) : eff () := λ h,
  let outcome := w_create w h path document in (Some outcome, [Created path document outcome]).

(** A copy into a file that must not exist. *)
Definition copy_new (source target : fs_path) : eff () := λ h,
  let outcome := w_copy w h source target in (Some outcome, [Copied source target outcome]).

(** [path.unlink(missing_ok=True)] *)
Definition remove (path : fs_path) : eff () := λ _, (Some (Ok ()), [Removed path]).
End operations.

(** ** Equations *)

Lemma eff_bind_cases {A B} (m : eff A) (f : A → eff B) h r t :
  (m ≫= f) h = (r, t) →
  (m h = (None, t) ∧ r = None)
  ∨ (∃ e, m h = (Some (Raise e), t) ∧ r = Some (Raise e))
  ∨ (∃ a t1 t2, m h = (Some (Ok a), t1) ∧ f a (h ++ t1) = (r, t2) ∧ t = t1 ++ t2).
Proof.
  unfold mbind, eff_bind. destruct (m h) as [[[a|e]|] t1].
  - destruct (f a (h ++ t1)) as [r2 t2] eqn:E. intros [= <- <-]. right; right. by exists a, t1, t2.
  - intros [= <- <-]. right; left. by exists e.
  - intros [= <- <-]. by left.
Qed.

Lemma eff_bind_lift {A B} (r : result A) (f : A → eff B) h :
  (lift r ≫= f) h = match r with Ok a => f a h | Raise e => (Some (Raise e), []) end.
Proof.
  unfold mbind, eff_bind, lift. destruct r as [a|e]; [|done]. rewrite app_nil_r. by destruct (f a h).
Qed.

Lemma eff_bind_Ok {A B} (m : eff A) (f : A → eff B) h b t :
  (m ≫= f) h = (Some (Ok b), t) →
  ∃ a t1 t2, m h = (Some (Ok a), t1) ∧ f a (h ++ t1) = (Some (Ok b), t2) ∧ t = t1 ++ t2.
Proof.
  intros H. apply eff_bind_cases in H as [[_ [=]]|[(e & _ & [=])|H]]; exact H.
Qed.

Lemma lift_Ok {A} (r : result A) h a t : lift r h = (Some (Ok a), t) → r = Ok a ∧ t = [].
Proof. by intros [= -> <-]. Qed.

Lemma mret_Ok {A} (x a : A) h t : (mret x : eff A) h = (Some (Ok a), t) → x = a ∧ t = [].
Proof. by intros [= -> <-]. Qed.

Lemma run_Ok w c timeout h s t :
  run w c timeout h = (Some (Ok s), t) → t = [Ran c timeout (Ok s)].
Proof. unfold run. destruct (w_run w h c timeout); by intros [= -> <-]. Qed.

Lemma execute_Ok w c h r t : execute w c h = (Some (Ok r), t) → t = [Executed c (Ok r)].
Proof. unfold execute. destruct (w_exec w h c); by intros [= -> <-]. Qed.

Lemma create_Ok w p d h u t : create w p d h = (Some (Ok u), t) → t = [Created p d (Ok ())].
Proof. unfold create. destruct (w_create w h p d) as [[]|]; by intros [= <- <-]. Qed.

Lemma copy_new_Ok w p q h u t : copy_new w p q h = (Some (Ok u), t) → t = [Copied p q (Ok ())].
Proof. unfold copy_new. destruct (w_copy w h p q) as [[]|]; by intros [= <- <-]. Qed.

Lemma fetch_Ok w u h o t : fetch w u h = (Some (Ok o), t) → t = [Requested u o].
Proof. by intros [= <- <-]. Qed.

Lemma utcnow_Ok w h d t : utcnow w h = (Some (Ok d), t) → t = [Dated d].
Proof. by intros [= <- <-]. Qed.

Lemma try_finally_Ok {A} (m : eff A) cleanup h a t :
  try_finally m cleanup h = (Some (Ok a), t) →
  ∃ t1 t2, m h = (Some (Ok a), t1) ∧ cleanup (h ++ t1) = (Some (Ok ()), t2) ∧ t = t1 ++ t2.
Proof.
  unfold try_finally. destruct (m h) as [[r|] t1]; [|discriminate].
  destruct (cleanup (h ++ t1)) as [[[[]|]|] t2] eqn:E; intros [= -> <-]. by exists t1, t2.
Qed.

Lemma try_as_Ok {A} (m : eff A) classes handler h a t :
  try_as m classes handler h = (Some (Ok a), t) →
  m h = (Some (Ok a), t)
  ∨ ∃ e t1 t2, m h = (Some (Raise e), t1) ∧ handler e (h ++ t1) = (Some (Ok a), t2) ∧ t = t1 ++ t2.
Proof.
  unfold try_as. destruct (m h) as [[[b|[c msg|s d hd]]|] t1]; try discriminate; [by left|].
  destruct (existsb _ _); [|discriminate]. destruct (handler _ _) as [r t2] eqn:E. intros [= -> <-].
  right. by exists (PyErr c msg), t1, t2.
Qed.

Lemma map_eff_Ok {A B} (f : A → eff B) l h bs t :
  map_eff f l h = (Some (Ok bs), t) →
  Forall2 (λ a b, ∃ h' t', f a h' = (Some (Ok b), t') ∧ ∀ e, e ∈ t' → e ∈ t) l bs.
Proof.
  revert h bs t. induction l as [|a l IH]; intros h bs t; cbn [map_eff].
  { intros [<- _]%mret_Ok. constructor. }
  intros (b & t1 & t2 & Hb & H & ->)%eff_bind_Ok. apply eff_bind_Ok in H as (bs' & t3 & t4 & Hbs & H & ->).
  apply mret_Ok in H as [<- ->]. constructor.
  - exists h, t1. split; [done|]. intros e He. apply elem_of_app. by left.
  - eapply Forall2_impl; [by eapply IH|]. cbn. intros a' b' (h' & t' & Hf & Hin). exists h', t'. split; [done|].
    intros e He. rewrite app_nil_r, elem_of_app. right. by apply Hin.
Qed.

(** What a computation did first stays first in what follows. *)
Lemma eff_bind_events {A B} (m : eff A) (f : A → eff B) h : ∃ u, ((m ≫= f) h).2 = (m h).2 ++ u.
Proof.
  unfold mbind, eff_bind. destruct (m h) as [[[a|e]|] t]; cbn; [|exists []; by rewrite app_nil_r..].
  destruct (f a (h ++ t)) as [r t']. by exists t'.
Qed.

Lemma try_finally_events {A} (m : eff A) cleanup h : ∃ u, (try_finally m cleanup h).2 = (m h).2 ++ u.
Proof.
  unfold try_finally. destruct (m h) as [[r|] t]; cbn; [|exists []; by rewrite app_nil_r].
  destruct (cleanup (h ++ t)) as [[[[]|]|] t']; by exists t'.
Qed.

(** Split a run that returned into its parts. *)
Ltac eff_ok_in H :=
  lazymatch type of H with
  | (_ ≫= _) _ = (Some (Ok _), _) =>
      let a := fresh "x" in let t1 := fresh "t" in let t2 := fresh "t" in
      let H1 := fresh "Hx" in let Ht := fresh "Ht" in
      apply eff_bind_Ok in H as (a & t1 & t2 & H1 & H & Ht); cbn beta iota in H; eff_ok_in H1; eff_ok_in H
  | (let '(_, _) := ?x in _) _ = (Some (Ok _), _) => destruct x; eff_ok_in H
  | (match ?x with (_, _) => _ end) _ = (Some (Ok _), _) => destruct x; eff_ok_in H
  | (if ?b then _ else _) _ = (Some (Ok _), _) =>
      let E := fresh "E" in destruct b eqn:E; try discriminate H; eff_ok_in H
  | lift _ _ = (Some (Ok _), _) => apply lift_Ok in H as [H ?]
  | mret _ _ = (Some (Ok _), _) => apply mret_Ok in H as [H ?]
  | run _ _ _ _ = (Some (Ok _), _) => apply run_Ok in H
  | execute _ _ _ = (Some (Ok _), _) => apply execute_Ok in H
  | create _ _ _ _ = (Some (Ok _), _) => apply create_Ok in H
  | copy_new _ _ _ _ = (Some (Ok _), _) => apply copy_new_Ok in H
  | fetch _ _ _ = (Some (Ok _), _) => apply fetch_Ok in H
  | utcnow _ _ = (Some (Ok _), _) => apply utcnow_Ok in H
  | _ => idtac
  end.

(** ** Hoare logic over histories

    [triple P m Q X]: from a history of [P], the history [m] leaves behind is of
    [Q a] if [m] returns [a], and of [X] if it raises or runs out of fuel. *)

Definition triple {A} (P : history → Prop) (m : eff A) (Q : A → history → Prop)
    (X : option exn → history → Prop) : Prop :=
  ∀ h, P h → let '(r, t) := m h in
    match r with
    | Some (Ok a) => Q a (h ++ t)
    | Some (Raise e) => X (Some e) (h ++ t)
    | None => X None (h ++ t)
    end.

Section triples.
Implicit Types (P : history → Prop) (X : option exn → history → Prop).

Lemma triple_run_inv {A} P (m : eff A) Q X h r t : triple P m Q X → P h → m h = (r, t) →
  match r with
  | Some (Ok a) => Q a (h ++ t) | Some (Raise e) => X (Some e) (h ++ t) | None => X None (h ++ t)
  end.
Proof. intros H HP E. specialize (H h HP). by rewrite E in H. Qed.

Lemma triple_ret {A} P (a : A) Q X : (∀ h, P h → Q a h) → triple P (mret a) Q X.
Proof. intros H h HP. cbn. rewrite app_nil_r. auto. Qed.

Lemma triple_lift {A} P (r : result A) Q X :
  (∀ a h, r = Ok a → P h → Q a h) → (∀ e h, r = Raise e → P h → X (Some e) h) → triple P (lift r) Q X.
Proof. intros HQ HX h HP. unfold lift. destruct r; cbn; rewrite app_nil_r; auto. Qed.

Lemma triple_fuel {A} P Q X : (∀ h, P h → X None h) → triple P (@out_of_fuel A) Q X.
Proof. intros HX h HP. cbn. rewrite app_nil_r. auto. Qed.

Lemma triple_bind {A B} P (m : eff A) (f : A → eff B) R Q X :
  triple P m R X → (∀ a, triple (R a) (f a) Q X) → triple P (m ≫= f) Q X.
Proof.
  intros Hm Hf h HP. unfold mbind, eff_bind. specialize (Hm h HP).
  destruct (m h) as [[[a|e]|] t]; [|done|done].
  specialize (Hf a (h ++ t) Hm). destruct (f a (h ++ t)) as [r t'].
  by rewrite <-app_assoc in Hf.
Qed.

Lemma triple_conseq {A} P P' (m : eff A) Q Q' X X' :
  triple P' m Q' X' → (∀ h, P h → P' h) → (∀ a h, Q' a h → Q a h) → (∀ e h, X' e h → X e h) → triple P m Q X.
Proof.
  intros H HP HQ HX h Hh. specialize (H h (HP h Hh)). destruct (m h) as [[[a|e]|] t]; auto.
Qed.

Lemma triple_try {A} P (m : eff A) classes handler Q X X' :
  triple P m Q X' → (∀ msg, triple (λ h, ∃ c, X' (Some (PyErr c msg)) h) (handler msg) Q X) →
  (∀ e h, X' e h → X e h) → triple P (try_except m classes handler) Q X.
Proof.
  intros Hm Hh HX h HP. unfold try_except. specialize (Hm h HP).
  destruct (m h) as [[[a|[c msg|s d hd]]|] t]; [done| |by apply HX..].
  destruct (existsb _ _); [|by apply HX].
  specialize (Hh msg (h ++ t) (ex_intro _ c Hm)). destruct (handler msg (h ++ t)) as [r t'].
  by rewrite <-app_assoc in Hh.
Qed.

Lemma triple_for_each {A} (I : list A → history → Prop) f l X :
  (∀ before a rest, l = before ++ a :: rest → triple (I before) (f a) (λ _, I (before ++ [a])) X) →
  triple (I []) (for_each f l) (λ _, I l) X.
Proof.
  intros Hf. change (λ _ : (), I l) with (λ _ : (), I ([] ++ l)).
  assert (∀ rest before, l = before ++ rest →
    triple (I before) (for_each f rest) (λ _, I (before ++ rest)) X) as H; [|by apply H].
  induction rest as [|b rest IH]; intros before Hl; cbn.
  - apply triple_ret. intros h. by rewrite app_nil_r.
  - eapply triple_bind; [by eapply Hf|]. intros u. cbn beta.
    specialize (IH (before ++ [b])). rewrite <-app_assoc in IH. by apply IH.
Qed.

(** An operation that adds one event. *)
Lemma triple_run w c timeout P Q X :
  (∀ h s, P h → Q s (h ++ [Ran c timeout (Ok s)])) →
  (∀ h e, P h → X (Some e) (h ++ [Ran c timeout (Raise e)])) →
  triple P (run w c timeout) Q X.
Proof. intros HQ HX h HP. unfold run. destruct (w_run w h c timeout); auto. Qed.

Lemma triple_monotonic w P Q X :
  (∀ h, P h → Q (w_clock w h) (h ++ [Clocked (w_clock w h)])) → triple P (monotonic w) Q X.
Proof. intros HQ h HP. cbn. auto. Qed.

Lemma triple_utcnow w P Q X : (∀ h now, P h → Q now (h ++ [Dated now])) → triple P (utcnow w) Q X.
Proof. intros HQ h HP. cbn. auto. Qed.

Lemma triple_sleep s P Q X : (∀ h, P h → Q () (h ++ [Slept s])) → triple P (sleep s) Q X.
Proof. intros HQ h HP. cbn. auto. Qed.

Lemma triple_fetch w u P Q X : (∀ h o, P h → Q o (h ++ [Requested u o])) → triple P (fetch w u) Q X.
Proof. intros HQ h HP. cbn. auto. Qed.

Lemma triple_print l P Q X : (∀ h, P h → Q () (h ++ [Printed l])) → triple P (print l) Q X.
Proof. intros HQ h HP. cbn. auto. Qed.

Lemma triple_complain l P Q X : (∀ h, P h → Q () (h ++ [Complained l])) → triple P (complain l) Q X.
Proof. intros HQ h HP. cbn. auto. Qed.

Lemma triple_create w p d P Q X :
  (∀ h, P h → Q () (h ++ [Created p d (Ok ())])) →
  (∀ h e, P h → X (Some e) (h ++ [Created p d (Raise e)])) → triple P (create w p d) Q X.
Proof. intros HQ HX h HP. unfold create. destruct (w_create w h p d) as [[]|]; auto. Qed.
End triples.

(** ** Events a computation may add

    [emits P m]: every event [m] adds is of [P]. *)

Definition emits {A} (P : event → Prop) (m : eff A) : Prop := ∀ h, Forall P (m h).2.

Lemma emits_inv {A} P (m : eff A) h r t : emits P m → m h = (r, t) → Forall P t.
Proof. intros H E. specialize (H h). by rewrite E in H. Qed.

Section emits.
Context (P : event → Prop).

Lemma emits_ret {A} (a : A) : emits P (mret a).
Proof. intros h. constructor. Qed.

Lemma emits_lift {A} (r : result A) : emits P (lift r).
Proof. intros h. constructor. Qed.

Lemma emits_fuel {A} : emits P (@out_of_fuel A).
Proof. intros h. constructor. Qed.

Lemma emits_bind {A B} (m : eff A) (f : A → eff B) :
  emits P m → (∀ a, emits P (f a)) → emits P (m ≫= f).
Proof.
  intros Hm Hf h. unfold mbind, eff_bind. specialize (Hm h).
  destruct (m h) as [[[a|e]|] t]; [|done|done].
  specialize (Hf a (h ++ t)). destruct (f a (h ++ t)). by apply Forall_app.
Qed.

Lemma emits_try {A} (m : eff A) classes handler :
  emits P m → (∀ msg, emits P (handler msg)) → emits P (try_except m classes handler).
Proof.
  intros Hm Hh h. unfold try_except. specialize (Hm h).
  destruct (m h) as [[[a|[c msg|s d hd]]|] t]; [done| |done..].
  destruct (existsb _ _); [|done].
  specialize (Hh msg (h ++ t)). destruct (handler msg (h ++ t)). by apply Forall_app.
Qed.

Lemma emits_try_as {A} (m : eff A) classes handler :
  emits P m → (∀ e, emits P (handler e)) → emits P (try_as m classes handler).
Proof.
  intros Hm Hh h. unfold try_as. specialize (Hm h).
  destruct (m h) as [[[a|[c msg|s d hd]]|] t]; [done| |done..].
  destruct (existsb _ _); [|done].
  specialize (Hh (PyErr c msg) (h ++ t)). destruct (handler _ (h ++ t)). by apply Forall_app.
Qed.

Lemma emits_finally {A} (m : eff A) cleanup :
  emits P m → emits P cleanup → emits P (try_finally m cleanup).
Proof.
  intros Hm Hc h. unfold try_finally. specialize (Hm h).
  destruct (m h) as [[r|] t]; [|done]. specialize (Hc (h ++ t)).
  destruct (cleanup (h ++ t)) as [[[[]|]|] t']; by apply Forall_app.
Qed.

Lemma emits_for_each {A} (f : A → eff ()) l : (∀ a, a ∈ l → emits P (f a)) → emits P (for_each f l).
Proof.
  induction l as [|a l IH]; intros H; cbn; [apply emits_ret|].
  apply emits_bind; [apply H; left|]. intros _. apply IH. intros. apply H. by right.
Qed.

Lemma emits_one {A} (m : eff A) : (∀ h, ∃ e, (m h).2 = [e] ∧ P e) → emits P m.
Proof. intros H h. destruct (H h) as (e & -> & He). by repeat constructor. Qed.

Lemma emits_run w c timeout : (∀ o, P (Ran c timeout o)) → emits P (run w c timeout).
Proof. intros H. apply emits_one. intros h. eexists. split; [done|apply H]. Qed.
Lemma emits_execute w c : (∀ o, P (Executed c o)) → emits P (execute w c).
Proof. intros H. apply emits_one. intros h. eexists. split; [done|apply H]. Qed.
Lemma emits_monotonic w : (∀ now, P (Clocked now)) → emits P (monotonic w).
Proof. intros H. apply emits_one. intros h. eexists. split; [done|apply H]. Qed.
Lemma emits_utcnow w : (∀ now, P (Dated now)) → emits P (utcnow w).
Proof. intros H. apply emits_one. intros h. eexists. split; [done|apply H]. Qed.
Lemma emits_sleep s : P (Slept s) → emits P (sleep s).
Proof. intros H. apply emits_one. intros h. by eexists. Qed.
Lemma emits_fetch w u : (∀ o, P (Requested u o)) → emits P (fetch w u).
Proof. intros H. apply emits_one. intros h. eexists. split; [done|apply H]. Qed.
Lemma emits_print l : P (Printed l) → emits P (print l).
Proof. intros H. apply emits_one. intros h. by eexists. Qed.
Lemma emits_complain l : P (Complained l) → emits P (complain l).
Proof. intros H. apply emits_one. intros h. by eexists. Qed.
Lemma emits_create w p d : (∀ o, P (Created p d o)) → emits P (create w p d).
Proof. intros H. apply emits_one. intros h. eexists. split; [done|apply H]. Qed.
End emits.

(** An event that the first part never adds comes from the rest, after the first part returned. *)
Lemma eff_bind_reached {A B} (P : event → Prop) (m : eff A) (f : A → eff B) h r t e :
  (m ≫= f) h = (r, t) → emits P m → e ∈ t → ¬ P e →
  ∃ a t1 t2, m h = (Some (Ok a), t1) ∧ f a (h ++ t1) = (r, t2) ∧ t = t1 ++ t2 ∧ e ∈ t2.
Proof.
  intros H Hm He HP. pose proof (Hm h) as Hall. rewrite Forall_forall in Hall.
  apply eff_bind_cases in H as [[E ->]|[(x & E & ->)|(a & t1 & t2 & E & E2 & ->)]]; rewrite E in Hall; cbn in Hall.
  - destruct HP. apply Hall, He.
  - destruct HP. apply Hall, He.
  - exists a, t1, t2. split_and!; try done. apply elem_of_app in He as [He|He]; [|done].
    destruct HP. by apply Hall.
Qed.

(** Walk through a computation down to the commands it runs. *)
Ltac emits_step :=
  match goal with
  | |- emits _ (mret _) => apply emits_ret
  | |- emits _ (lift _) => apply emits_lift
  | |- emits _ (raise _ _) => apply emits_lift
  | |- emits _ out_of_fuel => apply emits_fuel
  | |- emits _ (_ ≫= _) => apply emits_bind; [|intros ?]
  | |- emits _ (try_except _ _ _) => apply emits_try; [|intros ?]
  | |- emits _ (try_finally _ _) => apply emits_finally
  | |- emits _ (monotonic _) => by apply emits_monotonic
  | |- emits _ (utcnow _) => by apply emits_utcnow
  | |- emits _ (sleep _) => by apply emits_sleep
  | |- emits _ (fetch _ _) => by apply emits_fetch
  | |- emits _ (print _) => by apply emits_print
  | |- emits _ (complain _) => by apply emits_complain
  | |- emits _ (create _ _ _) => by apply emits_create
  | |- emits _ (if _ then _ else _) => case_if
  end.
Ltac emits_steps := repeat emits_step.

(** Events that are of interest to a caller: the commands run. *)
Definition command_of (e : event) : option (list string) :=
  match e with Ran c _ _ => Some c | _ => None end.
Definition commands (t : history) : list (list string) := omap command_of t.

Lemma commands_app t u : commands (t ++ u) = commands t ++ commands u.
Proof. apply omap_app. Qed.

(** The one event outside [P] of a history is found at one place. *)
Lemma split_unique (P : event → Prop) a b t1 t2 e0 e :
  Forall P a → Forall P b → a ++ e0 :: b = t1 ++ e :: t2 → ¬ P e → t1 = a ∧ e = e0 ∧ t2 = b.
Proof.
  intros Ha Hb. revert t1. induction Ha as [|x a Hx Ha IH]; intros t1 E He.
  - destruct t1 as [|y t1]; injection E as E1 E2; [by subst|].
    subst b. apply Forall_app in Hb as [_ [Hb _]%Forall_cons]. done.
  - destruct t1 as [|y t1]; injection E as E1 E2; [by subst|].
    subst y. by destruct (IH t1 E2 He) as (-> & -> & ->).
Qed.
