(* ===== verification/Url.v ===== *)
(** [urllib.parse.urlsplit] as the sources use it (Python 3.12).

    The input is stripped of leading C0 controls and spaces, tabs and newlines
    are removed, the scheme is the ASCII text before the first colon when its
    characters allow it, and the network location runs from [//] to the first
    of [/ ? #].  Two checks of the standard library are parameters: that of a
    bracketed (IPv6) host, which parses the address, and the NFKC check of a
    network location with non-ASCII characters. *)

From stdpp Require Import base list strings.
From Stdlib Require Import ZArith Lia Ascii.
From S2P Require Import Prelude PyStr.

#[local] Open Scope Z_scope.

Record SplitResult : Type := mkSplit {
  url_scheme : string;
  url_netloc : string;
  url_path : string;
  url_query : string;
  url_fragment : string
}.

(** [s.partition(c)]: before, found, after. *)
Definition partition (c : ascii) (s : string) : string * bool * string :=
  match split_once c s with (w, Some r) => (w, true, r) | (w, None) => (w, false, "") end.

(** [s.rpartition(c)[2]] *)
Definition after_last (c : ascii) (s : string) : string :=
  string_rev (split_once c (string_rev s)).1.

Definition remove_chars (P : ascii → bool) : string → string :=
  fix go s := match s with
  | "" => ""
  | String a s' => if P a then go s' else String a (go s')
  end.

Fixpoint lstrip_if (P : ascii → bool) (s : string) : string :=
  match s with String a s' => if P a then lstrip_if P s' else s | "" => "" end.

(** [(s[:i], s[i:])] for the first [i] whose character satisfies [P]. *)
Fixpoint break_at (P : ascii → bool) (s : string) : string * string :=
  match s with
  | "" => ("", "")
  | String a s' => if P a then ("", s) else let '(w, r) := break_at P s' in (String a w, r)
  end.

Definition is_c0_or_space (a : ascii) : bool := code a <=? 32.
Definition is_unsafe (a : ascii) : bool := (code a =? 9) || (code a =? 10) || (code a =? 13).
Definition is_scheme_char (a : ascii) : bool :=
  is_alnum a || Ascii.eqb a "+" || Ascii.eqb a "-" || Ascii.eqb a ".".
Definition is_netloc_end (a : ascii) : bool :=
  Ascii.eqb a "/" || Ascii.eqb a "?" || Ascii.eqb a "#".

Definition first_is_alpha (s : string) : bool :=
  match s with String a _ => is_alpha a | "" => false end.

Definition split_scheme (url : string) : string * string :=
  match split_once ":" url with
  | (w, Some r) =>
      if first_is_alpha w && forall_chars is_scheme_char w then (map_chars lower_ascii w, r)
      else ("", url)
  | _ => ("", url)
  end.

Section urlsplit.
Context (bracketed_netloc_ok nfkc_ok : string → bool).

Definition check_netloc (netloc : string) : result () :=
  let opening := has_char "[" netloc in
  let closing := has_char "]" netloc in
  if xorb opening closing then value_error "Invalid IPv6 URL"
  else if opening && negb (bracketed_netloc_ok netloc) then
    value_error "Invalid IPv6 URL"
  else if forall_chars is_ascii netloc || nfkc_ok netloc then Ok ()
  else value_error "netloc contains invalid characters under NFKC normalization".

(** [urlsplit(url)] *)
Definition urlsplit (url : string) : result SplitResult :=
  let url := remove_chars is_unsafe (lstrip_if is_c0_or_space url) in
  let '(scheme, url) := split_scheme url in
  let '(netloc, url) := if startswith "//" url then break_at is_netloc_end (string_drop 2 url)
                        else ("", url) in
  let '(url, _, fragment) := partition "#" url in
  let '(url, _, query) := partition "?" url in
  _ ← check_netloc netloc;
  Ok (mkSplit scheme netloc url query fragment).

(** [parsed._hostinfo]: host and port text. *)
Definition hostinfo (netloc : string) : string * string :=
  let info := after_last "@" netloc in
  let '(_, open_br, bracketed) := partition "[" info in
  if open_br then
    let '(host, _, rest) := partition "]" bracketed in (host, (partition ":" rest).2)
  else let '(host, _, port) := partition ":" info in (host, port).

(** [parsed.hostname]; an empty host is [None]. *)
Definition hostname (unicode_lower : string → string) (p : SplitResult) : option string :=
  let host := (hostinfo (url_netloc p)).1 in
  if is_empty host then None else
  let '(h, pct, zone) := partition "%" host in
  Some (lower unicode_lower h +:+ (if pct then "%" else "") +:+ zone).

(** [parsed.port] *)
Definition url_port (p : SplitResult) : result (option Z) :=
  let port := (hostinfo (url_netloc p)).2 in
  if is_empty port then Ok None
  else if forall_chars is_digit port then
    let n := digits_to_Z port in
    if n <=? 65535 then Ok (Some n) else value_error "Port out of range 0-65535"
  else value_error "Port could not be cast to integer value".

(** [parsed.username] and [parsed.password] *)
Definition userinfo (p : SplitResult) : option string * option string :=
  if has_char "@" (url_netloc p) then
    let info := string_rev (string_drop 1 (string_drop (String.length (after_last "@" (url_netloc p)))
                  (string_rev (url_netloc p)))) in
    let '(user, have_password, password) := partition ":" info in
    (Some user, if have_password then Some password else None)
  else (None, None).
End urlsplit.

(** The origin of a parsed URL: [f"{parsed.scheme}://{parsed.netloc}"]. *)
Definition url_origin (p : SplitResult) : string := url_scheme p +:+ "://" +:+ url_netloc p.

(** ** Queries *)

Section queries.
Context (unquote_percent : string → string).

(** [urllib.parse.unquote] *)
Definition unquote (s : string) : string := if has_char "%" s then unquote_percent s else s.

(** [urllib.parse.parse_qs(query)], as the list of its (name, value) pairs. *)
Definition parse_qs (query : string) : list (string * string) :=
  omap (λ field, match split_once "=" field with
                 | (name, Some value) =>
                     if is_empty value then None
                     else Some (unquote (replace_char "+" " " name), unquote (replace_char "+" " " value))
                 | (_, None) => None
                 end) (split_on "&" query).

(** [query.get(name)]; a missing name is the empty list. *)
Definition qs_get (query : list (string * string)) (name : string) : list string :=
  (filter (λ kv, kv.1 = name) query).*2.
End queries.

Example urlsplit_full :
  urlsplit (λ _, true) (λ _, true) "HTTPS://user:pw@Host.Example:8443/a/b?x=1#f"
  = Ok (mkSplit "https" "user:pw@Host.Example:8443" "/a/b" "x=1" "f").
Proof. reflexivity. Qed.

Example urlsplit_bad_bracket : is_ok (urlsplit (λ _, true) (λ _, true) "http://[::1/") = false.
Proof. reflexivity. Qed.

Example hostname_full :
  hostname (λ s, s) (mkSplit "https" "user:pw@Host.Example:8443" "/" "" "") = Some "host.example".
Proof. reflexivity. Qed.

Example userinfo_full :
  userinfo (mkSplit "https" "user:pw@Host.Example:8443" "/" "" "") = (Some "user", Some "pw").
Proof. reflexivity. Qed.

(** [urlparse(url).path] for an HTTP URL: the parameters of the last segment,
    after its first semicolon, are not part of the path. *)
Definition drop_params (path : string) : string :=
  let segment := after_last "/" path in
  match split_once ";" segment with
  | (name, Some _) =>
      string_take (String.length path - String.length segment) path +:+ name
  | _ => path
  end.
