(* ===== verification/Wire.v ===== *)
(** The protobuf wire format of [backend/modules/protocol_v2/wire.py] and its
    field accessors in [wire_helpers.py].

    The encoders append to a [bytearray]; here they take the bytes written so
    far and return the extended bytes, or the exception.  The decoder walks a
    cursor over the payload and collects the values of each field number in a
    dict of lists, [DecodedWireMessage]. *)

From stdpp Require Import base list gmap strings.
From Stdlib Require Import ZArith Lia Strings.Byte Floats.
From S2P Require Import Prelude PyStr PyFloat PyTime.

#[local] Open Scope Z_scope.

(** [backend/modules/protocol_v2/wire.py:8-11] WireTypes *)
Inductive WireTypes : Type := VARINT | FIXED64 | LENGTH_DELIMITED.

Definition wire_type_number (t : WireTypes) : Z :=
  match t with VARINT => 0 | FIXED64 => 1 | LENGTH_DELIMITED => 2 end.

(** A decoded value: Python [int], [float] or [bytes]. *)
Inductive wire_value : Type :=
  | WInt (n : Z)
  | WFloat (x : float)
  | WBytes (b : list byte).

(** [backend/modules/protocol_v2/wire.py:14-16] DecodedWireMessage *)
Record DecodedWireMessage : Type := { fields : gmap Z (list wire_value) }.

(** [self.fields.get(field_number, [])] *)
Definition fields_get (m : DecodedWireMessage) (field_number : Z) : list wire_value :=
  default [] (fields m !! field_number).

Definition as_bytes (v : wire_value) : option (list byte) :=
  match v with WBytes b => Some b | _ => None end.

(** [backend/modules/protocol_v2/wire.py:25-26] DecodedWireMessage.bytes_values *)
Definition bytes_values (m : DecodedWireMessage) (field_number : Z) : list (list byte) :=
  omap as_bytes (fields_get m field_number).

(** [backend/modules/protocol_v2/wire.py:18-23] DecodedWireMessage.strings *)
Definition decoded_strings (m : DecodedWireMessage) (field_number : Z) : result (list string) :=
  mapM utf8_decode (bytes_values m field_number).

(** ** Encoding *)

(** [bytearray.append(value)] *)
Definition bytearray_append (payload : list byte) (value : Z) : result (list byte) :=
  if (0 <=? value) && (value <? 256) then Ok (payload ++ [byte_of_Z value])
  else value_error "byte must be in range(0, 256)".

Fixpoint encode_varint_loop (fuel : nat) (payload : list byte) (value : Z) : result (list byte) :=
  match fuel with
  | O => bytearray_append payload value
  | S fuel' =>
      if 127 <? value then
        payload' ← bytearray_append payload (Z.lor (Z.land value 127) 128);
        encode_varint_loop fuel' payload' (Z.shiftr value 7)
      else bytearray_append payload value
  end.

(** [backend/modules/protocol_v2/wire.py:52-56] encode_varint

    The loop shifts seven bits away per round, so the bit length is enough fuel. *)
Definition encode_varint (payload : list byte) (value : Z) : result (list byte) :=
  encode_varint_loop (Z.to_nat (Z.log2 value)) payload value.

Definition field_key (field_number : Z) (t : WireTypes) : Z :=
  Z.lor (Z.shiftl field_number 3) (wire_type_number t).

(** [backend/modules/protocol_v2/wire.py:36-39] encode_bytes *)
Definition encode_bytes (payload : list byte) (field_number : Z) (value : list byte)
    : result (list byte) :=
  payload ← encode_varint payload (field_key field_number LENGTH_DELIMITED);
  payload ← encode_varint payload (Z.of_nat (length value));
  Ok (payload ++ value).

(** [backend/modules/protocol_v2/wire.py:29-33] encode_string *)
Definition encode_string (payload : list byte) (field_number : Z) (value : string)
    : result (list byte) :=
  let encoded := utf8_encode value in
  payload ← encode_varint payload (field_key field_number LENGTH_DELIMITED);
  payload ← encode_varint payload (Z.of_nat (length encoded));
  Ok (payload ++ encoded).

(** [backend/modules/protocol_v2/wire.py:42-44] encode_double *)
Definition encode_double (payload : list byte) (field_number : Z) (value : float)
    : result (list byte) :=
  payload ← encode_varint payload (field_key field_number FIXED64);
  Ok (payload ++ pack_double value).

(** [backend/modules/protocol_v2/wire.py:47-49] encode_varint_field *)
Definition encode_varint_field (payload : list byte) (field_number : Z) (value : Z)
    : result (list byte) :=
  payload ← encode_varint payload (field_key field_number VARINT);
  encode_varint payload value.

(** ** Decoding *)

Fixpoint decode_varint_loop (rest : list byte) (cursor : nat) (shift result : Z)
    : Prelude.result (Z * nat) :=
  match rest with
  | [] => value_error "unterminated varint"
  | b :: rest' =>
      let byte := byte_to_Z b in
      let result' := Z.lor result (Z.shiftl (Z.land byte 127) shift) in
      if Z.land byte 128 =? 0 then Ok (result', S cursor)
      else decode_varint_loop rest' (S cursor) (shift + 7) result'
  end.

(** [backend/modules/protocol_v2/wire.py:87-97] decode_varint

    The loop's argument is the payload from the cursor on. *)
Definition decode_varint (payload : list byte) (cursor : nat) : result (Z * nat) :=
  decode_varint_loop (drop cursor payload) cursor 0 0.

Definition payload_slice (payload : list byte) (cursor n : nat) : list byte :=
  take n (drop cursor payload).

(** One round of the [while] of [decode_message]: the field number, the value
    and the cursor after them. *)
Definition decode_field (payload : list byte) (cursor : nat)
    : result (Z * wire_value * nat) :=
  '(key, cursor) ← decode_varint payload cursor;
  let field_number := Z.shiftr key 3 in
  let wire_type := Z.land key 7 in
  if wire_type =? wire_type_number VARINT then
    '(value, cursor) ← decode_varint payload cursor;
    Ok (field_number, WInt value, cursor)
  else if wire_type =? wire_type_number FIXED64 then
    if Nat.ltb (length payload) (cursor + 8) then
      value_error "fixed64 field exceeds payload size"
    else Ok (field_number, WFloat (unpack_double (payload_slice payload cursor 8)), (cursor + 8)%nat)
  else if wire_type =? wire_type_number LENGTH_DELIMITED then
    '(n, cursor) ← decode_varint payload cursor;
    if Z.of_nat (length payload) <? Z.of_nat cursor + n then
      value_error "length-delimited field exceeds payload size"
    else Ok (field_number, WBytes (payload_slice payload cursor (Z.to_nat n)),
             (cursor + Z.to_nat n)%nat)
  else value_error ("unsupported wire type: " +:+ str_of_Z wire_type).

(** [decoded.setdefault(field_number, []).append(value)] *)
Definition setdefault_append (m : gmap Z (list wire_value)) (k : Z) (v : wire_value)
    : gmap Z (list wire_value) :=
  <[k := default [] (m !! k) ++ [v]]> m.

Fixpoint decode_message_loop (fuel : nat) (payload : list byte) (cursor : nat)
    (decoded : gmap Z (list wire_value)) : result DecodedWireMessage :=
  match fuel with
  | O => Ok {| fields := decoded |}
  | S fuel' =>
      if Nat.ltb cursor (length payload) then
        '(field_number, value, cursor) ← decode_field payload cursor;
        decode_message_loop fuel' payload cursor (setdefault_append decoded field_number value)
      else Ok {| fields := decoded |}
  end.

(** [backend/modules/protocol_v2/wire.py:59-84] decode_message

    A round consumes at least the byte of its key, so the payload's length is
    enough fuel. *)
Definition decode_message (payload : list byte) : result DecodedWireMessage :=
  decode_message_loop (length payload) payload 0 ∅.

(** ** [wire_helpers.py] *)

(** [backend/modules/protocol_v2/wire_helpers.py:8-10] TimestampedFields *)
Module TimestampedFields.
Definition OBSERVED_UNIX_MILLIS : Z := 1.
Definition RECEIVED_UNIX_MILLIS : Z := 2.
End TimestampedFields.

Definition field_error {A} (field_number : Z) (what : string) : result A :=
  value_error ("field " +:+ str_of_Z field_number +:+ " must contain " +:+ what).

(** [backend/modules/protocol_v2/wire_helpers.py:13-19] optional_message *)
Definition optional_message (decoded : DecodedWireMessage) (field_number : Z)
    : result (option DecodedWireMessage) :=
  match bytes_values decoded field_number with
  | [] => Ok None
  | [v] => Some <$> decode_message v
  | _ => field_error field_number "at most one message"
  end.

(** [backend/modules/protocol_v2/wire_helpers.py:22-26] single_message *)
Definition single_message (decoded : DecodedWireMessage) (field_number : Z)
    : result DecodedWireMessage :=
  match bytes_values decoded field_number with
  | [v] => decode_message v
  | _ => field_error field_number "exactly one message"
  end.

(** [backend/modules/protocol_v2/wire_helpers.py:29-33] single_string *)
Definition single_string (decoded : DecodedWireMessage) (field_number : Z) : result string :=
  values ← decoded_strings decoded field_number;
  match values with
  | [v] => Ok v
  | _ => field_error field_number "exactly one string"
  end.

(** [backend/modules/protocol_v2/wire_helpers.py:36-42] optional_string *)
Definition optional_string (decoded : DecodedWireMessage) (field_number : Z) : result string :=
  values ← decoded_strings decoded field_number;
  match values with
  | [] => Ok ""
  | [v] => Ok v
  | _ => field_error field_number "at most one string"
  end.

(** [backend/modules/protocol_v2/wire_helpers.py:45-49] single_int *)
Definition single_int (decoded : DecodedWireMessage) (field_number : Z) : result Z :=
  match fields_get decoded field_number with
  | [WInt n] => Ok n
  | _ => field_error field_number "exactly one integer"
  end.

(** [backend/modules/protocol_v2/wire_helpers.py:52-56] single_float *)
Definition single_float (decoded : DecodedWireMessage) (field_number : Z) : result float :=
  match fields_get decoded field_number with
  | [WFloat x] => Ok x
  | _ => field_error field_number "exactly one float"
  end.

(** [backend/modules/protocol_v2/wire_helpers.py:59-63] single_bytes *)
Definition single_bytes (decoded : DecodedWireMessage) (field_number : Z) : result (list byte) :=
  match bytes_values decoded field_number with
  | [v] => Ok v
  | _ => field_error field_number "exactly one bytes value"
  end.

(** [backend/modules/protocol_v2/wire_helpers.py:66-72] single_optional_bytes *)
Definition single_optional_bytes (decoded : DecodedWireMessage) (field_number : Z)
    : result (list byte) :=
  match bytes_values decoded field_number with
  | [] => Ok []
  | [v] => Ok v
  | _ => field_error field_number "at most one bytes value"
  end.

(** [backend/modules/protocol_v2/wire_helpers.py:75-79] timestamped_wire *)
Definition timestamped_wire (observed_unix_millis received_unix_millis : Z) : result (list byte) :=
  payload ← encode_varint_field [] TimestampedFields.OBSERVED_UNIX_MILLIS observed_unix_millis;
  encode_varint_field payload TimestampedFields.RECEIVED_UNIX_MILLIS received_unix_millis.

(** [backend/modules/protocol_v2/wire_helpers.py:82-85] unix_millis *)
Definition unix_millis (value : datetime) : result Z :=
  let value := if is_naive value then replace_utc value else value in
  seconds ← timestamp value;
  trunc_float (seconds * 1000)%float.

(** ** Varints: the bytes they are made of *)

Fixpoint varint_bytes_fuel (fuel : nat) (value : Z) : list byte :=
  match fuel with
  | O => [byte_of_Z value]
  | S fuel' =>
      if 127 <? value then
        byte_of_Z (Z.lor (Z.land value 127) 128) :: varint_bytes_fuel fuel' (Z.shiftr value 7)
      else [byte_of_Z value]
  end.

Definition varint_bytes (value : Z) : list byte := varint_bytes_fuel (Z.to_nat (Z.log2 value)) value.

Lemma land_127 n : Z.land n 127 = n mod 128.
Proof. change 127 with (Z.ones 7). by rewrite Z.land_ones. Qed.

Lemma land_128 m : 0 <= m < 128 → Z.land m 128 = 0.
Proof.
  intros Hm. rewrite <-(Z.mod_small m 128), <-land_127, <-Z.land_assoc by done.
  change (Z.land 127 128) with 0. apply Z.land_0_r.
Qed.

Lemma lor_128 m : 0 <= m < 128 → Z.lor m 128 = m + 128.
Proof. intros Hm. pose proof (Z.add_lor_land m 128). rewrite land_128 in * by done. lia. Qed.

Lemma cont_byte_value n :
  0 <= Z.lor (Z.land n 127) 128 < 256 ∧
  Z.land (Z.lor (Z.land n 127) 128) 127 = Z.land n 127 ∧
  Z.land (Z.lor (Z.land n 127) 128) 128 = 128.
Proof.
  pose proof (Z.mod_pos_bound n 128 ltac:(lia)) as Hm.
  split; [rewrite land_127, lor_128 by done; lia|]. split.
  - rewrite Z.land_lor_distr_l, <-Z.land_assoc, Z.land_diag. change (Z.land 128 127) with 0.
    apply Z.lor_0_r.
  - rewrite Z.land_lor_distr_l, <-Z.land_assoc. change (Z.land 127 128) with 0.
    by rewrite Z.land_0_r.
Qed.

Lemma last_byte_value n : 0 <= n <= 127 → Z.land n 127 = n ∧ Z.land n 128 = 0.
Proof. intros. split; [rewrite land_127; apply Z.mod_small; lia|apply land_128; lia]. Qed.

Lemma low7_high n s : 0 <= s →
  Z.lor (Z.shiftl (Z.land n 127) s) (Z.shiftl (Z.shiftr n 7) (s + 7)) = Z.shiftl n s.
Proof.
  intros Hs. apply Z.bits_inj'; intros i Hi. rewrite Z.lor_spec, !Z.shiftl_spec by lia.
  destruct (decide (i < s)); [by rewrite !(Z.testbit_neg_r _ (i - s)), Z.testbit_neg_r by lia|].
  rewrite Z.land_spec. change 127 with (Z.ones 7). destruct (decide (i < s + 7)).
  - rewrite Z.ones_spec_low, (Z.testbit_neg_r _ (i - (s + 7))) by lia.
    by rewrite andb_true_r, orb_false_r.
  - rewrite Z.ones_spec_high, Z.shiftr_spec, andb_false_r, orb_false_l by lia.
    by replace (i - (s + 7) + 7) with (i - s) by lia.
Qed.

Lemma log2_shiftr7 v fuel : 127 < v → Z.log2 v <= Z.of_nat (S fuel) → Z.log2 (Z.shiftr v 7) <= Z.of_nat fuel.
Proof. intros. rewrite Z.log2_shiftr by lia. lia. Qed.

Lemma log2_0_small v : 0 <= v → Z.log2 v <= 0 → v <= 127.
Proof. intros. destruct (Z_lt_le_dec 127 v); [|done]. pose proof (Z.log2_le_mono 128 v). cbn in *. lia. Qed.

(** The loop runs as the source's [while] does, whatever fuel above the bound. *)
Lemma encode_varint_loop_fuel f1 f2 payload v : 0 <= v →
  Z.log2 v <= Z.of_nat f1 → Z.log2 v <= Z.of_nat f2 →
  encode_varint_loop f1 payload v = encode_varint_loop f2 payload v.
Proof.
  revert f2 payload v. induction f1 as [|f1 IH]; intros [|f2] payload v Hv H1 H2; [done|..].
  - apply log2_0_small in H1; [|done]. cbn. by rewrite (proj2 (Z.ltb_ge _ _)) by lia.
  - apply log2_0_small in H2; [|done]. cbn. by rewrite (proj2 (Z.ltb_ge _ _)) by lia.
  - cbn [encode_varint_loop]. destruct (Z.ltb_spec 127 v); [|done].
    destruct (bytearray_append _ _) as [p|]; [cbn|done].
    apply IH; [apply Z.shiftr_nonneg; lia|by apply log2_shiftr7..].
Qed.

Lemma encode_varint_unfold payload v :
  encode_varint payload v =
    if 127 <? v then
      payload' ← bytearray_append payload (Z.lor (Z.land v 127) 128);
      encode_varint payload' (Z.shiftr v 7)
    else bytearray_append payload v.
Proof.
  unfold encode_varint at 1. destruct (Z.ltb_spec 127 v) as [Hlt|Hge].
  - pose proof (Z.log2_le_mono 128 v) as Hlog. change (Z.log2 128) with 7 in Hlog.
    destruct (Z.to_nat (Z.log2 v)) as [|n] eqn:En; [lia|]. cbn [encode_varint_loop].
    rewrite (proj2 (Z.ltb_lt _ _)) by lia.
    destruct (bytearray_append _ _) as [p|]; [cbn|done].
    apply encode_varint_loop_fuel; [apply Z.shiftr_nonneg; lia|apply log2_shiftr7; lia|lia].
  - destruct (Z.to_nat (Z.log2 v)); cbn; [done|]. by rewrite (proj2 (Z.ltb_ge _ _)) by lia.
Qed.

Lemma encode_varint_loop_bytes fuel payload v : 0 <= v → Z.log2 v <= Z.of_nat fuel →
  encode_varint_loop fuel payload v = Ok (payload ++ varint_bytes_fuel fuel v).
Proof.
  revert payload v. induction fuel as [|fuel IH]; intros payload v Hv Hf; cbn; unfold bytearray_append.
  - apply log2_0_small in Hf; [|done].
    by rewrite (proj2 (Z.leb_le 0 v)), (proj2 (Z.ltb_lt v 256)) by lia.
  - destruct (cont_byte_value v) as [Hr _]. destruct (Z.ltb_spec 127 v).
    + rewrite (proj2 (Z.leb_le 0 _)), (proj2 (Z.ltb_lt _ 256)) by lia. cbn.
      rewrite IH, <-app_assoc; [done|apply Z.shiftr_nonneg; lia|by apply log2_shiftr7].
    + by rewrite (proj2 (Z.leb_le 0 v)), (proj2 (Z.ltb_lt v 256)) by lia.
Qed.

Lemma encode_varint_bytes payload v : 0 <= v → encode_varint payload v = Ok (payload ++ varint_bytes v).
Proof. intros. apply encode_varint_loop_bytes; [done|]. pose proof (Z.log2_nonneg v). lia. Qed.

Lemma encode_varint_neg payload v : v < 0 → ∃ msg, encode_varint payload v = value_error msg.
Proof.
  intros. rewrite encode_varint_unfold, (proj2 (Z.ltb_ge _ _)) by lia. unfold bytearray_append.
  rewrite (proj2 (Z.leb_gt 0 v)) by lia. by eexists.
Qed.

Lemma decode_varint_loop_bytes fuel v rest cursor shift acc : 0 <= v → 0 <= shift →
  Z.log2 v <= Z.of_nat fuel →
  decode_varint_loop (varint_bytes_fuel fuel v ++ rest) cursor shift acc
  = Ok (Z.lor acc (Z.shiftl v shift), (cursor + length (varint_bytes_fuel fuel v))%nat).
Proof.
  revert v cursor shift acc. induction fuel as [|fuel IH]; intros v cursor shift acc Hv Hs Hf; cbn.
  - apply log2_0_small in Hf; [|done]. rewrite byte_to_of_Z_small by lia.
    destruct (last_byte_value v) as [-> ->]; [lia|]. cbn. do 2 f_equal. lia.
  - destruct (Z.ltb_spec 127 v) as [Hlt|Hge]; cbn [app decode_varint_loop].
    + destruct (cont_byte_value v) as (Hr & H127 & H128).
      rewrite byte_to_of_Z_small, H127, H128 by done. cbn [Z.eqb].
      rewrite IH; [|apply Z.shiftr_nonneg; lia|lia|by apply log2_shiftr7].
      rewrite <-Z.lor_assoc, low7_high by done. cbn [length]. do 2 f_equal. lia.
    + rewrite byte_to_of_Z_small by lia. destruct (last_byte_value v) as [-> ->]; [lia|]. cbn.
      do 2 f_equal. lia.
Qed.

Lemma decode_varint_bytes pre v rest : 0 <= v →
  decode_varint (pre ++ varint_bytes v ++ rest) (length pre)
  = Ok (v, (length pre + length (varint_bytes v))%nat).
Proof.
  intros. unfold decode_varint. rewrite drop_app_length.
  unfold varint_bytes at 1. rewrite decode_varint_loop_bytes; [|done..|].
  - by rewrite Z.lor_0_l, Z.shiftl_0_r.
  - pose proof (Z.log2_nonneg v). lia.
Qed.

Lemma varint_bytes_cons v : ∃ b bs, varint_bytes v = b :: bs.
Proof.
  unfold varint_bytes. destruct (Z.to_nat (Z.log2 v)); cbn; [by do 2 eexists|].
  destruct (127 <? v); by do 2 eexists.
Qed.

(** ** Progress of the decoder and adequacy of its fuel *)

Lemma decode_varint_loop_progress l cursor shift acc v c' :
  decode_varint_loop l cursor shift acc = Ok (v, c') → (cursor < c' <= cursor + length l)%nat.
Proof.
  revert cursor shift acc. induction l as [|b l IH]; intros cursor shift acc; cbn; [done|].
  case_if; [intros [= _ <-]; lia|]. intros ?%IH. lia.
Qed.

Lemma decode_varint_progress payload cursor v c' :
  decode_varint payload cursor = Ok (v, c') → (cursor < c' <= length payload)%nat.
Proof.
  unfold decode_varint. intros H. pose proof (decode_varint_loop_progress _ _ _ _ _ _ H) as Hp.
  rewrite length_drop in Hp. destruct (drop cursor payload) eqn:E; [done|].
  apply (f_equal length) in E. rewrite length_drop in E. cbn in E. lia.
Qed.

Lemma decode_varint_loop_nonneg l cursor shift acc v c' : 0 <= acc → 0 <= shift →
  decode_varint_loop l cursor shift acc = Ok (v, c') → 0 <= v.
Proof.
  revert cursor shift acc. induction l as [|b l IH]; intros cursor shift acc Ha Hs; cbn; [done|].
  assert (0 <= Z.lor acc (Z.shiftl (Z.land (byte_to_Z b) 127) shift)).
  { apply Z.lor_nonneg. split; [done|]. apply Z.shiftl_nonneg, Z.land_nonneg. lia. }
  case_if; [by intros [= <- _]|]. apply IH; [done|lia].
Qed.

Lemma decode_varint_nonneg payload cursor v c' : decode_varint payload cursor = Ok (v, c') → 0 <= v.
Proof. by apply decode_varint_loop_nonneg. Qed.

Lemma decode_field_progress payload cursor n v c' :
  decode_field payload cursor = Ok (n, v, c') → (cursor < c' <= length payload)%nat.
Proof.
  unfold decode_field. intros H. inv_ok. apply decode_varint_progress in Ha as Hc.
  repeat case_if_in H; try done; inv_ok.
  - apply decode_varint_progress in Ha0. simplify_eq. lia.
  - apply Nat.ltb_ge in Heqb1. simplify_eq. lia.
  - apply decode_varint_nonneg in Ha0 as Hx. apply decode_varint_progress in Ha0.
    case_if_in H; [done|]. split_bools. inv_ok. simplify_eq. lia.
Qed.

Lemma decode_message_loop_fuel f1 f2 payload cursor m :
  (length payload - cursor <= f1)%nat → (length payload - cursor <= f2)%nat →
  decode_message_loop f1 payload cursor m = decode_message_loop f2 payload cursor m.
Proof.
  revert f2 cursor m. induction f1 as [|f1 IH]; intros [|f2] cursor m H1 H2;
    cbn [decode_message_loop]; [done|..].
  - by rewrite (proj2 (Nat.ltb_ge _ _)) by lia.
  - by rewrite (proj2 (Nat.ltb_ge _ _)) by lia.
  - case_if; [|done]. destruct (decode_field payload cursor) as [[[n v] c']|] eqn:E; [cbn|done].
    apply decode_field_progress in E. apply IH; lia.
Qed.

(** The decoder from a cursor on, and the equation of its [while] loop. *)
Definition decode_message_from (payload : list byte) (cursor : nat)
    (m : gmap Z (list wire_value)) : result DecodedWireMessage :=
  decode_message_loop (length payload - cursor) payload cursor m.

Lemma decode_message_from_0 payload : decode_message payload = decode_message_from payload 0 ∅.
Proof. unfold decode_message, decode_message_from. by rewrite Nat.sub_0_r. Qed.

Lemma decode_message_from_unfold payload cursor m :
  decode_message_from payload cursor m =
    if Nat.ltb cursor (length payload) then
      '(n, v, cursor) ← decode_field payload cursor;
      decode_message_from payload cursor (setdefault_append m n v)
    else Ok {| fields := m |}.
Proof.
  unfold decode_message_from. destruct (Nat.ltb_spec cursor (length payload)) as [Hlt|Hge].
  - destruct (length payload - cursor)%nat eqn:E; [lia|]. cbn [decode_message_loop].
    rewrite (proj2 (Nat.ltb_lt _ _)) by done.
    destruct (decode_field payload cursor) as [[[n' v] c']|] eqn:Ef; [cbn|done].
    apply decode_field_progress in Ef. apply decode_message_loop_fuel; lia.
  - by replace (length payload - cursor)%nat with 0%nat by lia.
Qed.

(** ** Whole messages *)

Definition wire_field : Type := Z * wire_value.

Definition enc_field (f : wire_field) : list byte :=
  match f with
  | (n, WInt v) => varint_bytes (field_key n VARINT) ++ varint_bytes v
  | (n, WFloat x) => varint_bytes (field_key n FIXED64) ++ pack_double x
  | (n, WBytes b) =>
      varint_bytes (field_key n LENGTH_DELIMITED) ++ varint_bytes (Z.of_nat (length b)) ++ b
  end.

Definition enc_fields (fs : list wire_field) : list byte := mjoin (enc_field <$> fs).

(** What an encoder can write: field numbers and integers are not negative. *)
Definition wf_field (f : wire_field) : bool :=
  (0 <=? f.1) && match f.2 with WInt v => 0 <=? v | _ => true end.

Definition collect_from (m : gmap Z (list wire_value)) (fs : list wire_field)
    : gmap Z (list wire_value) :=
  foldl (λ m f, setdefault_append m f.1 f.2) m fs.

Definition collect (fs : list wire_field) : DecodedWireMessage := {| fields := collect_from ∅ fs |}.

(** The values of a field number, in the order they were written. *)
Definition field_values (fs : list wire_field) (n : Z) : list wire_value :=
  (filter (λ f, f.1 = n) fs).*2.

Lemma field_key_number n t : Z.shiftr (field_key n t) 3 = n.
Proof.
  unfold field_key. rewrite Z.shiftr_lor, Z.shiftr_shiftl_l by lia.
  rewrite Z.shiftl_0_r. by destruct t; rewrite Z.lor_0_r.
Qed.

Lemma field_key_type n t : Z.land (field_key n t) 7 = wire_type_number t.
Proof.
  unfold field_key. rewrite Z.land_lor_distr_l. change 7 with (Z.ones 3) at 1.
  rewrite Z.land_ones, Z.shiftl_mul_pow2, Z.mod_mul by lia. by destruct t.
Qed.

Lemma field_key_nonneg n t : 0 <= n → 0 <= field_key n t.
Proof.
  intros. apply Z.lor_nonneg. rewrite Z.shiftl_nonneg. split; [done|]. by destruct t.
Qed.

Lemma encode_varint_field_enc payload n v : 0 <= n → 0 <= v →
  encode_varint_field payload n v = Ok (payload ++ enc_field (n, WInt v)).
Proof.
  intros. unfold encode_varint_field. rewrite encode_varint_bytes by (by apply field_key_nonneg).
  cbn. by rewrite encode_varint_bytes, <-app_assoc.
Qed.

Lemma encode_double_enc payload n x : 0 <= n →
  encode_double payload n x = Ok (payload ++ enc_field (n, WFloat x)).
Proof.
  intros. unfold encode_double. rewrite encode_varint_bytes by (by apply field_key_nonneg).
  cbn. by rewrite <-app_assoc.
Qed.

Lemma encode_bytes_enc payload n b : 0 <= n →
  encode_bytes payload n b = Ok (payload ++ enc_field (n, WBytes b)).
Proof.
  intros. unfold encode_bytes. rewrite encode_varint_bytes by (by apply field_key_nonneg).
  cbn. rewrite encode_varint_bytes by lia. cbn. by rewrite <-!app_assoc.
Qed.

Lemma encode_string_enc payload n s : 0 <= n →
  encode_string payload n s = Ok (payload ++ enc_field (n, WBytes (utf8_encode s))).
Proof. exact (encode_bytes_enc payload n (utf8_encode s)). Qed.

Lemma decode_field_enc pre f post : wf_field f = true →
  decode_field (pre ++ enc_field f ++ post) (length pre)
  = Ok (f.1, f.2, length (pre ++ enc_field f)).
Proof.
  destruct f as [n v]. unfold wf_field; cbn [fst snd]. intros [Hn%Z.leb_le Hv]%andb_true_iff.
  unfold decode_field. destruct v as [v|x|b]; cbn [enc_field]; rewrite <-!app_assoc;
    rewrite decode_varint_bytes by (by apply field_key_nonneg); cbn -[decode_varint Nat.ltb pack_double unpack_double];
    rewrite field_key_number, field_key_type; cbn -[decode_varint Nat.ltb pack_double unpack_double];
    rewrite <-?length_app.
  - apply Z.leb_le in Hv. rewrite (app_assoc pre), decode_varint_bytes by done. cbn.
    rewrite !length_app. do 2 f_equal. lia.
  - rewrite (proj2 (Nat.ltb_ge _ _)) by (rewrite !length_app, length_pack_double; lia).
    unfold payload_slice. rewrite (app_assoc pre), drop_app_length, <-(length_pack_double x), take_app_length.
    rewrite unpack_pack_double, !length_app, length_pack_double. do 2 f_equal. lia.
  - rewrite (app_assoc pre), decode_varint_bytes by lia. cbn.
    rewrite (proj2 (Z.ltb_ge _ _)) by (rewrite !length_app; lia).
    unfold payload_slice. rewrite Nat2Z.id, <-length_app, (app_assoc _ _ (b ++ post)).
    rewrite drop_app_length, take_app_length, !length_app. do 2 f_equal. lia.
Qed.

Lemma enc_field_length f : (1 <= length (enc_field f))%nat.
Proof.
  destruct f as [n [v|x|b]]; cbn; rewrite length_app;
    match goal with |- context [varint_bytes (field_key ?n ?t)] =>
      destruct (varint_bytes_cons (field_key n t)) as (? & ? & ->) end; cbn; lia.
Qed.

Lemma enc_fields_cons f fs : enc_fields (f :: fs) = enc_field f ++ enc_fields fs.
Proof. done. Qed.

Lemma enc_fields_app fs gs : enc_fields (fs ++ gs) = enc_fields fs ++ enc_fields gs.
Proof. unfold enc_fields. by rewrite fmap_app, join_app. Qed.

Lemma decode_message_from_enc pre fs m : forallb wf_field fs = true →
  decode_message_from (pre ++ enc_fields fs) (length pre) m = Ok {| fields := collect_from m fs |}.
Proof.
  revert pre m. induction fs as [|f fs IH]; intros pre m; cbn [forallb].
  - intros _. rewrite decode_message_from_unfold, (proj2 (Nat.ltb_ge _ _)); [done|].
    cbn. rewrite app_nil_r. done.
  - intros [Hf Hfs]%andb_true_iff. rewrite enc_fields_cons, decode_message_from_unfold.
    pose proof (enc_field_length f).
    rewrite (proj2 (Nat.ltb_lt _ _)) by (rewrite !length_app; lia).
    rewrite decode_field_enc by done. cbn [mbind result_bind].
    rewrite app_assoc. by apply IH.
Qed.

Lemma decode_message_enc fs : forallb wf_field fs = true →
  decode_message (enc_fields fs) = Ok (collect fs).
Proof. intros. rewrite decode_message_from_0. by apply (decode_message_from_enc [] fs ∅). Qed.

Lemma collect_from_lookup m fs n :
  default [] (collect_from m fs !! n) = default [] (m !! n) ++ field_values fs n.
Proof.
  unfold field_values. revert m; induction fs as [|[k v] fs IH]; intros m.
  - cbn. by rewrite app_nil_r.
  - change (collect_from m ((k, v) :: fs)) with (collect_from (setdefault_append m k v) fs).
    rewrite IH. unfold setdefault_append. destruct (decide (k = n)) as [->|Hne].
    + rewrite lookup_insert_eq, filter_cons_True by done. cbn. by rewrite <-app_assoc.
    + rewrite lookup_insert_ne, filter_cons_False by done. done.
Qed.

Lemma fields_get_collect fs n : fields_get (collect fs) n = field_values fs n.
Proof. unfold fields_get, collect. cbn. by rewrite collect_from_lookup, lookup_empty. Qed.

#[export] Hint Rewrite encode_varint_field_enc encode_double_enc encode_bytes_enc
  encode_string_enc fields_get_collect using lia : wire.

(** The encoder the source calls for a value of each wire type. *)
Definition encode_field (payload : list byte) (f : wire_field) : result (list byte) :=
  match f with
  | (n, WInt v) => encode_varint_field payload n v
  | (n, WFloat x) => encode_double payload n x
  | (n, WBytes b) => encode_bytes payload n b
  end.

Fixpoint encode_fields (payload : list byte) (fs : list wire_field) : result (list byte) :=
  match fs with
  | [] => Ok payload
  | f :: fs' => payload ← encode_field payload f; encode_fields payload fs'
  end.

Lemma encode_field_enc payload f : wf_field f = true →
  encode_field payload f = Ok (payload ++ enc_field f).
Proof.
  destruct f as [n v]. unfold wf_field. cbn [fst snd]. intros [Hn%Z.leb_le Hv]%andb_true_iff.
  destruct v as [v|x|b]; cbn [encode_field].
  - apply Z.leb_le in Hv. by apply encode_varint_field_enc.
  - by apply encode_double_enc.
  - by apply encode_bytes_enc.
Qed.

Lemma encode_fields_enc payload fs : forallb wf_field fs = true →
  encode_fields payload fs = Ok (payload ++ enc_fields fs).
Proof.
  revert payload. induction fs as [|f fs IH]; intros payload; cbn [forallb encode_fields].
  - intros _. cbn. by rewrite app_nil_r.
  - intros [Hf Hfs]%andb_true_iff. rewrite encode_field_enc by done. cbn [mbind result_bind].
    rewrite IH, enc_fields_cons, app_assoc by done. done.
Qed.

(** ** Reading a message that the encoders wrote *)

Lemma field_values_cons n v fs k :
  field_values ((n, v) :: fs) k = if decide (n = k) then v :: field_values fs k else field_values fs k.
Proof. unfold field_values. rewrite filter_cons. cbn. by destruct (decide (n = k)). Qed.

Lemma field_values_app fs gs k : field_values (fs ++ gs) k = field_values fs k ++ field_values gs k.
Proof. unfold field_values. by rewrite filter_app, fmap_app. Qed.

Lemma field_values_repeated {A} (g : A → wire_value) n (l : list A) k :
  field_values ((λ a, (n, g a)) <$> l) k = if decide (n = k) then g <$> l else [].
Proof.
  induction l as [|a l IH]; [by destruct (decide (n = k))|].
  rewrite fmap_cons, field_values_cons, IH. by destruct (decide (n = k)).
Qed.

Lemma bytes_values_collect fs n : bytes_values (collect fs) n = omap as_bytes (field_values fs n).
Proof. unfold bytes_values. by rewrite fields_get_collect. Qed.

Lemma omap_as_bytes {A} (g : A → list byte) (l : list A) :
  omap as_bytes ((λ a, WBytes (g a)) <$> l) = g <$> l.
Proof. induction l as [|a l IH]; cbn; [done|]. by rewrite IH. Qed.

Lemma decoded_strings_collect fs n ss :
  field_values fs n = (λ s, WBytes (utf8_encode s)) <$> ss → forallb wf_str ss = true →
  decoded_strings (collect fs) n = Ok ss.
Proof.
  intros Hv Hss. unfold decoded_strings. rewrite bytes_values_collect, Hv, (omap_as_bytes utf8_encode).
  clear Hv. induction ss as [|s ss IH]; [done|]. cbn [forallb] in Hss. split_bools.
  cbn. rewrite utf8_decode_encode by done. cbn. by rewrite IH.
Qed.

Lemma single_string_collect fs n s :
  field_values fs n = [WBytes (utf8_encode s)] → wf_str s = true →
  single_string (collect fs) n = Ok s.
Proof.
  intros Hv Hs. unfold single_string. rewrite (decoded_strings_collect _ _ [s]); [done..|].
  cbn. by rewrite Hs.
Qed.

Lemma single_int_collect fs n v : field_values fs n = [WInt v] → single_int (collect fs) n = Ok v.
Proof. intros Hv. unfold single_int. by rewrite fields_get_collect, Hv. Qed.

Lemma single_float_collect fs n x :
  field_values fs n = [WFloat x] → single_float (collect fs) n = Ok x.
Proof. intros Hv. unfold single_float. by rewrite fields_get_collect, Hv. Qed.

Lemma single_message_collect fs n gs :
  field_values fs n = [WBytes (enc_fields gs)] → forallb wf_field gs = true →
  single_message (collect fs) n = Ok (collect gs).
Proof.
  intros Hv Hgs. unfold single_message. rewrite bytes_values_collect, Hv. cbn.
  by apply decode_message_enc.
Qed.

Lemma optional_message_collect fs n gs :
  field_values fs n = [WBytes (enc_fields gs)] → forallb wf_field gs = true →
  optional_message (collect fs) n = Ok (Some (collect gs)).
Proof.
  intros Hv Hgs. unfold optional_message. rewrite bytes_values_collect, Hv. cbn.
  by rewrite decode_message_enc.
Qed.

Lemma single_optional_bytes_collect fs n b :
  field_values fs n = [WBytes b] → single_optional_bytes (collect fs) n = Ok b.
Proof. intros Hv. unfold single_optional_bytes. by rewrite bytes_values_collect, Hv. Qed.

(** Run a straight-line encoder on values it accepts, and put the fields it
    has written in the form [enc_fields] of a literal list. *)
Ltac solve_nonneg := first [assumption | lia | vm_compute; discriminate].

Ltac wire_encode :=
  cbn [mbind result_bind];
  repeat (first
    [ rewrite encode_varint_field_enc by solve_nonneg
    | rewrite encode_double_enc by solve_nonneg
    | rewrite encode_string_enc by solve_nonneg
    | rewrite encode_bytes_enc by solve_nonneg ]; cbn [mbind result_bind]).

Lemma app_enc_field p f : p ++ enc_field f = p ++ enc_fields [f].
Proof. unfold enc_fields. cbn. by rewrite app_nil_r. Qed.

Ltac wire_flatten :=
  rewrite ?app_enc_field, ?app_nil_l, <-?app_assoc, <-?enc_fields_app; reflexivity.

(** The timestamp sub-message. *)
Definition timestamp_fields (observed received : Z) : list wire_field :=
  [(TimestampedFields.OBSERVED_UNIX_MILLIS, WInt observed);
   (TimestampedFields.RECEIVED_UNIX_MILLIS, WInt received)].

Lemma timestamped_wire_enc o r : 0 <= o → 0 <= r →
  timestamped_wire o r = Ok (enc_fields (timestamp_fields o r)).
Proof.
  intros. unfold timestamped_wire. wire_encode. wire_flatten.
Qed.

Lemma encode_varint_field_neg payload n v : 0 <= n → v < 0 →
  ∃ msg, encode_varint_field payload n v = value_error msg.
Proof.
  intros Hn Hv. unfold encode_varint_field.
  rewrite encode_varint_bytes by (by apply field_key_nonneg). cbn. by apply encode_varint_neg.
Qed.

Lemma timestamped_wire_Ok o r b : timestamped_wire o r = Ok b → 0 <= o ∧ 0 <= r.
Proof.
  unfold timestamped_wire. intros H. inv_ok. split.
  - destruct (Z_lt_le_dec o 0) as [Hneg|]; [|done].
    by destruct (encode_varint_field_neg [] TimestampedFields.OBSERVED_UNIX_MILLIS o)
      as [? He]; [done..|rewrite He in Ha].
  - destruct (Z_lt_le_dec r 0) as [Hneg|]; [|done].
    by destruct (encode_varint_field_neg a TimestampedFields.RECEIVED_UNIX_MILLIS r)
      as [? He]; [done..|rewrite He in H].
Qed.

(** Compute the values a literal list of fields holds under a literal number. *)
Ltac field_list :=
  rewrite ?field_values_cons, ?field_values_app, ?field_values_repeated, ?app_nil_r; reflexivity.

(** ** Properties *)

(** C5: Whatever sequence of fields the encoders of [wire.py] write (varint,
    fixed64 and length-delimited, in any order, with repeated field numbers),
    [decode_message] reads back: it succeeds, and the list it holds for each
    field number is the values written under that number, in order. *)
Theorem wire_roundtrip (fs : list wire_field) :
  forallb wf_field fs = true →
  ∃ payload m, encode_fields [] fs = Ok payload ∧ decode_message payload = Ok m ∧
    ∀ n, fields_get m n = field_values fs n.
Proof.
  intros Hfs. exists (enc_fields fs), (collect fs). split; [by apply encode_fields_enc|].
  split; [by apply decode_message_enc|]. apply fields_get_collect.
Qed.

Lemma wire_roundtrip_witness :
  let fs := [(1, WInt 300); (2, WBytes (utf8_encode "uav")); (1, WInt 0); (3, WFloat 1.5%float)] in
  forallb wf_field fs = true ∧
  ∃ payload m, encode_fields [] fs = Ok payload ∧ decode_message payload = Ok m ∧
    ∀ n, fields_get m n = field_values fs n.
Proof. intros fs. split; [reflexivity|]. exact (wire_roundtrip fs eq_refl). Defined.

(** [encode_varint] appends a non-empty code that [decode_varint] reads
    back from that position whatever follows it, leaving the cursor just after
    it; on a negative value, and only there, it raises [ValueError]. *)
Theorem varint_roundtrip (payload rest : list byte) (value : Z) :
  (0 <= value →
   ∃ out, encode_varint payload value = Ok out ∧ (length payload < length out)%nat ∧
     decode_varint (out ++ rest) (length payload) = Ok (value, length out)) ∧
  (value < 0 → ∃ msg, encode_varint payload value = Raise (PyErr ExcValueError msg)).
Proof.
  split; [|apply encode_varint_neg]. intros Hv. exists (payload ++ varint_bytes value).
  split; [by apply encode_varint_bytes|]. rewrite length_app. split.
  - destruct (varint_bytes_cons value) as (? & ? & ->). cbn. lia.
  - rewrite <-app_assoc. by apply decode_varint_bytes.
Qed.

Lemma varint_roundtrip_witness :
  ∃ out, encode_varint [x00] 300 = Ok out ∧ (length [x00] < length out)%nat ∧
    decode_varint (out ++ [x07]) 1 = Ok (300, length out).
Proof. apply (varint_roundtrip [x00] [x07] 300). lia. Defined.

(** [decode_message] terminates on every payload with the result of the
    source's [while] loop: the loop equation holds at every cursor, and each
    round moves the cursor forward within the payload. *)
Theorem decode_message_terminates (payload : list byte) :
  decode_message payload = decode_message_from payload 0 ∅ ∧
  (∀ cursor m, decode_message_from payload cursor m =
    if Nat.ltb cursor (length payload) then
      '(n, v, cursor) ← decode_field payload cursor;
      decode_message_from payload cursor (setdefault_append m n v)
    else Ok {| fields := m |}) ∧
  (∀ cursor n v cursor', decode_field payload cursor = Ok (n, v, cursor') →
    (cursor < cursor' <= length payload)%nat).
Proof.
  split; [apply decode_message_from_0|]. split; [apply decode_message_from_unfold|].
  apply decode_field_progress.
Qed.
