(* ===== verification/TelemetryModel.v ===== *)
(** The telemetry schemas of [backend/model/telemetry_model.py].

    Every field is optional; an absent field is [None].  A schema object also
    remembers which fields its caller set ([tc_fields_set]), which
    [model_dump(exclude_unset=True)] reports; the camel-case aliases are the
    keys of [model_dump(by_alias=True)]. *)

From stdpp Require Import base list strings.
From Stdlib Require Import ZArith Floats.
From S2P Require Import Prelude PyTime.

(** [backend/model/telemetry_model.py:9-24] TelemetryCreate *)
Record TelemetryCreate : Type := mkTelemetryCreate {
  tc_uuid : option string;
  tc_latitude : option float;
  tc_longitude : option float;
  tc_altitude : option float;
  tc_magnetic_x : option float;
  tc_magnetic_y : option float;
  tc_magnetic_z : option float;
  tc_soc : option string;
  tc_phone_battery_soc : option float;
  tc_velocity : option float;
  tc_total_distance : option float;
  tc_epoch_time : option Z;
  tc_port_distance : option float;
  tc_fields_set : list string
}.

(** [backend/model/telemetry_model.py:27-42] TelemetryResponse *)
Record TelemetryResponse : Type := mkTelemetryResponse {
  tr_uuid : option string;
  tr_latitude : option float;
  tr_longitude : option float;
  tr_altitude : option float;
  tr_magnetic_x : option float;
  tr_magnetic_y : option float;
  tr_magnetic_z : option float;
  tr_soc : option string;
  tr_phone_battery_soc : option float;
  tr_velocity : option float;
  tr_total_distance : option float;
  tr_epoch_time : option string;
  tr_port_distance : option float
}.

(** A value of a dumped model or of a database column. *)
Inductive value : Type :=
  | VNone
  | VText (s : string)
  | VFloat (x : float)
  | VInt (n : Z)
  | VTime (d : datetime).

Definition value_of {A} (inj : A → value) (o : option A) : value :=
  match o with Some a => inj a | None => VNone end.

(** Field name, alias and value, in declaration order. *)
Definition telemetry_fields_of (t : TelemetryCreate) : list (string * string * value) :=
  [("uuid", "uuid", value_of VText (tc_uuid t));
   ("latitude", "latitude", value_of VFloat (tc_latitude t));
   ("longitude", "longitude", value_of VFloat (tc_longitude t));
   ("altitude", "altitude", value_of VFloat (tc_altitude t));
   ("magnetic_x", "magneticX", value_of VFloat (tc_magnetic_x t));
   ("magnetic_y", "magneticY", value_of VFloat (tc_magnetic_y t));
   ("magnetic_z", "magneticZ", value_of VFloat (tc_magnetic_z t));
   ("soc", "soc", value_of VText (tc_soc t));
   ("phone_battery_soc", "phoneBatterySOC", value_of VFloat (tc_phone_battery_soc t));
   ("velocity", "velocity", value_of VFloat (tc_velocity t));
   ("total_distance", "totalDistance", value_of VFloat (tc_total_distance t));
   ("epoch_time", "epochTime", value_of VInt (tc_epoch_time t));
   ("port_distance", "portDistance", value_of VFloat (tc_port_distance t))].

Definition telemetry_field_names : list string :=
  ["uuid"; "latitude"; "longitude"; "altitude"; "magnetic_x"; "magnetic_y"; "magnetic_z"; "soc"; "phone_battery_soc"; "velocity"; "total_distance"; "epoch_time"; "port_distance"].

(** [model_dump(exclude_unset=exclude_unset, by_alias=by_alias)] *)
Definition model_dump (exclude_unset by_alias : bool) (t : TelemetryCreate)
    : list (string * value) :=
  (λ f : string * string * value, (if by_alias then f.1.2 else f.1.1, f.2)) <$>
    filter (λ f, exclude_unset = false ∨ f.1.1 ∈ tc_fields_set t) (telemetry_fields_of t).

Lemma telemetry_fields_of_names t : (telemetry_fields_of t).*1.*1 = telemetry_field_names.
Proof. reflexivity. Qed.

Lemma model_dump_keys t :
  dict_keys (model_dump true false t) = filter (λ n, n ∈ tc_fields_set t) telemetry_field_names.
Proof.
  unfold dict_keys, model_dump. rewrite <-(telemetry_fields_of_names t).
  induction (telemetry_fields_of t) as [|[[n a] v] l IH]; [done|].
  rewrite fmap_cons, fmap_cons, !filter_cons; cbn [fst snd].
  destruct (decide (n ∈ tc_fields_set t)) as [Hin|Hout].
  - rewrite decide_True by (by right). rewrite !fmap_cons. cbn [fst]. by rewrite IH.
  - rewrite decide_False by (by intros [[=]|]). done.
Qed.

Lemma model_dump_wf t : dict_wf (model_dump true false t).
Proof.
  unfold dict_wf. rewrite model_dump_keys. apply NoDup_filter.
  apply (bool_decide_unpack _). vm_compute. exact I.
Qed.
