(* ===== verification/TelemetryWire.v ===== *)
(** The telemetry envelope codec: [backend/modules/protocol_v2/telemetry_contract.py],
    [telemetry_geo.py], [telemetry_wire/] and [telemetry.py].

    The field numbers are those of [contracts/proto/gcs/saker/v1/telemetry.proto]
    and [common.proto], which the generated descriptors the source reads carry.
    [TelemetryWireSource], a structural [Protocol] in the source, is a type
    class with the payload dataclass as its instance. *)

From stdpp Require Import base list gmap strings.
From Stdlib Require Import ZArith Lia Strings.Byte Floats.
From S2P Require Import Prelude PyStr PyFloat TelemetryModel Wire.

#[local] Open Scope Z_scope.

(** [backend/modules/protocol_v2/telemetry_contract.py:11-27] TelemetryEnvelopeFields *)
Module TelemetryEnvelopeFields.
Definition EVENT_ID : Z := 1.
Definition ORG_ID : Z := 2.
Definition GROUP_ID : Z := 3.
Definition ASSET_ID : Z := 4.
Definition ASSET_KIND : Z := 5.
Definition TIME : Z := 6.
Definition POSITION : Z := 7.
Definition HEADING_DEG : Z := 8.
Definition SPEED_MPS : Z := 9.
Definition BATTERY_PERCENT : Z := 10.
Definition HEALTH : Z := 11.
Definition ACTIVE_STREAM_ID : Z := 12.
Definition ATTITUDE_DEG : Z := 13.
Definition GYRO_RAD_PER_SEC : Z := 14.
Definition ACCEL_MPS2 : Z := 15.
Definition LINK_QUALITY_PERCENT : Z := 16.
End TelemetryEnvelopeFields.

(** [backend/modules/protocol_v2/telemetry_contract.py:30-33] GeoPointFields *)
Module GeoPointFields.
Definition LATITUDE : Z := 1.
Definition LONGITUDE : Z := 2.
Definition ALTITUDE_M : Z := 3.
End GeoPointFields.

(** [backend/modules/protocol_v2/telemetry_contract.py:36-39] Vector3Fields *)
Module Vector3Fields.
Definition VECTOR_X : Z := 1.
Definition VECTOR_Y : Z := 2.
Definition VECTOR_Z : Z := 3.
End Vector3Fields.

(** [backend/modules/protocol_v2/telemetry_contract.py:42-47] AssetKinds *)
Module AssetKinds.
Definition ASSET_KIND_UNSPECIFIED : Z := 0.
Definition DRONE : Z := 1.
Definition GROUND_ROBOT : Z := 2.
Definition FIXED_CAMERA : Z := 3.
Definition OPERATOR_DEVICE : Z := 4.
End AssetKinds.

(** [backend/modules/protocol_v2/telemetry_contract.py:50-55] HealthStates *)
Module HealthStates.
Definition HEALTH_UNSPECIFIED : Z := 0.
Definition OK : Z := 1.
Definition WARN : Z := 2.
Definition ERROR : Z := 3.
Definition OFFLINE : Z := 4.
End HealthStates.

(** ** [telemetry_geo.py] and the vectors *)

(** [backend/modules/protocol_v2/telemetry_geo.py:5-10] geo_point_wire *)
Definition geo_point_wire (latitude longitude altitude_m : float) : result (list byte) :=
  payload ← encode_double [] GeoPointFields.LATITUDE latitude;
  payload ← encode_double payload GeoPointFields.LONGITUDE longitude;
  encode_double payload GeoPointFields.ALTITUDE_M altitude_m.

(** [backend/modules/protocol_v2/telemetry_geo.py:13-14] legacy_epoch_seconds *)
Definition legacy_epoch_seconds (unix_millis : Z) : result Z :=
  seconds ← true_div unix_millis 1000;
  whole ← trunc_float seconds;
  Ok (whole mod 86400).

(** [backend/modules/protocol_v2/telemetry_wire/vector.py:6-11] encode_vector3 *)
Definition encode_vector3 (x y z : float) : result (list byte) :=
  payload ← encode_double [] Vector3Fields.VECTOR_X x;
  payload ← encode_double payload Vector3Fields.VECTOR_Y y;
  encode_double payload Vector3Fields.VECTOR_Z z.

(** [backend/modules/protocol_v2/telemetry_wire/vector.py:14-22] decode_optional_vector3 *)
Definition decode_optional_vector3 (decoded : DecodedWireMessage) (field_number : Z)
    : result (float * float * float) :=
  message ← optional_message decoded field_number;
  match message with
  | None => Ok (0%float, 0%float, 0%float)
  | Some message =>
      x ← single_float message Vector3Fields.VECTOR_X;
      y ← single_float message Vector3Fields.VECTOR_Y;
      z ← single_float message Vector3Fields.VECTOR_Z;
      Ok (x, y, z)
  end.

(** ** The envelope *)

(** [backend/modules/protocol_v2/telemetry_wire/models.py:5-55] TelemetryWireSource *)
Class TelemetryWireSource (A : Type) : Type := {
  event_id : A → string;
  org_id : A → string;
  group_id : A → string;
  asset_id : A → string;
  asset_kind : A → Z;
  observed_unix_millis : A → Z;
  received_unix_millis : A → Z;
  latitude : A → float;
  longitude : A → float;
  altitude_m : A → float;
  heading_deg : A → float;
  speed_mps : A → float;
  battery_percent : A → float;
  health : A → Z;
  active_stream_ids : A → list string;
  roll_deg : A → float;
  pitch_deg : A → float;
  yaw_deg : A → float;
  gyro_x_rad_per_sec : A → float;
  gyro_y_rad_per_sec : A → float;
  gyro_z_rad_per_sec : A → float;
  accel_x_mps2 : A → float;
  accel_y_mps2 : A → float;
  accel_z_mps2 : A → float;
  link_quality_percent : A → float
}.

(** [backend/modules/protocol_v2/telemetry_wire/models.py:58-84] DecodedTelemetryEnvelope *)
Record DecodedTelemetryEnvelope : Type := mkDecodedTelemetryEnvelope {
  dec_event_id : string;
  dec_org_id : string;
  dec_group_id : string;
  dec_asset_id : string;
  dec_asset_kind : Z;
  dec_observed_unix_millis : Z;
  dec_received_unix_millis : Z;
  dec_latitude : float;
  dec_longitude : float;
  dec_altitude_m : float;
  dec_heading_deg : float;
  dec_speed_mps : float;
  dec_battery_percent : float;
  dec_health : Z;
  dec_active_stream_ids : list string;
  dec_roll_deg : float;
  dec_pitch_deg : float;
  dec_yaw_deg : float;
  dec_gyro_x_rad_per_sec : float;
  dec_gyro_y_rad_per_sec : float;
  dec_gyro_z_rad_per_sec : float;
  dec_accel_x_mps2 : float;
  dec_accel_y_mps2 : float;
  dec_accel_z_mps2 : float;
  dec_link_quality_percent : float
}.

(** [backend/modules/protocol_v2/telemetry.py:16-42] TelemetryEnvelopePayload *)
Record TelemetryEnvelopePayload : Type := mkTelemetryEnvelopePayload {
  te_event_id : string;
  te_org_id : string;
  te_group_id : string;
  te_asset_id : string;
  te_asset_kind : Z;
  te_observed_unix_millis : Z;
  te_received_unix_millis : Z;
  te_latitude : float;
  te_longitude : float;
  te_altitude_m : float;
  te_heading_deg : float;
  te_speed_mps : float;
  te_battery_percent : float;
  te_health : Z;
  te_active_stream_ids : list string;
  te_roll_deg : float;
  te_pitch_deg : float;
  te_yaw_deg : float;
  te_gyro_x_rad_per_sec : float;
  te_gyro_y_rad_per_sec : float;
  te_gyro_z_rad_per_sec : float;
  te_accel_x_mps2 : float;
  te_accel_y_mps2 : float;
  te_accel_z_mps2 : float;
  te_link_quality_percent : float
}.

#[export] Instance payload_wire_source : TelemetryWireSource TelemetryEnvelopePayload := {|
  event_id := te_event_id;
  org_id := te_org_id;
  group_id := te_group_id;
  asset_id := te_asset_id;
  asset_kind := te_asset_kind;
  observed_unix_millis := te_observed_unix_millis;
  received_unix_millis := te_received_unix_millis;
  latitude := te_latitude;
  longitude := te_longitude;
  altitude_m := te_altitude_m;
  heading_deg := te_heading_deg;
  speed_mps := te_speed_mps;
  battery_percent := te_battery_percent;
  health := te_health;
  active_stream_ids := te_active_stream_ids;
  roll_deg := te_roll_deg;
  pitch_deg := te_pitch_deg;
  yaw_deg := te_yaw_deg;
  gyro_x_rad_per_sec := te_gyro_x_rad_per_sec;
  gyro_y_rad_per_sec := te_gyro_y_rad_per_sec;
  gyro_z_rad_per_sec := te_gyro_z_rad_per_sec;
  accel_x_mps2 := te_accel_x_mps2;
  accel_y_mps2 := te_accel_y_mps2;
  accel_z_mps2 := te_accel_z_mps2;
  link_quality_percent := te_link_quality_percent
|}.

Import TelemetryEnvelopeFields.

(** [backend/modules/protocol_v2/telemetry_wire/encoder.py:9-46] encode_telemetry_envelope *)
Definition encode_telemetry_envelope `{TelemetryWireSource A} (source : A) : result (list byte) :=
  payload ← encode_string [] EVENT_ID (event_id source);
  payload ← encode_string payload ORG_ID (org_id source);
  payload ← encode_string payload GROUP_ID (group_id source);
  payload ← encode_string payload ASSET_ID (asset_id source);
  payload ← encode_varint_field payload ASSET_KIND (asset_kind source);
  time ← timestamped_wire (observed_unix_millis source) (received_unix_millis source);
  payload ← encode_bytes payload TIME time;
  position ← geo_point_wire (latitude source) (longitude source) (altitude_m source);
  payload ← encode_bytes payload POSITION position;
  payload ← encode_double payload HEADING_DEG (heading_deg source);
  payload ← encode_double payload SPEED_MPS (speed_mps source);
  payload ← encode_double payload BATTERY_PERCENT (battery_percent source);
  payload ← encode_varint_field payload HEALTH (health source);
  payload ← for_in (λ payload stream_id, encode_string payload ACTIVE_STREAM_ID stream_id)
              payload (active_stream_ids source);
  attitude ← encode_vector3 (roll_deg source) (pitch_deg source) (yaw_deg source);
  payload ← encode_bytes payload ATTITUDE_DEG attitude;
  gyro ← encode_vector3 (gyro_x_rad_per_sec source) (gyro_y_rad_per_sec source)
           (gyro_z_rad_per_sec source);
  payload ← encode_bytes payload GYRO_RAD_PER_SEC gyro;
  accel ← encode_vector3 (accel_x_mps2 source) (accel_y_mps2 source) (accel_z_mps2 source);
  payload ← encode_bytes payload ACCEL_MPS2 accel;
  encode_double payload LINK_QUALITY_PERCENT (link_quality_percent source).

(** [backend/modules/protocol_v2/telemetry_wire/decoder.py:8-9] _optional_float

    An empty list is falsy, as an absent field is. *)
Definition optional_float (decoded : DecodedWireMessage) (field_number : Z) : result float :=
  match fields_get decoded field_number with
  | [] => Ok 0%float
  | _ => single_float decoded field_number
  end.

(** [backend/modules/protocol_v2/telemetry_wire/decoder.py:12-45] decode_telemetry_envelope *)
Definition decode_telemetry_envelope (payload : list byte) : result DecodedTelemetryEnvelope :=
  decoded ← decode_message payload;
  time_message ← single_message decoded TIME;
  position_message ← single_message decoded POSITION;
  '(roll, pitch, yaw) ← decode_optional_vector3 decoded ATTITUDE_DEG;
  '(gyro_x, gyro_y, gyro_z) ← decode_optional_vector3 decoded GYRO_RAD_PER_SEC;
  '(accel_x, accel_y, accel_z) ← decode_optional_vector3 decoded ACCEL_MPS2;
  event_id ← single_string decoded EVENT_ID;
  org_id ← single_string decoded ORG_ID;
  group_id ← single_string decoded GROUP_ID;
  asset_id ← single_string decoded ASSET_ID;
  asset_kind ← single_int decoded ASSET_KIND;
  observed ← single_int time_message TimestampedFields.OBSERVED_UNIX_MILLIS;
  received ← single_int time_message TimestampedFields.RECEIVED_UNIX_MILLIS;
  latitude ← single_float position_message GeoPointFields.LATITUDE;
  longitude ← single_float position_message GeoPointFields.LONGITUDE;
  altitude_m ← single_float position_message GeoPointFields.ALTITUDE_M;
  heading_deg ← single_float decoded HEADING_DEG;
  speed_mps ← single_float decoded SPEED_MPS;
  battery_percent ← single_float decoded BATTERY_PERCENT;
  health ← single_int decoded HEALTH;
  active_stream_ids ← decoded_strings decoded ACTIVE_STREAM_ID;
  link_quality_percent ← optional_float decoded LINK_QUALITY_PERCENT;
  Ok {|
    dec_event_id := event_id;
    dec_org_id := org_id;
    dec_group_id := group_id;
    dec_asset_id := asset_id;
    dec_asset_kind := asset_kind;
    dec_observed_unix_millis := observed;
    dec_received_unix_millis := received;
    dec_latitude := latitude;
    dec_longitude := longitude;
    dec_altitude_m := altitude_m;
    dec_heading_deg := heading_deg;
    dec_speed_mps := speed_mps;
    dec_battery_percent := battery_percent;
    dec_health := health;
    dec_active_stream_ids := active_stream_ids;
    dec_roll_deg := roll;
    dec_pitch_deg := pitch;
    dec_yaw_deg := yaw;
    dec_gyro_x_rad_per_sec := gyro_x;
    dec_gyro_y_rad_per_sec := gyro_y;
    dec_gyro_z_rad_per_sec := gyro_z;
    dec_accel_x_mps2 := accel_x;
    dec_accel_y_mps2 := accel_y;
    dec_accel_z_mps2 := accel_z;
    dec_link_quality_percent := link_quality_percent
  |}.

(** ** [telemetry.py] *)

(** [x or now] for an optional integer. *)
Definition int_or (x : option Z) (now : Z) : Z :=
  match x with Some n => if n =? 0 then now else n | None => now end.

(** The keyword arguments of [create]; the defaults of the source are those of
    [create_defaults]. *)
Record CreateArgs : Type := mkCreateArgs {
  arg_org_id : string;
  arg_group_id : string;
  arg_asset_id : string;
  arg_latitude : float;
  arg_longitude : float;
  arg_altitude_m : float;
  arg_heading_deg : float;
  arg_speed_mps : float;
  arg_battery_percent : float;
  arg_asset_kind : Z;
  arg_health : Z;
  arg_active_stream_ids : list string;
  arg_roll_deg : float;
  arg_pitch_deg : float;
  arg_yaw_deg : float;
  arg_gyro_x_rad_per_sec : float;
  arg_gyro_y_rad_per_sec : float;
  arg_gyro_z_rad_per_sec : float;
  arg_accel_x_mps2 : float;
  arg_accel_y_mps2 : float;
  arg_accel_z_mps2 : float;
  arg_link_quality_percent : float;
  arg_observed_unix_millis : option Z;
  arg_received_unix_millis : option Z
}.

Definition create_defaults (org_id group_id asset_id : string) (latitude longitude : float)
    : CreateArgs :=
  mkCreateArgs org_id group_id asset_id latitude longitude 0 0 0 0
    AssetKinds.OPERATOR_DEVICE HealthStates.OK [] 0 0 0 0 0 0 0 0 0 0 None None.

(** [backend/modules/protocol_v2/telemetry.py:44-100] create

    [time] is the value of [time()] and [uuid4] the fresh identifier. *)
Definition create (time : float) (uuid4 : string) (args : CreateArgs)
    : result TelemetryEnvelopePayload :=
  now ← trunc_float (time * 1000)%float;
  Ok {|
    te_event_id := uuid4;
    te_org_id := arg_org_id args;
    te_group_id := arg_group_id args;
    te_asset_id := arg_asset_id args;
    te_asset_kind := arg_asset_kind args;
    te_observed_unix_millis := int_or (arg_observed_unix_millis args) now;
    te_received_unix_millis := int_or (arg_received_unix_millis args) now;
    te_latitude := arg_latitude args;
    te_longitude := arg_longitude args;
    te_altitude_m := arg_altitude_m args;
    te_heading_deg := arg_heading_deg args;
    te_speed_mps := arg_speed_mps args;
    te_battery_percent := arg_battery_percent args;
    te_health := arg_health args;
    te_active_stream_ids := arg_active_stream_ids args;
    te_roll_deg := arg_roll_deg args;
    te_pitch_deg := arg_pitch_deg args;
    te_yaw_deg := arg_yaw_deg args;
    te_gyro_x_rad_per_sec := arg_gyro_x_rad_per_sec args;
    te_gyro_y_rad_per_sec := arg_gyro_y_rad_per_sec args;
    te_gyro_z_rad_per_sec := arg_gyro_z_rad_per_sec args;
    te_accel_x_mps2 := arg_accel_x_mps2 args;
    te_accel_y_mps2 := arg_accel_y_mps2 args;
    te_accel_z_mps2 := arg_accel_z_mps2 args;
    te_link_quality_percent := arg_link_quality_percent args
  |}.

(** [backend/modules/protocol_v2/telemetry.py:102-103] to_protobuf_wire *)
Definition to_protobuf_wire (self : TelemetryEnvelopePayload) : result (list byte) :=
  encode_telemetry_envelope self.

(** [backend/modules/protocol_v2/telemetry.py:105-134] from_protobuf_wire *)
Definition from_protobuf_wire (payload : list byte) : result TelemetryEnvelopePayload :=
  decoded ← decode_telemetry_envelope payload;
  Ok {|
    te_event_id := dec_event_id decoded;
    te_org_id := dec_org_id decoded;
    te_group_id := dec_group_id decoded;
    te_asset_id := dec_asset_id decoded;
    te_asset_kind := dec_asset_kind decoded;
    te_observed_unix_millis := dec_observed_unix_millis decoded;
    te_received_unix_millis := dec_received_unix_millis decoded;
    te_latitude := dec_latitude decoded;
    te_longitude := dec_longitude decoded;
    te_altitude_m := dec_altitude_m decoded;
    te_heading_deg := dec_heading_deg decoded;
    te_speed_mps := dec_speed_mps decoded;
    te_battery_percent := dec_battery_percent decoded;
    te_health := dec_health decoded;
    te_active_stream_ids := dec_active_stream_ids decoded;
    te_roll_deg := dec_roll_deg decoded;
    te_pitch_deg := dec_pitch_deg decoded;
    te_yaw_deg := dec_yaw_deg decoded;
    te_gyro_x_rad_per_sec := dec_gyro_x_rad_per_sec decoded;
    te_gyro_y_rad_per_sec := dec_gyro_y_rad_per_sec decoded;
    te_gyro_z_rad_per_sec := dec_gyro_z_rad_per_sec decoded;
    te_accel_x_mps2 := dec_accel_x_mps2 decoded;
    te_accel_y_mps2 := dec_accel_y_mps2 decoded;
    te_accel_z_mps2 := dec_accel_z_mps2 decoded;
    te_link_quality_percent := dec_link_quality_percent decoded
  |}.

(** [backend/modules/protocol_v2/telemetry.py:136-146] to_legacy_telemetry *)
Definition to_legacy_telemetry (self : TelemetryEnvelopePayload) : result TelemetryCreate :=
  epoch_time ← legacy_epoch_seconds (te_observed_unix_millis self);
  Ok {|
    tc_uuid := Some (te_asset_id self);
    tc_latitude := Some (te_latitude self);
    tc_longitude := Some (te_longitude self);
    tc_altitude := Some (te_altitude_m self);
    tc_magnetic_x := Some (te_heading_deg self);
    tc_magnetic_y := None;
    tc_magnetic_z := None;
    tc_soc := None;
    tc_phone_battery_soc := Some (te_battery_percent self);
    tc_velocity := Some (te_speed_mps self);
    tc_total_distance := None;
    tc_epoch_time := Some epoch_time;
    tc_port_distance := None;
    tc_fields_set := ["uuid"; "latitude"; "longitude"; "altitude"; "magnetic_x"; "velocity";
      "phone_battery_soc"; "epoch_time"]
  |}.

(** ** The fields an envelope is made of *)

Definition geo_fields (latitude longitude altitude_m : float) : list wire_field :=
  [(GeoPointFields.LATITUDE, WFloat latitude); (GeoPointFields.LONGITUDE, WFloat longitude);
   (GeoPointFields.ALTITUDE_M, WFloat altitude_m)].

Definition vector_fields (x y z : float) : list wire_field :=
  [(Vector3Fields.VECTOR_X, WFloat x); (Vector3Fields.VECTOR_Y, WFloat y);
   (Vector3Fields.VECTOR_Z, WFloat z)].

Definition string_field (n : Z) (s : string) : wire_field := (n, WBytes (utf8_encode s)).
Definition message_field (n : Z) (fs : list wire_field) : wire_field := (n, WBytes (enc_fields fs)).

Definition telemetry_fields `{TelemetryWireSource A} (source : A) : list wire_field :=
  [string_field EVENT_ID (event_id source); string_field ORG_ID (org_id source);
   string_field GROUP_ID (group_id source); string_field ASSET_ID (asset_id source);
   (ASSET_KIND, WInt (asset_kind source));
   message_field TIME
     (timestamp_fields (observed_unix_millis source) (received_unix_millis source));
   message_field POSITION (geo_fields (latitude source) (longitude source) (altitude_m source));
   (HEADING_DEG, WFloat (heading_deg source)); (SPEED_MPS, WFloat (speed_mps source));
   (BATTERY_PERCENT, WFloat (battery_percent source)); (HEALTH, WInt (health source))]
  ++ ((λ s, (ACTIVE_STREAM_ID, WBytes (utf8_encode s))) <$> active_stream_ids source)
  ++ [message_field ATTITUDE_DEG
        (vector_fields (roll_deg source) (pitch_deg source) (yaw_deg source));
      message_field GYRO_RAD_PER_SEC
        (vector_fields (gyro_x_rad_per_sec source) (gyro_y_rad_per_sec source)
           (gyro_z_rad_per_sec source));
      message_field ACCEL_MPS2
        (vector_fields (accel_x_mps2 source) (accel_y_mps2 source) (accel_z_mps2 source));
      (LINK_QUALITY_PERCENT, WFloat (link_quality_percent source))].

Lemma geo_point_wire_enc a b c : geo_point_wire a b c = Ok (enc_fields (geo_fields a b c)).
Proof. unfold geo_point_wire. wire_encode. wire_flatten. Qed.

Lemma encode_vector3_enc x y z : encode_vector3 x y z = Ok (enc_fields (vector_fields x y z)).
Proof. unfold encode_vector3. wire_encode. wire_flatten. Qed.

Lemma encode_strings_enc n payload l : 0 <= n →
  for_in (λ payload s, encode_string payload n s) payload l
  = Ok (payload ++ enc_fields ((λ s, (n, WBytes (utf8_encode s))) <$> l)).
Proof.
  intros Hn. revert payload; induction l as [|s l IH]; intros payload; cbn [for_in].
  - by rewrite app_nil_r.
  - rewrite encode_string_enc by done. cbn [mbind result_bind]. rewrite IH, <-app_assoc. done.
Qed.

(** Exactly the integers the varint encoder takes. *)
Definition encodable `{TelemetryWireSource A} (source : A) : Prop :=
  0 <= asset_kind source ∧ 0 <= observed_unix_millis source ∧
  0 <= received_unix_millis source ∧ 0 <= health source.

Definition strings_wf `{TelemetryWireSource A} (source : A) : bool :=
  wf_str (event_id source) && wf_str (org_id source) && wf_str (group_id source)
  && wf_str (asset_id source) && forallb wf_str (active_stream_ids source).

Lemma encode_telemetry_envelope_enc `{TelemetryWireSource A} (source : A) :
  encodable source →
  encode_telemetry_envelope source = Ok (enc_fields (telemetry_fields source)).
Proof.
  intros (Hk & Ho & Hr & Hh). unfold encode_telemetry_envelope. wire_encode.
  rewrite timestamped_wire_enc by done. cbn [mbind result_bind]. wire_encode.
  rewrite (geo_point_wire_enc (latitude source)). cbn [mbind result_bind]. wire_encode.
  rewrite encode_strings_enc by solve_nonneg. cbn [mbind result_bind].
  rewrite !encode_vector3_enc. cbn [mbind result_bind]. wire_encode.
  unfold telemetry_fields. rewrite !enc_fields_app, ?app_enc_field, ?app_nil_l.
  rewrite <-!app_assoc, !(app_assoc (enc_fields [_])), <-!enc_fields_app. done.
Qed.

Lemma telemetry_fields_wf `{TelemetryWireSource A} (source : A) :
  encodable source → forallb wf_field (telemetry_fields source) = true.
Proof.
  intros (Hk & Ho & Hr & Hh). unfold telemetry_fields. rewrite !forallb_app. cbn.
  unfold wf_field; cbn. rewrite !(proj2 (Z.leb_le 0 _)) by done. cbn.
  rewrite andb_true_r. induction (active_stream_ids source); done.
Qed.

Lemma decode_optional_vector3_collect fs n x y z :
  field_values fs n = [WBytes (enc_fields (vector_fields x y z))] →
  decode_optional_vector3 (collect fs) n = Ok (x, y, z).
Proof.
  intros Hv. unfold decode_optional_vector3.
  rewrite (optional_message_collect _ _ (vector_fields x y z)) by done. cbn [mbind result_bind].
  do 3 (erewrite (single_float_collect (vector_fields x y z)) by reflexivity;
    cbn [mbind result_bind]).
  done.
Qed.

(** The values of the envelope's fields, one computation per field number. *)
Ltac envelope_field :=
  unfold telemetry_fields, string_field, message_field;
  rewrite !field_values_app, field_values_repeated;
  first [reflexivity | etransitivity; [|apply app_nil_r]; reflexivity].

Lemma decode_telemetry_envelope_collect `{TelemetryWireSource A} (source : A) :
  encodable source → strings_wf source = true →
  decode_telemetry_envelope (enc_fields (telemetry_fields source)) = Ok {|
    dec_event_id := event_id source;
    dec_org_id := org_id source;
    dec_group_id := group_id source;
    dec_asset_id := asset_id source;
    dec_asset_kind := asset_kind source;
    dec_observed_unix_millis := observed_unix_millis source;
    dec_received_unix_millis := received_unix_millis source;
    dec_latitude := latitude source;
    dec_longitude := longitude source;
    dec_altitude_m := altitude_m source;
    dec_heading_deg := heading_deg source;
    dec_speed_mps := speed_mps source;
    dec_battery_percent := battery_percent source;
    dec_health := health source;
    dec_active_stream_ids := active_stream_ids source;
    dec_roll_deg := roll_deg source;
    dec_pitch_deg := pitch_deg source;
    dec_yaw_deg := yaw_deg source;
    dec_gyro_x_rad_per_sec := gyro_x_rad_per_sec source;
    dec_gyro_y_rad_per_sec := gyro_y_rad_per_sec source;
    dec_gyro_z_rad_per_sec := gyro_z_rad_per_sec source;
    dec_accel_x_mps2 := accel_x_mps2 source;
    dec_accel_y_mps2 := accel_y_mps2 source;
    dec_accel_z_mps2 := accel_z_mps2 source;
    dec_link_quality_percent := link_quality_percent source
  |}.
Proof.
  intros He Hs. pose proof (telemetry_fields_wf source He) as Hwf.
  destruct He as (Hk & Ho & Hr & Hh). unfold strings_wf in Hs. split_bools.
  set (ts := timestamp_fields (observed_unix_millis source) (received_unix_millis source)).
  set (geo := geo_fields (latitude source) (longitude source) (altitude_m source)).
  assert (Hts : forallb wf_field ts = true).
  { unfold ts, wf_field; cbn. by rewrite !(proj2 (Z.leb_le 0 _)). }
  unfold decode_telemetry_envelope. rewrite decode_message_enc by done. cbn [mbind result_bind].
  rewrite (single_message_collect _ TIME ts) by (envelope_field || done). cbn [mbind result_bind].
  rewrite (single_message_collect _ POSITION geo) by (envelope_field || done). cbn [mbind result_bind].
  do 3 (erewrite decode_optional_vector3_collect by envelope_field; cbn [mbind result_bind]).
  do 4 (erewrite single_string_collect by (envelope_field || eassumption); cbn [mbind result_bind]).
  erewrite single_int_collect by envelope_field. cbn [mbind result_bind].
  do 2 (erewrite (single_int_collect ts) by reflexivity; cbn [mbind result_bind]).
  do 3 (erewrite (single_float_collect geo) by reflexivity; cbn [mbind result_bind]).
  do 3 (erewrite single_float_collect by envelope_field; cbn [mbind result_bind]).
  erewrite single_int_collect by envelope_field. cbn [mbind result_bind].
  erewrite decoded_strings_collect by (envelope_field || eassumption). cbn [mbind result_bind].
  unfold optional_float. rewrite fields_get_collect.
  assert (Hq : field_values (telemetry_fields source) LINK_QUALITY_PERCENT
                = [WFloat (link_quality_percent source)]) by envelope_field.
  rewrite Hq. by rewrite (single_float_collect _ _ _ Hq).
Qed.

Lemma encode_varint_field_Ok payload n v b :
  0 <= n → encode_varint_field payload n v = Ok b → 0 <= v.
Proof.
  intros Hn Hb. destruct (Z_lt_le_dec v 0) as [Hv|]; [|done].
  destruct (encode_varint_field_neg payload n v Hn Hv) as [? He]. by rewrite He in Hb.
Qed.

Lemma encode_telemetry_envelope_Ok `{TelemetryWireSource A} (source : A) b :
  encode_telemetry_envelope source = Ok b → encodable source.
Proof.
  unfold encode_telemetry_envelope. intros Hb. inv_ok. repeat match goal with
  | Hv : encode_varint_field _ _ _ = Ok _ |- _ =>
      apply encode_varint_field_Ok in Hv; [|vm_compute; discriminate]
  | Ht : timestamped_wire _ _ = Ok _ |- _ => apply timestamped_wire_Ok in Ht as [? ?]
  end. done.
Qed.

(** A field number that the decoder insists on finding exactly once. *)
Definition required_fields : list Z :=
  [EVENT_ID; ORG_ID; GROUP_ID; ASSET_ID; ASSET_KIND; TIME; POSITION; HEADING_DEG; SPEED_MPS;
   BATTERY_PERCENT; HEALTH].

Lemma bytes_values_nonempty m n : fields_get m n = [] → bytes_values m n = [].
Proof. unfold bytes_values. by intros ->. Qed.

Lemma single_string_present m n s : single_string m n = Ok s → fields_get m n ≠ [].
Proof.
  unfold single_string, decoded_strings. intros H E%bytes_values_nonempty. by rewrite E in H.
Qed.

Lemma single_message_present m n s : single_message m n = Ok s → fields_get m n ≠ [].
Proof. unfold single_message. intros H E%bytes_values_nonempty. by rewrite E in H. Qed.

Lemma single_int_present m n v : single_int m n = Ok v → fields_get m n ≠ [].
Proof. unfold single_int. intros H E. by rewrite E in H. Qed.

Lemma single_float_present m n x : single_float m n = Ok x → fields_get m n ≠ [].
Proof. unfold single_float. intros H E. by rewrite E in H. Qed.

Lemma legacy_epoch_seconds_range n s : legacy_epoch_seconds n = Ok s → 0 <= s < 86400.
Proof. unfold legacy_epoch_seconds. intros H. inv_ok. subst. by apply Z.mod_pos_bound. Qed.

Definition sample_payload : TelemetryEnvelopePayload :=
  mkTelemetryEnvelopePayload "e-1" "org" "group" "asset-7" AssetKinds.DRONE
    1767323045123 1767323045200 37.5 127.0 120.25 90 12.5 55.5 HealthStates.WARN ["s1"; "s2"]
    1 (-2) 3 0 0 0.5 0 0 9.8 88.

(** ** Properties *)

(** C3: A telemetry envelope survives the protobuf wire: whenever its integers
    are not negative and its strings are well-formed text, [to_protobuf_wire]
    produces bytes and [from_protobuf_wire] gives back the same envelope, all
    twenty-five fields, the list of active streams in order included. *)
Theorem telemetry_roundtrip (p : TelemetryEnvelopePayload) :
  encodable p → strings_wf p = true →
  ∃ payload, to_protobuf_wire p = Ok payload ∧ from_protobuf_wire payload = Ok p.
Proof.
  intros He Hs. exists (enc_fields (telemetry_fields p)). unfold to_protobuf_wire, from_protobuf_wire.
  rewrite encode_telemetry_envelope_enc, decode_telemetry_envelope_collect by done.
  split; [done|]. by destruct p.
Qed.

Lemma telemetry_roundtrip_witness :
  ∃ payload, to_protobuf_wire sample_payload = Ok payload ∧
    from_protobuf_wire payload = Ok sample_payload.
Proof. apply (telemetry_roundtrip sample_payload); [repeat split; discriminate|reflexivity]. Defined.

(** Encoding an envelope succeeds exactly when its asset kind, its two
    timestamps and its health state are not negative; otherwise it raises. *)
Theorem telemetry_encodable (p : TelemetryEnvelopePayload) :
  is_ok (to_protobuf_wire p) = true ↔ encodable p.
Proof.
  rewrite is_ok_true. unfold to_protobuf_wire. split.
  - intros [b Hb]. by eapply encode_telemetry_envelope_Ok.
  - intros He. exists (enc_fields (telemetry_fields p)). by apply encode_telemetry_envelope_enc.
Qed.

(** The decoder demands explicit presence: whenever it accepts a payload,
    every one of the eleven mandatory field numbers occurs in it.  A payload
    that leaves a zero [heading_deg] out, as proto3 encoders do with default
    values, is therefore rejected. *)
Theorem telemetry_decode_requires_presence (payload : list byte) (m : DecodedWireMessage)
    (e : DecodedTelemetryEnvelope) :
  decode_message payload = Ok m → decode_telemetry_envelope payload = Ok e →
  ∀ n, n ∈ required_fields → fields_get m n ≠ [].
Proof.
  unfold decode_telemetry_envelope. intros -> H. cbn [mbind result_bind] in H.
  inv_ok.
  unfold required_fields. apply Forall_forall.
  repeat (apply Forall_cons_2; [solve [eapply single_string_present; eassumption
    | eapply single_message_present; eassumption | eapply single_int_present; eassumption
    | eapply single_float_present; eassumption]|]).
  apply Forall_nil_2.
Qed.

Lemma telemetry_decode_requires_presence_witness :
  ∃ payload m, to_protobuf_wire sample_payload = Ok payload ∧ decode_message payload = Ok m ∧
    fields_get m HEADING_DEG ≠ [].
Proof.
  assert (He : encodable sample_payload) by (repeat split; discriminate).
  exists (enc_fields (telemetry_fields sample_payload)), (collect (telemetry_fields sample_payload)).
  assert (Hm : decode_message (enc_fields (telemetry_fields sample_payload))
    = Ok (collect (telemetry_fields sample_payload))) by (apply decode_message_enc; reflexivity).
  split; [by apply encode_telemetry_envelope_enc|]. split; [exact Hm|].
  eapply telemetry_decode_requires_presence; [exact Hm| |].
  - apply decode_telemetry_envelope_collect; [exact He|reflexivity].
  - do 7 right. left.
Defined.
