(* ===== verification/AiContract.v ===== *)
(** The AI detection contract: [backend/modules/ai_contract/schemas.py],
    [constants.py], [mock_service.py] and [router.py].

    A schema class is a record, and [check_<class>] is the validation its
    declaration asks for: strings are stripped, the declared bounds hold, then
    the model validator runs.  [trim], the white-space stripping of the
    validation library, is a parameter; all validation failures are one
    exception class, [ValidationError], a [ValueError]. *)

From stdpp Require Import base list strings.
From Stdlib Require Import ZArith Floats.
From S2P Require Import Prelude PyStr PyFloat PyTime.

#[local] Open Scope Z_scope.

(** [backend/modules/ai_contract/constants.py:5-5] AI_CONTRACT_SCHEMA_VERSION *)
Definition AI_CONTRACT_SCHEMA_VERSION : string := "ai.detection.v1alpha1".

(** [backend/modules/ai_contract/constants.py:6-6] AI_MOCK_UNAVAILABLE_STATUS_CODE *)
Definition AI_MOCK_UNAVAILABLE_STATUS_CODE : Z := 503.

(** [backend/modules/ai_contract/schemas.py:18-22] FrameReference *)
Record FrameReference : Type := mkFrameReference {
  fr_stream_id : string;
  fr_frame_id : option string;
  fr_captured_at : datetime;
  fr_pts_ms : option Z
}.

Record BoundingBox : Type := mkBoundingBox {
  bb_x : float; bb_y : float; bb_width : float; bb_height : float
}.

Record AIEndpointRequest : Type := mkAIEndpointRequest {
  rq_schema_version : string;
  rq_stream_id : string;
  rq_frame : FrameReference;
  rq_image_url : option string;
  rq_frame_data_base64 : option string
}.

Record DetectionResult : Type := mkDetectionResult {
  dr_label : string;
  dr_bbox : BoundingBox;
  dr_confidence : float;
  dr_risk_score : float;
  dr_track_id : option string
}.

Record AIEndpointResponse : Type := mkAIEndpointResponse {
  rs_schema_version : string;
  rs_stream_id : string;
  rs_frame : FrameReference;
  rs_generated_at : datetime;
  rs_risk_score : float;
  rs_report_text : string;
  rs_detections : list DetectionResult
}.

Record AIEndpointErrorDetail : Type := mkAIEndpointErrorDetail {
  ed_code : string; ed_message : string; ed_retryable : bool
}.

Record AIEndpointErrorResponse : Type := mkAIEndpointErrorResponse {
  er_schema_version : string;
  er_stream_id : option string;
  er_frame : option FrameReference;
  er_generated_at : datetime;
  er_error : AIEndpointErrorDetail
}.

(** [x or ...] of a float field with bounds [ge] and [le]; a NaN fails both. *)
Definition in_range (lo hi x : float) : bool := (lo <=? x)%float && (x <=? hi)%float.

(** [not s] for an optional string. *)
Definition opt_truthy (s : option string) : bool :=
  match s with Some s => truthy s | None => false end.

Definition invalid {A} (msg : string) : result A := throw ExcValidationError msg.
Definition require (b : bool) (msg : string) : result () := if b then Ok () else invalid msg.

Lemma require_Ok b msg u : require b msg = Ok u ↔ b = true.
Proof. destruct b, u; cbn; naive_solver. Qed.

Section schemas.
Context (trim : string → string).

(** A stripped string of at least one character. *)
Definition check_str (field s : string) : result string :=
  let s := trim s in
  _ ← require (truthy s) (field +:+ ": String should have at least 1 character");
  Ok s.

Definition check_opt_str (field : string) (s : option string) : result (option string) :=
  match s with None => Ok None | Some s => Some <$> check_str field s end.

Definition check_aware (field : string) (d : datetime) : result datetime :=
  _ ← require (negb (is_naive d)) (field +:+ ": Input should have timezone info");
  Ok d.

Definition check_unit (field : string) (x : float) : result float :=
  _ ← require (in_range 0 1 x) (field +:+ ": out of range");
  Ok x.

Definition check_schema_version (s : string) : result string :=
  let s := trim s in
  _ ← require (String.eqb s AI_CONTRACT_SCHEMA_VERSION) "schemaVersion: unexpected literal";
  Ok s.

Definition check_FrameReference (f : FrameReference) : result FrameReference :=
  stream_id ← check_str "streamId" (fr_stream_id f);
  frame_id ← check_opt_str "frameId" (fr_frame_id f);
  captured_at ← check_aware "capturedAt" (fr_captured_at f);
  _ ← require (match fr_pts_ms f with Some n => 0 <=? n | None => true end) "ptsMs: out of range";
  Ok (mkFrameReference stream_id frame_id captured_at (fr_pts_ms f)).

(** [backend/modules/ai_contract/schemas.py:31-37] ensure_box_stays_inside_frame *)
Definition ensure_box_stays_inside_frame (b : BoundingBox) : result BoundingBox :=
  _ ← require (negb (1 <? bb_x b + bb_width b)%float) "bbox x + width must be <= 1.0";
  _ ← require (negb (1 <? bb_y b + bb_height b)%float) "bbox y + height must be <= 1.0";
  Ok b.

(** [backend/modules/ai_contract/schemas.py:25-29] BoundingBox *)
Definition check_BoundingBox (b : BoundingBox) : result BoundingBox :=
  _ ← check_unit "x" (bb_x b);
  _ ← check_unit "y" (bb_y b);
  _ ← require ((0 <? bb_width b) && (bb_width b <=? 1))%float "width: out of range";
  _ ← require ((0 <? bb_height b) && (bb_height b <=? 1))%float "height: out of range";
  ensure_box_stays_inside_frame b.

(** [backend/modules/ai_contract/schemas.py:47-53] ensure_frame_belongs_to_stream *)
Definition ensure_frame_belongs_to_stream (r : AIEndpointRequest) : result AIEndpointRequest :=
  _ ← require (String.eqb (fr_stream_id (rq_frame r)) (rq_stream_id r))
        "frame.streamId must match streamId";
  _ ← require (opt_truthy (rq_image_url r) || opt_truthy (rq_frame_data_base64 r))
        "imageUrl or frameDataBase64 is required";
  Ok r.

(** [backend/modules/ai_contract/schemas.py:40-45] AIEndpointRequest *)
Definition check_AIEndpointRequest (r : AIEndpointRequest) : result AIEndpointRequest :=
  schema_version ← check_schema_version (rq_schema_version r);
  stream_id ← check_str "streamId" (rq_stream_id r);
  frame ← check_FrameReference (rq_frame r);
  image_url ← check_opt_str "imageUrl" (rq_image_url r);
  frame_data ← check_opt_str "frameDataBase64" (rq_frame_data_base64 r);
  ensure_frame_belongs_to_stream
    (mkAIEndpointRequest schema_version stream_id frame image_url frame_data).

(** [backend/modules/ai_contract/schemas.py:56-61] DetectionResult *)
Definition check_DetectionResult (d : DetectionResult) : result DetectionResult :=
  label ← check_str "label" (dr_label d);
  bbox ← check_BoundingBox (dr_bbox d);
  confidence ← check_unit "confidence" (dr_confidence d);
  risk_score ← check_unit "riskScore" (dr_risk_score d);
  track_id ← check_opt_str "trackId" (dr_track_id d);
  Ok (mkDetectionResult label bbox confidence risk_score track_id).

(** [backend/modules/ai_contract/schemas.py:64-71] AIEndpointResponse *)
Definition check_AIEndpointResponse (r : AIEndpointResponse) : result AIEndpointResponse :=
  schema_version ← check_schema_version (rs_schema_version r);
  stream_id ← check_str "streamId" (rs_stream_id r);
  frame ← check_FrameReference (rs_frame r);
  generated_at ← check_aware "generatedAt" (rs_generated_at r);
  risk_score ← check_unit "riskScore" (rs_risk_score r);
  report_text ← check_str "reportText" (rs_report_text r);
  detections ← mapM check_DetectionResult (rs_detections r);
  Ok (mkAIEndpointResponse schema_version stream_id frame generated_at risk_score report_text
        detections).

(** [backend/modules/ai_contract/schemas.py:74-77] AIEndpointErrorDetail *)
Definition check_AIEndpointErrorDetail (d : AIEndpointErrorDetail)
    : result AIEndpointErrorDetail :=
  code ← check_str "code" (ed_code d);
  message ← check_str "message" (ed_message d);
  Ok (mkAIEndpointErrorDetail code message (ed_retryable d)).

(** [backend/modules/ai_contract/schemas.py:80-85] AIEndpointErrorResponse *)
Definition check_AIEndpointErrorResponse (r : AIEndpointErrorResponse)
    : result AIEndpointErrorResponse :=
  schema_version ← check_schema_version (er_schema_version r);
  stream_id ← check_opt_str "streamId" (er_stream_id r);
  frame ← match er_frame r with
          | None => Ok None
          | Some f => Some <$> check_FrameReference f
          end;
  generated_at ← check_aware "generatedAt" (er_generated_at r);
  error ← check_AIEndpointErrorDetail (er_error r);
  Ok (mkAIEndpointErrorResponse schema_version stream_id frame generated_at error).

(** ** The mock provider *)

(** [backend/modules/ai_contract/constants.py:8-21] MOCK_AI_RISK_SCORE *)
Definition MOCK_AI_RISK_SCORE : float := 0.72%float.
Definition MOCK_AI_REPORT_TEXT : string := "Mock AI detected a person near the sample stream.".
Definition MOCK_AI_ERROR_CODE : string := "AI_SIMULATED_ERROR".
Definition MOCK_AI_ERROR_MESSAGE : string := "Mock AI endpoint simulated an error.".
Definition MOCK_AI_DETECTION_LABEL : string := "person".
Definition MOCK_AI_DETECTION_CONFIDENCE : float := 0.88%float.
Definition MOCK_AI_DETECTION_TRACK_ID : string := "mock-person-001".
Definition MOCK_AI_DETECTION_BBOX : BoundingBox := mkBoundingBox 0.18 0.22 0.24 0.34.

(** [backend/modules/ai_contract/mock_service.py:21-23] MockAIService *)
Record MockAIService : Type := mkMockAIService { ms_generated_at : option datetime }.

(** [backend/modules/ai_contract/mock_service.py:61-62] _now *)
Definition mock_now (self : MockAIService) (now : datetime) : datetime :=
  default now (ms_generated_at self).

(** [backend/modules/ai_contract/mock_service.py:25-44] detect *)
Definition detect (self : MockAIService) (now : datetime) (request : AIEndpointRequest)
    : result AIEndpointResponse :=
  check_AIEndpointResponse {|
    rs_schema_version := AI_CONTRACT_SCHEMA_VERSION;
    rs_stream_id := rq_stream_id request;
    rs_frame := rq_frame request;
    rs_generated_at := mock_now self now;
    rs_risk_score := MOCK_AI_RISK_SCORE;
    rs_report_text := MOCK_AI_REPORT_TEXT;
    rs_detections := [{|
      dr_label := MOCK_AI_DETECTION_LABEL;
      dr_bbox := MOCK_AI_DETECTION_BBOX;
      dr_confidence := MOCK_AI_DETECTION_CONFIDENCE;
      dr_risk_score := MOCK_AI_RISK_SCORE;
      dr_track_id := Some MOCK_AI_DETECTION_TRACK_ID
    |}]
  |}.

(** [backend/modules/ai_contract/mock_service.py:46-59] build_error *)
Definition build_error (self : MockAIService) (now : datetime) (request : AIEndpointRequest)
    : result AIEndpointErrorResponse :=
  check_AIEndpointErrorResponse {|
    er_schema_version := AI_CONTRACT_SCHEMA_VERSION;
    er_stream_id := Some (rq_stream_id request);
    er_frame := Some (rq_frame request);
    er_generated_at := mock_now self now;
    er_error := mkAIEndpointErrorDetail MOCK_AI_ERROR_CODE MOCK_AI_ERROR_MESSAGE true
  |}.

(** The response of the mock route: a detection, or a JSON error with a status. *)
Inductive MockReply : Type :=
  | MockDetection (r : AIEndpointResponse)
  | MockError (status_code : Z) (content : AIEndpointErrorResponse).

(** [backend/modules/ai_contract/router.py:23-49] run_mock_ai_detection

    The request is the validated body; the sleep of [latency_ms], the trace
    span and the log record do not change the reply. *)
Definition run_mock_ai_detection (self : MockAIService) (now : datetime)
    (request : AIEndpointRequest) (simulate_error : bool) : result MockReply :=
  if simulate_error then
    error ← build_error self now request;
    Ok (MockError AI_MOCK_UNAVAILABLE_STATUS_CODE error)
  else MockDetection <$> detect self now request.

(** ** Validated values

    Validation is idempotent when [trim] is, so re-validating a dumped model
    gives it back. *)

Definition valid_by {A} (check : A → result A) (a : A) : Prop := check a = Ok a.

Context (trim_idem : ∀ s, trim (trim s) = trim s).

Lemma check_str_valid f s s' : check_str f s = Ok s' → ∀ g, check_str g s' = Ok s'.
Proof using trim trim_idem.
  unfold check_str. intros H g. inv_ok. apply require_Ok in Ha. subst.
  rewrite trim_idem, Ha. done.
Qed.

Lemma check_opt_str_valid f s s' : check_opt_str f s = Ok s' → ∀ g, check_opt_str g s' = Ok s'.
Proof using trim trim_idem.
  destruct s as [s|]; cbn; [|by intros [= <-]]. destruct (check_str f s) as [t|] eqn:E; cbn; [|done].
  intros [= <-] g. cbn. by rewrite (check_str_valid _ _ _ E).
Qed.

Lemma check_FrameReference_valid f f' :
  check_FrameReference f = Ok f' → valid_by check_FrameReference f'.
Proof using trim trim_idem.
  unfold check_FrameReference, valid_by, check_aware. intros H. inv_ok.
  rewrite require_Ok in *. subst; cbn.
  rewrite (check_str_valid _ _ _ Ha), (check_opt_str_valid _ _ _ Ha0). cbn.
  repeat match goal with E : ?b = true |- context [require ?b] => rewrite E; cbn end.
  done.
Qed.

(** [trim] removes nothing from a string that neither starts nor ends with
    white space. *)
Context (trim_clean : ∀ s, strip s = s → trim s = s).

Lemma check_str_clean f s : strip s = s → truthy s = true → check_str f s = Ok s.
Proof using trim trim_clean. intros Hs Ht. unfold check_str. by rewrite (trim_clean s Hs), Ht. Qed.

Lemma check_schema_version_ok :
  check_schema_version AI_CONTRACT_SCHEMA_VERSION = Ok AI_CONTRACT_SCHEMA_VERSION.
Proof using trim trim_clean.
  unfold check_schema_version. rewrite trim_clean by (vm_compute; reflexivity).
  by rewrite String.eqb_refl.
Qed.

Lemma mock_detection_valid :
  check_DetectionResult (mkDetectionResult MOCK_AI_DETECTION_LABEL MOCK_AI_DETECTION_BBOX
    MOCK_AI_DETECTION_CONFIDENCE MOCK_AI_RISK_SCORE (Some MOCK_AI_DETECTION_TRACK_ID))
  = Ok (mkDetectionResult MOCK_AI_DETECTION_LABEL MOCK_AI_DETECTION_BBOX
    MOCK_AI_DETECTION_CONFIDENCE MOCK_AI_RISK_SCORE (Some MOCK_AI_DETECTION_TRACK_ID)).
Proof using trim trim_clean.
  unfold check_DetectionResult. cbn [dr_label dr_bbox dr_confidence dr_risk_score dr_track_id].
  rewrite check_str_clean by (vm_compute; reflexivity). cbn [mbind result_bind].
  replace (check_BoundingBox MOCK_AI_DETECTION_BBOX) with (Ok MOCK_AI_DETECTION_BBOX)
    by (vm_compute; reflexivity).
  cbn [mbind result_bind check_opt_str].
  rewrite check_str_clean by (vm_compute; reflexivity). vm_compute. reflexivity.
Qed.

(** A validated request carries a stripped non-empty stream id, a valid frame
    of the same stream, and an image source. *)
Lemma check_AIEndpointRequest_Ok r r' : check_AIEndpointRequest r = Ok r' →
  (∀ f, check_str f (rq_stream_id r') = Ok (rq_stream_id r')) ∧
  valid_by check_FrameReference (rq_frame r') ∧
  fr_stream_id (rq_frame r') = rq_stream_id r' ∧
  (opt_truthy (rq_image_url r') || opt_truthy (rq_frame_data_base64 r') = true).
Proof using trim trim_idem.
  unfold check_AIEndpointRequest, ensure_frame_belongs_to_stream. intros H. inv_ok.
  rewrite require_Ok in *. cbn [rq_frame rq_stream_id rq_image_url rq_frame_data_base64] in *.
  split_bools. subst r'. cbn. split; [by apply (check_str_valid _ _ _ Ha0)|].
  split; [by eapply check_FrameReference_valid|]. done.
Qed.
End schemas.

(** ** Properties *)

(** The mock detection route always answers a validated request: without
    the simulated error it returns a response that the response schema accepts,
    for the stream of the request; with it, the 503 error of the contract for
    the same stream.  ([trim] strips white space at the ends and nothing else.) *)
Theorem mock_detection_total (trim : string → string) (self : MockAIService) (now : datetime)
    (raw request : AIEndpointRequest) (simulate_error : bool) :
  (∀ s, trim (trim s) = trim s) → (∀ s, strip s = s → trim s = s) →
  check_AIEndpointRequest trim raw = Ok request →
  is_naive (mock_now self now) = false →
  ∃ reply, run_mock_ai_detection trim self now request simulate_error = Ok reply ∧
    match reply with
    | MockDetection r =>
        simulate_error = false ∧ rs_stream_id r = rq_stream_id request ∧
        fr_stream_id (rs_frame r) = rq_stream_id request ∧ length (rs_detections r) = 1%nat
    | MockError status e =>
        simulate_error = true ∧ status = 503 ∧ er_stream_id e = Some (rq_stream_id request)
    end.
Proof.
  intros Hidem Hclean Hreq Hnow.
  apply (check_AIEndpointRequest_Ok _ Hidem) in Hreq as (Hs & Hf & Heq & _).
  unfold run_mock_ai_detection, valid_by in *. destruct simulate_error.
  - unfold build_error, check_AIEndpointErrorResponse; cbn.
    rewrite check_schema_version_ok, Hs, Hf by done. cbn. unfold check_aware.
    rewrite Hnow; cbn. unfold check_AIEndpointErrorDetail; cbn.
    rewrite !check_str_clean by (done || (vm_compute; reflexivity)). cbn.
    by eexists.
  - unfold detect, check_AIEndpointResponse.
    cbn [rs_schema_version rs_stream_id rs_frame rs_generated_at rs_risk_score rs_report_text
      rs_detections].
    rewrite check_schema_version_ok, Hs, Hf by done. cbn [mbind result_bind]. unfold check_aware.
    rewrite Hnow. cbn [negb require mbind result_bind].
    change (check_unit "riskScore" MOCK_AI_RISK_SCORE) with (Ok MOCK_AI_RISK_SCORE).
    rewrite check_str_clean by (done || (vm_compute; reflexivity)). cbn [mbind result_bind mapM].
    rewrite mock_detection_valid by done. cbn. by eexists.
Qed.

Definition sample_request : AIEndpointRequest :=
  mkAIEndpointRequest AI_CONTRACT_SCHEMA_VERSION "live/s1"
    (mkFrameReference "live/s1" None (mkDatetime 0 (Some 0)) (Some 40)) (Some "http://h/i.jpg") None.

Lemma mock_detection_total_witness :
  ∃ reply, run_mock_ai_detection (λ s, s) (mkMockAIService None) (mkDatetime 5 (Some 0))
      sample_request true = Ok reply ∧
    match reply with
    | MockDetection r =>
        true = false ∧ rs_stream_id r = rq_stream_id sample_request ∧
        fr_stream_id (rs_frame r) = rq_stream_id sample_request ∧ length (rs_detections r) = 1%nat
    | MockError status e =>
        true = true ∧ status = 503 ∧ er_stream_id e = Some (rq_stream_id sample_request)
    end.
Proof.
  apply (mock_detection_total (λ s, s) _ _ sample_request sample_request true);
    [reflexivity|intros; reflexivity|vm_compute; reflexivity|reflexivity].
Defined.
