(* ===== verification/Overlay.v ===== *)
(** AI overlay events: [backend/modules/protocol_v2/ai_overlay.py] and its
    helpers [ai_overlay_contract.py], [ai_overlay_points.py],
    [ai_overlay_geometry.py], [ai_overlay_wire.py] and [ai_overlay_dashboard.py].

    Events travel on the protobuf wire and are converted from and to the
    dashboard's detection responses. *)

From stdpp Require Import base list gmap strings.
From Stdlib Require Import ZArith Lia Strings.Byte Floats.
From S2P Require Import Prelude PyStr PyFloat PyTime Wire TelemetryWire AiContract.

#[local] Open Scope Z_scope.

(** [backend/modules/protocol_v2/ai_overlay_contract.py:1-10] AiOverlayEventFields *)
Module AiOverlayEventFields.
Definition EVENT_ID : Z := 1.
Definition STREAM_ID : Z := 2.
Definition MODEL_ID : Z := 3.
Definition KIND : Z := 4.
Definition LABEL : Z := 5.
Definition CONFIDENCE : Z := 6.
Definition POINT : Z := 7.
Definition GEO_ANCHOR : Z := 8.
Definition TIME : Z := 9.
End AiOverlayEventFields.

(** [backend/modules/protocol_v2/ai_overlay_contract.py:13-15] OverlayPointFields *)
Module OverlayPointFields.
Definition POINT_X : Z := 1.
Definition POINT_Y : Z := 2.
End OverlayPointFields.

(** [backend/modules/protocol_v2/ai_overlay_contract.py:18-23] OverlayKinds *)
Module OverlayKinds.
Definition KIND_UNSPECIFIED : Z := 0.
Definition BOUNDING_BOX : Z := 1.
Definition POLYGON : Z := 2.
Definition KIND_LABEL : Z := 3.
Definition AUDIO_ALERT : Z := 4.
End OverlayKinds.

(** [backend/modules/protocol_v2/ai_overlay_contract.py:26-27] DEFAULT_AI_MODEL_ID *)
Definition DEFAULT_AI_MODEL_ID : string := "mock-ai-sidecar-v1".
Definition DEFAULT_AI_REPORT_TEXT : string := "AI overlay metadata event received.".

(** ** Points *)

(** [backend/modules/protocol_v2/ai_overlay_points.py:10-13] OverlayPointPayload *)
Record OverlayPointPayload : Type := mkPoint { pt_x : float; pt_y : float }.

(** [backend/modules/protocol_v2/ai_overlay_points.py:15-19] to_protobuf_wire *)
Definition point_to_wire (self : OverlayPointPayload) : result (list byte) :=
  payload ← encode_double [] OverlayPointFields.POINT_X (pt_x self);
  encode_double payload OverlayPointFields.POINT_Y (pt_y self).

(** [backend/modules/protocol_v2/ai_overlay_points.py:21-27] from_protobuf_wire *)
Definition point_from_wire (payload : list byte) : result OverlayPointPayload :=
  decoded ← decode_message payload;
  x ← single_float decoded OverlayPointFields.POINT_X;
  y ← single_float decoded OverlayPointFields.POINT_Y;
  Ok (mkPoint x y).

(** [backend/modules/protocol_v2/ai_overlay_points.py:30-36] points_from_bbox *)
Definition points_from_bbox (x y width height : float) : list OverlayPointPayload :=
  [mkPoint x y; mkPoint (x + width) y; mkPoint (x + width) (y + height); mkPoint x (y + height)]%float.

(** ** Geometry *)

(** [min(xs)] and [max(xs)]: a later element replaces the current one only if
    it compares strictly smaller (larger). *)
Definition py_min (x : float) (xs : list float) : float :=
  foldl (λ m y, if (y <? m)%float then y else m) x xs.
Definition py_max (x : float) (xs : list float) : float :=
  foldl (λ m y, if (m <? y)%float then y else m) x xs.

(** [backend/modules/protocol_v2/ai_overlay_geometry.py:15-33] bounding_box_from_points *)
Definition bounding_box_from_points (points : list OverlayPointPayload) : result BoundingBox :=
  match points with
  | p :: (_ :: _) as rest =>
      let min_x := py_min (pt_x p) (pt_x <$> rest) in
      let min_y := py_min (pt_y p) (pt_y <$> rest) in
      let max_x := py_max (pt_x p) (pt_x <$> rest) in
      let max_y := py_max (pt_y p) (pt_y <$> rest) in
      let width := (max_x - min_x)%float in
      let height := (max_y - min_y)%float in
      if ((min_x <? 0) || (min_y <? 0) || (1 <? max_x) || (1 <? max_y)
          || (width <=? 0) || (height <=? 0))%float
      then value_error "overlay points must form a normalized non-empty frame bbox"
      else Ok (mkBoundingBox (round_digits min_x 6) (round_digits min_y 6)
                 (round_digits width 6) (round_digits height 6))
  | _ => value_error "overlay bounding box requires at least two points"
  end.

(** ** The event on the wire *)

(** [backend/modules/protocol_v2/ai_overlay_wire.py:22-57] AiOverlayWireSource *)
Class AiOverlayWireSource (A : Type) : Type := {
  ov_event_id : A → string;
  ov_stream_id : A → string;
  ov_model_id : A → string;
  ov_kind : A → Z;
  ov_label : A → string;
  ov_confidence : A → float;
  ov_points : A → list OverlayPointPayload;
  ov_latitude : A → float;
  ov_longitude : A → float;
  ov_altitude_m : A → float;
  ov_observed_unix_millis : A → Z;
  ov_received_unix_millis : A → Z
}.

(** [backend/modules/protocol_v2/ai_overlay_wire.py:60-73] DecodedAiOverlayEvent *)
Record DecodedAiOverlayEvent : Type := mkDecodedAiOverlayEvent {
  do_event_id : string;
  do_stream_id : string;
  do_model_id : string;
  do_kind : Z;
  do_label : string;
  do_confidence : float;
  do_points : list OverlayPointPayload;
  do_latitude : float;
  do_longitude : float;
  do_altitude_m : float;
  do_observed_unix_millis : Z;
  do_received_unix_millis : Z
}.

(** [backend/modules/protocol_v2/ai_overlay_wire.py:76-92] encode_overlay_event *)
Definition encode_overlay_event `{AiOverlayWireSource A} (source : A) : result (list byte) :=
  payload ← encode_string [] AiOverlayEventFields.EVENT_ID (ov_event_id source);
  payload ← encode_string payload AiOverlayEventFields.STREAM_ID (ov_stream_id source);
  payload ← encode_string payload AiOverlayEventFields.MODEL_ID (ov_model_id source);
  payload ← encode_varint_field payload AiOverlayEventFields.KIND (ov_kind source);
  payload ← encode_string payload AiOverlayEventFields.LABEL (ov_label source);
  payload ← encode_double payload AiOverlayEventFields.CONFIDENCE (ov_confidence source);
  payload ← for_in (λ payload point,
                wire ← point_to_wire point;
                encode_bytes payload AiOverlayEventFields.POINT wire)
              payload (ov_points source);
  geo ← geo_point_wire (ov_latitude source) (ov_longitude source) (ov_altitude_m source);
  payload ← encode_bytes payload AiOverlayEventFields.GEO_ANCHOR geo;
  time ← timestamped_wire (ov_observed_unix_millis source) (ov_received_unix_millis source);
  encode_bytes payload AiOverlayEventFields.TIME time.

(** [single_float(geo_anchor, n) if geo_anchor else 0]; a message object is
    always truthy. *)
Definition anchor_float (geo_anchor : option DecodedWireMessage) (n : Z) : result float :=
  match geo_anchor with Some m => single_float m n | None => Ok 0%float end.

(** [backend/modules/protocol_v2/ai_overlay_wire.py:95-114] decode_overlay_event *)
Definition decode_overlay_event (payload : list byte) : result DecodedAiOverlayEvent :=
  decoded ← decode_message payload;
  geo_anchor ← optional_message decoded AiOverlayEventFields.GEO_ANCHOR;
  time_message ← single_message decoded AiOverlayEventFields.TIME;
  event_id ← single_string decoded AiOverlayEventFields.EVENT_ID;
  stream_id ← single_string decoded AiOverlayEventFields.STREAM_ID;
  model_id ← single_string decoded AiOverlayEventFields.MODEL_ID;
  kind ← single_int decoded AiOverlayEventFields.KIND;
  label ← single_string decoded AiOverlayEventFields.LABEL;
  confidence ← single_float decoded AiOverlayEventFields.CONFIDENCE;
  points ← mapM point_from_wire (bytes_values decoded AiOverlayEventFields.POINT);
  latitude ← anchor_float geo_anchor GeoPointFields.LATITUDE;
  longitude ← anchor_float geo_anchor GeoPointFields.LONGITUDE;
  altitude_m ← anchor_float geo_anchor GeoPointFields.ALTITUDE_M;
  observed ← single_int time_message TimestampedFields.OBSERVED_UNIX_MILLIS;
  received ← single_int time_message TimestampedFields.RECEIVED_UNIX_MILLIS;
  Ok (mkDecodedAiOverlayEvent event_id stream_id model_id kind label confidence points
        latitude longitude altitude_m observed received).

(** ** Events *)

(** [backend/modules/protocol_v2/ai_overlay.py:27-40] AiOverlayEventPayload *)
Record AiOverlayEventPayload : Type := mkAiOverlayEventPayload {
  oe_event_id : string;
  oe_stream_id : string;
  oe_model_id : string;
  oe_kind : Z;
  oe_label : string;
  oe_confidence : float;
  oe_points : list OverlayPointPayload;
  oe_latitude : float;
  oe_longitude : float;
  oe_altitude_m : float;
  oe_observed_unix_millis : Z;
  oe_received_unix_millis : Z
}.

#[export] Instance overlay_wire_source : AiOverlayWireSource AiOverlayEventPayload := {|
  ov_event_id := oe_event_id;
  ov_stream_id := oe_stream_id;
  ov_model_id := oe_model_id;
  ov_kind := oe_kind;
  ov_label := oe_label;
  ov_confidence := oe_confidence;
  ov_points := oe_points;
  ov_latitude := oe_latitude;
  ov_longitude := oe_longitude;
  ov_altitude_m := oe_altitude_m;
  ov_observed_unix_millis := oe_observed_unix_millis;
  ov_received_unix_millis := oe_received_unix_millis
|}.

(** [backend/modules/protocol_v2/ai_overlay.py:42-73] create

    [time] is the value of [time()] and [uuid4] the fresh identifier; the kind
    and the geographic anchor are left at their defaults by every caller. *)
Definition create_overlay_event (time : float) (uuid4 stream_id label : string)
    (confidence : float) (points : list OverlayPointPayload) (model_id : string) (kind : Z)
    (latitude longitude altitude_m : float) (event_id : option string)
    (observed_unix_millis received_unix_millis : option Z) : result AiOverlayEventPayload :=
  now ← trunc_float (time * 1000)%float;
  Ok {|
    oe_event_id := match event_id with
                   | Some s => if truthy s then s else uuid4
                   | None => uuid4
                   end;
    oe_stream_id := stream_id;
    oe_model_id := model_id;
    oe_kind := kind;
    oe_label := label;
    oe_confidence := confidence;
    oe_points := points;
    oe_latitude := latitude;
    oe_longitude := longitude;
    oe_altitude_m := altitude_m;
    oe_observed_unix_millis := int_or observed_unix_millis now;
    oe_received_unix_millis := int_or received_unix_millis now
  |}.

(** [backend/modules/protocol_v2/ai_overlay.py:75-76] to_protobuf_wire *)
Definition overlay_to_wire (self : AiOverlayEventPayload) : result (list byte) :=
  encode_overlay_event self.

(** [backend/modules/protocol_v2/ai_overlay.py:78-94] from_protobuf_wire *)
Definition overlay_from_wire (payload : list byte) : result AiOverlayEventPayload :=
  decoded ← decode_overlay_event payload;
  Ok {|
    oe_event_id := do_event_id decoded;
    oe_stream_id := do_stream_id decoded;
    oe_model_id := do_model_id decoded;
    oe_kind := do_kind decoded;
    oe_label := do_label decoded;
    oe_confidence := do_confidence decoded;
    oe_points := do_points decoded;
    oe_latitude := do_latitude decoded;
    oe_longitude := do_longitude decoded;
    oe_altitude_m := do_altitude_m decoded;
    oe_observed_unix_millis := do_observed_unix_millis decoded;
    oe_received_unix_millis := do_received_unix_millis decoded
  |}.

(** ** The dashboard *)

(** [backend/modules/protocol_v2/ai_overlay_dashboard.py:23-37] detection_from_overlay_event

    The dict it builds has the keys of a [DetectionResult]. *)
Definition detection_from_overlay_event (event_id label : string) (confidence : float)
    (points : list OverlayPointPayload) (risk_score : float) : result DetectionResult :=
  bbox ← bounding_box_from_points points;
  Ok (mkDetectionResult label bbox confidence risk_score (Some event_id)).

(** [backend/modules/protocol_v2/ai_overlay.py:96-103] to_dashboard_detection *)
Definition to_dashboard_detection (self : AiOverlayEventPayload) (risk_score : float)
    : result DetectionResult :=
  detection_from_overlay_event (oe_event_id self) (oe_label self) (oe_confidence self)
    (oe_points self) risk_score.

(** [backend/modules/protocol_v2/ai_overlay_dashboard.py:40-65] events_from_dashboard_response

    [clock] gives, for each detection, the time and the fresh identifier its
    [payload_factory] call reads. *)
Definition events_from_dashboard_response (clock : nat → float * string)
    (response : AIEndpointResponse) (model_id : string) : result (list AiOverlayEventPayload) :=
  observed_millis ← unix_millis (fr_captured_at (rs_frame response));
  received_millis ← unix_millis (rs_generated_at response);
  mapM (λ '(i, detection),
      let '(time, uuid4) := clock i in
      create_overlay_event time uuid4 (rs_stream_id response) (dr_label detection)
        (dr_confidence detection)
        (points_from_bbox (bb_x (dr_bbox detection)) (bb_y (dr_bbox detection))
           (bb_width (dr_bbox detection)) (bb_height (dr_bbox detection)))
        (if truthy model_id then model_id else DEFAULT_AI_MODEL_ID)
        OverlayKinds.BOUNDING_BOX 0 0 0 (dr_track_id detection)
        (Some observed_millis) (Some received_millis))
    (zip (seq 0 (length (rs_detections response))) (rs_detections response)).

(** [backend/modules/protocol_v2/ai_overlay_dashboard.py:68-88] dashboard_response_from_overlay_events *)
Definition dashboard_response_from_overlay_events (trim : string → string) (stream_id : string)
    (frame : FrameReference) (generated_at : datetime) (events : list AiOverlayEventPayload)
    (risk_score : float) (report_text : string) : result AIEndpointResponse :=
  if existsb (λ event, negb (String.eqb (oe_stream_id event) stream_id)) events then
    value_error "all overlay events must belong to the dashboard streamId"
  else
    detections ← mapM (λ event, to_dashboard_detection event risk_score) events;
    check_AIEndpointResponse trim
      (mkAIEndpointResponse AI_CONTRACT_SCHEMA_VERSION stream_id frame generated_at risk_score
         report_text detections).

(** ** The fields an event is made of *)

Definition point_fields (p : OverlayPointPayload) : list wire_field :=
  [(OverlayPointFields.POINT_X, WFloat (pt_x p)); (OverlayPointFields.POINT_Y, WFloat (pt_y p))].

Lemma point_to_wire_enc p : point_to_wire p = Ok (enc_fields (point_fields p)).
Proof. unfold point_to_wire. wire_encode. wire_flatten. Qed.

Lemma point_from_wire_enc p : point_from_wire (enc_fields (point_fields p)) = Ok p.
Proof.
  unfold point_from_wire. rewrite decode_message_enc by done. cbn [mbind result_bind].
  do 2 (erewrite (single_float_collect (point_fields p)) by reflexivity; cbn [mbind result_bind]).
  by destruct p.
Qed.

Lemma encode_points_enc n payload l : 0 <= n →
  for_in (λ payload point, wire ← point_to_wire point; encode_bytes payload n wire) payload l
  = Ok (payload ++ enc_fields ((λ p, (n, WBytes (enc_fields (point_fields p)))) <$> l)).
Proof.
  intros Hn. revert payload; induction l as [|p l IH]; intros payload; cbn [for_in].
  - by rewrite app_nil_r.
  - rewrite point_to_wire_enc. cbn [mbind result_bind]. rewrite encode_bytes_enc by done.
    cbn [mbind result_bind]. rewrite IH, <-app_assoc. done.
Qed.

Definition overlay_fields `{AiOverlayWireSource A} (source : A) : list wire_field :=
  [string_field AiOverlayEventFields.EVENT_ID (ov_event_id source);
   string_field AiOverlayEventFields.STREAM_ID (ov_stream_id source);
   string_field AiOverlayEventFields.MODEL_ID (ov_model_id source);
   (AiOverlayEventFields.KIND, WInt (ov_kind source));
   string_field AiOverlayEventFields.LABEL (ov_label source);
   (AiOverlayEventFields.CONFIDENCE, WFloat (ov_confidence source))]
  ++ ((λ p, (AiOverlayEventFields.POINT, WBytes (enc_fields (point_fields p)))) <$> ov_points source)
  ++ [message_field AiOverlayEventFields.GEO_ANCHOR
        (geo_fields (ov_latitude source) (ov_longitude source) (ov_altitude_m source));
      message_field AiOverlayEventFields.TIME
        (timestamp_fields (ov_observed_unix_millis source) (ov_received_unix_millis source))].

Definition overlay_encodable `{AiOverlayWireSource A} (source : A) : Prop :=
  0 <= ov_kind source ∧ 0 <= ov_observed_unix_millis source ∧ 0 <= ov_received_unix_millis source.

Definition overlay_strings_wf `{AiOverlayWireSource A} (source : A) : bool :=
  wf_str (ov_event_id source) && wf_str (ov_stream_id source) && wf_str (ov_model_id source)
  && wf_str (ov_label source).

Lemma encode_overlay_event_enc `{AiOverlayWireSource A} (source : A) :
  overlay_encodable source →
  encode_overlay_event source = Ok (enc_fields (overlay_fields source)).
Proof.
  intros (Hk & Ho & Hr). unfold encode_overlay_event. wire_encode.
  rewrite encode_points_enc by solve_nonneg. cbn [mbind result_bind].
  rewrite geo_point_wire_enc. cbn [mbind result_bind]. wire_encode.
  rewrite timestamped_wire_enc by done. cbn [mbind result_bind]. wire_encode.
  unfold overlay_fields. rewrite !enc_fields_app, ?app_enc_field, ?app_nil_l.
  rewrite <-!app_assoc, !(app_assoc (enc_fields [_])), <-!enc_fields_app. done.
Qed.

Lemma overlay_fields_wf `{AiOverlayWireSource A} (source : A) :
  overlay_encodable source → forallb wf_field (overlay_fields source) = true.
Proof.
  intros (Hk & Ho & Hr). unfold overlay_fields. rewrite !forallb_app. cbn.
  unfold wf_field; cbn. rewrite !(proj2 (Z.leb_le 0 _)) by done. cbn.
  rewrite andb_true_r. induction (ov_points source); done.
Qed.

(** The values of the event's fields, one computation per field number. *)
Ltac overlay_field :=
  unfold overlay_fields, string_field, message_field;
  rewrite !field_values_app, field_values_repeated;
  first [reflexivity | etransitivity; [|apply app_nil_r]; reflexivity].

Lemma decode_points_collect fs n ps :
  field_values fs n = (λ p, WBytes (enc_fields (point_fields p))) <$> ps →
  mapM point_from_wire (bytes_values (collect fs) n) = Ok ps.
Proof.
  intros Hv. rewrite bytes_values_collect, Hv, (omap_as_bytes (λ p, enc_fields (point_fields p))).
  clear Hv. induction ps as [|p ps IH]; [done|]. rewrite fmap_cons. cbn [mapM].
  rewrite point_from_wire_enc. cbn [mbind result_bind]. by rewrite IH.
Qed.

Lemma decode_overlay_event_collect `{AiOverlayWireSource A} (source : A) :
  overlay_encodable source → overlay_strings_wf source = true →
  decode_overlay_event (enc_fields (overlay_fields source)) =
    Ok (mkDecodedAiOverlayEvent (ov_event_id source) (ov_stream_id source) (ov_model_id source)
          (ov_kind source) (ov_label source) (ov_confidence source) (ov_points source)
          (ov_latitude source) (ov_longitude source) (ov_altitude_m source)
          (ov_observed_unix_millis source) (ov_received_unix_millis source)).
Proof.
  intros He Hs. pose proof (overlay_fields_wf source He) as Hwf.
  destruct He as (Hk & Ho & Hr). unfold overlay_strings_wf in Hs. split_bools.
  set (ts := timestamp_fields (ov_observed_unix_millis source) (ov_received_unix_millis source)).
  set (geo := geo_fields (ov_latitude source) (ov_longitude source) (ov_altitude_m source)).
  assert (Hts : forallb wf_field ts = true).
  { unfold ts, wf_field; cbn. by rewrite !(proj2 (Z.leb_le 0 _)). }
  unfold decode_overlay_event. rewrite decode_message_enc by done. cbn [mbind result_bind].
  rewrite (optional_message_collect _ AiOverlayEventFields.GEO_ANCHOR geo)
    by (overlay_field || done). cbn [mbind result_bind].
  rewrite (single_message_collect _ AiOverlayEventFields.TIME ts) by (overlay_field || done).
  cbn [mbind result_bind].
  do 3 (erewrite single_string_collect by (overlay_field || eassumption); cbn [mbind result_bind]).
  erewrite (single_int_collect (overlay_fields source)) by overlay_field. cbn [mbind result_bind].
  erewrite single_string_collect by (overlay_field || eassumption). cbn [mbind result_bind].
  erewrite (single_float_collect (overlay_fields source)) by overlay_field. cbn [mbind result_bind].
  erewrite decode_points_collect by overlay_field. cbn [mbind result_bind anchor_float].
  do 3 (erewrite (single_float_collect geo) by reflexivity; cbn [mbind result_bind]).
  do 2 (erewrite (single_int_collect ts) by reflexivity; cbn [mbind result_bind]).
  done.
Qed.

(** ** Geometry of a detection *)

Lemma py_min_pair x y : py_min x [y] = if (y <? x)%float then y else x.
Proof. done. Qed.

Lemma to_dashboard_detection_Ok e r d : to_dashboard_detection e r = Ok d →
  dr_label d = oe_label e ∧ dr_track_id d = Some (oe_event_id e) ∧
  dr_confidence d = oe_confidence e ∧ dr_risk_score d = r ∧
  bounding_box_from_points (oe_points e) = Ok (dr_bbox d).
Proof.
  unfold to_dashboard_detection, detection_from_overlay_event. intros H. inv_ok. subst d. done.
Qed.

Definition sample_event : AiOverlayEventPayload :=
  mkAiOverlayEventPayload "ev-1" "live/s1" "model" OverlayKinds.BOUNDING_BOX "person" 0.75
    (points_from_bbox 0.125 0.25 0.5 0.25) 37.5 127 12 1767323045123 1767323045200.

Definition off_by_rounding : list OverlayPointPayload :=
  [mkPoint 0.0010005 0.5; mkPoint 1 0.75].

(** ** Properties *)

(** An overlay event survives the protobuf wire: with non-negative integers
    and well-formed text, [to_protobuf_wire] produces bytes from which
    [from_protobuf_wire] rebuilds the same event, its points in order included. *)
Theorem overlay_roundtrip (e : AiOverlayEventPayload) :
  overlay_encodable e → overlay_strings_wf e = true →
  ∃ payload, overlay_to_wire e = Ok payload ∧ overlay_from_wire payload = Ok e.
Proof.
  intros He Hs. exists (enc_fields (overlay_fields e)). unfold overlay_to_wire, overlay_from_wire.
  rewrite encode_overlay_event_enc, decode_overlay_event_collect by done.
  split; [done|]. by destruct e.
Qed.

Lemma overlay_roundtrip_witness :
  ∃ payload, overlay_to_wire sample_event = Ok payload ∧
    overlay_from_wire payload = Ok sample_event.
Proof. apply (overlay_roundtrip sample_event); [repeat split; discriminate|reflexivity]. Defined.

(** A dashboard response is only built from events of its own stream: when
    [dashboard_response_from_overlay_events] succeeds, every event belongs to
    the requested stream and there is one detection per event, in order, each
    computed from its event's points and tagged with its event id. *)
Theorem dashboard_response_stream (trim : string → string) (stream_id : string)
    (frame : FrameReference) (generated_at : datetime) (events : list AiOverlayEventPayload)
    (risk_score : float) (report_text : string) (r : AIEndpointResponse) :
  dashboard_response_from_overlay_events trim stream_id frame generated_at events risk_score
    report_text = Ok r →
  (∀ e, e ∈ events → oe_stream_id e = stream_id) ∧
  Forall2 (λ e d, ∃ raw, to_dashboard_detection e risk_score = Ok raw ∧
             dr_track_id raw = Some (oe_event_id e) ∧
             check_DetectionResult trim raw = Ok d) events (rs_detections r).
Proof.
  unfold dashboard_response_from_overlay_events. destruct (existsb _ _) eqn:Hex; [done|].
  intros H. inv_ok. unfold check_AIEndpointResponse in H. inv_ok. subst r.
  cbn [rs_detections] in *. split.
  - intros e He. destruct (String.eqb_spec (oe_stream_id e) stream_id) as [|Hne]; [done|].
    assert (existsb (λ event, negb (String.eqb (oe_stream_id event) stream_id)) events = true)
      as Hc; [|by rewrite Hc in Hex].
    apply existsb_exists. exists e. split; [by apply list_elem_of_In|].
    by apply negb_true_iff, String.eqb_neq.
  - repeat match goal with E : mapM _ _ = Ok _ |- _ => apply mapM_Ok in E end.
    eapply Forall2_compose; [|eassumption..]. cbn. intros e d d' Hd Hc.
    exists d. apply to_dashboard_detection_Ok in Hd as Hd'. naive_solver.
Qed.

Definition sample_frame : FrameReference := mkFrameReference "live/s1" None (mkDatetime 0 (Some 0)) None.

Definition sample_response : result AIEndpointResponse :=
  dashboard_response_from_overlay_events strip "live/s1" sample_frame (mkDatetime 5 (Some 0))
    [sample_event] 0.5 DEFAULT_AI_REPORT_TEXT.

Lemma dashboard_response_stream_witness :
  ∃ r, sample_response = Ok r ∧ (∀ e, e ∈ [sample_event] → oe_stream_id e = "live/s1") ∧
  Forall2 (λ e d, ∃ raw, to_dashboard_detection e 0.5 = Ok raw ∧
             dr_track_id raw = Some (oe_event_id e) ∧
             check_DetectionResult strip raw = Ok d) [sample_event] (rs_detections r).
Proof.
  destruct sample_response as [r|] eqn:E; [|vm_compute in E; discriminate].
  exists r. split; [done|].
  exact (dashboard_response_stream strip "live/s1" sample_frame (mkDatetime 5 (Some 0))
    [sample_event] 0.5 DEFAULT_AI_REPORT_TEXT r E).
Defined.

(** Rounding to six digits can push a box out of the frame: for two points
    inside the frame, [bounding_box_from_points] returns a box that the
    response schema then refuses because its x + width exceeds one. *)
Theorem rounded_box_leaves_frame :
  ∃ b, bounding_box_from_points off_by_rounding = Ok b ∧
    is_ok (check_BoundingBox b) = false.
Proof. eexists. split; [vm_compute; reflexivity|vm_compute; reflexivity]. Qed.

(** [unix_millis] reads a naive datetime as UTC and depends on an aware
    one only through its instant; but it truncates a float, so an instant
    holding a whole number of milliseconds can come out one millisecond early. *)
Theorem unix_millis_instant :
  (∀ w, unix_millis (mkDatetime w None) = unix_millis (mkDatetime w (Some 0))) ∧
  (∀ d, is_naive d = false → unix_millis d = unix_millis (to_utc d)) ∧
  (∃ ms, unix_millis (mkDatetime (ms * 1000) (Some 0)) = Ok (ms - 1)).
Proof.
  split; [done|]. split.
  - intros [w [o|]] H; [|done]. unfold unix_millis, timestamp, instant, to_utc; cbn.
    by rewrite Z.sub_0_r.
  - exists 1001. vm_compute. reflexivity.
Qed.
