(* ===== verification/Gateway.v ===== *)
(** Gateway envelopes and stream commands:
    [backend/modules/protocol_v2/gateway_service.py],
    [gateway_service_contract.py], [gateway_service_payloads.py] and
    [stream_control.py].

    Field numbers are those of [contracts/proto/gcs/saker/v1/gateway_service.proto].
    A request carries exactly one payload of a one-of; a response at most one. *)

From stdpp Require Import base list gmap strings.
From Stdlib Require Import ZArith Lia Strings.Byte Floats.
From S2P Require Import Prelude PyStr PyFloat PyTime Wire TelemetryWire.

#[local] Open Scope Z_scope.

(** [backend/modules/protocol_v2/gateway_service_contract.py:13-18] GatewayAckStatus *)
Inductive GatewayAckStatus : Type := UNSPECIFIED | ACCEPTED | REJECTED | BACKPRESSURE | RECONNECT.

#[export] Instance GatewayAckStatus_eq_dec : EqDecision GatewayAckStatus.
Proof. solve_decision. Defined.

(** [int(status)] *)
Definition status_number (s : GatewayAckStatus) : Z :=
  match s with
  | UNSPECIFIED => 0 | ACCEPTED => 1 | REJECTED => 2 | BACKPRESSURE => 3 | RECONNECT => 4
  end.

(** [GatewayAckStatus(n)] *)
Definition status_of_number (n : Z) : result GatewayAckStatus :=
  if n =? 0 then Ok UNSPECIFIED
  else if n =? 1 then Ok ACCEPTED
  else if n =? 2 then Ok REJECTED
  else if n =? 3 then Ok BACKPRESSURE
  else if n =? 4 then Ok RECONNECT
  else value_error (str_of_Z n +:+ " is not a valid GatewayAckStatus").

(** [backend/modules/protocol_v2/gateway_service_contract.py:21-26] GatewayPayloadKind *)
Module GatewayPayloadKind.
Definition TELEMETRY : string := "telemetry".
Definition STREAM_EVENT : string := "stream_event".
Definition COMMAND_ACK : string := "command_ack".
Definition COMMAND : string := "command".
Definition TELEMETRY_BATCH : string := "telemetry_batch".
End GatewayPayloadKind.

(** [backend/modules/protocol_v2/gateway_service_contract.py:29-36] GatewayStreamRequestFields *)
Module GatewayStreamRequestFields.
Definition REQUEST_ID : Z := 1.
Definition ORG_ID : Z := 2.
Definition GROUP_ID : Z := 3.
Definition ASSET_ID : Z := 4.
Definition TELEMETRY : Z := 10.
Definition STREAM_EVENT : Z := 11.
Definition COMMAND_ACK : Z := 12.
End GatewayStreamRequestFields.

(** [backend/modules/protocol_v2/gateway_service_contract.py:39-45] GatewayStreamResponseFields *)
Module GatewayStreamResponseFields.
Definition RESPONSE_ID : Z := 1.
Definition REQUEST_ID : Z := 2.
Definition STATUS : Z := 3.
Definition REASON_CODE : Z := 4.
Definition COMMAND : Z := 10.
Definition TELEMETRY_BATCH : Z := 11.
End GatewayStreamResponseFields.

(** [backend/modules/protocol_v2/gateway_service_contract.py:48-52] REQUEST_PAYLOAD_FIELDS *)
Definition REQUEST_PAYLOAD_FIELDS : list (string * Z) :=
  [(GatewayPayloadKind.TELEMETRY, GatewayStreamRequestFields.TELEMETRY);
   (GatewayPayloadKind.STREAM_EVENT, GatewayStreamRequestFields.STREAM_EVENT);
   (GatewayPayloadKind.COMMAND_ACK, GatewayStreamRequestFields.COMMAND_ACK)].

(** [backend/modules/protocol_v2/gateway_service_contract.py:54-57] RESPONSE_PAYLOAD_FIELDS *)
Definition RESPONSE_PAYLOAD_FIELDS : list (string * Z) :=
  [(GatewayPayloadKind.COMMAND, GatewayStreamResponseFields.COMMAND);
   (GatewayPayloadKind.TELEMETRY_BATCH, GatewayStreamResponseFields.TELEMETRY_BATCH)].

(** ** Payloads *)

(** [backend/modules/protocol_v2/gateway_service_payloads.py:14-29] GatewayStreamRequestPayload *)
Record GatewayStreamRequestPayload : Type := mkPayload { pl_kind : string; pl_value : list byte }.

Definition payload_telemetry (value : list byte) := mkPayload GatewayPayloadKind.TELEMETRY value.
Definition payload_stream_event (value : list byte) := mkPayload GatewayPayloadKind.STREAM_EVENT value.
Definition payload_command_ack (value : list byte) := mkPayload GatewayPayloadKind.COMMAND_ACK value.

(** [backend/modules/protocol_v2/gateway_service_payloads.py:32-36] request_payload_field *)
Definition request_payload_field (kind : string) : result Z :=
  match dict_get REQUEST_PAYLOAD_FIELDS kind with
  | Some n => Ok n
  | None => value_error ("unsupported gateway request payload kind: " +:+ kind)
  end.

(** [backend/modules/protocol_v2/gateway_service_payloads.py:39-43] response_payload_field *)
Definition response_payload_field (kind : string) : result Z :=
  match dict_get RESPONSE_PAYLOAD_FIELDS kind with
  | Some n => Ok n
  | None => value_error ("unsupported gateway response payload kind: " +:+ kind)
  end.

Definition nonempty {A} (l : list A) : bool := match l with [] => false | _ => true end.

(** [backend/modules/protocol_v2/gateway_service_payloads.py:46-50] request_payload_field_and_kind *)
Definition request_payload_field_and_kind (decoded : DecodedWireMessage) : result (Z * string) :=
  let present := filter (λ kf, nonempty (bytes_values decoded kf.2) = true) REQUEST_PAYLOAD_FIELDS in
  match present with
  | [(kind, field)] => Ok (field, kind)
  | _ => value_error "gateway request must contain exactly one payload"
  end.

(** [backend/modules/protocol_v2/gateway_service_payloads.py:53-64] response_payload *)
Definition response_payload (decoded : DecodedWireMessage)
    : result (option GatewayStreamRequestPayload) :=
  let command := bytes_values decoded GatewayStreamResponseFields.COMMAND in
  let telemetry_batch := bytes_values decoded GatewayStreamResponseFields.TELEMETRY_BATCH in
  if nonempty command && nonempty telemetry_batch then
    value_error "gateway response must contain at most one payload"
  else if (Nat.ltb 1 (length command)) || (Nat.ltb 1 (length telemetry_batch)) then
    value_error "gateway response payload must not be repeated"
  else match command, telemetry_batch with
  | v :: _, _ => Ok (Some (mkPayload GatewayPayloadKind.COMMAND v))
  | [], v :: _ => Ok (Some (mkPayload GatewayPayloadKind.TELEMETRY_BATCH v))
  | [], [] => Ok None
  end.

(** ** Requests *)

(** [backend/modules/protocol_v2/gateway_service.py:29-35] GatewayStreamRequest *)
Record GatewayStreamRequest : Type := mkGatewayStreamRequest {
  gr_request_id : string;
  gr_org_id : string;
  gr_group_id : string;
  gr_asset_id : string;
  gr_payload : GatewayStreamRequestPayload
}.

(** [backend/modules/protocol_v2/gateway_service.py:37-44] to_protobuf_wire *)
Definition request_to_wire (self : GatewayStreamRequest) : result (list byte) :=
  payload ← encode_string [] GatewayStreamRequestFields.REQUEST_ID (gr_request_id self);
  payload ← encode_string payload GatewayStreamRequestFields.ORG_ID (gr_org_id self);
  payload ← encode_string payload GatewayStreamRequestFields.GROUP_ID (gr_group_id self);
  payload ← encode_string payload GatewayStreamRequestFields.ASSET_ID (gr_asset_id self);
  field ← request_payload_field (pl_kind (gr_payload self));
  encode_bytes payload field (pl_value (gr_payload self)).

(** [backend/modules/protocol_v2/gateway_service.py:46-59] from_protobuf_wire *)
Definition request_from_wire (payload : list byte) : result GatewayStreamRequest :=
  decoded ← decode_message payload;
  '(payload_field, payload_kind) ← request_payload_field_and_kind decoded;
  request_id ← single_string decoded GatewayStreamRequestFields.REQUEST_ID;
  org_id ← single_string decoded GatewayStreamRequestFields.ORG_ID;
  group_id ← single_string decoded GatewayStreamRequestFields.GROUP_ID;
  asset_id ← single_string decoded GatewayStreamRequestFields.ASSET_ID;
  value ← single_bytes decoded payload_field;
  Ok (mkGatewayStreamRequest request_id org_id group_id asset_id (mkPayload payload_kind value)).

(** ** Responses *)

(** [backend/modules/protocol_v2/gateway_service.py:62-68] GatewayStreamResponse *)
Record GatewayStreamResponse : Type := mkGatewayStreamResponse {
  gs_response_id : string;
  gs_request_id : string;
  gs_status : GatewayAckStatus;
  gs_reason_code : string;
  gs_payload : option GatewayStreamRequestPayload
}.

(** [backend/modules/protocol_v2/gateway_service.py:70-79] to_protobuf_wire *)
Definition response_to_wire (self : GatewayStreamResponse) : result (list byte) :=
  payload ← encode_string [] GatewayStreamResponseFields.RESPONSE_ID (gs_response_id self);
  payload ← (if truthy (gs_request_id self)
             then encode_string payload GatewayStreamResponseFields.REQUEST_ID (gs_request_id self)
             else Ok payload);
  payload ← encode_varint_field payload GatewayStreamResponseFields.STATUS
              (status_number (gs_status self));
  payload ← encode_string payload GatewayStreamResponseFields.REASON_CODE (gs_reason_code self);
  match gs_payload self with
  | Some p => field ← response_payload_field (pl_kind p); encode_bytes payload field (pl_value p)
  | None => Ok payload
  end.

(** [backend/modules/protocol_v2/gateway_service.py:81-90] from_protobuf_wire *)
Definition response_from_wire (payload : list byte) : result GatewayStreamResponse :=
  decoded ← decode_message payload;
  response_id ← single_string decoded GatewayStreamResponseFields.RESPONSE_ID;
  request_id ← optional_string decoded GatewayStreamResponseFields.REQUEST_ID;
  number ← single_int decoded GatewayStreamResponseFields.STATUS;
  status ← status_of_number number;
  reason_code ← single_string decoded GatewayStreamResponseFields.REASON_CODE;
  payload ← response_payload decoded;
  Ok (mkGatewayStreamResponse response_id request_id status reason_code payload).

(** ** Stream commands *)

(** [backend/modules/protocol_v2/stream_control.py:18-24] StreamCommandFields *)
Module StreamCommandFields.
Definition COMMAND_ID : Z := 1.
Definition STREAM_ID : Z := 2.
Definition TARGET_ASSET_ID : Z := 3.
Definition COMMAND_TYPE : Z := 4.
Definition PAYLOAD : Z := 5.
Definition TIME : Z := 6.
End StreamCommandFields.

(** [backend/modules/protocol_v2/stream_control.py:27-34] StreamCommandPayload *)
Record StreamCommandPayload : Type := mkStreamCommandPayload {
  sc_command_id : string;
  sc_stream_id : string;
  sc_target_asset_id : string;
  sc_command_type : string;
  sc_observed_unix_millis : Z;
  sc_payload : list byte
}.

(** [backend/modules/protocol_v2/stream_control.py:36-51] create *)
Definition create_stream_command (time : float) (uuid4 stream_id target_asset_id command_type : string)
    (observed_unix_millis : option Z) : result StreamCommandPayload :=
  observed ← (match observed_unix_millis with
              | Some n => if n =? 0 then trunc_float (time * 1000)%float else Ok n
              | None => trunc_float (time * 1000)%float
              end);
  Ok (mkStreamCommandPayload uuid4 stream_id target_asset_id command_type observed []).

(** [backend/modules/protocol_v2/stream_control.py:53-64] to_protobuf_wire *)
Definition command_to_wire (self : StreamCommandPayload) : result (list byte) :=
  payload ← encode_string [] StreamCommandFields.COMMAND_ID (sc_command_id self);
  payload ← encode_string payload StreamCommandFields.STREAM_ID (sc_stream_id self);
  payload ← encode_string payload StreamCommandFields.TARGET_ASSET_ID (sc_target_asset_id self);
  payload ← encode_string payload StreamCommandFields.COMMAND_TYPE (sc_command_type self);
  payload ← (if nonempty (sc_payload self)
             then encode_bytes payload StreamCommandFields.PAYLOAD (sc_payload self)
             else Ok payload);
  time ← timestamped_wire (sc_observed_unix_millis self) (sc_observed_unix_millis self);
  encode_bytes payload StreamCommandFields.TIME time.

(** [backend/modules/protocol_v2/stream_control.py:66-77] from_protobuf_wire *)
Definition command_from_wire (payload : list byte) : result StreamCommandPayload :=
  decoded ← decode_message payload;
  time_message ← single_message decoded StreamCommandFields.TIME;
  command_id ← single_string decoded StreamCommandFields.COMMAND_ID;
  stream_id ← single_string decoded StreamCommandFields.STREAM_ID;
  target_asset_id ← single_string decoded StreamCommandFields.TARGET_ASSET_ID;
  command_type ← single_string decoded StreamCommandFields.COMMAND_TYPE;
  observed ← single_int time_message TimestampedFields.OBSERVED_UNIX_MILLIS;
  payload ← single_optional_bytes decoded StreamCommandFields.PAYLOAD;
  Ok (mkStreamCommandPayload command_id stream_id target_asset_id command_type observed payload).

(** ** Reading back what was written *)

Lemma status_of_to_number s : status_of_number (status_number s) = Ok s.
Proof. by destruct s. Qed.

Lemma request_payload_field_Ok kind n :
  request_payload_field kind = Ok n → (kind, n) ∈ REQUEST_PAYLOAD_FIELDS.
Proof.
  unfold request_payload_field. destruct (dict_get _ _) eqn:E; [|done]. intros [= <-].
  by apply dict_get_elem.
Qed.

Lemma response_payload_field_Ok kind n :
  response_payload_field kind = Ok n → (kind, n) ∈ RESPONSE_PAYLOAD_FIELDS.
Proof.
  unfold response_payload_field. destruct (dict_get _ _) eqn:E; [|done]. intros [= <-].
  by apply dict_get_elem.
Qed.

Lemma single_bytes_collect fs n b : field_values fs n = [WBytes b] → single_bytes (collect fs) n = Ok b.
Proof. intros Hv. unfold single_bytes. by rewrite bytes_values_collect, Hv. Qed.

Definition request_fields (r : GatewayStreamRequest) (n : Z) : list wire_field :=
  [string_field GatewayStreamRequestFields.REQUEST_ID (gr_request_id r);
   string_field GatewayStreamRequestFields.ORG_ID (gr_org_id r);
   string_field GatewayStreamRequestFields.GROUP_ID (gr_group_id r);
   string_field GatewayStreamRequestFields.ASSET_ID (gr_asset_id r);
   (n, WBytes (pl_value (gr_payload r)))].

Definition request_strings_wf (r : GatewayStreamRequest) : bool :=
  wf_str (gr_request_id r) && wf_str (gr_org_id r) && wf_str (gr_group_id r)
  && wf_str (gr_asset_id r).

Lemma request_to_wire_enc r n : request_payload_field (pl_kind (gr_payload r)) = Ok n → 0 <= n →
  request_to_wire r = Ok (enc_fields (request_fields r n)).
Proof.
  intros Hn Hpos. unfold request_to_wire. wire_encode. rewrite Hn. cbn [mbind result_bind].
  wire_encode. wire_flatten.
Qed.

Lemma request_payload_of_fields r n : (pl_kind (gr_payload r), n) ∈ REQUEST_PAYLOAD_FIELDS →
  forallb wf_field (request_fields r n) = true ∧ 0 <= n ∧
  request_payload_field_and_kind (collect (request_fields r n)) = Ok (n, pl_kind (gr_payload r)) ∧
  field_values (request_fields r n) n = [WBytes (pl_value (gr_payload r))] ∧
  field_values (request_fields r n) GatewayStreamRequestFields.REQUEST_ID = [WBytes (utf8_encode (gr_request_id r))] ∧
  field_values (request_fields r n) GatewayStreamRequestFields.ORG_ID = [WBytes (utf8_encode (gr_org_id r))] ∧
  field_values (request_fields r n) GatewayStreamRequestFields.GROUP_ID = [WBytes (utf8_encode (gr_group_id r))] ∧
  field_values (request_fields r n) GatewayStreamRequestFields.ASSET_ID = [WBytes (utf8_encode (gr_asset_id r))].
Proof.
  destruct r as [rid org grp ast [kind value]]; cbn [gr_payload pl_kind].
  unfold REQUEST_PAYLOAD_FIELDS. rewrite !elem_of_cons, elem_of_nil.
  intros [[= -> ->]|[[= -> ->]|[[= -> ->]|[]]]]; (split; [reflexivity|]); (split; [discriminate|]);
    unfold request_payload_field_and_kind, REQUEST_PAYLOAD_FIELDS;
    rewrite !filter_cons, !bytes_values_collect; cbn; done.
Qed.

(** [single_string] on a field that was written once as text. *)
Ltac read_string Hv :=
  rewrite (single_string_collect _ _ _ Hv) by assumption; cbn [mbind result_bind].

Lemma request_from_wire_enc r n : (pl_kind (gr_payload r), n) ∈ REQUEST_PAYLOAD_FIELDS →
  request_strings_wf r = true → request_from_wire (enc_fields (request_fields r n)) = Ok r.
Proof.
  intros Hn Hs. unfold request_strings_wf in Hs. split_bools.
  destruct (request_payload_of_fields r n Hn) as (Hwf & _ & Hp & Hv & E1 & E2 & E3 & E4).
  unfold request_from_wire. rewrite decode_message_enc by done. cbn [mbind result_bind].
  rewrite Hp. cbn [mbind result_bind]. read_string E1. read_string E2. read_string E3. read_string E4.
  rewrite (single_bytes_collect _ _ _ Hv). cbn. by destruct r as [???? []].
Qed.

Definition sample_gateway_request : GatewayStreamRequest :=
  mkGatewayStreamRequest "r1" "org" "grp" "asset" (payload_command_ack [x00; x80]).

Definition optional_field (present : bool) (f : wire_field) : list wire_field :=
  if present then [f] else [].

(** The one-of part of a response. *)
Definition payload_fields (p : option GatewayStreamRequestPayload) : result (list wire_field) :=
  match p with
  | Some p => n ← response_payload_field (pl_kind p); Ok [(n, WBytes (pl_value p))]
  | None => Ok []
  end.

Definition response_fields (r : GatewayStreamResponse) (extra : list wire_field) : list wire_field :=
  [string_field GatewayStreamResponseFields.RESPONSE_ID (gs_response_id r)]
  ++ optional_field (truthy (gs_request_id r))
       (string_field GatewayStreamResponseFields.REQUEST_ID (gs_request_id r))
  ++ [(GatewayStreamResponseFields.STATUS, WInt (status_number (gs_status r)));
      string_field GatewayStreamResponseFields.REASON_CODE (gs_reason_code r)]
  ++ extra.

Definition response_strings_wf (r : GatewayStreamResponse) : bool :=
  wf_str (gs_response_id r) && wf_str (gs_request_id r) && wf_str (gs_reason_code r).

Lemma status_number_nonneg s : 0 <= status_number s.
Proof. by destruct s. Qed.

Lemma payload_fields_cases p fs : payload_fields p = Ok fs →
  (p = None ∧ fs = []) ∨
  (∃ v, p = Some (mkPayload GatewayPayloadKind.COMMAND v) ∧
     fs = [(GatewayStreamResponseFields.COMMAND, WBytes v)]) ∨
  (∃ v, p = Some (mkPayload GatewayPayloadKind.TELEMETRY_BATCH v) ∧
     fs = [(GatewayStreamResponseFields.TELEMETRY_BATCH, WBytes v)]).
Proof.
  destruct p as [[kind v]|]; cbn [payload_fields pl_kind pl_value]; [|intros [= <-]; by left].
  intros H. inv_ok. apply response_payload_field_Ok in Ha. subst fs. right.
  unfold RESPONSE_PAYLOAD_FIELDS in Ha. rewrite !elem_of_cons, elem_of_nil in Ha.
  destruct Ha as [[= -> ->]|[[= -> ->]|[]]]; [left|right]; by exists v.
Qed.

Lemma response_to_wire_enc r extra : payload_fields (gs_payload r) = Ok extra →
  response_to_wire r = Ok (enc_fields (response_fields r extra)).
Proof.
  intros Hp. pose proof (status_number_nonneg (gs_status r)) as Hs.
  unfold response_to_wire, response_fields, optional_field. wire_encode.
  destruct (truthy (gs_request_id r)).
  - wire_encode. destruct (payload_fields_cases _ _ Hp) as [[-> ->]|[(v & -> & ->)|(v & -> & ->)]].
    + wire_flatten.
    + change (response_payload_field _) with (Ok 10). cbn [mbind result_bind]. wire_encode. wire_flatten.
    + change (response_payload_field _) with (Ok 11). cbn [mbind result_bind]. wire_encode. wire_flatten.
  - cbn [mbind result_bind]. wire_encode.
    destruct (payload_fields_cases _ _ Hp) as [[-> ->]|[(v & -> & ->)|(v & -> & ->)]].
    + wire_flatten.
    + change (response_payload_field _) with (Ok 10). cbn [mbind result_bind]. wire_encode. wire_flatten.
    + change (response_payload_field _) with (Ok 11). cbn [mbind result_bind]. wire_encode. wire_flatten.
Qed.

Lemma response_values r extra : payload_fields (gs_payload r) = Ok extra →
  forallb wf_field (response_fields r extra) = true ∧
  response_payload (collect (response_fields r extra)) = Ok (gs_payload r) ∧
  field_values (response_fields r extra) GatewayStreamResponseFields.RESPONSE_ID = [WBytes (utf8_encode (gs_response_id r))] ∧
  field_values (response_fields r extra) GatewayStreamResponseFields.REQUEST_ID
    = (λ s, WBytes (utf8_encode s)) <$> (if truthy (gs_request_id r) then [gs_request_id r] else []) ∧
  field_values (response_fields r extra) GatewayStreamResponseFields.STATUS = [WInt (status_number (gs_status r))] ∧
  field_values (response_fields r extra) GatewayStreamResponseFields.REASON_CODE = [WBytes (utf8_encode (gs_reason_code r))].
Proof.
  intros Hp. unfold response_payload, response_fields, optional_field.
  destruct r as [rid req st rc p]; cbn [gs_payload gs_response_id gs_request_id gs_status
    gs_reason_code] in *.
  rewrite !bytes_values_collect.
  destruct (payload_fields_cases _ _ Hp) as [[-> ->]|[(v & -> & ->)|(v & -> & ->)]];
    destruct (truthy req), st; repeat split.
Qed.

Lemma response_from_wire_enc r extra : payload_fields (gs_payload r) = Ok extra →
  response_strings_wf r = true → response_from_wire (enc_fields (response_fields r extra)) = Ok r.
Proof.
  intros Hp Hs. unfold response_strings_wf in Hs. split_bools.
  destruct (response_values r extra Hp) as (Hwf & Hpl & E1 & E2 & E3 & E4).
  unfold response_from_wire. rewrite decode_message_enc by done. cbn [mbind result_bind].
  read_string E1. unfold optional_string at 1. erewrite decoded_strings_collect by
    (exact E2 || (destruct (truthy (gs_request_id r)); cbn; by rewrite ?andb_true_r)).
  assert (match (if truthy (gs_request_id r) then [gs_request_id r] else []) with
          | [] => Ok "" | [v] => Ok v
          | _ => field_error GatewayStreamResponseFields.REQUEST_ID "at most one string"
          end = Ok (gs_request_id r)) as Hreq by (destruct (gs_request_id r); done).
  cbn [mbind result_bind]. rewrite Hreq. cbn [mbind result_bind].
  rewrite (single_int_collect _ _ _ E3). cbn [mbind result_bind]. rewrite status_of_to_number.
  cbn [mbind result_bind]. read_string E4. rewrite Hpl. by destruct r.
Qed.

Definition command_fields (c : StreamCommandPayload) : list wire_field :=
  [string_field StreamCommandFields.COMMAND_ID (sc_command_id c);
   string_field StreamCommandFields.STREAM_ID (sc_stream_id c);
   string_field StreamCommandFields.TARGET_ASSET_ID (sc_target_asset_id c);
   string_field StreamCommandFields.COMMAND_TYPE (sc_command_type c)]
  ++ optional_field (nonempty (sc_payload c)) (StreamCommandFields.PAYLOAD, WBytes (sc_payload c))
  ++ [message_field StreamCommandFields.TIME
        (timestamp_fields (sc_observed_unix_millis c) (sc_observed_unix_millis c))].

Definition command_strings_wf (c : StreamCommandPayload) : bool :=
  wf_str (sc_command_id c) && wf_str (sc_stream_id c) && wf_str (sc_target_asset_id c)
  && wf_str (sc_command_type c).

Lemma command_to_wire_enc c : 0 <= sc_observed_unix_millis c →
  command_to_wire c = Ok (enc_fields (command_fields c)).
Proof.
  intros Ho. unfold command_to_wire, command_fields, optional_field. wire_encode.
  rewrite timestamped_wire_enc by done.
  destruct (nonempty (sc_payload c)); wire_encode; wire_flatten.
Qed.

Lemma command_from_wire_enc c : 0 <= sc_observed_unix_millis c → command_strings_wf c = true →
  command_from_wire (enc_fields (command_fields c)) = Ok c.
Proof.
  intros Ho Hs. unfold command_strings_wf in Hs. split_bools.
  set (ts := timestamp_fields (sc_observed_unix_millis c) (sc_observed_unix_millis c)).
  assert (Hts : forallb wf_field ts = true).
  { unfold ts, wf_field; cbn. by rewrite !(proj2 (Z.leb_le 0 _)). }
  assert (Hwf : forallb wf_field (command_fields c) = true).
  { unfold command_fields, optional_field. by destruct (nonempty (sc_payload c)). }
  unfold command_from_wire. rewrite decode_message_enc by done. cbn [mbind result_bind].
  assert (Hall : field_values (command_fields c) StreamCommandFields.TIME = [WBytes (enc_fields ts)] ∧
    single_optional_bytes (collect (command_fields c)) StreamCommandFields.PAYLOAD
      = Ok (sc_payload c) ∧
    Forall (λ ns, field_values (command_fields c) ns.1 = [WBytes (utf8_encode ns.2)])
      [(StreamCommandFields.COMMAND_ID, sc_command_id c);
       (StreamCommandFields.STREAM_ID, sc_stream_id c);
       (StreamCommandFields.TARGET_ASSET_ID, sc_target_asset_id c);
       (StreamCommandFields.COMMAND_TYPE, sc_command_type c)]).
  { unfold single_optional_bytes. rewrite bytes_values_collect. unfold command_fields, optional_field.
    destruct c as [? ? ? ? ? [|b bs]]; (split; [reflexivity|]); (split; [reflexivity|]);
      repeat constructor. }
  destruct Hall as (Ht & Hp & Hstr). rewrite !Forall_cons in Hstr.
  destruct Hstr as (E1 & E2 & E3 & E4 & _). cbn [fst snd] in *.
  rewrite (single_message_collect _ _ ts Ht Hts). cbn [mbind result_bind].
  read_string E1. read_string E2. read_string E3. read_string E4.
  erewrite (single_int_collect ts) by reflexivity. cbn [mbind result_bind]. rewrite Hp.
  by destruct c.
Qed.

(** ** Properties *)

(** A gateway request is encodable exactly when its payload is of one of
    the three kinds of the one-of, and an encoded request with well-formed text
    decodes to itself, payload kind and bytes included. *)
Theorem gateway_request_roundtrip (r : GatewayStreamRequest) :
  (is_ok (request_to_wire r) = true ↔ pl_kind (gr_payload r) ∈ dict_keys REQUEST_PAYLOAD_FIELDS) ∧
  (∀ payload, request_strings_wf r = true → request_to_wire r = Ok payload →
     request_from_wire payload = Ok r).
Proof.
  assert (Hok : ∀ n, request_payload_field (pl_kind (gr_payload r)) = Ok n →
    request_to_wire r = Ok (enc_fields (request_fields r n)) ∧
    (request_strings_wf r = true → request_from_wire (enc_fields (request_fields r n)) = Ok r)).
  { intros n Hn. pose proof (request_payload_field_Ok _ _ Hn) as Hin.
    destruct (request_payload_of_fields r n Hin) as (_ & Hpos & _).
    split; [by apply request_to_wire_enc|]. by apply request_from_wire_enc. }
  assert (Hfield : ∀ b, request_to_wire r = Ok b →
    ∃ n, request_payload_field (pl_kind (gr_payload r)) = Ok n).
  { unfold request_to_wire. intros b Hb. inv_ok. eauto. }
  split; [rewrite is_ok_true; split|].
  - intros [b Hb]. destruct (Hfield b Hb) as [n Hn]. apply request_payload_field_Ok in Hn.
    apply list_elem_of_fmap. by eexists (_, n).
  - intros Hk. destruct (dict_get REQUEST_PAYLOAD_FIELDS (pl_kind (gr_payload r))) as [n|] eqn:E.
    + exists (enc_fields (request_fields r n)). apply Hok. unfold request_payload_field. by rewrite E.
    + by apply dict_get_None in E.
  - intros b Hs Hb. destruct (Hfield b Hb) as [n Hn]. destruct (Hok n Hn) as [Hw Hr].
    rewrite Hw in Hb. injection Hb as <-. auto.
Qed.

(** A gateway response whose payload, if any, is a command or a telemetry
    batch survives the wire: it encodes, and decodes to itself with its
    acknowledgement status; an absent request id comes back as empty text. *)
Theorem gateway_response_roundtrip (r : GatewayStreamResponse) (extra : list wire_field) :
  payload_fields (gs_payload r) = Ok extra → response_strings_wf r = true →
  ∃ payload, response_to_wire r = Ok payload ∧ response_from_wire payload = Ok r.
Proof.
  intros Hp Hs. exists (enc_fields (response_fields r extra)).
  split; [by apply response_to_wire_enc|by apply response_from_wire_enc].
Qed.

Lemma gateway_response_roundtrip_witness :
  let r := mkGatewayStreamResponse "p1" "" BACKPRESSURE "queue_full"
             (Some (mkPayload GatewayPayloadKind.COMMAND [x01; xff])) in
  ∃ payload, response_to_wire r = Ok payload ∧ response_from_wire payload = Ok r.
Proof. intros r. eapply (gateway_response_roundtrip r); reflexivity. Defined.

(** A stream command with a non-negative time and well-formed text encodes
    and decodes to itself, with and without a payload. *)
Theorem stream_command_roundtrip (c : StreamCommandPayload) :
  0 <= sc_observed_unix_millis c → command_strings_wf c = true →
  ∃ payload, command_to_wire c = Ok payload ∧ command_from_wire payload = Ok c.
Proof.
  intros Ho Hs. exists (enc_fields (command_fields c)).
  split; [by apply command_to_wire_enc|by apply command_from_wire_enc].
Qed.

Lemma stream_command_roundtrip_witness :
  let c := mkStreamCommandPayload "c1" "s1" "a1" "stop" 1767323045123 [] in
  ∃ payload, command_to_wire c = Ok payload ∧ command_from_wire payload = Ok c.
Proof. intros c. apply (stream_command_roundtrip c); [discriminate|reflexivity]. Defined.
