(* ===== verification/TelemetryIngest.v ===== *)
(** Telemetry ingestion: [backend/modules/telemetry_ingest/service.py],
    [backend/sql/telemetry_sql.py], [backend/mqtt/telemetry_sink.py] and the
    routes of [backend/api/telemetry.py].

    The read model is a bounded [OrderedDict], here an association list in
    insertion order.  The database session belongs to SQLAlchemy: the class
    [TelemetrySession] holds the operations the source calls, and its laws,
    [TelemetrySessionLaws], state what a committed row is worth. *)

From stdpp Require Import base list strings.
From Stdlib Require Import ZArith Lia Floats.
From S2P Require Import Prelude PyStr PyFloat PyTime TelemetryModel.

#[local] Open Scope Z_scope.

(** A database row or a mapped object: attribute (or column) names and values. *)
Definition row : Type := list (string * value).

(** [backend/sql/telemetry_sql.py:6-28] Telemetry

    The column names of the table, which are the keys of its [excluded]
    namespace. *)
Definition telemetry_table_columns : list string :=
  ["uuid"; "latitude"; "longitude"; "altitude"; "magneticX"; "magneticY"; "magneticZ"; "soc";
   "phoneBatterySOC"; "velocity"; "totalDistance"; "epochTime"; "portDistance"].

Definition TELEMETRY_TABLE : string := "telemetry_realtime".

(** What the statement builders of the source can express. *)
Inductive conflict_clause : Type :=
  | NoConflictClause
  | OnConflictDoUpdate (index_elements set_ : list string)
  | OnDuplicateKeyUpdate (set_ : list string).

Record insert_statement : Type := mkInsert {
  st_table : string;
  st_rows : list row;
  st_conflict : conflict_clause
}.

(** [getattr(statement.excluded, column)]: an unknown column raises. *)
Definition excluded_attr (columns : list string) (column : string) : result string :=
  if decide (column ∈ columns) then Ok column else throw ExcAttributeError column.

(** [str] of an optional key, as the keys of the read model. *)
#[export] Instance option_string_eq_dec : EqDecision (option string) := _.

(** ** Commands *)

(** [backend/modules/telemetry_ingest/service.py:15-21] TelemetryIngestCommand *)
Record TelemetryIngestCommand : Type := from_create { payload : TelemetryCreate }.

(** [backend/modules/telemetry_ingest/service.py:29-30] db_insert_payload *)
Definition db_insert_payload (c : TelemetryIngestCommand) : row := model_dump false false (payload c).

(** [backend/modules/telemetry_ingest/service.py:32-33] db_update_payload *)
Definition db_update_payload (c : TelemetryIngestCommand) : row := model_dump true false (payload c).

(** ** Time of day *)

(** [backend/modules/telemetry_ingest/service.py:113-118] format_epoch_seconds

    On a float, the type [format_epoch_millis] passes. *)
Definition format_epoch_seconds (epoch_val : float) : result string :=
  sec ← trunc_float epoch_val;
  let h := sec / 3600 in
  let m := (sec mod 3600) / 60 in
  let s := sec mod 60 in
  Ok (pad2 h +:+ ":" +:+ pad2 m +:+ ":" +:+ pad2 s).

(** [backend/modules/telemetry_ingest/service.py:107-110] format_epoch_millis *)
Definition format_epoch_millis (epoch_val : option Z) : result (option string) :=
  match epoch_val with
  | None => Ok None
  | Some n => seconds ← true_div n 1000; Some <$> format_epoch_seconds seconds
  end.

(** [backend/modules/telemetry_ingest/service.py:35-41] response_snapshot

    The alias [epochTime] takes precedence over the dumped [epoch_time]. *)
Definition response_snapshot (c : TelemetryIngestCommand) : result TelemetryResponse :=
  let p := payload c in
  epoch_time ← format_epoch_millis (tc_epoch_time p);
  Ok {|
    tr_uuid := tc_uuid p;
    tr_latitude := tc_latitude p;
    tr_longitude := tc_longitude p;
    tr_altitude := tc_altitude p;
    tr_magnetic_x := tc_magnetic_x p;
    tr_magnetic_y := tc_magnetic_y p;
    tr_magnetic_z := tc_magnetic_z p;
    tr_soc := tc_soc p;
    tr_phone_battery_soc := tc_phone_battery_soc p;
    tr_velocity := tc_velocity p;
    tr_total_distance := tc_total_distance p;
    tr_epoch_time := epoch_time;
    tr_port_distance := tc_port_distance p
  |}.

(** ** The read model *)

(** [backend/modules/telemetry_ingest/service.py:44-52] TelemetryReadModelStore *)
Record TelemetryReadModelStore : Type := mkStore {
  max_snapshots : nat;
  snapshots : list (option string * TelemetryResponse)
}.

Definition new_store (max_snapshots : Z) : result TelemetryReadModelStore :=
  if max_snapshots <=? 0 then value_error "max telemetry snapshots must be positive"
  else Ok (mkStore (Z.to_nat max_snapshots) []).

(** [while len(d) > n: d.popitem(last=False)] *)
Fixpoint evict (n : nat) (l : list (option string * TelemetryResponse)) :=
  if Nat.ltb n (length l) then match l with [] => [] | _ :: l' => evict n l' end else l.

(** [backend/modules/telemetry_ingest/service.py:54-61] upsert *)
Definition store_upsert (self : TelemetryReadModelStore) (command : TelemetryIngestCommand)
    : result (TelemetryResponse * TelemetryReadModelStore) :=
  snapshot ← response_snapshot command;
  let key := tc_uuid (payload command) in
  let snapshots' := dict_set (dict_del (snapshots self) key) key snapshot in
  Ok (snapshot, mkStore (max_snapshots self) (evict (max_snapshots self) snapshots')).

(** [l[offset : offset + limit]] for non-negative bounds. *)
Definition page {A} (limit offset : nat) (l : list A) : list A := take limit (drop offset l).

(** [backend/modules/telemetry_ingest/service.py:63-65] list *)
Definition store_list (self : TelemetryReadModelStore) (limit offset : nat) : list TelemetryResponse :=
  page limit offset (dict_values (snapshots self)).

(** ** The repository *)

(** What the source calls on a SQLAlchemy session. *)
Class TelemetrySession (DB : Type) : Type := {
  dialect_name : DB → string;
  execute : DB → insert_statement → result DB;
  commit : DB → result DB;
  first_by_uuid : DB → option string → option row;
  save_and_refresh : DB → row → result (DB * row)
}.

(** [setattr(db_obj, key, value)] for each item. *)
Definition setattrs (obj : row) (items : row) : row :=
  foldl (λ o kv, dict_set o kv.1 kv.2) obj items.

(** [backend/modules/telemetry_ingest/service.py:125-133] _build_postgres_telemetry_upsert *)
Definition build_postgres_telemetry_upsert (payload : row) : result insert_statement :=
  update_columns ← mapM (excluded_attr telemetry_table_columns)
    (filter (λ c, c ≠ "uuid") (dict_keys payload));
  Ok (mkInsert TELEMETRY_TABLE [payload] (OnConflictDoUpdate ["uuid"] update_columns)).

Section repository.
Context `{TelemetrySession DB}.

(** [backend/modules/telemetry_ingest/service.py:99-100] _is_postgres_session *)
Definition is_postgres_session (db : DB) : bool := String.eqb (dialect_name db) "postgresql".

(** [backend/modules/telemetry_ingest/service.py:78-84] _upsert_postgres *)
Definition upsert_postgres (command : TelemetryIngestCommand) (db : DB) : result (DB * row) :=
  statement ← build_postgres_telemetry_upsert (db_update_payload command);
  db ← execute db statement;
  db ← commit db;
  match first_by_uuid db (tc_uuid (payload command)) with
  | None => throw ExcRuntimeError "telemetry upsert did not return a row"
  | Some db_obj => Ok (db, db_obj)
  end.

(** [backend/modules/telemetry_ingest/service.py:86-97] _upsert_orm *)
Definition upsert_orm (command : TelemetryIngestCommand) (db : DB) : result (DB * row) :=
  let db_obj := match first_by_uuid db (tc_uuid (payload command)) with
                | Some obj => setattrs obj (db_update_payload command)
                | None => db_insert_payload command
                end in
  save_and_refresh db db_obj.

(** [backend/modules/telemetry_ingest/service.py:72-76] upsert *)
Definition repository_upsert (command : TelemetryIngestCommand) (db : DB) : result (DB * row) :=
  if is_postgres_session db then upsert_postgres command db else upsert_orm command db.

(** [backend/modules/telemetry_ingest/service.py:103-104] upsert_telemetry *)
Definition upsert_telemetry (data : TelemetryCreate) (db : DB) : result (DB * row) :=
  repository_upsert (from_create data) db.

(** [backend/mqtt/telemetry_sink.py:10-13] upsert

    [SessionLocal] opens a session on the database. *)
Definition db_sink_upsert (SessionLocal : DB) (telemetry : TelemetryCreate) : result (DB * row) :=
  upsert_telemetry telemetry SessionLocal.

(** ** Routes *)

(** [backend/api/telemetry.py:31-39] receive_telemetry

    The read model changes before the database does: the store returned is the
    new one even when the database raises. *)
Definition receive_telemetry (data : TelemetryCreate) (read_models : TelemetryReadModelStore)
    (db : DB) : TelemetryReadModelStore * result (DB * row) :=
  let command := from_create data in
  match store_upsert read_models command with
  | Raise e => (read_models, Raise e)
  | Ok (_, read_models') => (read_models', upsert_telemetry data db)
  end.
End repository.

(** [backend/api/telemetry.py:43-50] get_all_telemetry

    The framework has checked [1 <= limit <= 500] and [0 <= offset <= 100000]. *)
Definition get_all_telemetry (read_models : TelemetryReadModelStore) (limit offset : nat)
    : list TelemetryResponse := store_list read_models limit offset.

(** ** The read model's invariant *)

(** At least one snapshot fits, keys are distinct and the bound holds. *)
Definition store_inv (s : TelemetryReadModelStore) : Prop :=
  (0 < max_snapshots s)%nat ∧ dict_wf (snapshots s) ∧
  (length (snapshots s) <= max_snapshots s)%nat.

Lemma evict_drop n l : evict n l = drop (length l - n) l.
Proof.
  induction l as [|x l IH]; [by destruct n|]. cbn [evict length].
  destruct (Nat.ltb_spec n (S (length l))).
  - rewrite IH. by replace (S (length l) - n)%nat with (S (length l - n)) by lia.
  - by replace (S (length l) - n)%nat with 0%nat by lia.
Qed.

Lemma length_dict_del_le (l : list (option string * TelemetryResponse)) k :
  (length (dict_del l k) <= length l)%nat.
Proof. induction l as [|[k' v] l IH]; cbn; [lia|]. destruct (decide _); cbn; lia. Qed.

Lemma dict_del_gone (l : list (option string * TelemetryResponse)) k :
  dict_wf l → k ∉ dict_keys (dict_del l k).
Proof. intros Hwf Hin. apply (dict_keys_del l k Hwf) in Hin as [_ []]. done. Qed.

Lemma dict_wf_drop n (l : list (option string * TelemetryResponse)) :
  dict_wf l → dict_wf (drop n l).
Proof.
  unfold dict_wf, dict_keys. intros Hwf. rewrite fmap_drop.
  rewrite <-(take_drop n l.*1) in Hwf. by apply NoDup_app in Hwf as (_ & _ & ?).
Qed.

Lemma store_upsert_Ok s c r s' : store_inv s → store_upsert s c = Ok (r, s') →
  snapshots s' = drop (S (length (dict_del (snapshots s) (tc_uuid (payload c)))) - max_snapshots s)
    (dict_del (snapshots s) (tc_uuid (payload c)) ++ [(tc_uuid (payload c), r)]) ∧
  max_snapshots s' = max_snapshots s ∧ response_snapshot c = Ok r.
Proof.
  intros (Hpos & Hwf & Hlen). unfold store_upsert. intros H. inv_ok. simplify_eq. cbn.
  rewrite dict_set_new by (by apply dict_del_gone). rewrite evict_drop, length_app. cbn.
  by rewrite Nat.add_1_r.
Qed.

Lemma drop_snoc {A} n (l : list A) x : (n <= length l)%nat → drop n (l ++ [x]) = drop n l ++ [x].
Proof. intros. by rewrite drop_app_le. Qed.

Lemma new_store_inv n s : new_store n = Ok s → store_inv s ∧ snapshots s = [].
Proof.
  unfold new_store. destruct (Z.leb_spec n 0); [done|]. intros [= <-]. unfold store_inv; cbn.
  split; [|done]. split; [lia|]. split; [constructor|lia].
Qed.

(** ** What an update changes *)

Lemma dict_get_setattrs obj items col : dict_wf items →
  dict_get (setattrs obj items) col =
    match dict_get items col with Some v => Some v | None => dict_get obj col end.
Proof.
  unfold setattrs, dict_wf, dict_keys. revert obj.
  induction items as [|[k v] items IH]; intros obj; [done|]. cbn [fmap list_fmap foldl fst snd].
  intros [Hk Hnd]%NoDup_cons. rewrite IH by done. cbn [dict_get].
  destruct (decide (col = k)) as [->|Hne].
  - replace (dict_get items k) with (@None value); [apply dict_get_set_eq|].
    symmetry. by apply dict_get_None.
  - by rewrite dict_get_set_ne.
Qed.

Lemma excluded_attr_Ok cols c d : excluded_attr cols c = Ok d ↔ c ∈ cols ∧ d = c.
Proof. unfold excluded_attr. destruct (decide _); naive_solver. Qed.

Lemma mapM_excluded_ok cols l : is_ok (mapM (excluded_attr cols) l) = true ↔ ∀ c, c ∈ l → c ∈ cols.
Proof.
  rewrite is_ok_true. split.
  - intros [k Hk] c Hc. apply mapM_Ok in Hk. apply list_elem_of_lookup in Hc as [i Hi].
    destruct (Forall2_lookup_l _ _ _ _ _ Hk Hi) as (d & _ & Hd). by apply excluded_attr_Ok in Hd as [].
  - intros Hl. exists (id <$> l). apply mapM_Ok_fmap. intros c Hc. by apply excluded_attr_Ok; auto.
Qed.

(** ** Properties *)

(** The read model is a bounded, recency-ordered cache: an upsert keeps
    the key set distinct and the size within the bound, puts the new snapshot
    last, keeps the order of the others, and drops at most the oldest one. *)
Theorem read_model_upsert (s s' : TelemetryReadModelStore) (c : TelemetryIngestCommand)
    (r : TelemetryResponse) :
  store_inv s → store_upsert s c = Ok (r, s') →
  let key := tc_uuid (payload c) in
  let others := dict_del (snapshots s) key in
  store_inv s' ∧ dict_get (snapshots s') key = Some r ∧
  (snapshots s' = others ++ [(key, r)] ∨
   ((length (snapshots s) = max_snapshots s)%nat ∧ snapshots s' = drop 1 others ++ [(key, r)])).
Proof.
  intros Hinv H key others. destruct (store_upsert_Ok _ _ _ _ Hinv H) as (Hs & Hm & _).
  fold key in Hs. fold others in Hs. destruct Hinv as (Hpos & Hwf & Hlen).
  pose proof (length_dict_del_le (snapshots s) key) as Hle. fold others in Hle.
  assert (Hnew : dict_wf (others ++ [(key, r)])).
  { rewrite <-dict_set_new by (by apply dict_del_gone). by apply dict_set_wf, dict_del_wf. }
  assert (Hcase : snapshots s' = others ++ [(key, r)] ∨
    ((length (snapshots s) = max_snapshots s)%nat ∧ snapshots s' = drop 1 others ++ [(key, r)])).
  { destruct (decide (length others < max_snapshots s)%nat).
    - left. rewrite Hs. by replace (S (length others) - max_snapshots s)%nat with 0%nat by lia.
    - right. split; [lia|]. rewrite Hs.
      replace (S (length others) - max_snapshots s)%nat with 1%nat by lia.
      apply drop_snoc. lia. }
  assert (Hwf' : dict_wf (snapshots s')) by (rewrite Hs; by apply dict_wf_drop).
  split; [|split; [|done]].
  - unfold store_inv. rewrite Hm. split; [done|]. split; [done|].
    rewrite Hs, length_drop, length_app. cbn. lia.
  - apply dict_elem_get; [done|]. destruct Hcase as [->|[_ ->]]; apply elem_of_app; right; left.
Qed.

(** On the ORM path a telemetry update touches only the columns the client
    set: the object saved holds the sent value for a field that was set, and
    the stored value, whatever it is, for any other column; a new row gets all
    thirteen columns. *)
Theorem orm_update_frame `{TelemetrySession DB} (c : TelemetryIngestCommand) (db : DB) :
  ∃ obj, upsert_orm c db = save_and_refresh db obj ∧
    match first_by_uuid db (tc_uuid (payload c)) with
    | Some old => ∀ col, dict_get obj col =
        (if decide (col ∈ tc_fields_set (payload c) ∧ col ∈ telemetry_field_names)
         then dict_get (db_update_payload c) col else dict_get old col)
    | None => dict_keys obj = telemetry_field_names
    end.
Proof.
  unfold upsert_orm. destruct (first_by_uuid _ _) as [old|]; eexists; (split; [reflexivity|]).
  - intros col. unfold db_update_payload. rewrite dict_get_setattrs by apply model_dump_wf.
    destruct (dict_get (model_dump _ _ _) col) as [v|] eqn:E.
    + rewrite decide_True; [done|]. apply dict_get_Some_key in E. rewrite model_dump_keys in E.
      by apply list_elem_of_filter in E.
    + rewrite decide_False; [done|]. apply dict_get_None in E. intros [? ?].
      apply E. rewrite model_dump_keys. by apply list_elem_of_filter.
  - reflexivity.
Qed.

(** The Postgres upsert statement can only be built for payloads whose set
    fields are all named like their columns: a set [magnetic_x], [epoch_time]
    or any other field stored under a camel-case column name makes the lookup
    in [excluded] raise, so such telemetry is never stored. *)
Theorem postgres_upsert_buildable (c : TelemetryIngestCommand) :
  is_ok (build_postgres_telemetry_upsert (db_update_payload c)) = true ↔
  ∀ f, f ∈ tc_fields_set (payload c) → f ∈ telemetry_field_names → f ∈ telemetry_table_columns.
Proof.
  assert (Hb : is_ok (build_postgres_telemetry_upsert (db_update_payload c))
    = is_ok (mapM (excluded_attr telemetry_table_columns)
        (filter (λ c, c ≠ "uuid") (dict_keys (db_update_payload c))))).
  { unfold build_postgres_telemetry_upsert. by destruct (mapM _ _). }
  rewrite Hb, mapM_excluded_ok. unfold db_update_payload. rewrite model_dump_keys. split.
  - intros H f Hset Hname. destruct (decide (f = "uuid")) as [->|]; [left|].
    apply H. by rewrite !list_elem_of_filter.
  - intros H f. rewrite !list_elem_of_filter. intros (_ & Hset & Hname). auto.
Qed.

Definition sample_telemetry (uuid : string) (millis : Z) : TelemetryCreate :=
  mkTelemetryCreate (Some uuid) (Some 37.5%float) (Some 127%float) None None None None None None
    None None (Some millis) None ["uuid"; "latitude"; "longitude"; "epoch_time"].

Definition sample_response_of (uuid : string) (millis : Z) : TelemetryResponse :=
  match response_snapshot (from_create (sample_telemetry uuid millis)) with
  | Ok r => r
  | Raise _ => mkTelemetryResponse None None None None None None None None None None None None None
  end.

Definition sample_store : TelemetryReadModelStore :=
  mkStore 2 [(Some "a", sample_response_of "a" 1000); (Some "b", sample_response_of "b" 2000)].

Lemma read_model_upsert_witness :
  ∃ r s', store_upsert sample_store (from_create (sample_telemetry "c" 45296789)) = Ok (r, s') ∧
    tr_epoch_time r = Some "12:34:56" ∧ store_inv s' ∧
    dict_get (snapshots s') (Some "c") = Some r.
Proof.
  destruct (store_upsert sample_store (from_create (sample_telemetry "c" 45296789)))
    as [[r s']|] eqn:E; [|vm_compute in E; discriminate].
  assert (Hinv : store_inv sample_store).
  { unfold store_inv. cbn. split; [lia|]. split; [|lia]. unfold dict_wf, dict_keys. cbn.
    apply (bool_decide_unpack _). vm_compute. exact I. }
  pose proof (read_model_upsert sample_store s' _ r Hinv E) as (H1 & H2 & _).
  exists r, s'. split; [reflexivity|]. split; [|split; [exact H1|exact H2]].
  vm_compute in E. injection E as <- <-. reflexivity.
Defined.
