(* ===== verification/TelemetryBuffer.v ===== *)
(** The telemetry write buffers: [backend/modules/telemetry_buffer/buffer.py]
    and [redis_queue.py].

    [TelemetryWriteBuffer] is the source's [Protocol]: a class of operations on
    a buffer state.  [TelemetryWriteBufferLaws] is what its clients may rely on,
    stated through two views of a state, the pending history and the latest
    record of a key; a buffer may normalise the records it stores ([stored]).
    The in-memory deque and the Redis queue are the two instances. *)

From stdpp Require Import base list gmap strings.
From Stdlib Require Import ZArith Lia Floats.
From S2P Require Import Prelude PyStr PyFloat PyTime TelemetryModel.

#[local] Open Scope Z_scope.

(** [backend/modules/telemetry_buffer/buffer.py:17-21] TelemetryBufferRecord *)
Record TelemetryBufferRecord : Type := mkRecord {
  rec_key : string;
  rec_telemetry : TelemetryCreate;
  rec_received_at : datetime
}.

(** [backend/modules/telemetry_buffer/buffer.py:23-26] create *)
Definition create_record (now : datetime) (telemetry : TelemetryCreate) : TelemetryBufferRecord :=
  mkRecord (default "" (tc_uuid telemetry)) telemetry now.

(** [backend/modules/telemetry_buffer/buffer.py:29-32] TelemetryBufferStats *)
Record TelemetryBufferStats : Type := mkStats { latest_count : Z; pending_history_count : Z }.

(** [backend/modules/telemetry_buffer/buffer.py:35-46] TelemetryWriteBuffer *)
Class TelemetryWriteBuffer (B : Type) : Type := {
  put_latest : B → TelemetryBufferRecord → result B;
  append_history : B → TelemetryBufferRecord → result B;
  latest_for : B → string → result (option TelemetryBufferRecord);
  drain_history : B → Z → result (list TelemetryBufferRecord * B);
  restore_history_front : B → list TelemetryBufferRecord → result B;
  stats : B → result TelemetryBufferStats
}.

(** The contract.  [pending] and [latest] are views of a well-formed state;
    [stored r] is the record that comes back for [r], for the records the buffer
    can represent ([record_ok]).  An operation may raise; what it does is
    promised when it returns. *)
Class TelemetryWriteBufferLaws (B : Type) `{TelemetryWriteBuffer B} : Type := {
  buffer_wf : B → Prop;
  record_ok : TelemetryBufferRecord → Prop;
  pending : B → list TelemetryBufferRecord;
  latest : B → string → option TelemetryBufferRecord;
  stored : TelemetryBufferRecord → TelemetryBufferRecord;
  stored_key : ∀ r, rec_key (stored r) = rec_key r;
  pending_stored : ∀ b r, buffer_wf b → r ∈ pending b → record_ok r ∧ stored r = r;
  put_latest_law : ∀ b r b', buffer_wf b → record_ok r → put_latest b r = Ok b' →
    buffer_wf b' ∧ pending b' = pending b ∧ latest b' (rec_key r) = Some (stored r) ∧
    ∀ k, k ≠ rec_key r → latest b' k = latest b k;
  append_history_law : ∀ b r b', buffer_wf b → record_ok r → append_history b r = Ok b' →
    buffer_wf b' ∧ pending b' = pending b ++ [stored r] ∧ ∀ k, latest b' k = latest b k;
  latest_for_law : ∀ b k o, buffer_wf b → latest_for b k = Ok o → o = latest b k;
  drain_history_law : ∀ b n rs b', buffer_wf b → drain_history b n = Ok (rs, b') →
    buffer_wf b' ∧ rs = take (Z.to_nat n) (pending b) ∧
    pending b' = drop (Z.to_nat n) (pending b) ∧ ∀ k, latest b' k = latest b k;
  restore_history_front_law : ∀ b rs b', buffer_wf b → Forall record_ok rs →
    restore_history_front b rs = Ok b' →
    buffer_wf b' ∧ pending b' = (stored <$> rs) ++ pending b ∧ ∀ k, latest b' k = latest b k;
  stats_law : ∀ b s, buffer_wf b → stats b = Ok s →
    pending_history_count s = Z.of_nat (length (pending b))
}.

(** A buffer whose bookkeeping never raises: only [append_history] may refuse. *)
Class TelemetryWriteBufferTotal (B : Type) `{TelemetryWriteBufferLaws B} : Prop := {
  put_latest_total : ∀ b r, buffer_wf b → record_ok r → is_ok (put_latest b r) = true;
  drain_history_total : ∀ b n, buffer_wf b → is_ok (drain_history b n) = true;
  restore_history_front_total : ∀ b rs, buffer_wf b → Forall record_ok rs →
    is_ok (restore_history_front b rs) = true;
  stats_total : ∀ b, buffer_wf b → is_ok (stats b) = true
}.

(** ** The in-memory buffer *)

(** [backend/modules/telemetry_buffer/buffer.py:49-56] InMemoryTelemetryWriteBuffer *)
Record InMemoryTelemetryWriteBuffer : Type := mkInMemory {
  mem_latest : gmap string TelemetryBufferRecord;
  mem_history : list TelemetryBufferRecord;
  mem_max_pending_history : Z
}.

Definition new_in_memory (max_pending_history : Z) : result InMemoryTelemetryWriteBuffer :=
  if max_pending_history <=? 0 then value_error "max pending telemetry history must be positive"
  else Ok (mkInMemory ∅ [] max_pending_history).

(** [backend/modules/telemetry_buffer/buffer.py:58-60] put_latest *)
Definition mem_put_latest (self : InMemoryTelemetryWriteBuffer) (record : TelemetryBufferRecord)
    : result InMemoryTelemetryWriteBuffer :=
  Ok (mkInMemory (<[rec_key record := record]> (mem_latest self)) (mem_history self)
        (mem_max_pending_history self)).

(** [backend/modules/telemetry_buffer/buffer.py:62-66] append_history *)
Definition mem_append_history (self : InMemoryTelemetryWriteBuffer)
    (record : TelemetryBufferRecord) : result InMemoryTelemetryWriteBuffer :=
  if mem_max_pending_history self <=? Z.of_nat (length (mem_history self)) then
    throw ExcTelemetryBufferFullError "telemetry history buffer is full"
  else Ok (mkInMemory (mem_latest self) (mem_history self ++ [record])
             (mem_max_pending_history self)).

(** [backend/modules/telemetry_buffer/buffer.py:68-70] latest_for *)
Definition mem_latest_for (self : InMemoryTelemetryWriteBuffer) (key : string)
    : result (option TelemetryBufferRecord) := Ok (mem_latest self !! key).

(** [while self._history and len(drained) < max_items: drained.append(popleft())] *)
Fixpoint drain_loop (history drained : list TelemetryBufferRecord) (max_items : Z)
    : list TelemetryBufferRecord * list TelemetryBufferRecord :=
  match history with
  | [] => (drained, [])
  | r :: history' =>
      if Z.of_nat (length drained) <? max_items then drain_loop history' (drained ++ [r]) max_items
      else (drained, history)
  end.

(** [backend/modules/telemetry_buffer/buffer.py:72-79] drain_history *)
Definition mem_drain_history (self : InMemoryTelemetryWriteBuffer) (max_items : Z)
    : result (list TelemetryBufferRecord * InMemoryTelemetryWriteBuffer) :=
  if max_items <=? 0 then Ok ([], self)
  else let '(drained, history) := drain_loop (mem_history self) [] max_items in
    Ok (drained, mkInMemory (mem_latest self) history (mem_max_pending_history self)).

(** [backend/modules/telemetry_buffer/buffer.py:81-87] restore_history_front

    [appendleft] for each record of the reversed list. *)
Definition mem_restore_history_front (self : InMemoryTelemetryWriteBuffer)
    (records : list TelemetryBufferRecord) : result InMemoryTelemetryWriteBuffer :=
  match records with
  | [] => Ok self
  | _ => Ok (mkInMemory (mem_latest self)
               (foldl (λ history record, record :: history) (mem_history self) (reverse records))
               (mem_max_pending_history self))
  end.

(** [backend/modules/telemetry_buffer/buffer.py:89-94] stats *)
Definition mem_stats (self : InMemoryTelemetryWriteBuffer) : result TelemetryBufferStats :=
  Ok (mkStats (Z.of_nat (size (mem_latest self))) (Z.of_nat (length (mem_history self)))).

#[export] Instance mem_buffer : TelemetryWriteBuffer InMemoryTelemetryWriteBuffer := {|
  put_latest := mem_put_latest;
  append_history := mem_append_history;
  latest_for := mem_latest_for;
  drain_history := mem_drain_history;
  restore_history_front := mem_restore_history_front;
  stats := mem_stats
|}.

Lemma drain_loop_spec history drained n :
  drain_loop history drained n =
    (drained ++ take (Z.to_nat (n - Z.of_nat (length drained))) history,
     drop (Z.to_nat (n - Z.of_nat (length drained))) history).
Proof.
  revert drained. induction history as [|r h IH]; intros drained; cbn [drain_loop].
  - by rewrite take_nil, drop_nil, app_nil_r.
  - destruct (Z.ltb_spec (Z.of_nat (length drained)) n) as [Hlt|Hge].
    + rewrite IH, length_app. cbn [length].
      replace (Z.to_nat (n - Z.of_nat (length drained)))
        with (S (Z.to_nat (n - Z.of_nat (length drained + 1)))) by lia.
      cbn. by rewrite <-app_assoc.
    + replace (Z.to_nat (n - Z.of_nat (length drained))) with 0%nat by lia.
      by rewrite take_0, drop_0, app_nil_r.
Qed.

Lemma foldl_push_front (l acc : list TelemetryBufferRecord) :
  foldl (λ h r, r :: h) acc l = reverse l ++ acc.
Proof.
  revert acc. induction l as [|x l IH]; intros acc; [done|]. cbn [foldl]. rewrite IH, reverse_cons.
  by rewrite <-app_assoc.
Qed.

Lemma mem_restore_spec b rs :
  mem_restore_history_front b rs
  = Ok (mkInMemory (mem_latest b) (rs ++ mem_history b) (mem_max_pending_history b)).
Proof.
  unfold mem_restore_history_front. destruct rs as [|r rs]; [by destruct b|].
  by rewrite foldl_push_front, reverse_involutive.
Qed.

#[export] Instance mem_buffer_laws : TelemetryWriteBufferLaws InMemoryTelemetryWriteBuffer.
Proof.
  refine {| buffer_wf := λ _, True; record_ok := λ _, True; pending := mem_history;
            latest := λ b k, mem_latest b !! k; stored := λ r, r |}.
  - done.
  - done.
  - intros b r b' _ _ [= <-]. cbn. split; [done|]. split; [done|].
    split; [apply lookup_insert_eq|]. intros k Hk. by apply lookup_insert_ne.
  - intros b r b' _ _. cbn. unfold mem_append_history. destruct (_ <=? _); [done|]. by intros [= <-].
  - intros b k o _ [= <-]. done.
  - intros b n rs b' _. cbn. unfold mem_drain_history. destruct (Z.leb_spec n 0).
    + intros [= <- <-]. replace (Z.to_nat n) with 0%nat by lia. by rewrite take_0, drop_0.
    + rewrite drain_loop_spec. cbn. rewrite Z.sub_0_r. by intros [= <- <-].
  - intros b rs b' _ _ E. cbn in E. rewrite mem_restore_spec in E. injection E as <-. cbn.
    by rewrite list_fmap_id.
  - intros b s _ [= <-]. done.
Defined.

#[export] Instance mem_buffer_total : TelemetryWriteBufferTotal InMemoryTelemetryWriteBuffer.
Proof.
  split; cbn; try done.
  - intros b n _. unfold mem_drain_history. destruct (n <=? 0); [done|]. by destruct (drain_loop _ _ _).
  - intros b rs _ _. by destruct rs.
Qed.
