(* ===== verification/RedisBuffer.v ===== *)
(** The Redis telemetry buffer: [backend/modules/telemetry_buffer/redis_queue.py].

    The Redis client is third-party: [RedisListClient] holds the commands the
    source sends, [RedisListClientLaws] their documented effect on the strings
    and lists of the keyspace.  The text layer ([json.dumps], [json.loads],
    [isoformat], [fromisoformat]) and the schema validation of a parsed record
    are parameters with their round-trip laws; the records themselves, the keys
    and the order of the queue are the source's. *)

From stdpp Require Import base list gmap strings.
From Stdlib Require Import ZArith Lia Strings.Byte Floats.
From S2P Require Import Prelude PyStr PyFloat PyTime PyJson TelemetryModel TelemetryBuffer.

#[local] Open Scope Z_scope.

(** [backend/modules/telemetry_buffer/redis_queue.py:20-24] TelemetryRedisKeys *)
Module TelemetryRedisKeys.
Definition HISTORY_QUEUE : string := "history".
Definition LATEST_PREFIX : string := "latest".
Definition DEFAULT_PREFIX : string := "gcs-saker:telemetry-buffer".
Definition LATEST_COUNT_NOT_SCANNED : Z := 0.
End TelemetryRedisKeys.

(** [RedisValue = str | bytes] *)
Inductive RedisValue : Type := RStr (s : string) | RBytes (b : list byte).

Definition raw_value (v : RedisValue) : result string :=
  match v with RStr s => Ok s | RBytes b => utf8_decode b end.

(** [backend/modules/telemetry_buffer/redis_queue.py:27-38] RedisListClient *)
Class RedisListClient (C : Type) : Type := {
  redis_set : C → string → string → result C;
  redis_get : C → string → result (option RedisValue);
  redis_rpush : C → string → string → result C;
  redis_lpop : C → string → Z → result (option (list RedisValue) * C);
  redis_lpush : C → string → list string → result C;
  redis_llen : C → string → result Z
}.

(** [client_string] and [client_list] view the keyspace; values come back in
    the client's response encoding.  A key holds one type: the list commands
    are only sent to [k] and the string commands only to other keys. *)
Class RedisListClientLaws (C : Type) `{RedisListClient C} : Type := {
  client_string : C → string → option string;
  client_list : C → string → list string;
  response : string → RedisValue;
  response_raw : ∀ s, raw_value (response s) = Ok s;
  set_law : ∀ c k v c', redis_set c k v = Ok c' →
    client_string c' k = Some v ∧ (∀ j, j ≠ k → client_string c' j = client_string c j) ∧
    (∀ j, j ≠ k → client_list c' j = client_list c j);
  get_law : ∀ c k o, redis_get c k = Ok o → o = response <$> client_string c k;
  rpush_law : ∀ c k v c', redis_rpush c k v = Ok c' →
    client_list c' k = client_list c k ++ [v] ∧
    ∀ j, j ≠ k → client_string c' j = client_string c j;
  lpop_law : ∀ c k n o c', 0 < n → redis_lpop c k n = Ok (o, c') →
    default [] o = response <$> take (Z.to_nat n) (client_list c k) ∧
    client_list c' k = drop (Z.to_nat n) (client_list c k) ∧
    ∀ j, j ≠ k → client_string c' j = client_string c j;
  lpush_law : ∀ c k vs c', redis_lpush c k vs = Ok c' →
    client_list c' k = reverse vs ++ client_list c k ∧
    ∀ j, j ≠ k → client_string c' j = client_string c j;
  llen_law : ∀ c k n, redis_llen c k = Ok n → n = Z.of_nat (length (client_list c k))
}.

(** [backend/modules/telemetry_buffer/redis_queue.py:41-48] RedisTelemetryBufferConfig *)
Record RedisTelemetryBufferConfig : Type := mkConfig { key_prefix : string }.

(** [backend/modules/telemetry_buffer/redis_queue.py:50-51] history_queue_key *)
Definition history_queue_key (config : RedisTelemetryBufferConfig) : string :=
  key_prefix config +:+ ":" +:+ TelemetryRedisKeys.HISTORY_QUEUE.

(** [backend/modules/telemetry_buffer/redis_queue.py:53-54] latest_key *)
Definition latest_key (config : RedisTelemetryBufferConfig) (stream_key : string) : string :=
  key_prefix config +:+ ":" +:+ TelemetryRedisKeys.LATEST_PREFIX +:+ ":" +:+ stream_key.

(** [backend/modules/telemetry_buffer/redis_queue.py:60-65] default_blank_prefix

    [empty_to_none] of [core/env_parsing.py] turns blank text into [None]. *)
Definition default_blank_prefix (value : string) : string :=
  let text := strip value in
  if truthy text then text else TelemetryRedisKeys.DEFAULT_PREFIX.

(** [backend/modules/telemetry_buffer/redis_queue.py:132-135] popped_values *)
Definition popped_values (values : option (list RedisValue)) : list RedisValue := default [] values.

(** A dumped column as JSON. *)
Definition json_of_value (isoformat : datetime → string) (v : value) : jval :=
  match v with
  | VNone => JNull
  | VText s => JStr s
  | VFloat x => JFloat x
  | VInt n => JInt n
  | VTime d => JStr (isoformat d)
  end.

Section redis.
Context (json_dumps : jval → string) (json_loads : string → result jval).
Context (isoformat : datetime → string) (fromisoformat : string → result datetime).
Context (model_validate : jval → result TelemetryCreate) (py_str : jval → string).

(** The dict that [serialize_record] dumps. *)
Definition record_json (record : TelemetryBufferRecord) : jval :=
  JObj [("key", JStr (rec_key record));
        ("received_at", JStr (isoformat (rec_received_at record)));
        ("telemetry", JObj ((λ kv, (kv.1, json_of_value isoformat kv.2)) <$>
                              model_dump false true (rec_telemetry record)))].

(** [backend/modules/telemetry_buffer/redis_queue.py:109-117] serialize_record *)
Definition serialize_record (record : TelemetryBufferRecord) : string :=
  json_dumps (record_json record).

(** [str(v)] *)
Definition str_of (v : jval) : string := match v with JStr s => s | _ => py_str v end.

Definition parse_record (value : RedisValue) : result TelemetryBufferRecord :=
  text ← raw_value value;
  payload ← json_loads text;
  key ← j_getitem payload "key";
  received_at ← j_getitem payload "received_at";
  received_at ← fromisoformat (str_of received_at);
  telemetry ← j_getitem payload "telemetry";
  telemetry ← model_validate telemetry;
  Ok (mkRecord (str_of key) telemetry received_at).

(** [backend/modules/telemetry_buffer/redis_queue.py:120-129] deserialize_record *)
Definition deserialize_record (value : option RedisValue) : result (option TelemetryBufferRecord) :=
  match value with None => Ok None | Some v => Some <$> parse_record v end.

(** [backend/modules/telemetry_buffer/redis_queue.py:138-142] deserialize_required_record *)
Definition deserialize_required_record (value : RedisValue) : result TelemetryBufferRecord :=
  record ← deserialize_record (Some value);
  match record with
  | None => value_error "popped telemetry record cannot be empty"
  | Some record => Ok record
  end.

(** [backend/modules/telemetry_buffer/redis_queue.py:75-80] RedisTelemetryWriteBuffer *)
Record RedisTelemetryWriteBuffer (C : Type) : Type := mkRedisBuffer {
  redis_client : C;
  redis_config : RedisTelemetryBufferConfig
}.
Arguments mkRedisBuffer {C}.
Arguments redis_client {C}.
Arguments redis_config {C}.

Context `{Client : RedisListClient C}.
Implicit Types self : RedisTelemetryWriteBuffer C.

Definition with_client self (c : C) : RedisTelemetryWriteBuffer C := mkRedisBuffer c (redis_config self).

(** [backend/modules/telemetry_buffer/redis_queue.py:82-83] put_latest *)
Definition redis_put_latest self (record : TelemetryBufferRecord)
    : result (RedisTelemetryWriteBuffer C) :=
  c ← redis_set (redis_client self) (latest_key (redis_config self) (rec_key record))
        (serialize_record record);
  Ok (with_client self c).

(** [backend/modules/telemetry_buffer/redis_queue.py:85-86] append_history *)
Definition redis_append_history self (record : TelemetryBufferRecord)
    : result (RedisTelemetryWriteBuffer C) :=
  c ← redis_rpush (redis_client self) (history_queue_key (redis_config self)) (serialize_record record);
  Ok (with_client self c).

(** [backend/modules/telemetry_buffer/redis_queue.py:88-89] latest_for *)
Definition redis_latest_for self (key : string) : result (option TelemetryBufferRecord) :=
  value ← redis_get (redis_client self) (latest_key (redis_config self) key);
  deserialize_record value.

(** [backend/modules/telemetry_buffer/redis_queue.py:91-95] drain_history *)
Definition redis_drain_history self (max_items : Z)
    : result (list TelemetryBufferRecord * RedisTelemetryWriteBuffer C) :=
  if max_items <=? 0 then Ok ([], self) else
  '(values, c) ← redis_lpop (redis_client self) (history_queue_key (redis_config self)) max_items;
  records ← mapM deserialize_required_record (popped_values values);
  Ok (records, with_client self c).

(** [backend/modules/telemetry_buffer/redis_queue.py:97-100] restore_history_front *)
Definition redis_restore_history_front self (records : list TelemetryBufferRecord)
    : result (RedisTelemetryWriteBuffer C) :=
  let serialized := serialize_record <$> reverse records in
  match serialized with
  | [] => Ok self
  | _ =>
      c ← redis_lpush (redis_client self) (history_queue_key (redis_config self)) serialized;
      Ok (with_client self c)
  end.

(** [backend/modules/telemetry_buffer/redis_queue.py:102-106] stats *)
Definition redis_stats self : result TelemetryBufferStats :=
  n ← redis_llen (redis_client self) (history_queue_key (redis_config self));
  Ok (mkStats TelemetryRedisKeys.LATEST_COUNT_NOT_SCANNED n).

#[export] Instance redis_buffer : TelemetryWriteBuffer (RedisTelemetryWriteBuffer C) := {|
  put_latest := redis_put_latest;
  append_history := redis_append_history;
  latest_for := redis_latest_for;
  drain_history := redis_drain_history;
  restore_history_front := redis_restore_history_front;
  stats := redis_stats
|}.

(** ** The record that comes back *)

(** A parsed record has every field set, absent ones to [None]. *)
Definition all_fields_set (t : TelemetryCreate) : TelemetryCreate :=
  mkTelemetryCreate (tc_uuid t) (tc_latitude t) (tc_longitude t) (tc_altitude t) (tc_magnetic_x t)
    (tc_magnetic_y t) (tc_magnetic_z t) (tc_soc t) (tc_phone_battery_soc t) (tc_velocity t)
    (tc_total_distance t) (tc_epoch_time t) (tc_port_distance t) telemetry_field_names.

Definition redis_stored (r : TelemetryBufferRecord) : TelemetryBufferRecord :=
  mkRecord (rec_key r) (all_fields_set (rec_telemetry r)) (rec_received_at r).

(** A record the queue can represent: its floats are finite, as JSON numbers
    are, and its time is in UTC, as [datetime.now(timezone.utc)] is. *)
Definition redis_record_ok (r : TelemetryBufferRecord) : Prop :=
  json_plain (record_json r) = true ∧ dt_offset (rec_received_at r) = Some 0.

Context (loads_dumps : ∀ v, json_plain v = true → json_loads (json_dumps v) = Ok v).
Context (from_to_iso : ∀ w, fromisoformat (isoformat (mkDatetime w (Some 0))) = Ok (mkDatetime w (Some 0))).
Context (validate_dump : ∀ t,
  model_validate (JObj ((λ kv, (kv.1, json_of_value isoformat kv.2)) <$> model_dump false true t))
  = Ok (all_fields_set t)).

Lemma record_json_stored r : record_json (redis_stored r) = record_json r.
Proof. reflexivity. Qed.

Lemma redis_record_ok_stored r : redis_record_ok r → redis_record_ok (redis_stored r).
Proof. done. Qed.

Lemma parse_serialize r v : redis_record_ok r → raw_value v = Ok (serialize_record r) →
  parse_record v = Ok (redis_stored r).
Proof using loads_dumps from_to_iso validate_dump.
  intros [Hp Ht] Hv. unfold parse_record. rewrite Hv. cbn [mbind result_bind].
  unfold serialize_record. rewrite loads_dumps by done.
  destruct r as [key t [w o]]. cbn in Ht. subst o.
  unfold record_json. cbn [mbind result_bind rec_received_at rec_key rec_telemetry].
  change (j_getitem _ "key") with (Ok (JStr key)). cbn [mbind result_bind].
  change (j_getitem _ "received_at") with (Ok (JStr (isoformat (mkDatetime w (Some 0))))).
  cbn [mbind result_bind str_of]. rewrite from_to_iso. cbn [mbind result_bind].
  match goal with |- context [j_getitem (JObj [_; _; (_, ?x)]) _] =>
    change (j_getitem _ "telemetry") with (Ok x) end.
  cbn [mbind result_bind]. rewrite validate_dump. done.
Qed.

Lemma required_serialize r v : redis_record_ok r → raw_value v = Ok (serialize_record r) →
  deserialize_required_record v = Ok (redis_stored r).
Proof using loads_dumps from_to_iso validate_dump.
  intros Hr Hv. unfold deserialize_required_record, deserialize_record.
  by rewrite (parse_serialize r v) by done.
Qed.

(** ** The queue implements the buffer contract *)

Lemma history_key_latest_key config k : history_queue_key config ≠ latest_key config k.
Proof.
  unfold history_queue_key, latest_key. intros Hk%(inj (String.append _)). discriminate Hk.
Qed.

Lemma latest_key_inj config j k : latest_key config j = latest_key config k → j = k.
Proof.
  unfold latest_key, TelemetryRedisKeys.LATEST_PREFIX. intros Hk%(inj (String.append _)).
  by injection Hk.
Qed.

Context `{!RedisListClientLaws C}.

Definition serialized (s : string) : Prop := ∃ r, redis_record_ok r ∧ s = serialize_record r.

Definition redis_wf self : Prop :=
  Forall serialized (client_list (redis_client self) (history_queue_key (redis_config self))) ∧
  ∀ k s, client_string (redis_client self) (latest_key (redis_config self) k) = Some s → serialized s.

(** The record a stored text stands for. *)
Definition record_of (s : string) : TelemetryBufferRecord :=
  match parse_record (RStr s) with
  | Ok r => r
  | Raise _ => mkRecord "" (mkTelemetryCreate None None None None None None None None None None
                             None None None []) (mkDatetime 0 None)
  end.

Definition redis_pending self : list TelemetryBufferRecord :=
  record_of <$> client_list (redis_client self) (history_queue_key (redis_config self)).

Definition redis_latest self (k : string) : option TelemetryBufferRecord :=
  record_of <$> client_string (redis_client self) (latest_key (redis_config self) k).

Lemma record_of_serialize r : redis_record_ok r → record_of (serialize_record r) = redis_stored r.
Proof using loads_dumps from_to_iso validate_dump.
  intros Hr. unfold record_of. by rewrite (parse_serialize r).
Qed.

Lemma parse_response s : serialized s → parse_record (response s) = Ok (record_of s).
Proof using loads_dumps from_to_iso validate_dump.
  intros (r & Hr & ->). rewrite (record_of_serialize r Hr).
  apply parse_serialize; [done|apply response_raw].
Qed.

Lemma required_response s : serialized s →
  deserialize_required_record (response s) = Ok (record_of s).
Proof using loads_dumps from_to_iso validate_dump.
  intros Hs. unfold deserialize_required_record. cbn [deserialize_record].
  by rewrite (parse_response s Hs).
Qed.

Lemma required_responses l : Forall serialized l →
  mapM deserialize_required_record (response <$> l) = Ok (record_of <$> l).
Proof using loads_dumps from_to_iso validate_dump.
  induction 1 as [|s l Hs _ IH]; [done|]. rewrite fmap_cons. cbn [mapM].
  rewrite required_response by done. cbn [mbind result_bind]. by rewrite IH.
Qed.

Lemma records_of_serialized l : Forall redis_record_ok l →
  record_of <$> (serialize_record <$> l) = redis_stored <$> l.
Proof using loads_dumps from_to_iso validate_dump.
  induction 1 as [|r l Hr _ IH]; [done|]. rewrite !fmap_cons, IH. f_equal.
  by apply record_of_serialize.
Qed.

Lemma redis_restore_law self rs self' : redis_wf self → Forall redis_record_ok rs →
  redis_restore_history_front self rs = Ok self' →
  redis_wf self' ∧ redis_pending self' = (redis_stored <$> rs) ++ redis_pending self ∧
  ∀ k, redis_latest self' k = redis_latest self k.
Proof using Client RedisListClientLaws0 loads_dumps from_to_iso validate_dump.
  intros [Hh Hl] Hrs. unfold redis_restore_history_front.
  destruct (serialize_record <$> reverse rs) as [|v vs] eqn:E.
  - apply fmap_nil_inv in E. apply (f_equal reverse) in E. rewrite reverse_involutive in E.
    subst rs. by intros [= <-].
  - rewrite <-E. clear E v vs. intros E. inv_ok. subst self'.
    apply lpush_law in Ha as [Hlist Hstr].
    assert (Hlist' : client_list a (history_queue_key (redis_config self))
      = (serialize_record <$> rs)
        ++ client_list (redis_client self) (history_queue_key (redis_config self))).
    { by rewrite Hlist, <-fmap_reverse, reverse_involutive. }
    assert (Hs : ∀ k, client_string a (latest_key (redis_config self) k)
                    = client_string (redis_client self) (latest_key (redis_config self) k)).
    { intros k. apply Hstr. apply not_eq_sym, history_key_latest_key. }
    unfold redis_wf, redis_pending, redis_latest. cbn [with_client redis_client redis_config].
    split; [split|split].
    + rewrite Hlist'. apply Forall_app. split; [|done]. apply Forall_fmap.
      eapply Forall_impl; [exact Hrs|]. intros r Hr. by exists r.
    + intros k s. rewrite Hs. apply Hl.
    + rewrite Hlist', fmap_app. f_equal. by apply records_of_serialized.
    + intros k. by rewrite Hs.
Qed.

#[export] Instance redis_buffer_laws : TelemetryWriteBufferLaws (RedisTelemetryWriteBuffer C).
Proof using Client RedisListClientLaws0 loads_dumps from_to_iso validate_dump.
  refine {| buffer_wf := redis_wf; record_ok := redis_record_ok; pending := redis_pending;
            latest := redis_latest; stored := redis_stored |}.
  - done.
  - intros b r [Hh _] Hr. unfold redis_pending in Hr. apply list_elem_of_fmap in Hr as (s & -> & Hs).
    rewrite Forall_forall in Hh. destruct (Hh s Hs) as (r' & Hok & ->).
    rewrite record_of_serialize by done. done.
  - intros b r b' [Hh Hl] Hr E. cbn in E. unfold redis_put_latest in E. inv_ok. subst b'.
    apply set_law in Ha as (Hk & Hstr & Hlist).
    unfold redis_wf, redis_pending, redis_latest. cbn [with_client redis_client redis_config].
    rewrite Hlist by apply history_key_latest_key. split; [split; [done|]|split; [done|split]].
    + intros k s. destruct (decide (k = rec_key r)) as [->|Hne].
      * rewrite Hk. intros [= <-]. by exists r.
      * rewrite Hstr by (intros ?%latest_key_inj; done). apply Hl.
    + rewrite Hk. cbn. by rewrite record_of_serialize.
    + intros k Hne. rewrite Hstr; [done|]. by intros ?%latest_key_inj.
  - intros b r b' [Hh Hl] Hr E. cbn in E. unfold redis_append_history in E. inv_ok. subst b'.
    apply rpush_law in Ha as [Hlist Hstr].
    assert (Hs : ∀ k, client_string a (latest_key (redis_config b) k)
                    = client_string (redis_client b) (latest_key (redis_config b) k)).
    { intros k. apply Hstr. apply not_eq_sym, history_key_latest_key. }
    unfold redis_wf, redis_pending, redis_latest. cbn [with_client redis_client redis_config].
    split; [split|split].
    + rewrite Hlist. apply Forall_app. split; [done|]. constructor; [by exists r|constructor].
    + intros k s. rewrite Hs. apply Hl.
    + rewrite Hlist, fmap_app. cbn. by rewrite record_of_serialize.
    + intros k. by rewrite Hs.
  - intros b k o [Hh Hl] E. cbn in E. unfold redis_latest_for, deserialize_record in E. inv_ok.
    apply get_law in Ha. subst a. unfold redis_latest.
    destruct (client_string _ _) as [s|] eqn:Es; cbn in E; [|by injection E as <-].
    rewrite parse_response in E by (by eapply Hl). by injection E as <-.
  - intros b n rs b' [Hh Hl] E. cbn in E. unfold redis_drain_history in E.
    destruct (Z.leb_spec n 0).
    + injection E as <- <-. replace (Z.to_nat n) with 0%nat by lia. by rewrite take_0, drop_0.
    + destruct (redis_lpop _ _ _) as [[o c]|] eqn:Ha; [|done]. cbn [mbind result_bind] in E.
      inv_ok. simplify_eq. apply lpop_law in Ha as (Hpop & Hlist & Hstr); [|done].
      unfold popped_values in Ha0. rewrite Hpop, required_responses in Ha0 by (by apply Forall_take).
      injection Ha0 as <-.
      assert (Hs : ∀ k, client_string c (latest_key (redis_config b) k)
                    = client_string (redis_client b) (latest_key (redis_config b) k)).
      { intros k. apply Hstr. apply not_eq_sym, history_key_latest_key. }
      unfold redis_wf, redis_pending, redis_latest. cbn [with_client redis_client redis_config].
      split; [split|split; [|split]].
      * rewrite Hlist. by apply Forall_drop.
      * intros k s. rewrite Hs. apply Hl.
      * by rewrite fmap_take.
      * by rewrite Hlist, fmap_drop.
      * intros k. by rewrite Hs.
  - exact redis_restore_law.
  - intros b s _ E. cbn in E. unfold redis_stats in E. inv_ok. subst s. cbn.
    apply llen_law in Ha. unfold redis_pending. by rewrite length_fmap.
Qed.
End redis.
