(* ===== verification/Settings.v ===== *)
(** Configuration: [backend/core/env_parsing.py], [settings_base.py],
    [secret_files.py], [auth_config.py], [web_security_settings.py],
    [ice_settings.py], [map_settings.py], [media_settings.py], [db.py] and
    [backend/modules/map_config/].

    A settings class reads named variables of the environment; a variable that
    is absent leaves the field's default, which is not validated.  The
    environment and the file system are records of functions.  How the settings
    library reads a boolean or an integer is a parameter. *)

From stdpp Require Import base list strings.
From Stdlib Require Import ZArith Lia Ascii Strings.Byte.
From S2P Require Import Prelude PyStr Url.

#[local] Open Scope Z_scope.

(** [os.environ] merged with the [.env] file. *)
Definition environment : Type := string → option string.

Record file_system : Type := mkFS {
  fs_is_file : string → bool;
  fs_size : string → result Z;
  fs_read : string → result (list byte)
}.

(** ** [env_parsing.py] *)

(** [backend/core/env_parsing.py:1-5] empty_to_none *)
Definition empty_to_none (value : option string) : option string :=
  match value with
  | None => None
  | Some v => let v := strip v in if is_empty v then None else Some v
  end.

(** [backend/core/env_parsing.py:8-11] csv_to_tuple *)
Definition csv_to_tuple (value : option string) : list string :=
  match value with
  | None => []
  | Some v => if is_empty v then [] else
      strip <$> filter (λ item, truthy (strip item) = true) (split_on "," v)
  end.

(** [backend/core/env_parsing.py:14-18] parse_bool *)
Definition parse_bool (unicode_lower : string → string) (value : option string) (default : bool) : bool :=
  match empty_to_none value with
  | None => default
  | Some v => bool_decide (lower unicode_lower v ∈ ["1"; "true"; "yes"; "on"])
  end.

(** [x or y] on optional text. *)
Definition opt_or (x : option string) (y : string) : string :=
  match x with Some s => if truthy s then s else y | None => y end.
Definition opt_or_opt (x y : option string) : option string :=
  match x with Some s => if truthy s then Some s else y | None => y end.

(** ** [settings_base.py] *)

(** [backend/core/settings_base.py:33-37] settings_error_message

    A validation error carries its location and message as one text. *)
Definition settings_error_message (label msg : string) : string :=
  label +:+ " configuration error at " +:+ msg.

(** [backend/core/settings_base.py:26-30] load_settings

    [try: return cls() except ValidationError: raise SettingsConfigurationError] *)
Definition load_settings {A} (settings : result A) (label : string) : result A :=
  catch settings ExcValidationError
    (λ msg, throw ExcSettingsConfigurationError (settings_error_message label msg)).

(** ** [secret_files.py] *)

(** [backend/core/secret_files.py:6-6] MAX_SECRET_FILE_BYTES *)
Definition MAX_SECRET_FILE_BYTES : Z := 4096.

Definition secret_error {A} (msg : string) : result A := throw ExcSecretFileError msg.

Section secrets.
Context (fs : file_system) (env : environment).

(** [backend/core/secret_files.py:24-30] resolve_secret_file *)
Definition resolve_secret_file (configured_file default_file : string) : result (option string) :=
  if is_empty configured_file then
    Ok (if fs_is_file fs default_file then Some default_file else None)
  else if negb (startswith "/" configured_file) || negb (fs_is_file fs configured_file) then
    secret_error (configured_file +:+ " must reference an existing absolute file")
  else Ok (Some configured_file).

(** [backend/core/secret_files.py:33-44] read_secret_file *)
Definition read_secret_file (secret_file file_name : string) : result string :=
  size ← fs_size fs secret_file;
  if MAX_SECRET_FILE_BYTES <? size then secret_error (file_name +:+ " exceeds the size limit") else
  value ← catch (catch (bytes ← fs_read fs secret_file; strip <$> utf8_decode bytes)
                   ExcUnicodeError (λ _, secret_error (file_name +:+ " must contain UTF-8 text")))
                 ExcOSError (λ _, secret_error (file_name +:+ " cannot be read"));
  if is_empty value then secret_error (file_name +:+ " must not be empty") else Ok value.

(** [backend/core/secret_files.py:13-21] read_secret_input *)
Definition read_secret_input (value_name file_name default_file : string) : result (option string) :=
  let environment_value := strip (default "" (env value_name)) in
  let configured_file := strip (default "" (env file_name)) in
  secret_file ← resolve_secret_file configured_file default_file;
  match secret_file with
  | Some f =>
      if truthy environment_value then
        secret_error (value_name +:+ " and " +:+ file_name +:+ " cannot both be configured")
      else Some <$> read_secret_file f file_name
  | None => Ok None
  end.
End secrets.

(** ** Settings classes *)

Section settings.
Context (fs : file_system) (env : environment).
Context (parse_bool_setting : string → result bool) (parse_int_setting : string → result Z).

Definition field_bool (name : string) (dflt : bool) : result bool :=
  match env name with None => Ok dflt | Some v => parse_bool_setting v end.

Definition validation_error {A} (msg : string) : result A := throw ExcValidationError msg.

Definition field_positive_int (name : string) (dflt : Z) : result Z :=
  match env name with
  | None => Ok dflt
  | Some v =>
      n ← parse_int_setting v;
      if 0 <? n then Ok n else validation_error (name +:+ ": Input should be greater than 0")
  end.

(** [backend/core/auth_config.py:11-27] MIN_SECRET_LENGTH *)
Definition MIN_SECRET_LENGTH : Z := 32.
Definition DEFAULT_JWT_ALGORITHM : string := "HS256".
Definition DEFAULT_ACCESS_TOKEN_EXPIRE_MINUTES : Z := 30.
Definition DEFAULT_REFRESH_TOKEN_EXPIRE_MINUTES : Z := 120.
Definition DEFAULT_JWT_ISSUER : string := "gcs-saker".
Definition DEFAULT_REFRESH_COOKIE_NAME : string := "gcs_saker_refresh".

(** [backend/core/auth_config.py:34-53] AuthSettings *)
Record AuthSettings : Type := mkAuthSettings {
  auth_secret : string;
  auth_algorithm : string;
  access_token_expire_minutes : Z;
  refresh_token_expire_minutes : Z;
  auth_issuer : string;
  refresh_cookie_name : string;
  refresh_cookie_secure : bool;
  refresh_cookie_samesite : string
}.

(** [backend/core/auth_config.py:55-60] validate_secret_length *)
Definition validate_secret_length (secret : string) : result string :=
  if Z.of_nat (str_len secret) <? MIN_SECRET_LENGTH then
    validation_error "AUTH_JWT_SECRET: must be set to at least 32 characters"
  else Ok secret.

(** [backend/core/auth_config.py:62-66] validate_cookie_security *)
Definition validate_cookie_security (s : AuthSettings) : result AuthSettings :=
  if String.eqb (refresh_cookie_samesite s) "none" && negb (refresh_cookie_secure s) then
    validation_error "SameSite=None refresh cookies require Secure=true"
  else Ok s.

(** The constructor call of [from_env]: [secret] is the keyword argument. *)
Definition build_auth_settings (secret : option string) : result AuthSettings :=
  secret ← match secret with
           | Some s => Ok s
           | None => match env "AUTH_JWT_SECRET" with
                     | Some s => Ok s
                     | None => validation_error "AUTH_JWT_SECRET: Field required"
                     end
           end;
  secret ← validate_secret_length secret;
  access ← field_positive_int "AUTH_ACCESS_TOKEN_EXPIRE_MINUTES" DEFAULT_ACCESS_TOKEN_EXPIRE_MINUTES;
  refresh ← field_positive_int "AUTH_REFRESH_TOKEN_EXPIRE_MINUTES" DEFAULT_REFRESH_TOKEN_EXPIRE_MINUTES;
  secure ← field_bool "AUTH_REFRESH_COOKIE_SECURE" true;
  let samesite := default "lax" (env "AUTH_REFRESH_COOKIE_SAMESITE") in
  _ ← (if bool_decide (samesite ∈ ["lax"; "strict"; "none"]) then Ok ()
       else validation_error "AUTH_REFRESH_COOKIE_SAMESITE: unexpected literal");
  validate_cookie_security {|
    auth_secret := secret;
    auth_algorithm := default DEFAULT_JWT_ALGORITHM (env "AUTH_JWT_ALGORITHM");
    access_token_expire_minutes := access;
    refresh_token_expire_minutes := refresh;
    auth_issuer := default DEFAULT_JWT_ISSUER (env "AUTH_JWT_ISSUER");
    refresh_cookie_name := default DEFAULT_REFRESH_COOKIE_NAME (env "AUTH_REFRESH_COOKIE_NAME");
    refresh_cookie_secure := secure;
    refresh_cookie_samesite := samesite
  |}.

(** [backend/core/auth_config.py:81-85] auth_secret_file_value *)
Definition auth_secret_file_value : result (option string) :=
  catch (read_secret_input fs env "AUTH_JWT_SECRET" "AUTH_JWT_SECRET_FILE" "/run/secrets/AUTH_JWT_SECRET")
    ExcSecretFileError (λ msg, throw ExcAuthConfigError msg).

(** [backend/core/auth_config.py:68-78] from_env

    Both branches of the handler raise [AuthConfigError]; the message of the
    first names the secret. *)
Definition auth_settings_from_env : result AuthSettings :=
  catch (secret ← auth_secret_file_value; build_auth_settings secret)
    ExcValidationError (λ msg,
      if startswith "AUTH_JWT_SECRET" msg
      then throw ExcAuthConfigError "AUTH_JWT_SECRET must be set to at least 32 characters"
      else throw ExcAuthConfigError (settings_error_message "auth" msg)).

(** [backend/core/web_security_settings.py:11-27] DEFAULT_ALLOWED_ORIGINS *)
Definition DEFAULT_ALLOWED_ORIGINS : list string := ["http://localhost:5173"; "http://localhost:5174"].
Definition DEFAULT_CONTENT_SECURITY_POLICY : string :=
  "default-src 'self'; script-src 'self'; style-src 'self' 'unsafe-inline'; img-src 'self' data: blob: https://tiles.openfreemap.org https://services.arcgisonline.com; connect-src 'self' https: wss:; media-src 'self' blob: https:; worker-src 'self' blob:; object-src 'none'; base-uri 'self'; frame-ancestors 'none'".

(** [backend/core/web_security_settings.py:30-38] WebSecuritySettings *)
Record WebSecuritySettings : Type := mkWebSecurity {
  allowed_origins : list string;
  content_security_policy : string
}.

(** [backend/core/web_security_settings.py:40-45] parse_allowed_origins *)
Definition parse_allowed_origins (value : string) : list string :=
  match csv_to_tuple (Some value) with [] => DEFAULT_ALLOWED_ORIGINS | l => l end.

(** [backend/core/web_security_settings.py:47-52] default_content_security_policy *)
Definition default_content_security_policy (value : string) : string :=
  opt_or (empty_to_none (Some value)) DEFAULT_CONTENT_SECURITY_POLICY.

(** [backend/core/web_security_settings.py:54-59] from_env *)
Definition web_security_from_env : WebSecuritySettings := {|
  allowed_origins := match env "BACKEND_CORS_ALLOW_ORIGINS" with
                     | None => DEFAULT_ALLOWED_ORIGINS
                     | Some v => parse_allowed_origins v
                     end;
  content_security_policy := match env "BACKEND_CONTENT_SECURITY_POLICY" with
                             | None => DEFAULT_CONTENT_SECURITY_POLICY
                             | Some v => default_content_security_policy v
                             end
|}.

(** ** ICE servers *)

(** [backend/core/ice_settings.py:10-17] DEFAULT_WEBRTC_STUN_URL *)
Definition DEFAULT_WEBRTC_STUN_URL : string := "stun:stun.l.google.com:19302".

(** [backend/core/ice_settings.py:26-38] BrowserIceServer *)
Record BrowserIceServer : Type := mkIceServer {
  ice_urls : string;
  ice_username : option string;
  ice_credential : option string
}.

(** [backend/core/ice_settings.py:40-46] to_api_dict *)
Definition to_api_dict (self : BrowserIceServer) : list (string * string) :=
  [("urls", ice_urls self)]
  ++ match ice_username self with Some u => [("username", u)] | None => [] end
  ++ match ice_credential self with Some c => [("credential", c)] | None => [] end.

(** [backend/core/ice_settings.py:61-68] WebRtcIceSettings *)
Record WebRtcIceSettings : Type := mkIceSettings {
  stun_url : option string;
  turn_url : option string;
  turn_username : option string;
  turn_password : option string;
  mediamtx_turn_url : option string;
  mediamtx_turn_username : option string;
  mediamtx_turn_password : option string
}.

(** A field under [empty_string_to_none]: the validator runs on values that the
    environment gives. *)
Definition field_optional (name : string) (dflt : option string) : option string :=
  match env name with None => dflt | Some v => empty_to_none (Some v) end.

(** [backend/core/ice_settings.py:85-93] with_legacy_mediamtx_fallbacks *)
Definition with_legacy_mediamtx_fallbacks (self : WebRtcIceSettings) : WebRtcIceSettings := {|
  stun_url := Some (opt_or (stun_url self) DEFAULT_WEBRTC_STUN_URL);
  turn_url := opt_or_opt (turn_url self) (mediamtx_turn_url self);
  turn_username := opt_or_opt (turn_username self) (mediamtx_turn_username self);
  turn_password := opt_or_opt (turn_password self) (mediamtx_turn_password self);
  mediamtx_turn_url := mediamtx_turn_url self;
  mediamtx_turn_username := mediamtx_turn_username self;
  mediamtx_turn_password := mediamtx_turn_password self
|}.

(** [backend/core/ice_settings.py:70-83] from_env *)
Definition ice_settings_from_env : WebRtcIceSettings :=
  with_legacy_mediamtx_fallbacks {|
    stun_url := field_optional "WEBRTC_STUN_URL" (Some DEFAULT_WEBRTC_STUN_URL);
    turn_url := field_optional "WEBRTC_TURN_URL" None;
    turn_username := field_optional "WEBRTC_TURN_USERNAME" None;
    turn_password := field_optional "WEBRTC_TURN_PASSWORD" None;
    mediamtx_turn_url := field_optional "MEDIAMTX_TURN_URL" None;
    mediamtx_turn_username := field_optional "MEDIAMTX_TURN_USERNAME" None;
    mediamtx_turn_password := field_optional "MEDIAMTX_TURN_PASSWORD" None
  |}.

Definition nonempty_opt (x : option string) : option string :=
  match x with Some s => if truthy s then Some s else None | None => None end.

(** [backend/core/ice_settings.py:98-104] browser_ice_server_list *)
Definition browser_ice_server_list (self : WebRtcIceSettings) : list BrowserIceServer :=
  match nonempty_opt (stun_url self) with
  | Some u => [mkIceServer u None None]
  | None => []
  end ++
  match nonempty_opt (turn_url self), nonempty_opt (turn_username self),
        nonempty_opt (turn_password self) with
  | Some u, Some n, Some p => [mkIceServer u (Some n) (Some p)]
  | _, _, _ => []
  end.

(** [backend/core/ice_settings.py:95-96] browser_ice_servers *)
Definition browser_ice_servers (self : WebRtcIceSettings) : list (list (string * string)) :=
  to_api_dict <$> browser_ice_server_list self.

(** ** The dashboard map *)

(** [backend/core/map_settings.py:8-10] DEFAULT_MAP_PROVIDER *)
Definition DEFAULT_MAP_PROVIDER : string := "offline".
Definition DEFAULT_MAP_STYLE_URL : string := "".
Definition DEFAULT_MAP_ATTRIBUTION : string := "Offline tactical map".

(** [backend/modules/map_config/schemas.py:5-5] MapProvider *)
Definition MAP_PROVIDERS : list string := ["esri-satellite"; "openfreemap"; "offline"; "custom"].

(** [backend/core/map_settings.py:13-17] DashboardMapSettings *)
Record DashboardMapSettings : Type := mkMapSettings {
  map_provider : string;
  map_style_url : string;
  map_attribution : string;
  map_requires_api_key : bool
}.

(** [backend/core/map_settings.py:19-25] normalize_provider *)
Definition normalize_provider (value : string) : string :=
  match empty_to_none (Some value) with
  | None => DEFAULT_MAP_PROVIDER
  | Some p => if bool_decide (p ∈ MAP_PROVIDERS) then p else "custom"
  end.

(** [backend/core/map_settings.py:41-47] from_env *)
Definition map_settings_from_env : result DashboardMapSettings :=
  load_settings (
    requires ← field_bool "DASHBOARD_MAP_REQUIRES_API_KEY" false;
    Ok {|
      map_provider := match env "DASHBOARD_MAP_PROVIDER" with
                      | None => DEFAULT_MAP_PROVIDER | Some v => normalize_provider v end;
      map_style_url := match env "DASHBOARD_MAP_STYLE_URL" with
                       | None => DEFAULT_MAP_STYLE_URL | Some v => strip v end;
      map_attribution := match env "DASHBOARD_MAP_ATTRIBUTION" with
                         | None => DEFAULT_MAP_ATTRIBUTION
                         | Some v => opt_or (empty_to_none (Some v)) DEFAULT_MAP_ATTRIBUTION end;
      map_requires_api_key := requires
    |}) "dashboard map".

(** [backend/modules/map_config/schemas.py:8-14] MapConfigResponse *)
Record MapConfigResponse : Type := mkMapConfig {
  mc_provider : string;
  mc_style_url : string;
  mc_attribution : string;
  mc_requires_api_key : bool
}.

(** [backend/modules/map_config/service.py:19-22] _provider *)
Definition map_config_provider (s : DashboardMapSettings) : string :=
  if bool_decide (map_provider s ∈ MAP_PROVIDERS) then map_provider s else "custom".

(** [backend/modules/map_config/service.py:11-17] get_config *)
Definition get_map_config (s : DashboardMapSettings) : MapConfigResponse :=
  mkMapConfig (map_config_provider s) (map_style_url s) (map_attribution s) (map_requires_api_key s).

(** ** The media server *)

(** [backend/core/media_settings.py:15-20] MediaServerSettings *)
Record MediaServerSettings : Type := mkMediaSettings {
  public_webrtc_base_url : option string;
  public_hls_base_url : option string;
  api_base_url : option string;
  api_username : option string;
  api_password : option string
}.

(** [backend/core/media_settings.py:22-41] from_env *)
Definition media_settings_from_env : result MediaServerSettings :=
  catch (
    password ← read_secret_input fs env "MEDIAMTX_API_PASSWORD" "MEDIAMTX_API_PASSWORD_FILE"
                 "/run/secrets/MEDIAMTX_API_PASSWORD";
    Ok {|
      public_webrtc_base_url := field_optional "MEDIAMTX_PUBLIC_WEBRTC_BASE_URL" None;
      public_hls_base_url := field_optional "MEDIAMTX_PUBLIC_HLS_BASE_URL" None;
      api_base_url := field_optional "MEDIAMTX_API_BASE_URL" None;
      api_username := field_optional "MEDIAMTX_API_USER" None;
      api_password := match password with
                      | Some p => empty_to_none (Some p)
                      | None => field_optional "MEDIAMTX_API_PASSWORD" None
                      end
    |}) ExcSecretFileError (λ msg, throw ExcSettingsConfigurationError msg).

(** ** The database *)

(** [backend/core/db.py:15-22] DEFAULT_DATABASE_URL *)
Definition DEFAULT_DATABASE_URL : string := "sqlite+pysqlite:///:memory:".
Definition LEGACY_MYSQL_DIALECTS : list string := ["mysql"; "mysql+pymysql"; "mariadb"; "mariadb+pymysql"].
Definition POSTGRES_DIALECTS : list string := ["postgresql"; "postgresql+psycopg2"].

(** [backend/core/db.py:25-28] DatabaseSettings *)
Record DatabaseSettings : Type := mkDatabaseSettings {
  db_url : string;
  db_legacy_mysql_allowed : bool;
  db_tls_required : bool
}.

Context (bracketed_netloc_ok nfkc_ok : string → bool).

(** [backend/core/db.py:40-42] dialect *)
Definition db_dialect (s : DatabaseSettings) : result string :=
  parsed ← urlsplit bracketed_netloc_ok nfkc_ok (db_url s);
  Ok (url_scheme parsed).

(** [backend/core/db.py:44-46] is_postgres *)
Definition is_postgres (dialect : string) : bool := bool_decide (dialect ∈ POSTGRES_DIALECTS).

(** [dict(item.split("=", 1) for item in query.split("&") if "=" in item)] *)
Definition query_dict (query : string) : list (string * string) :=
  foldl (λ d item, match split_once "=" item with
                   | (k, Some v) => dict_set d k v
                   | (_, None) => d
                   end) [] (split_on "&" query).

(** [backend/core/db.py:66-67] legacy_mysql_allowed *)
Definition legacy_mysql_allowed : result bool := field_bool "GCS_ALLOW_LEGACY_MYSQL" false.

(** [backend/core/db.py:48-59] validate_dialect *)
Definition validate_dialect (s : DatabaseSettings) : result DatabaseSettings :=
  parsed ← urlsplit bracketed_netloc_ok nfkc_ok (db_url s);
  let dialect := url_scheme parsed in
  allowed ← (if bool_decide (dialect ∈ LEGACY_MYSQL_DIALECTS) then legacy_mysql_allowed else Ok true);
  if negb allowed then validation_error (dialect +:+ " is a legacy fallback dialect.") else
  if is_postgres dialect && db_tls_required s then
    let query := query_dict (url_query parsed) in
    if negb (bool_decide (dict_get query "sslmode" = Some "verify-full"))
       || negb (truthy (default "" (dict_get query "sslrootcert")))
    then validation_error "PostgreSQL requires sslmode=verify-full and sslrootcert"
    else Ok s
  else Ok s.

(** [backend/core/db.py:30-38] from_env

    A [ValueError] of the validator is a validation error. *)
Definition database_settings_from_env : result DatabaseSettings :=
  catch (load_settings (
    secret_url ← read_secret_input fs env "DATABASE_URL" "DATABASE_URL_FILE" "/run/secrets/DATABASE_URL";
    legacy ← field_bool "GCS_ALLOW_LEGACY_MYSQL" false;
    tls ← field_bool "DATABASE_TLS_REQUIRED" false;
    let url := match secret_url with
               | Some u => u
               | None => default DEFAULT_DATABASE_URL (env "DATABASE_URL")
               end in
    catch (validate_dialect (mkDatabaseSettings url legacy tls)) ExcValueError validation_error)
    "database") ExcSecretFileError (λ msg, throw ExcSettingsConfigurationError msg).

(** [backend/core/db.py:70-71] get_database_url *)
Definition get_database_url : result string := s ← database_settings_from_env; Ok (db_url s).

Inductive engine_option : Type :=
  | PoolPrePing (enabled : bool)
  | PoolTimeout (seconds : Z)
  | PoolRecycle (seconds : Z).

(** [backend/core/db.py:74-78] create_database_engine: [create_engine] is SQLAlchemy's *)
Definition create_database_engine {E} (create_engine : string → list engine_option → result E) (s : DatabaseSettings) :
    result E :=
  dialect ← db_dialect s;
  create_engine (db_url s) (PoolPrePing true :: if is_postgres dialect then [PoolTimeout 5; PoolRecycle 300] else []).

(** [backend/core/db.py:81-81] engine *)
Definition database_engine {E} (create_engine : string → list engine_option → result E) : result E :=
  s ← database_settings_from_env; create_database_engine create_engine s.

(** [backend/core/db.py:85-90] get_db: the session of a request is closed
    however the request ends; the world is what sessions act on. *)
Definition get_db {W DB A} (SessionLocal : W → result DB * W) (close : DB → W → result () * W)
    (request : DB → W → result A * W) (w : W) : result A * W :=
  match SessionLocal w with
  | (Raise e, w) => (Raise e, w)
  | (Ok db, w) =>
      let '(r, w) := request db w in
      match close db w with (Ok _, w) => (r, w) | (Raise e, w) => (Raise e, w) end
  end.
End settings.

(** ** Properties *)

(** A database configuration is only accepted under its policy: when
    [from_env] succeeds, the URL parses, a legacy MySQL or MariaDB dialect was
    allowed by its flag, and a PostgreSQL URL under required TLS carries
    [sslmode=verify-full] and a root certificate. *)
Theorem database_policy_enforced (fs : file_system) (env : environment)
    (parse_bool_setting : string → result bool) (bracketed_netloc_ok nfkc_ok : string → bool)
    (s : DatabaseSettings) :
  database_settings_from_env fs env parse_bool_setting bracketed_netloc_ok nfkc_ok = Ok s →
  ∃ parsed, urlsplit bracketed_netloc_ok nfkc_ok (db_url s) = Ok parsed ∧
    (url_scheme parsed ∈ LEGACY_MYSQL_DIALECTS →
       legacy_mysql_allowed env parse_bool_setting = Ok true) ∧
    (url_scheme parsed ∈ POSTGRES_DIALECTS → db_tls_required s = true →
       dict_get (query_dict (url_query parsed)) "sslmode" = Some "verify-full" ∧
       ∃ ca, dict_get (query_dict (url_query parsed)) "sslrootcert" = Some ca ∧ ca ≠ "").
Proof.
  unfold database_settings_from_env, load_settings. intros H.
  apply catch_reraise in H; [|done]. apply catch_reraise in H; [|done]. inv_ok.
  apply catch_reraise in H; [|done].
  assert (∀ s0, validate_dialect env parse_bool_setting bracketed_netloc_ok nfkc_ok s0 = Ok s →
    s0 = s) as Hid.
  { intros s0 E. unfold validate_dialect in E. inv_ok. repeat case_if_in E; inv_ok; done. }
  pose proof (Hid _ H) as Hs. rewrite Hs in H. clear Hid Hs.
  unfold validate_dialect in H. inv_ok. eexists. split; [eassumption|]. split.
  - intros Hin. rewrite bool_decide_true in * by done.
    match goal with E : legacy_mysql_allowed _ _ = Ok ?b |- _ => destruct b; [done|by inv_ok] end.
  - intros Hin Htls. case_if_in H; [done|]. unfold is_postgres in H.
    rewrite (bool_decide_true (_ ∈ POSTGRES_DIALECTS)) in H by done. rewrite Htls in H. cbn [andb] in H.
    case_if_in H; [done|]. split_bools. split; [done|].
    destruct (dict_get _ "sslrootcert") as [ca|]; [|done]. exists ca. split; [done|]. by intros ->.
Qed.

Definition no_files : file_system := mkFS (λ _, false) (λ _, throw ExcOSError "") (λ _, throw ExcOSError "").

Definition sample_db_env : environment := λ name,
  if String.eqb name "DATABASE_URL"
  then Some "postgresql+psycopg2://u:p@db:5432/gcs?sslmode=verify-full&sslrootcert=/ca.pem"
  else if String.eqb name "DATABASE_TLS_REQUIRED" then Some "true" else None.

Definition sample_parse_bool (s : string) : result bool :=
  if String.eqb s "true" then Ok true
  else if String.eqb s "false" then Ok false
  else throw ExcValidationError "bool".

Lemma database_policy_enforced_witness :
  ∃ s parsed, database_settings_from_env no_files sample_db_env sample_parse_bool
      (λ _, true) (λ _, true) = Ok s ∧
    urlsplit (λ _, true) (λ _, true) (db_url s) = Ok parsed ∧
    dict_get (query_dict (url_query parsed)) "sslmode" = Some "verify-full".
Proof.
  destruct (database_settings_from_env no_files sample_db_env sample_parse_bool (λ _, true)
    (λ _, true)) as [s|] eqn:E; [|vm_compute in E; discriminate].
  destruct (database_policy_enforced no_files sample_db_env sample_parse_bool (λ _, true)
    (λ _, true) s E) as (parsed & Hp & _ & Htls).
  exists s, parsed. split; [reflexivity|]. split; [exact Hp|].
  vm_compute in E. injection E as <-. vm_compute in Hp. injection Hp as <-.
  apply Htls; [|reflexivity]. apply (bool_decide_unpack _). vm_compute. exact I.
Defined.

(** Authentication settings are never weak: when [AuthSettings.from_env]
    succeeds, the signing secret has at least 32 characters, both token
    lifetimes are positive and a [SameSite=None] refresh cookie is [Secure]. *)
Theorem auth_settings_sound (fs : file_system) (env : environment)
    (parse_bool_setting : string → result bool) (parse_int_setting : string → result Z)
    (s : AuthSettings) :
  auth_settings_from_env fs env parse_bool_setting parse_int_setting = Ok s →
  MIN_SECRET_LENGTH <= Z.of_nat (str_len (auth_secret s)) ∧
  0 < access_token_expire_minutes s ∧ 0 < refresh_token_expire_minutes s ∧
  refresh_cookie_samesite s ∈ ["lax"; "strict"; "none"] ∧
  (refresh_cookie_samesite s = "none" → refresh_cookie_secure s = true).
Proof.
  unfold auth_settings_from_env. intros H.
  apply catch_reraise in H; [|intros msg; by destruct (startswith _ msg)]. inv_ok.
  unfold build_auth_settings in H. inv_ok.
  unfold validate_secret_length in Ha1. case_if_in Ha1; [done|]. injection Ha1 as <-. split_bools.
  assert (Hpos : ∀ name d n, field_positive_int env parse_int_setting name d = Ok n → 0 < d → 0 < n).
  { unfold field_positive_int. intros name d n Hn Hd. destruct (env name); [|by injection Hn as <-].
    inv_ok. case_if_in Hn; [|done]. injection Hn as <-. by split_bools. }
  apply Hpos in Ha2; [|done]. apply Hpos in Ha3; [|done].
  case_if_in Ha5; [|done]. unfold validate_cookie_security in H. case_if_in H; [done|].
  injection H as <-. cbn in *. split_bools. split; [done|]. split; [done|]. split; [done|].
  split; [done|]. intros Hn. rewrite Hn in *. cbn in *. by destruct a4.
Qed.

Definition sample_secret : string := "0123456789abcdef0123456789abcdef".

Definition sample_auth_env : environment := λ name,
  if String.eqb name "AUTH_JWT_SECRET" then Some sample_secret else None.

Definition sample_auth_settings : AuthSettings :=
  mkAuthSettings sample_secret "HS256" 30 120 "gcs-saker" "gcs_saker_refresh" true "lax".

Lemma auth_settings_sound_witness :
  auth_settings_from_env no_files sample_auth_env sample_parse_bool (λ _, throw ExcValidationError "")
    = Ok sample_auth_settings ∧
  MIN_SECRET_LENGTH <= Z.of_nat (str_len (auth_secret sample_auth_settings)).
Proof.
  assert (E : auth_settings_from_env no_files sample_auth_env sample_parse_bool
    (λ _, throw ExcValidationError "") = Ok sample_auth_settings) by (vm_compute; reflexivity).
  split; [exact E|]. apply (auth_settings_sound _ _ _ _ _ E).
Defined.

(** A secret read from a file is unambiguous and usable: it is non-empty
    text without surrounding white space, it comes from the configured absolute
    file (or the default one) which exists and is at most 4096 bytes, and the
    environment variable of the same secret is blank. *)
Theorem secret_input_sound (fs : file_system) (env : environment)
    (value_name file_name default_file secret : string) :
  read_secret_input fs env value_name file_name default_file = Ok (Some secret) →
  secret ≠ "" ∧ strip (default "" (env value_name)) = "" ∧
  ∃ path bytes size text, fs_is_file fs path = true ∧ fs_read fs path = Ok bytes ∧
    utf8_decode bytes = Ok text ∧ secret = strip text ∧
    fs_size fs path = Ok size ∧ size <= MAX_SECRET_FILE_BYTES ∧
    (path = default_file ∨
     (path = strip (default "" (env file_name)) ∧ startswith "/" path = true)).
Proof.
  unfold read_secret_input. intros H. inv_ok. destruct a as [f|]; [|done].
  destruct (truthy (strip (default "" (env value_name)))) eqn:Hval; [done|].
  destruct (read_secret_file fs f file_name) as [v|] eqn:Hread; [|done]. injection H as <-.
  unfold read_secret_file in Hread. inv_ok. case_if_in Hread; [done|]. inv_ok.
  case_if_in Hread; [done|]. injection Hread as <-.
  apply catch_reraise in Ha1; [|done]. apply catch_reraise in Ha1; [|done].
  destruct (fs_read fs f) as [bytes|] eqn:Hbytes; [cbn [mbind result_bind] in Ha1|done].
  destruct (utf8_decode bytes) as [text|] eqn:Htext; [|done]. injection Ha1 as <-.
  split_bools. split; [by intros E; rewrite E in *|].
  split; [by destruct (strip (default "" (env value_name)))|].
  eexists f, bytes, _, text. unfold resolve_secret_file in Ha.
  destruct (is_empty _); [destruct (fs_is_file fs default_file) eqn:Hfile; [|done];
    injection Ha as <-; naive_solver|].
  destruct (startswith "/" _) eqn:Habs, (fs_is_file fs _) eqn:Hfile; cbn in Ha; try done.
  injection Ha as <-. naive_solver.
Qed.

Definition one_file : file_system :=
  mkFS (String.eqb "/run/secrets/AUTH_JWT_SECRET") (λ _, Ok 9) (λ _, Ok (utf8_encode " s3cret! ")).

Lemma secret_input_sound_witness :
  read_secret_input one_file (λ _, None) "AUTH_JWT_SECRET" "AUTH_JWT_SECRET_FILE"
    "/run/secrets/AUTH_JWT_SECRET" = Ok (Some "s3cret!") ∧ "s3cret!" ≠ "".
Proof.
  assert (E : read_secret_input one_file (λ _, None) "AUTH_JWT_SECRET" "AUTH_JWT_SECRET_FILE"
    "/run/secrets/AUTH_JWT_SECRET" = Ok (Some "s3cret!")) by (vm_compute; reflexivity).
  split; [exact E|]. apply (secret_input_sound _ _ _ _ _ _ E).
Defined.
