(* ===== verification/TelemetrySink.v ===== *)
(** Write-behind of telemetry: [backend/modules/telemetry_buffer/bulk_sql.py],
    [storage_contract.py] and [sink.py].

    A flush drains a batch from the buffer, hands it to the bulk sink and puts
    back what was not stored.  The sink is a client of the buffer interface of
    [TelemetryBuffer]: its theorems hold for every buffer with those laws. *)

From stdpp Require Import base list strings.
From Stdlib Require Import ZArith Lia Floats.
From S2P Require Import Prelude PyStr PyTime TelemetryModel TelemetryIngest TelemetryBuffer Settings.

#[local] Open Scope Z_scope.

(** [backend/modules/telemetry_buffer/storage_contract.py:8-11] TelemetrySqlDialect *)
Module TelemetrySqlDialect.
Definition MYSQL : string := "mysql".
Definition MARIADB : string := "mariadb".
Definition POSTGRESQL : string := "postgresql".
End TelemetrySqlDialect.

(** [backend/modules/telemetry_buffer/storage_contract.py:14-18] TelemetryStorageTables *)
Module TelemetryStorageTables.
Definition HISTORY_SCHEMA : string := "backend_compat".
Definition LATEST : string := "telemetry_realtime".
Definition HISTORY : string := "telemetry_history".
Definition LATEST_MATERIALIZED_VIEW : string := "telemetry_latest_mv".
End TelemetryStorageTables.

(** [backend/modules/telemetry_buffer/storage_contract.py:21-53] LATEST_ROW_COLUMNS *)
Definition LATEST_ROW_COLUMNS : list string :=
  ["uuid"; "latitude"; "longitude"; "altitude"; "magneticX"; "magneticY"; "magneticZ"; "soc";
   "phoneBatterySOC"; "velocity"; "totalDistance"; "epochTime"; "portDistance"].

(** [backend/modules/telemetry_buffer/storage_contract.py:55-76] HISTORY_ROW_COLUMNS *)
Definition HISTORY_ROW_COLUMNS : list string :=
  ["stream_uuid"; "latitude"; "longitude"; "altitude"; "velocity"; "epochTime"; "received_at"].

Definition telemetry_history_table : string :=
  TelemetryStorageTables.HISTORY_SCHEMA +:+ "." +:+ TelemetryStorageTables.HISTORY.

(** ** Batches and statements *)

(** [backend/modules/telemetry_buffer/bulk_sql.py:38-42] TelemetryBulkPayload *)
Record TelemetryBulkPayload : Type := mkBulkPayload {
  bp_uuid : string;
  bp_telemetry : TelemetryCreate;
  bp_received_at : datetime
}.

(** [backend/modules/telemetry_buffer/bulk_sql.py:44-48] from_record *)
Definition from_record (record : TelemetryBufferRecord) : result TelemetryBulkPayload :=
  if is_empty (rec_key record) then value_error "telemetry uuid is required for bulk persistence"
  else Ok (mkBulkPayload (rec_key record) (rec_telemetry record) (rec_received_at record)).

(** [backend/modules/telemetry_buffer/bulk_sql.py:50-53] to_latest_row *)
Definition to_latest_row (self : TelemetryBulkPayload) : row :=
  let r := dict_set (model_dump true true (bp_telemetry self)) "uuid" (VText (bp_uuid self)) in
  omap (λ column, (λ v, (column, v)) <$> dict_get r column) LATEST_ROW_COLUMNS.

(** [backend/modules/telemetry_buffer/bulk_sql.py:55-65] to_history_row *)
Definition to_history_row (self : TelemetryBulkPayload) : row :=
  let r := model_dump true true (bp_telemetry self) in
  let get column := default VNone (dict_get r column) in
  [("stream_uuid", VText (bp_uuid self)); ("latitude", get "latitude");
   ("longitude", get "longitude"); ("altitude", get "altitude"); ("velocity", get "velocity");
   ("epochTime", get "epochTime"); ("received_at", VTime (bp_received_at self))].

(** [backend/modules/telemetry_buffer/bulk_sql.py:68-75] from_records *)
Definition from_records (records : list TelemetryBufferRecord) : result (list TelemetryBulkPayload) :=
  mapM from_record records.

(** [backend/modules/telemetry_buffer/bulk_sql.py:83-84] latest_rows *)
Definition latest_rows (batch : list TelemetryBulkPayload) : list row := to_latest_row <$> batch.

(** [backend/modules/telemetry_buffer/bulk_sql.py:86-87] history_rows *)
Definition history_rows (batch : list TelemetryBulkPayload) : list row := to_history_row <$> batch.

(** [backend/modules/telemetry_buffer/bulk_sql.py:90-95] TelemetryBulkWritePlan *)
Record TelemetryBulkWritePlan : Type := mkPlan {
  record_count : nat;
  latest_statement_count : nat;
  history_statement_count : nat;
  previous_row_loop_statement_count : nat
}.

(** [backend/modules/telemetry_buffer/bulk_sql.py:97-99] total_statement_count *)
Definition total_statement_count (p : TelemetryBulkWritePlan) : nat :=
  (latest_statement_count p + history_statement_count p)%nat.

(** [backend/modules/telemetry_buffer/bulk_sql.py:101-103] avoided_statement_count *)
Definition avoided_statement_count (p : TelemetryBulkWritePlan) : Z :=
  Z.max (Z.of_nat (previous_row_loop_statement_count p) - Z.of_nat (total_statement_count p)) 0.

(** [backend/modules/telemetry_buffer/bulk_sql.py:106-113] plan_postgres_bulk_write *)
Definition plan_postgres_bulk_write (batch : list TelemetryBulkPayload) : TelemetryBulkWritePlan :=
  let n := length batch in
  mkPlan n (if Nat.eqb n 0 then 0 else 1) (if Nat.eqb n 0 then 0 else 1) n.

(** [backend/modules/telemetry_buffer/bulk_sql.py:116-123] plan_mysql_latest_bulk_write *)
Definition plan_mysql_latest_bulk_write (batch : list TelemetryBulkPayload) : TelemetryBulkWritePlan :=
  let n := length batch in mkPlan n (if Nat.eqb n 0 then 0 else 1) 0 n.

Definition non_key_columns : list string := filter (λ c, c ≠ "uuid") LATEST_ROW_COLUMNS.

(** [backend/modules/telemetry_buffer/bulk_sql.py:126-137] build_postgres_latest_bulk_upsert *)
Definition build_postgres_latest_bulk_upsert (batch : list TelemetryBulkPayload)
    : result insert_statement :=
  update_columns ← mapM (excluded_attr telemetry_table_columns) non_key_columns;
  Ok (mkInsert TelemetryStorageTables.LATEST (latest_rows batch)
        (OnConflictDoUpdate ["uuid"] update_columns)).

(** [backend/modules/telemetry_buffer/bulk_sql.py:140-141] build_postgres_history_bulk_insert *)
Definition build_postgres_history_bulk_insert (batch : list TelemetryBulkPayload) : insert_statement :=
  mkInsert telemetry_history_table (history_rows batch) NoConflictClause.

(** [backend/modules/telemetry_buffer/bulk_sql.py:144-152] build_mysql_latest_bulk_upsert *)
Definition build_mysql_latest_bulk_upsert (batch : list TelemetryBulkPayload)
    : result insert_statement :=
  update_columns ← mapM (excluded_attr telemetry_table_columns) non_key_columns;
  Ok (mkInsert TelemetryStorageTables.LATEST (latest_rows batch) (OnDuplicateKeyUpdate update_columns)).

(** ** Sinks *)

(** [backend/modules/telemetry_buffer/sink.py:44-45] TelemetryBulkSink

    A flush returns how many records it stored, or raises; in both cases it may
    have changed the database. *)
Class TelemetryBulkSink (D : Type) : Type :=
  bulk_flush : D → list TelemetryBufferRecord → result Z * D.

Section legacy.
Context `{TelemetrySession DB}.

(** [for record in records: upsert_telemetry(record.telemetry, db)], each of
    which commits. *)
Fixpoint upsert_each (db : DB) (records : list TelemetryBufferRecord) : result () * DB :=
  match records with
  | [] => (Ok (), db)
  | r :: records' =>
      match upsert_telemetry (rec_telemetry r) db with
      | Ok (db', _) => upsert_each db' records'
      | Raise e => (Raise e, db)
      end
  end.

(** Statements of one transaction: what was not committed is rolled back when
    the session closes on an exception. *)
Definition transaction (db : DB) (statements : result (list insert_statement)) (n : Z) : result Z * DB :=
  match (ss ← statements; db ← for_in execute db ss; commit db) with
  | Ok db' => (Ok n, db')
  | Raise e => (Raise e, db)
  end.

(** [backend/modules/telemetry_buffer/sink.py:53-71] LegacyDbTelemetryBulkSink *)
Definition legacy_flush (db : DB) (records : list TelemetryBufferRecord) : result Z * DB :=
  match records with
  | [] => (Ok 0, db)
  | _ =>
      match from_records records with
      | Raise e => (Raise e, db)
      | Ok batch =>
          let dialect := dialect_name db in
          let n := Z.of_nat (length batch) in
          if String.eqb dialect TelemetrySqlDialect.POSTGRESQL then
            transaction db (latest ← build_postgres_latest_bulk_upsert batch;
                            Ok [latest; build_postgres_history_bulk_insert batch]) n
          else if String.eqb dialect TelemetrySqlDialect.MYSQL
                  || String.eqb dialect TelemetrySqlDialect.MARIADB then
            transaction db (latest ← build_mysql_latest_bulk_upsert batch; Ok [latest]) n
          else
            match upsert_each db records with
            | (Ok _, db') => (Ok (Z.of_nat (length records)), db')
            | (Raise e, db') => (Raise e, db')
            end
      end
  end.

#[export] Instance legacy_bulk_sink : TelemetryBulkSink DB := legacy_flush.
End legacy.

(** [l[n:]] *)
Definition slice_from {A} (n : Z) (l : list A) : list A :=
  if 0 <=? n then drop (Z.to_nat n) l else drop (length l - Z.to_nat (- n)) l.

(** The sink: its buffer, the database behind its bulk sink (if it has one)
    and the queue-depth gauge. *)
Record sink_state (B D : Type) : Type := mkSink {
  sk_buffer : B;
  sk_db : D;
  sk_depth : Z
}.
Arguments mkSink {B D}.
Arguments sk_buffer {B D}.
Arguments sk_db {B D}.
Arguments sk_depth {B D}.

Section sink.
Context `{TelemetryWriteBuffer B} `{TelemetryBulkSink D}.
Implicit Types s : sink_state B D.

Definition set_buffer s (b : B) : sink_state B D := mkSink b (sk_db s) (sk_depth s).
Definition set_db s (d : D) : sink_state B D := mkSink (sk_buffer s) d (sk_depth s).

(** [backend/modules/telemetry_buffer/sink.py:118-119] _record_queue_depth *)
Definition record_queue_depth s : result () * sink_state B D :=
  match stats (sk_buffer s) with
  | Ok st => (Ok (), mkSink (sk_buffer s) (sk_db s) (pending_history_count st))
  | Raise e => (Raise e, s)
  end.

(** Run [k] on the new state when a step returned. *)
Definition andThen {A C} (m : result A * sink_state B D)
    (k : A → sink_state B D → result C * sink_state B D) : result C * sink_state B D :=
  match m with (Ok a, s) => k a s | (Raise e, s) => (Raise e, s) end.

(** A buffer operation: a raise leaves the state as it was. *)
Definition lift_buffer s (m : result B) : result () * sink_state B D :=
  match m with Ok b => (Ok (), set_buffer s b) | Raise e => (Raise e, s) end.

(** [backend/modules/telemetry_buffer/sink.py:100-116] flush_once *)
Definition flush_once (bulk_sink : bool) (max_items : Z) s : result Z * sink_state B D :=
  if negb bulk_sink then (Ok 0, s) else
  match drain_history (sk_buffer s) max_items with
  | Raise e => (Raise e, s)
  | Ok (records, b) =>
      andThen (record_queue_depth (set_buffer s b)) (λ _ s,
      match records with
      | [] => (Ok 0, s)
      | _ =>
          match bulk_flush (sk_db s) records with
          | (Raise e, d) =>
              andThen (lift_buffer (set_db s d)
                         (restore_history_front (sk_buffer s) records)) (λ _ s,
              andThen (record_queue_depth s) (λ _ s, (Raise e, s)))
          | (Ok flushed_count, d) =>
              andThen (if flushed_count =? Z.of_nat (length records) then (Ok (), set_db s d)
                       else lift_buffer (set_db s d)
                              (restore_history_front (sk_buffer s) (slice_from flushed_count records)))
              (λ _ s, andThen (record_queue_depth s) (λ _ s, (Ok flushed_count, s)))
          end
      end)
  end.

(** [backend/modules/telemetry_buffer/sink.py:89-98] upsert *)
Definition sink_upsert (bulk_sink : bool) (auto_flush_max_items : Z) (now : datetime)
    (telemetry : TelemetryCreate) s : result TelemetryCreate * sink_state B D :=
  let record := create_record now telemetry in
  andThen (lift_buffer s (append_history (sk_buffer s) record)) (λ _ s,
  andThen (lift_buffer s (put_latest (sk_buffer s) record)) (λ _ s,
  andThen (record_queue_depth s) (λ _ s,
  if bulk_sink && (0 <? auto_flush_max_items) then
    match stats (sk_buffer s) with
    | Raise e => (Raise e, s)
    | Ok st =>
        if auto_flush_max_items <=? pending_history_count st then
          andThen (flush_once bulk_sink auto_flush_max_items s) (λ _ s, (Ok telemetry, s))
        else (Ok telemetry, s)
    end
  else (Ok telemetry, s)))).
End sink.

(** ** Settings *)

(** [backend/modules/telemetry_buffer/sink.py:32-34] TelemetryBufferSettings *)
Record TelemetryBufferSettings : Type := mkBufferSettings { auto_flush_max_items : Z; max_pending : Z }.

(** [backend/modules/telemetry_buffer/sink.py:36-41] from_env *)
Definition buffer_settings_from_env (env : environment) (parse_int_setting : string → result Z) :
    result TelemetryBufferSettings :=
  load_settings
    (auto ← field_positive_int env parse_int_setting "TELEMETRY_BUFFER_AUTO_FLUSH_MAX_ITEMS" 1000;
     pending ← field_positive_int env parse_int_setting "TELEMETRY_BUFFER_MAX_PENDING_HISTORY" 10000;
     Ok (mkBufferSettings auto pending)) "telemetry buffer".

(** [backend/modules/telemetry_buffer/sink.py:122-128] build_buffered_telemetry_sink: the sink over a database and the
    process's gauge, with its flush size *)
Definition build_buffered_telemetry_sink {D} (env : environment) (parse_int_setting : string → result Z) (db : D)
    (depth : Z) : result (sink_state InMemoryTelemetryWriteBuffer D * Z) :=
  settings ← buffer_settings_from_env env parse_int_setting;
  buffer ← new_in_memory (max_pending settings);
  Ok (mkSink buffer db depth, auto_flush_max_items settings).


(** ** What a flush conserves *)

Lemma is_ok_inv {A} (m : result A) : is_ok m = true → ∃ a, m = Ok a.
Proof. apply is_ok_true. Qed.

Section contract.
#[local] Set Default Proof Using "Type*".
Context `{TelemetryWriteBufferLaws B} `{TelemetryBulkSink D}.
Implicit Types s : sink_state B D.

Definition sink_pending s : list TelemetryBufferRecord := pending (sk_buffer s).
Definition sink_wf s : Prop := buffer_wf (sk_buffer s).

Lemma sink_pending_mk (b : B) (d : D) n : sink_pending (mkSink b d n) = pending b.
Proof. done. Qed.

Lemma stored_pending_id (b : B) (rs : list TelemetryBufferRecord) : buffer_wf b → (∀ r, r ∈ rs → r ∈ pending b) →
  stored <$> rs = rs ∧ Forall record_ok rs.
Proof.
  intros Hwf Hin. split.
  - transitivity (id <$> rs); [|apply list_fmap_id]. apply list_fmap_ext. intros i r Hr.
    apply (pending_stored b); [done|]. by eapply Hin, list_elem_of_lookup_2.
  - apply Forall_forall. intros r Hr. by apply (pending_stored b); auto.
Qed.

Lemma elem_of_take_in {A} (n : nat) (l : list A) x : x ∈ take n l → x ∈ l.
Proof. intros Hx. rewrite <-(take_drop n l). apply elem_of_app. by left. Qed.

Lemma elem_of_drop_in {A} (n : nat) (l : list A) x : x ∈ drop n l → x ∈ l.
Proof. intros Hx. rewrite <-(take_drop n l). apply elem_of_app. by right. Qed.

Lemma elem_of_slice_from {A} n (l : list A) x : x ∈ slice_from n l → x ∈ l.
Proof. unfold slice_from. destruct (0 <=? n); apply elem_of_drop_in. Qed.

(** Putting back part of a drained batch, when that returns. *)
Lemma restore_returned (b b' b'' : B) (rs back : list TelemetryBufferRecord) : buffer_wf b → buffer_wf b' →
  (∀ r, r ∈ rs → r ∈ pending b) → (∀ r, r ∈ back → r ∈ rs) → restore_history_front b' back = Ok b'' →
  buffer_wf b'' ∧ pending b'' = back ++ pending b' ∧ ∀ k, latest b'' k = latest b' k.
Proof.
  intros Hb Hb' Hrs Hback Hr.
  destruct (stored_pending_id b back Hb) as [Hid Hok]; [auto|].
  destruct (restore_history_front_law b' back b'' Hb' Hok Hr) as (Hwf & Hp & Hl).
  rewrite Hid in Hp. done.
Qed.

(** The records of a batch that a bulk sink with this outcome did not store. *)
Definition not_stored (out : result Z) (batch : list TelemetryBufferRecord) : list TelemetryBufferRecord :=
  match out with Ok n => slice_from n batch | Raise _ => batch end.

(** The bulk sink was given the batch; what it did not store is pending again,
    in front and in order, and its outcome is the outcome of the flush, unless
    the reading of the queue depth that ends the flush raised. *)
Definition batch_kept (batch : list TelemetryBufferRecord) s (res : result Z) s' : Prop :=
  ∃ out, bulk_flush (sk_db s) batch = (out, sk_db s') ∧
    match out with
    | Raise _ => sink_pending s' = sink_pending s
    | Ok n => 0 <= n <= Z.of_nat (length batch) →
              sink_pending s = take (Z.to_nat n) batch ++ sink_pending s'
    end ∧
    (res = out ∨ ∃ e, stats (sk_buffer s') = Raise e ∧ res = Raise e).

(** The drained batch is gone: with the buffer holding the rest, either the
    queue depth could not be read before the bulk sink was called, or what the
    bulk sink did not store could not be put back. *)
Definition batch_lost (max : Z) (batch : list TelemetryBufferRecord) s (res : result Z) s' : Prop :=
  sink_pending s' = drop (Z.to_nat max) (sink_pending s) ∧
  ∃ e, res = Raise e ∧
    (stats (sk_buffer s') = Raise e ∧ sk_db s' = sk_db s ∨
     ∃ out, bulk_flush (sk_db s) batch = (out, sk_db s') ∧ out ≠ Ok (Z.of_nat (length batch)) ∧
       restore_history_front (sk_buffer s') (not_stored out batch) = Raise e).

(** The end of a flush: the queue depth is read and the outcome returned. *)
Lemma record_then s (res : result Z) :
  let '(r, s') := andThen (record_queue_depth s) (λ _ s, (res, s)) in
  sk_buffer s' = sk_buffer s ∧ sk_db s' = sk_db s ∧
  (r = res ∨ ∃ e, stats (sk_buffer s) = Raise e ∧ r = Raise e).
Proof.
  unfold record_queue_depth. destruct (stats (sk_buffer s)) as [st|e]; cbn; eauto 6.
Qed.

Lemma take_slice_drop (max n : Z) (l : list TelemetryBufferRecord) : 0 <= n →
  let batch := take (Z.to_nat max) l in
  l = take (Z.to_nat n) batch ++ slice_from n batch ++ drop (Z.to_nat max) l.
Proof.
  intros Hn batch. unfold slice_from. rewrite (proj2 (Z.leb_le 0 n)) by lia.
  rewrite app_assoc, take_drop. symmetry. apply take_drop.
Qed.

(** Everything after the drained batch reached the bulk sink. *)
Lemma flush_batch_spec (max : Z) s (b : B) (out : result Z) (d : D) : sink_wf s →
  let batch := take (Z.to_nat max) (sink_pending s) in
  buffer_wf b → pending b = drop (Z.to_nat max) (sink_pending s) →
  (∀ k, latest b k = latest (sk_buffer s) k) → bulk_flush (sk_db s) batch = (out, d) →
  ∀ n res s',
  andThen (if bool_decide (out = Ok (Z.of_nat (length batch))) then (Ok (), mkSink b d n)
           else lift_buffer (mkSink b d n) (restore_history_front b (not_stored out batch)))
    (λ _ s, andThen (record_queue_depth s) (λ _ s, (out, s))) = (res, s') →
  sink_wf s' ∧ (∀ k, latest (sk_buffer s') k = latest (sk_buffer s) k) ∧
  (batch_kept batch s res s' ∨ batch_lost max batch s res s').
Proof.
  intros Hwf batch Hwb Hpb Hlb Ef n res s' E.
  assert (Hin : ∀ r, r ∈ not_stored out batch → r ∈ batch)
    by (destruct out; [intros r; apply elem_of_slice_from|done]).
  case_bool_decide as Hout.
  - cbn [andThen] in E. pose proof (record_then (mkSink b d n) out) as Hr. rewrite E in Hr.
    destruct Hr as (Hb & Hd & Hres). cbn in Hb, Hd, Hres. rewrite <-Hb in Hres. unfold sink_wf. rewrite Hb.
    split; [done|]. split; [done|]. left. exists out. rewrite Hd. split; [done|]. split; [|done].
    assert (Hp' : sink_pending s' = drop (Z.to_nat max) (sink_pending s))
      by (unfold sink_pending at 1; by rewrite Hb).
    rewrite Hout, Hp'. intros _. rewrite Nat2Z.id, firstn_all. symmetry. apply take_drop.
  - destruct (restore_history_front b (not_stored out batch)) as [b2|e] eqn:Hr; cbn [lift_buffer andThen] in E.
    + destruct (restore_returned (sk_buffer s) b b2 batch _ Hwf Hwb (λ r, elem_of_take_in _ _ r) Hin Hr)
        as (Hw2 & Hp2 & Hl2).
      pose proof (record_then (set_buffer (mkSink b d n) b2) out) as Hrec.
      rewrite E in Hrec. destruct Hrec as (Hb & Hd & Hres). cbn in Hb, Hd, Hres. rewrite <-Hb in Hres. unfold sink_wf. rewrite Hb.
      split; [done|]. split; [intros k; by rewrite Hl2|]. left. exists out. rewrite Hd. split; [done|].
      assert (Hp' : sink_pending s' = not_stored out batch ++ drop (Z.to_nat max) (sink_pending s))
        by (unfold sink_pending at 1; by rewrite Hb, Hp2, Hpb).
      rewrite Hp'. split; [|done]. destruct out as [m|e]; cbn [not_stored]; [|apply take_drop].
      intros Hm. apply take_slice_drop. lia.
    + injection E as <- <-. split; [done|]. split; [done|]. right. split; [done|]. exists e.
      split; [done|]. right. by exists out.
Qed.
End contract.

Section conservation.
#[local] Set Default Proof Using "Type*".
Context `{TelemetryWriteBufferTotal B} `{TelemetryBulkSink D}.
Implicit Types s : sink_state B D.

Lemma record_queue_depth_total s : sink_wf s →
  record_queue_depth s = (Ok (), mkSink (sk_buffer s) (sk_db s) (Z.of_nat (length (sink_pending s)))).
Proof.
  intros Hwf. unfold record_queue_depth.
  destruct (is_ok_inv _ (stats_total _ Hwf)) as [st Hst]. rewrite Hst.
  by rewrite (stats_law _ _ Hwf Hst).
Qed.

(** Putting back part of a drained batch. *)
Lemma restore_drained (b b' : B) (rs back : list TelemetryBufferRecord) : buffer_wf b → buffer_wf b' →
  (∀ r, r ∈ rs → r ∈ pending b) → (∀ r, r ∈ back → r ∈ rs) →
  ∃ b'', restore_history_front b' back = Ok b'' ∧ buffer_wf b'' ∧
    pending b'' = back ++ pending b' ∧ ∀ k, latest b'' k = latest b' k.
Proof.
  intros Hb Hb' Hrs Hback.
  destruct (stored_pending_id b back Hb) as [Hid Hok]; [auto|].
  destruct (is_ok_inv _ (restore_history_front_total b' back Hb' Hok)) as [b'' Hr].
  exists b''. split; [done|]. by apply (restore_returned b b' b'' rs).
Qed.

(** The outcome of [flush_once] on a well-formed sink: the batch is the oldest
    [max] records; a batch the bulk sink raised on is back in front, a batch it
    stored [n] records of loses exactly its first [n]. *)
Lemma flush_once_spec (bulk : bool) (max : Z) s : sink_wf s →
  let batch := take (Z.to_nat max) (sink_pending s) in
  let '(res, s') := flush_once bulk max s in
  sink_wf s' ∧ (∀ k, latest (sk_buffer s') k = latest (sk_buffer s) k) ∧
  if negb bulk || bool_decide (batch = []) then
    res = Ok 0 ∧ sink_pending s' = sink_pending s ∧ sk_db s' = sk_db s
  else
    let '(out, d) := bulk_flush (sk_db s) batch in
    res = out ∧ sk_db s' = d ∧
    match out with
    | Raise _ => sink_pending s' = sink_pending s
    | Ok n => sink_pending s' =
        (if n =? Z.of_nat (length batch) then [] else slice_from n batch)
        ++ drop (Z.to_nat max) (sink_pending s)
    end.
Proof.
  intros Hwf batch. unfold flush_once. destruct bulk; cbn [negb orb]; [|done].
  destruct (is_ok_inv _ (drain_history_total _ max Hwf)) as [[rs b] Hd]. rewrite Hd.
  destruct (drain_history_law _ _ _ _ Hwf Hd) as (Hwfb & Hrs & Hpb & Hlb).
  assert (Hin : ∀ r, r ∈ rs → r ∈ pending (sk_buffer s)).
  { intros r. rewrite Hrs. apply elem_of_take_in. }
  rewrite record_queue_depth_total by done. cbn [andThen sk_buffer sk_db set_buffer].
  fold (sink_pending s) in Hrs, Hpb. fold batch in Hrs. rewrite <-Hrs.
  destruct rs as [|r rs'] eqn:Ers.
  { rewrite bool_decide_true by done. split; [done|]. split; [done|]. cbn. split; [done|].
    split; [|done]. rewrite sink_pending_mk, Hpb.
    rewrite <-(take_drop (Z.to_nat max) (sink_pending s)) at 2. fold batch. by rewrite <-Hrs. }
  rewrite bool_decide_false by done. rewrite <-Ers in *. clear Ers r rs'.
  destruct (bulk_flush (sk_db s) rs) as [[n|e] d] eqn:Ef.
  - destruct (n =? Z.of_nat (length rs)) eqn:En.
    + cbn [andThen set_db sk_buffer sk_db].
      rewrite record_queue_depth_total by done. cbn. rewrite sink_pending_mk.
      split; [done|]. split; [done|]. by rewrite Hpb.
    + destruct (restore_drained (sk_buffer s) b rs (slice_from n rs)) as (b2 & Hr & Hw2 & Hp2 & Hl2);
        [done|done|done|intros ?; apply elem_of_slice_from|].
      rewrite Hr. cbn [lift_buffer andThen set_db set_buffer sk_buffer sk_db].
      rewrite record_queue_depth_total by done. cbn. rewrite sink_pending_mk.
      split; [done|]. split; [intros k; by rewrite Hl2, Hlb|]. by rewrite Hp2, Hpb.
  - destruct (restore_drained (sk_buffer s) b rs rs) as (b2 & Hr & Hw2 & Hp2 & Hl2); [done..|].
    rewrite Hr. cbn [lift_buffer andThen set_db set_buffer sk_buffer sk_db].
    rewrite record_queue_depth_total by done. cbn. rewrite sink_pending_mk.
    split; [done|]. split; [intros k; by rewrite Hl2, Hlb|]. split; [done|]. split; [done|].
    rewrite Hp2, Hpb, Hrs. apply take_drop.
Qed.

End conservation.

(** ** Upserts through the sink *)

Section upsert.
#[local] Set Default Proof Using "Type*".
Context `{TelemetryWriteBufferTotal B} `{TelemetryBulkSink D}.
Implicit Types s : sink_state B D.

(** Accepting a record, before the automatic flush. *)
Lemma sink_upsert_accepts bulk auto now t s b : sink_wf s → record_ok (create_record now t) →
  append_history (sk_buffer s) (create_record now t) = Ok b →
  ∃ s1, sink_wf s1 ∧ sink_pending s1 = sink_pending s ++ [stored (create_record now t)] ∧
    latest (sk_buffer s1) (rec_key (create_record now t)) = Some (stored (create_record now t)) ∧
    sink_upsert bulk auto now t s =
      if bulk && (0 <? auto) && (auto <=? Z.of_nat (length (sink_pending s1)))
      then andThen (flush_once bulk auto s1) (λ _ s, (Ok t, s)) else (Ok t, s1).
Proof.
  intros Hwf Hok Happ. destruct (append_history_law _ _ _ Hwf Hok Happ) as (Hw1 & Hp1 & Hl1).
  destruct (is_ok_inv _ (put_latest_total b _ Hw1 Hok)) as [b2 Hput].
  destruct (put_latest_law _ _ _ Hw1 Hok Hput) as (Hw2 & Hp2 & Hk & _).
  exists (mkSink b2 (sk_db s) (Z.of_nat (length (pending b2)))).
  split; [done|]. split; [by rewrite sink_pending_mk, Hp2, Hp1|]. split; [done|].
  unfold sink_upsert. rewrite Happ. cbn [lift_buffer andThen set_buffer sk_buffer].
  rewrite Hput. cbn [lift_buffer andThen set_buffer sk_buffer sk_db sk_depth].
  rewrite record_queue_depth_total by done. cbn [andThen sk_buffer sk_db].
  rewrite !sink_pending_mk. destruct (bulk && (0 <? auto)); [|done]. cbn [andb].
  destruct (is_ok_inv _ (stats_total b2 Hw2)) as [st Hst].
  cbn [set_buffer sk_buffer sk_db]. rewrite Hst, (stats_law _ _ Hw2 Hst).
  done.
Qed.
End upsert.

(** ** Rows of a bulk statement *)

Lemma to_latest_row_columns p c : c ∈ dict_keys (to_latest_row p) →
  c = "uuid" ∨ ∃ n v, (n, c, v) ∈ telemetry_fields_of (bp_telemetry p)
                      ∧ n ∈ tc_fields_set (bp_telemetry p).
Proof.
  unfold to_latest_row, dict_keys. intros Hc.
  apply list_elem_of_fmap in Hc as ([c' v] & -> & Hc). cbn.
  apply list_elem_of_omap in Hc as (col & _ & Hcol).
  destruct (dict_get _ col) as [w|] eqn:E; [|done]. injection Hcol as -> ->.
  rewrite dict_get_set in E. destruct (decide (c' = "uuid")); [by left|]. right.
  apply dict_get_elem in E. unfold model_dump in E. apply list_elem_of_fmap in E as ([[nm al] x] & Hx & Hin).
  apply list_elem_of_filter in Hin as [[[=]|Hset] Hin]. cbn in Hx. injection Hx as -> ->. eauto.
Qed.

Lemma build_postgres_latest_Ok batch :
  build_postgres_latest_bulk_upsert batch
  = Ok (mkInsert TelemetryStorageTables.LATEST (latest_rows batch)
          (OnConflictDoUpdate ["uuid"] non_key_columns)).
Proof.
  unfold build_postgres_latest_bulk_upsert.
  replace (mapM (excluded_attr telemetry_table_columns) non_key_columns) with (Ok non_key_columns)
    by (vm_compute; reflexivity). done.
Qed.

Lemma to_latest_row_uuid p : dict_get (to_latest_row p) "uuid" = Some (VText (bp_uuid p)).
Proof. unfold to_latest_row. cbn [LATEST_ROW_COLUMNS omap list_omap]. by rewrite dict_get_set_eq. Qed.

(** PostgreSQL refuses an [ON CONFLICT DO UPDATE] whose rows hit one key twice
    ("cannot affect row a second time"). *)
Definition refuses_duplicate_keys `{TelemetrySession DB} : Prop :=
  ∀ db st i j ri rj u set_, dialect_name db = TelemetrySqlDialect.POSTGRESQL →
    st_conflict st = OnConflictDoUpdate ["uuid"] set_ → i ≠ j →
    st_rows st !! i = Some ri → st_rows st !! j = Some rj →
    dict_get ri "uuid" = Some (VText u) → dict_get rj "uuid" = Some (VText u) →
    is_ok (execute db st) = false.

Lemma legacy_flush_duplicate `{TelemetrySession DB} (db : DB) records i j ri rj :
  refuses_duplicate_keys (DB := DB) → dialect_name db = TelemetrySqlDialect.POSTGRESQL →
  i ≠ j → records !! i = Some ri → records !! j = Some rj → rec_key ri = rec_key rj →
  ∃ e, legacy_flush db records = (Raise e, db).
Proof.
  intros Hdup Hpg Hij Hi Hj Hkey. unfold legacy_flush.
  destruct records as [|r0 rs0] eqn:Er; [done|]. rewrite <-Er in *. clear Er r0 rs0.
  destruct (from_records records) as [batch|e] eqn:Eb; [|by exists e].
  rewrite Hpg, String.eqb_refl, build_postgres_latest_Ok.
  unfold from_records in Eb. apply mapM_Ok in Eb.
  assert (Hrow : ∀ k r, records !! k = Some r → ∃ rw, latest_rows batch !! k = Some rw ∧
    dict_get rw "uuid" = Some (VText (rec_key r))).
  { intros k r Hk. destruct (Forall2_lookup_l _ _ _ _ _ Eb Hk) as (p & Hp & Hfrom).
    exists (to_latest_row p). unfold latest_rows. rewrite list_lookup_fmap, Hp. split; [done|].
    rewrite to_latest_row_uuid. unfold from_record in Hfrom.
    destruct (is_empty (rec_key r)); [done|]. by injection Hfrom as <-. }
  destruct (Hrow i ri Hi) as (rwi & Hri & Hui). destruct (Hrow j rj Hj) as (rwj & Hrj & Huj).
  rewrite <-Hkey in Huj. unfold transaction. cbn [mbind result_bind for_in].
  set (st := mkInsert _ (latest_rows batch) _).
  pose proof (Hdup db st i j rwi rwj _ non_key_columns Hpg eq_refl Hij Hri Hrj Hui Huj) as Hex.
  destruct (execute db st) as [|e]; [done|]. by exists e.
Qed.

(** ** Properties *)

(** C2: What a flush does with the history, for every buffer with the
    interface's laws, whichever of its operations raise (one that raises has
    left the buffer as it was).  The batch is the oldest [max_items] pending
    records and the latest records never change.  When the drain raises, nothing
    has happened and its error is passed on; when the batch is empty, the
    pending history and the database stay.  Otherwise either the batch was given
    to the bulk sink and kept: when the sink raised, the pending history is what
    it was, in order, and when the sink stored [n] of the records exactly the
    first [n] have left the history; its outcome is returned, error included,
    unless the reading of the queue depth that ends the flush raises in its
    place.  Or the batch is lost, with the rest of the history still pending,
    which happens only when the first reading of the queue depth raised, with the
    bulk sink not called, or when putting back what the sink did not store
    raised; that error is then the outcome. *)
Theorem flush_conserves_history `{TelemetryWriteBufferLaws B} `{TelemetryBulkSink D}
    (max_items : Z) (s s' : sink_state B D) (res : result Z) :
  sink_wf s → flush_once true max_items s = (res, s') →
  let batch := take (Z.to_nat max_items) (sink_pending s) in
  sink_wf s' ∧ (∀ k, latest (sk_buffer s') k = latest (sk_buffer s) k) ∧
  match drain_history (sk_buffer s) max_items with
  | Raise e => res = Raise e ∧ s' = s
  | Ok (records, _) =>
      records = batch ∧
      if bool_decide (batch = []) then
        sink_pending s' = sink_pending s ∧ sk_db s' = sk_db s ∧
        (res = Ok 0 ∨ ∃ e, stats (sk_buffer s') = Raise e ∧ res = Raise e)
      else batch_kept batch s res s' ∨ batch_lost max_items batch s res s'
  end.
Proof.
  intros Hwf E batch. unfold flush_once in E. cbn [negb] in E.
  destruct (drain_history (sk_buffer s) max_items) as [[rs b]|e] eqn:Hd; [|by injection E as <- <-].
  destruct (drain_history_law _ _ _ _ Hwf Hd) as (Hwfb & Hrs & Hpb & Hlb).
  fold (sink_pending s) in Hrs, Hpb. fold batch in Hrs. rewrite Hrs in E |- *. clear rs Hrs Hd.
  unfold record_queue_depth at 1 in E. cbn [set_buffer sk_buffer sk_db] in E.
  assert (Hempty : batch = [] → pending b = sink_pending s).
  { intros Hb. rewrite Hpb. rewrite <-(take_drop (Z.to_nat max_items) (sink_pending s)) at 2.
    fold batch. by rewrite Hb. }
  destruct (stats b) as [st|e] eqn:Hst; cbn [andThen] in E.
  - case_bool_decide as Hb.
    + rewrite Hb in E. injection E as <- <-. cbn. rewrite <-(Hempty Hb). eauto 10.
    + assert (Hmatch : ∀ X Y : result Z * sink_state B D,
        match batch with [] => X | _ :: _ => Y end = Y) by (clear -Hb; by destruct batch).
      rewrite Hmatch in E. cbn [sk_db sk_buffer] in E.
      destruct (bulk_flush (sk_db s) batch) as [out d] eqn:Ef.
      destruct (flush_batch_spec max_items s b out d Hwf Hwfb Hpb Hlb Ef
                  (pending_history_count st) res s') as (? & ? & ?); [|done].
      rewrite <-E. fold batch. destruct out as [n|e]; cbn [not_stored set_db sk_buffer sk_depth].
      * destruct (Z.eqb_spec n (Z.of_nat (length batch))) as [->|Hn].
        -- by rewrite bool_decide_true.
        -- rewrite bool_decide_false by (by intros [= ->]). done.
      * rewrite bool_decide_false by done. done.
  - injection E as <- <-. split; [done|]. split; [done|]. split; [done|].
    case_bool_decide as Hb.
    + split; [by apply Hempty|]. cbn. eauto.
    + right. split; [done|]. exists e. split; [done|]. by left.
Qed.

(** A bulk sink that stores one record and then stops, for the witness. *)
Definition one_at_a_time : TelemetryBulkSink nat := λ d records,
  (Ok (Z.of_nat (length (take 1 records))), S d).

Definition record_named (k : string) : TelemetryBufferRecord :=
  mkRecord k (sample_telemetry k 1000) (mkDatetime 0 (Some 0)).

Definition sample_sink : sink_state InMemoryTelemetryWriteBuffer nat :=
  mkSink (mkInMemory ∅ [record_named "a"; record_named "b"; record_named "c"] 3) 0%nat 3.

Lemma flush_conserves_history_witness :
  ∃ s', flush_once (H0 := one_at_a_time) true 2 sample_sink = (Ok 1, s') ∧
    sink_pending sample_sink = take 1 [record_named "a"; record_named "b"] ++ sink_pending s'.
Proof.
  assert (Hwf : sink_wf sample_sink) by exact I.
  eexists. split; [vm_compute; reflexivity|].
  destruct (flush_conserves_history (H1 := one_at_a_time) 2 sample_sink
    (mkSink (mkInMemory ∅ [record_named "b"; record_named "c"] 3) 1%nat 2) (Ok 1) Hwf) as (_ & _ & Hout);
    [vm_compute; reflexivity|].
  cbn in Hout. destruct Hout as [_ [(out & Hf & Hp & _)|(Hp & e & [=] & _)]].
  cbn in Hf. injection Hf as <-. apply Hp. vm_compute. split; discriminate.
Defined.

(** The in-memory buffer, with the first reading of the queue depth after a
    drain failing: a client of a remote queue may do so. *)
Definition failing_stats : TelemetryWriteBuffer InMemoryTelemetryWriteBuffer := {|
  put_latest := mem_put_latest;
  append_history := mem_append_history;
  latest_for := mem_latest_for;
  drain_history := mem_drain_history;
  restore_history_front := mem_restore_history_front;
  stats := λ b, if bool_decide (length (mem_history b) = 3%nat) then mem_stats b
                else throw ExcDriverError "connection lost"
|}.

(** The queue depth is read outside the [try]: when that read raises, the
    drained batch is neither stored nor put back. *)
Example stats_failure_loses_the_batch :
  flush_once (H := failing_stats) (H0 := one_at_a_time) true 2 sample_sink
  = (throw ExcDriverError "connection lost", mkSink (mkInMemory ∅ [record_named "c"] 3) 0%nat 3).
Proof. vm_compute. reflexivity. Qed.

(** Accepting telemetry: a refused [append_history] leaves the sink
    untouched and raises; otherwise the record joins the history at its end
    and is the latest of its key, also when the automatic flush that follows
    raises, and without that flush the call returns the telemetry. *)
Theorem sink_upsert_keeps_record `{TelemetryWriteBufferTotal B} `{TelemetryBulkSink D}
    (bulk : bool) (auto : Z) (now : datetime) (t : TelemetryCreate) (s s' : sink_state B D)
    (res : result TelemetryCreate) :
  let record := create_record now t in
  sink_wf s → record_ok record → sink_upsert bulk auto now t s = (res, s') →
  match append_history (sk_buffer s) record with
  | Raise e => res = Raise e ∧ s' = s
  | Ok _ =>
      sink_wf s' ∧ latest (sk_buffer s') (rec_key record) = Some (stored record) ∧
      match res with
      | Raise _ => sink_pending s' = sink_pending s ++ [stored record]
      | Ok t' => t' = t ∧ (bulk = false ∨ auto <= 0 ∨ Z.of_nat (length (sink_pending s)) + 1 < auto →
                           sink_pending s' = sink_pending s ++ [stored record])
      end
  end.
Proof.
  intros record Hwf Hok E. subst record. destruct (append_history _ _) as [b|e] eqn:Happ.
  - destruct (sink_upsert_accepts bulk auto now t s b Hwf Hok Happ) as (s1 & Hw1 & Hp1 & Hl1 & Heq).
    rewrite Heq in E. case_if_in E.
    + pose proof (flush_once_spec bulk auto s1 Hw1) as Hspec.
      destruct (flush_once bulk auto s1) as [out s2]. destruct Hspec as (Hw2 & Hl2 & Hout).
      split_bools. assert (sink_wf s' ∧ s2 = s') as [Hw' ->].
      { by destruct out; cbn in E; injection E as <- <-. }
      split; [done|]. split; [by rewrite Hl2|]. rewrite Hp1 in *.
      destruct out as [n|e]; cbn in E; injection E as <- .
      * split; [done|]. intros [->|[?|Hlt]]; [done|lia|].
        rewrite length_app in *. cbn in *. lia.
      * destruct (negb bulk || _); [by destruct Hout|].
        destruct (bulk_flush _ _) as [out d]. by destruct Hout as (<- & _ & ?).
    + injection E as <- <-. split; [done|]. split; [done|]. split; [done|]. by intros _.
  - unfold sink_upsert in E. rewrite Happ in E. cbn in E. by injection E as <- <-.
Qed.

Lemma sink_upsert_keeps_record_witness :
  let full := mkSink (mkInMemory ∅ [record_named "a"] 1) 0%nat 1 in
  sink_upsert (H0 := one_at_a_time) true 1 (mkDatetime 7 (Some 0)) (sample_telemetry "b" 5) full
  = (Raise (PyErr ExcTelemetryBufferFullError "telemetry history buffer is full"), full).
Proof.
  intros full. destruct (sink_upsert (H0 := one_at_a_time) true 1 (mkDatetime 7 (Some 0))
    (sample_telemetry "b" 5) full) as [res s'] eqn:E.
  assert (Hwf : sink_wf full) by exact I.
  assert (Hok : record_ok (create_record (mkDatetime 7 (Some 0)) (sample_telemetry "b" 5)))
    by exact I.
  pose proof (sink_upsert_keeps_record (H2 := one_at_a_time) true 1 (mkDatetime 7 (Some 0))
    (sample_telemetry "b" 5) full s' res Hwf Hok E) as Hw.
  cbn in Hw. destruct Hw as [-> ->]. reflexivity.
Defined.

(** C40: A batch in which one key occurs twice can never be flushed to
    PostgreSQL: the single upsert statement holds two rows for that key, the
    database refuses it, and the flush raises with database, history and latest
    records unchanged, so the same batch fails again at every later flush. *)
Theorem duplicate_key_batch_is_stuck `{TelemetryWriteBufferTotal B} `{TelemetrySession DB}
    (max_items : Z) (s : sink_state B DB) (i j : nat) (ri rj : TelemetryBufferRecord) :
  refuses_duplicate_keys (DB := DB) → dialect_name (sk_db s) = TelemetrySqlDialect.POSTGRESQL →
  sink_wf s → i ≠ j →
  take (Z.to_nat max_items) (sink_pending s) !! i = Some ri →
  take (Z.to_nat max_items) (sink_pending s) !! j = Some rj → rec_key ri = rec_key rj →
  ∃ e s', flush_once true max_items s = (Raise e, s') ∧ sink_wf s' ∧
    sink_pending s' = sink_pending s ∧ sk_db s' = sk_db s ∧
    ∀ k, latest (sk_buffer s') k = latest (sk_buffer s) k.
Proof.
  intros Hdup Hpg Hwf Hij Hi Hj Hkey. pose proof (flush_once_spec true max_items s Hwf) as Hspec.
  destruct (flush_once true max_items s) as [res s']. destruct Hspec as (Hw & Hl & Hout).
  destruct (legacy_flush_duplicate (sk_db s) _ i j ri rj Hdup Hpg Hij Hi Hj Hkey) as [e He].
  rewrite bool_decide_false in Hout by (intros E; by rewrite E in Hi). cbn [negb orb] in Hout.
  change (bulk_flush (sk_db s) ?l) with (legacy_flush (sk_db s) l) in Hout. rewrite He in Hout.
  destruct Hout as (-> & Hd & Hp). by exists e, s'.
Qed.

(** A PostgreSQL table that checks statements for duplicate keys and counts
    the others, for the witness. *)
Definition distinct_keys (rows : list row) : bool :=
  bool_decide (NoDup ((λ r, match dict_get r "uuid" with Some (VText u) => u | _ => "" end) <$> rows)).

Definition counting_session : TelemetrySession nat := {|
  dialect_name := λ _, TelemetrySqlDialect.POSTGRESQL;
  execute := λ db st, if distinct_keys (st_rows st) then Ok (S db)
                      else throw ExcDriverError "cannot affect row a second time";
  commit := λ db, Ok db;
  first_by_uuid := λ _ _, None;
  save_and_refresh := λ db r, Ok (db, r)
|}.

Lemma counting_session_refuses : refuses_duplicate_keys (H := counting_session).
Proof.
  intros db st i j ri rj u set_ _ _ Hij Hi Hj Hui Huj. cbn. unfold distinct_keys.
  rewrite bool_decide_false; [done|]. intros Hnd. apply Hij.
  refine (NoDup_lookup _ i j u Hnd _ _); apply list_lookup_fmap_Some.
  - exists ri. by rewrite Hui.
  - exists rj. by rewrite Huj.
Qed.

Lemma duplicate_key_batch_is_stuck_witness :
  let s := mkSink (mkInMemory ∅ [record_named "a"; record_named "a"] 10) 0%nat 2 in
  ∃ e s', flush_once (H0 := legacy_bulk_sink (H := counting_session)) true 5 s = (Raise e, s') ∧
    sink_pending s' = sink_pending s.
Proof.
  intros s. assert (Hwf : sink_wf s) by exact I.
  destruct (duplicate_key_batch_is_stuck (H2 := counting_session) 5 s 0 1 (record_named "a")
    (record_named "a") counting_session_refuses eq_refl Hwf ltac:(discriminate) eq_refl eq_refl
    eq_refl) as (e & s' & Hf & _ & Hp & _).
  exists e, s'. split; [exact Hf|exact Hp].
Defined.

(** The bulk upsert overwrites what the client did not send: its statement
    sets every non-key column from the proposed row, while a row carries only
    the columns of the fields that were set; a column in the first list and not
    in the row is therefore replaced by its default. *)
Theorem bulk_upsert_overwrites_unset (batch : list TelemetryBulkPayload) (p : TelemetryBulkPayload)
    (n c : string) (v : value) :
  p ∈ batch → (n, c, v) ∈ telemetry_fields_of (bp_telemetry p) → c ≠ "uuid" →
  n ∉ tc_fields_set (bp_telemetry p) →
  ∃ st set_, build_postgres_latest_bulk_upsert batch = Ok st ∧
    st_conflict st = OnConflictDoUpdate ["uuid"] set_ ∧ c ∈ set_ ∧
    to_latest_row p ∈ st_rows st ∧ c ∉ dict_keys (to_latest_row p).
Proof.
  intros Hp Hf Hc Hn. eexists _, non_key_columns. rewrite build_postgres_latest_Ok.
  split; [reflexivity|]. split; [reflexivity|]. cbn [st_rows].
  assert (Haliases : (telemetry_fields_of (bp_telemetry p)).*1.*2 = LATEST_ROW_COLUMNS) by reflexivity.
  assert (Hnames : NoDup LATEST_ROW_COLUMNS)
    by (apply (bool_decide_unpack _); vm_compute; exact I).
  split; [|split].
  - unfold non_key_columns. apply list_elem_of_filter. split; [done|]. rewrite <-Haliases.
    apply list_elem_of_fmap. exists (n, c). split; [done|]. apply list_elem_of_fmap. by exists (n, c, v).
  - unfold latest_rows. apply list_elem_of_fmap. by exists p.
  - intros Hin. apply to_latest_row_columns in Hin as [->|(n' & v' & Hf' & Hset)]; [done|].
    assert (n' = n) as ->; [|done]. rewrite <-Haliases in Hnames.
    apply list_elem_of_lookup in Hf as [i Hi], Hf' as [j Hj].
    assert (i = j) as ->.
    { eapply (NoDup_lookup _ i j c Hnames); rewrite !list_lookup_fmap; [by rewrite Hi|by rewrite Hj]. }
    rewrite Hi in Hj. by injection Hj.
Qed.

Lemma bulk_upsert_overwrites_unset_witness :
  let p := mkBulkPayload "a" (sample_telemetry "a" 1000) (mkDatetime 0 (Some 0)) in
  ∃ st set_, build_postgres_latest_bulk_upsert [p] = Ok st ∧
    st_conflict st = OnConflictDoUpdate ["uuid"] set_ ∧ "soc" ∈ set_ ∧
    to_latest_row p ∈ st_rows st ∧ "soc" ∉ dict_keys (to_latest_row p).
Proof.
  intros p. apply (bulk_upsert_overwrites_unset [p] p "soc" "soc" VNone); [left| |discriminate|].
  - do 7 right. left.
  - apply (bool_decide_unpack _). vm_compute. exact I.
Defined.
