(* ===== verification/SinkThreads.v ===== *)
(** Concurrent use of the buffered sink: [backend/modules/telemetry_buffer/sink.py].

    The methods of a [BufferedTelemetrySink] as programs over the atomic
    operations they perform: each buffer method holds the buffer's lock, the
    bulk sink runs in a transaction of its own, and nothing protects what lies
    between two of them.  Any number of threads call [upsert] and [flush_once];
    their operations interleave freely.  A small weakest-precondition calculus
    over the records a thread has drained and not yet accounted for gives the
    invariants of every interleaving; run alone, a program computes the
    function of [TelemetrySink]. *)

From stdpp Require Import base list strings gmap.
From Stdlib Require Import ZArith Lia.
From S2P Require Import Prelude PyStr PyTime TelemetryModel TelemetryIngest TelemetryBuffer TelemetrySink.

#[local] Open Scope Z_scope.

Notation records := (list TelemetryBufferRecord).

(** ** Programs *)

(** The atomic operations, with what they return. *)
Inductive op : Type → Type :=
  | AppendHistory (r : TelemetryBufferRecord) : op ()
  | PutLatest (r : TelemetryBufferRecord) : op ()
  | DrainHistory (max_items : Z) : op records
  | RestoreFront (rs : records) : op ()
  | ReadStats : op TelemetryBufferStats
  | SetDepth (depth : Z) : op ()
  | BulkFlush (rs : records) : op Z.

(** A program performs an operation and goes on with its outcome. *)
Inductive prog (A : Type) : Type :=
  | Ret (r : result A)
  | Vis {X : Type} (o : op X) (k : result X → prog A).
Arguments Ret {A}.
Arguments Vis {A X}.

Fixpoint bind {A C} (p : prog A) (f : result A → prog C) : prog C :=
  match p with Ret r => f r | Vis o k => Vis o (λ res, bind (k res) f) end.

Definition perform {X} (o : op X) : prog X := Vis o Ret.

(** Go on when [p] returns; an exception ends the program. *)
Definition andNext {A C} (p : prog A) (f : A → prog C) : prog C :=
  bind p (λ r, match r with Ok a => f a | Raise e => Ret (Raise e) end).

(** [backend/modules/telemetry_buffer/sink.py:118-119] _record_queue_depth *)
Definition depth_prog : prog () :=
  andNext (perform ReadStats) (λ st, perform (SetDepth (pending_history_count st))).

(** [backend/modules/telemetry_buffer/sink.py:100-116] flush_once *)
Definition flush_prog (bulk_sink : bool) (max_items : Z) : prog Z :=
  if negb bulk_sink then Ret (Ok 0) else
  andNext (perform (DrainHistory max_items)) (λ rs,
  andNext depth_prog (λ _,
  match rs with
  | [] => Ret (Ok 0)
  | _ =>
      bind (perform (BulkFlush rs)) (λ flushed,
      match flushed with
      | Raise e =>
          andNext (perform (RestoreFront rs)) (λ _, andNext depth_prog (λ _, Ret (Raise e)))
      | Ok flushed_count =>
          andNext (if flushed_count =? Z.of_nat (length rs) then Ret (Ok ())
                   else perform (RestoreFront (slice_from flushed_count rs)))
            (λ _, andNext depth_prog (λ _, Ret (Ok flushed_count)))
      end)
  end)).

(** [backend/modules/telemetry_buffer/sink.py:89-98] upsert *)
Definition upsert_prog (bulk_sink : bool) (auto_flush_max_items : Z) (now : datetime) (telemetry : TelemetryCreate) :
    prog TelemetryCreate :=
  let record := create_record now telemetry in
  andNext (perform (AppendHistory record)) (λ _,
  andNext (perform (PutLatest record)) (λ _,
  andNext depth_prog (λ _,
  if bulk_sink && (0 <? auto_flush_max_items) then
    andNext (perform ReadStats) (λ st,
    if auto_flush_max_items <=? pending_history_count st
    then andNext (flush_prog bulk_sink auto_flush_max_items) (λ _, Ret (Ok telemetry))
    else Ret (Ok telemetry))
  else Ret (Ok telemetry)))).

(** ** Operations on the shared state *)

Section semantics.
Context `{TelemetryWriteBuffer B} `{TelemetryBulkSink D}.
Implicit Types s : sink_state B D.

Definition apply_op {X} (o : op X) s : result X * sink_state B D :=
  match o in op X return result X * sink_state B D with
  | AppendHistory r => lift_buffer s (append_history (sk_buffer s) r)
  | PutLatest r => lift_buffer s (put_latest (sk_buffer s) r)
  | DrainHistory n =>
      match drain_history (sk_buffer s) n with
      | Ok (rs, b) => (Ok rs, set_buffer s b)
      | Raise e => (Raise e, s)
      end
  | RestoreFront rs => lift_buffer s (restore_history_front (sk_buffer s) rs)
  | ReadStats => (stats (sk_buffer s), s)
  | SetDepth depth => (Ok (), mkSink (sk_buffer s) (sk_db s) depth)
  | BulkFlush rs => let '(res, d) := bulk_flush (sk_db s) rs in (res, set_db s d)
  end.

(** A program run without interference. *)
Fixpoint run {A} (p : prog A) s : result A * sink_state B D :=
  match p with
  | Ret r => (r, s)
  | Vis o k => let '(res, s') := apply_op o s in run (k res) s'
  end.
End semantics.

(** ** Threads *)

(** A call of a method of the sink. *)
Inductive call : Type :=
  | Upsert (now : datetime) (telemetry : TelemetryCreate)
  | FlushOnce (max_items : Z).

Definition outcome : Type := TelemetryCreate + Z.

Definition call_prog (bulk_sink : bool) (auto_flush_max_items : Z) (c : call) : prog outcome :=
  match c with
  | Upsert now t => andNext (upsert_prog bulk_sink auto_flush_max_items now t) (λ t, Ret (Ok (inl t)))
  | FlushOnce n => andNext (flush_prog bulk_sink n) (λ n, Ret (Ok (inr n)))
  end.

(** A thread: what it has left to do, and the records it drained that are
    neither stored nor put back. *)
Record thread : Type := mkThread { th_prog : prog outcome; th_held : records }.

(** The records a thread holds after an operation, those the operation added
    to the history, and those the bulk sink reported as stored. *)
Definition held_after {X} (o : op X) : result X → records → records :=
  match o in op X return result X → records → records with
  | DrainHistory _ => λ res held, match res with Ok rs => held ++ rs | Raise _ => held end
  | RestoreFront _ => λ res held, match res with Ok _ => [] | Raise _ => held end
  | BulkFlush _ => λ res held, match res with Ok n => drop (Z.to_nat n) held | Raise _ => held end
  | _ => λ _ held, held
  end.

Definition appended {X} (o : op X) : result X → records :=
  match o in op X return result X → records with
  | AppendHistory r => λ res, match res with Ok _ => [r] | Raise _ => [] end
  | _ => λ _, []
  end.

Definition reported {X} (o : op X) : result X → records :=
  match o in op X return result X → records with
  | BulkFlush rs => λ res, match res with Ok n => take (Z.to_nat n) rs | Raise _ => [] end
  | _ => λ _, []
  end.

(** The process: the sink, its threads, and the histories of the records
    accepted and of those reported as stored. *)
Record process (B D : Type) : Type := mkProcess {
  pr_sink : sink_state B D;
  pr_threads : list thread;
  pr_accepted : records;
  pr_stored : records
}.
Arguments mkProcess {B D}.
Arguments pr_sink {B D}.
Arguments pr_threads {B D}.
Arguments pr_accepted {B D}.
Arguments pr_stored {B D}.

Definition held_by (threads : list thread) : records := concat (th_held <$> threads).

Section process.
Context `{TelemetryWriteBufferLaws B} `{TelemetryBulkSink D}.
Context (bulk_sink : bool) (auto_flush_max_items : Z).
Implicit Types p : process B D.

(** Thread [i] performs its next operation. *)
Definition advance (i : nat) p : option (process B D) :=
  match pr_threads p !! i with
  | Some (mkThread (Vis o k) held) =>
      let '(res, s') := apply_op o (pr_sink p) in
      Some (mkProcess s' (<[i := mkThread (k res) (held_after o res held)]> (pr_threads p))
              (pr_accepted p ++ (stored <$> appended o res)) (pr_stored p ++ reported o res))
  | _ => None
  end.

(** Thread [i], whose last call has ended, makes another one. *)
Definition invoke (i : nat) (c : call) p : option (process B D) :=
  match pr_threads p !! i with
  | Some (mkThread (Ret _) held) =>
      Some (mkProcess (pr_sink p) (<[i := mkThread (call_prog bulk_sink auto_flush_max_items c) held]> (pr_threads p))
              (pr_accepted p) (pr_stored p))
  | _ => None
  end.

(** A call the buffer can represent, of a batch of at most [max_batch]. *)
Definition call_ok (max_batch : nat) (c : call) : Prop :=
  match c with
  | Upsert now t => record_ok (create_record now t)
  | FlushOnce n => (Z.to_nat n <= max_batch)%nat
  end.

Inductive process_step (max_batch : nat) : process B D → process B D → Prop :=
  | step_operation i p p' : advance i p = Some p' → process_step max_batch p p'
  | step_invoke i c p p' : call_ok max_batch c → invoke i c p = Some p' → process_step max_batch p p'.

(** [n] threads that have not called the sink yet. *)
Definition idle_threads (n : nat) : list thread := replicate n (mkThread (Ret (Ok (inr 0))) []).

Definition start_process (n : nat) (s : sink_state B D) : process B D :=
  mkProcess s (idle_threads n) (pending (sk_buffer s)) [].

(** A schedule: at each turn a thread makes a call or goes on. *)
Fixpoint play (schedule : list (nat * option call)) p : option (process B D) :=
  match schedule with
  | [] => Some p
  | (i, Some c) :: schedule' => p' ← invoke i c p; play schedule' p'
  | (i, None) :: schedule' => p' ← advance i p; play schedule' p'
  end.

Definition finished (th : thread) : Prop := match th_prog th with Ret _ => True | Vis _ _ => False end.
End process.

(** ** Run alone, a program is the sequential method *)

Section alone.
Context `{TelemetryWriteBuffer B} `{TelemetryBulkSink D}.
Implicit Types s : sink_state B D.

Lemma run_bind {A C} (p : prog A) (f : result A → prog C) s :
  run (bind p f) s = let '(r, s') := run p s in run (f r) s'.
Proof.
  revert s. induction p as [r|X o k IH]; intros s; [done|]. cbn [bind run].
  destruct (apply_op o s) as [res s']. apply IH.
Qed.

Lemma run_andNext {A C} (p : prog A) (f : A → prog C) s :
  run (andNext p f) s = andThen (run p s) (λ a s, run (f a) s).
Proof. unfold andNext. rewrite run_bind. by destruct (run p s) as [[a|e] s']. Qed.

Lemma run_depth s : run depth_prog s = record_queue_depth s.
Proof.
  unfold depth_prog. rewrite run_andNext. cbn. unfold record_queue_depth. by destruct (stats (sk_buffer s)).
Qed.

Lemma andThen_ext {A C} (m : result A * sink_state B D) (k k' : A → sink_state B D → result C * sink_state B D) :
  (∀ a s, k a s = k' a s) → andThen m k = andThen m k'.
Proof. intros Hk. destruct m as [[a|e] s]; cbn; [apply Hk|done]. Qed.

Lemma run_perform {X} (o : op X) s : run (perform o) s = apply_op o s.
Proof. cbn. by destruct (apply_op o s). Qed.

Lemma run_flush bulk max s : run (flush_prog bulk max) s = flush_once bulk max s.
Proof.
  unfold flush_prog, flush_once. destruct bulk; [cbn [negb]|done].
  rewrite run_andNext, run_perform. cbn [apply_op].
  destruct (drain_history (sk_buffer s) max) as [[rs b]|e]; [|done]. cbn [andThen].
  rewrite run_andNext, run_depth. apply andThen_ext. intros _ s1.
  destruct rs as [|r rs]; [done|]. rewrite run_bind, run_perform. cbn [apply_op].
  destruct (bulk_flush (sk_db s1) (r :: rs)) as [[n|e] d].
  - rewrite run_andNext. destruct (n =? _).
    + cbn [run andThen]. rewrite run_andNext, run_depth. by apply andThen_ext.
    + rewrite run_perform. cbn [apply_op]. apply andThen_ext. intros _ s2.
      rewrite run_andNext, run_depth. by apply andThen_ext.
  - rewrite run_andNext, run_perform. cbn [apply_op]. apply andThen_ext. intros _ s2.
    rewrite run_andNext, run_depth. by apply andThen_ext.
Qed.

Lemma run_upsert bulk auto now t s : run (upsert_prog bulk auto now t) s = sink_upsert bulk auto now t s.
Proof.
  unfold upsert_prog, sink_upsert. rewrite run_andNext, run_perform. apply andThen_ext. intros _ s1.
  rewrite run_andNext, run_perform. apply andThen_ext. intros _ s2.
  rewrite run_andNext, run_depth. apply andThen_ext. intros _ s3.
  destruct (bulk && (0 <? auto)); [|done]. rewrite run_andNext, run_perform. cbn [apply_op].
  destruct (stats (sk_buffer s3)) as [st|e]; [|done]. cbn [andThen].
  destruct (auto <=? _); [|done]. by rewrite run_andNext, run_flush.
Qed.
End alone.

(** ** Weakest preconditions over the records a thread holds *)

Section logic.
Context `{TelemetryWriteBufferLaws B} (max_batch : nat).

(** What an operation asks of the thread that performs it, and what it gives
    to the rest of its program. *)
Definition op_wp {X} (o : op X) (held : records) : (result X → records → Prop) → Prop :=
  match o in op X return (result X → records → Prop) → Prop with
  | AppendHistory r => λ Q, record_ok r ∧ Q (Ok ()) held ∧ ∀ e, Q (Raise e) held
  | PutLatest r => λ Q, record_ok r ∧ Q (Ok ()) held
  | DrainHistory n => λ Q, held = [] ∧ (Z.to_nat n <= max_batch)%nat ∧ ∀ rs, Q (Ok rs) rs
  | RestoreFront rs => λ Q, rs = held ∧ Q (Ok ()) []
  | ReadStats => λ Q, ∀ st, Q (Ok st) held
  | SetDepth _ => λ Q, Q (Ok ()) held
  | BulkFlush rs => λ Q, rs = held ∧ (∀ e, Q (Raise e) held)
                         ∧ ∀ n, 0 <= n <= Z.of_nat (length rs) → Q (Ok n) (drop (Z.to_nat n) held)
  end.

Fixpoint wp {A} (p : prog A) (held : records) (Q : result A → records → Prop) : Prop :=
  match p with
  | Ret r => Q r held
  | Vis o k => op_wp o held (λ res held', wp (k res) held' Q)
  end.

Lemma op_wp_mono {X} (o : op X) held (Q Q' : result X → records → Prop) :
  (∀ res held', Q res held' → Q' res held') → op_wp o held Q → op_wp o held Q'.
Proof. intros HQ. destruct o; cbn; naive_solver. Qed.

Lemma wp_mono {A} (p : prog A) held (Q Q' : result A → records → Prop) :
  (∀ res held', Q res held' → Q' res held') → wp p held Q → wp p held Q'.
Proof.
  intros HQ. revert held. induction p as [r|X o k IH]; intros held; cbn [wp]; [apply HQ|].
  apply op_wp_mono. intros res held'. apply IH.
Qed.

Lemma wp_bind {A C} (p : prog A) (f : result A → prog C) held Q :
  wp p held (λ r held', wp (f r) held' Q) → wp (bind p f) held Q.
Proof.
  revert held. induction p as [r|X o k IH]; intros held; [done|]. cbn [bind wp].
  apply op_wp_mono. intros res held'. apply IH.
Qed.

Lemma wp_andNext {A C} (p : prog A) (f : A → prog C) held Q :
  wp p held (λ r held', match r with Ok a => wp (f a) held' Q | Raise e => Q (Raise e) held' end) →
  wp (andNext p f) held Q.
Proof.
  intros Hp. apply wp_bind. revert Hp. apply wp_mono. by intros [a|e] held'.
Qed.

Lemma wp_depth held (Q : result () → records → Prop) : Q (Ok ()) held → wp depth_prog held Q.
Proof. intros HQ. apply wp_andNext. cbn. by intros st. Qed.

Lemma wp_flush bulk max : (Z.to_nat max <= max_batch)%nat →
  wp (flush_prog bulk max) [] (λ _ held, held = []).
Proof.
  intros Hmax. unfold flush_prog. destruct bulk; [cbn [negb]|done]. apply wp_andNext. cbn [wp op_wp perform].
  split; [done|]. split; [done|]. intros rs. apply wp_andNext, wp_depth.
  destruct rs as [|r rs'] eqn:E; [done|]. rewrite <-E. clear E r rs'.
  apply wp_bind. cbn [perform wp op_wp]. split; [done|]. split.
  - intros e. apply wp_andNext. cbn [wp op_wp perform]. split; [done|]. by apply wp_andNext, wp_depth.
  - intros n Hn. apply wp_andNext. destruct (Z.eqb_spec n (Z.of_nat (length rs))) as [->|Hne].
    + cbn [wp]. apply wp_andNext, wp_depth. cbn [wp]. by rewrite Nat2Z.id, drop_all.
    + cbn [wp op_wp perform]. split; [by unfold slice_from; rewrite (proj2 (Z.leb_le 0 n)) by lia|]. by apply wp_andNext, wp_depth.
Qed.

Lemma wp_upsert bulk auto now t : (Z.to_nat auto <= max_batch)%nat → record_ok (create_record now t) →
  wp (upsert_prog bulk auto now t) [] (λ _ held, held = []).
Proof.
  intros Hauto Hok. unfold upsert_prog. apply wp_andNext. cbn [wp op_wp perform]. split; [done|]. split; [|done].
  apply wp_andNext. cbn [wp op_wp perform]. split; [done|]. apply wp_andNext, wp_depth.
  destruct (bulk && _); [|done]. apply wp_andNext. cbn [wp op_wp perform]. intros st.
  destruct (auto <=? _); [|done]. apply wp_andNext. eapply wp_mono; [|by apply wp_flush].
  by intros [n|e] held.
Qed.
End logic.

(** ** Every operation accounts for its records *)

(** A bulk sink reports between none and all of a batch as stored. *)
Class TelemetryBulkSinkLaws (D : Type) `{TelemetryBulkSink D} : Prop :=
  bulk_flush_count : ∀ d rs n d', bulk_flush d rs = (Ok n, d') → 0 <= n <= Z.of_nat (length rs).

#[export] Instance legacy_bulk_sink_laws `{TelemetrySession DB} : TelemetryBulkSinkLaws DB.
Proof.
  intros d rs n d'. change (bulk_flush d rs) with (legacy_flush d rs). unfold legacy_flush.
  destruct rs as [|r0 rs0] eqn:E; [by intros [= <- <-]|]. rewrite <-E. clear E r0 rs0.
  destruct (from_records rs) as [batch|e] eqn:Eb; [|done].
  assert (Hlen : length batch = length rs) by (apply mapM_Ok_length in Eb; lia).
  assert (Htx : ∀ ss, transaction d ss (Z.of_nat (length batch)) = (Ok n, d') → 0 <= n <= Z.of_nat (length rs)).
  { intros ss. unfold transaction. case_match; [|done]. intros [= <- _]. lia. }
  case_match; [apply Htx|]. case_match; [apply Htx|]. case_match. case_match; [|done]. intros [= <- _]. lia.
Qed.

Section accounting.
#[local] Set Default Proof Using "Type*".
Context `{TelemetryWriteBufferTotal B} `{TelemetryBulkSinkLaws D} (max_batch : nat).
Implicit Types s : sink_state B D.

(** A record as the buffer gives it back. *)
Definition canonical (r : TelemetryBufferRecord) : Prop := record_ok r ∧ stored r = r.

Lemma canonical_pending s : sink_wf s → Forall canonical (sink_pending s).
Proof. intros Hwf. apply Forall_forall. intros r. by apply pending_stored. Qed.

Lemma canonical_stored rs : Forall canonical rs → Forall record_ok rs ∧ stored <$> rs = rs.
Proof.
  intros Hrs. split; [by eapply Forall_impl; [exact Hrs|intros r []]|].
  induction Hrs as [|r rs [_ Hr] _ IH]; [done|]. cbn. by rewrite Hr, IH.
Qed.

Lemma apply_op_sound {X} (o : op X) held (Q : result X → records → Prop) s res s' :
  sink_wf s → Forall canonical held → op_wp max_batch o held Q → apply_op o s = (res, s') →
  let held' := held_after o res held in
  Q res held' ∧ sink_wf s' ∧ Forall canonical held' ∧
  (length held <= max_batch → length held' <= max_batch)%nat ∧
  sink_pending s' ++ held' ++ reported o res ≡ₚ sink_pending s ++ held ++ (stored <$> appended o res).
Proof.
  intros Hwf Hheld Ho E. unfold sink_wf, sink_pending in *.
  destruct o as [r|r|n|rs| |depth|rs]; cbn [apply_op op_wp held_after appended reported] in *.
  - destruct Ho as (Hok & HQ & HR). destruct (append_history _ r) as [b|e] eqn:Ea; injection E as <- <-; [|done].
    destruct (append_history_law _ _ _ Hwf Hok Ea) as (Hb & Hp & _). cbn [set_buffer sk_buffer].
    split_and!; try done. rewrite Hp. cbn. solve_Permutation.
  - destruct Ho as (Hok & HQ). destruct (is_ok_inv _ (put_latest_total _ r Hwf Hok)) as [b Eb].
    rewrite Eb in E. injection E as <- <-. destruct (put_latest_law _ _ _ Hwf Hok Eb) as (Hb & Hp & _).
    cbn [set_buffer sk_buffer]. by rewrite Hp.
  - destruct Ho as (-> & Hn & HQ). destruct (is_ok_inv _ (drain_history_total _ n Hwf)) as [[rs b] Eb].
    rewrite Eb in E. injection E as <- <-. destruct (drain_history_law _ _ _ _ Hwf Eb) as (Hb & Hrs & Hp & _).
    cbn [set_buffer sk_buffer app]. split_and!; [done..| | |].
    + rewrite Hrs. apply Forall_take. by apply canonical_pending.
    + rewrite Hrs, length_take. lia.
    + rewrite Hp, Hrs, app_nil_r. cbn. rewrite app_nil_r.
      rewrite <-(take_drop (Z.to_nat n) (pending (sk_buffer s))) at 3. solve_Permutation.
  - destruct Ho as (-> & HQ). destruct (canonical_stored held Hheld) as [Hok Hst].
    destruct (is_ok_inv _ (restore_history_front_total _ held Hwf Hok)) as [b Eb].
    rewrite Eb in E. injection E as <- <-.
    destruct (restore_history_front_law _ _ _ Hwf Hok Eb) as (Hb & Hp & _). cbn [set_buffer sk_buffer].
    split_and!; [done..|cbn; lia|]. rewrite Hp, Hst. cbn. solve_Permutation.
  - destruct (is_ok_inv _ (stats_total _ Hwf)) as [st Est]. rewrite Est in E. injection E as <- <-. done.
  - injection E as <- <-. done.
  - destruct Ho as (-> & HR & HQ). destruct (bulk_flush (sk_db s) held) as [[n|e] d] eqn:Ef; injection E as <- <-.
    + pose proof (bulk_flush_count _ _ _ _ Ef) as Hn. cbn [set_db sk_buffer].
      split_and!; [by apply HQ|done|by apply Forall_drop|rewrite length_drop; lia|]. cbn. rewrite app_nil_r.
      rewrite <-(take_drop (Z.to_nat n) held) at 3. solve_Permutation.
    + by cbn [set_db sk_buffer].
Qed.
End accounting.

(** ** The invariant of every interleaving *)

Lemma held_by_split threads i th : threads !! i = Some th →
  ∃ rest, held_by threads ≡ₚ th_held th ++ rest ∧ ∀ th', held_by (<[i := th']> threads) ≡ₚ th_held th' ++ rest.
Proof.
  intros Hi. exists (held_by (take i threads) ++ held_by (drop (S i) threads)). unfold held_by.
  pose proof (lookup_lt_Some _ _ _ Hi) as Hlt. split.
  - rewrite <-(take_drop_middle _ _ _ Hi) at 1. rewrite fmap_app, concat_app. cbn. solve_Permutation.
  - intros th'. rewrite insert_take_drop by done. rewrite fmap_app, concat_app. cbn. solve_Permutation.
Qed.

Lemma held_by_idle n : held_by (idle_threads n) = [].
Proof. unfold held_by, idle_threads. by induction n. Qed.

Section invariant.
#[local] Set Default Proof Using "Type*".
Context `{TelemetryWriteBufferTotal B} `{TelemetryBulkSinkLaws D}.
Context (bulk_sink : bool) (auto_flush_max_items : Z) (max_batch : nat).
Implicit Types p : process B D.

(** A thread will account for what it holds, a batch of records at most. *)
Definition thread_ok (th : thread) : Prop :=
  wp max_batch (th_prog th) (th_held th) (λ _ held, held = []) ∧
  Forall canonical (th_held th) ∧ (length (th_held th) <= max_batch)%nat.

Definition process_inv p : Prop :=
  sink_wf (pr_sink p) ∧ Forall thread_ok (pr_threads p) ∧
  sink_pending (pr_sink p) ++ held_by (pr_threads p) ++ pr_stored p ≡ₚ pr_accepted p.

Lemma call_wp c : (Z.to_nat auto_flush_max_items <= max_batch)%nat → call_ok max_batch c →
  wp max_batch (call_prog bulk_sink auto_flush_max_items c) [] (λ _ held, held = []).
Proof.
  intros Hauto Hc. destruct c as [now t|n]; cbn [call_prog]; apply wp_andNext.
  - eapply wp_mono; [|by apply wp_upsert]. by intros [a|e] held.
  - eapply wp_mono; [|by apply wp_flush]. by intros [a|e] held.
Qed.

Lemma advance_inv i p p' : process_inv p → advance i p = Some p' → process_inv p'.
Proof.
  intros (Hwf & Hths & Hp) E. unfold advance in E.
  destruct (pr_threads p !! i) as [[[r|X o k] held]|] eqn:Hi; [done| |done].
  destruct (Forall_lookup_1 _ _ _ _ Hths Hi) as (Hok & Hheld & Hlen). cbn [wp th_prog th_held] in *.
  destruct (apply_op o (pr_sink p)) as [res s'] eqn:Eo. injection E as <-.
  destruct (apply_op_sound max_batch o held _ _ _ _ Hwf Hheld Hok Eo) as (HQ & Hwf' & Hheld' & Hlen' & Hperm).
  destruct (held_by_split _ _ _ Hi) as (rest & Hsplit & Hinsert).
  unfold process_inv. cbn [pr_sink pr_threads pr_accepted pr_stored]. split; [done|]. split.
  - apply Forall_insert; [done|]. split_and!; cbn; auto.
  - rewrite Hinsert, <-Hp, Hsplit. cbn [th_held] in *.
    transitivity ((sink_pending s' ++ held_after o res held ++ reported o res) ++ rest ++ pr_stored p).
    { solve_Permutation. }
    rewrite Hperm. solve_Permutation.
Qed.

Lemma invoke_inv i c p p' : (Z.to_nat auto_flush_max_items <= max_batch)%nat → call_ok max_batch c →
  process_inv p → invoke bulk_sink auto_flush_max_items i c p = Some p' → process_inv p'.
Proof.
  intros Hauto Hc (Hwf & Hths & Hp) E. unfold invoke in E.
  destruct (pr_threads p !! i) as [[[r|X o k] held]|] eqn:Hi; [|done|done]. injection E as <-.
  destruct (Forall_lookup_1 _ _ _ _ Hths Hi) as (Hok & Hheld & Hlen). cbn [wp th_prog th_held] in *. subst held.
  destruct (held_by_split _ _ _ Hi) as (rest & Hsplit & Hinsert).
  unfold process_inv. cbn [pr_sink pr_threads pr_accepted pr_stored]. split; [done|]. split.
  - apply Forall_insert; [done|]. split_and!; cbn; [by apply call_wp|done|lia].
  - by rewrite Hinsert, <-Hp, Hsplit.
Qed.

Lemma start_inv n s : sink_wf s → process_inv (start_process n s).
Proof.
  intros Hwf. unfold start_process, process_inv. cbn [pr_sink pr_threads pr_accepted pr_stored].
  split; [done|]. split; [by apply Forall_replicate; split_and!; cbn; [..|lia]|].
  by rewrite held_by_idle, app_nil_r.
Qed.

Lemma reachable_inv n s p : (Z.to_nat auto_flush_max_items <= max_batch)%nat → sink_wf s →
  rtc (process_step bulk_sink auto_flush_max_items max_batch) (start_process n s) p → process_inv p.
Proof.
  intros Hauto Hwf Hp. eapply (rtc_invariant _ process_inv); [|by apply start_inv|exact Hp].
  intros q q' [i r r' Ha|i c r r' Hc Hi] Hinv; [by eapply advance_inv|by eapply invoke_inv].
Qed.

(** A step keeps the number of threads. *)
Lemma reachable_threads n s p :
  rtc (process_step bulk_sink auto_flush_max_items max_batch) (start_process n s) p → length (pr_threads p) = n.
Proof.
  intros Hp. eapply (rtc_invariant _ (λ p, length (pr_threads p) = n)); [| |exact Hp].
  - intros q q' [i r r' Ha|i c r r' Hc Hi] Hlen.
    + unfold advance in Ha. repeat case_match; try done. injection Ha as <-. cbn. by rewrite length_insert.
    + unfold invoke in Hi. repeat case_match; try done. injection Hi as <-. cbn. by rewrite length_insert.
  - cbn. apply length_replicate.
Qed.

Lemma held_bound p : process_inv p → (length (held_by (pr_threads p)) <= length (pr_threads p) * max_batch)%nat.
Proof.
  intros (_ & Hths & _). unfold held_by. induction Hths as [|th ths (_ & _ & Hlen) _ IH]; [done|].
  cbn. rewrite length_app. lia.
Qed.

Lemma finished_held p : process_inv p → Forall finished (pr_threads p) → held_by (pr_threads p) = [].
Proof.
  intros (_ & Hths & _) Hfin. unfold held_by. induction Hths as [|[q held] ths (Hok & _) _ IH]; [done|].
  apply Forall_cons in Hfin as [Hq Hfin]. cbn. rewrite IH, app_nil_r by done.
  destruct q; [exact Hok|done].
Qed.

(** ** Threads never wait for each other *)

Lemma finish_thread i p : ∃ p', rtc (process_step bulk_sink auto_flush_max_items max_batch) p p' ∧
  (∀ j, j ≠ i → pr_threads p' !! j = pr_threads p !! j) ∧ length (pr_threads p') = length (pr_threads p) ∧
  ∀ th, pr_threads p' !! i = Some th → finished th.
Proof.
  destruct (pr_threads p !! i) as [[q held]|] eqn:Hi.
  2: { exists p. split; [apply rtc_refl|]. split; [done|]. split; [done|]. intros th. by rewrite Hi. }
  revert p held Hi. induction q as [r|X o k IH]; intros p held Hi.
  - exists p. split; [apply rtc_refl|]. split; [done|]. split; [done|]. intros th. rewrite Hi. by intros [= <-].
  - destruct (apply_op o (pr_sink p)) as [res s'] eqn:Eo.
    set (p1 := mkProcess s' (<[i := mkThread (k res) (held_after o res held)]> (pr_threads p))
                 (pr_accepted p ++ (stored <$> appended o res)) (pr_stored p ++ reported o res)).
    destruct (IH res p1 (held_after o res held)) as (p' & Hr & Hj & Hlen & Hfin).
    { apply list_lookup_insert_eq. by eapply lookup_lt_Some. }
    exists p'. split_and!; [|intros j Hne; rewrite Hj by done; by apply list_lookup_insert_ne| |done].
    + eapply rtc_l; [|exact Hr]. apply (step_operation _ _ _ i). unfold advance. by rewrite Hi, Eo.
    + rewrite Hlen. apply length_insert.
Qed.

Lemma finish_threads p : ∃ p', rtc (process_step bulk_sink auto_flush_max_items max_batch) p p' ∧
  Forall finished (pr_threads p').
Proof.
  assert (∀ n, ∃ p', rtc (process_step bulk_sink auto_flush_max_items max_batch) p p' ∧
    length (pr_threads p') = length (pr_threads p) ∧
    ∀ i th, (i < n)%nat → pr_threads p' !! i = Some th → finished th) as Hn.
  { induction n as [|n (p' & Hr & Hlen & Hfin)]; [by exists p; split; [apply rtc_refl|split; [done|lia]]|].
    destruct (finish_thread n p') as (p2 & Hr2 & Hj & Hlen2 & Hn). exists p2.
    split; [by etransitivity|]. split; [lia|]. intros i th Hi Hth.
    destruct (decide (i = n)) as [->|Hne]; [by apply Hn|]. apply (Hfin i); [lia|]. by rewrite <-Hj. }
  destruct (Hn (length (pr_threads p))) as (p' & Hr & Hlen & Hfin). exists p'. split; [done|].
  apply Forall_lookup. intros i th Hi. apply (Hfin i); [|done]. apply lookup_lt_Some in Hi. lia.
Qed.
End invariant.

(** ** The bound of the in-memory history *)

Section growth.
#[local] Set Default Proof Using "Type*".
Context `{TelemetryBulkSinkLaws D} (bulk_sink : bool) (auto_flush_max_items : Z) (max_batch : nat).
Implicit Types (p : process InMemoryTelemetryWriteBuffer D) (s : sink_state InMemoryTelemetryWriteBuffer D).

Lemma apply_op_limit {X} (o : op X) s res s' : apply_op o s = (res, s') →
  mem_max_pending_history (sk_buffer s') = mem_max_pending_history (sk_buffer s).
Proof.
  destruct o as [r|r|n|rs| |depth|rs]; cbn; intros E.
  - unfold mem_append_history in E. case_match; by injection E as <- <-.
  - by injection E as <- <-.
  - unfold mem_drain_history in E. case_if_in E; [by injection E as <- <-|].
    rewrite drain_loop_spec in E. by injection E as <- <-.
  - rewrite mem_restore_spec in E. by injection E as <- <-.
  - by injection E as <- <-.
  - by injection E as <- <-.
  - destruct (bulk_flush _ _). by injection E as <- <-.
Qed.

Lemma append_below_limit {X} (o : op X) s res s' : apply_op o s = (res, s') → appended o res ≠ [] →
  Z.of_nat (length (mem_history (sk_buffer s'))) <= mem_max_pending_history (sk_buffer s).
Proof.
  destruct o as [r|r|n|rs| |depth|rs]; cbn; try done. unfold mem_append_history.
  destruct (Z.leb_spec (mem_max_pending_history (sk_buffer s)) (Z.of_nat (length (mem_history (sk_buffer s)))));
    intros [= <- <-] Ha; [done|]. cbn. rewrite length_app. cbn. lia.
Qed.

Definition growth_inv (limit : Z) p : Prop :=
  mem_max_pending_history (sk_buffer (pr_sink p)) = limit ∧
  Z.of_nat (length (mem_history (sk_buffer (pr_sink p))) + length (held_by (pr_threads p)))
    <= limit + Z.of_nat (length (pr_threads p) * max_batch).

Lemma process_count p : process_inv max_batch p →
  (length (mem_history (sk_buffer (pr_sink p))) + length (held_by (pr_threads p)) + length (pr_stored p)
   = length (pr_accepted p))%nat.
Proof. intros (_ & _ & Hp). apply Permutation_length in Hp. rewrite !length_app in Hp. cbn in Hp. lia. Qed.

Lemma advance_growth limit i p p' : process_inv max_batch p → growth_inv limit p → advance i p = Some p' →
  growth_inv limit p'.
Proof.
  intros Hinv [Hmax Hlen] E. pose proof (advance_inv max_batch i p p' Hinv E) as Hinv'.
  pose proof (process_count p Hinv) as Hc. pose proof (process_count p' Hinv') as Hc'.
  pose proof (held_bound max_batch p' Hinv') as Hb. unfold advance in E.
  destruct (pr_threads p !! i) as [[[r|X o k] held]|] eqn:Hi; [done| |done].
  destruct (apply_op o (pr_sink p)) as [res s'] eqn:Eo. injection E as <-. unfold growth_inv.
  cbn [pr_sink pr_threads pr_accepted pr_stored] in *. rewrite length_insert in *.
  split; [by rewrite (apply_op_limit o _ _ _ Eo)|].
  destruct (appended o res) as [|r rs] eqn:Ea; [rewrite !length_app in *; cbn in *; lia|].
  pose proof (append_below_limit o _ _ _ Eo ltac:(by rewrite Ea)). lia.
Qed.

Lemma invoke_growth limit i c p p' : growth_inv limit p → process_inv max_batch p →
  invoke bulk_sink auto_flush_max_items i c p = Some p' → growth_inv limit p'.
Proof.
  intros [Hmax Hlen] (_ & Hths & _) E. unfold invoke in E.
  destruct (pr_threads p !! i) as [[[r|X o k] held]|] eqn:Hi; [|done|done]. injection E as <-.
  destruct (held_by_split _ _ _ Hi) as (rest & Hsplit & Hinsert). unfold growth_inv.
  cbn [pr_sink pr_threads]. rewrite length_insert, Hinsert. rewrite Hsplit in Hlen. by split.
Qed.
End growth.

(** ** Schedules *)

Lemma play_steps `{TelemetryWriteBufferLaws B} `{TelemetryBulkSink D} bulk auto max_batch schedule
    (p p' : process B D) :
  Forall (λ turn, match turn.2 with Some c => call_ok max_batch c | None => True end) schedule →
  play bulk auto schedule p = Some p' → rtc (process_step bulk auto max_batch) p p'.
Proof.
  intros Hs. revert p. induction Hs as [|[i [c|]] schedule Hc _ IH]; intros p E; cbn [play] in E.
  - injection E as <-. apply rtc_refl.
  - destruct (invoke bulk auto i c p) as [q|] eqn:Eq; [|done]. eapply rtc_l; [exact (step_invoke _ _ _ i c p q Hc Eq)|by apply IH].
  - destruct (advance i p) as [q|] eqn:Eq; [|done]. eapply rtc_l; [exact (step_operation _ _ _ i p q Eq)|by apply IH].
Qed.

(** ** Properties *)

(** C1: Whatever number of threads call the sink and however their operations
    interleave, no accepted record is lost or duplicated: the records pending,
    those drained by a call that is still running and those reported as stored
    are the accepted ones.  No call waits for another, so the running calls can
    always end, and then every accepted record is pending or stored. *)
Theorem concurrent_flush_conserves `{TelemetryWriteBufferTotal B} `{TelemetryBulkSinkLaws D}
    (bulk_sink : bool) (auto : Z) (max_batch n : nat) (s : sink_state B D) (p : process B D) :
  (Z.to_nat auto <= max_batch)%nat → sink_wf s →
  rtc (process_step bulk_sink auto max_batch) (start_process n s) p →
  sink_pending (pr_sink p) ++ held_by (pr_threads p) ++ pr_stored p ≡ₚ pr_accepted p ∧
  (length (held_by (pr_threads p)) <= n * max_batch)%nat ∧
  ∃ p', rtc (process_step bulk_sink auto max_batch) p p' ∧ Forall finished (pr_threads p') ∧
        sink_pending (pr_sink p') ++ pr_stored p' ≡ₚ pr_accepted p'.
Proof.
  intros Hauto Hwf Hp. pose proof (reachable_inv bulk_sink auto max_batch n s p Hauto Hwf Hp) as Hinv.
  split; [by destruct Hinv as (_ & _ & ?)|]. split.
  { rewrite <-(reachable_threads bulk_sink auto max_batch n s p Hp). by apply held_bound. }
  destruct (finish_threads bulk_sink auto max_batch p) as (p' & Hr & Hfin). exists p'. split; [done|]. split; [done|].
  assert (process_inv max_batch p') as Hinv' by (eapply (reachable_inv bulk_sink auto); [done..|by etransitivity]).
  pose proof (finished_held max_batch p' Hinv' Hfin) as Hheld. destruct Hinv' as (_ & _ & Hperm).
  by rewrite Hheld in Hperm.
Qed.

(** A database that accepts [budget] more batches and then raises, for the examples. *)
Definition failing_sink : TelemetryBulkSink nat := λ budget rs,
  match budget with O => (throw ExcDriverError "down", O) | S budget => (Ok (Z.of_nat (length rs)), budget) end.

Lemma failing_sink_laws : TelemetryBulkSinkLaws nat (H := failing_sink).
Proof. intros [|d] rs n d'; unfold bulk_flush; cbn; [done|]. intros [= <- _]. lia. Qed.

Definition named_sink (names : list string) (limit : Z) (budget : nat) : sink_state InMemoryTelemetryWriteBuffer nat :=
  mkSink (mkInMemory ∅ (record_named <$> names) limit) budget 0.

(** Two threads flush at once: both drain a batch, then one goes on for
    [first] operations before the other writes and puts back its batch. *)
Definition crossing_flushes (first : nat) : list (nat * option call) :=
  ([(0, Some (FlushOnce 2)); (1, Some (FlushOnce 2)); (0, None); (1, None)]
   ++ replicate first (0, None) ++ replicate 4 (1, None) ++ replicate 2 (0, None) ++ replicate 2 (1, None))%nat.

#[local] Notation crossed schedule names limit budget :=
  (play (H1 := failing_sink) true 0 schedule (start_process 2 (named_sink names limit budget))).

(** Both writes fail: batches put back by different threads change places: the newest record is
    written first when the database is back. *)
Example crossing_flushes_reorder :
  (λ p, rec_key <$> mem_history (sk_buffer (pr_sink p))) <$> crossed (crossing_flushes 4) ["a"; "b"; "c"] 3 0
  = Some ["c"; "a"; "b"].
Proof. vm_compute. reflexivity. Qed.

Lemma concurrent_flush_conserves_witness :
  ∃ p, crossed (crossing_flushes 3) ["a"; "b"; "c"] 3 1 = Some p ∧ rec_key <$> pr_stored p = ["a"; "b"] ∧
    sink_pending (pr_sink p) ++ held_by (pr_threads p) ++ pr_stored p ≡ₚ pr_accepted p.
Proof.
  assert (Hs : (λ p, rec_key <$> pr_stored p) <$> crossed (crossing_flushes 3) ["a"; "b"; "c"] 3 1 = Some ["a"; "b"])
    by (vm_compute; reflexivity).
  destruct (crossed (crossing_flushes 3) ["a"; "b"; "c"] 3 1) as [p|] eqn:E; [|discriminate Hs].
  exists p. split; [reflexivity|]. split; [by injection Hs|].
  unshelve eapply (concurrent_flush_conserves (H3 := failing_sink_laws) true 0 2 2
    (named_sink ["a"; "b"; "c"] 3 1) p _ _ _); [lia|exact I|].
  refine (play_steps (H1 := failing_sink) true 0 2 (crossing_flushes 3) _ p _ E).
  repeat constructor.
Defined.

(** C37: With [n] threads whose batches hold at most [max_batch] records, the
    in-memory history never exceeds its limit by more than [n] batches, counting
    the records in flight.  The excess is real: putting a batch back can leave
    more records than the configured limit. *)
Theorem history_growth_bound `{TelemetryBulkSinkLaws D} (bulk_sink : bool) (auto limit : Z) (max_batch n : nat)
    (b : InMemoryTelemetryWriteBuffer) (d : D) (depth : Z) (p : process InMemoryTelemetryWriteBuffer D) :
  (Z.to_nat auto <= max_batch)%nat → new_in_memory limit = Ok b →
  rtc (process_step bulk_sink auto max_batch) (start_process n (mkSink b d depth)) p →
  Z.of_nat (length (mem_history (sk_buffer (pr_sink p))) + length (held_by (pr_threads p)))
    <= limit + Z.of_nat (n * max_batch).
Proof.
  intros Hauto Hb Hp. rewrite <-(reachable_threads bulk_sink auto max_batch n _ p Hp).
  assert (process_inv max_batch p ∧ growth_inv max_batch limit p) as [_ [_ ?]]; [|done].
  eapply (rtc_invariant _ (λ p, process_inv max_batch p ∧ growth_inv max_batch limit p)); [| |exact Hp].
  - intros q q' [i r r' Ha|i c r r' Hc Hi] [Hinv Hg]; split.
    + by eapply advance_inv.
    + by eapply advance_growth.
    + by eapply (invoke_inv bulk_sink auto).
    + by eapply (invoke_growth bulk_sink auto max_batch).
  - unfold new_in_memory in Hb. destruct (Z.leb_spec limit 0); [done|]. injection Hb as <-.
    split; [by apply start_inv|]. split; [done|]. unfold start_process. cbn [pr_sink pr_threads].
    rewrite held_by_idle. cbn. lia.
Qed.

(** The batch of one thread is put back after another thread filled its place. *)
Definition overtaking_upsert : list (nat * option call) :=
  let u := Upsert (mkDatetime 0 (Some 0)) (sample_telemetry "a" 1000) in
  ([(1, Some u)] ++ replicate 4 (1, None) ++ [(0, Some (FlushOnce 1)); (0, None); (1, Some u)]
   ++ replicate 4 (1, None) ++ replicate 6 (0, None))%nat.

Lemma history_growth_bound_witness :
  ∃ b p, new_in_memory 1 = Ok b ∧
    play (H1 := failing_sink) true 0 overtaking_upsert (start_process 2 (mkSink b 0%nat 0)) = Some p ∧
    length (mem_history (sk_buffer (pr_sink p))) = 2%nat ∧
    Z.of_nat (length (mem_history (sk_buffer (pr_sink p))) + length (held_by (pr_threads p))) <= 1 + Z.of_nat (2 * 1).
Proof.
  destruct (new_in_memory 1) as [b|e] eqn:Eb; [|discriminate Eb]. exists b.
  assert (Hl : (λ p, length (mem_history (sk_buffer (pr_sink p)))) <$>
    play (H1 := failing_sink) true 0 overtaking_upsert (start_process 2 (mkSink b 0%nat 0)) = Some 2%nat)
    by (injection Eb as <-; vm_compute; reflexivity).
  destruct (play (H1 := failing_sink) true 0 overtaking_upsert (start_process 2 (mkSink b 0%nat 0))) as [p|] eqn:E;
    [|discriminate Hl].
  exists p. split; [reflexivity|]. split; [reflexivity|]. split; [by injection Hl|].
  unshelve eapply (history_growth_bound (H0 := failing_sink_laws) true 0 1 1 2 b 0%nat 0 p _ Eb _); [lia|].
  refine (play_steps (H1 := failing_sink) true 0 1 overtaking_upsert _ p _ E). repeat constructor.
Defined.

(** Run without interference, the operations of a call are the sequential
    method: [upsert] and [flush_once] as functions of the sink, their outcome,
    the state they leave and their exceptions. *)
Theorem calls_refine_methods `{TelemetryWriteBuffer B} `{TelemetryBulkSink D} (bulk_sink : bool) (auto max_items : Z)
    (now : datetime) (t : TelemetryCreate) (s : sink_state B D) :
  run (flush_prog bulk_sink max_items) s = flush_once bulk_sink max_items s ∧
  run (upsert_prog bulk_sink auto now t) s = sink_upsert bulk_sink auto now t s.
Proof. split; [apply run_flush|apply run_upsert]. Qed.
