(* ===== verification/Security.v ===== *)
(** Tokens, roles and the authentication API: [backend/core/security_contract.py],
    [security_tokens.py], [security.py], [security_errors.py],
    [backend/api/auth.py], [auth_cookies.py], [auth_request_guards.py],
    [auth_token_responses.py], [auth_passwords.py], [errors.py], [contracts.py]
    and [backend/model/user_model.py].

    PyJWT, passlib and the database session are parameters.  A decoded token is
    its claims, an expiry or an invalidity; [jwt_reads_back] is the documented
    behaviour of PyJWT on a token it has signed. *)

From stdpp Require Import base list strings.
From Stdlib Require Import ZArith Lia Ascii Floats.
From S2P Require Import Prelude PyStr PyFloat PyTime PyJson Url Settings.

#[local] Open Scope Z_scope.

(** ** Errors *)

(** [backend/api/errors.py:8-10] ApiHttpError *)
Definition api_error {A} (status_code : Z) (detail : string) : result A :=
  Raise (HttpErr status_code detail []).

(** [backend/api/errors.py:13-40] BadRequestApiError *)
Definition BadRequestApiError {A} (detail : string) : result A := api_error 400 detail.
Definition UnauthorizedApiError {A} (detail : string) : result A := api_error 401 detail.
Definition ForbiddenApiError {A} (detail : string) : result A := api_error 403 detail.
Definition UnprocessableEntityApiError {A} (detail : string) : result A := api_error 422 detail.
Definition NotFoundApiError {A} (detail : string) : result A := api_error 404 detail.
Definition ServiceUnavailableApiError {A} (detail : string) : result A := api_error 503 detail.

(** [backend/core/security_errors.py:9-14] unauthorized *)
Definition unauthorized {A} (detail : string) : result A :=
  Raise (HttpErr 401 detail [("WWW-Authenticate", "Bearer")]).

(** [backend/core/security_errors.py:17-21] configuration_error *)
Definition configuration_error {A} (msg : string) : result A := Raise (HttpErr 503 msg []).

(** ** Roles *)

(** [backend/core/security_contract.py:5-16] UserRole *)
Inductive UserRole : Type := viewer | operator | admin.

#[export] Instance UserRole_eq_dec : EqDecision UserRole.
Proof. solve_decision. Defined.

Definition role_name (r : UserRole) : string :=
  match r with viewer => "viewer" | operator => "operator" | admin => "admin" end.

Definition ROLE_ORDER (r : UserRole) : Z :=
  match r with viewer => 1 | operator => 2 | admin => 3 end.

(** [backend/core/security_contract.py:18-31] TokenUse *)
Inductive TokenUse : Type := access | refresh.

#[export] Instance TokenUse_eq_dec : EqDecision TokenUse.
Proof. solve_decision. Defined.

Definition token_use_name (u : TokenUse) : string :=
  match u with access => "access" | refresh => "refresh" end.

Definition AUTHENTICATION_REQUIRED_DETAIL : string := "authentication required".
Definition BEARER_TOKEN_REQUIRED_DETAIL : string := "bearer token required".
Definition INVALID_TOKEN_DETAIL : string := "invalid token".
Definition TOKEN_EXPIRED_DETAIL : string := "token expired".

(** [backend/core/security_tokens.py:28-31] AuthenticatedUser *)
Record AuthenticatedUser : Type := mkAuthenticatedUser { au_username : string; au_role : UserRole }.

(** [backend/core/security_tokens.py:34-37] normalize_role *)
Definition normalize_role (role : option string) : UserRole :=
  match role with
  | Some r => if String.eqb r "viewer" then viewer
              else if String.eqb r "operator" then operator
              else if String.eqb r "admin" then admin
              else viewer
  | None => viewer
  end.

(** [normalize_role] on a claim of any JSON type: a list or an object cannot be
    looked up in a dict. *)
Definition normalize_role_claim (role : jval) : result UserRole :=
  match role with
  | JStr s => Ok (normalize_role (Some s))
  | JList _ | JObj _ => throw ExcTypeError "unhashable type"
  | _ => Ok viewer
  end.

(** ** Tokens *)

Inductive jwt_outcome : Type :=
  | JwtClaims (claims : list (string * jval))
  | JwtExpired
  | JwtInvalid.

Section tokens.
Context (jwt_encode : list (string * jval) → string → string → string).
Context (jwt_decode : string → string → string → string → datetime → jwt_outcome).

(** The claims of [create_token], [exp] as the integer PyJWT writes for it. *)
Definition token_claims (subject : string) (role : option string) (token_use : TokenUse)
    (iat : Z) (expire : datetime) (issuer : string) : list (string * jval) :=
  [("sub", JStr subject); ("role", JStr (role_name (normalize_role role)));
   ("token_use", JStr (token_use_name token_use)); ("iat", JInt iat);
   ("exp", JInt (instant expire / 1000000)); ("iss", JStr issuer)].

Definition plus_minutes (d : datetime) (minutes : Z) : datetime :=
  mkDatetime (dt_wall d + minutes * 60 * 1000000) (dt_offset d).

(** [backend/core/security_tokens.py:72-89] create_token

    [now] is the value of [datetime.now(timezone.utc)]. *)
Definition create_token (now : datetime) (subject : string) (role : option string)
    (token_use : TokenUse) (minutes : Z) (settings : AuthSettings) : result string :=
  let expire := plus_minutes now minutes in
  seconds ← timestamp now;
  iat ← trunc_float seconds;
  Ok (jwt_encode (token_claims subject role token_use iat expire (auth_issuer settings))
        (auth_secret settings) (auth_algorithm settings)).

(** [backend/core/security_tokens.py:40-53] create_access_token *)
Definition create_access_token (now : datetime) (subject : string) (role : option string)
    (settings : AuthSettings) : result string :=
  create_token now subject role access (access_token_expire_minutes settings) settings.

(** [backend/core/security_tokens.py:56-69] create_refresh_token *)
Definition create_refresh_token (now : datetime) (subject : string) (role : option string)
    (settings : AuthSettings) : result string :=
  create_token now subject role refresh (refresh_token_expire_minutes settings) settings.

(** [backend/core/security_tokens.py:100-123] decode_token *)
Definition decode_token (now : datetime) (token : string) (expected_token_use : TokenUse)
    (settings : AuthSettings) : result AuthenticatedUser :=
  match jwt_decode token (auth_secret settings) (auth_algorithm settings) (auth_issuer settings) now with
  | JwtExpired => unauthorized TOKEN_EXPIRED_DETAIL
  | JwtInvalid => unauthorized INVALID_TOKEN_DETAIL
  | JwtClaims payload =>
      match obj_get payload "sub" with
      | JStr subject =>
          if negb (py_eq (obj_get payload "token_use") (JStr (token_use_name expected_token_use)))
          then unauthorized INVALID_TOKEN_DETAIL
          else role ← normalize_role_claim (obj_get payload "role");
               Ok (mkAuthenticatedUser subject role)
      | _ => unauthorized INVALID_TOKEN_DETAIL
      end
  end.

(** [backend/core/security_tokens.py:92-93] decode_access_token *)
Definition decode_access_token (now : datetime) (token : string) (settings : AuthSettings)
    : result AuthenticatedUser := decode_token now token access settings.

(** [backend/core/security_tokens.py:96-97] decode_refresh_token *)
Definition decode_refresh_token (now : datetime) (token : string) (settings : AuthSettings)
    : result AuthenticatedUser := decode_token now token refresh settings.

(** ** Bearer authentication *)

Record HTTPAuthorizationCredentials : Type := mkCredentials {
  cr_scheme : string;
  cr_credentials : string
}.

Context (unicode_lower : string → string).

(** [backend/core/security.py:41-51] get_current_user

    [settings] is the outcome of [AuthSettings.from_env()]. *)
Definition get_current_user (now : datetime) (settings : result AuthSettings)
    (credentials : option HTTPAuthorizationCredentials) : result AuthenticatedUser :=
  match credentials with
  | None => unauthorized AUTHENTICATION_REQUIRED_DETAIL
  | Some c =>
      if negb (String.eqb (lower unicode_lower (cr_scheme c)) "bearer") then
        unauthorized BEARER_TOKEN_REQUIRED_DETAIL
      else
        catch (s ← settings; decode_access_token now (cr_credentials c) s)
          ExcAuthConfigError configuration_error
  end.

(** [backend/core/security.py:54-63] require_role *)
Definition require_role (minimum_role : UserRole) (user : AuthenticatedUser)
    : result AuthenticatedUser :=
  if ROLE_ORDER (au_role user) <? ROLE_ORDER minimum_role
  then Raise (HttpErr 403 (role_name minimum_role +:+ " role required") [])
  else Ok user.

(** ** Request guards *)

(** Header names are case-insensitive; the source asks for these names. *)
Record Request : Type := mkRequest {
  rq_header : string → option string;
  rq_cookie : string → option string
}.

Definition CSRF_HEADER_NAME : string := "X-GCS-CSRF".
Definition CSRF_HEADER_VALUE : string := "same-origin".

Context (bracketed_netloc_ok nfkc_ok : string → bool).

(** [backend/api/auth_request_guards.py:32-38] origin_from_referer *)
Definition origin_from_referer (referer : option string) : result (option string) :=
  match nonempty_opt referer with
  | None => Ok None
  | Some r =>
      parsed ← urlsplit bracketed_netloc_ok nfkc_ok r;
      if is_empty (url_scheme parsed) || is_empty (url_netloc parsed) then Ok None
      else Ok (Some (url_origin parsed))
  end.

(** [backend/api/auth_request_guards.py:15-22] assert_trusted_request_origin *)
Definition assert_trusted_request_origin (allowed_origins : list string) (request : Request)
    : result () :=
  request_origin ← match nonempty_opt (rq_header request "origin") with
                   | Some o => Ok (Some o)
                   | None => origin_from_referer (rq_header request "referer")
                   end;
  match nonempty_opt request_origin with
  | None => Ok ()
  | Some o => if bool_decide (o ∈ allowed_origins) then Ok ()
              else ForbiddenApiError "untrusted request origin"
  end.

(** [backend/api/auth_request_guards.py:25-29] assert_browser_csrf_header *)
Definition assert_browser_csrf_header (request : Request) : result () :=
  match nonempty_opt (rq_header request "origin"), nonempty_opt (rq_header request "referer") with
  | None, None => Ok ()
  | _, _ =>
      if bool_decide (rq_header request CSRF_HEADER_NAME = Some CSRF_HEADER_VALUE) then Ok ()
      else ForbiddenApiError "csrf header required"
  end.

Definition request_guards (allowed_origins : list string) (request : Request) : result () :=
  _ ← assert_trusted_request_origin allowed_origins request;
  assert_browser_csrf_header request.

(** ** Cookies and token responses *)

Inductive cookie_action : Type :=
  | SetCookie (key value : string) (max_age : Z) (httponly secure : bool) (samesite path : string)
  | DeleteCookie (key : string) (httponly secure : bool) (samesite path : string).

(** [backend/api/auth_cookies.py:11-20] set_refresh_cookie *)
Definition set_refresh_cookie (refresh_token : string) (s : AuthSettings) : cookie_action :=
  SetCookie (refresh_cookie_name s) refresh_token (refresh_token_expire_minutes s * 60) true
    (refresh_cookie_secure s) (refresh_cookie_samesite s) "/".

(** [backend/api/auth_cookies.py:23-30] clear_refresh_cookie *)
Definition clear_refresh_cookie (s : AuthSettings) : cookie_action :=
  DeleteCookie (refresh_cookie_name s) true (refresh_cookie_secure s) (refresh_cookie_samesite s) "/".

(** [backend/model/user_model.py:42-47] TokenResponse *)
Record TokenResponse : Type := mkTokenResponse {
  tk_access_token : string;
  tk_token_type : string;
  tk_expires_in_minutes : Z;
  tk_username : string;
  tk_role : UserRole
}.

(** [backend/api/auth_token_responses.py:9-13] load_auth_settings *)
Definition load_auth_settings (settings : result AuthSettings) : result AuthSettings :=
  catch settings ExcAuthConfigError ServiceUnavailableApiError.

(** [backend/api/auth_token_responses.py:30-37] token_response *)
Definition token_response (username : string) (role : option string) (access_token : string)
    (s : AuthSettings) : TokenResponse :=
  mkTokenResponse access_token "bearer" (access_token_expire_minutes s) username (normalize_role role).

(** [backend/api/auth_token_responses.py:16-19] create_login_token_response *)
Definition create_login_token_response (now : datetime) (username : string) (role : option string)
    (s : AuthSettings) : result (TokenResponse * string) :=
  access_token ← create_access_token now username role s;
  refresh_token ← create_refresh_token now username role s;
  Ok (token_response username role access_token s, refresh_token).

(** [backend/api/auth_token_responses.py:22-27] create_refreshed_token_response *)
Definition create_refreshed_token_response (now : datetime) (username : string)
    (role : option string) (s : AuthSettings) : result (TokenResponse * string) :=
  access_token ← create_access_token now username role s;
  refresh_token ← create_refresh_token now username role s;
  Ok (token_response username role access_token s, refresh_token).

(** ** The authentication routes *)

(** [backend/model/user_model.py:11-17] UserCreate *)
Record UserCreate : Type := mkUserCreate {
  uc_username : string;
  uc_email : string;
  uc_password : string;
  uc_invite_code : string
}.

(** [backend/model/user_model.py:23-25] UserLogin *)
Record UserLogin : Type := mkUserLogin { ul_username : string; ul_password : string }.

(** A row of [users], without its generated id. *)
Record User : Type := mkUser {
  us_username : string;
  us_email : string;
  us_password_hash : string;
  us_company_id : Z;
  us_role : option string
}.

(** The queries of the routes and the commit of a new user. *)
Class AuthSession (DB : Type) : Type := {
  username_exists : DB → string → bool;
  email_exists : DB → string → bool;
  company_by_invite_code : DB → string → option Z;
  add_user : DB → User → result DB;
  user_by_username : DB → string → option User
}.

Context (hash_password : string → string) (verify_password : string → string → bool).
Context `{AuthSession DB}.

(** [backend/api/auth.py:29-59] signup *)
Definition signup (allowed_origins : list string) (user : UserCreate) (request : Request) (db : DB)
    : result (DB * User) :=
  _ ← assert_trusted_request_origin allowed_origins request;
  _ ← assert_browser_csrf_header request;
  if username_exists db (uc_username user) then BadRequestApiError "Username already registered"
  else if email_exists db (uc_email user) then BadRequestApiError "Email already registered"
  else match company_by_invite_code db (uc_invite_code user) with
  | None => BadRequestApiError "Invalid invite code Input"
  | Some company_id =>
      let new_user := mkUser (uc_username user) (uc_email user) (hash_password (uc_password user))
                        company_id (Some "viewer") in
      db ← add_user db new_user;
      Ok (db, new_user)
  end.

(** A successful reply: its token and the cookie set on the response, or the
    JSON error of a stale refresh session. *)
Inductive auth_reply : Type :=
  | TokenReply (token : TokenResponse) (cookie : cookie_action)
  | ErrorReply (status : Z) (detail : string) (cookie : cookie_action).

(** [backend/api/auth.py:62-82] login *)
Definition login (now : datetime) (settings : result AuthSettings) (allowed_origins : list string)
    (user : UserLogin) (request : Request) (db : DB) : result auth_reply :=
  _ ← assert_trusted_request_origin allowed_origins request;
  _ ← assert_browser_csrf_header request;
  match user_by_username db (ul_username user) with
  | Some db_user =>
      if verify_password (ul_password user) (us_password_hash db_user) then
        auth_settings ← load_auth_settings settings;
        '(token, refresh_token) ← create_login_token_response now (us_username db_user)
                                    (us_role db_user) auth_settings;
        Ok (TokenReply token (set_refresh_cookie refresh_token auth_settings))
      else UnauthorizedApiError "Invalid credentials"
  | None => UnauthorizedApiError "Invalid credentials"
  end.

(** [backend/api/auth.py:85-113] refresh_session *)
Definition refresh_session (now : datetime) (settings : result AuthSettings)
    (allowed_origins : list string) (request : Request) (db : DB) : result auth_reply :=
  _ ← assert_trusted_request_origin allowed_origins request;
  _ ← assert_browser_csrf_header request;
  auth_settings ← load_auth_settings settings;
  match nonempty_opt (rq_cookie request (refresh_cookie_name auth_settings)) with
  | None => UnauthorizedApiError "refresh token required"
  | Some refresh_token =>
      refresh_user ← decode_refresh_token now refresh_token auth_settings;
      match user_by_username db (au_username refresh_user) with
      | None => Ok (ErrorReply 401 "invalid refresh session" (clear_refresh_cookie auth_settings))
      | Some db_user =>
          '(token, rotated) ← create_refreshed_token_response now (au_username refresh_user)
                                (us_role db_user) auth_settings;
          Ok (TokenReply token (set_refresh_cookie rotated auth_settings))
      end
  end.

(** [backend/api/auth.py:116-123] logout *)
Definition logout (settings : result AuthSettings) (allowed_origins : list string)
    (request : Request) : result (Z * cookie_action) :=
  _ ← assert_trusted_request_origin allowed_origins request;
  _ ← assert_browser_csrf_header request;
  auth_settings ← load_auth_settings settings;
  Ok (204, clear_refresh_cookie auth_settings).

(** [backend/api/auth.py:126-128] read_current_user *)
Definition read_current_user (now : datetime) (settings : result AuthSettings)
    (credentials : option HTTPAuthorizationCredentials) : result AuthenticatedUser :=
  get_current_user now settings credentials.
End tokens.

(** ** Properties *)

Lemma load_auth_settings_Ok m s : load_auth_settings m = Ok s → m = Ok s.
Proof. by apply catch_reraise. Qed.

Lemma nonempty_opt_Some x s : nonempty_opt x = Some s ↔ x = Some s ∧ s ≠ "".
Proof. destruct x as [[|a t]|]; cbn; naive_solver. Qed.

Lemma role_name_normalize r : normalize_role (Some (role_name r)) = r.
Proof. by destruct r. Qed.

(** PyJWT reads back the claims it signed under the same secret, algorithm and
    issuer from the second of [iat] until that of [exp]: before, it finds the
    token immature, which is an invalidity, and from [exp] on expired. *)
Definition jwt_reads_back (jwt_encode : list (string * jval) → string → string → string)
    (jwt_decode : string → string → string → string → datetime → jwt_outcome)
    (claims : list (string * jval)) (iat exp : Z) (s : AuthSettings) : Prop :=
  ∀ now, jwt_decode (jwt_encode claims (auth_secret s) (auth_algorithm s)) (auth_secret s)
           (auth_algorithm s) (auth_issuer s) now
         = if instant now <? iat * 1000000 then JwtInvalid
           else if exp <=? instant now / 1000000 then JwtExpired else JwtClaims claims.

(** C4: Tokens keep to their use: a token issued for a subject, a role and a
    use decodes, from the second it was issued in until it expires, to that
    subject with the normalised role when that use is expected, and is refused
    as invalid when the other use is expected, so a refresh token is never an
    access token; a clock that is still before that second finds it invalid, and
    from its expiry on it is refused as expired, under either use. *)
Theorem token_use_separation jwt_encode jwt_decode (issued : datetime) (iat minutes : Z)
    (subject : string) (role : option string) (use : TokenUse) (s : AuthSettings) :
  let expire := plus_minutes issued minutes in
  let exp := instant expire / 1000000 in
  (seconds ← timestamp issued; trunc_float seconds) = Ok iat →
  jwt_reads_back jwt_encode jwt_decode
    (token_claims subject role use iat expire (auth_issuer s)) iat exp s →
  ∃ token, create_token jwt_encode issued subject role use minutes s = Ok token ∧
    ∀ now expected, decode_token jwt_decode now token expected s =
      if instant now <? iat * 1000000 then unauthorized INVALID_TOKEN_DETAIL
      else if exp <=? instant now / 1000000 then unauthorized TOKEN_EXPIRED_DETAIL
      else if decide (expected = use) then Ok (mkAuthenticatedUser subject (normalize_role role))
      else unauthorized INVALID_TOKEN_DETAIL.
Proof.
  intros expire exp Hiat Hjwt. unfold create_token. inv_ok. rewrite Ha. cbn [mbind result_bind].
  rewrite Hiat. eexists. split; [reflexivity|]. intros now expected. unfold decode_token.
  rewrite Hjwt. destruct (instant now <? iat * 1000000); [done|]. destruct (exp <=? instant now / 1000000); [done|].
  set (payload := token_claims _ _ _ _ _ _).
  change (obj_get payload "sub") with (JStr subject).
  change (obj_get payload "role") with (JStr (role_name (normalize_role role))).
  change (obj_get payload "token_use") with (JStr (token_use_name use)).
  cbn [normalize_role_claim]. rewrite role_name_normalize. by destruct use, expected.
Qed.

Definition sample_claims : list (string * jval) :=
  token_claims "pilot" (Some "operator") refresh 1767323045
    (mkDatetime 1767330245000000 (Some 0)) "gcs-saker".

Lemma token_use_separation_witness :
  let enc := λ (_ : list (string * jval)) k (_ : string), "token:" +:+ k in
  let dec := λ t k (_ _ : string) now,
    if negb (String.eqb t ("token:" +:+ k)) then JwtInvalid
    else if instant now <? 1767323045 * 1000000 then JwtInvalid
    else if 1767330245 <=? instant now / 1000000 then JwtExpired else JwtClaims sample_claims in
  ∃ token,
    create_token enc (mkDatetime 1767323045000000 (Some 0)) "pilot" (Some "operator") refresh 120
      sample_auth_settings = Ok token ∧
    decode_token dec (mkDatetime 1767323046000000 (Some 0)) token access sample_auth_settings
      = unauthorized INVALID_TOKEN_DETAIL.
Proof.
  intros enc dec.
  destruct (token_use_separation enc dec (mkDatetime 1767323045000000 (Some 0)) 1767323045 120
    "pilot" (Some "operator") refresh sample_auth_settings) as (token & Ht & Hd).
  - vm_compute. reflexivity.
  - intros now. reflexivity.
  - exists token. split; [exact Ht|]. rewrite Hd. reflexivity.
Defined.

(** A session is only opened for a guarded request with the right
    password: when [login] replies, the origin and CSRF guards passed, the
    settings loaded, the named user exists and its stored hash accepts the
    password; the token carries the stored name and the normalised stored role,
    and the cookie holds a freshly created refresh token, [HttpOnly]. *)
Theorem login_requires_credentials jwt_encode bracketed_netloc_ok nfkc_ok
    (verify_password : string → string → bool) `{AuthSession DB} (now : datetime)
    (settings : result AuthSettings) (allowed_origins : list string) (user : UserLogin)
    (request : Request) (db : DB) (reply : auth_reply) :
  login jwt_encode bracketed_netloc_ok nfkc_ok verify_password now settings allowed_origins user
    request db = Ok reply →
  request_guards bracketed_netloc_ok nfkc_ok allowed_origins request = Ok () ∧
  ∃ s db_user refresh_token token, settings = Ok s ∧
    user_by_username db (ul_username user) = Some db_user ∧
    verify_password (ul_password user) (us_password_hash db_user) = true ∧
    reply = TokenReply token (set_refresh_cookie refresh_token s) ∧
    tk_username token = us_username db_user ∧ tk_role token = normalize_role (us_role db_user) ∧
    create_access_token jwt_encode now (us_username db_user) (us_role db_user) s
      = Ok (tk_access_token token) ∧
    create_refresh_token jwt_encode now (us_username db_user) (us_role db_user) s = Ok refresh_token.
Proof.
  unfold login, request_guards. intros E. inv_ok. rewrite Ha. cbn [mbind result_bind].
  repeat match goal with u : () |- _ => destruct u end. split; [done|].
  destruct (user_by_username db _) as [db_user|]; [|done].
  destruct (verify_password _ _) eqn:Hv; [|done]. inv_ok.
  match goal with L : load_auth_settings _ = Ok _ |- _ => apply load_auth_settings_Ok in L end.
  match goal with L : create_login_token_response _ _ _ _ _ = Ok _ |- _ =>
    unfold create_login_token_response in L end.
  inv_ok. simplify_eq. eexists _, db_user, _, _. repeat (split; [first [eassumption|reflexivity]|]).
  done.
Qed.

(** A table of users, for the witnesses. *)
Definition table_session : AuthSession (list User) := {|
  username_exists := λ db u, existsb (λ r, String.eqb (us_username r) u) db;
  email_exists := λ db e, existsb (λ r, String.eqb (us_email r) e) db;
  company_by_invite_code := λ _ c, if String.eqb c "invite" then Some 7 else None;
  add_user := λ db u, Ok (u :: db);
  user_by_username := λ db u, List.find (λ r, String.eqb (us_username r) u) db
|}.

Definition sample_users : list User := [mkUser "pilot" "p@example" "h:pw" 7 (Some "operator")].
Definition sample_verify (plain hashed : string) : bool := String.eqb hashed ("h:" +:+ plain).
Definition bare_request : Request := mkRequest (λ _, None) (λ _, Some "token").
Definition sample_encode (c : list (string * jval)) (k a : string) : string := "signed".
Definition sample_decode (t k a i : string) (now : datetime) : jwt_outcome := JwtClaims sample_claims.

Lemma login_requires_credentials_witness :
  ∃ reply s db_user, login (H := table_session) sample_encode (λ _, true) (λ _, true) sample_verify
      (mkDatetime 0 (Some 0)) (Ok sample_auth_settings) [] (mkUserLogin "pilot" "pw") bare_request
      sample_users = Ok reply ∧ Ok sample_auth_settings = Ok s ∧
    sample_verify "pw" (us_password_hash db_user) = true.
Proof.
  destruct (login (H := table_session) sample_encode (λ _, true) (λ _, true) sample_verify
    (mkDatetime 0 (Some 0)) (Ok sample_auth_settings) [] (mkUserLogin "pilot" "pw") bare_request
    sample_users) as [reply|] eqn:E; [|vm_compute in E; discriminate].
  destruct (login_requires_credentials (H := table_session) _ _ _ _ _ _ _ _ _ _ _ E)
    as (_ & s & db_user & _ & _ & Hs & _ & Hv & _).
  exists reply, s, db_user. split; [reflexivity|]. split; [exact Hs|exact Hv].
Defined.

(** Refreshing a session re-reads the account: a token reply comes only
    from a guarded request whose cookie holds a valid, unexpired refresh token
    of an account that still exists, and the new tokens carry the role stored
    in the database now, not the role of the presented token; a valid token of
    a deleted account gets the 401 reply that deletes the cookie. *)
Theorem refresh_rereads_account jwt_encode jwt_decode bracketed_netloc_ok nfkc_ok
    `{AuthSession DB} (now : datetime) (settings : result AuthSettings)
    (allowed_origins : list string) (request : Request) (db : DB) (reply : auth_reply) :
  refresh_session jwt_encode jwt_decode bracketed_netloc_ok nfkc_ok now settings allowed_origins
    request db = Ok reply →
  request_guards bracketed_netloc_ok nfkc_ok allowed_origins request = Ok () ∧
  ∃ s raw holder, settings = Ok s ∧ rq_cookie request (refresh_cookie_name s) = Some raw ∧
    decode_token jwt_decode now raw refresh s = Ok holder ∧
    match reply with
    | TokenReply token cookie => ∃ db_user rotated,
        user_by_username db (au_username holder) = Some db_user ∧
        tk_username token = au_username holder ∧
        tk_role token = normalize_role (us_role db_user) ∧
        create_refresh_token jwt_encode now (au_username holder) (us_role db_user) s = Ok rotated ∧
        cookie = set_refresh_cookie rotated s
    | ErrorReply status _ cookie =>
        user_by_username db (au_username holder) = None ∧ status = 401 ∧
        cookie = clear_refresh_cookie s
    end.
Proof.
  unfold refresh_session, request_guards. intros E. inv_ok. rewrite Ha. cbn [mbind result_bind].
  repeat match goal with u : () |- _ => destruct u end. split; [done|].
  match goal with L : load_auth_settings _ = Ok _ |- _ => apply load_auth_settings_Ok in L end.
  destruct (nonempty_opt _) as [raw|] eqn:Hraw; [|done]. apply nonempty_opt_Some in Hraw as [Hraw _].
  inv_ok. eexists _, raw, _. split; [eassumption|]. split; [done|]. split; [eassumption|].
  destruct (user_by_username db _) as [db_user|]; [|by injection E as <-].
  inv_ok. match goal with L : create_refreshed_token_response _ _ _ _ _ = Ok _ |- _ =>
    unfold create_refreshed_token_response in L end.
  inv_ok. simplify_eq. eexists db_user, _. repeat (split; [first [eassumption|reflexivity]|]). done.
Qed.

Lemma refresh_rereads_account_witness :
  ∃ token cookie, refresh_session (H := table_session) sample_encode sample_decode (λ _, true)
      (λ _, true) (mkDatetime 0 (Some 0)) (Ok sample_auth_settings) [] bare_request
      [mkUser "pilot" "p@example" "h:pw" 7 (Some "viewer")] = Ok (TokenReply token cookie) ∧
    tk_role token = viewer.
Proof.
  destruct (refresh_session (H := table_session) sample_encode sample_decode (λ _, true)
      (λ _, true) (mkDatetime 0 (Some 0)) (Ok sample_auth_settings) [] bare_request
      [mkUser "pilot" "p@example" "h:pw" 7 (Some "viewer")]) as [reply|] eqn:E;
    [|vm_compute in E; discriminate].
  destruct (refresh_rereads_account (H := table_session) _ _ _ _ _ _ _ _ _ _ E)
    as (_ & s & raw & holder & Hs & Hraw & Hh & Hr).
  destruct reply as [token cookie|status detail cookie]; [|vm_compute in E; discriminate].
  exists token, cookie. split; [reflexivity|].
  destruct Hr as (db_user & rotated & _ & _ & Hrole & _).
  vm_compute in E. injection E as <- _. reflexivity.
Defined.

(** Cross-origin writes are kept out: a request that names an origin (or,
    without one, a referer with a scheme and a host) passes the guards only if
    that origin is allowed and it carries the CSRF header; a request with
    neither header passes; and the guards never answer otherwise than by
    passing, by a 403, or, for a referer that is not a URL, by the [ValueError]
    of its parsing. *)
Theorem request_guards_characterised bracketed_netloc_ok nfkc_ok (allowed_origins : list string)
    (request : Request) :
  match request_guards bracketed_netloc_ok nfkc_ok allowed_origins request with
  | Ok () =>
      (nonempty_opt (rq_header request "origin") = None ∧
       nonempty_opt (rq_header request "referer") = None) ∨
      (rq_header request CSRF_HEADER_NAME = Some CSRF_HEADER_VALUE ∧
       (∀ o, nonempty_opt (rq_header request "origin") = Some o → o ∈ allowed_origins) ∧
       (∀ r p, nonempty_opt (rq_header request "origin") = None →
          nonempty_opt (rq_header request "referer") = Some r →
          urlsplit bracketed_netloc_ok nfkc_ok r = Ok p →
          url_scheme p ≠ "" → url_netloc p ≠ "" → url_origin p ∈ allowed_origins))
  | Raise (HttpErr status _ _) => status = 403
  | Raise e => ∃ r, nonempty_opt (rq_header request "referer") = Some r ∧
                 urlsplit bracketed_netloc_ok nfkc_ok r = Raise e
  end.
Proof.
  unfold request_guards, assert_trusted_request_origin, assert_browser_csrf_header,
    origin_from_referer.
  destruct (nonempty_opt (rq_header request "origin")) as [o|] eqn:Ho.
  - cbn [mbind result_bind]. apply nonempty_opt_Some in Ho as [_ Hne].
    replace (nonempty_opt (Some o)) with (Some o) by (destruct o; done).
    destruct (bool_decide_reflect (o ∈ allowed_origins)); cbn [mbind result_bind]; [|done].
    destruct (bool_decide_reflect (rq_header request CSRF_HEADER_NAME = Some CSRF_HEADER_VALUE));
      [|done]. right. split; [done|]. split; [naive_solver|done].
  - destruct (nonempty_opt (rq_header request "referer")) as [r|] eqn:Hr; [|by left].
    destruct (urlsplit bracketed_netloc_ok nfkc_ok r) as [p|e] eqn:Hp; cbn [mbind result_bind].
    + destruct (is_empty (url_scheme p) || is_empty (url_netloc p)) eqn:Hemp; cbn [mbind result_bind].
      * change (nonempty_opt None) with (@None string). cbn [mbind result_bind].
        destruct (bool_decide_reflect (rq_header request CSRF_HEADER_NAME = Some CSRF_HEADER_VALUE));
          [|done]. right. split; [done|]. split; [done|]. intros r' p' _ [= <-] Hp' Hs Hn.
        rewrite Hp in Hp'. injection Hp' as <-.
        by destruct (url_scheme p), (url_netloc p).
      * replace (nonempty_opt (Some (url_origin p))) with (Some (url_origin p))
          by (unfold url_origin; by destruct (url_scheme p)).
        destruct (bool_decide_reflect (url_origin p ∈ allowed_origins)); cbn [mbind result_bind]; [|done].
        destruct (bool_decide_reflect (rq_header request CSRF_HEADER_NAME = Some CSRF_HEADER_VALUE));
          [|done]. right. split; [done|]. split; [done|]. intros r' p' _ [= <-] Hp' _ _. congruence.
    + assert (He : ∃ c m, e = PyErr c m).
      { unfold urlsplit, check_netloc in Hp. repeat (case_match; simplify_eq); cbn in Hp;
          unfold value_error in Hp; simplify_eq; eauto. }
      destruct He as (c & m & ->). by exists r.
Qed.
