(* ===== verification/StreamPath.v ===== *)
(** Stream paths and stream ids: [backend/model/stream_model.py].

    A stream is named either by a slash-separated media-server path or by the
    dot-separated id the HTTP API uses.  [wf_stream_path] says which values the
    routing contract admits; the theorems show that the two parsers accept
    exactly the renderings of those values and that every other input raises
    [StreamPathError].  The source's [\d] also matches the decimal digits of
    other scripts; [unicode_date_shape] is that match on a text that is not
    ASCII.  Such a text is rejected either way, with another message. *)

From stdpp Require Import base list strings.
From Stdlib Require Import ZArith Lia Ascii.
From S2P Require Import Prelude PyStr PyStrFacts PyTime.

#[local] Open Scope Z_scope.

Inductive StreamPrefix : Type := raw | ai | archive.

#[export] Instance StreamPrefix_eq_dec : EqDecision StreamPrefix.
Proof. solve_decision. Defined.

Definition prefix_name (p : StreamPrefix) : string :=
  match p with raw => "raw" | ai => "ai" | archive => "archive" end.

(** [backend/model/stream_model.py:16-22] StreamPath *)
Record StreamPath : Type := mkStreamPath {
  sp_prefix : StreamPrefix;
  asset_id : string;
  sensor_id : string;
  processor_id : option string;
  archive_date : option string
}.

#[export] Instance StreamPath_eq_dec : EqDecision StreamPath.
Proof. solve_decision. Defined.

(** [f"{x}"] of an optional text. *)
Definition show_opt (x : option string) : string := default "None" x.

(** [backend/model/stream_model.py:24-30] StreamPath.path *)
Definition sp_path (p : StreamPath) : string :=
  match sp_prefix p with
  | ai => "ai/" +:+ asset_id p +:+ "/" +:+ sensor_id p +:+ "/" +:+ show_opt (processor_id p)
  | archive => "archive/" +:+ asset_id p +:+ "/" +:+ sensor_id p +:+ "/" +:+ show_opt (archive_date p)
  | raw => "raw/" +:+ asset_id p +:+ "/" +:+ sensor_id p
  end.

(** [backend/model/stream_model.py:32-34] StreamPath.stream_id *)
Definition stream_id (p : StreamPath) : string := replace_char "/" "." (sp_path p).

(** [backend/model/stream_model.py:36-45] StreamPath.to_api_dict *)
Definition to_api_dict (p : StreamPath) : list (string * option string) :=
  [("prefix", Some (prefix_name (sp_prefix p))); ("assetId", Some (asset_id p));
   ("sensorId", Some (sensor_id p)); ("processorId", processor_id p);
   ("date", archive_date p); ("path", Some (sp_path p)); ("streamId", Some (stream_id p))].

Definition path_error {A} (msg : string) : result A := throw ExcStreamPathError msg.

(** [backend/model/stream_model.py:8-8] SEGMENT_PATTERN *)
Definition SEGMENT_PATTERN (s : string) : bool :=
  match s with
  | "" => false
  | String a s' =>
      is_alnum a && forall_chars (λ c, is_alnum c || Ascii.eqb c "_" || Ascii.eqb c "-") s'
      && Nat.leb (String.length s') 63
  end.

(** Four digits, two digits and two digits, separated by hyphens. *)
Definition date_digits (s : string) : option (string * string * string) :=
  let y := String.substring 0 4 s in
  let m := String.substring 5 2 s in
  let d := String.substring 8 2 s in
  if String.eqb s (y +:+ "-" +:+ m +:+ "-" +:+ d) && Nat.eqb (String.length s) 10
     && forall_chars is_digit (y +:+ m +:+ d)
  then Some (y, m, d) else None.

(** [date.fromisoformat(value)] on that shape. *)
Definition iso_date_ok (s : string) : bool :=
  match date_digits s with
  | Some (y, m, d) => valid_date (digits_to_Z y) (digits_to_Z m) (digits_to_Z d)
  | None => false
  end.

Section parse.
Context (unicode_date_shape : string → bool).

(** [backend/model/stream_model.py:9-9] DATE_PATTERN *)
Definition DATE_PATTERN (s : string) : bool :=
  if forall_chars is_ascii s
  then match date_digits s with Some _ => true | None => false end
  else unicode_date_shape s.

(** [backend/model/stream_model.py:134-141] _validate_archive_date *)
Definition validate_archive_date (value : string) : result string :=
  if negb (DATE_PATTERN value) then path_error "archive stream date must match YYYY-MM-DD"
  else if negb (iso_date_ok value) then
    path_error "archive stream date must be a valid calendar date"
  else Ok value.

(** [backend/model/stream_model.py:125-131] _validate_named_segments *)
Fixpoint validate_named_segments (segments : list string) : result () :=
  match segments with
  | [] => Ok ()
  | segment :: rest =>
      if bool_decide (segment ∈ ["."; ".."]) then
        path_error "stream path must not contain traversal segments"
      else if negb (SEGMENT_PATTERN segment) then
        path_error "stream path segments may contain only letters, numbers, hyphen, and underscore"
      else validate_named_segments rest
  end.

(** [backend/model/stream_model.py:120-122] _require_segment_count *)
Definition require_segment_count (parts : list string) (expected : nat) (shape : string) : result () :=
  raise_if (negb (Nat.eqb (length parts) expected)) ExcStreamPathError
    ("stream path must match " +:+ shape).

Definition part (parts : list string) (i : nat) : string := default "" (parts !! i).

(** [backend/model/stream_model.py:79-82] _parse_raw_stream *)
Definition parse_raw_stream (parts : list string) : result StreamPath :=
  _ ← require_segment_count parts 3 "raw/{assetId}/{sensorId}";
  _ ← validate_named_segments [part parts 1; part parts 2];
  Ok (mkStreamPath raw (part parts 1) (part parts 2) None None).

(** [backend/model/stream_model.py:85-88] _parse_ai_stream *)
Definition parse_ai_stream (parts : list string) : result StreamPath :=
  _ ← require_segment_count parts 4 "ai/{assetId}/{sensorId}/{processorId}";
  _ ← validate_named_segments [part parts 1; part parts 2; part parts 3];
  Ok (mkStreamPath ai (part parts 1) (part parts 2) (Some (part parts 3)) None).

(** [backend/model/stream_model.py:91-96] _parse_archive_stream *)
Definition parse_archive_stream (parts : list string) : result StreamPath :=
  _ ← require_segment_count parts 4 "archive/{assetId}/{sensorId}/{date}";
  _ ← validate_named_segments [part parts 1; part parts 2];
  archive_date ← validate_archive_date (part parts 3);
  Ok (mkStreamPath archive (part parts 1) (part parts 2) None (Some archive_date)).

(** [backend/model/stream_model.py:68-76] _parse_stream_parts *)
Definition parse_stream_parts (parts : list string) : result StreamPath :=
  let prefix := part parts 0 in
  if String.eqb prefix "raw" then parse_raw_stream parts
  else if String.eqb prefix "ai" then parse_ai_stream parts
  else if String.eqb prefix "archive" then parse_archive_stream parts
  else path_error "stream path prefix must be one of raw, ai, archive".

(** [backend/model/stream_model.py:53-65] _validated_path_parts *)
Definition validated_path_parts (path : string) : result (list string) :=
  if is_empty path then path_error "stream path must be a non-empty string"
  else if startswith "/" path || endswith "/" path then
    path_error "stream path must not start or end with slash"
  else if has_char "\" path then
    path_error "stream path must use forward slash separators"
  else
    let parts := split_on "/" path in
    if existsb is_empty parts then path_error "stream path must not contain empty segments"
    else Ok parts.

(** [backend/model/stream_model.py:48-50] validate_stream_path *)
Definition validate_stream_path (path : string) : result StreamPath :=
  parts ← validated_path_parts path;
  parse_stream_parts parts.

(** [backend/model/stream_model.py:99-109] validate_stream_id *)
Definition validate_stream_id (id : string) : result StreamPath :=
  if is_empty id then path_error "stream id must be a non-empty string"
  else if has_char "/" id || has_char "\" id then
    path_error "stream id must use dot separators only"
  else if startswith "." id || endswith "." id then
    path_error "stream id must not start or end with dot"
  else if contains ".." id then path_error "stream id must not contain empty segments"
  else validate_stream_path (replace_char "." "/" id).

(** [backend/model/stream_model.py:112-113] path_to_stream_id *)
Definition path_to_stream_id (path : string) : result string :=
  stream_id <$> validate_stream_path path.

(** [backend/model/stream_model.py:116-117] stream_id_to_path *)
Definition stream_id_to_path (id : string) : result string :=
  sp_path <$> validate_stream_id id.
End parse.

(** The values the routing contract admits. *)
Definition wf_stream_path (p : StreamPath) : bool :=
  SEGMENT_PATTERN (asset_id p) && SEGMENT_PATTERN (sensor_id p) &&
  match sp_prefix p, processor_id p, archive_date p with
  | raw, None, None => true
  | ai, Some proc, None => SEGMENT_PATTERN proc
  | archive, None, Some day => iso_date_ok day
  | _, _, _ => false
  end.

Definition only_path_errors {A} (m : result A) : Prop :=
  match m with Ok _ => True | Raise (PyErr c _) => c = ExcStreamPathError | Raise _ => False end.

Example validate_archive_example :
  validate_stream_path (λ _, false) "archive/uav-1/front/2024-02-29"
  = Ok (mkStreamPath archive "uav-1" "front" None (Some "2024-02-29")).
Proof. reflexivity. Qed.

Example validate_archive_bad_day :
  validate_stream_path (λ _, false) "archive/uav-1/front/2023-02-29"
  = path_error "archive stream date must be a valid calendar date".
Proof. reflexivity. Qed.

(** ** Segments *)

#[local] Arguments String.append !_ _ /.

Definition plain_char (c : ascii) : bool := is_alnum c || Ascii.eqb c "_" || Ascii.eqb c "-".

(** A text that may stand between two separators of a path or of an id. *)
Definition plain_segment (s : string) : bool := negb (is_empty s) && forall_chars plain_char s.

Lemma SEGMENT_PATTERN_plain s : SEGMENT_PATTERN s = true → plain_segment s = true.
Proof.
  destruct s as [|a s]; [done|]. cbn. intros H. split_bools. unfold plain_char in *.
  rewrite H. done.
Qed.

Lemma iso_date_ok_digits s : iso_date_ok s = true → date_digits s ≠ None.
Proof. unfold iso_date_ok. by destruct (date_digits s). Qed.

Lemma date_digits_plain s : date_digits s ≠ None → plain_segment s = true ∧ forall_chars is_ascii s = true.
Proof.
  unfold date_digits. case_if; [|done]. intros _. split_bools.
  set (y := String.substring 0 4 s) in *. set (m := String.substring 5 2 s) in *.
  set (d := String.substring 8 2 s) in *.
  match goal with H : forall_chars _ _ = true |- _ => rewrite !forall_chars_app in H; rename H into Hd end.
  assert (Hs : s ≠ "") by (intros E; rewrite E in *; discriminate).
  assert (HP : ∀ P : ascii → bool, P "-"%char = true → (∀ a, is_digit a = true → P a = true) →
    forall_chars P s = true).
  { intros P Hh HP.
    match goal with H : s = _ |- _ => rewrite H end.
    split_bools. rewrite !forall_chars_app. cbn. rewrite Hh.
    by rewrite !(forall_chars_mono _ P _ HP). }
  split; [unfold plain_segment; apply andb_true_iff; split; [by destruct s|]|].
  - apply HP; [done|]. intros a Ha. unfold plain_char, is_alnum. by rewrite Ha, orb_true_r.
  - apply HP; [done|]. intros a Ha. unfold is_digit, is_ascii in *. split_bools. apply Z.ltb_lt. lia.
Qed.

Lemma plain_has_char c s : plain_segment s = true → plain_char c = false → has_char c s = false.
Proof. unfold plain_segment. intros H Hc. split_bools. by eapply has_char_forall. Qed.

Lemma validate_named_segments_Ok l :
  validate_named_segments l = Ok () ↔ forallb SEGMENT_PATTERN l = true.
Proof.
  induction l as [|s l IH]; [done|]. cbn [validate_named_segments forallb].
  destruct (bool_decide_reflect (s ∈ ["."; ".."])) as [Hd|_].
  - split; [done|]. rewrite !elem_of_cons in Hd. destruct Hd as [->|[->|Hd]]; [done..|].
    by apply elem_of_nil in Hd.
  - destruct (SEGMENT_PATTERN s); cbn; [done|]. by split.
Qed.

Lemma validate_archive_date_Ok u v w :
  validate_archive_date u v = Ok w ↔ w = v ∧ iso_date_ok v = true.
Proof.
  unfold validate_archive_date, path_error, throw.
  destruct (DATE_PATTERN u v) eqn:Hp; cbn.
  - destruct (iso_date_ok v); cbn; naive_solver.
  - split; [done|]. intros [_ Hi]. apply iso_date_ok_digits in Hi as Hd.
    destruct (date_digits_plain v Hd) as [_ Ha]. unfold DATE_PATTERN in Hp. rewrite Ha in Hp.
    by destruct (date_digits v).
Qed.

(** ** Segments of a well-formed path *)

Definition path_segments (p : StreamPath) : list string :=
  prefix_name (sp_prefix p) :: asset_id p :: sensor_id p ::
  match sp_prefix p with
  | raw => []
  | ai => [show_opt (processor_id p)]
  | archive => [show_opt (archive_date p)]
  end.

Lemma sp_path_join p : sp_path p = join "/" (path_segments p).
Proof. by destruct p as [[] ? ? ? ?]; cbn. Qed.

Lemma wf_segments p s : wf_stream_path p = true → s ∈ path_segments p → plain_segment s = true.
Proof.
  unfold wf_stream_path, path_segments. intros H.
  destruct p as [pre a b o d]; cbn [sp_prefix asset_id sensor_id processor_id archive_date] in *.
  destruct pre, o, d; split_bools; try discriminate; cbn [prefix_name show_opt default];
    rewrite !elem_of_cons; intros Hs; destruct_or?; subst; try done;
    try (by apply SEGMENT_PATTERN_plain); try by apply elem_of_nil in Hs.
  by apply date_digits_plain, iso_date_ok_digits.
Qed.

Lemma wf_split p : wf_stream_path p = true → split_on "/" (sp_path p) = path_segments p.
Proof.
  intros H. rewrite sp_path_join. apply split_join_plain; [done|].
  intros s Hs. by eapply plain_has_char; [eapply wf_segments|].
Qed.

Lemma wf_no_char p c : wf_stream_path p = true → plain_char c = false → c ≠ "/"%char →
  has_char c (sp_path p) = false.
Proof.
  intros H Hc Hne. rewrite sp_path_join. apply has_char_join; [done|].
  intros s Hs. by eapply plain_has_char; [eapply wf_segments|].
Qed.

(** A separator at an end of the text, or doubled, leaves an empty part. *)
Lemma separator_edges c s :
  "" ∉ split_on c s →
  startswith (String c "") s = false ∧ endswith (String c "") s = false
  ∧ contains (String c (String c "")) s = false.
Proof.
  intros Hn. split_and!; apply not_true_is_false; intros H; apply Hn.
  - apply startswith_spec in H as (t & ->). cbn.
    pose proof (split_on_nonempty c t). rewrite Ascii.eqb_refl. destruct (split_on c t); [done|left].
  - apply endswith_spec in H as (t & ->). rewrite split_on_app. apply elem_of_app. right. left.
  - apply contains_spec in H as (u & v & ->). cbn. rewrite split_on_app.
    apply elem_of_app. right. cbn. pose proof (split_on_nonempty c v). rewrite Ascii.eqb_refl.
    destruct (split_on c v); [done|left].
Qed.

Lemma wf_no_empty p : wf_stream_path p = true → "" ∉ path_segments p.
Proof. intros H Hin. by apply (wf_segments p _ H) in Hin. Qed.

Lemma existsb_empty_false l : existsb is_empty l = false ↔ "" ∉ l.
Proof.
  induction l as [|x l IH]; cbn.
  - split; [by intros _ ?%elem_of_nil|done].
  - rewrite orb_false_iff, IH, not_elem_of_cons. destruct x; naive_solver.
Qed.

(** ** The parsers *)

Section facts.
Context (u : string → bool).

Lemma require_segment_count_Ok parts n shape :
  require_segment_count parts n shape = Ok () ↔ length parts = n.
Proof.
  unfold require_segment_count. rewrite raise_if_Ok, negb_false_iff. apply Nat.eqb_eq.
Qed.

Lemma parse_stream_parts_Ok parts p :
  parse_stream_parts u parts = Ok p ↔ wf_stream_path p = true ∧ parts = path_segments p.
Proof.
  unfold parse_stream_parts. split.
  - intros H. destruct (String.eqb_spec (part parts 0) "raw") as [E0|_];
      [|destruct (String.eqb_spec (part parts 0) "ai") as [E0|_];
        [|destruct (String.eqb_spec (part parts 0) "archive") as [E0|_]; [|done]]];
      unfold parse_raw_stream, parse_ai_stream, parse_archive_stream in H; inv_ok;
      repeat match goal with x : () |- _ => destruct x end;
      repeat match goal with
      | H : require_segment_count _ _ _ = Ok _ |- _ => apply require_segment_count_Ok in H
      | H : validate_named_segments _ = Ok _ |- _ => apply validate_named_segments_Ok in H
      | H : validate_archive_date _ _ = Ok _ |- _ => apply validate_archive_date_Ok in H as [-> ?]
      end; subst p;
      destruct parts as [|x0 [|x1 [|x2 [|x3 [|x4 parts]]]]]; try discriminate;
      cbn in * |-; subst; split_bools; unfold part, wf_stream_path; cbn;
      repeat match goal with H : _ = true |- _ => rewrite H; clear H end; done.
  - intros [H ->]. unfold wf_stream_path in H.
    destruct p as [pre a b o d]; cbn [sp_prefix asset_id sensor_id processor_id archive_date] in *.
    destruct pre, o, d; split_bools; try discriminate;
      unfold parse_raw_stream, parse_ai_stream, parse_archive_stream; cbn -[validate_named_segments];
      rewrite (proj2 (validate_named_segments_Ok _))
        by (cbn; repeat match goal with H : _ = true |- _ => rewrite H; clear H end; done);
      try done.
    cbn. by rewrite (proj2 (validate_archive_date_Ok u s s)).
Qed.

Lemma validated_path_parts_Ok path parts :
  validated_path_parts path = Ok parts ↔
    parts = split_on "/" path ∧ "" ∉ split_on "/" path ∧ has_char "\" path = false.
Proof.
  unfold validated_path_parts, path_error, throw. split.
  - intros H. repeat (case_if_in H; [done|]). injection H as <-.
    by rewrite <-existsb_empty_false.
  - intros (-> & Hn & Hb). destruct (separator_edges _ _ Hn) as (-> & -> & _). rewrite Hb.
    apply existsb_empty_false in Hn. rewrite Hn. by destruct path.
Qed.

Lemma validate_stream_path_Ok path p :
  validate_stream_path u path = Ok p ↔ wf_stream_path p = true ∧ path = sp_path p.
Proof.
  unfold validate_stream_path. rewrite bind_Ok. setoid_rewrite validated_path_parts_Ok. split.
  - intros (parts & (-> & _) & (Hwf & Hs)%parse_stream_parts_Ok). split; [done|].
    rewrite <-(split_on_join "/" path), Hs. symmetry. apply sp_path_join.
  - intros [Hwf ->]. exists (path_segments p). rewrite (wf_split _ Hwf). split_and!; [done| | |].
    + by apply wf_no_empty.
    + by apply wf_no_char.
    + by apply parse_stream_parts_Ok.
Qed.

Lemma stream_id_back p : wf_stream_path p = true → replace_char "." "/" (stream_id p) = sp_path p.
Proof. intros H. apply replace_char_back. by apply wf_no_char. Qed.

Lemma stream_id_parts p : wf_stream_path p = true → split_on "." (stream_id p) = path_segments p.
Proof.
  intros H. unfold stream_id. rewrite sp_path_join.
  assert (Hs : ∀ s, s ∈ path_segments p → has_char "/" s = false ∧ has_char "." s = false).
  { intros s Hs. apply (wf_segments p s H) in Hs. by split; eapply plain_has_char. }
  enough (∀ l, (∀ s, s ∈ l → has_char "/" s = false ∧ has_char "." s = false) →
    replace_char "/" "." (join "/" l) = join "." l) as Hj.
  { rewrite (Hj _ Hs). apply split_join_plain; [done|]. intros. by apply Hs. }
  induction l as [|x l IH]; [done|]. intros Hl. destruct l as [|y l].
  - cbn. apply replace_char_free, Hl. left.
  - change (join "/" (x :: y :: l)) with (x +:+ "/" +:+ join "/" (y :: l)).
    change (join "." (x :: y :: l)) with (x +:+ "." +:+ join "." (y :: l)).
    rewrite !replace_char_app, IH by (intros; apply Hl; by right). f_equal.
    apply replace_char_free, Hl. left.
Qed.

Lemma validate_stream_id_Ok id p :
  validate_stream_id u id = Ok p ↔ wf_stream_path p = true ∧ id = stream_id p.
Proof.
  unfold validate_stream_id, path_error, throw. split.
  - intros H. repeat (case_if_in H; [done|]).
    unfold validate_stream_path in H. inv_ok.
    apply validated_path_parts_Ok in Ha as (-> & _).
    apply parse_stream_parts_Ok in H as [Hwf Hs]. split; [done|]. split_bools.
    unfold stream_id. rewrite sp_path_join, <-Hs, split_on_join.
    symmetry. by apply replace_char_back.
  - intros [Hwf ->].
    assert (Hn : "" ∉ split_on "." (stream_id p)) by (rewrite stream_id_parts; auto using wf_no_empty).
    destruct (separator_edges _ _ Hn) as (-> & -> & ->).
    change (has_char "/" (stream_id p)) with (has_char "/" (replace_char "/" "." (sp_path p))).
    change (has_char "\" (stream_id p)) with (has_char "\" (replace_char "/" "." (sp_path p))).
    rewrite (has_char_replace "/" ".") by done.
    rewrite (has_char_replace_other "\" "/" "." (sp_path p)) by (done || by apply wf_no_char).
    assert (is_empty (stream_id p) = false) as ->.
    { destruct (stream_id p) eqn:E; [|done]. destruct Hn. left. }
    cbn [orb]. rewrite stream_id_back by done.
    unfold validate_stream_path. rewrite (proj2 (validated_path_parts_Ok (sp_path p) (path_segments p))).
    + by apply parse_stream_parts_Ok.
    + rewrite wf_split by done. split_and!; [done|by apply wf_no_empty|by apply wf_no_char].
Qed.

(** Every other outcome is a [StreamPathError]. *)
Lemma only_path_errors_bind {A B} (m : result A) (f : A → result B) :
  only_path_errors m → (∀ a, only_path_errors (f a)) → only_path_errors (m ≫= f).
Proof. destruct m as [a|[]]; cbn; auto. Qed.

Lemma only_path_errors_guard n parts shape : only_path_errors (require_segment_count parts n shape).
Proof. unfold require_segment_count, raise_if, throw. by case_if. Qed.

Lemma only_path_errors_segments l : only_path_errors (validate_named_segments l).
Proof. induction l as [|s l IH]; cbn; [done|]. repeat case_if; done. Qed.

Lemma parse_stream_parts_errors parts : only_path_errors (parse_stream_parts u parts).
Proof.
  unfold parse_stream_parts, parse_raw_stream, parse_ai_stream, parse_archive_stream.
  repeat case_if; try done;
    repeat (apply only_path_errors_bind; [|intros ?]);
    auto using only_path_errors_guard, only_path_errors_segments; try done.
  unfold validate_archive_date. by repeat case_if.
Qed.

Lemma validate_stream_path_errors path : only_path_errors (validate_stream_path u path).
Proof.
  apply only_path_errors_bind; [|apply parse_stream_parts_errors].
  unfold validated_path_parts. cbv zeta. by repeat case_if.
Qed.

Lemma validate_stream_id_errors id : only_path_errors (validate_stream_id u id).
Proof.
  unfold validate_stream_id. repeat (case_if; [done|]). apply validate_stream_path_errors.
Qed.

(** C28: the path parser accepts exactly the renderings of the well-formed
    stream paths, and gives back the value that was rendered: no two values
    share a path, and no accepted segment is empty, is a traversal or holds a
    separator.  On every other text it raises [StreamPathError]. *)
Theorem stream_path_language path :
  (∀ p, validate_stream_path u path = Ok p ↔ wf_stream_path p = true ∧ path = sp_path p)
  ∧ only_path_errors (validate_stream_path u path).
Proof. split; [intros p; apply validate_stream_path_Ok|apply validate_stream_path_errors]. Qed.

Lemma stream_path_id_iff id path :
  stream_id_to_path u id = Ok path ↔ path_to_stream_id u path = Ok id.
Proof.
  unfold stream_id_to_path, path_to_stream_id. split; intros H.
  - destruct (validate_stream_id u id) as [p|] eqn:E; [|done]. injection H as <-.
    apply validate_stream_id_Ok in E as [Hwf ->].
    by rewrite (proj2 (validate_stream_path_Ok (sp_path p) p)).
  - destruct (validate_stream_path u path) as [p|] eqn:E; [|done]. injection H as <-.
    apply validate_stream_path_Ok in E as [Hwf ->].
    by rewrite (proj2 (validate_stream_id_Ok (stream_id p) p)).
Qed.

(** The id parser accepts exactly the ids of the well-formed stream paths
    and raises [StreamPathError] on every other text; ids and paths translate
    into each other without loss. *)
Theorem stream_id_language id :
  (∀ p, validate_stream_id u id = Ok p ↔ wf_stream_path p = true ∧ id = stream_id p)
  ∧ only_path_errors (validate_stream_id u id)
  ∧ (∀ path, stream_id_to_path u id = Ok path ↔ path_to_stream_id u path = Ok id).
Proof.
  split_and!; [intros p; apply validate_stream_id_Ok|apply validate_stream_id_errors|].
  intros path. apply stream_path_id_iff.
Qed.
End facts.
