(* ===== verification/Streaming.v ===== *)
(** The streaming module: [backend/modules/streaming/] and
    [backend/api/stream.py].

    A registry of stream descriptors (a dict from stream id), the builder of
    public playback URLs, the client of the media server's control API with its
    snapshot cache, and the HTTP lookups over them.  The client's [list_paths]
    is given twice: as the function one caller runs, and as the steps of many
    threads that share the snapshot and the refresh lock.  The control API's
    answer is an argument. *)

From stdpp Require Import base list strings relations gmap.
From Stdlib Require Import ZArith Lia Ascii Floats.
From S2P Require Import Prelude PyStr PyStrFacts PyFloat PyJson Url Settings Security StreamPath.

#[local] Open Scope Z_scope.

(** ** Domain *)

(** [backend/modules/streaming/domain.py:7-7] STREAM_STATUSES *)
Definition STREAM_STATUSES : list string := ["registered"; "online"; "offline"; "unknown"].

(** [backend/modules/streaming/domain.py:10-13] PlaybackUrls *)
Record PlaybackUrls : Type := mkPlaybackUrls { webrtc : option string; hls : option string }.

#[export] Instance PlaybackUrls_eq_dec : EqDecision PlaybackUrls.
Proof. solve_decision. Defined.

(** [backend/modules/streaming/domain.py:15-17] has_playback_url *)
Definition has_playback_url (self : PlaybackUrls) : bool :=
  bool_decide (webrtc self ≠ None) || bool_decide (hls self ≠ None).

(** [backend/modules/streaming/domain.py:20-25] StreamDescriptor *)
Record StreamDescriptor : Type := mkDescriptor {
  stream_path : StreamPath;
  status : string;
  display_name : option string;
  playback_urls : PlaybackUrls
}.

#[export] Instance StreamDescriptor_eq_dec : EqDecision StreamDescriptor.
Proof. solve_decision. Defined.

(** [backend/modules/streaming/domain.py:55-58] validate_stream_status *)
Definition validate_stream_status (status : string) : result string :=
  if bool_decide (status ∈ STREAM_STATUSES) then Ok status
  else value_error "stream status must be one of registered, online, offline, unknown".

(** [backend/modules/streaming/domain.py:27-28] __post_init__ *)
Definition new_descriptor (path : StreamPath) (st : string) (name : option string)
    (urls : PlaybackUrls) : result StreamDescriptor :=
  st ← validate_stream_status st;
  Ok (mkDescriptor path st name urls).

(** [backend/modules/streaming/domain.py:50-52] StreamDescriptor.stream_id *)
Definition descriptor_id (self : StreamDescriptor) : string := stream_id (stream_path self).

(** [backend/modules/streaming/domain.py:46-48] StreamDescriptor.path *)
Definition descriptor_path (self : StreamDescriptor) : string := sp_path (stream_path self).

(** [backend/modules/streaming/domain.py:61-65] StreamingModuleStatus *)
Record StreamingModuleStatus : Type := mkModuleStatus {
  registry_ready : bool;
  playback_url_builder_ready : bool;
  registered_streams : Z
}.

(** ** [schemas.py]: the response bodies *)

(** [backend/modules/streaming/schemas.py:21-33] StreamDescriptorResponse *)
Record StreamDescriptorResponse : Type := mkDescriptorResponse {
  sr_stream_id : string;
  sr_path : string;
  sr_prefix : string;
  sr_asset_id : string;
  sr_sensor_id : string;
  sr_processor_id : option string;
  sr_date : option string;
  sr_status : string;
  sr_display_name : option string;
  sr_playback_urls : PlaybackUrls
}.

(** [backend/modules/streaming/schemas.py:6-12] PlaybackUrlsResponse.from_domain *)
Definition playback_urls_response (urls : PlaybackUrls) : PlaybackUrls :=
  mkPlaybackUrls (webrtc urls) (hls urls).

(** [backend/modules/streaming/schemas.py:35-49] StreamDescriptorResponse.from_domain *)
Definition descriptor_response (d : StreamDescriptor) : StreamDescriptorResponse :=
  let p := stream_path d in
  mkDescriptorResponse (descriptor_id d) (descriptor_path d) (prefix_name (sp_prefix p))
    (asset_id p) (sensor_id p) (processor_id p) (archive_date p) (status d) (display_name d)
    (playback_urls_response (playback_urls d)).

(** [backend/modules/streaming/schemas.py:52-57] StreamPlaybackResponse *)
Record StreamPlaybackResponse : Type := mkPlaybackResponse {
  pr_stream_id : string; pr_status : string; pr_playback_urls : PlaybackUrls }.

(** [backend/modules/streaming/schemas.py:59-65] StreamPlaybackResponse.from_domain *)
Definition playback_response (d : StreamDescriptor) : StreamPlaybackResponse :=
  mkPlaybackResponse (descriptor_id d) (status d) (playback_urls_response (playback_urls d)).

(** [backend/modules/streaming/schemas.py:68-72] StreamStatusResponse *)
Record StreamStatusResponse : Type := mkStatusResponse { st_stream_id : string; st_status : string }.

(** [backend/modules/streaming/schemas.py:74-76] StreamStatusResponse.from_domain *)
Definition status_response (d : StreamDescriptor) : StreamStatusResponse :=
  mkStatusResponse (descriptor_id d) (status d).

(** [backend/modules/streaming/schemas.py:79-92] StreamingModuleStatusResponse.from_domain *)
Definition module_status_response (s : StreamingModuleStatus) : StreamingModuleStatus :=
  mkModuleStatus (registry_ready s) (playback_url_builder_ready s) (registered_streams s).

(** ** The repository *)

(** [backend/modules/streaming/repository.py:14-16] InMemoryStreamRepository *)
Definition StreamRepository : Type := list (string * StreamDescriptor).

(** [backend/modules/streaming/repository.py:26-28] upsert *)
Definition repo_upsert (self : StreamRepository) (d : StreamDescriptor) : StreamRepository :=
  dict_set self (descriptor_id d) d.

(** [backend/modules/streaming/repository.py:17-18] __init__ *)
Definition new_repository (streams : list StreamDescriptor) : StreamRepository :=
  foldl repo_upsert [] streams.

(** [backend/modules/streaming/repository.py:20-21] list *)
Definition repo_list (self : StreamRepository) : list StreamDescriptor := dict_values self.

(** [backend/modules/streaming/repository.py:23-24] get *)
Definition repo_get (self : StreamRepository) (id : string) : option StreamDescriptor :=
  dict_get self id.

(** ** The media server's control API *)

(** [backend/modules/streaming/mediamtx_client.py:32-37] MediaMTXPath *)
Record MediaMTXPath : Type := mkMediaPath {
  mp_name : string;
  mp_ready : bool;
  mp_source_type : option string;
  mp_reader_count : Z
}.

(** [backend/modules/streaming/mediamtx_client.py:152-156] _source_type *)
Definition source_type (source : jval) : option string :=
  match source with
  | JObj d => match obj_get d "type" with JStr s => Some s | _ => None end
  | _ => None
  end.

(** [backend/modules/streaming/mediamtx_client.py:159-160] _reader_count *)
Definition reader_count (readers : jval) : Z :=
  match readers with JList l => Z.of_nat (length l) | _ => 0 end.

(** [backend/modules/streaming/mediamtx_client.py:39-49] MediaMTXPath.from_api_item *)
Definition from_api_item (item : list (string * jval)) : option MediaMTXPath :=
  match obj_get item "name" with
  | JStr name =>
      if is_empty name then None else
      Some (mkMediaPath name (j_truthy (obj_get item "ready")) (source_type (obj_get item "source"))
              (reader_count (obj_get item "readers")))
  | _ => None
  end.

(** What the HTTP library gives for one request: a failure (transport, timeout
    or status), a body that is not JSON, a JSON value, or an exception that
    [_get_json] does not catch. *)
Inductive http_outcome : Type :=
  | HttpFailed (why : string)
  | HttpNotJson
  | HttpJson (payload : jval)
  | HttpRaised (e : exn).

(** A closed HTTP client refuses every request. *)
Definition closed_error : exn := PyErr ExcRuntimeError "Cannot send a request, as the client has been closed.".
Definition request (closed : bool) (response : http_outcome) : http_outcome :=
  if closed then HttpRaised closed_error else response.

Definition media_error {A} (msg : string) : result A := throw ExcMediaMTXClientError msg.

(** [backend/modules/streaming/mediamtx_client.py:127-145] _get_json *)
Definition get_json (response : http_outcome) : result (list (string * jval)) :=
  match response with
  | HttpFailed why => media_error ("MediaMTX API request failed: " +:+ why)
  | HttpNotJson => media_error "MediaMTX API returned invalid JSON"
  | HttpJson (JObj d) => Ok d
  | HttpJson _ => media_error "MediaMTX API returned a non-object payload"
  | HttpRaised e => Raise e
  end.

(** The [for item in items] loop of [_load_paths]. *)
Definition parse_items (items : list jval) : list MediaMTXPath :=
  omap (λ item, match item with JObj d => from_api_item d | _ => None end) items.

(** [backend/modules/streaming/mediamtx_client.py:99-114] _load_paths *)
Definition load_paths (response : http_outcome) : result (list MediaMTXPath) :=
  payload ← get_json response;
  match default (JList []) (dict_get payload "items") with
  | JList items => Ok (parse_items items)
  | _ => media_error "MediaMTX paths response is missing an items list"
  end.

Definition snapshot : Type := option (float * list MediaMTXPath).

(** [backend/modules/streaming/mediamtx_client.py:53-71] MediaMTXClient.__init__ *)
Record client_config : Type := mkClientConfig { snapshot_ttl_seconds : float; stale_ttl_seconds : float }.

(** [backend/modules/streaming/mediamtx_client.py:116-119] _cached_paths

    [now] is the reading of the monotonic clock. *)
Definition cached_paths (s : snapshot) (now ttl : float) : option (list MediaMTXPath) :=
  match s with
  | None => None
  | Some (t, paths) => if (ttl <? now - t)%float then None else Some paths
  end.

(** [backend/modules/streaming/mediamtx_client.py:121-122] invalidate *)
Definition invalidate (s : snapshot) : snapshot := None.

Section client.
Context (cfg : client_config).

(** [backend/modules/streaming/mediamtx_client.py:81-97] list_paths

    One caller alone: whether the client was closed, the four clock readings of
    the body in order, the response if a request is made, the new snapshot with
    the outcome. *)
Definition list_paths (closed : bool) (s : snapshot) (now1 now2 now_stale now_store : float) (response : http_outcome)
    : result (list MediaMTXPath) * snapshot :=
  match cached_paths s now1 (snapshot_ttl_seconds cfg) with
  | Some cached => (Ok cached, s)
  | None =>
  match cached_paths s now2 (snapshot_ttl_seconds cfg) with
  | Some cached => (Ok cached, s)
  | None =>
  match load_paths (request closed response) with
  | Ok paths => (Ok paths, Some (now_store, paths))
  | Raise (PyErr ExcMediaMTXClientError msg) =>
      match cached_paths s now_stale (stale_ttl_seconds cfg) with
      | Some stale => (Ok stale, s)
      | None => (media_error msg, s)
      end
  | Raise e => (Raise e, s)
  end end end.

(** *** The same body, in the steps between which other threads may run

    [_cached_paths] reads [self._snapshot] three times: to test it for [None],
    for its time, and for its paths.  A call is at one of its three checks. *)

Inductive check : Type :=
  | FirstCheck
  | SecondCheck
  | StaleCheck (failure : string).

Inductive pc : Type :=
  | TestNone (k : check)
  | TestAge (k : check)
  | ReadPaths (k : check)
  | WaitLock
  | Requesting
  | StoreSnapshot (paths : list MediaMTXPath)
  | Release (r : result (list MediaMTXPath))
  | Returned (r : result (list MediaMTXPath)).

(** [backend/modules/streaming/mediamtx_client.py:52-71] MediaMTXClient

    The client's state; [cl_closed] is that of its HTTP client.  [cl_loaded]
    records the lists the control API has ever delivered, [cl_raised] the
    exceptions other than [MediaMTXClientError] that a request has ended with,
    and [cl_invalidated] whether the snapshot was ever dropped. *)
Record client : Type := mkClient {
  cl_snapshot : snapshot;
  cl_lock : option nat;
  cl_closed : bool;
  cl_threads : gmap nat pc;
  cl_loaded : list (list MediaMTXPath);
  cl_raised : list exn;
  cl_invalidated : bool
}.

Definition set_snapshot (c : client) (s : snapshot) : client :=
  mkClient s (cl_lock c) (cl_closed c) (cl_threads c) (cl_loaded c) (cl_raised c) (cl_invalidated c).
Definition set_lock (c : client) (l : option nat) : client :=
  mkClient (cl_snapshot c) l (cl_closed c) (cl_threads c) (cl_loaded c) (cl_raised c) (cl_invalidated c).
Definition add_loaded (c : client) (paths : list MediaMTXPath) : client :=
  mkClient (cl_snapshot c) (cl_lock c) (cl_closed c) (cl_threads c) (paths :: cl_loaded c) (cl_raised c) (cl_invalidated c).
Definition add_raised (c : client) (e : exn) : client :=
  mkClient (cl_snapshot c) (cl_lock c) (cl_closed c) (cl_threads c) (cl_loaded c) (e :: cl_raised c) (cl_invalidated c).
Definition drop_snapshot (c : client) : client :=
  mkClient (invalidate (cl_snapshot c)) (cl_lock c) (cl_closed c) (cl_threads c) (cl_loaded c) (cl_raised c) true.

(** [backend/modules/streaming/mediamtx_client.py:124-125] close *)
Definition close (c : client) : client :=
  mkClient (cl_snapshot c) (cl_lock c) true (cl_threads c) (cl_loaded c) (cl_raised c) (cl_invalidated c).

(** The first check is outside the lock, the others are inside. *)
Definition check_in_lock (k : check) : bool :=
  match k with FirstCheck => false | SecondCheck | StaleCheck _ => true end.

Definition in_lock (p : pc) : bool :=
  match p with
  | TestNone k | TestAge k | ReadPaths k => check_in_lock k
  | Requesting | StoreSnapshot _ | Release _ => true
  | WaitLock | Returned _ => false
  end.

Definition check_ttl (k : check) : float :=
  match k with StaleCheck _ => stale_ttl_seconds cfg | _ => snapshot_ttl_seconds cfg end.

(** Where the call goes when its check gives [None]. *)
Definition check_miss (k : check) : pc :=
  match k with
  | FirstCheck => WaitLock
  | SecondCheck => Requesting
  | StaleCheck msg => Release (media_error msg)
  end.

(** Where it goes with an outcome: a [return] or an exception. *)
Definition check_done (k : check) (r : result (list MediaMTXPath)) : pc :=
  if check_in_lock k then Release r else Returned r.

(** [None[0]] *)
Definition none_subscript : result (list MediaMTXPath) :=
  throw ExcTypeError "'NoneType' object is not subscriptable".

(** [backend/modules/streaming/mediamtx_client.py:81-97] list_paths

    One step of thread [tid] at [p], with the clock at [now] and [response] what
    its request would get; [None] when the thread is blocked or done. *)
Definition thread_step (c : client) (tid : nat) (p : pc) (now : float) (response : http_outcome)
    : option (client * pc) :=
  match p with
  | TestNone k =>
      Some (c, match cl_snapshot c with None => check_miss k | Some _ => TestAge k end)
  | TestAge k =>
      Some (c, match cl_snapshot c with
               | None => check_done k none_subscript
               | Some (t, _) => if (check_ttl k <? now - t)%float then check_miss k else ReadPaths k
               end)
  | ReadPaths k =>
      Some (c, match cl_snapshot c with
               | None => check_done k none_subscript
               | Some (_, paths) => check_done k (Ok paths)
               end)
  | WaitLock =>
      match cl_lock c with
      | Some _ => None
      | None => Some (set_lock c (Some tid), TestNone SecondCheck)
      end
  | Requesting =>
      Some match load_paths (request (cl_closed c) response) with
           | Ok paths => (add_loaded c paths, StoreSnapshot paths)
           | Raise (PyErr ExcMediaMTXClientError msg) => (c, TestNone (StaleCheck msg))
           | Raise e => (add_raised c e, Release (Raise e))
           end
  | StoreSnapshot paths => Some (set_snapshot c (Some (now, paths)), Release (Ok paths))
  | Release r => Some (set_lock c None, Returned r)
  | Returned _ => None
  end.

Definition set_thread (c : client) (tid : nat) (p : pc) : client :=
  mkClient (cl_snapshot c) (cl_lock c) (cl_closed c) (<[tid := p]> (cl_threads c)) (cl_loaded c) (cl_raised c) (cl_invalidated c).

(** Any thread may call or step, and at any time the snapshot may be dropped and
    the client closed. *)
Inductive client_step : relation client :=
  | ClientCall c tid :
      cl_threads c !! tid = None → client_step c (set_thread c tid (TestNone FirstCheck))
  | ClientRun c c' tid p p' now response :
      cl_threads c !! tid = Some p → thread_step c tid p now response = Some (c', p') →
      client_step c (set_thread c' tid p')
  | ClientInvalidate c : client_step c (drop_snapshot c)
  | ClientClose c : client_step c (close c).

Definition client_init : client := mkClient None None false ∅ [] [] false.
End client.

(** ** The client: exclusion and provenance *)

Lemma load_paths_errors response e :
  load_paths response = Raise e → (∃ msg, e = PyErr ExcMediaMTXClientError msg) ∨ response = HttpRaised e.
Proof.
  unfold load_paths, media_error, throw.
  destruct response as [why| |[| | | | | |d]|e']; cbn; try (intros [= <-]; eauto).
  destruct (default _ _); cbn; intros [= <-]; eauto.
Qed.

(** The exceptions a call may end with. *)
Definition media_outcome (c : client) (r : result (list MediaMTXPath)) : Prop :=
  match r with
  | Ok paths => paths ∈ cl_loaded c
  | Raise e => (∃ msg, e = PyErr ExcMediaMTXClientError msg) ∨ e ∈ cl_raised c ∨ (cl_invalidated c = true ∧ r = none_subscript)
  end.

Definition pc_ok (c : client) (p : pc) : Prop :=
  match p with
  | TestAge _ | ReadPaths _ => cl_snapshot c = None → cl_invalidated c = true
  | StoreSnapshot paths => paths ∈ cl_loaded c
  | Release r | Returned r => media_outcome c r
  | _ => True
  end.

Record client_inv (c : client) : Prop := {
  inv_owner : ∀ tid p, cl_threads c !! tid = Some p → in_lock p = true → cl_lock c = Some tid;
  inv_snapshot : ∀ t paths, cl_snapshot c = Some (t, paths) → paths ∈ cl_loaded c;
  inv_pc : ∀ tid p, cl_threads c !! tid = Some p → pc_ok c p
}.

Section client_facts.
Context (cfg : client_config).

(** The state a thread leaves has at least the lists, the exceptions and the
    invalidation the one it found had, and a snapshot unless that was dropped. *)
Definition grows (c c' : client) : Prop :=
  cl_loaded c ⊆ cl_loaded c' ∧ cl_raised c ⊆ cl_raised c' ∧ (cl_invalidated c = true → cl_invalidated c' = true)
  ∧ (cl_snapshot c' = None → cl_snapshot c = None ∨ cl_invalidated c' = true).

Lemma media_outcome_grows c c' r : grows c c' → media_outcome c r → media_outcome c' r.
Proof.
  intros (Hl & He & Hi & _). destruct r as [paths|e]; cbn; [apply Hl|].
  intros [H|[H|[H ->]]]; [by left|right; left; by apply He|right; right; auto].
Qed.

Lemma pc_ok_grows c c' p : grows c c' → pc_ok c p → pc_ok c' p.
Proof.
  intros Hg. destruct p; cbn; try done; try by apply media_outcome_grows.
  all: destruct Hg as (Hl & He & Hi & Hs).
  all: try (intros H E; destruct (Hs E); auto).
  apply Hl.
Qed.

Lemma thread_step_grows c tid p now response c' p' :
  thread_step cfg c tid p now response = Some (c', p') → grows c c' ∧ cl_threads c' = cl_threads c.
Proof.
  unfold grows, thread_step. intros H.
  destruct p; try destruct (cl_lock c); try (destruct (load_paths (request _ response)) as [|[[] |]]);
    simplify_eq; cbn; (split; [split_and!|done]); auto; set_solver.
Qed.

Lemma check_miss_ok c k : pc_ok c (check_miss k).
Proof. destruct k as [| |msg]; [done|done|]. left. by exists msg. Qed.

Lemma check_done_ok c k r : media_outcome c r → pc_ok c (check_done k r).
Proof. unfold check_done. by destruct (check_in_lock k). Qed.

Lemma thread_step_pc_ok c tid p now response c' p' :
  client_inv c → pc_ok c p → thread_step cfg c tid p now response = Some (c', p') →
  pc_ok c' p' ∧ (∀ t paths, cl_snapshot c' = Some (t, paths) → paths ∈ cl_loaded c').
Proof.
  intros [_ Hsn _] Hp H. unfold thread_step in H. destruct p as [k|k|k| | |paths|r|r].
  - destruct (cl_snapshot c) as [[t ps]|] eqn:E; simplify_eq; rewrite ?E; cbn.
    + split; [by rewrite E|]. naive_solver.
    + split; [apply check_miss_ok|done].
  - destruct (cl_snapshot c) as [[t ps]|] eqn:E; simplify_eq; rewrite ?E; cbn.
    + split; [|naive_solver]. case_if; [apply check_miss_ok|]. cbn. by rewrite E.
    + split; [|done]. apply check_done_ok. cbn. auto.
  - destruct (cl_snapshot c) as [[t ps]|] eqn:E; simplify_eq; rewrite ?E; cbn.
    + split; [|naive_solver]. apply check_done_ok. cbn. eauto.
    + split; [|done]. apply check_done_ok. cbn. auto.
  - destruct (cl_lock c); [done|]. simplify_eq. cbn. auto.
  - destruct (load_paths (request _ response)) as [ps|e] eqn:E.
    + simplify_eq. cbn. split; [left|]. intros. right. eauto.
    + assert (pc_ok (add_raised c e) (Release (Raise e))) as Hr by (right; left; left).
      destruct e as [[] msg|]; simplify_eq; (split; [exact Hr || exact I|exact Hsn]).
  - simplify_eq. cbn in *. split; [done|]. naive_solver.
  - simplify_eq. cbn in *. split; [exact Hp|done].
  - done.
Qed.

Lemma thread_step_lock c tid p now response c' p' :
  (in_lock p = true → cl_lock c = Some tid) → thread_step cfg c tid p now response = Some (c', p') →
  (in_lock p' = true → cl_lock c' = Some tid)
  ∧ (∀ other, other ≠ tid → cl_lock c = Some other → cl_lock c' = Some other).
Proof.
  intros Hl H. unfold thread_step in H. destruct p as [k|k|k| | |paths|r|r]; cbn in Hl.
  - simplify_eq. split; [|done]. destruct (cl_snapshot c'), k; cbn in *; auto.
  - simplify_eq. split; [|done]. unfold check_done.
    destruct (cl_snapshot c') as [[]|], k; cbn in *; try case_if; cbn; auto.
  - simplify_eq. split; [|done]. unfold check_done. destruct (cl_snapshot c') as [[]|], k; cbn in *; auto.
  - destruct (cl_lock c) eqn:E; [done|]. simplify_eq. cbn. by split.
  - destruct (load_paths (request _ response)) as [ps|[[] msg|]] eqn:E; simplify_eq; cbn; auto.
  - simplify_eq. cbn. auto.
  - simplify_eq. cbn. split; [done|]. intros other Ho E. rewrite Hl in E by done. congruence.
  - done.
Qed.

Lemma client_step_inv c c' : client_step cfg c c' → client_inv c → client_inv c'.
Proof.
  intros [c0 tid Hn|c0 c1 tid p p' now response Hp Hs|c0|c0] Hinv; pose proof Hinv as [Ho Hsn Hpc].
  - split; cbn; [|exact Hsn|]; intros t q Hq; apply lookup_insert_Some in Hq as [[<- <-]|[_ Hq]]; eauto; done.
  - destruct (thread_step_grows _ _ _ _ _ _ _ Hs) as [Hg Ht].
    destruct (thread_step_pc_ok _ _ _ _ _ _ _ Hinv (Hpc _ _ Hp) Hs) as [Hp' Hsn'].
    destruct (thread_step_lock _ _ _ _ _ _ _ (Ho _ _ Hp) Hs) as [Hl Hother].
    split; cbn; [|exact Hsn'|]; rewrite Ht; intros t q [[<- <-]|[Hne Hq]]%lookup_insert_Some.
    + done.
    + intros Hlk. apply Hother; [done|]. by eapply Ho.
    + done.
    + eapply (pc_ok_grows c0); [done|]. by eapply Hpc.
  - split; cbn; [exact Ho|done|]. intros t q Hq. eapply (pc_ok_grows c0); [|by eapply Hpc].
    split_and!; cbn; auto.
  - split; cbn; [exact Ho|exact Hsn|]. intros t q Hq. eapply (pc_ok_grows c0); [|by eapply Hpc].
    split_and!; cbn; auto.
Qed.

(** A closed client stays closed and delivers nothing more. *)
Lemma client_step_closed c c' : client_step cfg c c' → cl_closed c = true → cl_closed c' = true ∧ cl_loaded c' = cl_loaded c.
Proof.
  intros [c0 tid Hn|c0 c1 tid p p' now response Hp Hs|c0|c0] Hc; try done. cbn. unfold thread_step in Hs. rewrite Hc in Hs.
  destruct p; try destruct (cl_lock c0); try (cbn in Hs; injection Hs as <- _); done.
Qed.

Lemma client_init_inv : client_inv client_init.
Proof. split; cbn; intros; simplify_map_eq. Qed.
End client_facts.

(** C6: whatever the interleaving of callers, responses, invalidations and
    closings, at most one thread is inside the refresh (so at most one request is
    in flight), and every list a call returns is one the control API has
    delivered, which it does no more once the client is closed.  A call fails
    only with [MediaMTXClientError], with an exception that its request raised
    and [_get_json] does not catch (as a closed client's), or, when the snapshot
    was invalidated, with the [TypeError] of subscripting [None]. *)
Theorem client_refresh_invariant cfg c :
  rtc (client_step cfg) client_init c →
  (∀ t1 t2 p1 p2, cl_threads c !! t1 = Some p1 → cl_threads c !! t2 = Some p2 →
     in_lock p1 = true → in_lock p2 = true → t1 = t2)
  ∧ (∀ t paths, cl_threads c !! t = Some (Returned (Ok paths)) → paths ∈ cl_loaded c)
  ∧ (∀ t e, cl_threads c !! t = Some (Returned (Raise e)) →
     (∃ msg, e = PyErr ExcMediaMTXClientError msg) ∨ e ∈ cl_raised c
     ∨ (cl_invalidated c = true ∧ Raise e = none_subscript))
  ∧ (∀ c', client_step cfg c c' → cl_closed c = true → cl_closed c' = true ∧ cl_loaded c' = cl_loaded c).
Proof.
  intros Hr. assert (client_inv c) as [Ho _ Hpc].
  { eapply rtc_invariant; [apply client_step_inv|apply client_init_inv|exact Hr]. }
  split_and!.
  - intros t1 t2 p1 p2 H1 H2 L1 L2. pose proof (Ho _ _ H1 L1). pose proof (Ho _ _ H2 L2). congruence.
  - intros t paths H. apply (Hpc _ _ H).
  - intros t e H. exact (Hpc _ _ H).
  - apply client_step_closed.
Qed.

(** ** The client: one caller *)

Section solo.
Context (cfg : client_config) (tid : nat).

(** A run of thread [tid] alone, as a chain of [thread_step]s. *)
Definition runs (c : client) (p : pc) (c' : client) (p' : pc) : Prop :=
  rtc (client_step cfg) (set_thread c tid p) (set_thread c' tid p').

Lemma runs_step c p c1 p1 c' p' now response :
  thread_step cfg (set_thread c tid p) tid p now response = Some (set_thread c1 tid p, p1) →
  runs c1 p1 c' p' → runs c p c' p'.
Proof.
  intros Hs Hr. unfold runs. eapply rtc_l; [|exact Hr].
  replace (set_thread c1 tid p1) with (set_thread (set_thread c1 tid p) tid p1).
  - eapply ClientRun; [cbn; apply lookup_insert_eq|exact Hs].
  - unfold set_thread; cbn. by rewrite insert_insert_eq.
Qed.

Lemma runs_refl c p : runs c p c p.
Proof. apply rtc_refl. Qed.

(** A check that gives [None] ends at [check_miss], one that gives a list at
    [check_done]. *)
Lemma runs_check c k now :
  runs c (TestNone k) c
    (match cached_paths (cl_snapshot c) now (check_ttl cfg k) with
     | Some paths => check_done k (Ok paths)
     | None => check_miss k
     end).
Proof.
  destruct (cl_snapshot c) as [[t paths]|] eqn:E; cbn.
  - eapply (runs_step _ _ c _ _ _ now HttpNotJson); [cbn; by rewrite E|].
    destruct (check_ttl cfg k <? now - t)%float eqn:Ea.
    + eapply (runs_step _ _ c _ _ _ now HttpNotJson); [cbn; by rewrite E, Ea|]. apply runs_refl.
    + eapply (runs_step _ _ c _ _ _ now HttpNotJson); [cbn; by rewrite E, Ea|].
      eapply (runs_step _ _ c _ _ _ now HttpNotJson); [cbn; by rewrite E|]. apply runs_refl.
  - eapply (runs_step _ _ c _ _ _ now HttpNotJson); [cbn; by rewrite E|]. apply runs_refl.
Qed.

Lemma runs_trans c1 p1 c2 p2 c3 p3 : runs c1 p1 c2 p2 → runs c2 p2 c3 p3 → runs c1 p1 c3 p3.
Proof. unfold runs. intros. by etrans. Qed.
End solo.

(** What a list in the answer of [list_paths] is. *)
Definition answer_origin (cfg : client_config) (s : snapshot) (now1 now2 now_stale now_store : float)
    (response : http_outcome) (paths : list MediaMTXPath) (s' : snapshot) : Prop :=
  (load_paths response = Ok paths ∧ s' = Some (now_store, paths))
  ∨ (s' = s ∧ ∃ t, s = Some (t, paths) ∧
       ((snapshot_ttl_seconds cfg <? now1 - t)%float = false
        ∨ (snapshot_ttl_seconds cfg <? now2 - t)%float = false
        ∨ ((stale_ttl_seconds cfg <? now_stale - t)%float = false
           ∧ ∃ msg, load_paths response = media_error msg))).

Lemma cached_paths_Some s now ttl paths :
  cached_paths s now ttl = Some paths ↔ ∃ t, s = Some (t, paths) ∧ (ttl <? now - t)%float = false.
Proof.
  unfold cached_paths. destruct s as [[t ps]|]; [|by split; [|intros (? & [=] & _)]].
  destruct (ttl <? now - t)%float eqn:E; split.
  - done.
  - intros (t' & [= <- <-] & H). congruence.
  - intros [= <-]. by exists t.
  - by intros (t' & [= <- <-] & _).
Qed.

(** C27: a caller that finds the refresh lock free is never blocked: its steps
    reach the outcome and the snapshot of [list_paths].  A list it returns is
    the response just stored, or a snapshot within its time to live, or, when
    the request failed, one within the stale limit; otherwise the failure is
    raised and the snapshot kept.  Only [MediaMTXClientError] is such a failure:
    any other exception of the request is raised at once. *)
Theorem list_paths_refinement cfg c tid now1 now2 now_stale now_store response r s' :
  cl_lock c = None →
  list_paths cfg (cl_closed c) (cl_snapshot c) now1 now2 now_stale now_store response = (r, s') →
  (∃ c', rtc (client_step cfg) (set_thread c tid (TestNone FirstCheck)) (set_thread c' tid (Returned r))
         ∧ cl_snapshot c' = s' ∧ cl_lock c' = None)
  ∧ match r with
    | Ok paths => answer_origin cfg (cl_snapshot c) now1 now2 now_stale now_store (request (cl_closed c) response) paths s'
    | Raise e => load_paths (request (cl_closed c) response) = Raise e ∧ s' = cl_snapshot c
                 ∧ (∀ msg, e = PyErr ExcMediaMTXClientError msg →
                    cached_paths (cl_snapshot c) now_stale (stale_ttl_seconds cfg) = None)
    end.
Proof.
  intros Hlock. unfold list_paths, answer_origin.
  pose proof (runs_check cfg tid c FirstCheck now1) as R1. cbn [check_ttl] in R1.
  destruct (cached_paths (cl_snapshot c) now1 _) as [ps|] eqn:E1.
  { intros [= <- <-]. split; [exists c; eauto|]. apply cached_paths_Some in E1. naive_solver. }
  set (cl := set_lock c (Some tid)).
  assert (R2 : runs cfg tid c WaitLock cl (TestNone SecondCheck)).
  { eapply (runs_step _ _ _ _ cl _ _ _ now1 HttpNotJson); [cbn; by rewrite Hlock|]. apply runs_refl. }
  pose proof (runs_check cfg tid cl SecondCheck now2) as R3. cbn [check_ttl cl set_lock cl_snapshot] in R3.
  pose proof (λ r, runs_step cfg tid cl (Release r) c (Returned r) c (Returned r) now1 HttpNotJson) as Rel.
  assert (Hrel : ∀ r, runs cfg tid cl (Release r) c (Returned r)).
  { intros r0. apply Rel; [|apply runs_refl]. unfold thread_step, cl, set_lock, set_thread. cbn. by rewrite Hlock. }
  pose proof (runs_trans _ _ _ _ _ _ _ _ R1 R2) as R12.
  destruct (cached_paths (cl_snapshot c) now2 _) as [ps|] eqn:E2.
  { intros [= <- <-]. split.
    - exists c. split; [|done]. eapply runs_trans; [|apply Hrel]. by eapply runs_trans.
    - apply cached_paths_Some in E2. naive_solver. }
  pose proof (runs_trans _ _ _ _ _ _ _ _ R12 R3) as R123. cbn [check_miss] in R123.
  destruct (load_paths (request (cl_closed c) response)) as [ps|e] eqn:El.
  { intros [= <- <-]. split; [|naive_solver].
    exists (set_lock (set_snapshot (add_loaded cl ps) (Some (now_store, ps))) None).
    split; [|done]. eapply runs_trans; [exact R123|].
    eapply (runs_step _ _ _ _ (add_loaded cl ps) _ _ _ now1 response); [cbn; by rewrite El|].
    eapply (runs_step _ _ _ _ (set_snapshot (add_loaded cl ps) (Some (now_store, ps))) _ _ _ now_store response); [reflexivity|].
    eapply (runs_step _ _ _ _ (set_lock (set_snapshot (add_loaded cl ps) (Some (now_store, ps))) None) _ _ _ now1 response);
      [reflexivity|]. apply runs_refl. }
  assert (Hother : ∀ e', (∀ msg, e' ≠ PyErr ExcMediaMTXClientError msg) → e = e' →
    ∃ c', runs cfg tid c (TestNone FirstCheck) c' (Returned (Raise e')) ∧ cl_snapshot c' = cl_snapshot c ∧ cl_lock c' = None).
  { intros e' Hne ->. exists (set_lock (add_raised cl e') None). split; [|done]. eapply runs_trans; [exact R123|].
    eapply (runs_step _ _ _ _ (add_raised cl e') _ _ _ now1 response).
    - cbn. rewrite El. destruct e' as [[] msg|]; try reflexivity. by destruct (Hne msg).
    - eapply (runs_step _ _ _ _ (set_lock (add_raised cl e') None) _ _ _ now1 response); [reflexivity|]. apply runs_refl. }
  assert ((∃ msg, e = PyErr ExcMediaMTXClientError msg) ∨ ∀ msg, e ≠ PyErr ExcMediaMTXClientError msg) as [[msg ->]|Hne]
    by (destruct e as [[] m|]; naive_solver).
  2: { intros H. assert (r = Raise e ∧ s' = cl_snapshot c) as [-> ->] by (destruct e as [[] m|]; naive_solver).
       split; [|naive_solver]. apply Hother; naive_solver. }
  clear Hother.
  pose proof (runs_check cfg tid cl (StaleCheck msg) now_stale) as R5. cbn [check_ttl cl set_lock cl_snapshot] in R5.
  assert (R4 : runs cfg tid cl Requesting cl (TestNone (StaleCheck msg))).
  { eapply (runs_step _ _ _ _ cl _ _ _ now1 response); [cbn; by rewrite El|]. apply runs_refl. }
  pose proof (runs_trans _ _ _ _ _ _ _ _ R123 R4) as R1234.
  pose proof (runs_trans _ _ _ _ _ _ _ _ R1234 R5) as R.
  destruct (cached_paths (cl_snapshot c) now_stale _) as [ps|] eqn:E3; intros [= <- <-]; cbn in R;
    (split; [exists c; split; [|done]; eapply runs_trans; [exact R|apply Hrel]|]).
  - apply cached_paths_Some in E3. naive_solver.
  - done.
Qed.

(** A stored list, one second old, with the control API down. *)
Lemma list_paths_refinement_witness :
  let cfg := mkClientConfig 1%float 5%float in
  let c := mkClient (Some (10%float, [mkMediaPath "raw/a/b" true None 0])) None false ∅ [] [] false in
  (∃ c', rtc (client_step cfg) (set_thread c 7 (TestNone FirstCheck))
           (set_thread c' 7 (Returned (Ok [mkMediaPath "raw/a/b" true None 0])))
         ∧ cl_snapshot c' = cl_snapshot c ∧ cl_lock c' = None)
  ∧ answer_origin cfg (cl_snapshot c) 12%float 13%float 14%float 15%float (HttpFailed "down")
      [mkMediaPath "raw/a/b" true None 0] (cl_snapshot c).
Proof.
  intros cfg c.
  exact (list_paths_refinement cfg c 7 12%float 13%float 14%float 15%float (HttpFailed "down")
           (Ok [mkMediaPath "raw/a/b" true None 0]) (cl_snapshot c) eq_refl eq_refl).
Defined.

(** One caller that gets an empty list. *)
Lemma client_refresh_invariant_witness :
  ∃ c, cl_threads c !! 1%nat = Some (Returned (Ok [])) ∧ [] ∈ cl_loaded c.
Proof.
  set (cfg := mkClientConfig 60%float 60%float).
  assert (Hrun : ∀ c c' tid p p', cl_threads c !! tid = Some p →
    thread_step cfg c tid p 0%float (HttpJson (JObj [])) = Some (c', p') →
    client_step cfg c (set_thread c' tid p')) by (intros; by eapply ClientRun).
  assert (∃ c, rtc (client_step cfg) client_init c
               ∧ cl_threads c !! 1%nat = Some (Returned (Ok []))) as (c & Hr & Hc).
  { eexists. split; [|shelve].
    eapply rtc_l; [apply (ClientCall cfg client_init 1); reflexivity|].
    do 6 (eapply rtc_l; [eapply (Hrun _ _ 1%nat); vm_compute; reflexivity|]).
    apply rtc_refl. Unshelve. vm_compute. reflexivity. }
  exists c. split; [exact Hc|].
  exact (proj1 (proj2 (client_refresh_invariant cfg c Hr)) 1%nat [] Hc).
Defined.

(** An invalidation between two reads of one check makes the call fail with a
    [TypeError] the callers do not handle. *)
Lemma invalidate_race :
  ∃ c, rtc (client_step (mkClientConfig 60%float 60%float)) client_init c
       ∧ cl_threads c !! 2%nat = Some (Returned none_subscript).
Proof.
  set (cfg := mkClientConfig 60%float 60%float).
  assert (Hrun : ∀ c c' tid p p', cl_threads c !! tid = Some p →
    thread_step cfg c tid p 0%float (HttpJson (JObj [])) = Some (c', p') →
    client_step cfg c (set_thread c' tid p')) by (intros; by eapply ClientRun).
  eexists. split.
  - eapply rtc_l; [apply (ClientCall cfg client_init 1); reflexivity|].
    do 6 (eapply rtc_l; [eapply (Hrun _ _ 1%nat); vm_compute; reflexivity|]).
    eapply rtc_l; [apply (ClientCall cfg _ 2); vm_compute; reflexivity|].
    eapply rtc_l; [eapply (Hrun _ _ 2%nat); vm_compute; reflexivity|].
    eapply rtc_l; [apply ClientInvalidate|].
    eapply rtc_l; [eapply (Hrun _ _ 2%nat); vm_compute; reflexivity|].
    apply rtc_refl.
  - vm_compute. reflexivity.
Qed.

(** A call that needs a request on a closed client fails with the [RuntimeError]
    of the HTTP library, also when a snapshot within the stale limit is there. *)
Lemma closed_client_raises :
  ∃ c, rtc (client_step (mkClientConfig 60%float 60%float)) client_init c
       ∧ cl_threads c !! 1%nat = Some (Returned (Raise closed_error)).
Proof.
  set (cfg := mkClientConfig 60%float 60%float).
  assert (Hrun : ∀ c c' tid p p', cl_threads c !! tid = Some p →
    thread_step cfg c tid p 0%float (HttpJson (JObj [])) = Some (c', p') →
    client_step cfg c (set_thread c' tid p')) by (intros; by eapply ClientRun).
  eexists. split.
  - eapply rtc_l; [apply (ClientCall cfg client_init 1); reflexivity|].
    eapply rtc_l; [apply ClientClose|].
    do 5 (eapply rtc_l; [eapply (Hrun _ _ 1%nat); vm_compute; reflexivity|]).
    apply rtc_refl.
  - vm_compute. reflexivity.
Qed.

(** ** Playback URLs *)

(** [backend/modules/streaming/playback_url_builder.py:13-18] PlaybackUrlBuilderConfig *)
Record PlaybackUrlBuilderConfig : Type := mkBuilderConfig {
  cfg_public_webrtc : option string;
  cfg_public_hls : option string;
  cfg_webrtc : option string;
  cfg_hls : option string
}.

(** [backend/modules/streaming/playback_url_builder.py:20-26] PlaybackUrlBuilderConfig.from_env *)
Definition builder_config_from (settings : MediaServerSettings) : PlaybackUrlBuilderConfig :=
  mkBuilderConfig (public_webrtc_base_url settings) (public_hls_base_url settings) None None.

(** [backend/modules/streaming/playback_url_builder.py:61-64] _resolve_configured_url *)
Definition resolve_configured_url (primary_url fallback_url : option string) : option string :=
  match primary_url with Some u => Some u | None => fallback_url end.

(** [backend/modules/streaming/playback_url_builder.py:28-30] resolved_webrtc_base_url *)
Definition resolved_webrtc_base_url (self : PlaybackUrlBuilderConfig) : option string :=
  resolve_configured_url (cfg_public_webrtc self) (cfg_webrtc self).

(** [backend/modules/streaming/playback_url_builder.py:32-34] resolved_hls_base_url *)
Definition resolved_hls_base_url (self : PlaybackUrlBuilderConfig) : option string :=
  resolve_configured_url (cfg_public_hls self) (cfg_hls self).

Section service.
Context (bracketed_netloc_ok nfkc_ok unicode_date_shape : string → bool).

(** [backend/modules/streaming/playback_url_builder.py:67-72] _normalize_base_url *)
Definition normalize_base_url (base_url : string) : result string :=
  let normalized := rstrip_char "/" (strip base_url) in
  parsed ← urlsplit bracketed_netloc_ok nfkc_ok normalized;
  if negb (bool_decide (url_scheme parsed ∈ ["http"; "https"])) || is_empty (url_netloc parsed) then
    throw ExcPlaybackUrlBuilderError "playback base URL must be an absolute HTTP(S) URL"
  else Ok normalized.

(** [backend/modules/streaming/playback_url_builder.py:54-58] _join *)
Definition join_url (base_url : option string) (path suffix : string) : result (option string) :=
  match base_url with
  | None => Ok None
  | Some u =>
      base ← normalize_base_url u;
      Ok (Some (base +:+ "/" +:+ lstrip_char "/" path +:+ "/" +:+ suffix))
  end.

(** [backend/modules/streaming/playback_url_builder.py:45-49] build *)
Definition build (config : PlaybackUrlBuilderConfig) (p : StreamPath) : result PlaybackUrls :=
  webrtc ← join_url (resolved_webrtc_base_url config) (sp_path p) "whep";
  hls ← join_url (resolved_hls_base_url config) (sp_path p) "index.m3u8";
  Ok (mkPlaybackUrls webrtc hls).

(** [backend/modules/streaming/playback_url_builder.py:51-52] build_from_stream_id *)
Definition build_from_stream_id (config : PlaybackUrlBuilderConfig) (id : string) : result PlaybackUrls :=
  p ← validate_stream_id unicode_date_shape id;
  build config p.

(** ** The service *)

(** [backend/modules/streaming/domain.py:30-44] from_path *)
Definition from_path (path st : string) (name : option string) (urls : option PlaybackUrls)
    : result StreamDescriptor :=
  p ← validate_stream_path unicode_date_shape path;
  new_descriptor p st name (default (mkPlaybackUrls None None) urls).

(** A stream named by a path, with the URLs the builder gives it: the common
    part of [StreamSeed.to_descriptor], [register_stream_path] and
    [_descriptor_from_mediamtx_path]. *)
Definition with_urls (config : PlaybackUrlBuilderConfig) (d : StreamDescriptor) : result StreamDescriptor :=
  urls ← build config (stream_path d);
  new_descriptor (stream_path d) (status d) (display_name d) urls.

(** [backend/modules/streaming/seeds.py:8-12] StreamSeed *)
Record StreamSeed : Type := mkSeed { seed_path : string; seed_status : string; seed_name : string }.

(** [backend/modules/streaming/seeds.py:14-25] to_descriptor *)
Definition to_descriptor (config : PlaybackUrlBuilderConfig) (seed : StreamSeed) : result StreamDescriptor :=
  descriptor ← from_path (seed_path seed) (seed_status seed) (Some (seed_name seed)) None;
  with_urls config descriptor.

(** [backend/modules/streaming/seeds.py:28-49] DEFAULT_STREAM_SEEDS *)
Definition DEFAULT_STREAM_SEEDS : list StreamSeed :=
  [mkSeed "raw/sample/front" "online" "Sample Front Camera";
   mkSeed "raw/sample/thermal" "offline" "Sample Thermal Camera";
   mkSeed "raw/sample/rear" "unknown" "Sample Rear Camera";
   mkSeed "raw/local/webcam" "registered" "Local Webcam Test Harness"].

(** [backend/modules/streaming/seeds.py:52-56] build_seed_stream_descriptors *)
Definition build_seed_stream_descriptors (config : PlaybackUrlBuilderConfig) (seeds : list StreamSeed)
    : result (list StreamDescriptor) := mapM (to_descriptor config) seeds.

(** [backend/modules/streaming/seeds.py:59-63] build_seed_repository *)
Definition build_seed_repository (config : PlaybackUrlBuilderConfig) (seeds : list StreamSeed)
    : result StreamRepository := new_repository <$> build_seed_stream_descriptors config seeds.

(** [backend/modules/streaming/service.py:9-17] StreamingService.__init__

    [mediamtx] is [None] without a client, and what its [list_paths] gives
    otherwise. *)
Record StreamingService : Type := mkService {
  sv_builder : PlaybackUrlBuilderConfig;
  sv_repository : StreamRepository;
  sv_mediamtx : option (result (list MediaMTXPath))
}.

(** [backend/modules/streaming/service.py:89-91] _display_name_for_mediamtx_path *)
Definition display_name_for_mediamtx_path (path : MediaMTXPath) : string :=
  let source := match mp_source_type path with
                | Some s => if truthy s then s else "publisher"
                | None => "publisher" end in
  mp_name path +:+ " (" +:+ source +:+ ", readers " +:+ str_of_Z (mp_reader_count path) +:+ ")".

(** [backend/modules/streaming/service.py:71-86] _descriptor_from_mediamtx_path *)
Definition descriptor_from_mediamtx_path (self : StreamingService) (path : MediaMTXPath)
    : result (option StreamDescriptor) :=
  base ← catch (Some <$> from_path (mp_name path) (if mp_ready path then "online" else "registered")
                           (Some (display_name_for_mediamtx_path path)) None)
           ExcValueError (λ _, Ok None);
  match base with
  | None => Ok None
  | Some d => Some <$> with_urls (sv_builder self) d
  end.

(** [backend/modules/streaming/service.py:63-69] _list_mediamtx_paths *)
Definition list_mediamtx_paths (self : StreamingService) : result (list MediaMTXPath) :=
  match sv_mediamtx self with
  | None => Ok []
  | Some m => catch m ExcMediaMTXClientError (λ _, Ok [])
  end.

(** The body of the loop of [list_registered_streams]. *)
Definition merge_path (self : StreamingService) (descriptors : StreamRepository) (path : MediaMTXPath)
    : result StreamRepository :=
  descriptor ← descriptor_from_mediamtx_path self path;
  Ok match descriptor with Some d => repo_upsert descriptors d | None => descriptors end.

(** [backend/modules/streaming/service.py:26-32] list_registered_streams *)
Definition list_registered_streams (self : StreamingService) : result (list StreamDescriptor) :=
  let descriptors := new_repository (repo_list (sv_repository self)) in
  paths ← list_mediamtx_paths self;
  dict_values <$> for_in (merge_path self) descriptors paths.

(** [backend/modules/streaming/service.py:34-38] get_registered_stream *)
Definition get_registered_stream (self : StreamingService) (id : string) : result (option StreamDescriptor) :=
  List.find (λ d, String.eqb (descriptor_id d) id) <$> list_registered_streams self.

(** [backend/modules/streaming/service.py:40-41] build_playback_urls *)
Definition build_playback_urls (self : StreamingService) (id : string) : result PlaybackUrls :=
  build_from_stream_id (sv_builder self) id.

(** [backend/modules/streaming/service.py:43-61] register_stream_path *)
Definition register_stream_path (self : StreamingService) (path st : string) (name : option string)
    : result (StreamDescriptor * StreamingService) :=
  descriptor ← from_path path st name None;
  descriptor ← with_urls (sv_builder self) descriptor;
  Ok (descriptor, mkService (sv_builder self) (repo_upsert (sv_repository self) descriptor) (sv_mediamtx self)).

(** [backend/modules/streaming/service.py:19-24] module_status *)
Definition module_status (self : StreamingService) : result StreamingModuleStatus :=
  streams ← list_registered_streams self;
  Ok (mkModuleStatus true true (Z.of_nat (length streams))).

(** ** The HTTP routes *)

(** [backend/api/stream.py:50-55] _require_registered_stream *)
Definition require_registered_stream (self : StreamingService) (id : string) : result StreamDescriptor :=
  p ← validate_stream_id unicode_date_shape id;
  descriptor ← get_registered_stream self (stream_id p);
  match descriptor with
  | None => NotFoundApiError "stream is not registered"
  | Some d => Ok d
  end.

(** [backend/api/stream.py:38-48] StreamLookupOperation.execute *)
Definition execute {B} (build_response : StreamDescriptor → B) (self : StreamingService) (id : string)
    : result B :=
  descriptor ← catch (require_registered_stream self id) ExcStreamPathError
                 (λ msg, UnprocessableEntityApiError msg);
  Ok (build_response descriptor).

(** [backend/api/stream.py:87-92] get_stream_playback *)
Definition get_stream_playback (self : StreamingService) (id : string) : result StreamPlaybackResponse :=
  execute playback_response self id.

(** [backend/api/stream.py:95-100] get_stream_status *)
Definition get_stream_status (self : StreamingService) (id : string) : result StreamStatusResponse :=
  execute status_response self id.

(** [backend/api/stream.py:103-108] get_stream *)
Definition get_stream (self : StreamingService) (id : string) : result StreamDescriptorResponse :=
  execute descriptor_response self id.

(** [backend/api/stream.py:77-79] list_streams *)
Definition list_streams (self : StreamingService) : result (list StreamDescriptorResponse) :=
  streams ← list_registered_streams self;
  Ok (map descriptor_response streams).

(** [backend/api/stream.py:116-121] resolve_stream_id *)
Definition resolve_stream_id (id : string) : result (list (string * option string)) :=
  catch (StreamPath.to_api_dict <$> validate_stream_id unicode_date_shape id) ExcStreamPathError
    (λ msg, UnprocessableEntityApiError msg).

(** [backend/api/stream.py:124-129] resolve_stream_path *)
Definition resolve_stream_path (path : string) : result (list (string * option string)) :=
  catch (StreamPath.to_api_dict <$> validate_stream_path unicode_date_shape path) ExcStreamPathError
    (λ msg, UnprocessableEntityApiError msg).

(** [backend/modules/streaming/router.py:16-18] get_streaming_module_status *)
Definition get_streaming_module_status (self : StreamingService) : result StreamingModuleStatus :=
  module_status_response <$> module_status self.

(** [backend/modules/streaming/router.py:21-27] get_playback_urls *)
Definition get_playback_urls (self : StreamingService) (id : string) : result PlaybackUrls :=
  playback_urls ← catch_any (build_playback_urls self id) [ExcStreamPathError; ExcPlaybackUrlBuilderError]
                    (λ msg, Raise (HttpErr 422 msg []));
  Ok (playback_urls_response playback_urls).

(** [backend/modules/streaming/router.py:30-35] list_stream_registry *)
Definition list_stream_registry (self : StreamingService) : result (list StreamDescriptorResponse) :=
  streams ← list_registered_streams self;
  Ok (map descriptor_response streams).

(** [backend/modules/streaming/router.py:38-43] get_stream_registry_item *)
Definition get_stream_registry_item (self : StreamingService) (id : string) : result StreamDescriptorResponse :=
  descriptor ← get_registered_stream self id;
  match descriptor with
  | None => Raise (HttpErr 404 "stream is not registered" [])
  | Some d => Ok (descriptor_response d)
  end.
End service.

(** ** The registry *)

Definition repo_wf (r : StreamRepository) : Prop :=
  dict_wf r ∧ ∀ k d, (k, d) ∈ r → k = descriptor_id d ∧ wf_stream_path (stream_path d) = true.

Lemma elem_of_dict_set {V} (d : list (string * V)) k v k' v' :
  (k', v') ∈ dict_set d k v → (k' = k ∧ v' = v) ∨ (k', v') ∈ d.
Proof.
  induction d as [|[k0 v0] d IH]; cbn.
  - intros [= -> ->]%list_elem_of_singleton. auto.
  - destruct (decide (k = k0)) as [->|].
    + intros [[= -> ->]|H]%elem_of_cons; [auto|]. right. by right.
    + intros [[= -> ->]|H]%elem_of_cons; [right; left|]. destruct (IH H); [auto|]. right. by right.
Qed.

Lemma repo_upsert_wf r d : repo_wf r → wf_stream_path (stream_path d) = true → repo_wf (repo_upsert r d).
Proof.
  intros [Hw He] Hd. split; [by apply dict_set_wf|].
  intros k' d' [[-> ->]|H]%elem_of_dict_set; auto.
Qed.

(** A dict keyed by the ids of its values is rebuilt by its values. *)
Lemma foldl_upsert_values acc r :
  NoDup (dict_keys (acc ++ r)) → (∀ k d, (k, d) ∈ r → k = descriptor_id d) →
  foldl repo_upsert acc (dict_values r) = acc ++ r.
Proof.
  unfold dict_keys, dict_values. revert acc. induction r as [|[k d] r IH]; intros acc Hn Hk; cbn.
  - by rewrite app_nil_r.
  - rewrite (cons_middle (k, d)), app_assoc in *.
    assert (Hu : repo_upsert acc d = acc ++ [(k, d)]).
    { unfold repo_upsert. rewrite <-(Hk k d) by left. apply dict_set_new. unfold dict_keys.
      rewrite !fmap_app in Hn. apply NoDup_app in Hn as (Hn & _ & _). apply NoDup_app in Hn as (_ & Hn & _).
      intros Hin. by apply (Hn k Hin), list_elem_of_singleton. }
    rewrite Hu. apply IH; [done|]. intros. apply Hk. by right.
Qed.

Lemma new_repository_list r : repo_wf r → new_repository (repo_list r) = r.
Proof. intros [Hw He]. apply (foldl_upsert_values [] r); [done|]. intros k d Hin. by apply He. Qed.

(** The last of the descriptors with an id, if any. *)
Definition latest (id : string) (ds : list StreamDescriptor) : option StreamDescriptor :=
  last (filter (λ d, descriptor_id d = id) ds).

Lemma get_foldl_upsert r ds id :
  dict_get (foldl repo_upsert r ds) id =
  match latest id ds with Some d => Some d | None => dict_get r id end.
Proof.
  unfold latest. induction ds as [|d ds IH] using rev_ind; [done|].
  rewrite foldl_app, filter_app. cbn [foldl]. unfold repo_upsert at 1. rewrite dict_get_set.
  destruct (decide (id = descriptor_id d)) as [->|Hne].
  - rewrite filter_cons_True, filter_nil by done. by rewrite last_snoc.
  - rewrite filter_cons_False, filter_nil, app_nil_r by done. exact IH.
Qed.

Lemma latest_elem id ds d : latest id ds = Some d → d ∈ ds ∧ descriptor_id d = id.
Proof.
  intros H. apply last_Some_elem_of, list_elem_of_filter in H. tauto.
Qed.

Lemma foldl_upsert_wf r ds :
  repo_wf r → (∀ d, d ∈ ds → wf_stream_path (stream_path d) = true) → repo_wf (foldl repo_upsert r ds).
Proof.
  revert r. induction ds as [|d ds IH]; intros r Hr Hd; [done|]. cbn.
  apply IH; [|intros; apply Hd; by right]. apply repo_upsert_wf; [done|]. apply Hd. left.
Qed.

Lemma find_values r id : repo_wf r →
  List.find (λ d, String.eqb (descriptor_id d) id) (dict_values r) = dict_get r id.
Proof.
  intros [_ He]. unfold dict_values. induction r as [|[k d] r IH]; cbn; [done|].
  destruct (He k d ltac:(left)) as [-> _]. rewrite IH by (intros; apply He; by right).
  destruct (String.eqb_spec (descriptor_id d) id) as [->|].
  - by rewrite decide_True.
  - by rewrite decide_False.
Qed.

Section registry.
Context (bracketed_netloc_ok nfkc_ok unicode_date_shape : string → bool).
#[local] Notation normalize := (normalize_base_url bracketed_netloc_ok nfkc_ok).
#[local] Notation build := (build bracketed_netloc_ok nfkc_ok).
#[local] Notation from_path := (from_path unicode_date_shape).

(** Every configured base URL is one the builder accepts. *)
Definition builder_ok (config : PlaybackUrlBuilderConfig) : Prop :=
  ∀ u, resolved_webrtc_base_url config = Some u ∨ resolved_hls_base_url config = Some u →
  is_ok (normalize u) = true.

Lemma join_url_ok base path suffix :
  (∀ u, base = Some u → is_ok (normalize u) = true) →
  is_ok (join_url bracketed_netloc_ok nfkc_ok base path suffix) = true.
Proof.
  intros H. destruct base as [u|]; cbn; [|done]. specialize (H u eq_refl). by destruct (normalize u).
Qed.

Lemma build_ok config p : builder_ok config → ∃ urls, build config p = Ok urls.
Proof.
  intros H. unfold Streaming.build. apply is_ok_true.
  pose proof (join_url_ok (resolved_webrtc_base_url config) (sp_path p) "whep" ltac:(auto)) as H1.
  pose proof (join_url_ok (resolved_hls_base_url config) (sp_path p) "index.m3u8" ltac:(auto)) as H2.
  destruct (join_url _ _ (resolved_webrtc_base_url config) _ _); [|done]. cbn.
  by destruct (join_url _ _ (resolved_hls_base_url config) _ _).
Qed.

Lemma from_path_Ok path st name urls d :
  from_path path st name urls = Ok d → wf_stream_path (stream_path d) = true ∧ sp_path (stream_path d) = path
    ∧ status d = st ∧ st ∈ STREAM_STATUSES.
Proof.
  unfold Streaming.from_path, new_descriptor, validate_stream_status. intros H. inv_ok.
  apply validate_stream_path_Ok in Ha as [? ->].
  destruct (bool_decide_reflect (st ∈ STREAM_STATUSES)); [|done]. inv_ok. by subst.
Qed.

Lemma with_urls_ok config d : builder_ok config → status d ∈ STREAM_STATUSES →
  ∃ urls, build config (stream_path d) = Ok urls ∧
  with_urls bracketed_netloc_ok nfkc_ok config d = Ok (mkDescriptor (stream_path d) (status d) (display_name d) urls).
Proof.
  intros Hc Hs. destruct (build_ok config (stream_path d) Hc) as (urls & Hu). exists urls. split; [done|].
  unfold with_urls. rewrite Hu. cbn. unfold new_descriptor, validate_stream_status.
  by rewrite bool_decide_true.
Qed.

Section one_service.
Context (self : StreamingService) (Hbuilder : builder_ok (sv_builder self)).

(** The descriptor of a media-server path; [None] for a name that is not a
    stream path. *)
Definition media_descriptor (path : MediaMTXPath) : option StreamDescriptor :=
  match descriptor_from_mediamtx_path bracketed_netloc_ok nfkc_ok unicode_date_shape self path with
  | Ok d => d
  | Raise _ => None
  end.

Lemma media_descriptor_spec path :
  descriptor_from_mediamtx_path bracketed_netloc_ok nfkc_ok unicode_date_shape self path
    = Ok (media_descriptor path)
  ∧ match media_descriptor path with
    | Some d => wf_stream_path (stream_path d) = true ∧ sp_path (stream_path d) = mp_name path
                ∧ status d = if mp_ready path then "online" else "registered"
    | None => is_ok (validate_stream_path unicode_date_shape (mp_name path)) = false
    end.
Proof using Hbuilder.
  unfold media_descriptor, descriptor_from_mediamtx_path.
  set (st := if mp_ready path then "online" else "registered").
  assert (Hst : st ∈ STREAM_STATUSES).
  { unfold st. destruct (mp_ready path); apply (bool_decide_unpack _); vm_compute; exact I. }
  destruct (from_path (mp_name path) st _ None) as [d|e] eqn:E; cbn.
  - apply from_path_Ok in E as (Hw & Hp & <- & _).
    destruct (with_urls_ok (sv_builder self) d Hbuilder Hst) as (urls & _ & ->). by cbn.
  - unfold Streaming.from_path, new_descriptor, validate_stream_status in E.
    rewrite bool_decide_true in E by done.
    pose proof (validate_stream_path_errors unicode_date_shape (mp_name path)) as He.
    destruct (validate_stream_path _ _) as [|e']; [done|]. cbn in E. injection E as ->.
    destruct e as [c msg|]; [|done]. cbn in He. by subst c.
Qed.

Definition media_paths : list MediaMTXPath :=
  match sv_mediamtx self with Some (Ok paths) => paths | _ => [] end.

(** The client answered, or failed the way it is specified to. *)
Definition media_fine : Prop :=
  match sv_mediamtx self with
  | Some (Raise (PyErr c _)) => c = ExcMediaMTXClientError
  | Some (Raise (HttpErr _ _ _)) => False
  | _ => True
  end.

Lemma merge_path_Ok r path :
  merge_path bracketed_netloc_ok nfkc_ok unicode_date_shape self r path
  = Ok match media_descriptor path with Some d => repo_upsert r d | None => r end.
Proof using Hbuilder. unfold merge_path. by rewrite (proj1 (media_descriptor_spec path)). Qed.

Lemma merge_paths_Ok r paths :
  for_in (merge_path bracketed_netloc_ok nfkc_ok unicode_date_shape self) r paths
  = Ok (foldl repo_upsert r (omap media_descriptor paths)).
Proof using Hbuilder.
  revert r. induction paths as [|path paths IH]; intros r; [done|].
  cbn [for_in]. rewrite merge_path_Ok.
  cbn [mbind result_bind]. rewrite IH. cbn. by destruct (media_descriptor path).
Qed.

(** What the registry answers for an id: the last media-server path that has
    it, before the stored descriptor. *)
Definition registered (id : string) : option StreamDescriptor :=
  match latest id (omap media_descriptor media_paths) with
  | Some d => Some d
  | None => repo_get (sv_repository self) id
  end.

Lemma registry_Ok :
  repo_wf (sv_repository self) → media_fine →
  ∃ r, list_registered_streams bracketed_netloc_ok nfkc_ok unicode_date_shape self = Ok (dict_values r)
       ∧ repo_wf r ∧ ∀ id, dict_get r id = registered id.
Proof using Hbuilder.
  intros Hr Hm. unfold list_registered_streams. rewrite new_repository_list by done.
  exists (foldl repo_upsert (sv_repository self) (omap media_descriptor media_paths)).
  assert (list_mediamtx_paths self = Ok media_paths) as ->.
  { unfold list_mediamtx_paths, media_paths, media_fine in *.
    destruct (sv_mediamtx self) as [[ps|[c msg|]]|]; try done. cbn in Hm. by subst c. }
  cbn. rewrite merge_paths_Ok. split_and!; [done| |].
  - apply foldl_upsert_wf; [done|]. intros d (path & _ & Hd)%list_elem_of_omap.
    pose proof (proj2 (media_descriptor_spec path)) as H. rewrite Hd in H. tauto.
  - intros id. apply get_foldl_upsert.
Qed.

Lemma registered_id id d : repo_wf (sv_repository self) → registered id = Some d → descriptor_id d = id.
Proof.
  intros [_ He]. unfold registered, repo_get. destruct (latest id _) as [d'|] eqn:E.
  - intros [= <-]. by apply latest_elem in E as [_ ?].
  - intros H%dict_get_elem. symmetry. by apply (He id d H).
Qed.
End one_service.

(** the stream routes answer from the registry, whose entries are the
    media server's current paths over the stored descriptors; a media server
    that cannot be queried leaves the stored ones.  A malformed id is a 422 with
    the parser's message, a well-formed id without an entry a 404, and an
    entry's answer carries the id that was asked for. *)
Theorem stream_lookup self id :
  repo_wf (sv_repository self) → builder_ok (sv_builder self) → media_fine self →
  match validate_stream_id unicode_date_shape id with
  | Raise (PyErr _ msg) =>
      get_stream bracketed_netloc_ok nfkc_ok unicode_date_shape self id = UnprocessableEntityApiError msg
  | Raise (HttpErr _ _ _) => False
  | Ok _ =>
      match registered self id with
      | None =>
          get_stream bracketed_netloc_ok nfkc_ok unicode_date_shape self id
          = NotFoundApiError "stream is not registered"
      | Some d =>
          get_stream bracketed_netloc_ok nfkc_ok unicode_date_shape self id = Ok (descriptor_response d)
          ∧ sr_stream_id (descriptor_response d) = id
      end
  end.
Proof.
  intros Hr Hb Hm. destruct (registry_Ok self Hb Hr Hm) as (r & Hl & Hw & Hg).
  unfold get_stream, execute, require_registered_stream.
  pose proof (validate_stream_id_errors unicode_date_shape id) as He.
  destruct (validate_stream_id unicode_date_shape id) as [p|[c msg|]] eqn:E; [|cbn in He; by subst c|done].
  apply validate_stream_id_Ok in E as [_ ->]. cbn.
  unfold get_registered_stream. rewrite Hl. cbn. rewrite find_values, Hg by done.
  destruct (registered self (stream_id p)) as [d|] eqn:Ed; cbn; [|done].
  split; [done|]. by apply (registered_id self).
Qed.

(** Registration keeps the repository well formed and makes the stream known. *)
Lemma register_stream_path_wf self path st name d self' :
  repo_wf (sv_repository self) →
  register_stream_path bracketed_netloc_ok nfkc_ok unicode_date_shape self path st name = Ok (d, self') →
  repo_wf (sv_repository self') ∧ repo_get (sv_repository self') (descriptor_id d) = Some d
  ∧ descriptor_path d = path.
Proof.
  intros Hr H. unfold register_stream_path in H.
  apply bind_Ok in H as (d0 & Ha & H). apply bind_Ok in H as (d1 & Ha0 & [= <- <-]).
  apply from_path_Ok in Ha as (Hw & Hp & _).
  unfold with_urls, new_descriptor in Ha0. inv_ok. subst. cbn. split_and!.
  - by apply repo_upsert_wf.
  - apply dict_get_set_eq.
  - done.
Qed.

Lemma build_seed_repository_wf config seeds r :
  build_seed_repository bracketed_netloc_ok nfkc_ok unicode_date_shape config seeds = Ok r → repo_wf r.
Proof.
  unfold build_seed_repository, build_seed_stream_descriptors. intros H.
  destruct (mapM _ seeds) as [ds|] eqn:E; [|done]. injection H as <-.
  apply foldl_upsert_wf.
  - split; [apply NoDup_nil_2|]. by intros ? ? ?%elem_of_nil.
  - intros d [i Hd]%list_elem_of_lookup. apply mapM_Ok in E.
    destruct (Forall2_lookup_r _ _ _ _ _ E Hd) as (seed & _ & Hseed).
    unfold to_descriptor in Hseed. inv_ok. apply from_path_Ok in Ha as (Hw & _).
    unfold with_urls, new_descriptor in Hseed. inv_ok. by subst.
Qed.
End registry.

(** The seeds of the source with one live camera. *)
Lemma stream_lookup_witness :
  let yes := λ _ : string, true in
  let cfg := mkBuilderConfig (Some "https://media.example/") None None None in
  match build_seed_repository yes yes yes cfg DEFAULT_STREAM_SEEDS with
  | Ok repo =>
      let self := mkService cfg repo (Some (Ok [mkMediaPath "raw/sample/rear" true None 2])) in
      match validate_stream_id yes "raw.sample.rear" with
      | Ok _ =>
          match registered yes yes yes self "raw.sample.rear" with
          | Some d => get_stream yes yes yes self "raw.sample.rear" = Ok (descriptor_response d)
                      ∧ sr_stream_id (descriptor_response d) = "raw.sample.rear"
          | None => False
          end
      | Raise _ => False
      end
  | Raise _ => False
  end.
Proof.
  intros yes cfg.
  destruct (build_seed_repository yes yes yes cfg DEFAULT_STREAM_SEEDS) as [repo|] eqn:E;
    [|vm_compute in E; discriminate].
  intros self.
  assert (Hb : builder_ok yes yes (sv_builder self)).
  { intros u Hu. subst self cfg. cbn [sv_builder] in Hu.
    destruct Hu as [Hu|Hu]; cbn in Hu; [|discriminate]. by simplify_eq. }
  pose proof (stream_lookup yes yes yes self "raw.sample.rear"
    (build_seed_repository_wf _ _ _ _ _ _ E) Hb I) as H.
  vm_compute in E. injection E as <-. vm_compute in H |- *. exact H.
Defined.
