(* ===== verification/AuditChain.v ===== *)
(** Audit evidence: [scripts/ops/audit_chain_verify.py],
    [scripts/ops/audit_anchor_verify.py] and
    [scripts/ops/verify_audit_recovery.py].

    The exported audit records form a hash chain, and a directory of signed
    anchors forms a second one over its heads.  SHA-256, HMAC, the JSON codec
    and [str] of a float or a container are parameters; a file is its name with
    what reading it gives.  [linked] is the abstract hash chain both verifiers
    implement. *)

From stdpp Require Import base list strings sorting.
From Stdlib Require Import ZArith Lia Ascii Strings.Byte.
From S2P Require Import Prelude PyStr PyStrFacts PyTime PyTimeParse PyJson PyText.

#[local] Open Scope Z_scope.

#[export] Instance byte_eq_dec : EqDecision byte := Byte.byte_eq_dec.

(** ** Abstract hash chains *)

Section linked.
Context {R : Type} (prev_of : R → string) (payload : R → list byte) (H : list byte → string).

(** [l] leads from the hash [g] to the hash [h]. *)
Fixpoint linked (g : string) (l : list R) (h : string) : Prop :=
  match l with
  | [] => h = g
  | r :: l' => prev_of r = g ∧ linked (H (payload r)) l' h
  end.

Lemma linked_snoc g l r h : linked g (l ++ [r]) h ↔ linked g l (prev_of r) ∧ h = H (payload r).
Proof.
  revert g. induction l as [|x l IH]; intros g; cbn.
  - split; [intros [-> ->]|intros [-> ->]]; done.
  - rewrite IH. tauto.
Qed.

(** The head of a chain binds every payload, unless two payloads collide. *)
Lemma linked_binds g h l1 l2 :
  (∀ r1 r2, r1 ∈ l1 → r2 ∈ l2 → payload r1 = payload r2 → prev_of r1 = prev_of r2) →
  linked g l1 h → linked g l2 h → length l1 = length l2 →
  payload <$> l1 = payload <$> l2
  ∨ ∃ r1 r2, r1 ∈ l1 ∧ r2 ∈ l2 ∧ payload r1 ≠ payload r2 ∧ H (payload r1) = H (payload r2).
Proof.
  revert h l2. induction l1 as [|r1 l1 IH] using rev_ind; intros h l2 Hp.
  { intros _ _ Hlen. left. by destruct l2. }
  destruct l2 as [|r2 l2 _] using rev_ind; [rewrite length_app; cbn; lia|].
  rewrite !linked_snoc, !length_app. cbn. intros [Hl1 Hh1] [Hl2 Hh2] Hlen.
  destruct (decide (payload r1 = payload r2)) as [He|Hne].
  - assert (prev_of r1 = prev_of r2) as Hr by (apply Hp; [apply elem_of_app; right; left..|done]).
    rewrite <-Hr in Hl2.
    destruct (IH (prev_of r1) l2) as [Heq|(x & y & Hx & Hy & Hxy)]; [|done|done|lia| |].
    + intros x y Hx Hy. apply Hp; apply elem_of_app; by left.
    + left. by rewrite !fmap_app, Heq; cbn; rewrite He.
    + right. exists x, y. rewrite !elem_of_app. naive_solver.
  - right. exists r1, r2. rewrite !elem_of_app. split_and!; [right; left|right; left|done|congruence].
Qed.
End linked.

(** [d.items()] of a JSON object. *)
Definition record : Type := list (string * jval).

(** ["0" * 64] *)
Definition GENESIS_HASH : string :=
  "0000000000000000000000000000000000000000000000000000000000000000".

Section audit.
Context (sha256 : list byte → string) (hmac : list byte → list byte → string).
Context (json_dumps : record → string) (json_loads : string → result jval).
Context (py_repr : jval → string).

Definition chain_error {A} (msg : string) : result A := throw ExcAuditChainError msg.
Definition anchor_error {A} (msg : string) : result A := throw ExcAuditAnchorError msg.

(** ** [audit_chain_verify.py] *)

(** [scripts/ops/audit_chain_verify.py:15-17] canonical_payload *)
Definition canonical_payload (r : record) : list byte :=
  utf8_encode (json_dumps (filter (λ kv, kv.1 ≠ "recordHash") r)).

(** [scripts/ops/audit_chain_verify.py:20-21] calculate_record_hash *)
Definition calculate_record_hash (r : record) : string := sha256 (canonical_payload r).

(** The body of the loop: [previous_hash] and [expected_sequence] before and after. *)
Definition verify_record (s : jval * Z) (r : record) : result (jval * Z) :=
  let '(previous_hash, expected_sequence) := s in
  _ ← raise_if (negb (py_eq (obj_get r "sequence") (JInt expected_sequence))) ExcAuditChainError
        "audit sequence is not contiguous";
  _ ← raise_if (negb (py_eq (obj_get r "previousHash") previous_hash)) ExcAuditChainError
        "audit previous hash does not match";
  _ ← raise_if (negb (py_eq (obj_get r "recordHash") (JStr (calculate_record_hash r)))) ExcAuditChainError
        "audit record hash does not match";
  Ok (obj_get r "recordHash", expected_sequence + 1).

(** [scripts/ops/audit_chain_verify.py:24-36] verify_records *)
Definition verify_records (records : list record) : result Z :=
  _ ← for_in verify_record (JStr GENESIS_HASH, 1) records;
  Ok (Z.of_nat (length records)).

(** [scripts/ops/audit_chain_verify.py:39-46] read_json_lines

    [text] is what reading the file gives. *)
Definition read_json_lines (text : result string) : result (list record) :=
  t ← text;
  mapM (λ line, value ← json_loads line;
                match value with
                | JObj d => Ok d
                | _ => chain_error "audit line must contain an object"
                end) (splitlines t).

(** ** [audit_anchor_verify.py] *)

(** [scripts/ops/audit_anchor_verify.py:18-18] ANCHOR_PATTERN

    The sequence number of a name that matches. *)
Definition anchor_number (name : string) : option Z :=
  let digits := removesuffix ".json" (removeprefix "anchor-" name) in
  if String.eqb name ("anchor-" +:+ digits +:+ ".json")
     && Nat.eqb (String.length digits) 20 && forall_chars is_digit digits
  then Some (digits_to_Z digits) else None.

(** [fnmatch(name, "anchor-*.json")] *)
Definition anchor_glob (name : string) : bool :=
  startswith "anchor-" name && endswith ".json" name && Nat.leb 12 (String.length name).

(** [scripts/ops/audit_anchor_verify.py:20-27] PAYLOAD_FIELDS *)
Definition PAYLOAD_FIELDS : list string :=
  ["sequence"; "previousAnchorHash"; "chainHead"; "recordCount"; "anchoredAt"; "sourceCommit"].

(** [scripts/ops/audit_anchor_verify.py:34-39] VerificationState *)
Record VerificationState : Type := mkState {
  vs_sequence : Z;
  vs_anchor_hash : string;
  vs_record_count : Z;
  vs_anchored_at : option datetime
}.

Definition initial_state : VerificationState := mkState 0 GENESIS_HASH (-1) None.

(** [scripts/ops/audit_anchor_verify.py:42-45] VerificationOptions *)
Record VerificationOptions : Type := mkOptions { vo_key : list byte; vo_expected_commit : option string }.

(** A key file: its kind, size, permission bits and contents. *)
Record key_file : Type := mkKeyFile {
  kf_is_file : bool; kf_size : Z; kf_mode : Z; kf_bytes : list byte }.

Definition is_space_byte (b : byte) : bool :=
  let z := byte_to_Z b in (z =? 32) || ((9 <=? z) && (z <=? 13)).

Fixpoint lstrip_bytes (l : list byte) : list byte :=
  match l with b :: l' => if is_space_byte b then lstrip_bytes l' else l | [] => [] end.

(** [b.strip()] *)
Definition strip_bytes (l : list byte) : list byte := reverse (lstrip_bytes (reverse (lstrip_bytes l))).

(** [scripts/ops/audit_anchor_verify.py:48-53] require_private_key *)
Definition require_private_key (f : key_file) : result (list byte) :=
  if negb (kf_is_file f) || (kf_size f <? 32) then anchor_error "audit anchor key is missing or weak"
  else if negb (Z.land (kf_mode f) 63 =? 0) then anchor_error "audit anchor key permissions are unsafe"
  else Ok (strip_bytes (kf_bytes f)).

Definition payload_field (anchor : record) (f : string) : result string :=
  match dict_get anchor f with
  | Some v => Ok (py_str py_repr v)
  | None => anchor_error ("audit anchor field is missing: " +:+ f)
  end.

(** [scripts/ops/audit_anchor_verify.py:56-60] canonical_payload *)
Definition anchor_payload (anchor : record) : result (list byte) :=
  fields ← mapM (payload_field anchor) PAYLOAD_FIELDS;
  Ok (utf8_encode (join "|" fields)).

(** [hmac.compare_digest] of two texts: a [TypeError] unless both are ASCII. *)
Definition compare_digest (a b : string) : result bool :=
  if forall_chars is_ascii a && forall_chars is_ascii b then Ok (String.eqb a b)
  else throw ExcTypeError "comparing strings with non-ASCII characters is not supported".

Definition get_or_empty (d : record) (f : string) : jval := default (JStr "") (dict_get d f).

(** [scripts/ops/audit_anchor_verify.py:63-70] verify_anchor_record *)
Definition verify_anchor_record (anchor : record) (key : list byte) : result string :=
  payload ← anchor_payload anchor;
  let anchor_hash := sha256 payload in
  same ← compare_digest anchor_hash (py_str py_repr (get_or_empty anchor "anchorHash"));
  if negb same then anchor_error "audit anchor hash is invalid" else
  let signature := hmac key (utf8_encode anchor_hash) in
  same ← compare_digest signature (py_str py_repr (get_or_empty anchor "signature"));
  if negb same then anchor_error "audit anchor signature is invalid" else
  Ok anchor_hash.

(** [scripts/ops/audit_anchor_verify.py:73-80] read_anchor *)
Definition read_anchor (name : string) (text : result string) : result record :=
  value ← catch_any (t ← text; json_loads t) [ExcOSError; ExcJSONDecodeError]
            (λ _, anchor_error ("audit anchor is unreadable: " +:+ name));
  match value with
  | JObj d => Ok d
  | _ => anchor_error "audit anchor must contain an object"
  end.

(** A sign, two digits, a colon and two digits, at the end of the text or
    before its final newline. *)
Definition is_offset_tail (s : string) : bool :=
  match s with
  | String sign s' =>
      (Ascii.eqb sign "+" || Ascii.eqb sign "-") &&
      match take_hhmm s' with
      | Some (_, _, r) => is_empty r || String.eqb r (String "010" "")
      | None => false
      end
  | "" => false
  end.

(** [re.sub(r"(\.[0-9]{6})[0-9]+(?=Z|[+-][0-9]{2}:[0-9]{2}$)", r"\1", s)]; every
    step consumes a character. *)
Fixpoint trim_fraction_fuel (fuel : nat) (s : string) : string :=
  match fuel, s with
  | S fuel', String a s' =>
      let '(digits, r) := span_digits s' in
      if Ascii.eqb a "." && Nat.leb 7 (String.length digits) && (startswith "Z" r || is_offset_tail r)
      then "." +:+ string_take 6 digits +:+ trim_fraction_fuel fuel' r
      else String a (trim_fraction_fuel fuel' s')
  | _, _ => s
  end.
Definition trim_fraction (s : string) : string := trim_fraction_fuel (String.length s) s.

(** [s.replace("Z", "+00:00")] *)
Fixpoint replace_zulu (s : string) : string :=
  match s with
  | "" => ""
  | String a s' => (if Ascii.eqb a "Z" then "+00:00" else String a "") +:+ replace_zulu s'
  end.

Section anchors.
Context (iso_other : string → option datetime).

(** [scripts/ops/audit_anchor_verify.py:143-150] parse_timestamp *)
Definition parse_timestamp (value : jval) : result datetime :=
  match value with
  | JStr s => catch (fromisoformat iso_other (replace_zulu (trim_fraction s))) ExcValueError
                (λ _, anchor_error "audit anchor timestamp is invalid")
  | _ => anchor_error "audit anchor timestamp is invalid"
  end.

(** [a < b]: two naive datetimes compare by wall clock, two aware ones by
    instant, and a naive with an aware one not at all. *)
Definition dt_less (a b : datetime) : result bool :=
  if Bool.eqb (is_naive a) (is_naive b) then Ok (dt_ltb a b)
  else throw ExcTypeError "can't compare offset-naive and offset-aware datetimes".

(** [anchored_at < previous.anchored_at], false without a previous one. *)
Definition regressed (previous : option datetime) (anchored_at : datetime) : result bool :=
  match previous with Some p => dt_less anchored_at p | None => Ok false end.

(** [scripts/ops/audit_anchor_verify.py:106-134] verify_next_anchor

    [file] is the name of the anchor file with what reading it gives. *)
Definition verify_next_anchor (file : string * result string) (expected_sequence : Z)
    (previous : VerificationState) (options : VerificationOptions) : result VerificationState :=
  match anchor_number file.1 with
  | None => throw ExcAssertionError ""
  | Some number =>
  _ ← raise_if (negb (number =? expected_sequence)) ExcAuditAnchorError
        "audit anchor filename sequence is not contiguous";
  anchor ← read_anchor file.1 file.2;
  _ ← raise_if (negb (py_eq (obj_get anchor "sequence") (JInt expected_sequence))) ExcAuditAnchorError
        "audit anchor content sequence does not match filename";
  _ ← raise_if (negb (py_eq (obj_get anchor "previousAnchorHash") (JStr (vs_anchor_hash previous))))
        ExcAuditAnchorError "audit anchor previous hash does not match";
  match as_int (obj_get anchor "recordCount") with
  | None => anchor_error "audit anchor record count regressed"
  | Some record_count =>
  _ ← raise_if (record_count <? vs_record_count previous) ExcAuditAnchorError
        "audit anchor record count regressed";
  anchored_at ← parse_timestamp (obj_get anchor "anchoredAt");
  back ← regressed (vs_anchored_at previous) anchored_at;
  _ ← raise_if back ExcAuditAnchorError "audit anchor timestamp regressed";
  _ ← raise_if match vo_expected_commit options with
               | Some c => negb (py_eq (obj_get anchor "sourceCommit") (JStr c))
               | None => false
               end ExcAuditAnchorError "audit anchor source commit does not match";
  anchor_hash ← verify_anchor_record anchor (vo_key options);
  Ok (mkState expected_sequence anchor_hash record_count (Some anchored_at))
  end end.

(** [scripts/ops/audit_anchor_verify.py:137-140] verify_checkpoint *)
Definition verify_checkpoint (name : string) (text : result string) (sequence : Z) (anchor_hash : string)
    : result () :=
  checkpoint ← read_anchor name text;
  raise_if (negb (py_eq (obj_get checkpoint "sequence") (JInt sequence))
            || negb (py_eq (obj_get checkpoint "anchorHash") (JStr anchor_hash)))
    ExcAuditAnchorError "audit anchor checkpoint does not match latest anchor".

(** The loop [for expected_sequence, path in enumerate(paths, start=1)]. *)
Fixpoint verify_anchors (files : list (string * result string)) (expected_sequence : Z)
    (state : VerificationState) (options : VerificationOptions) : result VerificationState :=
  match files with
  | [] => Ok state
  | file :: files' =>
      state ← verify_next_anchor file expected_sequence state options;
      verify_anchors files' (expected_sequence + 1) state options
  end.

Definition name_le (a b : string * result string) : Prop := String.leb a.1 b.1 = true.
#[local] Instance name_le_dec : RelDecision name_le.
Proof. intros a b. unfold name_le. apply _. Defined.

(** [scripts/ops/audit_anchor_verify.py:83-103] verify_anchor_directory

    [directory] is [None] when it is missing, else its entries in any order. *)
Definition verify_anchor_directory (directory : option (list (string * result string)))
    (key : list byte) (expected_commit : option string) (checkpoint : option (string * result string))
    : result Z :=
  match directory with
  | None => anchor_error "audit anchor directory is missing"
  | Some entries =>
  let matches := λ file : string * result string, bool_decide (anchor_number file.1 ≠ None) in
  _ ← raise_if (existsb (λ file, anchor_glob file.1 && negb (matches file)) entries) ExcAuditAnchorError
        "malformed audit anchor filename is present";
  let paths := merge_sort name_le (filter (λ file, matches file = true) entries) in
  _ ← raise_if (match paths with [] => true | _ => false end) ExcAuditAnchorError
        "no audit anchors are available";
  state ← verify_anchors paths 1 initial_state (mkOptions key expected_commit);
  _ ← match checkpoint with
      | Some (name, text) => verify_checkpoint name text (vs_sequence state) (vs_anchor_hash state)
      | None => Ok ()
      end;
  Ok (Z.of_nat (length paths))
  end.

(** ** [verify_audit_recovery.py] *)

(** The [recordHash] of the last record, or the genesis hash. *)
Definition chain_head (records : list record) : jval :=
  match last records with Some r => obj_get r "recordHash" | None => JStr GENESIS_HASH end.

(** [a != b] of two record lists. *)
Definition records_eq (a b : list record) : bool := py_eq (JList (map JObj a)) (JList (map JObj b)).

(** [scripts/ops/verify_audit_recovery.py:14-27] verify_recovery *)
Definition verify_recovery (original restored : result string) (anchor_text : result string)
    (key : key_file) : result Z :=
  original_records ← read_json_lines original;
  restored_records ← read_json_lines restored;
  _ ← verify_records original_records;
  _ ← verify_records restored_records;
  _ ← raise_if (negb (records_eq original_records restored_records)) ExcValueError
        "restored audit records differ from the source export";
  text ← anchor_text;
  value ← json_loads text;
  count ← j_get value "recordCount";
  let record_count := Z.of_nat (length restored_records) in
  head ← (if py_eq count (JInt record_count) then j_get value "chainHead" else Ok JNull);
  _ ← raise_if (negb (py_eq count (JInt record_count)) || negb (py_eq head (chain_head restored_records)))
        ExcValueError "external anchor does not bind the restored chain head";
  match value with
  | JObj anchor =>
      key ← require_private_key key;
      _ ← verify_anchor_record anchor key;
      Ok record_count
  | _ => throw ExcAttributeError "get"
  end.
End anchors.
End audit.

(** ** The record chain *)

Definition text_of (v : jval) : string := match v with JStr s => s | _ => "" end.

(** The hash a record or an anchor says it follows. *)
Definition previous_hash (r : record) : string := text_of (obj_get r "previousHash").
Definition previous_anchor_hash (a : record) : string := text_of (obj_get a "previousAnchorHash").

Definition record_hash (r : record) : jval := obj_get r "recordHash".

Section audit_facts.
Context (sha256 : list byte → string) (hmac : list byte → list byte → string).
Context (json_dumps : record → string) (json_loads : string → result jval).
Context (py_repr : jval → string).
#[local] Notation payload := (canonical_payload json_dumps).
#[local] Notation verify_records := (verify_records sha256 json_dumps).

Lemma verify_record_Ok g k r s :
  verify_record sha256 json_dumps (JStr g, k) r = Ok s →
  py_eq (obj_get r "sequence") (JInt k) = true ∧ previous_hash r = g
  ∧ obj_get r "recordHash" = JStr (sha256 (payload r)) ∧ s = (JStr (sha256 (payload r)), k + 1).
Proof.
  unfold verify_record, previous_hash. intros H. inv_ok.
  repeat match goal with H : negb _ = false |- _ => apply negb_false_iff in H end.
  rewrite !py_eq_str in *. subst s.
  repeat match goal with H : obj_get _ _ = JStr _ |- _ => rewrite H end. done.
Qed.

Lemma verify_records_linked g k rs s :
  for_in (verify_record sha256 json_dumps) (JStr g, k) rs = Ok s →
  ∃ h, s = (JStr h, k + Z.of_nat (length rs)) ∧ linked previous_hash payload sha256 g rs h
  ∧ (∀ i r, rs !! i = Some r → py_eq (obj_get r "sequence") (JInt (k + Z.of_nat i)) = true
            ∧ obj_get r "recordHash" = JStr (sha256 (payload r)))
  ∧ last (JStr g :: map record_hash rs) = Some (JStr h).
Proof.
  revert g k. induction rs as [|r rs IH]; intros g k; cbn.
  { intros [= <-]. exists g. rewrite Z.add_0_r. split_and!; try done. }
  rewrite bind_Ok. intros (s1 & (Hs & Hp & Hr & ->)%verify_record_Ok & H).
  destruct (IH _ _ H) as (h & -> & Hl & Hall & Hlast). exists h. split_and!; [f_equal; lia|done|done| |].
  - intros [|i] r' Hi; cbn in Hi.
    + injection Hi as <-. by rewrite Z.add_0_r.
    + destruct (Hall _ _ Hi) as [H1 H2]. split; [|done].
      replace (k + Z.of_nat (S i)) with (k + 1 + Z.of_nat i) by lia. done.
  - unfold record_hash at 1. rewrite Hr. exact Hlast.
Qed.

Lemma chain_head_last rs : last (JStr GENESIS_HASH :: map record_hash rs) = Some (chain_head rs).
Proof.
  unfold chain_head. destruct rs as [|r rs _] using rev_ind; [done|].
  rewrite last_snoc, map_app. cbn [map]. rewrite app_comm_cons. apply last_snoc.
Qed.

(** The facts a verified export carries. *)
Lemma verify_records_Ok rs n :
  verify_records rs = Ok n →
  n = Z.of_nat (length rs) ∧ ∃ h, linked previous_hash payload sha256 GENESIS_HASH rs h
  ∧ chain_head rs = JStr h
  ∧ ∀ i r, rs !! i = Some r → py_eq (obj_get r "sequence") (JInt (1 + Z.of_nat i)) = true
           ∧ obj_get r "recordHash" = JStr (sha256 (payload r)).
Proof.
  unfold AuditChain.verify_records. intros H. inv_ok.
  destruct (verify_records_linked _ _ _ _ Ha) as (h & _ & Hl & Hall & Hlast).
  split; [done|]. exists h. split_and!; [done| |done].
  rewrite chain_head_last in Hlast. by injection Hlast.
Qed.

(** C7: the head hash of a verified export binds its content: two exports of
    the same length that verify and end in the same hash hold the same canonical
    payloads in the same order, or exhibit two payloads SHA-256 does not
    separate; and the records of a verified export are numbered from one. *)
Theorem audit_chain_binds rs1 rs2 n :
  (∀ r1 r2, r1 ∈ rs1 → r2 ∈ rs2 → payload r1 = payload r2 →
     obj_get r1 "previousHash" = obj_get r2 "previousHash") →
  verify_records rs1 = Ok n → verify_records rs2 = Ok n → chain_head rs1 = chain_head rs2 →
  (payload <$> rs1 = payload <$> rs2
   ∨ ∃ r1 r2, r1 ∈ rs1 ∧ r2 ∈ rs2 ∧ payload r1 ≠ payload r2 ∧ sha256 (payload r1) = sha256 (payload r2))
  ∧ ∀ i r, rs1 !! i = Some r → py_eq (obj_get r "sequence") (JInt (1 + Z.of_nat i)) = true.
Proof.
  intros Hprev H1 H2 Hh.
  apply verify_records_Ok in H1 as (Hn1 & h1 & Hl1 & Hc1 & Hs1).
  apply verify_records_Ok in H2 as (Hn2 & h2 & Hl2 & Hc2 & _).
  split; [|intros i r Hi; by apply (Hs1 i r)].
  eapply (linked_binds previous_hash payload sha256 GENESIS_HASH h1); [|done| |lia].
  - intros r1 r2 Hr1 Hr2 Hp. unfold previous_hash. by rewrite (Hprev r1 r2).
  - replace h1 with h2 by congruence. done.
Qed.

(** ** The anchors *)

Context (iso_other : string → option datetime).
#[local] Notation verify_next := (verify_next_anchor sha256 hmac json_loads py_repr iso_other).
#[local] Notation verify_list := (verify_anchors sha256 hmac json_loads py_repr iso_other).

(** The hash of an anchor's canonical payload. *)
Definition anchor_bytes (a : record) : list byte :=
  match anchor_payload py_repr a with Ok p => p | Raise _ => [] end.

(** What one accepted anchor says about itself. *)
Record anchor_sound (options : VerificationOptions) (i : Z) (file : string * result string) (a : record)
    : Prop := {
  as_number : anchor_number file.1 = Some i;
  as_read : read_anchor json_loads file.1 file.2 = Ok a;
  as_sequence : py_eq (obj_get a "sequence") (JInt i) = true;
  as_fields : ∀ f, f ∈ PAYLOAD_FIELDS → dict_get a f ≠ None;
  as_hash : py_str py_repr (get_or_empty a "anchorHash") = sha256 (anchor_bytes a);
  as_signature : py_str py_repr (get_or_empty a "signature")
                 = hmac (vo_key options) (utf8_encode (sha256 (anchor_bytes a)));
  as_commit : ∀ c, vo_expected_commit options = Some c → obj_get a "sourceCommit" = JStr c
}.

(** Record counts that never fall, from [n]. *)
Fixpoint counts_grow (n : Z) (l : list record) : Prop :=
  match l with
  | [] => True
  | a :: l' => ∃ c, as_int (obj_get a "recordCount") = Some c ∧ n <= c ∧ counts_grow c l'
  end.

(** Timestamps that never fall. *)
Fixpoint times_grow (prev : option datetime) (l : list record) : Prop :=
  match l with
  | [] => True
  | a :: l' => ∃ t, parse_timestamp iso_other (obj_get a "anchoredAt") = Ok t
               ∧ regressed prev t = Ok false ∧ times_grow (Some t) l'
  end.

Lemma compare_digest_Ok a b : compare_digest a b = Ok true → a = b.
Proof. unfold compare_digest. case_if; [|done]. intros [= H]. by apply String.eqb_eq. Qed.

Lemma anchor_payload_Ok a p : anchor_payload py_repr a = Ok p →
  ∀ f, f ∈ PAYLOAD_FIELDS → dict_get a f ≠ None.
Proof.
  unfold anchor_payload. intros H f [i Hf]%list_elem_of_lookup. inv_ok.
  apply mapM_Ok in Ha. destruct (Forall2_lookup_l _ _ _ _ _ Ha Hf) as (v & _ & Hv).
  unfold payload_field in Hv. by destruct (dict_get a f).
Qed.

Lemma verify_anchor_record_Ok a key h :
  verify_anchor_record sha256 hmac py_repr a key = Ok h →
  h = sha256 (anchor_bytes a) ∧ (∀ f, f ∈ PAYLOAD_FIELDS → dict_get a f ≠ None)
  ∧ py_str py_repr (get_or_empty a "anchorHash") = h
  ∧ py_str py_repr (get_or_empty a "signature") = hmac key (utf8_encode h).
Proof.
  unfold verify_anchor_record, anchor_bytes. intros H.
  apply bind_Ok in H as (p & Hp & H). rewrite Hp.
  apply bind_Ok in H as ([] & H1 & H); [|done]. apply bind_Ok in H as ([] & H2 & H); [|done].
  injection H as <-. apply compare_digest_Ok in H1, H2. split_and!; [done| |congruence|congruence].
  by eapply anchor_payload_Ok.
Qed.

Lemma verify_next_anchor_Ok file i st options st' :
  verify_next file i st options = Ok st' →
  ∃ a c t, anchor_sound options i file a
  ∧ previous_anchor_hash a = vs_anchor_hash st
  ∧ as_int (obj_get a "recordCount") = Some c ∧ vs_record_count st <= c
  ∧ parse_timestamp iso_other (obj_get a "anchoredAt") = Ok t ∧ regressed (vs_anchored_at st) t = Ok false
  ∧ st' = mkState i (sha256 (anchor_bytes a)) c (Some t).
Proof.
  unfold verify_next_anchor. intros H.
  destruct (anchor_number file.1) as [number|] eqn:Hn; [|done].
  apply bind_Ok in H as (u1 & G1 & H). apply bind_Ok in H as (a & Hr & H).
  apply bind_Ok in H as (u2 & G2 & H). apply bind_Ok in H as (u3 & G3 & H).
  destruct (as_int (obj_get a "recordCount")) as [c|] eqn:Hc; [|done].
  apply bind_Ok in H as (u4 & G4 & H). apply bind_Ok in H as (t & Ht & H).
  apply bind_Ok in H as (back & Hb & H). apply bind_Ok in H as (u5 & G5 & H).
  apply bind_Ok in H as (u6 & G6 & H). apply bind_Ok in H as (h & Hh & [= <-]).
  apply raise_if_Ok in G1, G2, G3, G4, G5, G6. split_bools. subst back number.
  apply verify_anchor_record_Ok in Hh as (-> & Hf & Hah & Hsig).
  apply py_eq_str in G3. exists a, c, t. split_and!; try done.
  - split; try done. intros cm Hcm. rewrite Hcm in G6. split_bools. by apply py_eq_str.
  - unfold previous_anchor_hash. by rewrite G3.
Qed.

Lemma verify_anchors_Ok files i st options st' :
  verify_list files i st options = Ok st' →
  ∃ anchors, length anchors = length files
  ∧ (∀ j file a, files !! j = Some file → anchors !! j = Some a → anchor_sound options (i + Z.of_nat j) file a)
  ∧ linked previous_anchor_hash anchor_bytes sha256 (vs_anchor_hash st) anchors (vs_anchor_hash st')
  ∧ counts_grow (vs_record_count st) anchors ∧ times_grow (vs_anchored_at st) anchors
  ∧ (files ≠ [] → vs_sequence st' = i + Z.of_nat (length files) - 1).
Proof.
  revert i st. induction files as [|file files IH]; intros i st; cbn [verify_anchors].
  { intros [= <-]. exists []. split_and!; done. }
  rewrite bind_Ok. intros (st1 & (a & c & t & Ha & Hp & Hc & Hle & Ht & Hg & ->)%verify_next_anchor_Ok & H).
  destruct (IH _ _ H) as (anchors & Hlen & Hall & Hl & Hcs & Hts & Hseq). cbn in *.
  exists (a :: anchors). cbn. split_and!; try done; [lia| |by exists c|by exists t|].
  - intros [|j] f b Hf Hb; cbn in *.
    + simplify_eq. by rewrite Z.add_0_r.
    + replace (i + Z.of_nat (S j)) with (i + 1 + Z.of_nat j) by lia. by apply Hall.
  - intros _. destruct files as [|f files].
    + cbn in *. injection H as <-. cbn. lia.
    + rewrite Hseq by done. cbn. lia.
Qed.

(** C10: a directory that verifies holds anchors numbered one to [n] without a
    gap, each read from its own file, signed with the key, chained from the
    genesis hash, with record counts and timestamps that never fall and the
    expected commit; no anchor file is left out, and an independent checkpoint
    names the last sequence and the last hash, so a truncated tail is refused. *)
Theorem anchor_directory_sound entries key commit checkpoint n :
  verify_anchor_directory sha256 hmac json_loads py_repr iso_other (Some entries) key commit checkpoint = Ok n →
  ∃ files anchors head,
    files ≡ₚ filter (λ file, bool_decide (anchor_number file.1 ≠ None) = true) entries
    ∧ n = Z.of_nat (length files) ∧ length anchors = length files ∧ 0 < n
    ∧ (∀ i file a, files !! i = Some file → anchors !! i = Some a →
         anchor_sound (mkOptions key commit) (1 + Z.of_nat i) file a)
    ∧ linked previous_anchor_hash anchor_bytes sha256 GENESIS_HASH anchors head
    ∧ counts_grow (-1) anchors ∧ times_grow None anchors
    ∧ ∀ name text, checkpoint = Some (name, text) →
        ∃ cp, read_anchor json_loads name text = Ok cp
              ∧ py_eq (obj_get cp "sequence") (JInt n) = true ∧ obj_get cp "anchorHash" = JStr head.
Proof.
  unfold verify_anchor_directory. intros H.
  apply bind_Ok in H as (u1 & _ & H). apply bind_Ok in H as (u2 & G2 & H).
  set (files := merge_sort _ _) in *.
  apply bind_Ok in H as (st & Hv & H). apply bind_Ok in H as (u3 & Hcp & [= <-]).
  apply raise_if_Ok in G2. assert (Hne : files ≠ []) by (intros E; by rewrite E in G2).
  destruct (verify_anchors_Ok _ _ _ _ _ Hv) as (anchors & Hlen & Hall & Hl & Hcs & Hts & Hseq).
  specialize (Hseq Hne).
  exists files, anchors, (vs_anchor_hash st). split_and!; try done.
  - apply merge_sort_Permutation.
  - destruct files; [done|cbn; lia].
  - intros name text ->. unfold verify_checkpoint in Hcp.
    apply bind_Ok in Hcp as (cp & Hr & G). apply raise_if_Ok in G. split_bools.
    exists cp. split_and!; [done| |by apply py_eq_str].
    replace (Z.of_nat (length files)) with (vs_sequence st) by lia. done.
Qed.

Lemma verify_recovery_Ok original restored anchor_text key_file n :
  verify_recovery sha256 hmac json_dumps json_loads py_repr original restored anchor_text key_file = Ok n →
  ∃ os rs anchor key head,
    read_json_lines json_loads original = Ok os ∧ read_json_lines json_loads restored = Ok rs
    ∧ records_eq os rs = true ∧ n = Z.of_nat (length rs)
    ∧ linked previous_hash payload sha256 GENESIS_HASH rs head
    ∧ (text ← anchor_text; json_loads text) = Ok (JObj anchor)
    ∧ py_eq (obj_get anchor "recordCount") (JInt n) = true ∧ obj_get anchor "chainHead" = JStr head
    ∧ require_private_key key_file = Ok key
    ∧ py_str py_repr (get_or_empty anchor "anchorHash") = sha256 (anchor_bytes anchor)
    ∧ py_str py_repr (get_or_empty anchor "signature") = hmac key (utf8_encode (sha256 (anchor_bytes anchor))).
Proof.
  unfold verify_recovery. intros H.
  apply bind_Ok in H as (os & Ho & H). apply bind_Ok in H as (rs & Hr & H).
  apply bind_Ok in H as (n1 & _ & H). apply bind_Ok in H as (n2 & V2 & H).
  apply bind_Ok in H as (u1 & G1 & H). apply bind_Ok in H as (text & Ht & H).
  apply bind_Ok in H as (value & Hv & H). apply bind_Ok in H as (count & Hc & H).
  apply bind_Ok in H as (hd & Hh & H). apply bind_Ok in H as (u2 & G2 & H).
  apply verify_records_Ok in V2 as (-> & head & Hl & Hhead & _).
  apply raise_if_Ok in G1, G2. split_bools.
  destruct value as [| | | | | |anchor]; try done.
  apply bind_Ok in H as (key & Hk & H). apply bind_Ok in H as (ah & Ha & [= <-]).
  apply verify_anchor_record_Ok in Ha as (-> & _ & Hanc & Hsgn).
  cbn in Hc. injection Hc as <-.
  repeat match goal with H : py_eq _ _ = true |- _ => rewrite H in Hh end.
  cbn in Hh. injection Hh as <-.
  exists os, rs, anchor, key, head. split_and!; try done.
  - by rewrite Ht.
  - rewrite Hhead in *. by apply py_eq_str.
Qed.

(** a recovery that verifies has restored the exported records: they form
    a chain from the genesis hash to the very head that the signed anchor names,
    their number is the anchored one, and the anchor's hash and signature are
    those of its own content under the stripped key. *)
Theorem recovery_binds_head original restored anchor_text key_file n :
  verify_recovery sha256 hmac json_dumps json_loads py_repr original restored anchor_text key_file = Ok n →
  ∃ os rs anchor key head,
    read_json_lines json_loads original = Ok os ∧ read_json_lines json_loads restored = Ok rs
    ∧ records_eq os rs = true ∧ n = Z.of_nat (length rs)
    ∧ linked previous_hash payload sha256 GENESIS_HASH rs head
    ∧ (text ← anchor_text; json_loads text) = Ok (JObj anchor)
    ∧ py_eq (obj_get anchor "recordCount") (JInt n) = true ∧ obj_get anchor "chainHead" = JStr head
    ∧ require_private_key key_file = Ok key
    ∧ py_str py_repr (get_or_empty anchor "anchorHash") = sha256 (anchor_bytes anchor)
    ∧ py_str py_repr (get_or_empty anchor "signature") = hmac key (utf8_encode (sha256 (anchor_bytes anchor))).
Proof. apply verify_recovery_Ok. Qed.
End audit_facts.

(** ** Examples *)

Definition example_show (v : jval) : string :=
  match v with JStr s => s | JInt n => str_of_Z n | _ => "?" end.
Definition example_dumps (r : record) : string :=
  join "," (map (λ kv, kv.1 +:+ "=" +:+ example_show kv.2) r).
Definition example_sha (b : list byte) : string := String.string_of_list_byte b.
Definition example_hmac (key msg : list byte) : string := "signed".

Definition example_unhashed (i : Z) (prev code : string) : record :=
  [("sequence", JInt i); ("previousHash", JStr prev); ("eventCode", JStr code)].
Definition example_record (i : Z) (prev code : string) : record :=
  example_unhashed i prev code
  ++ [("recordHash", JStr (calculate_record_hash example_sha example_dumps (example_unhashed i prev code)))].
Definition example_first : record := example_record 1 GENESIS_HASH "AUTH_DENIED".
Definition example_second : record :=
  example_record 2 (text_of (obj_get example_first "recordHash")) "LOGIN_OK".

Definition example_anchor_fields (at_time : string) : record :=
  [("sequence", JInt 1); ("previousAnchorHash", JStr GENESIS_HASH);
   ("chainHead", chain_head [example_first; example_second]); ("recordCount", JInt 2);
   ("anchoredAt", JStr at_time); ("sourceCommit", JStr "abc")].
Definition example_anchor (at_time : string) : record :=
  example_anchor_fields at_time
  ++ [("anchorHash", JStr (example_sha (anchor_bytes example_show (example_anchor_fields at_time))));
      ("signature", JStr "signed")].

Definition example_loads (line : string) : result jval :=
  if String.eqb line "first" then Ok (JObj example_first)
  else if String.eqb line "second" then Ok (JObj example_second)
  else if String.eqb line "anchor" then Ok (JObj (example_anchor "2026-09-21T00:01:00.123456789Z"))
  else if String.eqb line "local" then Ok (JObj (example_anchor "2026-09-21T00:01:00"))
  else throw ExcJSONDecodeError line.

Definition example_export : result string := Ok ("first" +:+ String "010" "second").
Definition example_key : key_file := mkKeyFile true 33 384 (utf8_encode "0123456789abcdef0123456789abcdef").

Lemma audit_chain_binds_witness :
  let rs := [example_first; example_second] in
  (canonical_payload example_dumps <$> rs = canonical_payload example_dumps <$> rs
   ∨ ∃ r1 r2, r1 ∈ rs ∧ r2 ∈ rs ∧ canonical_payload example_dumps r1 ≠ canonical_payload example_dumps r2
       ∧ example_sha (canonical_payload example_dumps r1) = example_sha (canonical_payload example_dumps r2))
  ∧ ∀ i r, rs !! i = Some r → py_eq (obj_get r "sequence") (JInt (1 + Z.of_nat i)) = true.
Proof.
  intros rs. apply (audit_chain_binds example_sha example_dumps rs rs 2).
  - intros r1 r2 H1 H2. unfold rs in H1, H2. rewrite !elem_of_cons, elem_of_nil in H1, H2.
    destruct H1 as [->|[->|[]]], H2 as [->|[->|[]]]; intros Hp; vm_compute in Hp |- *;
      first [reflexivity|discriminate Hp].
  - vm_compute. reflexivity.
  - vm_compute. reflexivity.
  - reflexivity.
Defined.

Lemma anchor_directory_sound_witness :
  ∃ files anchors head,
    files ≡ₚ filter (λ file : string * result string, bool_decide (anchor_number file.1 ≠ None) = true)
               [("anchor-00000000000000000001.json", Ok "anchor"); ("README", Ok "")]
    ∧ 1 = Z.of_nat (length files) ∧ length anchors = length files ∧ 0 < 1
    ∧ (∀ i file a, files !! i = Some file → anchors !! i = Some a →
         anchor_sound example_sha example_hmac example_loads example_show
           (mkOptions [] (Some "abc")) (1 + Z.of_nat i) file a)
    ∧ linked previous_anchor_hash (anchor_bytes example_show) example_sha GENESIS_HASH anchors head
    ∧ counts_grow (-1) anchors ∧ times_grow (λ _, None) None anchors
    ∧ ∀ name text, None = Some (name, text) →
        ∃ cp, read_anchor example_loads name text = Ok cp
              ∧ py_eq (obj_get cp "sequence") (JInt 1) = true ∧ obj_get cp "anchorHash" = JStr head.
Proof.
  apply (anchor_directory_sound example_sha example_hmac example_loads example_show (λ _, None)
           [("anchor-00000000000000000001.json", Ok "anchor"); ("README", Ok "")] [] (Some "abc") None 1).
  vm_compute. reflexivity.
Defined.

Lemma recovery_binds_head_witness :
  ∃ os rs anchor key head,
    read_json_lines example_loads example_export = Ok os
    ∧ read_json_lines example_loads example_export = Ok rs
    ∧ records_eq os rs = true ∧ 2 = Z.of_nat (length rs)
    ∧ linked previous_hash (canonical_payload example_dumps) example_sha GENESIS_HASH rs head
    ∧ (text ← Ok "anchor"; example_loads text) = Ok (JObj anchor)
    ∧ py_eq (obj_get anchor "recordCount") (JInt 2) = true ∧ obj_get anchor "chainHead" = JStr head
    ∧ require_private_key example_key = Ok key
    ∧ py_str example_show (get_or_empty anchor "anchorHash") = example_sha (anchor_bytes example_show anchor)
    ∧ py_str example_show (get_or_empty anchor "signature")
      = example_hmac key (utf8_encode (example_sha (anchor_bytes example_show anchor))).
Proof.
  apply (recovery_binds_head example_sha example_hmac example_dumps example_loads example_show
           example_export example_export (Ok "anchor") example_key 2).
  vm_compute. reflexivity.
Defined.

(** A key file of 32 spaces passes the size check, which is made before the
    contents are stripped, and signs with the empty key. *)
Lemma whitespace_key_accepted :
  require_private_key (mkKeyFile true 32 384 (repeat Byte.x20 32)) = Ok [].
Proof. reflexivity. Qed.

(** A timestamp without an offset after one with an offset (or before) leaves
    the verifier with a [TypeError], not the audit error its callers expect. *)
Lemma mixed_timezone_escapes :
  verify_next_anchor example_sha example_hmac example_loads example_show (λ _, None)
    ("anchor-00000000000000000001.json", Ok "local") 1
    (mkState 0 GENESIS_HASH 0 (Some (mkDatetime 0 (Some 0)))) (mkOptions [] None)
  = throw ExcTypeError "can't compare offset-naive and offset-aware datetimes".
Proof. vm_compute. reflexivity. Qed.

(** A record whose text holds U+2028, which [json.dumps(ensure_ascii=False)]
    leaves as it is, is not one line for the reader. *)
Lemma line_separator_splits_record :
  length (splitlines ("{" +:+ String "226" (String "128" (String "168" "}")))) = 2%nat.
Proof. reflexivity. Qed.
