(* ===== verification/Backfill.v ===== *)
(** The telemetry identity backfill: [scripts/ops/telemetry_backfill_safety.py]
    and [scripts/ops/telemetry_identity_backfill.py].

    The database is an interface ([HistoryDb]) of the four statements the tool
    runs, each inside a transaction that a raised exception rolls back; its laws
    ([HistoryDbLaws]) state what PostgreSQL does with them while no other session
    holds locks.  The environment and the files are records of functions, the
    JSON parser, SHA-256 and percent-decoding parameters. *)

From stdpp Require Import base list strings.
From Stdlib Require Import ZArith Lia Ascii Strings.Byte.
From S2P Require Import Prelude PyStr PyTime PyTimeParse PyJson PyText Url Host.

#[local] Open Scope Z_scope.

(** [scripts/ops/telemetry_backfill_safety.py:16-20] LOCAL_HOSTS *)
Definition LOCAL_HOSTS : list string := ["127.0.0.1"; "localhost"; "postgres"].
Definition LOCAL_DATABASES : list string := ["gcs_identity_backfill_smoke"; "gcs_ownership_smoke"].
Definition BACKUP_MAX_AGE : Z := 24 * 3600 * 1000000.

(** [scripts/ops/telemetry_backfill_safety.py:23-41] BackfillErrorCode *)
Inductive BackfillErrorCode : Type :=
  | POSIX_FILE_BOUNDARY_REQUIRED
  | SERVER01_TARGET_REQUIRED
  | DATABASE_RESPONSE_INVALID
  | BACKFILL_BOUNDS_INVALID
  | FINALIZE_REQUIRES_RUN
  | PRIVATE_FILE_INVALID
  | PRIVATE_FILE_PERMISSIONS_INVALID
  | DATABASE_SECRET_SIZE_INVALID
  | DATABASE_TARGET_INVALID
  | LOCAL_FIXTURE_TARGET_INVALID
  | DATABASE_TLS_REQUIRED
  | BACKUP_EVIDENCE_INVALID
  | BACKUP_CHECKSUM_MISMATCH
  | BACKUP_RESTORE_UNVERIFIED
  | BACKUP_EVIDENCE_EXPIRED
  | MAINTENANCE_WINDOW_REQUIRED
  | UNEXPECTED_TELEMETRY_PRIMARY_KEY
  | BACKFILL_INCOMPLETE.

Definition code_value (c : BackfillErrorCode) : string :=
  match c with
  | POSIX_FILE_BOUNDARY_REQUIRED => "posix_file_boundary_required"
  | SERVER01_TARGET_REQUIRED => "server01_target_required"
  | DATABASE_RESPONSE_INVALID => "database_response_invalid"
  | BACKFILL_BOUNDS_INVALID => "backfill_bounds_invalid"
  | FINALIZE_REQUIRES_RUN => "finalize_requires_run"
  | PRIVATE_FILE_INVALID => "private_file_invalid"
  | PRIVATE_FILE_PERMISSIONS_INVALID => "private_file_permissions_invalid"
  | DATABASE_SECRET_SIZE_INVALID => "database_secret_size_invalid"
  | DATABASE_TARGET_INVALID => "database_target_invalid"
  | LOCAL_FIXTURE_TARGET_INVALID => "local_fixture_target_invalid"
  | DATABASE_TLS_REQUIRED => "database_tls_required"
  | BACKUP_EVIDENCE_INVALID => "backup_evidence_invalid"
  | BACKUP_CHECKSUM_MISMATCH => "backup_checksum_mismatch"
  | BACKUP_RESTORE_UNVERIFIED => "backup_restore_unverified"
  | BACKUP_EVIDENCE_EXPIRED => "backup_evidence_expired"
  | MAINTENANCE_WINDOW_REQUIRED => "maintenance_window_required"
  | UNEXPECTED_TELEMETRY_PRIMARY_KEY => "unexpected_telemetry_primary_key"
  | BACKFILL_INCOMPLETE => "backfill_incomplete"
  end.

(** [scripts/ops/telemetry_backfill_safety.py:44-46] IdentityBackfillError *)
Definition backfill_error {A} (c : BackfillErrorCode) : result A :=
  throw ExcIdentityBackfillError (code_value c).

(** [if b: raise IdentityBackfillError(c)] *)
Definition reject_if (b : bool) (c : BackfillErrorCode) : result () :=
  raise_if b ExcIdentityBackfillError (code_value c).

(** [scripts/ops/telemetry_backfill_safety.py:49-55] BackfillOptions

    The command line gives both bounds as integers. *)
Record BackfillOptions : Type := mkBackfillOptions {
  bo_run : bool;
  bo_finalize : bool;
  bo_local_fixture : bool;
  bo_batch_size : Z;
  bo_max_batches : Z
}.

(** [scripts/ops/telemetry_backfill_safety.py:57-63] BackfillOptions.validate *)
Definition validate_options (o : BackfillOptions) : result () :=
  _ ← reject_if (negb ((1 <=? bo_batch_size o) && (bo_batch_size o <=? 10000))
                 || negb ((1 <=? bo_max_batches o) && (bo_max_batches o <=? 1000)))
        BACKFILL_BOUNDS_INVALID;
  reject_if (bo_finalize o && negb (bo_run o)) FINALIZE_REQUIRES_RUN.

Section safety.
Context (os : host) (json_loads : string → result jval) (sha256 : list byte → string).
Context (unquote_percent unicode_lower : string → string) (bracketed_netloc_ok nfkc_ok : string → bool).
Context (strptime_other : string → option datetime).

(** [scripts/ops/telemetry_backfill_safety.py:66-78] private_file *)
Definition private_file (path : fs_path) (runtime_acl : bool) : result file_info :=
  let metadata := os_file os path in
  _ ← reject_if (negb (os_posix os)) POSIX_FILE_BOUNDARY_REQUIRED;
  _ ← reject_if (negb (p_absolute path) || f_is_symlink metadata || negb (f_is_file metadata))
        PRIVATE_FILE_INVALID;
  let permissions := f_mode metadata in
  let allowed_group := runtime_acl && (f_gid metadata =? 10050)
                       && bool_decide (f_gid metadata ∈ os_groups os) in
  _ ← reject_if (negb (bool_decide (f_uid metadata ∈ [0; os_euid os]))
                 || negb (Z.land permissions 31 =? 0)) PRIVATE_FILE_PERMISSIONS_INVALID;
  _ ← reject_if (negb (Z.land permissions 56 =? 0) && negb allowed_group)
        PRIVATE_FILE_PERMISSIONS_INVALID;
  Ok metadata.

(** [os.environ.get(name, default)] *)
Definition getenv (name dflt : string) : string := default dflt (os_env os name).

(** ** The data source name *)

(** [scripts/ops/telemetry_backfill_safety.py:81-102] database_dsn *)
Definition database_dsn (o : BackfillOptions) : result string :=
  dsn ← (if bo_local_fixture o then Ok (getenv "TEST_TELEMETRY_POSTGRES_DSN" "") else
         _ ← reject_if (negb (bool_decide (os_env os "DEPLOYMENT_TARGET" = Some "server01-production")))
               SERVER01_TARGET_REQUIRED;
         secret ← private_file (parse_path (getenv "DATABASE_URL_FILE" "/run/secrets/DATABASE_URL")) true;
         _ ← reject_if (4096 <? f_size secret) DATABASE_SECRET_SIZE_INVALID;
         strip <$> read_text secret);
  let dsn := replace_first "postgresql+psycopg2://" "postgresql://" dsn in
  parsed ← urlsplit bracketed_netloc_ok nfkc_ok dsn;
  let host := hostname unicode_lower parsed in
  _ ← reject_if (negb (String.eqb (url_scheme parsed) "postgresql") || bool_decide (host = None))
        DATABASE_TARGET_INVALID;
  _ ← (if bo_local_fixture o then
         reject_if (negb (bool_decide (default "" host ∈ LOCAL_HOSTS))
                    || negb (bool_decide (lstrip_char "/" (url_path parsed) ∈ LOCAL_DATABASES)))
           LOCAL_FIXTURE_TARGET_INVALID
       else
         let query := parse_qs unquote_percent (url_query parsed) in
         reject_if (negb (bool_decide (qs_get query "sslmode" = ["verify-full"]))
                    || bool_decide (qs_get query "sslrootcert" = [])) DATABASE_TLS_REQUIRED);
  Ok dsn.

(** ** Backup evidence *)

(** [scripts/ops/telemetry_backfill_safety.py:118-146] validate_backup_manifest *)
Definition validate_backup_manifest (manifest : jval) (now : datetime) : result string :=
  match manifest with
  | JObj m =>
      _ ← reject_if (negb (type_is_int (obj_get m "schemaVersion"))
                     || negb (py_eq (obj_get m "schemaVersion") (JInt 1))) BACKUP_EVIDENCE_INVALID;
      _ ← reject_if (negb (forallb (λ key, is_true (obj_get m key))
                       ["restoreVerified"; "previousImagesCaptured"; "composeAndEnvironmentCaptured"]))
            BACKUP_RESTORE_UNVERIFIED;
      _ ← reject_if match obj_get m "sourceTableCount", obj_get m "restoredTableCount" with
                    | JInt count, JInt restored => (count <=? 0) || negb (count =? restored)
                    | _, _ => true
                    end BACKUP_RESTORE_UNVERIFIED;
      match obj_get m "completedAt", obj_get m "sourceCommit", obj_get m "databaseDumpSha256" with
      | JStr completed, JStr source_commit, JStr expected =>
          _ ← reject_if (negb (lower_hex 40 source_commit) || negb (lower_hex 64 expected))
                BACKUP_EVIDENCE_INVALID;
          verified_at ← replace_utc <$> strptime_compact strptime_other completed;
          let age := instant now - instant verified_at in
          _ ← reject_if (negb ((- 60 * 1000000 <=? age) && (age <=? BACKUP_MAX_AGE))) BACKUP_EVIDENCE_EXPIRED;
          Ok expected
      | _, _, _ => backfill_error BACKUP_EVIDENCE_INVALID
      end
  | _ => backfill_error BACKUP_EVIDENCE_INVALID
  end.

(** [scripts/ops/telemetry_backfill_safety.py:105-115] verify_backup *)
Definition verify_backup (path : fs_path) (now : datetime) : result () :=
  evidence ← private_file path false;
  _ ← reject_if (16384 <? f_size evidence) BACKUP_EVIDENCE_INVALID;
  text ← read_text evidence;
  manifest ← json_loads text;
  expected ← validate_backup_manifest manifest now;
  archive ← private_file (sibling path "database.dump") false;
  bytes ← f_bytes archive;
  reject_if (negb (String.eqb (sha256 bytes) expected)) BACKUP_CHECKSUM_MISMATCH.

(** [scripts/ops/telemetry_backfill_safety.py:149-156] require_mutation_authority *)
Definition require_mutation_authority (o : BackfillOptions) (now : datetime) : result () :=
  if negb (bo_run o) || bo_local_fixture o then Ok () else
  _ ← reject_if (negb (bool_decide (os_env os "DEPLOYMENT_TARGET" = Some "server01-production")))
        SERVER01_TARGET_REQUIRED;
  _ ← reject_if (negb (bool_decide (os_env os "GCS_MAINTENANCE_WINDOW_APPROVED" = Some "1")))
        MAINTENANCE_WINDOW_REQUIRED;
  verify_backup (parse_path (getenv "GCS_DB_BACKUP_EVIDENCE" "")) now.
End safety.

(** ** The database *)

(** The statements of the tool.  [run_batch db n] is [BACKFILL_SQL] with limit
    [n] and its row count; a statement that raises leaves the database alone. *)
Class HistoryDb (DB : Type) : Type := {
  run_batch : DB → Z → result (Z * DB);
  read_pending : DB → result (option (list jval));
  read_primary_key : DB → result (option string);
  add_primary_key : DB → result DB
}.

Section tool.
Context {DB : Type} `{HistoryDb DB}.

(** [scripts/ops/telemetry_identity_backfill.py:30-30] EXPECTED_PRIMARY_KEY *)
Definition EXPECTED_PRIMARY_KEY : string := "PRIMARY KEY (event_id)".

(** [scripts/ops/telemetry_identity_backfill.py:33-43] primary_key_ready *)
Definition primary_key_ready (db : DB) : result bool :=
  constraint ← read_primary_key db;
  match constraint with
  | None => Ok false
  | Some c => if String.eqb c EXPECTED_PRIMARY_KEY then Ok true
              else backfill_error UNEXPECTED_TELEMETRY_PRIMARY_KEY
  end.

(** [scripts/ops/telemetry_identity_backfill.py:46-52] pending_history_identifiers *)
Definition pending_history_identifiers (db : DB) : result bool :=
  row ← read_pending db;
  match row with
  | Some [JBool b] => Ok b
  | _ => backfill_error DATABASE_RESPONSE_INVALID
  end.

(** [scripts/ops/telemetry_identity_backfill.py:55-66] finalize_primary_key *)
Definition finalize_primary_key (db : DB) : result DB :=
  ready ← primary_key_ready db;
  if (ready : bool) then Ok db else
  pending ← pending_history_identifiers db;
  if (pending : bool) then backfill_error BACKFILL_INCOMPLETE else add_primary_key db.

(** The loop [for _ in range(max_batches)]: the updated count or the exception,
    and the database with every batch committed so far. *)
Fixpoint run_batches (max_batches : nat) (batch_size updated : Z) (db : DB) : result Z * DB :=
  match max_batches with
  | O => (Ok updated, db)
  | S n =>
      match run_batch db batch_size with
      | Raise e => (Raise e, db)
      | Ok (accepted, db') =>
          if (0 <=? accepted) && (accepted <=? batch_size) then
            if accepted =? 0 then (Ok updated, db')
            else run_batches n batch_size (updated + accepted) db'
          else (backfill_error DATABASE_RESPONSE_INVALID, db)
      end
  end.

(** The report [backfill] returns. *)
Record BackfillReport : Type := mkReport {
  r_updated : Z;
  r_pending : bool;
  r_primary_key_ready : bool;
  r_complete : bool;
  r_finalization : string
}.

(** [scripts/ops/telemetry_identity_backfill.py:69-94] backfill *)
Definition backfill (db : DB) (o : BackfillOptions) : result BackfillReport * DB :=
  match validate_options o with
  | Raise e => (Raise e, db)
  | Ok _ =>
      let '(updated, db) := if bo_run o
                            then run_batches (Z.to_nat (bo_max_batches o)) (bo_batch_size o) 0 db
                            else (Ok 0, db) in
      match updated with
      | Raise e => (Raise e, db)
      | Ok updated =>
          match (if bo_finalize o then finalize_primary_key db else Ok db) with
          | Raise e => (Raise e, db)
          | Ok db =>
              (pending ← pending_history_identifiers db;
               ready ← primary_key_ready db;
               Ok (mkReport updated pending ready (negb pending && ready)
                     (if bo_finalize o then "PASS" else "NOT_RUN")), db)
          end
      end
  end.

(** [scripts/ops/telemetry_identity_backfill.py:97-127] main

    The exit code; [connect] is [psycopg2.connect], and [require] and [dsn_of]
    are the two checks above with their parameters. *)
Definition main (require : BackfillOptions → result ()) (dsn_of : BackfillOptions → result string)
    (connect : string → result ()) (o : BackfillOptions) (db : DB) : result Z * DB :=
  let '(report, db) :=
    match (_ ← validate_options o; _ ← require o; dsn ← dsn_of o; connect dsn) with
    | Raise e => (Raise e, db)
    | Ok _ => backfill db o
    end in
  (catch_any (report ← report; Ok (if negb (bo_run o) || r_complete report then 0 else 3))
     [ExcIdentityBackfillError; ExcOSError; ExcValueError; ExcKeyError; ExcTypeError; ExcDriverError]
     (λ _, Ok 1), db).
End tool.

(** ** Authority *)

Section authority.
Context (os : host) (json_loads : string → result jval) (sha256 : list byte → string).
Context (unquote_percent unicode_lower : string → string) (bracketed_netloc_ok nfkc_ok : string → bool).
Context (strptime_other : string → option datetime).

(** A database backup that restores, finished within the last day (or at most
    a minute ahead), whose dump still has the recorded checksum. *)
Record backup_evidence (path : fs_path) (now : datetime) : Prop := {
  be_manifest : ∃ evidence text m completed at_time expected archive bytes,
    private_file os path false = Ok evidence ∧ read_text evidence = Ok text
    ∧ json_loads text = Ok (JObj m)
    ∧ obj_get m "restoreVerified" = JBool true
    ∧ (∃ n, obj_get m "sourceTableCount" = JInt n ∧ obj_get m "restoredTableCount" = JInt n ∧ 0 < n)
    ∧ obj_get m "completedAt" = JStr completed ∧ strptime_compact strptime_other completed = Ok at_time
    ∧ - 60 * 1000000 <= instant now - instant (replace_utc at_time) <= BACKUP_MAX_AGE
    ∧ obj_get m "databaseDumpSha256" = JStr expected
    ∧ private_file os (sibling path "database.dump") false = Ok archive ∧ f_bytes archive = Ok bytes
    ∧ sha256 bytes = expected
}.

Lemma reject_if_Ok b c u : reject_if b c = Ok u → b = false.
Proof. unfold reject_if. by rewrite raise_if_Ok. Qed.

(** Split a checked sequence into its steps. *)
Ltac steps :=
  repeat match goal with
  | H : _ ≫= _ = Ok _ |- _ =>
      apply bind_Ok in H; let x := fresh "x" in let Hx := fresh "Hx" in destruct H as (x & Hx & H)
  | H : reject_if _ _ = Ok _ |- _ => apply reject_if_Ok in H
  end.

Lemma is_true_eq v : is_true v = true → v = JBool true.
Proof. destruct v as [|[]| | | | |]; done. Qed.

Lemma validate_backup_manifest_Ok v now expected :
  validate_backup_manifest strptime_other v now = Ok expected →
  ∃ m completed at_time, v = JObj m
  ∧ obj_get m "restoreVerified" = JBool true
  ∧ (∃ n, obj_get m "sourceTableCount" = JInt n ∧ obj_get m "restoredTableCount" = JInt n ∧ 0 < n)
  ∧ obj_get m "completedAt" = JStr completed ∧ strptime_compact strptime_other completed = Ok at_time
  ∧ - 60 * 1000000 <= instant now - instant (replace_utc at_time) <= BACKUP_MAX_AGE
  ∧ obj_get m "databaseDumpSha256" = JStr expected.
Proof.
  unfold validate_backup_manifest. destruct v as [| | | | | |m]; intros H; try done. steps.
  destruct (obj_get m "completedAt") as [| | | |completed| |] eqn:E1; try done.
  destruct (obj_get m "sourceCommit") as [| | | |commit| |]; try done.
  destruct (obj_get m "databaseDumpSha256") as [| | | |expected'| |] eqn:E2; try done.
  steps. injection H as <-.
  match goal with H : fmap _ _ = Ok _ |- _ => rename H into Ht end.
  destruct (strptime_compact strptime_other completed) as [t|] eqn:Et; [|done]. injection Ht as <-.
  exists m, completed, t. split_bools. cbn [forallb] in *. split_bools. split_and!; try done.
  - by apply is_true_eq.
  - destruct (obj_get m "sourceTableCount") as [| |n| | | |]; try done.
    destruct (obj_get m "restoredTableCount") as [| |n'| | | |]; try done.
    split_bools. exists n. subst. split_and!; [done..|lia].
Qed.

Lemma verify_backup_Ok path now u :
  verify_backup os json_loads sha256 strptime_other path now = Ok u → backup_evidence path now.
Proof.
  clear unquote_percent unicode_lower bracketed_netloc_ok nfkc_ok. unfold verify_backup. intros H.
  apply bind_Ok in H as (evidence & He & H). apply bind_Ok in H as (u1 & _ & H).
  apply bind_Ok in H as (text & Ht & H). apply bind_Ok in H as (manifest & Hm & H).
  apply bind_Ok in H as (expected & Hv & H). apply bind_Ok in H as (archive & Ha & H).
  apply bind_Ok in H as (bytes & Hb & H). apply reject_if_Ok in H. split_bools.
  apply validate_backup_manifest_Ok in Hv as (m & completed & t & -> & Hv).
  split. exists evidence, text, m, completed, t, expected, archive, bytes. tauto.
Qed.

(** Who may change the database. *)
Definition authorised (o : BackfillOptions) (now : datetime) (dsn : string) : Prop :=
  bo_run o = true ∧
  ∃ parsed, urlsplit bracketed_netloc_ok nfkc_ok dsn = Ok parsed ∧ url_scheme parsed = "postgresql" ∧
  if bo_local_fixture o then
    default "" (hostname unicode_lower parsed) ∈ LOCAL_HOSTS
    ∧ lstrip_char "/" (url_path parsed) ∈ LOCAL_DATABASES
  else
    os_env os "DEPLOYMENT_TARGET" = Some "server01-production"
    ∧ os_env os "GCS_MAINTENANCE_WINDOW_APPROVED" = Some "1"
    ∧ backup_evidence (parse_path (getenv os "GCS_DB_BACKUP_EVIDENCE" "")) now
    ∧ qs_get (parse_qs unquote_percent (url_query parsed)) "sslmode" = ["verify-full"]
    ∧ qs_get (parse_qs unquote_percent (url_query parsed)) "sslrootcert" ≠ [].

#[local] Notation dsn_of := (database_dsn os unquote_percent unicode_lower bracketed_netloc_ok nfkc_ok).
#[local] Notation require := (require_mutation_authority os json_loads sha256 strptime_other).

Lemma checks_authorise o now u dsn :
  bo_run o = true → require o now = Ok u → dsn_of o = Ok dsn → authorised o now dsn.
Proof.
  intros Hrun Hr Hd. split; [done|]. unfold database_dsn in Hd.
  apply bind_Ok in Hd as (raw & _ & Hd). apply bind_Ok in Hd as (parsed & Hp & Hd).
  apply bind_Ok in Hd as (u1 & G1 & Hd). apply bind_Ok in Hd as (u2 & G2 & [= <-]).
  apply reject_if_Ok in G1. split_bools. exists parsed. split_and!; [done|done|].
  unfold require_mutation_authority in Hr. rewrite Hrun in Hr. cbn [negb orb] in Hr.
  destruct (bo_local_fixture o); steps; split_bools.
  - done.
  - apply verify_backup_Ok in Hr. done.
Qed.

Context {DB : Type} `{HistoryDb DB}.

Lemma backfill_without_run db o r db' : bo_run o = false → backfill db o = (r, db') → db' = db.
Proof using.
  unfold backfill, validate_options. intros Hrun.
  destruct (reject_if _ BACKFILL_BOUNDS_INVALID); cbn; [|by intros [= _ <-]].
  rewrite Hrun. destruct (bo_finalize o); cbn; by intros [= _ <-].
Qed.

(** C8: the tool changes the database only in a run whose target is the named
    production server in an approved maintenance window, with fresh evidence of
    a backup that restores and over a verified TLS connection, or whose target
    is one of the local test databases; a check run changes nothing. *)
Theorem backfill_mutation_authorised connect now o db r db' :
  main (λ o, require o now) dsn_of connect o db = (r, db') → db' ≠ db →
  ∃ dsn, dsn_of o = Ok dsn ∧ connect dsn = Ok () ∧ authorised o now dsn.
Proof using.
  unfold main. intros Hm Hne.
  destruct (_ ≫= _) as [[]|e] eqn:Hc in Hm; [|by injection Hm as _ <-].
  apply bind_Ok in Hc as (u1 & _ & Hc). apply bind_Ok in Hc as (u2 & Hr & Hc).
  apply bind_Ok in Hc as (dsn & Hd & Hc).
  destruct (backfill db o) as [rep db1] eqn:Hb. injection Hm as _ <-.
  exists dsn. split_and!; [done|done|]. eapply checks_authorise; [|done|done].
  destruct (bo_run o) eqn:Hrun; [done|]. destruct Hne. by eapply backfill_without_run.
Qed.
End authority.

(** ** Progress *)

(** What the statements do while no other session holds row locks:
    [unassigned] counts the rows without an event id. *)
Class HistoryDbLaws (DB : Type) `{HistoryDb DB} : Type := {
  unassigned : DB → Z;
  primary_key : DB → option string;
  unassigned_nonneg : ∀ db, 0 <= unassigned db;
  run_batch_law : ∀ db n, 0 < n → ∃ db',
    run_batch db n = Ok (Z.min n (unassigned db), db')
    ∧ unassigned db' = unassigned db - Z.min n (unassigned db) ∧ primary_key db' = primary_key db;
  read_pending_law : ∀ db, read_pending db = Ok (Some [JBool (0 <? unassigned db)]);
  read_primary_key_law : ∀ db, read_primary_key db = Ok (primary_key db);
  add_primary_key_law : ∀ db, unassigned db = 0 → primary_key db = None → ∃ db',
    add_primary_key db = Ok db' ∧ unassigned db' = 0 ∧ primary_key db' = Some EXPECTED_PRIMARY_KEY
}.

Section progress.
Context {DB : Type} `{HistoryDbLaws DB}.

Lemma run_batches_progress n batch updated db :
  0 < batch → ∃ db',
  run_batches n batch updated db = (Ok (updated + Z.min (Z.of_nat n * batch) (unassigned db)), db')
  ∧ unassigned db' = unassigned db - Z.min (Z.of_nat n * batch) (unassigned db)
  ∧ primary_key db' = primary_key db.
Proof.
  intros Hb. revert updated db. induction n as [|n IH]; intros updated db; cbn [run_batches].
  - pose proof (unassigned_nonneg db). exists db. split_and!; [|lia|done]. f_equal. f_equal. lia.
  - destruct (run_batch_law db batch Hb) as (db1 & -> & Hu & Hk).
    pose proof (unassigned_nonneg db). rewrite (proj2 (Z.leb_le 0 _)), (proj2 (Z.leb_le _ batch)) by lia.
    cbn [andb]. destruct (Z.eqb_spec (Z.min batch (unassigned db)) 0) as [Hz|Hz].
    + exists db1. split_and!; [|lia|done]. f_equal. f_equal. lia.
    + destruct (IH (updated + Z.min batch (unassigned db)) db1) as (db' & -> & Hu' & Hk').
      exists db'. rewrite Hu', Hk'. split_and!; [f_equal; f_equal; nia|nia|done].
Qed.

Lemma primary_key_ready_law db :
  primary_key_ready db = match primary_key db with
                         | None => Ok false
                         | Some c => if String.eqb c EXPECTED_PRIMARY_KEY then Ok true
                                     else backfill_error UNEXPECTED_TELEMETRY_PRIMARY_KEY
                         end.
Proof. unfold primary_key_ready. by rewrite read_primary_key_law. Qed.

Lemma pending_law db : pending_history_identifiers db = Ok (0 <? unassigned db).
Proof. unfold pending_history_identifiers. by rewrite read_pending_law. Qed.

Definition is_ready (db : DB) : bool := bool_decide (primary_key db = Some EXPECTED_PRIMARY_KEY).

Lemma ready_law db : primary_key db = None ∨ primary_key db = Some EXPECTED_PRIMARY_KEY →
  primary_key_ready db = Ok (is_ready db).
Proof. rewrite primary_key_ready_law. unfold is_ready. by intros [->| ->]. Qed.

(** C9: A run with valid bounds, on a history whose primary key is absent or the
    expected one, ends and assigns identifiers to as many rows as its bounds
    allow (to all when they suffice).  It is refused exactly when finalization
    was asked for while rows are left and the key is absent, and then keeps what
    it assigned, so that a later run resumes there.  Otherwise it returns: the
    key is in place afterwards when it was before or when finalization was asked
    for, the report counts the assigned rows and says whether rows are left,
    completion is reported exactly when none is left and the key is in place, and
    finalization is reported as passed exactly when it was asked for. *)
Theorem backfill_bounded_progress db o :
  validate_options o = Ok () → bo_run o = true →
  primary_key db = None ∨ primary_key db = Some EXPECTED_PRIMARY_KEY →
  let assigned := Z.min (bo_max_batches o * bo_batch_size o) (unassigned db) in
  let left := unassigned db - assigned in
  ∃ db', unassigned db' = left ∧
  if bo_finalize o && (0 <? left) && negb (is_ready db) then
    backfill db o = (backfill_error BACKFILL_INCOMPLETE, db')
  else
    let ready := is_ready db || bo_finalize o in
    primary_key db' = (if ready then Some EXPECTED_PRIMARY_KEY else None)
    ∧ backfill db o = (Ok (mkReport assigned (0 <? left) ready (negb (0 <? left) && ready)
                             (if bo_finalize o then "PASS" else "NOT_RUN")), db').
Proof.
  intros Hv Hrun Hk assigned left. unfold backfill. rewrite Hv, Hrun.
  assert (Hb : 0 < bo_batch_size o ∧ 0 < bo_max_batches o).
  { unfold validate_options in Hv. apply bind_Ok in Hv as (u & G & _). apply raise_if_Ok in G. split_bools. lia. }
  destruct (run_batches_progress (Z.to_nat (bo_max_batches o)) (bo_batch_size o) 0 db (proj1 Hb))
    as (db1 & -> & Hu & Hk1).
  rewrite Z2Nat.id in * by lia. fold assigned in Hu |- *. fold left in Hu. rewrite Z.add_0_l.
  assert (Hready : is_ready db1 = is_ready db) by (unfold is_ready; by rewrite Hk1).
  rewrite <-Hk1 in Hk. rewrite <-Hready. clear Hready Hk1.
  destruct (bo_finalize o) eqn:Hf; cbn [andb].
  - unfold finalize_primary_key. rewrite ready_law by done. cbn. destruct (is_ready db1) eqn:Er; cbn.
    + rewrite andb_false_r. exists db1. split; [done|].
      split; [by apply bool_decide_eq_true in Er|]. by rewrite pending_law, ready_law, Er, Hu by done.
    + rewrite andb_true_r, pending_law, Hu. cbn. destruct (0 <? left) eqn:El; [by exists db1|].
      destruct (add_primary_key_law db1) as (db2 & -> & Hu2 & Hk2).
      { apply Z.ltb_ge in El. pose proof (unassigned_nonneg db1). lia. }
      { apply bool_decide_eq_false in Er. naive_solver. }
      exists db2. split; [apply Z.ltb_ge in El; pose proof (unassigned_nonneg db1); lia|].
      split; [done|]. rewrite pending_law, ready_law by auto. unfold is_ready.
      by rewrite Hu2, bool_decide_true.
  - exists db1. split; [done|]. rewrite orb_false_r. split.
    + unfold is_ready. case_bool_decide; [done|]. naive_solver.
    + by rewrite pending_law, ready_law, Hu by done.
Qed.
End progress.

(** ** A database of counts *)

Record count_db : Type := mkCountDb { c_unassigned : N; c_key : option string }.

#[export] Instance count_history : HistoryDb count_db := {
  run_batch := λ db n,
    let k := N.min (Z.to_N n) (c_unassigned db) in
    Ok (Z.of_N k, mkCountDb (c_unassigned db - k) (c_key db));
  read_pending := λ db, Ok (Some [JBool (0 <? Z.of_N (c_unassigned db))]);
  read_primary_key := λ db, Ok (c_key db);
  add_primary_key := λ db, Ok (mkCountDb (c_unassigned db) (Some EXPECTED_PRIMARY_KEY))
}.

#[export] Instance count_laws : HistoryDbLaws count_db.
Proof.
  refine {| unassigned := λ db, Z.of_N (c_unassigned db); primary_key := c_key |}.
  - intros. lia.
  - intros db n Hn. exists (mkCountDb (c_unassigned db - N.min (Z.to_N n) (c_unassigned db)) (c_key db)).
    cbn. split_and!; [f_equal; f_equal; lia|lia|done].
  - done.
  - done.
  - intros db H0 _. eexists. split; [reflexivity|]. cbn in *. split; [lia|done].
Defined.

Lemma backfill_bounded_progress_witness :
  ∃ db' : count_db, c_unassigned db' = 0%N
  ∧ backfill (mkCountDb 25 None) (mkBackfillOptions true true false 10 3)
    = (Ok (mkReport 25 false true true "PASS"), db').
Proof.
  destruct (backfill_bounded_progress (mkCountDb 25 None) (mkBackfillOptions true true false 10 3))
    as (db' & Hu & Hr); [reflexivity|reflexivity|left; reflexivity|].
  exists db'. split; [apply N2Z.inj; exact Hu|]. exact (proj2 Hr).
Defined.

(** A local fixture run that assigns two rows. *)
Lemma backfill_mutation_authorised_witness :
  let os := mkHost true 0 [] (λ name, if String.eqb name "TEST_TELEMETRY_POSTGRES_DSN"
                                       then Some "postgresql://u@localhost:5432/gcs_ownership_smoke" else None)
              (λ _, mkFileInfo false false 0 0 0 0 (Ok [])) in
  let o := mkBackfillOptions true false true 10 3 in
  let dsn_of := database_dsn os (λ s, s) (λ s, s) (λ _, true) (λ _, true) in
  ∃ dsn, dsn_of o = Ok dsn ∧ Ok () = Ok ()
  ∧ authorised os (λ _, Ok JNull) (λ _, "") (λ s, s) (λ s, s) (λ _, true) (λ _, true) (λ _, None)
      o (mkDatetime 0 (Some 0)) dsn.
Proof.
  intros os o dsn_of.
  destruct (main (λ o, require_mutation_authority os (λ _, Ok JNull) (λ _, "") (λ _, None) o
                         (mkDatetime 0 (Some 0))) dsn_of (λ _, Ok ()) o (mkCountDb 2 None))
    as [r db'] eqn:E.
  apply (backfill_mutation_authorised os (λ _, Ok JNull) (λ _, "") (λ s, s) (λ s, s) (λ _, true)
           (λ _, true) (λ _, None) (λ _, Ok ()) (mkDatetime 0 (Some 0)) o (mkCountDb 2 None) r db' E).
  intros ->. vm_compute in E. discriminate E.
Defined.
