(* ===== verification/Logging.v ===== *)
(** Structured logging: the processors of [backend/core/structured_logging.py].

    An event is a dict of JSON-like values; values of other types pass through
    every processor unchanged and are left out.  The current span, and the lower
    case of a key that is not ASCII, are parameters. *)

From stdpp Require Import base list strings.
From Stdlib Require Import ZArith Lia Ascii.
From S2P Require Import Prelude PyStr PyJson Settings.

#[local] Open Scope Z_scope.

(** [backend/core/structured_logging.py:39-48] SENSITIVE_FIELD_FRAGMENTS *)
Definition SENSITIVE_FIELD_FRAGMENTS : list string :=
  ["authorization"; "cookie"; "credential"; "media"; "password"; "payload"; "secret"; "token"].

(** [backend/core/structured_logging.py:49-49] REDACTED_VALUE *)
Definition REDACTED_VALUE : string := "<redacted>".

(** ** Settings *)

(** [backend/core/structured_logging.py:52-54] StructuredLoggingSettings *)
Record StructuredLoggingSettings : Type := mkLogging { logs_enabled : bool; renderer : string }.

(** [backend/core/structured_logging.py:56-61] normalize_renderer *)
Definition normalize_renderer (unicode_lower : string → string) (value : string) : string :=
  lower unicode_lower (opt_or (empty_to_none (Some value)) "json").

(** [backend/core/structured_logging.py:63-68] from_env *)
Definition logging_from_env (env : environment) (parse_bool_setting : string → result bool)
    (unicode_lower : string → string) : result StructuredLoggingSettings :=
  load_settings
    (enabled ← field_bool env parse_bool_setting "STRUCTURED_LOGS_ENABLED" true;
     Ok (mkLogging enabled match env "STRUCTURED_LOG_RENDERER" with
                           | None => "json"
                           | Some v => normalize_renderer unicode_lower v
                           end)) "structured logging".

Section logging.
Context (unicode_lower : string → string).

(** [backend/core/structured_logging.py:139-141] is_sensitive_key *)
Definition is_sensitive_key (key : string) : bool :=
  let normalized := lower unicode_lower key in
  existsb (λ fragment, contains fragment normalized) SENSITIVE_FIELD_FRAGMENTS.

(** A value of the event; a mapping that contains itself, on which the source
    does not terminate, is not one.  The source redacts nested mappings in place,
    so the caller's own objects change too; the rendered event is the same.
    Mappings are sanitized, everything else is kept. *)
Fixpoint sanitize_value (v : jval) : jval :=
  match v with
  | JObj d =>
      JObj (map (λ kv, (kv.1, if is_sensitive_key kv.1 then JStr REDACTED_VALUE
                              else sanitize_value kv.2)) d)
  | _ => v
  end.

(** [backend/core/structured_logging.py:128-136] sanitize_mapping *)
Definition sanitize_mapping (values : list (string * jval)) : list (string * jval) :=
  map (λ kv, (kv.1, if is_sensitive_key kv.1 then JStr REDACTED_VALUE else sanitize_value kv.2)) values.

(** [backend/core/structured_logging.py:120-125] redact_sensitive_fields *)
Definition redact_sensitive_fields (event_dict : list (string * jval)) : list (string * jval) :=
  sanitize_mapping event_dict.

(** [backend/core/structured_logging.py:108-112] add_trace_id

    [trace_id] is the 32-digit id of the current span, when that is valid. *)
Definition add_trace_id (trace_id : option string) (event_dict : list (string * jval))
    : list (string * jval) :=
  match trace_id with Some id => dict_set event_dict "trace_id" (JStr id) | None => event_dict end.

(** [backend/core/structured_logging.py:115-117] add_severity *)
Definition add_severity (method_name : string) (event_dict : list (string * jval))
    : list (string * jval) :=
  if dict_has event_dict "severity" then event_dict else dict_set event_dict "severity" (JStr method_name).

(** [backend/core/structured_logging.py:71-95] configure_structured_logging

    The event handed to the time stamp and the JSON renderer; [None] when
    logging is disabled and the event is dropped. *)
Definition log_event (enabled : bool) (trace_id : option string) (method_name : string)
    (event_dict : list (string * jval)) : option (list (string * jval)) :=
  if enabled then Some (redact_sensitive_fields (add_severity method_name (add_trace_id trace_id event_dict)))
  else None.

(** [backend/core/structured_logging.py:144-152] log_request_completed *)
Definition request_completed_event (component method route : string) (status_code duration_ms : Z)
    : list (string * jval) :=
  [("component", JStr component); ("http_method", JStr method); ("http_route", JStr route);
   ("status_code", JInt status_code); ("duration_ms", JInt duration_ms);
   ("result", JStr (if status_code <? 400 then "success" else "rejected"));
   ("event", JStr "http_request_completed")].

(** [backend/core/structured_logging.py:155-164] log_request_failed *)
Definition request_failed_event (component method route error_type : string) (duration_ms : Z)
    : list (string * jval) :=
  [("component", JStr component); ("http_method", JStr method); ("http_route", JStr route);
   ("error_type", JStr error_type); ("error_code", JStr "unhandled_request_failure");
   ("duration_ms", JInt duration_ms); ("result", JStr "failed"); ("event", JStr "http_request_failed")].

(** The value at a path of keys through nested mappings. *)
Fixpoint at_path (v : jval) (path : list string) : option jval :=
  match path with
  | [] => Some v
  | k :: path' => match v with JObj d => w ← dict_get d k; at_path w path' | _ => None end
  end.

#[local] Arguments is_sensitive_key : simpl never.

Lemma dict_get_map_key d (f : string → jval → jval) k :
  dict_get (map (λ kv, (kv.1, f kv.1 kv.2)) d) k = f k <$> dict_get d k.
Proof.
  induction d as [|[k' v] d IH]; cbn; [done|]. destruct (decide (k = k')) as [->|]; [done|exact IH].
Qed.

Lemma sanitize_value_get d k :
  dict_get (sanitize_mapping d) k =
  (λ w, if is_sensitive_key k then JStr REDACTED_VALUE else sanitize_value w) <$> dict_get d k.
Proof.
  apply (dict_get_map_key d (λ k w, if is_sensitive_key k then JStr REDACTED_VALUE else sanitize_value w)).
Qed.

(** No value under a sensitive key leaves the logger: in the event that is
    rendered, whatever a path of mapping keys with a sensitive key among them
    reaches is the redaction mark; along every other path the event is the one
    that was logged, sanitized; and sanitizing twice changes nothing. *)
Theorem log_redaction enabled trace_id method_name event_dict rendered :
  log_event enabled trace_id method_name event_dict = Some rendered →
  let logged := add_severity method_name (add_trace_id trace_id event_dict) in
  (∀ path v, at_path (JObj rendered) path = Some v → existsb is_sensitive_key path = true →
     v = JStr REDACTED_VALUE)
  ∧ (∀ path, existsb is_sensitive_key path = false →
     at_path (JObj rendered) path = sanitize_value <$> at_path (JObj logged) path)
  ∧ redact_sensitive_fields rendered = rendered.
Proof.
  unfold log_event, redact_sensitive_fields. destruct enabled; [|done]. intros [= <-].
  cbv zeta. set (logged := add_severity method_name (add_trace_id trace_id event_dict)). change (JObj (sanitize_mapping logged)) with (sanitize_value (JObj logged)).
  split_and!.
  - intros path. generalize (JObj logged). induction path as [|k path IH]; intros w v; cbn; [done|].
    destruct w as [| | | | | |d]; cbn; try done. fold (sanitize_mapping d). rewrite sanitize_value_get.
    destruct (dict_get d k) as [w|]; cbn; [|done]. destruct (is_sensitive_key k); cbn; [|apply IH].
    destruct path; cbn; [by intros [= <-]|done].
  - intros path. generalize (JObj logged). induction path as [|k path IH]; intros w; cbn; [done|].
    intros [Hk Hp]%orb_false_iff. destruct w as [| | | | | |d]; cbn; try done.
    fold (sanitize_mapping d). rewrite sanitize_value_get, Hk.
    destruct (dict_get d k) as [w|]; cbn; [|done]. by apply IH.
  - enough (∀ n v, (depth v <= n)%nat → sanitize_value (sanitize_value v) = sanitize_value v) as Hi.
    { specialize (Hi (depth (JObj logged)) (JObj logged) (le_n _)). by injection Hi. }
    induction n as [|n IH]; intros v; [destruct v; cbn; lia|]. destruct v as [| | | | | |d]; try done.
    cbn. intros Hd. f_equal. rewrite map_map. apply map_ext_in. intros [k w] Hin. cbn.
    destruct (is_sensitive_key k); [done|]. f_equal. apply IH.
    induction d as [|[k' w'] d IHd]; [done|]. cbn in Hd. destruct Hin as [[= -> ->]|Hin]; [lia|].
    apply IHd; [lia|done].
Qed.
End logging.

Lemma log_redaction_witness :
  let low := λ s : string, s in
  match log_event low true (Some "0af7651916cd43dd8448eb211c80319c") "info"
          [("request", JObj [("Authorization", JStr "Bearer x"); ("path", JStr "/v1")])] with
  | Some rendered => at_path (JObj rendered) ["request"; "Authorization"] = Some (JStr REDACTED_VALUE)
                     ∧ at_path (JObj rendered) ["request"; "path"] = Some (JStr "/v1")
  | None => False
  end.
Proof.
  intros low.
  destruct (log_event low true (Some "0af7651916cd43dd8448eb211c80319c") "info"
    [("request", JObj [("Authorization", JStr "Bearer x"); ("path", JStr "/v1")])]) as [rendered|] eqn:E;
    [|vm_compute in E; discriminate].
  destruct (log_redaction low true (Some "0af7651916cd43dd8448eb211c80319c") "info" _ rendered E)
    as (H1 & H2 & _).
  split.
  - destruct (at_path (JObj rendered) ["request"; "Authorization"]) as [v|] eqn:Ev.
    + f_equal. exact (H1 _ v Ev eq_refl).
    + vm_compute in E. injection E as <-. discriminate Ev.
  - rewrite (H2 ["request"; "path"] eq_refl). vm_compute. reflexivity.
Defined.

(** The sanitizer does not look into lists: a secret inside one is rendered. *)
Lemma list_secret_is_rendered :
  log_event (λ s, s) true None "info" [("devices", JList [JObj [("password", JStr "hunter2")]])]
  = Some [("devices", JList [JObj [("password", JStr "hunter2")]]); ("severity", JStr "info")].
Proof. vm_compute. reflexivity. Qed.
