(* ===== verification/AiAdapter.v ===== *)
(** The AI adapter: [backend/modules/ai_adapter/settings.py], [service.py] and
    [router.py].

    The HTTP call to a processor, the commit of the database session, the JSON
    codec, fresh identifiers and the clock are parameters.  A processor's answer
    is the fields the schema reads from its JSON body; [check_AIEndpointResponse]
    is the schema's validation of them. *)

From stdpp Require Import base list strings.
From Stdlib Require Import ZArith Lia Ascii Floats.
From S2P Require Import Prelude PyStr PyFloat PyTime PyJson Url AiContract Settings.

#[local] Open Scope Z_scope.

(** [backend/modules/ai_adapter/models.py:6-16] AIResultEvent *)
Record AIResultEvent : Type := mkAIResultEvent {
  ar_event_id : string;
  ar_stream_id : string;
  ar_group_id : string;
  ar_processor_id : string;
  ar_schema_version : string;
  ar_payload_json : string;
  ar_generated_at : datetime;
  ar_stored_at : datetime
}.

(** [backend/modules/ai_adapter/settings.py:11-14] AIAdapterSettings *)
Record AIAdapterSettings : Type := mkAIAdapterSettings {
  processor_endpoints_json : string;
  stream_base_url : string;
  timeout_seconds : float
}.

Definition STREAM_ID_CHAR (a : ascii) : bool :=
  is_alnum a || Ascii.eqb a "." || Ascii.eqb a "_" || Ascii.eqb a "/" || Ascii.eqb a "-".

(** [backend/modules/ai_adapter/service.py:31-33] is_canonical_stream_id *)
Definition is_canonical_stream_id (stream_id : string) : bool :=
  match stream_id with
  | "" => false
  | String a s => is_alnum a && forall_chars STREAM_ID_CHAR s && Nat.leb (String.length s) 159
  end && negb (contains ".." stream_id) && negb (contains "//" stream_id).

(** What the adapter posts: the dict [request], by its values. *)
Record AnalyzeRequest : Type := mkAnalyzeRequest {
  aq_schema_version : string;
  aq_stream_id : string;
  aq_captured_at : datetime;
  aq_image_url : string
}.

(** One POST: an [httpx.HTTPError], any other exception, or the reply's fields
    (a body that is not JSON or has other types is a [ValueError]). *)
Inductive post_outcome : Type :=
  | PostHttpError
  | PostRaises (e : exn)
  | PostReply (fields : result AIEndpointResponse).

Section adapter.
Context (bracketed_netloc_ok nfkc_ok : string → bool) (unicode_lower trim : string → string).
Context (json_loads : string → result jval) (parse_float_setting : string → result float).
Context (env : environment).
Context (post : string → AnalyzeRequest → post_outcome).
Context (dump_response : AIEndpointResponse → string).

(** [scheme in {"http", "https"} and hostname] of a parsed URL. *)
Definition is_http_url (p : SplitResult) : bool :=
  bool_decide (url_scheme p ∈ ["http"; "https"]) && bool_decide (hostname unicode_lower p ≠ None).

(** [backend/modules/ai_adapter/settings.py:16-22] validate_stream_base_url *)
Definition validate_stream_base_url (value : string) : result string :=
  parsed ← urlsplit bracketed_netloc_ok nfkc_ok value;
  if is_http_url parsed then Ok (rstrip_char "/" value)
  else value_error "AI_STREAM_BASE_URL must be an absolute HTTP(S) URL".

(** [backend/modules/ai_adapter/settings.py:24-29] AIAdapterSettings.from_env

    A [ValueError] of a field validator becomes a [ValidationError]. *)
Definition adapter_settings_from_env : result AIAdapterSettings :=
  load_settings (
    base ← match env "AI_STREAM_BASE_URL" with
           | None => Ok "http://mediamtx:8889"
           | Some v => catch (validate_stream_base_url v) ExcValueError
                         (λ msg, throw ExcValidationError ("stream_base_url: " +:+ msg))
           end;
    timeout ← match env "AI_ADAPTER_TIMEOUT_SECONDS" with
              | None => Ok 2%float
              | Some v => x ← parse_float_setting v;
                          if in_range 0.1 30 x then Ok x
                          else throw ExcValidationError "timeout_seconds: out of range"
              end;
    Ok (mkAIAdapterSettings (default "{}" (env "AI_PROCESSOR_ENDPOINTS_JSON")) base timeout))
  "ai-adapter".

Definition config_error {A} (msg : string) : result A := throw ExcSettingsConfigurationError msg.

(** The body of the loop over the configured endpoints. *)
Definition add_endpoint (endpoints : list (string * string)) (item : string * jval)
    : result (list (string * string)) :=
  let bad := config_error "AI processor endpoints must map non-empty IDs to absolute HTTP(S) URLs" in
  match item.2 with
  | JStr endpoint =>
      parsed ← urlsplit bracketed_netloc_ok nfkc_ok endpoint;
      if is_empty item.1 || negb (is_http_url parsed) then bad
      else Ok (dict_set endpoints item.1 endpoint)
  | _ => bad
  end.

(** [backend/modules/ai_adapter/settings.py:31-52] processor_endpoints *)
Definition processor_endpoints (self : AIAdapterSettings) : result (list (string * string)) :=
  raw ← catch (json_loads (processor_endpoints_json self)) ExcJSONDecodeError
          (λ _, config_error "AI_PROCESSOR_ENDPOINTS_JSON must be valid JSON");
  match raw with
  | JObj d => for_in add_endpoint [] d
  | _ => config_error "AI_PROCESSOR_ENDPOINTS_JSON must be an object"
  end.

Definition unavailable {A} : result A :=
  throw ExcAIProcessorUnavailableError "AI processor request failed".

(** The [try] block of [analyze]: the validated reply of the processor. *)
Definition ask_processor (endpoint stream_id : string) (request : AnalyzeRequest) : result AIEndpointResponse :=
  match post endpoint request with
  | PostHttpError => unavailable
  | PostRaises e => catch (Raise e) ExcValueError (λ _, unavailable)
  | PostReply fields =>
      catch (
        fields ← fields;
        reply ← check_AIEndpointResponse trim fields;
        if negb (String.eqb (rs_stream_id reply) stream_id)
           || negb (String.eqb (fr_stream_id (rs_frame reply)) stream_id) then
          value_error "AI processor response does not match the requested stream"
        else Ok reply) ExcValueError (λ _, unavailable)
  end.

(** [backend/modules/ai_adapter/service.py:35-74] analyze

    [now] and [stored_at] are the clock readings, [fresh] the new identifier and
    [commit] whether the session accepts the event; the stored events are
    threaded through. *)
Definition analyze (self : AIAdapterSettings) (now stored_at : datetime) (fresh : string)
    (commit : AIResultEvent → result ()) (stream_id processor_id group_id : string)
    (db : list AIResultEvent) : result AIEndpointResponse * list AIResultEvent :=
  let reply :=
    _ ← raise_if (negb (is_canonical_stream_id stream_id)) ExcValueError
          "stream_id is not a valid canonical stream path";
    endpoints ← processor_endpoints self;
    match dict_get endpoints processor_id with
    | None => throw ExcAIProcessorNotFoundError "AI processor is not configured"
    | Some endpoint =>
        ask_processor endpoint stream_id
          (mkAnalyzeRequest AI_CONTRACT_SCHEMA_VERSION stream_id now
             (stream_base_url self +:+ "/" +:+ stream_id +:+ "/whep"))
    end in
  match reply with
  | Raise e => (Raise e, db)
  | Ok result =>
      let event := mkAIResultEvent ("ai-" +:+ fresh) stream_id group_id processor_id
                     (rs_schema_version result) (dump_response result) (rs_generated_at result) stored_at in
      match commit event with
      | Ok _ => (Ok result, db ++ [event])
      | Raise e => (Raise e, db)
      end
  end.

(** [backend/modules/ai_adapter/router.py:16-26] AIAnalysisRequest *)
Definition check_AIAnalysisRequest (stream_id processor_id : string) : result (string * string) :=
  let stream_id := trim stream_id in
  let processor_id := trim processor_id in
  _ ← AiContract.require (Nat.leb 1 (str_len stream_id) && Nat.leb (str_len stream_id) 160) "streamId: length";
  _ ← AiContract.require (is_canonical_stream_id stream_id) "streamId must be a canonical stream path";
  _ ← AiContract.require (Nat.leb 1 (str_len processor_id) && Nat.leb (str_len processor_id) 128)
        "processorId: length";
  Ok (stream_id, processor_id).

(** [backend/modules/ai_adapter/router.py:29-39] analyze_stream *)
Definition analyze_stream (request : string * string) : result AIEndpointResponse :=
  Raise (HttpErr 503 "AI stream binding resolver is not configured" []).

(** [backend/modules/ai_adapter/router.py:42-54] analyze_server_bound_stream *)
Definition analyze_server_bound_stream (now stored_at : datetime) (fresh : string)
    (commit : AIResultEvent → result ()) (request : string * string) (group_id : string)
    (db : list AIResultEvent) : result AIEndpointResponse * list AIResultEvent :=
  let '(outcome, db) :=
    match adapter_settings_from_env with
    | Raise e => (Raise e, db)
    | Ok settings => analyze settings now stored_at fresh commit request.1 request.2 group_id db
    end in
  (catch (catch outcome ExcAIProcessorNotFoundError (λ msg, Raise (HttpErr 404 msg [])))
     ExcAIProcessorUnavailableError (λ msg, Raise (HttpErr 503 msg [])), db).

Lemma add_endpoint_ok eps item eps' :
  add_endpoint eps item = Ok eps' →
  ∃ endpoint parsed, eps' = dict_set eps item.1 endpoint ∧ item.1 ≠ ""
  ∧ urlsplit bracketed_netloc_ok nfkc_ok endpoint = Ok parsed ∧ is_http_url parsed = true.
Proof.
  unfold add_endpoint. destruct item.2 as [| | | |endpoint| |]; try done. intros H.
  apply bind_Ok in H as (parsed & Hp & H). case_if_in H; [done|]. injection H as <-. split_bools.
  exists endpoint, parsed. split_and!; try done. by destruct item.1.
Qed.

(** Every configured endpoint is an absolute HTTP(S) URL. *)
Lemma processor_endpoints_ok self eps id endpoint :
  processor_endpoints self = Ok eps → dict_get eps id = Some endpoint →
  id ≠ "" ∧ ∃ parsed, urlsplit bracketed_netloc_ok nfkc_ok endpoint = Ok parsed ∧ is_http_url parsed = true.
Proof.
  unfold processor_endpoints. intros H. apply bind_Ok in H as (raw & _ & H).
  destruct raw as [| | | | | |d]; try done. revert id endpoint.
  refine (for_in_invariant (λ eps, ∀ id endpoint, dict_get eps id = Some endpoint →
    id ≠ "" ∧ ∃ parsed, urlsplit bracketed_netloc_ok nfkc_ok endpoint = Ok parsed ∧ is_http_url parsed = true)
    add_endpoint [] d eps _ _ H); [done|].
  intros s item s' _ IH (endpoint & parsed & -> & Hne & Hp & Hh)%add_endpoint_ok id e.
  rewrite dict_get_set. destruct (decide (id = item.1)) as [->|]; [|apply IH].
  intros [= <-]. split; [done|]. by exists parsed.
Qed.

(** The only failure of the processor call the callers see, unless the HTTP
    library raises something it does not document. *)
Lemma ask_processor_Ok endpoint stream_id request reply :
  ask_processor endpoint stream_id request = Ok reply →
  ∃ fields, post endpoint request = PostReply (Ok fields) ∧ check_AIEndpointResponse trim fields = Ok reply
  ∧ rs_stream_id reply = stream_id ∧ fr_stream_id (rs_frame reply) = stream_id.
Proof.
  unfold ask_processor, unavailable. destruct (post endpoint request) as [|e|fields]; [done| |].
  - intros H. apply catch_reraise in H; done.
  - intros H. apply catch_reraise in H; [|done].
    apply bind_Ok in H as (f & -> & H). apply bind_Ok in H as (r & Hr & H).
    case_if_in H; [done|]. injection H as <-. split_bools. eauto.
Qed.

(** An analysis stores an event exactly when it succeeds, and then the one
    event it stores carries the requested stream, the caller's group and the
    configured processor, with a reply that passed the schema's validation and
    names that stream twice; the processor asked is one of the configured
    absolute HTTP(S) endpoints.  Every failure leaves the stored events alone,
    and a processor that is not configured is told apart from one that fails. *)
Theorem ai_analysis_stored self now stored_at fresh commit stream_id processor_id group_id db :
  match analyze self now stored_at fresh commit stream_id processor_id group_id db with
  | (Raise _, db') => db' = db
  | (Ok reply, db') =>
      is_canonical_stream_id stream_id = true
      ∧ (∃ endpoint parsed fields request,
           urlsplit bracketed_netloc_ok nfkc_ok endpoint = Ok parsed ∧ is_http_url parsed = true
           ∧ aq_stream_id request = stream_id
           ∧ post endpoint request = PostReply (Ok fields) ∧ check_AIEndpointResponse trim fields = Ok reply)
      ∧ rs_stream_id reply = stream_id ∧ fr_stream_id (rs_frame reply) = stream_id
      ∧ ∃ event, db' = db ++ [event] ∧ commit event = Ok ()
        ∧ ar_stream_id event = stream_id ∧ ar_group_id event = group_id
        ∧ ar_processor_id event = processor_id ∧ ar_payload_json event = dump_response reply
  end
  ∧ (∀ eps, is_canonical_stream_id stream_id = true → processor_endpoints self = Ok eps →
     dict_get eps processor_id = None →
     (analyze self now stored_at fresh commit stream_id processor_id group_id db).1
     = throw ExcAIProcessorNotFoundError "AI processor is not configured").
Proof.
  unfold analyze. split.
  - destruct (_ ≫= _) as [reply|e] eqn:E; [|done].
    apply bind_Ok in E as (u & G & E). apply bind_Ok in E as (eps & Heps & E).
    apply raise_if_Ok in G. split_bools.
    destruct (dict_get eps processor_id) as [endpoint|] eqn:Hep; [|done].
    destruct (processor_endpoints_ok _ _ _ _ Heps Hep) as (_ & parsed & Hp & Hh).
    apply ask_processor_Ok in E as (fields & Hpost & Hcheck & Hs & Hf).
    set (event := mkAIResultEvent _ _ _ _ _ _ _ _).
    destruct (commit event) as [[]|e] eqn:Hc; [|done]. split_and!; [done| |done|done|].
    + eexists endpoint, parsed, fields, _. split_and!; [done|done| |exact Hpost|done]. done.
    + by exists event.
  - intros eps Hcan Heps Hnone. rewrite Hcan, Heps. cbn. by rewrite Hnone.
Qed.
End adapter.

(** A processor that is not configured. *)
Lemma ai_analysis_stored_witness :
  let yes := λ _ : string, true in
  let loads := λ _ : string, Ok (JObj [("people", JStr "http://people:9000/detect")]) in
  (analyze yes yes (λ s, s) (λ s, s) loads (λ _ _, PostHttpError) (λ _, "{}")
     (mkAIAdapterSettings "x" "http://mediamtx:8889" 2%float)
     (mkDatetime 0 (Some 0)) (mkDatetime 0 (Some 0)) "id" (λ _, Ok ()) "raw/uav/front" "smoke" "g1" []).1
  = throw ExcAIProcessorNotFoundError "AI processor is not configured".
Proof.
  intros yes loads.
  apply (proj2 (ai_analysis_stored yes yes (λ s, s) (λ s, s) loads (λ _ _, PostHttpError) (λ _, "{}")
     (mkAIAdapterSettings "x" "http://mediamtx:8889" 2%float)
     (mkDatetime 0 (Some 0)) (mkDatetime 0 (Some 0)) "id" (λ _, Ok ()) "raw/uav/front" "smoke" "g1" [])
     [("people", "http://people:9000/detect")]).
  - vm_compute. reflexivity.
  - vm_compute. reflexivity.
  - reflexivity.
Defined.

(** An endpoint [urlparse] refuses leaves the settings check with a plain
    [ValueError], not the configuration error of its contract. *)
Lemma malformed_endpoint_escapes :
  processor_endpoints (λ _, true) (λ _, true) (λ s, s)
    (λ _, Ok (JObj [("people", JStr "http://[::1/detect")]))
    (mkAIAdapterSettings "x" "http://mediamtx:8889" 2%float)
  = value_error "Invalid IPv6 URL".
Proof. reflexivity. Qed.
