(* ===== verification/Health.v ===== *)
(** Health reporting: [backend/modules/health/] and [backend/api/health.py].

    A probe is the outcome of running it. *)

From stdpp Require Import base list strings.
From Stdlib Require Import ZArith Lia.
From S2P Require Import Prelude PyStr Streaming.

#[local] Open Scope Z_scope.

Inductive HealthStatus : Type := StatusOk | StatusDegraded | StatusError.

#[export] Instance HealthStatus_eq_dec : EqDecision HealthStatus.
Proof. solve_decision. Defined.

(** [backend/modules/health/domain.py:7-12] HealthCheckResult *)
Record HealthCheckResult : Type := mkCheck {
  hc_name : string;
  hc_status : HealthStatus;
  hc_required : bool;
  hc_reason : option string
}.

(** [backend/modules/health/domain.py:14-16] is_ok *)
Definition check_is_ok (c : HealthCheckResult) : bool := bool_decide (hc_status c = StatusOk).

(** [backend/modules/health/domain.py:19-23] HealthReport *)
Record HealthReport : Type := mkHealthReport {
  hr_service : string;
  hr_status : HealthStatus;
  hr_checks : list HealthCheckResult
}.

(** [backend/modules/health/domain.py:25-35] from_checks *)
Definition from_checks (service : string) (checks : list HealthCheckResult) : HealthReport :=
  let required_failed := existsb (λ c, hc_required c && negb (check_is_ok c)) checks in
  let optional_failed := existsb (λ c, negb (hc_required c) && negb (check_is_ok c)) checks in
  mkHealthReport service
    (if required_failed then StatusError else if optional_failed then StatusDegraded else StatusOk) checks.

(** [backend/modules/health/domain.py:37-39] is_ready *)
Definition is_ready (r : HealthReport) : bool := bool_decide (hr_status r = StatusOk).

(** [backend/modules/health/schemas.py:12-19] HealthCheckResponse.from_domain *)
Definition check_response (c : HealthCheckResult) : HealthCheckResult :=
  mkCheck (hc_name c) (hc_status c) (hc_required c) (hc_reason c).

(** [backend/modules/health/schemas.py:27-33] HealthReportResponse.from_domain *)
Definition report_response (r : HealthReport) : HealthReport :=
  mkHealthReport (hr_service r) (hr_status r) (map check_response (hr_checks r)).

Definition SERVICE_NAME : string := "gcs-backend".

(** [backend/api/health.py:35-41] healthz *)
Definition healthz : HealthReport :=
  report_response (from_checks SERVICE_NAME [mkCheck "api" StatusOk true None]).

(** [backend/api/health.py:60-70] _database_check *)
Definition database_check (probe : result bool) : HealthCheckResult :=
  match probe with
  | Raise _ => mkCheck "database" StatusError true (Some "database readiness query failed")
  | Ok _ => mkCheck "database" StatusOk true None
  end.

Definition flag_check (name reason : string) (ok : bool) : HealthCheckResult :=
  mkCheck name (if ok then StatusOk else StatusError) true (if ok then None else Some reason).

(** [backend/api/health.py:73-101] _streaming_checks *)
Definition streaming_checks (status : result StreamingModuleStatus) : list HealthCheckResult :=
  match status with
  | Raise _ => [mkCheck "streaming" StatusError true (Some "streaming status check failed")]
  | Ok s =>
      [flag_check "streaming_registry" "stream registry is not ready" (registry_ready s);
       flag_check "playback_url_builder" "playback url builder is not ready" (playback_url_builder_ready s)]
  end.

(** [backend/api/health.py:44-57] readyz

    The status code of the response with its body. *)
Definition readyz (probe : result bool) (status : result StreamingModuleStatus) : Z * HealthReport :=
  let report := from_checks SERVICE_NAME (database_check probe :: streaming_checks status) in
  (if is_ready report then 200 else 503, report_response report).

Lemma existsb_ok (P : HealthCheckResult → bool) checks :
  Forall (λ c, hc_status c = StatusOk) checks → existsb (λ c, P c && negb (check_is_ok c)) checks = false.
Proof.
  induction 1 as [|c checks Hc _ IH]; [done|]. cbn. rewrite IH. unfold check_is_ok.
  rewrite bool_decide_true by done. by rewrite andb_false_r.
Qed.

Lemma from_checks_ok service checks :
  hr_status (from_checks service checks) = StatusOk ↔ Forall (λ c, hc_status c = StatusOk) checks.
Proof.
  unfold from_checks. cbn. split.
  - induction checks as [|c checks IH]; [constructor|]. cbn.
    destruct (decide (hc_status c = StatusOk)) as [Hc|Hc]; unfold check_is_ok at 1 3.
    + rewrite bool_decide_true, !andb_false_r by done. cbn. intros H. constructor; [done|]. by apply IH.
    + rewrite bool_decide_false by done. destruct (hc_required c); cbn; [done|].
      by case_if.
  - intros H. by rewrite (existsb_ok hc_required), (existsb_ok (λ c, negb (hc_required c))).
Qed.

(** The readiness answer is 200 exactly when the database probe succeeds and
    the stream registry can be listed, and 503 otherwise; with a well-formed
    registry and accepted base URLs a media server that cannot be queried does
    not make the service unready. *)
Theorem readyz_truthful bracketed_netloc_ok nfkc_ok unicode_date_shape probe self :
  let status := module_status bracketed_netloc_ok nfkc_ok unicode_date_shape self in
  let listed := list_registered_streams bracketed_netloc_ok nfkc_ok unicode_date_shape self in
  (readyz probe status).1 = (if is_ok probe && is_ok listed then 200 else 503)
  ∧ hr_status (readyz probe status).2 = (if is_ok probe && is_ok listed then StatusOk else StatusError)
  ∧ (repo_wf (sv_repository self) → builder_ok bracketed_netloc_ok nfkc_ok (sv_builder self) →
     media_fine self → (readyz probe status).1 = if is_ok probe then 200 else 503).
Proof.
  intros status listed.
  assert (Hs : is_ok status = is_ok listed ∧
    (∀ s, status = Ok s → registry_ready s = true ∧ playback_url_builder_ready s = true)).
  { unfold status, module_status. fold listed. destruct listed; cbn; [|done].
    split; [done|]. by intros s [= <-]. }
  destruct Hs as [Hs Hready].
  assert (Hr : (readyz probe status).1 = (if is_ok probe && is_ok listed then 200 else 503)
    ∧ hr_status (readyz probe status).2 = (if is_ok probe && is_ok listed then StatusOk else StatusError)).
  { rewrite <-Hs. destruct status as [s|e].
    - destruct (Hready s eq_refl) as [H1 H2]. unfold readyz, streaming_checks. rewrite H1, H2.
      by destruct probe.
    - by destruct probe. }
  split_and!; [apply Hr|apply Hr|]. intros Hw Hb Hm.
  destruct (registry_Ok bracketed_netloc_ok nfkc_ok unicode_date_shape self Hb Hw Hm) as (r & Hl & _). fold listed in Hl.
  rewrite (proj1 Hr), Hl. cbn. by rewrite andb_true_r.
Qed.

(** No base URLs, the seeds, a database that answers and a failing media server. *)
Lemma readyz_truthful_witness :
  let yes := λ _ : string, true in
  let cfg := mkBuilderConfig None None None None in
  match build_seed_repository yes yes yes cfg DEFAULT_STREAM_SEEDS with
  | Ok repo =>
      let self := mkService cfg repo (Some (media_error "down")) in
      (readyz (Ok true) (module_status yes yes yes self)).1 = 200
  | Raise _ => False
  end.
Proof.
  intros yes cfg.
  destruct (build_seed_repository yes yes yes cfg DEFAULT_STREAM_SEEDS) as [repo|] eqn:E;
    [|vm_compute in E; discriminate].
  intros self.
  apply (readyz_truthful yes yes yes (Ok true) self).
  - exact (build_seed_repository_wf _ _ _ _ _ _ E).
  - intros u Hu. subst self cfg. cbn in Hu. destruct Hu; discriminate.
  - reflexivity.
Defined.
