(* ===== verification/Compose.v ===== *)
(** The lifecycle tool of the production containers:
    [scripts/ops/compose_lifecycle.py].

    Docker and the clock are the [world]; the rendered Compose file is what
    [docker compose config] answered.  Secret and certificate files are read
    through [files].  [wait] polls with fuel, one unit per poll. *)

From stdpp Require Import base list strings.
From Stdlib Require Import ZArith Lia Ascii Floats.
From S2P Require Import Prelude PyStr PyFloat PyTime PyJson PyText Host Effects.

#[local] Open Scope Z_scope.

(** [scripts/ops/compose_lifecycle.py:14-25] START_PHASES *)
Definition START_PHASES : list (string * string) := [
  ("postgres-geo", "healthy"); ("redis", "healthy"); ("mqtt", "healthy"); ("auth-policy", "healthy");
  ("backend", "healthy"); ("media-control", "healthy"); ("mediamtx", "running");
  ("turn-primary", "healthy"); ("dashboard", "healthy"); ("edge", "healthy")].

(** [scripts/ops/compose_lifecycle.py:26-26] STOP_SERVICES *)
Definition STOP_SERVICES : list string := (reverse START_PHASES).*1.

(** [scripts/ops/compose_lifecycle.py:27-27] STATEFUL_SERVICES *)
Definition STATEFUL_SERVICES : list string := ["postgres-geo"; "redis"; "mqtt"].

Definition COMMAND_TIMEOUT_SECONDS : Z := 60.

Definition lifecycle_error {A} (msg : string) : result A := throw ExcLifecycleError msg.

(** [scripts/ops/compose_lifecycle.py:45-52] LifecycleConfig *)
Record LifecycleConfig : Type := mkLifecycle {
  compose_file : fs_path;
  env_file : fs_path;
  project_name : string;
  deployment_target : string;
  wait_seconds : Z;
  poll_seconds : float
}.

Inductive action : Type := CheckAction | PlanStart | PlanStop | StartAction | StopAction.

(** [scripts/ops/compose_lifecycle.py:190-192] plan *)
Definition plan (act : string) : jval :=
  let services := if String.eqb act "start" then START_PHASES.*1 else STOP_SERVICES in
  JObj [("action", JStr act); ("services", JList (JStr <$> services)); ("recreatesContainers", JBool false)].

Section lifecycle.
Context (w : world) (fs : files) (json_loads : string → result jval) (py_repr : jval → string).
Context (config : LifecycleConfig).

(** [scripts/ops/compose_lifecycle.py:54-63] LifecycleConfig.validate *)
Definition validate : result () :=
  if negb (String.eqb (deployment_target config) "server01-production")
  then lifecycle_error "only Server-01 production is managed" else
  if negb (String.eqb (project_name config) "gcs-saker-m2-production")
  then lifecycle_error "invalid production project name" else
  _ ← for_in (λ _ path,
        bad ← or_r (Ok (negb (p_absolute path))) (not_r (fs_is_file fs path));
        if bad : bool then lifecycle_error "Compose and environment files must be existing absolute files" else Ok ())
        () [compose_file config; env_file config];
  if (wait_seconds config <? 10) || (600 <? wait_seconds config)
     || negb ((0.1 <=? poll_seconds config)%float && (poll_seconds config <=? 10)%float)
  then lifecycle_error "lifecycle wait bounds are invalid" else Ok ().

(** [str(mapping.get(key, ""))] *)
Definition get_str (mapping : list (string * jval)) (key : string) : string :=
  py_str py_repr (default (JStr "") (dict_get mapping key)).

(** A file that exists and is not empty. *)
Definition nonempty_file (path : fs_path) : result bool :=
  and_r (fs_is_file fs path) (size ← fs_size fs path; Ok (0 <? size)).

(** [scripts/ops/compose_lifecycle.py:134-142] validate_runtime_secrets *)
Definition validate_runtime_secrets (rendered : jval) : result () :=
  match rendered with
  | JObj d =>
      match dict_get d "secrets" with
      | Some (JObj secrets) =>
          for_in (λ _ specification,
            match specification with
            | JObj s =>
                let path := parse_path (get_str s "file") in
                bad ← or_r (or_r (Ok (negb (p_absolute path))) (not_r (fs_is_file fs path)))
                        (size ← fs_size fs path; Ok (size =? 0));
                if bad : bool then lifecycle_error "required runtime secret file is unavailable" else Ok ()
            | _ => lifecycle_error "rendered Compose secret is invalid"
            end) () (dict_values secrets)
      | _ => lifecycle_error "rendered Compose secrets are unavailable"
      end
  | _ => lifecycle_error "rendered Compose secrets are unavailable"
  end.

(** [scripts/ops/compose_lifecycle.py:156-157] is_pki_mount *)
Definition is_pki_mount (mount : jval) : bool :=
  match mount with
  | JObj m => startswith "/run/secrets/gcs-pki" (get_str m "target")
  | _ => false
  end.

(** [scripts/ops/compose_lifecycle.py:160-165] valid_pki_source *)
Definition valid_pki_source (mount : list (string * jval)) : result bool :=
  let source := parse_path (get_str mount "source") in
  let target := get_str mount "target" in
  if String.eqb target "/run/secrets/gcs-pki"
  then and_r (fs_is_dir fs source) (nonempty_file (path_div source "ca.crl"))
  else nonempty_file source.

(** [scripts/ops/compose_lifecycle.py:145-153] validate_internal_pki *)
Definition validate_internal_pki (rendered : jval) : result () :=
  match rendered with
  | JObj d =>
      match dict_get d "services" with
      | Some (JObj services) =>
          match dict_get services "mqtt" with
          | Some (JObj mqtt) =>
              match dict_get mqtt "volumes" with
              | Some (JList volumes) =>
                  let pki_mounts := filter (λ mount, is_pki_mount mount = true) volumes in
                  bad ← or_r (Ok (bool_decide (pki_mounts = [])))
                          (not_r (all_in (λ mount, match mount with JObj m => valid_pki_source m | _ => Ok false end)
                                    pki_mounts));
                  if bad : bool then lifecycle_error "required internal PKI source is unavailable" else Ok ()
              | _ => lifecycle_error "MQTT PKI mounts are unavailable"
              end
          | _ => lifecycle_error "MQTT PKI mounts are unavailable"
          end
      | _ => lifecycle_error "rendered Compose services are unavailable"
      end
  | _ => lifecycle_error "rendered Compose services are unavailable"
  end.

(** ** Commands *)

(** [scripts/ops/compose_lifecycle.py:72-83] ComposeLifecycle.compose *)
Definition compose (arguments : list string) : list string :=
  ["docker"; "compose"; "--project-name"; project_name config; "--env-file"; path_str (env_file config);
   "-f"; path_str (compose_file config)] ++ arguments.

Definition run_default (command : list string) : eff string := run w command (Some COMMAND_TIMEOUT_SECONDS).

(** [scripts/ops/compose_lifecycle.py:85-89] ComposeLifecycle.check *)
Definition check : eff () :=
  _ ← lift validate;
  text ← run_default (compose ["config"; "--format"; "json"]);
  rendered ← lift (json_loads text);
  _ ← lift (validate_runtime_secrets rendered);
  lift (validate_internal_pki rendered).

(** [scripts/ops/compose_lifecycle.py:110-111] ComposeLifecycle.container_id *)
Definition container_id (service : string) : eff string := run_default (compose ["ps"; "-aq"; service]).

(** [scripts/ops/compose_lifecycle.py:168-176] emit_event *)
Definition emit_event (operation service outcome : string) (started : float) : eff () :=
  now ← monotonic w;
  ms ← lift (round_float ((now - started) * 1000)%float);
  print (JObj [("operation", JStr operation); ("service", JStr service); ("result", JStr outcome);
               ("durationMs", JInt (Z.max 0 ms)); ("errorCode", JStr "none")]).

(** [scripts/ops/compose_lifecycle.py:179-187] emit_failure *)
Definition emit_failure (message : string) : eff () :=
  complain (JObj [("operation", JStr "compose_lifecycle"); ("result", JStr "failed"); ("durationMs", JInt 0);
                  ("errorCode", JStr "lifecycle_rejected"); ("message", JStr message)]).

Definition INSPECT_FORMAT : string :=
  "{{if .State.Health}}{{.State.Health.Status}}{{else}}{{.State.Status}}{{end}}".

Definition inspect_command (container : string) : list string :=
  ["docker"; "inspect"; "--format"; INSPECT_FORMAT; container].

(** [scripts/ops/compose_lifecycle.py:115-131] wait_loop: the loop of wait *)
Fixpoint wait_loop (fuel : nat) (container expected service : string) (started deadline : float) : eff () :=
  match fuel with
  | O => out_of_fuel
  | S fuel' =>
      now ← monotonic w;
      if negb (now <? deadline)%float
      then raise ExcLifecycleError ("service readiness timed out: " +:+ service) else
      state ← run_default (inspect_command container);
      if String.eqb state expected then emit_event "start" service expected started
      else if bool_decide (state ∈ ["unhealthy"; "exited"; "dead"])
      then raise ExcLifecycleError ("service readiness failed: " +:+ service +:+ "=" +:+ state)
      else _ ← sleep (poll_seconds config);
           wait_loop fuel' container expected service started deadline
  end.

(** [scripts/ops/compose_lifecycle.py:113-114] ComposeLifecycle.wait *)
Definition wait (fuel : nat) (container expected service : string) (started : float) : eff () :=
  now ← monotonic w;
  seconds ← lift (float_of_int (wait_seconds config));
  wait_loop fuel container expected service started (now + seconds)%float.

(** [scripts/ops/compose_lifecycle.py:94-100] start_phase: the body of the loop of start *)
Definition start_phase (fuel : nat) (phase : string * string) : eff () :=
  let '(service, expected) := phase in
  started ← monotonic w;
  container ← container_id service;
  if is_empty container then
    let category := if bool_decide (service ∈ STATEFUL_SERVICES) then "stateful" else "managed" in
    raise ExcLifecycleError (category +:+ " service is absent: " +:+ service +:+ "; use approved deployment")
  else
    _ ← run_default (compose ["start"; service]);
    wait fuel container expected service started.

(** [scripts/ops/compose_lifecycle.py:91-93] ComposeLifecycle.start *)
Definition start (fuel : nat) : eff () := _ ← check; for_each (start_phase fuel) START_PHASES.

(** [scripts/ops/compose_lifecycle.py:105-108] stop_service: the body of the loop of stop *)
Definition stop_service (service : string) : eff () :=
  container ← container_id service;
  if is_empty container then mret () else
  started ← monotonic w;
  _ ← run w (compose ["stop"; service]) (Some (wait_seconds config));
  emit_event "stop" service "stopped" started.

(** [scripts/ops/compose_lifecycle.py:102-104] ComposeLifecycle.stop *)
Definition stop : eff () := _ ← lift validate; for_each stop_service STOP_SERVICES.

(** [scripts/ops/compose_lifecycle.py:207-227] main *)
Definition main (fuel : nat) (act : action) : eff Z :=
  try_except
    (_ ← match act with
         | PlanStart => _ ← lift validate; print (plan "start")
         | PlanStop => _ ← lift validate; print (plan "stop")
         | CheckAction => check
         | StartAction => start fuel
         | StopAction => stop
         end;
     mret 0)
    [ExcOSError; ExcValueError; ExcJSONDecodeError; ExcSubprocessError; ExcLifecycleError]
    (λ message, _ ← emit_failure message; mret 1).

(** ** What a run did

    The service of a [docker compose <verb> <service>] command. *)
Definition verb_service (verb : string) (command : list string) : option string :=
  if decide (take 8 command = compose []) then
    match drop 8 command with
    | [v; service] => if String.eqb v verb then Some service else None
    | _ => None
    end
  else None.

Definition event_service (verb : string) (e : event) : option string :=
  match e with Ran command _ _ => verb_service verb command | _ => None end.

(** The services a history started, or stopped, in order. *)
Definition served (verb : string) (h : history) : list string := omap (event_service verb) h.

Lemma verb_service_compose verb arguments :
  verb_service verb (compose arguments) =
  match arguments with [v; service] => if String.eqb v verb then Some service else None | _ => None end.
Proof. unfold verb_service. cbn [compose app take drop]. by rewrite decide_True. Qed.

Lemma served_app verb h t : served verb (h ++ t) = served verb h ++ served verb t.
Proof. apply omap_app. Qed.

Lemma served_snoc_none verb h e : event_service verb e = None → served verb (h ++ [e]) = served verb h.
Proof. intros H. rewrite served_app. cbn. rewrite H. apply app_nil_r. Qed.

(** [h] shows a command with its answer. *)
Definition asked (command : list string) (answer : string) (h : history) : Prop :=
  Ran command (Some COMMAND_TIMEOUT_SECONDS) (Ok answer) ∈ h.

(** The start command of a service whose container was found before. *)
Definition started_in (service container : string) (h : history) : Prop :=
  ∃ h1 answer h2, h = h1 ++ Ran (compose ["start"; service]) (Some COMMAND_TIMEOUT_SECONDS) (Ok answer) :: h2
                  ∧ asked (compose ["ps"; "-aq"; service]) container h1.

(** [h] ends with a command and its answer that a part with [P] precedes. *)
Definition asked_since (P : history → Prop) (command : list string) (answer : string) (h : history) : Prop :=
  ∃ h1 h2, h = h1 ++ h2 ∧ P h1 ∧ asked command answer h2.

(** [h] shows the service started and, after that, its container in the
    expected state. *)
Definition observed (service expected : string) (h : history) : Prop :=
  ∃ container, container ≠ "" ∧ asked_since (started_in service container) (inspect_command container) expected h.

(** [h] shows an accepted Compose file. *)
Definition checked (h : history) : Prop :=
  validate = Ok ()
  ∧ ∃ text rendered,
      asked (compose ["config"; "--format"; "json"]) text h ∧ json_loads text = Ok rendered
      ∧ validate_runtime_secrets rendered = Ok () ∧ validate_internal_pki rendered = Ok ().

(** A service may be started after [h]. *)
Definition may_start (h : history) (service : string) : Prop :=
  checked h ∧ ∃ before expected after,
    START_PHASES = before ++ (service, expected) :: after
    ∧ Forall (λ phase, observed phase.1 phase.2 h) before.

(** Every start command of [h] was allowed when it was issued. *)
Definition ordered (h : history) : Prop :=
  ∀ h1 e h2 service, h = h1 ++ e :: h2 → event_service "start" e = Some service → may_start h1 service.

Lemma asked_app c a h t : asked c a h → asked c a (h ++ t).
Proof. unfold asked. rewrite elem_of_app. auto. Qed.

Lemma asked_snoc c a h : asked c a (h ++ [Ran c (Some COMMAND_TIMEOUT_SECONDS) (Ok a)]).
Proof. apply elem_of_app. right. by apply list_elem_of_singleton. Qed.

Lemma asked_since_app P c a h t : asked_since P c a h → asked_since P c a (h ++ t).
Proof. intros (h1 & h2 & -> & HP & Ha). exists h1, (h2 ++ t). rewrite <-app_assoc. auto using asked_app. Qed.

Lemma started_in_app s c h t : started_in s c h → started_in s c (h ++ t).
Proof. intros (h1 & a & h2 & -> & Ha). exists h1, a, (h2 ++ t). by rewrite <-app_assoc. Qed.

Lemma observed_app s e h t : observed s e h → observed s e (h ++ t).
Proof. intros (c & ? & ?). exists c. auto using asked_since_app. Qed.

Lemma checked_app h t : checked h → checked (h ++ t).
Proof. intros (? & x & r & ? & ?). split; [done|]. exists x, r. auto using asked_app. Qed.

Lemma ordered_snoc h e :
  ordered h → (∀ service, event_service "start" e = Some service → may_start h service) → ordered (h ++ [e]).
Proof.
  intros Hh He h1 e' h2 service Heq Hs.
  destruct h2 as [|x h2' _] using rev_ind.
  - apply app_inj_tail in Heq as [<- <-]. auto.
  - change (e' :: h2' ++ [x]) with ((e' :: h2') ++ [x]) in Heq. rewrite app_assoc in Heq.
    apply app_inj_tail in Heq as [-> _]. by eapply Hh.
Qed.

(** The run so far: the services started, and the phases observed. *)
Record progress (phases : list (string * string)) (services : list string) (h : history) : Prop := {
  pr_ordered : ordered h;
  pr_checked : checked h;
  pr_served : served "start" h = services;
  pr_observed : Forall (λ phase, observed phase.1 phase.2 h) phases
}.

Definition halted (_ : option exn) (h : history) : Prop :=
  ordered h ∧ served "start" h `prefix_of` START_PHASES.*1.

Lemma progress_quiet phases services h e :
  event_service "start" e = None → progress phases services h → progress phases services (h ++ [e]).
Proof.
  intros He [Ho Hc Hs Hp]. constructor.
  - apply ordered_snoc; [done|congruence].
  - by apply checked_app.
  - by rewrite served_snoc_none.
  - eapply Forall_impl; [done|]. intros. by apply observed_app.
Qed.

Lemma progress_started phases service expected after services h o t :
  START_PHASES = phases ++ (service, expected) :: after →
  progress phases services h →
  progress phases (services ++ [service]) (h ++ [Ran (compose ["start"; service]) t o]).
Proof.
  intros HP [Ho Hc Hs Hp]. constructor.
  - apply ordered_snoc; [done|]. intros s Hev. cbn [event_service] in Hev.
    rewrite verb_service_compose in Hev. injection Hev as <-.
    split; [done|]. by exists phases, expected, after.
  - by apply checked_app.
  - rewrite served_app, Hs. cbn [served omap list_omap event_service].
    by rewrite verb_service_compose.
  - eapply Forall_impl; [done|]. intros. by apply observed_app.
Qed.

Lemma event_service_silent verb e : command_of e = None → event_service verb e = None.
Proof. by destruct e. Qed.

Lemma emit_event_triple op service outcome started P X :
  (∀ h e, command_of e = None → P h → P (h ++ [e])) → (∀ h e, P h → X e h) →
  triple P (emit_event op service outcome started) (λ _, P) X.
Proof.
  intros HP HX. unfold emit_event.
  eapply triple_bind; [apply (triple_monotonic w P (λ _, P)); intros; by apply HP|]. intros now.
  eapply triple_bind; [apply (triple_lift P _ (λ _, P)); eauto|]. intros ms.
  apply triple_print. intros; by apply HP.
Qed.

(** A command that starts nothing. *)
Lemma run_default_triple command P X :
  verb_service "start" command = None →
  (∀ h e, event_service "start" e = None → P h → P (h ++ [e])) → (∀ h e, P h → X e h) →
  triple P (run_default command) (λ answer h, P h ∧ asked command answer h) X.
Proof.
  intros Hc HP HX. apply triple_run; intros h x Hh.
  - split; [by apply HP|apply asked_snoc].
  - by apply HX, HP.
Qed.

(** Its answer comes after everything the history held before. *)
Lemma run_since_triple command P X :
  verb_service "start" command = None →
  (∀ h e, event_service "start" e = None → P h → P (h ++ [e])) → (∀ h e, P h → X e h) →
  triple P (run_default command) (λ answer h, P h ∧ asked_since P command answer h) X.
Proof.
  intros Hc HP HX. apply triple_run; intros h x Hh.
  - split; [by apply HP|]. eexists h, _. split; [done|]. split; [done|]. by apply list_elem_of_singleton.
  - by apply HX, HP.
Qed.

(** The polling loop only reads; when it returns, the state was observed. *)
Lemma wait_loop_triple fuel container expected service started deadline P X :
  (∀ h e, event_service "start" e = None → P h → P (h ++ [e])) → (∀ h e, P h → X e h) →
  triple P (wait_loop fuel container expected service started deadline)
    (λ _ h, P h ∧ asked_since P (inspect_command container) expected h) X.
Proof.
  intros HP HX. induction fuel as [|fuel IH]; cbn [wait_loop].
  - apply triple_fuel. eauto.
  - eapply triple_bind; [apply (triple_monotonic w P (λ _, P)); intros; by apply HP|]. intros now.
    case_if; [apply triple_lift; [discriminate|eauto]|].
    eapply triple_bind; [by apply run_since_triple|]. intros state. cbn beta.
    case_if; split_bools; [subst state|case_if].
    + apply emit_event_triple.
      * intros h e He [H1 Ht]. split; [apply HP; [by apply event_service_silent|done]|by apply asked_since_app].
      * intros h e [Hh _]. by apply HX.
    + apply triple_lift; [discriminate|]. intros e h _ [Hh _]. by apply HX.
    + eapply triple_bind; [apply (triple_sleep _ _ (λ _, P)); intros h [Hh _]; by apply HP|].
      intros u. exact IH.
Qed.

Lemma wait_triple fuel container expected service started P X :
  (∀ h e, event_service "start" e = None → P h → P (h ++ [e])) → (∀ h e, P h → X e h) →
  triple P (wait fuel container expected service started)
    (λ _ h, P h ∧ asked_since P (inspect_command container) expected h) X.
Proof.
  intros HP HX. unfold wait.
  eapply triple_bind; [apply (triple_monotonic w P (λ _, P)); intros; by apply HP|]. intros now.
  eapply triple_bind; [apply (triple_lift P _ (λ _, P)); eauto|]. intros seconds.
  by apply wait_loop_triple.
Qed.

(** One phase: it needs the progress so far and adds itself. *)
Lemma start_phase_triple fuel before service expected after :
  START_PHASES = before ++ (service, expected) :: after →
  triple (progress before before.*1) (start_phase fuel (service, expected))
    (λ _, progress (before ++ [(service, expected)]) (before ++ [(service, expected)]).*1) halted.
Proof.
  intros HP. unfold start_phase.
  assert (∀ h e, progress before before.*1 h → halted e h) as HX1.
  { intros h e [Ho _ Hs _]. split; [done|]. rewrite Hs, HP, fmap_app. by eexists. }
  assert (∀ h e, progress before (before.*1 ++ [service]) h → halted e h) as HX2.
  { intros h e [Ho _ Hs _]. split; [done|]. rewrite Hs, HP, fmap_app. cbn.
    exists (after.*1). by rewrite <-app_assoc. }
  eapply triple_bind; [apply (triple_monotonic w _ (λ _, progress before before.*1));
                       intros; by apply progress_quiet|]. intros started.
  eapply triple_bind; [apply run_default_triple;
    [by rewrite verb_service_compose|intros; by apply progress_quiet|done]|]. intros container. cbn beta.
  case_if; [apply triple_lift; [discriminate|]; intros e h _ [Hh _]; by apply HX1|].
  set (ps := compose ["ps"; "-aq"; service]).
  eapply (triple_bind _ _ _ (λ _ h, progress before (before.*1 ++ [service]) h ∧ started_in service container h)).
  { apply triple_run; intros h x [Hh Ha].
    - split; [by eapply progress_started|]. by exists h, x, [].
    - eapply HX2, progress_started; eauto. }
  intros u. eapply triple_conseq; [apply (wait_triple fuel container expected service started
    (λ h, progress before (before.*1 ++ [service]) h ∧ started_in service container h) halted)| | |]; [| |done| |done].
  - intros h e He [Hh Ha]. split; [by apply progress_quiet|by apply started_in_app].
  - intros h e [Hh _]. by apply HX2.
  - intros _ h [[[Ho Hc Hs Hp] Ha] (h1 & h2 & -> & [_ Hst] & Hi)]. constructor; [done|done|by rewrite fmap_app|].
    apply Forall_app. split; [done|]. apply Forall_singleton. exists container.
    split; [by intros ->|]. by exists h1, h2.
Qed.

Lemma check_triple X : (∀ h e, ordered h ∧ served "start" h = [] → X e h) →
  triple (λ h, h = []) check (λ _, progress [] []) X.
Proof.
  set (quiet := λ h, ordered h ∧ served "start" h = []). intros HX.
  assert (quiet []) as H0. { split; [|done]. intros h1 e h2 s Heq. by destruct h1. }
  assert (∀ h e, event_service "start" e = None → quiet h → quiet (h ++ [e])) as Hq.
  { intros h e He [Ho Hs]. split; [apply ordered_snoc; [done|congruence]|by rewrite served_snoc_none]. }
  unfold check. eapply (triple_bind _ _ _ (λ _ h, quiet h ∧ validate = Ok ())).
  { apply triple_lift; [intros [] h Hv ->; done|]. intros e h _ ->. by apply HX. }
  intros u. eapply triple_bind; [apply run_default_triple; [by rewrite verb_service_compose| |]|].
  { intros h e He [Hh Hv]. split; [by apply Hq|done]. }
  { intros h e [Hh _]. by apply HX. }
  intros text. cbn beta.
  set (asked_text := λ h, (quiet h ∧ validate = Ok ()) ∧ asked (compose ["config"; "--format"; "json"]) text h).
  assert (∀ e h, asked_text h → X e h) as HX' by (intros e h [[? _] _]; by apply HX).
  eapply (triple_bind _ _ _ (λ rendered h, asked_text h ∧ json_loads text = Ok rendered)).
  { apply triple_lift; [auto|intros e h _; apply HX']. }
  intros rendered. eapply (triple_bind _ _ _
    (λ _ h, (asked_text h ∧ json_loads text = Ok rendered) ∧ validate_runtime_secrets rendered = Ok ())).
  { apply triple_lift; [intros [] h; auto|intros e h _ [Hh _]; by apply HX']. }
  intros u'. apply triple_lift; [|intros e h _ [[Hh _] _]; by apply HX'].
  intros [] h Hp [[[[[Ho Hs] Hv] Ha] Hj] Hr]. constructor; [done| |done|constructor].
  split; [done|]. by exists text, rendered.
Qed.

Lemma start_triple fuel :
  triple (λ h, h = []) (start fuel) (λ _, progress START_PHASES START_PHASES.*1) halted.
Proof.
  unfold start. eapply triple_bind.
  - apply check_triple. intros h e [Ho Hs]. split; [done|]. rewrite Hs. apply prefix_nil.
  - intros u. refine (triple_for_each (λ before, progress before before.*1) _ _ _ _).
    intros before [service expected] after HP. by eapply start_phase_triple.
Qed.

(** C13: Starting the production services, on any machine and whatever Docker
    answers: the services started are an initial part of [START_PHASES], in its
    order; no start command is issued before the Compose file, its secrets and
    its certificates were accepted and every earlier service was started and
    its container, found before, then inspected in its expected state; if
    [start] returns, this holds of every service. *)
Theorem start_in_order fuel r t :
  start fuel [] = (r, t) →
  served "start" t `prefix_of` START_PHASES.*1
  ∧ ordered t
  ∧ (r = Some (Ok ()) →
     served "start" t = START_PHASES.*1 ∧ Forall (λ phase, observed phase.1 phase.2 t) START_PHASES).
Proof.
  intros E. pose proof (triple_run_inv _ _ _ _ _ _ _ (start_triple fuel) eq_refl E) as H.
  destruct r as [[[]|e]|]; cbn in H.
  - destruct H as [Ho _ Hs Hp]. split; [by rewrite Hs|]. by split.
  - destruct H as [Ho Hs]. split; [done|]. split; [done|discriminate].
  - destruct H as [Ho Hs]. split; [done|]. split; [done|discriminate].
Qed.

(** ** Stopping *)

(** The services stopped so far, and what [docker compose ps] said of each. *)
Definition stop_state (visited : list string) (h : history) : Prop :=
  served "stop" h `sublist_of` visited
  ∧ Forall (λ service, ∃ container, asked (compose ["ps"; "-aq"; service]) container h
                       ∧ (service ∈ served "stop" h ↔ container ≠ "")) visited.

Lemma stop_state_quiet visited h e :
  event_service "stop" e = None → stop_state visited h → stop_state visited (h ++ [e]).
Proof.
  intros He [Hs Hf]. unfold stop_state. rewrite served_snoc_none by done. split; [done|].
  eapply Forall_impl; [done|]. intros s (c & Ha & Hc). exists c. split; [by apply asked_app|done].
Qed.

Lemma stop_state_next visited service h h' stopped container :
  service ∉ visited → stop_state visited h →
  served "stop" h' = served "stop" h ++ (if stopped : bool then [service] else []) →
  (∀ c a, asked c a h → asked c a h') →
  asked (compose ["ps"; "-aq"; service]) container h' → (stopped = true ↔ container ≠ "") →
  stop_state (visited ++ [service]) h'.
Proof.
  clear json_loads.
  intros Hn [Hs Hf] E Ha Hps Hc. unfold stop_state. rewrite E. split.
  { destruct stopped; [by apply sublist_app|rewrite app_nil_r; by apply sublist_inserts_r]. }
  apply Forall_app. split; [|apply Forall_singleton; exists container; split; [done|]].
  - eapply Forall_impl; [apply Forall_and; split; [exact Hf|]; apply Forall_forall; intros s Hin; exact Hin|].
    intros s [(c & Hasked & Hiff) Hin]. exists c. split; [by apply Ha|]. rewrite elem_of_app, Hiff.
    destruct stopped; [rewrite list_elem_of_singleton|rewrite elem_of_nil]; [|naive_solver].
    split; [intros [?| ->]; done|auto].
  - rewrite elem_of_app, <-Hc. destruct stopped; [rewrite list_elem_of_singleton; naive_solver|].
    rewrite elem_of_nil. split; [intros [H|H]; [|done]|done].
    apply (sublist_subseteq _ _ Hs) in H. done.
Qed.

Lemma stop_service_triple visited service :
  service ∉ visited →
  triple (stop_state visited) (stop_service service) (λ _, stop_state (visited ++ [service]))
    (λ _ h, served "stop" h `sublist_of` visited ++ [service]).
Proof.
  intros Hn. set (X := λ (_ : option exn) h, served "stop" h `sublist_of` visited ++ [service]).
  assert (∀ h e, stop_state visited h → X e h) as HX.
  { intros h e [Hs _]. by apply sublist_inserts_r. }
  assert (∀ h e, stop_state (visited ++ [service]) h → X e h) as HX2 by (by intros h e [Hs _]).
  set (ps := compose ["ps"; "-aq"; service]).
  assert (∀ o, event_service "stop" (Ran ps (Some COMMAND_TIMEOUT_SECONDS) o) = None) as Hps.
  { intros o. cbn [event_service]. unfold ps. by rewrite verb_service_compose. }
  unfold stop_service, container_id. fold ps.
  eapply (triple_bind _ _ _ (λ container h, stop_state visited h ∧ asked ps container h)).
  { apply triple_run; intros h x Hh; [split; [|apply asked_snoc]|apply HX]; by apply stop_state_quiet. }
  intros container. cbn beta. destruct (is_empty container) eqn:E.
  - apply triple_ret. intros h [Hh Ha]. eapply (stop_state_next _ _ h h false); eauto; [by rewrite app_nil_r|].
    destruct container; [split; [done|congruence]|done].
  - eapply triple_bind; [apply (triple_monotonic w _ (λ _ h, stop_state visited h ∧ asked ps container h));
      intros h [? ?]; split; [by apply stop_state_quiet|by apply asked_app]|]. intros started.
    assert (∀ h t o, stop_state visited h → asked ps container h →
      stop_state (visited ++ [service]) (h ++ [Ran (compose ["stop"; service]) t o])) as Hnext.
    { intros h t o Hh Ha. eapply (stop_state_next _ _ h _ true); eauto using asked_app.
      - rewrite served_app. cbn [served omap list_omap event_service]. by rewrite verb_service_compose.
      - split; [|done]. intros _ ->. done. }
    eapply (triple_bind _ _ _ (λ _, stop_state (visited ++ [service]))).
    { apply triple_run; intros h x [Hh Ha]; [|apply HX2]; by apply Hnext. }
    intros u. apply emit_event_triple; [|intros; by apply HX2].
    intros h e He. apply stop_state_quiet. by apply event_service_silent.
Qed.

(** Stopping visits the services in the reverse of the start order: what is
    stopped is a subsequence of [STOP_SERVICES] whatever Docker answers, nothing
    is stopped under a configuration that does not validate, and if [stop]
    returns, the services stopped are exactly those for which
    [docker compose ps] named a container. *)
Theorem stop_in_reverse_order r t :
  stop [] = (r, t) →
  served "stop" t `sublist_of` reverse START_PHASES.*1
  ∧ (validate ≠ Ok () → t = [])
  ∧ (r = Some (Ok ()) →
     ∀ service, service ∈ START_PHASES.*1 →
       ∃ container, asked (compose ["ps"; "-aq"; service]) container t
                    ∧ (service ∈ served "stop" t ↔ container ≠ "")).
Proof.
  intros E. replace (reverse START_PHASES.*1) with STOP_SERVICES by reflexivity.
  unfold stop in E. rewrite eff_bind_lift in E. destruct validate as [[]|e] eqn:Hv.
  2: { injection E as <- <-. split; [apply sublist_nil_l|]. split; [done|discriminate]. }
  assert (triple (stop_state []) (for_each stop_service STOP_SERVICES) (λ _, stop_state STOP_SERVICES)
            (λ _ h, served "stop" h `sublist_of` STOP_SERVICES)) as H.
  { apply triple_for_each. intros before service after Hl.
    eapply triple_conseq; [apply stop_service_triple|done|done|].
    - assert (NoDup STOP_SERVICES) as Hnd by (apply (bool_decide_unpack _); vm_compute; exact I).
      rewrite Hl in Hnd. apply NoDup_app in Hnd as (_ & Hd & _). intros Hin. apply (Hd _ Hin). by left.
    - intros e h Hs. rewrite Hl. etrans; [exact Hs|]. apply (sublist_app _ _ _ _ (reflexivity _)).
      apply sublist_skip, sublist_nil_l. }
  apply (triple_run_inv _ _ _ _ [] r t H) in E; [|by split; [apply sublist_nil_l|constructor]].
  assert (served "stop" t `sublist_of` STOP_SERVICES) as Hs.
  { destruct r as [[[]|e]|]; cbn in E; [by destruct E|done..]. }
  split; [done|]. split; [done|]. intros -> service Hin. cbn in E. destruct E as [_ Hf].
  rewrite Forall_forall in Hf. apply Hf.
  apply elem_of_reverse in Hin. exact Hin.
Qed.

(** ** Termination

    The number of pauses in a history. *)
Definition pauses (h : history) : nat := length (omap (λ e, match e with Slept s => Some s | _ => None end) h).

Lemma pauses_app h t : pauses (h ++ t) = (pauses h + pauses t)%nat.
Proof. unfold pauses. by rewrite omap_app, length_app. Qed.

(** [n] pauses take the waiting time: [time.sleep] pauses at least as long as
    asked and the clock advances.  Only the pauses a start can make matter. *)
Definition patient (n : nat) : Prop := ∀ seconds h t,
  float_of_int (wait_seconds config) = Ok seconds →
  (pauses h <= n * length START_PHASES)%nat → pauses t = n →
  (w_clock w (h ++ t) <? w_clock w h + seconds)%float = false.

Definition ran_out (o : option exn) : Prop := o = None.

Section termination.
Context (n : nat) (Hpatient : patient n).

Lemma calm_run command timeout k X : (∀ h e, X (Some e) h) →
  triple (λ h, (pauses h <= k)%nat) (run w command timeout) (λ _ h, (pauses h <= k)%nat) X.
Proof. intros HX. apply triple_run; [intros h s; rewrite pauses_app; cbn; lia|auto]. Qed.

Lemma calm_monotonic k X :
  triple (λ h, (pauses h <= k)%nat) (monotonic w) (λ _ h, (pauses h <= k)%nat) X.
Proof. apply triple_monotonic. intros h. rewrite pauses_app. cbn. lia. Qed.

Lemma calm_emit_event op service outcome started k X : (∀ h e, X (Some e) h) →
  triple (λ h, (pauses h <= k)%nat) (emit_event op service outcome started) (λ _ h, (pauses h <= k)%nat) X.
Proof.
  intros HX. unfold emit_event. eapply triple_bind; [apply calm_monotonic|]. intros now.
  eapply triple_bind; [apply (triple_lift _ _ (λ _ h, (pauses h <= k)%nat)); auto|]. intros ms.
  apply triple_print. intros h. rewrite pauses_app. cbn. lia.
Qed.

Lemma wait_loop_total seconds h0 fuel container expected service started :
  float_of_int (wait_seconds config) = Ok seconds → (pauses h0 <= n * length START_PHASES)%nat →
  triple (λ h, ∃ t, h = h0 ++ t ∧ (n < fuel + pauses t)%nat ∧ (pauses t <= n)%nat)
    (wait_loop fuel container expected service started (w_clock w h0 + seconds)%float)
    (λ _ h, (pauses h <= pauses h0 + n)%nat) (λ e _, ¬ ran_out e).
Proof using Type*.
  intros Hsec Hh0. induction fuel as [|fuel IH]; cbn [wait_loop].
  { apply triple_fuel. intros h (t & _ & ? & ?). lia. }
  eapply (triple_bind _ _ _ (λ now h, ∃ t, h = h0 ++ t ∧ (n < S fuel + pauses t)%nat ∧ (pauses t <= n)%nat
    ∧ ((now <? w_clock w h0 + seconds)%float = true → (pauses t < n)%nat))).
  { apply triple_monotonic. intros h (t & -> & Hf & Hn). exists (t ++ [Clocked (w_clock w (h0 ++ t))]).
    rewrite app_assoc, pauses_app. cbn. split; [done|]. split; [lia|]. split; [lia|]. intros Hlt.
    destruct (le_lt_dec n (pauses t)) as [Hle|]; [|lia].
    by rewrite (Hpatient seconds h0 t Hsec Hh0 ltac:(lia)) in Hlt. }
  intros now. case_if; split_bools; [by apply triple_lift|]. rename Heqb into Hlt.
  set (early := λ h, ∃ t, h = h0 ++ t ∧ (n < S fuel + pauses t)%nat ∧ (pauses t < n)%nat).
  assert (∀ h, early h → (pauses h <= pauses h0 + n)%nat) as Hearly.
  { intros h (t & -> & _ & Ht). rewrite pauses_app. lia. }
  eapply (triple_bind _ _ _ (λ _, early)).
  { apply triple_run; [|done]. intros h s (t & -> & Hf & _ & Ht). specialize (Ht Hlt).
    eexists. split; [by rewrite <-app_assoc|]. rewrite pauses_app. cbn. lia. }
  intros state. case_if; [|case_if].
  - eapply triple_conseq; [apply (calm_emit_event _ _ _ _ (pauses h0 + n) (λ e _, ¬ ran_out e))|exact Hearly|done|done].
    done.
  - by apply triple_lift.
  - eapply triple_bind; [|intros u; exact IH]. apply triple_sleep. intros h (t & -> & Hf & Ht).
    eexists. split; [by rewrite <-app_assoc|]. rewrite pauses_app. cbn. lia.
Qed.

Lemma start_phase_total k phase : (k <= n * (length START_PHASES))%nat →
  triple (λ h, (pauses h <= k)%nat) (start_phase (S n) phase) (λ _ h, (pauses h <= k + n)%nat)
    (λ e _, ¬ ran_out e).
Proof using Type*.
  intros Hk. destruct phase as [service expected]. unfold start_phase.
  eapply triple_bind; [apply calm_monotonic|]. intros started.
  eapply triple_bind; [by apply calm_run|]. intros container.
  case_if; [by apply triple_lift|].
  eapply triple_bind; [by apply calm_run|]. intros u. unfold wait.
  intros h Hh. unfold mbind, eff_bind at 1. cbn [monotonic].
  pose proof (eff_bind_lift (float_of_int (wait_seconds config)) (λ seconds,
    wait_loop (S n) container expected service started (w_clock w h + seconds)%float)
    (h ++ [Clocked (w_clock w h)])) as E.
  cbv beta in E. unfold mbind in E. rewrite E. clear E.
  destruct (float_of_int _) as [seconds|e] eqn:Hsec; [|done].
  pose proof (wait_loop_total seconds h (S n) container expected service started Hsec ltac:(lia)) as H.
  specialize (H (h ++ [Clocked (w_clock w h)])).
  destruct (wait_loop _ _ _ _ _ _ _) as [[[a|e]|] t].
  - rewrite <-app_assoc in H. eapply Nat.le_trans; [apply H|lia].
    eexists. split; [done|]. cbn. lia.
  - apply H. eexists. split; [done|]. cbn. lia.
  - apply H. eexists. split; [done|]. cbn. lia.
Qed.
End termination.

(** C36: Starting terminates: when [n] pauses of [poll_seconds] take the
    [wait_seconds] (the clock advances by what is slept), a fuel of [n + 1]
    polls per service is enough for [start] to return or raise, whatever Docker
    answers. *)
Theorem start_terminates n : patient n → (start (S n) []).1 ≠ None.
Proof.
  intros Hp. unfold start.
  set (I := λ before : list (string * string), λ h, (pauses h <= n * length before)%nat).
  assert (triple (I []) (for_each (start_phase (S n)) START_PHASES) (λ _, I START_PHASES)
    (λ e _, ¬ ran_out e)) as Hloop.
  { apply triple_for_each. intros before phase after HP.
    eapply triple_conseq; [apply (start_phase_total n Hp (n * length before) phase)| | |]; [|done| |done].
    - rewrite HP, length_app. cbn. lia.
    - intros u h. unfold I. rewrite length_app. cbn. lia. }
  assert (triple (λ h, pauses h = 0%nat) (_ ← check; for_each (start_phase (S n)) START_PHASES) (λ _ _, True)
    (λ e _, ¬ ran_out e)) as H.
  { eapply (triple_bind _ _ _ (λ _ h, (pauses h <= 0)%nat)).
    - unfold check. eapply (triple_bind _ _ _ (λ _ h, (pauses h <= 0)%nat));
        [apply triple_lift; [intros a h _ ->; lia|done]|intros u].
      eapply triple_bind; [by apply calm_run|]. intros text.
      eapply (triple_bind _ _ _ (λ _ h, (pauses h <= 0)%nat)); [by apply triple_lift|]. intros rendered.
      eapply (triple_bind _ _ _ (λ _ h, (pauses h <= 0)%nat)); [by apply triple_lift|]. intros u'.
      by apply triple_lift.
    - intros u. eapply triple_conseq; [exact Hloop| |done|done]. intros h Hh. unfold I. cbn. lia. }
  specialize (H [] eq_refl).
  destruct ((check ≫= λ _ : (), for_each (start_phase (S n)) START_PHASES) []) as [[[a|e]|] t]; [done|done|].
  intros _. by apply H.
Qed.

(** ** No container is created or removed *)

(** The commands the tool may run: reading ones, and start and stop of a
    service the tool manages. *)
Definition gentle_command (command : list string) : Prop :=
  command = compose ["config"; "--format"; "json"]
  ∨ (∃ service, service ∈ START_PHASES.*1
       ∧ (command = compose ["ps"; "-aq"; service] ∨ command = compose ["start"; service]
          ∨ command = compose ["stop"; service]))
  ∨ ∃ container, command = inspect_command container.

Definition gentle (e : event) : Prop :=
  match e with Ran command _ _ => gentle_command command | _ => True end.

Lemma gentle_emit_event op service outcome started : emits gentle (emit_event op service outcome started).
Proof. unfold emit_event. emits_steps. Qed.

Lemma gentle_run_default command : gentle_command command → emits gentle (run_default command).
Proof. intros. by apply emits_run. Qed.

Lemma gentle_check : emits gentle check.
Proof. unfold check. emits_steps. apply gentle_run_default. by left. Qed.

Lemma gentle_wait fuel container expected service started :
  emits gentle (wait fuel container expected service started).
Proof.
  unfold wait. apply emits_bind; [emits_steps|intros now]. apply emits_bind; [emits_steps|intros seconds].
  generalize (now + seconds)%float as deadline. intros deadline.
  induction fuel as [|fuel IH]; cbn [wait_loop]; emits_steps; [|apply gentle_emit_event|done].
  apply gentle_run_default. right; right. by eexists.
Qed.

Lemma gentle_ps service : service ∈ START_PHASES.*1 → emits gentle (container_id service).
Proof. intros Hin. apply gentle_run_default. right; left. exists service. auto. Qed.

Lemma gentle_start_phase fuel phase : phase ∈ START_PHASES → emits gentle (start_phase fuel phase).
Proof.
  destruct phase as [service expected]. intros Hin%(list_elem_of_fmap_2 fst). cbn in Hin.
  unfold start_phase. emits_steps; [by apply gentle_ps| |apply gentle_wait].
  apply gentle_run_default. right; left. exists service. auto.
Qed.

Lemma gentle_stop_service service : service ∈ STOP_SERVICES → emits gentle (stop_service service).
Proof.
  intros Hin. assert (service ∈ START_PHASES.*1) as Hs by (by apply elem_of_reverse in Hin).
  unfold stop_service. emits_steps; [by apply gentle_ps| |apply gentle_emit_event].
  apply emits_run. intros o. right; left. exists service. auto.
Qed.

(** Whatever the action and the machine, the tool runs nothing but the
    rendering of the configuration, container look-ups and inspections, and
    start and stop of managed services: no container is created, recreated or
    removed, as [plan] announces. *)
Theorem lifecycle_never_recreates fuel act h : Forall gentle (main fuel act h).2.
Proof.
  apply (emits_try gentle); [|intros message; unfold emit_failure; emits_steps].
  apply emits_bind; [|intros u; emits_steps]. destruct act; [apply gentle_check|emits_steps..| |].
  - apply emits_bind; [apply gentle_check|intros u]. apply emits_for_each.
    intros phase. apply gentle_start_phase.
  - apply emits_bind; [emits_steps|intros u]. apply emits_for_each. intros service. apply gentle_stop_service.
Qed.
End lifecycle.

(** ** Instances *)

Definition sample_config : LifecycleConfig := {|
  compose_file := parse_path "/srv/compose.yml"; env_file := parse_path "/srv/prod.env";
  project_name := "gcs-saker-m2-production"; deployment_target := "server01-production";
  wait_seconds := 20; poll_seconds := 10 |}.

Definition sample_files : files := {|
  fs_is_file := λ _, Ok true; fs_is_dir := λ _, Ok true; fs_size := λ _, Ok 7; fs_mode := λ _, Ok 384;
  fs_read := λ _, Ok [] |}.

Definition sample_rendered (_ : string) : result jval :=
  Ok (JObj [("secrets", JObj [("db", JObj [("file", JStr "/srv/secrets/db")])]);
            ("services", JObj [("mqtt", JObj [("volumes", JList [JObj [
               ("source", JStr "/srv/pki"); ("target", JStr "/run/secrets/gcs-pki")]])])])]).

(** Docker names a container after its service; [postgres-geo] needs one pause. *)
Definition sample_run (h : history) (command : list string) (_ : option Z) : result string :=
  match reverse command with
  | service :: "-aq" :: _ => Ok service
  | container :: _ :: "--format" :: _ =>
      Ok (if String.eqb container "mediamtx" then "running"
          else if String.eqb container "postgres-geo" && Nat.eqb (pauses h) 0 then "starting" else "healthy")
  | _ => Ok ""
  end.

Definition sample_world : world := {|
  w_run := sample_run;
  w_exec := λ _ _, Ok (0, "");
  w_clock := λ h, (10 * PrimFloat.of_uint63 (Uint63.of_Z (Z.of_nat (pauses h))))%float;
  w_date := λ _, mkDatetime 0 (Some 0);
  w_fetch := λ _ _, NoResponse;
  w_create := λ _ _ _, Ok (); w_copy := λ _ _ _, Ok () |}.

Definition sample_start (fuel : nat) : eff () :=
  start sample_world sample_files sample_rendered (λ _, "") sample_config fuel.

Definition sample_stop : eff () := stop sample_world sample_files sample_config.

Lemma start_in_order_witness :
  (sample_start 3 []).1 = Some (Ok ())
  ∧ served sample_config "start" (sample_start 3 []).2 = START_PHASES.*1.
Proof.
  assert ((sample_start 3 []).1 = Some (Ok ())) as Hr by (vm_compute; reflexivity).
  split; [exact Hr|].
  destruct (sample_start 3 []) as [r t] eqn:E.
  exact (proj1 (proj2 (proj2 (start_in_order sample_world sample_files sample_rendered (λ _, "") sample_config
    3 r t E)) Hr)).
Defined.

Lemma stop_in_reverse_order_witness :
  (sample_stop []).1 = Some (Ok ())
  ∧ served sample_config "stop" (sample_stop []).2 `sublist_of` reverse START_PHASES.*1
  ∧ "edge" ∈ served sample_config "stop" (sample_stop []).2.
Proof.
  assert ((sample_stop []).1 = Some (Ok ())) as Hr by (vm_compute; reflexivity).
  assert ("edge" ∈ served sample_config "stop" (sample_stop []).2) as He
    by (apply (bool_decide_unpack _); vm_compute; exact I).
  split; [exact Hr|]. destruct (sample_stop []) as [r t] eqn:E.
  split; [exact (proj1 (stop_in_reverse_order sample_world sample_files sample_config r t E))|exact He].
Defined.

Lemma start_terminates_witness : patient sample_world sample_config 2 ∧ (sample_start 3 []).1 ≠ None.
Proof.
  assert (patient sample_world sample_config 2) as Hp; [|split; [exact Hp|
    exact (start_terminates sample_world sample_files sample_rendered (λ _, "") sample_config 2 Hp)]].
  intros seconds h t Hs Hh Ht. cbn [w_clock sample_world].
  assert (seconds = 20%float) as -> by (vm_compute in Hs; by injection Hs as <-).
  rewrite pauses_app, Ht. cbn [length START_PHASES] in Hh. generalize dependent (pauses h). intros k Hk.
  do 21 (destruct k as [|k]; [vm_compute; reflexivity|]). lia.
Defined.
