(* ===== verification/Evidence.v ===== *)
(** What the evidence reports share: controlled documents in JSON or YAML, sets
    of JSON values, immutable outputs.

    The JSON and YAML codecs are parameters.  A YAML date, which JSON does not
    have, is held as a number: like a date it is neither a text nor a container. *)

From stdpp Require Import base list strings sorting.
From Stdlib Require Import ZArith Lia.
From S2P Require Import Prelude PyStr PyJson PyText Host Effects.

#[local] Open Scope Z_scope.

Section documents.
Context (json_loads yaml_safe_load : string → result jval) (error : exn_class).

(** A document whose loader its suffix chooses; it must be an object. *)
Definition load_document (fs : files) (path : fs_path) : result (list (string * jval)) :=
  text ← fs_text fs path;
  document ← (if String.eqb (path_suffix path) ".json" then json_loads text else yaml_safe_load text);
  match document with
  | JObj d => Ok d
  | _ => throw error (path_name path +:+ " must contain an object")
  end.
End documents.

(** A computation on the files as they are now. *)
Definition reading (fs : history → files) {A} (f : files → result A) : eff A := λ h, (Some (f (fs h)), []).

(** A report written to a new file of an existing directory. *)
Definition write_new (w : world) (fs : history → files) (error : exn_class) (path : fs_path) (document : jval) : eff () :=
  ok ← reading fs (λ fs, and_r (Ok (p_absolute path)) (fs_is_dir fs (path_parent path)));
  if negb ok then raise error "output must use an existing absolute directory" else create w path document.

(** [stream.read(limit)] of a stream that holds some bytes. *)
Definition read_at_most (limit : Z) (bytes : list Byte.byte) : list Byte.byte :=
  if Z.of_nat (length bytes) <=? limit then bytes else take (Z.to_nat limit) bytes.

(** ** Sets of JSON values *)

(** [set(v)] as the list of its elements. *)
Definition j_set (v : jval) : result (list jval) :=
  items ← j_items v;
  if forallb hashable items then Ok items else type_error "unhashable type".

(** [x in s] for a set [s]. *)
Definition j_elem (x : jval) (s : list jval) : bool := existsb (py_eq x) s.

Definition j_subset (a b : list jval) : bool := forallb (λ x, j_elem x b) a.

(** [d[name]] along a path of keys. *)
Fixpoint j_path (v : jval) (names : list string) : result jval :=
  match names with [] => Ok v | name :: rest => w ← j_getitem v name; j_path w rest end.

(** [v.get(name)] of every item that is an object. *)
Definition as_dict (v : jval) : option (list (string * jval)) := match v with JObj d => Some d | _ => None end.

(** [{item[key]: item for item in entries if ...}]: a later item replaces an earlier one of its key. *)
Definition index_by_step (key : string) (indexed : list (string * list (string * jval))) (item : jval) :=
  match item with
  | JObj d => match obj_get d key with JStr id => dict_set indexed id d | _ => indexed end
  | _ => indexed
  end.
Definition index_by (key : string) (entries : list jval) : list (string * list (string * jval)) :=
  foldl (index_by_step key) [] entries.

(** ** Catalogues of identified entries *)

Notation entry := (list (string * jval)).

(** [d[key] = value] on a dict keyed by JSON values: equal keys are one key. *)
Fixpoint set_by_id (d : list (jval * entry)) (key : jval) (value : entry) : list (jval * entry) :=
  match d with
  | [] => [(key, value)]
  | (k, v) :: d' => if py_eq k key then (k, value) :: d' else (k, v) :: set_by_id d' key value
  end.

Fixpoint get_by_id (d : list (jval * entry)) (key : jval) : option entry :=
  match d with
  | [] => None
  | (k, v) :: d' => if py_eq k key then Some v else get_by_id d' key
  end.

(** One entry of [{entry.get("id"): entry for entry in entries if isinstance(entry, dict)}]. *)
Definition index_step (d : list (jval * entry)) (e : jval) : result (list (jval * entry)) :=
  match e with
  | JObj e => let key := obj_get e "id" in if hashable key then Ok (set_by_id d key e) else type_error "unhashable type"
  | _ => Ok d
  end.

(** The entries of a non-empty list by their identifiers, which are present and unique. *)
Definition index_entries (error : exn_class) (entries : jval) (label : string) : result (list (jval * entry)) :=
  match entries with
  | JList ((_ :: _) as l) =>
      indexed ← for_in index_step [] l;
      if negb (Nat.eqb (length indexed) (length l)) || existsb (λ kv, py_eq kv.1 JNull) indexed
      then throw error (label +:+ " IDs must be present and unique") else Ok indexed
  | _ => throw error (label +:+ " must be a non-empty list")
  end.

(** [names.issubset(d)] *)
Definition has_keys (d : entry) (names : list string) : bool := forallb (dict_has d) names.

(** [a == b] on sets. *)
Definition j_set_eq (a b : list jval) : bool := j_subset a b && j_subset b a.

(** [len(l) == len(set(l))] *)
Fixpoint j_distinct (l : list jval) : bool :=
  match l with [] => true | x :: l' => negb (j_elem x l') && j_distinct l' end.

(** [path.exists()] *)
Definition fs_exists (fs : files) (path : fs_path) : bool := is_ok (fs_mode fs path).

Lemma set_by_id_length d key value :
  (length (set_by_id d key value) = length d ∨ set_by_id d key value = d ++ [(key, value)])
  ∧ (length (set_by_id d key value) <= S (length d))%nat.
Proof.
  induction d as [|[k v] d [IH1 IH2]]; cbn; [split; [by right|lia]|].
  destruct (py_eq k key); cbn; [split; [by left|lia]|]. split; [|lia].
  destruct IH1 as [IH|IH]; [left; lia|right; by rewrite IH].
Qed.

Lemma index_steps_length d l d' : for_in index_step d l = Ok d' → (length d' <= length d + length l)%nat.
Proof.
  revert d. induction l as [|e l IH]; intros d; cbn; [intros [= ->]; lia|].
  intros (d1 & H1 & H2)%bind_Ok. apply IH in H2.
  assert (length d1 <= S (length d))%nat; [|lia].
  destruct e; try (injection H1 as <-; lia). cbn in H1. destruct (hashable _); [|discriminate].
  injection H1 as <-. apply set_by_id_length.
Qed.

(** Nothing is dropped or replaced when no length is lost. *)
Lemma index_steps_exact d l d' :
  for_in index_step d l = Ok d' → length d' = (length d + length l)%nat →
  ∃ es, l = JObj <$> es ∧ d' = d ++ ((λ e, (obj_get e "id", e)) <$> es).
Proof.
  revert d. induction l as [|e l IH]; intros d; cbn [for_in].
  { intros [= ->] _. exists []. split; [done|]. by rewrite app_nil_r. }
  intros (d1 & H1 & H2)%bind_Ok Hlen. pose proof (index_steps_length _ _ _ H2) as Hle. cbn in Hlen.
  destruct e as [| | | | | |e]; try (injection H1 as <-; lia). cbn in H1. destruct (hashable _); [|discriminate].
  injection H1 as <-. destruct (set_by_id_length d (obj_get e "id") e) as [[Hs|Hs] _]; [rewrite Hs in Hle; lia|].
  rewrite Hs in H2. destruct (IH _ H2) as (es & -> & ->); [rewrite length_app; cbn; lia|].
  exists (e :: es). split; [done|]. rewrite <-app_assoc. done.
Qed.

Lemma index_entries_Ok error entries label d :
  index_entries error entries label = Ok d →
  ∃ es, entries = JList (JObj <$> es) ∧ es ≠ [] ∧ d = (λ e, (obj_get e "id", e)) <$> es
    ∧ Forall (λ e, obj_get e "id" ≠ JNull) es.
Proof.
  unfold index_entries. destruct entries as [| | | | |[|v l]|]; try discriminate.
  intros (d1 & H1 & H)%bind_Ok. destruct (_ || _) eqn:E; [discriminate|]. injection H as ->.
  apply orb_false_iff in E as [El Ek]. apply negb_false_iff, Nat.eqb_eq in El.
  destruct (index_steps_exact _ _ _ H1 El) as (es & Hes & ->). exists es. rewrite Hes. split; [done|].
  split; [intros ->; discriminate Hes|]. split; [done|]. apply existsb_false in Ek.
  apply Forall_fmap in Ek. eapply Forall_impl; [exact Ek|]. cbn. intros e He Hn. by rewrite Hn in He.
Qed.

(** Entries by a text field, which every entry has and no two share. *)
Definition unique_entries (error : exn_class) (value : jval) (key label : string) : result (list (string * entry)) :=
  match value with
  | JList l =>
      let indexed := index_by key l in
      if Nat.eqb (length indexed) (length l) then Ok indexed else throw error (label +:+ " IDs must be unique strings")
  | _ => throw error (label +:+ " must be a list")
  end.

Lemma dict_set_length {V} (d : list (string * V)) k v :
  (length (dict_set d k v) <= S (length d))%nat ∧ (length (dict_set d k v) = S (length d) → k ∉ dict_keys d).
Proof.
  destruct (decide (k ∈ dict_keys d)) as [Hk|Hk]; [|rewrite dict_set_new, length_app by done; cbn; split; [lia|done]].
  assert (length (dict_set d k v) = length d) as ->; [|split; lia].
  pose proof (f_equal length (dict_keys_set d k v)) as H. rewrite decide_True in H by done.
  unfold dict_keys in H. by rewrite !length_fmap in H.
Qed.

Lemma index_by_length key l d : (length (foldl (index_by_step key) d l) <= length d + length l)%nat.
Proof.
  revert d. induction l as [|e l IH]; intros d; cbn; [lia|]. specialize (IH (index_by_step key d e)).
  assert (length (index_by_step key d e) <= S (length d))%nat; [|lia].
  unfold index_by_step. repeat case_match; try lia. apply dict_set_length.
Qed.

Lemma index_by_exact key l d :
  length (foldl (index_by_step key) d l) = (length d + length l)%nat → dict_wf d →
  ∃ es, foldl (index_by_step key) d l = d ++ es ∧ l = JObj <$> es.*2
    ∧ Forall (λ kv, obj_get kv.2 key = JStr kv.1) es ∧ dict_wf (d ++ es).
Proof.
  revert d. induction l as [|e l IH]; intros d; cbn [foldl].
  { intros _ Hwf. exists []. by rewrite app_nil_r. }
  intros Hlen Hwf. pose proof (index_by_length key l (index_by_step key d e)) as Hle. cbn [length] in Hlen.
  assert (length (index_by_step key d e) = S (length d) ∧ ∃ o id, e = JObj o ∧ obj_get o key = JStr id
    ∧ index_by_step key d e = d ++ [(id, o)]) as (Hs & o & id & -> & Hid & Hd).
  { unfold index_by_step in *. destruct e as [| | | | | |o]; try lia. destruct (obj_get o key) as [| | | |id| |] eqn:Eo; try lia.
    destruct (dict_set_length d id o) as [Hl Hn]. assert (length (dict_set d id o) = S (length d)) as Hs by lia.
    split; [done|]. exists o, id. by rewrite dict_set_new by auto. }
  rewrite Hd in *. destruct (IH (d ++ [(id, o)])) as (es & He & -> & Hf & Hw).
  { rewrite Hlen, length_app. cbn. lia. }
  { rewrite <-Hd. unfold index_by_step. rewrite Hid. by apply dict_set_wf. }
  exists ((id, o) :: es). rewrite He, <-app_assoc in *. split; [done|]. split; [done|]. split; [by constructor|done].
Qed.

Lemma unique_entries_Ok error value key label d :
  unique_entries error value key label = Ok d →
  value = JList (JObj <$> d.*2) ∧ Forall (λ kv, obj_get kv.2 key = JStr kv.1) d ∧ NoDup d.*1.
Proof.
  unfold unique_entries. destruct value as [| | | | |l|]; try discriminate.
  destruct (Nat.eqb_spec (length (index_by key l)) (length l)) as [Hl|]; [|discriminate]. intros [= <-].
  destruct (index_by_exact key l [] Hl ltac:(constructor)) as (es & He & Hes & Hf & Hw). unfold index_by. rewrite He. cbn [app].
  by rewrite <-Hes.
Qed.

(** [sorted(set(l))] *)
Definition sorted_set (l : list string) : list string := py_sorted (remove_dups l).

Lemma sorted_set_nil l : sorted_set l = [] ↔ l = [].
Proof.
  unfold sorted_set. rewrite py_sorted_nil. split; [|by intros ->]. intros H.
  destruct l as [|x l]; [done|]. assert (x ∈ remove_dups (x :: l)) as Hx by (apply elem_of_remove_dups; left).
  rewrite H in Hx. by apply not_elem_of_nil in Hx.
Qed.

(** [d.setdefault(key, []).append(value)] *)
Definition dict_append {K V} `{EqDecision K} (d : list (K * list V)) (key : K) (value : V) : list (K * list V) :=
  dict_set d key (default [] (dict_get d key) ++ [value]).

(** Items appended one after the other are grouped by their keys, in their order. *)
Lemma dict_append_all {K V A} `{EqDecision K} (f : A → K) (g : A → V) l d key :
  default [] (dict_get (foldl (λ d a, dict_append d (f a) (g a)) d l) key)
  = default [] (dict_get d key) ++ map g (List.filter (λ a, bool_decide (f a = key)) l).
Proof.
  revert d. induction l as [|a l IH]; intros d; cbn [foldl List.filter]; [by rewrite app_nil_r|].
  rewrite IH. unfold dict_append. rewrite dict_get_set. destruct (decide (key = f a)) as [->|Hk].
  - rewrite bool_decide_true by done. cbn. by rewrite <-app_assoc.
  - by rewrite bool_decide_false.
Qed.

Lemma dict_append_keys {K V A} `{EqDecision K} (f : A → K) (g : A → V) l d :
  dict_wf d → dict_wf (foldl (λ d a, dict_append d (f a) (g a)) d l)
  ∧ ∀ key, key ∈ dict_keys (foldl (λ d a, dict_append d (f a) (g a)) d l) ↔ key ∈ dict_keys d ∨ ∃ a, a ∈ l ∧ f a = key.
Proof.
  revert d. induction l as [|a l IH]; intros d Hd; cbn [foldl].
  - split; [done|]. intros key. split; [by left|]. intros [?|(? & ?%elem_of_nil & _)]; done.
  - destruct (IH (dict_append d (f a) (g a))) as [Hw Hk]; [by apply dict_set_wf|]. split; [done|]. intros key. rewrite Hk.
    assert (key ∈ dict_keys (dict_append d (f a) (g a)) ↔ key ∈ dict_keys d ∨ key = f a) as ->.
    { unfold dict_append. rewrite dict_keys_set. destruct (decide _) as [Hin|]; [|by rewrite elem_of_app, list_elem_of_singleton].
      split; [by left|]. by intros [?| ->]. }
    split.
    + intros [[?|?]|(b & ? & ?)]; [by left|right; exists a; split; [left|done]|right; exists b; split; [by right|done]].
    + intros [?|(b & [->|?]%elem_of_cons & ?)]; [by left; left|by left; right|right; by exists b].
Qed.

(** [set(a) == set(b)] *)
Definition same_set {A} `{EqDecision A} (a b : list A) : bool :=
  forallb (λ x, bool_decide (x ∈ b)) a && forallb (λ x, bool_decide (x ∈ a)) b.

Lemma same_set_spec {A} `{EqDecision A} (a b : list A) : same_set a b = true ↔ ∀ x, x ∈ a ↔ x ∈ b.
Proof.
  unfold same_set. rewrite andb_true_iff, !forallb_forall. setoid_rewrite <-list_elem_of_In. setoid_rewrite bool_decide_eq_true. naive_solver.
Qed.

(** A list as long as one without duplicates that has the same elements. *)
Lemma same_set_perm {A} `{EqDecision A} (a b : list A) : same_set a b = true → NoDup b → length a = length b → a ≡ₚ b.
Proof.
  intros Hs Hb Hl. pose proof (proj1 (same_set_spec a b) Hs) as He. symmetry.
  apply submseteq_length_Permutation; [|lia]. apply NoDup_submseteq; [done|]. intros x. by rewrite He.
Qed.
