(* ===== verification/Recovery.v ===== *)
(** Qualification of service recovery: [scripts/ops/recovery_qualification.py]
    and [scripts/ops/recovery_qualification_support.py].

    One scenario stops a production service, observes, starts it again and
    judges the recovery.  Docker, git, the clock, the probed site and the
    evidence file are the [world]; other files are what they are after a history
    ([fs]).  The JSON and YAML parsers and SHA-256 are parameters. *)

From stdpp Require Import base list strings sorting.
From Stdlib Require Import ZArith Lia Ascii Floats Strings.Byte.
From S2P Require Import Prelude PyStr PyStrFacts PyFloat PyTime PyTimeParse PyJson PyText Url Host Effects Evidence.

#[local] Open Scope Z_scope.

(** [scripts/ops/recovery_qualification_support.py:11-11] REQUIRED_TARGET *)
Definition REQUIRED_TARGET : string := "server01-production".

Definition recovery_error {A} (msg : string) : result A := throw ExcRecoveryQualificationError msg.

(** ** Record reconciliation *)

(** The dict [reconcile_records] returns. *)
Record Reconciliation : Type := mkReconciliation {
  acceptedCount : nat;
  recoveredCount : nat;
  missingIds : list string;
  duplicateIds : list string;
  unexpectedIds : list string;
  unrecoverableAcceptedRecords : nat;
  rc_technicalResult : string;
  rc_verdict : string
}.

(** [isinstance(value, str) and value] for all of a list: its strings. *)
Definition nonempty_strings (l : list jval) : option (list string) :=
  mapM (λ v, match v with JStr s => if is_empty s then None else Some s | _ => None end) l.

Definition count_of (x : string) (l : list string) : nat := length (filter (λ y, y = x) l).

Definition verdict_of (technical_result : string) : string :=
  if String.eqb technical_result "PASS" then "BLOCKED" else "FAIL".

(** [scripts/ops/recovery_qualification_support.py:61-82] reconcile_records *)
Definition reconcile_records (accepted recovered : list jval) : result Reconciliation :=
  match accepted, nonempty_strings accepted with
  | [], _ | _, None => recovery_error "accepted IDs must be non-empty strings"
  | _, Some accepted =>
      if negb (Nat.eqb (length accepted) (length (remove_dups accepted)))
      then recovery_error "accepted IDs must be unique" else
      match nonempty_strings recovered with
      | None => recovery_error "recovered IDs must be non-empty strings"
      | Some recovered =>
          let recovered_keys := remove_dups recovered in
          let missing := py_sorted (filter (λ x, x ∉ recovered_keys) (remove_dups accepted)) in
          let duplicates := py_sorted (filter (λ x, (1 < count_of x recovered)%nat) recovered_keys) in
          let unexpected := py_sorted (filter (λ x, x ∉ accepted) recovered_keys) in
          let technical_result :=
            if bool_decide (missing = [] ∧ duplicates = [] ∧ unexpected = []) then "PASS" else "FAIL" in
          Ok {| acceptedCount := length accepted;
                recoveredCount := length recovered;
                missingIds := missing;
                duplicateIds := duplicates;
                unexpectedIds := unexpected;
                unrecoverableAcceptedRecords := length missing;
                rc_technicalResult := technical_result;
                rc_verdict := verdict_of technical_result |}
      end
  end.

(** ** Reconciliation is equality up to order *)

Lemma nonempty_strings_Some l strings :
  nonempty_strings l = Some strings ↔ l = JStr <$> strings ∧ Forall (λ s, s ≠ "") strings.
Proof.
  unfold nonempty_strings. rewrite mapM_Some. split.
  - induction 1 as [|v s l strings Hv _ [-> Hf]]; [by split|].
    destruct v as [| | | |x| |]; try discriminate. destruct (is_empty x) eqn:E; [discriminate|].
    injection Hv as <-. split; [done|]. constructor; [|done]. by intros ->.
  - intros [-> Hf]. induction Hf as [|s strings Hs _ IH]; cbn; [constructor|].
    constructor; [|done]. by destruct s.
Qed.

Lemma reconcile_records_Ok accepted recovered r :
  reconcile_records accepted recovered = Ok r →
  ∃ a b, accepted = JStr <$> a ∧ recovered = JStr <$> b ∧ a ≠ [] ∧ NoDup a
    ∧ missingIds r = py_sorted (filter (λ x, x ∉ remove_dups b) (remove_dups a))
    ∧ duplicateIds r = py_sorted (filter (λ x, (1 < count_of x b)%nat) (remove_dups b))
    ∧ unexpectedIds r = py_sorted (filter (λ x, x ∉ a) (remove_dups b))
    ∧ rc_technicalResult r = (if bool_decide (missingIds r = [] ∧ duplicateIds r = [] ∧ unexpectedIds r = [])
                              then "PASS" else "FAIL")
    ∧ unrecoverableAcceptedRecords r = length (missingIds r)
    ∧ rc_verdict r = verdict_of (rc_technicalResult r).
Proof.
  unfold reconcile_records. intros H.
  destruct accepted as [|v accepted]; [discriminate|].
  destruct (nonempty_strings (v :: accepted)) as [a|] eqn:Ea; [|discriminate].
  destruct (Nat.eqb _ _) eqn:Hd; [|discriminate]. cbn [negb] in H.
  destruct (nonempty_strings recovered) as [b|] eqn:Eb; [|discriminate].
  apply nonempty_strings_Some in Ea as [Ea _]. apply nonempty_strings_Some in Eb as [Eb _].
  injection H as <-. exists a, b. split; [done|]. split; [done|].
  split; [by intros ->|]. split; [|repeat split].
  apply Nat.eqb_eq in Hd. by apply length_remove_dups_NoDup.
Qed.

Lemma count_of_cons x y l : count_of x (y :: l) = ((if decide (y = x) then 1 else 0) + count_of x l)%nat.
Proof. unfold count_of. rewrite filter_cons. by destruct (decide (y = x)). Qed.

Lemma count_of_pos x l : x ∈ l ↔ (0 < count_of x l)%nat.
Proof.
  induction l as [|y l IH]; [split; [by intros ?%elem_of_nil|cbn; lia]|].
  rewrite elem_of_cons, count_of_cons, IH. destruct (decide (y = x)) as [->|]; split; intros; [lia|by left| |].
  - destruct H; [congruence|lia].
  - right. lia.
Qed.

(** A list has no duplicates exactly if no value of it is counted twice. *)
Lemma count_of_NoDup l : NoDup l ↔ ∀ x, x ∈ l → ¬ (1 < count_of x l)%nat.
Proof.
  induction l as [|y l IH]; [split; [by intros _ x ?%elem_of_nil|constructor]|].
  rewrite NoDup_cons, IH. split.
  - intros [Hy Hl] x Hx. rewrite count_of_cons. destruct (decide (y = x)) as [->|].
    + rewrite count_of_pos in Hy. lia.
    + apply elem_of_cons in Hx as [->|Hx]; [done|]. specialize (Hl x Hx). lia.
  - intros H. split.
    + rewrite count_of_pos. specialize (H y ltac:(left)). rewrite count_of_cons, decide_True in H by done. lia.
    + intros x Hx. specialize (H x ltac:(by right)). rewrite count_of_cons in H.
      destruct (decide (y = x)); lia.
Qed.

Lemma filter_nil_iff {A} (P : A → Prop) `{∀ x, Decision (P x)} l :
  filter P l = [] ↔ ∀ x, x ∈ l → ¬ P x.
Proof.
  split.
  - intros E x Hx HP. assert (x ∈ filter P l) as Hin by (by apply list_elem_of_filter).
    rewrite E in Hin. by apply elem_of_nil in Hin.
  - intros Hn. apply elem_of_nil_inv. intros x [HP Hx]%list_elem_of_filter. by apply (Hn x).
Qed.

(** Nothing missing, duplicated or unexpected: the lists agree up to order. *)
Lemma clean_iff_permutation (a b : list string) : NoDup a →
  (filter (λ x, x ∉ remove_dups b) (remove_dups a) = []
   ∧ filter (λ x, (1 < count_of x b)%nat) (remove_dups b) = []
   ∧ filter (λ x, x ∉ a) (remove_dups b) = []) ↔ a ≡ₚ b.
Proof.
  intros Ha. rewrite !filter_nil_iff. setoid_rewrite elem_of_remove_dups. split.
  - intros (H1 & H2 & H3). apply count_of_NoDup in H2.
    apply NoDup_Permutation; [done|done|]. intros x. split; intros Hx.
    + destruct (decide (x ∈ b)); [done|]. by destruct (H1 x Hx).
    + destruct (decide (x ∈ a)); [done|]. by destruct (H3 x Hx).
  - intros Hp. split; [|split].
    + intros x Hx Hn. apply Hn. by rewrite <-Hp.
    + apply count_of_NoDup. by rewrite <-Hp.
    + intros x Hx Hn. apply Hn. by rewrite Hp.
Qed.

Lemma JStr_Permutation_inj (a b : list string) : (JStr <$> a) ≡ₚ (JStr <$> b) → a ≡ₚ b.
Proof.
  set (text := λ v, match v with JStr s => s | _ => "" end).
  assert (∀ l : list string, text <$> (JStr <$> l) = l) as Hl.
  { intros l. induction l as [|x l IH]; [done|]. by rewrite !fmap_cons, IH. }
  intros H. rewrite <-(Hl a), <-(Hl b). by rewrite H.
Qed.

(** Record reconciliation passes exactly when the recovered identifiers are
    the accepted ones in some order, each once; the lists of missing and
    unexpected identifiers are the two differences, and a pass is reported as
    "BLOCKED", awaiting independent assessment, never as a qualification. *)
Theorem reconcile_passes_iff_permutation accepted recovered r :
  reconcile_records accepted recovered = Ok r →
  (rc_technicalResult r = "PASS" ↔ accepted ≡ₚ recovered)
  ∧ (∀ x, x ∈ missingIds r ↔ JStr x ∈ accepted ∧ JStr x ∉ recovered)
  ∧ (∀ x, x ∈ unexpectedIds r ↔ JStr x ∈ recovered ∧ JStr x ∉ accepted)
  ∧ unrecoverableAcceptedRecords r = length (missingIds r)
  ∧ (rc_verdict r = "BLOCKED" ↔ rc_technicalResult r = "PASS").
Proof.
  intros (a & b & -> & -> & _ & Ha & Hm & Hd & Hu & Ht & Hn & Hv)%reconcile_records_Ok.
  assert (∀ x (l : list string), JStr x ∈ JStr <$> l ↔ x ∈ l) as Hin.
  { intros x l. rewrite list_elem_of_fmap. split; [intros (y & [= ->] & ?); done|]. intros; by exists x. }
  split; [|split; [|split; [|split; [done|]]]].
  - rewrite Ht. case_bool_decide as E; rewrite Hm, Hd, Hu, !py_sorted_nil, clean_iff_permutation in E by done.
    + split; [|done]. intros _. by rewrite E.
    + split; [done|]. intros Hp. destruct E. by apply JStr_Permutation_inj.
  - intros x. rewrite Hm, elem_of_py_sorted, list_elem_of_filter, !elem_of_remove_dups, !Hin. tauto.
  - intros x. rewrite Hu, elem_of_py_sorted, list_elem_of_filter, !elem_of_remove_dups, !Hin. tauto.
  - rewrite Hv. unfold verdict_of. destruct (String.eqb_spec (rc_technicalResult r) "PASS") as [->|]; [done|].
    split; [discriminate|done].
Qed.

(** ** Documents *)

Section documents.
Context (json_loads yaml_safe_load : string → result jval) (sha256 : list byte → string).
Context (fs : files).

(** [scripts/ops/recovery_qualification_support.py:18-25] load_document *)
Definition load_document (path : fs_path) : result (list (string * jval)) :=
  text ← fs_text fs path;
  document ← (if String.eqb (path_suffix path) ".json" then json_loads text else yaml_safe_load text);
  match document with
  | JObj d => Ok d
  | _ => recovery_error (path_name path +:+ " must contain an object")
  end.

(** [scripts/ops/recovery_qualification_support.py:85-92] verify_backup *)
Definition verify_backup (path : fs_path) (source_commit : string) : result string :=
  document ← load_document path;
  if negb (py_eq (obj_get document "sourceCommit") (JStr source_commit))
     || negb (match obj_get document "restoreVerified" with JBool true => true | _ => false end)
  then recovery_error "backup restore evidence is absent or belongs to another commit" else
  match obj_get document "databaseDumpSha256" with
  | JStr digest =>
      if negb (Nat.eqb (str_len digest) 64)
      then recovery_error "backup evidence requires a database dump SHA-256"
      else bytes ← fs_read fs path; Ok (sha256 bytes)
  | _ => recovery_error "backup evidence requires a database dump SHA-256"
  end.

(** [scripts/ops/recovery_qualification_support.py:95-104] load_record_ids *)
Definition load_record_ids (path : fs_path) (source_commit : string) : result (list jval) :=
  document ← load_document path;
  if negb (py_eq (obj_get document "schemaVersion") (JStr "gcs-saker.record-id-set.v1"))
  then recovery_error ("unsupported record ID evidence: " +:+ path_str path) else
  if negb (py_eq (obj_get document "sourceCommit") (JStr source_commit))
  then recovery_error ("record ID evidence commit mismatch: " +:+ path_str path) else
  match obj_get document "ids" with
  | JList record_ids => Ok record_ids
  | _ => recovery_error ("record ID evidence requires an IDs list: " +:+ path_str path)
  end.
End documents.

(** ** The profile *)

(** [scripts/ops/recovery_qualification_support.py:52-58] _index *)
Definition index (entries : jval) (label : string) : result (list (jval * entry)) :=
  index_entries ExcRecoveryQualificationError entries label.

Definition EXPECTED_SERVICES : list string :=
  ["postgres-geo"; "redis"; "mqtt"; "mediamtx"; "auth-policy"; "media-control"].

(** [scripts/ops/recovery_qualification_support.py:28-49] validate_profile *)
Definition validate_profile (profile : entry) : result (list (jval * entry)) :=
  if negb (py_eq (obj_get profile "status") (JStr "CONTROLLED_DRAFT_NOT_EXECUTED"))
  then recovery_error "recovery profile must remain an unexecuted draft" else
  if negb (py_eq (obj_get profile "target") (JStr REQUIRED_TARGET))
  then recovery_error "only Server-01 production is permitted" else
  scenarios ← index (obj_get profile "scenarios") "recovery scenarios";
  let services := (λ kv, obj_get kv.2 "service") <$> scenarios in
  _ ← raise_if (negb (forallb hashable services)) ExcTypeError "unhashable type";
  if negb (forallb (λ s, match s with JStr s => bool_decide (s ∈ EXPECTED_SERVICES) | _ => false end) services
           && forallb (λ s, existsb (py_eq (JStr s)) services) EXPECTED_SERVICES)
  then recovery_error "recovery service coverage is incomplete" else
  status ← j_get (default (JObj []) (dict_get profile "thresholds")) "status";
  if negb (py_eq status (JStr "PROPOSED_NOT_APPROVED"))
  then recovery_error "recovery thresholds must remain proposed" else
  recreate ← j_get (default (JObj []) (dict_get profile "execution")) "recreateContainers";
  if negb (match recreate with JBool false => true | _ => false end)
  then recovery_error "recovery scenarios must preserve container identity" else
  Ok scenarios.

(** ** One scenario *)

(** The command line. *)
Record arguments : Type := mkArguments {
  a_check : bool;
  a_reconcile : bool;
  a_target : option string;
  a_scenario : option string;
  a_approved_window : option string;
  a_env_file : option fs_path;
  a_backup_result : option fs_path;
  a_evidence_dir : option fs_path;
  a_accepted : option fs_path;
  a_recovered : option fs_path;
  a_output : option fs_path;
  a_project_name : string;
  a_public_base_url : string
}.

Record probe_result : Type := mkProbe {
  urlPath : string; expectedStatus : jval; actualStatus : Z; passed : bool }.

Definition probe_json (p : probe_result) : jval :=
  JObj [("urlPath", JStr (urlPath p)); ("expectedStatus", expectedStatus p);
        ("actualStatus", JInt (actualStatus p)); ("passed", JBool (passed p))].

(** [time.sleep(seconds)] of a JSON value. *)
Definition sleep_seconds (v : jval) : result float :=
  seconds ← match v with
            | JFloat x => Ok x
            | _ => match as_int v with Some n => float_of_int n | None => type_error "cannot be interpreted" end
            end;
  if (seconds <? 0)%float then value_error "sleep length must be non-negative" else Ok seconds.

(** [duration <= rto] *)
Definition within (duration : float) (rto : jval) : result bool :=
  match rto with
  | JFloat y => Ok (duration <=? y)%float
  | _ => match as_int rto with Some n => Ok (float_le_Z duration n) | None => type_error "'<=' not supported" end
  end.

(** [scripts/ops/recovery_qualification.py:149-164] evaluate_recovery *)
Definition evaluate_recovery (fault_observed container_preserved : bool) (post_probes : list probe_result)
    (duration : float) (rto : jval) (reconciliation_passed : bool) : result string :=
  let probes_passed := forallb passed post_probes in
  within_rto ← within duration rto;
  Ok (if fault_observed && container_preserved && probes_passed && within_rto && reconciliation_passed
      then "PASS" else "FAIL").

(** The scenario's record reconciliation, and the fields of the report. *)
Record scenario_evidence : Type := mkEvidence {
  se_result : Reconciliation; se_hashes : list string }.

Definition evidence_json (e : scenario_evidence) : jval :=
  let r := se_result e in
  JObj [("acceptedCount", JInt (Z.of_nat (acceptedCount r)));
        ("recoveredCount", JInt (Z.of_nat (recoveredCount r)));
        ("unrecoverableAcceptedRecords", JInt (Z.of_nat (unrecoverableAcceptedRecords r)));
        ("duplicateRecoveredRecords", JInt (Z.of_nat (length (duplicateIds r))));
        ("unexpectedRecoveredRecords", JInt (Z.of_nat (length (unexpectedIds r))));
        ("technicalResult", JStr (rc_technicalResult r));
        ("artifactHashes", JList (JStr <$> se_hashes e))].

Section qualification.
Context (w : world) (fs : history → files) (getenv : string → option string).
Context (json_loads yaml_safe_load : string → result jval) (sha256 : list byte → string).
Context (unicode_lower : string → string) (bracketed_netloc_ok nfkc_ok : string → bool).
Context (REPO_ROOT : fs_path).

#[local] Notation urlsplit := (Url.urlsplit bracketed_netloc_ok nfkc_ok).

Definition PROFILE_PATH : fs_path :=
  path_div REPO_ROOT "docs/compliance/quality/recovery-qualification-profile.yml".
Definition COMPOSE_PATH : fs_path := path_div REPO_ROOT "deploy/compose/compose.single-node.poc.yml".

(** A computation on the files as they are now. *)
Definition on_files {A} (f : files → result A) : eff A := λ h, (Some (f (fs h)), []).

(** [scripts/ops/recovery_qualification.py:92-101] run_command *)
Definition run_command (command : list string) (timeout : Z) : eff string := run w command (Some timeout).

(** [scripts/ops/recovery_qualification.py:254-255] _source_commit *)
Definition source_commit : eff string := run_command ["git"; "rev-parse"; "HEAD"] 30.

Definition document_of (path : fs_path) : eff entry := on_files (λ fs, load_document json_loads yaml_safe_load fs path).

Definition hash_of (path : fs_path) : eff string := on_files (λ fs, sha256 <$> fs_read fs path).

(** The reconciliation of two evidence files: what
    [build_reconciliation] computes before it renders the report. *)
Definition reconcile_files (accepted recovered : fs_path) : eff (string * Reconciliation) :=
  commit ← source_commit;
  accepted_ids ← on_files (λ fs, load_record_ids json_loads yaml_safe_load fs accepted commit);
  recovered_ids ← on_files (λ fs, load_record_ids json_loads yaml_safe_load fs recovered commit);
  outcome ← lift (reconcile_records accepted_ids recovered_ids);
  mret (commit, outcome).

(** [scripts/ops/recovery_qualification.py:32-54] build_reconciliation *)
Definition build_reconciliation (accepted recovered : fs_path) : eff (scenario_evidence * jval) :=
  '(commit, r) ← reconcile_files accepted recovered;
  now ← utcnow w;
  accepted_hash ← hash_of accepted;
  recovered_hash ← hash_of recovered;
  let strings l := JList (map JStr l) in
  let artifact path hash := JObj [("path", JStr (path_str path)); ("sha256", JStr hash)] in
  mret (mkEvidence r [accepted_hash; recovered_hash],
        JObj [("schemaVersion", JStr "gcs-saker.recovery-reconciliation.v1");
              ("generatedAt", JStr (isoformat now));
              ("sourceCommit", JStr commit);
              ("thresholdStatus", JStr "PROPOSED_NOT_APPROVED");
              ("artifacts", JList [artifact accepted accepted_hash; artifact recovered recovered_hash]);
              ("acceptedCount", JInt (Z.of_nat (acceptedCount r)));
              ("recoveredCount", JInt (Z.of_nat (recoveredCount r)));
              ("missingIds", strings (missingIds r));
              ("duplicateIds", strings (duplicateIds r));
              ("unexpectedIds", strings (unexpectedIds r));
              ("unrecoverableAcceptedRecords", JInt (Z.of_nat (unrecoverableAcceptedRecords r)));
              ("technicalResult", JStr (rc_technicalResult r));
              ("verdict", JStr (rc_verdict r))]).

(** The checks of an optional path argument. *)
Definition existing_absolute (test : files → fs_path → result bool) (path : option fs_path) (msg : string)
    (fs : files) : result fs_path :=
  match path with
  | None => recovery_error msg
  | Some p => good ← and_r (Ok (p_absolute p)) (test fs p);
              if good : bool then Ok p else recovery_error msg
  end.

(** [scripts/ops/recovery_qualification.py:57-75] validate_execution *)
Definition validate_execution (args : arguments) (commit : string) (fs : files) : result string :=
  if negb (bool_decide (a_target args = Some REQUIRED_TARGET))
     || negb (bool_decide (getenv "DEPLOYMENT_TARGET" = Some REQUIRED_TARGET))
  then recovery_error "DEPLOYMENT_TARGET and --target must identify Server-01 production" else
  if is_empty (strip (default "" (a_approved_window args)))
  then recovery_error "an approved maintenance window ID is required" else
  if negb (String.eqb (a_project_name args) "gcs-saker-m2-production")
  then recovery_error "production Compose project name is fixed" else
  origin ← urlsplit (a_public_base_url args);
  if negb (String.eqb (url_scheme origin) "https")
     || negb (bool_decide (hostname unicode_lower origin = Some "gcs-saker.com"))
  then recovery_error "public recovery probes must use the production HTTPS origin" else
  _ ← existing_absolute fs_is_file (a_env_file args) "environment file must be an existing absolute file" fs;
  backup ← existing_absolute fs_is_file (a_backup_result args) "backup result must be an existing absolute file" fs;
  _ ← existing_absolute fs_is_dir (a_evidence_dir args)
        "evidence directory must be an existing absolute directory" fs;
  verify_backup json_loads yaml_safe_load sha256 fs backup commit.

(** [scripts/ops/recovery_qualification.py:78-89] compose_command *)
Definition compose_command (args : arguments) (parts : list string) : list string :=
  ["docker"; "compose"; "--project-name"; a_project_name args; "--env-file";
   match a_env_file args with Some p => path_str p | None => "None" end;
   "-f"; path_str COMPOSE_PATH] ++ parts.

Definition STATE_FORMAT : string := "{{.State.Status}}|{{if .State.Health}}{{.State.Health.Status}}{{end}}".

(** [scripts/ops/recovery_qualification.py:104-115] container_state *)
Definition container_state (container_id : string) : eff (string * string) :=
  output ← run_command ["docker"; "inspect"; "--format"; STATE_FORMAT; container_id] 30;
  lift match split_once "|" output with
       | (status, Some health) => Ok (status, health)
       | _ => value_error "not enough values to unpack"
       end.

(** [scripts/ops/recovery_qualification.py:119-123] poll: the loop of wait_for_recovery *)
Fixpoint poll (attempts : nat) (container_id : string) (interval_seconds : jval) : eff () :=
  match attempts with
  | O => raise ExcRecoveryQualificationError "service did not recover within the bounded observation window"
  | S attempts' =>
      '(status, health) ← container_state container_id;
      if String.eqb status "running" && bool_decide (health ∈ [""; "healthy"]) then mret () else
      seconds ← lift (sleep_seconds interval_seconds);
      _ ← sleep seconds;
      poll attempts' container_id interval_seconds
  end.

(** [scripts/ops/recovery_qualification.py:118-124] wait_for_recovery *)
Definition wait_for_recovery (container_id : string) (attempts interval_seconds : jval) : eff () :=
  n ← lift (match as_int attempts with Some n => Ok n | None => type_error "cannot be interpreted as an integer" end);
  poll (Z.to_nat n) container_id interval_seconds.

(** [scripts/ops/recovery_qualification.py:127-141] probe *)
Definition probe (url : string) (expected_status : jval) : eff probe_result :=
  outcome ← fetch w url;
  status ← lift (fetched_status outcome);
  parsed ← lift (urlsplit url);
  mret (mkProbe (drop_params (url_path parsed)) expected_status status (py_eq (JInt status) expected_status)).

Definition probe_item (origin : string) (item : jval) : eff probe_result :=
  path ← lift (p ← j_getitem item "path"; as_str p);
  expected ← lift (j_getitem item "expectedStatus");
  probe (origin +:+ path) expected.

(** [scripts/ops/recovery_qualification.py:144-146] run_probes *)
Definition run_probes (profile : entry) (public_base_url : string) : eff (list probe_result) :=
  let origin := rstrip_char "/" public_base_url in
  items ← lift (execution ← j_getitem (JObj profile) "execution";
                probes ← j_getitem execution "publicProbes"; j_items probes);
  mapM (probe_item origin) items.

(** [scripts/ops/recovery_qualification.py:167-182] scenario_reconciliation *)
Definition scenario_reconciliation (args : arguments) (scenario : entry) : eff (option scenario_evidence) :=
  required ← lift (j_contains "accepted-record-reconciliation"
                     (default (JList []) (dict_get scenario "recoveryEvidence")));
  if negb required then mret None else
  match a_accepted args, a_recovered args with
  | Some accepted, Some recovered =>
      present ← on_files (λ fs, and_r (fs_is_file fs accepted) (fs_is_file fs recovered));
      if negb present
      then raise ExcRecoveryQualificationError "accepted and recovered record evidence is required for this scenario"
      else '(evidence, _) ← build_reconciliation accepted recovered; mret (Some evidence)
  | _, _ => raise ExcRecoveryQualificationError "accepted and recovered record evidence is required for this scenario"
  end.

Definition start_service (args : arguments) (service : string) : eff string :=
  run_command (compose_command args ["start"; service]) 60.

(** [scripts/ops/recovery_qualification.py:200-211] restart: the try block of run_scenario *)
Definition restart (args : arguments) (profile : entry) (service container_id : string) : eff () :=
  try_finally
    (_ ← start_service args service;
     execution ← lift (j_getitem (JObj profile) "execution");
     attempts ← lift (j_getitem execution "maximumAttempts");
     interval ← lift (j_getitem execution "retryIntervalSeconds");
     wait_for_recovery container_id attempts interval)
    ('(status, _) ← container_state container_id;
     if negb (String.eqb status "running") then _ ← start_service args service; mret () else mret ()).

(** [scripts/ops/recovery_qualification.py:186-193] prepare: what precedes the injection *)
Definition prepare (args : arguments) (profile scenario : entry) :
    eff (string * string * string * string * list probe_result) :=
  commit ← source_commit;
  backup_sha256 ← on_files (validate_execution args commit);
  service ← lift (s ← j_getitem (JObj scenario) "service"; as_str s);
  container_id ← run_command (compose_command args ["ps"; "-q"; service]) 30;
  if is_empty container_id then raise ExcRecoveryQualificationError ("service is not running: " +:+ service) else
  pre_probes ← run_probes profile (a_public_base_url args);
  if negb (forallb passed pre_probes)
  then raise ExcRecoveryQualificationError "pre-injection public probes must pass" else
  mret (commit, backup_sha256, service, container_id, pre_probes).

(** [scripts/ops/recovery_qualification.py:195-196] inject: the fault *)
Definition inject (args : arguments) (service : string) : eff datetime :=
  started_at ← utcnow w;
  _ ← run_command (compose_command args ["stop"; "--timeout"; "30"; service]) 45;
  mret started_at.

(** [scripts/ops/recovery_qualification.py:197-199] observe: before the try block *)
Definition observe (args : arguments) (profile : entry) (container_id : string) : eff (bool * list probe_result) :=
  '(stopped_status, _) ← container_state container_id;
  during_probes ← run_probes profile (a_public_base_url args);
  mret (negb (String.eqb stopped_status "running"), during_probes).

(** The report of a scenario. *)
Record recovery_report : Type := mkReport {
  rr_scenario_id : jval;
  rr_source_commit : string;
  rr_window : option string;
  rr_backup : string;
  rr_started : datetime;
  rr_recovered : datetime;
  rr_duration : float;
  rr_preserved : bool;
  rr_fault_observed : bool;
  rr_pre : list probe_result;
  rr_during : list probe_result;
  rr_post : list probe_result;
  rr_reconciliation : option scenario_evidence;
  rr_technical_result : string
}.

Definition reconciliation_passed (e : option scenario_evidence) : bool :=
  match e with None => true | Some e => String.eqb (rc_technicalResult (se_result e)) "PASS" end.

(** [scripts/ops/recovery_qualification.py:197-224] after_stop: what follows the stop command *)
Definition after_stop (args : arguments) (profile scenario : entry) (commit backup_sha256 service container_id : string)
    (pre_probes : list probe_result) (started_at : datetime) : eff recovery_report :=
  '(fault_observed, during_probes) ← observe args profile container_id;
  _ ← restart args profile service container_id;
  recovered_at ← utcnow w;
  post_probes ← run_probes profile (a_public_base_url args);
  reconciliation ← scenario_reconciliation args scenario;
  current_id ← run_command (compose_command args ["ps"; "-q"; service]) 30;
  recovery_duration ← lift (true_div (instant recovered_at - instant started_at) 1000000);
  rto ← lift (t ← j_getitem (JObj profile) "thresholds"; j_getitem t "recoveryTimeObjectiveSeconds");
  technical_result ← lift (evaluate_recovery fault_observed (String.eqb current_id container_id) post_probes
                             recovery_duration rto (reconciliation_passed reconciliation));
  scenario_id ← lift (j_getitem (JObj scenario) "id");
  mret {| rr_scenario_id := scenario_id; rr_source_commit := commit; rr_window := a_approved_window args;
          rr_backup := backup_sha256; rr_started := started_at; rr_recovered := recovered_at;
          rr_duration := recovery_duration; rr_preserved := String.eqb current_id container_id;
          rr_fault_observed := fault_observed; rr_pre := pre_probes; rr_during := during_probes;
          rr_post := post_probes; rr_reconciliation := reconciliation;
          rr_technical_result := technical_result |}.

(** [scripts/ops/recovery_qualification.py:185-194] run_scenario *)
Definition run_scenario (args : arguments) (profile scenario : entry) : eff recovery_report :=
  '(commit, backup_sha256, service, container_id, pre_probes) ← prepare args profile scenario;
  started_at ← inject args service;
  after_stop args profile scenario commit backup_sha256 service container_id pre_probes started_at.

(** [scripts/ops/recovery_qualification.py:225-243] report_json: the dict run_scenario returns *)
Definition report_json (r : recovery_report) : jval :=
  let probes l := JList (map probe_json l) in
  JObj [("schemaVersion", JStr "gcs-saker.recovery-result.v1");
        ("scenarioId", rr_scenario_id r);
        ("sourceCommit", JStr (rr_source_commit r));
        ("approvedWindowId", match rr_window r with Some s => JStr s | None => JNull end);
        ("backupResultSha256", JStr (rr_backup r));
        ("startedAt", JStr (isoformat (rr_started r)));
        ("recoveredAt", JStr (isoformat (rr_recovered r)));
        ("recoveryDurationSeconds", JFloat (rr_duration r));
        ("containerIdPreserved", JBool (rr_preserved r));
        ("faultObserved", JBool (rr_fault_observed r));
        ("preProbes", probes (rr_pre r));
        ("duringProbes", probes (rr_during r));
        ("postProbes", probes (rr_post r));
        ("recordReconciliation", match rr_reconciliation r with Some e => evidence_json e | None => JNull end);
        ("technicalResult", JStr (rr_technical_result r));
        ("verdict", JStr (verdict_of (rr_technical_result r)));
        ("limitations", JList [JStr "thresholds and independent assessment are not approved"])].

(** [scripts/ops/recovery_qualification.py:246-251] write_immutable *)
Definition write_immutable (output : fs_path) (document : jval) : eff () :=
  good ← on_files (λ fs, and_r (Ok (p_absolute output)) (fs_is_dir fs (path_parent output)));
  if negb good then raise ExcRecoveryQualificationError "output must be inside an existing absolute directory"
  else create w output document.

(** [parser.error(message)] *)
Definition usage_error {A} (message : string) : eff A := raise ExcSystemExit message.

(** [scripts/ops/recovery_qualification.py:258-291] main *)
Definition main (args : arguments) : eff Z :=
  profile ← document_of PROFILE_PATH;
  scenarios ← lift (validate_profile profile);
  if a_check args then
    _ ← print (JStr ("recovery qualification profile passed for " +:+ str_of_Z (Z.of_nat (length scenarios))
                     +:+ " scenarios"));
    mret 0
  else if a_reconcile args then
    match a_accepted args, a_recovered args, a_output args with
    | Some accepted, Some recovered, Some output =>
        '(_, report) ← build_reconciliation accepted recovered;
        _ ← write_immutable output report;
        _ ← print (JStr ("recovery reconciliation written: " +:+ path_str output));
        mret 0
    | _, _, _ => usage_error "--accepted, --recovered, and --output are required"
    end
  else
    match a_scenario args ≫= (λ id, pair id <$> get_by_id scenarios (JStr id)) with
    | None => usage_error "--scenario must identify one controlled scenario"
    | Some (id, scenario) =>
        report ← run_scenario args profile scenario;
        now ← utcnow w;
        _ ← write_immutable
              (path_div (default (mkPath false []) (a_evidence_dir args))
                 (id +:+ "-" +:+ strftime_compact now +:+ ".json"))
              (report_json report);
        _ ← print (JObj [("scenarioId", JStr id); ("verdict", JStr (verdict_of (rr_technical_result report)))]);
        mret 0
    end.

(** ** What a run did *)

Definition stop_command (args : arguments) (service : string) : list string :=
  compose_command args ["stop"; "--timeout"; "30"; service].
Definition start_command (args : arguments) (service : string) : list string :=
  compose_command args ["start"; service].
Definition ps_command (args : arguments) (service : string) : list string :=
  compose_command args ["ps"; "-q"; service].
Definition inspect (container_id : string) : list string :=
  ["docker"; "inspect"; "--format"; STATE_FORMAT; container_id].

Definition no_stop (args : arguments) (e : event) : Prop :=
  match e with Ran c _ _ => ∀ service, c ≠ stop_command args service | _ => True end.

(** The site answered a probe of the profile as expected. *)
Definition answered (origin : string) (t : history) (item : jval) : Prop :=
  ∃ path expected outcome status,
    j_getitem item "path" = Ok (JStr path) ∧ j_getitem item "expectedStatus" = Ok expected
    ∧ Requested (origin +:+ path) outcome ∈ t ∧ fetched_status outcome = Ok status
    ∧ py_eq (JInt status) expected = true.

(** The probes of the profile all answered as expected in [t]. *)
Definition site_healthy (profile : entry) (public_base_url : string) (t : history) : Prop :=
  ∃ execution probes items,
    j_getitem (JObj profile) "execution" = Ok execution ∧ j_getitem execution "publicProbes" = Ok probes
    ∧ j_items probes = Ok items ∧ Forall (answered (rstrip_char "/" public_base_url) t) items.

Lemma as_str_Ok v s : as_str v = Ok s → v = JStr s.
Proof. by destruct v; intros [= ->]. Qed.

Lemma probe_item_Ok origin item h p t :
  probe_item origin item h = (Some (Ok p), t) → passed p = true → answered origin t item.
Proof.
  unfold probe_item, probe. intros H Hp. eff_ok_in H.
  apply bind_Ok in Hx as (v & Hv & ->%as_str_Ok). subst p. cbn [passed] in Hp. subst.
  exists x, x0, x1, x2. split; [done|]. split; [done|]. split; [by left|done].
Qed.

Lemma answered_app origin t u item : answered origin t item → answered origin (t ++ u) item.
Proof.
  intros (p & e & o & s & Hp & He & Ho & Hs). exists p, e, o, s. split; [done|]. split; [done|].
  split; [apply elem_of_app; by left|done].
Qed.

Lemma answered_app_r origin t u item : answered origin u item → answered origin (t ++ u) item.
Proof.
  intros (p & e & o & s & Hp & He & Ho & Hs). exists p, e, o, s. split; [done|]. split; [done|].
  split; [apply elem_of_app; by right|done].
Qed.

Lemma probe_items_Ok origin items h l t :
  mapM (probe_item origin) items h = (Some (Ok l), t) → forallb passed l = true →
  Forall (answered origin t) items.
Proof.
  revert h l t. induction items as [|item items IH]; intros h l t H Hp; [constructor|].
  cbn [mapM] in H. eff_ok_in H. subst l t. cbn in Hp. apply andb_true_iff in Hp as [Hp Hps].
  constructor; [by eapply answered_app, probe_item_Ok|]. subst.
  rewrite app_nil_r. eapply Forall_impl; [by eapply IH|]. intros. by apply answered_app_r.
Qed.

Lemma run_probes_Ok profile url h l t :
  run_probes profile url h = (Some (Ok l), t) → forallb passed l = true → site_healthy profile url t.
Proof.
  unfold run_probes. intros H Hp. eff_ok_in H.
  apply bind_Ok in Hx as (execution & He & Hx). apply bind_Ok in Hx as (probes & Hpr & Hi). subst.
  exists execution, probes, x. split; [done|]. split; [done|]. split; [done|].
  by eapply probe_items_Ok.
Qed.

(** What is established before a service is stopped. *)
Record authorised (args : arguments) (profile : entry) (service : string) (t : history) : Prop := {
  au_target : a_target args = Some REQUIRED_TARGET ∧ getenv "DEPLOYMENT_TARGET" = Some REQUIRED_TARGET;
  au_window : ∃ window, a_approved_window args = Some window ∧ strip window ≠ "";
  au_project : a_project_name args = "gcs-saker-m2-production";
  au_backup : ∃ commit path h digest,
    Ran ["git"; "rev-parse"; "HEAD"] (Some 30) (Ok commit) ∈ t
    ∧ a_backup_result args = Some path ∧ p_absolute path = true
    ∧ verify_backup json_loads yaml_safe_load sha256 (fs h) path commit = Ok digest;
  au_container : ∃ container_id,
    Ran (ps_command args service) (Some 30) (Ok container_id) ∈ t ∧ container_id ≠ "";
  au_site : site_healthy profile (a_public_base_url args) t
}.

Lemma existing_absolute_Ok test path msg f p :
  existing_absolute test path msg f = Ok p → path = Some p ∧ p_absolute p = true ∧ test f p = Ok true.
Proof.
  unfold existing_absolute. destruct path as [q|]; [|discriminate]. rewrite bind_Ok.
  intros ([|] & Hb & H); [|discriminate]. apply and_r_Ok in Hb as [Ha Ht].
  injection H as ->. by injection Ha as ->.
Qed.

Lemma validate_execution_Ok args commit f digest :
  validate_execution args commit f = Ok digest →
  a_target args = Some REQUIRED_TARGET ∧ getenv "DEPLOYMENT_TARGET" = Some REQUIRED_TARGET
  ∧ (∃ window, a_approved_window args = Some window ∧ strip window ≠ "")
  ∧ a_project_name args = "gcs-saker-m2-production"
  ∧ ∃ path, a_backup_result args = Some path ∧ p_absolute path = true
      ∧ verify_backup json_loads yaml_safe_load sha256 f path commit = Ok digest.
Proof.
  unfold validate_execution. intros H.
  case_if_in H; [discriminate|]. case_if_in H; [discriminate|]. case_if_in H; [discriminate|].
  apply bind_Ok in H as (origin & _ & H). case_if_in H; [discriminate|].
  apply bind_Ok in H as (env & _ & H). apply bind_Ok in H as (backup & Hb & H).
  apply bind_Ok in H as (dir & _ & H). apply existing_absolute_Ok in Hb as (Hb & Ha & _).
  split_bools. split; [done|]. split; [done|]. split; [|split; [done|by exists backup]].
  destruct (a_approved_window args) as [window|]; [|discriminate]. exists window. split; [done|].
  intros E. match goal with H : is_empty (strip _) = false |- _ =>
    change (is_empty (strip window) = false) in H; by rewrite E in H end.
Qed.

Lemma site_healthy_app_r profile url t u : site_healthy profile url u → site_healthy profile url (t ++ u).
Proof.
  intros (e & p & i & He & Hp & Hi & Hf). exists e, p, i. split; [done|]. split; [done|]. split; [done|].
  eapply Forall_impl; [done|]. intros. by apply answered_app_r.
Qed.

Lemma site_healthy_app profile url t u : site_healthy profile url t → site_healthy profile url (t ++ u).
Proof.
  intros (e & p & i & He & Hp & Hi & Hf). exists e, p, i. split; [done|]. split; [done|]. split; [done|].
  eapply Forall_impl; [done|]. intros. by apply answered_app.
Qed.

Lemma prepare_Ok args profile scenario h commit backup service cid pre t :
  prepare args profile scenario h = (Some (Ok (commit, backup, service, cid, pre)), t) →
  authorised args profile service t ∧ j_getitem (JObj scenario) "service" = Ok (JStr service)
  ∧ Ran (ps_command args service) (Some 30) (Ok cid) ∈ t ∧ cid ≠ "".
Proof.
  unfold prepare, source_commit, run_command. intros H. eff_ok_in H. injection H as -> -> -> -> ->.
  apply bind_Ok in Hx1 as (v & Hv & ->%as_str_Ok). injection Hx0 as Hval <-.
  apply validate_execution_Ok in Hval as (Ht1' & Ht2' & Hw & Hp & path & Hb & Ha & Hver).
  apply negb_false_iff, (run_probes_Ok _ _ _ _ _ Hx3) in E0. subst. cbn [app].
  assert (cid ≠ "") as Hcid by (by intros ->).
  assert (∀ u, Ran (ps_command args service) (Some 30) (Ok cid)
    ∈ Ran ["git"; "rev-parse"; "HEAD"] (Some 30) (Ok commit)
      :: Ran (compose_command args ["ps"; "-q"; service]) (Some 30) (Ok cid) :: u) as Hps by (right; left).
  split; [constructor|]; [done|done|done| | | |by split].
  - exists commit, path. eexists _, backup. split; [left|]. split; [exact Hb|]. by split.
  - exists cid. by split.
  - rewrite ?app_nil_r. by apply (site_healthy_app_r _ _ [_; _]).
Qed.

(** *** Where a service is stopped *)

Lemma compose_no_stop args parts :
  (∀ service, parts ≠ ["stop"; "--timeout"; "30"; service]) → ∀ service, compose_command args parts ≠ stop_command args service.
Proof. intros Hp service H. apply app_inv_head in H. by apply (Hp service). Qed.

Section no_stop.
Context (args : arguments).

Lemma no_stop_run command timeout :
  (∀ service, command ≠ stop_command args service) → emits (no_stop args) (run_command command timeout).
Proof. intros H. by apply emits_run. Qed.

Lemma no_stop_compose parts timeout :
  (∀ service, parts ≠ ["stop"; "--timeout"; "30"; service]) →
  emits (no_stop args) (run_command (compose_command args parts) timeout).
Proof. intros H. by apply no_stop_run, compose_no_stop. Qed.

Lemma no_stop_git : emits (no_stop args) source_commit.
Proof. apply no_stop_run. by intros service [=]. Qed.

Lemma no_stop_files {A} (f : files → result A) : emits (no_stop args) (on_files f).
Proof. intros h. constructor. Qed.

Lemma no_stop_state container_id : emits (no_stop args) (container_state container_id).
Proof. unfold container_state. emits_steps. apply no_stop_run. by intros service [=]. Qed.

Lemma no_stop_probes profile url : emits (no_stop args) (run_probes profile url).
Proof.
  unfold run_probes. emits_steps. generalize (rstrip_char "/" url) as origin. intros origin.
  induction a as [|item items IH]; cbn [mapM]; emits_steps; [|done]. unfold probe_item, probe. emits_steps.
Qed.

Lemma no_stop_prepare profile scenario : emits (no_stop args) (prepare args profile scenario).
Proof.
  unfold prepare. emits_steps; [apply no_stop_git|apply no_stop_files| |apply no_stop_probes].
  by apply no_stop_compose.
Qed.
Lemma no_stop_poll attempts container_id interval : emits (no_stop args) (poll attempts container_id interval).
Proof.
  induction attempts as [|attempts IH]; cbn [poll]; emits_steps; [apply no_stop_state|].
  destruct a as [status health]. emits_steps. done.
Qed.

Lemma no_stop_restart profile service container_id :
  emits (no_stop args) (restart args profile service container_id).
Proof.
  unfold restart, start_service, wait_for_recovery. emits_steps; [by apply no_stop_compose|apply no_stop_poll| |].
  - apply no_stop_state.
  - destruct a as [status health]. emits_steps. by apply no_stop_compose.
Qed.

Lemma no_stop_reconciliation scenario : emits (no_stop args) (scenario_reconciliation args scenario).
Proof.
  unfold scenario_reconciliation. emits_steps.
  destruct (a_accepted args) as [accepted|]; [|apply emits_lift].
  destruct (a_recovered args) as [recovered|]; [|apply emits_lift].
  emits_steps; [apply no_stop_files| |destruct a1; emits_steps].
  unfold build_reconciliation, reconcile_files.
  emits_steps; [apply no_stop_git|apply no_stop_files..|]. destruct a1 as [commit r].
  emits_steps; apply no_stop_files.
Qed.

Lemma no_stop_observe profile container_id : emits (no_stop args) (observe args profile container_id).
Proof.
  unfold observe. apply emits_bind; [apply no_stop_state|intros [status health]].
  emits_steps. apply no_stop_probes.
Qed.

Lemma no_stop_after profile scenario commit backup service container_id pre started :
  emits (no_stop args) (after_stop args profile scenario commit backup service container_id pre started).
Proof.
  unfold after_stop. apply emits_bind; [apply no_stop_observe|intros [fault during]].
  emits_steps; [apply no_stop_restart|apply no_stop_probes|apply no_stop_reconciliation|].
  by apply no_stop_compose.
Qed.
End no_stop.

(** A scenario stops at most one service, once, after [prepare] returned. *)
Lemma run_scenario_shape args profile scenario r t :
  run_scenario args profile scenario [] = (r, t) →
  (Forall (no_stop args) t ∧ ∀ report, r ≠ Some (Ok report))
  ∨ ∃ commit backup service cid pre tp now o rest,
      prepare args profile scenario [] = (Some (Ok (commit, backup, service, cid, pre)), tp)
      ∧ t = (tp ++ [Dated now]) ++ Ran (stop_command args service) (Some 45) o :: rest
      ∧ Forall (no_stop args) (tp ++ [Dated now]) ∧ Forall (no_stop args) rest
      ∧ match o with
        | Ok _ => after_stop args profile scenario commit backup service cid pre now
                    ((tp ++ [Dated now]) ++ [Ran (stop_command args service) (Some 45) o]) = (r, rest)
        | Raise e => rest = [] ∧ r = Some (Raise e)
        end.
Proof.
  unfold run_scenario. intros H. pose proof (no_stop_prepare args profile scenario []) as Hp.
  apply eff_bind_cases in H as [[H ->]|[(e & H & ->)|(x & t1 & t2 & H1 & H & ->)]].
  1,2: rewrite H in Hp; by left.
  rewrite H1 in Hp. cbn in Hp. right. destruct x as [[[[commit backup] service] cid] pre].
  assert (Forall (no_stop args) (t1 ++ [Dated (w_date w ([] ++ t1))])) as Hp'
    by (apply Forall_app; split; [done|by repeat constructor]).
  set (now := w_date w ([] ++ t1)) in *.
  apply eff_bind_cases in H as [[H _]|[(e & H & ->)|(started & t3 & t4 & H2 & H & ->)]].
  - exfalso. unfold inject, run_command, mbind, eff_bind, run in H. cbn in H. by destruct (w_run _ _ _ _).
  - exists commit, backup, service, cid, pre, t1, now, (Raise e), []. split; [done|].
    unfold inject, run_command, mbind, eff_bind, run in H. cbn in H. fold now in H.
    unfold stop_command. destruct (w_run _ _ _ _) eqn:E; [discriminate|]. injection H as -> <-.
    split; [by rewrite <-app_assoc|]. by split.
  - unfold inject, run_command, mbind, eff_bind, run in H2. cbn in H2. fold now in H2.
    destruct (w_run _ _ _ _) as [s|] eqn:E; [|discriminate]. injection H2 as <- <-.
    exists commit, backup, service, cid, pre, t1, now, (Ok s), t4. split; [done|].
    unfold stop_command. split; [by rewrite <-!app_assoc|]. split; [done|]. split.
    + exact (emits_inv _ _ _ _ _ (no_stop_after args profile scenario commit backup service cid pre now) H).
    + rewrite <-app_assoc. exact H.
Qed.

Lemma authorised_app args profile service t u :
  authorised args profile service t → authorised args profile service (t ++ u).
Proof.
  intros [Ht Hw Hp (c & p & h & d & Hg & Hb) (cid & Hps & Hc) Hs]. constructor; [done|done|done| | |].
  - exists c, p, h, d. split; [apply elem_of_app; by left|done].
  - exists cid. split; [apply elem_of_app; by left|done].
  - by apply site_healthy_app.
Qed.

(** A scenario stops a production service at most once, and only after every
    check passed: target and environment name Server-01, a maintenance window
    was given, the backup evidence belongs to the checked-out commit, the
    service had a container, and every public probe answered as expected. *)
Theorem stop_authorised args profile scenario r t1 command timeout o t2 service :
  run_scenario args profile scenario [] = (r, t1 ++ Ran command timeout o :: t2) →
  command = stop_command args service →
  authorised args profile service t1
  ∧ j_getitem (JObj scenario) "service" = Ok (JStr service)
  ∧ Forall (no_stop args) t1 ∧ Forall (no_stop args) t2.
Proof.
  intros H ->. assert (¬ no_stop args (Ran (stop_command args service) timeout o)) as He by (intros Hn; by eapply Hn).
  apply run_scenario_shape in H as [[H _]|(commit & backup & s & cid & pre & tp & now & o' & rest & Hp & Ht & Ha & Hb & _)].
  { apply Forall_app in H as [_ [H _]%Forall_cons]. done. }
  destruct (split_unique (no_stop args) _ _ _ _ _ _ Ha Hb (eq_sym Ht) He) as (-> & Heq & ->).
  apply prepare_Ok in Hp as (Hauth & Hs & _). injection Heq as Heq _ _. subst s.
  split; [by apply authorised_app|]. by split.
Qed.

(** *** The restart *)

(** Events that only observe: inspections and requests. *)
Definition observation (e : event) : Prop :=
  match e with
  | Ran command _ _ => ∃ container_id, command = inspect container_id
  | Requested _ _ => True
  | _ => False
  end.

Lemma observe_observes args profile container_id : emits observation (observe args profile container_id).
Proof.
  unfold observe. apply emits_bind; [|intros [status health]].
  - unfold container_state. emits_steps. apply emits_run. intros o. by exists container_id.
  - emits_steps. unfold run_probes. emits_steps. generalize (rstrip_char "/" (a_public_base_url args)) as origin.
    intros origin. induction a as [|item items IH]; cbn [mapM]; emits_steps; [|done].
    unfold probe_item, probe. emits_steps.
Qed.

(** The try block starts with the start command. *)
Lemma restart_starts args profile service container_id h :
  ∃ o t, (restart args profile service container_id h).2 = Ran (start_command args service) (Some 60) o :: t.
Proof.
  unfold restart. match goal with |- context [try_finally ?m ?c h] => destruct (try_finally_events m c h) as [u ->] end.
  match goal with |- context [(start_service args service ≫= ?f) h] =>
    destruct (eff_bind_events (start_service args service) f h) as [u' ->] end.
  eexists _, _. reflexivity.
Qed.

(** After a service was stopped, either the start command is issued, whatever
    happens later, or the run fails having done nothing but inspect and probe
    since: the inspection and the probes that follow the stop are outside the
    [try], so an exception they raise leaves the production service stopped. *)
Theorem restart_attempted args profile scenario r t1 timeout out t2 service :
  run_scenario args profile scenario []
    = (r, t1 ++ Ran (stop_command args service) timeout (Ok out) :: t2) →
  (∃ o, Ran (start_command args service) (Some 60) o ∈ t2)
  ∨ Forall observation t2 ∧ ∀ report, r ≠ Some (Ok report).
Proof.
  intros H. assert (¬ no_stop args (Ran (stop_command args service) timeout (Ok out))) as He
    by (intros Hn; by eapply Hn).
  apply run_scenario_shape in H as [[H _]|(commit & backup & s & cid & pre & tp & now & o' & rest & Hp & Ht & Ha & Hb & H)].
  { apply Forall_app in H as [_ [H _]%Forall_cons]. done. }
  destruct (split_unique (no_stop args) _ _ _ _ _ _ Ha Hb (eq_sym Ht) He) as (-> & Heq & ->).
  injection Heq as Heq _ <-. subst s. unfold after_stop in H.
  apply eff_bind_cases in H as [[H ->]|[(e & H & ->)|([fault during] & t3 & t4 & H1 & H & ->)]].
  - right. split; [|done]. exact (emits_inv _ _ _ _ _ (observe_observes args profile cid) H).
  - right. split; [|done]. exact (emits_inv _ _ _ _ _ (observe_observes args profile cid) H).
  - left. match type of H with (restart args profile service cid ≫= ?f) ?h = _ =>
      destruct (eff_bind_events (restart args profile service cid) f h) as [u Hu];
      destruct (restart_starts args profile service cid h) as (o & t' & Ho) end.
    rewrite H, Ho in Hu. cbn in Hu. subst t4. exists o. apply elem_of_app. right. left.
Qed.

(** *** What a pass shows *)

Lemma container_state_Ok cid h status health t :
  container_state cid h = (Some (Ok (status, health)), t) →
  ∃ output, t = [Ran (inspect cid) (Some 30) (Ok output)] ∧ split_once "|" output = (status, Some health).
Proof.
  unfold container_state, run_command. intros H. eff_ok_in H. subst. exists x. split; [done|].
  destruct (split_once "|" x) as [a [b|]]; [|discriminate]. by injection H as -> ->.
Qed.

(** The container was seen running and, where it has a health check, healthy. *)
Definition seen_ready (cid : string) (t : history) : Prop :=
  ∃ output health, Ran (inspect cid) (Some 30) (Ok output) ∈ t
    ∧ split_once "|" output = ("running", Some health) ∧ health ∈ [""; "healthy"].

Lemma poll_Ok attempts cid interval h u t : poll attempts cid interval h = (Some (Ok u), t) → seen_ready cid t.
Proof.
  revert h t. induction attempts as [|attempts IH]; intros h t H; cbn [poll] in H; [discriminate|].
  apply eff_bind_Ok in H as ([status health] & t1 & t2 & H1 & H & ->). cbn beta iota in H.
  apply container_state_Ok in H1 as (output & -> & Ho).
  case_if_in H; split_bools.
  - exists output, health. subst status. split; [by left|]. by split.
  - eff_ok_in H. destruct (IH _ _ H) as (o & he & Hin & Hr). exists o, he. split; [|done].
    subst. apply elem_of_app; right. cbn. apply elem_of_app. by right.
Qed.

Lemma seen_ready_app cid t u : seen_ready cid t → seen_ready cid (t ++ u).
Proof. intros (o & he & Hin & H). exists o, he. split; [apply elem_of_app; by left|done]. Qed.

Lemma restart_Ok args profile service cid h t :
  restart args profile service cid h = (Some (Ok ()), t) →
  ∃ out u, t = Ran (start_command args service) (Some 60) (Ok out) :: u ∧ seen_ready cid u.
Proof.
  intros (t1 & t2 & H & _ & ->)%try_finally_Ok. unfold start_service, wait_for_recovery, run_command in H.
  eff_ok_in H. apply poll_Ok in H. exists x. subst. cbn. eexists. split; [done|]. by apply seen_ready_app.
Qed.

Lemma evaluate_pass fault preserved post duration rto reconciled :
  evaluate_recovery fault preserved post duration rto reconciled = Ok "PASS" →
  fault = true ∧ preserved = true ∧ forallb passed post = true ∧ within duration rto = Ok true ∧ reconciled = true.
Proof.
  unfold evaluate_recovery. intros (b & Hw & H)%bind_Ok.
  destruct (fault && preserved && forallb passed post && b && reconciled) eqn:E; [|discriminate].
  split_bools. subst. done.
Qed.

(** The evidence was built from the two record files of the arguments. *)
Definition reconciled (args : arguments) (evidence : scenario_evidence) : Prop :=
  ∃ accepted recovered document h t, a_accepted args = Some accepted ∧ a_recovered args = Some recovered
    ∧ build_reconciliation accepted recovered h = (Some (Ok (evidence, document)), t).

(** The reconciliation a scenario asks for was carried out. *)
Lemma scenario_reconciliation_Ok args scenario h e t :
  scenario_reconciliation args scenario h = (Some (Ok e), t) →
  j_contains "accepted-record-reconciliation" (default (JList []) (dict_get scenario "recoveryEvidence")) = Ok true →
  ∃ evidence, e = Some evidence ∧ reconciled args evidence.
Proof.
  unfold scenario_reconciliation. intros H Hr. rewrite Hr in H. eff_ok_in H; injection Hx as <-; [discriminate E|].
  destruct (a_accepted args) as [accepted|] eqn:Ha; [|discriminate].
  destruct (a_recovered args) as [recovered|] eqn:Hrec; [|discriminate].
  eff_ok_in H. subst. eexists. split; [done|]. eexists accepted, recovered, _, _, _. split_and!; [done|done|]. eassumption.
Qed.

(** C14: A scenario reported as "PASS" did what it claims: its service was stopped
    and then seen not running; after a successful start command its container
    was seen running (and healthy where it has a health check), every public
    probe then answered as expected, the service still had the same container,
    and the record reconciliation, when the scenario asks for one, was made from
    the given files and passed.  The reported duration is the time from the clock
    reading before the stop to the one after the container was ready, and is at
    most the objective. *)
Theorem pass_shows_recovery args profile scenario report t :
  run_scenario args profile scenario [] = (Some (Ok report), t) →
  rr_technical_result report = "PASS" →
  ∃ service cid t1 began stopped t2 started t3 ended t4 rto,
    j_getitem (JObj scenario) "service" = Ok (JStr service)
    ∧ t = t1 ++ Dated began :: Ran (stop_command args service) (Some 45) (Ok stopped) :: t2
          ++ Ran (start_command args service) (Some 60) (Ok started) :: t3 ++ Dated ended :: t4
    ∧ Ran (ps_command args service) (Some 30) (Ok cid) ∈ t1
    ∧ (∃ output status health, Ran (inspect cid) (Some 30) (Ok output) ∈ t2
         ∧ split_once "|" output = (status, Some health) ∧ status ≠ "running")
    ∧ seen_ready cid t3
    ∧ site_healthy profile (a_public_base_url args) t4
    ∧ Ran (ps_command args service) (Some 30) (Ok cid) ∈ t4
    ∧ true_div (instant ended - instant began) 1000000 = Ok (rr_duration report)
    ∧ (thresholds ← j_getitem (JObj profile) "thresholds";
       j_getitem thresholds "recoveryTimeObjectiveSeconds") = Ok rto
    ∧ within (rr_duration report) rto = Ok true
    ∧ (j_contains "accepted-record-reconciliation" (default (JList []) (dict_get scenario "recoveryEvidence")) = Ok true →
       ∃ evidence, rr_reconciliation report = Some evidence ∧ reconciled args evidence
         ∧ rc_technicalResult (se_result evidence) = "PASS").
Proof.
  intros H Hpass. apply run_scenario_shape in H as
    [[_ Hn]|(commit & backup & service & cid & pre & tp & now & o & rest & Hp & -> & _ & _ & H)].
  { by destruct (Hn report). }
  destruct o as [stopped|e]; [|destruct H as [_ [=]]].
  unfold after_stop, observe, run_command in H.
  apply eff_bind_Ok in H as ([fault during] & t1 & t2 & Hobs & H & ->). cbn beta iota in H.
  apply eff_bind_Ok in Hobs as ([status health] & t3 & t4 & Hst & Hobs & ->). cbn beta iota in Hobs.
  apply container_state_Ok in Hst as (output & -> & Hout).
  eff_ok_in Hobs. injection Hobs as <- <-. eff_ok_in H. subst report. cbn in Hpass. subst x7.
  apply evaluate_pass in Hx7 as (Hfault & Hsame & Hpost & Hrto & Hrec). split_bools. subst x4.
  destruct x0. apply restart_Ok in Hx0 as (started & u & -> & Hready).
  pose proof (run_probes_Ok _ _ _ _ _ Hx2 Hpost) as Hsite.
  apply prepare_Ok in Hp as (_ & Hservice & Hps & _). subst. rewrite !app_nil_l, !app_nil_r.
  exists service, cid, tp, now, stopped, (Ran (inspect cid) (Some 30) (Ok output) :: t), started,
    u, x1, (t7 ++ t9 ++ [Ran (ps_command args service) (Some 30) (Ok cid)]), x6.
  cbn [rr_duration rr_reconciliation].
  split; [done|]. split; [by rewrite <-!app_assoc|].
  split; [done|]. split; [exists output, status, health; split; [by left|]; by split|].
  split; [done|]. split; [|split; [|split; [done|split; [done|split; [done|]]]]].
  - apply site_healthy_app. exact Hsite.
  - rewrite !elem_of_app. right. right. left.
  - intros Hreq. destruct (scenario_reconciliation_Ok _ _ _ _ _ Hx3 Hreq) as (evidence & -> & Hev).
    exists evidence. split; [done|]. split; [done|]. cbn in Hrec. by apply String.eqb_eq in Hrec.
Qed.
End qualification.

(** ** Instances *)

Lemma reconcile_passes_iff_permutation_witness :
  [JStr "a"; JStr "b"] ≡ₚ [JStr "b"; JStr "a"]
  ∧ ∃ r, reconcile_records [JStr "a"; JStr "b"] [JStr "b"; JStr "b"] = Ok r ∧ rc_technicalResult r ≠ "PASS".
Proof.
  split.
  - destruct (reconcile_records [JStr "a"; JStr "b"] [JStr "b"; JStr "a"]) as [r|] eqn:E;
      [|vm_compute in E; discriminate].
    apply (reconcile_passes_iff_permutation _ _ r E). vm_compute in E. by injection E as <-.
  - eexists. split; [reflexivity|]. discriminate.
Defined.

Definition sample_arguments : arguments := {|
  a_check := false; a_reconcile := false; a_target := Some REQUIRED_TARGET; a_scenario := Some "RQ-1";
  a_approved_window := Some "CHG-7"; a_env_file := Some (parse_path "/srv/prod.env");
  a_backup_result := Some (parse_path "/srv/backup.json"); a_evidence_dir := Some (parse_path "/srv/evidence");
  a_accepted := None; a_recovered := None; a_output := None;
  a_project_name := "gcs-saker-m2-production"; a_public_base_url := "https://gcs-saker.com" |}.

Definition sample_profile : entry := [
  ("execution", JObj [("publicProbes", JList [JObj [("path", JStr "/healthz"); ("expectedStatus", JInt 200)]]);
                      ("maximumAttempts", JInt 3); ("retryIntervalSeconds", JInt 1)]);
  ("thresholds", JObj [("recoveryTimeObjectiveSeconds", JInt 60)])].

Definition sample_scenario : entry := [("id", JStr "RQ-1"); ("service", JStr "redis")].

Definition sample_backup (_ : string) : result jval :=
  Ok (JObj [("sourceCommit", JStr "c0ffee"); ("restoreVerified", JBool true);
            ("databaseDumpSha256", JStr (Nat.iter 64 (String "0") ""))]).

Definition sample_files : files := {|
  fs_is_file := λ _, Ok true; fs_is_dir := λ _, Ok true; fs_size := λ _, Ok 7; fs_mode := λ _, Ok 384;
  fs_read := λ _, Ok [] |}.

Definition is_stop (e : event) : bool :=
  match e with Ran c _ _ => bool_decide ("stop" ∈ c) | _ => false end.
Definition is_start (e : event) : bool :=
  match e with Ran c _ _ => bool_decide ("start" ∈ c) | _ => false end.

(** Docker: the container runs unless its last command was a stop. *)
Definition sample_run (h : history) (command : list string) (_ : option Z) : result string :=
  match command with
  | "git" :: _ => Ok "c0ffee"
  | _ :: "inspect" :: _ =>
      Ok (if existsb is_stop h && negb (existsb is_start h) then "exited|" else "running|healthy")
  | _ => Ok (if bool_decide ("ps" ∈ command) then "cid" else "")
  end.

(** A site that answers, or that times out while the service is stopped. *)
Definition sample_fetch (robust : bool) (h : history) (_ : string) : fetched :=
  if negb robust && existsb is_stop h then FetchRaised (PyErr ExcOSError "timed out") else Response 200.

Definition sample_world (robust : bool) : world := {|
  w_run := sample_run;
  w_exec := λ _ _, Ok (0, "");
  w_clock := λ _, 0%float;
  w_date := λ h, mkDatetime (Z.of_nat (length h) * 1000000) (Some 0);
  w_fetch := sample_fetch robust;
  w_create := λ _ _ _, Ok (); w_copy := λ _ _ _, Ok () |}.

Definition sample_env (name : string) : option string :=
  if String.eqb name "DEPLOYMENT_TARGET" then Some REQUIRED_TARGET else None.

Definition sample_scenario_run (robust : bool) : option (result recovery_report) * history :=
  run_scenario (sample_world robust) (λ _, sample_files) sample_env sample_backup sample_backup (λ _, "")
    (λ s, s) (λ _, true) (λ _, true) (parse_path "/srv/app") sample_arguments sample_profile sample_scenario [].

Definition sample_stop : list string := stop_command (parse_path "/srv/app") sample_arguments "redis".

Lemma stop_authorised_witness :
  sample_scenario_run true
    = ((sample_scenario_run true).1,
       take 4 (sample_scenario_run true).2 ++ Ran sample_stop (Some 45) (Ok "") :: drop 5 (sample_scenario_run true).2)
  ∧ authorised (λ _, sample_files) sample_env sample_backup sample_backup (λ _, "") (parse_path "/srv/app")
      sample_arguments sample_profile "redis" (take 4 (sample_scenario_run true).2).
Proof.
  assert (sample_scenario_run true
    = ((sample_scenario_run true).1,
       take 4 (sample_scenario_run true).2 ++ Ran sample_stop (Some 45) (Ok "") :: drop 5 (sample_scenario_run true).2))
    as E by (vm_compute; reflexivity).
  split; [exact E|].
  exact (proj1 (stop_authorised _ _ _ _ _ _ _ _ _ _ _ _ _ _ _ _ _ _ _ _ E eq_refl)).
Defined.

(** The site times out while [redis] is stopped: the run fails and no start
    command was issued. *)
Lemma restart_attempted_witness :
  (sample_scenario_run false).1 = Some (Raise (PyErr ExcOSError "timed out"))
  ∧ Ran sample_stop (Some 45) (Ok "") ∈ (sample_scenario_run false).2
  ∧ existsb is_start (sample_scenario_run false).2 = false
  ∧ Forall observation (drop 5 (sample_scenario_run false).2).
Proof.
  assert (sample_scenario_run false
    = ((sample_scenario_run false).1,
       take 4 (sample_scenario_run false).2 ++ Ran sample_stop (Some 45) (Ok "")
         :: drop 5 (sample_scenario_run false).2)) as E by (vm_compute; reflexivity).
  split; [vm_compute; reflexivity|]. split; [|split; [vm_compute; reflexivity|]].
  { rewrite E. cbn [snd]. apply elem_of_app. right. left. }
  destruct (restart_attempted _ _ _ _ _ _ _ _ _ _ _ _ _ _ _ _ _ _ _ E) as [[o Ho]|[H _]]; [|exact H].
  exfalso. vm_compute in Ho. apply list_elem_of_In in Ho. destruct Ho as [[=]|[[=]|[]]].
Defined.

Lemma pass_shows_recovery_witness :
  ∃ report, (sample_scenario_run true).1 = Some (Ok report) ∧ rr_technical_result report = "PASS"
    ∧ ∃ cid t u, seen_ready cid t ∧ site_healthy sample_profile "https://gcs-saker.com" u.
Proof.
  destruct (sample_scenario_run true) as [[[report|]|] t] eqn:E; try (vm_compute in E; discriminate).
  assert (rr_technical_result report = "PASS") as Hp by (vm_compute in E; by injection E as <- _).
  exists report. split; [reflexivity|]. split; [exact Hp|].
  destruct (pass_shows_recovery _ _ _ _ _ _ _ _ _ _ _ _ _ _ _ E Hp)
    as (service & cid & t1 & began & stopped & t2 & started & t3 & ended & t4 & rto & _ & _ & _ & _ & Hr & Hs & _).
  by exists cid, t3, t4.
Defined.
