(* ===== verification/Release.v ===== *)
(** The signed release manifest: [scripts/ops/release_manifest.py] and
    [scripts/ops/verify_mobile_release_evidence.py].

    Files are read through [files]; the JSON and base64 codecs, SHA-256, [repr]
    and week dates are parameters.  The searches of the file tree and the day of
    the run are arguments. *)

From stdpp Require Import base list strings sorting.
From Stdlib Require Import ZArith Lia Ascii Strings.Byte.
From S2P Require Import Prelude PyStr PyStrFacts PyTime PyTimeParse PyJson PyText Host.

#[local] Open Scope Z_scope.

(** [scripts/ops/release_manifest.py:14-23] SERVICES *)
Definition SERVICES : list string := [
  "backend"; "auth-policy"; "media-control"; "dashboard"; "mqtt"; "mediamtx"; "turn"; "mobile-publisher"].

(** [scripts/ops/release_manifest.py:24-25] IMAGE_NAMES *)
Definition IMAGE_NAMES (service : string) : option string :=
  if String.eqb service "mobile-publisher" then Some "gcs-mobile-publisher"
  else if bool_decide (service ∈ SERVICES) then Some ("gcs-saker-" +:+ service) else None.

(** [scripts/ops/release_manifest.py:26-26] DIGEST *)
Definition DIGEST (s : string) : bool := startswith "sha256:" s && lower_hex 64 (string_drop 7 s).

(** [scripts/ops/release_manifest.py:27-27] COMMIT *)
Definition COMMIT (s : string) : bool := lower_hex 40 s.

Definition manifest_error {A} (msg : string) : result A := throw ExcReleaseManifestError msg.

(** [scripts/ops/release_manifest.py:138-142] valid_image_reference *)
Definition valid_image_reference (service reference : string) : bool :=
  let expected_prefix := "ghcr.io/gcs-saker/" +:+ default "" (IMAGE_NAMES service) +:+ "@" in
  startswith expected_prefix reference && DIGEST (removeprefix expected_prefix reference).

Lemma valid_image_reference_spec service reference :
  valid_image_reference service reference = true →
  ∃ digest, reference = "ghcr.io/gcs-saker/" +:+ default "" (IMAGE_NAMES service) +:+ "@sha256:" +:+ digest
            ∧ lower_hex 64 digest = true.
Proof.
  unfold valid_image_reference, DIGEST. intros H.
  set (prefix := "ghcr.io/gcs-saker/" +:+ default "" (IMAGE_NAMES service) +:+ "@") in *.
  apply andb_true_iff in H as [Hp H]. apply startswith_spec in Hp as [r ->].
  rewrite removeprefix_app in H. apply andb_true_iff in H as [Hr Hd]. apply startswith_spec in Hr as [digest ->].
  exists digest. split; [|exact Hd]. unfold prefix. by rewrite !app_assoc_str.
Qed.

Definition VEX_FIELDS : list string := [
  "vulnerability"; "component"; "status"; "justification"; "impactStatement"; "mitigation"; "owner";
  "approvedBy"; "expiresAt"; "removalCondition"].

(** The command line of [entry]. *)
Record entry_arguments : Type := mkEntryArguments {
  e_service : string;
  e_image : string;
  e_digest : string;
  e_sbom : fs_path;
  e_license_report : fs_path;
  e_notices : fs_path;
  e_license_scope : string;
  e_output : fs_path
}.

Inductive command : Type :=
  | EntryCommand (args : entry_arguments)
  | AssembleCommand (entries : list fs_path) (source_commit workflow_run : string) (output : fs_path)
  | VerifyCommand (manifest : fs_path) (source_commit : string).

(** What [main] leaves behind: a file, or a line on standard output. *)
Inductive outcome : Type := Written (path : fs_path) (document : jval) | Shown (document : jval).

(** Eight managed services that cover all eight are each there once. *)
Lemma services_once (l : list string) :
  length l = length SERVICES → (∀ s, s ∈ SERVICES → s ∈ l) → l ≡ₚ SERVICES.
Proof.
  intros Hlen Hall. symmetry. apply submseteq_length_Permutation; [|lia].
  apply NoDup_submseteq; [|done]. apply (bool_decide_unpack _). vm_compute. exact I.
Qed.

Section manifest.
Context (fs : files) (json_loads : string → result jval) (sha256_hex : list byte → string).
Context (py_repr : jval → string) (week_date : string → option Z) (REPO_ROOT : fs_path).

Definition document : Type := list (string * jval).

Definition ACTIVE_VEX : fs_path := path_div REPO_ROOT "docs/compliance/supply-chain/active-vex.json".
Definition RUNTIME_INVENTORY : fs_path :=
  path_div REPO_ROOT "docs/compliance/supply-chain/runtime-delivery-inventory.json".

(** [scripts/ops/release_manifest.py:36-37] sha256 *)
Definition sha256 (path : fs_path) : result string := sha256_hex <$> fs_read fs path.

(** [scripts/ops/release_manifest.py:40-44] load_json *)
Definition load_json (path : fs_path) : result document :=
  text ← fs_text fs path;
  value ← json_loads text;
  match value with JObj d => Ok d | _ => manifest_error (path_str path +:+ " must contain an object") end.

Definition str_field (d : document) (name dflt : string) : string :=
  py_str py_repr (default (JStr dflt) (dict_get d name)).

(** [scripts/ops/release_manifest.py:47-64] create_entry *)
Definition create_entry (args : entry_arguments) : result document :=
  license_report ← load_json (e_license_report args);
  let allowed_field := if String.eqb (e_license_scope args) "internal-service"
                       then "internalDeploymentAllowed" else "releaseAllowed" in
  if negb (is_true (obj_get license_report allowed_field))
  then manifest_error ("license report does not permit " +:+ e_license_scope args) else
  let reference := e_image args +:+ "@" +:+ e_digest args in
  if negb (valid_image_reference (e_service args) reference)
  then manifest_error "image must be an approved GHCR digest reference" else
  sbom ← sha256 (e_sbom args);
  license ← sha256 (e_license_report args);
  notices ← sha256 (e_notices args);
  Ok [("service", JStr (e_service args)); ("image", JStr reference); ("sbomSha256", JStr sbom);
      ("licenseReportSha256", JStr license); ("noticesSha256", JStr notices);
      ("licenseScope", JStr (e_license_scope args)); ("licenseDeploymentAllowed", JBool true);
      ("licenseReleaseAllowed", JBool (is_true (obj_get license_report "releaseAllowed")))].

(** [scripts/ops/release_manifest.py:123-135] validate_entry *)
Definition validate_entry (e : jval) : result () :=
  match e with
  | JObj entry =>
      let service := str_field entry "service" "" in
      if negb (bool_decide (service ∈ SERVICES))
         || negb (valid_image_reference service (str_field entry "image" ""))
      then manifest_error "release manifest contains an invalid image entry" else
      _ ← for_in (λ _ field,
            if lower_hex 64 (str_field entry field "") then Ok ()
            else manifest_error ("release manifest contains an invalid " +:+ field))
          () ["sbomSha256"; "licenseReportSha256"; "noticesSha256"];
      let scope := str_field entry "licenseScope" "distribution" in
      if String.eqb scope "internal-service" then
        if String.eqb service "mobile-publisher" || negb (is_true (obj_get entry "licenseDeploymentAllowed"))
        then manifest_error "invalid internal-service license disposition" else Ok ()
      else if negb (String.eqb scope "distribution") || negb (is_true (obj_get entry "licenseReleaseAllowed"))
      then manifest_error "release manifest contains a blocked distribution disposition" else Ok ()
  | _ => throw ExcAttributeError "get"
  end.

(** [scripts/ops/release_manifest.py:145-164] validate_vex *)
Definition validate_vex (today : Z) (records : jval) : result () :=
  match records with
  | JList l =>
      for_in (λ _ record,
        match record with
        | JObj r =>
            if existsb (λ field, negb (j_truthy (obj_get r field))) VEX_FIELDS
            then manifest_error "vulnerability exception lacks approved VEX fields" else
            expires ← date_fromisoformat week_date (py_str py_repr (obj_get r "expiresAt"));
            if expires <? today then manifest_error "vulnerability exception VEX has expired" else Ok ()
        | _ => manifest_error "vulnerability exception lacks approved VEX fields"
        end) () l
  | _ => manifest_error "release manifest VEX inventory must be a list"
  end.

(** [scripts/ops/release_manifest.py:105-120] validate_runtime_inventory *)
Definition validate_runtime_inventory (manifest : document) : result () :=
  match obj_get manifest "runtimeInventory" with
  | JObj runtime_inventory =>
      match obj_get runtime_inventory "components" with
      | JList components =>
          if Nat.ltb (length components) 3
          then manifest_error "release manifest runtime inventory is incomplete" else
          digest ← sha256 RUNTIME_INVENTORY;
          if negb (py_eq (obj_get manifest "runtimeInventorySha256") (JStr digest))
          then manifest_error "release manifest runtime inventory digest is invalid" else
          expected ← load_json RUNTIME_INVENTORY;
          if negb (py_eq (JObj runtime_inventory) (JObj expected))
          then manifest_error "release manifest runtime inventory does not match source" else
          for_in (λ _ component,
            match component with
            | JObj c =>
                if negb (contains "@sha256:" (str_field c "image" ""))
                   || negb (j_truthy (obj_get c "projectLicenses")) || negb (j_truthy (obj_get c "licenseSource"))
                then manifest_error "release manifest runtime component evidence is incomplete" else Ok ()
            | _ => throw ExcAttributeError "get"
            end) () components
      | _ => manifest_error "release manifest runtime inventory is incomplete"
      end
  | _ => manifest_error "release manifest runtime inventory is missing"
  end.

(** [scripts/ops/release_manifest.py:86-102] validate_manifest *)
Definition validate_manifest (today : Z) (manifest : document) (expected_commit : string) :
    result (list (string * string)) :=
  if negb (py_eq (obj_get manifest "schemaVersion") (JStr "gcs-saker.signed-release.v3"))
  then manifest_error "unsupported release manifest schema" else
  if negb (COMMIT expected_commit) || negb (py_eq (obj_get manifest "sourceCommit") (JStr expected_commit))
  then manifest_error "release manifest source commit mismatch" else
  match obj_get manifest "images" with
  | JList images =>
      if negb (Nat.eqb (length images) (length SERVICES))
      then manifest_error "release manifest image inventory is incomplete" else
      inventory ← for_in (λ inventory entry,
        _ ← validate_entry entry;
        service ← j_getitem entry "service";
        image ← j_getitem entry "image";
        Ok (dict_set inventory (py_str py_repr service) (py_str py_repr image))) [] images;
      if negb (forallb (λ s, bool_decide (s ∈ SERVICES)) (dict_keys inventory)
               && forallb (λ s, bool_decide (s ∈ dict_keys inventory)) SERVICES)
      then manifest_error "release manifest service inventory is invalid" else
      _ ← validate_runtime_inventory manifest;
      _ ← validate_vex today (default (JList []) (dict_get manifest "vex"));
      Ok inventory
  | _ => manifest_error "release manifest image inventory is incomplete"
  end.

(** Entries are sorted by the text of their service. *)
Definition service_le (a b : document) : Prop :=
  str_le (py_str py_repr (obj_get a "service")) (py_str py_repr (obj_get b "service")).
#[local] Instance service_le_dec : RelDecision service_le.
Proof. intros a b. unfold service_le. apply _. Defined.

(** [scripts/ops/release_manifest.py:67-83] assemble_manifest

    [paths] is [sorted(entries_root.rglob("release-entry.json"))]; [now] the time
    of the run and [today] its local date. *)
Definition assemble_manifest (now : datetime) (today : Z) (paths : list fs_path) (source_commit workflow_run : string) :
    result document :=
  entries ← mapM load_json paths;
  let services := (λ e, py_str py_repr (obj_get e "service")) <$> entries in
  if negb (forallb (λ s, bool_decide (s ∈ SERVICES)) services && forallb (λ s, bool_decide (s ∈ services)) SERVICES)
     || negb (Nat.eqb (length entries) (length SERVICES))
  then manifest_error "release entries must cover each managed image exactly once" else
  inventory ← load_json RUNTIME_INVENTORY;
  inventory_hash ← sha256 RUNTIME_INVENTORY;
  vex ← load_json ACTIVE_VEX;
  let manifest := [
    ("schemaVersion", JStr "gcs-saker.signed-release.v3"); ("sourceCommit", JStr source_commit);
    ("workflowRun", JStr workflow_run); ("createdAt", JStr (isoformat now));
    ("images", JList (map JObj (merge_sort service_le entries)));
    ("runtimeInventory", JObj inventory); ("runtimeInventorySha256", JStr inventory_hash);
    ("vex", default (JList []) (dict_get vex "records"))] in
  _ ← validate_manifest today manifest source_commit;
  Ok manifest.

(** [scripts/ops/release_manifest.py:194-210] main *)
Definition main (now : datetime) (today : Z) (cmd : command) : result outcome :=
  match cmd with
  | EntryCommand args => e ← create_entry args; Ok (Written (e_output args) (JObj e))
  | AssembleCommand paths commit workflow output =>
      m ← assemble_manifest now today paths commit workflow; Ok (Written output (JObj m))
  | VerifyCommand path commit =>
      m ← load_json path;
      inventory ← validate_manifest today m commit;
      Ok (Shown (JObj (map (λ kv, (kv.1, JStr kv.2)) inventory)))
  end.

(** ** The accepted manifest *)

(** An entry the manifest may contain, with its service and image. *)
Record entry_accepted (e : jval) (service image : string) : Prop := {
  ea_service : ∃ d, e = JObj d ∧ (∃ v, dict_get d "service" = Some v ∧ py_str py_repr v = service)
                    ∧ ∃ v, dict_get d "image" = Some v ∧ py_str py_repr v = image;
  ea_managed : service ∈ SERVICES;
  ea_pinned : valid_image_reference service image = true
}.

Lemma str_field_Some d name dflt v : dict_get d name = Some v → str_field d name dflt = py_str py_repr v.
Proof. unfold str_field. by intros ->. Qed.

Lemma validate_entry_Ok e u service image :
  validate_entry e = Ok u → (v ← j_getitem e "service"; Ok (py_str py_repr v)) = Ok service →
  (v ← j_getitem e "image"; Ok (py_str py_repr v)) = Ok image → entry_accepted e service image.
Proof.
  intros H Hs Hi. destruct e as [| | | | | |d]; try discriminate.
  cbn [j_getitem] in Hs, Hi. destruct (dict_get d "service") as [vs|] eqn:Es; [|discriminate].
  destruct (dict_get d "image") as [vi|] eqn:Ei; [|discriminate]. injection Hs as Hs. injection Hi as Hi.
  unfold validate_entry in H. rewrite !(str_field_Some _ _ _ _ Es), (str_field_Some _ _ _ _ Ei), Hs, Hi in H.
  case_if_in H; [discriminate|]. split_bools. constructor; [|done|done].
  exists d. split; [done|]. split; [by exists vs|by exists vi].
Qed.

(** The inventory collects the entries' services and images. *)
Lemma inventory_Ok images inventory0 inventory :
  for_in (λ inventory entry,
    _ ← validate_entry entry;
    service ← j_getitem entry "service";
    image ← j_getitem entry "image";
    Ok (dict_set inventory (py_str py_repr service) (py_str py_repr image))) inventory0 images = Ok inventory →
  ∃ pairs, Forall2 (λ e p, entry_accepted e p.1 p.2) images pairs
    ∧ inventory = foldl (λ d p, dict_set d p.1 p.2) inventory0 pairs.
Proof.
  revert inventory0. induction images as [|e images IH]; intros d0 H; cbn in H.
  { injection H as <-. exists []. by split; [constructor|]. }
  apply bind_Ok in H as (d1 & H1 & H). apply bind_Ok in H1 as (u & Hv & H1).
  apply bind_Ok in H1 as (vs & Hs & H1). apply bind_Ok in H1 as (vi & Hi & [= <-]).
  destruct (IH _ H) as (pairs & Hp & ->). exists ((py_str py_repr vs, py_str py_repr vi) :: pairs).
  split; [constructor; [|done]|done]. eapply validate_entry_Ok; [done|by rewrite Hs|by rewrite Hi].
Qed.

(** C35: A manifest that validation accepts is for the commit it was checked
    against (forty lower-case hexadecimal digits), lists every managed service
    exactly once, and pins each to a SHA-256 digest of the service's own image in
    the project's registry; the inventory returned is that list. *)
Theorem manifest_covers_services today manifest commit inventory :
  validate_manifest today manifest commit = Ok inventory →
  COMMIT commit = true ∧ obj_get manifest "sourceCommit" = JStr commit
  ∧ ∃ images, obj_get manifest "images" = JList images
      ∧ Forall2 (λ e p, entry_accepted e p.1 p.2) images inventory
      ∧ inventory.*1 ≡ₚ SERVICES
      ∧ ∀ service image, (service, image) ∈ inventory →
          ∃ digest, image = "ghcr.io/gcs-saker/" +:+ default "" (IMAGE_NAMES service) +:+ "@sha256:" +:+ digest
                    ∧ lower_hex 64 digest = true.
Proof.
  unfold validate_manifest. intros H. case_if_in H; [discriminate|]. case_if_in H; [discriminate|].
  split_bools. rename select (py_eq (obj_get manifest "sourceCommit") _ = true) into Hc. apply py_eq_str in Hc.
  split; [done|]. split; [done|].
  destruct (obj_get manifest "images") as [| | | | |images|]; try discriminate.
  destruct (Nat.eqb _ _) eqn:Hlen; [|discriminate]. apply Nat.eqb_eq in Hlen. cbn [negb] in H.
  apply bind_Ok in H as (inv & Hinv & H). case_if_in H; [discriminate|]. split_bools.
  apply bind_Ok in H as (u & _ & H). apply bind_Ok in H as (u' & _ & [= ->]).
  apply inventory_Ok in Hinv as (pairs & Hp & ->).
  assert (pairs.*1 ≡ₚ SERVICES) as Hperm.
  { apply services_once; [by rewrite length_fmap, <-(Forall2_length _ _ _ Hp)|].
    intros s Hs. rename select (forallb _ SERVICES = true) into Hall.
    rewrite forallb_forall in Hall. specialize (Hall s ltac:(by apply list_elem_of_In)).
    apply bool_decide_eq_true_1 in Hall. apply foldl_dict_set_keys in Hall as [Hall|]; [|done].
    by apply elem_of_nil in Hall. }
  rewrite foldl_dict_set_NoDup.
  2: { cbn. rewrite Hperm. apply (bool_decide_unpack _). vm_compute. exact I. }
  cbn [app]. exists images. split; [done|]. split; [done|]. split; [done|].
  intros service image Hin. apply list_elem_of_lookup in Hin as [i Hi].
  destruct (Forall2_lookup_r _ _ _ _ _ Hp Hi) as (e & _ & [_ _ Hpin]). cbn in Hpin.
  by apply valid_image_reference_spec in Hpin.
Qed.

(** ** Created entries *)

(** An entry that [entry] writes for a managed service is accepted by the
    manifest's entry validation, except for an internal-service entry of the
    mobile publisher, which [create_entry] writes and [validate_entry] refuses. *)
Theorem created_entry_accepted args e :
  (∀ bytes, lower_hex 64 (sha256_hex bytes) = true) →
  e_service args ∈ SERVICES → e_license_scope args ∈ ["distribution"; "internal-service"] →
  create_entry args = Ok e →
  validate_entry (JObj e) = Ok ()
  ↔ ¬ (e_license_scope args = "internal-service" ∧ e_service args = "mobile-publisher").
Proof.
  intros Hsha Hs Hscope H. unfold create_entry in H.
  apply bind_Ok in H as (report & _ & H). case_if_in H; [discriminate|]. case_if_in H; [discriminate|].
  assert (∀ p h, sha256 p = Ok h → lower_hex 64 h = true) as Hhex.
  { unfold sha256. intros p h. destruct (fs_read fs p); intros [= <-]. apply Hsha. }
  apply bind_Ok in H as (h1 & H1 & H). apply bind_Ok in H as (h2 & H2 & H). apply bind_Ok in H as (h3 & H3 & [= <-]).
  apply negb_false_iff in Heqb. apply negb_false_iff in Heqb0.
  match goal with |- validate_entry (JObj ?fields) = _ ↔ _ => set (entry := fields) end.
  assert (str_field entry "service" "" = e_service args) as Es by reflexivity.
  assert (str_field entry "image" "" = e_image args +:+ "@" +:+ e_digest args) as Ei by reflexivity.
  assert (str_field entry "sbomSha256" "" = h1 ∧ str_field entry "licenseReportSha256" "" = h2
    ∧ str_field entry "noticesSha256" "" = h3) as (E1 & E2 & E3) by done.
  assert (str_field entry "licenseScope" "distribution" = e_license_scope args) as Esc by reflexivity.
  assert (obj_get entry "licenseDeploymentAllowed" = JBool true) as Ed by reflexivity.
  assert (obj_get entry "licenseReleaseAllowed" = JBool (is_true (obj_get report "releaseAllowed"))) as Er
    by reflexivity.
  unfold validate_entry. rewrite Es, Ei, Heqb0, bool_decide_true by done. cbn [negb orb for_in].
  rewrite E1, E2, E3, (Hhex _ _ H1), (Hhex _ _ H2), (Hhex _ _ H3). cbn [mbind result_bind].
  rewrite Esc, Ed, Er. cbn [is_true negb].
  apply elem_of_cons in Hscope as [Hscope|Hscope%list_elem_of_singleton].
  - assert (String.eqb (e_license_scope args) "internal-service" = false) as Hq by (by rewrite Hscope).
    assert (String.eqb (e_license_scope args) "distribution" = true) as Hd by (by rewrite Hscope).
    rewrite Hq in *. rewrite Hd, Heqb, Hscope. split; [|done]. by intros _ [[=] _].
  - assert (String.eqb (e_license_scope args) "internal-service" = true) as Hq by (by rewrite Hscope).
    rewrite Hq, orb_false_r, Hscope.
    destruct (String.eqb_spec (e_service args) "mobile-publisher") as [E|E].
    + split; [discriminate|]. intros Hn. by destruct Hn.
    + split; [|done]. by intros _ [_ ?].
Qed.
End manifest.

(** ** Archived evidence of the mobile release *)

Definition mobile_error {A} (msg : string) : result A := throw ExcMobileEvidenceError msg.

Section mobile.
Context (fs : files) (json_loads : string → result jval) (b64decode : string → result (list byte)).

(** [scripts/ops/verify_mobile_release_evidence.py:13-13] IMAGE_REFERENCE

    The digest group of a full match. *)
Definition mobile_image_digest (image : string) : option string :=
  let prefix := "ghcr.io/gcs-saker/gcs-mobile-publisher@sha256:" in
  if startswith prefix image && lower_hex 64 (removeprefix prefix image)
  then Some (removeprefix prefix image) else None.

Definition BUNDLE_MEDIA_TYPE : string := "application/vnd.dev.sigstore.bundle.v0.3+json".
Definition STATEMENT_TYPE : string := "https://in-toto.io/Statement/v1".
Definition PREDICATE_TYPE : string := "https://sigstore.dev/cosign/sign/v1".

(** [scripts/ops/verify_mobile_release_evidence.py:23-27] load_object *)
Definition load_object (path : fs_path) : result document :=
  text ← fs_text fs path;
  value ← json_loads text;
  match value with JObj d => Ok d | _ => mobile_error (path_name path +:+ " must contain an object") end.

(** [scripts/ops/verify_mobile_release_evidence.py:30-44] decode_statement *)
Definition decode_statement (bundle : document) : result document :=
  match obj_get bundle "dsseEnvelope" with
  | JObj envelope =>
      match obj_get envelope "payload" with
      | JStr payload =>
          statement ← catch_any (decoded ← b64decode payload; text ← utf8_decode decoded; json_loads text)
                        [ExcValueError; ExcUnicodeError; ExcJSONDecodeError]
                        (λ _, mobile_error "DSSE payload is invalid");
          match statement with
          | JObj d => Ok d
          | _ => mobile_error "DSSE payload must contain an object"
          end
      | _ => mobile_error "DSSE envelope is missing its payload"
      end
  | _ => mobile_error "Sigstore bundle is missing its DSSE envelope"
  end.

(** [scripts/ops/verify_mobile_release_evidence.py:47-57] validate_subject *)
Definition validate_subject (statement : document) (expected_digest : string) : result () :=
  if negb (py_eq (obj_get statement "_type") (JStr STATEMENT_TYPE))
  then mobile_error "unexpected in-toto statement type" else
  if negb (py_eq (obj_get statement "predicateType") (JStr PREDICATE_TYPE))
  then mobile_error "unexpected Cosign predicate type" else
  match obj_get statement "subject" with
  | JList [subject] =>
      let digest := match subject with JObj s => obj_get s "digest" | _ => JNull end in
      match digest with
      | JObj d => if py_eq (obj_get d "sha256") (JStr expected_digest) then Ok ()
                  else mobile_error "statement subject does not match the mobile image digest"
      | _ => mobile_error "statement subject does not match the mobile image digest"
      end
  | _ => mobile_error "statement must bind exactly one subject"
  end.

(** [scripts/ops/verify_mobile_release_evidence.py:60-73] verify *)
Definition verify (entry_path bundle_path : fs_path) : result () :=
  entry ← load_object entry_path;
  let digest := match obj_get entry "image" with JStr image => mobile_image_digest image | _ => None end in
  match digest with
  | Some digest =>
      if negb (py_eq (obj_get entry "service") (JStr "mobile-publisher"))
      then mobile_error "mobile release entry has an unapproved image reference" else
      if negb (is_true (obj_get entry "licenseReleaseAllowed"))
      then mobile_error "mobile release entry is not approved for distribution" else
      bundle ← load_object bundle_path;
      if negb (py_eq (obj_get bundle "mediaType") (JStr BUNDLE_MEDIA_TYPE))
      then mobile_error "unsupported Sigstore bundle format" else
      if negb (is_dict (obj_get bundle "verificationMaterial"))
      then mobile_error "Sigstore verification material is missing" else
      statement ← decode_statement bundle;
      validate_subject statement digest
  | None => mobile_error "mobile release entry has an unapproved image reference"
  end.

(** [scripts/ops/verify_mobile_release_evidence.py:76-85] mobile_main: main *)
Definition mobile_main (entry bundle : fs_path) : result Z :=
  _ ← catch_any (verify entry bundle) [ExcOSError; ExcJSONDecodeError; ExcMobileEvidenceError] (throw ExcSystemExit);
  Ok 0.

(** The statement of a bundle names one subject, with this digest. *)
Definition statement_names (bundle : document) (digest : string) : Prop :=
  ∃ envelope payload bytes text statement s d,
    obj_get bundle "dsseEnvelope" = JObj envelope ∧ obj_get envelope "payload" = JStr payload
    ∧ b64decode payload = Ok bytes ∧ utf8_decode bytes = Ok text ∧ json_loads text = Ok (JObj statement)
    ∧ obj_get statement "_type" = JStr STATEMENT_TYPE ∧ obj_get statement "predicateType" = JStr PREDICATE_TYPE
    ∧ obj_get statement "subject" = JList [JObj s] ∧ obj_get s "digest" = JObj d
    ∧ obj_get d "sha256" = JStr digest.

Lemma decode_statement_Ok bundle statement :
  decode_statement bundle = Ok statement →
  ∃ envelope payload bytes text,
    obj_get bundle "dsseEnvelope" = JObj envelope ∧ obj_get envelope "payload" = JStr payload
    ∧ b64decode payload = Ok bytes ∧ utf8_decode bytes = Ok text ∧ json_loads text = Ok (JObj statement).
Proof.
  unfold decode_statement. intros H.
  destruct (obj_get bundle "dsseEnvelope") as [| | | | | |envelope]; try discriminate.
  destruct (obj_get envelope "payload") as [| | | |payload| |] eqn:Ep; try discriminate.
  apply bind_Ok in H as (v & Hv & H). destruct v as [| | | | | |d]; try discriminate. injection H as ->.
  assert ((decoded ← b64decode payload; text ← utf8_decode decoded; json_loads text) = Ok (JObj statement)) as E.
  { revert Hv. generalize (decoded ← b64decode payload; text ← utf8_decode decoded; json_loads text) as m.
    intros [a|[c msg|s d h]]; cbn; [done| |done]. by destruct (_ || _). }
  apply bind_Ok in E as (bytes & Hb & E). apply bind_Ok in E as (text & Ht & E).
  by exists envelope, payload, bytes, text.
Qed.

Lemma validate_subject_Ok statement digest u :
  validate_subject statement digest = Ok u →
  obj_get statement "_type" = JStr STATEMENT_TYPE ∧ obj_get statement "predicateType" = JStr PREDICATE_TYPE
  ∧ ∃ s d, obj_get statement "subject" = JList [JObj s] ∧ obj_get s "digest" = JObj d
           ∧ obj_get d "sha256" = JStr digest.
Proof.
  unfold validate_subject. intros H.
  case_if_in H; [discriminate|]. apply negb_false_iff, py_eq_str in Heqb.
  case_if_in H; [discriminate|]. apply negb_false_iff, py_eq_str in Heqb0.
  split; [done|]. split; [done|].
  destruct (obj_get statement "subject") as [| | | | |[|subject [|]]|]; try discriminate.
  destruct subject as [| | | | | |s]; try discriminate.
  destruct (obj_get s "digest") as [| | | | | |d] eqn:Ed; try discriminate.
  destruct (py_eq _ _) eqn:E; [|discriminate]. apply py_eq_str in E. by exists s, d.
Qed.

(** Accepted mobile evidence binds the release to its bundle: the entry is a
    distributable mobile-publisher image pinned to a digest, and the in-toto
    statement signed in the bundle names exactly one subject, that digest. *)
Theorem mobile_evidence_binds entry_path bundle_path :
  mobile_main entry_path bundle_path = Ok 0 →
  ∃ entry bundle image digest,
    load_object entry_path = Ok entry ∧ load_object bundle_path = Ok bundle
    ∧ obj_get entry "service" = JStr "mobile-publisher" ∧ obj_get entry "image" = JStr image
    ∧ obj_get entry "licenseReleaseAllowed" = JBool true
    ∧ image = "ghcr.io/gcs-saker/gcs-mobile-publisher@sha256:" +:+ digest ∧ lower_hex 64 digest = true
    ∧ statement_names bundle digest.
Proof.
  unfold mobile_main. intros H. apply bind_Ok in H as (u & H & _).
  assert (verify entry_path bundle_path = Ok u) as Hv.
  { destruct (verify entry_path bundle_path) as [|[c msg|]]; cbn in H; [done| |done].
    by destruct (_ || _) in H. }
  clear H. unfold verify in Hv. apply bind_Ok in Hv as (entry & He & H).
  destruct (obj_get entry "image") as [| | | |image| |] eqn:Ei; try discriminate.
  destruct (mobile_image_digest image) as [digest|] eqn:Ed; [|discriminate].
  case_if_in H; [discriminate|]. apply negb_false_iff, py_eq_str in Heqb.
  case_if_in H; [discriminate|]. apply negb_false_iff in Heqb0.
  apply bind_Ok in H as (bundle & Hb & H). case_if_in H; [discriminate|]. case_if_in H; [discriminate|].
  apply bind_Ok in H as (statement & Hs & H).
  apply decode_statement_Ok in Hs as (envelope & payload & bytes & text & ? & ? & ? & ? & ?).
  apply validate_subject_Ok in H as (? & ? & s & d & ? & ? & ?).
  exists entry, bundle, image, digest. split; [done|]. split; [done|]. split; [done|]. split; [done|].
  split; [by destruct (obj_get entry "licenseReleaseAllowed") as [|[]| | | | |]|].
  unfold mobile_image_digest in Ed. set (prefix := "ghcr.io/gcs-saker/gcs-mobile-publisher@sha256:") in *.
  destruct (startswith prefix image) eqn:Hp; [|discriminate]. apply startswith_spec in Hp as [r ->].
  rewrite removeprefix_app in Ed. destruct (lower_hex 64 r) eqn:Hh; [|discriminate]. injection Ed as <-.
  split; [done|]. split; [done|].
  by exists envelope, payload, bytes, text, statement, s, d.
Qed.
End mobile.

(** ** Instances *)

Definition zeros (n : nat) : string := Nat.iter n (String "0") "".

Definition sample_image (service : string) : jval :=
  JObj [("service", JStr service);
        ("image", JStr ("ghcr.io/gcs-saker/" +:+ default "" (IMAGE_NAMES service) +:+ "@sha256:" +:+ zeros 64));
        ("sbomSha256", JStr (zeros 64)); ("licenseReportSha256", JStr (zeros 64));
        ("noticesSha256", JStr (zeros 64)); ("licenseReleaseAllowed", JBool true)].

Definition sample_inventory : document :=
  [("components", JList (replicate 3 (JObj [("image", JStr "a@sha256:b"); ("projectLicenses", JStr "MIT");
                                            ("licenseSource", JStr "file")])))].

Definition sample_manifest : document := [
  ("schemaVersion", JStr "gcs-saker.signed-release.v3"); ("sourceCommit", JStr (zeros 40));
  ("images", JList (map sample_image SERVICES));
  ("runtimeInventory", JObj sample_inventory); ("runtimeInventorySha256", JStr (zeros 64))].

Definition sample_files : files := {|
  fs_is_file := λ _, Ok true; fs_is_dir := λ _, Ok true; fs_size := λ _, Ok 7; fs_mode := λ _, Ok 384;
  fs_read := λ p, Ok (utf8_encode (path_name p)) |}.

Lemma manifest_covers_services_witness :
  ∃ inventory, validate_manifest sample_files (λ _, Ok (JObj sample_inventory)) (λ _, zeros 64) (λ _, "")
      (λ _, None) (parse_path "/app") 0 sample_manifest (zeros 40) = Ok inventory
    ∧ inventory.*1 ≡ₚ SERVICES.
Proof.
  destruct (validate_manifest sample_files (λ _, Ok (JObj sample_inventory)) (λ _, zeros 64) (λ _, "")
      (λ _, None) (parse_path "/app") 0 sample_manifest (zeros 40)) as [inventory|] eqn:E;
    [|vm_compute in E; discriminate].
  exists inventory. split; [done|].
  destruct (manifest_covers_services _ _ _ _ _ _ _ _ _ _ E) as (_ & _ & images & _ & _ & Hp & _). exact Hp.
Defined.

Definition sample_entry (service scope : string) : entry_arguments := {|
  e_service := service; e_image := "ghcr.io/gcs-saker/" +:+ default "" (IMAGE_NAMES service);
  e_digest := "sha256:" +:+ zeros 64; e_sbom := parse_path "/r/sbom"; e_license_report := parse_path "/r/license";
  e_notices := parse_path "/r/notices"; e_license_scope := scope; e_output := parse_path "/r/entry.json" |}.

Definition sample_report (_ : string) : result jval :=
  Ok (JObj [("releaseAllowed", JBool true); ("internalDeploymentAllowed", JBool true)]).

(** Both scopes of the mobile publisher are written; one is refused. *)
Lemma created_entry_accepted_witness :
  (∃ e, create_entry sample_files sample_report (λ _, zeros 64) (sample_entry "mobile-publisher" "internal-service")
          = Ok e ∧ validate_entry (λ _, "") (JObj e) ≠ Ok ())
  ∧ ∃ e, create_entry sample_files sample_report (λ _, zeros 64) (sample_entry "mqtt" "internal-service")
          = Ok e ∧ validate_entry (λ _, "") (JObj e) = Ok ().
Proof.
  assert (∀ bytes : list byte, lower_hex 64 ((λ _, zeros 64) bytes) = true) as Hsha by (intros; vm_compute; reflexivity).
  assert (∀ scope, scope = "internal-service" → scope ∈ ["distribution"; "internal-service"]) as Hscope
    by (intros scope ->; right; left).
  split.
  - destruct (create_entry sample_files sample_report (λ _, zeros 64)
      (sample_entry "mobile-publisher" "internal-service")) as [e|] eqn:E; [|vm_compute in E; discriminate].
    assert (e_service (sample_entry "mobile-publisher" "internal-service") ∈ SERVICES) as Hs
      by (apply (bool_decide_unpack _); vm_compute; exact I).
    pose proof (created_entry_accepted _ _ _ (λ _, "") _ _ Hsha Hs (Hscope _ eq_refl) E) as Hiff.
    exists e. split; [done|]. intros Hv. apply Hiff in Hv. apply Hv. by split.
  - destruct (create_entry sample_files sample_report (λ _, zeros 64)
      (sample_entry "mqtt" "internal-service")) as [e|] eqn:E; [|vm_compute in E; discriminate].
    assert (e_service (sample_entry "mqtt" "internal-service") ∈ SERVICES) as Hs
      by (apply (bool_decide_unpack _); vm_compute; exact I).
    pose proof (created_entry_accepted _ _ _ (λ _, "") _ _ Hsha Hs (Hscope _ eq_refl) E) as Hiff.
    exists e. split; [done|]. apply Hiff. by intros [_ [=]].
Defined.

Definition sample_bundle_loads (text : string) : result jval :=
  Ok (if String.eqb text "entry" then sample_image "mobile-publisher"
      else if String.eqb text "bundle" then
        JObj [("mediaType", JStr BUNDLE_MEDIA_TYPE); ("verificationMaterial", JObj []);
              ("dsseEnvelope", JObj [("payload", JStr "statement")])]
      else JObj [("_type", JStr STATEMENT_TYPE); ("predicateType", JStr PREDICATE_TYPE);
                 ("subject", JList [JObj [("digest", JObj [("sha256", JStr (zeros 64))])]])]).

Lemma mobile_evidence_binds_witness :
  ∃ bundle digest, statement_names sample_bundle_loads (λ s, Ok (utf8_encode s)) bundle digest
    ∧ lower_hex 64 digest = true.
Proof.
  assert (mobile_main sample_files sample_bundle_loads (λ s, Ok (utf8_encode s)) (parse_path "/r/entry")
    (parse_path "/r/bundle") = Ok 0) as E by (vm_compute; reflexivity).
  destruct (mobile_evidence_binds _ _ _ _ _ E) as (e & b & i & d & _ & _ & _ & _ & _ & _ & Hh & Hs).
  by exists b, d.
Defined.
