(* ===== verification/ReleaseGate.v ===== *)
(** The release gate and the drift report: [scripts/ops/release_gate.py],
    [scripts/ops/release_drift_report.py] and
    [scripts/ops/generate_admin_mfa_material.py].

    The commands the gate runs only read ([exec] gives exit status, output and
    error text); files are read through [files].  SHA-256, random bytes, the JSON
    codec, [repr], the upper case of non-ASCII text and the search of the
    migration directories are parameters.  Base32 and CRC-32 are modelled. *)

From stdpp Require Import base list strings sorting.
From Stdlib Require Import ZArith Lia Ascii Strings.Byte.
From S2P Require Import Prelude PyStr PyStrFacts PyFloat PyTime PyTimeParse PyJson PyText Host.

#[local] Open Scope Z_scope.

Definition runtime_error {A} (msg : string) : result A := throw ExcRuntimeError msg.

(** ** Base32 *)

Definition b32_value (c : ascii) : option Z :=
  let z := code c in
  if (65 <=? z) && (z <=? 90) then Some (z - 65)
  else if (50 <=? z) && (z <=? 55) then Some (z - 24) else None.

Definition b32_digit (v : Z) : ascii := ascii_of_N (Z.to_N (if v <? 26 then v + 65 else v + 24)).

(** Big-endian digits of a base. *)
Definition be_value (base : Z) (digits : list Z) : Z := foldl (λ acc d, acc * base + d) 0 digits.

Fixpoint be_digits (n : nat) (base z : Z) : list Z :=
  match n with O => [] | S n' => be_digits n' base (z / base) ++ [z mod base] end.

(** Consecutive groups of at most [k]; the length is enough fuel for [0 < k]. *)
Fixpoint chunks_fuel {A} (fuel k : nat) (l : list A) : list (list A) :=
  match fuel, l with
  | O, _ | _, [] => []
  | S fuel', _ => take k l :: chunks_fuel fuel' k (drop k l)
  end.
Definition chunks {A} (k : nat) (l : list A) : list (list A) := chunks_fuel (length l) k l.

Definition b32_error {A} (msg : string) : result A := value_error msg.

(** [base64.b32decode(s, casefold=True)] of an ASCII text already in upper case;
    bytes are numbers below 256. *)
Definition b32decode (s : string) : result (list Z) :=
  if negb (forall_chars is_ascii s) then value_error "string argument should contain only ASCII characters" else
  let l := String.length s in
  if negb (Nat.eqb (l mod 8) 0) then b32_error "Incorrect padding" else
  let body := rstrip_char "=" s in
  let padchars := (l - String.length body)%nat in
  digits ← mapM (λ c, match b32_value c with Some v => Ok v | None => b32_error "Non-base32 digit found" end)
             (String.list_ascii_of_string body);
  let quanta := chunks 8 digits in
  let decoded := concat (map (λ q, be_digits 5 256 (be_value 32 q)) quanta) in
  if negb (bool_decide (padchars ∈ [0; 1; 3; 4; 6]%nat)) then b32_error "Incorrect padding" else
  match padchars, last quanta with
  | S _, Some q =>
      let last5 := be_digits 5 256 (Z.shiftl (be_value 32 q) (5 * Z.of_nat padchars)) in
      let leftover := ((43 - 5 * padchars) / 8)%nat in
      Ok (take (length decoded - 5) decoded ++ take leftover last5)
  | _, _ => Ok decoded
  end.

(** [base64.b32encode(bytes)]: zeros complete the last group, and the digits
    beyond its data are written as padding. *)
Definition b32encode (bytes : list Z) : string :=
  let leftover := (length bytes mod 5)%nat in
  let padded := if Nat.eqb leftover 0 then bytes else bytes ++ replicate (5 - leftover) 0 in
  let digits := concat (map (λ q, be_digits 8 32 (be_value 256 q)) (chunks 5 padded)) in
  let padchars := match leftover with 1 => 6 | 2 => 4 | 3 => 3 | 4 => 1 | _ => 0 end%nat in
  String.string_of_list_ascii
    (take (length digits - padchars) (b32_digit <$> digits) ++ replicate padchars "="%char).

Example b32_known : b32encode [102; 111; 111; 98; 97; 114] = "MZXW6YTBOI======".
Proof. reflexivity. Qed.

Example b32_known_back : b32decode "MZXW6YTBOI======" = Ok [102; 111; 111; 98; 97; 114].
Proof. reflexivity. Qed.

(** ** The second factor of the administrator *)

(** [scripts/ops/release_gate.py:44-44] MINIMUM_MFA_SECRET_BYTES *)
Definition MINIMUM_MFA_SECRET_BYTES : nat := 20.

(** [s.upper()] *)
Definition upper (unicode_upper : string → string) (s : string) : string :=
  if forall_chars is_ascii s then map_chars upper_ascii s else unicode_upper s.

(** [scripts/ops/release_gate.py:123-130] validate_admin_mfa_secret *)
Definition validate_admin_mfa_secret (unicode_upper : string → string) (encoded : string) : result () :=
  let padding := Nat.iter ((8 - str_len encoded mod 8) mod 8) (String "=") "" in
  decoded ← catch_any (b32decode (upper unicode_upper encoded +:+ padding)) [ExcValueError]
              (λ _, runtime_error "AUTH_POLICY_ADMIN_MFA_SECRET must be valid Base32");
  if Nat.ltb (length decoded) MINIMUM_MFA_SECRET_BYTES
  then runtime_error "AUTH_POLICY_ADMIN_MFA_SECRET must contain at least 160 bits" else Ok ().

(** [scripts/ops/generate_admin_mfa_material.py:17-19] recovery_code

    [value] is [secrets.token_hex(8)]. *)
Definition recovery_code (value : string) : string :=
  let value := map_chars upper_ascii value in
  join "-" [string_take 4 value; string_take 4 (string_drop 4 value); string_take 4 (string_drop 8 value);
            string_drop 12 value].

(** [scripts/ops/generate_admin_mfa_material.py:32-32] new_secret *)
Definition new_secret (token : list Z) : string := rstrip_char "=" (b32encode token).

(** Whether [root] is [path] or one of its parents. *)
Definition inside (root path : fs_path) : bool :=
  Bool.eqb (p_absolute root) (p_absolute path)
  && bool_decide (take (length (p_parts root)) (p_parts path) = p_parts root).

(** [scripts/ops/generate_admin_mfa_material.py:22-46] generate_mfa: main

    [output] is the resolved path; the file is opened with [O_CREAT | O_EXCL] and
    mode 0600.  The result is the file written, its mode and its document. *)
Definition generate_mfa (sha256_hex : list byte → string) (root output : fs_path) (account : string)
    (exists_ created : result bool) (token : list Z) (hex_tokens : list string) :
    result (fs_path * Z * jval) :=
  if inside root output
  then throw ExcSystemExit "MFA material must be written outside the repository" else
  present ← exists_;
  if present : bool then throw ExcSystemExit "refusing to overwrite existing MFA material" else
  let secret := new_secret token in
  let codes := map recovery_code (take 10 hex_tokens) in
  fresh ← created;
  if negb fresh then throw ExcOSError "File exists" else
  Ok (output, 384,
      JObj [("account", JStr account); ("totpSecretBase32", JStr secret);
            ("recoveryCodes", JList (map JStr codes));
            ("recoveryCodeSha256", JList (map (λ c, JStr (sha256_hex (utf8_encode c))) codes))]).

(** ** TURN relay ranges *)

(** [scripts/ops/release_gate.py:166-177] range_sizes *)
Definition range_sizes (first_min first_max second_min second_max : Z) : result (Z * Z) :=
  let first := first_max - first_min + 1 in
  let second := second_max - second_min + 1 in
  if (first <=? 0) || (second <=? 0) || negb (second_min =? first_max + 1)
  then runtime_error "TURN relay ranges must be positive and contiguous" else Ok (first, second).

Definition TURN_NAMES : list string := [
  "TURN_RELAY_MIN_PORT"; "TURN_PRIMARY_RELAY_MAX_PORT"; "TURN_SECONDARY_RELAY_MIN_PORT"; "TURN_RELAY_MAX_PORT";
  "TURN_PRIMARY_RELAY_HOST_MIN_PORT"; "TURN_PRIMARY_RELAY_HOST_MAX_PORT";
  "TURN_SECONDARY_RELAY_HOST_MIN_PORT"; "TURN_SECONDARY_RELAY_HOST_MAX_PORT"].

Definition env_map : Type := list (string * string).

(** [scripts/ops/release_gate.py:133-163] validate_turn_ranges *)
Definition validate_turn_ranges (int_other : string → option Z) (values : env_map) : result () :=
  ports ← catch_any
            (mapM (λ name, match dict_get values name with
                           | Some text => py_int int_other text
                           | None => throw ExcKeyError name
                           end) TURN_NAMES)
            [ExcKeyError; ExcValueError]
            (λ _, runtime_error "TURN relay ranges must be explicit integer values");
  match ports with
  | [i1; i2; i3; i4; e1; e2; e3; e4] =>
      internal ← range_sizes i1 i2 i3 i4;
      external ← range_sizes e1 e2 e3 e4;
      if bool_decide (internal = external) then Ok ()
      else runtime_error "TURN internal and published relay range sizes must match"
  | _ => throw ExcKeyError ""
  end.

(** ** The gate *)

Definition RETIRED_PUBLIC_HOSTS : list string := ["a4ai.tplinkdns.com"; "a4ai.121-159-26-245.sslip.io"].

(** [scripts/ops/release_gate.py:26-38] PUBLIC_ENDPOINT_ENV_KEYS *)
Definition PUBLIC_ENDPOINT_ENV_KEYS : list string := [
  "MEDIA_CONTROL_EXPECTED_PUBLIC_ORIGIN"; "MEDIA_CONTROL_PUBLIC_HLS_BASE_URL";
  "MEDIA_CONTROL_PUBLIC_WEBRTC_BASE_URL"; "MEDIA_CONTROL_STUN_URL"; "MEDIA_CONTROL_TURN_PRIMARY_URL";
  "MEDIAMTX_PUBLIC_HLS_BASE_URL"; "MEDIAMTX_PUBLIC_WEBRTC_BASE_URL"; "MEDIAMTX_WEBRTC_ADDITIONAL_HOSTS";
  "VITE_DEV_PROXY_TARGET"; "VITE_LOCAL_WEBCAM_WHIP_URL"; "VITE_WEBRTC_STUN_URL"].

(** [scripts/ops/release_gate.py:42-42] IMMUTABLE_IMAGE_REFERENCE *)
Definition IMMUTABLE_IMAGE_REFERENCE (s : string) : bool :=
  let n := (String.length s - 72)%nat in
  let name := string_take n s in
  startswith "@sha256:" (string_drop n s) && lower_hex 64 (string_drop 8 (string_drop n s))
  && truthy name && negb (has_space name).

(** [scripts/ops/release_gate.py:43-43] PLACEHOLDER_IMAGE_DIGEST *)
Definition PLACEHOLDER_IMAGE_DIGEST : string := Nat.iter 64 (String "0") "".

(** [scripts/ops/release_gate.py:39-41] APPLICATION_IMAGE_REFERENCE *)
Definition APPLICATION_IMAGE_REFERENCE (s : string) : bool :=
  existsb (λ service,
    let prefix := "ghcr.io/gcs-saker/gcs-saker-" +:+ service +:+ "@sha256:" in
    startswith prefix s && lower_hex 64 (removeprefix prefix s))
    ["backend"; "auth-policy"; "media-control"; "dashboard"].

(** One migration of the inventory. *)
Record migration : Type := mkMigration { m_path : string; m_sha256 : string; m_flywayChecksum : Z }.

Definition migration_json (m : migration) : jval :=
  JObj [("path", JStr (m_path m)); ("sha256", JStr (m_sha256 m)); ("flywayChecksum", JInt (m_flywayChecksum m))].

(** The text before the first occurrence of [sep]. *)
Fixpoint before (sep s : string) : string :=
  if startswith sep s then "" else
  match s with "" => "" | String c s' => String c (before sep s') end.

(** Paths are compared by their parts. *)
Fixpoint parts_leb (a b : list string) : bool :=
  match a, b with
  | [], _ => true
  | _, [] => false
  | x :: a', y :: b' => if String.eqb x y then parts_leb a' b' else String.leb x y
  end.
Definition path_le (a b : fs_path) : Prop := parts_leb (p_parts a) (p_parts b) = true.
#[export] Instance path_le_dec : RelDecision path_le.
Proof. intros a b. unfold path_le. apply _. Defined.

(** The command line of the gate, with its paths resolved. *)
Record gate_arguments : Type := mkGateArguments {
  g_env_file : fs_path;
  g_mqtt_password_file : fs_path;
  g_output : option fs_path;
  g_allow_dirty : bool;
  g_applied_flyway_tsv : option fs_path
}.

Section gate.
Context (fs : files) (exec : list string → result (Z * string * string)) (os_nt : bool)
  (getenv : string → option string).
Context (sha256_hex : list byte → string) (unicode_upper : string → string) (int_other : string → option Z)
  (glob_migrations : fs_path → list fs_path) (ROOT : fs_path).

Definition COMPOSE : fs_path := path_div ROOT "deploy/compose/compose.single-node.poc.yml".

(** [scripts/ops/release_gate.py:21-24] MIGRATION_ROOTS *)
Definition MIGRATION_ROOTS : list fs_path := [
  path_div ROOT "services/auth-policy/src/main/resources/db/migration";
  path_div ROOT "services/auth-policy/src/main/resources/db/postgresql-migration"].

(** [scripts/ops/release_gate.py:47-60] run *)
Definition run (args : list string) (secret_output : bool) : result string :=
  '(returncode, stdout, stderr) ← exec args;
  if negb (returncode =? 0) then
    let message := if secret_output then "command failed"
                   else if truthy (strip stderr) then strip stderr else strip stdout in
    runtime_error (default "" (head args) +:+ ": " +:+ message)
  else Ok (strip stdout).

(** [scripts/ops/release_gate.py:63-68] sha256 *)
Definition sha256 (path : fs_path) : result string := sha256_hex <$> fs_read fs path.

(** [scripts/ops/release_gate.py:71-92] require_private_file *)
Definition require_private_file (path : fs_path) (allowed_read_uid : option string) : result () :=
  missing ← or_r (not_r (fs_is_file fs path)) (size ← fs_size fs path; Ok (size =? 0));
  if missing : bool then runtime_error ("required non-empty file is missing: " +:+ path_str path) else
  private ← or_r (Ok os_nt) (mode ← fs_mode fs path; Ok (Z.land mode 63 =? 0));
  if private : bool then Ok () else
  match allowed_read_uid with
  | None => runtime_error ("secret file must not be group/world accessible: " +:+ path_str path)
  | Some uid =>
      listing ← run ["getfacl"; "--absolute-names"; "--omit-header"; path_str path] false;
      let acl_entries := filter (λ line, line ≠ "") (map strip (splitlines listing)) in
      let expected_acl := ["user::rw-"; "user:" +:+ uid +:+ ":r--"; "group::---"; "mask::r--"; "other::---"] in
      if forallb (λ e, bool_decide (e ∈ expected_acl)) acl_entries
         && forallb (λ e, bool_decide (e ∈ acl_entries)) expected_acl
      then Ok ()
      else runtime_error ("secret file ACL grants access beyond owner and runtime uid " +:+ uid +:+ ": "
                          +:+ path_str path)
  end.

(** [scripts/ops/release_gate.py:103-111] read_environment *)
Definition read_environment (path : fs_path) : result env_map :=
  text ← fs_text fs path;
  Ok (foldl (λ values line,
        let stripped := strip line in
        if is_empty stripped || startswith "#" stripped then values else
        match split_once "=" stripped with
        | (key, Some value) => dict_set values (strip key) (strip value)
        | (_, None) => values
        end) [] (splitlines text)).

(** [scripts/ops/release_gate.py:95-100] validate_public_endpoint_environment *)
Definition validate_public_endpoint_environment (path : fs_path) : result () :=
  values ← read_environment path;
  for_in (λ _ kv,
    if negb (bool_decide (kv.1 ∈ PUBLIC_ENDPOINT_ENV_KEYS)) then Ok () else
    if existsb (λ host, contains host kv.2) RETIRED_PUBLIC_HOSTS
    then runtime_error (kv.1 +:+ " references a retired production hostname") else Ok ()) () values.

(** [scripts/ops/release_gate.py:114-120] validate_runtime_environment *)
Definition validate_runtime_environment (path : fs_path) : result () :=
  values ← read_environment path;
  _ ← validate_admin_mfa_secret unicode_upper (default "" (dict_get values "AUTH_POLICY_ADMIN_MFA_SECRET"));
  let mobile_image := default "" (dict_get values "MOBILE_PUBLISHER_IMAGE") in
  if negb (IMMUTABLE_IMAGE_REFERENCE mobile_image) || endswith PLACEHOLDER_IMAGE_DIGEST mobile_image
  then runtime_error "MOBILE_PUBLISHER_IMAGE must use an immutable sha256 digest" else
  validate_turn_ranges int_other values.

(** [path.read_text(encoding="utf-8-sig")] *)
Definition text_sig (path : fs_path) : result string :=
  text ← fs_text fs path;
  Ok (removeprefix (String "239" (String "187" (String "191" ""))) text).

(** [scripts/ops/release_gate.py:186-197] migration_item: one item of migration_inventory *)
Definition migration_item (path : fs_path) : result migration :=
  text ← text_sig path;
  let flyway_bytes := utf8_encode (join "" (splitlines text)) in
  let checksum := crc32 flyway_bytes in
  let checksum := if 2 ^ 31 <=? checksum then checksum - 2 ^ 32 else checksum in
  hash ← sha256 path;
  if inside ROOT path then
    Ok (mkMigration (path_str (mkPath false (drop (length (p_parts ROOT)) (p_parts path)))) hash checksum)
  else value_error "path is not in the subpath".

(** [scripts/ops/release_gate.py:180-198] migration_inventory *)
Definition migration_inventory : result (list migration) :=
  let files := merge_sort path_le (concat (map glob_migrations MIGRATION_ROOTS)) in
  match files with
  | [] => runtime_error "no Flyway migrations found"
  | _ => mapM migration_item files
  end.

(** The version a migration's file name carries. *)
Definition migration_version (m : migration) : string :=
  string_drop 1 (before "__" (path_name (parse_path (m_path m)))).

(** [scripts/ops/release_gate.py:202-205] applied_row: a line of the applied history *)
Definition applied_row (line : string) : result (string * option Z) :=
  match split_once "|" line with
  | (version, Some checksum) =>
      if is_empty checksum then Ok (version, None)
      else n ← py_int int_other checksum; Ok (version, Some n)
  | (_, None) => value_error "not enough values to unpack"
  end.

(** [scripts/ops/release_gate.py:207-213] check_applied: the loop of validate_applied_migrations *)
Definition check_applied (source_by_version : list (string * migration)) (row : string * option Z) : result () :=
  match dict_get source_by_version row.1 with
  | None => runtime_error ("applied Flyway migration V" +:+ row.1 +:+ " is absent from checkout")
  | Some source =>
      match row.2 with
      | Some checksum =>
          if negb (checksum =? m_flywayChecksum source)
          then runtime_error ("Flyway checksum drift detected for V" +:+ row.1) else Ok ()
      | None => Ok ()
      end
  end.

(** [scripts/ops/release_gate.py:201-213] validate_applied_migrations *)
Definition validate_applied_migrations (applied_path : fs_path) (inventory : list migration) : result () :=
  text ← fs_text fs applied_path;
  applied ← mapM applied_row (splitlines text);
  let source_by_version := foldl (λ d m, dict_set d (migration_version m) m) [] inventory in
  for_in (λ _ row, check_applied source_by_version row) () applied.

(** [scripts/ops/release_gate.py:216-232] application_image_inventory *)
Definition application_image_inventory : result env_map :=
  for_in (λ images sv,
    let '(service, variable) := sv in
    let reference := default "" (getenv variable) in
    if is_empty reference then runtime_error (variable +:+ " must identify the release image") else
    let expected_prefix := "ghcr.io/gcs-saker/gcs-saker-" +:+ service +:+ "@sha256:" in
    if negb (APPLICATION_IMAGE_REFERENCE reference) || negb (startswith expected_prefix reference)
    then runtime_error (variable +:+ " must use a verified digest")
    else Ok (dict_set images service reference))
    [] [("backend", "BACKEND_IMAGE"); ("auth-policy", "AUTH_POLICY_IMAGE");
        ("media-control", "MEDIA_CONTROL_IMAGE"); ("dashboard", "DASHBOARD_IMAGE")].

(** [scripts/ops/release_gate.py:235-285] main

    The manifest, and the file it is written to besides standard output. *)
Definition main (now : datetime) (args : gate_arguments) : result (jval * option fs_path) :=
  _ ← require_private_file (g_env_file args) None;
  _ ← require_private_file (g_mqtt_password_file args) (Some (default "1883" (getenv "MOSQUITTO_RUNTIME_UID")));
  _ ← validate_public_endpoint_environment (g_env_file args);
  _ ← validate_runtime_environment (g_env_file args);
  status ← run ["git"; "status"; "--porcelain"] false;
  if truthy status && negb (g_allow_dirty args)
  then runtime_error "release checkout is dirty; commit the source before deployment" else
  commit ← run ["git"; "rev-parse"; "HEAD"] false;
  branch ← run ["git"; "branch"; "--show-current"] false;
  compose_rendered ← run ["docker"; "compose"; "--env-file"; path_str (g_env_file args); "-f"; path_str COMPOSE;
                          "config"] true;
  migrations ← migration_inventory;
  _ ← match g_applied_flyway_tsv args with
      | Some tsv => validate_applied_migrations tsv migrations
      | None => Ok ()
      end;
  source_compose ← sha256 COMPOSE;
  environment ← sha256 (g_env_file args);
  mqtt ← sha256 (g_mqtt_password_file args);
  images ← application_image_inventory;
  Ok (JObj [("schemaVersion", JInt 1); ("createdAt", JStr (isoformat now)); ("commit", JStr commit);
            ("branch", JStr branch); ("composeSha256", JStr (sha256_hex (utf8_encode compose_rendered)));
            ("sourceComposeSha256", JStr source_compose); ("environmentSha256", JStr environment);
            ("mqttPasswordFileSha256", JStr mqtt);
            ("applicationImages", JObj (map (λ kv, (kv.1, JStr kv.2)) images));
            ("flywayMigrations", JList (map migration_json migrations))],
      g_output args).
End gate.

(** ** The drift report *)

(** [scripts/ops/release_drift_report.py:11-17] COMPARABLE_FIELDS *)
Definition COMPARABLE_FIELDS : list string := [
  "commit"; "composeSha256"; "sourceComposeSha256"; "environmentSha256"; "mqttPasswordFileSha256"].

Definition document : Type := list (string * jval).

(** [scripts/ops/release_drift_report.py:20-24] load_manifest *)
Definition load_manifest (fs : files) (json_loads : string → result jval) (path : fs_path) : result document :=
  text ← fs_text fs path;
  value ← json_loads text;
  match value with
  | JObj d => if py_eq (obj_get d "schemaVersion") (JInt 1) then Ok d
              else value_error ("unsupported release manifest: " +:+ path_str path)
  | _ => value_error ("unsupported release manifest: " +:+ path_str path)
  end.

(** The migrations that differ. *)
Record migration_drift : Type := mkDrift {
  leftOnly : list string; rightOnly : list string; checksumMismatch : list string }.

Inductive difference : Type :=
  | FieldDiffers (field : string) (left right : jval)
  | MigrationsDiffer (d : migration_drift).

Definition difference_json (d : difference) : jval :=
  let strings l := JList (map JStr l) in
  match d with
  | FieldDiffers field l r => JObj [("field", JStr field); ("left", l); ("right", r)]
  | MigrationsDiffer m =>
      JObj [("field", JStr "flywayMigrations"); ("leftOnly", strings (leftOnly m));
            ("rightOnly", strings (rightOnly m)); ("checksumMismatch", strings (checksumMismatch m))]
  end.

(** [d == e] for dicts of strings. *)
Definition dict_equal (d e : env_map) : bool :=
  Nat.eqb (length d) (length e) && forallb (λ kv, bool_decide (dict_get e kv.1 = Some kv.2)) d.

Section drift.
Context (py_repr : jval → string).

(** [scripts/ops/release_drift_report.py:27-35] migration_map *)
Definition migration_map (manifest : document) : result env_map :=
  match obj_get manifest "flywayMigrations" with
  | JList migrations =>
      Ok (foldl (λ d item,
            match item with
            | JObj i =>
                match dict_get i "path", dict_get i "sha256" with
                | Some path, Some hash => dict_set d (py_str py_repr path) (py_str py_repr hash)
                | _, _ => d
                end
            | _ => d
            end) [] migrations)
  | _ => value_error "flywayMigrations must be an array"
  end.

(** [scripts/ops/release_drift_report.py:38-59] compare *)
Definition compare (left right : document) : result (list difference) :=
  let fields := filter (λ field, py_eq (obj_get left field) (obj_get right field) = false) COMPARABLE_FIELDS in
  let differences := map (λ field, FieldDiffers field (obj_get left field) (obj_get right field)) fields in
  left_migrations ← migration_map left;
  right_migrations ← migration_map right;
  if dict_equal left_migrations right_migrations then Ok differences else
  let only d e := py_sorted (filter (λ k, k ∉ dict_keys e) (dict_keys d)) in
  let mismatch := py_sorted (filter (λ path, path ∈ dict_keys right_migrations
                                       ∧ dict_get left_migrations path ≠ dict_get right_migrations path)
                               (dict_keys left_migrations)) in
  Ok (differences ++ [MigrationsDiffer {| leftOnly := only left_migrations right_migrations;
                                          rightOnly := only right_migrations left_migrations;
                                          checksumMismatch := mismatch |}]).

(** [scripts/ops/release_drift_report.py:62-84] drift_main: main

    The exit status and the report printed. *)
Definition drift_main (left right : result document) (left_name right_name : string) : result (Z * jval) :=
  l ← left;
  r ← right;
  differences ← compare l r;
  Ok (match differences with [] => 0 | _ => 1 end,
      JObj [("schemaVersion", JInt 1); ("left", JStr left_name); ("right", JStr right_name);
            ("inSync", JBool (match differences with [] => true | _ => false end));
            ("differences", JList (map difference_json differences))]).
End drift.

(** ** Drift *)

Lemma dict_equal_spec d e : dict_wf d → dict_wf e →
  dict_equal d e = true ↔ ∀ k, dict_get d k = dict_get e k.
Proof.
  intros Hd He. unfold dict_equal. rewrite andb_true_iff, Nat.eqb_eq, forallb_forall. split.
  - intros [Hlen Hall].
    assert (∀ k v, dict_get d k = Some v → dict_get e k = Some v) as Hsub.
    { intros k v Hk. apply dict_get_elem, list_elem_of_In in Hk.
      specialize (Hall _ Hk). by apply bool_decide_eq_true_1 in Hall. }
    assert (dict_keys d ≡ₚ dict_keys e) as Hp.
    { apply submseteq_length_Permutation; [|unfold dict_keys; rewrite !length_fmap; lia].
      apply NoDup_submseteq; [done|]. intros k Hk.
      destruct (dict_get d k) as [v|] eqn:E; [|by apply dict_get_None in E].
      by eapply dict_get_Some_key, Hsub. }
    intros k. destruct (dict_get d k) as [v|] eqn:E; [by rewrite (Hsub k v)|].
    symmetry. apply dict_get_None. rewrite <-Hp. by apply dict_get_None.
  - intros Hall. split.
    + assert (dict_keys d ≡ₚ dict_keys e) as Hp.
      { apply NoDup_Permutation; [done|done|]. intros k.
        destruct (decide (k ∈ dict_keys d)) as [|Hn], (decide (k ∈ dict_keys e)) as [|Hn']; try done.
        - apply dict_get_None in Hn'. rewrite <-Hall in Hn'. by apply dict_get_None in Hn'.
        - apply dict_get_None in Hn. rewrite Hall in Hn. by apply dict_get_None in Hn. }
      apply Permutation_length in Hp. unfold dict_keys in Hp. by rewrite !length_fmap in Hp.
    + intros [k v] Hin%list_elem_of_In. apply bool_decide_eq_true_2. cbn.
      rewrite <-Hall. by apply dict_elem_get.
Qed.

Section drift_facts.
Context (py_repr : jval → string).

Lemma migration_map_wf manifest d : migration_map py_repr manifest = Ok d → dict_wf d.
Proof.
  unfold migration_map. destruct (obj_get manifest "flywayMigrations") as [| | | | |l|]; try discriminate.
  intros [= <-]. assert (dict_wf (K:=string) (V:=string) []) as H by constructor.
  revert H. generalize (@nil (string * string)) as d0. induction l as [|item l IH]; intros d0 H; cbn; [done|].
  apply IH. destruct item as [| | | | | |i]; try done.
  destruct (dict_get i "path"), (dict_get i "sha256"); auto using dict_set_wf.
Qed.

(** The drift report: two manifests are reported in sync exactly when every
    compared field is equal and every migration path has the same checksum in
    both; otherwise the migrations only on one side and those whose checksums
    differ are listed exactly, and the exit status is 1. *)
Theorem drift_in_sync_iff left right differences left_map right_map :
  migration_map py_repr left = Ok left_map → migration_map py_repr right = Ok right_map →
  compare py_repr left right = Ok differences →
  (differences = []
   ↔ (∀ field, field ∈ COMPARABLE_FIELDS → py_eq (obj_get left field) (obj_get right field) = true)
     ∧ ∀ path, dict_get left_map path = dict_get right_map path)
  ∧ (∀ d, MigrationsDiffer d ∈ differences → ∀ path,
       (path ∈ leftOnly d ↔ path ∈ dict_keys left_map ∧ path ∉ dict_keys right_map)
       ∧ (path ∈ rightOnly d ↔ path ∈ dict_keys right_map ∧ path ∉ dict_keys left_map)
       ∧ (path ∈ checksumMismatch d ↔ ∃ a b, dict_get left_map path = Some a ∧ dict_get right_map path = Some b ∧ a ≠ b))
  ∧ ∀ left_name right_name, ∃ report,
      drift_main py_repr (Ok left) (Ok right) left_name right_name
        = Ok (match differences with [] => 0 | _ => 1 end, report).
Proof.
  intros Hl Hr H. unfold drift_main. cbn [mbind result_bind]. rewrite H.
  split; [|split; [|intros; by eexists]]; unfold compare in H; rewrite Hl, Hr, !bind_Ok_l in H; cbn zeta in H.
  - pose proof (dict_equal_spec left_map right_map (migration_map_wf _ _ Hl) (migration_map_wf _ _ Hr)) as He.
    destruct (dict_equal left_map right_map).
    + injection H as <-. split.
      * intros E%map_eq_nil. split; [|by apply (proj1 He)]. intros field Hf.
        apply not_false_is_true. intros Epy.
        assert (field ∈ filter (λ field, py_eq (obj_get left field) (obj_get right field) = false) COMPARABLE_FIELDS)
          as Hin by (by apply list_elem_of_filter).
        rewrite E in Hin. by apply elem_of_nil in Hin.
      * intros [Hf _]. match goal with |- map _ ?l = [] => assert (l = []) as ->; [|done] end.
        apply elem_of_nil_inv. intros field [Hp Hin]%list_elem_of_filter. by rewrite Hf in Hp.
    + injection H as <-. split.
      * intros E. by apply app_nil in E as [_ [=]].
      * intros [_ Hall]. apply He in Hall. discriminate.
  - intros d Hd path. destruct (dict_equal left_map right_map); injection H as <-.
    { apply list_elem_of_In, in_map_iff in Hd as (f & [=] & _). }
    apply elem_of_app in Hd as [Hd|Hd].
    { apply list_elem_of_In, in_map_iff in Hd as (f & [=] & _). }
    apply list_elem_of_singleton in Hd as [= ->]. cbn. rewrite !elem_of_py_sorted, !list_elem_of_filter.
    split; [tauto|]. split; [tauto|]. split.
    + intros [[Hr' Hne] Hl']. destruct (dict_get left_map path) as [a|] eqn:Ea; [|by apply dict_get_None in Ea].
      destruct (dict_get right_map path) as [b|] eqn:Eb; [|by apply dict_get_None in Eb].
      exists a, b. split; [done|]. split; [done|]. congruence.
    + intros (a & b & Ea & Eb & Hne). rewrite Ea, Eb. split; [|by eapply dict_get_Some_key].
      split; [by eapply dict_get_Some_key|congruence].
Qed.

Lemma dict_equal_refl d : dict_wf d → dict_equal d d = true.
Proof. intros H. by apply dict_equal_spec. Qed.

(** Equal fields and the same migration list are in sync. *)
Lemma compare_same left right d :
  (∀ field, field ∈ COMPARABLE_FIELDS → py_eq (obj_get left field) (obj_get right field) = true) →
  migration_map py_repr left = Ok d → obj_get left "flywayMigrations" = obj_get right "flywayMigrations" →
  compare py_repr left right = Ok [].
Proof.
  intros Hf Hd Hm. assert (migration_map py_repr right = Ok d) as Hd' by (unfold migration_map in *; by rewrite <-Hm).
  unfold compare. rewrite Hd, Hd', !bind_Ok_l, dict_equal_refl by (by eapply migration_map_wf).
  match goal with |- Ok (map _ ?l) = _ => assert (l = []) as ->; [|done] end.
  apply elem_of_nil_inv. intros field [Hp Hin]%list_elem_of_filter. by rewrite Hf in Hp.
Qed.
End drift_facts.

(** ** TURN ranges *)

(** The gate accepts the TURN configuration exactly when all eight ports are
    given as integers, each pair of ranges is non-empty and contiguous, and the
    published ranges have the sizes of the internal ones.  Nothing bounds the
    numbers: a range outside 1..65535 is accepted. *)
Theorem turn_ranges_accepted_iff int_other values :
  validate_turn_ranges int_other values = Ok ()
  ↔ ∃ i1 i2 i3 i4 e1 e2 e3 e4,
      Forall2 (λ name port, ∃ text, dict_get values name = Some text ∧ py_int int_other text = Ok port)
        TURN_NAMES [i1; i2; i3; i4; e1; e2; e3; e4]
      ∧ i1 <= i2 ∧ i3 = i2 + 1 ∧ i3 <= i4 ∧ e1 <= e2 ∧ e3 = e2 + 1 ∧ e3 <= e4
      ∧ e2 - e1 = i2 - i1 ∧ e4 - e3 = i4 - i3.
Proof.
  unfold validate_turn_ranges. set (get := λ name, match dict_get values name with
    | Some text => py_int int_other text | None => throw ExcKeyError name end).
  assert (∀ ports, mapM get TURN_NAMES = Ok ports ↔
    Forall2 (λ name port, ∃ text, dict_get values name = Some text ∧ py_int int_other text = Ok port)
      TURN_NAMES ports) as Hget.
  { assert (∀ name port, get name = Ok port ↔
      ∃ text, dict_get values name = Some text ∧ py_int int_other text = Ok port) as Hone.
    { intros name port. unfold get. destruct (dict_get values name) as [text|].
      - split; [intros; by exists text|by intros (t & [= <-] & ?)].
      - split; [discriminate|by intros (t & [=] & _)]. }
    intros ports. rewrite mapM_Ok. split; intros H; (eapply Forall2_impl; [exact H|]); intros; by apply Hone. }
  assert (∀ a b c d r, range_sizes a b c d = Ok r ↔ a <= b ∧ c = b + 1 ∧ c <= d ∧ r = (b - a + 1, d - c + 1)) as Hrange.
  { intros a b c d r. unfold range_sizes. case_if.
    - split; [discriminate|]. intros (? & ? & ? & _). exfalso.
      destruct (Z.leb_spec (b - a + 1) 0), (Z.leb_spec (d - c + 1) 0), (Z.eqb_spec c (b + 1)); cbn in *; lia || done.
    - split_bools. split; [intros [= <-]; repeat split; lia|]. intros (_ & _ & _ & ->). done. }
  rewrite bind_Ok. split.
  - intros (ports & Hp & H). apply catch_any_reraise in Hp; [|done]. pose proof (mapM_Ok_length _ _ _ Hp) as Hlen.
    destruct ports as [|i1 [|i2 [|i3 [|i4 [|e1 [|e2 [|e3 [|e4 [|]]]]]]]]]; try discriminate.
    apply bind_Ok in H as (internal & Hi & H). apply bind_Ok in H as (external & He & H).
    apply Hrange in Hi as (? & ? & ? & ->). apply Hrange in He as (? & ? & ? & ->).
    case_if_in H; [|discriminate]. apply bool_decide_eq_true_1 in Heqb. injection Heqb as E1 E2.
    exists i1, i2, i3, i4, e1, e2, e3, e4. split; [by apply Hget|]. lia.
  - intros (i1 & i2 & i3 & i4 & e1 & e2 & e3 & e4 & Hp & ? & ? & ? & ? & ? & ? & ? & ?).
    exists [i1; i2; i3; i4; e1; e2; e3; e4]. apply Hget in Hp. rewrite Hp. split; [done|].
    rewrite (proj2 (Hrange i1 i2 i3 i4 _) ltac:(repeat split; [lia|lia|lia])).
    rewrite (proj2 (Hrange e1 e2 e3 e4 _) ltac:(repeat split; [lia|lia|lia])).
    rewrite !bind_Ok_l, bool_decide_true; [done|]. f_equal; lia.
Qed.

(** ** The administrator's secret *)

(** A letter or digit of the Base32 alphabet, in either case. *)
Definition b32_char (c : ascii) : bool :=
  match b32_value (upper_ascii c) with Some _ => true | None => false end.

Lemma b32_char_ascii c : b32_char c = true →
  is_ascii c = true ∧ is_ascii (upper_ascii c) = true ∧ Ascii.eqb (upper_ascii c) "=" = false
  ∧ is_cont (byte_to_Z (byte_of_ascii c)) = false.
Proof. destruct c as [[] [] [] [] [] [] [] []]; vm_compute; intros H; (discriminate H || by repeat split). Qed.

Lemma b32_digit_value v : 0 <= v < 32 →
  b32_value (b32_digit v) = Some v ∧ b32_char (b32_digit v) = true ∧ upper_ascii (b32_digit v) = b32_digit v.
Proof.
  intros Hv. assert (v ∈ seqZ 0 32) as Hin by (apply elem_of_seqZ; lia).
  assert (Forall (λ v, b32_value (b32_digit v) = Some v ∧ b32_char (b32_digit v) = true
    ∧ upper_ascii (b32_digit v) = b32_digit v) (seqZ 0 32)) as Hall.
  { repeat constructor. }
  rewrite Forall_forall in Hall. by apply Hall.
Qed.

Lemma b32_string s : forall_chars b32_char s = true →
  forall_chars is_ascii s = true ∧ forall_chars is_ascii (map_chars upper_ascii s) = true
  ∧ has_char "=" (map_chars upper_ascii s) = false ∧ str_len s = String.length s
  ∧ String.length (map_chars upper_ascii s) = String.length s.
Proof.
  induction s as [|c s IH]; [done|]. intros H. cbn [forall_chars] in H. apply andb_true_iff in H as [Hc Hs].
  destruct (b32_char_ascii c Hc) as (H1 & H2 & H3 & H4). destruct (IH Hs) as (I1 & I2 & I3 & I4 & I5).
  cbn [forall_chars map_chars has_char String.length]. rewrite H1, H2, H3, I1, I2, I3, I5. repeat split.
  unfold str_len, utf8_encode in *. unfold String.list_byte_of_string in *.
  cbn [String.list_ascii_of_string List.map map]. rewrite filter_cons_True by done. cbn [length]. by rewrite I4.
Qed.

(** Digits of a text of the alphabet. *)
Definition b32_digits (s : string) : list Z :=
  omap b32_value (String.list_ascii_of_string (map_chars upper_ascii s)).

Lemma b32_digits_mapM s : forall_chars b32_char s = true →
  mapM (λ c, match b32_value c with Some v => Ok v | None => b32_error "Non-base32 digit found" end)
    (String.list_ascii_of_string (map_chars upper_ascii s)) = Ok (b32_digits s)
  ∧ length (b32_digits s) = String.length s.
Proof.
  unfold b32_digits. induction s as [|c s IH]; [done|]. intros H. cbn [forall_chars] in H.
  apply andb_true_iff in H as [Hc Hs]. destruct (IH Hs) as [E1 E2]. unfold b32_char in Hc.
  cbn [map_chars String.list_ascii_of_string mapM omap list_omap String.length].
  destruct (b32_value (upper_ascii c)) as [v|]; [|discriminate]. cbn [mbind result_bind] in *.
  rewrite E1. cbn [length]. by rewrite E2.
Qed.

Definition pads (n : nat) : string := Nat.iter n (String "=") "".

Lemma length_pads n : String.length (pads n) = n.
Proof. induction n as [|n IH]; [done|]. cbn. by f_equal. Qed.

Lemma pads_snoc n : pads (S n) = pads n +:+ "=".
Proof.
  induction n as [|n IH]; [done|]. change (pads (S (S n))) with (String "=" (pads (S n))).
  rewrite IH at 1. reflexivity.
Qed.

Lemma lstrip_char_free c s : has_char c s = false → lstrip_char c s = s.
Proof. destruct s as [|a s]; [done|]. cbn. by destruct (Ascii.eqb a c). Qed.

Lemma rstrip_pads s n : has_char "=" s = false → rstrip_char "=" (s +:+ pads n) = s.
Proof.
  intros Hs. unfold rstrip_char.
  assert (lstrip_char "=" (string_rev (s +:+ pads n)) = string_rev s) as ->; [|apply string_rev_involutive].
  induction n as [|n IH].
  - cbn [pads Nat.iter]. rewrite app_nil_str. apply lstrip_char_free.
    clear - Hs. induction s as [|c s IH]; [done|]. cbn [has_char] in Hs. apply orb_false_iff in Hs as [Hc Hs].
    rewrite string_rev_cons, has_char_app. cbn. by rewrite (IH Hs), Hc.
  - rewrite pads_snoc, <-app_assoc_str, string_rev_app. exact IH.
Qed.

(** Groups of eight. *)
Lemma length_be_digits n base z : length (be_digits n base z) = n.
Proof. revert z. induction n as [|n IH]; intros z; [done|]. cbn. rewrite length_app, IH. cbn. lia. Qed.

Lemma length_concat_const {A B} (f : A → list B) k l :
  (∀ a, length (f a) = k) → length (concat (map f l)) = (k * length l)%nat.
Proof.
  intros Hf. induction l as [|a l IH]; cbn; [lia|]. rewrite length_app, Hf, IH. lia.
Qed.

Lemma length_chunks_fuel {A} k fuel (l : list A) : (0 < k)%nat → (length l <= fuel)%nat →
  length (chunks_fuel fuel k l) = ((length l + k - 1) / k)%nat.
Proof.
  intros Hk. revert l. induction fuel as [|fuel IH]; intros l Hl.
  - destruct l; [|cbn in Hl; lia]. cbn. rewrite Nat.div_small; lia.
  - destruct l as [|a l]; [cbn; rewrite Nat.div_small; lia|]. cbn [chunks_fuel length].
    rewrite IH by (rewrite length_drop; cbn in *; lia). rewrite length_drop. cbn [length].
    destruct (le_lt_dec k (S (length l))) as [Hle|Hlt].
    + replace (S (length l) + k - 1)%nat with ((S (length l) - k + k - 1) + 1 * k)%nat by lia.
      rewrite Nat.div_add by lia. lia.
    + replace (S (length l) - k + k - 1)%nat with (k - 1)%nat by lia. rewrite Nat.div_small by lia.
      replace (S (length l) + k - 1)%nat with (length l + 1 * k)%nat by lia.
      rewrite Nat.div_add, Nat.div_small by lia. lia.
Qed.

Lemma length_chunks {A} k (l : list A) : (0 < k)%nat → length (chunks k l) = ((length l + k - 1) / k)%nat.
Proof. intros. by apply length_chunks_fuel. Qed.

(** Decoding a text of the alphabet completed by [p] pad characters. *)
Lemma b32decode_body s p : forall_chars b32_char s = true → ((String.length s + p) mod 8 = 0)%nat →
  b32decode (map_chars upper_ascii s +:+ pads p) =
  let quanta := chunks 8 (b32_digits s) in
  let decoded := concat (map (λ q, be_digits 5 256 (be_value 32 q)) quanta) in
  if negb (bool_decide (p ∈ [0; 1; 3; 4; 6]%nat)) then b32_error "Incorrect padding" else
  match p, last quanta with
  | S _, Some q =>
      Ok (take (length decoded - 5) decoded
          ++ take ((43 - 5 * p) / 8)%nat (be_digits 5 256 (Z.shiftl (be_value 32 q) (5 * Z.of_nat p))))
  | _, _ => Ok decoded
  end.
Proof.
  intros Hs Hmod. destruct (b32_string s Hs) as (_ & Ha & He & _ & Hn). destruct (b32_digits_mapM s Hs) as [Hd _].
  unfold b32decode. rewrite forall_chars_app, Ha, length_app_str, Hn, length_pads.
  assert (forall_chars is_ascii (pads p) = true) as -> by (clear Hmod; induction p; [done|]; cbn; done).
  rewrite Hmod, rstrip_pads by done. cbn [andb negb Nat.eqb]. rewrite Hn, Hd.
  replace (String.length s + p - String.length s)%nat with p by lia. by rewrite !bind_Ok_l.
Qed.

Lemma b32decode_length s : forall_chars b32_char s = true →
  let n := String.length s in
  let p := ((8 - n mod 8) mod 8)%nat in
  if bool_decide (p ∈ [0; 1; 3; 4; 6]%nat)
  then ∃ d, b32decode (map_chars upper_ascii s +:+ pads p) = Ok d ∧ length d = (5 * n / 8)%nat
  else b32decode (map_chars upper_ascii s +:+ pads p) = b32_error "Incorrect padding".
Proof.
  intros Hs n p. destruct (b32_digits_mapM s Hs) as [_ Hdl]. fold n in Hdl.
  assert ((n + p) mod 8 = 0)%nat as Hmod.
  { unfold p. pose proof (Nat.div_mod_eq n 8). pose proof (Nat.mod_upper_bound n 8 ltac:(lia)).
    destruct (decide (n mod 8 = 0)%nat) as [E|E].
    - rewrite E. cbn [Nat.sub]. rewrite Nat.Div0.mod_same. by rewrite Nat.add_0_r.
    - rewrite (Nat.mod_small (8 - n mod 8)) by lia.
      replace (n + (8 - n mod 8))%nat with ((n / 8 + 1) * 8)%nat by lia. apply Nat.Div0.mod_mul. }
  rewrite (b32decode_body s p Hs Hmod). cbv zeta.
  set (decoded := concat (map (λ q, be_digits 5 256 (be_value 32 q)) (chunks 8 (b32_digits s)))).
  assert (length decoded = (5 * ((n + 7) / 8))%nat) as Hdec.
  { unfold decoded. rewrite (length_concat_const _ 5) by (intros; apply length_be_digits).
    rewrite length_chunks, Hdl by lia. f_equal. f_equal. lia. }
  case_bool_decide as Hp; cbn [negb]; [|done].
  assert (n = 8 * (n / 8) + n mod 8)%nat as Hdiv by apply Nat.div_mod_eq.
  assert (n mod 8 < 8)%nat as Hr by (apply Nat.mod_upper_bound; lia).
  assert (p = 0 ∧ n mod 8 = 0 ∨ p = 8 - n mod 8 ∧ 0 < n mod 8)%nat as Hcases.
  { unfold p. destruct (decide (n mod 8 = 0)%nat) as [E|E]; [left; by rewrite E|right].
    rewrite Nat.mod_small by lia. lia. }
  destruct Hcases as [[-> E]|[Ep E]].
  - exists decoded. split; [done|]. rewrite Hdec. replace n with (8 * (n / 8))%nat by lia.
    replace (8 * (n / 8) + 7)%nat with (7 + n / 8 * 8)%nat by lia.
    rewrite Nat.div_add by lia. replace (5 * (8 * (n / 8)))%nat with ((5 * (n / 8)) * 8)%nat by lia.
    rewrite Nat.div_mul by lia. cbn. lia.
  - destruct p as [|p'] eqn:Epp; [lia|].
    destruct (last (chunks 8 (b32_digits s))) as [q|] eqn:El.
    2: { apply last_None in El. apply (f_equal length) in El. rewrite length_chunks, Hdl in El by lia. cbn [length] in El.
         apply Nat.div_small_iff in El; lia. }
    eexists. split; [reflexivity|]. rewrite length_app, !length_take, Hdec, length_be_digits.
    replace (n + 7)%nat with ((n mod 8 - 1) + (n / 8 + 1) * 8)%nat by lia.
    rewrite Nat.div_add, Nat.div_small by lia.
    replace (5 * n)%nat with (5 * (n mod 8) + (5 * (n / 8)) * 8)%nat by lia. rewrite Nat.div_add by lia.
    rewrite Ep in *. clear - Hp Hr E.
    destruct (n mod 8)%nat as [|[|[|[|[|[|[|[|k]]]]]]]] eqn:Em; [lia|..|lia];
      cbn [Nat.sub] in Hp; try (exfalso; revert Hp; apply (bool_decide_unpack _); vm_compute; exact I);
      repeat match goal with |- context [(?a / 8)%nat] =>
        is_ground a; let v := eval vm_compute in (a / 8)%nat in change (a / 8)%nat with v end; lia.
Qed.

Lemma mfa_secret_rule unicode_upper s :
  forall_chars b32_char s = true →
  validate_admin_mfa_secret unicode_upper s = Ok ()
  ↔ (32 <= String.length s)%nat ∧ (String.length s mod 8 ∈ [0; 2; 4; 5; 7])%nat.
Proof.
  intros Hs. destruct (b32_string s Hs) as (Ha & _ & _ & Hl & _).
  pose proof (b32decode_length s Hs) as H. cbv zeta in H. unfold validate_admin_mfa_secret, upper.
  rewrite Ha, Hl. set (n := String.length s) in *. fold (pads ((8 - n mod 8) mod 8)).
  set (p := ((8 - n mod 8) mod 8)%nat) in *.
  assert (p ∈ [0; 1; 3; 4; 6]%nat ↔ (n mod 8 ∈ [0; 2; 4; 5; 7])%nat) as Hp.
  { unfold p. assert (n mod 8 < 8)%nat as Hr by (apply Nat.mod_upper_bound; lia). clear - Hr.
    destruct (n mod 8)%nat as [|[|[|[|[|[|[|[|k]]]]]]]] eqn:Em; [..|lia]; set_unfold; cbn; lia. }
  case_bool_decide as E.
  - destruct H as (d & -> & Hd). cbn [catch_any]. rewrite bind_Ok_l, Hd.
    destruct (Nat.ltb_spec (5 * n / 8) MINIMUM_MFA_SECRET_BYTES) as [Hlt|Hge]; unfold MINIMUM_MFA_SECRET_BYTES in *.
    + split; [discriminate|]. intros [H32 _]. exfalso.
      assert (20 <= 5 * n / 8)%nat; [|lia]. apply Nat.div_le_lower_bound; lia.
    + split; [|done]. intros _. split; [|by apply Hp]. apply Hp in E.
      pose proof (Nat.Div0.mul_div_le (5 * n) 8). lia.
  - rewrite H. cbn. split; [discriminate|]. intros [_ Hm]. by apply Hp in Hm.
Qed.

(** An administrator secret written in the Base32 alphabet, in either case
    and without padding, is accepted exactly when it has at least 32 characters
    (160 bits) in a number that Base32 allows. *)
Theorem mfa_secret_accepted_iff unicode_upper s :
  forall_chars b32_char s = true →
  validate_admin_mfa_secret unicode_upper s = Ok ()
  ↔ (32 <= String.length s)%nat ∧ (String.length s mod 8 ∈ [0; 2; 4; 5; 7])%nat.
Proof. apply mfa_secret_rule. Qed.

Lemma be_value_snoc base l d : be_value base (l ++ [d]) = be_value base l * base + d.
Proof. unfold be_value. by rewrite foldl_app. Qed.

Lemma be_value_range base l : 0 < base → Forall (λ d, 0 <= d < base) l →
  0 <= be_value base l < base ^ Z.of_nat (length l).
Proof.
  intros Hb. induction l as [|d l IH] using rev_ind; [cbn; lia|].
  intros [Hl [Hd _]%Forall_cons]%Forall_app. specialize (IH Hl).
  rewrite be_value_snoc, length_app. cbn [length].
  replace (Z.of_nat (length l + 1)) with (Z.succ (Z.of_nat (length l))) by lia.
  rewrite Z.pow_succ_r by lia. nia.
Qed.

Lemma be_digits_value base l : 0 < base → Forall (λ d, 0 <= d < base) l →
  be_digits (length l) base (be_value base l) = l.
Proof.
  intros Hb. induction l as [|d l IH] using rev_ind; [done|].
  intros [Hl [Hd _]%Forall_cons]%Forall_app. rewrite length_app, Nat.add_comm, be_value_snoc. cbn [length Nat.add be_digits].
  rewrite Z.div_add_l, Z.div_small, Z.add_0_r, IH by lia || done.
  by rewrite Z.add_comm, Z.mod_add, Z.mod_small by lia.
Qed.

Lemma be_value_digits base n z : 0 < base → 0 <= z < base ^ Z.of_nat n → be_value base (be_digits n base z) = z.
Proof.
  intros Hb. revert z. induction n as [|n IH]; intros z Hz; [cbn in *; lia|]. cbn [be_digits].
  rewrite be_value_snoc, IH.
  - pose proof (Z.div_mod z base). lia.
  - rewrite Nat2Z.inj_succ, Z.pow_succ_r in Hz by lia.
    split; [apply Z.div_pos; lia|]. apply Z.div_lt_upper_bound; lia.
Qed.

Lemma be_digits_range n base z : 0 < base → Forall (λ d, 0 <= d < base) (be_digits n base z).
Proof.
  intros Hb. revert z. induction n as [|n IH]; intros z; [constructor|]. cbn.
  apply Forall_app. split; [apply IH|]. apply Forall_singleton. apply Z.mod_pos_bound. lia.
Qed.

Lemma chunks_concat {A} k (ls : list (list A)) : (0 < k)%nat → Forall (λ c, length c = k) ls → chunks k (concat ls) = ls.
Proof.
  intros Hk Hls. unfold chunks.
  assert (∀ fuel, (length (concat ls) <= fuel)%nat → chunks_fuel fuel k (concat ls) = ls) as H; [|by apply H].
  induction Hls as [|c ls Hc Hls IH]; intros fuel Hf; [by destruct fuel|].
  cbn [concat] in *. rewrite length_app in Hf. destruct fuel as [|fuel]; [lia|].
  assert (c ++ concat ls ≠ []) as Hne by (destruct c; [cbn in Hc; lia|done]).
  cbn [chunks_fuel]. destruct (c ++ concat ls) eqn:E; [done|]. rewrite <-E.
  rewrite take_app_length', drop_app_length' by done. f_equal. apply IH. lia.
Qed.

Lemma concat_of_chunks {A} k m (l : list A) : length l = (m * k)%nat →
  ∃ ls, l = concat ls ∧ Forall (λ c, length c = k) ls.
Proof.
  revert l. induction m as [|m IH]; intros l Hl.
  - exists []. split; [by apply length_zero_iff_nil|constructor].
  - destruct (IH (drop k l)) as (ls & E & Hls); [rewrite length_drop; lia|].
    exists (take k l :: ls). cbn [concat]. rewrite <-E, take_drop. split; [done|].
    constructor; [rewrite length_take; lia|done].
Qed.

(** Texts of Base32 digits. *)
Lemma b32_text digits : Forall (λ d, 0 <= d < 32) digits →
  let s := String.string_of_list_ascii (b32_digit <$> digits) in
  forall_chars b32_char s = true ∧ map_chars upper_ascii s = s ∧ b32_digits s = digits
  ∧ String.length s = length digits.
Proof.
  cbv zeta. induction 1 as [|d digits Hd _ (I1 & I2 & I3 & I4)]; [done|].
  destruct (b32_digit_value d Hd) as (E1 & E2 & E3). rewrite fmap_cons.
  cbn [String.string_of_list_ascii forall_chars map_chars String.length length]. rewrite E2, E3, I1, I2, I4.
  split; [done|]. split; [done|]. split; [|done]. unfold b32_digits in *.
  cbn [map_chars String.list_ascii_of_string omap list_omap]. rewrite E3, E1. f_equal. exact I3.
Qed.

Lemma length_concat_groups {A} k (ls : list (list A)) :
  Forall (λ c, length c = k) ls → length (concat ls) = (k * length ls)%nat.
Proof. induction 1 as [|c ls Hc _ IH]; cbn; [lia|]. rewrite length_app, Hc, IH. lia. Qed.

(** Groups of five bytes as groups of eight digits, and back. *)
Lemma regroup q : length q = 5%nat → Forall (λ b, 0 <= b < 256) q →
  be_digits 5 256 (be_value 32 (be_digits 8 32 (be_value 256 q))) = q.
Proof.
  intros Hq Hb. pose proof (be_value_range 256 q ltac:(lia) Hb) as Hr. rewrite Hq in Hr.
  rewrite be_value_digits by (exact Hr || lia). rewrite <-Hq. by apply be_digits_value.
Qed.

(** The administrator secret that the generation tool writes is the Base32
    text of its twenty random bytes: it decodes back to them, and the release
    gate accepts it. *)
Theorem generated_secret_accepted unicode_upper token :
  length token = 20%nat → Forall (λ b, 0 <= b < 256) token →
  b32decode (new_secret token) = Ok token
  ∧ String.length (new_secret token) = 32%nat
  ∧ validate_admin_mfa_secret unicode_upper (new_secret token) = Ok ().
Proof.
  intros Hlen Hbytes. destruct (concat_of_chunks 5 4 token Hlen) as (ls & E & Hls).
  set (groups := map (λ q, be_digits 8 32 (be_value 256 q)) ls).
  assert (Forall (λ c, length c = 8%nat) groups) as Hgroups
    by (apply Forall_fmap, Forall_forall; intros q _; apply length_be_digits).
  assert (length (concat groups) = 32%nat) as Hdigits.
  { rewrite (length_concat_groups 8) by done. unfold groups. rewrite length_map.
    rewrite E, (length_concat_groups 5) in Hlen by done. lia. }
  assert (Forall (λ d, 0 <= d < 32) (concat groups)) as Hrange.
  { apply Forall_concat, Forall_fmap, Forall_forall. intros q _. apply be_digits_range. lia. }
  destruct (b32_text _ Hrange) as (Hs & Hup & Hds & Hsl). rewrite Hdigits in Hsl.
  set (s := String.string_of_list_ascii (b32_digit <$> concat groups)) in *.
  destruct (b32_string s Hs) as (_ & _ & He & _ & _). rewrite Hup in He.
  assert (new_secret token = s) as ->.
  { unfold new_secret, b32encode. rewrite Hlen. cbn [Nat.eqb Nat.modulo Nat.divmod fst snd Nat.sub].
    rewrite E, chunks_concat by (done || lia). fold groups. rewrite Nat.sub_0_r, app_nil_r.
    rewrite take_ge by (rewrite length_fmap; lia). fold s.
    pose proof (rstrip_pads s 0 He) as Hr. cbn [pads Nat.iter] in Hr. by rewrite app_nil_str in Hr. }
  split; [|split; [done|]].
  - pose proof (b32decode_body s 0 Hs) as Hd. rewrite Hsl in Hd. specialize (Hd eq_refl). cbv zeta in Hd.
    cbn [pads Nat.iter] in Hd. rewrite app_nil_str, Hup in Hd. rewrite Hd, Hds, chunks_concat by (done || lia).
    rewrite bool_decide_true by left. cbn [negb]. f_equal. rewrite E. f_equal. unfold groups. rewrite map_map.
    rewrite <-(map_id ls) at 2. apply map_ext_in. intros q Hq%list_elem_of_In. rewrite Forall_forall in Hls.
    apply regroup; [by apply Hls|]. rewrite E in Hbytes. apply Forall_forall. intros b Hb.
    rewrite Forall_forall in Hbytes. apply Hbytes. apply list_elem_of_In, in_concat.
    exists q. split; by apply list_elem_of_In.
  - apply mfa_secret_rule; [done|]. rewrite Hsl. split; [lia|left].
Qed.

(** ** The gate's manifest *)

Section gate_facts.
Context (fs : files) (exec : list string → result (Z * string * string)) (os_nt : bool)
  (getenv : string → option string).
Context (sha256_hex : list byte → string) (unicode_upper : string → string) (int_other : string → option Z)
  (glob_migrations : fs_path → list fs_path) (ROOT : fs_path) (py_repr : jval → string).

#[local] Notation gate := (main fs exec os_nt getenv sha256_hex unicode_upper int_other glob_migrations ROOT).

(** A version the database has applied is in the checkout with its checksum. *)
Definition applied_in (inventory : list migration) (row : string * option Z) : Prop :=
  ∃ m, m ∈ inventory ∧ migration_version m = row.1 ∧ ∀ c, row.2 = Some c → c = m_flywayChecksum m.

Lemma by_version_elem inventory d v m :
  dict_get (foldl (λ d m, dict_set d (migration_version m) m) d inventory) v = Some m →
  (m ∈ inventory ∧ migration_version m = v) ∨ dict_get d v = Some m.
Proof.
  revert d. induction inventory as [|x inventory IH]; intros d H; [by right|]. cbn [foldl] in H.
  apply IH in H as [[Hin Hv]|H]; [left; split; [by right|done]|].
  rewrite dict_get_set in H. destruct (decide (v = migration_version x)) as [->|]; [|by right].
  injection H as ->. left. split; [by left|done].
Qed.

Lemma check_applied_Ok inventory row u :
  check_applied (foldl (λ d m, dict_set d (migration_version m) m) [] inventory) row = Ok u → applied_in inventory row.
Proof.
  unfold check_applied. intros H. destruct (dict_get _ row.1) as [m|] eqn:E; [|discriminate].
  apply by_version_elem in E as [[Hin Hv]|[=]]. exists m. split; [done|]. split; [done|].
  intros c Hc. rewrite Hc in H. case_if_in H; [discriminate|]. by split_bools.
Qed.

Lemma for_in_unit_Forall {A} (f : A → result ()) (l : list A) u :
  for_in (λ _ a, f a) () l = Ok u → Forall (λ a, f a = Ok ()) l.
Proof.
  induction l as [|a l IH]; intros H; [constructor|]. cbn in H. apply bind_Ok in H as ([] & Ha & H).
  constructor; [done|auto].
Qed.

Lemma validate_applied_Ok path inventory u :
  validate_applied_migrations fs int_other path inventory = Ok u →
  ∃ text rows, fs_text fs path = Ok text ∧ Forall2 (λ line row, applied_row int_other line = Ok row) (splitlines text) rows
    ∧ Forall (applied_in inventory) rows.
Proof.
  unfold validate_applied_migrations. intros (text & Ht & H)%bind_Ok. apply bind_Ok in H as (rows & Hr & H).
  exists text, rows. split; [done|]. split; [by apply mapM_Ok|].
  apply for_in_unit_Forall in H. eapply Forall_impl; [exact H|]. intros row Hrow. exact (check_applied_Ok _ _ _ Hrow).
Qed.

(** An image variable that the gate accepts. *)
Definition pinned (service variable : string) : Prop :=
  ∃ digest, getenv variable = Some ("ghcr.io/gcs-saker/gcs-saker-" +:+ service +:+ "@sha256:" +:+ digest)
            ∧ lower_hex 64 digest = true.

Lemma application_image_spec service reference :
  APPLICATION_IMAGE_REFERENCE reference = true →
  startswith ("ghcr.io/gcs-saker/gcs-saker-" +:+ service +:+ "@sha256:") reference = true →
  service ∈ ["backend"; "auth-policy"; "media-control"; "dashboard"] →
  ∃ digest, reference = "ghcr.io/gcs-saker/gcs-saker-" +:+ service +:+ "@sha256:" +:+ digest ∧ lower_hex 64 digest = true.
Proof.
  unfold APPLICATION_IMAGE_REFERENCE. intros H Hs Hin. apply existsb_exists in H as (other & Ho & H).
  apply andb_true_iff in H as [Hp Hd].
  apply startswith_spec in Hs as [r ->]. exists r. split; [by rewrite !app_assoc_str|].
  assert (other = service) as ->; [|by rewrite removeprefix_app in Hd].
  apply list_elem_of_In in Hin. cbn in Ho, Hin.
  destruct Ho as [<-|[<-|[<-|[<-|[]]]]], Hin as [<-|[<-|[<-|[<-|[]]]]]; try done; vm_compute in Hp; discriminate.
Qed.

Lemma application_images_Ok images :
  application_image_inventory getenv = Ok images →
  pinned "backend" "BACKEND_IMAGE" ∧ pinned "auth-policy" "AUTH_POLICY_IMAGE"
  ∧ pinned "media-control" "MEDIA_CONTROL_IMAGE" ∧ pinned "dashboard" "DASHBOARD_IMAGE".
Proof.
  unfold application_image_inventory. set (step := λ images (sv : string * string), _).
  assert (∀ d service variable d', service ∈ ["backend"; "auth-policy"; "media-control"; "dashboard"] →
    step d (service, variable) = Ok d' → pinned service variable) as Hstep.
  { intros d service variable d' Hin H. unfold step in H. case_if_in H; [discriminate|]. case_if_in H; [discriminate|].
    apply orb_false_iff in Heqb0 as [Ha Hb]. apply negb_false_iff in Ha, Hb.
    destruct (application_image_spec service _ Ha Hb Hin) as (digest & E & Hd). exists digest. split; [|done].
    destruct (getenv variable) as [v|]; [|discriminate]. by rewrite <-E. }
  intros H. cbn [for_in] in H.
  apply bind_Ok in H as (d1 & H1 & H). apply bind_Ok in H as (d2 & H2 & H).
  apply bind_Ok in H as (d3 & H3 & H). apply bind_Ok in H as (d4 & H4 & _).
  apply Hstep in H1; [|by left]. apply Hstep in H2; [|by right; left].
  apply Hstep in H3; [|by do 2 right; left]. apply Hstep in H4; [|by do 3 right; left]. done.
Qed.

Lemma require_private_file_Ok path u :
  require_private_file fs exec os_nt path None = Ok u →
  fs_is_file fs path = Ok true ∧ (∃ size, fs_size fs path = Ok size ∧ size ≠ 0)
  ∧ (os_nt = true ∨ ∃ mode, fs_mode fs path = Ok mode ∧ Z.land mode 63 = 0).
Proof.
  unfold require_private_file. intros ([|] & Hm & H)%bind_Ok; [discriminate|].
  apply or_r_false in Hm as [Hf%not_r_Ok Hs]. apply bind_Ok in Hs as (size & Hs & [= Hz]). split_bools.
  apply bind_Ok in H as ([|] & Hp & H); [|discriminate].
  split; [done|]. split; [by exists size|]. destruct os_nt; [by left|right]. cbn in Hp.
  apply bind_Ok in Hp as (mode & Hmode & [= Hland]). split_bools. by exists mode.
Qed.

(** The gate writes a manifest only when every check passed: the environment
    file is a non-empty file closed to group and others, the checkout is clean
    (or dirt was allowed), every migration the database has applied is in the
    checkout with its checksum, and the four application images are pinned to
    digests of their own repositories.  Manifests of two runs on the same
    sources are in sync for the drift report. *)
Theorem gate_manifest_sound now args manifest output :
  gate now args = Ok (manifest, output) →
  (fs_is_file fs (g_env_file args) = Ok true
   ∧ (os_nt = true ∨ ∃ mode, fs_mode fs (g_env_file args) = Ok mode ∧ Z.land mode 63 = 0))
  ∧ (g_allow_dirty args = true ∨ run exec ["git"; "status"; "--porcelain"] false = Ok "")
  ∧ (∀ tsv, g_applied_flyway_tsv args = Some tsv → ∃ text rows inventory,
       fs_text fs tsv = Ok text ∧ Forall2 (λ line row, applied_row int_other line = Ok row) (splitlines text) rows
       ∧ migration_inventory fs sha256_hex glob_migrations ROOT = Ok inventory
       ∧ Forall (applied_in inventory) rows)
  ∧ (pinned "backend" "BACKEND_IMAGE" ∧ pinned "auth-policy" "AUTH_POLICY_IMAGE"
     ∧ pinned "media-control" "MEDIA_CONTROL_IMAGE" ∧ pinned "dashboard" "DASHBOARD_IMAGE")
  ∧ ∃ m, manifest = JObj m ∧ py_eq (obj_get m "schemaVersion") (JInt 1) = true
      ∧ ∀ now' manifest' output', gate now' args = Ok (manifest', output') →
          ∃ m', manifest' = JObj m' ∧ compare py_repr m m' = Ok [].
Proof.
  unfold main. intros H.
  apply bind_Ok in H as (u1 & E1 & H). apply bind_Ok in H as (u2 & E2 & H). apply bind_Ok in H as (u3 & E3 & H).
  apply bind_Ok in H as (u4 & E4 & H). apply bind_Ok in H as (status & E5 & H). case_if_in H; [discriminate|].
  apply bind_Ok in H as (commit & E6 & H). apply bind_Ok in H as (branch & E7 & H).
  apply bind_Ok in H as (compose & E8 & H). apply bind_Ok in H as (migrations & E9 & H).
  apply bind_Ok in H as (u10 & E10 & H). apply bind_Ok in H as (h1 & E11 & H). apply bind_Ok in H as (h2 & E12 & H).
  apply bind_Ok in H as (h3 & E13 & H). apply bind_Ok in H as (images & E14 & [= <- <-]).
  split; [|split; [|split; [|split]]].
  - apply require_private_file_Ok in E1 as (? & _ & ?). done.
  - apply andb_false_iff in Heqb as [Hs|Ha]; [right|left; by apply negb_false_iff in Ha].
    rewrite E5. f_equal. apply is_empty_true. by apply negb_false_iff in Hs.
  - intros tsv Ht. rewrite Ht in E10. apply validate_applied_Ok in E10 as (text & rows & ? & ? & ?).
    by exists text, rows, migrations.
  - by eapply application_images_Ok.
  - eexists. split; [reflexivity|]. split; [reflexivity|]. intros now' manifest' output' H'.
    rewrite E1, bind_Ok_l, E2, bind_Ok_l, E3, bind_Ok_l, E4, bind_Ok_l, E5, bind_Ok_l, Heqb, E6, bind_Ok_l,
      E7, bind_Ok_l, E8, bind_Ok_l, E9, bind_Ok_l, E10, bind_Ok_l, E11, bind_Ok_l, E12, bind_Ok_l,
      E13, bind_Ok_l, E14, bind_Ok_l in H'.
    injection H' as <- _. eexists. split; [reflexivity|]. eapply compare_same; [|reflexivity|reflexivity].
    intros field Hf. unfold COMPARABLE_FIELDS in Hf.
    repeat (apply elem_of_cons in Hf as [->|Hf]; [apply py_eq_str; reflexivity|]). by apply elem_of_nil in Hf.
Qed.
End gate_facts.

(** ** Instances *)

Definition zeros (n : nat) : string := Nat.iter n (String "0") "".

Definition sample_drift (hash : string) : document := [
  ("commit", JStr "c0ffee");
  ("flywayMigrations", JList [JObj [("path", JStr "V1__a.sql"); ("sha256", JStr hash)]])].

Lemma drift_in_sync_iff_witness :
  compare (λ _, "") (sample_drift "aa") (sample_drift "aa") = Ok []
  ∧ ∃ d, compare (λ _, "") (sample_drift "aa") (sample_drift "bb") = Ok [MigrationsDiffer d]
         ∧ "V1__a.sql" ∈ checksumMismatch d.
Proof.
  split; [vm_compute; reflexivity|].
  destruct (compare (λ _, "") (sample_drift "aa") (sample_drift "bb")) as [differences|] eqn:E;
    [|vm_compute in E; discriminate].
  destruct (drift_in_sync_iff (λ _, "") (sample_drift "aa") (sample_drift "bb") differences
    [("V1__a.sql", "aa")] [("V1__a.sql", "bb")] eq_refl eq_refl E) as (_ & Hd & _).
  vm_compute in E. injection E as <-. eexists. split; [reflexivity|].
  apply (Hd _ ltac:(by left)). exists "aa", "bb". by repeat split.
Defined.

Lemma mfa_secret_accepted_iff_witness :
  validate_admin_mfa_secret (λ s, s) (Nat.iter 32 (String "a") "") = Ok ()
  ∧ validate_admin_mfa_secret (λ s, s) (Nat.iter 33 (String "a") "") ≠ Ok ().
Proof.
  split.
  - apply (mfa_secret_accepted_iff (λ s, s) (Nat.iter 32 (String "a") "") eq_refl). split; [cbn; lia|left].
  - intros H. apply (mfa_secret_accepted_iff (λ s, s) (Nat.iter 33 (String "a") "") eq_refl) in H as [_ H].
    revert H. apply (bool_decide_unpack _). vm_compute. exact I.
Defined.

Lemma generated_secret_accepted_witness :
  validate_admin_mfa_secret (λ s, s) (new_secret (replicate 20 255)) = Ok ()
  ∧ b32decode (new_secret (replicate 20 255)) = Ok (replicate 20 255).
Proof.
  destruct (generated_secret_accepted (λ s, s) (replicate 20 255)) as (Hd & _ & Hv).
  - apply length_replicate.
  - apply Forall_replicate. lia.
  - by split.
Defined.

(** Ports outside the range of ports are accepted. *)
Example turn_ranges_unbounded :
  validate_turn_ranges (λ _, None)
    (zip TURN_NAMES ["-9"; "-5"; "-4"; "0"; "70000"; "70004"; "70005"; "70009"]) = Ok ().
Proof. vm_compute. reflexivity. Qed.

Definition newline : string := String "010" "".

Definition sample_environment : string := join newline ([
  "AUTH_POLICY_ADMIN_MFA_SECRET=" +:+ Nat.iter 32 (String "A") "";
  "MOBILE_PUBLISHER_IMAGE=ghcr.io/gcs-saker/gcs-mobile-publisher@sha256:" +:+ Nat.iter 64 (String "a") ""]
  ++ zip_with (λ name port, name +:+ "=" +:+ port) TURN_NAMES
       ["50000"; "50004"; "50005"; "50009"; "60000"; "60004"; "60005"; "60009"]).

Definition sample_files : files := {|
  fs_is_file := λ _, Ok true; fs_is_dir := λ _, Ok true; fs_size := λ _, Ok 7; fs_mode := λ _, Ok 384;
  fs_read := λ p, Ok (utf8_encode (if String.eqb (path_name p) "prod.env" then sample_environment
                                   else if String.eqb (path_name p) "applied.tsv" then "1|-690524359" else "select 1;")) |}.

Definition sample_exec (command : list string) : result (Z * string * string) :=
  Ok (0, if bool_decide ("rev-parse" ∈ command) then "c0ffee" else "", "").

Definition sample_getenv (name : string) : option string :=
  (λ service, "ghcr.io/gcs-saker/gcs-saker-" +:+ service +:+ "@sha256:" +:+ zeros 64) <$>
  dict_get [("BACKEND_IMAGE", "backend"); ("AUTH_POLICY_IMAGE", "auth-policy");
            ("MEDIA_CONTROL_IMAGE", "media-control"); ("DASHBOARD_IMAGE", "dashboard")] name.

Definition sample_arguments : gate_arguments := {|
  g_env_file := parse_path "/srv/prod.env"; g_mqtt_password_file := parse_path "/srv/mqtt";
  g_output := None; g_allow_dirty := false; g_applied_flyway_tsv := Some (parse_path "/srv/applied.tsv") |}.

Definition sample_glob (root : fs_path) : list fs_path :=
  if String.eqb (path_name root) "migration" then [path_div root "V1__init.sql"] else [].

Definition sample_gate (now : datetime) : result (jval * option fs_path) :=
  main sample_files sample_exec false sample_getenv (λ _, zeros 64) (λ s, s) (λ _, None) sample_glob
    (parse_path "/srv/app") now sample_arguments.

Lemma gate_manifest_sound_witness :
  ∃ manifest, sample_gate (mkDatetime 0 (Some 0)) = Ok (manifest, None)
    ∧ pinned sample_getenv "dashboard" "DASHBOARD_IMAGE"
    ∧ ∃ inventory, migration_inventory sample_files (λ _, zeros 64) sample_glob (parse_path "/srv/app") = Ok inventory
        ∧ applied_in inventory ("1", Some (-690524359)).
Proof.
  destruct (sample_gate (mkDatetime 0 (Some 0))) as [[manifest output]|] eqn:E; [|vm_compute in E; discriminate].
  assert (output = None) as -> by (vm_compute in E; by injection E as _ <-).
  exists manifest. split; [done|].
  destruct (gate_manifest_sound _ _ _ _ _ _ _ _ _ (λ _, "") _ _ _ _ E) as (_ & _ & Ha & (_ & _ & _ & Hd) & _).
  split; [exact Hd|]. destruct (Ha _ eq_refl) as (text & rows & inventory & Ht & Hr & Hi & Hall).
  exists inventory. split; [exact Hi|].
  assert (text = "1|-690524359") as -> by (vm_compute in Ht; by injection Ht as <-).
  inversion Hr as [|line row lines rows' Hline Hrest]; subst. apply Forall_cons in Hall as [Hrow _].
  vm_compute in Hline. injection Hline as <-. exact Hrow.
Defined.
