(* ===== verification/AuditOffload.v ===== *)
(** Offload of audit anchors: [scripts/ops/s3_object_lock_offload.py] and
    [scripts/ops/audit_offload_restore_drill.py].

    The AWS command line, the offload script, the clock and the files they leave
    behind are the machine ([world], and [fs] after a history).  The drill
    verifies what it restored with [AuditChain].  SHA-256, base64, HMAC, the JSON
    codec and [repr] are parameters. *)

From stdpp Require Import base list strings sorting.
From Stdlib Require Import ZArith Lia Ascii Strings.Byte.
From S2P Require Import Prelude PyStr PyStrFacts PyTime PyTimeParse PyJson PyText Host Effects AuditChain.

#[local] Open Scope Z_scope.

(** ** Object Lock *)

Definition lock_error {A} (msg : string) : result A := throw ExcObjectLockError msg.

(** [scripts/ops/s3_object_lock_offload.py:18-18] BUCKET_PATTERN *)
Definition BUCKET_PATTERN (s : string) : bool :=
  let edge c := is_digit c || ((97 <=? code c) && (code c <=? 122)) in
  let inner c := edge c || Ascii.eqb c "." || Ascii.eqb c "-" in
  let n := String.length s in
  Nat.leb 3 n && Nat.leb n 63 && forall_chars inner s
  && forall_chars edge (string_take 1 s) && forall_chars edge (string_drop (n - 1) s).

(** [scripts/ops/s3_object_lock_offload.py:19-19] MINIMUM_RETENTION_DAYS *)
Definition MINIMUM_RETENTION_DAYS : Z := 30.

(** [scripts/ops/s3_object_lock_offload.py:26-34] OffloadRequest *)
Record OffloadRequest : Type := mkRequest {
  anchor : fs_path;
  bucket : string;
  prefix : string;
  retention_days : Z;
  evidence_output : fs_path;
  endpoint_url : option string;
  expected_bucket_owner : option string
}.

(** [scripts/ops/s3_object_lock_offload.py:51-57] endpoint_arguments *)
Definition endpoint_arguments (r : OffloadRequest) : list string :=
  let option_of (name : string) (v : option string) :=
    match v with Some v => if is_empty v then [] else [name; v] | None => [] end in
  option_of "--endpoint-url" (endpoint_url r) ++ option_of "--expected-bucket-owner" (expected_bucket_owner r).

(** [path.stem] *)
Definition path_stem (p : fs_path) : string := removesuffix (path_suffix p) (path_name p).

(** [scripts/ops/s3_object_lock_offload.py:89-92] object_key *)
Definition object_key (r : OffloadRequest) (digest_hex : string) : string :=
  let prefix := rstrip_char "/" (lstrip_char "/" (prefix r)) in
  let name := path_stem (anchor r) +:+ "-" +:+ digest_hex +:+ ".json" in
  if truthy prefix then prefix +:+ "/" +:+ name else name.

(** The last representable moment, in microseconds. *)
Definition MAX_WALL : Z := 253402300799999999.

(** [value + timedelta(days=days)] *)
Definition plus_days (d : datetime) (days : Z) : result datetime :=
  let wall := dt_wall d + days * 86400000000 in
  if (days <? -999999999) || (999999999 <? days) || (MAX_WALL <? wall) || (wall <? -62135596800000000)
  then throw ExcOverflowError "date value out of range" else Ok (mkDatetime wall (dt_offset d)).

(** [a < b]: an aware and a naive datetime cannot be compared. *)
Definition before (a b : datetime) : result bool :=
  if Bool.eqb (is_naive a) (is_naive b) then Ok (dt_ltb a b)
  else throw ExcTypeError "can't compare offset-naive and offset-aware datetimes".

(** [s.replace(old, new)] for a one-character [old]. *)
Fixpoint replace_with (old : ascii) (new s : string) : string :=
  match s with
  | "" => ""
  | String c s' => if Ascii.eqb c old then new +:+ replace_with old new s' else String c (replace_with old new s')
  end.

(** [s.replace("+00:00", "Z")] *)
Fixpoint zulu_fuel (fuel : nat) (s : string) : string :=
  match fuel, s with
  | S fuel', String c s' =>
      if startswith "+00:00" s then "Z" +:+ zulu_fuel fuel' (string_drop 6 s) else String c (zulu_fuel fuel' s')
  | _, _ => ""
  end.
Definition zulu (s : string) : string := zulu_fuel (String.length s) s.

Section offload.
Context (w : world) (fs : history → files) (path_exists : history → fs_path → result bool).
Context (json_loads : string → result jval) (sha256_hex sha256_base64 : list byte → string)
  (py_repr : jval → string) (iso_other : string → option datetime).

(** [scripts/ops/s3_object_lock_offload.py:37-48] run_aws *)
Definition run_aws (arguments : list string) : eff (list (string * jval)) :=
  '(returncode, stdout) ← execute w (["aws"; "s3api"] ++ arguments ++ ["--output"; "json"]);
  if negb (returncode =? 0) then raise ExcObjectLockError "S3 Object Lock request failed" else
  value ← lift (catch_any (json_loads (if is_empty stdout then "{}" else stdout)) [ExcJSONDecodeError]
                  (λ _, lock_error "S3 Object Lock response was invalid"));
  lift match value with JObj d => Ok d | _ => lock_error "S3 Object Lock response was invalid" end.

Definition now_files {A} (f : files → result A) : eff A := λ h, (Some (f (fs h)), []).
Definition now_exists (p : fs_path) : eff bool := λ h, (Some (path_exists h p), []).

(** [scripts/ops/s3_object_lock_offload.py:60-70] validate_request *)
Definition validate_request (r : OffloadRequest) : eff () :=
  source ← now_files (λ fs, and_r (Ok (p_absolute (anchor r))) (fs_is_file fs (anchor r)));
  if negb source then raise ExcObjectLockError "audit anchor must be an existing absolute file" else
  taken ← (if p_absolute (evidence_output r) then now_exists (evidence_output r) else mret true);
  if taken : bool then raise ExcObjectLockError "evidence path must be new and absolute" else
  if negb (BUCKET_PATTERN (bucket r)) then raise ExcObjectLockError "S3 bucket name is invalid" else
  if retention_days r <? MINIMUM_RETENTION_DAYS
  then raise ExcObjectLockError "COMPLIANCE retention must be at least 30 days" else
  if startswith "/" (prefix r) || bool_decide (".." ∈ split_on "/" (prefix r))
  then raise ExcObjectLockError "S3 object prefix is invalid" else mret ().

(** [scripts/ops/s3_object_lock_offload.py:73-80] require_locked_versioned_bucket *)
Definition require_locked_versioned_bucket (r : OffloadRequest) : eff () :=
  let common := ["--bucket"; bucket r] ++ endpoint_arguments r in
  versioning ← run_aws ("get-bucket-versioning" :: common);
  lock ← run_aws ("get-object-lock-configuration" :: common);
  if negb (py_eq (obj_get versioning "Status") (JStr "Enabled"))
  then raise ExcObjectLockError "S3 bucket versioning is not enabled" else
  enabled ← lift (j_get (default (JObj []) (dict_get lock "ObjectLockConfiguration")) "ObjectLockEnabled");
  if negb (py_eq enabled (JStr "Enabled")) then raise ExcObjectLockError "S3 Object Lock is not enabled" else mret ().

(** [scripts/ops/s3_object_lock_offload.py:83-86] anchor_digests *)
Definition anchor_digests (path : fs_path) : eff (string * string) :=
  payload ← now_files (λ fs, fs_read fs path);
  mret (sha256_hex payload, sha256_base64 payload).

Definition put_arguments (r : OffloadRequest) (key digest_hex : string) (retain_until : datetime) : list string :=
  ["put-object"; "--bucket"; bucket r; "--key"; key; "--body"; path_str (anchor r); "--checksum-algorithm"; "SHA256";
   "--object-lock-mode"; "COMPLIANCE"; "--object-lock-retain-until-date"; zulu (isoformat retain_until);
   "--metadata"; "sha256=" +:+ digest_hex] ++ endpoint_arguments r.

(** [scripts/ops/s3_object_lock_offload.py:95-119] upload_anchor *)
Definition upload_anchor (r : OffloadRequest) (key digest_hex : string) (retain_until : datetime) : eff string :=
  response ← run_aws (put_arguments r key digest_hex retain_until);
  match obj_get response "VersionId" with
  | JStr version_id =>
      if is_empty version_id then raise ExcObjectLockError "S3 upload did not return an object version"
      else mret version_id
  | _ => raise ExcObjectLockError "S3 upload did not return an object version"
  end.

Definition head_arguments (r : OffloadRequest) (key version_id : string) : list string :=
  ["head-object"; "--bucket"; bucket r; "--key"; key; "--version-id"; version_id; "--checksum-mode"; "ENABLED"]
  ++ endpoint_arguments r.

(** [scripts/ops/s3_object_lock_offload.py:144-152] check_head: the checks of verify_uploaded_version *)
Definition check_head (response : list (string * jval)) (digest_hex checksum : string) (retain_until : datetime) :
    result () :=
  if negb (py_eq (obj_get response "ObjectLockMode") (JStr "COMPLIANCE"))
  then lock_error "uploaded anchor is not COMPLIANCE locked" else
  actual_until ← fromisoformat iso_other
    (replace_with "Z" "+00:00" (py_str py_repr (default (JStr "") (dict_get response "ObjectLockRetainUntilDate"))));
  shorter ← before actual_until retain_until;
  if shorter : bool then lock_error "uploaded anchor retention is shorter than requested" else
  if negb (py_eq (obj_get response "ChecksumSHA256") (JStr checksum))
  then lock_error "uploaded anchor checksum does not match" else
  metadata ← j_get (default (JObj []) (dict_get response "Metadata")) "sha256";
  if negb (py_eq metadata (JStr digest_hex)) then lock_error "uploaded anchor metadata digest does not match"
  else Ok ().

(** [scripts/ops/s3_object_lock_offload.py:122-152] verify_uploaded_version *)
Definition verify_uploaded_version (r : OffloadRequest) (key version_id digest_hex checksum : string)
    (retain_until : datetime) : eff () :=
  response ← run_aws (head_arguments r key version_id);
  lift (check_head response digest_hex checksum retain_until).

(** The evidence of an offload. *)
Definition evidence_json (r : OffloadRequest) (key version_id digest_hex : string) (retain_until : datetime) : jval :=
  JObj [("schemaVersion", JStr "gcs-saker.s3-object-lock-offload.v1"); ("result", JStr "PASS");
        ("bucket", JStr (bucket r)); ("objectKey", JStr key); ("versionId", JStr version_id);
        ("retentionMode", JStr "COMPLIANCE"); ("retainUntil", JStr (isoformat retain_until));
        ("sha256", JStr digest_hex)].

(** [scripts/ops/s3_object_lock_offload.py:162-181] offload *)
Definition offload (r : OffloadRequest) : eff jval :=
  _ ← validate_request r;
  _ ← require_locked_versioned_bucket r;
  '(digest_hex, checksum) ← anchor_digests (anchor r);
  let key := object_key r digest_hex in
  now ← utcnow w;
  retain_until ← lift (plus_days now (retention_days r));
  version_id ← upload_anchor r key digest_hex retain_until;
  _ ← verify_uploaded_version r key version_id digest_hex checksum retain_until;
  let evidence := evidence_json r key version_id digest_hex retain_until in
  _ ← create w (evidence_output r) evidence;
  mret evidence.

(** [scripts/ops/s3_object_lock_offload.py:194-205] main, from the resolved paths and parsed arguments *)
Definition s3_main (r : OffloadRequest) : eff Z :=
  result ← offload r;
  outcome ← lift (j_getitem result "result");
  _ ← print (JStr ("S3 Object Lock offload " +:+ py_str py_repr outcome));
  mret 0.

(** ** The restore drill *)

Context (sha256 : list byte → string) (hmac : list byte → list byte → string) (json_dumps : record → string)
  (device : history → fs_path → result Z) (listing : history → fs_path → result (list string))
  (key_of : history → fs_path → key_file) (OFFLOAD : fs_path).

(** [scripts/ops/audit_offload_restore_drill.py:27-34] DrillInputs *)
Record DrillInputs : Type := mkDrill {
  original_export : fs_path;
  anchor_directory : fs_path;
  hmac_key_file : fs_path;
  external_directory : fs_path;
  restore_directory : fs_path;
  drill_evidence : fs_path
}.

Definition drill_error {A} (msg : string) : eff A := raise ExcAuditDrillError msg.

(** [scripts/ops/audit_offload_restore_drill.py:45-64] validate_inputs *)
Definition validate_inputs (i : DrillInputs) : eff () :=
  let paths := [original_export i; anchor_directory i; hmac_key_file i; external_directory i; restore_directory i;
                drill_evidence i] in
  if existsb (λ p, negb (p_absolute p)) paths then drill_error "audit drill paths must be absolute" else
  missing ← now_files (λ fs, or_r (not_r (fs_is_file fs (original_export i)))
                                  (not_r (fs_is_file fs (hmac_key_file i))));
  if missing : bool then drill_error "audit drill source files are missing" else
  _ ← for_each (λ directory,
        ok ← now_files (λ fs, fs_is_dir fs directory);
        if negb ok then drill_error "audit drill directory is missing" else mret ())
      [anchor_directory i; external_directory i; restore_directory i];
  (λ h, lift (d1 ← device h (anchor_directory i); d2 ← device h (external_directory i);
              if d1 =? d2 then throw ExcAuditDrillError "external audit storage must be a different mounted device"
              else Ok ()) h) ≫= λ _,
  taken ← now_exists (drill_evidence i);
  if taken : bool then drill_error "audit drill evidence overwrite denied" else mret ().

(** [scripts/ops/audit_offload_restore_drill.py:67-71] latest_anchor

    The name of the last candidate, with its number. *)
Definition latest_anchor (directory : fs_path) : eff (string * Z) := λ h,
  lift (names ← listing h directory;
        match last (py_sorted (filter (λ name, is_Some (anchor_number name)) names)) with
        | Some name => match anchor_number name with
                       | Some n => Ok (name, n)
                       | None => throw ExcAttributeError "group"
                       end
        | None => throw ExcAuditDrillError "no audit anchor is available"
        end) h.

(** [scripts/ops/audit_offload_restore_drill.py:74-79] copy_exclusive *)
Definition copy_exclusive (source target : fs_path) : eff () := copy_new w source target.

(** [scripts/ops/audit_offload_restore_drill.py:37-42] sha256 *)
Definition file_sha256 (p : fs_path) : eff string := now_files (λ fs, sha256_hex <$> fs_read fs p).

Definition offload_command (i : DrillInputs) : list string :=
  ["bash"; path_str OFFLOAD; path_str (anchor_directory i); path_str (external_directory i)].

(** [scripts/ops/audit_offload_restore_drill.py:91-121] run_drill *)
Definition run_drill (i : DrillInputs) : eff jval :=
  _ ← validate_inputs i;
  '(name, number) ← latest_anchor (anchor_directory i);
  _ ← run w (offload_command i) None;
  let offloaded_anchor := path_div (external_directory i) name in
  let restored_export := path_div (restore_directory i) "audit-restored.jsonl" in
  _ ← copy_exclusive (original_export i) restored_export;
  record_count ← (λ h, lift (verify_recovery sha256 hmac json_dumps json_loads py_repr
      (fs_text (fs h) (original_export i)) (fs_text (fs h) restored_export)
      (fs_text (fs h) offloaded_anchor) (key_of h (hmac_key_file i))) h);
  now ← utcnow w;
  source_sha ← file_sha256 (original_export i);
  restored_sha ← file_sha256 restored_export;
  anchor_sha ← file_sha256 offloaded_anchor;
  let payload := JObj [("schemaVersion", JStr "gcs-saker.audit-offload-restore-drill.v1"); ("result", JStr "PASS");
                       ("completedAt", JStr (isoformat now)); ("recordCount", JInt record_count);
                       ("anchorSequence", JInt number); ("sourceExportSha256", JStr source_sha);
                       ("restoredExportSha256", JStr restored_sha); ("offloadedAnchorSha256", JStr anchor_sha)] in
  _ ← create w (drill_evidence i) payload;
  mret payload.

(** [scripts/ops/audit_offload_restore_drill.py:136-153] main, from the arguments parsed and resolved *)
Definition drill_main (check : bool) (inputs : option DrillInputs) : eff Z :=
  if check then _ ← print (JStr "audit offload restore drill contract check passed"); mret 0 else
  match inputs with
  | None => raise ExcSystemExit "all audit drill paths are required"
  | Some i =>
      payload ← run_drill i;
      result ← lift (j_getitem payload "result");
      count ← lift (j_getitem payload "recordCount");
      _ ← print (JStr ("audit offload restore drill " +:+ py_str py_repr result +:+ " for "
                       +:+ py_str py_repr count +:+ " records"));
      mret 0
  end.
End offload.

(** ** What the tools promise *)

(** Every event but the creation of a file. *)
Definition no_created (e : event) : Prop := match e with Created _ _ _ => False | _ => True end.

Lemma create_last w path d h res t p d' o :
  (_ ← create w path d; mret d) h = (res, t) → Created p d' o ∈ t → d' = d ∧ t = [Created path d o].
Proof.
  unfold mbind, eff_bind, create. destruct (w_create w h path d) as [[]|e]; intros [= <- <-] Hin;
    apply list_elem_of_singleton in Hin; by injection Hin as -> -> ->.
Qed.


(** Past a first part that creates no file, to the creation [ev]. *)
Local Tactic Notation "reached" hyp(H) constr(ev) tactic3(tac) "as" simple_intropattern(x) ident(Hx) :=
  apply (eff_bind_reached no_created) with (e := ev) in H as (x & ? & ? & Hx & H & -> & ?);
    [|tac|first [done|tauto]..].

Section offload_facts.
Context (w : world) (fs : history → files) (path_exists : history → fs_path → result bool).
Context (json_loads : string → result jval) (sha256_hex sha256_base64 : list byte → string)
  (py_repr : jval → string) (iso_other : string → option datetime).

Local Notation run_aws := (run_aws w json_loads).
Local Notation check_head := (check_head py_repr iso_other).
Local Notation offload := (offload w fs path_exists json_loads sha256_hex sha256_base64 py_repr iso_other).

(** A command of the AWS client that succeeded with the reply [d]. *)
Definition aws_replied (arguments : list string) (d : list (string * jval)) (e : event) : Prop :=
  ∃ out, e = Executed (["aws"; "s3api"] ++ arguments ++ ["--output"; "json"]) (Ok (0, out))
         ∧ json_loads (if is_empty out then "{}" else out) = Ok (JObj d).

Lemma run_aws_Ok arguments h d t : run_aws arguments h = (Some (Ok d), t) →
  ∃ e, t = [e] ∧ aws_replied arguments d e.
Proof.
  unfold run_aws. intros H. apply eff_bind_Ok in H as ([code out] & t1 & t2 & H1 & H & ->).
  apply execute_Ok in H1 as ->. cbn iota beta in H.
  destruct (code =? 0) eqn:Ec; [|discriminate H]. cbn [negb] in H.
  apply Z.eqb_eq in Ec as ->. eff_ok_in H. subst.
  destruct (json_loads _) as [v|[c msg|s d0 hd]] eqn:E; cbn in Hx;
    [|destruct (subclass c _ || _); discriminate Hx|discriminate Hx].
  injection Hx as <-. destruct v; try discriminate H. injection H as ->.
  eexists. split; [reflexivity|]. by exists out.
Qed.

Lemma emits_run_aws arguments : emits no_created (run_aws arguments).
Proof. unfold run_aws. emits_step; [by apply emits_execute|]. destruct a. emits_steps. Qed.

Lemma emits_now_files {A} (f : files → result A) : emits no_created (now_files fs f).
Proof. intros h. constructor. Qed.
Lemma emits_now_exists p : emits no_created (now_exists path_exists p).
Proof. intros h. constructor. Qed.

Lemma emits_validate_request r : emits no_created (validate_request fs path_exists r).
Proof.
  unfold validate_request. emits_steps; [apply emits_now_files|apply emits_now_exists].
Qed.

Lemma emits_require_bucket r : emits no_created (require_locked_versioned_bucket w json_loads r).
Proof. unfold require_locked_versioned_bucket. emits_steps; apply emits_run_aws. Qed.

Lemma emits_upload r key digest until : emits no_created (upload_anchor w json_loads r key digest until).
Proof. unfold upload_anchor. emits_step; [apply emits_run_aws|]. destruct (obj_get _ _); emits_steps. Qed.

Lemma emits_verify_uploaded r key version digest checksum until :
  emits no_created (verify_uploaded_version w json_loads py_repr iso_other r key version digest checksum until).
Proof. unfold verify_uploaded_version. emits_steps. apply emits_run_aws. Qed.

Lemma validate_request_Ok r h u t : validate_request fs path_exists r h = (Some (Ok u), t) →
  t = [] ∧ BUCKET_PATTERN (bucket r) = true ∧ 30 ≤ retention_days r ∧ ".." ∉ split_on "/" (prefix r).
Proof.
  unfold validate_request. intros H. apply eff_bind_Ok in H as (a & t1 & t2 & H1 & H & ->).
  injection H1 as _ <-. destruct a; [|discriminate H]. cbn [negb] in H.
  apply eff_bind_Ok in H as (b & t1 & t3 & H1 & H & ->).
  assert (t1 = []) as -> by (destruct (p_absolute _); by injection H1).
  destruct b; [discriminate H|]. destruct (BUCKET_PATTERN (bucket r)); [|discriminate H]. cbn [negb] in H.
  destruct (retention_days r <? MINIMUM_RETENTION_DAYS) eqn:Ed; [discriminate H|].
  destruct (startswith "/" (prefix r) || _) eqn:Ep; [discriminate H|]. apply mret_Ok in H as [_ ->].
  apply orb_false_iff in Ep as [_ Ep%bool_decide_eq_false_1]. unfold MINIMUM_RETENTION_DAYS in Ed.
  split_and!; try done. lia.
Qed.

Lemma plus_days_Ok d days d' : plus_days d days = Ok d' → instant d' = instant d + days * 86400000000.
Proof. unfold plus_days. destruct (_ || _); [discriminate|]. intros [= <-]. unfold instant. cbn. lia. Qed.

(** What the head of the uploaded version must say. *)
Definition head_verified (digest_hex checksum : string) (retain_until : datetime)
    (response : list (string * jval)) : Prop :=
  obj_get response "ObjectLockMode" = JStr "COMPLIANCE"
  ∧ (∃ actual, fromisoformat iso_other (replace_with "Z" "+00:00"
                 (py_str py_repr (default (JStr "") (dict_get response "ObjectLockRetainUntilDate")))) = Ok actual
               ∧ instant retain_until ≤ instant actual)
  ∧ obj_get response "ChecksumSHA256" = JStr checksum
  ∧ ∃ metadata, dict_get response "Metadata" = Some (JObj metadata) ∧ obj_get metadata "sha256" = JStr digest_hex.

Lemma check_head_Ok response digest checksum until u :
  check_head response digest checksum until = Ok u → head_verified digest checksum until response.
Proof.
  unfold check_head. intros H.
  destruct (py_eq (obj_get response "ObjectLockMode") _) eqn:E1; [|discriminate H]. cbn [negb] in H.
  apply bind_Ok in H as (actual & Ha & H). apply bind_Ok in H as (shorter & Hs & H).
  destruct shorter; [discriminate H|].
  destruct (py_eq (obj_get response "ChecksumSHA256") _) eqn:E2; [|discriminate H]. cbn [negb] in H.
  apply bind_Ok in H as (m & Hm & H).
  destruct (py_eq m _) eqn:E3; [|discriminate H].
  apply py_eq_str in E1, E2, E3. subst m. split_and!; try done.
  - exists actual. split; [done|]. unfold before in Hs.
    destruct (Bool.eqb _ _); [|discriminate Hs]. injection Hs as Hs.
    unfold dt_ltb in Hs. lia.
  - destruct (dict_get response "Metadata") as [[]|]; try discriminate Hm.
    cbn in Hm. injection Hm as Hm. by eexists.
Qed.

(** The trace of an offload up to its evidence. *)
Definition offload_trace (r : OffloadRequest) (h t : history) (evidence : jval) : Prop :=
  ∃ versioning lock put head e1 e2 e3 e4 payload now until version o,
    let digest := sha256_hex payload in
    let key := object_key r digest in
    let common := ["--bucket"; bucket r] ++ endpoint_arguments r in
    t = [e1; e2; Dated now; e3; e4; Created (evidence_output r) evidence o]
    ∧ aws_replied ("get-bucket-versioning" :: common) versioning e1
    ∧ obj_get versioning "Status" = JStr "Enabled"
    ∧ aws_replied ("get-object-lock-configuration" :: common) lock e2
    ∧ fs_read (fs (h ++ [e1; e2])) (anchor r) = Ok payload
    ∧ 30 ≤ retention_days r ∧ instant until = instant now + retention_days r * 86400000000
    ∧ aws_replied (put_arguments r key digest until) put e3 ∧ obj_get put "VersionId" = JStr version ∧ version ≠ ""
    ∧ aws_replied (head_arguments r key version) head e4
    ∧ head_verified digest (sha256_base64 payload) until head
    ∧ evidence = evidence_json r key version digest until.

Lemma upload_Ok r key digest until h version t :
  upload_anchor w json_loads r key digest until h = (Some (Ok version), t) →
  ∃ e put, t = [e] ∧ aws_replied (put_arguments r key digest until) put e
           ∧ obj_get put "VersionId" = JStr version ∧ version ≠ "".
Proof.
  unfold upload_anchor. intros H. apply eff_bind_Ok in H as (put & t1 & t2 & H1 & H & ->).
  apply run_aws_Ok in H1 as (e & -> & He). exists e, put. destruct (obj_get put "VersionId") as [| | | |s| |]; try discriminate H.
  destruct s; [discriminate H|]. apply mret_Ok in H as [<- ->]. by split_and!.
Qed.

Lemma require_bucket_Ok r h u t : require_locked_versioned_bucket w json_loads r h = (Some (Ok u), t) →
  let common := ["--bucket"; bucket r] ++ endpoint_arguments r in
  ∃ e1 e2 versioning lock, t = [e1; e2]
    ∧ aws_replied ("get-bucket-versioning" :: common) versioning e1 ∧ obj_get versioning "Status" = JStr "Enabled"
    ∧ aws_replied ("get-object-lock-configuration" :: common) lock e2.
Proof.
  unfold require_locked_versioned_bucket. intros H.
  apply eff_bind_Ok in H as (versioning & t1 & t2 & H1 & H & ->). apply run_aws_Ok in H1 as (e1 & -> & He1).
  apply eff_bind_Ok in H as (lock & t1 & t3 & H1 & H & ->). apply run_aws_Ok in H1 as (e2 & -> & He2).
  destruct (py_eq _ _) eqn:E1; [|discriminate H]. cbn [negb] in H.
  apply eff_bind_Ok in H as (enabled & t1 & t2 & H1 & H & ->). apply lift_Ok in H1 as [_ ->].
  destruct (py_eq enabled _); [|discriminate H]. apply mret_Ok in H as [_ ->].
  exists e1, e2, versioning, lock. apply py_eq_str in E1. by split_and!.
Qed.

Lemma digests_Ok p h digests t : anchor_digests fs sha256_hex sha256_base64 p h = (Some (Ok digests), t) →
  t = [] ∧ ∃ payload, fs_read (fs h) p = Ok payload ∧ digests = (sha256_hex payload, sha256_base64 payload).
Proof.
  unfold anchor_digests. intros H. apply eff_bind_Ok in H as (payload & t1 & t2 & H1 & H & ->).
  injection H1 as H1 <-. apply mret_Ok in H as [<- ->]. split; [done|]. by exists payload.
Qed.

Lemma emits_digests p : emits no_created (anchor_digests fs sha256_hex sha256_base64 p).
Proof. apply emits_bind; [apply emits_now_files|]. intros payload. apply emits_ret. Qed.

Lemma verify_uploaded_Ok r key version digest checksum until h u t :
  verify_uploaded_version w json_loads py_repr iso_other r key version digest checksum until h = (Some (Ok u), t) →
  ∃ e head, t = [e] ∧ aws_replied (head_arguments r key version) head e ∧ head_verified digest checksum until head.
Proof.
  unfold verify_uploaded_version. intros H. apply eff_bind_Ok in H as (head & t1 & t2 & H1 & H & ->).
  apply run_aws_Ok in H1 as (e & -> & He). apply lift_Ok in H as [H ->].
  exists e, head. split_and!; [done..|by eapply check_head_Ok].
Qed.

(** The evidence file is created last, after everything was verified. *)
Lemma offload_created r h res t p d o : offload r h = (res, t) → Created p d o ∈ t →
  offload_trace r h t d.
Proof.
  unfold offload. intros H Hin.
  reached H (Created p d o) (apply emits_validate_request) as u1 H1.
  apply validate_request_Ok in H1 as (-> & _ & Hdays & _). rewrite app_nil_r in H. cbn beta in H.
  reached H (Created p d o) (apply emits_require_bucket) as u2 H1.
  apply require_bucket_Ok in H1 as (e1 & e2 & versioning & lock & -> & He1 & Hv & He2). cbn beta in H.
  reached H (Created p d o) (apply emits_digests) as ds H1.
  apply digests_Ok in H1 as (-> & payload & Hp & ->). rewrite app_nil_r in H. cbn iota beta in H.
  reached H (Created p d o) (by apply emits_utcnow) as now H1.
  apply utcnow_Ok in H1 as ->. cbn beta in H.
  reached H (Created p d o) (apply emits_lift) as until H1.
  apply lift_Ok in H1 as [Hu%plus_days_Ok ->]. cbn beta in H.
  reached H (Created p d o) (apply emits_upload) as version H1.
  apply upload_Ok in H1 as (e3 & put & -> & He3 & Hput & Hne). cbn beta in H.
  reached H (Created p d o) (apply emits_verify_uploaded) as u3 H1.
  apply verify_uploaded_Ok in H1 as (e4 & head & -> & He4 & Hhead). cbn beta in H.
  match goal with Hin : Created p d o ∈ _ |- _ => destruct (create_last _ _ _ _ _ _ _ _ _ H Hin) as [-> ->] end.
  exists versioning, lock, put, head, e1, e2, e3, e4, payload, now, until, version, o.
  by split_and!.
Qed.

(** The tool leaves evidence of an offload only at the end of a run in which
    the bucket reported versioning and Object Lock as enabled, the anchor that
    was read was put in COMPLIANCE mode for the requested 30 days or more, and
    the head of the very version the upload returned was COMPLIANCE locked until
    the requested instant or later, with the checksum and the digest of the
    bytes read.  A run that succeeds left that evidence. *)
Theorem offload_evidence_verified r h res t :
  offload r h = (res, t) →
  (∀ p d o, Created p d o ∈ t → offload_trace r h t d)
  ∧ ∀ evidence, res = Some (Ok evidence) → last t = Some (Created (evidence_output r) evidence (Ok ())).
Proof.
  intros H. split; [intros p d o; by apply (offload_created r h res)|]. intros evidence ->. unfold offload in H.
  do 2 (apply eff_bind_Ok in H as (? & ? & ? & _ & H & ->); cbn beta in H).
  apply eff_bind_Ok in H as ([digest checksum] & ? & ? & _ & H & ->).
  do 4 (apply eff_bind_Ok in H as (? & ? & ? & _ & H & ->); cbn beta in H).
  apply eff_bind_Ok in H as (? & ? & ? & Hc & H & ->).
  apply create_Ok in Hc as ->. apply mret_Ok in H as [<- ->]. by rewrite app_nil_r, !app_assoc, last_snoc.
Qed.
End offload_facts.

Section drill_facts.
Context (w : world) (fs : history → files) (path_exists : history → fs_path → result bool).
Context (json_loads : string → result jval) (sha256_hex : list byte → string) (py_repr : jval → string).
Context (sha256 : list byte → string) (hmac : list byte → list byte → string) (json_dumps : record → string)
  (device : history → fs_path → result Z) (listing : history → fs_path → result (list string))
  (key_of : history → fs_path → key_file) (OFFLOAD : fs_path).

Local Notation validate_inputs := (validate_inputs fs path_exists device).
Local Notation latest_anchor := (latest_anchor listing).
Local Notation run_drill := (run_drill w fs path_exists json_loads sha256_hex py_repr sha256 hmac json_dumps
                               device listing key_of OFFLOAD).

(** The checks on the inputs: nothing happens, and the two stores are of different devices. *)
Lemma validate_inputs_Ok i h u t : validate_inputs i h = (Some (Ok u), t) →
  t = [] ∧ ∃ d1 d2, device h (anchor_directory i) = Ok d1 ∧ device h (external_directory i) = Ok d2 ∧ d1 ≠ d2.
Proof.
  unfold validate_inputs. cbn [for_each]. intros H. destruct (existsb _ _); [discriminate H|].
  assert (∀ A (f : files → result A) h' r t', now_files fs f h' = (r, t') → t' = []) as Hq
    by (intros A f h' r t'; by intros [= _ <-]).
  apply eff_bind_Ok in H as (m & t1 & t2 & H1 & H & ->). apply Hq in H1 as ->. cbn beta in H.
  destruct m; [discriminate H|]. rewrite app_nil_r in H.
  apply eff_bind_Ok in H as (u1 & t1 & t3 & H1 & H & ->).
  assert (t1 = []) as ->.
  { repeat (apply eff_bind_Ok in H1 as (? & ? & ? & Hd & H1 & ->); cbn beta in H1;
      apply eff_bind_Ok in Hd as ([] & ? & ? & Hf & Hd & ->); apply Hq in Hf as ->; cbn [negb] in Hd;
      first [discriminate Hd|apply mret_Ok in Hd as [_ ->]]). by apply mret_Ok in H1 as [_ ->]. }
  rewrite app_nil_r in H. clear H1. apply eff_bind_Ok in H as (u2 & t1 & t4 & H1 & H & ->).
  apply lift_Ok in H1 as [H1 ->]. rewrite app_nil_r in H.
  apply eff_bind_Ok in H as (taken & t1 & t5 & H2 & H & ->). injection H2 as _ <-.
  destruct taken; [discriminate H|]. apply mret_Ok in H as [_ ->].
  split; [done|]. apply bind_Ok in H1 as (d1 & Hd1 & H1). apply bind_Ok in H1 as (d2 & Hd2 & H1).
  destruct (d1 =? d2) eqn:E; [discriminate H1|]. exists d1, d2. split_and!; try done. lia.
Qed.

Lemma emits_validate_inputs i : emits no_created (validate_inputs i).
Proof.
  unfold validate_inputs, drill_error. emits_steps; [apply (emits_now_files fs)|apply emits_for_each|intros h'; apply List.Forall_nil..].
  intros directory _. emits_steps. apply (emits_now_files fs).
Qed.

Lemma emits_copied source target : emits no_created (copy_exclusive w source target).
Proof. apply emits_one. intros h. by eexists. Qed.

(** The anchor of the greatest name, which carries its number. *)
Definition is_latest (names : list string) (name : string) (n : Z) : Prop :=
  name ∈ names ∧ anchor_number name = Some n
  ∧ ∀ other, other ∈ names → anchor_number other ≠ None → str_le other name.

Lemma latest_anchor_Ok directory h name n t : latest_anchor directory h = (Some (Ok (name, n)), t) →
  t = [] ∧ ∃ names, listing h directory = Ok names ∧ is_latest names name n.
Proof.
  unfold latest_anchor. intros [H ->]%lift_Ok. split; [done|].
  apply bind_Ok in H as (names & Hn & H). exists names. split; [done|].
  destruct (last _) as [x|] eqn:E; [|discriminate H]. destruct (anchor_number x) eqn:En; [|discriminate H].
  injection H as <- <-. split_and!; [|done|].
  - by apply py_sorted_last in E as [[_ E]%list_elem_of_filter _].
  - intros other Ho Hnum. apply py_sorted_last in E as [_ E]. apply E, list_elem_of_filter.
    split; [|done]. by apply not_eq_None_Some.
Qed.

(** The trace of a drill up to its evidence. *)
Definition drill_trace (i : DrillInputs) (h t : history) (payload : jval) : Prop :=
  ∃ d1 d2 names name n out now o os rs anchor key head,
    let restored_export := path_div (restore_directory i) "audit-restored.jsonl" in
    let offloaded_anchor := path_div (external_directory i) name in
    let offloaded := Ran (offload_command OFFLOAD i) None (Ok out) in
    let copied := Copied (original_export i) restored_export (Ok ()) in
    let seen := h ++ [offloaded; copied] in
    t = [offloaded; copied; Dated now; Created (drill_evidence i) payload o]
    ∧ device h (anchor_directory i) = Ok d1 ∧ device h (external_directory i) = Ok d2 ∧ d1 ≠ d2
    ∧ listing h (anchor_directory i) = Ok names ∧ is_latest names name n
    ∧ read_json_lines json_loads (fs_text (fs seen) (original_export i)) = Ok os
    ∧ read_json_lines json_loads (fs_text (fs seen) restored_export) = Ok rs
    ∧ records_eq os rs = true ∧ linked previous_hash (canonical_payload json_dumps) sha256 GENESIS_HASH rs head
    ∧ (text ← fs_text (fs seen) offloaded_anchor; json_loads text) = Ok (JObj anchor)
    ∧ py_eq (obj_get anchor "recordCount") (JInt (Z.of_nat (length rs))) = true
    ∧ obj_get anchor "chainHead" = JStr head
    ∧ require_private_key (key_of seen (hmac_key_file i)) = Ok key
    ∧ py_str py_repr (get_or_empty anchor "signature") = hmac key (utf8_encode (sha256 (anchor_bytes py_repr anchor)))
    ∧ j_getitem payload "recordCount" = Ok (JInt (Z.of_nat (length rs)))
    ∧ j_getitem payload "anchorSequence" = Ok (JInt n).

Lemma file_sha256_Ok p h d t : file_sha256 fs sha256_hex p h = (Some (Ok d), t) → t = [].
Proof. by intros [= _ <-]. Qed.

(** the restore drill leaves evidence only after the anchor was offloaded to
    a store on another device, the export was copied to a new file, and the
    restored records were found to be those of the export, linked from the
    genesis hash to the head that the offloaded copy of the latest anchor names,
    with its record count and a signature under the private key; the evidence
    reports that count and that anchor's number. *)
Theorem drill_evidence_verified i h res t p d o :
  run_drill i h = (res, t) → Created p d o ∈ t → drill_trace i h t d.
Proof.
  unfold run_drill. intros H Hin.
  reached H (Created p d o) (apply emits_validate_inputs) as u1 H1.
  apply validate_inputs_Ok in H1 as (-> & d1 & d2 & Hd1 & Hd2 & Hd). rewrite app_nil_r in H. cbn beta in H.
  reached H (Created p d o) (intros h'; apply List.Forall_nil) as nn H1. destruct nn as [name n].
  apply latest_anchor_Ok in H1 as (-> & names & Hl & Hlatest). rewrite app_nil_r in H. cbn iota beta in H.
  reached H (Created p d o) (by apply emits_run) as out H1. apply run_Ok in H1 as ->. cbn beta in H.
  reached H (Created p d o) (apply emits_copied) as u2 H1. apply copy_new_Ok in H1 as ->. cbn beta in H.
  rewrite <-app_assoc in H. cbn [app] in H.
  reached H (Created p d o) (intros h'; apply List.Forall_nil) as count H1.
  apply lift_Ok in H1 as [Hv ->]. rewrite app_nil_r in H. cbn beta in H.
  apply verify_recovery_Ok in Hv as (os & rs & anchor & key & head & Ho & Hr & Heq & -> & Hlink & Ha & Hc & Hh & Hk & _ & Hs).
  reached H (Created p d o) (by apply emits_utcnow) as now H1. apply utcnow_Ok in H1 as ->. cbn beta in H.
  do 3 (reached H (Created p d o) (intros h'; apply List.Forall_nil) as ? H1; apply file_sha256_Ok in H1 as ->; cbn beta in H;
        rewrite app_nil_r in H).
  match goal with Hin : Created p d o ∈ _ |- _ => destruct (create_last _ _ _ _ _ _ _ _ _ H Hin) as [-> ->] end.
  exists d1, d2, names, name, n, out, now, o, os, rs, anchor, key, head. by split_and!.
Qed.
End drill_facts.

(** ** Examples *)

Definition sample_request : OffloadRequest :=
  mkRequest (parse_path "/anchors/anchor-1.json") "audit-anchors" "audit" 365 (parse_path "/evidence/offload.json") None None.

Definition sample_aws (command : list string) : string :=
  match command with
  | _ :: _ :: "get-bucket-versioning" :: _ => "versioning"
  | _ :: _ :: "get-object-lock-configuration" :: _ => "lock"
  | _ :: _ :: "put-object" :: _ => "put"
  | _ => "head"
  end.

Definition sample_aws_json (text : string) : result jval :=
  if String.eqb text "versioning" then Ok (JObj [("Status", JStr "Enabled")])
  else if String.eqb text "lock"
  then Ok (JObj [("ObjectLockConfiguration", JObj [("ObjectLockEnabled", JStr "Enabled")])])
  else if String.eqb text "put" then Ok (JObj [("VersionId", JStr "v1")])
  else Ok (JObj [("ObjectLockMode", JStr "COMPLIANCE"); ("ObjectLockRetainUntilDate", JStr "2027-01-01T00:00:00Z");
                 ("ChecksumSHA256", JStr "sum"); ("Metadata", JObj [("sha256", JStr "hex")])]).

Definition sample_offload_world : world :=
  mkWorld (λ _ _ _, Ok "") (λ _ c, Ok (0, sample_aws c)) (λ _, PrimFloat.zero) (λ _, mkDatetime 1735689600000000 (Some 0))
    (λ _ _, NoResponse) (λ _ _ _, Ok ()) (λ _ _ _, Ok ()).

Definition sample_offload_files : files :=
  mkFiles (λ _, Ok true) (λ _, Ok true) (λ _, Ok 0) (λ _, Ok 384)
    (λ p, Ok (if bool_decide (path_name p = "anchor-00000000000000000001.json") then utf8_encode "anchor"
              else utf8_encode ("first" +:+ String "010" "second"))).

Lemma offload_evidence_verified_witness :
  ∃ t evidence,
    offload_trace (λ _, sample_offload_files) sample_aws_json (λ _, "hex") (λ _, "sum") example_show (λ _, None)
      sample_request [] t evidence.
Proof.
  destruct (offload sample_offload_world (λ _, sample_offload_files) (λ _ _, Ok false) sample_aws_json
              (λ _, "hex") (λ _, "sum") example_show (λ _, None) sample_request []) as [[[evidence|e]|] t] eqn:E;
    [|vm_compute in E; discriminate E..].
  exists t, evidence.
  destruct (offload_evidence_verified sample_offload_world (λ _, sample_offload_files) (λ _ _, Ok false)
              sample_aws_json (λ _, "hex") (λ _, "sum") example_show (λ _, None) sample_request [] _ t E) as [H1 H2].
  apply (H1 (evidence_output sample_request) evidence (Ok ())).
  apply last_Some_elem_of, H2. reflexivity.
Defined.

Definition sample_drill : DrillInputs :=
  mkDrill (parse_path "/a/export.jsonl") (parse_path "/a/anchors") (parse_path "/a/key") (parse_path "/mnt/ext")
    (parse_path "/restore") (parse_path "/evidence/drill.json").

Definition sample_device (h : history) (p : fs_path) : result Z :=
  Ok (if bool_decide (p = parse_path "/mnt/ext") then 2 else 1).

Lemma drill_evidence_verified_witness :
  ∃ t payload,
    drill_trace (λ _, sample_offload_files) example_loads example_show example_sha example_hmac example_dumps
      sample_device (λ _ _, Ok ["README"; "anchor-00000000000000000001.json"]) (λ _ _, example_key)
      (parse_path "/repo/scripts/ops/offload_audit_anchor.sh") sample_drill [] t payload.
Proof.
  destruct (run_drill sample_offload_world (λ _, sample_offload_files) (λ _ _, Ok false) example_loads (λ _, "hex")
              example_show example_sha example_hmac example_dumps sample_device
              (λ _ _, Ok ["README"; "anchor-00000000000000000001.json"]) (λ _ _, example_key)
              (parse_path "/repo/scripts/ops/offload_audit_anchor.sh") sample_drill [])
    as [[[payload|e]|] t] eqn:E; [|vm_compute in E; discriminate E..].
  destruct t as [|e1 [|e2 [|e3 [|e4 t]]]]; [vm_compute in E; discriminate E..|].
  destruct e4 as [| | | | | | | |p d o| |]; try (vm_compute in E; discriminate E).
  exists (e1 :: e2 :: e3 :: Created p d o :: t), d.
  apply (drill_evidence_verified sample_offload_world (λ _, sample_offload_files) (λ _ _, Ok false) example_loads
           (λ _, "hex") example_show example_sha example_hmac example_dumps sample_device
           (λ _ _, Ok ["README"; "anchor-00000000000000000001.json"]) (λ _ _, example_key)
           (parse_path "/repo/scripts/ops/offload_audit_anchor.sh") sample_drill [] _ _ p d o E).
  do 3 right. left.
Defined.
