(* ===== verification/PyDecimal.v ===== *)
(** Decimal text: [int(str(n))] is [n], and stripping a text without white space
    changes nothing. *)

From stdpp Require Import base list strings pretty.
From Stdlib Require Import ZArith Lia Ascii.
From S2P Require Import Prelude PyStr PyStrFacts PyFloat PyJson PyText.

#[local] Open Scope Z_scope.

(** ASCII, and not white space. *)
Definition solid (a : ascii) : bool := (33 <=? code a) && (code a <? 128).

Lemma forall_chars_rev P s : forall_chars P (string_rev s) = forall_chars P s.
Proof.
  induction s as [|a s IH]; [done|]. rewrite string_rev_cons, forall_chars_app, IH. cbn.
  rewrite andb_true_r. apply andb_comm.
Qed.

Lemma strip_while_none width fuel s : width s = 0%nat → strip_while width fuel s = s.
Proof. intros Hs. destruct fuel; cbn; [done|]. by rewrite Hs. Qed.

Lemma solid_space a b c : solid a = true → space_bytes (code a) b c = 0%nat.
Proof.
  unfold solid, space_bytes. intros [H1 H2]%andb_prop. apply Z.leb_le in H1. apply Z.ltb_lt in H2.
  repeat (case_match; [|]); try done; exfalso; lia.
Qed.

Lemma strip_solid s : forall_chars solid s = true → strip s = s.
Proof.
  intros Hs. unfold strip, lstrip.
  assert (space_head s = 0%nat) as Hh.
  { destruct s as [|a s]; [done|]. cbn in Hs. apply andb_prop in Hs as [Ha _]. apply solid_space. done. }
  rewrite strip_while_none by done. unfold rstrip. rewrite strip_while_none; [apply string_rev_involutive|].
  rewrite <-forall_chars_rev in Hs. destruct (string_rev s) as [|a r]; [done|]. cbn in Hs.
  apply andb_prop in Hs as [Ha _]. unfold space_tail. change (char_at 0 (String a r)) with (code a).
  rewrite solid_space by done. unfold solid in Ha. cbn [Nat.eqb].
  set (b := char_at 1 _). set (c := char_at 2 _). unfold space_bytes.
  repeat (case_match; [|]); try done; exfalso; lia.
Qed.

Lemma pretty_digit x : is_digit (pretty_N_char x) = true ∧ (x < 10 → digit_value (pretty_N_char x) = Z.of_N x)%N.
Proof.
  unfold pretty_N_char. split; [by repeat case_match|]. intros Hx.
  assert (x = 0 ∨ x = 1 ∨ x = 2 ∨ x = 3 ∨ x = 4 ∨ x = 5 ∨ x = 6 ∨ x = 7 ∨ x = 8 ∨ x = 9)%N as Hc by lia.
  by repeat destruct Hc as [->|Hc]; try subst.
Qed.

Lemma pretty_N_go_spec x s :
  forall_chars is_digit (pretty_N_go x s) = forall_chars is_digit s ∧
  digits_to_Z_acc (pretty_N_go x s) 0 = digits_to_Z_acc s (Z.of_N x).
Proof.
  revert s. induction (N.lt_wf_0 x) as [x _ IH]. intros s.
  destruct (decide (0 < x)%N) as [Hx|Hx]; [|by assert (x = 0%N) as -> by lia].
  rewrite pretty_N_go_step by done. destruct (IH (x / 10)%N (N.div_lt x 10 Hx eq_refl) (String (pretty_N_char (x mod 10)) s)) as [-> ->].
  pose proof (pretty_digit (x mod 10)) as [Hd Hv]. cbn [forall_chars digits_to_Z_acc]. rewrite Hd. split; [done|].
  rewrite Hv by (apply N.mod_lt; lia). f_equal. rewrite N2Z.inj_div, N2Z.inj_mod. pose proof (Z.div_mod (Z.of_N x) 10). lia.
Qed.

Lemma pretty_N_digits x : forall_chars is_digit (pretty x) = true ∧ digits_to_Z (pretty x) = Z.of_N x ∧ pretty x ≠ "".
Proof.
  unfold pretty, pretty_N, digits_to_Z. destruct (decide (x = 0)%N) as [->|Hx]; [done|].
  destruct (pretty_N_go_spec x "") as [-> ->]. split; [done|]. split; [done|].
  intros E. destruct (pretty_N_go_spec x "") as [_ H]. rewrite E in H. cbn in H. lia.
Qed.

Lemma int_digits_all s b : forall_chars is_digit s = true → int_digits s b = b || negb (is_empty s).
Proof.
  revert b. induction s as [|a s IH]; intros b; cbn; [by rewrite orb_false_r|]. intros [Ha Hs]%andb_prop.
  rewrite Ha, IH by done. by destruct b.
Qed.

Lemma drop_underscores_digits s : forall_chars is_digit s = true → drop_underscores s = s.
Proof.
  induction s as [|a s IH]; [done|]. cbn. intros [Ha Hs]%andb_prop. rewrite IH by done.
  unfold is_digit in Ha. destruct (Z.eqb_spec (code a) 95); [lia|done].
Qed.

Lemma digit_solid s : forall_chars is_digit s = true → forall_chars solid s = true.
Proof. apply forall_chars_mono. intros a. unfold is_digit, solid. lia. Qed.

Lemma pretty_N_go_length k : ∀ x s, (x < 10 ^ N.of_nat k)%N → (String.length (pretty_N_go x s) <= k + String.length s)%nat.
Proof.
  induction k as [|k IH]; intros x s Hx.
  - assert (x = 0%N) as -> by (cbn in Hx; lia). done.
  - destruct (decide (0 < x)%N) as [Hp|Hp]; [|assert (x = 0%N) as -> by lia; rewrite pretty_N_go_0; lia].
    rewrite pretty_N_go_step by done. etransitivity; [apply IH|cbn; lia].
    rewrite Nat2N.inj_succ, N.pow_succ_r' in Hx. apply N.Div0.div_lt_upper_bound. lia.
Qed.

(** Sizes of machine objects have few digits. *)
Lemma str_of_size_length n : 0 <= n < 2 ^ 63 → (String.length (str_of_Z n) <= 19)%nat.
Proof.
  intros Hn. unfold str_of_Z. destruct n as [|n|n]; [cbn; lia| |lia].
  change (pretty (Z.pos n)) with (pretty_N_go (N.pos n) ""). etransitivity; [apply (pretty_N_go_length 19)|cbn; lia].
  change (10 ^ N.of_nat 19)%N with 10000000000000000000%N. lia.
Qed.

Lemma py_int_digits int_other (neg : bool) n : (String.length (pretty n) <= 4300)%nat →
  py_int int_other ((if neg then "-" else "") +:+ pretty n) = Ok (if neg then - Z.of_N n else Z.of_N n).
Proof.
  intros Hlen. destruct (pretty_N_digits n) as (Hd & Hv & Hne). unfold py_int. set (s := pretty n) in *.
  rewrite strip_solid by (rewrite forall_chars_app; apply andb_true_intro; split; [by destruct neg|by apply digit_solid]).
  assert (forall_chars is_ascii ((if neg then "-" else "") +:+ s) = true) as ->.
  { rewrite forall_chars_app. apply andb_true_intro. split; [by destruct neg|].
    eapply forall_chars_mono; [|exact Hd]. intros a. unfold is_digit, is_ascii. lia. }
  cbn [negb]. destruct s as [|a s'] eqn:Es; [done|].
  assert (is_digit a = true) as Ha by (cbn in Hd; by apply andb_prop in Hd as [-> _]).
  lazymatch goal with |- context [let '(_, _) := ?m in _] =>
    assert (m = (if neg then -1 else 1, String a s')) as -> end.
  { clear -Ha. destruct neg; [done|]. destruct a as [[] [] [] [] [] [] [] []]; try reflexivity; discriminate Ha. }
  rewrite int_digits_all by done. cbn [negb orb is_empty]. rewrite drop_underscores_digits by done.
  destruct (Nat.ltb_spec 4300 (String.length (String a s'))) as [Hlt|_]; [exfalso; lia|].
  rewrite Hv. f_equal. destruct neg; lia.
Qed.

(** [int] of digits alone. *)
Lemma py_int_only_digits int_other s : s ≠ "" → forall_chars is_digit s = true →
  py_int int_other s = (if Nat.ltb 4300 (String.length s) then value_error "Exceeds the limit for integer string conversion"
                        else Ok (digits_to_Z s)).
Proof.
  intros Hne Hd. unfold py_int. rewrite strip_solid by (by apply digit_solid).
  assert (forall_chars is_ascii s = true) as ->.
  { eapply forall_chars_mono; [|exact Hd]. intros a. unfold is_digit, is_ascii. lia. }
  cbn [negb]. destruct s as [|a s']; [done|].
  assert (is_digit a = true) as Ha by (cbn in Hd; by apply andb_prop in Hd as [-> _]).
  lazymatch goal with |- context [let '(_, _) := ?m in _] => assert (m = (1, String a s')) as -> end.
  { clear -Ha. destruct a as [[] [] [] [] [] [] [] []]; try reflexivity; discriminate Ha. }
  rewrite int_digits_all by done. cbn [negb orb is_empty]. rewrite drop_underscores_digits by done.
  by rewrite Z.mul_1_l.
Qed.

Lemma str_of_Z_sign n : str_of_Z n = (if n <? 0 then "-" else "") +:+ pretty (Z.to_N (Z.abs n)).
Proof. by destruct n. Qed.

(** [int(str(n)) == n] *)
Lemma py_int_str_of_Z int_other n : (String.length (str_of_Z n) <= 4300)%nat → py_int int_other (str_of_Z n) = Ok n.
Proof.
  rewrite str_of_Z_sign. intros Hlen. rewrite py_int_digits.
  - f_equal. destruct (Z.ltb_spec n 0); lia.
  - rewrite length_app_str in Hlen. lia.
Qed.

(** A number in decimal is ASCII without white space. *)
Lemma str_of_Z_solid n : forall_chars solid (str_of_Z n) = true.
Proof.
  rewrite str_of_Z_sign, forall_chars_app. apply andb_true_intro. split; [by destruct (n <? 0)|].
  by apply digit_solid, pretty_N_digits.
Qed.
