(* ===== verification/Firewall.v ===== *)
(** Network exposure checks: [scripts/ops/server01_firewall_drift_check.py] and
    [scripts/ops/docker_network_path_audit.py].

    Policies and inspected documents are JSON values.  IPv4 addresses are parsed
    here; whether a text is a loopback address in IPv6, the JSON codec, [repr],
    [int] of non-ASCII text, the order in which a set is walked and the name of
    an exception's class are parameters. *)

From stdpp Require Import base list strings sorting.
From Stdlib Require Import ZArith Lia Ascii.
From S2P Require Import Prelude PyStr PyStrFacts PyJson PyText Host Effects.

#[local] Open Scope Z_scope.

(** ** Addresses *)

(** A part of a dotted address: one to three ASCII digits, no leading zero, at most 255. *)
Definition octet (part : string) : option Z :=
  let n := digits_to_Z part in
  if forall_chars is_digit part && Nat.leb 1 (String.length part) && Nat.leb (String.length part) 3
     && (negb (startswith "0" part) || Nat.eqb (String.length part) 1) && (n <=? 255)
  then Some n else None.

(** [ipaddress.IPv4Address(text)] *)
Definition ipv4 (text : string) : option (list Z) :=
  match split_on "." text with
  | [_; _; _; _] as parts => mapM octet parts
  | _ => None
  end.

Section firewall.
Context (ipv6_loopback : string → bool).
Context (py_repr : jval → string) (int_other : string → option Z) (set_order : list string → list string)
  (json_loads : string → result jval) (type_name : exn → string) (default_policy_text : result string).

(** [scripts/ops/server01_firewall_drift_check.py:55-59] is_loopback *)
Definition is_loopback (host_ip : string) : bool :=
  match ipv4 host_ip with
  | Some (first :: _) => first =? 127
  | _ => ipv6_loopback host_ip
  end.

(** ** The drift check of the server's firewall *)

Definition COMMAND_TIMEOUT_SECONDS : Z := 5.
(** [scripts/ops/server01_firewall_drift_check.py:15-15] SERVER_NAME *)
Definition SERVER_NAME : string := "Server-01".

(** [scripts/ops/server01_firewall_drift_check.py:19-25] PortBinding *)
Record PortBinding : Type := mkBinding {
  container_name : string;
  protocol : string;
  container_port : Z;
  host_ip : string;
  host_port : Z
}.

(** [scripts/ops/server01_firewall_drift_check.py:28-32] CheckResult *)
Record CheckResult : Type := mkResult { cr_name : string; cr_status : string; cr_detail : string }.

(** [v.items()] *)
Definition j_pairs (v : jval) : result (list (string * jval)) :=
  match v with JObj d => Ok d | _ => throw ExcAttributeError "items" end.

(** [v or dflt] *)
Definition j_or (v dflt : jval) : jval := if j_truthy v then v else dflt.

(** [scripts/ops/server01_firewall_drift_check.py:42-51] binding_of: one iteration over the bindings of an endpoint *)
Definition binding_of (name port_text protocol : string) (host_binding : jval) : result PortBinding :=
  port ← py_int int_other port_text;
  ip ← j_get_or host_binding "HostIp" (JStr "");
  host ← j_get_or host_binding "HostPort" (JInt 0);
  published ← j_int int_other host;
  Ok (mkBinding name protocol port (py_str py_repr ip) published).

(** [scripts/ops/server01_firewall_drift_check.py:35-52] parse_bindings *)
Definition parse_bindings (inspect_payload : jval) : result (list PortBinding) :=
  containers ← j_items inspect_payload;
  found ← mapM (λ container,
    name ← j_get_or container "Name" (JStr "");
    settings ← j_get_or container "NetworkSettings" (JObj []);
    ports ← j_get_or settings "Ports" (JObj []);
    endpoints ← j_pairs (j_or ports (JObj []));
    per_endpoint ← mapM (λ '(container_endpoint, host_bindings),
      match split_once "/" container_endpoint with
      | (port_text, Some protocol) =>
          items ← j_items (j_or host_bindings (JList []));
          mapM (binding_of (removeprefix "/" (py_str py_repr name)) port_text protocol) items
      | (_, None) => value_error "not enough values to unpack"
      end) endpoints;
    Ok (concat per_endpoint)) containers;
  Ok (concat found).

(** [scripts/ops/server01_firewall_drift_check.py:62-68] load_policy *)
Definition load_policy (text : result string) : result jval :=
  t ← text;
  policy ← json_loads t;
  schema ← j_get policy "schemaVersion";
  _ ← raise_if (negb (py_eq schema (JStr "server01-docker-forwarding-policy-v1"))) ExcValueError
        "unsupported firewall policy schema";
  server ← j_get policy "server";
  _ ← raise_if (negb (py_eq server (JStr SERVER_NAME))) ExcValueError "firewall policy targets the wrong server";
  Ok policy.

Definition active_policy (policy : jval) : result jval :=
  if j_truthy policy then Ok policy else load_policy default_policy_text.

(** Longer names first; names of one length keep the order of the set. *)
Definition longer (a b : string) : Prop := (str_len b ≤ str_len a)%nat.
#[local] Instance longer_dec : RelDecision longer.
Proof. intros a b. unfold longer. apply _. Defined.

(** [scripts/ops/server01_firewall_drift_check.py:71-75] service_name *)
Definition service_name (container_name : string) (candidates : list string) : string :=
  match List.find (λ candidate, contains candidate container_name) (merge_sort longer (set_order candidates)) with
  | Some candidate => candidate
  | None => container_name
  end.

(** [port in v] for an integer. *)
Definition int_in (port : Z) (v : jval) : result bool :=
  match v with
  | JList l => Ok (existsb (λ x, py_eq (JInt port) x) l)
  | JObj _ => Ok false
  | _ => type_error "argument is not iterable"
  end.

(** [for start, end in v]: one item. *)
Definition unpack2 (v : jval) : result (jval * jval) :=
  items ← j_items v;
  match items with [a; b] => Ok (a, b) | _ => value_error "values to unpack (expected 2)" end.

(** [public_bindings.get(...)] of a value whose [set] can be taken. *)
Definition keyed (v : jval) : result (list (string * jval)) :=
  match v with
  | JObj d => Ok d
  | _ => items ← j_items v;
         if forallb is_str items then throw ExcAttributeError "get" else type_error "unhashable or without length"
  end.

(** [scripts/ops/server01_firewall_drift_check.py:78-90] public_binding_allowed *)
Definition public_binding_allowed (binding : PortBinding) (policy : jval) : result bool :=
  if is_loopback (host_ip binding) then Ok true else
  public_bindings ← j_getitem policy "dockerPublicBindings";
  entries ← keyed public_bindings;
  let service := service_name (container_name binding) (dict_keys entries) in
  match default JNull (dict_get entries service) with
  | JNull => Ok false
  | service_policy =>
      ports ← j_get_or service_policy (protocol binding) (JList []);
      listed ← int_in (container_port binding) ports;
      if listed : bool then Ok true else
      if negb (String.eqb (protocol binding) "udp") then Ok false else
      ranges ← j_get_or service_policy "udpRanges" (JList []);
      items ← j_items ranges;
      any_in (λ item,
        '(start, stop) ← unpack2 item;
        and_r (j_le start (JInt (container_port binding))) (j_le (JInt (container_port binding)) stop)) items
  end.

Definition binding_text (b : PortBinding) : string :=
  container_name b +:+ ":" +:+ host_ip b +:+ ":" +:+ str_of_Z (host_port b) +:+ "->"
  +:+ str_of_Z (container_port b) +:+ "/" +:+ protocol b.

(** [scripts/ops/server01_firewall_drift_check.py:93-102] check_public_bindings *)
Definition check_public_bindings (bindings : list PortBinding) (policy : jval) : result CheckResult :=
  active ← active_policy policy;
  denied ← filter_in (λ binding, not_r (public_binding_allowed binding active)) bindings;
  match denied with
  | [] => Ok (mkResult "docker.public_bindings" "PASS"
                ("validated " +:+ str_of_Z (Z.of_nat (length bindings)) +:+ " bindings"))
  | _ => Ok (mkResult "docker.public_bindings" "FAIL" (join ", " (map binding_text denied)))
  end.

(** [d[key]] as a condition. *)
Definition flag (d : jval) (key : string) : result bool := j_truthy <$> j_getitem d key.

Definition verdict (name : string) (ok : bool) (yes no : string) : CheckResult :=
  mkResult name (if ok then "PASS" else "FAIL") (if ok then yes else no).

Definition is_deny (line : string) : bool := contains "-j DROP" line || contains "-j REJECT" line.
Definition is_accept (line : string) : bool := contains "-j ACCEPT" line.
Definition is_return (line : string) : bool := contains "-j RETURN" line.

(** The rules before the first denying rule, and the rules after it. *)
Fixpoint at_first_deny (rules : list string) : list string * option (list string) :=
  match rules with
  | [] => ([], None)
  | line :: rules' => if is_deny line then ([], Some rules')
                      else let '(pre, post) := at_first_deny rules' in (line :: pre, post)
  end.

Definition rule_lines (rules : string) : list string :=
  List.filter truthy (map strip (splitlines rules)).
Definition chain_rules (lines : list string) : list string := List.filter (startswith "-A DOCKER-USER") lines.

(** [scripts/ops/server01_firewall_drift_check.py:105-143] check_docker_user_rules *)
Definition check_docker_user_rules (rules : string) (policy : jval) : result (list CheckResult) :=
  active ← active_policy policy;
  firewall_policy ← j_getitem active "firewall";
  let lines := rule_lines rules in
  if negb (existsb (String.eqb "-N DOCKER-USER") lines)
  then Ok [mkResult "firewall.docker_user_chain" "FAIL" "DOCKER-USER chain is missing"] else
  let established := existsb (λ line, contains "--ctstate RELATED,ESTABLISHED" line && is_accept line) lines in
  let chain := chain_rules lines in
  let '(before_deny, after_deny) := at_first_deny chain in
  let terminal_deny := bool_decide (after_deny ≠ None) in
  let unconditional_accept := existsb (String.eqb "-A DOCKER-USER -j ACCEPT") chain in
  let return_before_deny := existsb is_return before_deny in
  let accept_after_deny := existsb is_accept (default [] after_deny) in
  bypassed ← or_r (and_r (flag firewall_policy "forbidUnconditionalAccept") (Ok unconditional_accept))
              (or_r (and_r (flag firewall_policy "forbidReturnBeforeDeny") (Ok return_before_deny))
                    (Ok accept_after_deny));
  let ordered := negb bypassed in
  established_ok ← or_r (Ok established) (not_r (flag firewall_policy "requireEstablishedReturn"));
  deny_ok ← or_r (Ok terminal_deny) (not_r (flag firewall_policy "requireTerminalDeny"));
  Ok [verdict "firewall.established_return" established_ok "RELATED,ESTABLISHED traffic is accepted"
        "stateful return rule is missing";
      verdict "firewall.default_deny" deny_ok "terminal deny rule is present" "terminal DROP/REJECT is missing";
      verdict "firewall.rule_order" ordered "allow rules precede terminal deny"
        "ACCEPT/RETURN bypasses terminal deny"].

(** [scripts/ops/server01_firewall_drift_check.py:146-148] ufw_allows_port *)
Definition ufw_allows_port (line : string) (port : jval) : bool :=
  match words line with
  | [] => false
  | (first :: _) as fields => String.eqb (split_once "/" first).1 (py_str py_repr port)
                            && existsb (String.eqb "ALLOW") fields
  end.

(** [scripts/ops/server01_firewall_drift_check.py:151-181] check_ufw_status *)
Definition check_ufw_status (status_output : string) (policy : jval) : result (list CheckResult) :=
  firewall_policy ← j_getitem policy "hostFirewall";
  let active := contains "Status: active" status_output in
  let allow_lines := map strip (List.filter (contains "ALLOW") (splitlines status_output)) in
  let allowed port := existsb (λ line, ufw_allows_port line port) allow_lines in
  required ← (v ← j_getitem firewall_policy "requiredPublicTcp"; j_items v);
  let missing := List.filter (λ port, negb (allowed port)) required in
  private ← (v ← j_getitem firewall_policy "forbiddenPublicTcp"; j_items v);
  let forbidden := List.filter allowed private in
  Ok [verdict "firewall.ufw_active" active "UFW is active" "UFW is inactive";
      verdict "firewall.host_ingress_required" (bool_decide (missing = [])) "required host ingress is present"
        ("missing TCP ports: " +:+ py_repr (JList missing));
      verdict "firewall.host_ingress_private" (bool_decide (forbidden = [])) "private ports are not allowed by UFW"
        ("forbidden TCP ports: " +:+ py_repr (JList forbidden))].

(** [scripts/ops/server01_firewall_drift_check.py:184-192] check_firewall_backend *)
Definition check_firewall_backend (iptables_version nft_ruleset : string) : CheckResult :=
  let uses_nft := contains "nf_tables" iptables_version in
  let nft_has_docker_chain := contains "chain DOCKER-USER" nft_ruleset in
  let nft_has_active_hooks := contains " hook input " nft_ruleset || contains " hook forward " nft_ruleset in
  if uses_nft && nft_has_docker_chain
  then mkResult "firewall.backend_consistency" "PASS" "iptables-nft and nftables agree"
  else if negb uses_nft && negb nft_has_active_hooks
  then mkResult "firewall.backend_consistency" "PASS" "legacy iptables has no parallel nft hooks"
  else mkResult "firewall.backend_consistency" "FAIL" "iptables and nftables rules are split".

(** [scripts/ops/server01_firewall_drift_check.py:241-246] overall_status *)
Definition overall_status (results : list CheckResult) : string :=
  if existsb (λ r, String.eqb (cr_status r) "FAIL") results then "FAIL"
  else if existsb (λ r, String.eqb (cr_status r) "BLOCKED") results then "BLOCKED" else "PASS".

Section live.
Context (w : world).

(** [scripts/ops/server01_firewall_drift_check.py:195-205] run_command *)
Definition run_command (command : list string) : eff string :=
  '(returncode, stdout) ← execute w command;
  if negb (returncode =? 0)
  then raise ExcRuntimeError ("command failed: " +:+ default "" (head command)) else mret stdout.

(** [scripts/ops/server01_firewall_drift_check.py:208-212] inspect_running_containers *)
Definition inspect_running_containers : eff jval :=
  listed ← run_command ["docker"; "ps"; "--quiet"];
  match words listed with
  | [] => mret (JList [])
  | ids => inspected ← run_command (["docker"; "inspect"] ++ ids); lift (json_loads inspected)
  end.

Definition blocked (name : string) (e : exn) : eff (list CheckResult) := mret [mkResult name "BLOCKED" (type_name e)].

Definition OS_ERRORS : list exn_class := [ExcOSError; ExcRuntimeError; ExcSubprocessError].

(** [scripts/ops/server01_firewall_drift_check.py:217-218] the containers' published ports *)
Definition bindings_check (policy : jval) : eff (list CheckResult) :=
  containers ← inspect_running_containers;
  lift (bindings ← parse_bindings containers; r ← check_public_bindings bindings policy; Ok [r]).

(** [scripts/ops/server01_firewall_drift_check.py:215-238] collect_live_results *)
Definition collect_live_results (policy : jval) : eff (list CheckResult) :=
  public ← try_as (bindings_check policy) (OS_ERRORS ++ [ExcValueError; ExcJSONDecodeError])
             (blocked "docker.public_bindings");
  chain ← try_as (rules ← run_command ["iptables"; "-S"; "DOCKER-USER"]; lift (check_docker_user_rules rules policy))
            OS_ERRORS (blocked "firewall.docker_user_chain");
  ufw ← try_as (status ← run_command ["ufw"; "status"]; lift (check_ufw_status status policy))
          OS_ERRORS (blocked "firewall.ufw_status");
  backend ← try_as (version ← run_command ["iptables"; "--version"];
                    ruleset ← run_command ["nft"; "list"; "ruleset"];
                    mret [check_firewall_backend version ruleset])
              OS_ERRORS (blocked "firewall.backend_consistency");
  mret (public ++ chain ++ ufw ++ backend).

Definition asdict (r : CheckResult) : jval :=
  JObj [("name", JStr (cr_name r)); ("status", JStr (cr_status r)); ("detail", JStr (cr_detail r))].

(** [scripts/ops/server01_firewall_drift_check.py:256-275] main, from the parsed arguments *)
Definition firewall_main (check : bool) (policy_text : result string) : eff Z :=
  if check then _ ← print (JStr "Server-01 firewall drift check contract passed"); mret 0 else
  results ← match load_policy policy_text with
            | Ok policy => collect_live_results policy
            | Raise (PyErr c msg) =>
                if existsb (subclass c) [ExcOSError; ExcValueError; ExcJSONDecodeError]
                then mret [mkResult "policy.load" "FAIL" (type_name (PyErr c msg))] else lift (throw c msg)
            | Raise e => lift (Raise e)
            end;
  let status := overall_status results in
  _ ← print (JObj [("schemaVersion", JStr "server01-firewall-drift-v1"); ("server", JStr SERVER_NAME);
                   ("status", JStr status); ("mutation", JStr "none"); ("checks", JList (map asdict results))]);
  mret (if String.eqb status "PASS" then 0 else 1).
End live.
End firewall.

(** ** What a passing drift check shows *)

Section firewall_facts.
Context (ipv6_loopback : string → bool).
Context (py_repr : jval → string) (int_other : string → option Z) (set_order : list string → list string)
  (json_loads : string → result jval) (type_name : exn → string) (default_policy_text : result string).

Local Notation is_loopback := (is_loopback ipv6_loopback).
Local Notation service_name := (service_name set_order).
Local Notation public_binding_allowed := (public_binding_allowed ipv6_loopback set_order).
Local Notation parse_bindings := (parse_bindings py_repr int_other).
Local Notation ufw_allows_port := (ufw_allows_port py_repr).

(** A binding the policy allows: a loopback address, or a port of its protocol,
    or of a UDP range, listed for the service its container's name shows. *)
Definition binding_conforms (policy : jval) (b : PortBinding) : Prop :=
  is_loopback (host_ip b) = true
  ∨ ∃ entries rules, j_getitem policy "dockerPublicBindings" = Ok (JObj entries)
      ∧ dict_get entries (service_name (container_name b) (dict_keys entries)) = Some (JObj rules)
      ∧ ((∃ ports, dict_get rules (protocol b) = Some (JList ports)
                   ∧ ∃ port, port ∈ ports ∧ py_eq (JInt (container_port b)) port = true)
         ∨ protocol b = "udp" ∧ ∃ ranges start stop,
             j_items (default (JList []) (dict_get rules "udpRanges")) = Ok ranges
             ∧ (∃ range, range ∈ ranges ∧ unpack2 range = Ok (start, stop))
             ∧ j_le start (JInt (container_port b)) = Ok true ∧ j_le (JInt (container_port b)) stop = Ok true).

Lemma public_binding_allowed_Ok b policy : public_binding_allowed b policy = Ok true → binding_conforms policy b.
Proof.
  unfold public_binding_allowed. destruct (is_loopback (host_ip b)) eqn:El; [by left|]. intros H.
  apply bind_Ok in H as (public & Hp & H). apply bind_Ok in H as (entries & He & H).
  assert (public = JObj entries) as ->.
  { unfold keyed in He. destruct public; try (by injection He as ->);
      apply bind_Ok in He as (items & _ & He); destruct (forallb is_str items); discriminate He. }
  clear He. right.
  destruct (dict_get entries _) as [sp|] eqn:Hs; cbn [default] in H; [|discriminate H].
  destruct sp as [| | | | | |rules]; try (apply bind_Ok in H as (? & H & _); discriminate H); [discriminate H|].
  exists entries, rules. split_and!; [done..|].
  apply bind_Ok in H as (ports & Hports & H). injection Hports as <-.
  apply bind_Ok in H as ([] & Hl & H).
  - left. unfold int_in in Hl. destruct (dict_get rules (protocol b)) as [ports|]; cbn [default] in Hl.
    + destruct ports; try discriminate Hl. injection Hl as Hl.
      apply existsb_exists in Hl as (port & Hin & Hq). eexists. split; [done|]. exists port.
      split; [by apply list_elem_of_In|done].
    + discriminate Hl.
  - destruct (String.eqb (protocol b) "udp") eqn:Eu; [|discriminate H]. apply String.eqb_eq in Eu. cbn [negb] in H.
    right. split; [done|]. apply bind_Ok in H as (ranges & Hr & H). injection Hr as <-.
    apply bind_Ok in H as (items & Hi & H). apply any_in_true in H as (range & Hin & H).
    apply bind_Ok in H as ([start stop] & Hu & [H1 H2]%and_r_Ok).
    exists items, start, stop. split_and!; try done. by exists range.
Qed.

(** The DOCKER-USER chain as the policy wants it: the chain exists; what comes
    before its first denying rule returns nothing early, what comes after accepts
    nothing; replies to established connections are accepted. *)
Definition chain_conforms (firewall_policy : jval) (rules : string) : Prop :=
  let lines := rule_lines rules in
  let chain := chain_rules lines in
  "-N DOCKER-USER" ∈ lines
  ∧ (flag firewall_policy "requireEstablishedReturn" ≠ Ok false →
       ∃ line, line ∈ lines ∧ contains "--ctstate RELATED,ESTABLISHED" line = true ∧ is_accept line = true)
  ∧ (flag firewall_policy "forbidUnconditionalAccept" ≠ Ok false → "-A DOCKER-USER -j ACCEPT" ∉ chain)
  ∧ ((∃ before deny after, chain = before ++ deny :: after
        ∧ Forall (λ line, is_deny line = false) before ∧ is_deny deny = true
        ∧ (flag firewall_policy "forbidReturnBeforeDeny" ≠ Ok false → Forall (λ line, is_return line = false) before)
        ∧ Forall (λ line, is_accept line = false) after)
     ∨ flag firewall_policy "requireTerminalDeny" = Ok false
       ∧ Forall (λ line, is_deny line = false) chain
       ∧ (flag firewall_policy "forbidReturnBeforeDeny" ≠ Ok false → Forall (λ line, is_return line = false) chain)).

Lemma at_first_deny_spec rules before after : at_first_deny rules = (before, after) →
  Forall (λ line, is_deny line = false) before
  ∧ match after with
    | Some after => ∃ deny, rules = before ++ deny :: after ∧ is_deny deny = true
    | None => rules = before
    end.
Proof.
  revert before after. induction rules as [|line rules IH]; intros before after; cbn; [by intros [= <- <-]|].
  destruct (is_deny line) eqn:E.
  - intros [= <- <-]. split; [done|]. by exists line.
  - destruct (at_first_deny rules) as [pre post]. intros [= <- <-]. destruct (IH pre post eq_refl) as [Hpre Hpost].
    split; [by constructor|]. destruct post as [post|].
    + destruct Hpost as (deny & -> & Hd). by exists deny.
    + by rewrite Hpost at 1.
Qed.

Lemma existsb_eqb s l : existsb (String.eqb s) l = true ↔ s ∈ l.
Proof.
  rewrite existsb_exists. setoid_rewrite <-list_elem_of_In. setoid_rewrite String.eqb_eq. split.
  - by intros (x & Hx & ->).
  - intros Hs. by exists s.
Qed.

Definition passes (results : list CheckResult) : Prop := Forall (λ r, cr_status r = "PASS") results.

Lemma overall_status_PASS results :
  Forall (λ r, cr_status r ∈ ["PASS"; "FAIL"; "BLOCKED"]) results → overall_status results = "PASS" → passes results.
Proof.
  unfold overall_status. intros Hall H.
  destruct (existsb _ _) eqn:E1; [discriminate H|]. destruct (existsb (λ r, String.eqb _ "BLOCKED") _) eqn:E2; [discriminate H|].
  apply existsb_false in E1, E2. unfold passes. rewrite !Forall_forall in *. intros r Hr.
  specialize (Hall r Hr). specialize (E1 r Hr). specialize (E2 r Hr). apply String.eqb_neq in E1, E2.
  rewrite !elem_of_cons in Hall. destruct Hall as [?|[?|[?|[]%not_elem_of_nil]]]; done.
Qed.

Lemma verdict_PASS name ok yes no : cr_status (verdict name ok yes no) = "PASS" → ok = true.
Proof. by destruct ok. Qed.

Lemma and_flag_false r b : and_r r (Ok b) = Ok false → r ≠ Ok false → b = false.
Proof. destruct r as [[]|]; cbn; congruence. Qed.

Lemma docker_user_PASS rules policy results :
  j_truthy policy = true → check_docker_user_rules json_loads default_policy_text rules policy = Ok results →
  passes results → ∃ fp, j_getitem policy "firewall" = Ok fp ∧ chain_conforms fp rules.
Proof.
  unfold check_docker_user_rules, active_policy. intros -> H Hp. cbn [mbind result_bind] in H.
  apply bind_Ok in H as (fp & Hfp & H). exists fp. split; [done|]. unfold chain_conforms.
  destruct (existsb _ (rule_lines rules)) eqn:En; cbn [negb] in H;
    [|injection H as <-; apply Forall_cons in Hp as [[=] _]].
  apply existsb_eqb in En. set (lines := rule_lines rules) in *. set (chain := chain_rules lines) in *.
  destruct (at_first_deny chain) as [before after] eqn:Ed. apply at_first_deny_spec in Ed as [Hb Ha].
  apply bind_Ok in H as (bypassed & Hby & H). apply bind_Ok in H as (est & He & H).
  apply bind_Ok in H as (deny & Hd & H). injection H as <-.
  apply Forall_cons in Hp as [->%verdict_PASS Hp]. apply Forall_cons in Hp as [->%verdict_PASS Hp].
  apply Forall_cons in Hp as [Hp%verdict_PASS _]. apply negb_true_iff in Hp as ->.
  apply or_r_false in Hby as [Hu Hby]. apply or_r_false in Hby as [Hr Hacc]. injection Hacc as Hacc.
  apply existsb_false in Hacc. split_and!.
  - done.
  - intros Hf. unfold or_r in He. cbn [mbind result_bind] in He.
    destruct (existsb _ lines) eqn:E; [|apply not_r_Ok in He; done].
    apply existsb_exists in E as (line & Hl%list_elem_of_In & [H1 H2]%andb_true_iff). by exists line.
  - intros Hf. apply and_flag_false in Hu; [|done]. intros Hin%existsb_eqb. by rewrite Hin in Hu.
  - assert (flag fp "forbidReturnBeforeDeny" ≠ Ok false → Forall (λ line, is_return line = false) before) as Hret.
    { intros Hf. apply and_flag_false in Hr; [|done]. by apply existsb_false. }
    destruct after as [after|].
    + left. destruct Ha as (d & Hc & Hdeny). by exists before, d, after.
    + right. rewrite <-Ha in Hb, Hret. unfold or_r in Hd. cbn in Hd. by apply not_r_Ok in Hd.
Qed.

(** A line of UFW's listing that allows exactly this port: its first word, up to
    a slash, is the port, and one of its words is [ALLOW]. *)
Definition line_allows (line : string) (port : jval) : Prop :=
  ∃ first rest, words line = first :: rest ∧ (split_once "/" first).1 = py_str py_repr port ∧ "ALLOW" ∈ first :: rest.

Lemma ufw_allows_port_spec line port : ufw_allows_port line port = true ↔ line_allows line port.
Proof.
  unfold Firewall.ufw_allows_port, line_allows. destruct (words line) as [|first rest].
  - split; [done|]. by intros (? & ? & [=] & _).
  - rewrite andb_true_iff, String.eqb_eq, existsb_eqb. split.
    + intros [H1 H2]. by exists first, rest.
    + by intros (? & ? & [= <- <-] & H).
Qed.

(** The host's own firewall as the policy wants it. *)
Definition ufw_conforms (policy : jval) (status : string) : Prop :=
  let allow_lines := map strip (List.filter (contains "ALLOW") (splitlines status)) in
  ∃ fp required private,
    j_getitem policy "hostFirewall" = Ok fp
    ∧ (v ← j_getitem fp "requiredPublicTcp"; j_items v) = Ok required
    ∧ (v ← j_getitem fp "forbiddenPublicTcp"; j_items v) = Ok private
    ∧ contains "Status: active" status = true
    ∧ (∀ port, port ∈ required → ∃ line, line ∈ allow_lines ∧ line_allows line port)
    ∧ (∀ port line, port ∈ private → line ∈ allow_lines → ¬ line_allows line port).

Lemma ufw_PASS status policy results :
  check_ufw_status py_repr status policy = Ok results → passes results → ufw_conforms policy status.
Proof.
  unfold check_ufw_status. intros H Hp. apply bind_Ok in H as (fp & Hfp & H).
  apply bind_Ok in H as (required & Hreq & H). apply bind_Ok in H as (private & Hpriv & H). injection H as <-.
  apply Forall_cons in Hp as [Hact%verdict_PASS Hp]. apply Forall_cons in Hp as [Hm%verdict_PASS Hp].
  apply Forall_cons in Hp as [Hf%verdict_PASS _]. apply bool_decide_eq_true_1 in Hm, Hf.
  apply filter_none in Hm, Hf. rewrite Forall_forall in Hm, Hf.
  exists fp, required, private. split_and!; try done.
  - intros port Hin. specialize (Hm port Hin). apply negb_false_iff, existsb_exists in Hm as (line & Hl & Ha).
    exists line. split; [by apply list_elem_of_In|by apply ufw_allows_port_spec].
  - intros port line Hin Hl. specialize (Hf port Hin). apply existsb_false in Hf. rewrite Forall_forall in Hf.
    rewrite <-ufw_allows_port_spec, (Hf line Hl). done.
Qed.

(** Where the rules of the chain really are. *)
Definition backend_conforms (iptables_version nft_ruleset : string) : Prop :=
  if contains "nf_tables" iptables_version then contains "chain DOCKER-USER" nft_ruleset = true
  else contains " hook input " nft_ruleset = false ∧ contains " hook forward " nft_ruleset = false.

Lemma backend_PASS version ruleset :
  cr_status (check_firewall_backend version ruleset) = "PASS" → backend_conforms version ruleset.
Proof.
  unfold check_firewall_backend, backend_conforms.
  destruct (contains "nf_tables" version), (contains "chain DOCKER-USER" ruleset),
    (contains " hook input " ruleset), (contains " hook forward " ruleset); done.
Qed.

Lemma bindings_PASS bindings policy r :
  j_truthy policy = true →
  check_public_bindings ipv6_loopback set_order json_loads default_policy_text bindings policy = Ok r →
  cr_status r = "PASS" → Forall (binding_conforms policy) bindings.
Proof.
  unfold check_public_bindings, active_policy. intros -> H Hp. cbn [mbind result_bind] in H.
  apply bind_Ok in H as (denied & Hd & H). destruct denied; [|by injection H as <-].
  apply filter_in_nil in Hd. eapply Forall_impl; [exact Hd|]. intros b Hb.
  apply not_r_Ok in Hb. by apply public_binding_allowed_Ok.
Qed.

(** The statuses the checks use. *)
Lemma verdict_status name ok yes no : cr_status (verdict name ok yes no) ∈ ["PASS"; "FAIL"; "BLOCKED"].
Proof. destruct ok; cbn; rewrite !elem_of_cons; auto. Qed.

Definition ranked (results : list CheckResult) : Prop :=
  Forall (λ r, cr_status r ∈ ["PASS"; "FAIL"; "BLOCKED"]) results.

Lemma ranked_docker_user rules policy results :
  check_docker_user_rules json_loads default_policy_text rules policy = Ok results → ranked results.
Proof.
  unfold check_docker_user_rules. intros H. apply bind_Ok in H as (active & _ & H).
  apply bind_Ok in H as (fp & _ & H). destruct (existsb _ _); cbn [negb] in H.
  - destruct (at_first_deny _) as [before after].
    repeat (apply bind_Ok in H as (? & _ & H)). injection H as <-. unfold ranked. rewrite !Forall_cons. split_and!; [apply verdict_status..|done].
  - injection H as <-. repeat constructor.
Qed.

Lemma ranked_ufw status policy results : check_ufw_status py_repr status policy = Ok results → ranked results.
Proof.
  unfold check_ufw_status. intros H. repeat (apply bind_Ok in H as (? & _ & H)). injection H as <-.
  unfold ranked. rewrite !Forall_cons. split_and!; [apply verdict_status..|done].
Qed.

Lemma ranked_backend version ruleset : ranked [check_firewall_backend version ruleset].
Proof.
  unfold check_firewall_backend. constructor; [|done].
  destruct (_ && _); [repeat constructor|]. destruct (_ && _); repeat constructor.
Qed.

Lemma ranked_bindings bindings policy r :
  check_public_bindings ipv6_loopback set_order json_loads default_policy_text bindings policy = Ok r → ranked [r].
Proof.
  unfold check_public_bindings. intros H. apply bind_Ok in H as (? & _ & H). apply bind_Ok in H as (denied & _ & H).
  destruct denied; injection H as <-; repeat constructor.
Qed.

Lemma load_policy_Ok text policy : load_policy json_loads text = Ok policy →
  j_truthy policy = true ∧ j_get policy "schemaVersion" = Ok (JStr "server01-docker-forwarding-policy-v1")
  ∧ j_get policy "server" = Ok (JStr SERVER_NAME).
Proof.
  unfold load_policy. intros H. apply bind_Ok in H as (t & _ & H). apply bind_Ok in H as (p & _ & H).
  apply bind_Ok in H as (schema & Hs & H). apply bind_Ok in H as (u & G1 & H).
  apply bind_Ok in H as (server & Hv & H). apply bind_Ok in H as (u' & G2 & [= <-]).
  apply raise_if_Ok, negb_false_iff, py_eq_str in G1, G2. subst. split_and!; try done.
  destruct p as [| | | | | |d]; try discriminate Hs. by destruct d.
Qed.

Section live_facts.
Context (w : world).

Lemma run_command_Ok c h out t : run_command w c h = (Some (Ok out), t) → t = [Executed c (Ok (0, out))].
Proof.
  unfold run_command. intros H. apply eff_bind_Ok in H as ([code stdout] & t1 & t2 & H1 & H & ->).
  apply execute_Ok in H1 as ->. cbn iota beta in H. destruct (code =? 0) eqn:E; [|discriminate H].
  apply Z.eqb_eq in E as ->. cbn [negb] in H. apply mret_Ok in H as [-> ->]. done.
Qed.

(** The inspection of the running containers that [seen] records. *)
Definition inspected (seen : history) (containers : jval) : Prop :=
  ∃ listed, let ps := Executed ["docker"; "ps"; "--quiet"] (Ok (0, listed)) in
    words listed = [] ∧ seen = [ps] ∧ containers = JList []
    ∨ ∃ text, words listed ≠ []
        ∧ seen = [ps; Executed (["docker"; "inspect"] ++ words listed) (Ok (0, text))]
        ∧ json_loads text = Ok containers.

Lemma inspect_Ok h containers t : inspect_running_containers json_loads w h = (Some (Ok containers), t) →
  inspected t containers.
Proof.
  unfold inspect_running_containers. intros H. apply eff_bind_Ok in H as (listed & t1 & t2 & H1 & H & ->).
  apply run_command_Ok in H1 as ->. exists listed. cbn zeta. destruct (words listed) as [|x ids].
  - apply mret_Ok in H as [<- ->]. by left.
  - apply eff_bind_Ok in H as (text & t1 & t3 & H1 & H & ->). apply run_command_Ok in H1 as ->.
    apply lift_Ok in H as [H ->]. right. by exists text.
Qed.

(** A check that raised is reported as blocked. *)
Lemma checked_PASS (m : eff (list CheckResult)) classes name h results t :
  try_as m classes (blocked type_name name) h = (Some (Ok results), t) →
  passes results → m h = (Some (Ok results), t).
Proof.
  intros [H|(e & t1 & t2 & H1 & H2 & ->)]%try_as_Ok Hp; [done|].
  unfold blocked in H2. apply mret_Ok in H2 as [<- _]. by apply Forall_cons in Hp as [[=] _].
Qed.

Lemma checked_ranked (m : eff (list CheckResult)) classes name h results t :
  (∀ h results t, m h = (Some (Ok results), t) → ranked results) →
  try_as m classes (blocked type_name name) h = (Some (Ok results), t) → ranked results.
Proof.
  intros Hm [H|(e & t1 & t2 & H1 & H2 & ->)]%try_as_Ok; [by eapply Hm|].
  unfold blocked in H2. apply mret_Ok in H2 as [<- _]. repeat constructor.
Qed.

(** What the live checks saw, when all of them pass. *)
Definition live_conforms (policy : jval) (t : history) : Prop :=
  ∃ fp containers bindings seen rules status version ruleset,
    t = seen ++ [Executed ["iptables"; "-S"; "DOCKER-USER"] (Ok (0, rules)); Executed ["ufw"; "status"] (Ok (0, status));
                 Executed ["iptables"; "--version"] (Ok (0, version));
                 Executed ["nft"; "list"; "ruleset"] (Ok (0, ruleset))]
    ∧ inspected seen containers ∧ parse_bindings containers = Ok bindings
    ∧ Forall (binding_conforms policy) bindings
    ∧ j_getitem policy "firewall" = Ok fp ∧ chain_conforms fp rules
    ∧ ufw_conforms policy status ∧ backend_conforms version ruleset.

Local Notation collect := (collect_live_results ipv6_loopback py_repr int_other set_order json_loads type_name
                             default_policy_text w).

Lemma collect_ranked policy h results t : collect policy h = (Some (Ok results), t) → ranked results.
Proof.
  unfold collect_live_results. intros H.
  apply eff_bind_Ok in H as (r1 & ? & ? & B1 & H & _). apply eff_bind_Ok in H as (r2 & ? & ? & B2 & H & _).
  apply eff_bind_Ok in H as (r3 & ? & ? & B3 & H & _). apply eff_bind_Ok in H as (r4 & ? & ? & B4 & H & _).
  apply mret_Ok in H as [<- _].
  assert (ranked r1 ∧ ranked r2 ∧ ranked r3 ∧ ranked r4) as (R1 & R2 & R3 & R4);
    [|unfold ranked in *; by rewrite !Forall_app].
  split_and!; [eapply checked_ranked, B1|eapply checked_ranked, B2|eapply checked_ranked, B3|eapply checked_ranked, B4];
    clear; intros h r t H; apply eff_bind_Ok in H as (v & ? & ? & _ & H & _).
  - apply lift_Ok in H as [H _]. apply bind_Ok in H as (bs & _ & H). apply bind_Ok in H as (rb & H & [= <-]).
    by eapply ranked_bindings.
  - apply lift_Ok in H as [H _]. by eapply ranked_docker_user.
  - apply lift_Ok in H as [H _]. by eapply ranked_ufw.
  - apply eff_bind_Ok in H as (v' & ? & ? & _ & H & _). apply mret_Ok in H as [<- _]. apply ranked_backend.
Qed.

Lemma collect_PASS policy h results t :
  j_truthy policy = true → collect policy h = (Some (Ok results), t) → overall_status results = "PASS" →
  live_conforms policy t.
Proof.
  intros Ht H Hp. pose proof (collect_ranked _ _ _ _ H) as Hr. apply overall_status_PASS in Hp; [clear Hr|done].
  unfold collect_live_results in H.
  apply eff_bind_Ok in H as (r1 & ? & ? & B1 & H & ->). apply eff_bind_Ok in H as (r2 & ? & ? & B2 & H & ->).
  apply eff_bind_Ok in H as (r3 & ? & ? & B3 & H & ->). apply eff_bind_Ok in H as (r4 & ? & ? & B4 & H & ->).
  apply mret_Ok in H as [<- ->].
  unfold passes in Hp. rewrite !Forall_app in Hp. destruct Hp as (P1 & P2 & P3 & P4).
  apply checked_PASS in B1, B2, B3, B4; [|done..].
  apply eff_bind_Ok in B1 as (containers & seen & ? & I1 & B1 & ->).
  apply inspect_Ok in I1. apply lift_Ok in B1 as [B1 ->]. apply bind_Ok in B1 as (bindings & Hb & B1).
  apply bind_Ok in B1 as (r & Hr & [= <-]). apply Forall_cons in P1 as [P1 _].
  apply eff_bind_Ok in B2 as (rules & ? & ? & C2 & B2 & ->). apply run_command_Ok in C2 as ->.
  apply lift_Ok in B2 as [B2 ->]. apply docker_user_PASS in B2 as (fp & Hfp & Hchain); [|done..].
  apply eff_bind_Ok in B3 as (status & ? & ? & C3 & B3 & ->). apply run_command_Ok in C3 as ->.
  apply lift_Ok in B3 as [B3 ->]. apply ufw_PASS in B3; [|done].
  apply eff_bind_Ok in B4 as (version & ? & ? & C4 & B4 & ->). apply run_command_Ok in C4 as ->.
  apply eff_bind_Ok in B4 as (ruleset & ? & ? & C5 & B4 & ->). apply run_command_Ok in C5 as ->.
  apply mret_Ok in B4 as [<- ->]. apply Forall_cons in P4 as [P4%backend_PASS _].
  exists fp, containers, bindings, seen, rules, status, version, ruleset.
  split_and!; try done; [by rewrite ?app_nil_r, <-?app_assoc|by eapply bindings_PASS].
Qed.

(** C17: the drift check exits with 0 in two cases.  With [--check] it prints
    its contract line and has neither read the policy nor run a command.
    Otherwise it loaded the policy of this server, ran each of its read-only
    commands successfully, and found that: every published port of every running
    container is bound to a loopback address or listed for its service; the
    DOCKER-USER chain exists and, as far as the policy's flags ask, accepts
    established replies, holds no unconditional ACCEPT, and has a rule with
    [-j DROP] or [-j REJECT] with no RETURN before the first such rule, while no
    ACCEPT ever follows that rule; UFW is active, some ALLOW line starts with each
    required port and none starts with a private one; and the rules are in the
    backend that is in use.  The denying rule may be restricted to some traffic,
    and an ALLOW line for a range or a list of ports is compared as it is
    written, so neither the denial of all other traffic nor the privacy of a port
    inside a range is shown. *)
Theorem firewall_conforms check text h t :
  firewall_main ipv6_loopback py_repr int_other set_order json_loads type_name default_policy_text w check text h
    = (Some (Ok 0), t) →
  check = true ∧ t = [Printed (JStr "Server-01 firewall drift check contract passed")]
  ∨ check = false ∧ ∃ policy checked payload,
    load_policy json_loads text = Ok policy
    ∧ j_get policy "schemaVersion" = Ok (JStr "server01-docker-forwarding-policy-v1")
    ∧ j_get policy "server" = Ok (JStr SERVER_NAME)
    ∧ t = checked ++ [Printed payload] ∧ j_get payload "status" = Ok (JStr "PASS") ∧ live_conforms policy checked.
Proof.
  unfold firewall_main. destruct check.
  { intros H. apply eff_bind_Ok in H as (u & t1 & t2 & H1 & H & ->). injection H1 as _ <-.
    apply mret_Ok in H as [_ ->]. by left. }
  intros H. right. split; [done|]. apply eff_bind_Ok in H as (results & t1 & t2 & H1 & H & ->).
  apply eff_bind_Ok in H as (u & t3 & t4 & Hprint & H & ->). injection Hprint as _ <-.
  apply mret_Ok in H as [Hcode ->].
  destruct (String.eqb (overall_status results) "PASS") eqn:Ep; [|discriminate Hcode]. apply String.eqb_eq in Ep.
  destruct (load_policy json_loads text) as [policy|[c msg|]] eqn:El; [| |discriminate H1].
  - destruct (load_policy_Ok _ _ El) as (Ht & Hschema & Hserver). eexists policy, t1, _.
    split_and!; [done..|by rewrite Ep|by eapply collect_PASS].
  - destruct (existsb (subclass c) _); [|discriminate H1]. apply mret_Ok in H1 as [<- _]. discriminate Ep.
Qed.
End live_facts.
End firewall_facts.

(** ** Examples *)

Definition sample_firewall_policy : jval :=
  JObj [("schemaVersion", JStr "server01-docker-forwarding-policy-v1"); ("server", JStr "Server-01");
        ("dockerPublicBindings", JObj [("turn-primary", JObj [("tcp", JList [JInt 3478]); ("udp", JList [JInt 3478]);
           ("udpRanges", JList [JList [JInt 49160; JInt 49200]])])]);
        ("hostFirewall", JObj [("requiredPublicTcp", JList [JInt 443]); ("forbiddenPublicTcp", JList [JInt 5432; JInt 6379])]);
        ("firewall", JObj [("requireEstablishedReturn", JBool true); ("requireTerminalDeny", JBool true);
           ("forbidUnconditionalAccept", JBool true); ("forbidReturnBeforeDeny", JBool true)])].

Definition sample_binding (ip port : string) : jval := JObj [("HostIp", JStr ip); ("HostPort", JStr port)].

Definition sample_containers : jval :=
  JList [JObj [("Name", JStr "/gcs-turn-primary-1");
               ("NetworkSettings", JObj [("Ports", JObj [("3478/tcp", JList [sample_binding "0.0.0.0" "3478"]);
                  ("49170/udp", JList [sample_binding "0.0.0.0" "49170"]); ("9641/tcp", JNull)])])];
         JObj [("Name", JStr "/postgres");
               ("NetworkSettings", JObj [("Ports", JObj [("5432/tcp", JList [sample_binding "127.0.0.1" "5432"])])])]].

Definition lines_of (l : list string) : string := join (String "010" "") l.

Definition sample_rules : string :=
  lines_of ["-N DOCKER-USER"; "-A DOCKER-USER -m conntrack --ctstate RELATED,ESTABLISHED -j ACCEPT";
            "-A DOCKER-USER -p tcp -m tcp --dport 3478 -j ACCEPT"; "-A DOCKER-USER -j DROP"].

Definition sample_command (c : list string) : string :=
  match c with
  | "docker" :: "ps" :: _ => "c1 c2"
  | "docker" :: _ => "containers"
  | "ufw" :: _ => lines_of ["Status: active"; "443/tcp    ALLOW    Anywhere"]
  | ["iptables"; "--version"] => "iptables v1.8.7 (nf_tables)"
  | "nft" :: _ => "chain DOCKER-USER {"
  | _ => sample_rules
  end.

Definition sample_network_json (text : string) : result jval :=
  if String.eqb text "policy" then Ok sample_firewall_policy else Ok sample_containers.

Definition sample_server : world :=
  mkWorld (λ _ _ _, Ok "") (λ _ c, Ok (0, sample_command c)) (λ _, PrimFloat.zero) (λ _, PyTime.mkDatetime 0 (Some 0))
    (λ _ _, NoResponse) (λ _ _ _, Ok ()) (λ _ _ _, Ok ()).

Lemma firewall_conforms_witness :
  ∃ policy checked, load_policy sample_network_json (Ok "policy") = Ok policy
    ∧ live_conforms (λ _, false) (λ _, "") (λ _, None) (λ l, l) sample_network_json policy checked.
Proof.
  destruct (firewall_main (λ _, false) (λ _, "") (λ _, None) (λ l, l) sample_network_json (λ _, "Error") (Ok "")
              sample_server false (Ok "policy") []) as [[[code|e]|] t] eqn:E; [|vm_compute in E; discriminate E..].
  assert (code = 0) as -> by (vm_compute in E; by injection E as <- _).
  destruct (firewall_conforms (λ _, false) (λ _, "") (λ _, None) (λ l, l) sample_network_json (λ _, "Error") (Ok "")
              sample_server false (Ok "policy") [] t E)
    as [[[=] _]|(_ & policy & checked & payload & Hp & _ & _ & _ & _ & Hl)].
  exists policy, checked. split; [exact Hp|exact Hl].
Defined.

(** A UFW rule for a range or a list of ports is not matched against the private ports inside it. *)
Example ufw_range_undetected :
  check_ufw_status (λ _, "") (lines_of ["Status: active"; "443/tcp ALLOW Anywhere"; "5000:7000/tcp ALLOW Anywhere"])
    sample_firewall_policy
  = Ok [mkResult "firewall.ufw_active" "PASS" "UFW is active";
        mkResult "firewall.host_ingress_required" "PASS" "required host ingress is present";
        mkResult "firewall.host_ingress_private" "PASS" "private ports are not allowed by UFW"].
Proof. vm_compute. reflexivity. Qed.

(** A rule that drops some traffic counts as the terminal deny, so a chain that lets the rest through passes. *)
Example conditional_drop_terminal :
  is_ok (check_docker_user_rules sample_network_json (Ok "")
    (lines_of ["-N DOCKER-USER"; "-A DOCKER-USER -m conntrack --ctstate RELATED,ESTABLISHED -j ACCEPT";
               "-A DOCKER-USER -s 10.9.9.9/32 -j DROP"; "-A DOCKER-USER -j RETURN"]) sample_firewall_policy) = true
  ∧ overall_status match check_docker_user_rules sample_network_json (Ok "")
      (lines_of ["-N DOCKER-USER"; "-A DOCKER-USER -m conntrack --ctstate RELATED,ESTABLISHED -j ACCEPT";
                 "-A DOCKER-USER -s 10.9.9.9/32 -j DROP"; "-A DOCKER-USER -j RETURN"]) sample_firewall_policy
    with Ok rs => rs | Raise _ => [] end = "PASS".
Proof. split; vm_compute; reflexivity. Qed.
