(* ===== verification/NetworkAudit.v ===== *)
(** The audit of a rendered Compose document against the network path policy:
    [scripts/ops/docker_network_path_audit.py].

    Loopback in IPv6, the JSON codec, [repr], [int] of non-ASCII text, published
    ports written with non-ASCII characters and class names are parameters. *)

From stdpp Require Import base list strings sorting.
From Stdlib Require Import ZArith Lia Ascii.
From S2P Require Import Prelude PyStr PyStrFacts PyJson PyText PyDecimal Host Effects Evidence Firewall.

#[local] Open Scope Z_scope.

Definition audit_error {A} (msg : string) : result A := throw ExcNetworkAuditError msg.

(** [scripts/ops/docker_network_path_audit.py:12-12] SCHEMA_VERSION *)
Definition SCHEMA_VERSION : string := "gcs-saker.network-path-policy.v1".

(** [scripts/ops/docker_network_path_audit.py:19-23] Check *)
Record Check : Type := mkCheck { c_name : string; c_status : string; c_detail : string }.

(** The part of [body] before its last [":-"] and the part after it, where neither is empty. *)
Fixpoint last_default (body : string) : option (string * string) :=
  match body with
  | "" => None
  | String c rest =>
      match last_default rest with
      | Some (before, after) => Some (String c before, after)
      | None => if startswith ":-" rest && truthy (string_drop 2 rest)
                then Some (String c "", string_drop 2 rest) else None
      end
  end.

(** The text before the first ["}"], if there is one. *)
Definition upto_brace (s : string) : option string :=
  match split_once "}" s with (body, Some _) => Some body | _ => None end.

(** [re.match(r"^\$\{[^}]+:-([^}]+)\}", port)] *)
Definition host_match (port : string) : option string :=
  if startswith "${" port then
    body ← upto_brace (string_drop 2 port); snd <$> last_default body
  else None.

(** [re.search(r":(\d+)(?:/(?:tcp|udp))?$", port)] of ASCII text. *)
Definition target_match (port : string) : option string :=
  let line := removesuffix (String "010" "") port in
  let text := if endswith "/tcp" line then removesuffix "/tcp" line else removesuffix "/udp" line in
  match rsplit_once ":" text with
  | Some (_, digits) => if truthy digits && forall_chars is_digit digits then Some digits else None
  | None => None
  end.

Section audit.
Context (ipv6_loopback : string → bool).
Context (py_repr : jval → string) (int_other : string → option Z) (json_loads : string → result jval)
  (type_name : exn → string) (other_port : string → result (jval * string)).

(** [scripts/ops/docker_network_path_audit.py:91-95] is_loopback *)
Definition is_loopback (host : string) : bool := Firewall.is_loopback ipv6_loopback host.

(** [scripts/ops/docker_network_path_audit.py:26-30] load_json *)
Definition load_json (text : result string) : result (list (string * jval)) :=
  t ← text;
  document ← json_loads t;
  match document with JObj d => Ok d | _ => audit_error "JSON document must be an object" end.

(** [scripts/ops/docker_network_path_audit.py:33-37] load_policy *)
Definition load_policy (text : result string) : result (list (string * jval)) :=
  policy ← load_json text;
  _ ← raise_if (negb (py_eq (obj_get policy "schemaVersion") (JStr SCHEMA_VERSION))) ExcNetworkAuditError
        "network policy schema is invalid";
  Ok policy.

(** [scripts/ops/docker_network_path_audit.py:40-46] network_names *)
Definition network_names (service : jval) : result (list string) :=
  networks ← j_get_or service "networks" (JObj []);
  match networks with
  | JList l => Ok (map (py_str py_repr) l)
  | JObj d => Ok (dict_keys d)
  | _ => audit_error "service networks are invalid"
  end.

(** [services.get(name, {})] where [name] is a key. *)
Definition service_of (services : jval) (name : string) : result jval := j_get_or services name (JObj []).

(** [set(v)] as the list of its elements. *)
Definition j_set (v : jval) : result (list jval) :=
  items ← j_items v;
  if forallb hashable items then Ok items else type_error "unhashable type".

(** [names == set(v)] *)
Definition equals_set (names : list string) (v : list jval) : bool :=
  forallb is_str v && same_set names (omap (λ x, match x with JStr s => Some s | _ => None end) v).

Definition verdict (name detail failures : string) (failed : list string) : Check :=
  match failed with
  | [] => mkCheck name "PASS" detail
  | _ => mkCheck name "FAIL" (failures +:+ join "," (py_sorted failed))
  end.

(** [scripts/ops/docker_network_path_audit.py:49-57] check_memberships *)
Definition check_memberships (compose policy : list (string * jval)) : result Check :=
  let services := default (JObj []) (dict_get compose "services") in
  memberships ← (v ← j_getitem (JObj policy) "memberships"; j_pairs v);
  failures ← filter_in (λ '(name, expected),
    service ← service_of services name;
    actual ← network_names service;
    wanted ← j_set expected;
    Ok (negb (equals_set actual wanted))) memberships;
  Ok (verdict "network.memberships" "exact membership matrix" "mismatched services: " failures.*1).

(** A name that is used as a key: every hashable value can be looked up, only texts are found. *)
Definition get_any (d : jval) (key dflt : jval) : result jval :=
  match key with
  | JStr s => j_get_or d s dflt
  | _ => match d with
         | JObj _ => if hashable key then Ok dflt else type_error "unhashable type"
         | _ => throw ExcAttributeError "get"
         end
  end.

(** [",".join(sorted(l))] and [",".join(l)] need texts. *)
Definition texts (l : list jval) : result (list string) := mapM as_str l.

(** [scripts/ops/docker_network_path_audit.py:60-64] check_internal_networks *)
Definition check_internal_networks (compose policy : list (string * jval)) : result Check :=
  let networks := default (JObj []) (dict_get compose "networks") in
  names ← (v ← j_getitem (JObj policy) "internalNetworks"; j_items v);
  failures ← filter_in (λ name,
    network ← get_any networks name (JObj []);
    internal ← j_get network "internal";
    Ok (negb (is_true internal))) names;
  failed ← texts failures;
  Ok (verdict "network.internal_bridges" "private bridges are internal" "non-internal networks: " failed).

(** [a & b] of sets of names, as lists. *)
Definition meets (a b : list string) : bool := existsb (λ x, bool_decide (x ∈ b)) a.

(** [scripts/ops/docker_network_path_audit.py:70-72] reachable_pair: one iteration over the denied pairs *)
Definition reachable_pair (services pair : jval) : result (list string) :=
  '(source, target) ← unpack2 pair;
  s ← get_any services source (JObj []); names ← network_names s;
  t ← get_any services target (JObj []); others ← network_names t;
  Ok (if meets names others then [py_str py_repr source +:+ "->" +:+ py_str py_repr target] else []).

(** [scripts/ops/docker_network_path_audit.py:67-74] check_denied_peers *)
Definition check_denied_peers (compose policy : list (string * jval)) : result Check :=
  let services := default (JObj []) (dict_get compose "services") in
  pairs ← (v ← j_getitem (JObj policy) "deniedPeerPairs"; j_items v);
  reachable ← mapM (reachable_pair services) pairs;
  match concat reachable with
  | [] => Ok (mkCheck "network.denied_peers" "PASS" "denied peers share no network")
  | found => Ok (mkCheck "network.denied_peers" "FAIL" ("reachable denied peers: " +:+ join "," found))
  end.

(** One entry of the ports of a service: nothing, or a target (none is [JNull]) and a host. *)
(** [scripts/ops/docker_network_path_audit.py:80-87] binding_of *)
Definition binding_of (port : jval) : result (list (jval * string)) :=
  match port with
  | JObj d =>
      let target := obj_get d "target" in
      if is_int target
      then Ok [(target, py_str py_repr (default (JStr "0.0.0.0") (dict_get d "host_ip")))] else Ok []
  | JStr s =>
      if negb (forall_chars is_ascii s) then b ← other_port s; Ok [b] else
      let host := match host_match s with Some host => host | None => (split_once ":" s).1 end in
      match target_match s with
      | Some digits => n ← py_int int_other digits; Ok [(JInt n, host)]
      | None => Ok [(JNull, host)]
      end
  | _ => Ok []
  end.

(** [scripts/ops/docker_network_path_audit.py:77-88] published_bindings *)
Definition published_bindings (service : jval) : result (list (jval * string)) :=
  ports ← j_get_or service "ports" (JList []);
  items ← j_items (j_or ports (JList []));
  bindings ← mapM binding_of items;
  Ok (concat bindings).

Definition j_elem (x : jval) (l : list jval) : bool := existsb (py_eq x) l.

(** [scripts/ops/docker_network_path_audit.py:98-111] check_published_ports *)
Definition check_published_ports (compose policy : list (string * jval)) : result Check :=
  allowed ← (v ← j_getitem (JObj policy) "publicPortServices"; j_set v);
  forbidden ← (v ← j_getitem (JObj policy) "forbiddenPublishedContainerPorts"; j_set v);
  services ← j_pairs (default (JObj []) (dict_get compose "services"));
  failures ← filter_in (λ '(name, service),
    bindings ← published_bindings service;
    let public_targets := map fst (List.filter (λ b, negb (is_loopback b.2)) bindings) in
    Ok (match public_targets with [] => false | _ => negb (j_elem (JStr name) allowed) end
        || existsb (λ target, j_elem target forbidden) public_targets)) services;
  Ok (verdict "network.published_ports" "published ports follow ingress policy" "forbidden publications: " failures.*1).

(** [scripts/ops/docker_network_path_audit.py:114-122] audit *)
Definition audit (compose policy : list (string * jval)) : result (list Check) :=
  if negb (is_dict (obj_get compose "services")) || negb (is_dict (obj_get compose "networks"))
  then audit_error "rendered Compose document is invalid" else
  memberships ← check_memberships compose policy;
  internal ← check_internal_networks compose policy;
  denied ← check_denied_peers compose policy;
  published ← check_published_ports compose policy;
  Ok [memberships; internal; denied; published].

Definition check_json (c : Check) : jval :=
  JObj [("name", JStr (c_name c)); ("status", JStr (c_status c)); ("detail", JStr (c_detail c))].

(** [scripts/ops/docker_network_path_audit.py:131-134] audit_documents: the line printed and the exit status, if nothing is raised *)
Definition audit_documents (compose_text policy_text : result string) : result (jval * Z) :=
  compose ← load_json compose_text;
  policy ← load_policy policy_text;
  checks ← audit compose policy;
  let status := if forallb (λ c, String.eqb (c_status c) "PASS") checks then "PASS" else "FAIL" in
  Ok (JObj [("schemaVersion", JStr SCHEMA_VERSION); ("status", JStr status); ("checks", JList (map check_json checks))],
      if String.eqb status "PASS" then 0 else 1).

(** [scripts/ops/docker_network_path_audit.py:125-137] main: the line printed and the exit status *)
Definition audit_main (compose_text policy_text : result string) : result (jval * Z) :=
  match audit_documents compose_text policy_text with
  | Raise (PyErr c msg) =>
      if existsb (subclass c) [ExcOSError; ExcValueError; ExcJSONDecodeError; ExcNetworkAuditError]
      then Ok (JObj [("schemaVersion", JStr SCHEMA_VERSION); ("status", JStr "FAIL");
                     ("errorCode", JStr (type_name (PyErr c msg)))], 1)
      else Raise (PyErr c msg)
  | r => r
  end.
End audit.

(** ** What an entry of the ports of a service publishes *)

(** A short entry with a default: [${NAME:-HOST}...], the last [":-"] before
    the first ["}"] that leaves a host. *)
Definition short_default (s host : string) : Prop :=
  ∃ name rest, s = "${" +:+ name +:+ ":-" +:+ host +:+ String "}" rest
    ∧ name ≠ "" ∧ host ≠ "" ∧ has_char "}" name = false ∧ has_char "}" host = false
    ∧ ∀ a b, host = a +:+ ":-" +:+ b → b = "".

(** Without one, the host is what stands before the first colon. *)
Definition short_host (s host : string) : Prop :=
  short_default s host
  ∨ (∀ h, ¬ short_default s h) ∧ has_char ":" host = false ∧ (s = host ∨ ∃ rest, s = host +:+ String ":" rest).

(** The digits behind the last colon, with the protocol and a final newline left out. *)
Definition short_digits (s digits : string) : Prop :=
  ∃ before protocol newline, s = before +:+ String ":" "" +:+ digits +:+ protocol +:+ newline
    ∧ digits ≠ "" ∧ forall_chars is_digit digits = true
    ∧ protocol ∈ [""; "/tcp"; "/udp"] ∧ newline ∈ [""; String "010" ""].

Section publication.
Context (py_repr : jval → string) (other_port : string → result (jval * string)).

(** [entry_publishes port target host]: the entry [port] publishes the container
    port [target], [JNull] when it names none, on the address [host]. *)
Inductive entry_publishes : jval → jval → string → Prop :=
| publishes_long d target : dict_get d "target" = Some target → is_int target = true →
    entry_publishes (JObj d) target (py_str py_repr (default (JStr "0.0.0.0") (dict_get d "host_ip")))
| publishes_port s digits host : forall_chars is_ascii s = true → short_digits s digits → short_host s host →
    entry_publishes (JStr s) (JInt (digits_to_Z digits)) host
| publishes_no_port s host : forall_chars is_ascii s = true → (∀ digits, ¬ short_digits s digits) →
    short_host s host → entry_publishes (JStr s) JNull host
| publishes_other s target host : forall_chars is_ascii s = false → other_port s = Ok (target, host) →
    entry_publishes (JStr s) target host.

(** An entry that does not stop the audit: its digits are within the limit of [int]. *)
Definition entry_readable (port : jval) : Prop :=
  match port with
  | JStr s => if forall_chars is_ascii s then ∀ digits, short_digits s digits → (String.length digits <= 4300)%nat
              else is_ok (other_port s) = true
  | _ => True
  end.
End publication.

(** The last default of a text, if one leaves a host. *)
Lemma last_default_spec body :
  match last_default body with
  | Some (name, host) => body = name +:+ ":-" +:+ host ∧ name ≠ "" ∧ host ≠ "" ∧ ∀ a b, host = a +:+ ":-" +:+ b → b = ""
  | None => ∀ name host, body = name +:+ ":-" +:+ host → name ≠ "" → host = ""
  end.
Proof.
  induction body as [|c rest IH]; cbn [last_default]; [intros [|? ?] host; done|].
  destruct (last_default rest) as [[name host]|].
  - destruct IH as (-> & _ & Hh & Hl). done.
  - destruct (startswith ":-" rest && truthy (string_drop 2 rest)) eqn:E.
    + apply andb_true_iff in E as [(t & ->)%startswith_spec Ht].
      pose proof (string_drop_app ":-" t) as Hd. cbn [String.length] in Hd. rewrite Hd in *.
      split; [done|]. split; [done|]. split; [by intros ->|].
      intros a b ->. apply (IH (":-" +:+ a)); [by rewrite app_assoc_str|done].
    + intros [|x name] host Heq Hn; [done|]. cbn in Heq. injection Heq as <- ->.
      destruct name as [|y name]; [|by eapply IH].
      change ("" +:+ ":-" +:+ host) with (":-" +:+ host) in E.
      rewrite (proj2 (startswith_spec ":-" _)) in E by (by exists host).
      pose proof (string_drop_app ":-" host) as Hd. cbn [String.length] in Hd. rewrite Hd in E. by destruct host.
Qed.

(** A longer name leaves a host that holds the other default. *)
Lemma default_cut n h n' h' : n +:+ ":-" +:+ h = n' +:+ ":-" +:+ h' →
  (∀ a b, h = a +:+ ":-" +:+ b → b = "") → h' ≠ "" → (∃ x, n' = n +:+ x) → n' = n.
Proof.
  intros E Hl Hh [x ->]. rewrite app_assoc_str in E.
  apply (f_equal (string_drop (String.length n))) in E. rewrite !string_drop_app in E.
  destruct x as [|c x]; [by rewrite app_nil_str|exfalso].
  cbn in E. injection E as <- E. destruct x as [|c x]; cbn in E; [discriminate E|]. injection E as <- E.
  apply Hh. by eapply Hl.
Qed.

Lemma last_default_Some body name host :
  last_default body = Some (name, host) ↔
  body = name +:+ ":-" +:+ host ∧ name ≠ "" ∧ host ≠ "" ∧ ∀ a b, host = a +:+ ":-" +:+ b → b = "".
Proof.
  pose proof (last_default_spec body) as H. split; [by intros E; rewrite E in H|].
  intros (Hb & Hn & Hh & Hl). destruct (last_default body) as [[n h]|]; [|by destruct Hh; eapply H].
  destruct H as (Hb' & Hn' & Hh' & Hl'). rewrite Hb in Hb'. assert (n = name) as ->.
  { destruct (app_cut _ _ _ _ Hb') as [(x & Hx & _)|(x & Hx & _)].
    - apply (default_cut name host n h); eauto.
    - symmetry. apply (default_cut n h name host); eauto. }
  apply (f_equal (string_drop (String.length name))) in Hb'. rewrite !string_drop_app in Hb'.
  apply (f_equal (string_drop (String.length ":-"))) in Hb'. rewrite !string_drop_app in Hb'. by rewrite Hb'.
Qed.

Lemma host_match_Some s host : host_match s = Some host ↔ short_default s host.
Proof.
  unfold host_match, short_default, upto_brace. split.
  - destruct (startswith "${" s) eqn:Es; [|done]. apply startswith_spec in Es as [t ->].
    pose proof (string_drop_app "${" t) as Hd. cbn [String.length] in Hd. rewrite Hd.
    destruct (split_once "}" t) as [body [rest|]] eqn:E; [|done]. cbn [mbind option_bind].
    apply split_once_Some in E as [-> Hb].
    destruct (last_default body) as [[name h]|] eqn:El; [|done]. intros [= ->].
    apply last_default_Some in El as (-> & ? & ? & ?). exists name, rest.
    rewrite !has_char_app in Hb. apply orb_false_iff in Hb as [? [_ ?]%orb_false_iff].
    split_and!; try done. by rewrite !app_assoc_str.
  - intros (name & rest & -> & Hn & Hh & Cn & Ch & Hl).
    rewrite (proj2 (startswith_spec "${" _)) by (by eexists).
    match goal with |- context [string_drop 2 ("${" +:+ ?t)] =>
      pose proof (string_drop_app "${" t) as Hd end.
    cbn [String.length] in Hd. rewrite Hd.
    replace (name +:+ ":-" +:+ host +:+ String "}" rest) with ((name +:+ ":-" +:+ host) +:+ String "}" rest)
      by (by rewrite !app_assoc_str).
    rewrite split_once_found by (rewrite !has_char_app, Cn, Ch; done). cbn [mbind option_bind].
    by rewrite (proj2 (last_default_Some _ name host)).
Qed.

Lemma short_host_spec s host :
  match host_match s with Some h => h | None => (split_once ":" s).1 end = host ↔ short_host s host.
Proof.
  unfold short_host. setoid_rewrite <-host_match_Some. destruct (host_match s) as [h|].
  - split; [intros ->; by left|]. intros [[= ->]|[H _]]; [done|]. by destruct (H h).
  - assert ((split_once ":" s).1 = host ↔
      has_char ":" host = false ∧ (s = host ∨ ∃ rest, s = host +:+ String ":" rest)) as ->.
    { destruct (has_char ":" s) eqn:Hc.
      - destruct (split_once ":" s) as [a [b|]] eqn:E.
        + apply split_once_Some in E as [-> Ha]. cbn. split; [intros ->; eauto|].
          intros [Hh [<-|[rest Hr]]]; [by rewrite Hc in Hh|].
          pose proof (split_once_found ":" a b Ha) as E1. rewrite Hr, split_once_found in E1 by done. by injection E1.
        + apply split_once_None in E as [_ E]. by rewrite Hc in E.
      - rewrite split_once_none by done. cbn. split; [intros <-; eauto|].
        intros [_ [->|[rest ->]]]; [done|]. rewrite has_char_app in Hc. cbn in Hc. by rewrite orb_true_r in Hc. }
    split; [intros H; right; split; [done|exact H]|intros [H|[_ H]]; [discriminate H|exact H]].
Qed.

Lemma target_match_Some s digits : target_match s = Some digits ↔ short_digits s digits.
Proof.
  unfold target_match, short_digits. split.
  - set (line := removesuffix (String "010" "") s). set (text := if endswith "/tcp" line then _ else _).
    destruct (rsplit_once ":" text) as [[before d]|] eqn:E; [|done].
    destruct (truthy d && forall_chars is_digit d) eqn:Ed; [|done]. intros [= ->].
    apply andb_true_iff in Ed as [Ht Hd]. apply rsplit_once_Some in E as [E _].
    assert (Hl : ∃ protocol, line = text +:+ protocol ∧ protocol ∈ [""; "/tcp"; "/udp"]).
    { subst text. destruct (endswith "/tcp" line) eqn:Et.
      - apply endswith_spec in Et as [t Ht']. exists "/tcp". rewrite Ht', removesuffix_app.
        split; [done|]. by right; left.
      - destruct (removesuffix_cases "/udp" line) as [H|H]; [exists ""|exists "/udp"].
        + rewrite app_nil_str. split; [exact H|left].
        + split; [exact H|]. by right; right; left. }
    destruct Hl as (protocol & Hl & Hp). rewrite E in Hl.
    assert (Hs : ∃ newline, s = line +:+ newline ∧ newline ∈ [""; String "010" ""]).
    { destruct (removesuffix_cases (String "010" "") s) as [H|H]; fold line in H; [exists ""|exists (String "010" "")].
      - rewrite app_nil_str. split; [exact H|left].
      - split; [exact H|]. by right; left. }
    destruct Hs as (newline & Hs & Hn). exists before, protocol, newline.
    split; [rewrite Hs, Hl, !app_assoc_str; reflexivity|]. split; [by intros ->|done].
  - intros (before & protocol & newline & -> & Hne & Hd & Hp & Hn).
    assert (Hfree : ∀ c, is_digit c = false → has_char c digits = false) by (intros c; by apply has_char_forall).
    set (core := before +:+ String ":" "" +:+ digits).
    assert (Hcore : ∀ p c, is_digit c = false → endswith (p +:+ String c "") core = false).
    { intros p c Hc. unfold core. rewrite <-app_assoc_str. by apply endswith_last; [|apply Hfree]. }
    assert (Hline : removesuffix (String "010" "") (before +:+ String ":" "" +:+ digits +:+ protocol +:+ newline)
                    = core +:+ protocol).
    { replace (before +:+ String ":" "" +:+ digits +:+ protocol +:+ newline) with ((core +:+ protocol) +:+ newline)
        by (unfold core; by rewrite !app_assoc_str).
      apply elem_of_cons in Hn as [->|[->|[]%not_elem_of_nil]%elem_of_cons]; [|apply removesuffix_app].
      rewrite app_nil_str. unfold removesuffix.
      assert (endswith (String "010" "") (core +:+ protocol) = false) as ->; [|done].
      rewrite !elem_of_cons in Hp. destruct Hp as [->|[->|[->|[]%not_elem_of_nil]]].
      - rewrite app_nil_str. by apply (Hcore "" "010"%char).
      - by apply (endswith_last "" "010"%char).
      - by apply (endswith_last "" "010"%char). }
    rewrite Hline. assert ((if endswith "/tcp" (core +:+ protocol) then removesuffix "/tcp" (core +:+ protocol)
                            else removesuffix "/udp" (core +:+ protocol)) = core) as ->.
    { rewrite !elem_of_cons in Hp. destruct Hp as [->|[->|[->|[]%not_elem_of_nil]]].
      - rewrite app_nil_str. assert (endswith "/tcp" core = false) as -> by exact (Hcore "/tc" "p"%char eq_refl).
        unfold removesuffix. by assert (endswith "/udp" core = false) as -> by exact (Hcore "/ud" "p"%char eq_refl).
      - rewrite (proj2 (endswith_spec "/tcp" _)) by (by exists core). apply removesuffix_app.
      - replace (endswith "/tcp" (core +:+ "/udp")) with false; [apply removesuffix_app|].
        unfold endswith. by rewrite string_rev_app. }
    unfold core. rewrite rsplit_once_found by (by apply Hfree).
    assert (truthy digits = true) as -> by (by destruct digits). by rewrite Hd.
Qed.

Section publication_facts.
Context (py_repr : jval → string) (int_other : string → option Z) (other_port : string → result (jval * string)).
Local Notation binding_of := (binding_of py_repr int_other other_port).
Local Notation entry_publishes := (entry_publishes py_repr other_port).
Local Notation entry_readable := (entry_readable other_port).

(** [binding_of] collects exactly what the entry publishes. *)
Lemma binding_of_spec port bindings target host : binding_of port = Ok bindings →
  (target, host) ∈ bindings ↔ entry_publishes port target host.
Proof.
  assert (Hone : ∀ (a b : jval * string), a ∈ [b] ↔ a = b) by (intros a b; apply list_elem_of_singleton).
  destruct port as [| | | |s|l|d]; cbn [NetworkAudit.binding_of];
    try (intros [= <-]; split; [intros []%not_elem_of_nil|by inversion 1]).
  - destruct (forall_chars is_ascii s) eqn:Ha; cbn [negb].
    + set (h := match host_match s with Some h => h | None => (split_once ":" s).1 end).
      pose proof (short_host_spec s) as Hh. fold h in Hh.
      destruct (target_match s) as [digits|] eqn:Et.
      * pose proof (proj1 (target_match_Some s digits) Et) as Hd. pose proof Hd as (_ & _ & _ & _ & Hne & Hdig & _).
        rewrite py_int_only_digits by done. destruct (Nat.ltb 4300 (String.length digits)); [done|]. intros [= <-].
        rewrite Hone. split.
        -- intros [= -> ->]. constructor; [done|done|by apply Hh].
        -- intros H. inversion H as [|s' d' h' _ Hd' Hh'|s' h' _ Hno _|s' t' h' Ha']; subst.
           ++ apply target_match_Some in Hd'. rewrite Et in Hd'. injection Hd' as ->. apply Hh in Hh' as ->. done.
           ++ by destruct (Hno digits).
           ++ congruence.
      * intros [= <-]. rewrite Hone. split.
        -- intros [= -> ->]. apply publishes_no_port; [done| |by apply Hh].
           intros digits Hd. apply target_match_Some in Hd. congruence.
        -- intros H. inversion H as [|s' d' h' _ Hd' Hh'|s' h' _ Hno Hh'|s' t' h' Ha']; subst.
           ++ apply target_match_Some in Hd'. congruence.
           ++ apply Hh in Hh' as ->. done.
           ++ congruence.
    + destruct (other_port s) as [b|] eqn:Eo; [|done]. intros [= <-]. rewrite Hone. split.
      * intros <-. by apply publishes_other.
      * intros H. inversion H; subst; congruence.
  - unfold obj_get. destruct (dict_get d "target") as [t|] eqn:Et; cbn [default id].
    + destruct (is_int t) eqn:Ei; intros [= <-].
      * rewrite Hone. split; [intros [= -> ->]; by constructor|]. intros H. inversion H; subst; congruence.
      * split; [intros []%not_elem_of_nil|]. intros H. inversion H; subst; congruence.
    + intros [= <-]. split; [intros []%not_elem_of_nil|]. intros H. inversion H; subst; congruence.
Qed.

Lemma binding_of_readable port : (∃ bindings, binding_of port = Ok bindings) ↔ entry_readable port.
Proof.
  destruct port as [| | | |s|l|d]; cbn [NetworkAudit.binding_of NetworkAudit.entry_readable]; try (split; [done|by eexists]).
  - destruct (forall_chars is_ascii s); cbn [negb]; [|destruct (other_port s); split; try done; [by eexists|by intros [? [=]]]].
    setoid_rewrite <-target_match_Some. destruct (target_match s) as [digits|] eqn:Et.
    + apply target_match_Some in Et as (_ & _ & _ & _ & Hne & Hd & _). rewrite py_int_only_digits by done.
      destruct (Nat.ltb_spec 4300 (String.length digits)).
      * split; [by intros [? [=]]|]. intros H1. specialize (H1 _ eq_refl). lia.
      * split; [intros _ ? [= <-]; lia|by eexists].
    + split; [done|by eexists].
  - split; [done|]. intros _. destruct (is_int _); by eexists.
Qed.
End publication_facts.

(** ** What a passing audit shows *)

Section audit_facts.
Context (ipv6_loopback : string → bool).
Context (py_repr : jval → string) (int_other : string → option Z) (json_loads : string → result jval)
  (type_name : exn → string) (other_port : string → result (jval * string)).

Local Notation is_loopback := (is_loopback ipv6_loopback).
Local Notation network_names := (network_names py_repr).
Local Notation published_bindings := (published_bindings py_repr int_other other_port).

Section policy.
Context (compose policy : list (string * jval)).
Let services : jval := default (JObj []) (dict_get compose "services").
Let networks : jval := default (JObj []) (dict_get compose "networks").

(** Every service of the matrix is on exactly its networks. *)
Definition memberships_exact : Prop :=
  ∃ memberships, (v ← j_getitem (JObj policy) "memberships"; j_pairs v) = Ok memberships
    ∧ ∀ name expected, (name, expected) ∈ memberships →
        ∃ service actual wanted, service_of services name = Ok service ∧ network_names service = Ok actual
          ∧ j_set expected = Ok wanted ∧ ∀ x, x ∈ wanted ↔ ∃ s, x = JStr s ∧ s ∈ actual.

(** Every private bridge is internal. *)
Definition bridges_internal : Prop :=
  ∃ names, (v ← j_getitem (JObj policy) "internalNetworks"; j_items v) = Ok names
    ∧ ∀ name, name ∈ names →
        ∃ network, get_any networks name (JObj []) = Ok network ∧ j_get network "internal" = Ok (JBool true).

(** Denied peers share no network. *)
Definition peers_apart : Prop :=
  ∃ pairs, (v ← j_getitem (JObj policy) "deniedPeerPairs"; j_items v) = Ok pairs
    ∧ ∀ pair, pair ∈ pairs →
        ∃ source target s t names others, unpack2 pair = Ok (source, target)
          ∧ get_any services source (JObj []) = Ok s ∧ network_names s = Ok names
          ∧ get_any services target (JObj []) = Ok t ∧ network_names t = Ok others
          ∧ ∀ network, network ∈ names → network ∉ others.

(** Only ingress services publish beyond loopback, and no forbidden container
    port: this holds of every entry that [entry_publishes] gives a meaning, and
    every entry of every service can be read. *)
Definition ports_private : Prop :=
  ∃ allowed forbidden entries,
    (v ← j_getitem (JObj policy) "publicPortServices"; j_set v) = Ok allowed
    ∧ (v ← j_getitem (JObj policy) "forbiddenPublishedContainerPorts"; j_set v) = Ok forbidden
    ∧ j_pairs services = Ok entries
    ∧ ∀ name service, (name, service) ∈ entries →
        ∃ ports, (v ← j_get_or service "ports" (JList []); j_items (j_or v (JList []))) = Ok ports
          ∧ ∀ port, port ∈ ports → entry_readable other_port port
              ∧ ∀ target host, entry_publishes py_repr other_port port target host → is_loopback host = false →
                  j_elem (JStr name) allowed = true ∧ j_elem target forbidden = false.

Lemma audit_verdict_PASS name detail failures failed :
  c_status (verdict name detail failures failed) = "PASS" ↔ failed = [].
Proof. destruct failed; [done|]. by split. Qed.

Lemma equals_set_spec names v :
  equals_set names v = true ↔ ∀ x, x ∈ v ↔ ∃ s, x = JStr s ∧ s ∈ names.
Proof.
  unfold equals_set. rewrite andb_true_iff, same_set_spec, forallb_forall.
  setoid_rewrite <-list_elem_of_In. setoid_rewrite list_elem_of_omap. split.
  - intros [Hs H] x. split.
    + intros Hx. pose proof (Hs x Hx) as Hstr. destruct x as [| | | |s| |]; try discriminate Hstr.
      exists s. split; [done|]. apply H. by exists (JStr s).
    + intros (s & -> & Hx). apply H in Hx as (y & Hy & E). destruct y; try discriminate E. by injection E as ->.
  - intros H. split.
    + intros x (s & -> & _)%H. done.
    + intros s. split.
      * intros Hs. exists (JStr s). split; [|done]. apply H. by exists s.
      * intros (y & Hy & E). apply H in Hy as (s' & -> & Hs'). by injection E as ->.
Qed.

(** A list comprehension that selects nothing. *)
Lemma filter_in_pair_nil {B} (f : string * B → result bool) l :
  filter_in f l = Ok [] ↔ ∀ a b, (a, b) ∈ l → f (a, b) = Ok false.
Proof.
  rewrite filter_in_nil, Forall_forall. split; [intros H a b; apply H|intros H [a b]; apply H].
Qed.

Lemma memberships_spec :
  (∃ c, check_memberships py_repr compose policy = Ok c ∧ c_status c = "PASS") ↔ memberships_exact.
Proof.
  unfold check_memberships, memberships_exact. split.
  - intros (c & (ms & Hm & (failures & Hf & [= <-])%bind_Ok)%bind_Ok & Hp%audit_verdict_PASS).
    destruct failures; [|discriminate Hp]. exists ms. split; [done|]. intros name expected Hin.
    rewrite filter_in_pair_nil in Hf. specialize (Hf _ _ Hin).
    apply bind_Ok in Hf as (service & Hs & Hf). apply bind_Ok in Hf as (actual & Ha & Hf).
    apply bind_Ok in Hf as (wanted & Hw & [= Hf]). apply negb_false_iff in Hf.
    exists service, actual, wanted. split_and!; try done. by apply equals_set_spec.
  - intros (ms & Hm & H). rewrite Hm. eexists. rewrite bind_Ok_l. split; [|apply audit_verdict_PASS; reflexivity].
    apply bind_Ok. exists []. split; [|done]. apply filter_in_pair_nil. intros name expected Hin.
    destruct (H _ _ Hin) as (service & actual & wanted & Hs & Ha & Hw & Heq). unfold services in Hs.
    rewrite Hs, bind_Ok_l, Ha, bind_Ok_l, Hw, bind_Ok_l. f_equal. by apply negb_false_iff, equals_set_spec.
Qed.

Lemma internal_spec :
  (∃ c, check_internal_networks compose policy = Ok c ∧ c_status c = "PASS") ↔ bridges_internal.
Proof.
  unfold check_internal_networks, bridges_internal. split.
  - intros (c & H & Hp). apply bind_Ok in H as (names & Hn & H). apply bind_Ok in H as (failures & Hf & H).
    apply bind_Ok in H as (failed & Ht & [= <-]). apply audit_verdict_PASS in Hp as ->.
    assert (failures = []) as ->.
    { destruct failures; [done|]. cbn in Ht. apply bind_Ok in Ht as (? & _ & Ht).
      apply bind_Ok in Ht as (? & _ & Ht). discriminate Ht. }
    exists names. split; [done|]. intros name Hin. apply filter_in_nil in Hf. rewrite Forall_forall in Hf.
    specialize (Hf _ Hin). apply bind_Ok in Hf as (network & Hnet & Hf). apply bind_Ok in Hf as (i & Hi & [= Hf]).
    exists network. split; [done|]. by destruct i as [|[]| | | | |].
  - intros (names & Hn & H). rewrite Hn. eexists. rewrite bind_Ok_l. split; [|apply audit_verdict_PASS; reflexivity].
    apply bind_Ok. exists []. split; [|done]. apply filter_in_nil, Forall_forall. intros name Hin.
    destruct (H _ Hin) as (network & Hnet & Hi). unfold networks in Hnet. by rewrite Hnet, bind_Ok_l, Hi.
Qed.

Lemma meets_false a b : meets a b = false ↔ ∀ x, x ∈ a → x ∉ b.
Proof.
  unfold meets. split.
  - intros H x Hx. apply existsb_false in H. rewrite Forall_forall in H. by apply H, bool_decide_eq_false_1 in Hx.
  - intros H. apply not_true_iff_false. intros (x & Hx & Hb%bool_decide_eq_true_1)%existsb_exists.
    by apply list_elem_of_In, H in Hx.
Qed.

(** A comprehension that collects from every item, and collects nothing. *)
Lemma mapM_concat_nil {A B} (f : A → result (list B)) l :
  (∃ found, mapM f l = Ok found ∧ concat found = []) ↔ ∀ a, a ∈ l → f a = Ok [].
Proof.
  induction l as [|a l IH]; cbn.
  - split; [intros _ a []%not_elem_of_nil|]. intros _. by exists [].
  - split.
    + intros (found & H & Hc). apply bind_Ok in H as (x & Hx & H). apply bind_Ok in H as (xs & Hxs & [= <-]).
      cbn in Hc. apply app_eq_nil in Hc as [-> Hc]. intros b [->|Hb]%elem_of_cons; [done|].
      apply IH; [|done]. by exists xs.
    + intros H. destruct (proj2 IH) as (xs & Hxs & Hc); [intros b Hb; apply H; by right|].
      exists ([] :: xs). rewrite (H a) by left. cbn. by rewrite Hxs.
Qed.

Lemma peers_spec :
  (∃ c, check_denied_peers py_repr compose policy = Ok c ∧ c_status c = "PASS") ↔ peers_apart.
Proof.
  unfold check_denied_peers, peers_apart. fold services.
  set (one := reachable_pair py_repr services). split.
  - intros (c & H & Hp). apply bind_Ok in H as (pairs & Hn & H). apply bind_Ok in H as (found & Hf & H).
    destruct (concat found) eqn:Ec; injection H as <-; [|discriminate Hp].
    exists pairs. split; [done|]. intros pair Hin.
    assert (one pair = Ok []) as Hone by (apply (mapM_concat_nil one pairs); [by exists found|done]).
    unfold one, reachable_pair in Hone. apply bind_Ok in Hone as ([source target] & Hu & Hone).
    apply bind_Ok in Hone as (s & Hs & Hone). apply bind_Ok in Hone as (names & Hnames & Hone).
    apply bind_Ok in Hone as (t & Ht & Hone). apply bind_Ok in Hone as (others & Ho & Hone).
    exists source, target, s, t, names, others. split_and!; try done. apply meets_false.
    by destruct (meets names others).
  - intros (pairs & Hn & H).
    destruct (proj2 (mapM_concat_nil one pairs)) as (found & Hf & Hc).
    + intros pair Hin. destruct (H _ Hin) as (source & target & s & t & names & others & Hu & Hs & Hnames & Ht & Ho & Hd).
      unfold one, reachable_pair. rewrite Hu, bind_Ok_l. cbn iota. rewrite Hs, bind_Ok_l, Hnames, bind_Ok_l, Ht, bind_Ok_l, Ho, bind_Ok_l.
      by apply meets_false in Hd as ->.
    + rewrite Hn, bind_Ok_l, Hf, bind_Ok_l, Hc. by eexists.
Qed.

Lemma refused_spec {A} (listed : bool) (f : A → bool) ts :
  match ts with [] => false | _ => negb listed end || existsb f ts = false ↔ ∀ t, t ∈ ts → listed = true ∧ f t = false.
Proof.
  rewrite orb_false_iff. split.
  - intros [Hl He] t Ht. apply existsb_false in He. rewrite Forall_forall in He. split; [|by apply He].
    destruct ts; [by apply not_elem_of_nil in Ht|by apply negb_false_iff].
  - intros H. split.
    + destruct ts as [|t ts]; [done|]. by destruct (H t) as [-> _]; [left|].
    + apply not_true_iff_false. intros (t & Ht%list_elem_of_In & Hf)%existsb_exists. destruct (H t Ht). congruence.
Qed.

Lemma public_targets_spec name allowed forbidden (bindings : list (jval * string)) :
  let public_targets := map fst (List.filter (λ b, negb (is_loopback b.2)) bindings) in
  match public_targets with [] => false | _ => negb (j_elem (JStr name) allowed) end
    || existsb (λ target, j_elem target forbidden) public_targets = false
  ↔ ∀ target host, (target, host) ∈ bindings → is_loopback host = false →
      j_elem (JStr name) allowed = true ∧ j_elem target forbidden = false.
Proof.
  intros ts. rewrite refused_spec. unfold ts. split.
  - intros H target host Hin Hh. apply H, list_elem_of_In, in_map_iff. exists (target, host).
    split; [done|]. apply filter_In. split; [by apply list_elem_of_In|]. cbn. by rewrite Hh.
  - intros H target Hin. apply list_elem_of_In, in_map_iff in Hin as ([t host] & <- & Hin).
    apply filter_In in Hin as [Hin%list_elem_of_In Hh%negb_true_iff]. by apply (H t host).
Qed.

(** The bindings of a service are what its entries publish. *)
Lemma published_bindings_spec service (P : jval → string → Prop) :
  (∃ bindings, published_bindings service = Ok bindings ∧ ∀ target host, (target, host) ∈ bindings → P target host)
  ↔ ∃ ports, (v ← j_get_or service "ports" (JList []); j_items (j_or v (JList []))) = Ok ports
      ∧ ∀ port, port ∈ ports → entry_readable other_port port
          ∧ ∀ target host, entry_publishes py_repr other_port port target host → P target host.
Proof.
  unfold NetworkAudit.published_bindings. split.
  - intros (bindings & H & HP). apply bind_Ok in H as (v & Hv & H). apply bind_Ok in H as (ports & Hi & H).
    apply bind_Ok in H as (found & Hm & [= <-]). exists ports. split; [by rewrite Hv|]. intros port Hin.
    apply mapM_Ok in Hm. apply list_elem_of_lookup in Hin as [i Hi'].
    destruct (Forall2_lookup_l _ _ _ _ _ Hm Hi') as (bs & Hbs & Hb). split; [by apply (binding_of_readable py_repr int_other); eexists|].
    intros target host Hpub. apply HP. apply list_elem_of_In, in_concat. exists bs.
    split; [by eapply list_elem_of_In, list_elem_of_lookup_2|].
    apply list_elem_of_In. by eapply binding_of_spec.
  - intros (ports & Hp & H). apply bind_Ok in Hp as (v & Hv & Hi). rewrite Hv, bind_Ok_l, Hi, bind_Ok_l.
    assert (∃ found, mapM (binding_of py_repr int_other other_port) ports = Ok found) as [found Hm].
    { clear Hi. induction ports as [|port ports IH]; [by eexists|]. destruct IH as [found IH]; [intros q Hq; apply H; by right|].
      destruct (proj2 (binding_of_readable py_repr int_other other_port port)) as [b Hb]; [apply H; left|].
      exists (b :: found). cbn. by rewrite Hb, bind_Ok_l, IH. }
    rewrite Hm, bind_Ok_l. exists (concat found). split; [done|]. intros target host Hin.
    apply list_elem_of_In, in_concat in Hin as (bs & Hbs & Hin). apply list_elem_of_In in Hbs, Hin.
    apply list_elem_of_lookup in Hbs as [i Hbs]. apply mapM_Ok in Hm.
    destruct (Forall2_lookup_r _ _ _ _ _ Hm Hbs) as (port & Hport & Hb). apply list_elem_of_lookup_2 in Hport.
    eapply H; [exact Hport|]. by eapply binding_of_spec.
Qed.

Lemma ports_spec :
  (∃ c, check_published_ports ipv6_loopback py_repr int_other other_port compose policy = Ok c ∧ c_status c = "PASS")
  ↔ ports_private.
Proof.
  unfold check_published_ports, ports_private. fold services. split.
  - intros (c & H & Hp). apply bind_Ok in H as (allowed & Ha & H). apply bind_Ok in H as (forbidden & Hf & H).
    apply bind_Ok in H as (entries & He & H). apply bind_Ok in H as (failures & Hfs & [= <-]).
    apply audit_verdict_PASS in Hp. destruct failures; [|discriminate Hp].
    exists allowed, forbidden, entries. split_and!; try done. intros name service Hin.
    rewrite filter_in_pair_nil in Hfs. specialize (Hfs _ _ Hin). apply bind_Ok in Hfs as (bindings & Hb & [= Hfs]).
    apply published_bindings_spec. exists bindings. split; [done|]. by apply public_targets_spec.
  - intros (allowed & forbidden & entries & Ha & Hf & He & H).
    rewrite Ha, bind_Ok_l, Hf, bind_Ok_l, He, bind_Ok_l. eexists. split; [|apply audit_verdict_PASS; reflexivity].
    apply bind_Ok. exists []. split; [|done]. apply filter_in_pair_nil. intros name service Hin.
    destruct (proj2 (published_bindings_spec _ _) (H _ _ Hin)) as (bindings & Hb & Hall). rewrite Hb, bind_Ok_l. f_equal. by apply public_targets_spec.
Qed.
End policy.

(** The document and the policy are objects, and the four promises hold. *)
Definition segmented (compose policy : list (string * jval)) : Prop :=
  is_dict (obj_get compose "services") = true ∧ is_dict (obj_get compose "networks") = true
  ∧ memberships_exact compose policy ∧ bridges_internal compose policy ∧ peers_apart compose policy
  ∧ ports_private compose policy.

Local Notation audit := (audit ipv6_loopback py_repr int_other other_port).

Lemma audit_spec compose policy :
  (∃ checks, audit compose policy = Ok checks ∧ forallb (λ c, String.eqb (c_status c) "PASS") checks = true)
  ↔ segmented compose policy.
Proof.
  unfold audit, segmented. rewrite <-memberships_spec, <-internal_spec, <-peers_spec, <-ports_spec.
  destruct (is_dict (obj_get compose "services")), (is_dict (obj_get compose "networks")); cbn [negb orb];
    [|split; [by intros (? & [=] & _)|naive_solver]..].
  split.
  - intros (checks & H & Hp). apply bind_Ok in H as (c1 & H1 & H). apply bind_Ok in H as (c2 & H2 & H).
    apply bind_Ok in H as (c3 & H3 & H). apply bind_Ok in H as (c4 & H4 & [= <-]).
    cbn [forallb] in Hp. rewrite !andb_true_iff, !String.eqb_eq in Hp. destruct Hp as (P1 & P2 & P3 & P4 & _).
    split_and!; [done..|by exists c1|by exists c2|by exists c3|by exists c4].
  - intros (_ & _ & (c1 & H1 & P1) & (c2 & H2 & P2) & (c3 & H3 & P3) & (c4 & H4 & P4)).
    exists [c1; c2; c3; c4]. rewrite H1, bind_Ok_l, H2, bind_Ok_l, H3, bind_Ok_l, H4. split; [done|].
    cbn [forallb]. by rewrite P1, P2, P3, P4.
Qed.

(** C16: the audit exits with 0 exactly when both documents load, the policy is
    of the right schema, every service of the membership matrix is on exactly
    its networks, every private bridge is internal, no two denied peers share a
    network, and the published ports follow the policy: every entry can be read,
    and an entry that publishes on an address beyond loopback belongs to an
    ingress service and names no forbidden container port.  What an entry
    publishes is given by its form: a long entry with an integer target publishes
    it on its [host_ip], or everywhere without one; a text publishes the digits
    behind its last colon on the default of its leading [${NAME:-HOST}], or else
    on what stands before its first colon.  Entries of any other form (a bare
    number, a long entry whose target is a text) are not judged: they pass
    whatever they publish. *)
Theorem audit_passes_iff_segmented compose_text policy_text :
  (∃ line, audit_main ipv6_loopback py_repr int_other json_loads type_name other_port compose_text policy_text
           = Ok (line, 0))
  ↔ ∃ compose policy, load_json json_loads compose_text = Ok compose
      ∧ load_json json_loads policy_text = Ok policy ∧ obj_get policy "schemaVersion" = JStr SCHEMA_VERSION
      ∧ segmented compose policy.
Proof.
  split.
  - intros (line & H). unfold audit_main in H.
    destruct (audit_documents _ _ _ _ _ _ _) as [r|[c msg|]] eqn:E; [injection H as ->| |discriminate H];
      [|by destruct (existsb (subclass c) _)].
    unfold audit_documents, load_policy in E.
    apply bind_Ok in E as (compose & Hc & E). apply bind_Ok in E as (p & Hp & E). apply bind_Ok in E as (checks & Ha & E).
    apply bind_Ok in Hp as (policy & Hl & Hp). apply bind_Ok in Hp as (u & G & [= <-]).
    apply raise_if_Ok, negb_false_iff, py_eq_str in G.
    exists compose, policy. split_and!; try done. apply audit_spec. exists checks. split; [done|].
    by destruct (forallb _ checks).
  - intros (compose & policy & Hc & Hl & Hs & (checks & Ha & Hp)%audit_spec).
    apply py_eq_str in Hs. unfold audit_main, audit_documents, load_policy.
    rewrite Hc, bind_Ok_l, Hl, bind_Ok_l, Hs. cbn [negb raise_if]. rewrite !bind_Ok_l, Ha, bind_Ok_l, Hp. by eexists.
Qed.
End audit_facts.

(** ** Examples *)

Example target_udp : target_match "${TURN_BIND:-0.0.0.0}:3478:3478/udp" = Some "3478".
Proof. reflexivity. Qed.

Example host_default : host_match "${DB_BIND:-127.0.0.1}:5432:5432" = Some "127.0.0.1".
Proof. reflexivity. Qed.

(** A published port given as a bare number, or a long entry whose target is a
    text, is not a binding at all, so no rule applies to it. *)
Example bare_port_ignored :
  published_bindings (λ _, "") (λ _, None) (λ _, value_error "")
    (JObj [("ports", JList [JInt 5432; JObj [("target", JStr "5432"); ("published", JStr "5432")]])]) = Ok [].
Proof. reflexivity. Qed.

(** A concrete pair of documents: a database on a private bridge, published on
    loopback, and a relay that may be reached. *)
Definition sample_compose : jval :=
  JObj [("services", JObj [("db", JObj [("networks", JList [JStr "data"]); ("ports", JList [JStr "${DB_BIND:-127.0.0.1}:5432:5432/tcp"])]);
                           ("turn", JObj [("networks", JObj [("edge", JNull)]);
                                          ("ports", JList [JObj [("target", JInt 3478); ("published", JStr "3478")]])])]);
        ("networks", JObj [("data", JObj [("internal", JBool true)]); ("edge", JObj [])])].

Definition sample_policy : jval :=
  JObj [("schemaVersion", JStr SCHEMA_VERSION);
        ("memberships", JObj [("db", JList [JStr "data"])]);
        ("internalNetworks", JList [JStr "data"]);
        ("deniedPeerPairs", JList [JList [JStr "db"; JStr "turn"]]);
        ("publicPortServices", JList [JStr "turn"]);
        ("forbiddenPublishedContainerPorts", JList [JInt 5432])].

Definition sample_loads (s : string) : result jval :=
  if String.eqb s "compose" then Ok sample_compose else if String.eqb s "policy" then Ok sample_policy
  else throw ExcJSONDecodeError "Expecting value".

(** The documents are accepted, and what they promise follows. *)
Lemma audit_passes_iff_segmented_witness :
  ∃ compose policy, load_json sample_loads (Ok "compose") = Ok compose ∧ load_json sample_loads (Ok "policy") = Ok policy
    ∧ obj_get policy "schemaVersion" = JStr SCHEMA_VERSION
    ∧ segmented (λ _, false) (λ _, "") (λ _, value_error "") compose policy.
Proof.
  apply (audit_passes_iff_segmented (λ _, false) (λ _, "") (λ _, None) sample_loads (λ _, "") (λ _, value_error "")
           (Ok "compose") (Ok "policy")).
  eexists. vm_compute. reflexivity.
Defined.
