(* ===== verification/Secrets.v ===== *)
(** Runtime secrets: [scripts/ops/materialize_secret_bundle.py] and
    [scripts/ops/enroll_legacy_runtime_secrets.py].

    The output directory is a map from names to files.  Every system call on it
    may fail: which ones do, how much of a file a failed write leaves behind and
    the random part of a temporary name come from the operating system, a
    parameter.  The JSON codec, the order in which a set is walked, the random
    password and names beyond ASCII are parameters too. *)

From stdpp Require Import base list gmap strings.
From Stdlib Require Import ZArith Lia Ascii Strings.Byte.
From S2P Require Import Prelude PyStr PyStrFacts PyJson PyText Host.

#[local] Open Scope Z_scope.

(** ** The directory *)

(** A file: its text, its permission bits and the group it was given. *)
Record entry : Type := mkEntry { e_content : string; e_mode : Z; e_gid : option Z }.

(** The files of the directory, and the system calls made so far. *)
Record disk : Type := mkDisk { d_files : gmap string entry; d_calls : nat }.

(** What the operating system decides: whether a call fails, what a failed write
    leaves, the random part of a temporary name. *)
Record kernel : Type := mkKernel {
  k_fault : nat → option string;
  k_partial : nat → string → string;
  k_suffix : nat → string
}.

Definition io (A : Type) : Type := disk → result A * disk.

#[export] Instance io_ret : MRet io := λ A a d, (Ok a, d).
#[export] Instance io_bind : MBind io := λ A B f m d,
  match m d with (Ok a, d') => f a d' | (Raise e, d') => (Raise e, d') end.

Definition io_lift {A} (r : result A) : io A := λ d, (r, d).

(** [try: m except classes: handler] *)
Definition io_except {A} (m : io A) (classes : list exn_class) (handler : string → io A) : io A := λ d,
  match m d with
  | (Raise (PyErr c msg), d') =>
      if existsb (subclass c) classes then handler msg d' else (Raise (PyErr c msg), d')
  | r => r
  end.

(** [try: m finally: cleanup] *)
Definition io_finally {A} (m : io A) (cleanup : io ()) : io A := λ d,
  let '(r, d1) := m d in
  match cleanup d1 with (Ok _, d2) => (r, d2) | (Raise e, d2) => (Raise e, d2) end.

Fixpoint io_each {A} (f : A → io ()) (l : list A) : io () :=
  match l with [] => mret () | a :: l' => _ ← f a; io_each f l' end.

(** The class of the errors of this component. *)
Definition secret_error {A} (msg : string) : result A := throw ExcSecretMaterializationError msg.

Section secrets.
Context (k : kernel).
Context (json_loads : string → result jval) (set_order : gset string → list string)
  (unicode_name : string → bool) (token_urlsafe : string).

(** One system call: it fails, leaving [on_fault], or does [act]. *)
Definition syscall {A} (on_fault : gmap string entry) (act : result (A * gmap string entry)) : io A := λ d,
  match k_fault k (d_calls d) with
  | Some msg => (throw ExcOSError msg, mkDisk on_fault (S (d_calls d)))
  | None => match act with
            | Ok (a, files) => (Ok a, mkDisk files (S (d_calls d)))
            | Raise e => (Raise e, mkDisk (d_files d) (S (d_calls d)))
            end
  end.

Definition missing {A} : result A := throw ExcOSError "No such file or directory".

(** [tempfile.mkstemp(prefix=prefix, dir=directory)]: an empty file of a name not in use. *)
Definition mkstemp (prefix : string) : io string := λ d,
  let name := prefix +:+ k_suffix k (d_calls d) in
  syscall (d_files d)
    (match d_files d !! name with
     | None => Ok (name, <[name := mkEntry "" 384 None]> (d_files d))
     | Some _ => throw ExcOSError "No usable temporary file name found"
     end) d.

(** A change to the open file [name]. *)
Definition update_file (name : string) (torn change : entry → entry) : io () := λ d,
  match d_files d !! name with
  | Some e => syscall (<[name := torn e]> (d_files d)) (Ok ((), <[name := change e]> (d_files d))) d
  | None => syscall (d_files d) missing d
  end.

Definition fchown (name : string) (gid : Z) : io () :=
  update_file name id (λ e, mkEntry (e_content e) (e_mode e) (Some gid)).
Definition fchmod (name : string) (mode : Z) : io () :=
  update_file name id (λ e, mkEntry (e_content e) mode (e_gid e)).
Definition write_text (name value : string) : io () := λ d,
  update_file name (λ e, mkEntry (k_partial k (d_calls d) value) (e_mode e) (e_gid e))
    (λ e, mkEntry value (e_mode e) (e_gid e)) d.

(** [os.replace(source, target)] *)
Definition replace_file (source target : string) : io () := λ d,
  syscall (d_files d)
    (match d_files d !! source with
     | Some e => Ok ((), <[target := e]> (delete source (d_files d)))
     | None => missing
     end) d.

Definition exists_file (name : string) : io bool := λ d, (Ok (bool_decide (is_Some (d_files d !! name))), d).

Definition unlink (name : string) (missing_ok : bool) : io () := λ d,
  syscall (d_files d)
    (if missing_ok || bool_decide (is_Some (d_files d !! name))
     then Ok ((), delete name (d_files d)) else missing) d.

(** [{item.name for item in directory.iterdir()}] *)
Definition list_directory : io (gset string) := λ d, syscall (d_files d) (Ok (dom (d_files d), d_files d)) d.

(** ** [materialize_secret_bundle.py] *)

(** [scripts/ops/materialize_secret_bundle.py:13-13] SCHEMA_VERSION *)
Definition SCHEMA_VERSION : string := "gcs-saker.encrypted-secret-bundle.v1".
(** [scripts/ops/materialize_secret_bundle.py:14-14] MAX_SECRET_BYTES *)
Definition MAX_SECRET_BYTES : Z := 16384.

(** [name.replace("_", "").isalnum() and name.upper() == name]; beyond ASCII,
    [unicode_name] decides what the ASCII characters leave open. *)
Definition valid_name (name : string) : bool :=
  forall_chars (λ c, negb (is_ascii c) || Ascii.eqb c "_" || (is_alnum c && Ascii.eqb (upper_ascii c) c)) name
  && negb (forall_chars (Ascii.eqb "_") name)
  && (forall_chars is_ascii name || unicode_name name).

(** [scripts/ops/materialize_secret_bundle.py:21-25] load_names *)
Definition load_names (text : result string) : result (gset string) :=
  t ← text;
  let names := List.filter truthy (map strip (splitlines t)) in
  if match names with [] => true | _ => false end || existsb (λ name, negb (valid_name name)) names
  then secret_error "secret allowlist is invalid" else Ok (list_to_set names).

(** [scripts/ops/materialize_secret_bundle.py:28-34] load_bundle, from what [json.load] gives *)
Definition load_bundle (document : result jval) : result (list (string * jval)) :=
  doc ← document;
  match doc with
  | JObj d =>
      match obj_get d "secrets" with
      | JObj secrets => if py_eq (obj_get d "schemaVersion") (JStr SCHEMA_VERSION) then Ok secrets
                        else secret_error "secret bundle schema is invalid"
      | _ => secret_error "secret bundle schema is invalid"
      end
  | _ => secret_error "secret bundle schema is invalid"
  end.

(** [scripts/ops/materialize_secret_bundle.py:42-45] validate_value: one iteration over the items *)
Definition validate_value (item : string * jval) : result (string * string) :=
  match item.2 with
  | JStr value => if is_empty value || (MAX_SECRET_BYTES <? Z.of_nat (String.length value))
                  then secret_error ("secret value is invalid: " +:+ item.1) else Ok (item.1, value)
  | _ => secret_error ("secret value is invalid: " +:+ item.1)
  end.

(** [scripts/ops/materialize_secret_bundle.py:37-46] validate_secrets *)
Definition validate_secrets (secrets : list (string * jval)) (required optional : gset string) :
    result (list (string * string)) :=
  let names : gset string := list_to_set (dict_keys secrets) in
  if bool_decide (¬ (required ⊆ names)) || bool_decide (¬ (names ⊆ required ∪ optional))
  then secret_error "secret bundle keys do not match the allowlist" else mapM validate_value secrets.

(** What the checks of the output directory read. *)
Record dir_info : Type := mkDir {
  di_absolute : bool; di_is_dir : bool; di_symlink : bool; di_stat : result (Z * Z); di_euid : Z }.

(** [scripts/ops/materialize_secret_bundle.py:49-54] validate_output_directory *)
Definition validate_output_directory (dir : dir_info) : result () :=
  if negb (di_absolute dir) || negb (di_is_dir dir) || di_symlink dir
  then secret_error "output directory must be an existing absolute directory" else
  '(mode, uid) ← di_stat dir;
  if negb (Z.land (Z.land mode 4095) 63 =? 0) || negb (uid =? di_euid dir)
  then secret_error "output directory must be owner-only" else Ok ().

(** [scripts/ops/materialize_secret_bundle.py:57-68] write_secret *)
Definition write_secret (name value : string) (runtime_gid : option Z) : io () :=
  temporary ← mkstemp ("." +:+ name +:+ ".");
  io_finally
    (_ ← match runtime_gid with Some gid => fchown temporary gid | None => mret () end;
     _ ← fchmod temporary (match runtime_gid with Some _ => 288 | None => 384 end);
     _ ← write_text temporary value;
     replace_file temporary name)
    (left_over ← exists_file temporary; if left_over : bool then unlink temporary false else mret ()).

Definition write_secrets (secrets : list (string * string)) (runtime_gid : option Z) : io () :=
  io_each (λ '(name, value), write_secret name value runtime_gid) secrets.

Definition handled : list exn_class :=
  [ExcOSError; ExcValueError; ExcJSONDecodeError; ExcSecretMaterializationError].

(** [scripts/ops/materialize_secret_bundle.py:71-90] main: the exit status and the line printed *)
Definition materialize_main (dir : dir_info) (optional_text allow_text : result string) (stdin : result jval)
    (runtime_gid : option Z) : io (Z * string) :=
  io_except
    (_ ← io_lift (validate_output_directory dir);
     optional ← io_lift (load_names optional_text);
     secrets ← io_lift (bundle ← load_bundle stdin; required ← load_names allow_text;
                        validate_secrets bundle required optional);
     _ ← write_secrets secrets runtime_gid;
     _ ← io_each (λ name, unlink name true) (set_order (optional ∖ list_to_set (dict_keys secrets)));
     mret (0, "materialized " +:+ str_of_Z (Z.of_nat (length secrets)) +:+ " service secret files"))
    handled (λ msg, mret (1, "secret materialization failed: " +:+ msg)).

(** ** [enroll_legacy_runtime_secrets.py] *)

(** [scripts/ops/enroll_legacy_runtime_secrets.py:18-18] DISABLED_SIGNUP_POLICY *)
Definition DISABLED_SIGNUP_POLICY : string := "disabled".

(** [value[1:-1]] of a value of two characters or more with ASCII ends. *)
Definition inner (value : string) : string := string_take (String.length value - 2) (string_drop 1 value).

Definition quoted (q : string) (value : string) : bool :=
  Nat.leb 2 (String.length value) && startswith q value && endswith q value.

Definition double_quote : string := String "034" "".

(** [scripts/ops/enroll_legacy_runtime_secrets.py:22-31] parse_value *)
Definition parse_value (raw_value : string) : result string :=
  let value := strip raw_value in
  if quoted "'" value then Ok (inner value)
  else if quoted double_quote value then
    parsed ← json_loads value;
    match parsed with JStr s => Ok s | _ => secret_error "quoted environment value is invalid" end
  else Ok value.

(** What the checks of an environment file read, and its text. *)
Record env_file : Type := mkEnvFile {
  ef_absolute : bool; ef_is_file : bool; ef_symlink : bool; ef_text : result string }.

(** [scripts/ops/enroll_legacy_runtime_secrets.py:39-50] read_line: one iteration over the lines *)
Definition read_line (values : list (string * string)) (raw_line : string) : result (list (string * string)) :=
  let line := strip raw_line in
  if is_empty line || startswith "#" line then Ok values else
  let line := if startswith "export " line then lstrip (removeprefix "export " line) else line in
  match split_once "=" line with
  | (_, None) => secret_error "legacy environment entry is invalid"
  | (name, Some raw_value) =>
      let normalized_name := strip name in
      if is_empty normalized_name || dict_has values normalized_name
      then secret_error "legacy environment key is invalid or duplicated" else
      value ← parse_value raw_value;
      Ok (dict_set values normalized_name value)
  end.

(** [scripts/ops/enroll_legacy_runtime_secrets.py:34-51] read_environment *)
Definition read_environment (f : env_file) : result (list (string * string)) :=
  if negb (ef_absolute f) || negb (ef_is_file f) || ef_symlink f
  then secret_error "legacy environment source is invalid" else
  t ← ef_text f;
  for_in read_line [] (splitlines t).

(** [combined.setdefault(name, value)] *)
Definition setdefault (combined : list (string * string)) (item : string * string) : list (string * string) :=
  if dict_has combined item.1 then combined else dict_set combined item.1 item.2.

(** [scripts/ops/enroll_legacy_runtime_secrets.py:54-59] collect_secrets *)
Definition collect_secrets (primary : env_file) (supplements : list env_file) (allowed : gset string) :
    result (list (string * string)) :=
  combined ← read_environment primary;
  all ← for_in (λ combined supplement, values ← read_environment supplement;
                                       Ok (foldl setdefault combined values)) combined supplements;
  Ok (filter (λ item, item.1 ∈ allowed) all).

(** [scripts/ops/enroll_legacy_runtime_secrets.py:62-65] ensure_empty_target *)
Definition ensure_empty_target (allowed : gset string) : io () :=
  present ← list_directory;
  if bool_decide (allowed ∩ present ≠ ∅)
  then io_lift (secret_error "runtime secret target already contains managed files") else mret ().

(** The parsed arguments. *)
Record enroll_args : Type := mkArgs {
  a_primary : env_file;
  a_supplements : list env_file;
  a_allowlist : result string;
  a_optional_allowlist : result string;
  a_output : dir_info;
  a_runtime_gid : Z;
  a_disable_signup : bool;
  a_generate_password : bool
}.

Definition bool_text (b : bool) : string := if b then "true" else "false".

(** [scripts/ops/enroll_legacy_runtime_secrets.py:74-79] amend: the secrets set or generated here *)
Definition amend (args : enroll_args) (enrolled : list (string * string)) : list (string * string) * bool :=
  let enrolled := if a_disable_signup args
                  then dict_set enrolled "AUTH_POLICY_SIGNUP_INVITES" DISABLED_SIGNUP_POLICY else enrolled in
  if a_generate_password args && negb (dict_has enrolled "MEDIAMTX_API_PASSWORD")
  then (dict_set enrolled "MEDIAMTX_API_PASSWORD" token_urlsafe, true) else (enrolled, false).

(** [scripts/ops/enroll_legacy_runtime_secrets.py:68-88] enroll *)
Definition enroll (args : enroll_args) : io (Z * string) :=
  required ← io_lift (load_names (a_allowlist args));
  optional ← io_lift (load_names (a_optional_allowlist args));
  _ ← io_lift (validate_output_directory (a_output args));
  _ ← ensure_empty_target (required ∪ optional);
  collected ← io_lift (collect_secrets (a_primary args) (a_supplements args) (required ∪ optional));
  let '(enrolled, generated_password) := amend args collected in
  validated ← io_lift (validate_secrets (prod_map id JStr <$> enrolled) required optional);
  _ ← write_secrets validated (Some (a_runtime_gid args));
  mret (0, "enrolled " +:+ str_of_Z (Z.of_nat (length validated)) +:+ " runtime secret files; generatedMediaPassword="
           +:+ bool_text generated_password +:+ "; signupDisabled=" +:+ bool_text (a_disable_signup args)).

(** [scripts/ops/enroll_legacy_runtime_secrets.py:91-111] main *)
Definition enroll_main (args : enroll_args) : io (Z * string) :=
  io_except (enroll args) handled (λ msg, mret (1, "runtime secret enrollment failed: " +:+ msg)).
End secrets.

(** ** Facts *)

Section secrets_facts.
Context (k : kernel).
Context (json_loads : string → result jval) (set_order : gset string → list string)
  (unicode_name : string → bool) (token_urlsafe : string).

Lemma io_bind_cases {A B} (m : io A) (f : A → io B) d r d' :
  (m ≫= f) d = (r, d') →
  (∃ e, m d = (Raise e, d') ∧ r = Raise e) ∨ (∃ a d1, m d = (Ok a, d1) ∧ f a d1 = (r, d')).
Proof.
  unfold mbind, io_bind. destruct (m d) as [[a|e] d1]; intros H.
  - right. by exists a, d1.
  - left. injection H as <- <-. by exists e.
Qed.

Lemma io_bind_Ok {A B} (m : io A) (f : A → io B) d b d' :
  (m ≫= f) d = (Ok b, d') → ∃ a d1, m d = (Ok a, d1) ∧ f a d1 = (Ok b, d').
Proof. intros [(e & _ & [=])|H]%io_bind_cases. exact H. Qed.

Lemma io_finally_cases {A} (m : io A) cleanup d r d' :
  io_finally m cleanup d = (r, d') →
  ∃ r1 d1 rc, m d = (r1, d1) ∧ cleanup d1 = (rc, d')
    ∧ (rc = Ok () ∧ r = r1 ∨ ∃ e, rc = Raise e ∧ r = Raise e).
Proof.
  unfold io_finally. destruct (m d) as [r1 d1]. destruct (cleanup d1) as [[[]|e] d2] eqn:E; intros [= <- <-].
  - exists r1, d1, (Ok ()). split_and!; try done. by left.
  - exists r1, d1, (Raise e). split_and!; try done. right. by exists e.
Qed.

Lemma io_lift_eq {A} (x r : result A) d d' : io_lift x d = (r, d') → x = r ∧ d' = d.
Proof. by intros [= -> <-]. Qed.

(** The file a secret becomes. *)
Definition secret_file (runtime_gid : option Z) (value : string) : entry :=
  mkEntry value (match runtime_gid with Some _ => 288 | None => 384 end) runtime_gid.

(** A change to an open file, when it is there. *)
Lemma update_file_cases name torn change d e r d' :
  d_files d !! name = Some e → update_file k name torn change d = (r, d') →
  (r = Ok () ∧ d_files d' = <[name := change e]> (d_files d))
  ∨ (∃ msg, r = throw ExcOSError msg ∧ d_files d' = <[name := torn e]> (d_files d)).
Proof.
  unfold update_file, syscall. intros ->. destruct (k_fault k (d_calls d)) as [msg|]; intros [= <- <-].
  - right. by exists msg.
  - by left.
Qed.

(** [F] with the temporary file [t] in it. *)
Definition with_temp (F : gmap string entry) (t : string) (e : entry) (d : disk) : Prop := d_files d = <[t := e]> F.

(** A failed call: an [OSError], with at most the temporary file added. *)
Definition failed_with_temp (F : gmap string entry) (t : string) {A} (r : result A) (d : disk) : Prop :=
  ∃ msg e, r = throw ExcOSError msg ∧ with_temp F t e d.

Lemma update_file_step F t e torn change d r d' :
  with_temp F t e d → update_file k t torn change d = (r, d') →
  (r = Ok () ∧ with_temp F t (change e) d') ∨ failed_with_temp F t r d'.
Proof.
  unfold with_temp. intros Hd H. assert (d_files d !! t = Some e) as He by (rewrite Hd; apply lookup_insert_eq).
  destruct (update_file_cases t torn change d e r d' He H) as [[-> Hf]|(msg & -> & Hf)]; rewrite Hf, Hd, insert_insert_eq.
  - by left.
  - right. exists msg, (torn e). split; [done|]. unfold with_temp. by rewrite Hf, Hd, insert_insert_eq.
Qed.

Lemma replace_step F t e name d r d' :
  F !! t = None → with_temp F t e d → replace_file k t name d = (r, d') →
  (r = Ok () ∧ d_files d' = <[name := e]> F) ∨ failed_with_temp F t r d'.
Proof.
  unfold with_temp, replace_file, syscall. intros Ht Hd. rewrite Hd, lookup_insert_eq.
  destruct (k_fault k (d_calls d)) as [msg|]; intros [= <- <-]; cbn.
  - right. exists msg, e. by split.
  - left. split; [done|]. by rewrite delete_insert_id.
Qed.

Lemma cleanup_step F t d r d' :
  (∃ e, with_temp F t e d) → F !! t = None →
  (left_over ← exists_file t; if left_over : bool then unlink k t false else mret ()) d = (r, d') →
  (r = Ok () ∧ d_files d' = F) ∨ failed_with_temp F t r d'.
Proof.
  unfold with_temp. intros (e & Hd) Ht. unfold mbind, io_bind, exists_file.
  rewrite bool_decide_eq_true_2 by (rewrite Hd, lookup_insert_eq; by eexists).
  unfold unlink, syscall. rewrite bool_decide_eq_true_2 by (rewrite Hd, lookup_insert_eq; by eexists). cbn [orb].
  destruct (k_fault k (d_calls d)) as [msg|]; intros [= <- <-]; cbn.
  - right. exists msg, e. by split.
  - left. split; [done|]. by rewrite Hd, delete_insert_id.
Qed.

(** Writing through the temporary file and renaming it. *)
Lemma secret_body_step F t name value gid d e r d' :
  F !! t = None → with_temp F t e d →
  (_ ← match gid with Some gid => fchown k t gid | None => mret () end;
   _ ← fchmod k t (match gid with Some _ => 288 | None => 384 end);
   _ ← write_text k t value;
   replace_file k t name) d = (r, d') → e_gid e = None →
  (r = Ok () ∧ d_files d' = <[name := secret_file gid value]> F) ∨ failed_with_temp F t r d'.
Proof.
  intros Ht Hd H Hgid.
  assert (∀ x : exn, (∃ y : result (), y = Raise x ∧ failed_with_temp F t y d') → r = Raise x → failed_with_temp F t r d')
    as Hfail by (intros x (y & -> & msg & e' & [= ->] & Hw) ->; by exists msg, e').
  apply io_bind_cases in H as [(x & H1 & ->)|(u & d1 & H1 & H)].
  { right. destruct gid; [|discriminate H1].
    apply (update_file_step F t e) in H1 as [[[=] _]|H1]; [|done]. eapply Hfail; [|done]. by eexists. }
  assert (with_temp F t (mkEntry (e_content e) (e_mode e) gid) d1) as Hd1.
  { destruct gid; [apply (update_file_step F t e) in H1 as [[_ H1]|(msg & e' & [=] & _)]; done|].
    injection H1 as _ <-. rewrite <-Hgid. by destruct e. }
  apply io_bind_cases in H as [(x & H2 & ->)|(u2 & d2 & H2 & H)].
  { right. apply (update_file_step F t _ _ _ _ _ _ Hd1) in H2 as [[[=] _]|H2]. eapply Hfail; [|done]. by eexists. }
  apply (update_file_step F t _ _ _ _ _ _ Hd1) in H2 as [[_ Hd2]|(msg & e' & [=] & _)].
  apply io_bind_cases in H as [(x & H3 & ->)|(u3 & d3 & H3 & H)].
  { right. apply (update_file_step F t _ _ _ _ _ _ Hd2) in H3 as [[[=] _]|H3]. eapply Hfail; [|done]. by eexists. }
  apply (update_file_step F t _ _ _ _ _ _ Hd2) in H3 as [[_ Hd3]|(msg & e' & [=] & _)].
  by apply (replace_step F t _ name _ _ _ Ht Hd3) in H.
Qed.

Lemma mkstemp_cases prefix d r d' : mkstemp k prefix d = (r, d') →
  (∃ suffix, let t := prefix +:+ suffix in
     r = Ok t ∧ d_files d !! t = None ∧ with_temp (d_files d) t (mkEntry "" 384 None) d')
  ∨ (∃ msg, r = throw ExcOSError msg ∧ d_files d' = d_files d).
Proof.
  unfold mkstemp, syscall. destruct (k_fault k (d_calls d)) as [msg|]; [intros [= <- <-]; right; by exists msg|].
  destruct (d_files d !! (prefix +:+ k_suffix k (d_calls d))) eqn:E; intros [= <- <-].
  - right. by eexists.
  - left. by exists (k_suffix k (d_calls d)).
Qed.

(** What a failed step leaves behind: nothing, or one temporary file. *)
Definition left_behind (F : gmap string entry) (d : disk) : Prop :=
  d_files d = F ∨ ∃ t e, startswith "." t = true ∧ F !! t = None ∧ d_files d = <[t := e]> F.

Lemma write_secret_cases name value gid d r d' :
  startswith "." name = false → write_secret k name value gid d = (r, d') →
  (r = Ok () ∧ d_files d' = <[name := secret_file gid value]> (d_files d))
  ∨ (∃ msg, r = throw ExcOSError msg ∧ left_behind (d_files d) d').
Proof.
  intros Hname H. unfold write_secret in H. set (F := d_files d) in *.
  apply io_bind_cases in H as [(x & H & ->)|(t & d1 & H & Hbody)].
  { right. apply mkstemp_cases in H as [(s & [=] & _)|(msg & [= ->] & Hd)]. exists msg. by split; [|left]. }
  apply mkstemp_cases in H as [(s & [= ->] & Ht & Hd1)|(msg & [=] & _)]. fold F in Ht, Hd1.
  set (t := ("." +:+ name +:+ ".") +:+ s) in *.
  assert (startswith "." t = true) as Hdot by (apply startswith_spec; by exists ((name +:+ ".") +:+ s)).
  assert (t ≠ name) as Hne by (intros E; by rewrite E, Hname in Hdot).
  apply io_finally_cases in Hbody as (r1 & d2 & rc & Eb & Ec & Hr).
  destruct (secret_body_step F t name value gid d1 _ r1 d2 Ht Hd1 Eb eq_refl) as [[-> Hd2]|(msg & e & -> & Hd2)].
  - left. unfold exists_file, mbind, io_bind in Ec. rewrite Hd2, lookup_insert_ne, Ht in Ec by done.
    cbn in Ec. injection Ec as <- <-. destruct Hr as [[_ ->]|(x & [=] & _)]. by split.
  - right. destruct (cleanup_step F t d2 rc d' (ex_intro _ e Hd2) Ht Ec) as [[-> Hd3]|(msg' & e' & -> & Hd3)].
    + destruct Hr as [[_ ->]|(x & [=] & _)]. exists msg. by split; [|left].
    + destruct Hr as [[[=] _]|(x & [= <-] & ->)]. exists msg'. split; [done|]. right. by exists t, e'.
Qed.

(** *** The loops *)

(** The directory once the secrets of [l] are in place, and once [names] are gone. *)
Definition written (gid : option Z) (l : list (string * string)) (F : gmap string entry) : gmap string entry :=
  foldl (λ F item, <[item.1 := secret_file gid item.2]> F) F l.
Definition removed (names : list string) (F : gmap string entry) : gmap string entry :=
  foldl (λ F name, delete name F) F names.

Lemma lookup_written gid l F name : NoDup l.*1 →
  written gid l F !! name = match dict_get l name with Some v => Some (secret_file gid v) | None => F !! name end.
Proof.
  unfold written. revert F. induction l as [|[n v] l IH]; intros F; cbn; [done|].
  intros [Hn Hl]%NoDup_cons. rewrite IH by done. destruct (decide (name = n)) as [->|Hne].
  - rewrite (proj2 (dict_get_None l n) Hn). by rewrite lookup_insert_eq.
  - by rewrite lookup_insert_ne.
Qed.

(** Each file is as it was or one of the secrets. *)
Lemma written_cases gid l F name :
  written gid l F !! name = F !! name
  ∨ ∃ v, (name, v) ∈ l ∧ written gid l F !! name = Some (secret_file gid v).
Proof.
  unfold written. revert F. induction l as [|[n v] l IH]; intros F; cbn; [by left|].
  destruct (IH (<[n := secret_file gid v]> F)) as [Hk|(v' & Hv & Hk)]; rewrite Hk.
  - destruct (decide (n = name)) as [->|].
    + right. exists v. rewrite lookup_insert_eq. split; [left|done].
    + left. by rewrite lookup_insert_ne.
  - right. exists v'. split; [by right|done].
Qed.

Lemma lookup_removed names F name : removed names F !! name = if decide (name ∈ names) then None else F !! name.
Proof.
  unfold removed. revert F. induction names as [|n names IH]; intros F; cbn; [done|]. rewrite IH.
  destruct (decide (name ∈ names)), (decide (name ∈ n :: names)) as [Hin|Hnin]; try done.
  - destruct Hnin. by right.
  - apply elem_of_cons in Hin as [->|]; [apply lookup_delete_eq|done].
  - apply lookup_delete_ne. intros ->. destruct Hnin. left.
Qed.

(** A loop of steps that either go on or stop with an [OSError]. *)
Lemma io_each_cases {A} (f : A → io ()) (step : gmap string entry → A → gmap string entry)
    (broken : gmap string entry → disk → Prop) l d r d' :
  (∀ a d r d', a ∈ l → f a d = (r, d') →
     (r = Ok () ∧ d_files d' = step (d_files d) a) ∨ (∃ msg, r = throw ExcOSError msg ∧ broken (d_files d) d')) →
  io_each f l d = (r, d') →
  (r = Ok () ∧ d_files d' = foldl step (d_files d) l)
  ∨ (∃ msg before, r = throw ExcOSError msg ∧ before `prefix_of` l ∧ broken (foldl step (d_files d) before) d').
Proof.
  revert d. induction l as [|a l IH]; intros d Hf; cbn; [intros [= <- <-]; by left|].
  intros [(e & H & ->)|(u & d1 & H & Hl)]%io_bind_cases.
  - right. destruct (Hf a d _ _ ltac:(left) H) as [[[=] _]|(msg & [= ->] & Hb)].
    exists msg, []. split_and!; [done|apply prefix_nil|done].
  - destruct (Hf a d _ _ ltac:(left) H) as [[_ Hd1]|(msg & [=] & _)]. rewrite <-Hd1.
    destruct (IH d1) as [[-> Hd']|(msg & before & -> & Hp & Hb)]; [|done| |].
    + intros b db rb db' Hb. apply Hf. by right.
    + by left.
    + right. exists msg, (a :: before). split_and!; [done|by apply prefix_cons|]. cbn. by rewrite <-Hd1.
Qed.

Lemma write_secrets_cases l gid d r d' :
  Forall (λ item, startswith "." item.1 = false) l → write_secrets k l gid d = (r, d') →
  (r = Ok () ∧ d_files d' = written gid l (d_files d))
  ∨ (∃ msg before, r = throw ExcOSError msg ∧ before `prefix_of` l
       ∧ left_behind (written gid before (d_files d)) d').
Proof.
  intros Hall. apply (io_each_cases _ (λ F item, <[item.1 := secret_file gid item.2]> F) left_behind).
  intros [name value] d0 r0 d0' Hin. rewrite Forall_forall in Hall. apply write_secret_cases. by apply (Hall _ Hin).
Qed.

Lemma unlinks_cases names d r d' :
  io_each (λ name, unlink k name true) names d = (r, d') →
  (r = Ok () ∧ d_files d' = removed names (d_files d))
  ∨ (∃ msg before, r = throw ExcOSError msg ∧ before `prefix_of` names ∧ d_files d' = removed before (d_files d)).
Proof.
  apply (io_each_cases _ (λ F name, delete name F) (λ F d, d_files d = F)). intros name d0 r0 d0' _.
  unfold unlink, syscall. destruct (k_fault k (d_calls d0)) as [msg|]; intros [= <- <-].
  - right. by exists msg.
  - by left.
Qed.

(** *** The checks *)

Lemma load_names_valid text names name :
  load_names unicode_name text = Ok names → name ∈ names → valid_name unicode_name name = true.
Proof.
  unfold load_names. intros H Hin. apply bind_Ok in H as (t & _ & H).
  destruct (_ || _) eqn:E in H; [discriminate H|]. injection H as <-.
  apply orb_false_iff in E as [_ E%existsb_false]. rewrite Forall_forall in E.
  by apply elem_of_list_to_set, E, negb_false_iff in Hin.
Qed.

Lemma valid_name_no_dot name : valid_name unicode_name name = true → startswith "." name = false.
Proof.
  unfold valid_name. intros [[H _]%andb_true_iff _]%andb_true_iff.
  apply not_true_iff_false. intros (t & ->)%startswith_spec. discriminate H.
Qed.

(** What is known of secrets that passed the checks. *)
Definition allowed_secrets (required optional : gset string) (secrets : list (string * string)) : Prop :=
  required ⊆ list_to_set secrets.*1 ∧ list_to_set secrets.*1 ⊆ required ∪ optional
  ∧ Forall (λ item, item.2 ≠ "" ∧ Z.of_nat (String.length item.2) <= MAX_SECRET_BYTES) secrets.

Lemma validate_secrets_Ok bundle required optional secrets :
  validate_secrets bundle required optional = Ok secrets →
  bundle = prod_map id JStr <$> secrets ∧ dict_keys bundle = secrets.*1 ∧ allowed_secrets required optional secrets.
Proof.
  unfold validate_secrets. destruct (_ || _) eqn:E; [discriminate|]. intros H%mapM_Ok.
  apply orb_false_iff in E as [E1%bool_decide_eq_false_1%dec_stable E2%bool_decide_eq_false_1%dec_stable].
  assert (bundle = prod_map id JStr <$> secrets
          ∧ Forall (λ item, item.2 ≠ "" ∧ Z.of_nat (String.length item.2) <= MAX_SECRET_BYTES) secrets) as [-> Hall].
  { clear E1 E2. induction H as [|[n v] [n' v'] l l' Hv _ [IH1 IH2]]; [done|]. unfold validate_value in Hv. cbn in Hv.
    destruct v; try discriminate Hv. destruct (is_empty s) eqn:Es; [discriminate Hv|]. cbn [orb] in Hv.
    destruct (MAX_SECRET_BYTES <? _) eqn:El; [discriminate Hv|]. injection Hv as <- <-.
    rewrite fmap_cons, <-IH1. split; [done|]. constructor; [|done]. cbn. split; [by intros ->|lia]. }
  assert (dict_keys (prod_map id JStr <$> secrets) = secrets.*1) as Hk
    by (unfold dict_keys; rewrite <-list_fmap_compose; done).
  rewrite Hk in E1, E2. by split_and!.
Qed.

Lemma as_json_inj (l l' : list (string * string)) : prod_map id JStr <$> l = prod_map id JStr <$> l' → l = l'.
Proof.
  revert l'. induction l as [|[n v] l IH]; intros [|[n' v'] l']; try done.
  rewrite !fmap_cons. intros [= -> -> H]. by rewrite (IH l' H).
Qed.

Lemma allowed_no_dot otext atext required optional secrets :
  load_names unicode_name otext = Ok optional → load_names unicode_name atext = Ok required →
  allowed_secrets required optional secrets → Forall (λ item, startswith "." item.1 = false) secrets.
Proof.
  intros Ho Ha (_ & Hsub & _). apply Forall_forall. intros [name v] Hin. apply valid_name_no_dot.
  assert (name ∈ required ∪ optional) as [Hn|Hn]%elem_of_union.
  { apply Hsub, elem_of_list_to_set, list_elem_of_fmap. by exists (name, v). }
  - by apply (load_names_valid _ _ _ Ha).
  - by apply (load_names_valid _ _ _ Ho).
Qed.

Lemma io_except_cases {A} (m : io A) classes handler d r d' :
  io_except m classes handler d = (r, d') →
  m d = (r, d') ∨ ∃ c msg d1, m d = (Raise (PyErr c msg), d1) ∧ handler msg d1 = (r, d').
Proof.
  unfold io_except. destruct (m d) as [[a|[c msg|]] d1]; [by left| |by left].
  destruct (existsb _ _); [|by left]. intros H. right. by exists c, msg, d1.
Qed.

(** The body of the materializer. *)
Definition materialize_body (dir : dir_info) (optional_text allow_text : result string) (stdin : result jval)
    (runtime_gid : option Z) : io (Z * string) :=
  _ ← io_lift (validate_output_directory dir);
  optional ← io_lift (load_names unicode_name optional_text);
  secrets ← io_lift (bundle ← load_bundle stdin; required ← load_names unicode_name allow_text;
                     validate_secrets bundle required optional);
  _ ← write_secrets k secrets runtime_gid;
  _ ← io_each (λ name, unlink k name true) (set_order (optional ∖ list_to_set (dict_keys secrets)));
  mret (0, "materialized " +:+ str_of_Z (Z.of_nat (length secrets)) +:+ " service secret files").

(** How the body ends once its checks passed. *)
Definition materialize_ends {A} (gid : option Z) (optional : gset string) (secrets : list (string * string))
    (F : gmap string entry) (r : result A) (d' : disk) : Prop :=
  let absent := set_order (optional ∖ list_to_set secrets.*1) in
  (is_ok r = true ∧ d_files d' = removed absent (written gid secrets F))
  ∨ is_ok r = false
    ∧ ((∃ before, before `prefix_of` secrets ∧ left_behind (written gid before F) d')
       ∨ ∃ before, before `prefix_of` absent ∧ d_files d' = removed before (written gid secrets F)).

Lemma materialize_body_cases dir otext atext stdin gid d r d' :
  materialize_body dir otext atext stdin gid d = (r, d') →
  (is_ok r = false ∧ d' = d)
  ∨ ∃ optional required secrets,
      validate_output_directory dir = Ok () ∧ load_names unicode_name otext = Ok optional
      ∧ load_names unicode_name atext = Ok required ∧ load_bundle stdin = Ok (prod_map id JStr <$> secrets)
      ∧ allowed_secrets required optional secrets ∧ materialize_ends gid optional secrets (d_files d) r d'.
Proof.
  unfold materialize_body. intros H.
  apply io_bind_cases in H as [(e & [_ ->]%io_lift_eq & ->)|([] & d1 & [Hdir ->]%io_lift_eq & H)]; [by left|].
  apply io_bind_cases in H as [(e & [_ ->]%io_lift_eq & ->)|(optional & d1 & [Ho ->]%io_lift_eq & H)]; [by left|].
  apply io_bind_cases in H as [(e & [_ ->]%io_lift_eq & ->)|(secrets & d1 & [Hs ->]%io_lift_eq & H)]; [by left|].
  right. apply bind_Ok in Hs as (bundle & Hb & Hs). apply bind_Ok in Hs as (required & Ha & Hs).
  apply validate_secrets_Ok in Hs as (-> & _ & Hall). exists optional, required, secrets. split_and!; try done.
  assert (Forall (λ item, startswith "." item.1 = false) secrets) as Hdot by exact (allowed_no_dot _ _ _ _ _ Ho Ha Hall).
  apply io_bind_cases in H as [(e & H & ->)|(u & d1 & H & Hu)].
  { apply write_secrets_cases in H as [[[=] _]|(msg & before & _ & Hp & Hl)]; [|done].
    right. split; [done|]. left. by exists before. }
  apply write_secrets_cases in H as [[_ Hd1]|(msg & before & [=] & _)]; [|done].
  apply io_bind_cases in Hu as [(e & H & ->)|(u' & d2 & H & [= <- <-])];
    apply unlinks_cases in H as [[Hr Hd2]|(msg & before & Hr & Hp & Hd2)]; try discriminate Hr; rewrite Hd1 in Hd2.
  - right. split; [done|]. right. by exists before.
  - left. by split.
Qed.


Lemma materialize_main_cases dir otext atext stdin gid d r d' :
  materialize_main k set_order unicode_name dir otext atext stdin gid d = (r, d') →
  ∃ r0, materialize_body dir otext atext stdin gid d = (r0, d')
        ∧ (r = r0 ∨ is_ok r0 = false ∧ ∃ line, r = Ok (1, line)).
Proof.
  intros [H|(c & msg & d1 & H & [= <- <-])]%io_except_cases; [by exists r; split; [|left]|].
  eexists. split; [exact H|]. right. split; [done|]. by eexists.
Qed.

(** A materialization that exits with 0 left the output directory, owned by
    the caller and closed to everyone else, with exactly the secrets of the
    bundle: every required name is among them, every name is of an allowlist,
    every value is not empty and within the size bound; each is one file with
    the value, the mode and the group asked for; an optional secret that the
    bundle does not hold is gone; and every other file is as it was. *)
Theorem materialize_exact dir otext atext stdin gid d line d' :
  (∀ X, set_order X ≡ₚ elements X) → (∀ bundle, load_bundle stdin = Ok bundle → dict_wf bundle) →
  materialize_main k set_order unicode_name dir otext atext stdin gid d = (Ok (0, line), d') →
  ∃ optional required secrets,
    validate_output_directory dir = Ok () ∧ load_names unicode_name otext = Ok optional
    ∧ load_names unicode_name atext = Ok required ∧ load_bundle stdin = Ok (prod_map id JStr <$> secrets)
    ∧ allowed_secrets required optional secrets
    ∧ ∀ name, d_files d' !! name =
        match dict_get secrets name with
        | Some value => Some (secret_file gid value)
        | None => if decide (name ∈ optional) then None else d_files d !! name
        end.
Proof.
  intros Hord Hwf (r0 & H & Hr)%materialize_main_cases.
  assert (r0 = Ok (0, line)) as -> by (destruct Hr as [->|(_ & l & [=])]; done).
  apply materialize_body_cases in H as [[[=] _]|(optional & required & secrets & Hdir & Ho & Ha & Hb & Hall & Hend)].
  exists optional, required, secrets. split_and!; try done. intros name.
  destruct Hend as [[_ Hd]|[[=] _]]. rewrite Hd, lookup_removed.
  assert (name ∈ set_order (optional ∖ list_to_set secrets.*1) ↔ name ∈ optional ∧ name ∉ secrets.*1) as Habs
    by (by rewrite Hord, elem_of_elements, elem_of_difference, elem_of_list_to_set).
  assert (NoDup secrets.*1) as Hnd.
  { specialize (Hwf _ Hb). unfold dict_wf, dict_keys in Hwf. by rewrite <-list_fmap_compose in Hwf. }
  rewrite lookup_written by done. destruct (dict_get secrets name) as [value|] eqn:E.
  - apply dict_get_Some_key in E. destruct (decide _) as [[_ []]%Habs|]; done.
  - apply dict_get_None in E. destruct (decide (name ∈ set_order _)) as [[Hin _]%Habs|Hnin], (decide (name ∈ optional)); try done.
    by destruct Hnin; apply Habs.
Qed.

(** C15: however a materialization ends, and whichever of its system calls
    failed, the directory is as it was unless every check passed; and then each
    file (a hidden temporary one aside) is either as it was, or the whole new
    secret with its final mode and group, or a removed optional secret that the
    bundle does not hold.  No secret is ever seen torn. *)
Theorem materialize_never_torn dir otext atext stdin gid d r d' :
  (∀ X, set_order X ≡ₚ elements X) →
  materialize_main k set_order unicode_name dir otext atext stdin gid d = (r, d') →
  d_files d' = d_files d
  ∨ ∃ optional required secrets,
      validate_output_directory dir = Ok () ∧ load_names unicode_name otext = Ok optional
      ∧ load_names unicode_name atext = Ok required ∧ load_bundle stdin = Ok (prod_map id JStr <$> secrets)
      ∧ allowed_secrets required optional secrets
      ∧ ∀ name, startswith "." name = false →
          d_files d' !! name = d_files d !! name
          ∨ (∃ value, (name, value) ∈ secrets ∧ d_files d' !! name = Some (secret_file gid value))
          ∨ (name ∈ optional ∧ name ∉ secrets.*1 ∧ d_files d' !! name = None).
Proof.
  intros Hord (r0 & H & _)%materialize_main_cases.
  apply materialize_body_cases in H as [[_ ->]|(optional & required & secrets & Hdir & Ho & Ha & Hb & Hall & Hend)];
    [by left|]. right. exists optional, required, secrets. split_and!; try done. intros name Hname.
  assert (∀ before, before `prefix_of` secrets →
    written gid before (d_files d) !! name = d_files d !! name
    ∨ ∃ value, (name, value) ∈ secrets ∧ written gid before (d_files d) !! name = Some (secret_file gid value)) as Hw.
  { intros before (rest & ->). destruct (written_cases gid before (d_files d) name) as [Hk|(v & Hv & Hk)]; [by left|].
    right. exists v. split; [|done]. apply elem_of_app. by left. }
  assert (∀ gone, (∀ x, x ∈ gone → x ∈ set_order (optional ∖ list_to_set secrets.*1)) →
    d_files d' = removed gone (written gid secrets (d_files d)) →
    d_files d' !! name = d_files d !! name
    ∨ (∃ value, (name, value) ∈ secrets ∧ d_files d' !! name = Some (secret_file gid value))
    ∨ name ∈ optional ∧ name ∉ secrets.*1 ∧ d_files d' !! name = None) as Hgone.
  { intros gone Hsub ->. rewrite lookup_removed. destruct (decide (name ∈ gone)) as [Hin|_].
    - apply Hsub in Hin. rewrite Hord, elem_of_elements, elem_of_difference, elem_of_list_to_set in Hin.
      destruct Hin as [Hi Hn]. right; right. by split_and!.
    - destruct (Hw secrets) as [Hk|Hk]; [done|by left|right; by left]. }
  destruct Hend as [[_ Hd]|[_ [(before & Hp & Hl)|(before & (rest & Hp) & Hd)]]].
  - by apply (Hgone (set_order (optional ∖ list_to_set secrets.*1))).
  - destruct Hl as [->|(t & e & Ht & _ & ->)].
    + destruct (Hw before Hp) as [Hk|Hk]; [by left|right; by left].
    + rewrite lookup_insert_ne by congruence. destruct (Hw before Hp) as [Hk|Hk]; [by left|right; by left].
  - apply (Hgone before); [|done]. intros x Hx. rewrite Hp. apply elem_of_app. by left.
Qed.

(** *** Enrolment *)

Lemma dict_get_setdefault combined item name :
  dict_get (setdefault combined item) name =
  match dict_get combined name with
  | Some v => Some v
  | None => if decide (name = item.1) then Some item.2 else None
  end.
Proof.
  unfold setdefault, dict_has. destruct (dict_get combined item.1) as [v|] eqn:E.
  - destruct (dict_get combined name) eqn:En; [done|]. destruct (decide (name = item.1)); congruence.
  - rewrite dict_get_set. destruct (decide (name = item.1)) as [->|]; [by rewrite E|]. by destruct (dict_get combined name).
Qed.

Lemma dict_get_setdefaults values combined name :
  dict_get (foldl setdefault combined values) name =
  match dict_get combined name with Some v => Some v | None => dict_get values name end.
Proof.
  revert combined. induction values as [|[n v] values IH]; intros combined; cbn.
  - by destruct (dict_get combined name).
  - rewrite IH, dict_get_setdefault. cbn. by destruct (dict_get combined name), (decide (name = n)).
Qed.

Lemma setdefaults_wf values combined : dict_wf combined → dict_wf (foldl setdefault combined values).
Proof.
  revert combined. induction values as [|item values IH]; intros combined H; cbn; [done|].
  apply IH. unfold setdefault. destruct (dict_has _ _); auto with saker.
Qed.

Lemma dict_get_filter (allowed : gset string) (d : list (string * string)) name :
  dict_get (filter (λ item, item.1 ∈ allowed) d) name = if decide (name ∈ allowed) then dict_get d name else None.
Proof.
  induction d as [|[n v] d IH]; [by destruct (decide _)|]. rewrite filter_cons. cbn [fst dict_get].
  destruct (decide (n ∈ allowed)) as [Hin|Hnin]; cbn [dict_get]; rewrite IH;
    destruct (decide (name = n)) as [->|], (decide (_ ∈ allowed)); done.
Qed.

Lemma filter_wf (allowed : gset string) (d : list (string * string)) :
  dict_wf d → dict_wf (filter (λ item, item.1 ∈ allowed) d).
Proof.
  unfold dict_wf, dict_keys. induction d as [|[n v] d IH]; [done|].
  rewrite fmap_cons. intros [Hn Hd]%NoDup_cons. rewrite filter_cons. cbn [fst]. destruct (decide (n ∈ allowed)); [|by apply IH].
  cbn. apply NoDup_cons. split; [|by apply IH]. intros ([n' v'] & Hn' & [_ Hin]%list_elem_of_filter)%list_elem_of_fmap.
  cbn in Hn'. subst. destruct Hn. apply list_elem_of_fmap. by exists (n', v').
Qed.

Lemma read_line_wf values raw values' : dict_wf values → read_line json_loads values raw = Ok values' → dict_wf values'.
Proof.
  unfold read_line. intros Hwf H. destruct (_ || _) in H; [by injection H as <-|].
  destruct (split_once _ _) as [name [raw_value|]]; [|discriminate H].
  destruct (is_empty _ || _); [discriminate H|]. apply bind_Ok in H as (value & _ & [= <-]). auto with saker.
Qed.

Lemma read_environment_wf f values : read_environment json_loads f = Ok values → dict_wf values.
Proof.
  unfold read_environment. destruct (_ || _); [discriminate|]. intros (t & _ & H)%bind_Ok.
  eapply (for_in_invariant dict_wf); [| |exact H]; [by apply NoDup_nil|].
  intros s raw s' _ Hs Hr. by eapply read_line_wf.
Qed.

(** The collected secrets are the allowed names of the environment files,
    each with the value of the first file that defines it: the primary file is
    never overridden by a supplement, nor a supplement by a later one. *)
Theorem collect_first_wins primary supplements allowed secrets :
  collect_secrets json_loads primary supplements allowed = Ok secrets →
  ∃ envs, mapM (read_environment json_loads) (primary :: supplements) = Ok envs
    ∧ dict_wf secrets
    ∧ ∀ name, dict_get secrets name
              = if decide (name ∈ allowed) then head (omap (λ env, dict_get env name) envs) else None.
Proof.
  unfold collect_secrets. intros (combined & Hp & (all & Hall & [= <-])%bind_Ok)%bind_Ok.
  assert (∃ envs, mapM (read_environment json_loads) supplements = Ok envs ∧ all = foldl (foldl setdefault) combined envs)
    as (envs & Henvs & ->).
  { clear Hp. revert combined Hall. induction supplements as [|f fs IH]; intros combined; cbn.
    - intros [= <-]. by exists [].
    - rewrite bind_Ok. intros (c1 & (values & Hv & [= <-])%bind_Ok & H). rewrite Hv. cbn.
      destruct (IH _ H) as (envs & -> & ->). by exists (values :: envs). }
  exists (combined :: envs). cbn [mapM]. split; [by cbn; rewrite Hp; cbn; rewrite Henvs|].
  assert (∀ c, dict_wf c → dict_wf (foldl (foldl setdefault) c envs) ∧ ∀ name,
    dict_get (foldl (foldl setdefault) c envs) name
    = match dict_get c name with Some v => Some v | None => head (omap (λ env, dict_get env name) envs) end) as Hfold.
  { clear. induction envs as [|env envs IH]; intros c Hc; cbn; [split; [done|]; intros name; by destruct (dict_get c name)|].
    destruct (IH (foldl setdefault c env)) as [H1 H2]; [by apply setdefaults_wf|]. split; [done|]. intros name.
    rewrite H2, dict_get_setdefaults. destruct (dict_get c name); [done|]. by destruct (dict_get env name). }
  destruct (Hfold combined) as [H1 H2]; [by eapply read_environment_wf|]. split; [by apply filter_wf|].
  intros name. rewrite dict_get_filter, H2. destruct (decide _); [|done]. cbn. by destruct (dict_get combined name).
Qed.

Lemma ensure_empty_cases allowed d r d' : ensure_empty_target k allowed d = (r, d') →
  d_files d' = d_files d ∧ (is_ok r = true → allowed ∩ dom (d_files d) = ∅).
Proof.
  unfold ensure_empty_target. intros [(e & H & ->)|(present & d1 & H & Hr)]%io_bind_cases;
    unfold list_directory, syscall in H; destruct (k_fault k (d_calls d)); try discriminate H.
  - by injection H as _ <-.
  - injection H as <- <-. destruct (bool_decide _) eqn:E; [by injection Hr as <- <-|].
    apply bool_decide_eq_false_1, dec_stable in E. by injection Hr as <- <-.
Qed.

(** How an enrolment ends. *)
Definition enroll_ends {A} (args : enroll_args) (F : gmap string entry) (r : result A) (d' : disk) : Prop :=
  d_files d' = F ∧ is_ok r = false
  ∨ ∃ optional required collected secrets,
      load_names unicode_name (a_allowlist args) = Ok required
      ∧ load_names unicode_name (a_optional_allowlist args) = Ok optional
      ∧ validate_output_directory (a_output args) = Ok ()
      ∧ (required ∪ optional) ∩ dom F = ∅
      ∧ collect_secrets json_loads (a_primary args) (a_supplements args) (required ∪ optional) = Ok collected
      ∧ (amend token_urlsafe args collected).1 = secrets ∧ allowed_secrets required optional secrets
      ∧ (is_ok r = true ∧ d_files d' = written (Some (a_runtime_gid args)) secrets F
         ∨ is_ok r = false ∧ ∃ before, before `prefix_of` secrets
             ∧ left_behind (written (Some (a_runtime_gid args)) before F) d').

Lemma enroll_cases args d r d' :
  enroll k json_loads unicode_name token_urlsafe args d = (r, d') → enroll_ends args (d_files d) r d'.
Proof.
  unfold enroll, enroll_ends. intros H.
  apply io_bind_cases in H as [(e & [_ ->]%io_lift_eq & ->)|(required & d1 & [Ha ->]%io_lift_eq & H)]; [by left|].
  apply io_bind_cases in H as [(e & [_ ->]%io_lift_eq & ->)|(optional & d1 & [Ho ->]%io_lift_eq & H)]; [by left|].
  apply io_bind_cases in H as [(e & [_ ->]%io_lift_eq & ->)|([] & d1 & [Hdir ->]%io_lift_eq & H)]; [by left|].
  apply io_bind_cases in H as [(e & [Hd _]%ensure_empty_cases & ->)|(u & d1 & [Hd Hempty]%ensure_empty_cases & H)];
    [by left|]. specialize (Hempty eq_refl).
  apply io_bind_cases in H as [(e & [_ ->]%io_lift_eq & ->)|(collected & d2 & [Hc ->]%io_lift_eq & H)]; [by left|].
  destruct (amend token_urlsafe args collected) as [enrolled generated] eqn:Eam.
  apply io_bind_cases in H as [(e & [_ ->]%io_lift_eq & ->)|(secrets & d2 & [Hs ->]%io_lift_eq & H)]; [by left|].
  right. apply validate_secrets_Ok in Hs as (Heq & _ & Hall).
  apply as_json_inj in Heq as ->.
  exists optional, required, collected, secrets. rewrite Eam. split_and!; try done.
  assert (Forall (λ item, startswith "." item.1 = false) secrets) as Hdot by exact (allowed_no_dot _ _ _ _ _ Ho Ha Hall).
  rewrite <-Hd. apply io_bind_cases in H as [(e & H & ->)|(u' & d2 & H & [= <- <-])];
    apply write_secrets_cases in H as [[Hr Hd2]|(msg & before & Hr & Hp & Hl)]; try done.
  - right. split; [done|]. by exists before.
  - by left.
Qed.

(** C38: Enrolment never overwrites: however it ends, and whichever of its system
    calls failed, every file the directory held is still there, unchanged.  When
    it exits with 0 no managed name was in use, and the directory has gained
    exactly the validated secrets, readable by the runtime group. *)
Theorem enroll_never_overwrites args d r d' :
  enroll_main k json_loads unicode_name token_urlsafe args d = (r, d') →
  (∀ name e, d_files d !! name = Some e → d_files d' !! name = Some e)
  ∧ ∀ line, r = Ok (0, line) →
      ∃ optional required collected secrets,
        load_names unicode_name (a_allowlist args) = Ok required
        ∧ load_names unicode_name (a_optional_allowlist args) = Ok optional
        ∧ (required ∪ optional) ∩ dom (d_files d) = ∅
        ∧ collect_secrets json_loads (a_primary args) (a_supplements args) (required ∪ optional) = Ok collected
        ∧ (amend token_urlsafe args collected).1 = secrets ∧ allowed_secrets required optional secrets
        ∧ d_files d' = written (Some (a_runtime_gid args)) secrets (d_files d).
Proof.
  unfold enroll_main. intros H.
  assert (∃ r0, enroll k json_loads unicode_name token_urlsafe args d = (r0, d')
                ∧ (r = r0 ∨ is_ok r0 = false ∧ ∃ line, r = Ok (1, line))) as (r0 & H0 & Hr).
  { apply io_except_cases in H as [H|(c & msg & d1 & H & [= <- <-])]; [by exists r; split; [|left]|].
    eexists. split; [exact H|]. right. split; [done|]. by eexists. }
  apply enroll_cases in H0 as [[Hd He]|(optional & required & collected & secrets & Ha & Ho & _ & Hempty & Hc & Ham & Hall & Hend)].
  { split; [by rewrite Hd|]. intros line ->. destruct Hr as [<-|(_ & l & [=])]. discriminate He. }
  assert (∀ before name e, before `prefix_of` secrets → d_files d !! name = Some e →
    written (Some (a_runtime_gid args)) before (d_files d) !! name = Some e) as Hkeep.
  { intros before name e (rest & ->) Hname. destruct Hall as (_ & Hsub & _).
    destruct (written_cases (Some (a_runtime_gid args)) before (d_files d) name) as [->|(v & Hv & _)]; [done|].
    assert (name ∈ (required ∪ optional) ∩ dom (d_files d)) as Hin.
    { apply elem_of_intersection. split; [|by apply elem_of_dom].
      apply Hsub, elem_of_list_to_set, list_elem_of_fmap. exists (name, v). split; [done|]. apply elem_of_app. by left. }
    rewrite Hempty in Hin. by apply not_elem_of_empty in Hin. }
  split.
  - intros name e Hname. destruct Hend as [[_ ->]|[_ (before & Hp & [->|(t & et & _ & Ht & ->)])]].
    + by apply Hkeep.
    + by apply Hkeep.
    + rewrite lookup_insert_ne; [by apply Hkeep|]. intros ->. rewrite (Hkeep before name e Hp Hname) in Ht. discriminate Ht.
  - intros line ->. destruct Hend as [[_ Hd]|[He _]].
    + exists optional, required, collected, secrets. by split_and!.
    + destruct Hr as [<-|(_ & l & [=])]. discriminate He.
Qed.
End secrets_facts.

(** ** Examples *)

Definition sample_kernel (fault : nat → option string) : kernel := mkKernel fault (λ _ _, "par") (λ _, "x1y2z3").
Definition sample_set_order (X : gset string) : list string := elements X.
Definition sample_dir : dir_info := mkDir true true false (Ok (16832, 1000)) 1000.
Definition sample_bundle : result jval :=
  Ok (JObj [("schemaVersion", JStr "gcs-saker.encrypted-secret-bundle.v1");
            ("secrets", JObj [("JWT_SECRET", JStr "s3cret"); ("DB_PASSWORD", JStr "pa55")])]).
Definition sample_allowlist : result string := Ok ("JWT_SECRET" +:+ String "010" "DB_PASSWORD").
Definition sample_disk : disk :=
  mkDisk (<["JWT_SECRET" := mkEntry "old" 384 None]> (<["TURN_SECRET" := mkEntry "stale" 384 None]>
           (<["README" := mkEntry "keep" 420 None]> ∅))) 0.

Lemma materialize_exact_witness :
  ∃ line d' optional required secrets,
    materialize_main (sample_kernel (λ _, None)) sample_set_order (λ _, false) sample_dir (Ok "TURN_SECRET") sample_allowlist
      sample_bundle (Some 990) sample_disk = (Ok (0, line), d')
    ∧ allowed_secrets required optional secrets
    ∧ ∀ name, d_files d' !! name =
        match dict_get secrets name with
        | Some value => Some (secret_file (Some 990) value)
        | None => if decide (name ∈ optional) then None else d_files sample_disk !! name
        end.
Proof.
  destruct (materialize_main (sample_kernel (λ _, None)) sample_set_order (λ _, false) sample_dir (Ok "TURN_SECRET")
              sample_allowlist sample_bundle (Some 990) sample_disk) as [[[code line]|e] d'] eqn:E;
    [|vm_compute in E; discriminate E].
  assert (code = 0) as -> by (vm_compute in E; by injection E as <- _ _).
  destruct (materialize_exact (sample_kernel (λ _, None)) sample_set_order (λ _, false) sample_dir (Ok "TURN_SECRET")
              sample_allowlist sample_bundle (Some 990) sample_disk line d') as (optional & required & secrets & H).
  - intros X. reflexivity.
  - intros bundle [= <-]. unfold dict_wf. apply (bool_decide_unpack _). vm_compute. exact I.
  - exact E.
  - destruct H as (_ & _ & _ & _ & H1 & H2). exists line, d', optional, required, secrets.
    split; [reflexivity|]. split; [exact H1|exact H2].
Defined.

(** The call that writes the text of the second secret fails. *)
Definition sample_fault (n : nat) : option string := if Nat.eqb n 8 then Some "No space left on device" else None.

Lemma materialize_never_torn_witness :
  ∃ r d', materialize_main (sample_kernel sample_fault) sample_set_order (λ _, false) sample_dir (Ok "TURN_SECRET")
            sample_allowlist sample_bundle (Some 990) sample_disk = (r, d')
    ∧ r = Ok (1, "secret materialization failed: No space left on device")
    ∧ (d_files d' = d_files sample_disk
       ∨ ∃ optional required secrets,
           validate_output_directory sample_dir = Ok () ∧ load_names (λ _, false) (Ok "TURN_SECRET") = Ok optional
           ∧ load_names (λ _, false) sample_allowlist = Ok required
           ∧ load_bundle sample_bundle = Ok (prod_map id JStr <$> secrets) ∧ allowed_secrets required optional secrets
           ∧ ∀ name, startswith "." name = false →
               d_files d' !! name = d_files sample_disk !! name
               ∨ (∃ value, (name, value) ∈ secrets ∧ d_files d' !! name = Some (secret_file (Some 990) value))
               ∨ (name ∈ optional ∧ name ∉ secrets.*1 ∧ d_files d' !! name = None)).
Proof.
  destruct (materialize_main (sample_kernel sample_fault) sample_set_order (λ _, false) sample_dir (Ok "TURN_SECRET")
              sample_allowlist sample_bundle (Some 990) sample_disk) as [r d'] eqn:E.
  exists r, d'. split; [reflexivity|]. split; [vm_compute in E; by injection E as <- _|].
  apply (materialize_never_torn (sample_kernel sample_fault) sample_set_order (λ _, false) sample_dir (Ok "TURN_SECRET")
           sample_allowlist sample_bundle (Some 990) sample_disk r d'); [intros X; reflexivity|exact E].
Defined.

Definition sample_env (text : list string) : env_file := mkEnvFile true true false (Ok (join (String "010" "") text)).
Definition sample_primary : env_file := sample_env ["# legacy"; "export JWT_SECRET='s3cret'"; "UNRELATED=1"].
Definition sample_supplement : env_file := sample_env ["JWT_SECRET=other"; " DB_PASSWORD = pa55 "].

Lemma collect_first_wins_witness :
  ∃ secrets envs,
    collect_secrets (λ s, Ok (JStr s)) sample_primary [sample_supplement] {["JWT_SECRET"; "DB_PASSWORD"]} = Ok secrets
    ∧ secrets = [("JWT_SECRET", "s3cret"); ("DB_PASSWORD", "pa55")]
    ∧ mapM (read_environment (λ s, Ok (JStr s))) [sample_primary; sample_supplement] = Ok envs ∧ dict_wf secrets
    ∧ ∀ name, dict_get secrets name = if decide (name ∈ ({["JWT_SECRET"; "DB_PASSWORD"]} : gset string))
                                      then head (omap (λ env, dict_get env name) envs) else None.
Proof.
  destruct (collect_secrets (λ s, Ok (JStr s)) sample_primary [sample_supplement] {["JWT_SECRET"; "DB_PASSWORD"]})
    as [secrets|e] eqn:E; [|vm_compute in E; discriminate E].
  destruct (collect_first_wins (λ s, Ok (JStr s)) sample_primary [sample_supplement] {["JWT_SECRET"; "DB_PASSWORD"]}
              secrets E) as (envs & H1 & H2 & H3).
  exists secrets, envs. split; [reflexivity|]. split; [vm_compute in E; by injection E as <-|].
  split; [exact H1|]. split; [exact H2|exact H3].
Defined.

Definition sample_args : enroll_args :=
  mkArgs sample_primary [sample_supplement] sample_allowlist (Ok "TURN_SECRET") sample_dir 990 false false.
Definition sample_target : disk := mkDisk (<["README" := mkEntry "keep" 420 None]> ∅) 0.

Lemma enroll_never_overwrites_witness :
  ∃ line d',
    enroll_main (sample_kernel (λ _, None)) (λ s, Ok (JStr s)) (λ _, false) "token" sample_args sample_target
      = (Ok (0, line), d')
    ∧ d_files d' !! "README" = Some (mkEntry "keep" 420 None)
    ∧ ∃ secrets, d_files d' = written (Some 990) secrets (d_files sample_target).
Proof.
  destruct (enroll_main (sample_kernel (λ _, None)) (λ s, Ok (JStr s)) (λ _, false) "token" sample_args sample_target)
    as [[[code line]|e] d'] eqn:E; [|vm_compute in E; discriminate E].
  assert (code = 0) as -> by (vm_compute in E; by injection E as <- _ _).
  destruct (enroll_never_overwrites (sample_kernel (λ _, None)) (λ s, Ok (JStr s)) (λ _, false) "token" sample_args
              sample_target (Ok (0, line)) d' E) as [H1 H2].
  exists line, d'. split; [reflexivity|]. split; [apply H1; reflexivity|].
  destruct (H2 line eq_refl) as (optional & required & collected & secrets & _ & _ & _ & _ & _ & _ & H).
  exists secrets. exact H.
Defined.
