(* ===== verification/Hazards.v ===== *)
(** Hazard closure: [scripts/reports/hazard_closure_qualification.py].

    The report says which hazards of the log are closed, and what stands in the
    way of the others.  The JSON and YAML codecs, [repr] and ISO week dates are
    parameters; a document is loaded from the files at the time it is read. *)

From stdpp Require Import base list strings sorting.
From Stdlib Require Import ZArith Lia Floats.
From S2P Require Import Prelude PyStr PyFloat PyTime PyTimeParse PyJson PyText Host Effects Evidence.

#[local] Open Scope Z_scope.

(** [scripts/reports/hazard_closure_qualification.py:15-15] OUTPUT_SCHEMA *)
Definition OUTPUT_SCHEMA : string := "gcs-saker.hazard-closure-result.v1".

Definition hazard_error {A} (msg : string) : result A := throw ExcHazardClosureError msg.

(** An object of a document. *)
(** [scripts/reports/hazard_closure_qualification.py:33-39] unique *)
Definition unique (entries : jval) (key label : string) : result (list (string * entry)) :=
  match entries with
  | JList l =>
      let indexed := index_by key l in
      if negb (Nat.eqb (length indexed) (length l))
      then hazard_error (label +:+ " IDs must be unique strings") else Ok indexed
  | _ => hazard_error (label +:+ " must be a list")
  end.

(** [scripts/reports/hazard_closure_qualification.py:46-55] validate_profile *)
Definition validate_profile (profile : entry) : result () :=
  if negb (py_eq (obj_get profile "status") (JStr "CONTROLLED_DRAFT_NOT_EXECUTED"))
  then hazard_error "hazard closure profile must remain an unexecuted draft" else
  if negb (py_eq (obj_get profile "standard") (JStr "MIL-STD-882E Change 1"))
  then hazard_error "hazard closure profile has an unsupported standard" else
  status ← j_get (default (JObj []) (dict_get profile "thresholds")) "status";
  if negb (py_eq status (JStr "PROPOSED_NOT_APPROVED"))
  then hazard_error "hazard closure thresholds must remain proposed" else
  required_fields ← j_get (default (JObj []) (dict_get profile "closureRequirements")) "residualRiskRequiredFields";
  match required_fields with
  | JList l => if Nat.ltb (length l) 9 then hazard_error "residual-risk closure fields are incomplete" else Ok ()
  | _ => hazard_error "residual-risk closure fields are incomplete"
  end.

(** [scripts/reports/hazard_closure_qualification.py:70-77] hazard_traces *)
Definition hazard_traces (traceability : entry) : result (list (string * list jval)) :=
  traces ← j_items (default (JList []) (dict_get traceability "traces"));
  for_in (λ result trace,
    requirement_id ← j_get trace "requirementId";
    concerns ← j_get_or trace "threatsOrHazards" (JList []);
    hazards ← j_items concerns;
    Ok (foldl (λ result hazard_id,
          match hazard_id with
          | JStr id => if startswith "HAZ-" id
                       then dict_set result id (default [] (dict_get result id) ++ [requirement_id]) else result
          | _ => result
          end) result hazards)) [] traces.

(** [scripts/reports/hazard_closure_qualification.py:97-104] required: the fields a manifest must fill *)
Definition MANIFEST_FIELDS : list string :=
  ["generatedAt"; "environment"; "procedure"; "expectedResult"; "actualResult"; "reviewer"].

(** [scripts/reports/hazard_closure_qualification.py:110-113] artifact_ok: one artifact *)
Definition artifact_ok (artifact : jval) : bool :=
  match artifact with
  | JObj d => match obj_get d "sha256" with
              | JStr digest => Nat.eqb (str_len digest) 64 && j_truthy (obj_get d "immutableLocator")
              | _ => false
              end
  | _ => false
  end.

(** [scripts/reports/hazard_closure_qualification.py:96-113] validate_manifest_metadata *)
Definition validate_manifest_metadata (document : entry) (evidence_id : string) : result () :=
  if existsb (λ field, negb (j_truthy (obj_get document field))) MANIFEST_FIELDS
  then hazard_error ("evidence manifest metadata is incomplete: " +:+ evidence_id) else
  match obj_get document "artifacts" with
  | JList ((_ :: _) as artifacts) =>
      if forallb artifact_ok artifacts then Ok ()
      else hazard_error ("evidence artifact metadata is invalid: " +:+ evidence_id)
  | _ => hazard_error ("evidence manifest has no retained artifacts: " +:+ evidence_id)
  end.

Section hazards.
Context (json_loads yaml_safe_load : string → result jval) (py_repr : jval → string) (week_date : string → option Z).

(** [scripts/reports/hazard_closure_qualification.py:22-30] load_object *)
Definition load_object (fs : files) (path : fs_path) : result entry :=
  load_document json_loads yaml_safe_load ExcHazardClosureError fs path.

(** [scripts/reports/hazard_closure_qualification.py:82-92] load_manifest: one iteration over the paths *)
Definition load_manifest (source_commit : string) (fs : files) (manifests : list (string * entry)) (path : fs_path) :
    result (list (string * entry)) :=
  document ← load_object fs path;
  match obj_get document "evidenceId" with
  | JStr evidence_id =>
      if negb (py_eq (obj_get document "schemaVersion") (JStr "gcs-saker.evidence-manifest.v1"))
      then hazard_error ("invalid evidence manifest: " +:+ path_name path) else
      if dict_has manifests evidence_id then hazard_error ("duplicate evidence ID: " +:+ evidence_id) else
      if negb (py_eq (obj_get document "sourceCommit") (JStr source_commit))
      then hazard_error ("evidence source commit mismatch: " +:+ evidence_id) else
      _ ← validate_manifest_metadata document evidence_id;
      Ok (dict_set manifests evidence_id document)
  | _ => hazard_error ("invalid evidence manifest: " +:+ path_name path)
  end.

(** [scripts/reports/hazard_closure_qualification.py:80-93] load_manifests *)
Definition load_manifests (fs : files) (paths : list fs_path) (source_commit : string) : result (list (string * entry)) :=
  for_in (load_manifest source_commit fs) [] paths.

(** [scripts/reports/hazard_closure_qualification.py:116-122] parse_date *)
Definition parse_date (value : jval) : option Z :=
  match value with
  | JStr s => match date_fromisoformat week_date s with Ok d => Some d | Raise _ => None end
  | _ => None
  end.

(** [scripts/reports/hazard_closure_qualification.py:160-165] evidence_blocker: one iteration over the evidence *)
Definition evidence_blocker (hazard_id : string) (manifests : list (string * entry)) (evidence_id : jval) :
    result (list string) :=
  if negb (hashable evidence_id) then type_error "unhashable type" else
  match match evidence_id with JStr id => dict_get manifests id | _ => None end with
  | None => Ok ["evidence-manifest-not-supplied"]
  | Some manifest =>
      if negb (py_eq (obj_get manifest "verdict") (JStr "PASS"))
      then Ok ["evidence-not-pass-or-hazard-mismatch"] else
      covered ← j_contains hazard_id (default (JList []) (dict_get manifest "hazardIds"));
      Ok (if covered : bool then [] else ["evidence-not-pass-or-hazard-mismatch"])
  end.

(** [scripts/reports/hazard_closure_qualification.py:156-166] manifest_blockers *)
Definition manifest_blockers (hazard_id : string) (evidence_ids : jval) (manifests : list (string * entry)) :
    result (list string) :=
  match evidence_ids with
  | JList ((_ :: _) as ids) =>
      blockers ← mapM (evidence_blocker hazard_id manifests) ids;
      Ok (sorted_set (concat blockers))
  | _ => Ok ["pass-evidence-missing"]
  end.

Definition when (b : bool) (blocker : string) : list string := if b then [blocker] else [].

(** [scripts/reports/hazard_closure_qualification.py:125-153] record_blockers *)
Definition record_blockers (hazard : entry) (record : option entry) (manifests : list (string * entry))
    (source_commit : string) (as_of : Z) : result (list string) :=
  match record with
  | None => Ok ["missing-residual-risk-record"]
  | Some record =>
      let commit := when (negb (py_eq (obj_get record "sourceCommit") (JStr source_commit)))
                      "residual-risk-source-commit-mismatch" in
      let disposition := when (negb (py_eq (obj_get record "disposition") (JStr "ACCEPT"))) "residual-risk-not-accepted" in
      let risk := obj_get record "residualRisk" in
      if negb (hashable risk) then type_error "unhashable type" else
      let unassessed := when (j_elem risk [JNull; JStr "UNASSESSED"]) "residual-risk-unassessed" in
      let incomplete := when (negb (j_truthy (obj_get record "acceptanceAuthority"))
                              || bool_decide (parse_date (obj_get record "acceptedAt") = None))
                          "acceptance-decision-incomplete" in
      let review := match parse_date (obj_get record "reviewDueAt") with
                    | None => ["review-date-invalid"]
                    | Some due => when (due <? as_of) "acceptance-expired"
                    end in
      verified ← match obj_get record "verifiedControlRequirementIds" with JList l => j_set (JList l) | _ => Ok [] end;
      required ← (v ← j_getitem (JObj hazard) "safetyRequirements"; j_set v);
      let unverified := when (negb (j_subset required verified)) "safety-controls-unverified" in
      id ← (v ← j_getitem (JObj hazard) "id"; as_str v);
      evidence ← manifest_blockers id (obj_get record "evidenceManifestIds") manifests;
      Ok (commit ++ disposition ++ unassessed ++ incomplete ++ review ++ unverified ++ evidence)
  end.

(** [bool(traces.get(hazard_id))] *)
Definition traced (traces : list (string * list jval)) (hazard_id : string) : bool :=
  match dict_get traces hazard_id with Some (_ :: _) => true | _ => false end.

(** One line of the report. *)
Record HazardResult : Type := mkHazardResult { hazardId : string; closed : bool; blockers : list string }.

(** [scripts/reports/hazard_closure_qualification.py:178-191] evaluate_hazard: one iteration over the hazards *)
Definition evaluate_hazard (records : list (string * entry)) (traces : list (string * list jval))
    (manifests : list (string * entry)) (source_commit : string) (as_of : Z) (item : string * entry) :
    result HazardResult :=
  let '(hazard_id, hazard) := item in
  let untraced := when (negb (traced traces hazard_id)) "missing-requirement-trace" in
  let still_open := when (negb (py_eq (obj_get hazard "status") (JStr "CLOSED"))) "hazard-status-open" in
  rest ← record_blockers hazard (dict_get records hazard_id) manifests source_commit as_of;
  let found := untraced ++ still_open ++ rest in
  Ok (mkHazardResult hazard_id (bool_decide (found = [])) (sorted_set found)).

(** The evaluation, before it is rendered. *)
Record Evaluation : Type := mkEvaluation {
  ev_results : list HazardResult;
  ev_closed : nat;
  ev_ratio : float;
  ev_untraced : list string;
  technicalResult : string;
  verdict : string
}.

(** [scripts/reports/hazard_closure_qualification.py:169-205] evaluate_hazards *)
Definition evaluate_hazards (hazards records : list (string * entry)) (traces : list (string * list jval))
    (manifests : list (string * entry)) (source_commit : string) (as_of : Z) : result Evaluation :=
  results ← mapM (evaluate_hazard records traces manifests source_commit as_of) hazards;
  let closed_count := length (filter (λ r, closed r = true) results) in
  let invalid_declared_closed := existsb (λ item,
    py_eq (obj_get (default [] (dict_get hazards (hazardId item))) "status") (JStr "CLOSED")
    && negb (bool_decide (blockers item = []))) results in
  let technical_result := if invalid_declared_closed then "FAIL"
                          else if Nat.eqb closed_count (length results) then "PASS" else "BLOCKED" in
  ratio ← match results with
          | [] => Ok 0%float
          | _ => true_div (Z.of_nat closed_count) (Z.of_nat (length results))
          end;
  Ok (mkEvaluation results closed_count ratio
        (py_sorted (filter (λ id, traced traces id = false) (dict_keys hazards)))
        technical_result (if String.eqb technical_result "FAIL" then "FAIL" else "BLOCKED")).

(** The keys of one dict that another does not have. *)
Definition unknown_keys {A B} (d : list (string * A)) (known : list (string * B)) : list string :=
  py_sorted (filter (λ key, key ∉ dict_keys known) (dict_keys d)).

Section report.
Context (fs : files) (REPO_ROOT : fs_path).

(** [scripts/reports/hazard_closure_qualification.py:42-43] input_path *)
Definition input_path (profile : entry) (name : string) : result fs_path :=
  relative ← (v ← j_path (JObj profile) ["inputs"; name]; as_str v); Ok (path_div REPO_ROOT relative).

Definition input (profile : entry) (name : string) : result entry := path ← input_path profile name; load_object fs path.

(** [scripts/reports/hazard_closure_qualification.py:211-232] controlled_inputs: the part of build_report before the
    evaluation: the hazards, their records and their traces *)
Definition controlled_inputs (profile : entry) :
    result (list (string * entry) * list (string * entry) * list (string * list jval)) :=
  _ ← validate_profile profile;
  hazard_log ← input profile "hazardLog";
  hazards ← unique (obj_get hazard_log "hazards") "id" "hazards";
  expected_count ← j_path (JObj profile) ["closureRequirements"; "requiredHazardCount"];
  if negb (py_eq (JInt (Z.of_nat (length hazards))) expected_count)
  then hazard_error ("expected " +:+ py_str py_repr expected_count +:+ " controlled hazards") else
  lor ← input profile "levelOfRigor";
  assignments ← unique (obj_get lor "assignments") "hazardId" "LOR assignments";
  let same := forallb (λ key, bool_decide (key ∈ dict_keys hazards)) (dict_keys assignments)
              && forallb (λ key, bool_decide (key ∈ dict_keys assignments)) (dict_keys hazards) in
  if negb same || existsb (λ '(key, hazard),
       negb (py_eq (obj_get (default [] (dict_get assignments key)) "swci") (obj_get hazard "swci"))) hazards
  then hazard_error "hazard LOR assignments are incomplete or inconsistent" else
  risk_register ← input profile "residualRiskRegister";
  records ← unique (obj_get risk_register "records") "hazardId" "residual-risk records";
  let unknown_records := unknown_keys records hazards in
  if negb (bool_decide (unknown_records = []))
  then hazard_error ("residual-risk records reference unknown hazards: " +:+ py_repr (JList (map JStr unknown_records))) else
  traceability ← input profile "traceability";
  traces ← hazard_traces traceability;
  let unknown_traces := unknown_keys traces hazards in
  if negb (bool_decide (unknown_traces = []))
  then hazard_error ("traceability references unknown hazards: " +:+ py_repr (JList (map JStr unknown_traces))) else
  Ok (hazards, records, traces).

(** [scripts/reports/hazard_closure_qualification.py:208-240] evaluated: build_report up to its rendering *)
Definition evaluated (profile : entry) (manifest_paths : list fs_path) (source_commit : string) (as_of : Z) :
    result Evaluation :=
  '(hazards, records, traces) ← controlled_inputs profile;
  manifests ← load_manifests fs manifest_paths source_commit;
  evaluate_hazards hazards records traces manifests source_commit as_of.
End report.

Definition result_json (r : HazardResult) : jval :=
  JObj [("hazardId", JStr (hazardId r)); ("closed", JBool (closed r)); ("blockers", JList (map JStr (blockers r)))].

(** [scripts/reports/hazard_closure_qualification.py:241-249] report_json: the rendering of build_report *)
Definition report_json (profile : entry) (e : Evaluation) (now : datetime) (source_commit : string) (as_of : Z) :
    result jval :=
  status ← j_path (JObj profile) ["thresholds"; "status"];
  Ok (JObj [("schemaVersion", JStr OUTPUT_SCHEMA); ("generatedAt", JStr (isoformat now));
            ("asOfDate", JStr (date_str "-" (as_of * 86400000000))); ("sourceCommit", JStr source_commit);
            ("thresholdStatus", status); ("hazardCount", JInt (Z.of_nat (length (ev_results e))));
            ("closedHazardCount", JInt (Z.of_nat (ev_closed e))); ("closureRatio", JFloat (ev_ratio e));
            ("untracedHazardIds", JList (map JStr (ev_untraced e))); ("hazards", JList (map result_json (ev_results e)));
            ("technicalResult", JStr (technicalResult e)); ("verdict", JStr (verdict e));
            ("limitations", JList [JStr "hazard closure threshold and independent system-safety review are not approved"])]).

Section main.
Context (w : world) (fs : history → files) (REPO_ROOT : fs_path).

(** [scripts/reports/hazard_closure_qualification.py:58-67] current_commit *)
Definition current_commit : eff string := run w ["git"; "rev-parse"; "HEAD"] (Some 10).

(** [scripts/reports/hazard_closure_qualification.py:252-257] write_immutable *)
Definition write_immutable (path : fs_path) (document : jval) : eff () :=
  write_new w fs ExcHazardClosureError path document.

(** [scripts/reports/hazard_closure_qualification.py:267-279] main, from the parsed arguments *)
Definition main (check : bool) (manifests : list fs_path) (as_of : option Z) (output : option fs_path) : eff Z :=
  profile ← reading fs (λ fs, load_object fs
              (path_div REPO_ROOT "docs/compliance/safety/hazard-closure-qualification.yml"));
  _ ← lift (validate_profile profile);
  if check then _ ← print (JStr "hazard closure qualification profile passed"); mret 0 else
  match as_of, output with
  | Some as_of, Some output =>
      missing ← reading fs (λ fs, any_in (λ path, or_r (Ok (negb (p_absolute path))) (not_r (fs_is_file fs path))) manifests);
      if missing : bool then raise ExcHazardClosureError "every evidence manifest must be an existing absolute file" else
      commit ← current_commit;
      e ← reading fs (λ fs, evaluated fs REPO_ROOT profile manifests commit as_of);
      now ← utcnow w;
      report ← lift (report_json profile e now commit as_of);
      _ ← write_immutable output report;
      _ ← print (JObj [("closureRatio", JFloat (ev_ratio e)); ("verdict", JStr (verdict e))]);
      mret 0
  | _, _ => raise ExcSystemExit "--as-of-date and --output are required"
  end.
End main.
End hazards.

(** ** What the report says of a hazard *)

Section hazards_facts.
Context (json_loads yaml_safe_load : string → result jval) (py_repr : jval → string) (week_date : string → option Z).

Local Notation parse_date := (parse_date week_date).

Section evaluation.
Context (records : list (string * entry)) (traces : list (string * list jval)) (manifests : list (string * entry))
  (source_commit : string) (as_of : Z).

(** The evidence of a record: manifests that were supplied, passed and cover the hazard. *)
Definition evidence_passes (hazard_id : string) (evidence_ids : jval) : Prop :=
  ∃ ids, evidence_ids = JList ids ∧ ids ≠ []
    ∧ ∀ x, x ∈ ids → ∃ id manifest, x = JStr id ∧ dict_get manifests id = Some manifest
        ∧ obj_get manifest "verdict" = JStr "PASS"
        ∧ j_contains hazard_id (default (JList []) (dict_get manifest "hazardIds")) = Ok true.

(** The residual risk of a hazard is accepted: for this commit, by a named
    authority, with a decision that is dated and not yet due for review, on
    verified controls and passing evidence. *)
Definition risk_accepted (hazard record : entry) : Prop :=
  obj_get record "sourceCommit" = JStr source_commit ∧ obj_get record "disposition" = JStr "ACCEPT"
  ∧ obj_get record "residualRisk" ≠ JNull ∧ obj_get record "residualRisk" ≠ JStr "UNASSESSED"
  ∧ j_truthy (obj_get record "acceptanceAuthority") = true ∧ parse_date (obj_get record "acceptedAt") ≠ None
  ∧ (∃ due, parse_date (obj_get record "reviewDueAt") = Some due ∧ as_of <= due)
  ∧ (∃ verified required,
       match obj_get record "verifiedControlRequirementIds" with JList l => j_set (JList l) | _ => Ok [] end = Ok verified
       ∧ (v ← j_getitem (JObj hazard) "safetyRequirements"; j_set v) = Ok required ∧ j_subset required verified = true)
  ∧ ∃ id, j_getitem (JObj hazard) "id" = Ok (JStr id) ∧ evidence_passes id (obj_get record "evidenceManifestIds").

(** A closed hazard: traced to a requirement, declared closed, its risk accepted. *)
Definition hazard_closed (id : string) (hazard : entry) : Prop :=
  traced traces id = true ∧ obj_get hazard "status" = JStr "CLOSED"
  ∧ ∃ record, dict_get records id = Some record ∧ risk_accepted hazard record.

Lemma when_nil b s : when b s = [] ↔ b = false.
Proof. by destruct b. Qed.

Lemma py_eq_null v : py_eq v JNull = true ↔ v = JNull.
Proof. by destruct v as [|[]| | | | |]. Qed.

Lemma not_py_eq_str v s : negb (py_eq v (JStr s)) = false ↔ v = JStr s.
Proof. by rewrite negb_false_iff, py_eq_str. Qed.

Lemma evidence_blocker_Ok hazard_id x found : evidence_blocker hazard_id manifests x = Ok found →
  found = [] ↔ ∃ id manifest, x = JStr id ∧ dict_get manifests id = Some manifest
    ∧ obj_get manifest "verdict" = JStr "PASS"
    ∧ j_contains hazard_id (default (JList []) (dict_get manifest "hazardIds")) = Ok true.
Proof.
  unfold evidence_blocker. intros H. destruct (hashable x); [|discriminate H]. cbn [negb] in H.
  destruct (match x with JStr id => dict_get manifests id | _ => None end) as [manifest|] eqn:E.
  - destruct x; try discriminate E. destruct (negb _) eqn:Ev.
    + injection H as <-. split; [done|]. intros (id & m & [= <-] & Hm & Hv & _).
      rewrite Hm in E. injection E as ->. by apply not_py_eq_str in Hv; rewrite Hv in Ev.
    + apply not_py_eq_str in Ev. apply bind_Ok in H as (covered & Hc & H).
      destruct covered; injection H as <-; split; try done.
      * intros _. by exists s, manifest.
      * intros (id & m & [= <-] & Hm & _ & Hcm). rewrite E in Hm. injection Hm as <-. rewrite Hc in Hcm. by injection Hcm.
  - injection H as <-. split; [done|]. intros (id & m & -> & Hm & _). by rewrite E in Hm.
Qed.

Lemma evidence_blockers_nil hazard_id l bs :
  Forall2 (λ x b, evidence_blocker hazard_id manifests x = Ok b) l bs →
  concat bs = [] ↔ ∀ x, x ∈ l → ∃ id manifest, x = JStr id ∧ dict_get manifests id = Some manifest
    ∧ obj_get manifest "verdict" = JStr "PASS"
    ∧ j_contains hazard_id (default (JList []) (dict_get manifest "hazardIds")) = Ok true.
Proof.
  induction 1 as [|y b l bs Hy _ IH]; cbn; [split; [|done]; intros _ y []%not_elem_of_nil|].
  rewrite app_nil, IH, (evidence_blocker_Ok _ _ _ Hy). setoid_rewrite elem_of_cons. split.
  - intros [H1 H2] z [->|Hz]; [done|by apply H2].
  - intros H. split; [apply H; by left|]. intros z Hz. apply H. by right.
Qed.

Lemma manifest_blockers_Ok hazard_id ids found : manifest_blockers hazard_id ids manifests = Ok found →
  found = [] ↔ evidence_passes hazard_id ids.
Proof.
  unfold manifest_blockers, evidence_passes. intros H.
  destruct ids as [| | | | |[|x l]|];
    try (injection H as <-; split; [done|]; intros (? & Heq & Hne & _); congruence).
  apply bind_Ok in H as (bs & Hbs & [= <-]). rewrite sorted_set_nil. apply mapM_Ok in Hbs.
  rewrite (evidence_blockers_nil _ _ _ Hbs).
  split.
  - intros H. exists (x :: l). split; [done|]. split; [discriminate|exact H].
  - intros (ids & [= <-] & _ & H). exact H.
Qed.

Lemma record_blockers_Ok hazard record found :
  record_blockers week_date hazard record manifests source_commit as_of = Ok found →
  found = [] ↔ ∃ r, record = Some r ∧ risk_accepted hazard r.
Proof.
  unfold record_blockers. destruct record as [r|];
    [|intros [= <-]; split; [done|]; by intros (? & [=] & _)].
  intros H. destruct (hashable (obj_get r "residualRisk")); [|discriminate H]. cbn [negb] in H.
  apply bind_Ok in H as (verified & Hv & H). apply bind_Ok in H as (required & Hr & H).
  apply bind_Ok in H as (id & Hid & H). apply bind_Ok in H as (evidence & He & [= <-]).
  apply bind_Ok in Hid as (idv & Hidv & Hid). destruct idv; try discriminate Hid. injection Hid as ->.
  apply manifest_blockers_Ok in He.
  rewrite !app_nil, !when_nil, He, !not_py_eq_str, !negb_false_iff.
  assert (negb (j_truthy (obj_get r "acceptanceAuthority")) || bool_decide (parse_date (obj_get r "acceptedAt") = None) = false
          ↔ j_truthy (obj_get r "acceptanceAuthority") = true ∧ parse_date (obj_get r "acceptedAt") ≠ None) as ->.
  { by rewrite orb_false_iff, negb_false_iff, bool_decide_eq_false. }
  assert (j_elem (obj_get r "residualRisk") [JNull; JStr "UNASSESSED"] = false
          ↔ obj_get r "residualRisk" ≠ JNull ∧ obj_get r "residualRisk" ≠ JStr "UNASSESSED") as ->.
  { unfold j_elem. cbn [existsb]. rewrite !orb_false_iff, <-!not_true_iff_false, py_eq_null, py_eq_str. clear.
    split; [intros (? & ? & _)|intros [? ?]]; split_and!; done. }
  assert (match parse_date (obj_get r "reviewDueAt") with
          | None => ["review-date-invalid"] | Some due => when (due <? as_of) "acceptance-expired" end = []
          ↔ ∃ due, parse_date (obj_get r "reviewDueAt") = Some due ∧ as_of <= due) as ->.
  { destruct (parse_date (obj_get r "reviewDueAt")) as [due|].
    - rewrite when_nil, Z.ltb_ge. split; [by exists due|]. by intros (? & [= <-] & ?).
    - split; [done|]. by intros (? & [=] & _). }
  unfold risk_accepted. split.
  - intros (H1 & H2 & [H3 H4] & [H5 H6] & H7 & H8 & H9). exists r. split; [done|]. split_and!; try done.
    + by exists verified, required.
    + by exists id.
  - intros (r' & [= <-] & H1 & H2 & H3 & H4 & H5 & H6 & H7 & (ver & req & Hv' & Hr' & Hs) & id' & Hid' & Hev).
    rewrite Hidv in Hid'. injection Hid' as ->. rewrite Hr in Hr'. injection Hr' as <-.
    rewrite Hv in Hv'. injection Hv' as <-. by split_and!.
Qed.

Lemma evaluate_hazard_Ok id hazard r :
  evaluate_hazard week_date records traces manifests source_commit as_of (id, hazard) = Ok r →
  hazardId r = id ∧ (closed r = true ↔ hazard_closed id hazard) ∧ (blockers r = [] ↔ closed r = true).
Proof.
  unfold evaluate_hazard. intros H. apply bind_Ok in H as (rest & Hr & [= <-]). cbn.
  apply record_blockers_Ok in Hr. rewrite sorted_set_nil, bool_decide_eq_true.
  split_and!; [done| |done]. rewrite !app_nil, !when_nil, Hr, not_py_eq_str, negb_false_iff. done.
Qed.
End evaluation.

Lemma filter_length_all {A} (P : A → Prop) `{∀ x, Decision (P x)} (l : list A) :
  length (filter P l) = length l ↔ Forall P l.
Proof.
  induction l as [|x l IH]; [by split|]. rewrite filter_cons, Forall_cons. case_decide.
  - cbn. rewrite <-IH. split; [by intros [= ->]|by intros [_ ->]].
  - split; [|by intros [? _]]. intros Hl. pose proof (length_filter P l). cbn in Hl. lia.
Qed.

(** What an evaluation says of each hazard, and of all of them. *)
Lemma evaluate_hazards_Ok hazards records traces manifests source_commit as_of e :
  evaluate_hazards week_date hazards records traces manifests source_commit as_of = Ok e →
  Forall2 (λ '(id, hazard) r, hazardId r = id ∧ (blockers r = [] ↔ closed r = true)
      ∧ (closed r = true ↔ hazard_closed records traces manifests source_commit as_of id hazard))
    hazards (ev_results e)
  ∧ ev_closed e = length (filter (λ r, closed r = true) (ev_results e))
  ∧ (technicalResult e = "FAIL" ↔ ∃ r, r ∈ ev_results e ∧ closed r = false
        ∧ obj_get (default [] (dict_get hazards (hazardId r))) "status" = JStr "CLOSED")
  ∧ (technicalResult e = "PASS" ↔ Forall (λ r, closed r = true) (ev_results e))
  ∧ verdict e = if String.eqb (technicalResult e) "FAIL" then "FAIL" else "BLOCKED".
Proof.
  unfold evaluate_hazards. intros H. apply bind_Ok in H as (results & Hr & H). apply bind_Ok in H as (ratio & _ & [= <-]).
  cbn [ev_results ev_closed technicalResult verdict]. apply mapM_Ok in Hr.
  assert (Forall2 (λ '(id, hazard) r, hazardId r = id ∧ (blockers r = [] ↔ closed r = true)
      ∧ (closed r = true ↔ hazard_closed records traces manifests source_commit as_of id hazard)) hazards results) as Hall.
  { eapply Forall2_impl; [exact Hr|]. intros [id hazard] r Hi. cbn beta in Hi. apply evaluate_hazard_Ok in Hi as (? & ? & ?).
    by split_and!. }
  assert (∀ r, r ∈ results → (blockers r = [] ↔ closed r = true)) as Hb.
  { intros r (i & Hi)%list_elem_of_lookup. destruct (Forall2_lookup_r _ _ _ _ _ Hall Hi) as ([id hz] & _ & _ & ? & _). done. }
  split; [exact Hall|]. split; [done|].
  set (bad := existsb _ _).
  assert (bad = true ↔ ∃ r, r ∈ results ∧ closed r = false
        ∧ obj_get (default [] (dict_get hazards (hazardId r))) "status" = JStr "CLOSED") as Hbad.
  { unfold bad. rewrite existsb_exists. split; intros (r & Hin & Hc); exists r.
    - apply list_elem_of_In in Hin. rewrite andb_true_iff, py_eq_str, negb_true_iff, bool_decide_eq_false, (Hb _ Hin) in Hc.
      destruct Hc as [Hs Hc]. split; [done|]. split; [|done]. by destruct (closed r).
    - destruct Hc as [Hc Hs]. split; [by apply list_elem_of_In|].
      rewrite andb_true_iff, py_eq_str, negb_true_iff, bool_decide_eq_false, (Hb _ Hin), Hc. split; [done|discriminate]. }
  set (full := Nat.eqb _ _).
  assert (full = true ↔ Forall (λ r, closed r = true) results) as Hfull.
  { unfold full. rewrite Nat.eqb_eq. apply filter_length_all. }
  destruct bad.
  - split; [by rewrite <-Hbad|]. split; [|done]. split; [done|]. intros Hf.
    destruct Hbad as [(r & Hin & Hc & _) _]; [done|]. rewrite Forall_forall in Hf. by rewrite (Hf _ Hin) in Hc.
  - rewrite <-Hbad, <-Hfull. by destruct full.
Qed.

(** A manifest with its metadata and its retained artifacts. *)
Definition manifest_complete (document : entry) : Prop :=
  (∀ field, field ∈ MANIFEST_FIELDS → j_truthy (obj_get document field) = true)
  ∧ ∃ artifacts, obj_get document "artifacts" = JList artifacts ∧ artifacts ≠ []
      ∧ ∀ artifact, artifact ∈ artifacts → ∃ d digest, artifact = JObj d ∧ obj_get d "sha256" = JStr digest
          ∧ str_len digest = 64%nat ∧ j_truthy (obj_get d "immutableLocator") = true.

Lemma validate_manifest_metadata_Ok document evidence_id :
  validate_manifest_metadata document evidence_id = Ok () → manifest_complete document.
Proof.
  unfold validate_manifest_metadata, manifest_complete. destruct (existsb _ MANIFEST_FIELDS) eqn:Hf; [done|].
  apply existsb_false in Hf. rewrite Forall_forall in Hf. intros H. split.
  - intros field Hin. by apply negb_false_iff, Hf.
  - destruct (obj_get document "artifacts") as [| | | | |[|a artifacts]|]; try discriminate H.
    destruct (forallb artifact_ok (a :: artifacts)) eqn:Ha; [|discriminate H].
    exists (a :: artifacts). split; [done|]. split; [done|]. intros artifact Hin.
    rewrite forallb_forall in Ha. specialize (Ha _ (proj1 (list_elem_of_In _ _) Hin)).
    destruct artifact as [| | | | | |d]; try discriminate Ha. cbn in Ha.
    destruct (obj_get d "sha256") as [| | | |digest| |] eqn:Hd; try discriminate Ha.
    apply andb_true_iff in Ha as [Hl%Nat.eqb_eq Hi]. by exists d, digest.
Qed.

(** A supplied manifest: of this commit, of the known schema, with its artifacts. *)
Definition manifest_valid (source_commit evidence_id : string) (document : entry) : Prop :=
  obj_get document "evidenceId" = JStr evidence_id
  ∧ obj_get document "schemaVersion" = JStr "gcs-saker.evidence-manifest.v1"
  ∧ obj_get document "sourceCommit" = JStr source_commit
  ∧ manifest_complete document.

(** The manifests are the documents of the given paths, each under its own
    identifier: every path holds one, and there are no others. *)
Definition manifests_supplied (fs : files) (paths : list fs_path) (source_commit : string)
    (manifests : list (string * entry)) : Prop :=
  (∀ path, path ∈ paths → ∃ evidence_id document, load_object json_loads yaml_safe_load fs path = Ok document
      ∧ manifest_valid source_commit evidence_id document ∧ dict_get manifests evidence_id = Some document)
  ∧ ∀ evidence_id document, dict_get manifests evidence_id = Some document →
      manifest_valid source_commit evidence_id document
      ∧ ∃ path, path ∈ paths ∧ load_object json_loads yaml_safe_load fs path = Ok document.

Lemma load_manifest_Ok source_commit fs manifests path manifests' :
  load_manifest json_loads yaml_safe_load source_commit fs manifests path = Ok manifests' →
  ∃ evidence_id document, manifests' = dict_set manifests evidence_id document
    ∧ load_object json_loads yaml_safe_load fs path = Ok document
    ∧ dict_get manifests evidence_id = None ∧ manifest_valid source_commit evidence_id document.
Proof.
  unfold load_manifest, manifest_valid. intros H. apply bind_Ok in H as (document & Hload & H).
  destruct (obj_get document "evidenceId") as [| | | |evidence_id| |] eqn:Hid; try discriminate H.
  destruct (negb (py_eq (obj_get document "schemaVersion") _)) eqn:Hs; [discriminate H|].
  destruct (dict_has manifests evidence_id) eqn:Hn; [discriminate H|].
  destruct (negb (py_eq (obj_get document "sourceCommit") _)) eqn:Hc; [discriminate H|].
  apply bind_Ok in H as ([] & Hv & [= <-]). exists evidence_id, document.
  apply not_py_eq_str in Hs, Hc. split_and!; try done; [|by eapply validate_manifest_metadata_Ok].
  unfold dict_has in Hn. by destruct (dict_get manifests evidence_id).
Qed.

(** Loading the paths one after the other keeps what is there and adds a document for each. *)
Lemma load_manifests_from fs source_commit paths manifests manifests' :
  for_in (load_manifest json_loads yaml_safe_load source_commit fs) manifests paths = Ok manifests' →
  (∀ id document, dict_get manifests id = Some document → dict_get manifests' id = Some document)
  ∧ (∀ path, path ∈ paths → ∃ id document, load_object json_loads yaml_safe_load fs path = Ok document
       ∧ manifest_valid source_commit id document ∧ dict_get manifests' id = Some document)
  ∧ ∀ id document, dict_get manifests' id = Some document → dict_get manifests id = Some document
      ∨ manifest_valid source_commit id document
        ∧ ∃ path, path ∈ paths ∧ load_object json_loads yaml_safe_load fs path = Ok document.
Proof.
  revert manifests. induction paths as [|path paths IH]; intros manifests H.
  - cbn in H. injection H as <-. split; [done|]. split; [by intros path []%not_elem_of_nil|]. by left.
  - cbn in H. apply bind_Ok in H as (ms & H1 & H). apply load_manifest_Ok in H1 as (id & document & -> & Hl & Hn & Hv).
    destruct (IH _ H) as (Hkeep & Hall & Honly).
    assert (dict_get manifests' id = Some document) as Hid by (apply Hkeep; by rewrite dict_get_set_eq).
    split; [|split].
    + intros id' d Hd. apply Hkeep. rewrite dict_get_set. destruct (decide (id' = id)) as [->|]; [congruence|done].
    + intros q [->|Hq]%elem_of_cons; [by exists id, document|by apply Hall].
    + intros id' d Hd. destruct (Honly _ _ Hd) as [Hms|(Hv' & q & Hq & Hld)].
      * rewrite dict_get_set in Hms. destruct (decide (id' = id)) as [->|]; [|by left].
        injection Hms as <-. right. split; [done|]. exists path. split; [left|done].
      * right. split; [done|]. exists q. split; [by right|done].
Qed.

Lemma load_manifests_Ok fs paths source_commit manifests :
  load_manifests json_loads yaml_safe_load fs paths source_commit = Ok manifests →
  manifests_supplied fs paths source_commit manifests.
Proof.
  intros (_ & Hall & Honly)%load_manifests_from. split; [done|]. intros id document Hd.
  by destruct (Honly _ _ Hd) as [?|?].
Qed.

(** C18: a hazard closure report never passes on its own.  Of each hazard of the
    log it says closed exactly when the hazard traces to a requirement, is
    declared closed, and its residual risk is accepted: for this commit, by a
    named authority, dated, not due for review at the reference date, with every
    safety requirement among the verified controls and with evidence that passed,
    covers the hazard and is among the manifests of the given paths.  Each of
    those paths holds a complete manifest of this commit, found under its
    identifier, and no other manifest counts.  A hazard declared closed that is not
    fails the report; otherwise the verdict stays blocked. *)
Theorem hazard_report_sound fs REPO_ROOT profile paths source_commit as_of e :
  evaluated json_loads yaml_safe_load py_repr week_date fs REPO_ROOT profile paths source_commit as_of = Ok e →
  ∃ hazards records traces manifests,
    controlled_inputs json_loads yaml_safe_load py_repr fs REPO_ROOT profile = Ok (hazards, records, traces)
    ∧ manifests_supplied fs paths source_commit manifests
    ∧ Forall2 (λ '(id, hazard) r, hazardId r = id
          ∧ (closed r = true ↔ hazard_closed records traces manifests source_commit as_of id hazard)) hazards (ev_results e)
    ∧ (technicalResult e = "PASS" ↔ Forall (λ r, closed r = true) (ev_results e))
    ∧ (verdict e = "FAIL" ∨ verdict e = "BLOCKED")
    ∧ (verdict e = "FAIL" ↔ ∃ r, r ∈ ev_results e ∧ closed r = false
         ∧ obj_get (default [] (dict_get hazards (hazardId r))) "status" = JStr "CLOSED").
Proof.
  intros H. apply bind_Ok in H as ([[hazards records] traces] & Hi & H).
  apply bind_Ok in H as (manifests & Hm & H). exists hazards, records, traces, manifests.
  apply evaluate_hazards_Ok in H as (Hall & _ & Hf & Hp & ->).
  split; [exact Hi|]. split; [by apply load_manifests_Ok|].
  split. { eapply Forall2_impl; [exact Hall|]. intros [id hazard] r (? & _ & ?). by split. }
  split; [exact Hp|]. rewrite <-Hf. destruct (String.eqb_spec (technicalResult e) "FAIL") as [->|Hne].
  - split; [by left|by split].
  - split; [by right|]. by split.
Qed.
End hazards_facts.

(** ** A report *)

Definition sample_hazard (id status : string) : jval :=
  JObj [("id", JStr id); ("status", JStr status); ("swci", JInt 1); ("safetyRequirements", JList [JStr "SR-1"])].

Definition sample_document (name : string) : result jval :=
  if String.eqb name "log" then Ok (JObj [("hazards", JList [sample_hazard "HAZ-1" "CLOSED"; sample_hazard "HAZ-2" "OPEN"])])
  else if String.eqb name "lor"
  then Ok (JObj [("assignments", JList [JObj [("hazardId", JStr "HAZ-1"); ("swci", JInt 1)];
                                        JObj [("hazardId", JStr "HAZ-2"); ("swci", JInt 1)]])])
  else if String.eqb name "risks"
  then Ok (JObj [("records", JList [JObj [("hazardId", JStr "HAZ-1"); ("sourceCommit", JStr "c0"); ("disposition", JStr "ACCEPT");
        ("residualRisk", JStr "LOW"); ("acceptanceAuthority", JStr "authority"); ("acceptedAt", JStr "2025-01-01");
        ("reviewDueAt", JStr "2026-01-01"); ("verifiedControlRequirementIds", JList [JStr "SR-1"; JStr "SR-2"]);
        ("evidenceManifestIds", JList [JStr "EV-1"])]])])
  else if String.eqb name "traces"
  then Ok (JObj [("traces", JList [JObj [("requirementId", JStr "R-1"); ("threatsOrHazards", JList [JStr "HAZ-1"; JStr "THR-1"])]])])
  else if String.eqb name "manifest"
  then Ok (JObj ([("evidenceId", JStr "EV-1"); ("schemaVersion", JStr "gcs-saker.evidence-manifest.v1"); ("sourceCommit", JStr "c0");
        ("verdict", JStr "PASS"); ("hazardIds", JList [JStr "HAZ-1"]);
        ("artifacts", JList [JObj [("sha256", JStr "0123456789012345678901234567890123456789012345678901234567890123");
                                   ("immutableLocator", JStr "s3://evidence/1")]])]
        ++ map (λ field, (field, JStr "recorded")) MANIFEST_FIELDS))
  else throw ExcValueError "not a document".

Definition sample_hazard_files : files :=
  mkFiles (λ _, Ok true) (λ _, Ok true) (λ _, Ok 0) (λ _, Ok 384) (λ p, Ok (utf8_encode (path_name p))).

Definition sample_hazard_profile : entry :=
  [("status", JStr "CONTROLLED_DRAFT_NOT_EXECUTED"); ("standard", JStr "MIL-STD-882E Change 1");
   ("inputs", JObj [("hazardLog", JStr "docs/log"); ("levelOfRigor", JStr "docs/lor"); ("residualRiskRegister", JStr "docs/risks");
                    ("traceability", JStr "docs/traces")]);
   ("closureRequirements", JObj [("requiredHazardCount", JInt 2);
                                 ("residualRiskRequiredFields", JList (map JStr (MANIFEST_FIELDS ++ ["a"; "b"; "c"])))]);
   ("thresholds", JObj [("status", JStr "PROPOSED_NOT_APPROVED")])].

Definition sample_evaluated : result Evaluation :=
  evaluated (λ _, throw ExcValueError "") sample_document (λ _, "repr") (λ _, None) sample_hazard_files (parse_path "/repo")
    sample_hazard_profile [parse_path "/evidence/manifest"] "c0" 20000.

Example sample_hazards_closed :
  (e ← sample_evaluated; Ok (map closed (ev_results e), verdict e)) = Ok ([true; false], "BLOCKED").
Proof. vm_compute. reflexivity. Qed.

Lemma hazard_report_sound_witness :
  ∃ e hazards records traces,
    sample_evaluated = Ok e
    ∧ controlled_inputs (λ _, throw ExcValueError "") sample_document (λ _, "repr") sample_hazard_files (parse_path "/repo")
        sample_hazard_profile = Ok (hazards, records, traces)
    ∧ ∃ manifests, Forall2 (λ '(id, hazard) r, hazardId r = id
          ∧ (closed r = true ↔ hazard_closed (λ _, None) records traces manifests "c0" 20000 id hazard)) hazards (ev_results e).
Proof.
  destruct sample_evaluated as [e|?] eqn:E; [|vm_compute in E; discriminate E]. exists e.
  destruct (hazard_report_sound _ _ _ _ _ _ _ _ _ _ _ E) as (hazards & records & traces & manifests & Hi & _ & Hall & _).
  exists hazards, records, traces. split; [done|]. split; [exact Hi|]. by exists manifests.
Defined.
