(* ===== verification/License.v ===== *)
(** License compliance: [scripts/reports/license_compliance.py].

    Every package of the bills of materials is classified under the policy, and
    a release is allowed when none is denied, unknown or unreviewed.  The JSON
    and YAML codecs, [repr] and ISO week dates are parameters; the fields that
    hold dates are read through [str], so a YAML date is held as its text. *)

From stdpp Require Import base list strings sorting.
From Stdlib Require Import ZArith Lia Ascii.
From S2P Require Import Prelude PyStr PyTime PyTimeParse PyJson PyText Host Evidence.

#[local] Open Scope Z_scope.

(** [scripts/reports/license_compliance.py:14-17] LOGICAL_TOKENS *)
Definition LOGICAL_TOKENS : list string := ["AND"; "OR"; "WITH"].
Definition UNKNOWN_EXPRESSIONS : list string := [""; "NOASSERTION"; "NONE"; "UNKNOWN"].
Definition AUDITED_LICENSE_REFS : list string := ["LicenseRef-Public-Domain"].

Definition license_error {A} (msg : string) : result A := throw ExcLicenseComplianceError msg.

(** [scripts/reports/license_compliance.py:24-34] PackageDecision *)
Record PackageDecision : Type := mkDecision {
  artifact : string;
  pd_name : string;
  version : string;
  purl : string;
  license : string;
  declared_license : string;
  license_source : string;
  disposition : string;
  obligation : string
}.

(** [scripts/reports/license_compliance.py:37-41] LicenseRules: a resolution is its expression and source *)
Record LicenseRules : Type := mkRules {
  policy : list (string * jval);
  approvals : jval;
  resolutions : list (string * (string * string))
}.

(** ** Expressions *)

(** [SPDX_TOKEN.findall]: a token starts with a letter or a digit and goes on
    over letters, digits, dots, pluses and hyphens. *)
Definition is_token_start (a : ascii) : bool :=
  let c := code a in ((48 <=? c) && (c <=? 57)) || ((65 <=? c) && (c <=? 90)) || ((97 <=? c) && (c <=? 122)).
Definition is_token_char (a : ascii) : bool :=
  is_token_start a || Ascii.eqb a "." || Ascii.eqb a "+" || Ascii.eqb a "-".

(** The tokens of a text; the first one is the rest of a token that has begun, if [inside]. *)
Fixpoint scan_tokens (inside : bool) (s : string) : list string :=
  match s with
  | "" => if inside then [""] else []
  | String a s' =>
      if inside && is_token_char a || is_token_start a then
        match scan_tokens true s' with w :: ws => String a w :: ws | [] => [] end
      else (if inside then [""] else []) ++ scan_tokens false s'
  end.

(** [scripts/reports/license_compliance.py:58-59] license_tokens *)
Definition license_tokens (expression : string) : list string :=
  List.filter (λ token, negb (bool_decide (token ∈ LOGICAL_TOKENS))) (scan_tokens false expression).

Example license_tokens_compound :
  license_tokens "(MIT OR Apache-2.0) AND GPL-2.0+ WITH -x" = ["MIT"; "Apache-2.0"; "GPL-2.0+"; "x"].
Proof. reflexivity. Qed.

(** An expression that says nothing: absent, or a reference nobody audited. *)
Definition unresolved (expression : string) : bool :=
  bool_decide (expression ∈ UNKNOWN_EXPRESSIONS)
  || (startswith "LicenseRef-" expression && negb (bool_decide (expression ∈ AUDITED_LICENSE_REFS))).

Section license.
Context (json_loads yaml_safe_load : string → result jval) (py_repr : jval → string) (week_date : string → option Z).

Local Notation py_str := (py_str py_repr).

(** [scripts/reports/license_compliance.py:44-48] load_yaml *)
Definition load_yaml (fs : files) (path : fs_path) : result (list (string * jval)) :=
  text ← fs_text fs path;
  value ← yaml_safe_load text;
  match value with
  | JObj d => Ok d
  | _ => license_error (path_str path +:+ " must contain an object")
  end.

(** [str(x.get(key, dflt))] *)
Definition text_of_key (x : jval) (key dflt : string) : result string := v ← j_get_or x key (JStr dflt); Ok (py_str v).

(** [scripts/reports/license_compliance.py:51-55] package_purl *)
Definition package_purl (package : jval) : result string :=
  references ← (v ← j_get_or package "externalRefs" (JList []); j_items v);
  (fix loop (references : list jval) : result string :=
     match references with
     | [] => Ok ""
     | reference :: rest =>
         kind ← j_get reference "referenceType";
         if py_eq kind (JStr "purl") then text_of_key reference "referenceLocator" "" else loop rest
     end) references.

(** [re.search(r"#sha256=[0-9a-f]{64}$", source)] for a stripped source *)
Definition ends_with_digest (source : string) : bool :=
  let tail := string_drop (String.length source - 72) source in
  startswith "#sha256=" tail && lower_hex 64 (removeprefix "#sha256=" tail).

(** [scripts/reports/license_compliance.py:67-91] load_resolution: one iteration over the entries *)
Definition load_resolution (resolutions : list (string * (string * string))) (entry : jval) :
    result (list (string * (string * string))) :=
  if negb (is_dict entry) then license_error "each license resolution must be an object" else
  purl ← (v ← text_of_key entry "purl" ""; Ok (strip v));
  expression ← (v ← text_of_key entry "licenseExpression" ""; Ok (strip v));
  source ← (v ← text_of_key entry "source" ""; Ok (strip v));
  verified_by ← (v ← text_of_key entry "verifiedBy" ""; Ok (strip v));
  verified_on ← (v ← text_of_key entry "verifiedOn" ""; Ok (strip v));
  if negb (startswith "pkg:" purl) || dict_has resolutions purl
  then license_error ("invalid or duplicate resolution purl: " +:+ purl) else
  if unresolved expression then license_error ("invalid resolved license for " +:+ purl) else
  let image_evidence := startswith "image:/" source && ends_with_digest source in
  if negb (startswith "https://" source || image_evidence)
  then license_error ("resolution source must use HTTPS or immutable image evidence for " +:+ purl) else
  if is_empty verified_by || is_empty verified_on
  then license_error ("resolution audit fields are required for " +:+ purl) else
  _ ← catch (date_fromisoformat week_date verified_on) ExcValueError
        (λ _, license_error ("invalid verifiedOn date for " +:+ purl));
  Ok (dict_set resolutions purl (expression, source)).

(** [scripts/reports/license_compliance.py:62-91] load_resolutions *)
Definition load_resolutions (fs : files) (path : fs_path) : result (list (string * (string * string))) :=
  document ← load_yaml fs path;
  match default (JList []) (dict_get document "resolutions") with
  | JList entries => for_in load_resolution [] entries
  | _ => license_error "license resolutions must be a list"
  end.

(** [scripts/reports/license_compliance.py:94-104] effective_license *)
Definition effective_license (package : jval) (resolutions : list (string * (string * string))) : result (string * string) :=
  declared ← (v ← text_of_key package "licenseDeclared" ""; Ok (strip v));
  concluded ← (v ← text_of_key package "licenseConcluded" ""; Ok (strip v));
  purl ← package_purl package;
  let stated expression := negb (bool_decide (expression ∈ UNKNOWN_EXPRESSIONS)) && negb (startswith "LicenseRef-" expression) in
  Ok (if stated declared then (declared, "SBOM licenseDeclared")
      else if stated concluded then (concluded, "SBOM licenseConcluded")
      else match dict_get resolutions purl with
           | Some resolution => resolution
           | None => (declared, "SBOM licenseDeclared")
           end).

(** [scripts/reports/license_compliance.py:107-114] active_approval *)
Fixpoint active_approval (approvals : list jval) (purl expression : string) (today : Z) : result (option jval) :=
  match approvals with
  | [] => Ok None
  | approval :: rest =>
      skipped ← or_r (v ← j_get approval "purl"; Ok (negb (py_eq v (JStr purl))))
                     (v ← j_get approval "licenseExpression"; Ok (negb (py_eq v (JStr expression))));
      if skipped : bool then active_approval rest purl expression today else
      expires ← (v ← j_get approval "expiresAt"; date_fromisoformat week_date (py_str v));
      approved_by ← j_get approval "approvedBy";
      obligation ← j_get approval "obligation";
      if (today <=? expires) && j_truthy approved_by && j_truthy obligation then Ok (Some approval)
      else active_approval rest purl expression today
  end.

(** A list of the policy, absent or not. *)
Definition policy_list (rules : LicenseRules) (key : string) : result (list jval) :=
  j_items (default (JList []) (dict_get (policy rules) key)).

(** [purl.startswith(prefix)] *)
Definition has_prefix (purl : string) (prefix : jval) : result bool :=
  match prefix with JStr p => Ok (startswith p purl) | _ => type_error "startswith first arg must be str" end.

(** [scripts/reports/license_compliance.py:117-146] classify_package: disposition, obligation, expression and source *)
Definition classify_package (package : jval) (rules : LicenseRules) (today : Z) :
    result (string * string * string * string) :=
  '(expression, source) ← effective_license package (resolutions rules);
  purl ← package_purl package;
  first_party ← (prefixes ← policy_list rules "firstPartyPurlPrefixes"; any_in (has_prefix purl) prefixes);
  if first_party : bool then Ok ("FIRST_PARTY", "", expression, source) else
  if unresolved expression then Ok ("UNKNOWN", "license metadata must be resolved", expression, source) else
  let tokens := license_tokens expression in
  denied_licenses ← j_set (default (JList []) (dict_get (policy rules) "deniedLicenses"));
  let denied := List.filter (λ token, j_elem (JStr token) denied_licenses) tokens in
  if negb (bool_decide (denied = []))
  then Ok ("DENIED", "denied licenses: " +:+ join ", " (sorted_set denied), expression, source) else
  allowed ← j_set (default (JList []) (dict_get (policy rules) "allowedLicenses"));
  if negb (bool_decide (tokens = [])) && forallb (λ token, j_elem (JStr token) allowed) tokens
  then Ok ("ALLOWED", "retain copyright and license notice", expression, source) else
  approval ← (l ← j_items (approvals rules); active_approval l purl expression today);
  match approval with
  | Some approval =>
      obligation ← j_getitem approval "obligation";
      Ok ("REVIEW_APPROVED", py_str obligation, expression, source)
  | None => Ok ("REVIEW_REQUIRED", "legal and distribution-obligation review required", expression, source)
  end.

(** [path.stem] *)
Definition path_stem (path : fs_path) : string := removesuffix (path_suffix path) (path_name path).

(** [scripts/reports/license_compliance.py:155-169] scan_package: one iteration over the packages *)
Definition scan_package (path : fs_path) (rules : LicenseRules) (today : Z) (package : jval) : result PackageDecision :=
  '(disposition, obligation, expression, source) ← classify_package package rules today;
  name ← text_of_key package "name" "unknown";
  version ← text_of_key package "versionInfo" "unknown";
  purl ← package_purl package;
  declared ← text_of_key package "licenseDeclared" "NOASSERTION";
  Ok (mkDecision (path_stem path) name version purl expression declared source disposition obligation).

(** [scripts/reports/license_compliance.py:149-170] scan_sbom *)
Definition scan_sbom (fs : files) (rules : LicenseRules) (today : Z) (path : fs_path) : result (list PackageDecision) :=
  document ← (text ← fs_text fs path; json_loads text);
  packages ← j_get document "packages";
  match packages with
  | JList packages => mapM (scan_package path rules today) packages
  | _ => license_error (path_str path +:+ " has no SPDX packages")
  end.

(** ** The report *)

(** [counts[d] = counts.get(d, 0) + 1] over the decisions *)
Definition count_dispositions (decisions : list PackageDecision) : list (string * Z) :=
  foldl (λ counts d, dict_set counts (disposition d) (default 0 (dict_get counts (disposition d)) + 1)) [] decisions.

(** [scripts/reports/license_compliance.py:188-189] decision_sort_key, compared *)
Definition decision_le (a b : PackageDecision) : bool :=
  let lt x y := String.leb x y && negb (String.eqb x y) in
  lt (artifact a) (artifact b)
  || (String.eqb (artifact a) (artifact b)
      && (lt (pd_name a) (pd_name b) || (String.eqb (pd_name a) (pd_name b) && String.leb (version a) (version b)))).

Fixpoint insert_decision (d : PackageDecision) (l : list PackageDecision) : list PackageDecision :=
  match l with
  | [] => [d]
  | e :: l' => if decision_le d e then d :: l else e :: insert_decision d l'
  end.

(** [sorted(decisions, key=decision_sort_key)], which keeps the order of equal keys *)
Definition sorted_decisions (l : list PackageDecision) : list PackageDecision := foldr insert_decision [] l.

Record Report : Type := mkReport {
  generatedOn : Z;
  counts : list (string * Z);
  releaseAllowed : bool;
  internalDeploymentAllowed : bool;
  packages : list PackageDecision
}.

(** [scripts/reports/license_compliance.py:173-185] build_report *)
Definition build_report (fs : files) (paths : list fs_path) (rules : LicenseRules) (today : Z) : result Report :=
  decisions ← (l ← mapM (scan_sbom fs rules today) paths; Ok (concat l));
  let counts := count_dispositions decisions in
  Ok (mkReport today (omap (λ key, (λ n, (key, n)) <$> dict_get counts key) (py_sorted (dict_keys counts)))
        (negb (existsb (dict_has counts) ["DENIED"; "UNKNOWN"; "REVIEW_REQUIRED"]))
        (negb (dict_has counts "DENIED")) (sorted_decisions decisions)).

(** [scripts/reports/license_compliance.py:192-196] decision_document *)
Definition decision_document (d : PackageDecision) : jval :=
  JObj [("artifact", JStr (artifact d)); ("name", JStr (pd_name d)); ("version", JStr (version d)); ("purl", JStr (purl d));
        ("license", JStr (license d)); ("disposition", JStr (disposition d)); ("obligation", JStr (obligation d));
        ("declaredLicense", JStr (declared_license d)); ("licenseSource", JStr (license_source d))].

Definition report_document (r : Report) : jval :=
  JObj [("schemaVersion", JStr "gcs-saker.license-compliance.v2");
        ("generatedOn", JStr (date_str "-" (generatedOn r * 86400000000)));
        ("counts", JObj (map (λ kv, (kv.1, JInt kv.2)) (counts r))); ("releaseAllowed", JBool (releaseAllowed r));
        ("internalDeploymentAllowed", JBool (internalDeploymentAllowed r));
        ("packages", JList (map decision_document (packages r)))].

(** [scripts/reports/license_compliance.py:199-218] notice_markdown *)
Definition notice_markdown (r : Report) : string :=
  join (String "010" "")
    (["# Third-party notices"; ""; "Generated: " +:+ date_str "-" (generatedOn r * 86400000000); ""]
     ++ flat_map (λ p, if String.eqb (disposition p) "FIRST_PARTY" then [] else
          ["## " +:+ pd_name p +:+ " " +:+ version p; "";
           "- Artifact: `" +:+ artifact p +:+ "`";
           "- Package URL: `" +:+ (if truthy (purl p) then purl p else "unavailable") +:+ "`";
           "- Effective license: `" +:+ license p +:+ "`";
           "- SBOM declared license: `" +:+ declared_license p +:+ "`";
           "- License source: " +:+ license_source p;
           "- Disposition: `" +:+ disposition p +:+ "`";
           "- Obligation: " +:+ obligation p; ""]) (packages r)).

(** [scripts/reports/license_compliance.py:236-239] load_and_build: the rules and the report *)
Definition load_and_build (fs : files) (sboms : list fs_path) (policy approvals resolutions : fs_path) (today : Z) : result Report :=
  policy ← load_yaml fs policy;
  approvals ← load_yaml fs approvals;
  resolutions ← load_resolutions fs resolutions;
  build_report fs sboms (mkRules policy (default (JList []) (dict_get approvals "approvals")) resolutions) today.

(** What the program leaves, in order, with the outcome of each write. *)
Inductive output : Type :=
  | WroteReport (document : jval) (outcome : result ())
  | WroteNotices (text : string) (outcome : result ())
  | PrintedCounts (counts : jval).

Definition counts_document (r : Report) : jval := JObj (map (λ kv, (kv.1, JInt kv.2)) (counts r)).

(** [scripts/reports/license_compliance.py:236-246] main, from the parsed arguments, where [report_write] and
    [notices_write] are the outcomes of its two writes: what it leaves, and its outcome *)
Definition main (fs : files) (sboms : list fs_path) (policy approvals resolutions : fs_path)
    (report_write notices_write : result ()) (enforce internal_service : bool) (today : Z) : list output * result Z :=
  match load_and_build fs sboms policy approvals resolutions today with
  | Raise e => ([], Raise e)
  | Ok report =>
      let written := [WroteReport (report_document report) report_write] in
      match report_write with
      | Raise e => (written, Raise e)
      | Ok _ =>
          let written := written ++ [WroteNotices (notice_markdown report) notices_write] in
          match notices_write with
          | Raise e => (written, Raise e)
          | Ok _ =>
              let allowed := if internal_service then internalDeploymentAllowed report else releaseAllowed report in
              if enforce && negb allowed
              then (written, license_error ("license release gate failed: " +:+ py_repr (counts_document report)))
              else (written ++ [PrintedCounts (counts_document report)], Ok 0)
          end
      end
  end.
End license.

(** ** What a release contains *)

Section license_facts.
Context (json_loads yaml_safe_load : string → result jval) (py_repr : jval → string) (week_date : string → option Z).

Local Notation package_purl := (package_purl py_repr).

(** An approval that holds on a day: somebody answers for it and says what it obliges to. *)
Definition approves (purl expression : string) (today : Z) (approval : jval) : Prop :=
  j_get approval "purl" = Ok (JStr purl) ∧ j_get approval "licenseExpression" = Ok (JStr expression)
  ∧ (∃ v expires, j_get approval "expiresAt" = Ok v ∧ date_fromisoformat week_date (py_str py_repr v) = Ok expires ∧ today <= expires)
  ∧ (∃ v, j_get approval "approvedBy" = Ok v ∧ j_truthy v = true)
  ∧ ∃ v, j_get approval "obligation" = Ok v ∧ j_truthy v = true.

(** A package that may be distributed: ours, or of a known license none of whose
    tokens is denied and which the policy allows or somebody approved. *)
Definition cleared (rules : LicenseRules) (today : Z) (package : jval) : Prop :=
  ∃ expression source purl,
    effective_license py_repr package (resolutions rules) = Ok (expression, source) ∧ package_purl package = Ok purl
    ∧ ((∃ prefixes p, policy_list rules "firstPartyPurlPrefixes" = Ok prefixes ∧ JStr p ∈ prefixes ∧ startswith p purl = true)
       ∨ (expression ∉ UNKNOWN_EXPRESSIONS ∧ (startswith "LicenseRef-" expression = true → expression = "LicenseRef-Public-Domain")
          ∧ (∃ denied, j_set (default (JList []) (dict_get (policy rules) "deniedLicenses")) = Ok denied
               ∧ ∀ token, token ∈ license_tokens expression → j_elem (JStr token) denied = false)
          ∧ ((license_tokens expression ≠ []
              ∧ ∃ allowed, j_set (default (JList []) (dict_get (policy rules) "allowedLicenses")) = Ok allowed
                  ∧ ∀ token, token ∈ license_tokens expression → j_elem (JStr token) allowed = true)
             ∨ ∃ l approval, j_items (approvals rules) = Ok l ∧ approval ∈ l ∧ approves purl expression today approval))).

(** A package that is denied: not ours, of a known license one of whose tokens is denied. *)
Definition denied (rules : LicenseRules) (package : jval) : Prop :=
  ∃ expression source purl prefixes licenses token,
    effective_license py_repr package (resolutions rules) = Ok (expression, source) ∧ package_purl package = Ok purl
    ∧ policy_list rules "firstPartyPurlPrefixes" = Ok prefixes ∧ (∀ p, JStr p ∈ prefixes → startswith p purl = false)
    ∧ expression ∉ UNKNOWN_EXPRESSIONS ∧ (startswith "LicenseRef-" expression = true → expression = "LicenseRef-Public-Domain")
    ∧ j_set (default (JList []) (dict_get (policy rules) "deniedLicenses")) = Ok licenses
    ∧ token ∈ license_tokens expression ∧ j_elem (JStr token) licenses = true.

Definition REFUSED : list string := ["DENIED"; "UNKNOWN"; "REVIEW_REQUIRED"].

Lemma has_count decisions k : dict_has (count_dispositions decisions) k = existsb (λ d, String.eqb (disposition d) k) decisions.
Proof.
  unfold count_dispositions. enough (∀ counts, dict_has (foldl (λ counts d, dict_set counts (disposition d)
    (default 0 (dict_get counts (disposition d)) + 1)) counts decisions) k
    = dict_has counts k || existsb (λ d, String.eqb (disposition d) k) decisions) as H by apply H.
  induction decisions as [|d l IH]; intros counts; cbn [foldl existsb]; [by rewrite orb_false_r|].
  rewrite IH, orb_assoc. f_equal. unfold dict_has. rewrite dict_get_set.
  destruct (String.eqb_spec (disposition d) k) as [->|Hne].
  - by rewrite decide_True, orb_true_r.
  - by rewrite decide_False, orb_false_r.
Qed.

Lemma sorted_decisions_perm l : sorted_decisions l ≡ₚ l.
Proof.
  induction l as [|d l IH]; [done|]. cbn. rewrite <-IH at 2. fold (sorted_decisions l). generalize (sorted_decisions l).
  intros k. induction k as [|e k IHk]; cbn; [done|]. destruct (decision_le d e); [done|]. rewrite IHk. apply Permutation_swap.
Qed.

Lemma active_approval_Ok l purl expression today approval :
  active_approval py_repr week_date l purl expression today = Ok (Some approval) →
  approval ∈ l ∧ approves purl expression today approval.
Proof.
  induction l as [|a l IH]; cbn [active_approval]; [discriminate|]. intros H.
  apply bind_Ok in H as (skipped & Hsk & H).
  destruct skipped; [destruct (IH H) as [? ?]; split; [by right|done]|].
  apply bind_Ok in H as (expires & Hex & H). apply bind_Ok in H as (by_ & Hby & H). apply bind_Ok in H as (ob & Hob & H).
  destruct (_ && _) eqn:E; [|destruct (IH H) as [? ?]; split; [by right|done]]. injection H as ->.
  apply andb_true_iff in E as [E Hobt]. apply andb_true_iff in E as [Hle Hbyt].
  apply bind_Ok in Hex as (v & Hv & Hex). apply or_r_false in Hsk as [Hp Hx].
  apply bind_Ok in Hp as (vp & Hp & [= Hpe]). apply bind_Ok in Hx as (vx & Hx & [= Hxe]).
  apply negb_false_iff, py_eq_str in Hpe as ->. apply negb_false_iff, py_eq_str in Hxe as ->.
  split; [by left|]. split_and!; [done|done| | |].
  - exists v, expires. split_and!; [done|done|lia].
  - by exists by_.
  - by exists ob.
Qed.

Lemma active_approval_None l purl expression today approval :
  active_approval py_repr week_date l purl expression today = Ok None →
  approval ∈ l → ¬ approves purl expression today approval.
Proof.
  induction l as [|a l IH]; cbn [active_approval]; [intros _ []%not_elem_of_nil|]. intros H Hin.
  apply bind_Ok in H as (skipped & Hsk & H).
  destruct skipped; apply elem_of_cons in Hin as [->|Hin]; try by apply IH.
  - intros (Hp & Hx & _). rewrite Hp, Hx in Hsk. cbn in Hsk. by rewrite !String.eqb_refl in Hsk.
  - apply bind_Ok in H as (expires & Hex & H). apply bind_Ok in H as (by_ & Hby & H). apply bind_Ok in H as (ob & Hob & H).
    intros (_ & _ & (v & exp & Hv & He & Hle) & (w & Hw & Hwt) & (o & Ho & Hot)).
    rewrite Hv in Hex. cbn [mbind result_bind] in Hex. rewrite He in Hex. injection Hex as <-.
    rewrite Hby in Hw. injection Hw as ->. rewrite Hob in Ho. injection Ho as ->.
    rewrite (proj2 (Z.leb_le _ _) Hle), Hwt, Hot in H. discriminate H.
  - apply bind_Ok in H as (expires & _ & H). apply bind_Ok in H as (by_ & _ & H). apply bind_Ok in H as (ob & _ & H).
    destruct (_ && _); [discriminate H|]. by apply IH.
Qed.

Lemma unresolved_spec expression : unresolved expression = false ↔
  expression ∉ UNKNOWN_EXPRESSIONS ∧ (startswith "LicenseRef-" expression = true → expression = "LicenseRef-Public-Domain").
Proof.
  unfold unresolved. rewrite orb_false_iff, andb_false_iff, bool_decide_eq_false, negb_false_iff, bool_decide_eq_true.
  unfold AUDITED_LICENSE_REFS. rewrite list_elem_of_singleton. clear.
  destruct (startswith "LicenseRef-" expression); intuition congruence.
Qed.

Lemma refused disposition : disposition ∈ REFUSED ↔
  disposition = "DENIED" ∨ disposition = "UNKNOWN" ∨ disposition = "REVIEW_REQUIRED".
Proof. clear. unfold REFUSED. rewrite !elem_of_cons. split; [|tauto]. intros [?|[?|[?|[]%not_elem_of_nil]]]; tauto. Qed.

(** The decision over a package: refused exactly when it is not cleared, and denied exactly when it is. *)
Definition judged (rules : LicenseRules) (today : Z) (package : jval) (disposition : string) : Prop :=
  (disposition ∉ REFUSED ↔ cleared rules today package) ∧ (disposition = "DENIED" ↔ denied rules package).

Section classified.
Context (package : jval) (rules : LicenseRules) (today : Z) (expression source purl : string).
Context (Hlicense : effective_license py_repr package (resolutions rules) = Ok (expression, source)).
Context (Hpurl : package_purl package = Ok purl).

Lemma judged_first_party prefixes p :
  policy_list rules "firstPartyPurlPrefixes" = Ok prefixes → JStr p ∈ prefixes → startswith p purl = true →
  judged rules today package "FIRST_PARTY".
Proof using Type*.
  intros Hpre Hin Hp. split; split; try discriminate.
  - intros _. exists expression, source, purl. split_and!; [done|done|]. left. by exists prefixes, p.
  - intros _. rewrite refused. by intros [?|[?|?]].
  - intros (e & s & u & ps & ? & ? & He & Hu & Hps & Hno & _). rewrite Hu in Hpurl. injection Hpurl as ->.
    rewrite Hpre in Hps. injection Hps as <-. rewrite Hno in Hp; done.
Qed.

Context (prefixes : list jval) (Hprefixes : policy_list rules "firstPartyPurlPrefixes" = Ok prefixes).
Context (Hforeign : ∀ p, JStr p ∈ prefixes → startswith p purl = false).

Lemma cleared_foreign : cleared rules today package ↔
  unresolved expression = false
  ∧ (∃ licenses, j_set (default (JList []) (dict_get (policy rules) "deniedLicenses")) = Ok licenses
       ∧ ∀ token, token ∈ license_tokens expression → j_elem (JStr token) licenses = false)
  ∧ ((license_tokens expression ≠ []
      ∧ ∃ allowed, j_set (default (JList []) (dict_get (policy rules) "allowedLicenses")) = Ok allowed
          ∧ ∀ token, token ∈ license_tokens expression → j_elem (JStr token) allowed = true)
     ∨ ∃ l approval, j_items (approvals rules) = Ok l ∧ approval ∈ l ∧ approves purl expression today approval).
Proof using Type*.
  rewrite unresolved_spec. unfold cleared. split.
  - intros (e & s & u & He & Hu & [(ps & p & Hps & Hin & Hp)|(H1 & H2 & H3 & H4)]).
    + rewrite Hu in Hpurl. injection Hpurl as ->. rewrite Hprefixes in Hps. injection Hps as <-. by rewrite Hforeign in Hp.
    + rewrite Hu in Hpurl. injection Hpurl as ->. rewrite He in Hlicense. by injection Hlicense as -> ->.
  - intros ([H1 H2] & H3 & H4). exists expression, source, purl. split_and!; [done|done|]. by right.
Qed.

Lemma denied_foreign : denied rules package ↔
  unresolved expression = false
  ∧ ∃ licenses token, j_set (default (JList []) (dict_get (policy rules) "deniedLicenses")) = Ok licenses
      ∧ token ∈ license_tokens expression ∧ j_elem (JStr token) licenses = true.
Proof using Type*.
  rewrite unresolved_spec. unfold denied. split.
  - intros (e & s & u & ps & ls & t & He & Hu & _ & _ & H1 & H2 & H3 & H4 & H5).
    rewrite He in Hlicense. injection Hlicense as -> ->. split; [done|]. by exists ls, t.
  - intros ([H1 H2] & ls & t & H3 & H4 & H5). by exists expression, source, purl, prefixes, ls, t.
Qed.
End classified.

Lemma classify_package_Ok package rules today disposition obligation expression source :
  classify_package py_repr week_date package rules today = Ok (disposition, obligation, expression, source) →
  judged rules today package disposition.
Proof.
  clear json_loads yaml_safe_load. unfold classify_package. intros H. apply bind_Ok in H as ([e s] & He & H). apply bind_Ok in H as (purl & Hp & H).
  apply bind_Ok in H as (first & Hf & H). apply bind_Ok in Hf as (prefixes & Hpr & Hf). destruct first.
  { apply any_in_true in Hf as (prefix & Hin & Hpre). destruct prefix as [| | | |p| |]; try discriminate Hpre.
    injection H as <- _ _ _. injection Hpre as Hpre. by eapply judged_first_party. }
  apply any_in_false in Hf. rewrite Forall_forall in Hf.
  assert (∀ p, JStr p ∈ prefixes → startswith p purl = false) as Hno by (intros p Hin; specialize (Hf _ Hin); by injection Hf).
  unfold judged. rewrite refused, (cleared_foreign _ _ _ _ _ _ He Hp _ Hpr Hno), (denied_foreign _ _ _ _ _ He Hp _ Hpr Hno). clear Hf.
  destruct (unresolved e) eqn:Hu; [injection H as <- _ _ _; split; naive_solver|].
  apply bind_Ok in H as (licenses & Hd & H). rewrite Hd.
  destruct (bool_decide_reflect (List.filter (λ token, j_elem (JStr token) licenses) (license_tokens e) = [])) as [Hnone|Hsome].
  2: { cbn [negb] in H. injection H as <- _ _ _.
       destruct (List.filter _ (license_tokens e)) as [|token l] eqn:Efl; [done|].
       assert (token ∈ license_tokens e ∧ j_elem (JStr token) licenses = true) as [Hin Ht].
       { assert (In token (List.filter (λ token, j_elem (JStr token) licenses) (license_tokens e))) as [? ?]%filter_In
           by (rewrite Efl; by left). by rewrite list_elem_of_In. }
       split; [split; [tauto|]|split; [|done]].
       - intros (_ & (ls & [= <-] & Hclean) & _). by rewrite Hclean in Ht.
       - intros _. split; [done|]. by exists licenses, token. }
  apply filter_none in Hnone. rewrite Forall_forall in Hnone. cbn [negb] in H.
  assert (¬ ∃ ls token, Ok licenses = Ok ls ∧ token ∈ license_tokens e ∧ j_elem (JStr token) ls = true) as Hnd.
  { intros (ls & t & [= <-] & Hin & Ht). by rewrite Hnone in Ht. }
  assert (∃ ls, Ok licenses = Ok ls ∧ ∀ token, token ∈ license_tokens e → j_elem (JStr token) ls = false) as Hclean by eauto.
  apply bind_Ok in H as (allowed & Hal & H). rewrite Hal.
  destruct (negb (bool_decide (license_tokens e = [])) && _) eqn:Ha.
  - injection H as <- _ _ _. split; [|naive_solver]. split; [|intros _ [?|[?|?]]; done]. intros _. split_and!; [done..|].
    left. apply andb_true_iff in Ha as [Hne Ha]. apply negb_true_iff, bool_decide_eq_false in Hne. rewrite forallb_forall in Ha.
    split; [done|]. exists allowed. split; [done|]. intros token Ht. apply Ha. by apply list_elem_of_In.
  - apply bind_Ok in H as (approval & Hap & H). apply bind_Ok in Hap as (l & Hl & Hap).
    destruct approval as [approval|].
    + apply bind_Ok in H as (ob & _ & [= <- _ _ _]). split; [|naive_solver]. split; [|intros _ [?|[?|?]]; done].
      intros _. split_and!; [done..|]. right. apply active_approval_Ok in Hap as [? ?]. by exists l, approval.
    + injection H as <- _ _ _. split; [|naive_solver]. split; [tauto|]. intros (_ & _ & [(Hne & al & [= <-] & Hall)|(l' & a & Hl' & Hin & Happ)]).
      * apply not_true_iff_false in Ha as []. apply andb_true_iff. split; [by apply negb_true_iff, bool_decide_eq_false|].
        apply forallb_forall. intros token Ht. apply Hall. by apply list_elem_of_In.
      * rewrite Hl in Hl'. injection Hl' as <-. by eapply active_approval_None in Hap.
Qed.

Lemma scan_sbom_Ok fs rules today path decisions :
  scan_sbom json_loads py_repr week_date fs rules today path = Ok decisions →
  ∃ text document packages, fs_text fs path = Ok text ∧ json_loads text = Ok document
    ∧ j_get document "packages" = Ok (JList packages)
    ∧ Forall2 (λ package d, artifact d = path_stem path ∧ package_purl package = Ok (purl d)
                 ∧ judged rules today package (disposition d)) packages decisions.
Proof.
  intros H. apply bind_Ok in H as (document & Hd & H). apply bind_Ok in Hd as (text & Ht & Hj).
  apply bind_Ok in H as (packages & Hp & H). destruct packages as [| | | | |packages|]; try discriminate H.
  exists text, document, packages. split_and!; [done|done|done|]. apply mapM_Ok in H.
  eapply Forall2_impl; [exact H|]. intros package d Hpd. cbn beta in Hpd.
  apply bind_Ok in Hpd as ([[[disp obl] e] s] & Hc & Hpd). apply bind_Ok in Hpd as (name & _ & Hpd).
  apply bind_Ok in Hpd as (v & _ & Hpd). apply bind_Ok in Hpd as (pu & Hpu & Hpd). apply bind_Ok in Hpd as (dec & _ & [= <-]).
  cbn. split_and!; [done|done|]. by apply classify_package_Ok in Hc.
Qed.

(** The rules are those of the three files. *)
Definition rules_loaded (fs : files) (policy approvals resolutions : fs_path) (rules : LicenseRules) : Prop :=
  load_yaml yaml_safe_load fs policy = Ok (License.policy rules)
  ∧ (∃ document, load_yaml yaml_safe_load fs approvals = Ok document
       ∧ License.approvals rules = default (JList []) (dict_get document "approvals"))
  ∧ load_resolutions yaml_safe_load py_repr week_date fs resolutions = Ok (License.resolutions rules).

(** What each bill of materials lists, with the decision over each of its packages. *)
Definition bills_judged (fs : files) (rules : LicenseRules) (today : Z) (sboms : list fs_path)
    (scanned : list (list jval * list PackageDecision)) : Prop :=
  Forall2 (λ path '(listed, decisions), ∃ text document,
    fs_text fs path = Ok text ∧ json_loads text = Ok document ∧ j_get document "packages" = Ok (JList listed)
    ∧ Forall2 (λ package d, artifact d = path_stem path ∧ package_purl package = Ok (purl d)
                 ∧ judged rules today package (disposition d)) listed decisions) sboms scanned.

(** The packages of all bills of materials. *)
Definition listed_packages (scanned : list (list jval * list PackageDecision)) : list jval := concat (map fst scanned).

(** A report of these bills under these rules: a decision for each package and
    no other, and the two verdicts. *)
Definition report_sound (fs : files) (rules : LicenseRules) (today : Z) (sboms : list fs_path) (report : Report) : Prop :=
  ∃ scanned, bills_judged fs rules today sboms scanned ∧ concat (map snd scanned) ≡ₚ packages report
    ∧ (releaseAllowed report = true ↔ Forall (cleared rules today) (listed_packages scanned))
    ∧ (internalDeploymentAllowed report = true ↔ Forall (λ package, ¬ denied rules package) (listed_packages scanned)).

(** A property of the decisions that is one of the packages. *)
Lemma bills_Forall fs rules today sboms scanned (P : string → Prop) (Q : jval → Prop) :
  (∀ package disposition, judged rules today package disposition → P disposition ↔ Q package) →
  bills_judged fs rules today sboms scanned →
  Forall (λ d, P (disposition d)) (concat (map snd scanned)) ↔ Forall Q (listed_packages scanned).
Proof.
  intros HPQ H. unfold listed_packages. induction H as [|path [listed decisions] sboms scanned H _ IH]; [done|].
  cbn. rewrite !Forall_app, IH. destruct H as (text & document & _ & _ & _ & H).
  enough (Forall (λ d, P (disposition d)) decisions ↔ Forall Q listed) as -> by done. clear IH.
  induction H as [|package d listed decisions (_ & _ & Hj) _ IH]; [done|]. by rewrite !Forall_cons, IH, (HPQ _ _ Hj).
Qed.

Lemma no_disposition decisions (keys : list string) :
  negb (existsb (dict_has (count_dispositions decisions)) keys) = true ↔ Forall (λ d, disposition d ∉ keys) decisions.
Proof.
  rewrite negb_true_iff. split.
  - intros H%existsb_false. rewrite Forall_forall in H. rewrite Forall_forall. intros d Hd Hin. specialize (H _ Hin).
    rewrite has_count in H. apply existsb_false in H. rewrite Forall_forall in H.
    specialize (H d Hd). by rewrite String.eqb_refl in H.
  - rewrite Forall_forall. intros H. apply not_true_iff_false. intros (k & Hk%list_elem_of_In & Hc)%existsb_exists.
    rewrite has_count in Hc. apply existsb_exists in Hc as (d & Hd%list_elem_of_In & E%String.eqb_eq).
    apply (H d Hd). by rewrite E.
Qed.

Lemma load_and_build_Ok fs sboms policy approvals resolutions today report :
  load_and_build json_loads yaml_safe_load py_repr week_date fs sboms policy approvals resolutions today = Ok report →
  ∃ rules, rules_loaded fs policy approvals resolutions rules ∧ report_sound fs rules today sboms report.
Proof.
  intros H. apply bind_Ok in H as (pol & Hpol & H). apply bind_Ok in H as (app_ & Happ & H).
  apply bind_Ok in H as (res & Hres & H). set (rules := mkRules _ _ _) in H. exists rules.
  split; [split_and!; [done|by exists app_|done]|].
  apply bind_Ok in H as (decisions & Hds & [= <-]). apply bind_Ok in Hds as (all & Hds & [= <-]). apply mapM_Ok in Hds.
  assert (∃ scanned, map snd scanned = all ∧ bills_judged fs rules today sboms scanned) as (scanned & <- & Hs).
  { induction Hds as [|path ds paths all Hd _ (scanned & <- & Hs)];
      [exists []; split; [done|constructor]|].
    apply scan_sbom_Ok in Hd as (text & document & listed & Ht & Hj & Hp & Hl).
    exists ((listed, ds) :: scanned). split; [done|]. constructor; [|exact Hs]. by exists text, document. }
  exists scanned. split; [exact Hs|]. cbn [packages releaseAllowed internalDeploymentAllowed].
  split; [by rewrite sorted_decisions_perm|]. split.
  - etransitivity; [exact (no_disposition _ REFUSED)|].
    apply (bills_Forall fs rules today sboms scanned (λ disposition, disposition ∉ REFUSED)); [|exact Hs]. by intros package disposition [? _].
  - rewrite <-(bills_Forall fs rules today sboms scanned (λ disposition, disposition ≠ "DENIED") _ (λ package disposition Hj,
      not_iff_compat (proj2 Hj)) Hs).
    rewrite <-(orb_false_r (dict_has _ _)). etransitivity; [exact (no_disposition _ ["DENIED"])|].
    apply Forall_iff. intros d. by rewrite list_elem_of_singleton.
Qed.

(** C25: what a run of the license report leaves.  Either the inputs could not
    be read or judged, and nothing is written.  Or the rules are the policy, the
    approvals and the audited resolutions of the three files, the report holds a
    decision for each package of every bill of materials and no other, and it is
    written before the notices made from it; if one of these writes fails, its
    error ends the run there.  After both, an enforced run whose verdict is
    negative raises; any other prints the counts and ends with 0.  The verdict of
    a distribution is positive exactly when every package is cleared:
    first-party, or of a known license that names no denied token and that the
    policy allows in full or an approval in force covers, for that very package
    and expression; that of an internal service exactly when no package has a
    known license with a denied token without being first-party. *)
Theorem license_gate_sound fs sboms policy approvals resolutions report_write notices_write enforce internal_service today
    written outcome :
  main json_loads yaml_safe_load py_repr week_date fs sboms policy approvals resolutions report_write notices_write
    enforce internal_service today = (written, outcome) →
  (written = [] ∧ ∃ e, outcome = Raise e)
  ∨ ∃ rules report,
      rules_loaded fs policy approvals resolutions rules ∧ report_sound fs rules today sboms report
      ∧ let allowed := if internal_service then internalDeploymentAllowed report else releaseAllowed report in
        let reported := WroteReport (report_document report) in
        let noticed := WroteNotices (notice_markdown report) in
        (∃ e, written = [reported (Raise e)] ∧ outcome = Raise e)
        ∨ (∃ e, written = [reported (Ok ()); noticed (Raise e)] ∧ outcome = Raise e)
        ∨ (written = [reported (Ok ()); noticed (Ok ())] ∧ enforce = true ∧ allowed = false
           ∧ ∃ msg, outcome = license_error msg)
        ∨ (written = [reported (Ok ()); noticed (Ok ()); PrintedCounts (counts_document report)] ∧ outcome = Ok 0
           ∧ (enforce = true → allowed = true)).
Proof.
  unfold main. destruct (load_and_build _ _ _ _ _ _ _ _ _ _) as [report|e] eqn:Hr;
    [|intros [= <- <-]; left; split; [done|by exists e]].
  apply load_and_build_Ok in Hr as (rules & Hrules & Hreport). intros H. right. exists rules, report.
  split; [exact Hrules|]. split; [exact Hreport|]. cbn zeta. clear Hrules Hreport.
  destruct report_write as [[]|e]; [|injection H as <- <-; left; by exists e].
  destruct notices_write as [[]|e]; [|injection H as <- <-; right; left; by exists e].
  right. right. destruct (if internal_service then _ else _) eqn:Ha; destruct enforce; cbn [andb negb] in H.
  1,2,4: right; injection H as <- <-; by split_and!.
  left. injection H as <- <-. split_and!; [done..|]. by eexists.
Qed.
End license_facts.

(** An approval without an expiry date stops the gate with a [ValueError]. *)
Example undated_approval_escapes :
  match active_approval (λ _, "repr") (λ _, None) [JObj [("purl", JStr "pkg:x"); ("licenseExpression", JStr "MPL-2.0")]]
          "pkg:x" "MPL-2.0" 0 with Raise (PyErr c _) => Some c | _ => None end = Some ExcValueError.
Proof. vm_compute. reflexivity. Qed.

(** ** A gate that passes *)

Definition sample_package (name declared purl : string) : jval :=
  JObj [("name", JStr name); ("licenseDeclared", JStr declared);
        ("externalRefs", JList [JObj [("referenceType", JStr "purl"); ("referenceLocator", JStr purl)]])].

Definition sample_license_text (name : string) : result jval :=
  if String.eqb name "backend.json"
  then Ok (JObj [("packages", JList [sample_package "a" "MIT OR Apache-2.0" "pkg:pypi/a@1"; sample_package "b" "MPL-2.0" "pkg:pypi/b@2";
                                     sample_package "c" "NOASSERTION" "pkg:pypi/c@3"; sample_package "gcs" "" "pkg:gcs/x"])])
  else if String.eqb name "policy"
  then Ok (JObj [("firstPartyPurlPrefixes", JList [JStr "pkg:gcs/"]); ("deniedLicenses", JList [JStr "AGPL-3.0"]);
                 ("allowedLicenses", JList [JStr "MIT"; JStr "Apache-2.0"])])
  else if String.eqb name "approvals"
  then Ok (JObj [("approvals", JList [JObj [("purl", JStr "pkg:pypi/b@2"); ("licenseExpression", JStr "MPL-2.0");
        ("expiresAt", JStr "2030-01-01"); ("approvedBy", JStr "legal"); ("obligation", JStr "publish changes")]])])
  else if String.eqb name "resolutions"
  then Ok (JObj [("resolutions", JList [JObj [("purl", JStr "pkg:pypi/c@3"); ("licenseExpression", JStr "MIT");
        ("source", JStr "https://example/c"); ("verifiedBy", JStr "legal"); ("verifiedOn", JStr "2025-01-01")]])])
  else throw ExcValueError "not a document".

Definition sample_license_files : files :=
  mkFiles (λ _, Ok true) (λ _, Ok true) (λ _, Ok 0) (λ _, Ok 384) (λ p, Ok (utf8_encode (path_name p))).

Definition sample_license_main : list output * result Z :=
  main sample_license_text sample_license_text (λ _, "repr") (λ _, None) sample_license_files [parse_path "/sbom/backend.json"]
    (parse_path "/policy") (parse_path "/approvals") (parse_path "/resolutions") (Ok ()) (Ok ()) true false 20000.

Example sample_dispositions :
  (rules ← (policy ← sample_license_text "policy"; approvals ← sample_license_text "approvals"; a ← j_getitem approvals "approvals";
            res ← load_resolutions sample_license_text (λ _, "repr") (λ _, None) sample_license_files (parse_path "/resolutions");
            Ok (mkRules match policy with JObj d => d | _ => [] end a res));
   r ← build_report sample_license_text (λ _, "repr") (λ _, None) sample_license_files [parse_path "/sbom/backend.json"] rules 20000;
   Ok (map disposition (packages r), counts r))
  = Ok (["ALLOWED"; "REVIEW_APPROVED"; "ALLOWED"; "FIRST_PARTY"], [("ALLOWED", 2); ("FIRST_PARTY", 1); ("REVIEW_APPROVED", 1)]).
Proof. vm_compute. reflexivity. Qed.

Lemma license_gate_sound_witness :
  ∃ rules scanned,
    rules_loaded sample_license_text (λ _, "repr") (λ _, None) sample_license_files (parse_path "/policy")
      (parse_path "/approvals") (parse_path "/resolutions") rules
    ∧ bills_judged sample_license_text (λ _, "repr") (λ _, None) sample_license_files rules 20000
        [parse_path "/sbom/backend.json"] scanned
    ∧ Forall (cleared (λ _, "repr") (λ _, None) rules 20000) (listed_packages scanned).
Proof.
  destruct sample_license_main as [written outcome] eqn:E.
  assert (outcome = Ok 0) as -> by (vm_compute in E; by injection E as _ <-).
  destruct (license_gate_sound _ _ _ _ _ _ _ _ _ _ _ _ _ _ written _ E)
    as [[_ (e & [=])]|(rules & report & Hl & (scanned & Hb & _ & Hall & _) & Hw)].
  exists rules, scanned. split; [exact Hl|]. split; [exact Hb|]. apply Hall. cbn zeta in Hw.
  destruct Hw as [(e & _ & [=])|[(e & _ & [=])|[(_ & _ & _ & msg & [=])|(_ & _ & Ha)]]]. by apply Ha.
Defined.

(** A notices file that cannot be written ends the run after the report. *)
Example notices_unwritable :
  main sample_license_text sample_license_text (λ _, "repr") (λ _, None) sample_license_files [] (parse_path "/policy")
    (parse_path "/approvals") (parse_path "/resolutions") (Ok ()) (throw ExcOSError "read-only") true false 20000
  = ([WroteReport (report_document (mkReport 20000 [] true true [])) (Ok ());
      WroteNotices (notice_markdown (mkReport 20000 [] true true [])) (throw ExcOSError "read-only")],
     throw ExcOSError "read-only").
Proof. vm_compute. reflexivity. Qed.
