(* ===== verification/PyXml.v ===== *)
(** XML elements as [xml.etree.ElementTree] holds them; the parser is a
    parameter of the components that use them. *)

From stdpp Require Import base list strings.
From Stdlib Require Import Ascii.
From S2P Require Import Prelude PyStr PyStrFacts.

(** An element with the text before its first child; the text after an element
    is not kept. *)
Inductive xml : Type :=
  | Element (tag : string) (attrib : list (string * string)) (text : option string) (children : list xml).

Definition tag_of (e : xml) : string := match e with Element tag _ _ _ => tag end.
Definition attribs (e : xml) : list (string * string) := match e with Element _ attrib _ _ => attrib end.
Definition text_content (e : xml) : option string := match e with Element _ _ text _ => text end.
Definition child_elements (e : xml) : list xml := match e with Element _ _ _ children => children end.

(** [element.iter(name)]: the element and its descendants of that tag, in document order. *)
Fixpoint iter (name : string) (e : xml) : list xml :=
  match e with
  | Element tag _ _ children =>
      (if String.eqb tag name then [e] else []) ++ flat_map (iter name) children
  end.

(** [element.findall(name)] and [element.find(name)] *)
Definition findall (name : string) (e : xml) : list xml := List.filter (λ c, String.eqb (tag_of c) name) (child_elements e).
Definition find_element (name : string) (e : xml) : option xml := head (findall name e).

(** [element.find(name) is not None] *)
Definition has_child (name : string) (e : xml) : bool := existsb (λ c, String.eqb (tag_of c) name) (child_elements e).

(** A tag that the pattern [{*}name] matches: the name in any namespace, or in none. *)
Definition in_any_namespace (name tag : string) : bool :=
  String.eqb tag name || (startswith "{" tag && endswith ("}" +:+ name) tag).

(** [element.findall("{*}name")] and [element.find("{*}name")] *)
Definition findall_any (name : string) (e : xml) : list xml :=
  List.filter (λ c, in_any_namespace name (tag_of c)) (child_elements e).
Definition find_any (name : string) (e : xml) : option xml := head (findall_any name e).

(** [element.get(name)] *)
Definition get_attribute (name : string) (e : xml) : option string := dict_get (attribs e) name.

(** [element.attrib.get(name, "")] *)
Definition attribute (name : string) (e : xml) : string := default "" (get_attribute name e).

(** [element.findtext(name, "")] *)
Definition findtext (name : string) (e : xml) : string :=
  match find_element name e with Some c => default "" (text_content c) | None => "" end.

Lemma has_child_find name e : has_child name e = true ↔ ∃ c, find_element name e = Some c.
Proof.
  unfold has_child, find_element, findall. induction (child_elements e) as [|c l IH]; cbn; [naive_solver|].
  destruct (String.eqb (tag_of c) name); cbn; [naive_solver|done].
Qed.

Example findtext_empty : findtext "system-out" (Element "testsuite" [] None [Element "system-out" [] None []]) = "".
Proof. reflexivity. Qed.

Example find_in_namespace : is_Some (find_any "parent" (Element "{u}project" [] None [Element "{u}parent" [] None []])).
Proof. by eexists. Qed.
