(* ===== verification/Quality.v ===== *)
(** Product quality measurement: [scripts/reports/software_quality_measurement.py].

    Test evidence, from JUnit files and from verification results, is merged
    into one status per selector, and the controlled requirements or
    authorization cases are measured against it.  Git is the machine; the JSON,
    YAML and XML parsers and SHA-256 are parameters. *)

From stdpp Require Import base list strings.
From Stdlib Require Import ZArith Lia Ascii Floats Strings.Byte.
From S2P Require Import Prelude PyStr PyFloat PyTime PyTimeParse PyJson PyText Url Host Effects Evidence PyXml.

#[local] Open Scope Z_scope.

Definition quality_error {A} (msg : string) : result A := throw ExcQualityMeasurementError msg.

(** ** Statuses *)

(** A status is stored only after it is checked, so a stored one is one of these. *)
Inductive Status : Type := PASS | SKIPPED | BLOCKED | FAIL.

#[export] Instance Status_eq_dec : EqDecision Status.
Proof. solve_decision. Defined.

Definition status_name (s : Status) : string :=
  match s with PASS => "PASS" | SKIPPED => "SKIPPED" | BLOCKED => "BLOCKED" | FAIL => "FAIL" end.

Definition parse_status (v : jval) : option Status :=
  match v with
  | JStr "PASS" => Some PASS
  | JStr "SKIPPED" => Some SKIPPED
  | JStr "BLOCKED" => Some BLOCKED
  | JStr "FAIL" => Some FAIL
  | _ => None
  end.

Definition precedence (s : Status) : Z := match s with PASS => 0 | SKIPPED => 1 | BLOCKED => 2 | FAIL => 3 end.

Notation test_results := (list (string * Status)).

Definition worse (previous status : Status) : Status :=
  if precedence previous <? precedence status then status else previous.

Definition record_status (results : test_results) (selector : string) (status : Status) : test_results :=
  dict_set results selector (match dict_get results selector with Some previous => worse previous status | None => status end).

(** [scripts/reports/software_quality_measurement.py:173-178] _merge_result *)
Definition merge_result (results : test_results) (selector status : jval) : result test_results :=
  match selector with
  | JStr selector =>
      if negb (hashable status) then type_error "unhashable type" else
      match parse_status status with
      | Some status => Ok (record_status results selector status)
      | None => quality_error "verification result requires a selector and controlled status"
      end
  | _ => quality_error "verification result requires a selector and controlled status"
  end.

(** One item of results already merged. *)
Definition merge_item (results : test_results) (item : string * Status) : result test_results :=
  merge_result results (JStr item.1) (JStr (status_name item.2)).

(** ** JUnit *)

(** [scripts/reports/software_quality_measurement.py:157-162] _selector *)
Definition selector_of (case : xml) : result string :=
  let class_name := after_last "." (attribute "classname" case) in
  let test_name := removesuffix "()" (attribute "name" case) in
  if is_empty class_name || is_empty test_name
  then quality_error "JUnit testcase requires classname and name" else
  Ok (class_name +:+ "::" +:+ test_name).

(** [scripts/reports/software_quality_measurement.py:165-170] _test_status *)
Definition test_status (case : xml) : Status :=
  if has_child "failure" case || has_child "error" case then FAIL
  else if has_child "skipped" case then SKIPPED
  else PASS.

Example junit_selector :
  selector_of (Element "testcase" [("classname", "tests.api.TestLogin"); ("name", "refuses()")] None []) = Ok "TestLogin::refuses".
Proof. reflexivity. Qed.

(** ** Rows *)

Record Row : Type := mkRow { row_id : jval; row_result : string; row_selectors : option jval }.

(** [results.get(selector, "NOT_RUN")] *)
Definition status_of (results : test_results) (selector : jval) : result string :=
  match selector with
  | JStr s => Ok (match dict_get results s with Some status => status_name status | None => "NOT_RUN" end)
  | v => if hashable v then Ok "NOT_RUN" else type_error "unhashable type"
  end.

(** [scripts/reports/software_quality_measurement.py:204-214] _functional_row *)
Definition functional_row (results : test_results) (e : entry) : result Row :=
  selectors ← j_getitem (JObj e) "selectors";
  items ← j_items selectors;
  statuses ← mapM (status_of results) items;
  id ← j_getitem (JObj e) "id";
  let row_result :=
    if bool_decide ("FAIL" ∈ statuses) then "FAIL"
    else if py_eq (obj_get e "status") (JStr "BLOCKED") then "BLOCKED"
    else if negb (bool_decide (statuses = [])) && forallb (String.eqb "PASS") statuses then "PASS"
    else "NOT_RUN" in
  Ok (mkRow id row_result (Some selectors)).

(** [scripts/reports/software_quality_measurement.py:219-219] measure_authorization: the row of a case *)
Definition authorization_row (results : test_results) (case : entry) : result Row :=
  id ← j_getitem (JObj case) "id";
  selector ← j_getitem (JObj case) "selector";
  status ← status_of results selector;
  Ok (mkRow id status None).

(** [scripts/reports/software_quality_measurement.py:236-244] _draft_verdict *)
Definition draft_verdict (rows : list Row) : string :=
  let results := row_result <$> rows in
  if bool_decide ("FAIL" ∈ results) then "FAIL"
  else if negb (bool_decide (results = [])) && forallb (String.eqb "PASS") results then "BLOCKED"
  else if bool_decide ("BLOCKED" ∈ results) then "BLOCKED"
  else "NOT_RUN".

Definition with_result (name : string) (rows : list Row) : list Row := List.filter (λ row, String.eqb (row_result row) name) rows.
Definition without_pass (rows : list Row) : list Row := List.filter (λ row, negb (String.eqb (row_result row) "PASS")) rows.

(** The dicts the two measurements return. *)
Inductive Measurement : Type :=
  | FunctionalMeasure (applicableCount verifiedCount : Z) (ratio : float) (failedIds unverifiedIds : list jval)
      (cases : list Row) (verdict : string)
  | AuthorizationMeasure (totalCases attemptedCount correctlyDeniedCount : Z) (correctlyDeniedRatio : float)
      (unexpectedPermitOrFailureIds unexecutedIds : list jval) (cases : list Row) (verdict : string).

Definition cases_of (m : Measurement) : list Row :=
  match m with FunctionalMeasure _ _ _ _ _ cases _ | AuthorizationMeasure _ _ _ _ _ _ cases _ => cases end.
Definition verdict_of (m : Measurement) : string :=
  match m with FunctionalMeasure _ _ _ _ _ _ verdict | AuthorizationMeasure _ _ _ _ _ _ _ verdict => verdict end.

Definition row_json (row : Row) : jval :=
  JObj ([("id", row_id row); ("result", JStr (row_result row))]
        ++ match row_selectors row with Some v => [("selectors", v)] | None => [] end).

Definition measurement_json (m : Measurement) : entry :=
  match m with
  | FunctionalMeasure applicable verified ratio failed unverified cases verdict =>
      [("measureId", JStr "QM-FUNC-COMPLETE"); ("applicableCount", JInt applicable); ("verifiedCount", JInt verified);
       ("ratio", JFloat ratio); ("failedIds", JList failed); ("unverifiedIds", JList unverified);
       ("cases", JList (map row_json cases)); ("verdict", JStr verdict)]
  | AuthorizationMeasure total attempted denied ratio failures unexecuted cases verdict =>
      [("measureId", JStr "QM-AUTHZ-DENIAL"); ("totalCases", JInt total); ("attemptedCount", JInt attempted);
       ("correctlyDeniedCount", JInt denied); ("correctlyDeniedRatio", JFloat ratio);
       ("unexpectedPermitOrFailureIds", JList failures); ("unexecutedIds", JList unexecuted);
       ("cases", JList (map row_json cases)); ("verdict", JStr verdict)]
  end.

(** [scripts/reports/software_quality_measurement.py:116-123] _indexed *)
Definition indexed (document : entry) (field : string) : result (list (jval * entry)) :=
  index_entries ExcQualityMeasurementError (obj_get document field) field.

Definition count_rows (rows : list Row) : Z := Z.of_nat (length rows).

Section measurement.
Context (json_loads yaml_safe_load : string → result jval) (et_parse : list byte → result xml) (sha256 : list byte → string).
Context (REPO_ROOT : fs_path).

Definition REQUIREMENTS_PATH : fs_path := path_div REPO_ROOT "docs/compliance/requirements/software-product-test-requirements.yml".
Definition AUTHORIZATION_PATH : fs_path := path_div REPO_ROOT "docs/compliance/security/authorization-denial-matrix.yml".
Definition QUALITY_PATH : fs_path := path_div REPO_ROOT "docs/compliance/quality/software-quality-evaluation-profile.yml".
Definition OPERATIONAL_PROFILE_PATH : fs_path :=
  path_div REPO_ROOT "docs/compliance/quality/server01-software-operational-profile.yml".

(** [scripts/reports/software_quality_measurement.py:27-31] load_yaml *)
Definition load_yaml (fs : files) (path : fs_path) : result entry :=
  text ← fs_text fs path;
  document ← yaml_safe_load text;
  match document with JObj d => Ok d | _ => quality_error (path_name path +:+ " must contain an object") end.

(** ** The catalogues *)

(** [scripts/reports/software_quality_measurement.py:45-61] _validate_operational_profile *)
Definition validate_operational_profile (document : entry) : result () :=
  if negb (py_eq (obj_get document "status") (JStr "CONTROLLED_DRAFT_NOT_APPROVED"))
  then quality_error "operational profile must remain an unapproved draft" else
  workloads ← indexed document "workloads";
  if negb (j_set_eq workloads.*1 (JStr <$> ["WL-CONTROL-NOMINAL"; "WL-CONTROL-PEAK"; "WL-STREAM-NOMINAL";
                                            "WL-STREAM-ACCEPTANCE"; "WL-TELEMETRY-PEAK"]))
  then quality_error "operational workload profile is incomplete" else
  networks ← indexed document "networkConditions";
  if negb (j_set_eq networks.*1 (JStr <$> ["NET-NOMINAL"; "NET-DEGRADED"; "NET-INTERRUPTED"]))
  then quality_error "operational network profile is incomplete" else
  required ← j_get (default (JObj []) (dict_get document "executionCapture")) "required";
  if negb (j_truthy required) then quality_error "operational profile requires execution capture fields" else Ok ().

(** [scripts/reports/software_quality_measurement.py:64-80] _validate_thresholds *)
Definition validate_thresholds (quality : entry) : result () :=
  status ← j_get (default (JObj []) (dict_get quality "thresholdPolicy")) "status";
  if negb (py_eq status (JStr "PROPOSED_NOT_APPROVED")) then quality_error "quality thresholds must remain proposed" else
  thresholds ← j_set (default (JObj []) (dict_get quality "proposedAcceptanceThresholds"));
  if negb (j_subset (JStr <$> ["functionalCompletenessRatio"; "authorizationCorrectDenialRatio";
                               "authorizationUnexpectedPermitCount"; "unrecoverableAcceptedRecordCount"; "recoveryRatio";
                               "controlPlaneLatencyP95Milliseconds"; "telemetryAcceptanceLatencyP95Milliseconds";
                               "recoveryTimeObjectiveSeconds"; "continuousOperationHours"]) thresholds)
  then quality_error "proposed acceptance thresholds are incomplete" else Ok ().

Definition check_reference (fs : files) (reference : jval) : result () :=
  match reference with
  | JStr r => if fs_exists fs (path_div REPO_ROOT r) then Ok () else quality_error ("missing test reference: " +:+ r)
  | _ => type_error "unsupported operand type(s) for /"
  end.

(** The selectors of a list, which must be distinct. *)
Definition distinct_selectors (selectors : list jval) (msg : string) : result () :=
  _ ← j_set (JList selectors);
  if j_distinct selectors then Ok () else quality_error msg.

(** [scripts/reports/software_quality_measurement.py:83-94] _validate_requirements *)
Definition validate_requirements (fs : files) (document : entry) : result () :=
  entries ← indexed document "requirements";
  _ ← mapM (λ e : entry,
        incomplete ← (if has_keys e ["parentIds"; "characteristic"; "statement"; "verification"; "testRefs"; "selectors"]
                      then selectors ← j_getitem (JObj e) "selectors"; Ok (negb (j_truthy selectors)) else Ok true);
        if incomplete : bool then quality_error "incomplete product requirement" else
        references ← (v ← j_getitem (JObj e) "testRefs"; j_items v);
        mapM (check_reference fs) references) entries.*2;
  selectors ← mapM (λ e : entry, v ← j_getitem (JObj e) "selectors"; j_items v) entries.*2;
  distinct_selectors (concat selectors) "product requirement selectors must be unique".

(** [s.split("::", 1)] *)
Fixpoint split_selector (s : string) : string * option string :=
  match s with
  | String ":" (String ":" rest) => ("", Some rest)
  | String a rest => let '(w, r) := split_selector rest in (String a w, r)
  | "" => ("", None)
  end.

(** A selector names a test that occurs in the source of its class. *)
Definition check_selector (fs : files) (sources selector : jval) : result () :=
  match selector with
  | JStr s =>
      match split_selector s with
      | (class_name, Some test_name) =>
          v ← j_get_or sources class_name (JStr "missing");
          source ← as_str v;
          let path := path_div REPO_ROOT source in
          missing ← or_r (not_r (fs_is_file fs path)) (text ← fs_text fs path; Ok (negb (contains test_name text)));
          if missing : bool then quality_error ("authorization selector has no source test: " +:+ s) else Ok ()
      | (_, None) => value_error "not enough values to unpack"
      end
  | _ => throw ExcAttributeError "split"
  end.

(** [scripts/reports/software_quality_measurement.py:97-113] _validate_authorization *)
Definition validate_authorization (fs : files) (document : entry) : result () :=
  cases ← indexed document "cases";
  categories ← j_set (default (JList []) (dict_get document "categories"));
  actual_categories ← j_set (JList ((λ case, obj_get case "category") <$> cases.*2));
  if negb (j_set_eq categories actual_categories) then quality_error "authorization denial categories are incomplete" else
  if existsb (λ case, negb (py_eq (obj_get case "expected") (JStr "DENY")) || negb (j_truthy (obj_get case "selector"))) cases.*2
  then quality_error "authorization cases must define DENY selectors" else
  selectors ← mapM (λ case, j_getitem (JObj case) "selector") cases.*2;
  _ ← distinct_selectors selectors "authorization selectors must be unique";
  let sources := default (JObj []) (dict_get document "selectorSources") in
  _ ← mapM (check_selector fs sources) selectors;
  Ok ().

(** [scripts/reports/software_quality_measurement.py:34-42] validate_catalogues *)
Definition validate_catalogues (fs : files) : result () :=
  requirements ← load_yaml fs REQUIREMENTS_PATH;
  authorization ← load_yaml fs AUTHORIZATION_PATH;
  quality ← load_yaml fs QUALITY_PATH;
  operational_profile ← load_yaml fs OPERATIONAL_PROFILE_PATH;
  _ ← validate_requirements fs requirements;
  _ ← validate_authorization fs authorization;
  _ ← validate_operational_profile operational_profile;
  validate_thresholds quality.

(** ** Collection *)

Record Artifact : Type := mkArtifact { art_path : string; art_sha256 : string; mediaType : string }.

(** [scripts/reports/software_quality_measurement.py:181-183] _artifact *)
Definition artifact_of (fs : files) (path : fs_path) (media_type : string) : result Artifact :=
  bytes ← fs_read fs path; Ok (mkArtifact (path_str path) (sha256 bytes) media_type).

Notation collected := (test_results * list Artifact)%type.

(** One test case of a JUnit file. *)
Definition merge_case (results : test_results) (case : xml) : result test_results :=
  selector ← selector_of case; merge_result results (JStr selector) (JStr (status_name (test_status case))).

Definition collect_junit_file (fs : files) (c : collected) (path : fs_path) : result collected :=
  bytes ← fs_read fs path;
  root ← et_parse bytes;
  results ← for_in merge_case c.1 (iter "testcase" root);
  artifact ← artifact_of fs path "application/junit+xml";
  Ok (results, c.2 ++ [artifact]).

(** [scripts/reports/software_quality_measurement.py:126-136] collect_junit *)
Definition collect_junit (fs : files) (paths : list fs_path) : result collected :=
  for_in (collect_junit_file fs) ([], []) paths.

(** One entry of a verification result. *)
Definition merge_entry (results : test_results) (e : jval) : result test_results :=
  selector ← j_get e "selector"; status ← j_get e "result"; merge_result results selector status.

(** The entries of a verification file of the required commit. *)
Definition verification_entries (fs : files) (required_commit : string) (path : fs_path) : result (list jval) :=
  text ← fs_text fs path;
  document ← json_loads text;
  schema ← j_get document "schemaVersion";
  if negb (py_eq schema (JStr "gcs-saker.verification-results.v1"))
  then quality_error ("unsupported verification evidence: " +:+ path_str path) else
  commit ← j_get document "sourceCommit";
  if negb (py_eq commit (JStr required_commit))
  then quality_error ("verification evidence commit mismatch: " +:+ path_str path) else
  v ← j_get_or document "results" (JList []);
  j_items v.

Definition collect_verification_file (fs : files) (required_commit : string) (c : collected) (path : fs_path) :
    result collected :=
  entries ← verification_entries fs required_commit path;
  results ← for_in merge_entry c.1 entries;
  artifact ← artifact_of fs path "application/json";
  Ok (results, c.2 ++ [artifact]).

Section git.
Context (w : world) (fs : history → files).

(** [scripts/reports/software_quality_measurement.py:264-265] _source_commit *)
Definition source_commit : eff string := run w ["git"; "rev-parse"; "HEAD"] None.

(** [scripts/reports/software_quality_measurement.py:139-154] collect_verification *)
Definition collect_verification (paths : list fs_path) (expected_commit : option string) : eff collected :=
  required_commit ← match expected_commit with
                    | Some c => if truthy c then mret c else source_commit
                    | None => source_commit
                    end;
  reading fs (λ fs, for_in (collect_verification_file fs required_commit) ([], []) paths).

(** [scripts/reports/software_quality_measurement.py:186-201] measure_functional *)
Definition measure_functional (fs : files) (results : test_results) : result Measurement :=
  document ← load_yaml fs REQUIREMENTS_PATH;
  requirements ← indexed document "requirements";
  rows ← mapM (functional_row results) requirements.*2;
  let verified := count_rows (with_result "PASS" rows) in
  ratio ← true_div verified (count_rows rows);
  Ok (FunctionalMeasure (count_rows rows) verified ratio (row_id <$> with_result "FAIL" rows)
        (row_id <$> without_pass rows) rows (draft_verdict rows)).

(** [scripts/reports/software_quality_measurement.py:217-233] measure_authorization *)
Definition measure_authorization (fs : files) (results : test_results) : result Measurement :=
  document ← load_yaml fs AUTHORIZATION_PATH;
  cases ← indexed document "cases";
  rows ← mapM (authorization_row results) cases.*2;
  let attempted := count_rows (List.filter (λ row, bool_decide (row_result row ∈ ["PASS"; "FAIL"; "SKIPPED"])) rows) in
  let denied := count_rows (with_result "PASS" rows) in
  ratio ← (if attempted =? 0 then Ok PrimFloat.zero else true_div denied attempted);
  Ok (AuthorizationMeasure (count_rows rows) attempted denied ratio (row_id <$> with_result "FAIL" rows)
        (row_id <$> without_pass rows) rows (draft_verdict rows)).

Record Report : Type := mkReport {
  generatedAt : datetime;
  sourceCommit : string;
  artifacts : list Artifact;
  measurement : Measurement
}.

(** [scripts/reports/software_quality_measurement.py:247-261] build_report *)
Definition build_report (mode : string) (junit_paths evidence_paths : list fs_path) : eff Report :=
  '(results, artifacts) ← reading fs (λ fs, collect_junit fs junit_paths);
  '(verification_results, verification_artifacts) ← collect_verification evidence_paths None;
  results ← lift (for_in merge_item results verification_results);
  measurement ← reading fs (λ fs, if String.eqb mode "functional" then measure_functional fs results
                                  else measure_authorization fs results);
  now ← utcnow w;
  commit ← source_commit;
  mret (mkReport now commit (artifacts ++ verification_artifacts) measurement).

Definition artifact_json (a : Artifact) : jval :=
  JObj [("path", JStr (art_path a)); ("sha256", JStr (art_sha256 a)); ("mediaType", JStr (mediaType a))].

(** The document of a report. *)
Definition report_json (r : Report) : entry :=
  [("schemaVersion", JStr "gcs-saker.quality-measurement-result.v1"); ("generatedAt", JStr (isoformat (generatedAt r)));
   ("sourceCommit", JStr (sourceCommit r)); ("thresholdStatus", JStr "PROPOSED_NOT_APPROVED");
   ("artifacts", JList (map artifact_json (artifacts r)))] ++ measurement_json (measurement r).

(** [path.write_text(json.dumps(document, indent=2) + "\n")], which replaces a file. *)
Context (write_text : fs_path → jval → eff ()).

Definition summary_fields (mode : string) : list string :=
  if String.eqb mode "authorization"
  then ["measureId"; "attemptedCount"; "correctlyDeniedCount"; "correctlyDeniedRatio"; "verdict"]
  else ["measureId"; "applicableCount"; "verifiedCount"; "ratio"; "verdict"].

(** [scripts/reports/software_quality_measurement.py:268-294] main, from the parsed arguments *)
Definition main (check : bool) (mode : option string) (junit evidence : list string) (output : option fs_path) : eff Z :=
  _ ← reading fs validate_catalogues;
  if check then _ ← print (JStr "software quality measurement catalogues passed"); mret 0 else
  match mode, junit ++ evidence, output with
  | Some mode, _ :: _, Some output =>
      report ← build_report mode (parse_path <$> junit) (parse_path <$> evidence);
      _ ← write_text output (JObj (report_json report));
      _ ← print (JObj ((λ field, (field, obj_get (report_json report) field)) <$> summary_fields mode));
      mret 0
  | _, _, _ => raise ExcSystemExit "--mode, evidence input, and --output are required for measurement"
  end.
End git.
End measurement.

(** ** The merged status is the worst observed one *)

Definition is_worst (observed : test_results) (selector : string) (s : Status) : Prop :=
  (selector, s) ∈ observed ∧ ∀ s', (selector, s') ∈ observed → precedence s' <= precedence s.

Definition reflects (results observed : test_results) : Prop :=
  dict_wf results ∧ ∀ selector, match dict_get results selector with
                                | Some s => is_worst observed selector s
                                | None => ∀ s, (selector, s) ∉ observed
                                end.

Lemma precedence_inj a b : precedence a = precedence b → a = b.
Proof. by destruct a, b. Qed.

Lemma worse_cases a b :
  (worse a b = a ∨ worse a b = b) ∧ precedence a <= precedence (worse a b) ∧ precedence b <= precedence (worse a b).
Proof. unfold worse. destruct (Z.ltb_spec (precedence a) (precedence b)); split; try lia; [by right|by left]. Qed.

Lemma reflects_nil : reflects [] [].
Proof. split; [apply NoDup_nil_2|]. intros selector s. apply not_elem_of_nil. Qed.

Lemma elem_of_snoc {A} (x y : A) l : x ∈ l ++ [y] ↔ x ∈ l ∨ x = y.
Proof. by rewrite elem_of_app, list_elem_of_singleton. Qed.

Lemma record_reflects results observed selector s :
  reflects results observed → reflects (record_status results selector s) (observed ++ [(selector, s)]).
Proof.
  intros [Hwf H]. split; [by apply dict_set_wf|]. intros x. unfold record_status. rewrite dict_get_set.
  specialize (H x). destruct (decide (x = selector)) as [->|Hne].
  - unfold is_worst. setoid_rewrite elem_of_snoc. destruct (dict_get results selector) as [p|].
    + destruct H as [Hin Hmax]. destruct (worse_cases p s) as (Hw & Hp & Hs). split.
      * destruct Hw as [->| ->]; [by left|by right].
      * intros s' [Hs'|[= ->]]; [|done]. specialize (Hmax s' Hs'). lia.
    + split; [by right|]. intros s' [Hs'|[= ->]]; [by destruct (H s')|done].
  - assert (∀ s', (x, s') ∈ observed ++ [(selector, s)] ↔ (x, s') ∈ observed) as Heq.
    { intros s'. rewrite elem_of_snoc. split; [intros [?|[= ? ?]]; done|by left]. }
    destruct (dict_get results x) as [p|]; unfold is_worst; setoid_rewrite Heq; done.
Qed.

(** A loop whose steps each add observations. *)
Lemma for_in_reflects {S A} (results : S → test_results) (step : S → A → result S) (observe : A → result test_results) l :
  (∀ s a s' observed, a ∈ l → step s a = Ok s' → reflects (results s) observed →
     ∃ os, observe a = Ok os ∧ reflects (results s') (observed ++ os)) →
  ∀ s s' observed, for_in step s l = Ok s' → reflects (results s) observed →
  ∃ oss, mapM observe l = Ok oss ∧ reflects (results s') (observed ++ concat oss).
Proof.
  induction l as [|a l IH]; intros Hstep s s' observed; cbn [for_in].
  { intros [= <-] H. exists []. split; [done|]. by rewrite app_nil_r. }
  intros (s1 & H1 & H2)%bind_Ok Hr. destruct (Hstep _ _ _ _ ltac:(left) H1 Hr) as (os & Ho & Hr1).
  destruct (IH ltac:(intros; eapply Hstep; [by right|done..]) _ _ _ H2 Hr1) as (oss & Hos & Hr2).
  exists (os :: oss). split; [|by rewrite <-app_assoc in Hr2]. cbn. rewrite Ho. cbn. by rewrite Hos.
Qed.

Lemma parse_status_name s : parse_status (JStr (status_name s)) = Some s.
Proof. by destruct s. Qed.

Lemma merge_result_Ok results selector status results' :
  merge_result results selector status = Ok results' →
  ∃ name s, selector = JStr name ∧ parse_status status = Some s ∧ results' = record_status results name s.
Proof.
  unfold merge_result. destruct selector as [| | | |name| |]; try discriminate.
  destruct (hashable status); [|discriminate]. destruct (parse_status status) as [s|]; [|discriminate].
  intros [= <-]. by exists name, s.
Qed.

(** What one test case, or one entry of a verification result, observes. *)
Definition case_observed (case : xml) : result test_results :=
  selector ← selector_of case; Ok [(selector, test_status case)].

Definition entry_observed (e : jval) : result test_results :=
  selector ← j_get e "selector"; status ← j_get e "result";
  match selector, parse_status status with
  | JStr s, Some status => Ok [(s, status)]
  | _, _ => quality_error "verification result requires a selector and controlled status"
  end.

Lemma merge_cases_reflects results cases results' observed :
  for_in merge_case results cases = Ok results' → reflects results observed →
  ∃ oss, mapM case_observed cases = Ok oss ∧ reflects results' (observed ++ concat oss).
Proof.
  apply (for_in_reflects id). intros r case r' obs _ (sel & Hs & H)%bind_Ok Hr.
  apply merge_result_Ok in H as (name & s & [= <-] & Hp & ->). rewrite parse_status_name in Hp. injection Hp as <-.
  exists [(sel, test_status case)]. split; [|by apply record_reflects]. unfold case_observed. by rewrite Hs.
Qed.

Lemma merge_entries_reflects results entries results' observed :
  for_in merge_entry results entries = Ok results' → reflects results observed →
  ∃ oss, mapM entry_observed entries = Ok oss ∧ reflects results' (observed ++ concat oss).
Proof.
  apply (for_in_reflects id). intros r e r' obs _ (sel & Hs & (status & Ht & H)%bind_Ok)%bind_Ok Hr.
  apply merge_result_Ok in H as (name & s & -> & Hp & ->).
  exists [(name, s)]. split; [|by apply record_reflects]. unfold entry_observed. rewrite Hs. cbn. rewrite Ht. cbn. by rewrite Hp.
Qed.

Lemma merge_items_reflect results items results' observed :
  for_in merge_item results items = Ok results' → reflects results observed → reflects results' (observed ++ items).
Proof.
  intros H Hr. destruct (for_in_reflects id merge_item (λ o, Ok [o]) items) with (2 := H) (3 := Hr) as (oss & Ho & Hr').
  { intros s [name st] s' obs _ Hs Hobs. exists [(name, st)]. unfold merge_item in Hs. apply merge_result_Ok in Hs as (? & ? & [= <-] & Hp & ->).
    cbn [snd] in Hp. rewrite parse_status_name in Hp. injection Hp as <-. split; [done|]. by apply record_reflects. }
  rewrite (mapM_Ok_fmap _ (λ o, [o])) in Ho by done. injection Ho as <-.
  assert (concat ((λ o, [o]) <$> items) = items) as Hc; [|by rewrite Hc in Hr'].
  clear. induction items; cbn; congruence.
Qed.

(** Merging the merged results of a second source is merging its observations. *)
Lemma merge_merged r1 o1 r2 o2 r :
  reflects r1 o1 → reflects r2 o2 →
  for_in merge_item r1 r2 = Ok r →
  reflects r (o1 ++ o2).
Proof.
  intros H1 [Hwf2 H2] Hm.
  destruct (merge_items_reflect _ _ _ _ Hm H1) as [Hwf Hr]. split; [done|]. intros x. specialize (Hr x). specialize (H2 x).
  assert (∀ s, (x, s) ∈ r2 ↔ dict_get r2 x = Some s) as Hget.
  { intros s. split; [by apply dict_elem_get|by apply dict_get_elem]. }
  destruct (dict_get r x) as [s|]; [destruct Hr as [Hin Hmax]; split|].
  - rewrite elem_of_app in *. destruct Hin as [|Hin]; [by left|]. right.
    apply Hget in Hin. rewrite Hin in H2. apply H2.
  - setoid_rewrite elem_of_app in Hmax. intros s' [Hs'|Hs']%elem_of_app; [apply Hmax; by left|].
    destruct (dict_get r2 x) as [s2|] eqn:E2; [|by destruct (H2 s')].
    destruct H2 as [_ H2]. specialize (H2 s' Hs'). specialize (Hmax s2 ltac:(right; by apply Hget)). lia.
  - intros s Hs. apply elem_of_app in Hs as [Hs|Hs]; [apply (Hr s); apply elem_of_app; by left|].
    destruct (dict_get r2 x) as [s2|] eqn:E2; [|by destruct (H2 s)].
    apply (Hr s2). apply elem_of_app. right. by apply Hget.
Qed.

(** ** Rows and verdicts *)

(** Some evidence failed a selector of [items]. *)
Definition failing (observed : test_results) (items : list jval) : Prop :=
  ∃ s, JStr s ∈ items ∧ (s, FAIL) ∈ observed.

(** Every selector of [items] was observed, and never with anything but a pass. *)
Definition verified_by (observed : test_results) (items : list jval) : Prop :=
  items ≠ [] ∧ ∀ v, v ∈ items → ∃ s, v = JStr s ∧ (s, PASS) ∈ observed ∧ ∀ st, (s, st) ∈ observed → st = PASS.

Lemma status_of_Ok results observed v name :
  reflects results observed → status_of results v = Ok name →
  (name = "FAIL" ↔ ∃ s, v = JStr s ∧ (s, FAIL) ∈ observed)
  ∧ (name = "PASS" ↔ ∃ s, v = JStr s ∧ (s, PASS) ∈ observed ∧ ∀ st, (s, st) ∈ observed → st = PASS).
Proof.
  intros [_ H] Hs. unfold status_of in Hs. destruct v as [| | | |s| |]; try discriminate Hs.
  1-4: injection Hs as <-; split; split; try discriminate; by intros (? & [=] & _).
  injection Hs as <-. specialize (H s). destruct (dict_get results s) as [st|]; cycle 1.
  { split; split; try discriminate; [intros (? & [= <-] & Hin)|intros (? & [= <-] & Hin & _)]; by destruct (H _ Hin). }
  destruct H as [Hin Hmax]. split; split.
  - intros Hn. exists s. split; [done|]. by destruct st.
  - intros (? & [= <-] & Hf). specialize (Hmax _ Hf). by destruct st; cbn in Hmax; try lia.
  - intros Hn. exists s. split; [done|]. destruct st; try discriminate Hn. split; [done|].
    intros st Hst. specialize (Hmax _ Hst). destruct st; cbn in Hmax; try lia. done.
  - intros (? & [= <-] & _ & Hall). by rewrite (Hall _ Hin).
Qed.

Lemma Forall2_elem_iff {A B} (R : A → B → Prop) (P : A → Prop) (x : B) l k :
  Forall2 R l k → (∀ a b, R a b → b = x ↔ P a) → x ∈ k ↔ Exists P l.
Proof.
  intros H HR. induction H as [|a b l k Hab _ IH]; [by rewrite elem_of_nil, Exists_nil|].
  rewrite elem_of_cons, Exists_cons, <-IH, <-(HR a b Hab). split; intros [Hx|Hx]; auto.
Qed.

Lemma Forall2_all_iff {A B} (R : A → B → Prop) (P : A → Prop) (x : B) l k :
  Forall2 R l k → (∀ a b, R a b → b = x ↔ P a) → Forall (x =.) k ↔ Forall P l.
Proof.
  intros H HR. induction H as [|a b l k Hab _ IH]; [by rewrite !Forall_nil|].
  rewrite !Forall_cons, <-IH, <-(HR a b Hab). split; intros [Hx ?]; auto.
Qed.

Lemma all_eqb x l : forallb (String.eqb x) l = true ↔ Forall (x =.) l.
Proof. rewrite forallb_forall, Forall_forall. setoid_rewrite String.eqb_eq. by setoid_rewrite list_elem_of_In. Qed.

(** The selectors a row of a measurement is about. *)
Definition row_items (functional : bool) (e : entry) : result (list jval) :=
  if functional then selectors ← j_getitem (JObj e) "selectors"; j_items selectors
  else selector ← j_getitem (JObj e) "selector"; Ok [selector].

(** A row that says what the evidence says of its entry. *)
Definition row_measured (functional : bool) (observed : test_results) (e : entry) (row : Row) : Prop :=
  row_id row = obj_get e "id"
  ∧ ∃ items, row_items functional e = Ok items
    ∧ (row_result row = "FAIL" ↔ failing observed items)
    ∧ (row_result row = "PASS" ↔ verified_by observed items ∧ (functional = true → obj_get e "status" ≠ JStr "BLOCKED")).

Lemma j_getitem_get e key v : j_getitem (JObj e) key = Ok v → obj_get e key = v.
Proof. cbn. unfold obj_get. destruct (dict_get e key); [by intros [= ->]|discriminate]. Qed.

Lemma functional_row_measured results observed e row :
  reflects results observed → functional_row results e = Ok row → row_measured true observed e row.
Proof.
  intros Hr (selectors & Hs & (items & Hi & (statuses & Hst & (id & Hid & [= <-])%bind_Ok)%bind_Ok)%bind_Ok)%bind_Ok.
  apply mapM_Ok in Hst. split; [by apply j_getitem_get in Hid|]. exists items.
  split; [unfold row_items; by rewrite Hs|]. cbn [row_result].
  assert ("FAIL" ∈ statuses ↔ failing observed items) as HF.
  { rewrite (Forall2_elem_iff _ _ _ _ _ Hst (λ v name Hv, proj1 (status_of_Ok _ _ _ _ Hr Hv))), Exists_exists.
    unfold failing. split; [intros (v & Hv & s & -> & ?)|intros (s & ? & ?)]; eauto. }
  assert (negb (bool_decide (statuses = [])) && forallb (String.eqb "PASS") statuses = true ↔ verified_by observed items) as HP.
  { rewrite andb_true_iff, negb_true_iff, bool_decide_eq_false, all_eqb.
    rewrite (Forall2_all_iff _ _ _ _ _ Hst (λ v name Hv, proj2 (status_of_Ok _ _ _ _ Hr Hv))), Forall_forall.
    assert (statuses = [] ↔ items = []) as ->; [|done]. apply Forall2_length in Hst. by destruct statuses, items. }
  assert (verified_by observed items → ¬ failing observed items) as Hex.
  { intros [_ Hv] (s & Hin & Hf). destruct (Hv _ Hin) as (? & [= <-] & _ & Hall). by specialize (Hall _ Hf). }
  destruct (bool_decide_reflect ("FAIL" ∈ statuses)) as [Hf|Hf]; rewrite HF in Hf.
  { split; [done|]. split; [discriminate|]. intros [Hv _]. by destruct (Hex Hv). }
  destruct (py_eq (obj_get e "status") (JStr "BLOCKED")) eqn:Eb.
  { apply py_eq_str in Eb. split; [done|]. split; [discriminate|]. intros [_ Hn]. by destruct (Hn eq_refl). }
  destruct (negb _ && _); split; try done; split; try done.
  - intros _. split; [by apply HP|]. intros _ Hn. by rewrite Hn, (proj2 (py_eq_str _ _) eq_refl) in Eb.
  - intros [Hv _]. by apply HP in Hv.
Qed.

Lemma authorization_row_measured results observed e row :
  reflects results observed → authorization_row results e = Ok row → row_measured false observed e row.
Proof.
  intros Hr (id & Hid & (selector & Hs & (status & Hst & [= <-])%bind_Ok)%bind_Ok)%bind_Ok.
  split; [by apply j_getitem_get in Hid|]. exists [selector]. split; [unfold row_items; by rewrite Hs|].
  cbn [row_result]. destruct (status_of_Ok _ _ _ _ Hr Hst) as [-> ->]. unfold failing, verified_by.
  setoid_rewrite list_elem_of_singleton. split.
  - split; intros (s & ? & ?); eauto.
  - split; [intros H|intros [[_ H] _]; by apply H]. split; [split; [done|by intros v ->]|discriminate].
Qed.

Lemma draft_verdict_cases rows :
  draft_verdict rows ≠ "PASS" ∧ (draft_verdict rows = "FAIL" ↔ Exists (λ row, row_result row = "FAIL") rows).
Proof.
  unfold draft_verdict. assert ("FAIL" ∈ row_result <$> rows ↔ Exists (λ row, row_result row = "FAIL") rows) as HF.
  { rewrite list_elem_of_fmap, Exists_exists. split; intros (row & H & ?); exists row; auto. }
  case_bool_decide as E; rewrite HF in E; [done|]. split; [by repeat case_match|].
  split; [by repeat case_match|done].
Qed.

(** ** What a report shows *)

Section report_facts.
Context (json_loads yaml_safe_load : string → result jval) (et_parse : list byte → result xml) (sha256 : list byte → string).

(** What one JUnit file, or one verification file of a commit, observes. *)
Definition junit_observed (fs : files) (path : fs_path) : result test_results :=
  bytes ← fs_read fs path; root ← et_parse bytes; oss ← mapM case_observed (iter "testcase" root); Ok (concat oss).

Definition verification_observed (fs : files) (commit : string) (path : fs_path) : result test_results :=
  entries ← verification_entries json_loads fs commit path; oss ← mapM entry_observed entries; Ok (concat oss).

Lemma collect_junit_Ok fs paths c :
  collect_junit et_parse sha256 fs paths = Ok c → ∃ oss, mapM (junit_observed fs) paths = Ok oss ∧ reflects c.1 (concat oss).
Proof.
  unfold collect_junit. intros H. destruct (for_in_reflects (@fst test_results (list Artifact)) (collect_junit_file et_parse sha256 fs) (junit_observed fs) paths) with (2 := H) (3 := reflects_nil) as (oss & ? & ?); [|by exists oss].
  clear. intros [r arts] path [r' arts'] observed _ H Hr. cbn [fst] in *. apply bind_Ok in H as (bytes & Hb & H).
  apply bind_Ok in H as (root & Hp & H). apply bind_Ok in H as (r1 & Hm & H). apply bind_Ok in H as (art & _ & [= <- <-]).
  destruct (merge_cases_reflects _ _ _ _ Hm Hr) as (oss & Ho & Hr'). exists (concat oss). split; [|done].
  unfold junit_observed. rewrite Hb. cbn [mbind result_bind]. rewrite Hp. cbn [mbind result_bind]. by rewrite Ho.
Qed.

Lemma source_commit_Ok w h commit t :
  source_commit w h = (Some (Ok commit), t) → t = [Ran ["git"; "rev-parse"; "HEAD"] None (Ok commit)].
Proof. apply run_Ok. Qed.

Lemma collect_verification_Ok w fs paths h c t :
  collect_verification json_loads sha256 w fs paths None h = (Some (Ok c), t) →
  ∃ commit oss, t = [Ran ["git"; "rev-parse"; "HEAD"] None (Ok commit)]
    ∧ mapM (verification_observed (fs (h ++ t)) commit) paths = Ok oss ∧ reflects c.1 (concat oss).
Proof.
  intros H. apply eff_bind_Ok in H as (commit & t1 & t2 & Hc & H & ->). apply source_commit_Ok in Hc as ->.
  injection H as H <-. exists commit. rewrite app_nil_r. set (now := fs _) in *.
  destruct (for_in_reflects (@fst test_results (list Artifact)) (collect_verification_file json_loads sha256 now commit)
    (verification_observed now commit) paths) with (2 := H) (3 := reflects_nil) as (oss & ? & ?); [|by exists oss].
  clear. intros [r arts] path [r' arts'] observed _ H Hr. cbn [fst] in *. apply bind_Ok in H as (entries & He & H).
  apply bind_Ok in H as (r1 & Hm & H). apply bind_Ok in H as (art & _ & [= <- <-]).
  destruct (merge_entries_reflects _ _ _ _ Hm Hr) as (oss & Ho & Hr'). exists (concat oss). split; [|done].
  unfold verification_observed. rewrite He. cbn [mbind result_bind]. by rewrite Ho.
Qed.

(** The catalogue a mode measures. *)
Definition catalogue_of (REPO_ROOT : fs_path) (functional : bool) : fs_path * string :=
  if functional then (REQUIREMENTS_PATH REPO_ROOT, "requirements") else (AUTHORIZATION_PATH REPO_ROOT, "cases").

(** The measurement of a catalogue has one row per entry, in its order. *)
Definition measured (REPO_ROOT : fs_path) (functional : bool) (observed : test_results) (fs : files) (m : Measurement) : Prop :=
  ∃ d es, load_yaml yaml_safe_load fs (catalogue_of REPO_ROOT functional).1 = Ok d
    ∧ obj_get d (catalogue_of REPO_ROOT functional).2 = JList (JObj <$> es)
    ∧ Forall2 (row_measured functional observed) es (cases_of m) ∧ verdict_of m = draft_verdict (cases_of m).

Lemma indexed_rows {row_of : entry → result Row} {P} d field indexed_entries rows :
  indexed d field = Ok indexed_entries → mapM row_of indexed_entries.*2 = Ok rows →
  (∀ e row, row_of e = Ok row → P e row) →
  ∃ es, obj_get d field = JList (JObj <$> es) ∧ Forall2 P es rows.
Proof.
  intros (es & -> & _ & -> & _)%index_entries_Ok Hm HP. exists es. split; [done|].
  rewrite <-list_fmap_compose, list_fmap_id in Hm. apply mapM_Ok in Hm. eapply Forall2_impl; eauto.
Qed.

Lemma measure_functional_measured REPO_ROOT fs results observed m :
  reflects results observed → measure_functional yaml_safe_load REPO_ROOT fs results = Ok m →
  measured REPO_ROOT true observed fs m.
Proof.
  intros Hr (d & Hd & (ix & Hix & (rows & Hrows & (ratio & _ & [= <-])%bind_Ok)%bind_Ok)%bind_Ok)%bind_Ok.
  destruct (indexed_rows _ _ _ _ Hix Hrows (λ e row, functional_row_measured _ _ e row Hr)) as (es & He & HF).
  by exists d, es.
Qed.

Lemma measure_authorization_measured REPO_ROOT fs results observed m :
  reflects results observed → measure_authorization yaml_safe_load REPO_ROOT fs results = Ok m →
  measured REPO_ROOT false observed fs m.
Proof.
  intros Hr (d & Hd & (ix & Hix & (rows & Hrows & (ratio & _ & [= <-])%bind_Ok)%bind_Ok)%bind_Ok)%bind_Ok.
  destruct (indexed_rows _ _ _ _ Hix Hrows (λ e row, authorization_row_measured _ _ e row Hr)) as (es & He & HF).
  by exists d, es.
Qed.

(** C23: A measurement says of every catalogued requirement or case what the
    collected evidence says, in whatever order and files the evidence came.  A
    row fails exactly if some evidence failed one of its selectors; it passes
    exactly if each of its selectors was observed and never with anything but a
    pass, and the requirement is not held blocked.  There is one row per entry
    of the catalogue, in its order.  Verification evidence is of the commit git
    reports.  The verdict fails exactly if some row fails, and is never a pass. *)
Theorem quality_report_sound w fs REPO_ROOT mode junit evidence h r t :
  build_report json_loads yaml_safe_load et_parse sha256 REPO_ROOT w fs mode junit evidence h = (Some (Ok r), t) →
  ∃ commit h1 oj ov d es,
    let functional := String.eqb mode "functional" in
    let observed := concat oj ++ concat ov in
    h1 = h ++ [Ran ["git"; "rev-parse"; "HEAD"] None (Ok commit)]
    ∧ mapM (junit_observed (fs h)) junit = Ok oj
    ∧ mapM (verification_observed (fs h1) commit) evidence = Ok ov
    ∧ load_yaml yaml_safe_load (fs h1) (catalogue_of REPO_ROOT functional).1 = Ok d
    ∧ obj_get d (catalogue_of REPO_ROOT functional).2 = JList (JObj <$> es)
    ∧ Forall2 (row_measured functional observed) es (cases_of (measurement r))
    ∧ verdict_of (measurement r) ≠ "PASS"
    ∧ (verdict_of (measurement r) = "FAIL" ↔ Exists (λ row, row_result row = "FAIL") (cases_of (measurement r))).
Proof.
  intros H. unfold build_report in H. apply eff_bind_Ok in H as ([results arts] & t1 & t2 & Hj & H & ->).
  injection Hj as Hj <-. apply collect_junit_Ok in Hj as (oj & Hoj & Hrj). rewrite app_nil_r in H.
  apply eff_bind_Ok in H as ([vresults varts] & t3 & t4 & Hv & H & ->).
  apply collect_verification_Ok in Hv as (commit & ov & Ht3 & Hov & Hrv).
  apply eff_bind_Ok in H as (merged & t5 & t6 & Hm & H & ->). apply lift_Ok in Hm as [Hm ->].
  pose proof (merge_merged _ _ _ _ _ Hrj Hrv Hm) as Hr. rewrite app_nil_r in H.
  apply eff_bind_Ok in H as (m & t7 & t8 & Hme & H & ->). injection Hme as Hme <-.
  apply eff_bind_Ok in H as (now & t9 & t10 & _ & H & ->). apply eff_bind_Ok in H as (c & t11 & t12 & _ & H & ->).
  apply mret_Ok in H as [<- ->]. cbn [measurement].
  assert (measured REPO_ROOT (String.eqb mode "functional") (concat oj ++ concat ov) (fs (h ++ t3)) m) as (d & es & Hd & Hes & HF & Hver).
  { destruct (String.eqb mode "functional"); [by eapply measure_functional_measured|by eapply measure_authorization_measured]. }
  exists commit, (h ++ t3), oj, ov, d, es. cbn zeta. rewrite Hver.
  split_and!; try done; [by rewrite Ht3|apply draft_verdict_cases..].
Qed.
End report_facts.

(** ** A sample measurement *)

Definition sample_case (name : string) (children : list xml) : xml :=
  Element "testcase" [("classname", "tests.TestLogin"); ("name", name)] None children.

Definition sample_suite : xml :=
  Element "testsuites" [] None [Element "testsuite" [] None [sample_case "accepts" []; sample_case "refuses" []]].

Definition sample_quality_document (name : string) : result jval :=
  let requirement id selectors := JObj [("id", JStr id); ("selectors", JList (JStr <$> selectors))] in
  if String.eqb name "results.json"
  then Ok (JObj [("schemaVersion", JStr "gcs-saker.verification-results.v1"); ("sourceCommit", JStr "c0ffee");
                 ("results", JList [JObj [("selector", JStr "TestLogin::refuses"); ("result", JStr "FAIL")]])])
  else Ok (JObj [("requirements", JList [requirement "R-1" ["TestLogin::accepts"];
                                         requirement "R-2" ["TestLogin::accepts"; "TestLogin::refuses"];
                                         requirement "R-3" ["TestLogin::locks"]])]).

Definition sample_quality_files : files :=
  mkFiles (λ _, Ok true) (λ _, Ok true) (λ _, Ok 0) (λ _, Ok 384) (λ p, Ok (utf8_encode (path_name p))).

Definition sample_quality_world : world :=
  mkWorld (λ _ _ _, Ok "c0ffee") (λ _ _, Ok (0, "")) (λ _, PrimFloat.zero) (λ _, mkDatetime 1735689600000000 (Some 0))
    (λ _ _, NoResponse) (λ _ _ _, Ok ()) (λ _ _ _, Ok ()).

Definition sample_measurement (evidence : list fs_path) : option (result Report) * history :=
  build_report sample_quality_document sample_quality_document (λ _, Ok sample_suite) (λ _, "digest") (parse_path "/repo")
    sample_quality_world (λ _, sample_quality_files) "functional" [parse_path "junit.xml"] evidence [].

Definition sample_results (outcome : option (result Report) * history) : list string :=
  match outcome.1 with Some (Ok r) => row_result <$> cases_of (measurement r) | _ => [] end.

(** One failure outweighs the pass of another file. *)
Example sample_rows : sample_results (sample_measurement [parse_path "results.json"]) = ["PASS"; "FAIL"; "NOT_RUN"].
Proof. vm_compute. reflexivity. Qed.

Lemma quality_report_sound_witness :
  ∃ r t, sample_measurement [parse_path "results.json"] = (Some (Ok r), t) ∧ verdict_of (measurement r) = "FAIL"
    ∧ Exists (λ row, row_result row = "FAIL") (cases_of (measurement r)).
Proof.
  destruct (sample_measurement [parse_path "results.json"]) as [[[r|e]|] t] eqn:E; [|vm_compute in E; discriminate E..].
  exists r, t. split; [done|].
  assert (verdict_of (measurement r) = "FAIL") as Hf by (vm_compute in E; by injection E as <- _). split; [exact Hf|].
  destruct (quality_report_sound sample_quality_document sample_quality_document (λ _, Ok sample_suite) (λ _, "digest")
    sample_quality_world (λ _, sample_quality_files) (parse_path "/repo") "functional" [parse_path "junit.xml"]
    [parse_path "results.json"] [] r t E) as (? & ? & ? & ? & ? & ? & _ & _ & _ & _ & _ & _ & _ & Hv).
  by apply Hv.
Defined.
