(* ===== verification/Performance.v ===== *)
(** Performance and stability qualification:
    [scripts/reports/performance_stability_qualification.py].

    Raw samples of one measurement window are judged against the proposed
    thresholds of the qualification profile.  Git and the clock are the machine;
    the JSON and YAML codecs, SHA-256, [repr], the checks [urlparse] delegates
    and the order [sorted] gives to lists with a NaN are parameters. *)

From stdpp Require Import base list strings sorting.
From Stdlib Require Import ZArith Lia Ascii Floats Strings.Byte.
From S2P Require Import Prelude PyStr PyFloat PyTime PyTimeParse PyJson PyText Url Host Effects Evidence.

#[local] Open Scope Z_scope.

(** [scripts/reports/performance_stability_qualification.py:17-19] the schemas and the target *)
Definition INPUT_SCHEMA : string := "gcs-saker.performance-samples.v1".
Definition OUTPUT_SCHEMA : string := "gcs-saker.performance-qualification-result.v1".
Definition REQUIRED_TARGET : string := "server01-production".

Definition perf_error {A} (msg : string) : result A := throw ExcPerformanceQualificationError msg.

(** ** Values *)

(** [x in v] for any value. *)
Definition j_in (x v : jval) : result bool :=
  match v with
  | JList l => Ok (j_elem x l)
  | JObj d => if hashable x then Ok (match x with JStr s => dict_has d s | _ => false end) else type_error "unhashable type"
  | JStr s => match x with JStr sub => Ok (contains sub s) | _ => type_error "requires string as left operand" end
  | _ => type_error "argument is not iterable"
  end.

(** [d.get(key)] for any key. *)
Definition get_key (d : entry) (key : jval) : result jval :=
  match key with
  | JStr s => Ok (obj_get d s)
  | _ => if hashable key then Ok JNull else type_error "unhashable type"
  end.

(** [float(v)] of a number. *)
Definition j_float (v : jval) : result float :=
  match v with
  | JFloat x => Ok x
  | _ => match as_int v with Some n => float_of_int n | None => type_error "float() argument must be a number" end
  end.

(** [not isinstance(v, (int, float)) or isinstance(v, bool) or v < 0] *)
Definition bad_sample (v : jval) : result bool :=
  match v with JInt _ | JFloat _ => j_lt v (JInt 0) | _ => Ok true end.

(** [not isinstance(v, int) or v < 0]: a count, which may be a boolean. *)
Definition bad_count (v : jval) : bool := match as_int v with Some n => n <? 0 | None => true end.

(** [max(values)] of a non-empty list; it keeps the first of equal values. *)
Definition max_float (values : list float) : result float :=
  match values with
  | [] => value_error "max() arg is an empty sequence"
  | x :: rest => Ok (foldl (λ m y, if (m <? y)%float then y else m) x rest)
  end.

Definition max_Z (values : list Z) : result Z :=
  match values with
  | [] => value_error "max() arg is an empty sequence"
  | x :: rest => Ok (foldl Z.max x rest)
  end.

(** [l[i]]; a negative index counts from the end. *)
Definition py_index {A} (l : list A) (i : Z) : result A :=
  let i := if i <? 0 then i + Z.of_nat (length l) else i in
  if i <? 0 then throw ExcIndexError "list index out of range" else
  match l !! Z.to_nat i with Some x => Ok x | None => throw ExcIndexError "list index out of range" end.

Definition threshold_of (profile : entry) (key : string) : result jval := j_path (JObj profile) ["thresholds"; key].

(** ** The profile *)

(** [scripts/reports/performance_stability_qualification.py:34-44] validate_profile *)
Definition validate_profile (profile : entry) : result () :=
  if negb (py_eq (obj_get profile "status") (JStr "CONTROLLED_DRAFT_NOT_EXECUTED"))
  then perf_error "qualification profile must remain an unexecuted draft" else
  if negb (py_eq (obj_get profile "target") (JStr REQUIRED_TARGET))
  then perf_error "only Server-01 production is permitted" else
  status ← j_get (default (JObj []) (dict_get profile "thresholds")) "status";
  if negb (py_eq status (JStr "PROPOSED_NOT_APPROVED")) then perf_error "thresholds must remain proposed" else
  let sampling := default (JObj []) (dict_get profile "sampling") in
  minimum ← j_get_or sampling "minimumMeasuredSamplesPerMetric" (JInt 0);
  refused ← or_r (j_lt minimum (JInt 30)) (retain ← j_get sampling "retainRawSamples"; Ok (negb (is_true retain)));
  if refused : bool then perf_error "at least 30 retained raw samples are required" else Ok ().

Section qualification.
Context (json_loads yaml_safe_load : string → result jval) (sha256 : list byte → string) (py_repr : jval → string).
Context (bracketed_netloc_ok nfkc_ok : string → bool) (unicode_lower : string → string).
Context (sort_nan : list float → list float).

(** [scripts/reports/performance_stability_qualification.py:26-31] load_object *)
Definition load_object (fs : files) (path : fs_path) : result entry :=
  load_document json_loads yaml_safe_load ExcPerformanceQualificationError fs path.

(** ** Metrics *)

(** The rank of a percentile in [count] sorted values. *)
Definition rank (count : nat) (ratio : float) : result Z :=
  last ← float_of_int (Z.of_nat count - 1); round_float (last * ratio)%float.

(** [scripts/reports/performance_stability_qualification.py:47-50] percentile *)
Definition percentile (values : list float) (ratio : float) : result float :=
  let ordered := sorted_floats sort_nan values in
  index ← rank (length ordered) ratio;
  py_index ordered index.

(** [scripts/reports/performance_stability_qualification.py:53-58] validate_samples *)
Definition validate_samples (values minimum : jval) : result (list float) :=
  match values with
  | JList l =>
      few ← j_lt (JInt (Z.of_nat (length l))) minimum;
      if few : bool then perf_error "each metric requires at least the minimum of measured samples" else
      bad ← any_in bad_sample l;
      if bad : bool then perf_error "latency samples must be non-negative numbers" else mapM j_float l
  | _ => perf_error "each metric requires at least the minimum of measured samples"
  end.

Record MetricSummary : Type := mkMetric {
  m_id : jval;
  m_category : jval;
  sampleCount : Z;
  requestErrors : jval;
  backpressureEvents : jval;
  queueDepthMaximum : Z;
  p50Milliseconds : float;
  p95Milliseconds : float;
  p99Milliseconds : float;
  proposedThresholdMilliseconds : jval;
  m_technicalResult : string
}.

Definition metric_threshold (category : jval) : string :=
  if py_eq category (JStr "control-plane") then "controlPlaneLatencyP95Milliseconds"
  else "telemetryAcceptanceLatencyP95Milliseconds".

(** The queue depths of a metric: a non-empty list of non-negative integers. *)
Definition queue_depths (v : jval) : option (list Z) :=
  match v with
  | JList ((_ :: _) as l) => mapM (λ v, match v with JInt n => if n <? 0 then None else Some n | _ => None end) l
  | _ => None
  end.

Definition p50_ratio : float := 0.5%float.
Definition p95_ratio : float := 0.95%float.
Definition p99_ratio : float := 0.99%float.

(** [scripts/reports/performance_stability_qualification.py:61-99] summarize_metric *)
Definition summarize_metric (profile : entry) (metric : jval) : result MetricSummary :=
  category ← j_get metric "category";
  supported ← (v ← j_getitem (JObj profile) "requiredMetricCategories"; j_in category v);
  if negb supported then perf_error "unsupported metric category" else
  values ← j_get metric "samplesMilliseconds";
  minimum ← j_path (JObj profile) ["sampling"; "minimumMeasuredSamplesPerMetric"];
  samples ← validate_samples values minimum;
  errors ← j_get metric "requestErrors";
  backpressure ← j_get metric "backpressureEvents";
  queue_depth ← j_get metric "queueDepthSamples";
  if bad_count errors || bad_count backpressure
  then perf_error "error and backpressure counts must be non-negative integers" else
  match queue_depths queue_depth with
  | None => perf_error "queue-depth samples are required"
  | Some depths =>
      p95 ← percentile samples p95_ratio;
      id ← j_get metric "id";
      deepest ← max_Z depths;
      p50 ← percentile samples p50_ratio;
      p99 ← percentile samples p99_ratio;
      threshold ← threshold_of profile (metric_threshold category);
      within ← j_le (JFloat p95) threshold;
      Ok (mkMetric id category (Z.of_nat (length samples)) errors backpressure deepest p50 p95 p99 threshold
            (if within && py_eq errors (JInt 0) && py_eq backpressure (JInt 0) then "PASS" else "FAIL"))
  end.

(** ** Continuous operation *)

(** [scripts/reports/performance_stability_qualification.py:130-136] resource_values *)
Definition resource_values (resources : list jval) (field : string) : result (list float) :=
  let values := (λ d, obj_get d field) <$> omap as_dict resources in
  bad ← (if Nat.eqb (length values) (length resources) then any_in bad_sample values else Ok true);
  if bad : bool then perf_error ("resource samples require non-negative " +:+ field) else mapM j_float values.

Record ContinuousSummary : Type := mkContinuous {
  durationSeconds : jval;
  disconnectEvents : jval;
  reconnectSuccesses : jval;
  unrecoveredDisconnects : Z;
  resourceSampleCount : Z;
  cpuPercentMaximum : float;
  memoryPercentMaximum : float;
  fullDurationObserved : bool;
  c_technicalResult : string
}.

(** [scripts/reports/performance_stability_qualification.py:102-127] summarize_continuous *)
Definition summarize_continuous (profile : entry) (payload : jval) : result ContinuousSummary :=
  duration ← j_get payload "durationSeconds";
  disconnects ← j_get payload "disconnectEvents";
  reconnects ← j_get payload "reconnectSuccesses";
  resources ← j_get payload "resourceSamples";
  bad ← (if is_number duration then j_lt duration (JInt 0) else Ok true);
  if bad : bool then perf_error "continuous-operation duration is invalid" else
  match as_int disconnects, as_int reconnects with
  | Some disconnected, Some reconnected =>
      if disconnected <? reconnected then perf_error "disconnect and reconnect counts are invalid" else
      match resources with
      | JList ((_ :: _) as resources) =>
          cpu_samples ← resource_values resources "cpuPercent";
          memory_samples ← resource_values resources "memoryPercent";
          let unrecovered := disconnected - reconnected in
          threshold ← threshold_of profile "continuousOperationSeconds";
          full_duration ← j_le threshold duration;
          cpu ← max_float cpu_samples;
          memory ← max_float memory_samples;
          Ok (mkContinuous duration disconnects reconnects unrecovered (Z.of_nat (length resources)) cpu memory
                full_duration (if full_duration && (unrecovered =? 0) then "PASS" else "FAIL"))
      | _ => perf_error "resource samples are required"
      end
  | _, _ => perf_error "disconnect and reconnect counts are invalid"
  end.

(** ** The envelope *)

(** [urlparse(str(v))] is HTTPS at the production host. *)
Definition production_origin (v : jval) : result bool :=
  origin ← urlsplit bracketed_netloc_ok nfkc_ok (py_str py_repr v);
  Ok (String.eqb (url_scheme origin) "https" && bool_decide (hostname unicode_lower origin = Some "gcs-saker.com")).

(** [scripts/reports/performance_stability_qualification.py:139-159] validate_envelope *)
Definition validate_envelope (document : entry) (source_commit : string) (profile : entry) : result () :=
  if negb (py_eq (obj_get document "schemaVersion") (JStr INPUT_SCHEMA))
     || negb (py_eq (obj_get document "sourceCommit") (JStr source_commit))
  then perf_error "input schema or source commit does not match" else
  if negb (py_eq (obj_get document "target") (JStr REQUIRED_TARGET))
  then perf_error "evidence must target Server-01 production" else
  production ← production_origin (default (JStr "") (dict_get document "publicOrigin"));
  if negb production then perf_error "evidence must use the production HTTPS origin" else
  if negb (j_truthy (obj_get document "approvedWindowId")) || negb (j_truthy (obj_get document "loadProfileId"))
  then perf_error "approved window and load profile IDs are required" else
  let clock := default (JObj []) (dict_get document "clock") in
  drift ← j_get clock "measuredDriftMilliseconds";
  source ← j_get clock "source";
  if negb (j_truthy source) || negb (match drift with JInt _ | JFloat _ => true | _ => false end)
  then perf_error "clock source and measured drift are required" else
  required ← j_path (JObj profile) ["sampling"; "minimumWarmupSamples"];
  few ← j_lt (default (JInt 0) (dict_get document "warmupSamples")) required;
  if few : bool then perf_error "insufficient warmup samples" else
  match obj_get document "environment" with
  | JObj environment =>
      fields ← (v ← j_getitem (JObj profile) "requiredEnvironmentFields"; j_items v);
      missing ← any_in (λ field, v ← get_key environment field; Ok (negb (j_truthy v))) fields;
      if missing : bool then perf_error "environment qualification fields are incomplete" else Ok ()
  | _ => perf_error "environment qualification fields are incomplete"
  end.

(** ** The report *)

Record PerformanceReport : Type := mkPerformance {
  generatedAt : datetime;
  sourceCommit : string;
  approvedWindowId : jval;
  loadProfileId : jval;
  clock_source : jval;
  measuredDriftMilliseconds : jval;
  environment : entry;
  thresholdStatus : jval;
  metrics : list MetricSummary;
  continuousOperation : ContinuousSummary;
  technicalResult : string;
  verdict : string
}.

(** [{field: environment[field] for field in fields}] *)
Definition selected_fields (environment : entry) (fields : list jval) : result entry :=
  for_in (λ d field, name ← as_str field; v ← j_getitem (JObj environment) name; Ok (dict_set d name v)) [] fields.

(** [scripts/reports/performance_stability_qualification.py:162-192] build_report *)
Definition build_report (w : world) (document : entry) (source_commit : string) (profile : entry) : eff PerformanceReport :=
  _ ← lift (validate_envelope document source_commit profile);
  match obj_get document "metrics" with
  | JList ((_ :: _) as metrics) =>
      summaries ← lift (mapM (summarize_metric profile) metrics);
      covered ← lift (categories ← j_set (JList (m_category <$> summaries));
                      required ← (v ← j_getitem (JObj profile) "requiredMetricCategories"; j_set v);
                      Ok (j_set_eq categories required));
      if negb covered then raise ExcPerformanceQualificationError "required metric category coverage is incomplete" else
      continuous ← lift (summarize_continuous profile (default (JObj []) (dict_get document "continuousOperation")));
      let technical_result :=
        if forallb (λ item, String.eqb (m_technicalResult item) "PASS") summaries
           && String.eqb (c_technicalResult continuous) "PASS" then "PASS" else "FAIL" in
      now ← utcnow w;
      window ← lift (j_getitem (JObj document) "approvedWindowId");
      load_profile ← lift (j_getitem (JObj document) "loadProfileId");
      source ← lift (j_path (JObj document) ["clock"; "source"]);
      drift ← lift (j_path (JObj document) ["clock"; "measuredDriftMilliseconds"]);
      environment ← lift (e ← j_getitem (JObj document) "environment";
                          fields ← (v ← j_getitem (JObj profile) "requiredEnvironmentFields"; j_items v);
                          selected_fields (default [] (as_dict e)) fields);
      status ← lift (threshold_of profile "status");
      mret (mkPerformance now source_commit window load_profile source drift environment status summaries continuous
              technical_result (if String.eqb technical_result "PASS" then "BLOCKED" else "FAIL"))
  | _ => raise ExcPerformanceQualificationError "metric evidence is required"
  end.

Definition metric_json (m : MetricSummary) : jval :=
  JObj [("id", m_id m); ("category", m_category m); ("sampleCount", JInt (sampleCount m));
        ("requestErrors", requestErrors m); ("backpressureEvents", backpressureEvents m);
        ("queueDepthMaximum", JInt (queueDepthMaximum m)); ("p50Milliseconds", JFloat (p50Milliseconds m));
        ("p95Milliseconds", JFloat (p95Milliseconds m)); ("p99Milliseconds", JFloat (p99Milliseconds m));
        ("proposedThresholdMilliseconds", proposedThresholdMilliseconds m); ("technicalResult", JStr (m_technicalResult m))].

Definition continuous_json (c : ContinuousSummary) : jval :=
  JObj [("durationSeconds", durationSeconds c); ("disconnectEvents", disconnectEvents c);
        ("reconnectSuccesses", reconnectSuccesses c); ("unrecoveredDisconnects", JInt (unrecoveredDisconnects c));
        ("resourceSampleCount", JInt (resourceSampleCount c)); ("cpuPercentMaximum", JFloat (cpuPercentMaximum c));
        ("memoryPercentMaximum", JFloat (memoryPercentMaximum c)); ("fullDurationObserved", JBool (fullDurationObserved c));
        ("technicalResult", JStr (c_technicalResult c))].

(** The document of a report. *)
Definition report_json (r : PerformanceReport) (input_sha256 : string) : jval :=
  JObj [("schemaVersion", JStr OUTPUT_SCHEMA); ("generatedAt", JStr (isoformat (generatedAt r)));
        ("sourceCommit", JStr (sourceCommit r)); ("target", JStr REQUIRED_TARGET);
        ("approvedWindowId", approvedWindowId r); ("loadProfileId", loadProfileId r);
        ("clock", JObj [("source", clock_source r); ("measuredDriftMilliseconds", measuredDriftMilliseconds r)]);
        ("environment", JObj (environment r)); ("thresholdStatus", thresholdStatus r);
        ("metrics", JList (map metric_json (metrics r))); ("continuousOperation", continuous_json (continuousOperation r));
        ("technicalResult", JStr (technicalResult r)); ("verdict", JStr (verdict r));
        ("limitations", JList [JStr "thresholds, load profile, and independent assessment are not approved"]);
        ("inputSha256", JStr input_sha256)].

(** ** The tool *)

Section tool.
Context (w : world) (fs : history → files) (REPO_ROOT : fs_path).

Definition PROFILE_PATH : fs_path :=
  path_div REPO_ROOT "docs/compliance/quality/performance-stability-qualification-profile.yml".

(** [scripts/reports/performance_stability_qualification.py:195-200] write_immutable *)
Definition write_immutable (path : fs_path) (report : jval) : eff () :=
  write_new w fs ExcPerformanceQualificationError path report.

(** [scripts/reports/performance_stability_qualification.py:203-207] source_commit *)
Definition source_commit : eff string := run w ["git"; "rev-parse"; "HEAD"] (Some 10).

(** [scripts/reports/performance_stability_qualification.py:210-230] main, from the parsed arguments *)
Definition main (check : bool) (input output : option fs_path) : eff Z :=
  profile ← reading fs (λ fs, load_object fs PROFILE_PATH);
  _ ← lift (validate_profile profile);
  if check then _ ← print (JStr "performance and stability qualification profile passed"); mret 0 else
  match input, output with
  | Some input, Some output =>
      present ← reading fs (λ fs, and_r (Ok (p_absolute input)) (fs_is_file fs input));
      if negb present then raise ExcPerformanceQualificationError "input must be an existing absolute file" else
      current_commit ← source_commit;
      document ← reading fs (λ fs, load_object fs input);
      report ← build_report w document current_commit profile;
      digest ← reading fs (λ fs, bytes ← fs_read fs input; Ok (sha256 bytes));
      _ ← write_immutable output (report_json report digest);
      _ ← print (JObj [("technicalResult", JStr (technicalResult report)); ("verdict", JStr (verdict report))]);
      mret 0
  | _, _ => raise ExcSystemExit "--input and --output are required"
  end.
End tool.
End qualification.

(** ** The 95th percentile *)

Lemma rank_95 n : (1 <= n <= 1000)%nat → rank n p95_ratio = Ok (div_half_even (19 * (Z.of_nat n - 1)) 20).
Proof.
  intros Hn.
  assert (forallb (λ n, match rank n p95_ratio with
    | Ok i => i =? div_half_even (19 * (Z.of_nat n - 1)) 20 | Raise _ => false end) (seq 1 1000) = true) as H by (vm_compute; reflexivity).
  rewrite forallb_forall in H. specialize (H n ltac:(apply in_seq; lia)).
  destruct (rank n p95_ratio) as [i|]; [|discriminate H]. apply Z.eqb_eq in H. by rewrite H.
Qed.

Lemma py_index_Ok {A} (l : list A) i x :
  py_index l i = Ok x → ∃ k, l !! k = Some x ∧ (0 <= i → k = Z.to_nat i).
Proof.
  unfold py_index. intros H. set (j := if i <? 0 then _ else i) in H. destruct (j <? 0); [discriminate H|].
  destruct (l !! Z.to_nat j) as [y|] eqn:E; [|discriminate H]. injection H as <-. exists (Z.to_nat j). split; [done|].
  intros Hi. unfold j. by rewrite (proj2 (Z.ltb_ge i 0) Hi).
Qed.

Lemma div_half_even_nonneg n d : 0 <= n → 0 < d → 0 <= div_half_even n d.
Proof. intros. unfold div_half_even. pose proof (Z.div_pos n d). destruct (_ || _); lia. Qed.

(** [p] splits the samples at the rank of the 95th percentile. *)
Definition is_p95 (samples : list float) (p : float) : Prop :=
  ∃ lower upper, samples ≡ₚ lower ++ p :: upper
    ∧ Z.of_nat (length lower) = div_half_even (19 * (Z.of_nat (length samples) - 1)) 20
    ∧ Forall (λ y, (y <=? p)%float = true) lower ∧ Forall (λ y, (p <=? y)%float = true) upper.

Lemma percentile_95 sort_nan samples p :
  percentile sort_nan samples p95_ratio = Ok p → existsb is_nan samples = false → (length samples <= 1000)%nat →
  is_p95 samples p.
Proof.
  intros (i & Hi & (k & Hk & Hki)%py_index_Ok)%bind_Ok Hn Hlen.
  assert (length (sorted_floats sort_nan samples) = length samples) as Hl.
  { unfold sorted_floats. rewrite Hn. by rewrite merge_sort_Permutation. }
  rewrite Hl in Hi. pose proof (lookup_lt_Some _ _ _ Hk) as Hlt. rewrite Hl in Hlt.
  rewrite rank_95 in Hi by lia. injection Hi as <-.
  destruct (sorted_floats_rank _ _ _ _ Hn Hk) as (lower & upper & Hp & Hlow & Hle & Hge).
  exists lower, upper. split; [done|]. split; [|done]. subst k.
  pose proof (div_half_even_nonneg (19 * (Z.of_nat (length samples) - 1)) 20 ltac:(lia) ltac:(lia)).
  rewrite Hki by done. lia.
Qed.

(** ** What a passing report shows *)

Section report_facts.
Context (json_loads yaml_safe_load : string → result jval) (py_repr : jval → string).
Context (bracketed_netloc_ok nfkc_ok : string → bool) (unicode_lower : string → string).
Context (sort_nan : list float → list float).

(** A metric with enough samples, no error or backpressure, and its 95th
    percentile within the threshold of its category. *)
Definition metric_conforms (profile : entry) (metric : jval) : Prop :=
  ∃ m values minimum samples threshold p95,
    metric = JObj m
    ∧ obj_get m "samplesMilliseconds" = JList values ∧ Forall (λ v, bad_sample v = Ok false) values
    ∧ j_path (JObj profile) ["sampling"; "minimumMeasuredSamplesPerMetric"] = Ok minimum
    ∧ j_lt (JInt (Z.of_nat (length values))) minimum = Ok false
    ∧ mapM j_float values = Ok samples
    ∧ py_eq (obj_get m "requestErrors") (JInt 0) = true ∧ py_eq (obj_get m "backpressureEvents") (JInt 0) = true
    ∧ threshold_of profile (metric_threshold (obj_get m "category")) = Ok threshold
    ∧ j_le (JFloat p95) threshold = Ok true
    ∧ (existsb is_nan samples = false → (length samples <= 1000)%nat → is_p95 samples p95).

Lemma j_get_Ok v key x : j_get v key = Ok x → ∃ d, v = JObj d ∧ obj_get d key = x.
Proof. destruct v as [| | | | | |d]; try discriminate. intros [= <-]. by exists d. Qed.

Lemma j_get_obj d key x : j_get (JObj d) key = Ok x → obj_get d key = x.
Proof. by intros [= <-]. Qed.

Lemma validate_samples_Ok values minimum samples :
  validate_samples values minimum = Ok samples →
  ∃ l, values = JList l ∧ j_lt (JInt (Z.of_nat (length l))) minimum = Ok false
    ∧ Forall (λ v, bad_sample v = Ok false) l ∧ mapM j_float l = Ok samples.
Proof.
  unfold validate_samples. destruct values as [| | | | |l|]; try discriminate. intros ([] & Hf & H)%bind_Ok; [discriminate H|].
  apply bind_Ok in H as ([] & Hb & H); [discriminate H|]. exists l. by rewrite any_in_false in Hb.
Qed.

Lemma summarize_metric_Ok profile metric s :
  summarize_metric sort_nan profile metric = Ok s →
  (∃ m, metric = JObj m ∧ m_category s = obj_get m "category")
  ∧ (m_technicalResult s = "PASS" → metric_conforms profile metric).
Proof.
  unfold summarize_metric. intros (category & Hc & H)%bind_Ok. apply j_get_Ok in Hc as (m & -> & <-).
  apply bind_Ok in H as ([] & _ & H); [|discriminate H]. cbn [negb] in H.
  apply bind_Ok in H as (values & Hv & H). apply j_get_obj in Hv. apply bind_Ok in H as (minimum & Hmin & H).
  apply bind_Ok in H as (samples & Hs & H). apply validate_samples_Ok in Hs as (l & -> & Hfew & Hbad & Hfl).
  apply bind_Ok in H as (errors & He & H). apply j_get_obj in He. apply bind_Ok in H as (backpressure & Hb & H). apply j_get_obj in Hb.
  apply bind_Ok in H as (queue & _ & H). destruct (_ || _); [discriminate H|].
  destruct (queue_depths queue) as [depths|]; [|discriminate H].
  apply bind_Ok in H as (p95 & Hp & H). apply bind_Ok in H as (id & _ & H). apply bind_Ok in H as (deepest & _ & H).
  apply bind_Ok in H as (p50 & _ & H). apply bind_Ok in H as (p99 & _ & H). apply bind_Ok in H as (threshold & Ht & H).
  apply bind_Ok in H as (within & Hw & [= <-]). cbn [m_category m_technicalResult]. split; [by exists m|].
  destruct (within && py_eq errors (JInt 0) && py_eq backpressure (JInt 0)) eqn:E; [|discriminate]. intros _.
  apply andb_true_iff in E as [[-> Hez]%andb_true_iff Hbz].
  exists m, l, minimum, samples, threshold, p95. rewrite Hv, He, Hb. split_and!; try done.
  by eapply percentile_95.
Qed.

(** Continuous operation of the required duration, every disconnect recovered. *)
Definition continuous_conforms (profile : entry) (payload : jval) : Prop :=
  ∃ c threshold n resources,
    payload = JObj c ∧ threshold_of profile "continuousOperationSeconds" = Ok threshold
    ∧ is_number (obj_get c "durationSeconds") = true ∧ j_le threshold (obj_get c "durationSeconds") = Ok true
    ∧ as_int (obj_get c "disconnectEvents") = Some n ∧ as_int (obj_get c "reconnectSuccesses") = Some n
    ∧ obj_get c "resourceSamples" = JList resources ∧ resources ≠ [].

Lemma summarize_continuous_Ok profile payload s :
  summarize_continuous profile payload = Ok s → c_technicalResult s = "PASS" → continuous_conforms profile payload.
Proof.
  unfold summarize_continuous. intros (duration & Hd & H)%bind_Ok. apply j_get_Ok in Hd as (c & -> & <-).
  apply bind_Ok in H as (disconnects & Hdis & H). apply j_get_obj in Hdis. apply bind_Ok in H as (reconnects & Hrec & H).
  apply j_get_obj in Hrec. apply bind_Ok in H as (resources & Hres & H). apply j_get_obj in Hres.
  apply bind_Ok in H as (bad & Hbad & H). destruct bad; [discriminate H|].
  destruct (as_int disconnects) as [d|] eqn:Ed, (as_int reconnects) as [r|] eqn:Er; try discriminate H.
  destruct (d <? r); [discriminate H|]. destruct resources as [| | | | |[|v l]|]; try discriminate H.
  apply bind_Ok in H as (cpu & _ & H). apply bind_Ok in H as (memory & _ & H). apply bind_Ok in H as (threshold & Ht & H).
  apply bind_Ok in H as (full & Hf & H). apply bind_Ok in H as (cmax & _ & H). apply bind_Ok in H as (mmax & _ & [= <-]).
  cbn [c_technicalResult]. destruct (full && (d - r =? 0)) eqn:E; [|discriminate]. intros _.
  apply andb_true_iff in E as [-> Ez%Z.eqb_eq]. assert (d = r) as -> by lia.
  exists c, threshold, r, (v :: l). rewrite Hdis, Hrec, Hres. split_and!; try done.
  destruct (is_number (obj_get c "durationSeconds")) eqn:En; [done|]. discriminate Hbad.
Qed.

Lemma validate_envelope_Ok document commit profile u :
  validate_envelope py_repr bracketed_netloc_ok nfkc_ok unicode_lower document commit profile = Ok u →
  obj_get document "schemaVersion" = JStr INPUT_SCHEMA ∧ obj_get document "sourceCommit" = JStr commit
  ∧ obj_get document "target" = JStr REQUIRED_TARGET
  ∧ production_origin py_repr bracketed_netloc_ok nfkc_ok unicode_lower (default (JStr "") (dict_get document "publicOrigin")) = Ok true
  ∧ j_truthy (obj_get document "approvedWindowId") = true ∧ j_truthy (obj_get document "loadProfileId") = true.
Proof.
  unfold validate_envelope. intros H. destruct (_ || _) eqn:E1; [discriminate H|]. apply orb_false_iff in E1 as [Es Ec].
  destruct (negb (py_eq (obj_get document "target") _)) eqn:Et; [discriminate H|].
  apply bind_Ok in H as ([] & Ho & H); [|discriminate H]. cbn [negb] in H.
  destruct (_ || _) eqn:E2; [discriminate H|]. apply orb_false_iff in E2 as [Ew El].
  rewrite negb_false_iff in Es, Ec, Et, Ew, El. apply py_eq_str in Es, Ec, Et. by split_and!.
Qed.

(** C30: A qualification report passes technically only on evidence that meets
    the proposed thresholds.  Every metric then has the required number of
    samples, none below zero (which NaN is not either), no request error and no
    backpressure, and a 95th percentile within the threshold of its category: for up to a thousand
    samples without NaN, the sample of rank 0.95 (n - 1), rounded half to even,
    in sorted order.  Every required category has a metric, continuous operation
    lasted the required time with every disconnect recovered, and the evidence
    is of this commit and of the production site over HTTPS.  The verdict is
    never a pass: it waits for independent assessment. *)
Theorem performance_pass_sound w document commit profile h r t :
  build_report py_repr bracketed_netloc_ok nfkc_ok unicode_lower sort_nan w document commit profile h = (Some (Ok r), t) →
  (verdict r = if String.eqb (technicalResult r) "PASS" then "BLOCKED" else "FAIL")
  ∧ sourceCommit r = commit ∧ obj_get document "sourceCommit" = JStr commit ∧ obj_get document "target" = JStr REQUIRED_TARGET
  ∧ production_origin py_repr bracketed_netloc_ok nfkc_ok unicode_lower (default (JStr "") (dict_get document "publicOrigin")) = Ok true
  ∧ (technicalResult r = "PASS" →
     ∃ ms required categories,
       obj_get document "metrics" = JList ms ∧ Forall (metric_conforms profile) ms
       ∧ j_getitem (JObj profile) "requiredMetricCategories" = Ok required ∧ j_set required = Ok categories
       ∧ (∀ category, category ∈ categories → ∃ m, JObj m ∈ ms ∧ py_eq category (obj_get m "category") = true)
       ∧ continuous_conforms profile (default (JObj []) (dict_get document "continuousOperation"))).
Proof.
  intros H. unfold build_report in H. apply eff_bind_Ok in H as (u & t1 & t2 & He & H & ->). apply lift_Ok in He as [He ->].
  apply validate_envelope_Ok in He as (_ & Hcommit & Htarget & Horigin & _).
  destruct (obj_get document "metrics") as [| | | | |[|m0 ms]|] eqn:Em; try discriminate H. set (metrics := m0 :: ms) in *.
  apply eff_bind_Ok in H as (summaries & t3 & t4 & Hs & H & ->). apply lift_Ok in Hs as [Hs ->]. apply mapM_Ok in Hs.
  apply eff_bind_Ok in H as (covered & t5 & t6 & Hcov & H & ->). apply lift_Ok in Hcov as [Hcov ->].
  destruct covered; [|discriminate H]. cbn [negb] in H.
  apply eff_bind_Ok in H as (continuous & t7 & t8 & Hcont & H & ->). apply lift_Ok in Hcont as [Hcont ->].
  eff_ok_in H. subst r. cbn [verdict technicalResult sourceCommit]. split; [done|]. split_and!; try done.
  destruct (forallb _ _ && _) eqn:Epass; [|discriminate]. intros _. apply andb_true_iff in Epass as [Hall Hc].
  apply String.eqb_eq in Hc. apply bind_Ok in Hcov as (categories & Hcat & Hcov). apply bind_Ok in Hcov as (required & Hreq & Heq).
  apply bind_Ok in Hreq as (v & Hv & Hreq). injection Heq as Heq. apply andb_true_iff in Heq as [_ Hsub].
  exists metrics, v, required. split_and!; try done.
  - apply Forall_forall. intros metric (i & Hi)%list_elem_of_lookup. destruct (Forall2_lookup_l _ _ _ _ _ Hs Hi) as (s & Hsi & Hsum).
    rewrite forallb_forall in Hall. apply (proj2 (summarize_metric_Ok _ _ _ Hsum)).
    apply String.eqb_eq, Hall, list_elem_of_In. by eapply list_elem_of_lookup_2.
  - intros category Hin. unfold j_subset in Hsub. rewrite forallb_forall in Hsub.
    specialize (Hsub category ltac:(by apply list_elem_of_In)). unfold j_elem in Hsub.
    apply existsb_exists in Hsub as (c & Hc' & Hpe). apply bind_Ok in Hcat as (items & Hitems & Hset). injection Hitems as <-.
    destruct (forallb hashable _); [|discriminate Hset]. injection Hset as <-.
    apply list_elem_of_In, list_elem_of_fmap in Hc' as (s & -> & Hsin). apply list_elem_of_lookup in Hsin as (i & Hi).
    destruct (Forall2_lookup_r _ _ _ _ _ Hs Hi) as (metric & Hm & Hsum).
    destruct (proj1 (summarize_metric_Ok _ _ _ Hsum)) as (m & -> & Hcm). exists m. rewrite <-Hcm.
    split; [by eapply list_elem_of_lookup_2|done].
  - by eapply summarize_continuous_Ok.
Qed.
End report_facts.

(** ** A passing report, and samples the checks let through *)

Definition sample_profile : entry :=
  [("requiredMetricCategories", JList [JStr "control-plane"]);
   ("requiredEnvironmentFields", JList [JStr "host"]);
   ("sampling", JObj [("minimumMeasuredSamplesPerMetric", JInt 30); ("minimumWarmupSamples", JInt 5)]);
   ("thresholds", JObj [("status", JStr "PROPOSED_NOT_APPROVED"); ("controlPlaneLatencyP95Milliseconds", JInt 300);
                        ("continuousOperationSeconds", JInt 3600)])].

(** Thirty samples: the largest is beyond the threshold, the 95th percentile is not. *)
Definition sample_latencies : list jval := (λ n, JInt (10 * Z.of_nat n)) <$> (39 :: seq 1 29)%nat.

Definition sample_continuous (disconnects reconnects : Z) : jval :=
  JObj [("durationSeconds", JInt 7200); ("disconnectEvents", JInt disconnects); ("reconnectSuccesses", JInt reconnects);
        ("resourceSamples", JList [JObj [("cpuPercent", JInt 40); ("memoryPercent", JFloat 51.5%float)]])].

Definition sample_evidence (latencies : list jval) : entry :=
  [("schemaVersion", JStr INPUT_SCHEMA); ("sourceCommit", JStr "c0ffee"); ("target", JStr REQUIRED_TARGET);
   ("publicOrigin", JStr "https://gcs-saker.com"); ("approvedWindowId", JStr "W-1"); ("loadProfileId", JStr "L-1");
   ("clock", JObj [("source", JStr "ntp"); ("measuredDriftMilliseconds", JInt 1)]); ("warmupSamples", JInt 10);
   ("environment", JObj [("host", JStr "server01")]);
   ("metrics", JList [JObj [("id", JStr "M-1"); ("category", JStr "control-plane"); ("samplesMilliseconds", JList latencies);
                            ("requestErrors", JInt 0); ("backpressureEvents", JInt 0); ("queueDepthSamples", JList [JInt 0; JInt 3])]]);
   ("continuousOperation", sample_continuous 1 1)].

Definition sample_performance_world : world :=
  mkWorld (λ _ _ _, Ok "c0ffee") (λ _ _, Ok (0, "")) (λ _, PrimFloat.zero) (λ _, mkDatetime 1735689600000000 (Some 0))
    (λ _ _, NoResponse) (λ _ _ _, Ok ()) (λ _ _ _, Ok ()).

Definition sample_report : option (result PerformanceReport) * history :=
  build_report (λ _, "repr") (λ _, true) (λ _, true) id id sample_performance_world
    (sample_evidence sample_latencies) "c0ffee" sample_profile [].

(** Negative counts pass as long as they agree. *)
Example negative_disconnects_pass :
  c_technicalResult <$> summarize_continuous sample_profile (sample_continuous (-3) (-3)) = Ok "PASS".
Proof. vm_compute. reflexivity. Qed.

(** NaN is not less than zero, so it is taken for a non-negative sample. *)
Example nan_sample_accepted : bad_sample (JFloat nan) = Ok false.
Proof. reflexivity. Qed.

Lemma performance_pass_sound_witness :
  ∃ r t, sample_report = (Some (Ok r), t) ∧ verdict r = "BLOCKED"
    ∧ continuous_conforms sample_profile (sample_continuous 1 1).
Proof.
  destruct sample_report as [[[r|e]|] t] eqn:E; [|vm_compute in E; discriminate E..]. exists r, t. split; [done|].
  assert (technicalResult r = "PASS") as Hp by (vm_compute in E; by injection E as <- _).
  destruct (performance_pass_sound (λ _, "repr") (λ _, true) (λ _, true) id id sample_performance_world
    (sample_evidence sample_latencies) "c0ffee" sample_profile [] r t E)
    as (Hv & _ & _ & _ & _ & H).
  split; [by rewrite Hv, Hp|]. by destruct (H Hp) as (? & ? & ? & _ & _ & _ & _ & _ & Hc).
Defined.
