(* ===== verification/IsoAssurance.v ===== *)
(** The ISO assurance gate: [scripts/gates/iso_assurance_gate.py].

    The architecture description, its views, the quality profile and its
    evaluation plan are checked against each other.  The YAML parser is a
    parameter; a set is the list of its elements. *)

From stdpp Require Import base list strings.
From Stdlib Require Import ZArith Lia.
From S2P Require Import Prelude PyStr PyJson PyText Host Effects Evidence.

#[local] Open Scope Z_scope.

(** [scripts/gates/iso_assurance_gate.py:15-25] REQUIRED_CHARACTERISTICS *)
Definition REQUIRED_CHARACTERISTICS : list string :=
  ["functional-suitability"; "performance-efficiency"; "compatibility"; "interaction-capability"; "reliability";
   "security"; "maintainability"; "flexibility"; "safety"].

(** [scripts/gates/iso_assurance_gate.py:26-34] REQUIRED_VIEW_IDS *)
Definition REQUIRED_VIEW_IDS : list string :=
  ["AV-CONTEXT"; "AV-FUNCTIONAL"; "AV-DEPLOYMENT"; "AV-INFORMATION"; "AV-SECURITY"; "AV-SAFETY"; "AV-OPERATIONS"].

Definition VERDICTS : list string := ["PASS"; "FAIL"; "BLOCKED"; "NOT_RUN"].

Definition iso_error {A} (msg : string) : result A := throw ExcIsoAssuranceError msg.

(** [if condition: raise IsoAssuranceError(msg)] *)
Definition refuse_if (condition : bool) (msg : string) : result () := if condition then iso_error msg else Ok ().

(** [scripts/gates/iso_assurance_gate.py:179-186] _indexed_entries *)
Definition indexed_entries (document : entry) (field : string) : result (list (jval * entry)) :=
  index_entries ExcIsoAssuranceError (obj_get document field) field.

(** [document.get(outer, {}).get(inner)] *)
Definition nested_get (document : entry) (outer inner : string) : result jval :=
  j_get (default (JObj []) (dict_get document outer)) inner.

Definition listed (document : entry) (field : string) : jval := default (JList []) (dict_get document field).

Definition is_set (v : jval) (names : list string) : result bool := s ← j_set v; Ok (j_set_eq s (JStr <$> names)).

(** ** The architecture *)

(** [scripts/gates/iso_assurance_gate.py:48-66] validate_architecture *)
Definition validate_architecture (document : entry) : result () :=
  _ ← refuse_if (negb (py_eq (obj_get document "standard") (JStr "ISO/IEC/IEEE 42010:2022")))
        "architecture standard revision must be ISO/IEC/IEEE 42010:2022";
  _ ← refuse_if (existsb (λ field, negb (j_truthy (obj_get document field)))
                   ["systemOfInterest"; "stakeholders"; "viewpoints"; "correspondenceRules"; "decisionRecords"])
        "architecture description requires a field";
  stakeholders ← (v ← j_getitem (JObj document) "stakeholders"; j_items v);
  ids ← mapM (λ e, j_get e "id") stakeholders;
  stakeholder_ids ← j_set (JList ids);
  _ ← refuse_if (negb (j_subset (JStr <$> ["operator"; "security-assessor"; "safety-reviewer"]) stakeholder_ids))
        "architecture description omits required assurance stakeholders";
  claim ← nested_get document "conformance" "claim";
  _ ← refuse_if (negb (py_eq claim (JStr "NOT_ASSESSED")))
        "architecture conformance must remain NOT_ASSESSED before independent review";
  views ← j_get_or (default (JObj []) (dict_get document "views")) "requiredViewIds" (JList []);
  complete ← is_set views REQUIRED_VIEW_IDS;
  refuse_if (negb complete) "architecture description must require all controlled views".

(** [scripts/gates/iso_assurance_gate.py:84-89] _validate_interfaces *)
Definition validate_interfaces (interfaces components : list (jval * entry)) : result () :=
  _ ← mapM (λ interface : entry,
        let owner := obj_get interface "owner" in
        if negb (hashable owner) then type_error "unhashable type" else
        _ ← refuse_if (negb (j_elem owner components.*1) && negb (py_eq owner (JStr "owning-application-service")))
              "interface has unknown owner";
        refuse_if (negb (has_keys interface ["from"; "to"; "protocol"; "contract"; "exposure"]))
          "interface contract is incomplete") interfaces.*2;
  Ok ().

(** [scripts/gates/iso_assurance_gate.py:92-96] _validate_authoritative_states *)
Definition validate_authoritative_states (states : list (jval * entry)) : result () :=
  refuse_if (negb (forallb (λ state, has_keys state ["owner"; "store"; "ttl"; "invalidation"; "degradedBehavior"]) states.*2))
    "authoritative state contract is incomplete".

(** [scripts/gates/iso_assurance_gate.py:99-113] _validate_operational_flows *)
Definition validate_operational_flows (document : entry) (interfaces boundaries : list (jval * entry)) : result () :=
  let flows := obj_get document "operationalFlows" in
  _ ← refuse_if (bool_decide (boundaries = []) || negb (j_truthy flows) || negb (j_truthy (obj_get document "degradedBehavior")))
        "architecture views require boundaries, flows, and degraded behavior";
  flows ← j_items flows;
  _ ← mapM (λ flow,
        alternatives ← (v ← j_get_or flow "transportAlternatives" (JList []); j_set v);
        _ ← refuse_if (negb (j_subset alternatives interfaces.*1)) "operational flow has unknown transport";
        sequence ← j_get flow "sequence";
        invariant ← j_get flow "invariant";
        refuse_if (negb (j_truthy sequence) || negb (j_truthy invariant)) "operational flow is incomplete") flows;
  Ok ().

(** [scripts/gates/iso_assurance_gate.py:69-81] validate_architecture_views *)
Definition validate_architecture_views (document : entry) : result () :=
  _ ← refuse_if (negb (py_eq (obj_get document "status") (JStr "CONTROLLED_DRAFT_NOT_ASSESSED")))
        "architecture views must remain an unassessed controlled draft";
  components ← indexed_entries document "components";
  boundaries ← indexed_entries document "trustBoundaries";
  interfaces ← indexed_entries document "interfaces";
  states ← indexed_entries document "authoritativeState";
  views ← indexed_entries document "views";
  _ ← refuse_if (negb (j_set_eq views.*1 (JStr <$> REQUIRED_VIEW_IDS))) "architecture view catalogue is incomplete";
  _ ← validate_interfaces interfaces components;
  _ ← validate_authoritative_states states;
  validate_operational_flows document interfaces boundaries.

(** ** The quality profile *)

(** A measure has every field, and a characteristic of the standard. *)
Definition validate_measure (measure : entry) : result () :=
  if negb (has_keys measure ["characteristic"; "calculation"; "unit"; "proposedThreshold"; "evidenceSource"; "procedureRef"])
  then iso_error "invalid quality measure" else
  let characteristic := obj_get measure "characteristic" in
  if negb (hashable characteristic) then type_error "unhashable type" else
  refuse_if (negb (j_elem characteristic (JStr <$> REQUIRED_CHARACTERISTICS))) "invalid quality measure".

(** [scripts/gates/iso_assurance_gate.py:131-147] validate_measures *)
Definition validate_measures (measures : jval) : result (list entry) :=
  match measures with
  | JList ((_ :: _) as l) =>
      let entries := omap as_dict l in
      ids ← j_set (JList ((λ e, obj_get e "id") <$> entries));
      _ ← refuse_if (negb (Nat.eqb (length entries) (length l)) || negb (j_distinct ids) || existsb (py_eq JNull) ids)
            "quality measure IDs must be unique";
      _ ← mapM validate_measure entries;
      Ok entries
  | _ => iso_error "quality measures must be a non-empty list"
  end.

(** [scripts/gates/iso_assurance_gate.py:116-128] validate_quality *)
Definition validate_quality (document : entry) : result () :=
  standards ← is_set (listed document "standards") ["ISO/IEC 25010:2023"; "ISO/IEC 25023:2016"; "ISO/IEC 25040:2024"];
  _ ← refuse_if (negb standards) "quality profile standard revisions are incomplete";
  characteristics ← is_set (listed document "qualityCharacteristics") REQUIRED_CHARACTERISTICS;
  _ ← refuse_if (negb characteristics) "ISO/IEC 25010 product quality characteristics are incomplete";
  status ← nested_get document "thresholdPolicy" "status";
  _ ← refuse_if (negb (py_eq status (JStr "PROPOSED_NOT_APPROVED"))) "unapproved thresholds must remain proposed";
  _ ← validate_measures (obj_get document "measures");
  verdicts ← nested_get document "evaluationProcess" "verdicts";
  refuse_if (negb (py_eq verdicts (JList (JStr <$> VERDICTS)))) "evaluation verdict vocabulary is invalid".

(** ** The evaluation plan *)

(** [scripts/gates/iso_assurance_gate.py:150-176] validate_evaluation_plan *)
Definition validate_evaluation_plan (document quality : entry) : result () :=
  _ ← refuse_if (negb (py_eq (obj_get document "status") (JStr "CONTROLLED_DRAFT_NOT_EXECUTED")))
        "evaluation plan must remain a non-executed controlled draft";
  claim ← nested_get document "claim" "current";
  _ ← refuse_if (negb (py_eq claim (JStr "NOT_ASSESSED")))
        "quality claim must remain NOT_ASSESSED before independent conclusion";
  authority ← nested_get document "roles" "acceptanceAuthority";
  _ ← refuse_if (negb (py_eq authority (JStr "pending-designation")))
        "acceptance authority cannot be self-approved in the draft plan";
  _ ← refuse_if (existsb (λ field, negb (j_truthy (obj_get document field)))
                   ["scope"; "independence"; "entryCriteria"; "exitCriteria"; "environmentProfiles"; "sampling"])
        "evaluation plan requires a field";
  procedures ← indexed_entries document "procedures";
  measures ← (v ← j_getitem (JObj quality) "measures"; j_items v);
  refs ← mapM (λ measure, j_getitem measure "procedureRef") measures;
  measure_refs ← j_set (JList refs);
  _ ← refuse_if (negb (j_set_eq procedures.*1 measure_refs)) "each quality measure must map to exactly one procedure";
  _ ← refuse_if (negb (forallb (λ procedure, has_keys procedure ["measureId"; "environment"; "method"; "inputs"; "outputs"])
                         procedures.*2)) "quality procedure is incomplete";
  rules ← is_set (default (JObj []) (dict_get document "verdictRules")) VERDICTS;
  refuse_if (negb rules) "evaluation plan verdict rules are incomplete".

(** ** The gate *)

Section gate.
Context (yaml_safe_load : string → result jval) (REPO_ROOT : fs_path) (fs : files).

Definition ARCHITECTURE : fs_path := path_div REPO_ROOT "docs/compliance/architecture/iso-42010-architecture-description.yml".
Definition ARCHITECTURE_VIEWS : fs_path := path_div REPO_ROOT "docs/compliance/architecture/system-architecture-views.yml".
Definition QUALITY : fs_path := path_div REPO_ROOT "docs/compliance/quality/software-quality-evaluation-profile.yml".
Definition EVALUATION_PLAN : fs_path := path_div REPO_ROOT "docs/compliance/quality/software-quality-evaluation-plan.yml".

(** [scripts/gates/iso_assurance_gate.py:41-45] load_yaml *)
Definition load_yaml (path : fs_path) : result entry :=
  text ← fs_text fs path;
  document ← yaml_safe_load text;
  match document with JObj d => Ok d | _ => iso_error (path_name path +:+ " must contain a YAML object") end.

(** [scripts/gates/iso_assurance_gate.py:189-202] main: the line it prints *)
Definition main (check : bool) : result string :=
  if negb check then throw ExcSystemExit "--check is required" else
  architecture ← load_yaml ARCHITECTURE;
  quality ← load_yaml QUALITY;
  _ ← validate_architecture architecture;
  views ← load_yaml ARCHITECTURE_VIEWS;
  _ ← validate_architecture_views views;
  _ ← validate_quality quality;
  plan ← load_yaml EVALUATION_PLAN;
  _ ← validate_evaluation_plan plan quality;
  Ok "ISO architecture and software quality assurance contract passed".
End gate.

(** ** What the gate shows *)

Lemma refuse_if_Ok b msg u : refuse_if b msg = Ok u → b = false.
Proof. by destruct b. Qed.

(** Take one check or step off a chain that succeeded. *)
Ltac next_step H :=
  let x := fresh "x" in let Hx := fresh "Hx" in apply bind_Ok in H as (x & Hx & H);
  try (apply refuse_if_Ok in Hx).

Lemma j_elem_exists x l : j_elem x l = true ↔ ∃ y, y ∈ l ∧ py_eq x y = true.
Proof. unfold j_elem. rewrite existsb_exists. by setoid_rewrite <-list_elem_of_In. Qed.

Lemma j_subset_elem a b x : j_subset a b = true → x ∈ a → j_elem x b = true.
Proof. unfold j_subset. rewrite forallb_forall. intros H Hx. by apply H, list_elem_of_In. Qed.

Lemma omap_as_dict_all l : length (omap as_dict l) = length l → l = JObj <$> omap as_dict l.
Proof.
  assert (∀ l, (length (omap as_dict l) <= length l)%nat) as Hle.
  { clear. intros l. induction l as [|v l IH]; cbn; [lia|]. destruct v; cbn; lia. }
  induction l as [|v l IH]; [done|]. cbn. destruct v as [| | | | | |d]; cbn; intros H;
    try (specialize (Hle l); lia). f_equal. apply IH. lia.
Qed.

Lemma j_set_Ok l s : j_set (JList l) = Ok s → s = l.
Proof. unfold j_set. cbn. destruct (forallb hashable l); [by intros [= <-]|discriminate]. Qed.

Lemma validate_measures_Ok measures entries :
  validate_measures measures = Ok entries →
  measures = JList (JObj <$> entries)
  ∧ Forall (λ e, j_elem (obj_get e "characteristic") (JStr <$> REQUIRED_CHARACTERISTICS) = true ∧ obj_get e "id" ≠ JNull) entries.
Proof.
  unfold validate_measures. destruct measures as [| | | | |[|v l]|]; try discriminate. intros H.
  apply bind_Ok in H as (ids & Hids & H). apply j_set_Ok in Hids as ->. next_step H.
  apply bind_Ok in H as (us & Hm & [= <-]). apply orb_false_iff in Hx as [[Hl _]%orb_false_iff Hn].
  apply negb_false_iff, Nat.eqb_eq in Hl. split; [f_equal; by apply omap_as_dict_all|].
  apply existsb_false in Hn. apply Forall_fmap in Hn. apply mapM_each in Hm.
  apply Forall_and. split.
  - eapply Forall_impl; [exact Hm|]. cbn. intros e [u Hu]. unfold validate_measure in Hu.
    destruct (negb (has_keys _ _)); [discriminate Hu|]. destruct (negb (hashable _)); [discriminate Hu|].
    by apply refuse_if_Ok, negb_false_iff in Hu.
  - eapply Forall_impl; [exact Hn|]. cbn. intros e He Hnull. by rewrite Hnull in He.
Qed.

Lemma indexed_entries_Ok document field d :
  indexed_entries document field = Ok d →
  ∃ es, obj_get document field = JList (JObj <$> es) ∧ d = (λ e, (obj_get e "id", e)) <$> es
    ∧ Forall (λ e, obj_get e "id" ≠ JNull) es.
Proof. intros (es & ? & _ & ? & ?)%index_entries_Ok. by exists es. Qed.

Lemma ids_of_indexed (es : list entry) : ((λ e, (obj_get e "id", e)) <$> es).*1 = (λ e, obj_get e "id") <$> es.
Proof. by rewrite <-list_fmap_compose. Qed.

Lemma values_of_indexed (es : list entry) : ((λ e, (obj_get e "id", e)) <$> es).*2 = es.
Proof. rewrite <-list_fmap_compose. apply list_fmap_id. Qed.

(** The procedure references of the measures are the identifiers of the procedures. *)
Lemma validate_evaluation_plan_Ok document quality measures u :
  validate_evaluation_plan document quality = Ok u → obj_get quality "measures" = JList (JObj <$> measures) →
  ∃ procedures, obj_get document "procedures" = JList (JObj <$> procedures)
    ∧ (∀ p, p ∈ procedures → ∃ m, m ∈ measures ∧ py_eq (obj_get p "id") (obj_get m "procedureRef") = true)
    ∧ (∀ m, m ∈ measures → ∃ p, p ∈ procedures ∧ py_eq (obj_get m "procedureRef") (obj_get p "id") = true).
Proof.
  intros H Hm. unfold validate_evaluation_plan in H. do 6 next_step H.
  apply bind_Ok in H as (procedures & Hp & H). apply indexed_entries_Ok in Hp as (ps & Hps & -> & _).
  apply bind_Ok in H as (l & Hl & H). apply bind_Ok in Hl as (v & Hv & Hl).
  assert (v = JList (JObj <$> measures)) as ->.
  { rewrite <-Hm. cbn in Hv. unfold obj_get. destruct (dict_get quality "measures"); [by injection Hv as ->|discriminate Hv]. }
  injection Hl as <-. apply bind_Ok in H as (refs & Hrefs & H). apply bind_Ok in H as (ref_set & Hset & H).
  apply j_set_Ok in Hset as ->. apply bind_Ok in H as (ok & Hcov & _).
  apply refuse_if_Ok, negb_false_iff, andb_true_iff in Hcov as [Hpr Hrp].
  rewrite ids_of_indexed in Hpr, Hrp.
  assert (refs = (λ m, obj_get m "procedureRef") <$> measures) as ->.
  { apply mapM_Ok in Hrefs. clear -Hrefs. revert refs Hrefs. induction measures as [|m measures IH]; intros refs H; inversion H as [|? r ? refs' Hr Hrest]; subst; [done|].
    rewrite fmap_cons. f_equal; [|by apply IH]. cbn in Hr. unfold obj_get. destruct (dict_get m "procedureRef"); [by injection Hr|discriminate Hr]. }
  exists ps. split; [done|]. split.
  - intros p Hin. apply (j_subset_elem _ _ (obj_get p "id")) in Hpr; [|apply list_elem_of_fmap; by exists p].
    apply j_elem_exists in Hpr as (y & (m & -> & Hmin)%list_elem_of_fmap & Heq). by exists m.
  - intros m Hin. apply (j_subset_elem _ _ (obj_get m "procedureRef")) in Hrp; [|apply list_elem_of_fmap; by exists m].
    apply j_elem_exists in Hrp as (y & (p & -> & Hpin)%list_elem_of_fmap & Heq). by exists p.
Qed.

Lemma validate_quality_Ok document u :
  validate_quality document = Ok u →
  ∃ measures, obj_get document "measures" = JList (JObj <$> measures)
    ∧ Forall (λ e, j_elem (obj_get e "characteristic") (JStr <$> REQUIRED_CHARACTERISTICS) = true ∧ obj_get e "id" ≠ JNull) measures.
Proof.
  intros H. unfold validate_quality in H. do 6 next_step H. apply bind_Ok in H as (measures & Hm & _).
  exists measures. by apply validate_measures_Ok.
Qed.

Lemma validate_architecture_Ok document u :
  validate_architecture document = Ok u → nested_get document "conformance" "claim" = Ok (JStr "NOT_ASSESSED").
Proof.
  intros H. unfold validate_architecture in H. do 6 next_step H. apply bind_Ok in H as (claim & Hc & H).
  apply bind_Ok in H as (ok & Hok & _). by apply refuse_if_Ok, negb_false_iff, py_eq_str in Hok as ->.
Qed.

Lemma validate_plan_claim document quality u :
  validate_evaluation_plan document quality = Ok u → nested_get document "claim" "current" = Ok (JStr "NOT_ASSESSED").
Proof.
  intros H. unfold validate_evaluation_plan in H. next_step H. apply bind_Ok in H as (claim & Hc & H).
  apply bind_Ok in H as (ok & Hok & _). by apply refuse_if_Ok, negb_false_iff, py_eq_str in Hok as ->.
Qed.

Lemma validate_views_Ok document u :
  validate_architecture_views document = Ok u →
  ∃ interfaces components, obj_get document "interfaces" = JList (JObj <$> interfaces)
    ∧ obj_get document "components" = JList (JObj <$> components)
    ∧ ∀ i, i ∈ interfaces → obj_get i "owner" = JStr "owning-application-service"
        ∨ ∃ c, c ∈ components ∧ py_eq (obj_get i "owner") (obj_get c "id") = true.
Proof.
  intros H. unfold validate_architecture_views in H. next_step H.
  apply bind_Ok in H as (components & Hc & H). apply indexed_entries_Ok in Hc as (cs & Hc & -> & _). next_step H.
  apply bind_Ok in H as (interfaces & Hi & H). apply indexed_entries_Ok in Hi as (is_ & Hi & -> & _). do 3 next_step H.
  apply bind_Ok in H as (v & Hv & _). exists is_, cs. split; [done|]. split; [done|]. intros i Hin.
  apply bind_Ok in Hv as (us & Hus & _). apply mapM_each in Hus. rewrite values_of_indexed in Hus.
  rewrite Forall_forall in Hus. destruct (Hus i Hin) as [b Hb]. cbn zeta in Hb. destruct (negb (hashable _)); [discriminate Hb|].
  apply bind_Ok in Hb as (ok & Hok & _). apply refuse_if_Ok in Hok. rewrite ids_of_indexed in Hok.
  apply andb_false_iff in Hok as [Hok|Hok]; apply negb_false_iff in Hok; [right|by left; apply py_eq_str in Hok].
  apply j_elem_exists in Hok as (y & (c & -> & Hcin)%list_elem_of_fmap & Heq). by exists c.
Qed.

Section gate_facts.
Context (yaml_safe_load : string → result jval) (REPO_ROOT : fs_path) (fs : files).

Local Notation load := (load_yaml yaml_safe_load fs).

(** When the ISO assurance gate passes, the controlled documents fit
    together and claim nothing.  The measures and the procedures of the
    evaluation plan refer to each other without a gap on either side; every
    measure has a characteristic of the standard and an identifier; every
    interface of the views is owned by a component of the views or by the owning
    application service; and both the conformance of the architecture and the
    quality claim are still not assessed. *)
Theorem iso_assurance_traceable message :
  main yaml_safe_load REPO_ROOT fs true = Ok message →
  ∃ architecture views quality plan measures procedures interfaces components,
    load (ARCHITECTURE REPO_ROOT) = Ok architecture ∧ load (ARCHITECTURE_VIEWS REPO_ROOT) = Ok views
    ∧ load (QUALITY REPO_ROOT) = Ok quality ∧ load (EVALUATION_PLAN REPO_ROOT) = Ok plan
    ∧ obj_get quality "measures" = JList (JObj <$> measures) ∧ obj_get plan "procedures" = JList (JObj <$> procedures)
    ∧ (∀ m, m ∈ measures → obj_get m "id" ≠ JNull
         ∧ j_elem (obj_get m "characteristic") (JStr <$> REQUIRED_CHARACTERISTICS) = true
         ∧ ∃ p, p ∈ procedures ∧ py_eq (obj_get m "procedureRef") (obj_get p "id") = true)
    ∧ (∀ p, p ∈ procedures → ∃ m, m ∈ measures ∧ py_eq (obj_get p "id") (obj_get m "procedureRef") = true)
    ∧ obj_get views "interfaces" = JList (JObj <$> interfaces) ∧ obj_get views "components" = JList (JObj <$> components)
    ∧ (∀ i, i ∈ interfaces → obj_get i "owner" = JStr "owning-application-service"
         ∨ ∃ c, c ∈ components ∧ py_eq (obj_get i "owner") (obj_get c "id") = true)
    ∧ nested_get architecture "conformance" "claim" = Ok (JStr "NOT_ASSESSED")
    ∧ nested_get plan "claim" "current" = Ok (JStr "NOT_ASSESSED").
Proof.
  intros H. unfold main in H. cbn [negb] in H. apply bind_Ok in H as (architecture & Ha & H).
  apply bind_Ok in H as (quality & Hq & H). apply bind_Ok in H as (u1 & Harch & H). apply bind_Ok in H as (views & Hv & H).
  apply bind_Ok in H as (u2 & Hviews & H). apply bind_Ok in H as (u3 & Hqual & H). apply bind_Ok in H as (plan & Hp & H).
  apply bind_Ok in H as (u4 & Hplan & _).
  apply validate_quality_Ok in Hqual as (measures & Hm & Hmeasures).
  destruct (validate_evaluation_plan_Ok _ _ _ _ Hplan Hm) as (procedures & Hps & Hpm & Hmp).
  apply validate_views_Ok in Hviews as (interfaces & components & Hi & Hc & Howner).
  exists architecture, views, quality, plan, measures, procedures, interfaces, components. split_and!; try done.
  - intros m Hin. rewrite Forall_forall in Hmeasures. destruct (Hmeasures m Hin). split_and!; auto.
  - by eapply validate_architecture_Ok.
  - by eapply validate_plan_claim.
Qed.
End gate_facts.

(** ** Sample documents *)

Definition texts (l : list string) : jval := JList (JStr <$> l).

Definition object_with (names : list string) : entry := (λ name, (name, JStr "x")) <$> names.

Definition identified (id : string) (names : list string) : jval := JObj (("id", JStr id) :: object_with names).

Definition sample_architecture : entry :=
  [("standard", JStr "ISO/IEC/IEEE 42010:2022"); ("systemOfInterest", JStr "gcs");
   ("stakeholders", JList ((λ id, identified id []) <$> ["operator"; "security-assessor"; "safety-reviewer"]));
   ("viewpoints", JInt 1); ("correspondenceRules", JInt 1); ("decisionRecords", JInt 1);
   ("conformance", JObj [("claim", JStr "NOT_ASSESSED")]); ("views", JObj [("requiredViewIds", texts REQUIRED_VIEW_IDS)])].

Definition sample_views : entry :=
  [("status", JStr "CONTROLLED_DRAFT_NOT_ASSESSED"); ("components", JList [identified "backend" []]);
   ("trustBoundaries", JList [identified "TB-1" []]);
   ("interfaces", JList [JObj (("id", JStr "IF-1") :: ("owner", JStr "backend")
                               :: object_with ["from"; "to"; "protocol"; "contract"; "exposure"])]);
   ("authoritativeState", JList [identified "S-1" ["owner"; "store"; "ttl"; "invalidation"; "degradedBehavior"]]);
   ("views", JList ((λ id, identified id []) <$> REQUIRED_VIEW_IDS)); ("degradedBehavior", JInt 1);
   ("operationalFlows", JList [JObj [("transportAlternatives", texts ["IF-1"]); ("sequence", JInt 1); ("invariant", JInt 1)]])].

Definition sample_quality_profile : entry :=
  [("standards", texts ["ISO/IEC 25010:2023"; "ISO/IEC 25023:2016"; "ISO/IEC 25040:2024"]);
   ("qualityCharacteristics", texts REQUIRED_CHARACTERISTICS); ("thresholdPolicy", JObj [("status", JStr "PROPOSED_NOT_APPROVED")]);
   ("measures", JList [JObj (("id", JStr "QM-1") :: ("characteristic", JStr "safety") :: ("procedureRef", JStr "QP-1")
                             :: object_with ["calculation"; "unit"; "proposedThreshold"; "evidenceSource"])]);
   ("evaluationProcess", JObj [("verdicts", texts VERDICTS)])].

(** Its procedure names a measure of its own, which nothing compares. *)
Definition sample_plan : entry :=
  [("status", JStr "CONTROLLED_DRAFT_NOT_EXECUTED"); ("claim", JObj [("current", JStr "NOT_ASSESSED")]);
   ("roles", JObj [("acceptanceAuthority", JStr "pending-designation")]);
   ("procedures", JList [JObj (("id", JStr "QP-1") :: ("measureId", JStr "QM-9") :: object_with ["environment"; "method"; "inputs"; "outputs"])]);
   ("verdictRules", JObj (object_with VERDICTS))]
  ++ object_with ["scope"; "independence"; "entryCriteria"; "exitCriteria"; "environmentProfiles"; "sampling"].

Definition sample_iso_document (name : string) : result jval :=
  Ok (JObj (if String.eqb name "iso-42010-architecture-description.yml" then sample_architecture
            else if String.eqb name "system-architecture-views.yml" then sample_views
            else if String.eqb name "software-quality-evaluation-profile.yml" then sample_quality_profile else sample_plan)).

Definition sample_iso_files : files :=
  mkFiles (λ _, Ok true) (λ _, Ok true) (λ _, Ok 0) (λ _, Ok 384) (λ p, Ok (utf8_encode (path_name p))).

(** The plan's procedure is for another measure than the one that refers to it. *)
Example procedure_measure_unchecked : is_ok (validate_evaluation_plan sample_plan sample_quality_profile) = true.
Proof. vm_compute. reflexivity. Qed.

Lemma iso_assurance_traceable_witness :
  ∃ plan procedures, load_yaml sample_iso_document sample_iso_files (EVALUATION_PLAN (parse_path "/repo")) = Ok plan
    ∧ obj_get plan "procedures" = JList (JObj <$> procedures).
Proof.
  destruct (main sample_iso_document (parse_path "/repo") sample_iso_files true) as [message|e] eqn:E;
    [|vm_compute in E; discriminate E].
  destruct (iso_assurance_traceable sample_iso_document (parse_path "/repo") sample_iso_files message E)
    as (? & ? & ? & plan & ? & procedures & ? & ? & _ & _ & _ & Hp & _ & Hps & _).
  by exists plan, procedures.
Defined.
