(* ===== verification/SafetyGates.v ===== *)
(** The safety gates: [scripts/gates/system_safety_gate.py] and
    [scripts/gates/safety_control_traceability_gate.py].

    The first checks the hazard log against the level-of-rigor assignments and
    the residual-risk policy, the second the safety control catalogue against
    the hazards in its scope.  The YAML parser is a parameter. *)

From stdpp Require Import base list strings.
From Stdlib Require Import ZArith Lia.
From S2P Require Import Prelude PyStr PyJson PyText Host Effects Evidence.

#[local] Open Scope Z_scope.

(** [path.read_text] parsed: an object, or the gate's error. *)
Definition load_yaml (yaml_safe_load : string → result jval) (error : exn_class) (fs : files) (path : fs_path) : result entry :=
  text ← fs_text fs path;
  document ← yaml_safe_load text;
  match document with JObj d => Ok d | _ => throw error (path_name path +:+ " must contain an object") end.

(** [v in names] for a set of names. *)
Definition in_names (v : jval) (names : list string) : result bool :=
  if hashable v then Ok (j_elem v (JStr <$> names)) else type_error "unhashable type".

Definition truthy_field (e : entry) (field : string) : bool := j_truthy (obj_get e field).

(** ** System safety *)

(** [scripts/gates/system_safety_gate.py:14-14] VALID_SWCI *)
Definition VALID_SWCI : list string := ["SwCI-1"; "SwCI-2"; "SwCI-3"; "SwCI-4"; "SwCI-5"].

Definition safety_error {A} (msg : string) : result A := throw ExcSystemSafetyError msg.

(** [scripts/gates/system_safety_gate.py:41-47] unique *)
Definition safety_unique (value : jval) (label key : string) : result (list (string * entry)) :=
  unique_entries ExcSystemSafetyError value key label.

(** [scripts/gates/system_safety_gate.py:50-61] validate_hazard *)
Definition validate_hazard (hazard_id : string) (hazard assignment : entry) : result () :=
  if existsb (λ field, negb (truthy_field hazard field))
       ["mishap"; "causes"; "severity"; "probability"; "initialRisk"; "safetyRequirements"; "verification"]
  then safety_error (hazard_id +:+ ": missing field") else
  valid ← in_names (obj_get hazard "swci") VALID_SWCI;
  if negb valid || negb (py_eq (obj_get assignment "swci") (obj_get hazard "swci"))
  then safety_error (hazard_id +:+ ": inconsistent SwCI assignment") else
  if py_eq (obj_get hazard "status") (JStr "CLOSED") then
    if py_eq (obj_get hazard "residualRisk") (JStr "UNASSESSED") || negb (truthy_field hazard "acceptedBy")
    then safety_error (hazard_id +:+ ": closed hazard requires accepted residual risk") else Ok ()
  else match obj_get hazard "acceptedBy" with
       | JNull => Ok ()
       | _ => safety_error (hazard_id +:+ ": open hazard cannot carry risk acceptance")
       end.

(** [scripts/gates/system_safety_gate.py:64-69] validate_risk_policy *)
Definition validate_risk_policy (risks : entry) : result () :=
  let policy := default (JObj []) (dict_get risks "policy") in
  accepted ← j_get policy "unassessedIsAccepted";
  if negb (match accepted with JBool false => true | _ => false end) then safety_error "unassessed risk must never be accepted" else
  required ← (v ← j_get_or policy "closeRequires" (JList []); j_contains "evidence manifest" v);
  if negb required then safety_error "hazard closure must require evidence" else Ok ().

(** [assignments[hazard_id]] *)
Definition get_entry (entries : list (string * entry)) (id : string) : result entry :=
  match dict_get entries id with Some e => Ok e | None => throw ExcKeyError id end.

(** [scripts/gates/system_safety_gate.py:28-38] validate_safety *)
Definition validate_safety (hazard_log lor risks : entry) : result nat :=
  hazards ← safety_unique (obj_get hazard_log "hazards") "hazard" "id";
  assignments ← safety_unique (obj_get lor "assignments") "LOR assignment" "hazardId";
  if negb (j_set_eq (JStr <$> hazards.*1) (JStr <$> assignments.*1))
  then safety_error "every hazard must have exactly one LOR assignment" else
  levels ← j_set (default (JObj []) (dict_get lor "levels"));
  if negb (j_set_eq levels (JStr <$> VALID_SWCI)) then safety_error "LOR activities must define SwCI-1 through SwCI-5" else
  _ ← mapM (λ '(hazard_id, hazard), assignment ← get_entry assignments hazard_id; validate_hazard hazard_id hazard assignment)
        hazards;
  _ ← validate_risk_policy risks;
  Ok (length hazards).

(** ** Safety controls *)

(** [scripts/gates/safety_control_traceability_gate.py:14-14] VALID_OWNERS *)
Definition VALID_OWNERS : list string := ["auth-policy"; "media-control"; "dashboard"].

Definition control_error {A} (msg : string) : result A := throw ExcSafetyControlTraceabilityError msg.

(** [scripts/gates/safety_control_traceability_gate.py:28-36] unique *)
Definition control_unique (entries : jval) (key label : string) : result (list (string * entry)) :=
  unique_entries ExcSafetyControlTraceabilityError entries key label.

(** [scripts/gates/safety_control_traceability_gate.py:39-45] referenced_hazards *)
Definition referenced_hazards (traceability : entry) : result (list jval) :=
  traces ← j_items (default (JList []) (dict_get traceability "traces"));
  hazards ← mapM (λ trace,
    ids ← (v ← j_get_or trace "threatsOrHazards" (JList []); j_items v);
    Ok (List.filter (λ id, match id with JStr s => startswith "HAZ-" s | _ => false end) ids)) traces;
  Ok (concat hazards).

Definition as_list (v : jval) : option (list jval) := match v with JList l => Some l | _ => None end.

Section controls.
Context (REPO_ROOT : fs_path) (fs : files).

(** A reference to a file of the repository. *)
Definition check_file (reference : jval) : result () :=
  path ← as_str reference;
  present ← fs_is_file fs (path_div REPO_ROOT path);
  if present : bool then Ok () else control_error ("missing reference " +:+ path).

(** [scripts/gates/safety_control_traceability_gate.py:48-69] validate_requirement *)
Definition validate_requirement (allowed_statuses : list jval) (requirement : entry) : result () :=
  _ ← j_getitem (JObj requirement) "id";
  let status := obj_get requirement "status" in
  invalid ← or_r (if hashable status then Ok (negb (j_elem status allowed_statuses)) else type_error "unhashable type")
            (or_r (not_r (in_names (obj_get requirement "owner") VALID_OWNERS)) (Ok (negb (truthy_field requirement "statement"))));
  if invalid : bool then control_error "invalid status owner or statement" else
  match as_list (obj_get requirement "codeRefs"), as_list (obj_get requirement "testRefs") with
  | Some code_refs, Some test_refs =>
      _ ← mapM check_file (code_refs ++ test_refs);
      if py_eq status (JStr "IMPLEMENTED")
         && (bool_decide (code_refs = []) || bool_decide (test_refs = []) || truthy_field requirement "gap")
      then control_error "implemented control requires code and tests without a gap" else
      if j_elem status [JStr "PARTIAL"; JStr "PLANNED"]
         && (negb (truthy_field requirement "gap") || negb (truthy_field requirement "followUpIssue"))
      then control_error "incomplete control requires a gap and follow-up issue" else Ok ()
  | _, _ => control_error "code and test refs must be lists"
  end.

Record ControlCounts : Type := mkCounts { n_hazards : nat; n_requirements : nat; n_implemented : nat; n_partial : nat; n_planned : nat }.

(** [hazards[hazard_id]["safetyRequirements"]] *)
Definition requirements_of (hazards : list (string * entry)) (hazard_id : jval) : result jval :=
  id ← as_str hazard_id; hazard ← get_entry hazards id; j_getitem (JObj hazard) "safetyRequirements".

(** The hazards in scope: five known ones. *)
Definition scope_of (catalogue : entry) (hazards : list (string * entry)) : result (list jval) :=
  match obj_get catalogue "scopeHazards" with
  | JList scope =>
      if negb (Nat.eqb (length scope) 5) then control_error "exactly five known focus hazards are required" else
      _ ← j_set (JList scope);
      if negb (j_distinct scope) || negb (j_subset scope (JStr <$> hazards.*1))
      then control_error "exactly five known focus hazards are required" else Ok scope
  | _ => control_error "exactly five known focus hazards are required"
  end.

Definition count_status (requirements : list (string * entry)) (status : string) : nat :=
  length (List.filter (λ kv, py_eq (obj_get kv.2 "status") (JStr status)) requirements).

(** [scripts/gates/safety_control_traceability_gate.py:72-105] validate_catalogue *)
Definition validate_controls (catalogue hazard_log traceability : entry) : result ControlCounts :=
  if negb (py_eq (obj_get catalogue "status") (JStr "CONTROLLED_PARTIAL_IMPLEMENTATION"))
  then control_error "safety control catalogue must remain a controlled partial baseline" else
  hazards ← control_unique (obj_get hazard_log "hazards") "id" "hazards";
  scope ← scope_of catalogue hazards;
  requirements ← control_unique (obj_get catalogue "requirements") "id" "safety requirements";
  expected ← (ls ← mapM (λ hazard_id, v ← requirements_of hazards hazard_id; j_items v) scope; j_set (JList (concat ls)));
  if negb (j_set_eq (JStr <$> requirements.*1) expected)
  then control_error "catalogue must cover every focus-hazard safety requirement exactly once" else
  if existsb (λ kv, negb (j_elem (obj_get kv.2 "hazardId") scope)) requirements
  then control_error "safety requirement references an out-of-scope hazard" else
  misassigned ← any_in (λ '(requirement_id, item),
    hazard_id ← j_getitem (JObj item) "hazardId";
    v ← requirements_of hazards hazard_id;
    not_r (j_contains requirement_id v)) requirements;
  if misassigned : bool then control_error "safety requirement is assigned to the wrong hazard" else
  referenced ← referenced_hazards traceability;
  if negb (j_subset scope referenced) then control_error "every focus hazard requires a top-level requirement trace" else
  allowed_statuses ← j_set (default (JList []) (dict_get catalogue "allowedStatuses"));
  if negb (j_set_eq allowed_statuses (JStr <$> ["IMPLEMENTED"; "PARTIAL"; "PLANNED"]))
  then control_error "safety control statuses are fixed" else
  _ ← mapM (validate_requirement allowed_statuses) requirements.*2;
  Ok (mkCounts (length scope) (length requirements) (count_status requirements "IMPLEMENTED")
        (count_status requirements "PARTIAL") (count_status requirements "PLANNED")).
End controls.

(** ** The tools *)

Section tools.
Context (yaml_safe_load : string → result jval) (REPO_ROOT : fs_path) (fs : files).

Definition HAZARDS : fs_path := path_div REPO_ROOT "docs/compliance/safety/hazard-log.yml".
Definition LOR : fs_path := path_div REPO_ROOT "docs/compliance/safety/software-level-of-rigor.yml".
Definition RISKS : fs_path := path_div REPO_ROOT "docs/compliance/safety/residual-risk-register.yml".
Definition CATALOGUE_PATH : fs_path := path_div REPO_ROOT "docs/compliance/safety/safety-control-catalogue.yml".
Definition TRACE_PATH : fs_path := path_div REPO_ROOT "docs/compliance/traceability/software-military-ready-traceability.yml".

(** [scripts/gates/system_safety_gate.py:72-80] main: the hazards it reports as checked *)
Definition safety_main (check : bool) : result nat :=
  if negb check then throw ExcSystemExit "--check is required" else
  hazards ← load_yaml yaml_safe_load ExcSystemSafetyError fs HAZARDS;
  lor ← load_yaml yaml_safe_load ExcSystemSafetyError fs LOR;
  risks ← load_yaml yaml_safe_load ExcSystemSafetyError fs RISKS;
  validate_safety hazards lor risks.

(** [scripts/gates/safety_control_traceability_gate.py:108-116] main: the counts it reports *)
Definition controls_main (check : bool) : result ControlCounts :=
  if negb check then throw ExcSystemExit "--check is required" else
  catalogue ← load_yaml yaml_safe_load ExcSafetyControlTraceabilityError fs CATALOGUE_PATH;
  hazards ← load_yaml yaml_safe_load ExcSafetyControlTraceabilityError fs HAZARDS;
  trace ← load_yaml yaml_safe_load ExcSafetyControlTraceabilityError fs TRACE_PATH;
  validate_controls REPO_ROOT fs catalogue hazards trace.
End tools.

(** ** What the gates show *)

(** A set equal to a set of names holds names only. *)
Lemma names_of_set v names l : j_set_eq l (JStr <$> names) = true → j_elem v l = true → ∃ s, v = JStr s ∧ s ∈ names.
Proof.
  unfold j_set_eq, j_subset, j_elem. rewrite andb_true_iff, forallb_forall, existsb_exists.
  intros [H _] (x & Hx & Hv). specialize (H x Hx). apply existsb_exists in H as (y & Hy & Hxy).
  apply list_elem_of_In, list_elem_of_fmap in Hy as (s & -> & Hs). apply py_eq_str in Hxy as ->.
  apply py_eq_str in Hv as ->. by exists s.
Qed.

Lemma count_status_sum requirements :
  Forall (λ kv : string * entry, ∃ s, obj_get kv.2 "status" = JStr s ∧ s ∈ ["IMPLEMENTED"; "PARTIAL"; "PLANNED"]) requirements →
  length requirements = (count_status requirements "IMPLEMENTED" + count_status requirements "PARTIAL"
                         + count_status requirements "PLANNED")%nat.
Proof.
  unfold count_status. induction 1 as [|[id r] l (s & Hs & Hin) _ IH]; [done|]. cbn [List.filter snd] in *. rewrite Hs.
  rewrite !elem_of_cons, elem_of_nil in Hin. destruct Hin as [->|[->|[->|[]]]]; cbn; lia.
Qed.

(** Every hazard of the log has the level of rigor assigned to it; a closed one
    is accepted and not unassessed, and no other one is accepted. *)
Lemma validate_safety_Ok hazard_log lor risks n :
  validate_safety hazard_log lor risks = Ok n →
  ∃ hazards : list (string * entry),
    obj_get hazard_log "hazards" = JList (JObj <$> hazards.*2) ∧ NoDup hazards.*1 ∧ n = length hazards
    ∧ ∀ id hazard, (id, hazard) ∈ hazards →
        ∃ (assignments : list (string * entry)) assignment, obj_get lor "assignments" = JList (JObj <$> assignments.*2)
          ∧ dict_get assignments id = Some assignment ∧ py_eq (obj_get assignment "swci") (obj_get hazard "swci") = true
          ∧ (obj_get hazard "status" = JStr "CLOSED" →
             truthy_field hazard "acceptedBy" = true ∧ obj_get hazard "residualRisk" ≠ JStr "UNASSESSED")
          ∧ (obj_get hazard "status" ≠ JStr "CLOSED" → obj_get hazard "acceptedBy" = JNull).
Proof.
  unfold validate_safety. intros (hazards & Hh & H)%bind_Ok. apply unique_entries_Ok in Hh as (Hhaz & _ & Hnd).
  apply bind_Ok in H as (assignments & Ha & H). apply unique_entries_Ok in Ha as (Has & _ & _).
  destruct (negb _); [discriminate H|]. apply bind_Ok in H as (levels & _ & H). destruct (negb _); [discriminate H|].
  apply bind_Ok in H as (us & Hv & H). apply bind_Ok in H as (u & _ & [= <-]). apply mapM_each in Hv.
  rewrite Forall_forall in Hv. exists hazards. split_and!; try done. intros id hazard Hin.
  destruct (Hv _ Hin) as [b Hb]. apply bind_Ok in Hb as (assignment & Hget & Hb). unfold get_entry in Hget.
  destruct (dict_get assignments id) as [a|] eqn:Ea; [|discriminate Hget]. injection Hget as ->.
  exists assignments, assignment. unfold validate_hazard in Hb. destruct (existsb _ _); [discriminate Hb|].
  apply bind_Ok in Hb as (valid & _ & Hb). destruct (_ || _) eqn:E; [discriminate Hb|].
  apply orb_false_iff in E as [_ E%negb_false_iff]. split_and!; try done.
  - intros Hs. rewrite Hs in Hb. destruct (_ || _) eqn:Er; [discriminate Hb|].
    apply orb_false_iff in Er as [Er Ea'%negb_false_iff]. split; [done|]. intros Hu. by rewrite Hu in Er.
  - intros Hs. destruct (py_eq (obj_get hazard "status") (JStr "CLOSED")) eqn:Es; [by apply py_eq_str in Es|].
    by destruct (obj_get hazard "acceptedBy").
Qed.

Section control_facts.
Context (REPO_ROOT : fs_path) (fs : files).

(** What the gate requires of a control by its status. *)
Definition control_supported (requirement : entry) : Prop :=
  ∃ code_refs test_refs, obj_get requirement "codeRefs" = JList code_refs ∧ obj_get requirement "testRefs" = JList test_refs
    ∧ (∀ reference, reference ∈ code_refs ++ test_refs →
         ∃ path, reference = JStr path ∧ fs_is_file fs (path_div REPO_ROOT path) = Ok true)
    ∧ (obj_get requirement "status" = JStr "IMPLEMENTED" →
         code_refs ≠ [] ∧ test_refs ≠ [] ∧ truthy_field requirement "gap" = false)
    ∧ (obj_get requirement "status" = JStr "PARTIAL" ∨ obj_get requirement "status" = JStr "PLANNED" →
         truthy_field requirement "gap" = true ∧ truthy_field requirement "followUpIssue" = true).

Lemma check_file_Ok reference u :
  check_file REPO_ROOT fs reference = Ok u → ∃ path, reference = JStr path ∧ fs_is_file fs (path_div REPO_ROOT path) = Ok true.
Proof.
  unfold check_file. destruct reference; try discriminate. intros (path & [= <-] & ([] & Hp & H)%bind_Ok)%bind_Ok; [|discriminate].
  eauto.
Qed.

Lemma validate_requirement_Ok allowed requirement u :
  validate_requirement REPO_ROOT fs allowed requirement = Ok u →
  j_elem (obj_get requirement "status") allowed = true ∧ control_supported requirement.
Proof.
  unfold validate_requirement. intros (id & _ & H)%bind_Ok. apply bind_Ok in H as ([] & Hi & H); [discriminate H|].
  apply or_r_false in Hi as [Hs _]. destruct (hashable _); [|discriminate Hs]. injection Hs as Hs%negb_false_iff.
  split; [done|]. destruct (as_list (obj_get requirement "codeRefs")) as [code|] eqn:Ec; [|discriminate H].
  destruct (as_list (obj_get requirement "testRefs")) as [test|] eqn:Et; [|discriminate H].
  apply bind_Ok in H as (us & Hfiles & H). apply mapM_each in Hfiles. rewrite Forall_forall in Hfiles.
  unfold control_supported. exists code, test. split; [by destruct (obj_get requirement "codeRefs"); try discriminate; injection Ec as ->|].
  split; [by destruct (obj_get requirement "testRefs"); try discriminate; injection Et as ->|].
  split; [intros reference Hin; destruct (Hfiles _ Hin) as [v Hv]; by eapply check_file_Ok|].
  destruct (py_eq (obj_get requirement "status") (JStr "IMPLEMENTED") && _) eqn:E1; [discriminate H|].
  destruct (j_elem (obj_get requirement "status") [JStr "PARTIAL"; JStr "PLANNED"] && _) eqn:E2; [discriminate H|]. split.
  - intros Hst. rewrite Hst in E1. apply orb_false_iff in E1 as [[E1 E3]%orb_false_iff E4].
    by apply bool_decide_eq_false_1 in E1, E3.
  - intros Hst. assert (j_elem (obj_get requirement "status") [JStr "PARTIAL"; JStr "PLANNED"] = true) as Hj
      by (destruct Hst as [-> | ->]; reflexivity).
    rewrite Hj in E2. apply orb_false_iff in E2 as [E2 E3]. by rewrite negb_false_iff in E2, E3.
Qed.

(** When the control gate passes, the safety controls trace both ways and
    none claims more than it shows.  The scope is five hazards of the log; every
    safety requirement of a hazard in scope is in the catalogue, once; every
    control is assigned to a hazard in scope that asks for it; an implemented
    control refers to code and to tests that exist and has no gap, a partial or
    planned one names its gap and its follow-up; and the three counts reported
    are of all controls. *)
Theorem safety_controls_traceable catalogue hazard_log traceability counts :
  validate_controls REPO_ROOT fs catalogue hazard_log traceability = Ok counts →
  ∃ hazards scope requirements,
    obj_get hazard_log "hazards" = JList (JObj <$> hazards.*2) ∧ obj_get catalogue "scopeHazards" = JList scope
    ∧ obj_get catalogue "requirements" = JList (JObj <$> requirements.*2) ∧ NoDup requirements.*1
    ∧ (∀ id requirement, (id, requirement) ∈ requirements →
         obj_get requirement "id" = JStr id ∧ control_supported requirement
         ∧ ∃ v, j_elem (obj_get requirement "hazardId") scope = true
             ∧ requirements_of hazards (obj_get requirement "hazardId") = Ok v ∧ j_contains id v = Ok true)
    ∧ (∀ hazard_id, hazard_id ∈ scope → ∃ v items, requirements_of hazards hazard_id = Ok v ∧ j_items v = Ok items
         ∧ ∀ x, x ∈ items → ∃ id, x = JStr id ∧ id ∈ requirements.*1)
    ∧ n_hazards counts = 5%nat
    ∧ n_requirements counts = length requirements
    ∧ n_requirements counts = (n_implemented counts + n_partial counts + n_planned counts)%nat.
Proof.
  unfold validate_controls. intros H. destruct (negb _); [discriminate H|].
  apply bind_Ok in H as (hazards & Hh & H). apply unique_entries_Ok in Hh as (Hhaz & _ & _).
  apply bind_Ok in H as (scope & Hs & H). unfold scope_of in Hs.
  destruct (obj_get catalogue "scopeHazards") as [| | | | |sc|] eqn:Esc; try discriminate Hs.
  destruct (Nat.eqb_spec (length sc) 5) as [H5|]; [|discriminate Hs]. apply bind_Ok in Hs as (s0 & _ & Hs).
  destruct (_ || _); [discriminate Hs|]. injection Hs as <-.
  apply bind_Ok in H as (requirements & Hr & H). apply unique_entries_Ok in Hr as (Hreq & Hids & Hnd).
  apply bind_Ok in H as (expected & He & H). apply bind_Ok in He as (ls & Hls & He).
  destruct (j_set_eq (JStr <$> requirements.*1) expected) eqn:Eset; [|discriminate H]. cbn [negb] in H.
  destruct (existsb _ requirements) eqn:Escope; [discriminate H|]. apply bind_Ok in H as ([] & Hmis & H); [discriminate H|].
  apply bind_Ok in H as (referenced & _ & H). destruct (negb _); [discriminate H|].
  apply bind_Ok in H as (allowed & _ & H). destruct (j_set_eq allowed _) eqn:Eall; [|discriminate H]. cbn [negb] in H.
  apply bind_Ok in H as (us & Hv & [= <-]). cbn [n_hazards n_requirements n_implemented n_partial n_planned].
  apply mapM_each in Hv. rewrite Forall_forall in Hv.
  assert (∀ kv, kv ∈ requirements → ∃ w, validate_requirement REPO_ROOT fs allowed kv.2 = Ok w) as Hkv
    by (intros kv Hin; apply Hv, list_elem_of_fmap; by exists kv). apply existsb_false in Escope. rewrite any_in_false in Hmis.
  exists hazards, sc, requirements. split_and!; try done.
  - intros id requirement Hin. rewrite Forall_forall in Hids. rewrite Forall_forall in Hmis. rewrite Forall_forall in Escope.
    destruct (Hkv _ Hin) as [w Hw]. apply validate_requirement_Ok in Hw as [_ Hsup].
    split; [by apply (Hids (id, requirement))|]. split; [done|].
    specialize (Escope _ Hin). cbn [snd] in Escope. apply negb_false_iff in Escope.
    specialize (Hmis _ Hin). cbn beta iota in Hmis. apply bind_Ok in Hmis as (hid & Hhid & Hmis).
    assert (obj_get requirement "hazardId" = hid) as Heq.
    { cbn in Hhid. unfold obj_get. destruct (dict_get requirement "hazardId"); [by injection Hhid|discriminate Hhid]. }
    apply bind_Ok in Hmis as (v & Hreqs & Hc). apply not_r_Ok in Hc. rewrite Heq in *. by exists v.
  - intros hazard_id Hin. apply mapM_Ok in Hls. apply list_elem_of_lookup in Hin as (i & Hi).
    destruct (Forall2_lookup_l _ _ _ _ _ Hls Hi) as (items & Hitems & Hx). apply bind_Ok in Hx as (v & Hv' & Hit).
    exists v, items. split; [done|]. split; [done|]. intros x Hxin. unfold j_set in He. cbn in He.
    destruct (forallb hashable _); [|discriminate He]. injection He as <-.
    apply andb_true_iff in Eset as [_ Hsub]. unfold j_subset in Hsub. rewrite forallb_forall in Hsub.
    specialize (Hsub x). rewrite <-list_elem_of_In in Hsub. specialize (Hsub ltac:(apply list_elem_of_In, in_concat; exists items;
      split; apply list_elem_of_In; [by eapply list_elem_of_lookup_2|done])).
    apply existsb_exists in Hsub as (y & Hy & Hxy). apply list_elem_of_In, list_elem_of_fmap in Hy as (id & -> & Hid).
    apply py_eq_str in Hxy as ->. by exists id.
  - apply count_status_sum, Forall_forall. intros kv Hin. destruct (Hkv _ Hin) as [w Hw].
    apply validate_requirement_Ok in Hw as [Hst _]. by eapply names_of_set.
Qed.
End control_facts.

(** ** Samples *)

Definition sample_control (id hazard status : string) (fields : entry) : jval :=
  JObj ([("id", JStr id); ("hazardId", JStr hazard); ("status", JStr status); ("owner", JStr "dashboard"); ("statement", JStr "s")]
        ++ fields).

Definition sample_refs : entry := [("codeRefs", JList [JStr "a.py"]); ("testRefs", JList [JStr "test_a.py"])].
Definition sample_gap : entry := sample_refs ++ [("gap", JStr "later"); ("followUpIssue", JStr "#1")].

Definition sample_hazard_ids : list string := ["HAZ-1"; "HAZ-2"; "HAZ-3"; "HAZ-4"; "HAZ-5"].

Definition sample_catalogue : entry :=
  [("status", JStr "CONTROLLED_PARTIAL_IMPLEMENTATION"); ("scopeHazards", JList (JStr <$> sample_hazard_ids));
   ("allowedStatuses", JList (JStr <$> ["IMPLEMENTED"; "PARTIAL"; "PLANNED"]));
   ("requirements", JList [sample_control "SR-1" "HAZ-1" "IMPLEMENTED" sample_refs; sample_control "SR-2" "HAZ-2" "PARTIAL" sample_gap])].

Definition sample_hazard_log : entry :=
  [("hazards", JList ((λ id, JObj [("id", JStr id);
      ("safetyRequirements", JList (if String.eqb id "HAZ-1" then [JStr "SR-1"] else if String.eqb id "HAZ-2" then [JStr "SR-2"] else []))])
      <$> sample_hazard_ids))].

Definition sample_trace : entry := [("traces", JList [JObj [("threatsOrHazards", JList (JStr <$> sample_hazard_ids))]])].

Definition sample_gate_files : files := mkFiles (λ _, Ok true) (λ _, Ok true) (λ _, Ok 0) (λ _, Ok 384) (λ _, Ok []).

Lemma safety_controls_traceable_witness :
  ∃ counts (requirements : list (string * entry)), validate_controls (parse_path "/repo") sample_gate_files sample_catalogue sample_hazard_log sample_trace = Ok counts
    ∧ length requirements = 2%nat ∧ obj_get sample_catalogue "requirements" = JList (JObj <$> requirements.*2)
    ∧ n_implemented counts = 1%nat.
Proof.
  destruct (validate_controls (parse_path "/repo") sample_gate_files sample_catalogue sample_hazard_log sample_trace) as [counts|e] eqn:E;
    [|vm_compute in E; discriminate E].
  assert (n_implemented counts = 1%nat ∧ n_requirements counts = 2%nat) as [Hi Hn] by (vm_compute in E; by injection E as <-).
  destruct (safety_controls_traceable (parse_path "/repo") sample_gate_files sample_catalogue sample_hazard_log sample_trace counts E)
    as (hazards & scope & requirements & _ & _ & Hr & _ & _ & _ & _ & Hlen & _).
  exists counts, requirements. rewrite Hn in Hlen. by split_and!.
Defined.

(** A closed hazard without a residual risk passes: only "UNASSESSED" is refused. *)
Example closed_without_residual_risk :
  is_ok (validate_hazard "HAZ-1"
    ([("status", JStr "CLOSED"); ("acceptedBy", JStr "lead"); ("swci", JStr "SwCI-1")]
     ++ ((λ f, (f, JStr "x")) <$> ["mishap"; "causes"; "severity"; "probability"; "initialRisk"; "safetyRequirements"; "verification"]))
    [("swci", JStr "SwCI-1")]) = true.
Proof. vm_compute. reflexivity. Qed.
