(* ===== verification/PolicyGates.v ===== *)
(** The policy gates: [scripts/gates/vulnerability_response_gate.py] and
    [scripts/gates/supply_chain_policy_gate.py].

    The vulnerability response policy with its runbook, and the supply-chain
    policy with the release workflow, the release evidence and the VEX template.
    The YAML parser and [repr] are parameters. *)

From stdpp Require Import base list strings.
From Stdlib Require Import ZArith Lia Ascii.
From S2P Require Import Prelude PyStr PyJson PyText Host Effects Evidence SafetyGates.

#[local] Open Scope Z_scope.

(** [len(v)] *)
Definition j_len (v : jval) : result Z :=
  match v with
  | JList l => Ok (Z.of_nat (length l))
  | JObj d => Ok (Z.of_nat (length d))
  | JStr s => Ok (Z.of_nat (str_len s))
  | _ => type_error "object has no len()"
  end.

(** [set(v) == names] *)
Definition set_is (v : jval) (names : list string) : result bool := s ← j_set v; Ok (j_set_eq s (JStr <$> names)).

(** ** Vulnerability response *)

(** [scripts/gates/vulnerability_response_gate.py:13-13] SEVERITIES *)
Definition SEVERITIES : list string := ["CRITICAL"; "HIGH"; "MEDIUM"; "LOW"].

Definition RUNBOOK_PHRASES : list string := ["Server-01 on SSH 55121"; "authorization-denial"; "rollback"; "FAIL, not PASS"].

Definition vulnerability_error {A} (msg : string) : result A := throw ExcVulnerabilityPolicyError msg.

Definition or_empty (policy : entry) (field : string) : jval := default (JObj []) (dict_get policy field).

(** [scripts/gates/vulnerability_response_gate.py:27-39] validate_policy *)
Definition validate_policy (policy : entry) (runbook : string) : result Z :=
  incomplete ← or_r (not_r (set_is (or_empty policy "triageSla") SEVERITIES))
                    (not_r (set_is (or_empty policy "remediationSla") SEVERITIES));
  if incomplete : bool then vulnerability_error "every severity needs triage and remediation SLA" else
  remediation ← j_getitem (JObj policy) "remediationSla";
  critical ← j_get remediation "CRITICAL";
  high ← j_get remediation "HIGH";
  if negb (py_eq critical (JStr "24h")) || negb (py_eq high (JStr "7d"))
  then vulnerability_error "critical and high remediation deadlines cannot be relaxed" else
  dependency ← j_get (or_empty policy "closedNetworkUpdate") "networkDependencyDuringInstall";
  if negb (py_eq dependency (JStr "prohibited")) then vulnerability_error "closed-network verification must work offline" else
  cadence ← j_get_or (or_empty policy "drills") "cadenceDays" (JInt 0);
  rare ← j_lt (JInt 90) cadence;
  if rare : bool then vulnerability_error "recovery drills must run at least every 90 days" else
  match List.find (λ phrase, negb (contains phrase runbook)) RUNBOOK_PHRASES with
  | Some phrase => vulnerability_error ("secure update runbook is missing: " +:+ phrase)
  | None => flow ← j_getitem (JObj policy) "responseFlow"; j_len flow
  end.

(** A policy without a cadence passes as if drills ran every day. *)
Example missing_cadence_passes :
  validate_policy
    [("triageSla", JObj ((λ s, (s, JInt 1)) <$> SEVERITIES));
     ("remediationSla", JObj [("CRITICAL", JStr "24h"); ("HIGH", JStr "7d"); ("MEDIUM", JStr "30d"); ("LOW", JStr "90d")]);
     ("closedNetworkUpdate", JObj [("networkDependencyDuringInstall", JStr "prohibited")]); ("responseFlow", JList [JStr "triage"])]
    (join ", " RUNBOOK_PHRASES) = Ok 1.
Proof. vm_compute. reflexivity. Qed.

(** ** Supply chain *)

(** [scripts/gates/supply_chain_policy_gate.py:16-25] REQUIRED_ARTIFACTS *)
Definition REQUIRED_ARTIFACTS : list string :=
  ["backend-image"; "auth-policy-image"; "media-control-image"; "dashboard-image"; "mqtt-image"; "mediamtx-image";
   "turn-image"; "mobile-publisher-image"].

Definition HISTORICAL_SIGNED_RELEASE_ARTIFACTS : nat := 4.

Definition supply_error {A} (msg : string) : result A := throw ExcSupplyChainPolicyError msg.

(** [scripts/gates/supply_chain_policy_gate.py:60-76] validate_supply_requirements *)
Definition validate_supply_requirements (requirements : jval) : result () :=
  _ ← mapM (λ field,
        v ← j_get requirements field;
        if is_true v then Ok () else supply_error (field +:+ " must fail closed"))
        ["lockfilesRequired"; "containerBaseDigestRequired"; "eolRuntimeBlocked"; "unusedDependencyRemovalRequired"];
  _ ← mapM (λ '(field, expected, msg),
        v ← j_get requirements field;
        if py_eq v (JStr expected) then Ok () else supply_error msg)
        [("vex", "REQUIRED_FOR_EVERY_EXCEPTION", "every vulnerability exception requires VEX");
         ("licenseScanner", "RELEASE_ENFORCED", "release license decisions must fail closed");
         ("thirdPartyNotices", "GENERATED_AND_MANIFEST_BOUND", "third-party notices must be bound to the signed manifest");
         ("runtimeInventory", "DIGEST_PINNED_AND_MANIFEST_BOUND", "runtime inventory must be bound to the signed manifest")];
  Ok ().

Definition WORKFLOW_TOKENS : list string :=
  ["id-token: write"; "attestations: write"; "packages: write"; "environment: military-release"; "cosign sign --yes";
   "cosign verify"; "actions/attest@"; "subject-digest: ${{ steps.build.outputs.digest }}";
   "required successful check is missing"; "scripts/reports/license_compliance.py";
   "--resolutions docs/compliance/supply-chain/license-resolutions.yml"; "--enforce"; "THIRD_PARTY_NOTICES.md";
   "sign-release-manifest"; "release_manifest.py assemble"; "cosign sign-blob"; "anchore/scan-action@";
   "verify-mobile-publisher-release"; "mobile-publisher-signed-release-evidence"].

(** White space and a comment at most, to the end of the line. *)
Definition ends_pin (rest : string) : bool :=
  let line := lstrip (split_once "010" rest).1 in is_empty line || startswith "#" line.

(** What may follow [\d+]: the rests after one or more ASCII digits. *)
Fixpoint after_digits (s : string) : list string :=
  match s with String a s' => if is_digit a then s' :: after_digits s' else [] | "" => [] end.

(** The name of a branch, or a version, that ends the use. *)
Definition mutable_reference (s : string) : bool :=
  (startswith "main" s && ends_pin (string_drop 4 s)) || (startswith "master" s && ends_pin (string_drop 6 s))
  || match s with String "v" s' => existsb ends_pin (after_digits s') | _ => false end.

(** [[^\s]+@] and a mutable reference: the at sign is in one word with what precedes it. *)
Fixpoint mutable_word (seen : bool) (s : string) : bool :=
  match s with
  | "" => false
  | String a s' =>
      (seen && Ascii.eqb a "@" && mutable_reference s') || (Nat.eqb (space_head s) 0 && mutable_word true s')
  end.

(** [uses:\s+] and such a word, somewhere. *)
Fixpoint mutable_use (text : string) : bool :=
  match text with
  | "" => false
  | String _ rest =>
      (startswith "uses:" text && negb (Nat.eqb (space_head (string_drop 5 text)) 0) && mutable_word false (lstrip (string_drop 5 text)))
      || mutable_use rest
  end.

Example mutable_uses :
  map mutable_use ["- uses: actions/checkout@v4"; "- uses: actions/checkout@v4 # pinned"; "uses: a/b@8f4b7f8 # v4";
                   "uses: a/b@v4.1"; "uses: a/b@main" +:+ String "010" "x"]
  = [true; true; false; false; true].
Proof. vm_compute. reflexivity. Qed.

(** [scripts/gates/supply_chain_policy_gate.py:79-106] validate_release_workflow *)
Definition validate_release_workflow (workflow : string) : result () :=
  match List.find (λ token, negb (contains token workflow)) WORKFLOW_TOKENS with
  | Some token => supply_error ("release workflow is missing " +:+ token)
  | None => if mutable_use workflow then supply_error "release workflow actions must use immutable commit pins" else Ok ()
  end.

(** [s.count(sub)] for a non-empty [sub]: occurrences that do not overlap; [skip]
    is what is left of the last one. *)
Fixpoint count_from (sub : string) (skip : nat) (s : string) : nat :=
  match s with
  | "" => 0%nat
  | String _ s' =>
      match skip with
      | S skip' => count_from sub skip' s'
      | O => if startswith sub s then S (count_from sub (String.length sub - 1) s') else count_from sub 0 s'
      end
  end.

Section supply.
Context (yaml_safe_load : string → result jval) (py_repr : jval → string) (REPO_ROOT : fs_path) (fs : files).

(** [scripts/gates/supply_chain_policy_gate.py:109-125] validate_verified_release *)
Definition validate_verified_release (policy : entry) (evidence : string) : result () :=
  let requirements := or_empty policy "requirements" in
  verified ← all_in (λ field, v ← j_get_or requirements field (JStr ""); Ok (contains "VERIFIED" (py_str py_repr v)))
               ["imageSignature"; "sbomSignature"; "provenance"];
  if negb verified then Ok () else
  if existsb (λ token, negb (contains token evidence))
       ["Source commit:"; "Signed release run:"; "Cosign"; "SLSA provenance"; "SPDX SBOM attestation"]
  then supply_error "verified release evidence is incomplete" else
  if Nat.ltb (count_from "sha256:" 0 evidence) HISTORICAL_SIGNED_RELEASE_ARTIFACTS
  then supply_error "verified release evidence is missing immutable digests" else Ok ().

(** [scripts/gates/supply_chain_policy_gate.py:128-143] validate_vex *)
Definition validate_vex (vex : entry) : result () :=
  match List.find (λ field, negb (truthy_field vex field))
          ["vulnerability"; "component"; "status"; "justification"; "impactStatement"; "mitigation"; "owner"; "approvedBy";
           "expiresAt"; "removalCondition"] with
  | Some field => supply_error ("VEX template is missing " +:+ field)
  | None => Ok ()
  end.

Definition POLICY : fs_path := path_div REPO_ROOT "docs/compliance/supply-chain/supply-chain-policy.yml".
Definition VEX : fs_path := path_div REPO_ROOT "docs/compliance/supply-chain/vex-template.yml".
Definition ACTIVE_VEX : fs_path := path_div REPO_ROOT "docs/compliance/supply-chain/active-vex.json".
Definition RUNTIME_INVENTORY : fs_path := path_div REPO_ROOT "docs/compliance/supply-chain/runtime-delivery-inventory.json".
Definition RELEASE_WORKFLOW : fs_path := path_div REPO_ROOT ".github/workflows/release-supply-chain.yml".
Definition RELEASE_EVIDENCE : fs_path := path_div REPO_ROOT "docs/compliance/evidence/signed-release-2026-09-08.md".

(** [{item.get("id"): item for item in ...}] *)
Definition artifacts_by_id (items : list jval) : result (list (jval * entry)) :=
  for_in (λ d item,
    id ← j_get item "id";
    if hashable id then Ok (set_by_id d id (default [] (as_dict item))) else type_error "unhashable type") [] items.

(** [scripts/gates/supply_chain_policy_gate.py:42-57] validate_supply_chain *)
Definition validate_supply_chain (policy vex : entry) : result nat :=
  let requirements := or_empty policy "requirements" in
  _ ← validate_supply_requirements requirements;
  denied ← j_contains "UNKNOWN" (default (JList []) (dict_get policy "deniedLicenses"));
  if negb denied then supply_error "unknown licenses must be denied" else
  workflow ← fs_text fs RELEASE_WORKFLOW;
  _ ← validate_release_workflow workflow;
  items ← j_items (default (JList []) (dict_get policy "artifacts"));
  artifacts ← artifacts_by_id items;
  if negb (j_set_eq artifacts.*1 (JStr <$> REQUIRED_ARTIFACTS))
  then supply_error "all release images require a supply-chain disposition" else
  evidence ← fs_text fs RELEASE_EVIDENCE;
  _ ← validate_verified_release policy evidence;
  _ ← validate_vex vex;
  active ← fs_is_file fs ACTIVE_VEX;
  if negb active then supply_error "active VEX inventory is missing" else
  inventory ← fs_is_file fs RUNTIME_INVENTORY;
  if negb inventory then supply_error "runtime delivery inventory is missing" else Ok (length artifacts).

(** [scripts/gates/supply_chain_policy_gate.py:146-154] main: the number of artifacts it reports *)
Definition supply_main (check : bool) : result nat :=
  if negb check then throw ExcSystemExit "--check is required" else
  policy ← load_yaml yaml_safe_load ExcSupplyChainPolicyError fs POLICY;
  vex ← load_yaml yaml_safe_load ExcSupplyChainPolicyError fs VEX;
  validate_supply_chain policy vex.
End supply.

(** ** What the gates show *)

(** Deadlines of a policy that passes: the two that cannot be relaxed, and all
    four severities with both. *)
Theorem vulnerability_policy_sound policy runbook n :
  validate_policy policy runbook = Ok n →
  (∃ remediation, j_getitem (JObj policy) "remediationSla" = Ok remediation
     ∧ j_get remediation "CRITICAL" = Ok (JStr "24h") ∧ j_get remediation "HIGH" = Ok (JStr "7d"))
  ∧ set_is (or_empty policy "triageSla") SEVERITIES = Ok true ∧ set_is (or_empty policy "remediationSla") SEVERITIES = Ok true
  ∧ Forall (λ phrase, contains phrase runbook = true) RUNBOOK_PHRASES.
Proof.
  unfold validate_policy. intros ([] & Hs & H)%bind_Ok; [discriminate H|].
  apply or_r_false in Hs as [Ht%not_r_Ok Hr%not_r_Ok]. apply bind_Ok in H as (remediation & Hrem & H).
  apply bind_Ok in H as (critical & Hc & H). apply bind_Ok in H as (high & Hh & H).
  destruct (_ || _) eqn:E; [discriminate H|]. apply orb_false_iff in E as [E1%negb_false_iff E2%negb_false_iff].
  apply py_eq_str in E1 as ->. apply py_eq_str in E2 as ->. apply bind_Ok in H as (dependency & _ & H).
  destruct (negb (py_eq dependency _)); [discriminate H|]. apply bind_Ok in H as (cadence & _ & H). apply bind_Ok in H as ([] & _ & H); [discriminate H|].
  split; [by exists remediation|]. split; [done|]. split; [done|].
  destruct (List.find _ _) eqn:Ef; [discriminate H|]. apply Forall_forall. intros phrase Hin.
  apply list_elem_of_In in Hin. by apply (find_none _ _ Ef), negb_false_iff in Hin.
Qed.

(** What the checks on the release workflow mean: it holds every required token,
    and nowhere a use of a mutable reference. *)
Theorem release_workflow_sound workflow u :
  validate_release_workflow workflow = Ok u →
  Forall (λ token, contains token workflow = true) WORKFLOW_TOKENS ∧ mutable_use workflow = false.
Proof.
  unfold validate_release_workflow. destruct (List.find _ _) eqn:Ef; [discriminate|].
  destruct (mutable_use workflow) eqn:Em; [discriminate|]. intros _. split; [|done].
  apply Forall_forall. intros token Hin%list_elem_of_In. by apply (find_none _ _ Ef), negb_false_iff in Hin.
Qed.
