(* ===== verification/FinalEvidence.v ===== *)
(** The evidence gates: [scripts/gates/m7_final_evidence_gate.py] and
    [scripts/gates/m10_runtime_evidence_gate.py].

    Each runs a fixed list of commands and reports whether the evidence is
    complete; the second also reads the metrics of the PostGIS smoke test and of
    an external NAT report.  Commands and clocks are the machine; the JSON
    parser, what commands write to standard error, and where the docker client
    is found are parameters. *)

From stdpp Require Import base list strings.
From Stdlib Require Import ZArith Lia Ascii Floats.
From S2P Require Import Prelude PyStr PyFloat PyJson PyText Host Effects Evidence.

#[local] Open Scope Z_scope.

(** [s[:n]] in code points. *)
Fixpoint take_chars (n : nat) (s : string) : string :=
  match s with
  | "" => ""
  | String a s' =>
      if is_cont (code a) then String a (take_chars n s')
      else match n with O => "" | S n' => String a (take_chars n' s') end
  end.

Example take_chars_multibyte : take_chars 2 "외부 NAT" = "외부".
Proof. reflexivity. Qed.

Section process.
Context (w : world) (stderr : history → string).

(** [subprocess.run(command, check=False, capture_output=True, text=True, timeout=...)] timed
    by [time.perf_counter()]: the exit status, both outputs and the milliseconds. *)
Definition timed_run (command : list string) : eff (Z * string * string * float) :=
  started ← monotonic w;
  '(returncode, stdout) ← execute w command;
  err ← (λ h, (Some (Ok (stderr h)), []));
  finished ← monotonic w;
  mret (returncode, stdout, err, ((finished - started) * 1000)%float).

Lemma timed_run_Ok command h rc stdout err ms t :
  timed_run command h = (Some (Ok (rc, stdout, err, ms)), t) → Executed command (Ok (rc, stdout)) ∈ t.
Proof.
  intros H. apply eff_bind_Ok in H as (s & t1 & t2 & _ & H & ->). apply eff_bind_Ok in H as ([rc' out'] & t3 & t4 & Hx & H & ->).
  apply execute_Ok in Hx as ->. apply eff_bind_Ok in H as (e & t5 & t6 & _ & H & ->).
  apply eff_bind_Ok in H as (f & t7 & t8 & _ & H & ->). apply mret_Ok in H as [[= <- <- _ _] ->].
  rewrite !elem_of_app, elem_of_cons. clear. tauto.
Qed.
End process.

(** ** The final evidence gate *)

(** [scripts/gates/m7_final_evidence_gate.py:18-25] EvidenceCommand *)
Record EvidenceCommand : Type := mkCommand {
  name : string;
  category : string;
  description : string;
  command : list string;
  required : bool;
  needs_docker : bool
}.

(** [scripts/gates/m7_final_evidence_gate.py:28-37] EvidenceResult *)
Record EvidenceResult : Type := mkResult {
  of_command : EvidenceCommand;
  status : string;
  duration_ms : float;
  res_stdout : string;
  res_stderr : string
}.

(** [scripts/gates/m7_final_evidence_gate.py:39-49] EvidenceResult.to_json *)
Definition to_json (r : EvidenceResult) : jval :=
  let c := of_command r in
  JObj [("name", JStr (name c)); ("category", JStr (category c)); ("description", JStr (description c));
        ("command", JList (map JStr (command c))); ("status", JStr (status r));
        ("durationMs", JFloat (round_digits (duration_ms r) 3)); ("stdoutPreview", JStr (take_chars 800 (res_stdout r)));
        ("stderrPreview", JStr (take_chars 800 (res_stderr r)))].

(** [scripts/gates/m7_final_evidence_gate.py:52-165] build_commands *)
Definition build_commands : list EvidenceCommand :=
  [
   mkCommand "v2_completion_gate" "release-readiness"
     "Saker v2 release blocker와 missing item을 JSON으로 확인한다."
     ["python3"; "scripts/gates/v2_completion_gate.py"; "--json"] true false;
   mkCommand "architecture_intent_gate" "architecture-evidence"
     "설계 의도와 코드/문서/compose evidence path가 연결되어 있는지 확인한다."
     ["python3"; "scripts/gates/architecture_intent_gate.py"; "--json"] true false;
   mkCommand "benchmark_schema" "performance-contract"
     "API/HLS/WebRTC/ICE path benchmark metric schema를 고정한다."
     ["python3"; "scripts/benchmarks/m7_performance_benchmark_matrix.py"; "--check"] true false;
   mkCommand "telemetry_bulk_benchmark" "db-throughput"
     "telemetry write buffer와 bulk SQL statement 절감 효과를 synthetic benchmark로 확인한다."
     ["python3"; "scripts/benchmarks/telemetry_bulk_flush_benchmark.py"; "--records"; "1000"; "--batch-size"; "100"] true false;
   mkCommand "webrtc_ice_contract" "streaming-low-latency"
     "selected ICE pair, direct/relay ratio, fallback reason static contract를 확인한다."
     ["python3"; "scripts/smoke/webrtc_ice_smoke.py"; "--check"] true false;
   mkCommand "grpc_contract" "protocol-runtime"
     "gRPC gateway descriptor와 internal bidi streaming contract를 확인한다."
     ["python3"; "scripts/smoke/grpc_runtime_smoke.py"; "--run"] true false;
   mkCommand "ai_overlay_contract" "ai-overlay"
     "mock AI overlay metadata가 protobuf event와 dashboard DTO를 왕복하는지 확인한다."
     ["python3"; "scripts/smoke/ai_overlay_sidecar_smoke.py"; "--run"] true false;
   mkCommand "mqtt_hardened_contract" "mqtt-control-plane"
     "hardened MQTT protobuf telemetry/control profile 계약을 확인한다."
     ["python3"; "scripts/smoke/mqtt_hardened_profile_smoke.py"; "--check"] true false;
   mkCommand "m10_runtime_evidence_contract" "runtime-observability"
     "외부 NAT WebRTC와 PostGIS runtime benchmark evidence schema를 확인한다."
     ["python3"; "scripts/gates/m10_runtime_evidence_gate.py"; "--check"] true false;
   mkCommand "closed_network_static" "closed-network"
     "폐쇄망 profile, offline map, internal STUN/TURN/time source, offline artifact runbook을 확인한다."
     ["python3"; "scripts/gates/closed_network_static_check.py"] true false;
   mkCommand "default_compose_config" "compose-integration"
     "기본 single-node compose model이 해석되는지 확인한다."
     ["docker"; "compose"; "--env-file"; "deploy/compose/.env.single-node.example"; "-f"; "deploy/compose/compose.single-node.poc.yml"; "config"; "--quiet"] true true;
   mkCommand "closed_network_compose_config" "compose-integration"
     "폐쇄망 env profile로 single-node compose model이 해석되는지 확인한다."
     ["docker"; "compose"; "--env-file"; "deploy/compose/.env.closed-network.example"; "-f"; "deploy/compose/compose.single-node.poc.yml"; "config"; "--quiet"] true true].

(** [scripts/gates/m7_final_evidence_gate.py:168-183] build_check_report *)
Definition build_check_report : jval :=
  JObj [("schemaVersion", JStr "m7-final-evidence-gate-v1");
        ("commands", JList (map (λ c,
           JObj [("name", JStr (name c)); ("category", JStr (category c)); ("description", JStr (description c));
                 ("required", JBool (required c)); ("needsDocker", JBool (needs_docker c))]) build_commands));
        ("requiredCategories", JList (map JStr (sorted_set (map category (List.filter required build_commands)))))].

Record FinalReport : Type := mkFinal { complete : bool; failedRequired : list string; results : list EvidenceResult }.

Definition final_json (r : FinalReport) : jval :=
  JObj [("schemaVersion", JStr "m7-final-evidence-gate-v1"); ("complete", JBool (complete r));
        ("failedRequired", JList (map JStr (failedRequired r))); ("results", JList (map to_json (results r)))].

Section final.
Context (w : world) (stderr : history → string) (sys_executable : string) (docker_available : history → bool).

(** [scripts/gates/m7_final_evidence_gate.py:186-219] run_command *)
Definition run_command (c : EvidenceCommand) : eff EvidenceResult :=
  missing ← (λ h, (Some (Ok (needs_docker c && negb (docker_available h))), []));
  if missing : bool
  then mret (mkResult c "skipped-docker-unavailable" PrimFloat.zero "" "docker CLI is not available") else
  let executable_command := match command c with
                            | program :: args => if String.eqb program "python3" then sys_executable :: args else program :: args
                            | [] => []
                            end in
  '(returncode, stdout, err, duration) ← timed_run w stderr executable_command;
  mret (mkResult c (if returncode =? 0 then "passed" else "failed") duration stdout err).

(** [scripts/gates/m7_final_evidence_gate.py:222-234] run_gate *)
Definition run_gate : eff FinalReport :=
  results ← map_eff run_command build_commands;
  let failed_required := map (λ cr, name (of_command cr.2))
    (List.filter (λ cr, required cr.1 && String.eqb (status cr.2) "failed") (zip build_commands results)) in
  mret (mkFinal (bool_decide (failed_required = [])) failed_required results).

(** [scripts/gates/m7_final_evidence_gate.py:253-259] main, from the parsed arguments *)
Definition final_main (run : bool) : eff Z :=
  if run then
    report ← run_gate;
    _ ← print (final_json report);
    mret (if complete report then 0 else 1)
  else _ ← print build_check_report; mret 0.
End final.

(** ** The runtime evidence gate *)

(** [scripts/gates/m10_runtime_evidence_gate.py:16-26] EXTERNAL_NAT_REQUIRED_METRICS *)
Definition EXTERNAL_NAT_REQUIRED_METRICS : list string :=
  ["WHEP answer latency ms"; "First video frame latency ms"; "Audio/video sync offset ms"; "Selected ICE pair"; "ICE path";
   "Direct ICE path ratio"; "Relay ICE path ratio"; "Relay fallback reason"; "External NAT smoke wall latency ms"].

(** [scripts/gates/m10_runtime_evidence_gate.py:28-38] DB_RUNTIME_REQUIRED_METRICS *)
Definition DB_RUNTIME_REQUIRED_METRICS : list string :=
  ["postgisVersion"; "historyRowsForSmoke"; "explain.executionTimeMs"; "explain.sharedHitBlocks"; "explain.sharedReadBlocks";
   "explain.sharedDirtiedBlocks"; "explain.sharedWrittenBlocks"; "explain.walRecords"; "explain.walBytes"].

(** [scripts/gates/m10_runtime_evidence_gate.py:41-45] GateCommand *)
Record GateCommand : Type := mkGateCommand { gc_name : string; gc_description : string; gc_command : list string }.

(** [scripts/gates/m10_runtime_evidence_gate.py:48-78] build_commands *)
Definition build_runtime_commands : list GateCommand :=
  [
   mkGateCommand "external_nat_contract"
     "외부 NAT WebRTC smoke가 WHIP/WHEP, TURN, first-frame, audio/video sync metric을 출력할 수 있는지 확인한다."
     ["bash"; "scripts/smoke/m7_external_nat_webrtc_smoke.sh"; "--check"];
   mkGateCommand "performance_schema"
     "API/HLS/WebRTC/ICE/audio-video sync benchmark metric 이름을 고정한다."
     ["python3"; "scripts/benchmarks/m7_performance_benchmark_matrix.py"; "--check"];
   mkGateCommand "postgis_runtime_contract"
     "PostGIS runtime smoke가 EXPLAIN ANALYZE BUFFERS WAL 계약을 노출하는지 확인한다."
     ["python3"; "scripts/smoke/postgis_runtime_smoke.py"; "--check"];
   mkGateCommand "postgis_runtime_run"
     "기본 compose PostgreSQL/PostGIS에서 latest upsert, bounded viewport query, BUFFERS/WAL plan을 실제 실행한다."
     ["python3"; "scripts/smoke/postgis_runtime_smoke.py"]].

(** [scripts/gates/m10_runtime_evidence_gate.py:81-99] build_check_report *)
Definition build_runtime_check_report : jval :=
  JObj [("schemaVersion", JStr "m10-runtime-evidence-gate-v1");
        ("commands", JList (map (λ c, JObj [("name", JStr (gc_name c)); ("description", JStr (gc_description c));
                                            ("command", JList (map JStr (gc_command c)))]) build_runtime_commands));
        ("externalNatRequiredMetrics", JList (map JStr EXTERNAL_NAT_REQUIRED_METRICS));
        ("dbRuntimeRequiredMetrics", JList (map JStr DB_RUNTIME_REQUIRED_METRICS));
        ("evidencePolicy", JObj
           [("externalNat", JStr "manual/live network evidence is required before production capacity claims");
            ("database", JStr "PostGIS smoke must include EXPLAIN (ANALYZE, BUFFERS, WAL) summary");
            ("secrets", JStr "reports must not include passwords, tokens, private keys, or operator secrets")])].

(** The first match of a label and what follows it. *)
Fixpoint search_after {A} (label : string) (attempt : string → option A) (s : string) : option A :=
  match (if startswith label s then attempt (string_drop (String.length label) s) else None) with
  | Some a => Some a
  | None => match s with "" => None | String _ s' => search_after label attempt s' end
  end.

(** The digits a text starts with, and the rest. *)
Fixpoint span_digits (s : string) : string * string :=
  match s with
  | "" => ("", "")
  | String a s' => if is_digit a then let '(d, r) := span_digits s' in (String a d, r) else ("", s)
  end.

(** [\s*([0-9]+(?:\.[0-9]+)?)] at the start of a text, and its [float]. *)
Definition match_number (s : string) : option float :=
  let '(whole, rest) := span_digits (lstrip s) in
  if is_empty whole then None else
  let fraction := match rest with String "." r => (span_digits r).1 | _ => "" end in
  Some (match true_div (digits_to_Z (whole +:+ fraction)) (10 ^ Z.of_nat (String.length fraction)) with
        | Ok x => x
        | Raise _ => PrimFloat.infinity
        end).

(** [scripts/gates/m10_runtime_evidence_gate.py:210-213] extract_number *)
Definition extract_number (content label : string) : option float := search_after (label +:+ ":") match_number content.

(** [\s*(.+)] at the start of a text, stripped: white space runs on over line
    ends; when nothing else is left, the match gives back white space. *)
Definition match_text (s : string) : option string :=
  let body := lstrip s in
  if truthy body then Some (strip (split_once "010" body).1)
  else if forall_chars (λ a, code a =? 10) s then None else Some "".

(** [scripts/gates/m10_runtime_evidence_gate.py:216-219] extract_text_after_colon *)
Definition extract_text_after_colon (content label : string) : option string := search_after (label +:+ ":") match_text content.

Example number_extracted : extract_number "ICE path ratio: 0.75 of 1" "ICE path ratio" = Some 0.75%float.
Proof. reflexivity. Qed.

(** A label without a value takes the next line for it. *)
Example next_line_extracted :
  extract_text_after_colon ("ICE path:" +:+ String "010" "Relay fallback reason: none") "ICE path" = Some "Relay fallback reason: none".
Proof. reflexivity. Qed.

(** The dict of one validation. *)
Record Validation : Type := mkValidation { v_status : string; v_passed : bool; v_missing : list string; v_fields : list (string * jval) }.

Definition validation_json (v : Validation) : jval :=
  JObj ([("status", JStr (v_status v)); ("passed", JBool (v_passed v))] ++ v_fields v).

Definition j_optional {A} (f : A → jval) (o : option A) : jval := match o with Some a => f a | None => JNull end.

Definition validated (missing : list string) : string := if bool_decide (missing = []) then "validated" else "missing-metrics".

(** [scripts/gates/m10_runtime_evidence_gate.py:151-177] validate_external_nat_report *)
Definition validate_external_nat_report (fs : files) (path : option fs_path) : result Validation :=
  match path with
  | None =>
      Ok (mkValidation "manual-required" false EXTERNAL_NAT_REQUIRED_METRICS
            [("reason", JStr "external NAT report file was not provided");
             ("requiredMetrics", JList (map JStr EXTERNAL_NAT_REQUIRED_METRICS))])
  | Some path =>
      content ← fs_text fs path;
      let missing := List.filter (λ metric, negb (contains metric content)) EXTERNAL_NAT_REQUIRED_METRICS in
      let number label := j_optional JFloat (extract_number content label) in
      let text label := j_optional JStr (extract_text_after_colon content label) in
      Ok (mkValidation (validated missing) (bool_decide (missing = [])) missing
            [("path", JStr (path_str path)); ("missingMetrics", JList (map JStr missing));
             ("metrics", JObj [("whepAnswerLatencyMs", number "WHEP answer latency ms");
                               ("firstVideoFrameLatencyMs", number "First video frame latency ms");
                               ("audioVideoSyncOffsetMs", number "Audio/video sync offset ms");
                               ("externalNatWallLatencyMs", number "External NAT smoke wall latency ms");
                               ("directIcePathRatio", number "Direct ICE path ratio");
                               ("relayIcePathRatio", number "Relay ICE path ratio");
                               ("icePath", text "ICE path"); ("relayFallbackReason", text "Relay fallback reason")])])
  end.

Definition EXPLAIN_KEYS : list string :=
  ["executionTimeMs"; "sharedHitBlocks"; "sharedReadBlocks"; "sharedDirtiedBlocks"; "sharedWrittenBlocks"; "walRecords"; "walBytes"].

(** [scripts/gates/m10_runtime_evidence_gate.py:180-207] validate_postgis_runtime *)
Definition validate_postgis_runtime (payload : jval) : result Validation :=
  explain ← j_get_or payload "explain" (JObj []);
  version ← j_get payload "postgisVersion";
  has_rows ← j_contains "historyRowsForSmoke" payload;
  absent ← filter_in (λ key, not_r (j_contains key explain)) EXPLAIN_KEYS;
  rows ← j_get payload "historyRowsForSmoke";
  passed ← j_get payload "passed";
  let missing := (if j_truthy version then [] else ["postgisVersion"])
                 ++ (if has_rows : bool then [] else ["historyRowsForSmoke"]) ++ map (String.append "explain.") absent in
  Ok (mkValidation (validated missing) (j_truthy passed && bool_decide (missing = [])) missing
        [("missingMetrics", JList (map JStr missing));
         ("metrics", JObj [("postgisVersion", version); ("historyRowsForSmoke", rows); ("explain", explain)])]).

(** The dict of one command run. *)
Record CommandResult : Type := mkCommandResult {
  cr_command : GateCommand;
  returnCode : Z;
  durationMs : float;
  stdoutPreview : string;
  stderrPreview : string
}.

Definition cr_passed (r : CommandResult) : bool := returnCode r =? 0.

Definition command_result_json (r : CommandResult) : jval :=
  let c := cr_command r in
  JObj [("name", JStr (gc_name c)); ("description", JStr (gc_description c)); ("command", JList (map JStr (gc_command c)));
        ("passed", JBool (cr_passed r)); ("returnCode", JInt (returnCode r)); ("durationMs", JFloat (durationMs r));
        ("stdoutPreview", JStr (stdoutPreview r)); ("stderrPreview", JStr (stderrPreview r))].

Record RuntimeReport : Type := mkRuntime {
  rt_complete : bool;
  contractCommands : list CommandResult;
  postgis_command : CommandResult;
  postgis_validation : Validation;
  externalNat : Validation;
  allowMissingExternalNat : bool
}.

Section runtime.
Context (w : world) (fs : history → files) (stderr : history → string) (json_loads : string → result jval).

Definition command_result (c : GateCommand) (returncode : Z) (stdout err : string) (ms : float) : CommandResult :=
  mkCommandResult c returncode (round_digits ms 3) (take_chars 1200 stdout) (take_chars 1200 err).

(** [scripts/gates/m10_runtime_evidence_gate.py:102-122] run_command *)
Definition run_gate_command (c : GateCommand) : eff CommandResult :=
  '(returncode, stdout, err, ms) ← timed_run w stderr (gc_command c);
  mret (command_result c returncode stdout err ms).

(** [scripts/gates/m10_runtime_evidence_gate.py:125-148] run_json_command *)
Definition run_json_command (c : GateCommand) : eff (CommandResult * option jval) :=
  '(returncode, stdout, err, ms) ← timed_run w stderr (gc_command c);
  let r := command_result c returncode stdout err ms in
  if negb (returncode =? 0) then mret (r, None) else payload ← lift (json_loads stdout); mret (r, Some payload).

(** The fourth command, whose output is read. *)
Definition postgis_run : GateCommand := List.nth 3 build_runtime_commands (mkGateCommand "" "" []).

(** [scripts/gates/m10_runtime_evidence_gate.py:222-252] run_gate *)
Definition run_runtime_gate (external_nat_report : option fs_path) (allow_missing_external_nat : bool) : eff RuntimeReport :=
  command_results ← map_eff run_gate_command (take 3 build_runtime_commands);
  '(postgis_result, postgis_payload) ← run_json_command postgis_run;
  postgis ← lift match postgis_payload with
                 | Some JNull | None =>
                     Ok (mkValidation "failed" false []
                           [("reason", JStr (if truthy (stderrPreview postgis_result) then stderrPreview postgis_result
                                             else stdoutPreview postgis_result))])
                 | Some payload => validate_postgis_runtime payload
                 end;
  external ← reading fs (λ fs, validate_external_nat_report fs external_nat_report);
  let complete := forallb cr_passed command_results && cr_passed postgis_result && v_passed postgis
                  && (v_passed external || allow_missing_external_nat) in
  mret (mkRuntime complete command_results postgis_result postgis external allow_missing_external_nat).

Definition runtime_json (r : RuntimeReport) : jval :=
  JObj [("schemaVersion", JStr "m10-runtime-evidence-gate-v1"); ("complete", JBool (rt_complete r));
        ("contractCommands", JList (map command_result_json (contractCommands r)));
        ("postgisRuntime", JObj [("command", command_result_json (postgis_command r));
                                 ("validation", validation_json (postgis_validation r))]);
        ("externalNat", validation_json (externalNat r)); ("allowMissingExternalNat", JBool (allowMissingExternalNat r))].

(** [scripts/gates/m10_runtime_evidence_gate.py:281-287] main, from the parsed arguments *)
Definition runtime_main (run : bool) (external_nat_report : option fs_path) (allow_missing_external_nat : bool) : eff Z :=
  if run then
    report ← run_runtime_gate external_nat_report allow_missing_external_nat;
    _ ← print (runtime_json report);
    mret (if rt_complete report then 0 else 1)
  else _ ← print build_runtime_check_report; mret 0.
End runtime.

(** ** What complete evidence shows *)

(** The command a gate runs for an entry of its list. *)
Definition executable (sys_executable : string) (c : EvidenceCommand) : list string :=
  match command c with
  | program :: args => if String.eqb program "python3" then sys_executable :: args else program :: args
  | [] => []
  end.

(** The final evidence is complete exactly if no command failed; every command
    has its result, which passed with exit status zero, failed with another
    one, or was skipped for want of docker. *)
Theorem final_evidence_complete w stderr sys_executable docker_available h r t :
  run_gate w stderr sys_executable docker_available h = (Some (Ok r), t) →
  Forall2 (λ c res, of_command res = c
    ∧ ((status res = "skipped-docker-unavailable" ∧ needs_docker c = true)
       ∨ ∃ code out, Executed (executable sys_executable c) (Ok (code, out)) ∈ t
           ∧ (code = 0 ∧ status res = "passed" ∨ code ≠ 0 ∧ status res = "failed"))) build_commands (results r)
  ∧ (complete r = true ↔ Forall (λ res, status res ≠ "failed") (results r)).
Proof.
  intros H. apply eff_bind_Ok in H as (rs & t1 & t2 & Hrs & H & ->). apply mret_Ok in H as [<- ->].
  apply map_eff_Ok in Hrs. cbn [results complete]. assert (∀ c, c ∈ build_commands → required c = true) as Hreq.
  { apply Forall_forall. by repeat constructor. }
  assert (Forall2 (λ c res, of_command res = c
    ∧ ((status res = "skipped-docker-unavailable" ∧ needs_docker c = true)
       ∨ ∃ code out, Executed (executable sys_executable c) (Ok (code, out)) ∈ t1
           ∧ (code = 0 ∧ status res = "passed" ∨ code ≠ 0 ∧ status res = "failed"))) build_commands rs) as HF.
  { eapply Forall2_impl; [exact Hrs|]. cbn beta. intros c res (h' & t' & Hc & Hin). unfold run_command in Hc.
    apply eff_bind_Ok in Hc as (missing & t3 & t4 & Hm & Hc & ->). injection Hm as Hm <-. destruct missing.
    - apply mret_Ok in Hc as [<- _]. split; [done|]. left. apply andb_true_iff in Hm as [Hm _]. done.
    - apply eff_bind_Ok in Hc as ([[[rc out] err] ms] & t5 & t6 & Hx & Hc & ->). apply timed_run_Ok in Hx.
      apply mret_Ok in Hc as [<- ->]. split; [done|]. right. exists rc, out. split.
      + apply Hin. rewrite !elem_of_app. right. by left.
      + cbn [status]. destruct (Z.eqb_spec rc 0); [by left|by right]. }
  rewrite app_nil_r. split; [exact HF|]. rewrite bool_decide_eq_true. clear Hrs. split.
  - intros Hn. apply Forall_forall. intros res (i & Hi)%list_elem_of_lookup Hf.
    destruct (Forall2_lookup_r _ _ _ _ _ HF Hi) as (c & Hci & _).
    assert (In (c, res) (List.filter (λ cr, required cr.1 && String.eqb (status cr.2) "failed") (zip build_commands rs))) as Hbad.
    { apply filter_In. split; [|cbn; by rewrite Hreq, Hf by (by eapply list_elem_of_lookup_2)].
      apply list_elem_of_In, (list_elem_of_lookup_2 _ i). by apply lookup_zip_Some. }
    destruct (List.filter _ _); [destruct Hbad|discriminate Hn].
  - intros Hall. destruct (List.filter _ _) as [|[c res] l] eqn:E; [done|exfalso].
    assert (In (c, res) (List.filter (λ cr, required cr.1 && String.eqb (status cr.2) "failed") (zip build_commands rs))) as Hin
      by (rewrite E; left; done).
    apply filter_In in Hin as [Hz Hb]. apply andb_true_iff in Hb as [_ Hb%String.eqb_eq]. apply list_elem_of_In in Hz.
    apply elem_of_zip_r in Hz. rewrite Forall_forall in Hall. by apply (Hall res).
Qed.

Lemma filter_false_all {A} (f : A → bool) l : List.filter (λ a, negb (f a)) l = [] → Forall (λ a, f a = true) l.
Proof. intros H%filter_none. eapply Forall_impl; [exact H|]. cbn. intros a Ha. by apply negb_false_iff. Qed.

Lemma validate_postgis_runtime_passed payload v :
  validate_postgis_runtime payload = Ok v → v_passed v = true →
  ∃ d explain, payload = JObj d ∧ explain = default (JObj []) (dict_get d "explain")
    ∧ j_truthy (obj_get d "passed") = true ∧ j_truthy (obj_get d "postgisVersion") = true ∧ dict_has d "historyRowsForSmoke" = true
    ∧ Forall (λ key, j_contains key explain = Ok true) EXPLAIN_KEYS.
Proof.
  unfold validate_postgis_runtime. intros (explain & He & H)%bind_Ok Hp. destruct payload as [| | | | | |d]; try discriminate He.
  injection He as He. cbn [j_get j_contains mbind result_bind] in H. apply bind_Ok in H as (absent & Ha & [= <-]).
  cbn [v_passed] in Hp. apply andb_true_iff in Hp as [Hpass Hmiss]. apply bool_decide_eq_true_1 in Hmiss.
  apply app_eq_nil in Hmiss as [Hv Hmiss]. apply app_eq_nil in Hmiss as [Hrows Habs].
  apply map_eq_nil in Habs as ->. apply filter_in_nil in Ha. exists d, explain. split_and!; try done.
  - by destruct (j_truthy (default JNull (dict_get d "postgisVersion"))) eqn:E.
  - by destruct (dict_has d "historyRowsForSmoke").
  - eapply Forall_impl; [exact Ha|]. cbn beta. intros key Hk. by apply not_r_Ok in Hk.
Qed.

(** Complete runtime evidence rests on four commands that ran and exited
    with status zero.  The output of the PostGIS smoke test among them is an
    object that passed, names its PostGIS version, counts its history rows and
    has every key of the query plan; and the external NAT report holds every
    label it must, unless running without it was allowed. *)
Theorem runtime_evidence_complete w fs stderr json_loads report allow h r t :
  run_runtime_gate w fs stderr json_loads report allow h = (Some (Ok r), t) → rt_complete r = true →
  (∀ c, c ∈ build_runtime_commands → ∃ out, Executed (gc_command c) (Ok (0, out)) ∈ t)
  ∧ (∃ out d explain, Executed (gc_command postgis_run) (Ok (0, out)) ∈ t ∧ json_loads out = Ok (JObj d)
       ∧ explain = default (JObj []) (dict_get d "explain") ∧ j_truthy (obj_get d "passed") = true
       ∧ j_truthy (obj_get d "postgisVersion") = true ∧ dict_has d "historyRowsForSmoke" = true
       ∧ Forall (λ key, j_contains key explain = Ok true) EXPLAIN_KEYS)
  ∧ (allow = true ∨ ∃ h' path content, report = Some path ∧ fs_text (fs h') path = Ok content
       ∧ Forall (λ metric, contains metric content = true) EXTERNAL_NAT_REQUIRED_METRICS).
Proof.
  intros H Hc. apply eff_bind_Ok in H as (rs & t1 & t2 & Hrs & H & ->). apply map_eff_Ok in Hrs.
  apply eff_bind_Ok in H as ([pr payload] & t3 & t4 & Hp & H & ->). apply eff_bind_Ok in H as (pv & t5 & t6 & Hpv & H & ->).
  apply lift_Ok in Hpv as [Hpv ->]. apply eff_bind_Ok in H as (ext & t7 & t8 & Hext & H & ->). injection Hext as Hext <-.
  apply mret_Ok in H as [<- ->]. cbn [rt_complete] in Hc. rewrite !andb_true_iff in Hc. destruct Hc as [[[Hall Hpr] Hpass] Hnat].
  apply eff_bind_Ok in Hp as ([[[rc out] err] ms] & t9 & t10 & Hx & Hp & ->). apply timed_run_Ok in Hx.
  assert (rc = 0 ∧ ∃ p, payload = Some p ∧ json_loads out = Ok p) as [-> (p & -> & Hjson)].
  { destruct (Z.eqb_spec rc 0) as [->|Hn].
    - apply eff_bind_Ok in Hp as (p & t11 & t12 & Hl & Hp & ->). apply lift_Ok in Hl as [Hl ->].
      apply mret_Ok in Hp as [[= <- <-] ->]. split; [done|]. by exists p.
    - apply mret_Ok in Hp as [[= <- <-] ->]. cbn in Hpr. unfold cr_passed, command_result in Hpr. cbn in Hpr.
      by apply Z.eqb_eq in Hpr. }
  assert (Executed (gc_command postgis_run) (Ok (0, out)) ∈ t1 ++ (t9 ++ t10) ++ [] ++ [] ++ []) as Hrun.
  { rewrite !elem_of_app. clear -Hx. tauto. }
  split; [|split].
  - intros c Hin. assert (c ∈ take 3 build_runtime_commands ∨ c = postgis_run) as [Hin'| ->]; [|..|by exists out].
    { rewrite <-(take_drop 3 build_runtime_commands), elem_of_app in Hin. destruct Hin as [Hin|Hin]; [by left|right].
      by apply list_elem_of_singleton in Hin. }
    apply list_elem_of_lookup in Hin' as (i & Hi). destruct (Forall2_lookup_l _ _ _ _ _ Hrs Hi) as (res & Hres & h' & t' & Hc & Hsub).
    rewrite forallb_forall in Hall. specialize (Hall res ltac:(by eapply list_elem_of_In, list_elem_of_lookup_2)).
    apply eff_bind_Ok in Hc as ([[[rc' out'] err'] ms'] & t11 & t12 & Hx' & Hc & ->). apply timed_run_Ok in Hx'.
    apply mret_Ok in Hc as [<- ->]. apply Z.eqb_eq in Hall. cbn in Hall. subst rc'. exists out'.
    apply elem_of_app. left. apply Hsub, elem_of_app. by left.
  - assert (validate_postgis_runtime p = Ok pv) as Hval by (destruct p; [injection Hpv as <-; discriminate Hpass|done..]).
    destruct (validate_postgis_runtime_passed _ _ Hval Hpass) as (d & explain & -> & ? & ? & ? & ? & ?). by exists out, d, explain.
  - apply orb_true_iff in Hnat as [Hnat|Hnat]; [right|by left].
    destruct report as [path|]; [|injection Hext as <-; discriminate Hnat].
    apply bind_Ok in Hext as (content & Hcontent & [= <-]). apply bool_decide_eq_true_1 in Hnat.
    eexists _, path, content. split; [done|]. split; [exact Hcontent|]. by apply filter_false_all.
Qed.

(** ** Samples *)

(** A report of labels without a single value is valid. *)
Definition labels_only : string := join (String "010" "") EXTERNAL_NAT_REQUIRED_METRICS.

Definition sample_evidence_files : files :=
  mkFiles (λ _, Ok true) (λ _, Ok true) (λ _, Ok 0) (λ _, Ok 384) (λ _, Ok (utf8_encode labels_only)).

Example labels_only_validated :
  v_status <$> validate_external_nat_report sample_evidence_files (Some (parse_path "/tmp/nat.txt")) = Ok "validated".
Proof. vm_compute. reflexivity. Qed.

Definition sample_evidence_world : world :=
  mkWorld (λ _ _ _, Ok "") (λ _ _, Ok (0, "{}")) (λ _, PrimFloat.zero) (λ _, PyTime.mkDatetime 0 None)
    (λ _ _, NoResponse) (λ _ _ _, Ok ()) (λ _ _ _, Ok ()).

(** Without docker the compose checks are skipped, and the evidence is complete. *)
Example complete_without_docker :
  match (run_gate sample_evidence_world (λ _, "") "/usr/bin/python3" (λ _, false) []).1 with
  | Some (Ok r) => complete r && existsb (λ res, String.eqb (status res) "skipped-docker-unavailable") (results r)
  | _ => false
  end = true.
Proof. vm_compute. reflexivity. Qed.

Definition sample_payload : jval :=
  JObj [("passed", JBool true); ("postgisVersion", JStr "3.4"); ("historyRowsForSmoke", JInt 100);
        ("explain", JObj ((λ key, (key, JInt 1)) <$> EXPLAIN_KEYS))].

Definition sample_runtime : option (result RuntimeReport) * history :=
  run_runtime_gate sample_evidence_world (λ _, sample_evidence_files) (λ _, "") (λ _, Ok sample_payload)
    (Some (parse_path "/tmp/nat.txt")) false [].

Lemma runtime_evidence_complete_witness :
  ∃ r t out, sample_runtime = (Some (Ok r), t) ∧ rt_complete r = true ∧ Executed (gc_command postgis_run) (Ok (0, out)) ∈ t.
Proof.
  destruct sample_runtime as [[[r|e]|] t] eqn:E; [|vm_compute in E; discriminate E..].
  assert (rt_complete r = true) as Hc by (vm_compute in E; by injection E as <- _).
  destruct (runtime_evidence_complete sample_evidence_world (λ _, sample_evidence_files) (λ _, "") (λ _, Ok sample_payload)
    (Some (parse_path "/tmp/nat.txt")) false [] r t E Hc) as (_ & (out & _ & _ & Ho & _) & _).
  by exists r, t, out.
Defined.
