(* ===== verification/ChangeImpact.v ===== *)
(** Change impact: [scripts/reports/change_impact_qualification.py].

    The changed paths between two commits are classified under the ownership
    catalogue.  Git is the machine; the JSON and YAML codecs, [repr], and glob
    patterns with brackets are parameters. *)

From stdpp Require Import base list strings sorting.
From Stdlib Require Import ZArith Lia Ascii.
From S2P Require Import Prelude PyStr PyTime PyTimeParse PyJson PyText Host Effects Evidence.

#[local] Open Scope Z_scope.

(** [scripts/reports/change_impact_qualification.py:16-16] OUTPUT_SCHEMA *)
Definition OUTPUT_SCHEMA : string := "gcs-saker.change-impact-result.v1".

Definition impact_error {A} (msg : string) : result A := throw ExcChangeImpactError msg.

(** ** [fnmatch.fnmatch] *)

Definition is_continuation (a : ascii) : bool := (128 <=? code a) && (code a <? 192).

Fixpoint skip_continuation (s : string) : string :=
  match s with String a s' => if is_continuation a then skip_continuation s' else s | "" => "" end.

(** A star matches any text, a question mark one character, anything else itself. *)
Fixpoint glob (pattern : string) : string → bool :=
  match pattern with
  | "" => is_empty
  | String "*" p =>
      fix star (s : string) : bool :=
        match s with
        | "" => glob p ""
        | String a s' => (negb (is_continuation a) && glob p s) || star s'
        end
  | String "?" p => λ s, match s with "" => false | String _ s' => glob p (skip_continuation s') end
  | String c p => λ s, match s with "" => false | String a s' => Ascii.eqb a c && glob p s' end
  end.

Example glob_star : map (glob "services/*/src/test/*") ["services/a/src/test/b/c.kt"; "services/src/test/x"] = [true; false].
Proof. reflexivity. Qed.

(** A star also matches slashes: a directory whose name holds ".test." hides what is in it. *)
Example star_spans_directories : glob "gcs-dashboard/*.test.*" "gcs-dashboard/src/login.test.d/run.ts" = true.
Proof. reflexivity. Qed.

(** ** The catalogue *)

Definition owner_map : Type := list (jval * jval).

Fixpoint owner_set (owners : owner_map) (prefix id : jval) : owner_map :=
  match owners with
  | [] => [(prefix, id)]
  | (p, i) :: rest => if py_eq p prefix then (p, id) :: rest else (p, i) :: owner_set rest prefix id
  end.

(** [scripts/reports/change_impact_qualification.py:32-43] validate_catalogue *)
Definition validate_catalogue (catalogue : entry) : result owner_map :=
  if negb (py_eq (obj_get catalogue "status") (JStr "CONTROLLED"))
  then impact_error "ownership catalogue must be controlled" else
  match obj_get catalogue "productionOwners" with
  | JList entries =>
      if negb (Nat.eqb (length entries) 6) then impact_error "exactly six production ownership boundaries are required" else
      prefixes ← for_in (λ owners e,
        match e with
        | JObj d => if hashable (obj_get d "prefix") then Ok (owner_set owners (obj_get d "prefix") (obj_get d "id"))
                    else type_error "unhashable type"
        | _ => Ok owners
        end) [] entries;
      if negb (Nat.eqb (length prefixes) (length entries)) || existsb (λ kv, negb (j_truthy kv.2)) prefixes
      then impact_error "production owner IDs and prefixes must be unique" else
      status ← j_get (default (JObj []) (dict_get catalogue "thresholds")) "status";
      if negb (py_eq status (JStr "PROPOSED_NOT_APPROVED"))
      then impact_error "change-impact threshold must remain proposed" else Ok prefixes
  | _ => impact_error "exactly six production ownership boundaries are required"
  end.

Section impact.
Context (json_loads yaml_safe_load : string → result jval) (py_repr : jval → string) (bracket_match : string → string → bool).

(** [scripts/reports/change_impact_qualification.py:23-29] load_object *)
Definition load_object (fs : files) (path : fs_path) : result entry :=
  load_document json_loads yaml_safe_load ExcChangeImpactError fs path.

Definition fnmatch (name pattern : string) : bool :=
  if has_char "[" pattern then bracket_match name pattern else glob pattern name.

Definition str_prefix (path : string) (prefix : jval) : result bool :=
  match prefix with JStr p => Ok (startswith p path) | _ => type_error "startswith first arg must be str" end.

Definition str_pattern (path : string) (pattern : jval) : result bool :=
  match pattern with JStr p => Ok (fnmatch path p) | _ => type_error "expected str" end.

(** The owners whose prefix a path has. *)
Fixpoint owners_of (path : string) (owners : owner_map) : result (list jval) :=
  match owners with
  | [] => Ok []
  | (prefix, owner) :: rest =>
      here ← str_prefix path prefix; more ← owners_of path rest; Ok (if here : bool then owner :: more else more)
  end.

(** [scripts/reports/change_impact_qualification.py:46-57] classify_path *)
Definition classify_path (path : string) (catalogue : entry) (owners : owner_map) : result jval :=
  let normalized := replace_char "\" "/" path in
  listed ← (v ← j_getitem (JObj catalogue) "nonProductionPaths"; j_contains normalized v);
  if listed : bool then Ok (JStr "non-production") else
  prefixed ← (v ← j_getitem (JObj catalogue) "nonProductionPrefixes"; l ← j_items v; any_in (str_prefix normalized) l);
  if prefixed : bool then Ok (JStr "non-production") else
  matched ← (v ← j_getitem (JObj catalogue) "nonProductionPatterns"; l ← j_items v; any_in (str_pattern normalized) l);
  if matched : bool then Ok (JStr "non-production") else
  matches ← owners_of normalized owners;
  Ok match matches with [owner] => owner | _ => JStr "unknown" end.

(** ** Dispositions *)

Record Disposition : Type := mkDisposition { reviewer : string; decision : string; rationale : string }.

(** [sorted] of a collection of texts; other values, which have an order of
    their own or none, are refused. *)
Definition sorted_texts (l : list jval) : result (list string) := texts ← mapM as_str l; Ok (py_sorted texts).

(** The paths a document lists, sorted. *)
Definition listed_paths (document : entry) : result (list string) :=
  l ← j_items (default (JList []) (dict_get document "crossBoundaryPaths")); sorted_texts l.

(** [scripts/reports/change_impact_qualification.py:89-98] validate_disposition *)
Definition validate_disposition (fs : files) (path : fs_path) (candidate change_id : string) (cross_paths : list string) :
    result Disposition :=
  document ← load_object fs path;
  if negb (py_eq (obj_get document "candidateCommit") (JStr candidate))
     || negb (py_eq (obj_get document "changeId") (JStr change_id))
  then impact_error "disposition candidate or change ID does not match" else
  listed ← listed_paths document;
  if negb (bool_decide (listed = cross_paths))
  then impact_error "disposition does not cover the exact cross-boundary paths" else
  let decision := obj_get document "decision" in
  if negb (hashable decision) then type_error "unhashable type" else
  if negb (j_elem decision [JStr "ACCEPT"; JStr "REJECT"])
     || existsb (λ field, negb (j_truthy (obj_get document field))) ["reviewer"; "decision"; "rationale"]
  then impact_error "disposition requires reviewer decision and rationale" else
  let text field := py_str py_repr (obj_get document field) in
  Ok (mkDisposition (text "reviewer") (text "decision") (text "rationale")).

(** ** The evaluation *)

Record Impact : Type := mkImpact {
  changedFileCount : nat;
  modifiedProductionFileCount : nat;
  modifiedProductionOwners : list string;
  crossBoundaryProductionOwners : list string;
  crossBoundaryPaths : list string;
  unknownPaths : list string;
  technicalResult : string;
  verdict : string
}.

Definition is_production (owner : jval) : bool := negb (j_elem owner [JStr "unknown"; JStr "non-production"]).

(** [scripts/reports/change_impact_qualification.py:101-127] evaluate_changes *)
Definition evaluate_changes (paths : list string) (catalogue : entry) (expected_owner : string)
    (disposition : option Disposition) : result Impact :=
  owners ← validate_catalogue catalogue;
  if negb (j_elem (JStr expected_owner) (map snd owners)) then impact_error ("unknown expected owner: " +:+ expected_owner) else
  classified ← mapM (λ path, owner ← classify_path path catalogue owners; Ok (path, owner)) paths;
  let unknown := py_sorted (map fst (List.filter (λ item, py_eq item.2 (JStr "unknown")) classified)) in
  let production := List.filter (λ item, is_production item.2) classified in
  let cross_paths := py_sorted (map fst (List.filter (λ item, negb (py_eq item.2 (JStr expected_owner))) production)) in
  modified_owners ← (l ← j_set (JList (map snd production)); sorted_texts l);
  let modified_owners := remove_dups modified_owners in
  let rejected := match disposition with Some d => String.eqb (decision d) "REJECT" | None => false end in
  let technical_result :=
    if negb (bool_decide (unknown = [])) || rejected then "FAIL"
    else if negb (bool_decide (cross_paths = [])) && bool_decide (disposition = None) then "REVIEW_REQUIRED"
    else "PASS" in
  Ok (mkImpact (length paths) (length production) modified_owners
        (List.filter (λ owner, negb (String.eqb owner expected_owner)) modified_owners)
        cross_paths unknown technical_result (if String.eqb technical_result "FAIL" then "FAIL" else "BLOCKED")).

(** ** Git *)

Section git.
Context (w : world) (fs : history → files) (REPO_ROOT : fs_path).

Definition CATALOGUE_PATH : fs_path := path_div REPO_ROOT "docs/compliance/architecture/change-impact-ownership.yml".

(** [scripts/reports/change_impact_qualification.py:60-62] git_output *)
Definition git_output (args : list string) : eff string := run w ("git" :: args) (Some 30).

(** [scripts/reports/change_impact_qualification.py:65-69] resolve_commit *)
Definition resolve_commit (reference : string) : eff string :=
  commit ← git_output ["rev-parse"; "--verify"; reference +:+ "^{commit}"];
  if negb (Nat.eqb (str_len commit) 40)
  then raise ExcChangeImpactError ("reference does not resolve to an immutable commit: " +:+ reference) else mret commit.

(** [scripts/reports/change_impact_qualification.py:72-81] require_ancestor *)
Definition require_ancestor (base_commit candidate_commit : string) : eff () :=
  '(returncode, _) ← execute w ["git"; "merge-base"; "--is-ancestor"; base_commit; candidate_commit];
  if negb (returncode =? 0)
  then raise ExcChangeImpactError "base commit must be an ancestor of the candidate commit" else mret ().

(** [scripts/reports/change_impact_qualification.py:84-86] changed_paths *)
Definition changed_paths (base_commit candidate_commit : string) : eff (list string) :=
  output ← git_output ["diff"; "--name-only"; "--no-renames"; base_commit; candidate_commit; "--"];
  mret (sorted_set (List.filter truthy (splitlines output))).

Record ChangeReport : Type := mkChangeReport {
  generatedAt : datetime;
  changeId : string;
  baseCommit : string;
  candidateCommit : string;
  expectedOwner : string;
  knownOwners : list string;
  thresholdStatus : jval;
  disposition : option Disposition;
  impact : Impact
}.

(** [scripts/reports/change_impact_qualification.py:130-156] build_report *)
Definition build_report (base candidate expected_owner change_id : string) (disposition_path : option fs_path) :
    eff ChangeReport :=
  catalogue ← reading fs (λ fs, load_object fs CATALOGUE_PATH);
  owners ← lift (validate_catalogue catalogue);
  base_commit ← resolve_commit base;
  candidate_commit ← resolve_commit candidate;
  _ ← require_ancestor base_commit candidate_commit;
  paths ← changed_paths base_commit candidate_commit;
  preview ← lift (evaluate_changes paths catalogue expected_owner None);
  disposition ← match disposition_path with
                | Some path => reading fs (λ fs, Some <$> validate_disposition fs path candidate_commit change_id
                                                           (crossBoundaryPaths preview))
                | None => mret None
                end;
  result ← lift (evaluate_changes paths catalogue expected_owner disposition);
  now ← utcnow w;
  known ← lift (sorted_texts (map snd owners));
  status ← lift (j_path (JObj catalogue) ["thresholds"; "status"]);
  mret (mkChangeReport now change_id base_commit candidate_commit expected_owner known status disposition result).

Definition disposition_json (d : option Disposition) : jval :=
  match d with
  | None => JNull
  | Some d => JObj [("reviewer", JStr (reviewer d)); ("decision", JStr (decision d)); ("rationale", JStr (rationale d))]
  end.

(** The document of a report. *)
Definition report_json (r : ChangeReport) : jval :=
  let texts l := JList (map JStr l) in
  let i := impact r in
  JObj [("schemaVersion", JStr OUTPUT_SCHEMA); ("generatedAt", JStr (isoformat (generatedAt r)));
        ("changeId", JStr (changeId r)); ("baseCommit", JStr (baseCommit r)); ("candidateCommit", JStr (candidateCommit r));
        ("expectedOwner", JStr (expectedOwner r)); ("knownOwners", texts (knownOwners r));
        ("thresholdStatus", thresholdStatus r); ("disposition", disposition_json (disposition r));
        ("changedFileCount", JInt (Z.of_nat (changedFileCount i)));
        ("modifiedProductionFileCount", JInt (Z.of_nat (modifiedProductionFileCount i)));
        ("modifiedProductionOwners", texts (modifiedProductionOwners i));
        ("crossBoundaryProductionOwners", texts (crossBoundaryProductionOwners i));
        ("crossBoundaryPaths", texts (crossBoundaryPaths i)); ("unknownPaths", texts (unknownPaths i));
        ("technicalResult", JStr (technicalResult i)); ("verdict", JStr (verdict i));
        ("limitations", texts ["threshold and independent architecture evaluation are not approved"])].

(** [scripts/reports/change_impact_qualification.py:159-164] write_immutable *)
Definition write_immutable (path : fs_path) (report : jval) : eff () := write_new w fs ExcChangeImpactError path report.

(** The arguments of a run that is not a check. *)
Record Arguments_ : Type := mkArguments {
  base_ref : option string;
  candidate_ref : option string;
  arg_expected_owner : option string;
  change_id : option string;
  disposition_path : option fs_path;
  output : option fs_path
}.

(** [scripts/reports/change_impact_qualification.py:177-196] main, from the parsed arguments *)
Definition main (check : bool) (args : Arguments_) : eff Z :=
  catalogue ← reading fs (λ fs, load_object fs CATALOGUE_PATH);
  owners ← lift (validate_catalogue catalogue);
  if check then
    _ ← print (JStr ("change-impact ownership contract passed for " +:+ str_of_Z (Z.of_nat (length owners))
                     +:+ " production boundaries"));
    mret 0
  else
  match base_ref args, candidate_ref args, arg_expected_owner args, change_id args, output args with
  | Some base, Some candidate, Some expected_owner, Some change_id, Some output =>
      refused ← reading fs (λ fs, match disposition_path args with
                                  | Some path => or_r (Ok (negb (p_absolute path))) (not_r (fs_is_file fs path))
                                  | None => Ok false
                                  end);
      if refused : bool then raise ExcChangeImpactError "disposition must be an existing absolute file" else
      report ← build_report base candidate expected_owner change_id (disposition_path args);
      _ ← write_immutable output (report_json report);
      _ ← print (JObj [("technicalResult", JStr (technicalResult (impact report)));
                       ("verdict", JStr (verdict (impact report)))]);
      mret 0
  | _, _, _, _, _ => raise ExcSystemExit "base, candidate, expected owner, change ID, and output are required"
  end.
End git.
End impact.

(** ** What a clean report shows *)

Section impact_facts.
Context (json_loads yaml_safe_load : string → result jval) (py_repr : jval → string) (bracket_match : string → string → bool).

Local Notation classify_path := (classify_path bracket_match).
Local Notation evaluate_changes := (evaluate_changes bracket_match).

Lemma elem_of_classified (f : string * jval → bool) catalogue owners paths classified :
  mapM (λ path, owner ← classify_path path catalogue owners; Ok (path, owner)) paths = Ok classified →
  ∀ path, path ∈ py_sorted (map fst (List.filter f classified)) ↔
    path ∈ paths ∧ ∃ owner, classify_path path catalogue owners = Ok owner ∧ f (path, owner) = true.
Proof.
  intros H%mapM_Ok path. rewrite elem_of_py_sorted, list_elem_of_In, in_map_iff. split.
  - intros ([p owner] & <- & Hin). apply filter_In in Hin as [Hin Hf]. apply list_elem_of_In, list_elem_of_lookup in Hin as (i & Hi).
    destruct (Forall2_lookup_r _ _ _ _ _ H Hi) as (p' & Hp & Hc). apply bind_Ok in Hc as (o & Ho & [= <- <-]).
    split; [by eapply list_elem_of_lookup_2|]. by exists o.
  - intros (Hin & owner & Hc & Hf). apply list_elem_of_lookup in Hin as (i & Hi).
    destruct (Forall2_lookup_l _ _ _ _ _ H Hi) as (item & Hitem & Hc'). rewrite Hc in Hc'. injection Hc' as <-.
    exists (path, owner). split; [done|]. apply filter_In. split; [|done]. apply list_elem_of_In. by eapply list_elem_of_lookup_2.
Qed.

Lemma classified_total catalogue owners paths classified :
  mapM (λ path, owner ← classify_path path catalogue owners; Ok (path, owner)) paths = Ok classified →
  ∀ path, path ∈ paths → ∃ owner, classify_path path catalogue owners = Ok owner.
Proof.
  intros H%mapM_Ok path (i & Hi)%list_elem_of_lookup. destruct (Forall2_lookup_l _ _ _ _ _ H Hi) as (item & _ & Hc).
  apply bind_Ok in Hc as (o & Ho & _). by exists o.
Qed.

Lemma py_eq_str_false v s : py_eq v (JStr s) = false ↔ v ≠ JStr s.
Proof. by rewrite <-not_true_iff_false, py_eq_str. Qed.

Lemma is_production_true owner : is_production owner = true ↔ owner ≠ JStr "unknown" ∧ owner ≠ JStr "non-production".
Proof.
  unfold is_production, j_elem. cbn [existsb]. rewrite negb_true_iff, !orb_false_iff, !py_eq_str_false.
  split; [intros (? & ? & _)|intros [? ?]]; by split_and!.
Qed.

Lemma evaluate_changes_Ok paths catalogue expected_owner disposition i :
  evaluate_changes paths catalogue expected_owner disposition = Ok i →
  ∃ owners, validate_catalogue catalogue = Ok owners
    ∧ (∀ path, path ∈ paths → ∃ owner, classify_path path catalogue owners = Ok owner)
    ∧ (∀ path, path ∈ unknownPaths i ↔ path ∈ paths ∧ classify_path path catalogue owners = Ok (JStr "unknown"))
    ∧ (∀ path, path ∈ crossBoundaryPaths i ↔ path ∈ paths ∧ ∃ owner, classify_path path catalogue owners = Ok owner
         ∧ owner ≠ JStr "unknown" ∧ owner ≠ JStr "non-production" ∧ owner ≠ JStr expected_owner)
    ∧ (technicalResult i = "PASS" ↔ unknownPaths i = [] ∧ (∀ d, disposition = Some d → decision d ≠ "REJECT")
         ∧ (crossBoundaryPaths i = [] ∨ disposition ≠ None))
    ∧ (verdict i = "FAIL" ∨ verdict i = "BLOCKED").
Proof.
  unfold evaluate_changes, ChangeImpact.evaluate_changes. intros H. apply bind_Ok in H as (owners & Ho & H).
  destruct (negb _); [discriminate H|]. apply bind_Ok in H as (classified & Hc & H).
  apply bind_Ok in H as (modified & _ & [= <-]). exists owners. cbn [unknownPaths crossBoundaryPaths technicalResult verdict].
  split; [done|]. split; [by eapply classified_total|]. split; [|split; [|split]].
  - intros path. rewrite (elem_of_classified _ _ _ _ _ Hc). cbn [snd]. setoid_rewrite py_eq_str.
    split; [by intros (? & owner & ? & ->)|]. intros [? ?]. split; [done|]. by exists (JStr "unknown").
  - assert (∀ l : list (string * jval), List.filter (λ item, negb (py_eq item.2 (JStr expected_owner)))
      (List.filter (λ item, is_production item.2) l)
      = List.filter (λ item, is_production item.2 && negb (py_eq item.2 (JStr expected_owner))) l) as ->.
    { induction l as [|item l IH]; cbn; [done|]. destruct (is_production item.2); cbn; by rewrite IH. }
    intros path. rewrite (elem_of_classified _ _ _ _ _ Hc). cbn [snd].
    setoid_rewrite andb_true_iff. setoid_rewrite is_production_true. setoid_rewrite negb_true_iff. setoid_rewrite py_eq_str_false.
    split; intros (Hp & owner & Hcl & Hrest); (split; [done|]; exists owner; split; [done|]); clear - Hrest; tauto.
  - set (unknown := py_sorted _). set (cross := py_sorted _).
    destruct (bool_decide_reflect (unknown = [])) as [->|Hu]; cbn [negb orb].
    + destruct (match disposition with Some d => String.eqb (decision d) "REJECT" | None => false end) eqn:Er.
      * split; [done|]. intros (_ & Hd & _). destruct disposition as [d|]; [|discriminate Er].
        apply String.eqb_eq in Er. by destruct (Hd d).
      * assert (∀ d, disposition = Some d → decision d ≠ "REJECT") as Hd.
        { intros d ->. intros Heq. by rewrite Heq in Er. }
        destruct (bool_decide_reflect (cross = [])) as [->|Hx]; cbn [negb andb]; [split; [|done]; intros _; by split_and!; [..|left]|].
        case_bool_decide as Hn; cbn; split; try done; [|intros _; by split_and!; [..|right]].
        by intros (_ & _ & [?|?]).
    + split; [done|]. by intros [? _].
  - destruct (String.eqb _ "FAIL"); [by left|by right].
Qed.

Lemma reading_Ok (fs : history → files) {A} (f : files → result A) h a t :
  reading fs f h = (Some (Ok a), t) → f (fs h) = Ok a ∧ t = [].
Proof. by intros [= -> <-]. Qed.

Lemma validate_disposition_Ok fs path candidate change_id cross d :
  validate_disposition json_loads yaml_safe_load py_repr fs path candidate change_id cross = Ok d →
  ∃ document, load_object json_loads yaml_safe_load fs path = Ok document
    ∧ obj_get document "candidateCommit" = JStr candidate ∧ obj_get document "changeId" = JStr change_id
    ∧ listed_paths document = Ok cross ∧ obj_get document "decision" = JStr (decision d)
    ∧ (decision d = "ACCEPT" ∨ decision d = "REJECT")
    ∧ j_truthy (obj_get document "reviewer") = true ∧ j_truthy (obj_get document "rationale") = true.
Proof.
  intros H. apply bind_Ok in H as (document & Hd & H). destruct (_ || _) eqn:Ec; [discriminate H|].
  apply orb_false_iff in Ec as [Hc1 Hc2]. rewrite negb_false_iff, py_eq_str in Hc1, Hc2.
  apply bind_Ok in H as (listed & Hl & H). destruct (bool_decide_reflect (listed = cross)) as [->|]; [|discriminate H].
  cbn [negb] in H. destruct (hashable _); [|discriminate H]. cbn [negb] in H. destruct (_ || _) eqn:Ed; [discriminate H|].
  apply orb_false_iff in Ed as [Hdec Hf]. apply negb_false_iff in Hdec. unfold j_elem in Hdec. cbn [existsb] in Hdec, Hf.
  rewrite !orb_true_iff, !py_eq_str in Hdec. rewrite !orb_false_iff, !negb_false_iff in Hf. destruct Hf as (Hr & _ & Hra & _).
  injection H as <-. cbn [decision]. exists document. split_and!; try done.
  - destruct Hdec as [->|[->|[=]]]; done.
  - destruct Hdec as [->|[->|[=]]]; [by left|by right].
Qed.

Lemma resolve_commit_Ok w reference h commit t :
  resolve_commit w reference h = (Some (Ok commit), t) →
  t = [Ran ["git"; "rev-parse"; "--verify"; reference +:+ "^{commit}"] (Some 30) (Ok commit)] ∧ str_len commit = 40%nat.
Proof.
  intros H. apply eff_bind_Ok in H as (c & t1 & t2 & Hr & H & ->). apply run_Ok in Hr as ->.
  destruct (Nat.eqb_spec (str_len c) 40) as [Hl|]; [|discriminate H]. by apply mret_Ok in H as [<- ->].
Qed.

Lemma require_ancestor_Ok w base candidate h t :
  require_ancestor w base candidate h = (Some (Ok ()), t) →
  ∃ o, t = [Executed ["git"; "merge-base"; "--is-ancestor"; base; candidate] (Ok (0, o))].
Proof.
  intros H. apply eff_bind_Ok in H as ([code o] & t1 & t2 & Hx & H & ->). apply execute_Ok in Hx as ->.
  destruct (Z.eqb_spec code 0) as [->|]; [|discriminate H]. apply mret_Ok in H as [_ ->]. by exists o.
Qed.

Lemma changed_paths_Ok w base candidate h paths t :
  changed_paths w base candidate h = (Some (Ok paths), t) →
  ∃ output, t = [Ran ["git"; "diff"; "--name-only"; "--no-renames"; base; candidate; "--"] (Some 30) (Ok output)]
    ∧ paths = sorted_set (List.filter truthy (splitlines output)).
Proof.
  intros H. apply eff_bind_Ok in H as (output & t1 & t2 & Hr & H & ->). apply run_Ok in Hr as ->.
  apply mret_Ok in H as [<- ->]. by exists output.
Qed.

(** ** What the classes of a path mean *)

(** Outside production: the catalogue lists the path, or a prefix or a pattern of it. *)
Definition outside_production (catalogue : entry) (path : string) : Prop :=
  let normalized := replace_char "\" "/" path in
  (∃ v, j_getitem (JObj catalogue) "nonProductionPaths" = Ok v ∧ j_contains normalized v = Ok true)
  ∨ (∃ v l p, j_getitem (JObj catalogue) "nonProductionPrefixes" = Ok v ∧ j_items v = Ok l
       ∧ JStr p ∈ l ∧ startswith p normalized = true)
  ∨ (∃ v l p, j_getitem (JObj catalogue) "nonProductionPatterns" = Ok v ∧ j_items v = Ok l
       ∧ JStr p ∈ l ∧ fnmatch bracket_match normalized p = true).

(** Of one owner: its prefix, and no other of the catalogue's, begins the path. *)
Definition owned_by (owners : owner_map) (path : string) (owner : jval) : Prop :=
  let begins (entry : jval * jval) := ∃ prefix, entry.1 = JStr prefix ∧ startswith prefix (replace_char "\" "/" path) = true in
  ∃ others prefix others', owners = others ++ (prefix, owner) :: others' ∧ begins (prefix, owner)
    ∧ ∀ entry, entry ∈ others ∨ entry ∈ others' → ¬ begins entry.

Lemma str_prefix_begins path prefix b : str_prefix path prefix = Ok b →
  b = true ↔ ∃ p, prefix = JStr p ∧ startswith p path = true.
Proof.
  destruct prefix as [| | | |p| |]; try discriminate. intros [= <-]. split; [intros H; by exists p|by intros (? & [= <-] & ?)].
Qed.

Lemma owners_of_none path owners : owners_of path owners = Ok [] →
  ∀ entry, entry ∈ owners → ¬ ∃ prefix, entry.1 = JStr prefix ∧ startswith prefix path = true.
Proof.
  induction owners as [|[prefix owner] owners IH]; [intros _ entry []%not_elem_of_nil|]. intros H.
  apply bind_Ok in H as (here & Hh & H). apply bind_Ok in H as (more & Hm & H).
  destruct here; [discriminate H|]. injection H as ->. intros entry [->|Hin]%elem_of_cons; [|by apply IH].
  cbn. intros Hp. by apply (str_prefix_begins _ _ _ Hh) in Hp.
Qed.

Lemma owners_of_one path owners owner : owners_of (replace_char "\" "/" path) owners = Ok [owner] → owned_by owners path owner.
Proof.
  unfold owned_by. induction owners as [|[prefix o] owners IH]; [discriminate|]. intros H.
  apply bind_Ok in H as (here & Hh & H). apply bind_Ok in H as (more & Hm & H). destruct here.
  - injection H as -> ->. exists [], prefix, owners. split; [done|]. split; [by apply (str_prefix_begins _ _ _ Hh)|].
    intros entry [[]%not_elem_of_nil|Hin]. by eapply owners_of_none.
  - injection H as ->. destruct (IH Hm) as (others & p & others' & -> & Hp & Hno).
    exists ((prefix, o) :: others), p, others'. split; [done|]. split; [exact Hp|].
    intros entry [[->|Hin]%elem_of_cons|Hin]; [|by apply Hno; left|by apply Hno; right].
    cbn. intros Hb. by apply (str_prefix_begins _ _ _ Hh) in Hb.
Qed.

Lemma classify_path_cases path catalogue owners owner : classify_path path catalogue owners = Ok owner →
  outside_production catalogue path ∨ owned_by owners path owner ∨ owner = JStr "unknown".
Proof.
  unfold ChangeImpact.classify_path, outside_production. intros H. apply bind_Ok in H as (listed & Hl & H).
  apply bind_Ok in Hl as (v & Hv & Hl). destruct listed; [left; left; by exists v|].
  apply bind_Ok in H as (prefixed & Hp & H). apply bind_Ok in Hp as (v' & Hv' & Hp). apply bind_Ok in Hp as (l & Hi & Hp).
  destruct prefixed.
  { left; right; left. apply any_in_true in Hp as (x & Hin & Hx). apply (str_prefix_begins _ _ true) in Hx as Hb.
    destruct (proj1 Hb eq_refl) as (p & -> & Hs). by exists v', l, p. }
  apply bind_Ok in H as (matched & Hm & H). apply bind_Ok in Hm as (v'' & Hv'' & Hm). apply bind_Ok in Hm as (l' & Hi' & Hm).
  destruct matched.
  { left; right; right. apply any_in_true in Hm as (x & Hin & Hx). destruct x as [| | | |p| |]; try discriminate Hx.
    injection Hx as Hx. by exists v'', l', p. }
  apply bind_Ok in H as (matches & Ho & [= <-]). right. destruct matches as [|o [|o' matches]]; [by right|left|by right].
  by apply owners_of_one.
Qed.

(** C26: a change report is clean only for a change that stays within its owner
    or was reviewed.  When its technical result passes, then under the catalogue
    that the repository's catalogue file held when the run began: git resolved the
    two references to the commits of the report, the candidate descends from the
    base, and every path git lists between the two is outside production (listed,
    or under a listed prefix, or matched by a listed pattern), or begins with the
    prefix of exactly one owner, which is the expected one, or is listed in a
    disposition for this candidate and change that a named reviewer accepted with
    a rationale.  An owner whose identifier is the text non-production counts as
    outside.  The verdict never passes on its own. *)
Theorem clean_change_reviewed w fs REPO_ROOT base candidate expected_owner change_id dpath h r t :
  build_report json_loads yaml_safe_load py_repr bracket_match w fs REPO_ROOT base candidate expected_owner change_id dpath h
    = (Some (Ok r), t) →
  (verdict (impact r) = "FAIL" ∨ verdict (impact r) = "BLOCKED")
  ∧ (technicalResult (impact r) = "PASS" →
     ∃ catalogue owners output ancestry,
       load_object json_loads yaml_safe_load (fs h) (CATALOGUE_PATH REPO_ROOT) = Ok catalogue
       ∧ validate_catalogue catalogue = Ok owners
       ∧ Ran ["git"; "rev-parse"; "--verify"; base +:+ "^{commit}"] (Some 30) (Ok (baseCommit r)) ∈ t
       ∧ Ran ["git"; "rev-parse"; "--verify"; candidate +:+ "^{commit}"] (Some 30) (Ok (candidateCommit r)) ∈ t
       ∧ Ran ["git"; "diff"; "--name-only"; "--no-renames"; baseCommit r; candidateCommit r; "--"] (Some 30) (Ok output) ∈ t
       ∧ Executed ["git"; "merge-base"; "--is-ancestor"; baseCommit r; candidateCommit r] (Ok (0, ancestry)) ∈ t
       ∧ str_len (baseCommit r) = 40%nat ∧ str_len (candidateCommit r) = 40%nat
       ∧ ∀ path, path ∈ splitlines output → path ≠ "" →
           outside_production catalogue path
           ∨ ∃ owner, owned_by owners path owner ∧ owner ≠ JStr "unknown"
             ∧ (owner = JStr expected_owner ∨ owner = JStr "non-production"
                ∨ ∃ before after p document listed,
                    t = before ++ after ∧ dpath = Some p
                    ∧ load_object json_loads yaml_safe_load (fs (h ++ before)) p = Ok document
                    ∧ obj_get document "candidateCommit" = JStr (candidateCommit r)
                    ∧ obj_get document "changeId" = JStr change_id ∧ obj_get document "decision" = JStr "ACCEPT"
                    ∧ j_truthy (obj_get document "reviewer") = true ∧ j_truthy (obj_get document "rationale") = true
                    ∧ listed_paths document = Ok listed ∧ path ∈ listed)).
Proof.
  intros H. unfold build_report in H.
  apply eff_bind_Ok in H as (catalogue & t1 & t2 & Hcat & H & ->). apply reading_Ok in Hcat as [Hcat ->].
  apply eff_bind_Ok in H as (owners & t3 & t4 & Ho & H & ->).
  apply lift_Ok in Ho as [Ho ->]. apply eff_bind_Ok in H as (base_commit & t5 & t6 & Hb & H & ->).
  apply resolve_commit_Ok in Hb as [-> Hb]. apply eff_bind_Ok in H as (candidate_commit & t7 & t8 & Hc & H & ->).
  apply resolve_commit_Ok in Hc as [-> Hc]. apply eff_bind_Ok in H as ([] & t9 & t10 & Ha & H & ->).
  apply require_ancestor_Ok in Ha as (ancestry & ->). apply eff_bind_Ok in H as (paths & t11 & t12 & Hp & H & ->).
  apply changed_paths_Ok in Hp as (output & -> & ->). apply eff_bind_Ok in H as (preview & t13 & t14 & Hpre & H & ->).
  apply lift_Ok in Hpre as [Hpre ->]. apply eff_bind_Ok in H as (disp & t15 & t16 & Hd & H & ->).
  apply eff_bind_Ok in H as (i & t17 & t18 & Hi & H & ->). apply lift_Ok in Hi as [Hi ->].
  apply eff_bind_Ok in H as (now & t19 & t20 & _ & H & ->). apply eff_bind_Ok in H as (known & t21 & t22 & _ & H & ->).
  apply eff_bind_Ok in H as (status & t23 & t24 & _ & H & ->). apply mret_Ok in H as [<- ->].
  cbn [impact baseCommit candidateCommit].
  apply evaluate_changes_Ok in Hi as (owners' & Ho' & Htot & Hunk & Hcross & Hpass & Hverdict).
  rewrite Ho in Ho'. injection Ho' as <-. split; [exact Hverdict|]. intros (Hu & Hrej & Hx)%Hpass.
  exists catalogue, owners, output, ancestry.
  split; [exact Hcat|]. split; [exact Ho|].
  do 4 (split; [rewrite !elem_of_app, !elem_of_cons; clear; tauto|]). split; [done|]. split; [done|].
  intros path Hin Hne.
  assert (path ∈ sorted_set (List.filter truthy (splitlines output))) as Hpath.
  { unfold sorted_set. rewrite elem_of_py_sorted, elem_of_remove_dups, list_elem_of_In, filter_In, <-list_elem_of_In.
    split; [done|]. unfold truthy. by destruct path. }
  destruct (Htot path Hpath) as (owner & Hcl).
  assert (owner ≠ JStr "unknown") as Hknown.
  { intros ->. assert (path ∈ unknownPaths i) as Hbad by by apply Hunk. rewrite Hu in Hbad. by apply not_elem_of_nil in Hbad. }
  destruct (classify_path_cases _ _ _ _ Hcl) as [Hout|[Hown|?]]; [by left| |done].
  right. exists owner. split; [exact Hown|]. split; [exact Hknown|].
  destruct (py_eq owner (JStr "non-production")) eqn:Hnp; [right; left; by apply py_eq_str|apply py_eq_str_false in Hnp].
  destruct (py_eq owner (JStr expected_owner)) eqn:Hexp; [left; by apply py_eq_str|apply py_eq_str_false in Hexp].
  right. right.
  assert (path ∈ crossBoundaryPaths i) as Hcr by (apply Hcross; split; [done|]; by exists owner).
  destruct dpath as [p|].
  - apply reading_Ok in Hd as [Hd ->]. destruct (validate_disposition _ _ _ _ _ _ _ _) as [d|] eqn:Hv; [|discriminate Hd].
    injection Hd as <-. apply validate_disposition_Ok in Hv as (document & Hl & H1 & H2 & H3 & H4 & H5 & H6 & H7).
    specialize (Hrej d eq_refl). destruct H5 as [H5|H5]; [|done]. rewrite H5 in H4. rewrite <-!app_assoc in Hl.
    eexists _, _, p, document, (crossBoundaryPaths preview). split; [|split; [done|split; [exact Hl|]]].
    { rewrite <-!app_assoc. reflexivity. }
    split_and!; try done.
    apply evaluate_changes_Ok in Hpre as (owners' & Ho' & _ & _ & Hcross' & _). rewrite Ho in Ho'. injection Ho' as <-.
    apply Hcross'. by apply Hcross.
  - apply mret_Ok in Hd as [<- _]. destruct Hx as [Hx|Hx]; [|done]. rewrite Hx in Hcr. by apply not_elem_of_nil in Hcr.
Qed.
End impact_facts.

(** ** A reviewed change *)

Definition sample_commit (reference : string) : string :=
  (if String.eqb reference "base^{commit}" then "1" else "2") +:+ "000000000000000000000000000000000000000".

Definition sample_git (h : history) (command : list string) (timeout : option Z) : result string :=
  match command with
  | [_; "rev-parse"; _; reference] => Ok (sample_commit reference)
  | _ => Ok ("backend/api/auth.py" +:+ String "010" ("backend/tests/test_auth.py" +:+ String "010" "deploy/compose.yml"))
  end.

Definition sample_impact_world : world :=
  mkWorld sample_git (λ _ _, Ok (0, "")) (λ _, PrimFloat.zero) (λ _, mkDatetime 1735689600000000 (Some 0))
    (λ _ _, NoResponse) (λ _ _ _, Ok ()) (λ _ _ _, Ok ()).

Definition sample_owner (id prefix : string) : jval := JObj [("id", JStr id); ("prefix", JStr prefix)].

Definition sample_impact_document (name : string) : result jval :=
  if String.eqb name "change-impact-ownership.yml"
  then Ok (JObj [("status", JStr "CONTROLLED");
                 ("productionOwners", JList [sample_owner "backend" "backend/"; sample_owner "auth" "services/auth-policy/";
                    sample_owner "media" "services/media-control/"; sample_owner "dashboard" "gcs-dashboard/";
                    sample_owner "contracts" "contracts/"; sample_owner "deployment" "deploy/"]);
                 ("nonProductionPrefixes", JList [JStr "docs/"]); ("nonProductionPaths", JList [JStr "README.md"]);
                 ("nonProductionPatterns", JList [JStr "backend/tests/*"]);
                 ("thresholds", JObj [("status", JStr "PROPOSED_NOT_APPROVED")])])
  else Ok (JObj [("candidateCommit", JStr (sample_commit "candidate")); ("changeId", JStr "C-1");
                 ("crossBoundaryPaths", JList [JStr "deploy/compose.yml"]); ("reviewer", JStr "lead");
                 ("decision", JStr "ACCEPT"); ("rationale", JStr "port change")]).

Definition sample_impact_files : files :=
  mkFiles (λ _, Ok true) (λ _, Ok true) (λ _, Ok 0) (λ _, Ok 384) (λ p, Ok (utf8_encode (path_name p))).

Definition sample_impact (disposition : option fs_path) : option (result ChangeReport) * history :=
  build_report sample_impact_document sample_impact_document (λ _, "repr") (λ _ _, false) sample_impact_world
    (λ _, sample_impact_files) (parse_path "/repo") "base" "candidate" "backend" "C-1" disposition [].

Example unreviewed_change :
  match (sample_impact None).1 with Some (Ok r) => technicalResult (impact r) | _ => "" end = "REVIEW_REQUIRED".
Proof. vm_compute. reflexivity. Qed.

Lemma clean_change_reviewed_witness :
  ∃ r t catalogue owners, sample_impact (Some (parse_path "/review.json")) = (Some (Ok r), t)
    ∧ technicalResult (impact r) = "PASS" ∧ validate_catalogue catalogue = Ok owners.
Proof.
  destruct (sample_impact (Some (parse_path "/review.json"))) as [[[r|e]|] t] eqn:E; [|vm_compute in E; discriminate E..].
  assert (technicalResult (impact r) = "PASS") as Hr by (vm_compute in E; by injection E as <- _).
  destruct (clean_change_reviewed sample_impact_document sample_impact_document (λ _, "repr") (λ _ _, false)
    sample_impact_world (λ _, sample_impact_files) (parse_path "/repo") "base" "candidate" "backend" "C-1"
    (Some (parse_path "/review.json")) [] r t E) as [_ H].
  destruct (H Hr) as (catalogue & owners & _ & _ & _ & Hc & _). by exists r, t, catalogue, owners.
Defined.
