(* ===== verification/Http.v ===== *)
(** HTTP messages and the applications that answer them, as the middlewares of
    [backend/main.py] and [backend/core/tracing.py] see them.

    An application is a function of what has happened before and of the request;
    it answers with what happened meanwhile, the route the router has recorded
    in the request's scope, and a response or an exception. *)

From stdpp Require Import base list strings.
From Stdlib Require Import ZArith Lia Ascii.
From S2P Require Import Prelude PyStr PyJson Security.

#[local] Open Scope Z_scope.

(** ** Headers: raw pairs with lower-case names *)

Definition header_key (name : string) : string := map_chars lower_ascii name.

(** [headers.get(name)]: the first value. *)
Definition header_get (headers : list (string * string)) (name : string) : option string :=
  dict_get headers (header_key name).

(** [headers.setdefault(name, value)] *)
Definition header_setdefault (name value : string) (headers : list (string * string)) : list (string * string) :=
  match header_get headers name with Some _ => headers | None => headers ++ [(header_key name, value)] end.

(** [headers[name] = value]: the first occurrence is replaced, the others are removed. *)
Fixpoint header_set (name value : string) (headers : list (string * string)) : list (string * string) :=
  match headers with
  | [] => [(header_key name, value)]
  | (k, v) :: rest =>
      if String.eqb k (header_key name)
      then (k, value) :: filter (λ kv, kv.1 ≠ header_key name) rest
      else (k, v) :: header_set name value rest
  end.

(** ** Messages *)

(** [hr_route]: the template of the route in the scope, once the router has put it there. *)
Record HttpRequest : Type := mkHttpRequest {
  hr_method : string;
  hr_path : string;
  hr_request : Request;
  hr_route : option string
}.

Record Response : Type := mkResponse {
  status_code : Z;
  headers : list (string * string);
  body : jval
}.

(** ** What happens while a request is served *)
Inductive app_event : Type :=
  | SpanStart (trace_id name : string)
  | SpanAttribute (name : string) (value : jval)
  | SpanEnd
  | LogLine (event : list (string * jval))
  | EndpointCalled (name : string).

Record served : Type := mkServed {
  sv_events : list app_event;
  sv_route : option string;
  sv_response : result Response
}.

Definition application : Type := list app_event → HttpRequest → served.

(** The spans that are open, the current one first. *)
Definition open_spans (events : list app_event) : list string :=
  foldl (λ spans e, match e with SpanStart id _ => id :: spans | SpanEnd => tail spans | _ => spans end) [] events.

Definition current_trace_id (events : list app_event) : option string := head (open_spans events).

(** ** Header lemmas *)

Lemma header_get_app hs k v name :
  header_get (hs ++ [(k, v)]) name
  = match header_get hs name with Some w => Some w | None => if decide (header_key name = k) then Some v else None end.
Proof. unfold header_get. induction hs as [|[k' v'] hs IH]; [done|]. cbn. rewrite IH. by destruct (decide (header_key name = k')). Qed.

Lemma header_get_setdefault name value name' hs :
  header_get (header_setdefault name value hs) name'
  = match header_get hs name' with
    | Some w => Some w
    | None => if decide (header_key name' = header_key name) then Some value else None
    end.
Proof.
  unfold header_setdefault. destruct (header_get hs name) as [w|] eqn:E; [|apply header_get_app].
  destruct (header_get hs name') eqn:E'; [done|]. case_decide as H; [|done].
  unfold header_get in *. rewrite H in E'. congruence.
Qed.

Lemma header_get_set name value name' hs :
  header_get (header_set name value hs) name'
  = if decide (header_key name' = header_key name) then Some value else header_get hs name'.
Proof.
  unfold header_get. induction hs as [|[k v] hs IH]; cbn; [done|].
  destruct (String.eqb_spec k (header_key name)) as [->|Hk]; cbn.
  - destruct (decide (header_key name' = header_key name)) as [Heq|Hne]; [done|]. clear IH.
    induction hs as [|[k' v'] hs IH]; [done|]. rewrite filter_cons. cbn. destruct (decide (k' = header_key name)) as [->|Hd]; cbn.
    + rewrite (decide_False (P := header_key name ≠ header_key name)) by auto. by rewrite decide_False.
    + rewrite (decide_True (P := k' ≠ header_key name)) by done. cbn. by rewrite IH.
  - destruct (decide (header_key name' = k)) as [->|]; [by rewrite decide_False|exact IH].
Qed.

Lemma header_get_foldl_set (injected : list (string * string)) name hs :
  Forall (λ kv, header_key kv.1 ≠ header_key name) injected →
  header_get (foldl (λ hs '(k, v), header_set k v hs) hs injected) name = header_get hs name.
Proof.
  revert hs. induction injected as [|[k v] injected IH]; intros hs H; [done|].
  inversion H as [|? ? Hk Hrest]; subst. cbn [foldl].
  etransitivity; [by apply IH|]. cbn in Hk. rewrite header_get_set, decide_False; [done|]. by intros Heq; apply Hk.
Qed.
