(* ===== verification/Tracing.v ===== *)
(** Tracing: [backend/core/tracing.py].

    The tracing library is a set of parameters: the trace id a new span gets
    from its context and the headers it propagates.  A span is a pair of events
    around what happens inside it. *)

From stdpp Require Import base list strings.
From Stdlib Require Import ZArith Lia Floats.
From S2P Require Import Prelude PyStr PyFloat PyJson Url Settings Security Http.

#[local] Open Scope Z_scope.

(** [backend/core/tracing.py:21-23] TraceHeaders *)
Module TraceHeaders.
Definition TRACEPARENT : string := "traceparent".
Definition TRACESTATE : string := "tracestate".
End TraceHeaders.

(** [backend/core/tracing.py:26-29] TraceExporters *)
Module TraceExporters.
Definition NONE : string := "none".
Definition CONSOLE : string := "console".
Definition OTLP : string := "otlp".
End TraceExporters.

(** [backend/core/tracing.py:32-37] TraceDefaults *)
Module TraceDefaults.
Definition OTLP_ENDPOINT : string := "http://otel-collector:4317".
Definition EXPORT_TIMEOUT_SECONDS : float := 1%float.
Definition MAX_QUEUE_SIZE : Z := 512.
Definition MAX_EXPORT_BATCH_SIZE : Z := 128.
Definition SCHEDULE_DELAY_MILLIS : Z := 2000.
End TraceDefaults.

(** [backend/core/tracing.py:40-47] TraceAttributeNames *)
Module TraceAttributeNames.
Definition COMPONENT : string := "gcs.component".
Definition SCHEMA_VERSION : string := "gcs.schema_version".
Definition HTTP_METHOD : string := "http.request.method".
Definition HTTP_ROUTE : string := "http.route".
Definition HTTP_STATUS_CODE : string := "http.response.status_code".
Definition MESSAGING_SYSTEM : string := "messaging.system".
Definition MESSAGING_DESTINATION_CHANNEL : string := "messaging.destination.channel".
End TraceAttributeNames.

(** ** Settings *)

(** [backend/core/tracing.py:50-69] TracingSettings *)
Record TracingSettings : Type := mkTracing {
  tr_enabled : bool;
  service_name : string;
  exporter : string;
  otlp_endpoint : string;
  export_timeout_seconds : float;
  max_queue_size : Z;
  max_export_batch_size : Z
}.

Section settings.
Context (env : environment) (parse_bool_setting : string → result bool) (parse_int_setting : string → result Z)
  (parse_float_setting : string → result float).
Context (unicode_lower : string → string) (bracketed_netloc_ok nfkc_ok : string → bool).

(** [backend/core/tracing.py:71-76] default_blank_service_name *)
Definition default_blank_service_name (value : string) : string :=
  opt_or (empty_to_none (Some value)) "gcs-saker-python-backend".

(** [backend/core/tracing.py:78-83] normalize_exporter *)
Definition normalize_exporter (value : string) : string :=
  lower unicode_lower (opt_or (empty_to_none (Some value)) TraceExporters.NONE).

(** The hosts a collector may have. *)
Definition COLLECTOR_HOSTS : list string := ["otel-collector"; "127.0.0.1"; "localhost"].

Definition internal_endpoint (endpoint : SplitResult) : bool :=
  String.eqb (url_scheme endpoint) "http"
  && match hostname unicode_lower endpoint with Some host => bool_decide (host ∈ COLLECTOR_HOSTS) | None => false end.

(** [backend/core/tracing.py:85-95] validate_exporter_boundary *)
Definition validate_exporter_boundary (self : TracingSettings) : result TracingSettings :=
  if negb (bool_decide (exporter self ∈ [TraceExporters.NONE; TraceExporters.CONSOLE; TraceExporters.OTLP]))
  then value_error "unsupported trace exporter" else
  if max_queue_size self <? max_export_batch_size self
  then value_error "trace export batch cannot exceed queue size" else
  if String.eqb (exporter self) TraceExporters.OTLP then
    endpoint ← urlsplit bracketed_netloc_ok nfkc_ok (otlp_endpoint self);
    if internal_endpoint endpoint then Ok self
    else value_error "OTLP endpoint must use the internal collector boundary"
  else Ok self.

Definition field_between (name : string) (dflt low high : Z) : result Z :=
  match env name with
  | None => Ok dflt
  | Some v =>
      n ← parse_int_setting v;
      if (low <=? n) && (n <=? high) then Ok n else validation_error (name +:+ ": Input is out of range")
  end.

Definition field_timeout (name : string) (dflt high : float) : result float :=
  match env name with
  | None => Ok dflt
  | Some v =>
      x ← parse_float_setting v;
      if ((0 <? x) && (x <=? high))%float then Ok x else validation_error (name +:+ ": Input is out of range")
  end.

Definition field_text (name dflt : string) (validate : string → string) : string :=
  match env name with None => dflt | Some v => validate v end.

(** [backend/core/tracing.py:97-102] from_env *)
Definition tracing_from_env : result TracingSettings :=
  load_settings
    (enabled ← field_bool env parse_bool_setting "OTEL_TRACES_ENABLED" false;
     timeout ← field_timeout "OTEL_EXPORT_TIMEOUT_SECONDS" TraceDefaults.EXPORT_TIMEOUT_SECONDS 5%float;
     queue ← field_between "OTEL_BSP_MAX_QUEUE_SIZE" TraceDefaults.MAX_QUEUE_SIZE 64 4096;
     batch ← field_between "OTEL_BSP_MAX_EXPORT_BATCH_SIZE" TraceDefaults.MAX_EXPORT_BATCH_SIZE 1 512;
     catch (validate_exporter_boundary {|
       tr_enabled := enabled;
       service_name := field_text "OTEL_SERVICE_NAME" "gcs-saker-python-backend" default_blank_service_name;
       exporter := field_text "OTEL_TRACES_EXPORTER" TraceExporters.NONE normalize_exporter;
       otlp_endpoint := field_text "OTEL_EXPORTER_OTLP_ENDPOINT" TraceDefaults.OTLP_ENDPOINT id;
       export_timeout_seconds := timeout;
       max_queue_size := queue;
       max_export_batch_size := batch |})
       ExcValueError (λ msg, validation_error ("model: " +:+ msg))) "tracing".
End settings.

(** ** Exporters and processors *)

Inductive span_exporter : Type :=
  | ConsoleSpanExporter
  | OTLPSpanExporter (endpoint : string) (insecure : bool) (timeout : float)
  | GivenExporter (name : string).

Inductive span_processor : Type :=
  | SimpleSpanProcessor (e : span_exporter)
  | BatchSpanProcessor (e : span_exporter) (queue delay_millis batch timeout_millis : Z).

Record TracerProvider : Type := mkTracerProvider { tp_service : string; tp_processor : option span_processor }.

(** [backend/core/tracing.py:129-138] exporter_from_settings *)
Definition exporter_from_settings (s : TracingSettings) : option span_exporter :=
  if String.eqb (exporter s) TraceExporters.CONSOLE then Some ConsoleSpanExporter
  else if String.eqb (exporter s) TraceExporters.OTLP
  then Some (OTLPSpanExporter (otlp_endpoint s) true (export_timeout_seconds s))
  else None.

(** [backend/core/tracing.py:113-126] span_processor_for *)
Definition span_processor_for (s : TracingSettings) (e : span_exporter) (explicit_exporter : bool) : result span_processor :=
  if explicit_exporter || negb (String.eqb (exporter s) TraceExporters.OTLP) then Ok (SimpleSpanProcessor e)
  else millis ← trunc_float (export_timeout_seconds s * 1000)%float;
       Ok (BatchSpanProcessor e (max_queue_size s) TraceDefaults.SCHEDULE_DELAY_MILLIS (max_export_batch_size s) millis).

(** [backend/core/tracing.py:105-110] build_tracer_provider *)
Definition build_tracer_provider (s : TracingSettings) (given : option span_exporter) : result TracerProvider :=
  match match given with Some e => Some e | None => exporter_from_settings s end with
  | Some e => p ← span_processor_for s e (bool_decide (given ≠ None)); Ok (mkTracerProvider (service_name s) (Some p))
  | None => Ok (mkTracerProvider (service_name s) None)
  end.

(** [backend/core/tracing.py:148-154] configure_global_tracing *)
Definition configure_global_tracing (s : TracingSettings) : result (option TracerProvider) :=
  if negb (tr_enabled s) then Ok None else Some <$> build_tracer_provider s None.

(** ** Spans *)

(** [backend/core/tracing.py:202-205] route_template: [str(path or request.url.path)] *)
Definition route_template (route : option string) (path : string) : string := opt_or route path.

Section spans.
(** The trace id of a span that starts after [history] under the extracted
    context, and the headers that propagate it. *)
Context (start_trace : list app_event → list (string * string) → string) (inject : string → list (string * string)).

(** [with tracer.start_as_current_span(name, context=...) as span]: the span ends with the block, however it ends. *)
Definition with_span (history : list app_event) (context : list (string * string)) (name : string)
    (attributes : list (string * jval)) (inside : list app_event → list app_event) : list app_event :=
  let opened := SpanStart (start_trace history context) name :: map (λ kv, SpanAttribute kv.1 kv.2) attributes in
  opened ++ inside (history ++ opened) ++ [SpanEnd].

(** [backend/core/tracing.py:163-168] extract_trace_context *)
Definition extract_trace_context (request : Request) : list (string * string) :=
  [(TraceHeaders.TRACEPARENT, default "" (rq_header request TraceHeaders.TRACEPARENT));
   (TraceHeaders.TRACESTATE, default "" (rq_header request TraceHeaders.TRACESTATE))].

(** [backend/core/tracing.py:171-172] inject_trace_headers: into an empty carrier, in a current span or in none *)
Definition inject_trace_headers (history : list app_event) : list (string * string) :=
  match current_trace_id history with Some id => inject id | None => [] end.

(** [backend/core/tracing.py:175-199] trace_fastapi_request *)
Definition trace_fastapi_request (enabled : bool) (call_next : application) : application := λ history request,
  if negb enabled then call_next history request else
  let parent_context := extract_trace_context (hr_request request) in
  let route := route_template (hr_route request) (hr_path request) in
  let opened := [SpanStart (start_trace history parent_context) ("HTTP " +:+ hr_method request +:+ " " +:+ route);
                 SpanAttribute TraceAttributeNames.COMPONENT (JStr "python-fallback");
                 SpanAttribute TraceAttributeNames.HTTP_METHOD (JStr (hr_method request));
                 SpanAttribute TraceAttributeNames.HTTP_ROUTE (JStr route)] in
  let s := call_next (history ++ opened) request in
  match sv_response s with
  | Raise e => mkServed (opened ++ sv_events s ++ [SpanEnd]) (sv_route s) (Raise e)
  | Ok response =>
      let response_headers := inject_trace_headers (history ++ opened ++ sv_events s) in
      mkServed (opened ++ sv_events s
                ++ [SpanAttribute TraceAttributeNames.HTTP_STATUS_CODE (JInt (status_code response)); SpanEnd])
        (sv_route s)
        (Ok (mkResponse (status_code response)
               (foldl (λ hs '(name, value), header_set name value hs) (headers response) response_headers)
               (body response)))
  end.

(** [backend/core/tracing.py:208-217] trace_ai_sidecar_call *)
Definition trace_ai_sidecar_call (history : list app_event) (schema_version : string)
    (inside : list app_event → list app_event) : list app_event :=
  with_span history [] "ai.sidecar.detect"
    [(TraceAttributeNames.COMPONENT, JStr "ai-sidecar"); (TraceAttributeNames.SCHEMA_VERSION, JStr schema_version)] inside.

(** [backend/core/tracing.py:220-225] trace_mqtt_publish *)
Definition trace_mqtt_publish (history : list app_event) (destination_channel : string)
    (inside : list app_event → list app_event) : list app_event :=
  with_span history [] "mqtt.publish"
    [(TraceAttributeNames.MESSAGING_SYSTEM, JStr "mqtt");
     (TraceAttributeNames.MESSAGING_DESTINATION_CHANNEL, JStr destination_channel)] inside.

(** ** What the middleware adds *)

(** Events that open and close their own spans leave those that were open. *)
Definition balanced (events : list app_event) : Prop :=
  ∀ spans, foldl (λ spans e, match e with SpanStart id _ => id :: spans | SpanEnd => tail spans | _ => spans end) spans events
           = spans.

Lemma balanced_open history events : balanced events → open_spans (history ++ events) = open_spans history.
Proof. intros H. unfold open_spans. rewrite foldl_app. apply H. Qed.

Lemma trace_fastapi_request_balanced enabled call_next history request :
  (∀ h, balanced (sv_events (call_next h request))) →
  balanced (sv_events (trace_fastapi_request enabled call_next history request)).
Proof.
  intros H. unfold trace_fastapi_request. destruct enabled; [|apply H]. cbn [negb].
  destruct (sv_response _); cbn [sv_events]; intros spans; cbn [app foldl]; by rewrite foldl_app, H.
Qed.

Lemma with_span_balanced history context name attributes inside :
  (∀ h, balanced (inside h)) → balanced (with_span history context name attributes inside).
Proof.
  intros H spans. unfold with_span. rewrite !foldl_app. cbn [foldl].
  assert (∀ spans, foldl (λ spans e, match e with SpanStart id _ => id :: spans | SpanEnd => tail spans | _ => spans end)
            spans (map (λ kv, SpanAttribute kv.1 kv.2) attributes) = spans) as ->.
  { induction attributes as [|kv attributes IH]; intros; cbn; [done|apply IH]. }
  by rewrite H.
Qed.
End spans.

(** ** What leaves the process *)

Lemma load_settings_Ok {A} (m : result A) label a : load_settings m label = Ok a → m = Ok a.
Proof. unfold load_settings, catch. destruct m as [|[c msg|]]; [done| |done]. by destruct (subclass c _). Qed.

Section boundary.
Context (env : environment) (parse_bool_setting : string → result bool) (parse_int_setting : string → result Z)
  (parse_float_setting : string → result float).
Context (unicode_lower : string → string) (bracketed_netloc_ok nfkc_ok : string → bool).

Lemma field_between_Ok name dflt low high n :
  field_between env parse_int_setting name dflt low high = Ok n → low <= dflt <= high → low <= n <= high.
Proof.
  unfold field_between. destruct (env name); [|by intros [= <-]]. intros (m & _ & H)%bind_Ok _.
  destruct (_ && _) eqn:E; [|discriminate H]. injection H as <-. apply andb_true_iff in E. lia.
Qed.

Lemma field_timeout_Ok name dflt high x :
  field_timeout env parse_float_setting name dflt high = Ok x →
  ((0 <? dflt) && (dflt <=? high))%float = true → ((0 <? x) && (x <=? high))%float = true.
Proof.
  unfold field_timeout. destruct (env name); [|by intros [= <-]]. intros (m & _ & H)%bind_Ok _.
  destruct (_ && _) eqn:E; [|discriminate H]. by injection H as <-.
Qed.

Lemma validate_exporter_boundary_Ok self s :
  validate_exporter_boundary unicode_lower bracketed_netloc_ok nfkc_ok self = Ok s →
  s = self ∧ max_export_batch_size self <= max_queue_size self
  ∧ (exporter self = TraceExporters.OTLP → ∃ endpoint,
       urlsplit bracketed_netloc_ok nfkc_ok (otlp_endpoint self) = Ok endpoint ∧ internal_endpoint unicode_lower endpoint = true).
Proof.
  unfold validate_exporter_boundary. case_bool_decide; [|done]. cbn [negb]. destruct (Z.ltb_spec (max_queue_size self) (max_export_batch_size self)); [done|].
  destruct (String.eqb_spec (exporter self) TraceExporters.OTLP) as [_|Hne].
  - intros (endpoint & Hu & H')%bind_Ok. destruct (internal_endpoint _ _) eqn:E; [|discriminate H'].
    injection H' as <-. split_and!; [done|done|]. intros _. by exists endpoint.
  - intros [= <-]. by split_and!.
Qed.

(** tracing that the environment configures sends spans to nothing but the
    console or a collector inside the deployment: plain HTTP to otel-collector,
    127.0.0.1 or localhost.  Its batches fit its queue, the queue holds at most
    4096 spans, and an export waits at most five seconds. *)
Theorem trace_export_bounded s provider :
  tracing_from_env env parse_bool_setting parse_int_setting parse_float_setting unicode_lower bracketed_netloc_ok nfkc_ok = Ok s →
  configure_global_tracing s = Ok (Some provider) →
  tr_enabled s = true
  ∧ ((0 <? export_timeout_seconds s) && (export_timeout_seconds s <=? 5))%float = true
  ∧ match tp_processor provider with
    | None | Some (SimpleSpanProcessor ConsoleSpanExporter) => True
    | Some (BatchSpanProcessor (OTLPSpanExporter target _ timeout) queue _ batch _) =>
        timeout = export_timeout_seconds s ∧ 1 <= batch <= queue ∧ queue <= 4096
        ∧ ∃ endpoint, urlsplit bracketed_netloc_ok nfkc_ok target = Ok endpoint ∧ url_scheme endpoint = "http"
            ∧ ∃ host, hostname unicode_lower endpoint = Some host ∧ host ∈ ["otel-collector"; "127.0.0.1"; "localhost"]
    | _ => False
    end.
Proof.
  intros H%load_settings_Ok Hp. apply bind_Ok in H as (enabled & _ & H).
  apply bind_Ok in H as (timeout & Ht & H). apply bind_Ok in H as (queue & Hq & H). apply bind_Ok in H as (batch & Hb & H).
  apply field_timeout_Ok in Ht; [|reflexivity]. apply field_between_Ok in Hq; [|done]. apply field_between_Ok in Hb; [|done].
  unfold catch in H. destruct (validate_exporter_boundary _ _ _ _) as [s'|[c msg|]] eqn:Hv;
    [|destruct (subclass c _); discriminate H|discriminate H]. injection H as ->.
  apply validate_exporter_boundary_Ok in Hv as (-> & Hbq & Hin). cbn in Hbq, Hin.
  unfold configure_global_tracing in Hp. cbn [tr_enabled] in Hp. destruct enabled; [|discriminate Hp].
  split; [done|]. split; [exact Ht|]. cbn [negb] in Hp.
  set (settings := mkTracing _ _ _ _ _ _ _) in *.
  destruct (build_tracer_provider settings None) as [p|] eqn:E; [|discriminate Hp]. injection Hp as <-.
  unfold build_tracer_provider, exporter_from_settings in E.
  destruct (String.eqb_spec (exporter settings) TraceExporters.CONSOLE) as [Hc|Hc].
  - unfold span_processor_for in E. rewrite Hc in E. cbn in E. by injection E as <-.
  - destruct (String.eqb_spec (exporter settings) TraceExporters.OTLP) as [Ho|Ho]; [|by injection E as <-].
    apply bind_Ok in E as (processor & Hpr & [= <-]). unfold span_processor_for in Hpr. rewrite Ho in Hpr. cbn [orb negb] in Hpr.
    apply bind_Ok in Hpr as (millis & _ & [= <-]). cbn.
    destruct (Hin Ho) as (endpoint & Hu & Hi). split_and!; [done|lia..|].
    exists endpoint. unfold internal_endpoint in Hi. apply andb_true_iff in Hi as [Hs Hh]. apply String.eqb_eq in Hs.
    destruct (hostname unicode_lower endpoint) as [host|]; [|discriminate Hh]. apply bool_decide_eq_true in Hh.
    split_and!; [exact Hu|done|]. by exists host.
Qed.
End boundary.

Definition sample_trace_env : environment := λ name,
  if String.eqb name "OTEL_TRACES_ENABLED" then Some "true"
  else if String.eqb name "OTEL_TRACES_EXPORTER" then Some " OTLP "
  else if String.eqb name "OTEL_BSP_MAX_EXPORT_BATCH_SIZE" then Some "64" else None.

Definition sample_trace_settings : result TracingSettings :=
  tracing_from_env sample_trace_env sample_parse_bool (λ _, Ok 64) (λ _, Ok 1%float) (λ s, s) (λ _, true) (λ _, true).

Example external_collector_refused :
  is_ok (tracing_from_env (λ name, if String.eqb name "OTEL_TRACES_EXPORTER" then Some "otlp"
                                  else if String.eqb name "OTEL_EXPORTER_OTLP_ENDPOINT" then Some "http://collector.example:4317"
                                  else None)
    sample_parse_bool (λ _, Ok 64) (λ _, Ok 1%float) (λ s, s) (λ _, true) (λ _, true)) = false.
Proof. vm_compute. reflexivity. Qed.

Lemma trace_export_bounded_witness :
  ∃ s provider, sample_trace_settings = Ok s ∧ configure_global_tracing s = Ok (Some provider) ∧ tr_enabled s = true.
Proof.
  destruct sample_trace_settings as [s|] eqn:E; [|vm_compute in E; discriminate E].
  destruct (configure_global_tracing s) as [[provider|]|] eqn:Ep;
    [|exfalso; vm_compute in E; injection E as <-; vm_compute in Ep; discriminate Ep..].
  exists s, provider. split; [done|]. split; [exact Ep|].
  by destruct (trace_export_bounded _ _ _ _ _ _ _ s provider E Ep) as [H _].
Defined.
