(* ===== verification/App.v ===== *)
(** The assembled service: [backend/api/contracts.py] and [backend/main.py].

    The middlewares wrap the library's CORS handling, which wraps the router;
    the router checks the role a route asks for and calls its endpoint.
    Endpoints, CORS and the answer to an unmatched path are parameters: the
    endpoints are the operations of the other files.  The documentation routes
    the framework adds by itself are left out. *)

From stdpp Require Import base list strings.
From Stdlib Require Import ZArith Lia Floats Ascii.
From S2P Require Import Prelude PyStr PyStrFacts PyFloat PyTime PyJson Settings Security Logging Http Tracing.

#[local] Open Scope Z_scope.

(** ** Routes and headers *)

(** [backend/api/contracts.py:6-11] AuthRoutes *)
Module AuthRoutes.
Definition SIGNUP : string := "/signup".
Definition LOGIN : string := "/login".
Definition REFRESH : string := "/refresh".
Definition LOGOUT : string := "/logout".
Definition ME : string := "/me".
End AuthRoutes.

(** [backend/api/contracts.py:31-33] RootRoutes *)
Module RootRoutes.
Definition ROOT : string := "/".
Definition METRICS : string := "/metrics".
End RootRoutes.

(** [backend/api/contracts.py:36-41] RouterPrefixes *)
Module RouterPrefixes.
Definition AUTH : string := "/auth".
Definition STREAM_LEGACY : string := "/stream".
Definition API_V1 : string := "/api/v1".
Definition TELEMETRY : string := "/telemetry".
Definition ASSET : string := "/asset".
End RouterPrefixes.

(** [backend/api/contracts.py:44-46] HealthRoutes *)
Module HealthRoutes.
Definition HEALTHZ : string := "/healthz".
Definition READYZ : string := "/readyz".
End HealthRoutes.

(** [backend/api/contracts.py:49-61] SecurityHeaderNames *)
Module SecurityHeaderNames.
Definition X_CONTENT_TYPE_OPTIONS : string := "X-Content-Type-Options".
Definition X_FRAME_OPTIONS : string := "X-Frame-Options".
Definition REFERRER_POLICY : string := "Referrer-Policy".
Definition PERMISSIONS_POLICY : string := "Permissions-Policy".
Definition CONTENT_SECURITY_POLICY : string := "Content-Security-Policy".
Definition DEPRECATION : string := "Deprecation".
Definition X_GCS_LEGACY_FALLBACK : string := "X-GCS-Legacy-Fallback".
Definition X_GCS_REPLACEMENT_ROUTE : string := "X-GCS-Replacement-Route".
End SecurityHeaderNames.

(** [backend/api/contracts.py:64-70] SecurityHeaderValues *)
Module SecurityHeaderValues.
Definition TRUE : string := "true".
Definition NOSNIFF : string := "nosniff".
Definition DENY : string := "DENY".
Definition NO_REFERRER : string := "no-referrer".
Definition SELF_DEVICE_PERMISSIONS : string := "camera=(self), microphone=(self), geolocation=(self)".
Definition LEGACY_FALLBACK_DIRECT : string := "direct-backend-legacy".
End SecurityHeaderValues.

(** [backend/api/contracts.py:73-74] AssetRoutes *)
Module AssetRoutes.
Definition BY_GATEWAY_UUID : string := "/{uuid}".
End AssetRoutes.

(** [backend/api/contracts.py:81-83] TelemetryRoutes *)
Module TelemetryRoutes.
Definition INGEST : string := "/".
Definition ALL : string := "/all".
End TelemetryRoutes.

(** [backend/api/contracts.py:86-95] StreamRoutes *)
Module StreamRoutes.
Definition MODULE_PREFIX : string := "/module".
Definition STATUS : string := "/status".
Definition PATH_FROM_ID : string := "/paths/from-id/{stream_id}".
Definition PATH_FROM_PATH : string := "/paths/from-path/{stream_path:path}".
Definition STREAMS : string := "/streams".
Definition ICE_SERVERS : string := "/streams/ice-servers".
Definition PLAYBACK : string := "/streams/{stream_id}/playback".
Definition STREAM_STATUS : string := "/streams/{stream_id}/status".
Definition STREAM_DETAIL : string := "/streams/{stream_id}".
End StreamRoutes.

(** [backend/api/contracts.py:98-99] MapRoutes *)
Module MapRoutes.
Definition CONFIG : string := "/map/config".
End MapRoutes.

(** [backend/api/contracts.py:102-118] LegacyRouteContract *)
Module LegacyRouteContract.
Definition MARKED_PREFIXES : list string := [RouterPrefixes.AUTH; RouterPrefixes.STREAM_LEGACY; RouterPrefixes.API_V1 +:+ "/ai"].
Definition REPLACEMENTS : list (string * string) :=
  [(RouterPrefixes.AUTH, "/auth-policy/auth"); (RouterPrefixes.STREAM_LEGACY, "/media-control/api/v1/streams");
   (RouterPrefixes.API_V1 +:+ "/ai", "edge-ai-sidecar");
   (RouterPrefixes.API_V1 +:+ MapRoutes.CONFIG, "/auth-policy/map/config");
   (RootRoutes.METRICS, "service-local-metrics-only")].
End LegacyRouteContract.

(** ** Security headers *)

(** [backend/main.py:78-84] replacement_for_legacy_path *)
Definition replacement_for_legacy_path (path : string) : option string :=
  match dict_get LegacyRouteContract.REPLACEMENTS path with
  | Some replacement => Some replacement
  | None =>
      prefix ← List.find (λ prefix, String.eqb path prefix || startswith (prefix +:+ "/") path)
                 LegacyRouteContract.MARKED_PREFIXES;
      dict_get LegacyRouteContract.REPLACEMENTS prefix
  end.

(** [backend/main.py:69-75] mark_legacy_route *)
Definition mark_legacy_route (path : string) (hs : list (string * string)) : list (string * string) :=
  match replacement_for_legacy_path path with
  | None => hs
  | Some replacement =>
      header_setdefault SecurityHeaderNames.X_GCS_REPLACEMENT_ROUTE replacement
        (header_setdefault SecurityHeaderNames.X_GCS_LEGACY_FALLBACK SecurityHeaderValues.LEGACY_FALLBACK_DIRECT
           (header_setdefault SecurityHeaderNames.DEPRECATION SecurityHeaderValues.TRUE hs))
  end.

(** The [setdefault] calls of [add_security_headers], in order. *)
Definition security_headers (settings : WebSecuritySettings) : list (string * string) :=
  [(SecurityHeaderNames.X_CONTENT_TYPE_OPTIONS, SecurityHeaderValues.NOSNIFF);
   (SecurityHeaderNames.X_FRAME_OPTIONS, SecurityHeaderValues.DENY);
   (SecurityHeaderNames.REFERRER_POLICY, SecurityHeaderValues.NO_REFERRER);
   (SecurityHeaderNames.PERMISSIONS_POLICY, SecurityHeaderValues.SELF_DEVICE_PERMISSIONS);
   (SecurityHeaderNames.CONTENT_SECURITY_POLICY, content_security_policy settings)].

(** [backend/main.py:33-42] add_security_headers *)
Definition add_security_headers (settings : WebSecuritySettings) (call_next : application) : application := λ history request,
  let s := call_next history request in
  mkServed (sv_events s) (sv_route s)
    (response ← sv_response s;
     let hs := foldl (λ hs '(name, value), header_setdefault name value hs) (headers response) (security_headers settings) in
     Ok (mkResponse (status_code response) (mark_legacy_route (hr_path request) hs) (body response))).

Section service.
(** The clock as a function of what has happened, and the name of an exception's class. *)
Context (perf_counter : list app_event → float) (class_name : exn → string) (unicode_lower : string → string).
Context (start_trace : list app_event → list (string * string) → string) (inject : string → list (string * string)).

(** [backend/main.py:65-66] elapsed_millis *)
Definition elapsed_millis (started_at now : float) : result Z := round_float ((now - started_at) * 1000)%float.

(** A line the request logger writes, unless logging is disabled; the logger is bound to its component. *)
Definition request_log (logs_enabled : bool) (history : list app_event) (level : string) (event : list (string * jval)) :
    list app_event :=
  match log_event unicode_lower logs_enabled (current_trace_id history) level event with
  | Some line => [LogLine line]
  | None => []
  end.

(** What [except Exception] catches. *)
Definition is_exception (e : exn) : bool :=
  match e with PyErr c _ => subclass c ExcException | HttpErr _ _ _ => true end.

(** [backend/main.py:54-62] add_structured_request_log *)
Definition add_structured_request_log (logs_enabled : bool) (call_next : application) : application := λ history request,
  let started_at := perf_counter history in
  let s := call_next history request in
  let now := history ++ sv_events s in
  let route := route_template (sv_route s) (hr_path request) in
  match sv_response s with
  | Raise e =>
      if negb (is_exception e) then s else
      match elapsed_millis started_at (perf_counter now) with
      | Ok duration_ms =>
          mkServed (sv_events s ++ request_log logs_enabled now "error"
                      (request_failed_event "python-api" (hr_method request) route (class_name e) duration_ms))
            (sv_route s) (Raise e)
      | Raise e' => mkServed (sv_events s) (sv_route s) (Raise e')
      end
  | Ok response =>
      match elapsed_millis started_at (perf_counter now) with
      | Ok duration_ms =>
          mkServed (sv_events s ++ request_log logs_enabled now "info"
                      (request_completed_event "python-api" (hr_method request) route (status_code response) duration_ms))
            (sv_route s) (Ok response)
      | Raise e' => mkServed (sv_events s) (sv_route s) (Raise e')
      end
  end.

(** [backend/main.py:45-51] add_trace_span *)
Definition add_trace_span (settings : TracingSettings) (call_next : application) : application :=
  trace_fastapi_request start_trace inject (tr_enabled settings) call_next.
End service.

(** ** Routing *)

(** Who may call an endpoint: its dependencies. *)
Inductive Access : Type :=
  | Public
  | Authenticated
  | MinimumRole (role : UserRole).

#[export] Instance UserRole_eq_dec : EqDecision UserRole.
Proof. solve_decision. Defined.
#[export] Instance Access_eq_dec : EqDecision Access.
Proof. solve_decision. Defined.

Record Route : Type := mkRoute {
  rt_method : string;
  rt_path : string;
  rt_endpoint : string;
  rt_access : Access
}.

(** What a segment of a template matches: itself, a non-empty segment, or the rest of the path. *)
Inductive segment : Type :=
  | Literal (s : string)
  | Parameter_
  | PathParameter.

Definition compile_segment (s : string) : segment :=
  if startswith "{" s && endswith ":path}" s then PathParameter
  else if startswith "{" s && endswith "}" s then Parameter_ else Literal s.

Definition compile_path (template : string) : list segment := map compile_segment (split_on "/" template).

(** A parameter has a character and no slash; a path parameter has no newline. *)
Fixpoint match_segments (template : list segment) (path : list string) : bool :=
  match template, path with
  | [], [] => true
  | [PathParameter], _ :: _ => forallb (λ s, negb (has_char "010" s)) path
  | Literal s :: template, p :: path => String.eqb s p && match_segments template path
  | Parameter_ :: template, p :: path => truthy p && match_segments template path
  | _, _ => false
  end.

(** [re.match(pattern, path)] for the pattern of a template: its [$] also
    matches before a newline that ends the path. *)
Definition match_path (template path : string) : bool :=
  let matches path := match_segments (compile_path template) (split_on "/" path) in
  matches path || (endswith (String "010" "") path && matches (removesuffix (String "010" "") path)).

(** [include_router(router, prefix, dependencies)]: a dependency of the router is
    checked on each of its routes. *)
Definition include_router (prefix : string) (access : Access) (routes : list Route) : list Route :=
  map (λ r, mkRoute (rt_method r) (prefix +:+ rt_path r) (rt_endpoint r)
              (match access with Public => rt_access r | _ => access end)) routes.

(** The routers, with the endpoints' own dependencies. *)
Definition auth_router : list Route :=
  [mkRoute "POST" AuthRoutes.SIGNUP "signup" Public; mkRoute "POST" AuthRoutes.LOGIN "login" Public;
   mkRoute "POST" AuthRoutes.REFRESH "refresh_session" Public; mkRoute "POST" AuthRoutes.LOGOUT "logout" Public;
   mkRoute "GET" AuthRoutes.ME "read_current_user" Authenticated].

Definition health_router : list Route :=
  [mkRoute "GET" HealthRoutes.HEALTHZ "healthz" Public; mkRoute "GET" HealthRoutes.READYZ "readyz" Public].

Definition streaming_module_router : list Route :=
  [mkRoute "GET" "/status" "get_streaming_module_status" Public;
   mkRoute "GET" "/playback/{stream_id}" "get_playback_urls" Public;
   mkRoute "GET" "/registry" "list_stream_registry" Public;
   mkRoute "GET" "/registry/{stream_id}" "get_stream_registry_item" Public].

(** [backend/api/stream.py:22-24] router *)
Definition stream_router : list Route :=
  include_router StreamRoutes.MODULE_PREFIX Public streaming_module_router
  ++ [mkRoute "GET" StreamRoutes.STATUS "stream_status" Public;
      mkRoute "GET" StreamRoutes.PATH_FROM_ID "resolve_stream_id" Public;
      mkRoute "GET" StreamRoutes.PATH_FROM_PATH "resolve_stream_path" Public].

Definition v1_router : list Route :=
  [mkRoute "GET" StreamRoutes.STREAMS "list_streams" Public;
   mkRoute "GET" StreamRoutes.ICE_SERVERS "list_stream_ice_servers" Public;
   mkRoute "GET" StreamRoutes.PLAYBACK "get_stream_playback" Public;
   mkRoute "GET" StreamRoutes.STREAM_STATUS "get_stream_status" Public;
   mkRoute "GET" StreamRoutes.STREAM_DETAIL "get_stream" Public].

Definition map_router : list Route := [mkRoute "GET" MapRoutes.CONFIG "get_map_config" Public].
Definition mock_ai_router : list Route := [mkRoute "POST" "/ai/mock/detections" "run_mock_ai_detection" Public].
Definition ai_adapter_router : list Route := [mkRoute "POST" "/ai/analyze" "analyze_stream" Authenticated].
Definition telemetry_router : list Route :=
  [mkRoute "POST" TelemetryRoutes.INGEST "receive_telemetry" Public;
   mkRoute "GET" TelemetryRoutes.ALL "get_all_telemetry" Authenticated].
Definition asset_router : list Route := [mkRoute "GET" AssetRoutes.BY_GATEWAY_UUID "get_asset" Public].

(** [backend/main.py:95-125] register_routes *)
Definition register_routes : list Route :=
  include_router RouterPrefixes.AUTH Public auth_router
  ++ include_router "" Public health_router
  ++ include_router RouterPrefixes.STREAM_LEGACY Public stream_router
  ++ include_router RouterPrefixes.API_V1 (MinimumRole viewer) v1_router
  ++ include_router RouterPrefixes.API_V1 (MinimumRole viewer) map_router
  ++ include_router RouterPrefixes.API_V1 (MinimumRole operator) mock_ai_router
  ++ include_router RouterPrefixes.API_V1 (MinimumRole admin) ai_adapter_router
  ++ include_router RouterPrefixes.TELEMETRY Public telemetry_router
  ++ include_router RouterPrefixes.ASSET (MinimumRole viewer) asset_router
  ++ [mkRoute "GET" RootRoutes.ROOT "read_root" Public; mkRoute "GET" RootRoutes.METRICS "prometheus_metrics" Public].

(** The first route that matches the path and the method; a path that only
    matches otherwise is answered by its first route. *)
Inductive routed : Type :=
  | Matched (r : Route)
  | WrongMethod (r : Route)
  | Unmatched.

Definition find_route (routes : list Route) (method path : string) : routed :=
  let on_path r := match_path (rt_path r) path in
  match List.find (λ r, on_path r && String.eqb (rt_method r) method) routes with
  | Some r => Matched r
  | None => match List.find on_path routes with Some r => WrongMethod r | None => Unmatched end
  end.

Section assembly.
Context (perf_counter : list app_event → float) (class_name : exn → string) (unicode_lower : string → string).
Context (start_trace : list app_event → list (string * string) → string) (inject : string → list (string * string)).
Context (bearer_scheme : Request → option HTTPAuthorizationCredentials)
  (jwt_decode : string → string → string → string → datetime → jwt_outcome).
Context (now : list app_event → datetime) (auth_settings : list app_event → result AuthSettings).
Context (endpoint : string → application) (unmatched : HttpRequest → result Response)
  (cors : list string → application → application).

(** The dependencies of a route: the account they find, if they ask for one.
    A body that is not JSON is refused by the library before or after them, the
    endpoint not being called either way. *)
Definition authorize (access : Access) (history : list app_event) (request : HttpRequest) : result () :=
  let user := get_current_user jwt_decode unicode_lower (now history) (auth_settings history)
                (bearer_scheme (hr_request request)) in
  match access with
  | Public => Ok ()
  | Authenticated => _ ← user; Ok ()
  | MinimumRole role => user ← user; _ ← require_role role user; Ok ()
  end.

(** The router: the matching route is recorded in the scope, its dependencies run, then its endpoint. *)
Definition router (routes : list Route) : application := λ history request,
  match find_route routes (hr_method request) (hr_path request) with
  | Unmatched => mkServed [] (hr_route request) (unmatched request)
  | WrongMethod r => mkServed [] (Some (rt_path r)) (Raise (HttpErr 405 "Method Not Allowed" [("Allow", rt_method r)]))
  | Matched r =>
      match authorize (rt_access r) history request with
      | Raise e => mkServed [] (Some (rt_path r)) (Raise e)
      | Ok _ =>
          let called := [EndpointCalled (rt_endpoint r)] in
          let request := mkHttpRequest (hr_method request) (hr_path request) (hr_request request) (Some (rt_path r)) in
          let s := endpoint (rt_endpoint r) (history ++ called) request in
          mkServed (called ++ sv_events s) (Some (rt_path r)) (sv_response s)
      end
  end.

(** The library turns an HTTP error into its response; other exceptions pass. *)
Definition exception_middleware (call_next : application) : application := λ history request,
  let s := call_next history request in
  mkServed (sv_events s) (sv_route s)
    match sv_response s with
    | Raise (HttpErr code detail hs) => Ok (mkResponse code (map (λ kv, (header_key kv.1, kv.2)) hs) (JObj [("detail", JStr detail)]))
    | r => r
    end.

(** What [create_app] leaves in the application's state. *)
Record AppState : Type := mkAppState {
  web_security_settings : WebSecuritySettings;
  tracing_settings : TracingSettings;
  tracer_provider : option TracerProvider;
  logging_settings : StructuredLoggingSettings
}.

(** [backend/main.py:134-139] app_state: the settings [create_app] reads, any of which may refuse to *)
Definition app_state (env : environment) (parse_bool_setting : string → result bool) (parse_int_setting : string → result Z)
    (parse_float_setting : string → result float) (bracketed_netloc_ok nfkc_ok : string → bool) : result AppState :=
  let web := web_security_from_env env in
  tracing ← tracing_from_env env parse_bool_setting parse_int_setting parse_float_setting unicode_lower
              bracketed_netloc_ok nfkc_ok;
  logging ← logging_from_env env parse_bool_setting unicode_lower;
  provider ← configure_global_tracing tracing;
  Ok (mkAppState web tracing provider logging).

(** [backend/main.py:128-162] create_app: the middleware added last is the outermost *)
Definition create_app (state : AppState) : application :=
  add_structured_request_log perf_counter class_name unicode_lower (logs_enabled (logging_settings state))
    (add_trace_span start_trace inject (tracing_settings state)
       (add_security_headers (web_security_settings state)
          (cors (allowed_origins (web_security_settings state))
             (exception_middleware (router register_routes))))).
End assembly.

(** ** Access *)

(** Every endpoint that may be called without a credential, with its method and path. *)
Definition PUBLIC_ENDPOINTS : list (string * string) :=
  map (λ r, (rt_method r, rt_path r)) (List.filter (λ r, bool_decide (rt_access r = Public)) register_routes).

Example public_endpoints :
  PUBLIC_ENDPOINTS =
  [("POST", "/auth/signup"); ("POST", "/auth/login"); ("POST", "/auth/refresh"); ("POST", "/auth/logout");
   ("GET", "/healthz"); ("GET", "/readyz");
   ("GET", "/stream/module/status"); ("GET", "/stream/module/playback/{stream_id}"); ("GET", "/stream/module/registry");
   ("GET", "/stream/module/registry/{stream_id}"); ("GET", "/stream/status"); ("GET", "/stream/paths/from-id/{stream_id}");
   ("GET", "/stream/paths/from-path/{stream_path:path}"); ("POST", "/telemetry/"); ("GET", "/"); ("GET", "/metrics")].
Proof. vm_compute. reflexivity. Qed.

Example ice_servers_not_shadowed :
  match find_route register_routes "GET" "/api/v1/streams/ice-servers" with Matched r => rt_endpoint r | _ => "" end
  = "list_stream_ice_servers".
Proof. vm_compute. reflexivity. Qed.

Example path_parameter_spans_slashes :
  match find_route register_routes "GET" "/stream/paths/from-path/live/a/b" with Matched r => rt_endpoint r | _ => "" end
  = "resolve_stream_path".
Proof. vm_compute. reflexivity. Qed.

(** What a path under a prefix of literal segments can match. *)
Lemma match_path_under (template prefix path : string) :
  startswith prefix path = true → match_path template path = true →
  (∀ t, startswith prefix (t +:+ String "010" "") = true → startswith prefix t = true) →
  ∃ t, startswith prefix t = true ∧ match_segments (compile_path template) (split_on "/" t) = true.
Proof.
  unfold match_path. intros Hp Hm Hstep. apply orb_true_iff in Hm as [Hm|Hm]; [by exists path|].
  apply andb_true_iff in Hm as [He Hm]. apply endswith_spec in He as (t & ->).
  rewrite removesuffix_app in Hm. exists t. split; [by apply Hstep|done].
Qed.

Lemma under_api t : startswith "/api/v1/" (t +:+ String "010" "") = true → startswith "/api/v1/" t = true.
Proof.
  rewrite !startswith_spec. intros (u & Hu).
  do 8 (destruct t as [|? t]; [discriminate Hu|cbn in Hu; injection Hu as -> Hu]). by exists t.
Qed.

Lemma under_asset t : startswith "/asset/" (t +:+ String "010" "") = true → startswith "/asset/" t = true.
Proof.
  rewrite !startswith_spec. intros (u & Hu).
  do 7 (destruct t as [|? t]; [discriminate Hu|cbn in Hu; injection Hu as -> Hu]). by exists t.
Qed.

(** No public route lies under a guarded prefix. *)
Lemma guarded_prefixes r path : r ∈ register_routes →
  startswith "/api/v1/" path = true ∨ startswith "/asset/" path = true →
  match_path (rt_path r) path = true → ∃ role, rt_access r = MinimumRole role.
Proof.
  intros Hr Hpath Hm.
  assert (∃ t rest, match_segments (compile_path (rt_path r)) (split_on "/" t) = true
            ∧ (split_on "/" t = "" :: "api" :: "v1" :: rest ∨ split_on "/" t = "" :: "asset" :: rest)) as (t & rest & Ht & Hs).
  { destruct Hpath as [Hp|Hp];
      [destruct (match_path_under _ _ _ Hp Hm under_api) as (t & Hpt & Ht)
      |destruct (match_path_under _ _ _ Hp Hm under_asset) as (t & Hpt & Ht)];
      apply startswith_spec in Hpt as (u & ->); (eexists _, (split_on "/" u); split; [exact Ht|]).
    - left. change ("/api/v1/" +:+ u) with ("" +:+ String "/" ("api" +:+ String "/" ("v1" +:+ String "/" u))).
      by rewrite !split_on_cons_free.
    - right. change ("/asset/" +:+ u) with ("" +:+ String "/" ("asset" +:+ String "/" u)).
      by rewrite !split_on_cons_free. }
  vm_compute in Hr. clear Hm Hpath.
  assert (∀ l, r ∈ l → Forall (λ r, match_segments (compile_path (rt_path r)) (split_on "/" t) = true →
            ∃ role, rt_access r = MinimumRole role) l → ∃ role, rt_access r = MinimumRole role) as Hall.
  { intros l Hl Hf. rewrite Forall_forall in Hf. by apply (Hf r Hl). }
  eapply Hall; [exact Hr|].
  repeat constructor; cbn [rt_path rt_access]; intros H;
    first [by eexists|exfalso; destruct Hs as [Hs|Hs]; rewrite Hs in H; vm_compute in H; discriminate H].
Qed.

Lemma find_route_Matched routes method path r : find_route routes method path = Matched r →
  r ∈ routes ∧ match_path (rt_path r) path = true ∧ rt_method r = method.
Proof.
  unfold find_route. intros H. destruct (List.find (λ r, match_path (rt_path r) path && _) routes) eqn:E.
  - injection H as ->. apply find_some in E as [Hin Hm]. apply andb_true_iff in Hm as [Hm Hmethod].
    apply String.eqb_eq in Hmethod. by rewrite list_elem_of_In.
  - clear E. case_match; discriminate H.
Qed.

Section access.
Context (unicode_lower : string → string) (bearer_scheme : Request → option HTTPAuthorizationCredentials)
  (jwt_decode : string → string → string → string → datetime → jwt_outcome)
  (now : list app_event → datetime) (auth_settings : list app_event → result AuthSettings)
  (endpoint : string → application) (unmatched : HttpRequest → result Response).

(** The account behind the request's credential has at least this role. *)
Definition has_role (role : UserRole) (history : list app_event) (request : HttpRequest) : Prop :=
  ∃ user, get_current_user jwt_decode unicode_lower (now history) (auth_settings history)
            (bearer_scheme (hr_request request)) = Ok user
    ∧ ROLE_ORDER role <= ROLE_ORDER (au_role user).

Lemma authorize_Ok access history request :
  authorize unicode_lower bearer_scheme jwt_decode now auth_settings access history request = Ok () →
  match access with
  | Public => True
  | Authenticated => has_role viewer history request
  | MinimumRole role => has_role role history request
  end.
Proof.
  unfold authorize, has_role. destruct access as [| |role]; [done|..]; intros (user & Hu & H)%bind_Ok; exists user; (split; [exact Hu|]).
  - by destruct (au_role user).
  - apply bind_Ok in H as (u & H & _). unfold require_role in H. case_match eqn:E; [discriminate H|]. by apply Z.ltb_ge.
Qed.

(** C11: the endpoint that runs is that of the first route registered for the
    method and the path, and only after that route's dependencies: it is one of
    sixteen public endpoints, or the bearer token of the request names an account
    with the route's role.  No path under /api/v1/ or /asset/ reaches an endpoint
    without a viewer's token, the AI mock without an operator's, the AI adapter
    without an administrator's. *)
Theorem endpoint_access history request name rest :
  sv_events (router unicode_lower bearer_scheme jwt_decode now auth_settings endpoint unmatched register_routes history request)
    = EndpointCalled name :: rest →
  (match find_route register_routes (hr_method request) (hr_path request) with
   | Matched r => rt_endpoint r = name ∧ ((rt_method r, rt_path r) ∈ PUBLIC_ENDPOINTS ∨ has_role viewer history request)
   | _ => False
   end)
  ∧ (startswith "/api/v1/" (hr_path request) = true ∨ startswith "/asset/" (hr_path request) = true →
     has_role viewer history request)
  ∧ (name = "run_mock_ai_detection" → has_role operator history request)
  ∧ (name = "analyze_stream" → has_role admin history request).
Proof.
  unfold router. intros H.
  destruct (find_route _ _ _) as [r|r|] eqn:Hf; [|discriminate H..].
  destruct (authorize _ _ _ _ _ (rt_access r) history request) as [[]|e] eqn:Ha; [|discriminate H].
  cbn [sv_events app] in H. injection H as <- _.
  apply find_route_Matched in Hf as (Hr & Hm & _). apply authorize_Ok in Ha.
  assert (∀ role, has_role role history request → has_role viewer history request) as Hweak.
  { intros role (user & Hu & Ho). exists user. split; [exact Hu|]. destruct role; cbn in *; lia. }
  split; [split; [done|]|split; [|split]].
  - destruct (rt_access r) as [| |role] eqn:Hacc; [left|by right|right; by eapply Hweak].
    unfold PUBLIC_ENDPOINTS. apply list_elem_of_In, in_map_iff. exists r. split; [done|].
    apply filter_In. by rewrite <-list_elem_of_In, Hacc.
  - intros Hp. destruct (guarded_prefixes r _ Hr Hp Hm) as (role & Hrole). rewrite Hrole in Ha. by eapply Hweak.
  - intros Hn. enough (rt_access r = MinimumRole operator) as Hacc by by rewrite Hacc in Ha.
    clear -Hr Hn. vm_compute in Hr. repeat (apply elem_of_cons in Hr as [->|Hr]; [first [reflexivity|discriminate Hn]|]).
    by apply not_elem_of_nil in Hr.
  - intros Hn. enough (rt_access r = MinimumRole admin) as Hacc by by rewrite Hacc in Ha.
    clear -Hr Hn. vm_compute in Hr. repeat (apply elem_of_cons in Hr as [->|Hr]; [first [reflexivity|discriminate Hn]|]).
    by apply not_elem_of_nil in Hr.
Qed.
End access.

(** ** What a client and the log see *)

Lemma header_get_security settings hs name :
  header_get (foldl (λ hs '(n, v), header_setdefault n v hs) hs (security_headers settings)) name
  = match header_get hs name with
    | Some v => Some v
    | None => dict_get (map (λ kv, (header_key kv.1, kv.2)) (security_headers settings)) (header_key name)
    end.
Proof.
  cbn [foldl security_headers map]. rewrite !header_get_setdefault.
  destruct (header_get hs name); [done|]. cbn [dict_get fst snd].
  repeat (case_decide; [done|]). done.
Qed.

Lemma dict_get_app {V} (d1 d2 : list (string * V)) k :
  dict_get (d1 ++ d2) k = match dict_get d1 k with Some v => Some v | None => dict_get d2 k end.
Proof. induction d1 as [|[k' v] d1 IH]; [done|]. cbn. by case_decide. Qed.

(** The headers of a legacy path. *)
Definition legacy_headers (path : string) : list (string * string) :=
  match replacement_for_legacy_path path with
  | None => []
  | Some replacement =>
      [(SecurityHeaderNames.DEPRECATION, SecurityHeaderValues.TRUE);
       (SecurityHeaderNames.X_GCS_LEGACY_FALLBACK, SecurityHeaderValues.LEGACY_FALLBACK_DIRECT);
       (SecurityHeaderNames.X_GCS_REPLACEMENT_ROUTE, replacement)]
  end.

Lemma header_get_legacy path hs name :
  header_get (mark_legacy_route path hs) name
  = match header_get hs name with
    | Some v => Some v
    | None => dict_get (map (λ kv, (header_key kv.1, kv.2)) (legacy_headers path)) (header_key name)
    end.
Proof.
  unfold mark_legacy_route, legacy_headers. destruct (replacement_for_legacy_path path) as [replacement|];
    [|by destruct (header_get hs name)].
  rewrite !header_get_setdefault. destruct (header_get hs name); [done|]. cbn [dict_get map fst snd].
  repeat (case_decide; [done|]). done.
Qed.

Lemma legacy_path_spec path replacement : replacement_for_legacy_path path = Some replacement →
  replacement ∈ map snd LegacyRouteContract.REPLACEMENTS.
Proof.
  unfold replacement_for_legacy_path. intros H. destruct (dict_get _ path) as [r|] eqn:E.
  - injection H as ->. apply dict_get_elem in E. apply list_elem_of_In, in_map_iff. exists (path, replacement).
    by rewrite <-list_elem_of_In.
  - apply bind_Some in H as (prefix & _ & H). apply dict_get_elem in H. apply list_elem_of_In, in_map_iff.
    exists (prefix, replacement). by rewrite <-list_elem_of_In.
Qed.

(** A line of the log, when there is one. *)
Definition logged (logs_enabled : bool) (line : list (string * jval)) : list app_event :=
  if logs_enabled then [LogLine line] else [].

(** The request's log lines outside any span: nothing is redacted and there is no trace id. *)
Lemma completed_log_line unicode_lower enabled history component method route code duration :
  open_spans history = [] →
  request_log unicode_lower enabled history "info" (request_completed_event component method route code duration)
  = logged enabled (request_completed_event component method route code duration ++ [("severity", JStr "info")]).
Proof. intros Hspans. unfold request_log, current_trace_id. rewrite Hspans. by destruct enabled. Qed.

Lemma failed_log_line unicode_lower enabled history component method route error_type duration :
  open_spans history = [] →
  request_log unicode_lower enabled history "error" (request_failed_event component method route error_type duration)
  = logged enabled (request_failed_event component method route error_type duration ++ [("severity", JStr "error")]).
Proof. intros Hspans. unfold request_log, current_trace_id. rewrite Hspans. by destruct enabled. Qed.

Section middlewares.
Context (perf_counter : list app_event → float) (class_name : exn → string) (unicode_lower : string → string).
Context (start_trace : list app_event → list (string * string) → string) (inject : string → list (string * string)).

(** The trace context travels in headers of its own. *)
Definition PROPAGATED : list string := ["traceparent"; "tracestate"; "baggage"].

Definition quiet (e : app_event) : Prop := match e with LogLine _ | EndpointCalled _ => False | _ => True end.

Lemma trace_served enabled call_next history request :
  (∀ id, Forall (λ kv, header_key kv.1 ∈ PROPAGATED) (inject id)) →
  let s := trace_fastapi_request start_trace inject enabled call_next history request in
  ∃ history' before after,
    let i := call_next history' request in
    sv_events s = before ++ sv_events i ++ after ∧ sv_route s = sv_route i ∧ Forall quiet (before ++ after)
    ∧ match sv_response i with
      | Raise e => sv_response s = Raise e
      | Ok r => ∃ hs, sv_response s = Ok (mkResponse (status_code r) hs (body r))
          ∧ ∀ name, header_key name ∉ PROPAGATED → header_get hs name = header_get (headers r) name
      end.
Proof.
  intros Hinj. cbv zeta. unfold trace_fastapi_request. destruct enabled; cbn [negb].
  - set (opened := [SpanStart _ _; _; _; _]). exists (history ++ opened), opened.
    destruct (sv_response (call_next (history ++ opened) request)) as [r|e] eqn:E.
    + exists [SpanAttribute TraceAttributeNames.HTTP_STATUS_CODE (JInt (status_code r)); SpanEnd].
      split_and!; [done..|by repeat constructor|]. cbn [sv_response]. eexists. split; [done|]. intros name Hname.
      apply header_get_foldl_set. unfold inject_trace_headers. destruct (current_trace_id _) as [id|]; [|constructor].
      eapply Forall_impl; [apply Hinj|]. intros [k v] Hk Heq. cbn in *. rewrite Heq in Hk. by destruct Hname.
    + exists [SpanEnd]. split_and!; [done..|by repeat constructor|done].
  - exists history, [], []. split_and!; [by rewrite app_nil_r|done|constructor|].
    destruct (sv_response _) as [r|e]; [|done]. exists (headers r). by destruct r.
Qed.

(** The header a response has unless the application set it. *)
Definition hardened (settings : WebSecuritySettings) (path name : string) : option string :=
  dict_get
    ([("x-content-type-options", "nosniff"); ("x-frame-options", "DENY"); ("referrer-policy", "no-referrer");
      ("permissions-policy", "camera=(self), microphone=(self), geolocation=(self)");
      ("content-security-policy", content_security_policy settings)]
     ++ match replacement_for_legacy_path path with
        | Some replacement => [("deprecation", "true"); ("x-gcs-legacy-fallback", "direct-backend-legacy");
                               ("x-gcs-replacement-route", replacement)]
        | None => []
        end) (header_key name).

(** C12: Whatever application runs inside the middlewares, its response reaches
    the client with its status and body, with the headers it set itself (those
    of the trace context apart, which the tracing middleware may set), and
    otherwise with every security header and, exactly on a legacy path, the
    deprecation headers with the path's replacement; an exception passes on
    unchanged.  When logging is enabled, either way exactly one line is logged
    after it, with the route the router recorded and the status or the error,
    and without a trace id: the request's span has ended by then; otherwise none
    is.  This is so when no span is open before the request, the application
    ends the spans it starts, trace context is injected in its own headers only,
    and the milliseconds between two clock readings are an integer. *)
Theorem request_served (logs_enabled : bool) (inner : application) (web : WebSecuritySettings) (tracing : TracingSettings) history request
    (clock_ok : ∀ h h', ∃ d, elapsed_millis (perf_counter h) (perf_counter h') = Ok d)
    (propagates : ∀ id, Forall (λ kv, header_key kv.1 ∈ PROPAGATED) (inject id))
    (spans_closed : ∀ h r, balanced (sv_events (inner h r))) (no_span : open_spans history = []) :
  let s := add_structured_request_log perf_counter class_name unicode_lower logs_enabled
             (add_trace_span start_trace inject tracing (add_security_headers web inner)) history request in
  ∃ history' before after duration,
    let i := inner history' request in
    let route := route_template (sv_route i) (hr_path request) in
    match sv_response i with
    | Ok response =>
        ∃ hs, sv_response s = Ok (mkResponse (status_code response) hs (body response))
          ∧ (∀ name, header_key name ∉ PROPAGATED →
               header_get hs name = match header_get (headers response) name with
                                    | Some v => Some v
                                    | None => hardened web (hr_path request) name
                                    end)
          ∧ sv_events s = before ++ sv_events i ++ after
              ++ logged logs_enabled (request_completed_event "python-api" (hr_method request) route (status_code response) duration
                                      ++ [("severity", JStr "info")])
    | Raise e =>
        sv_response s = Raise e
        ∧ (is_exception e = true →
           sv_events s = before ++ sv_events i ++ after
             ++ logged logs_enabled (request_failed_event "python-api" (hr_method request) route (class_name e) duration
                                     ++ [("severity", JStr "error")]))
    end
    ∧ Forall (λ e, match e with LogLine _ | EndpointCalled _ => False | _ => True end) (before ++ after).
Proof.
  cbv zeta. set (secured := add_security_headers web inner).
  destruct (trace_served (tr_enabled tracing) secured history request propagates)
    as (history' & before & after & Hev & Hroute & Hquiet & Hres).
  set (traced := trace_fastapi_request start_trace inject (tr_enabled tracing) secured history request) in *.
  assert (open_spans (history ++ sv_events traced) = []) as Hspans.
  { rewrite balanced_open; [done|]. apply trace_fastapi_request_balanced. intros h. apply spans_closed. }
  destruct (clock_ok history (history ++ sv_events traced)) as [duration Hd].
  exists history', before, after, duration. split; [|exact Hquiet].
  unfold add_structured_request_log. change (add_trace_span start_trace inject tracing secured history request) with traced.
  rewrite Hd, Hroute. subst secured. cbn [sv_route sv_events sv_response add_security_headers] in *.
  destruct (sv_response (inner history' request)) as [r|e].
  - rewrite bind_Ok_l in Hres. cbn [status_code body headers] in Hres.
    destruct Hres as (hs & Hres & Hhs). exists hs. rewrite Hres. cbn [sv_response sv_events status_code].
    split; [done|]. split.
    + intros name Hname. rewrite (Hhs _ Hname). cbn [headers]. rewrite header_get_legacy, header_get_security.
      destruct (header_get (headers r) name); [done|]. unfold hardened, legacy_headers.
      rewrite dict_get_app. by destruct (replacement_for_legacy_path (hr_path request)).
    + rewrite completed_log_line by exact Hspans. by rewrite Hev, <-!app_assoc.
  - cbn in Hres. rewrite Hres. destruct (is_exception e); cbn [negb sv_response sv_events].
    + split; [done|]. intros _. rewrite failed_log_line by exact Hspans. by rewrite Hev, <-!app_assoc.
    + by split.
Qed.
End middlewares.

(** ** A request *)

Definition sample_access_claims : list (string * jval) :=
  token_claims "pilot" (Some "operator") access 1767323045 (mkDatetime 1767330245000000 (Some 0)) "gcs-saker".

Definition sample_web : WebSecuritySettings := mkWebSecurity ["http://localhost:5173"] "default-src 'self'".

Definition sample_tracing : TracingSettings :=
  mkTracing true "gcs" TraceExporters.NONE TraceDefaults.OTLP_ENDPOINT 1%float 512 128.

Definition sample_http (method path : string) : HttpRequest :=
  mkHttpRequest method path (mkRequest (λ _, None) (λ _, None)) None.

Definition sample_router : application :=
  router (λ s, s) (λ _, Some (mkCredentials "Bearer" "token")) (λ _ _ _ _ _, JwtClaims sample_access_claims)
    (λ _, mkDatetime 0 (Some 0)) (λ _, Ok sample_auth_settings)
    (λ name _ _, mkServed [] None (Ok (mkResponse 200 [("x-frame-options", "SAMEORIGIN")] (JStr name))))
    (λ _, Raise (HttpErr 404 "Not Found" [])) register_routes.

Example operator_is_not_admin :
  sv_response (sample_router [] (sample_http "POST" "/api/v1/ai/analyze")) = Raise (HttpErr 403 "admin role required" []).
Proof. vm_compute. reflexivity. Qed.

Lemma endpoint_access_witness :
  ∃ history request, has_role (λ s, s) (λ _, Some (mkCredentials "Bearer" "token"))
    (λ _ _ _ _ _, JwtClaims sample_access_claims) (λ _, mkDatetime 0 (Some 0)) (λ _, Ok sample_auth_settings)
    operator history request.
Proof.
  exists [], (sample_http "POST" "/api/v1/ai/mock/detections").
  destruct (endpoint_access (λ s, s) (λ _, Some (mkCredentials "Bearer" "token"))
    (λ _ _ _ _ _, JwtClaims sample_access_claims) (λ _, mkDatetime 0 (Some 0)) (λ _, Ok sample_auth_settings)
    (λ name _ _, mkServed [] None (Ok (mkResponse 200 [("x-frame-options", "SAMEORIGIN")] (JStr name))))
    (λ _, Raise (HttpErr 404 "Not Found" [])) [] (sample_http "POST" "/api/v1/ai/mock/detections")
    "run_mock_ai_detection" []) as (_ & _ & H & _); [vm_compute; reflexivity|]. by apply H.
Defined.

Lemma request_served_witness :
  ∃ hs before, sv_response (add_structured_request_log (λ _, 0%float) (λ _, "Error") (λ s, s) true
      (add_trace_span (λ _ _, "0af7651916cd43dd8448eb211c80319c") (λ id, [("traceparent", id)]) sample_tracing
         (add_security_headers sample_web (λ _ r, mkServed [] (Some "/auth/me") (Ok (mkResponse 200 [] (JStr "me"))))))
      [] (sample_http "GET" "/auth/me")) = Ok (mkResponse 200 hs (JStr "me"))
    ∧ header_get hs "X-GCS-Replacement-Route" = Some "/auth-policy/auth" ∧ Forall quiet before.
Proof.
  destruct (request_served (λ _, 0%float) (λ _, "Error") (λ s, s) (λ _ _, "0af7651916cd43dd8448eb211c80319c")
              (λ id, [("traceparent", id)]) true (λ _ r, mkServed [] (Some "/auth/me") (Ok (mkResponse 200 [] (JStr "me"))))
              sample_web sample_tracing [] (sample_http "GET" "/auth/me"))
    as (history' & before & after & duration & H & Hq).
  - intros h h'. exists 0. vm_compute. reflexivity.
  - intros id. constructor; [|constructor]. vm_compute. left.
  - intros h r spans. reflexivity.
  - reflexivity.
  - cbn [sv_response] in H. destruct H as (hs & Hr & Hh & _). exists hs, (before ++ after). split; [exact Hr|]. split; [|exact Hq].
    rewrite Hh; [vm_compute; reflexivity|]. by apply (bool_decide_eq_true_1 (header_key "X-GCS-Replacement-Route" ∉ PROPAGATED)).
Defined.
