(* ===== verification/Assets.v ===== *)
(** Assets of a gateway: [backend/sql/mediate_sql.py] and
    [backend/api/unmaned_assets.py].

    The tables are lists of rows in the order the database gives them; a query
    is the relational expression the source builds. *)

From stdpp Require Import base list strings sorting.
From Stdlib Require Import ZArith Lia Floats.
From S2P Require Import Prelude PyStr Settings Security.

#[local] Open Scope Z_scope.

(** ** Tables *)

(** [backend/sql/mediate_sql.py:9-19] Gateway *)
Record Gateway : Type := mkGateway {
  gw_id : Z;
  gw_cid : string;
  gw_uuid : string;
  gw_company_id : Z;
  gw_type : string;
  gw_os : string;
  gw_name : option string;
  gw_status : option string
}.

(** [backend/sql/mediate_sql.py:24-35] UnmannedAsset *)
Record UnmannedAsset : Type := mkAsset {
  as_id : Z;
  as_cid : string;
  as_uuid : string;
  as_company_id : Z;
  as_type : string;
  as_name : string;
  as_description : option string;
  as_image_url : option string;
  as_status : option string
}.

#[export] Instance asset_eq_dec : EqDecision UnmannedAsset.
Proof. solve_decision. Defined.

(** [backend/sql/mediate_sql.py:40-45] GatewayAsset *)
Record GatewayAsset : Type := mkLink { link_gateway_id : Z; link_asset_id : Z }.

#[export] Instance link_eq_dec : EqDecision GatewayAsset.
Proof. solve_decision. Defined.

Record tables : Type := mkTables {
  gateways : list Gateway;
  unmanned_assets : list UnmannedAsset;
  gateway_assets : list GatewayAsset
}.

(** The keys the tables declare. *)
Definition keys_hold (db : tables) : Prop :=
  NoDup (map gw_uuid (gateways db)) ∧ NoDup (map as_id (unmanned_assets db)) ∧ NoDup (gateway_assets db).

(** ** The route *)

(** [.scalar()]: no row is [None], several are an error. *)
Definition scalar {A} (rows : list A) : result (option A) :=
  match rows with
  | [] => Ok None
  | [a] => Ok (Some a)
  | _ => throw ExcDriverError "Multiple rows were found when one or none was required"
  end.

(** The assets joined with their links to a gateway, a row for each link. *)
Definition joined_assets (db : tables) (gateway_id : Z) : list UnmannedAsset :=
  flat_map (λ a, map (λ _, a)
    (List.filter (λ l, Z.eqb (link_asset_id l) (as_id a) && Z.eqb (link_gateway_id l) gateway_id) (gateway_assets db)))
    (unmanned_assets db).

Definition id_le (a b : UnmannedAsset) : Prop := as_id a <= as_id b.
#[export] Instance id_le_dec : RelDecision id_le := λ a b, Z_le_dec (as_id a) (as_id b).

(** [.order_by(UnmannedAsset.id)] *)
Definition ordered_assets (db : tables) (gateway_id : Z) : list UnmannedAsset := merge_sort id_le (joined_assets db gateway_id).

(** [backend/api/unmaned_assets.py:12-38] get_asset: the bounds of the page are checked before the handler runs *)
Definition get_asset (db : tables) (uuid : string) (limit offset : Z) : result (list UnmannedAsset) :=
  if negb ((1 <=? limit) && (limit <=? 500) && (0 <=? offset) && (offset <=? 100000))
  then Raise (HttpErr 422 "Unprocessable Entity" []) else
  gateway_id ← scalar (map gw_id (List.filter (λ g, String.eqb (gw_uuid g) uuid) (gateways db)));
  match gateway_id with
  | None => NotFoundApiError "Gateway not found"
  | Some gateway_id => Ok (take (Z.to_nat limit) (drop (Z.to_nat offset) (ordered_assets db gateway_id)))
  end.

(** ** Pages *)

#[export] Instance id_le_total : Total id_le.
Proof. intros a b. unfold id_le. lia. Qed.
#[export] Instance id_le_trans : Transitive id_le.
Proof. intros a b c. unfold id_le. lia. Qed.

Lemma elem_of_joined db gateway_id a :
  a ∈ joined_assets db gateway_id ↔ a ∈ unmanned_assets db ∧ mkLink gateway_id (as_id a) ∈ gateway_assets db.
Proof.
  unfold joined_assets. rewrite !list_elem_of_In, in_flat_map. split.
  - intros (b & Hb & Ha). apply in_map_iff in Ha as ([g i] & <- & Hl). apply filter_In in Hl as [Hl Hc].
    cbn in Hc. apply andb_true_iff in Hc as [->%Z.eqb_eq ->%Z.eqb_eq]. done.
  - intros [Ha Hl]. exists a. split; [done|]. apply in_map_iff. exists (mkLink gateway_id (as_id a)). split; [done|].
    apply filter_In. split; [done|]. cbn. by rewrite !Z.eqb_refl.
Qed.

(** A link is stored once, so an asset joins a gateway once. *)
Lemma links_once links i g : NoDup links →
  (length (List.filter (λ l, Z.eqb (link_asset_id l) i && Z.eqb (link_gateway_id l) g) links) <= 1)%nat.
Proof.
  induction links as [|[g' i'] links IH]; cbn; [lia|]. intros [Hn Hnd]%NoDup_cons.
  destruct (Z.eqb_spec i' i) as [->|]; [|by apply IH]. destruct (Z.eqb_spec g' g) as [->|]; [|by apply IH].
  cbn. destruct (List.filter _ links) as [|[g' i'] rest] eqn:E; [done|]. destruct Hn.
  assert (In (mkLink g' i') (mkLink g' i' :: rest)) as Hin by by left. rewrite <-E in Hin. apply filter_In in Hin as [Hin Hc].
  cbn in Hc. apply andb_true_iff in Hc as [->%Z.eqb_eq ->%Z.eqb_eq]. by apply list_elem_of_In.
Qed.

Lemma joined_NoDup db gateway_id : keys_hold db → NoDup (map as_id (joined_assets db gateway_id)).
Proof.
  intros (_ & Hids & Hlinks). unfold joined_assets.
  induction (unmanned_assets db) as [|a l IH]; cbn in *; [constructor|]. apply NoDup_cons in Hids as [Ha Hids].
  rewrite map_app. apply NoDup_app. split_and!; [| |by apply IH].
  - pose proof (links_once (gateway_assets db) (as_id a) gateway_id Hlinks) as Hlen.
    destruct (List.filter _ (gateway_assets db)) as [|x [|y m]]; cbn in *; [constructor|apply NoDup_singleton|lia].
  - intros i Hi Hj. apply list_elem_of_fmap in Hi as (b & -> & Hb). apply list_elem_of_fmap in Hj as (c & Hc & Hjc).
    apply list_elem_of_In, in_map_iff in Hb as (? & <- & _). apply Ha. rewrite Hc.
    apply list_elem_of_In, in_flat_map in Hjc as (d & Hd & Hcd). apply in_map_iff in Hcd as (? & <- & _).
    apply list_elem_of_In, in_map_iff. by exists d.
Qed.

Lemma pages_concat {A} (l : list A) (limit n : nat) :
  concat (map (λ i, take limit (drop (i * limit) l)) (seq 0 n)) = take (n * limit) l.
Proof.
  induction n as [|n IH]; [done|]. rewrite seq_S, map_app, concat_app, IH. cbn [map concat Nat.add].
  rewrite app_nil_r, take_take_drop. f_equal. lia.
Qed.

Lemma scalar_unique gs uuid : NoDup (map gw_uuid gs) →
  scalar (map gw_id (List.filter (λ g, String.eqb (gw_uuid g) uuid) gs))
  = Ok (gw_id <$> List.find (λ g, String.eqb (gw_uuid g) uuid) gs).
Proof.
  induction gs as [|g gs IH]; cbn; [done|]. intros [Hn Hnd]%NoDup_cons.
  destruct (String.eqb_spec (gw_uuid g) uuid) as [<-|]; [|by apply IH].
  destruct (List.filter _ gs) as [|g' rest] eqn:E; [done|]. destruct Hn.
  assert (In g' (g' :: rest)) as Hin by by left. rewrite <-E in Hin. apply filter_In in Hin as [Hin Hu%String.eqb_eq].
  rewrite <-Hu. apply list_elem_of_In, in_map_iff. by exists g'.
Qed.

Lemma strictly_sorted (l : list UnmannedAsset) :
  StronglySorted id_le l → NoDup (map as_id l) → StronglySorted (λ a b, as_id a < as_id b) l.
Proof.
  induction 1 as [|a l Hs IH Ha]; cbn; intros Hnd; constructor; apply NoDup_cons in Hnd as [Hn Hnd]; [by apply IH|].
  rewrite Forall_forall in *. intros b Hb. specialize (Ha b Hb). unfold id_le in Ha.
  enough (as_id a ≠ as_id b) by lia. intros Heq. apply Hn. rewrite Heq. apply list_elem_of_In, in_map_iff.
  exists b. by rewrite <-list_elem_of_In.
Qed.

(** Paging through a gateway's assets shows each of them once.  The pages of
    one size, concatenated, are the gateway's assets in the order of their ids,
    without repetition and without omission, up to where the pages end; each is
    an asset that is linked to the gateway.  An unknown gateway is not found. *)
Theorem asset_pages db uuid limit n (keys : keys_hold db) (Hlimit : 1 <= limit <= 500)
    (Hoffset : Z.of_nat n * limit <= 100000) :
  match List.find (λ g, String.eqb (gw_uuid g) uuid) (gateways db) with
  | None => get_asset db uuid limit 0 = Raise (HttpErr 404 "Gateway not found" [])
  | Some g =>
      ∃ pages all, Forall2 (λ i page, get_asset db uuid limit (Z.of_nat i * limit) = Ok page) (seq 0 (S n)) pages
        ∧ concat pages = take (S n * Z.to_nat limit) all
        ∧ (∀ a, a ∈ all ↔ a ∈ unmanned_assets db ∧ mkLink (gw_id g) (as_id a) ∈ gateway_assets db)
        ∧ StronglySorted (λ a b, as_id a < as_id b) all
  end.
Proof.
  unfold get_asset. rewrite scalar_unique by apply keys. cbn [mbind result_bind].
  destruct (List.find _ (gateways db)) as [g|]; cbn [fmap option_fmap option_map].
  - exists (map (λ i, take (Z.to_nat limit) (drop (i * Z.to_nat limit) (ordered_assets db (gw_id g)))) (seq 0 (S n))),
      (ordered_assets db (gw_id g)).
    split; [|split; [by apply pages_concat|split]].
    + apply Forall2_fmap_r, Forall_Forall2_diag, Forall_forall. intros i Hi%elem_of_seq.
      rewrite (proj2 (Z.leb_le 1 limit)), (proj2 (Z.leb_le limit 500)), (proj2 (Z.leb_le 0 _)), (proj2 (Z.leb_le _ 100000)) by nia.
      cbn [andb negb]. do 2 f_equal. f_equal. lia.
    + intros a. unfold ordered_assets. by rewrite merge_sort_Permutation, elem_of_joined.
    + apply strictly_sorted; [apply StronglySorted_merge_sort; apply _|]. unfold ordered_assets.
      pose proof (joined_NoDup db (gw_id g) keys) as H. revert H. apply NoDup_Permutation_proper, (fmap_Permutation as_id).
      by rewrite merge_sort_Permutation.
  - by rewrite (proj2 (Z.leb_le 1 limit)), (proj2 (Z.leb_le limit 500)) by lia.
Qed.

Definition sample_asset (id : Z) : UnmannedAsset := mkAsset id "c" "u" 1 "uav" "drone" None None (Some "active").

Definition sample_tables : tables :=
  mkTables [mkGateway 7 "c" "gw" 1 "tablet" "android" None None] [sample_asset 3; sample_asset 1; sample_asset 2]
    [mkLink 7 3; mkLink 7 1; mkLink 8 2].

Example second_page : get_asset sample_tables "gw" 1 1 = Ok [sample_asset 3].
Proof. vm_compute. reflexivity. Qed.

Lemma asset_pages_witness :
  ∃ pages all, Forall2 (λ i page, get_asset sample_tables "gw" 1 (Z.of_nat i * 1) = Ok page) (seq 0 3) pages
    ∧ concat pages = take 3 all.
Proof.
  destruct (asset_pages sample_tables "gw" 1 2) as (pages & all & Hp & Hc & _); [|lia|lia|by exists pages, all].
  split_and!; apply (bool_decide_eq_true_1 (NoDup _)); vm_compute; reflexivity.
Defined.
