(* ===== verification/MediaControl.v ===== *)
(** The media-control client: [backend/modules/media_control_grpc/client.py].

    The channel of the RPC library is described by what it was made from, and a
    client's use of it is the sequence of calls it made. *)

From stdpp Require Import base list strings.
From Stdlib Require Import ZArith Lia Floats Strings.Byte.
From S2P Require Import Prelude PyStr Settings Tracing.

#[local] Open Scope Z_scope.

(** [backend/modules/media_control_grpc/client.py:12-12] DEFAULT_METHOD *)
Definition DEFAULT_METHOD : string := "/gcs.saker.v1.SakerGatewayService/Exchange".

(** [backend/modules/media_control_grpc/client.py:31-38] MediaControlGrpcSettings *)
Record MediaControlGrpcSettings : Type := mkMediaControl {
  target : string;
  ca_file : string;
  cert_file : string;
  key_file : string;
  server_name : string;
  allow_plaintext : bool;
  timeout_seconds : float
}.

(** [backend/modules/media_control_grpc/client.py:40-46] validate_transport *)
Definition validate_transport (self : MediaControlGrpcSettings) : result MediaControlGrpcSettings :=
  if is_empty (target self) then value_error "Media Control gRPC target is required" else
  if negb (allow_plaintext self) && negb (forallb truthy [ca_file self; cert_file self; key_file self; server_name self])
  then value_error "Media Control gRPC mTLS files and server name are required" else Ok self.

(** The constructor of the settings, from the environment. *)
Definition media_control_settings (env : environment) (parse_bool_setting : string → result bool)
    (parse_float_setting : string → result float) : result MediaControlGrpcSettings :=
  plaintext ← field_bool env parse_bool_setting "MEDIA_CONTROL_GRPC_ALLOW_PLAINTEXT" false;
  timeout ← field_timeout env parse_float_setting "MEDIA_CONTROL_GRPC_TIMEOUT_SECONDS" 2%float 30%float;
  let text name := default "" (env name) in
  catch (validate_transport (mkMediaControl (text "MEDIA_CONTROL_GRPC_TARGET") (text "MEDIA_CONTROL_GRPC_CA_FILE")
           (text "MEDIA_CONTROL_GRPC_CERT_FILE") (text "MEDIA_CONTROL_GRPC_KEY_FILE")
           (text "MEDIA_CONTROL_GRPC_SERVER_NAME") plaintext timeout))
    ExcValueError (λ msg, validation_error msg).

Inductive channel : Type :=
  | InsecureChannel (to : string)
  | SecureChannel (to : string) (root_certificates private_key certificate_chain : list byte) (name_override : string).

(** [backend/modules/media_control_grpc/client.py:77-92] create_channel *)
Definition create_channel (fs : file_system) (settings : MediaControlGrpcSettings) : result channel :=
  if allow_plaintext settings then Ok (InsecureChannel (target settings)) else
  root ← fs_read fs (ca_file settings);
  key ← fs_read fs (key_file settings);
  chain ← fs_read fs (cert_file settings);
  Ok (SecureChannel (target settings) root key chain (server_name settings)).

(** ** The client *)

Inductive channel_call : Type :=
  | Exchanged (method : string) (payloads : list (list byte)) (metadata : list (string * string)) (timeout : float)
  | Closed.

Record MediaControlGrpcClient : Type := mkClient {
  settings : MediaControlGrpcSettings;
  _channel : channel;
  _closed : bool;
  calls : list channel_call
}.

(** [backend/modules/media_control_grpc/client.py:50-53] __init__ *)
Definition client_init (fs : file_system) (settings : MediaControlGrpcSettings) (given : option channel) :
    result MediaControlGrpcClient :=
  c ← match given with Some c => Ok c | None => create_channel fs settings end;
  Ok (mkClient settings c false []).

Section client.
(** The replies of the remote service. *)
Context (remote : channel → list channel_call → list (list byte) → result (list (list byte))).

(** [backend/modules/media_control_grpc/client.py:55-63] exchange *)
Definition exchange (self : MediaControlGrpcClient) (payloads : list (list byte)) (metadata : list (string * string)) :
    MediaControlGrpcClient * result (list (list byte)) :=
  if _closed self then (self, throw ExcRuntimeError "Media Control gRPC client is closed")
  else (mkClient (settings self) (_channel self) (_closed self)
          (calls self ++ [Exchanged DEFAULT_METHOD payloads metadata (timeout_seconds (settings self))]),
        remote (_channel self) (calls self) payloads).

(** [backend/modules/media_control_grpc/client.py:65-68] close *)
Definition close (self : MediaControlGrpcClient) : MediaControlGrpcClient :=
  if _closed self then self else mkClient (settings self) (_channel self) true (calls self ++ [Closed]).

(** [backend/modules/media_control_grpc/client.py:70-74] __enter__ and __exit__: [with client: exchanges], which ends
    with the first exchange that raises *)
Fixpoint with_client (self : MediaControlGrpcClient) (exchanges : list (list (list byte) * list (string * string))) :
    MediaControlGrpcClient * result (list (list (list byte))) :=
  match exchanges with
  | [] => (close self, Ok [])
  | (payloads, metadata) :: rest =>
      match exchange self payloads metadata with
      | (self, Ok replies) => let '(self, r) := with_client self rest in (self, more ← r; Ok (replies :: more))
      | (self, Raise e) => (close self, Raise e)
      end
  end.

Inductive client_op : Type := OpExchange (payloads : list (list byte)) (metadata : list (string * string)) | OpClose.

Definition client_step (self : MediaControlGrpcClient) (op : client_op) : MediaControlGrpcClient :=
  match op with OpExchange payloads metadata => (exchange self payloads metadata).1 | OpClose => close self end.

(** The channel is closed exactly when the client says so, as its last call. *)
Definition lifecycle (self : MediaControlGrpcClient) : Prop :=
  ∃ exchanges, calls self = exchanges ++ (if _closed self then [Closed] else [])
    ∧ Forall (λ c, ∃ p m, c = Exchanged DEFAULT_METHOD p m (timeout_seconds (settings self))) exchanges.

Lemma client_step_lifecycle self op : lifecycle self → lifecycle (client_step self op).
Proof.
  intros Hl. destruct op as [payloads metadata|]; cbn; unfold exchange, close; destruct (_closed self) eqn:E; try exact Hl;
    destruct Hl as (exchanges & Hc & Hall); rewrite E in Hc; cbn in Hc; rewrite app_nil_r in Hc.
  - exists (exchanges ++ [Exchanged DEFAULT_METHOD payloads metadata (timeout_seconds (settings self))]). cbn.
    rewrite Hc, app_nil_r. split; [done|]. apply Forall_app. split; [done|]. constructor; [|constructor]. by eexists _, _.
  - exists exchanges. cbn. by rewrite Hc.
Qed.

Lemma client_step_keeps self op :
  settings (client_step self op) = settings self ∧ _channel (client_step self op) = _channel self
  ∧ (_closed self = true → client_step self op = self).
Proof. destruct op; cbn; unfold exchange, close; destruct (_closed self); by split_and!. Qed.

Lemma client_run self ops : lifecycle self →
  lifecycle (foldl client_step self ops) ∧ settings (foldl client_step self ops) = settings self
  ∧ _channel (foldl client_step self ops) = _channel self
  ∧ (_closed self = true → foldl client_step self ops = self).
Proof.
  revert self. induction ops as [|op ops IH]; intros self H; [by split_and!|].
  destruct (client_step_keeps self op) as (Hs & Hch & Hcl).
  destruct (IH _ (client_step_lifecycle _ op H)) as (H1 & H2 & H3 & H4). cbn.
  split; [exact H1|]. split; [by rewrite H2|]. split; [by rewrite H3|]. intros Hc. by rewrite H4; rewrite (Hcl Hc).
Qed.
End client.

(** C34: a client the environment configures talks over mutual TLS unless
    plaintext is asked for: its channel carries the certificates and the key of
    the configured files and the configured server name, none of them unnamed.
    However it is used, every exchange goes to the gateway service with the
    configured timeout, at most thirty seconds, the channel is closed at most
    once, nothing is sent after that, and an exchange on a closed client raises. *)
Theorem media_client_contained env parse_bool_setting parse_float_setting fs remote settings0 client ops :
  media_control_settings env parse_bool_setting parse_float_setting = Ok settings0 →
  client_init fs settings0 None = Ok client →
  let used := foldl (client_step remote) client ops in
  (match _channel used with
   | InsecureChannel to => allow_plaintext settings0 = true ∧ to = target settings0
   | SecureChannel to root key chain name =>
       to = target settings0 ∧ name = server_name settings0 ∧ name ≠ ""
       ∧ ca_file settings0 ≠ "" ∧ fs_read fs (ca_file settings0) = Ok root
       ∧ key_file settings0 ≠ "" ∧ fs_read fs (key_file settings0) = Ok key
       ∧ cert_file settings0 ≠ "" ∧ fs_read fs (cert_file settings0) = Ok chain
   end)
  ∧ ((0 <? timeout_seconds settings0) && (timeout_seconds settings0 <=? 30))%float = true
  ∧ (∃ exchanges, calls used = exchanges ++ (if _closed used then [Closed] else [])
       ∧ Forall (λ c, ∃ p m, c = Exchanged DEFAULT_METHOD p m (timeout_seconds settings0)) exchanges)
  ∧ (_closed used = true → ∀ payloads metadata,
       exchange remote used payloads metadata = (used, throw ExcRuntimeError "Media Control gRPC client is closed")).
Proof.
  intros Hs Hi. apply bind_Ok in Hs as (plaintext & _ & Hs). apply bind_Ok in Hs as (timeout & Ht & Hs).
  apply field_timeout_Ok in Ht; [|reflexivity]. cbv zeta in Hs. unfold catch in Hs.
  destruct (validate_transport _) as [s|[c msg|]] eqn:Hv; [|destruct (subclass c _); discriminate Hs|discriminate Hs].
  injection Hs as ->. unfold validate_transport in Hv. cbn [target allow_plaintext] in Hv.
  destruct (is_empty _); [discriminate Hv|]. destruct (negb _ && _) eqn:Hm; [discriminate Hv|].
  set (s := mkMediaControl _ _ _ _ _ _ _) in *. injection Hv as <-.
  apply bind_Ok in Hi as (ch & Hch & [= <-]). intros used.
  destruct (client_run remote (mkClient s ch false []) ops) as (Hl & Hset & Hchan & _); [by exists []|].
  fold used in Hl, Hset, Hchan. split; [|split; [exact Ht|split]].
  - rewrite Hchan. cbn [_channel]. unfold create_channel in Hch. cbn [allow_plaintext s] in Hch, Hm.
    destruct plaintext; [injection Hch as <-; by split|].
    apply bind_Ok in Hch as (root & Hroot & Hch). apply bind_Ok in Hch as (key & Hkey & Hch).
    apply bind_Ok in Hch as (chain & Hchain & [= <-]).
    cbn [negb andb] in Hm. apply negb_false_iff in Hm. cbn [forallb] in Hm.
    rewrite !andb_true_iff in Hm. destruct Hm as (Hca & Hce & Hk & Hn & _).
    unfold truthy in *. rewrite negb_true_iff in *.
    split_and!; try done; intros Heq; subst s; cbn in *; by rewrite Heq in *.
  - destruct Hl as (exchanges & Hc & Hall). rewrite Hset in Hall. by exists exchanges.
  - intros Hc payloads metadata. unfold exchange. by rewrite Hc.
Qed.

Definition sample_media_env : environment := λ name,
  if String.eqb name "MEDIA_CONTROL_GRPC_TARGET" then Some "media:50051"
  else if String.eqb name "MEDIA_CONTROL_GRPC_ALLOW_PLAINTEXT" then None
  else if String.eqb name "MEDIA_CONTROL_GRPC_TIMEOUT_SECONDS" then None else Some "/run/secrets/file".

Definition sample_media_files : file_system := mkFS (λ _, true) (λ _, Ok 3) (λ _, Ok [x41; x42; x43]).

Lemma media_client_contained_witness :
  ∃ settings0 client,
    media_control_settings sample_media_env sample_parse_bool (λ _, Ok 1%float) = Ok settings0
    ∧ client_init sample_media_files settings0 None = Ok client
    ∧ calls (foldl (client_step (λ _ _ p, Ok p)) client [OpExchange [[x41]] []; OpClose; OpClose]) <> []
    ∧ exchange (λ _ _ p, Ok p) (foldl (client_step (λ _ _ p, Ok p)) client [OpExchange [[x41]] []; OpClose; OpClose]) [] []
      = (foldl (client_step (λ _ _ p, Ok p)) client [OpExchange [[x41]] []; OpClose; OpClose],
         throw ExcRuntimeError "Media Control gRPC client is closed").
Proof.
  destruct (media_control_settings sample_media_env sample_parse_bool (λ _, Ok 1%float)) as [s|] eqn:E;
    [|vm_compute in E; discriminate E].
  destruct (client_init sample_media_files s None) as [client|] eqn:Ei;
    [|exfalso; vm_compute in E; injection E as <-; vm_compute in Ei; discriminate Ei].
  exists s, client.
  destruct (media_client_contained _ _ _ _ (λ _ _ p, Ok p) s client [OpExchange [[x41]] []; OpClose; OpClose] E Ei)
    as (_ & _ & (exchanges & Hc & _) & Hx).
  assert (_closed (foldl (client_step (λ _ _ p, Ok p)) client [OpExchange [[x41]] []; OpClose; OpClose]) = true) as Hclosed.
  { vm_compute in E. injection E as <-. vm_compute in Ei. injection Ei as <-. reflexivity. }
  split; [done|]. split; [exact Ei|]. split; [|by apply Hx]. rewrite Hc, Hclosed. by destruct exchanges.
Defined.
