(* ===== verification/TurnRelay.v ===== *)
(** TURN relay smoke test: [scripts/smoke/turn_relay_smoke.py].

    The STUN codec and the long-term credential dialogue of a TURN allocation.
    MD5, HMAC-SHA1, IPv6 text, the checks [urlparse] delegates, random bytes and
    the server's answers are parameters; a connection is the list of the
    payloads sent on it. *)

From stdpp Require Import base list strings.
From Stdlib Require Import ZArith Lia Ascii Strings.Byte.
From S2P Require Import Prelude PyStr PyFloat PyText Url.

#[local] Open Scope Z_scope.

(** [scripts/smoke/turn_relay_smoke.py:19-32] the protocol's numbers and the default URL *)
Definition MAGIC_COOKIE : Z := 0x2112A442.
Definition ALLOCATE_REQUEST : Z := 0x0003.
Definition ALLOCATE_SUCCESS_RESPONSE : Z := 0x0103.
Definition ALLOCATE_ERROR_RESPONSE : Z := 0x0113.
Definition ATTR_USERNAME : Z := 0x0006.
Definition ATTR_MESSAGE_INTEGRITY : Z := 0x0008.
Definition ATTR_ERROR_CODE : Z := 0x0009.
Definition ATTR_REALM : Z := 0x0014.
Definition ATTR_NONCE : Z := 0x0015.
Definition ATTR_REQUESTED_TRANSPORT : Z := 0x0019.
Definition ATTR_XOR_RELAYED_ADDRESS : Z := 0x0016.
Definition ATTR_FINGERPRINT : Z := 0x8028.
Definition TRANSPORT_UDP : Z := 17.
Definition DEFAULT_TURN_URL : string := "turn:turn.gcs-saker.com:3478?transport=udp".

(** [scripts/smoke/turn_relay_smoke.py:41-45] TurnTarget *)
Record TurnTarget : Type := mkTarget { host : string; port : Z; transport : string }.

#[export] Instance TurnTarget_eq_dec : EqDecision TurnTarget.
Proof. solve_decision. Defined.

(** [scripts/smoke/turn_relay_smoke.py:48-51] StunAttribute *)
Record StunAttribute : Type := mkAttribute { a_type : Z; a_value : list byte }.

(** [scripts/smoke/turn_relay_smoke.py:54-58] StunMessage *)
Record StunMessage : Type := mkMessage { msg_type : Z; transaction_id : list byte; attributes : list StunAttribute }.

Definition runtime_error {A} (msg : string) : result A := throw ExcRuntimeError msg.

(** ** The URL *)

(** [s.rpartition(":")]: before, found, after. *)
Definition rpartition (c : ascii) (s : string) : string * bool * string :=
  match split_once c (string_rev s) with
  | (w, Some r) => (string_rev r, true, string_rev w)
  | (w, None) => ("", false, s)
  end.

Section url.
Context (bracketed_netloc_ok nfkc_ok : string → bool) (unicode_lower unquote_percent : string → string).
Context (int_other : string → option Z).

(** The host, port and query of a URL without an authority. *)
Definition bare_target (value : string) : result (string * Z * string) :=
  let '(raw_target, _, query) := partition "?" (removeprefix "turn:" value) in
  let '(host, separator, raw_port) := rpartition ":" raw_target in
  let '(host, raw_port) := if separator : bool then (host, raw_port) else (raw_target, "") in
  port ← (if truthy raw_port then py_int int_other raw_port else Ok 3478);
  Ok (host, port, query).

(** [scripts/smoke/turn_relay_smoke.py:61-81] parse_turn_url *)
Definition parse_turn_url (value : string) : result TurnTarget :=
  parsed ← urlsplit bracketed_netloc_ok nfkc_ok value;
  if negb (String.eqb (url_scheme parsed) "turn") then value_error "TURN URL must start with turn:" else
  '(host, port, query) ← match hostname unicode_lower parsed with
                         | Some h =>
                             p ← url_port parsed;
                             Ok (h, match p with Some n => if n =? 0 then 3478 else n | None => 3478 end, url_query parsed)
                         | None => bare_target value
                         end;
  if is_empty host then value_error "TURN URL must include a host" else
  let transport := lower unicode_lower (default "udp" (head (qs_get (parse_qs unquote_percent query) "transport"))) in
  if bool_decide (transport ∈ ["udp"; "tcp"]) then Ok (mkTarget host port transport)
  else value_error "TURN smoke supports udp or tcp transport".
End url.

Definition sample_parse : string → result TurnTarget :=
  parse_turn_url (λ _, true) (λ _, true) id id (λ _, None).

Example parse_default : sample_parse DEFAULT_TURN_URL = Ok (mkTarget "turn.gcs-saker.com" 3478 "udp").
Proof. reflexivity. Qed.

Example parse_authority : sample_parse "turn://Relay.example:5349?transport=TCP" = Ok (mkTarget "relay.example" 5349 "tcp").
Proof. reflexivity. Qed.

(** The scheme is compared in lower case, but only a lower-case one is cut off. *)
Example parse_upper_scheme : host <$> sample_parse "TURN:relay.example:3478" = Ok "TURN:relay.example".
Proof. reflexivity. Qed.

(** ** Integers in network order *)

Definition be (n : nat) (z : Z) : list byte := rev (le_split n z).
Definition of_be (l : list byte) : Z := le_combine (rev l).

(** [struct.pack] of one unsigned integer of [n] bytes. *)
Definition pack_uint (n : nat) (z : Z) : result (list byte) :=
  if (0 <=? z) && (z <? 256 ^ Z.of_nat n) then Ok (be n z) else throw ExcStructError "argument out of range".

(** ** Encoding *)

(** [scripts/smoke/turn_relay_smoke.py:84-86] padded *)
Definition padding (n : nat) : nat := ((4 - n mod 4) mod 4)%nat.
Definition padded (value : list byte) : list byte := value ++ repeat "000"%byte (padding (length value)).

(** [scripts/smoke/turn_relay_smoke.py:89-90] encode_attribute *)
Definition encode_attribute (attr_type : Z) (value : list byte) : result (list byte) :=
  t ← pack_uint 2 attr_type; n ← pack_uint 2 (Z.of_nat (length value)); Ok (t ++ n ++ padded value).

(** [struct.pack("!Bxxx", TRANSPORT_UDP)] *)
Definition requested_udp : list byte := [byte_of_Z TRANSPORT_UDP; "000"%byte; "000"%byte; "000"%byte].

(** [scripts/smoke/turn_relay_smoke.py:93-94] encode_requested_transport *)
Definition encode_requested_transport : result (list byte) := encode_attribute ATTR_REQUESTED_TRANSPORT requested_udp.

(** [struct.pack("!HHI12s", message_type, length, MAGIC_COOKIE, transaction_id)] *)
Definition pack_header (message_type length : Z) (transaction_id : list byte) : result (list byte) :=
  t ← pack_uint 2 message_type; n ← pack_uint 2 length; c ← pack_uint 4 MAGIC_COOKIE;
  Ok (t ++ n ++ c ++ take 12 (transaction_id ++ repeat "000"%byte 12)).

(** [scripts/smoke/turn_relay_smoke.py:134-138] append_fingerprint *)
Definition append_fingerprint (message_type : Z) (transaction_id body : list byte) : result (list byte) :=
  header ← pack_header message_type (Z.of_nat (length body) + 8) transaction_id;
  let checksum := Z.lxor (crc32 (header ++ body)) 0x5354554E in
  value ← pack_uint 4 checksum;
  attribute ← encode_attribute ATTR_FINGERPRINT value;
  Ok (header ++ body ++ attribute).

Section credentials.
Context (md5 : list byte → list byte) (hmac_sha1 : list byte → list byte → list byte).

(** [scripts/smoke/turn_relay_smoke.py:97-98] long_term_key *)
Definition long_term_key (username realm password : string) : list byte :=
  md5 (utf8_encode (username +:+ ":" +:+ realm +:+ ":" +:+ password)).

(** What a request authenticates with. *)
Record Credentials : Type := mkCredentials { username : string; realm : string; nonce : string; password : string }.

(** [username and realm and nonce and password] *)
Definition credentials_of (username realm nonce password : option string) : option Credentials :=
  match username, realm, nonce, password with
  | Some u, Some r, Some n, Some p =>
      if truthy u && truthy r && truthy n && truthy p then Some (mkCredentials u r n p) else None
  | _, _, _, _ => None
  end.

(** [scripts/smoke/turn_relay_smoke.py:120-128] encode_allocate_request: the
    attribute that authenticates a body.  Its header announces the length of the
    body with this attribute. *)
Definition integrity_attribute (transaction_id partial_body : list byte) (c : Credentials) : result (list byte) :=
  header ← pack_header ALLOCATE_REQUEST (Z.of_nat (length partial_body) + 24) transaction_id;
  encode_attribute ATTR_MESSAGE_INTEGRITY
    (hmac_sha1 (long_term_key (username c) (realm c) (password c)) (header ++ partial_body)).

(** [scripts/smoke/turn_relay_smoke.py:101-131] encode_allocate_request *)
Definition encode_allocate_request (transaction_id : list byte) (username_ realm_ nonce_ password_ : option string) :
    result (list byte) :=
  match credentials_of username_ realm_ nonce_ password_ with
  | Some c =>
      u ← encode_attribute ATTR_USERNAME (utf8_encode (username c));
      r ← encode_attribute ATTR_REALM (utf8_encode (realm c));
      n ← encode_attribute ATTR_NONCE (utf8_encode (nonce c));
      transport ← encode_requested_transport;
      let partial_body := u ++ r ++ n ++ transport in
      integrity ← integrity_attribute transaction_id partial_body c;
      append_fingerprint ALLOCATE_REQUEST transaction_id (partial_body ++ integrity)
  | None =>
      transport ← encode_requested_transport;
      append_fingerprint ALLOCATE_REQUEST transaction_id transport
  end.
End credentials.

(** ** Parsing *)

(** The attributes of a body; the last value may be cut short.  Every round
    takes at least four bytes. *)
Fixpoint parse_attributes (fuel : nat) (rest : list byte) : list StunAttribute :=
  match fuel with
  | O => []
  | S fuel' =>
      if Nat.leb 4 (length rest) then
        let attr_length := Z.to_nat (of_be (take 2 (drop 2 rest))) in
        mkAttribute (of_be (take 2 rest)) (take attr_length (drop 4 rest))
          :: parse_attributes fuel' (drop (4 + attr_length + padding attr_length) rest)
      else []
  end.

(** [scripts/smoke/turn_relay_smoke.py:141-156] parse_message *)
Definition parse_message (payload : list byte) : result StunMessage :=
  if Nat.ltb (length payload) 20 then runtime_error "STUN response is shorter than the header" else
  let message_type := of_be (take 2 payload) in
  let length_ := Z.to_nat (of_be (take 2 (drop 2 payload))) in
  let cookie := of_be (take 4 (drop 4 payload)) in
  if negb (cookie =? MAGIC_COOKIE) then runtime_error "STUN response has an invalid magic cookie" else
  let body := take length_ (drop 20 payload) in
  Ok (mkMessage message_type (take 12 (drop 8 payload)) (parse_attributes (length body) body)).

(** [scripts/smoke/turn_relay_smoke.py:159-163] get_attr *)
Definition get_attr (message : StunMessage) (attr_type : Z) : option (list byte) :=
  a_value <$> List.find (λ a, a_type a =? attr_type) (attributes message).

(** [scripts/smoke/turn_relay_smoke.py:166-169] decode_error_code *)
Definition decode_error_code (value : option (list byte)) : option Z :=
  match value with
  | Some (_ :: _ :: b2 :: b3 :: _) => Some (Z.land (byte_to_Z b2) 7 * 100 + byte_to_Z b3)
  | _ => None
  end.

Section address.
Context (inet_ntop6 : list byte → string).

(** [socket.inet_ntoa] *)
Definition inet_ntoa (l : list byte) : string := join "." (str_of_Z ∘ byte_to_Z <$> l).

(** [bytes(a ^ b for a, b in zip(l, mask))] *)
Definition xor_bytes (l mask : list byte) : list byte :=
  (λ ab, byte_of_Z (Z.lxor (byte_to_Z ab.1) (byte_to_Z ab.2))) <$> zip l mask.

(** [scripts/smoke/turn_relay_smoke.py:172-184] decode_xor_relayed_address *)
Definition decode_xor_relayed_address (value : option (list byte)) (transaction_id : list byte) : option string :=
  match value with
  | None => None
  | Some value =>
      if Nat.ltb (length value) 8 then None else
      let family := of_be (take 1 (drop 1 value)) in
      let xport := str_of_Z (Z.lxor (of_be (take 2 (drop 2 value))) (Z.shiftr MAGIC_COOKIE 16)) in
      if family =? 1 then
        let xaddr := Z.lxor (of_be (take 4 (drop 4 value))) MAGIC_COOKIE in
        Some (inet_ntoa (be 4 xaddr) +:+ ":" +:+ xport)
      else if (family =? 2) && Nat.leb 20 (length value) then
        let mask := be 4 MAGIC_COOKIE ++ take 12 (transaction_id ++ repeat "000"%byte 12) in
        Some ("[" +:+ inet_ntop6 (xor_bytes (take 16 (drop 4 value)) mask) +:+ "]:" +:+ xport)
      else None
  end.
End address.

(** ** The dialogue *)

(** The payloads sent on the connection, the last one last. *)
Notation conversation := (list (list byte)).

Definition turn (A : Type) : Type := conversation → result A * conversation.

#[export] Instance turn_ret : MRet turn := λ A a conv, (Ok a, conv).
#[export] Instance turn_bind : MBind turn := λ A B f m conv,
  match m conv with (Ok a, conv) => f a conv | (Raise e, conv) => (Raise e, conv) end.

Definition lift_turn {A} (r : result A) : turn A := λ conv, (r, conv).

(** [raise TurnAllocationError(code)] is the right alternative; other exceptions are results. *)
Notation refusal := (option Z).

Section dialogue.
Context (md5 : list byte → list byte) (hmac_sha1 : list byte → list byte → list byte) (inet_ntop6 : list byte → string).
Context (answer : conversation → list byte → result (list byte)) (token_bytes : conversation → list byte).

(** [connection.send(payload)]: the answer to a payload after those already sent. *)
Definition send (payload : list byte) : turn (list byte) := λ conv, (answer conv payload, conv ++ [payload]).

(** [secrets.token_bytes(12)] *)
Definition fresh_id : turn (list byte) := λ conv, (Ok (token_bytes conv), conv).

(** [scripts/smoke/turn_relay_smoke.py:230-240] run_turn_allocate: one request
    and its parsed answer. *)
Definition exchange (username realm nonce password : option string) : turn StunMessage :=
  id ← fresh_id;
  payload ← lift_turn (encode_allocate_request md5 hmac_sha1 id username realm nonce password);
  bytes ← send payload;
  lift_turn (parse_message bytes).

Definition error_code_of (m : StunMessage) : option Z := decode_error_code (get_attr m ATTR_ERROR_CODE).

(** A present, non-empty attribute. *)
Definition nonempty_attr (m : StunMessage) (attr_type : Z) : option (list byte) :=
  match get_attr m attr_type with Some ((_ :: _) as v) => Some v | _ => None end.

(** [scripts/smoke/turn_relay_smoke.py:223-253] run_turn_allocate: the attempts
    left, against the latest challenge. *)
Fixpoint authenticate (attempts : nat) (username password : string) (challenge : StunMessage) : turn (StunMessage + refusal) :=
  match attempts with
  | O => lift_turn (runtime_error "TURN allocation failed after retrying stale nonce challenges")
  | S attempts' =>
      match nonempty_attr challenge ATTR_REALM, nonempty_attr challenge ATTR_NONCE with
      | Some realm, Some nonce =>
          realm ← lift_turn (utf8_decode realm);
          nonce ← lift_turn (utf8_decode nonce);
          authenticated ← exchange (Some username) (Some realm) (Some nonce) (Some password);
          if msg_type authenticated =? ALLOCATE_SUCCESS_RESPONSE then mret (inl authenticated)
          else if (msg_type authenticated =? ALLOCATE_ERROR_RESPONSE) && bool_decide (error_code_of authenticated = Some 438)
          then authenticate attempts' username password authenticated
          else mret (inr (error_code_of authenticated))
      | _, _ => lift_turn (runtime_error "TURN challenge did not include realm and nonce")
      end
  end.

(** [scripts/smoke/turn_relay_smoke.py:217-258] run_turn_allocate *)
Definition run_turn_allocate (username password : string) : turn (string + refusal) :=
  challenge ← exchange None None None None;
  if negb (msg_type challenge =? ALLOCATE_ERROR_RESPONSE) || negb (bool_decide (error_code_of challenge = Some 401))
  then lift_turn (runtime_error "TURN server did not return the expected long-term credential challenge") else
  authenticated ← authenticate 3 username password challenge;
  match authenticated with
  | inr code => mret (inr code)
  | inl m =>
      match decode_xor_relayed_address inet_ntop6 (get_attr m ATTR_XOR_RELAYED_ADDRESS) (transaction_id m) with
      | Some relay => mret (inl relay)
      | None => lift_turn (runtime_error "TURN allocation succeeded but did not return XOR-RELAYED-ADDRESS")
      end
  end.

(** [scripts/smoke/turn_relay_smoke.py:261-268] verify_credential_denial *)
Definition verify_credential_denial (username password : string) : turn () :=
  outcome ← run_turn_allocate username (password +:+ "-invalid");
  match outcome with
  | inr (Some 401) => mret ()
  | inr _ => lift_turn (runtime_error "TURN invalid-credential check returned an unexpected error")
  | inl _ => lift_turn (runtime_error "TURN accepted an invalid credential")
  end.
End dialogue.

(** ** The tool *)

Section tool.
Context (bracketed_netloc_ok nfkc_ok : string → bool) (unicode_lower unquote_percent : string → string).
Context (int_other : string → option Z).
Context (md5 : list byte → list byte) (hmac_sha1 : list byte → list byte → list byte) (inet_ntop6 : list byte → string).

(** Opening the n-th connection to a target, its server and its random bytes. *)
Context (connect : nat → TurnTarget → result ()).
Context (answer : nat → conversation → list byte → result (list byte)) (token_bytes : nat → conversation → list byte).

Local Notation parse_turn_url := (parse_turn_url bracketed_netloc_ok nfkc_ok unicode_lower unquote_percent int_other).

(** [with TurnConnection(target, timeout) as connection: ...] *)
Definition with_connection {A} (n : nat) (target : TurnTarget) (m : turn A) : result A :=
  _ ← connect n target; (m []).1.

(** [scripts/smoke/turn_relay_smoke.py:271-280] run_static_check *)
Definition run_static_check : result (list string) :=
  target ← parse_turn_url DEFAULT_TURN_URL;
  sample ← encode_allocate_request md5 hmac_sha1 (utf8_encode "123456789012") None None None None;
  if negb (String.eqb (transport target) "udp") || negb (of_be (take 2 sample) =? ALLOCATE_REQUEST)
     || negb (of_be (take 4 (drop 4 sample)) =? MAGIC_COOKIE)
  then runtime_error "TURN smoke static contract failed" else
  Ok ["TURN relay smoke check passed"; "Default TURN URL: " +:+ DEFAULT_TURN_URL;
      "Live mode verifies 401 challenge, MESSAGE-INTEGRITY, and XOR-RELAYED-ADDRESS allocation"].

Record arguments : Type := mkArguments {
  a_check : bool;
  turn_url : string;
  a_username : option string;
  a_password : option string;
  verify_denials : bool
}.

(** The [try] body of [main]: the lines it prints. *)
Definition run_smoke (args : arguments) : result (list string) :=
  if a_check args then run_static_check else
  match a_username args, a_password args with
  | Some username, Some password =>
      if is_empty username || is_empty password
      then runtime_error "WEBRTC_TURN_USERNAME and WEBRTC_TURN_PASSWORD are required for --run" else
      target ← parse_turn_url (turn_url args);
      outcome ← with_connection 0 target
        (run_turn_allocate md5 hmac_sha1 inet_ntop6 (answer 0) (token_bytes 0) username password);
      match outcome with
      | inr code => runtime_error ("TURN allocation failed with error="
                                   +:+ match code with Some c => if c =? 0 then "unknown" else str_of_Z c | None => "unknown" end)
      | inl relay =>
          denial ← (if verify_denials args
                    then _ ← with_connection 1 target
                               (verify_credential_denial md5 hmac_sha1 inet_ntop6 (answer 1) (token_bytes 1) username password);
                         Ok ["TURN invalid-credential denial passed"]
                    else Ok []);
          Ok (denial ++ ["TURN relay smoke run passed"; "TURN URL: " +:+ turn_url args; "Relay address: " +:+ relay])
      end
  | _, _ => runtime_error "WEBRTC_TURN_USERNAME and WEBRTC_TURN_PASSWORD are required for --run"
  end.

(** [scripts/smoke/turn_relay_smoke.py:303-321] main, from the parsed arguments: the exit
    status, what is printed, and what is printed to standard error *)
Definition main (args : arguments) : Z * list string * option exn :=
  match run_smoke args with Ok lines => (0, lines, None) | Raise e => (1, [], Some e) end.
End tool.

(** ** The codec *)

Lemma length_be n z : length (be n z) = n.
Proof. unfold be. by rewrite length_rev, length_le_split. Qed.

Lemma of_be_be n z : 0 <= z < 256 ^ Z.of_nat n → of_be (be n z) = z.
Proof. intros. unfold of_be, be. rewrite rev_involutive. by apply le_combine_split. Qed.

Lemma pack_uint_Ok n z l : pack_uint n z = Ok l → l = be n z ∧ 0 <= z < 256 ^ Z.of_nat n.
Proof.
  unfold pack_uint. destruct (_ && _) eqn:E; [|discriminate]. intros [= <-]. split; [done|].
  apply andb_true_iff in E as [?%Z.leb_le ?%Z.ltb_lt]. done.
Qed.

Lemma take_be n z l : take n (be n z ++ l) = be n z.
Proof. apply take_app_length'. by rewrite length_be. Qed.

Lemma drop_be n z l : drop n (be n z ++ l) = l.
Proof. apply drop_app_length'. by rewrite length_be. Qed.

(** The bytes of an attribute. *)
Definition attribute_bytes (a : StunAttribute) : list byte :=
  be 2 (a_type a) ++ be 2 (Z.of_nat (length (a_value a))) ++ padded (a_value a).

Definition attribute_wf (a : StunAttribute) : Prop :=
  0 <= a_type a < 65536 ∧ Z.of_nat (length (a_value a)) < 65536.

Lemma encode_attribute_Ok t v l :
  encode_attribute t v = Ok l → l = attribute_bytes (mkAttribute t v) ∧ attribute_wf (mkAttribute t v).
Proof.
  intros (tb & Ht & (nb & Hn & [= <-])%bind_Ok)%bind_Ok. apply pack_uint_Ok in Ht as [-> Ht]. apply pack_uint_Ok in Hn as [-> Hn].
  split; [done|]. split; cbn [a_type a_value]; change (256 ^ Z.of_nat 2) with 65536 in *; lia.
Qed.

Lemma length_padded v : length (padded v) = (length v + padding (length v))%nat.
Proof. unfold padded. by rewrite length_app, repeat_length. Qed.

Lemma length_attribute_bytes a : length (attribute_bytes a) = (4 + length (a_value a) + padding (length (a_value a)))%nat.
Proof. unfold attribute_bytes. rewrite !length_app, !length_be, length_padded. lia. Qed.

Lemma parse_one fuel a tail : attribute_wf a →
  parse_attributes (S fuel) (attribute_bytes a ++ tail) = a :: parse_attributes fuel tail.
Proof.
  intros [Ht Hv]. set (n := length (a_value a)) in *.
  assert (attribute_bytes a ++ tail = be 2 (a_type a) ++ be 2 (Z.of_nat n) ++ padded (a_value a) ++ tail) as E.
  { unfold attribute_bytes. by rewrite <-!app_assoc. }
  cbn [parse_attributes]. rewrite (proj2 (Nat.leb_le _ _)) by (rewrite length_app, length_attribute_bytes; lia).
  assert (take 2 (drop 2 (attribute_bytes a ++ tail)) = be 2 (Z.of_nat n)) as E1.
  { rewrite E, drop_be. by rewrite take_be. }
  assert (Z.to_nat (of_be (be 2 (Z.of_nat n))) = n) as E2.
  { rewrite of_be_be, Nat2Z.id; [done|]. change (256 ^ Z.of_nat 2) with 65536. lia. }
  assert (drop 4 (attribute_bytes a ++ tail) = padded (a_value a) ++ tail) as E3.
  { rewrite E. change 4%nat with (2 + 2)%nat. by rewrite <-drop_drop, drop_be, drop_be. }
  rewrite E1, E2. f_equal.
  - rewrite E3. rewrite E at 1. rewrite take_be, of_be_be by (change (256 ^ Z.of_nat 2) with 65536; lia).
    unfold padded. rewrite <-app_assoc, take_app_length' by done. by destruct a.
  - f_equal. apply drop_app_length'. by rewrite length_attribute_bytes.
Qed.

(** Parsing the bytes of attributes gives the attributes, with any fuel that
    their length allows. *)
Lemma parse_attributes_bytes l fuel :
  Forall attribute_wf l → (length (concat (attribute_bytes <$> l)) <= fuel)%nat →
  parse_attributes fuel (concat (attribute_bytes <$> l)) = l.
Proof.
  intros Hl. revert fuel. induction Hl as [|a l Ha _ IH]; intros fuel Hfuel; [by destruct fuel|].
  rewrite fmap_cons in *. cbn [concat] in *. rewrite length_app, length_attribute_bytes in Hfuel.
  destruct fuel as [|fuel]; [lia|]. rewrite parse_one by done. f_equal. apply IH. lia.
Qed.

(** The length of a body is enough fuel: more changes nothing. *)
Lemma parse_attributes_fuel n m rest :
  (length rest <= n)%nat → (length rest <= m)%nat → parse_attributes n rest = parse_attributes m rest.
Proof.
  revert m rest. induction n as [|n IH]; intros [|m] rest Hn Hm; cbn; try done.
  - assert (rest = []) as -> by (by apply nil_length_inv; lia). done.
  - assert (rest = []) as -> by (by apply nil_length_inv; lia). done.
  - destruct (length rest) as [|[|[|[|k]]]] eqn:E; try done. f_equal. apply IH; rewrite length_drop; lia.
Qed.

Lemma pack_header_Ok t n id l : length id = 12%nat → pack_header t n id = Ok l →
  l = be 2 t ++ be 2 n ++ be 4 MAGIC_COOKIE ++ id ∧ 0 <= t < 65536 ∧ 0 <= n < 65536 ∧ length l = 20%nat.
Proof.
  intros Hid (tb & Ht & (nb & Hn & (cb & Hc & [= <-])%bind_Ok)%bind_Ok)%bind_Ok.
  apply pack_uint_Ok in Ht as [-> Ht], Hn as [-> Hn], Hc as [-> _].
  rewrite take_app_length' by done. change (256 ^ Z.of_nat 2) with 65536 in *. rewrite !length_app, !length_be, Hid. done.
Qed.

Lemma parse_framed t n id body :
  0 <= t < 65536 → n = Z.of_nat (length body) → n < 65536 → length id = 12%nat →
  parse_message ((be 2 t ++ be 2 n ++ be 4 MAGIC_COOKIE ++ id) ++ body)
  = Ok (mkMessage t id (parse_attributes (length body) body)).
Proof.
  intros Ht Hn Hlt Hid. unfold parse_message. rewrite <-!app_assoc.
  rewrite (proj2 (Nat.ltb_ge _ _)) by (rewrite !length_app, !length_be, Hid; lia).
  set (payload := be 2 t ++ _).
  assert (drop 2 payload = be 2 n ++ be 4 MAGIC_COOKIE ++ id ++ body) as E2 by apply drop_be.
  assert (drop 4 payload = be 4 MAGIC_COOKIE ++ id ++ body) as E4.
  { change 4%nat with (2 + 2)%nat at 1. rewrite <-drop_drop, E2. apply drop_be. }
  assert (drop 8 payload = id ++ body) as E8.
  { change 8%nat with (4 + 4)%nat at 1. rewrite <-drop_drop, E4. apply drop_be. }
  assert (drop 20 payload = body) as E20.
  { change 20%nat with (8 + 12)%nat at 1. rewrite <-drop_drop, E8. by apply drop_app_length'. }
  rewrite E20, E8, E4, E2. unfold payload at 1. rewrite !take_be.
  rewrite (of_be_be 2 t), (of_be_be 2 n) by (change (256 ^ Z.of_nat 2) with 65536; lia).
  change (of_be (be 4 MAGIC_COOKIE)) with MAGIC_COOKIE. rewrite Z.eqb_refl. cbn [negb].
  rewrite Hn, Nat2Z.id, take_app_length' by done. by rewrite firstn_all.
Qed.

(** The bytes a message starts with. *)
Definition frame (t n : Z) (id : list byte) : list byte := be 2 t ++ be 2 n ++ be 4 MAGIC_COOKIE ++ id.

(** The fingerprint of a message: the CRC of what precedes its attribute. *)
Definition fingerprint_of (payload : list byte) : list byte :=
  be 4 (Z.lxor (crc32 (take (length payload - 8) payload)) 0x5354554E).

Lemma concat_attribute_bytes_snoc l a :
  concat (attribute_bytes <$> (l ++ [a])) = concat (attribute_bytes <$> l) ++ attribute_bytes a.
Proof. rewrite fmap_app, concat_app. cbn. by rewrite app_nil_r. Qed.

Lemma append_fingerprint_Ok t id l payload :
  length id = 12%nat → Forall attribute_wf l →
  append_fingerprint t id (concat (attribute_bytes <$> l)) = Ok payload →
  let body := concat (attribute_bytes <$> l) in
  let fp := mkAttribute ATTR_FINGERPRINT (fingerprint_of payload) in
  payload = frame t (Z.of_nat (length body) + 8) id ++ body ++ attribute_bytes fp
  ∧ parse_message payload = Ok (mkMessage t id (l ++ [fp])).
Proof.
  intros Hid Hl H body fp. fold body in H. apply bind_Ok in H as (header & Hh & H).
  apply pack_header_Ok in Hh as (Hh & Ht & Hn & Hlh); [|done]. apply bind_Ok in H as (value & Hv & H).
  apply bind_Ok in H as (attribute & Ha & [= <-]). apply pack_uint_Ok in Hv as [Hv _].
  apply encode_attribute_Ok in Ha as [-> Hwf]. set (a := mkAttribute ATTR_FINGERPRINT value) in *.
  assert (length (attribute_bytes a) = 8%nat) as Hla by (by rewrite length_attribute_bytes; cbn; rewrite Hv, length_be).
  assert (a = fp) as Heq.
  { unfold a, fp, fingerprint_of. f_equal. rewrite Hv. do 3 f_equal. symmetry. rewrite app_assoc.
    apply take_app_length'. rewrite !length_app, Hla. lia. }
  rewrite <-Heq, Hh. unfold frame. split; [done|].
  assert (body ++ attribute_bytes a = concat (attribute_bytes <$> (l ++ [a]))) as -> by (by rewrite concat_attribute_bytes_snoc).
  rewrite parse_framed; [|done|rewrite concat_attribute_bytes_snoc, length_app, Hla; fold body; lia|lia|done].
  rewrite parse_attributes_bytes; [done|apply Forall_app; split; [done|by constructor]|lia].
Qed.

(** What the integrity of a message covers: its bytes before the attribute at
    [k], with the length its header would have if the message ended with it. *)
Definition integrity_input (payload : list byte) (k : nat) : list byte :=
  take 2 payload ++ be 2 (Z.of_nat k - 20 + 24) ++ drop 4 (take k payload).

Section codec.
Context (md5 : list byte → list byte) (hmac_sha1 : list byte → list byte → list byte).

Local Notation request := (encode_allocate_request md5 hmac_sha1).

Lemma requested_transport_Ok l :
  encode_requested_transport = Ok l →
  l = attribute_bytes (mkAttribute ATTR_REQUESTED_TRANSPORT requested_udp)
  ∧ attribute_wf (mkAttribute ATTR_REQUESTED_TRANSPORT requested_udp).
Proof. apply encode_attribute_Ok. Qed.

(** A request without credentials says only that UDP is wanted. *)
Lemma first_request_parse id payload :
  length id = 12%nat → request id None None None None = Ok payload →
  parse_message payload = Ok (mkMessage ALLOCATE_REQUEST id
    [mkAttribute ATTR_REQUESTED_TRANSPORT requested_udp; mkAttribute ATTR_FINGERPRINT (fingerprint_of payload)]).
Proof.
  intros Hid (transport & Ht & H)%bind_Ok. apply requested_transport_Ok in Ht as [-> Hwf].
  rewrite <-(app_nil_r (attribute_bytes _)) in H.
  change (attribute_bytes ?a ++ []) with (concat (attribute_bytes <$> [a])) in H.
  by apply append_fingerprint_Ok in H as [_ H]; [|done|constructor].
Qed.

(** The attributes an authenticated request signs. *)
Definition signed_attributes (u r n : string) : list StunAttribute :=
  [mkAttribute ATTR_USERNAME (utf8_encode u); mkAttribute ATTR_REALM (utf8_encode r); mkAttribute ATTR_NONCE (utf8_encode n);
   mkAttribute ATTR_REQUESTED_TRANSPORT requested_udp].

Lemma length_frame t n id : length id = 12%nat → length (frame t n id) = 20%nat.
Proof. intros Hid. unfold frame. by rewrite !length_app, !length_be, Hid. Qed.

Lemma integrity_input_frame t n id body tail : length id = 12%nat →
  integrity_input (frame t n id ++ body ++ tail) (20 + length body)
  = frame t (Z.of_nat (length body) + 24) id ++ body.
Proof.
  intros Hid. unfold integrity_input.
  rewrite (app_assoc (frame t n id) body), (take_app_length' (frame t n id ++ body) tail (20 + length body))
    by (rewrite length_app, length_frame by done; lia).
  unfold frame. rewrite <-!app_assoc, take_be. f_equal.
  replace (Z.of_nat (20 + length body) - 20 + 24) with (Z.of_nat (length body) + 24) by lia.
  change 4%nat with (2 + 2)%nat at 1. by rewrite <-drop_drop, !drop_be.
Qed.

Lemma request_parts id u r n p payload :
  length id = 12%nat → u ≠ "" → r ≠ "" → n ≠ "" → p ≠ "" →
  request id (Some u) (Some r) (Some n) (Some p) = Ok payload →
  let body := concat (attribute_bytes <$> signed_attributes u r n) in
  let i := mkAttribute ATTR_MESSAGE_INTEGRITY
             (hmac_sha1 (long_term_key md5 u r p) (frame ALLOCATE_REQUEST (Z.of_nat (length body) + 24) id ++ body)) in
  Forall attribute_wf (signed_attributes u r n ++ [i])
  ∧ append_fingerprint ALLOCATE_REQUEST id (concat (attribute_bytes <$> (signed_attributes u r n ++ [i]))) = Ok payload.
Proof.
  intros Hid Hu Hr Hn Hp H body i. unfold encode_allocate_request, credentials_of in H.
  assert (∀ s, s ≠ "" → truthy s = true) as Htr by (by intros []). rewrite !Htr in H by done. cbn [andb] in H.
  apply bind_Ok in H as (ub & Eu & H). apply encode_attribute_Ok in Eu as [-> Wu].
  apply bind_Ok in H as (rb & Er & H). apply encode_attribute_Ok in Er as [-> Wr].
  apply bind_Ok in H as (nb & En & H). apply encode_attribute_Ok in En as [-> Wn].
  apply bind_Ok in H as (tb & Et & H). apply requested_transport_Ok in Et as [-> Wt].
  cbn [username realm nonce password] in *.
  assert (attribute_bytes (mkAttribute ATTR_USERNAME (utf8_encode u)) ++ attribute_bytes (mkAttribute ATTR_REALM (utf8_encode r))
    ++ attribute_bytes (mkAttribute ATTR_NONCE (utf8_encode n))
    ++ attribute_bytes (mkAttribute ATTR_REQUESTED_TRANSPORT requested_udp) = body) as Hb.
  { unfold body, signed_attributes. cbn [fmap list_fmap concat]. by rewrite app_nil_r. }
  rewrite Hb in H. clear Hb. apply bind_Ok in H as (ib & Ei & H). unfold integrity_attribute in Ei.
  cbn [username realm password] in Ei. apply bind_Ok in Ei as (header & Eh & Ei).
  apply pack_header_Ok in Eh as (-> & _); [|done]. apply encode_attribute_Ok in Ei as [-> Wi].
  rewrite concat_attribute_bytes_snoc. split; [|exact H]. apply Forall_app.
  split; [unfold signed_attributes; by rewrite !Forall_cons, Forall_nil|by constructor].
Qed.

(** C29: An authenticated allocation request is what the server reads back.  Its
    parse has the transaction identifier and, in order, the user name, the realm
    and nonce of the challenge, the UDP transport, the message integrity and the
    fingerprint.  The integrity is the HMAC under the long-term key of the
    message's own bytes before it, with the header length that counts it, and
    the fingerprint the CRC of the message's bytes before it, as STUN requires. *)
Theorem allocate_request_roundtrip id u r n p payload :
  length id = 12%nat → u ≠ "" → r ≠ "" → n ≠ "" → p ≠ "" →
  request id (Some u) (Some r) (Some n) (Some p) = Ok payload →
  ∃ k, let integrity := mkAttribute ATTR_MESSAGE_INTEGRITY (hmac_sha1 (long_term_key md5 u r p) (integrity_input payload k)) in
    let fingerprint := mkAttribute ATTR_FINGERPRINT (fingerprint_of payload) in
    parse_message payload = Ok (mkMessage ALLOCATE_REQUEST id
      [mkAttribute ATTR_USERNAME (utf8_encode u); mkAttribute ATTR_REALM (utf8_encode r); mkAttribute ATTR_NONCE (utf8_encode n);
       mkAttribute ATTR_REQUESTED_TRANSPORT requested_udp; integrity; fingerprint])
    ∧ drop k payload = attribute_bytes integrity ++ attribute_bytes fingerprint.
Proof.
  intros Hid Hu Hr Hn Hp H. destruct (request_parts _ _ _ _ _ _ Hid Hu Hr Hn Hp H) as [Hwf Happ].
  set (body := concat (attribute_bytes <$> signed_attributes u r n)) in *.
  apply append_fingerprint_Ok in Happ as [Hpay Hparse]; [|done..]. rewrite concat_attribute_bytes_snoc in Hpay.
  fold body in Hpay. rewrite <-(app_assoc body) in Hpay. exists (20 + length body)%nat. cbn zeta.
  assert (integrity_input payload (20 + length body) = frame ALLOCATE_REQUEST (Z.of_nat (length body) + 24) id ++ body) as ->.
  { rewrite Hpay. by apply integrity_input_frame. }
  split; [exact Hparse|]. rewrite Hpay at 1. rewrite app_assoc. apply drop_app_length'.
  rewrite length_app, length_frame by done. lia.
Qed.
End codec.

(** ** What an allocation shows *)

Section allocation.
Context (md5 : list byte → list byte) (hmac_sha1 : list byte → list byte → list byte) (inet_ntop6 : list byte → string).
Context (answer : conversation → list byte → result (list byte)) (token_bytes : conversation → list byte).

Local Notation exchange := (exchange md5 hmac_sha1 answer token_bytes).
Local Notation authenticate := (authenticate md5 hmac_sha1 answer token_bytes).

Lemma turn_bind_cases {A B} (m : turn A) (f : A → turn B) conv r conv' :
  (m ≫= f) conv = (r, conv') →
  (∃ e, m conv = (Raise e, conv') ∧ r = Raise e) ∨ (∃ a c, m conv = (Ok a, c) ∧ f a c = (r, conv')).
Proof.
  unfold mbind, turn_bind. destruct (m conv) as [[a|e] c]; intros H; [right; by exists a, c|left].
  injection H as <- <-. by exists e.
Qed.

(** The server answered the payload, after those of [conv], with [m]. *)
Definition answered (conv : conversation) (payload : list byte) (m : StunMessage) : Prop :=
  ∃ bytes, answer conv payload = Ok bytes ∧ parse_message bytes = Ok m.

Lemma exchange_cases u r n p conv outcome conv' :
  exchange u r n p conv = (outcome, conv') →
  (conv' = conv ∧ is_ok outcome = false)
  ∨ ∃ payload, encode_allocate_request md5 hmac_sha1 (token_bytes conv) u r n p = Ok payload ∧ conv' = conv ++ [payload]
      ∧ ∀ m, outcome = Ok m → answered conv payload m.
Proof.
  unfold TurnRelay.exchange, fresh_id, send, lift_turn, mbind, turn_bind.
  destruct (encode_allocate_request _ _ _ _ _ _ _) as [payload|e]; [|intros [= <- <-]; by left].
  destruct (answer conv payload) as [bytes|e] eqn:Ea; intros [= <- <-]; right; exists payload; (split; [done|]); (split; [done|]).
  - intros m Hm. by exists bytes.
  - discriminate.
Qed.

(** [payload] authenticates against a challenge, and the server answers [m]. *)
Definition authenticated_against (username password : string) (challenge : StunMessage) (conv : conversation)
    (payload : list byte) (m : StunMessage) : Prop :=
  ∃ realm nonce, realm ≠ "" ∧ nonce ≠ ""
    ∧ get_attr challenge ATTR_REALM = Some (utf8_encode realm) ∧ get_attr challenge ATTR_NONCE = Some (utf8_encode nonce)
    ∧ encode_allocate_request md5 hmac_sha1 (token_bytes conv) (Some username) (Some realm) (Some nonce) (Some password) = Ok payload
    ∧ answered conv payload m.

(** Attempts against the latest challenge until one succeeds; all before it were
    answered by the error of a stale nonce. *)
Inductive authenticates (username password : string) : StunMessage → conversation → list (list byte) → StunMessage → Prop :=
  | authenticates_last challenge conv payload m :
      authenticated_against username password challenge conv payload m → msg_type m = ALLOCATE_SUCCESS_RESPONSE →
      authenticates username password challenge conv [payload] m
  | authenticates_again challenge conv payload stale rest m :
      authenticated_against username password challenge conv payload stale →
      msg_type stale = ALLOCATE_ERROR_RESPONSE → error_code_of stale = Some 438 →
      authenticates username password stale (conv ++ [payload]) rest m →
      authenticates username password challenge conv (payload :: rest) m.

Lemma nonempty_attr_decoded m t v s :
  nonempty_attr m t = Some v → utf8_decode v = Ok s → get_attr m t = Some (utf8_encode s) ∧ s ≠ "".
Proof.
  unfold nonempty_attr. destruct (get_attr m t) as [[|b l]|] eqn:E; try discriminate. intros [= <-] Hs.
  apply utf8_decode_Ok in Hs as [Hs _]. rewrite Hs. split; [done|]. by intros ->.
Qed.

Lemma authenticate_cases attempts username password challenge conv outcome conv' :
  authenticate attempts username password challenge conv = (outcome, conv') →
  ∃ rest, conv' = conv ++ rest ∧ (length rest <= attempts)%nat
    ∧ ∀ m, outcome = Ok (inl m) → authenticates username password challenge conv rest m.
Proof.
  revert challenge conv. induction attempts as [|attempts IH]; intros challenge conv; cbn [TurnRelay.authenticate].
  { intros [= <- <-]. exists []. rewrite app_nil_r. by split_and!. }
  destruct (nonempty_attr challenge ATTR_REALM) as [realm_b|] eqn:Er, (nonempty_attr challenge ATTR_NONCE) as [nonce_b|] eqn:En.
  2-4: intros [= <- <-]; exists []; rewrite app_nil_r; split_and!; [done|cbn; lia|discriminate].
  intros H. apply turn_bind_cases in H as [(e & [= _ <-] & ->)|(realm & c & [= Hr <-] & H)].
  { exists []. rewrite app_nil_r. split_and!; [done|cbn; lia|discriminate]. }
  apply turn_bind_cases in H as [(e & [= _ <-] & ->)|(nonce & c & [= Hn <-] & H)].
  { exists []. rewrite app_nil_r. split_and!; [done|cbn; lia|discriminate]. }
  destruct (nonempty_attr_decoded _ _ _ _ Er Hr) as [Hrealm Hr0]. destruct (nonempty_attr_decoded _ _ _ _ En Hn) as [Hnonce Hn0].
  apply turn_bind_cases in H as [(e & H & ->)|(m & c & Hx & H)].
  { apply exchange_cases in H as [[-> _]|(payload & _ & -> & _)]; [exists []|exists [payload]];
      rewrite ?app_nil_r; (split; [done|]); (split; [cbn; lia|discriminate]). }
  apply exchange_cases in Hx as [[_ [=]]|(payload & Hp & -> & Hm)]. specialize (Hm m eq_refl).
  assert (authenticated_against username password challenge conv payload m) as Hag by (by exists realm, nonce).
  destruct (Z.eqb_spec (msg_type m) ALLOCATE_SUCCESS_RESPONSE) as [Hs|_].
  { injection H as <- <-. exists [payload]. split; [done|]. split; [cbn; lia|]. intros m' [= <-]. by apply authenticates_last. }
  destruct ((msg_type m =? ALLOCATE_ERROR_RESPONSE) && _) eqn:Estale.
  - apply andb_true_iff in Estale as [Ht%Z.eqb_eq Hc%bool_decide_eq_true_1].
    apply IH in H as (rest & -> & Hlen & Hrest). exists (payload :: rest). rewrite <-app_assoc. split; [done|].
    split; [cbn; lia|]. intros m' Hm'. eapply authenticates_again; eauto.
  - injection H as <- <-. exists [payload]. split; [done|]. split; [cbn; lia|discriminate].
Qed.

(** C24: An allocation follows the long-term credential mechanism.  However the
    server behaves, at most four messages are sent.  When a relay address is
    returned, the first message carried no credentials and was answered by error
    401; every later one, three at most, authenticates with the realm and nonce
    of the latest challenge, all but the last of them were answered by error 438,
    a stale nonce, and the last by a success whose relayed address it is. *)
Theorem turn_allocate_sound username password outcome conv :
  run_turn_allocate md5 hmac_sha1 inet_ntop6 answer token_bytes username password [] = (outcome, conv) →
  (length conv <= 4)%nat
  ∧ ∀ relay, outcome = Ok (inl relay) →
      ∃ first challenge rest m,
        conv = first :: rest
        ∧ encode_allocate_request md5 hmac_sha1 (token_bytes []) None None None None = Ok first
        ∧ answered [] first challenge ∧ msg_type challenge = ALLOCATE_ERROR_RESPONSE ∧ error_code_of challenge = Some 401
        ∧ authenticates username password challenge [first] rest m
        ∧ decode_xor_relayed_address inet_ntop6 (get_attr m ATTR_XOR_RELAYED_ADDRESS) (transaction_id m) = Some relay.
Proof.
  intros H. unfold run_turn_allocate in H. apply turn_bind_cases in H as [(e & H & ->)|(challenge & c & Hx & H)].
  { apply exchange_cases in H as [[-> _]|(payload & _ & -> & _)]; (split; [cbn; lia|discriminate]). }
  apply exchange_cases in Hx as [[_ [=]]|(first & Hf & -> & Hm)]. specialize (Hm challenge eq_refl). cbn [app] in H.
  destruct (_ || _) eqn:E; [injection H as <- <-; split; [cbn; lia|discriminate]|].
  apply orb_false_iff in E as [Et%negb_false_iff%Z.eqb_eq Ec%negb_false_iff%bool_decide_eq_true_1].
  apply turn_bind_cases in H as [(e & H & ->)|([m|code] & c & Ha & H)].
  - apply authenticate_cases in H as (rest & -> & Hlen & _). split; [cbn; lia|discriminate].
  - apply authenticate_cases in Ha as (rest & -> & Hlen & Hrest). specialize (Hrest m eq_refl).
    assert (length ([first] ++ rest) <= 4)%nat as Hl by (cbn; lia).
    destruct (decode_xor_relayed_address _ _ _) as [relay'|] eqn:Ed; injection H as <- <-; (split; [done|]); [|discriminate].
    intros relay [= <-]. by exists first, challenge, rest, m.
  - apply authenticate_cases in Ha as (rest & -> & Hlen & _). injection H as <- <-. split; [cbn; lia|discriminate].
Qed.
End allocation.

(** ** A server *)

Definition sample_response (t : Z) (l : list StunAttribute) : list byte :=
  let body := concat (attribute_bytes <$> l) in frame t (Z.of_nat (length body)) (repeat "000"%byte 12) ++ body.

Definition sample_challenge (code : Z) (nonce : string) : list byte :=
  sample_response ALLOCATE_ERROR_RESPONSE
    [mkAttribute ATTR_ERROR_CODE (byte_of_Z <$> [0; 0; code / 100; code mod 100]);
     mkAttribute ATTR_REALM (utf8_encode "gcs"); mkAttribute ATTR_NONCE (utf8_encode nonce)].

(** It challenges, finds the nonce stale once, and grants 10.0.0.7:49152. *)
Definition sample_server (conv : conversation) (payload : list byte) : result (list byte) :=
  match conv with
  | [] => Ok (sample_challenge 401 "n1")
  | [_] => Ok (sample_challenge 438 "n2")
  | _ => Ok (sample_response ALLOCATE_SUCCESS_RESPONSE
      [mkAttribute ATTR_XOR_RELAYED_ADDRESS
         (be 2 1 ++ be 2 (Z.lxor 49152 (Z.shiftr MAGIC_COOKIE 16)) ++ be 4 (Z.lxor 0x0A000007 MAGIC_COOKIE))])
  end.

Definition sample_digest (key message : list byte) : list byte := take 20 (key ++ message ++ repeat "000"%byte 20).

Lemma length_sample_digest key message : length (sample_digest key message) = 20%nat.
Proof. unfold sample_digest. rewrite length_take, !length_app, repeat_length. lia. Qed.

Definition sample_allocation : result (string + refusal) * conversation :=
  run_turn_allocate id sample_digest (λ _, "::") sample_server (λ conv, repeat (byte_of_Z (Z.of_nat (length conv))) 12) "pilot" "secret" [].

(** The success has neither a message integrity nor the transaction identifier
    of the request; it is accepted all the same. *)
Example unauthenticated_success_accepted : sample_allocation.1 = Ok (inl "10.0.0.7:49152").
Proof. vm_compute. reflexivity. Qed.

Lemma turn_allocate_sound_witness :
  ∃ first challenge rest m, sample_allocation.2 = first :: rest ∧ length rest = 2%nat
    ∧ authenticates id sample_digest sample_server (λ conv, repeat (byte_of_Z (Z.of_nat (length conv))) 12) "pilot" "secret"
        challenge [first] rest m.
Proof.
  destruct sample_allocation as [outcome conv] eqn:E.
  assert (outcome = Ok (inl "10.0.0.7:49152") ∧ length conv = 3%nat) as [Ho Hl]
    by (vm_compute in E; by injection E as <- <-).
  destruct (turn_allocate_sound id sample_digest (λ _, "::") sample_server
    (λ conv, repeat (byte_of_Z (Z.of_nat (length conv))) 12) "pilot" "secret" outcome conv E) as [_ H].
  destruct (H _ Ho) as (first & challenge & rest & m & Hc & _ & _ & _ & _ & Ha & _).
  exists first, challenge, rest, m. split; [done|]. split; [rewrite Hc in Hl; by injection Hl|done].
Defined.

Lemma allocate_request_roundtrip_witness :
  ∃ payload k, encode_allocate_request id sample_digest (repeat "001"%byte 12) (Some "pilot") (Some "gcs") (Some "n1") (Some "secret") = Ok payload
    ∧ length (drop k payload) = 32%nat.
Proof.
  destruct (encode_allocate_request id sample_digest (repeat "001"%byte 12) (Some "pilot") (Some "gcs") (Some "n1") (Some "secret"))
    as [payload|] eqn:E; [|vm_compute in E; discriminate E].
  destruct (allocate_request_roundtrip id sample_digest (repeat "001"%byte 12) "pilot" "gcs" "n1" "secret" payload
    eq_refl ltac:(discriminate) ltac:(discriminate) ltac:(discriminate) ltac:(discriminate) E) as (k & _ & Hd).
  exists payload, k. split; [done|]. rewrite Hd, length_app, !length_attribute_bytes. cbn [a_value].
  rewrite length_sample_digest. unfold fingerprint_of. by rewrite length_be.
Defined.
