(* ===== verification/RespClient.v ===== *)
(** The cache client of [scripts/smoke/dragonfly_profile_smoke.py]: the RESP
    protocol and the contract it exercises inside the deployment.

    A connection is the segments the network delivers and how it ends; loops that
    read take fuel.  The server is a function of the commands received; the JSON
    codec is a parameter. *)

From stdpp Require Import base list strings.
From Stdlib Require Import ZArith Lia Ascii Strings.Byte.
From S2P Require Import Prelude PyStr PyStrFacts PyJson PyText PyDecimal.

#[local] Open Scope Z_scope.

Definition runtime_error {A} (msg : string) : result A := throw ExcRuntimeError msg.

(** ** Connections *)

(** What the peer will send, in the pieces the network delivers, and what comes
    then: the end of the stream, or an exception (a timeout, a reset). *)
Record socket : Type := mkSocket { segments : list (list byte); then_raises : option exn }.

Definition incoming (s : socket) : list byte := concat (segments s).

(** [sock.recv(n)]: what is there of the first piece, up to [n] bytes; nothing
    at the end of the stream. *)
Fixpoint recv_segments (n : nat) (l : list (list byte)) : option (list byte * list (list byte)) :=
  match l with
  | [] => None
  | [] :: l => recv_segments n l
  | piece :: l => Some (take n piece, drop n piece :: l)
  end.

Definition recv (n : nat) (s : socket) : result (list byte * socket) :=
  match recv_segments n (segments s) with
  | Some (chunk, l) => Ok (chunk, mkSocket l (then_raises s))
  | None => match then_raises s with None => Ok ([], s) | Some e => Raise e end
  end.

(** Reading may go on for ever: [None] is a loop whose fuel ran out. *)
Definition reader (A : Type) : Type := socket → option (result (A * socket)).

#[local] Instance reader_ret : MRet reader := λ A a s, Some (Ok (a, s)).
#[local] Instance reader_bind : MBind reader := λ A B f m s,
  match m s with
  | Some (Ok (a, s)) => f a s
  | Some (Raise e) => Some (Raise e)
  | None => None
  end.

Definition lift_reader {A} (r : result A) : reader A := λ s, Some (a ← r; Ok (a, s)).
Definition receive (n : nat) : reader (list byte) := λ s, Some (recv n s).
Definition no_fuel {A} : reader A := λ _, None.

(** [x for _ in range(n)] *)
Fixpoint repeated {A} (n : nat) (m : reader A) : reader (list A) :=
  match n with
  | O => mret []
  | S n => a ← m; l ← repeated n m; mret (a :: l)
  end.

(** ** RESP *)

Definition CRLF : list byte := [Byte.x0d; Byte.x0a].

(** [scripts/smoke/dragonfly_profile_smoke.py:35-42] encode_command *)
Definition encode_command (parts : list string) : list byte :=
  utf8_encode ("*" +:+ str_of_Z (Z.of_nat (length parts))) ++ CRLF
  ++ concat ((λ part, utf8_encode ("$" +:+ str_of_Z (Z.of_nat (length (utf8_encode part)))) ++ CRLF
                      ++ utf8_encode part ++ CRLF) <$> parts).

(** The reply of a server: text, a number, nothing or a list. *)
Inductive reply : Type :=
  | RText (s : string)
  | RInt (n : Z)
  | RNone
  | RList (l : list reply).

Definition ends_with_crlf (data : list byte) : bool :=
  match reverse data with Byte.x0a :: Byte.x0d :: _ => true | _ => false end.

(** [int(line)] of bytes: ASCII only, and the separators U+001C to U+001F are no
    white space. *)
Definition int_of_bytes (line : list byte) : result Z :=
  let text := String.string_of_list_byte line in
  if forall_chars (λ a, is_ascii a && negb ((28 <=? code a) && (code a <=? 31))) text
  then py_int (λ _, None) text else value_error "invalid literal for int() with base 10".

(** [scripts/smoke/dragonfly_profile_smoke.py:45-52] read_line *)
Fixpoint read_line (fuel : nat) (data : list byte) : reader (list byte) :=
  if ends_with_crlf data then mret (take (length data - 2) data) else
  match fuel with
  | O => no_fuel
  | S fuel =>
      chunk ← receive 1;
      match chunk with
      | [] => lift_reader (runtime_error "redis connection closed while reading line")
      | _ => read_line fuel (data ++ chunk)
      end
  end.

(** [while len(payload) < size + 2: payload.extend(sock.recv(...))]: nothing
    ends the loop when the stream does. *)
Fixpoint read_payload (fuel : nat) (size : nat) (payload : list byte) : reader (list byte) :=
  if (size + 2 <=? length payload)%nat then mret payload else
  match fuel with
  | O => no_fuel
  | S fuel => chunk ← receive (size + 2 - length payload); read_payload fuel size (payload ++ chunk)
  end.

(** [scripts/smoke/dragonfly_profile_smoke.py:55-76] read_resp *)
Fixpoint read_resp (fuel : nat) : reader reply :=
  match fuel with
  | O => no_fuel
  | S fuel =>
      prefix ← receive 1;
      match prefix with
      | [] => lift_reader (runtime_error "redis connection closed while reading response")
      | c :: _ =>
          line ← read_line fuel [];
          match Byte.to_N c with
          | 43%N => text ← lift_reader (utf8_decode line); mret (RText text)
          | 45%N => text ← lift_reader (utf8_decode line); lift_reader (runtime_error text)
          | 58%N => n ← lift_reader (int_of_bytes line); mret (RInt n)
          | 36%N =>
              size ← lift_reader (int_of_bytes line);
              if size <? 0 then mret RNone else
              payload ← read_payload fuel (Z.to_nat size) [];
              text ← lift_reader (utf8_decode (take (Z.to_nat size) payload));
              mret (RText text)
          | 42%N =>
              n ← lift_reader (int_of_bytes line);
              l ← repeated (Z.to_nat n) (read_resp fuel);
              mret (RList l)
          | _ => lift_reader (runtime_error "unsupported RESP prefix")
          end
      end
  end.

(** What a server writes for a reply (RESP2, strings as bulk strings). *)
Fixpoint encode_reply (r : reply) : list byte :=
  match r with
  | RText s => utf8_encode ("$" +:+ str_of_Z (Z.of_nat (length (utf8_encode s)))) ++ CRLF ++ utf8_encode s ++ CRLF
  | RInt n => utf8_encode (":" +:+ str_of_Z n) ++ CRLF
  | RNone => utf8_encode "$-1" ++ CRLF
  | RList l => utf8_encode ("*" +:+ str_of_Z (Z.of_nat (length l))) ++ CRLF ++ concat (encode_reply <$> l)
  end.

(** Well-formed text, of sizes a machine has. *)
Fixpoint reply_wf (r : reply) : Prop :=
  match r with
  | RText s => wf_str s = true ∧ Z.of_nat (length (utf8_encode s)) < 2 ^ 63
  | RInt n => (String.length (str_of_Z n) <= 4300)%nat
  | RNone => True
  | RList l => Z.of_nat (length l) < 2 ^ 63 ∧ (fix all l := match l with [] => True | r :: l => reply_wf r ∧ all l end) l
  end.

Lemma reply_ind' (P : reply → Prop) :
  (∀ s, P (RText s)) → (∀ n, P (RInt n)) → P RNone → (∀ l, Forall P l → P (RList l)) → ∀ r, P r.
Proof.
  intros HT HI HN HL. fix IH 1. intros [s|n| |l]; [apply HT|apply HI|exact HN|].
  apply HL. induction l as [|r l IHl]; constructor; [apply IH|exact IHl].
Qed.

Lemma reply_wf_list l : reply_wf (RList l) ↔ Z.of_nat (length l) < 2 ^ 63 ∧ Forall reply_wf l.
Proof.
  cbn. apply and_iff_compat_l. induction l as [|r l IH]; [by split|]. rewrite Forall_cons, <-IH. done.
Qed.

(** A command is a list of strings on the wire. *)
Lemma encode_command_reply parts : encode_command parts = encode_reply (RList (RText <$> parts)).
Proof. unfold encode_command. cbn. rewrite length_fmap, <-list_fmap_compose. done. Qed.

(** ** Reading does not depend on how the network cuts the stream *)

(** [m] consumes exactly [l] and returns [a]. *)
Definition reads {A} (m : reader A) (l : list byte) (a : A) : Prop := ∀ s tail, incoming s = l ++ tail →
  ∃ s', m s = Some (Ok (a, s')) ∧ incoming s' = tail ∧ then_raises s' = then_raises s.

Lemma reads_ret {A} (a : A) : reads (mret a) [] a.
Proof. intros s tail Hs. by exists s. Qed.

Lemma reads_lift {A} (r : result A) a : r = Ok a → reads (lift_reader r) [] a.
Proof. intros -> s tail Hs. by exists s. Qed.

Lemma reads_bind {A B} (m : reader A) (f : A → reader B) l1 l2 a b :
  reads m l1 a → reads (f a) l2 b → reads (m ≫= f) (l1 ++ l2) b.
Proof.
  intros Hm Hf s tail Hs. rewrite <-app_assoc in Hs. destruct (Hm s _ Hs) as (s1 & E1 & Hs1 & He1).
  destruct (Hf s1 _ Hs1) as (s2 & E2 & Hs2 & He2). exists s2. unfold mbind, reader_bind. rewrite E1.
  split; [done|]. split; [done|]. by rewrite He2.
Qed.

Lemma recv_segments_spec n l : (0 < n)%nat →
  match recv_segments n l with
  | None => concat l = []
  | Some (chunk, l') => concat l = chunk ++ concat l' ∧ (0 < length chunk <= n)%nat
  end.
Proof.
  intros Hn. induction l as [|[|b piece] l IH]; cbn [recv_segments]; [done|exact IH|]. split.
  - cbn [concat]. rewrite app_assoc. by rewrite take_drop.
  - rewrite length_take. cbn. lia.
Qed.

(** A read returns a non-empty beginning of what is to come. *)
Lemma recv_cases n s : (0 < n)%nat →
  (incoming s = [] ∧ recv n s = match then_raises s with None => Ok ([], s) | Some e => Raise e end) ∨
  ∃ chunk s', recv n s = Ok (chunk, s') ∧ incoming s = chunk ++ incoming s' ∧ (0 < length chunk <= n)%nat ∧
    then_raises s' = then_raises s.
Proof.
  intros Hn. unfold recv, incoming. pose proof (recv_segments_spec n (segments s) Hn) as H.
  destruct (recv_segments n (segments s)) as [[chunk l]|]; [right|by left].
  exists chunk, (mkSocket l (then_raises s)). by destruct H.
Qed.

Lemma reads_byte b : reads (receive 1) [b] [b].
Proof.
  intros s tail Hs. destruct (recv_cases 1 s ltac:(lia)) as [[He _]|(chunk & s' & E & Hc & Hl & Hr)]; [by rewrite Hs in He|].
  exists s'. unfold receive. rewrite Hs in Hc. destruct chunk as [|c [|? ?]]; cbn in Hl; [lia| |lia].
  cbn in Hc. injection Hc as <- Hc. by rewrite E.
Qed.

Definition no_cr (l : list byte) : Prop := Forall (λ b, b ≠ Byte.x0d) l.

Lemma ends_with_crlf_snoc l a b : ends_with_crlf (l ++ [a; b]) = true ↔ a = Byte.x0d ∧ b = Byte.x0a.
Proof.
  unfold ends_with_crlf. rewrite reverse_app. cbn. split; [|by intros [-> ->]].
  destruct b; try discriminate. destruct a; try discriminate. done.
Qed.

Lemma ends_with_crlf_no_cr l : no_cr l → ends_with_crlf l = false.
Proof.
  intros Hl. destruct (ends_with_crlf l) eqn:E; [|done]. exfalso.
  destruct l as [|b l _] using rev_ind; [done|]. destruct l as [|a l _] using rev_ind; [by destruct b; vm_compute in E|].
  rewrite <-app_assoc in E. apply ends_with_crlf_snoc in E as [-> _].
  apply Forall_app in Hl as [[_ Ha]%Forall_app _]. by destruct (proj1 (Forall_singleton _ _) Ha).
Qed.

Lemma ends_with_cr l : no_cr l → ends_with_crlf (l ++ [Byte.x0d]) = false.
Proof.
  intros Hl. destruct (ends_with_crlf (l ++ [Byte.x0d])) eqn:E; [|done]. exfalso.
  destruct l as [|a l _] using rev_ind; [done|]. rewrite <-app_assoc in E. by apply ends_with_crlf_snoc in E as [_ ?].
Qed.

Lemma reads_read_line fuel data line : no_cr data → no_cr line → (length line + 2 <= fuel)%nat →
  reads (read_line fuel data) (line ++ CRLF) (data ++ line).
Proof.
  assert (Hstep : ∀ fuel data b l r, ends_with_crlf data = false → (0 < fuel)%nat →
    reads (read_line (fuel - 1) (data ++ [b])) l r → reads (read_line fuel data) (b :: l) r).
  { intros [|f] d b l r Hd Hf Hr; [lia|]. cbn [read_line]. rewrite Hd. eapply (reads_bind _ _ [b]); [apply reads_byte|].
    cbn [Nat.sub] in Hr. by rewrite Nat.sub_0_r in Hr. }
  revert fuel data. induction line as [|b line IH]; intros fuel data Hd Hl Hf.
  - apply Hstep; [by apply ends_with_crlf_no_cr|cbn in Hf; lia|].
    apply Hstep; [by apply ends_with_cr|cbn in Hf; lia|].
    assert (read_line (fuel - 1 - 1) ((data ++ [Byte.x0d]) ++ [Byte.x0a]) = mret (data ++ [])) as ->; [|apply reads_ret].
    rewrite <-app_assoc. assert (ends_with_crlf (data ++ CRLF) = true) as E by by apply ends_with_crlf_snoc.
    destruct (fuel - 1 - 1)%nat; cbn [read_line]; change ([Byte.x0d] ++ [Byte.x0a]) with CRLF; rewrite E;
      by rewrite app_nil_r, length_app, Nat.add_sub, take_app_length.
  - apply Forall_cons in Hl as [Hb Hl]. apply Hstep; [by apply ends_with_crlf_no_cr|lia|].
    change (data ++ b :: line) with (data ++ [b] ++ line). rewrite app_assoc.
    apply IH; [|done|cbn in Hf; lia]. apply Forall_app. by rewrite Forall_singleton.
Qed.

Lemma split_first {A} (l1 l2 k1 k2 : list A) : l1 ++ l2 = k1 ++ k2 → (length k1 <= length l1)%nat →
  ∃ rest, l1 = k1 ++ rest ∧ k2 = rest ++ l2.
Proof.
  intros E Hlen. exists (drop (length k1) l1).
  pose proof (f_equal (take (length k1)) E) as Ht. pose proof (f_equal (drop (length k1)) E) as Hd.
  rewrite take_app_le, take_app_length in Ht by done. rewrite drop_app_le, drop_app_length in Hd by done.
  split; [|done]. rewrite <-(take_drop (length k1) l1) at 1. by rewrite Ht.
Qed.

(** The loop that reads a bulk string takes exactly its bytes, however they come. *)
Lemma reads_payload size fuel : ∀ data payload, (length payload + length data = size + 2)%nat →
  (length data <= fuel)%nat → reads (read_payload fuel size payload) data (payload ++ data).
Proof.
  induction fuel as [|fuel IH]; intros data payload Hsize Hf s tail Hs; cbn [read_payload].
  - destruct data as [|? ?]; [|cbn in Hf; lia]. cbn in Hsize. rewrite Nat.add_0_r in Hsize.
    rewrite Hsize, Nat.leb_refl, app_nil_r. by exists s.
  - destruct (Nat.leb_spec (size + 2) (length payload)) as [Hle|Hlt].
    + destruct data; [|cbn in Hsize; lia]. rewrite app_nil_r. by exists s.
    + destruct (recv_cases (size + 2 - length payload) s ltac:(lia)) as [[He _]|(chunk & s1 & E & Hc & Hl & Hr)].
      { rewrite Hs in He. apply app_eq_nil in He as [-> _]. cbn in Hsize. lia. }
      rewrite Hs in Hc. destruct (split_first data tail chunk (incoming s1) Hc ltac:(lia)) as (rest & -> & Hrest).
      rewrite length_app in *. unfold mbind, reader_bind, receive. rewrite E.
      destruct (IH rest (payload ++ chunk) ltac:(rewrite length_app; lia) ltac:(lia) s1 tail Hrest) as (s2 & E2 & Hs2 & Hr2).
      exists s2. rewrite E2, <-app_assoc. split; [done|]. split; [done|]. by rewrite Hr2.
Qed.

Lemma utf8_encode_app a b : utf8_encode (a +:+ b) = utf8_encode a ++ utf8_encode b.
Proof.
  unfold utf8_encode, String.list_byte_of_string. induction a as [|c a IH]; [done|].
  change (String c a +:+ b) with (String c (a +:+ b)). cbn. f_equal. exact IH.
Qed.

Lemma length_utf8_encode t : length (utf8_encode t) = String.length t.
Proof. unfold utf8_encode, String.list_byte_of_string. induction t as [|c t IH]; [done|]. cbn. f_equal. exact IH. Qed.

Lemma solid_no_cr t : forall_chars solid t = true → no_cr (utf8_encode t).
Proof.
  unfold no_cr, utf8_encode, String.list_byte_of_string. induction t as [|c t IH]; cbn; [constructor|]. intros [Hc Ht]%andb_prop.
  constructor; [|by apply IH]. intros E.
  assert (c = ascii_of_byte Byte.x0d) as -> by by rewrite <-E, ascii_of_byte_of_ascii. discriminate Hc.
Qed.

Lemma int_of_number n : (String.length (str_of_Z n) <= 4300)%nat → int_of_bytes (utf8_encode (str_of_Z n)) = Ok n.
Proof.
  intros Hn. unfold int_of_bytes, utf8_encode. rewrite String.string_of_list_byte_of_string.
  assert (forall_chars (λ a, is_ascii a && negb ((28 <=? code a) && (code a <=? 31))) (str_of_Z n) = true) as ->.
  { eapply forall_chars_mono; [|apply (str_of_Z_solid n)]. intros a. unfold solid, is_ascii. lia. }
  by apply py_int_str_of_Z.
Qed.

(** A line that holds a number. *)
Lemma reads_number n fuel : (String.length (str_of_Z n) <= 4300)%nat → (String.length (str_of_Z n) + 2 <= fuel)%nat →
  reads (line ← read_line fuel []; n ← lift_reader (int_of_bytes line); mret n) (utf8_encode (str_of_Z n) ++ CRLF) n.
Proof.
  intros Hn Hf. rewrite <-(app_nil_r (_ ++ CRLF)). eapply reads_bind.
  - apply reads_read_line; [constructor|apply solid_no_cr, str_of_Z_solid|].
    by rewrite length_utf8_encode.
  - rewrite <-(app_nil_l []). eapply reads_bind; [|apply reads_ret]. apply reads_lift. by apply int_of_number.
Qed.

Lemma reads_line_number n fuel : (String.length (str_of_Z n) <= 4300)%nat → (String.length (str_of_Z n) + 2 <= fuel)%nat →
  reads (read_line fuel []) (utf8_encode (str_of_Z n) ++ CRLF) (utf8_encode (str_of_Z n)).
Proof.
  intros Hn Hf. apply reads_read_line; [constructor|apply solid_no_cr, str_of_Z_solid|].
  by rewrite length_utf8_encode.
Qed.

Lemma reads_repeated {A} (m : reader A) (l : list A) (enc : A → list byte) :
  Forall (λ a, reads m (enc a) a) l → reads (repeated (length l) m) (concat (enc <$> l)) l.
Proof.
  induction 1 as [|a l Ha _ IH]; cbn [length repeated fmap list_fmap concat]; [apply reads_ret|].
  eapply reads_bind; [exact Ha|]. rewrite <-(app_nil_r (concat _)). eapply reads_bind; [exact IH|apply reads_ret].
Qed.

(** ** Replies are read back *)

Lemma length_concat_elem {A B} (f : A → list B) l a : a ∈ l → (length (f a) <= length (concat (f <$> l)))%nat.
Proof. induction 1 as [x l'|x b l' _ IH]; cbn; rewrite length_app; lia. Qed.

Lemma encode_prefixed c t : utf8_encode (String c t) = byte_of_ascii c :: utf8_encode t.
Proof. done. Qed.

Lemma reads_reply r : reply_wf r → ∀ fuel, (length (encode_reply r) <= fuel)%nat → reads (read_resp fuel) (encode_reply r) r.
Proof.
  induction r as [t|n| |l IH] using reply_ind'; intros Hwf fuel Hfuel; cbn [encode_reply] in *;
    change (?p +:+ ?u) with (String.append p u) in *.
  - destruct Hwf as [Ht Hsize]. set (size := length (utf8_encode t)) in *.
    change ("$" +:+ ?u) with (String "$" u) in *. rewrite encode_prefixed in *. change (byte_of_ascii "$") with Byte.x24 in *.
    pose proof (str_of_size_length (Z.of_nat size) ltac:(lia)) as Hd.
    cbn [length app] in Hfuel. rewrite !length_app, length_utf8_encode in Hfuel. fold size in Hfuel. cbn [length CRLF] in Hfuel.
    destruct fuel as [|fuel]; [lia|]. cbn [read_resp app].
    apply (reads_bind _ _ [Byte.x24] _ [Byte.x24]); [apply reads_byte|]. rewrite app_assoc.
    eapply reads_bind; [apply reads_line_number; lia|]. cbn [Byte.to_N].
    rewrite <-(app_nil_l (_ ++ CRLF)). eapply reads_bind; [apply reads_lift, int_of_number; lia|].
    destruct (Z.ltb_spec (Z.of_nat size) 0) as [?|_]; [lia|]. rewrite Nat2Z.id.
    rewrite <-(app_nil_r (_ ++ CRLF)). eapply reads_bind.
    { apply reads_payload; [by rewrite length_app|rewrite length_app; cbn; lia]. }
    cbn [app]. rewrite <-(app_nil_l []). eapply reads_bind; [|apply reads_ret]. apply reads_lift.
    unfold size. rewrite take_app_length. by apply utf8_decode_encode.
  - change (":" +:+ ?u) with (String ":" u) in *. rewrite encode_prefixed in *. change (byte_of_ascii ":") with Byte.x3a in *.
    cbn [length app] in Hfuel. rewrite !length_app, length_utf8_encode in Hfuel. cbn [length CRLF] in Hfuel.
    destruct fuel as [|fuel]; [lia|]. cbn [read_resp app].
    apply (reads_bind _ _ [Byte.x3a] _ [Byte.x3a]); [apply reads_byte|].
    rewrite <-(app_nil_r (_ ++ CRLF)). eapply reads_bind; [apply reads_line_number; [done|lia]|]. cbn [Byte.to_N].
    rewrite <-(app_nil_l []). eapply reads_bind; [by apply reads_lift, int_of_number|apply reads_ret].
  - change (length (utf8_encode "$-1" ++ CRLF)) with 5%nat in Hfuel. destruct fuel as [|fuel]; [lia|]. cbn [read_resp].
    assert (String.length (str_of_Z (-1)) = 2%nat) as Hd by reflexivity.
    change (utf8_encode "$-1" ++ CRLF) with ([Byte.x24] ++ utf8_encode (str_of_Z (-1)) ++ CRLF).
    eapply reads_bind; [apply reads_byte|]. rewrite <-(app_nil_r (_ ++ CRLF)).
    eapply reads_bind; [apply reads_line_number; lia|]. cbn [Byte.to_N].
    rewrite <-(app_nil_l []). eapply reads_bind; [apply reads_lift, int_of_number; lia|apply reads_ret].
  - apply reply_wf_list in Hwf as [Hsize Hwf].
    change ("*" +:+ ?u) with (String "*" u) in *. rewrite encode_prefixed in *. change (byte_of_ascii "*") with Byte.x2a in *.
    pose proof (str_of_size_length (Z.of_nat (length l)) ltac:(lia)) as Hd.
    cbn [length app] in Hfuel. rewrite !length_app, length_utf8_encode in Hfuel. cbn [length CRLF] in Hfuel.
    destruct fuel as [|fuel]; [lia|]. cbn [read_resp app].
    apply (reads_bind _ _ [Byte.x2a] _ [Byte.x2a]); [apply reads_byte|]. rewrite app_assoc.
    eapply reads_bind; [apply reads_line_number; lia|]. cbn [Byte.to_N].
    rewrite <-(app_nil_l (concat _)). eapply reads_bind; [apply reads_lift, int_of_number; lia|].
    rewrite Nat2Z.id, <-(app_nil_r (concat _)). eapply reads_bind; [|apply reads_ret]. apply reads_repeated.
    apply Forall_forall. intros e He. apply (proj1 (Forall_forall _ _) IH e He).
    + by apply (proj1 (Forall_forall _ _) Hwf).
    + pose proof (length_concat_elem encode_reply l e He). lia.
Qed.

(** ** More fuel changes nothing *)

Definition refines {A} (m m' : reader A) : Prop := ∀ s r, m s = Some r → m' s = Some r.

Lemma refines_refl {A} (m : reader A) : refines m m.
Proof. by intros s r. Qed.

Lemma refines_bind {A B} (m m' : reader A) (f f' : A → reader B) :
  refines m m' → (∀ a, refines (f a) (f' a)) → refines (m ≫= f) (m' ≫= f').
Proof.
  intros Hm Hf s r. unfold mbind, reader_bind. destruct (m s) as [[[a s1]|e]|] eqn:E; [|by rewrite (Hm _ _ E)|done].
  rewrite (Hm _ _ E). apply Hf.
Qed.

Lemma refines_repeated {A} n (m m' : reader A) : refines m m' → refines (repeated n m) (repeated n m').
Proof.
  intros Hm. induction n as [|n IH]; cbn; [apply refines_refl|].
  apply refines_bind; [done|]. intros a. apply refines_bind; [done|]. intros l. apply refines_refl.
Qed.

Lemma read_line_fuel k fuel data : refines (read_line fuel data) (read_line (fuel + k) data).
Proof.
  revert data. induction fuel as [|fuel IH]; intros data; cbn [read_line Nat.add].
  - destruct k; cbn [read_line]; destruct (ends_with_crlf data); [apply refines_refl|by intros s r| |by intros s r].
    apply refines_refl.
  - destruct (ends_with_crlf data); [apply refines_refl|]. apply refines_bind; [apply refines_refl|].
    intros [|b chunk]; [apply refines_refl|apply IH].
Qed.

Lemma read_payload_fuel k fuel size payload : refines (read_payload fuel size payload) (read_payload (fuel + k) size payload).
Proof.
  revert payload. induction fuel as [|fuel IH]; intros payload; cbn [read_payload Nat.add].
  - destruct k; cbn [read_payload]; destruct (_ <=? _)%nat; [apply refines_refl|by intros s r| |by intros s r].
    apply refines_refl.
  - destruct (_ <=? _)%nat; [apply refines_refl|]. apply refines_bind; [apply refines_refl|]. intros chunk. apply IH.
Qed.

Lemma read_resp_fuel k fuel : refines (read_resp fuel) (read_resp (fuel + k)).
Proof.
  induction fuel as [|fuel IH]; [by intros s r|]. cbn [read_resp Nat.add].
  apply refines_bind; [apply refines_refl|]. intros [|c chunk]; [apply refines_refl|].
  apply refines_bind; [apply read_line_fuel|]. intros line.
  assert (Hb : refines (size ← lift_reader (int_of_bytes line);
                if size <? 0 then mret RNone else
                payload ← read_payload fuel (Z.to_nat size) [];
                text ← lift_reader (utf8_decode (take (Z.to_nat size) payload)); mret (RText text))
              (size ← lift_reader (int_of_bytes line);
                if size <? 0 then mret RNone else
                payload ← read_payload (fuel + k) (Z.to_nat size) [];
                text ← lift_reader (utf8_decode (take (Z.to_nat size) payload)); mret (RText text))).
  { apply refines_bind; [apply refines_refl|]. intros size. destruct (size <? 0); [apply refines_refl|].
    apply refines_bind; [apply read_payload_fuel|]. intros payload. apply refines_refl. }
  assert (Hl : refines (n ← lift_reader (int_of_bytes line); l ← repeated (Z.to_nat n) (read_resp fuel); mret (RList l))
              (n ← lift_reader (int_of_bytes line); l ← repeated (Z.to_nat n) (read_resp (fuel + k)); mret (RList l))).
  { apply refines_bind; [apply refines_refl|]. intros n.
    apply refines_bind; [by apply refines_repeated|]. intros l. apply refines_refl. }
  repeat case_match; first [exact Hb | exact Hl | apply refines_refl].
Qed.

Lemma reader_bind_Some {A B} (m : reader A) (f : A → reader B) s r : (m ≫= f) s = Some r →
  (∃ a s1, m s = Some (Ok (a, s1)) ∧ f a s1 = Some r) ∨ ∃ e, m s = Some (Raise e).
Proof.
  unfold mbind, reader_bind. destruct (m s) as [[[a s1]|e]|]; [left|right|done]; eauto.
Qed.

(** ** A stream that ends inside a bulk string *)

Lemma read_payload_ended size fuel : ∀ payload s, (length payload + length (incoming s) < size + 2)%nat →
  then_raises s = None → read_payload fuel size payload s = None.
Proof.
  induction fuel as [|fuel IH]; intros payload s Hlen Hend; cbn [read_payload];
    destruct (Nat.leb_spec (size + 2) (length payload)); try lia; [done|].
  unfold mbind, reader_bind, receive.
  destruct (recv_cases (size + 2 - length payload) s ltac:(lia)) as [[Hi E]|(chunk & s1 & E & Hi & Hl & Hr)]; rewrite E.
  - rewrite Hend. apply IH; [|done]. by rewrite app_nil_r.
  - apply IH; [|by rewrite Hr]. rewrite Hi in Hlen. rewrite !length_app in *. lia.
Qed.

(** A stream that will not end but with an exception. *)
Definition guarded {A} (e : exn) (strict : bool) (m : reader A) (n : nat) : Prop :=
  ∀ s, then_raises s = Some e → (length (incoming s) <= n)%nat →
  match m s with
  | None => False
  | Some (Raise _) => True
  | Some (Ok (_, s')) => then_raises s' = Some e ∧
      (length (incoming s') + (if strict then 1 else 0) <= length (incoming s))%nat
  end.

Lemma guarded_bind {A B} e (m : reader A) (f : A → reader B) strict n :
  guarded e strict m n →
  (∀ a, (if strict then 0 < n else True)%nat → guarded e false (f a) (n - (if strict then 1 else 0))) →
  guarded e strict (m ≫= f) n.
Proof.
  intros Hm Hf s He Hn. specialize (Hm s He Hn). unfold mbind, reader_bind.
  destruct (m s) as [[[a s1]|e1]|]; [|done|done]. destruct Hm as [He1 Hn1].
  specialize (Hf a ltac:(destruct strict; [lia|done]) s1 He1 ltac:(lia)). destruct (f a s1) as [[[b s2]|e2]|]; [|done|done].
  destruct Hf as [He2 Hn2]. split; [done|lia].
Qed.

Lemma guarded_lift {A} e (r : result A) n : guarded e false (lift_reader r) n.
Proof. intros s He Hn. unfold lift_reader. destruct r; cbn; [split; [done|lia]|done]. Qed.

Lemma guarded_ret {A} e (a : A) n : guarded e false (mret a) n.
Proof. intros s He Hn. cbn. split; [done|lia]. Qed.

Lemma guarded_mono {A} e (m : reader A) n n' : (n' <= n)%nat → guarded e true m n → guarded e false m n'.
Proof.
  intros Hn Hm s He Hs. specialize (Hm s He ltac:(lia)). destruct (m s) as [[[a s1]|e1]|]; [|done|done].
  destruct Hm. split; [done|lia].
Qed.

Lemma guarded_receive e k n : (0 < k)%nat → guarded e true (receive k) n.
Proof.
  intros Hk s He Hn. unfold receive. destruct (recv_cases k s Hk) as [[Hi E]|(chunk & s1 & E & Hi & Hl & Hr)]; rewrite E.
  - by rewrite He.
  - rewrite Hr. split; [done|]. rewrite Hi, length_app. lia.
Qed.

Lemma guarded_repeated {A} e k (m : reader A) n : guarded e false m n → guarded e false (repeated k m) n.
Proof.
  intros Hm. induction k as [|k IH]; cbn; [apply guarded_ret|].
  eapply guarded_bind; [exact Hm|]. intros a _. rewrite Nat.sub_0_r.
  eapply guarded_bind; [exact IH|]. intros l _. apply guarded_ret.
Qed.

Lemma guarded_read_line e fuel : ∀ n data, (n < fuel)%nat → guarded e false (read_line fuel data) n.
Proof.
  induction fuel as [|fuel IH]; intros n data Hn; [lia|]. cbn [read_line].
  destruct (ends_with_crlf data); [apply guarded_ret|]. eapply (guarded_mono e _ n); [done|].
  eapply guarded_bind; [apply guarded_receive; lia|]. intros [|b chunk] Hp; [apply guarded_lift|]. apply IH. lia.
Qed.

Lemma guarded_read_payload e size fuel : ∀ n payload, (n < fuel)%nat → guarded e false (read_payload fuel size payload) n.
Proof.
  induction fuel as [|fuel IH]; intros n payload Hn; [lia|]. cbn [read_payload].
  destruct (Nat.leb_spec (size + 2) (length payload)); [apply guarded_ret|]. eapply (guarded_mono e _ n); [done|].
  eapply guarded_bind; [apply guarded_receive; lia|]. intros chunk Hp. apply IH. lia.
Qed.

Lemma guarded_read_resp e fuel : ∀ n, (n < fuel)%nat → guarded e true (read_resp fuel) n.
Proof.
  induction fuel as [|fuel IH]; intros n Hn; [lia|]. cbn [read_resp].
  eapply guarded_bind; [apply guarded_receive; lia|]. intros [|c chunk] Hp; [apply guarded_lift|].
  eapply guarded_bind; [apply guarded_read_line; lia|]. intros line _. rewrite Nat.sub_0_r.
  assert (Htext : ∀ (k : string → reader reply), (∀ t, guarded e false (k t) (n - 1)) →
    guarded e false (text ← lift_reader (utf8_decode line); k text) (n - 1)).
  { intros k Hk. eapply guarded_bind; [apply guarded_lift|]. intros t _. by rewrite Nat.sub_0_r. }
  assert (Hnum : ∀ (k : Z → reader reply), (∀ z, guarded e false (k z) (n - 1)) →
    guarded e false (z ← lift_reader (int_of_bytes line); k z) (n - 1)).
  { intros k Hk. eapply guarded_bind; [apply guarded_lift|]. intros z _. by rewrite Nat.sub_0_r. }
  assert (Hbulk : ∀ z, guarded e false (if z <? 0 then mret RNone else
      payload ← read_payload fuel (Z.to_nat z) [];
      text ← lift_reader (utf8_decode (take (Z.to_nat z) payload)); mret (RText text)) (n - 1)).
  { intros z. destruct (z <? 0); [apply guarded_ret|].
    eapply guarded_bind; [apply guarded_read_payload; lia|]. intros payload _.
    eapply guarded_bind; [apply guarded_lift|]. intros t _. apply guarded_ret. }
  assert (Hlist : ∀ z, guarded e false (l ← repeated (Z.to_nat z) (read_resp fuel); mret (RList l)) (n - 1)).
  { intros z. eapply guarded_bind; [|intros l _; apply guarded_ret]. apply guarded_repeated.
    eapply (guarded_mono e _ (n - 1)); [done|]. apply IH. lia. }
  repeat case_match; first [apply Hnum; intros z; first [apply Hbulk|apply Hlist|apply guarded_ret]
    | apply Htext; intros t; first [apply guarded_ret|apply guarded_lift] | apply guarded_lift].
Qed.

(** ** The contract *)

Section contract.
Context (json_dumps : jval → string) (json_loads : string → result jval).

(** The server: what it writes after the commands received so far, or why they
    cannot be sent. *)
Context (answer : list (list string) → result (list (list byte))).
Context (fuel : nat).

(** The client's connection, with the commands sent and their replies. *)
Record session : Type := mkSession { sock : socket; sent : list (list string); replies : list reply }.

Definition client (A : Type) : Type := session → option (result (A * session)).

#[local] Instance client_ret : MRet client := λ A a s, Some (Ok (a, s)).
#[local] Instance client_bind : MBind client := λ A B f m s,
  match m s with
  | Some (Ok (a, s)) => f a s
  | Some (Raise e) => Some (Raise e)
  | None => None
  end.

Definition lift_client {A} (r : result A) : client A := λ s, Some (a ← r; Ok (a, s)).

(** [scripts/smoke/dragonfly_profile_smoke.py:88-90] command *)
Definition command (parts : list string) : client reply := λ s,
  let sent := sent s ++ [parts] in
  match answer sent with
  | Raise e => Some (Raise e)
  | Ok pieces =>
      match read_resp fuel (mkSocket (segments (sock s) ++ pieces) (then_raises (sock s))) with
      | Some (Ok (r, rest)) => Some (Ok (r, mkSession rest sent (replies s ++ [r])))
      | Some (Raise e) => Some (Raise e)
      | None => None
      end
  end.

(** A reply as the Python value it is. *)
Fixpoint reply_json (r : reply) : jval :=
  match r with
  | RText s => JStr s
  | RInt n => JInt n
  | RNone => JNull
  | RList l => JList (reply_json <$> l)
  end.

Definition passed_check (name : string) (actual : jval) : jval :=
  JObj [("name", JStr name); ("passed", JBool true); ("actual", actual)].

(** [scripts/smoke/dragonfly_profile_smoke.py:93-96] assert_equal *)
Definition assert_equal (name : string) (actual expected : jval) : result jval :=
  if negb (py_eq actual expected) then throw ExcAssertionError name else Ok (passed_check name actual).

(** [scripts/smoke/dragonfly_profile_smoke.py:99-102] assert_true *)
Definition assert_true (name : string) (actual : bool) (detail : jval) : result jval :=
  if negb actual then throw ExcAssertionError name else Ok (passed_check name detail).

(** [assert_equal(name, client.command(...), expected)] *)
Definition expect (name : string) (parts : list string) (expected : jval) : client jval :=
  actual ← command parts; lift_client (assert_equal name (reply_json actual) expected).

(** [n <= reply], [json.loads(reply)] *)
Definition at_least (n : Z) (r : reply) : result bool :=
  match r with RInt m => Ok (n <=? m) | _ => type_error "'>' not supported" end.
Definition loads_reply (r : reply) : result jval :=
  match r with RText s => json_loads s | _ => type_error "the JSON object must be str, bytes or bytearray" end.

(** [v[0]]; a character of a text is a text. *)
Definition first_item (v : jval) : result jval :=
  match v with
  | JList (x :: _) => Ok x
  | JList [] | JStr "" => throw ExcIndexError "list index out of range"
  | JStr s => Ok (JStr s)
  | JObj _ => throw ExcKeyError "0"
  | _ => type_error "object is not subscriptable"
  end.

Definition ice_document : jval := JList [
  JObj [("urls", JStr "stun:stun.l.google.com:19302"); ("healthy", JBool true)];
  JObj [("urls", JStr "turn:turn-primary:3478?transport=udp"); ("username", JStr "gcs-turn");
        ("credential", JStr "secret"); ("healthy", JBool true)]].
Definition stream_document : jval := JList [
  JObj [("path", JStr "raw/mobile/front"); ("status", JStr "ready"); ("source", JStr "mediamtx")];
  JObj [("path", JStr "raw/mobile/rear"); ("status", JStr "ready"); ("source", JStr "mediamtx")]].
Definition principal_value : string := join (String "009" "") ["operator01"; "OPERATOR"; "co-a"].

(** [json.loads(client.command("GET", key))[0][field]] *)
Definition get_cached (key : string) (field : string) : client (jval * jval) :=
  text ← command ["GET"; key];
  cached ← lift_client (loads_reply text);
  value ← lift_client (first ← first_item cached; j_getitem first field);
  mret (cached, value).

(** [value.startswith("stun:")] *)
Definition starts_stun (value : jval) : result bool :=
  match value with JStr s => Ok (startswith "stun:" s) | _ => throw ExcAttributeError "startswith" end.

(** [scripts/smoke/dragonfly_profile_smoke.py:105-155] run_contract: after [RedisClient()] has connected *)
Definition run_contract (password prefix : string) : client jval :=
  let principal_key := prefix +:+ "auth-policy:access-principal:sha256" in
  let refresh_key := prefix +:+ "auth-policy:refresh-session:sha256" in
  let ice_key := prefix +:+ "media-control:ice-servers" in
  let stream_key := prefix +:+ "media-control:stream-list" in
  let presence_key := prefix +:+ "media-control:stream-presence:raw.mobile.front" in
  _ ← command ["AUTH"; password];
  c1 ← expect "ping" ["PING"] (JStr "PONG");
  c2 ← expect "principal.setex" ["SETEX"; principal_key; "30"; principal_value] (JStr "OK");
  c3 ← expect "principal.get" ["GET"; principal_key] (JStr principal_value);
  ttl ← command ["TTL"; principal_key];
  c4 ← lift_client (alive ← at_least 1 ttl; assert_true "principal.ttl" alive (JStr "ttl is positive"));
  c5 ← expect "refresh.setex" ["SETEX"; refresh_key; "30"; principal_value] (JStr "OK");
  c6 ← expect "refresh.getdel.first" ["GETDEL"; refresh_key] (JStr principal_value);
  c7 ← expect "refresh.getdel.second" ["GETDEL"; refresh_key] JNull;
  c8 ← expect "ice.setex" ["SETEX"; ice_key; "10"; json_dumps ice_document] (JStr "OK");
  '(ice_cached, urls) ← get_cached ice_key "urls";
  c9 ← lift_client (stun ← starts_stun urls; assert_true "ice.json" stun ice_cached);
  c10 ← expect "stream-list.setex" ["SETEX"; stream_key; "1"; json_dumps stream_document] (JStr "OK");
  '(stream_cached, path) ← get_cached stream_key "path";
  c11 ← lift_client (assert_true "stream-list.json" (py_eq path (JStr "raw/mobile/front")) stream_cached);
  c12 ← expect "stream-presence.setex" ["SETEX"; presence_key; "6"; "ready"] (JStr "OK");
  c13 ← expect "stream-presence.get" ["GET"; presence_key] (JStr "ready");
  deleted ← command ["DEL"; principal_key; refresh_key; ice_key; stream_key; presence_key];
  c14 ← lift_client (cleaned ← at_least 4 deleted; assert_true "cleanup.del" cleaned (reply_json deleted));
  mret (JObj [("passed", JBool true);
              ("checks", JList [c1; c2; c3; c4; c5; c6; c7; c8; c9; c10; c11; c12; c13; c14])]).

(** ** What a passed contract shows *)

Lemma client_bind_Ok {A B} (m : client A) (f : A → client B) s b s' :
  (m ≫= f) s = Some (Ok (b, s')) → ∃ a s1, m s = Some (Ok (a, s1)) ∧ f a s1 = Some (Ok (b, s')).
Proof. unfold mbind, client_bind. destruct (m s) as [[[a s1]|e]|]; [|done|done]. intros H. by exists a, s1. Qed.

Lemma lift_client_Ok {A} (r : result A) s a s' : lift_client r s = Some (Ok (a, s')) → r = Ok a ∧ s' = s.
Proof. unfold lift_client. destruct r; cbn; [|done]. by intros [= <- <-]. Qed.

(** The commands sent between two states of the connection, and their replies. *)
Definition exchanged (s s' : session) (commands : list (list string)) (rs : list reply) : Prop :=
  sent s' = sent s ++ commands ∧ replies s' = replies s ++ rs.

Lemma exchanged_trans s1 s2 s3 c1 c2 r1 r2 :
  exchanged s1 s2 c1 r1 → exchanged s2 s3 c2 r2 → exchanged s1 s3 (c1 ++ c2) (r1 ++ r2).
Proof. intros [H1 H2] [H3 H4]. split; [by rewrite H3, H1, app_assoc|by rewrite H4, H2, app_assoc]. Qed.

Lemma command_Ok parts s r s' : command parts s = Some (Ok (r, s')) → exchanged s s' [parts] [r].
Proof.
  unfold command. destruct (answer _) as [pieces|e]; [|done]. destruct (read_resp _ _) as [[[r' rest]|e]|]; [|done|done].
  by intros [= <- <-].
Qed.

Lemma reply_json_text r t : py_eq (reply_json r) (JStr t) = true ↔ r = RText t.
Proof. rewrite py_eq_str. split; [|by intros ->]. destruct r; try done. by intros [= ->]. Qed.

Lemma reply_json_none r : py_eq (reply_json r) JNull = true ↔ r = RNone.
Proof. by destruct r. Qed.

Lemma expect_Ok name parts expected s c s' : expect name parts expected s = Some (Ok (c, s')) →
  ∃ r, exchanged s s' [parts] [r] ∧ py_eq (reply_json r) expected = true ∧ c = passed_check name (reply_json r).
Proof.
  intros H. apply client_bind_Ok in H as (r & s1 & H1 & H). apply lift_client_Ok in H as [H ->].
  unfold assert_equal in H. destruct (py_eq _ _) eqn:E; [|discriminate H]. injection H as <-.
  exists r. split; [by apply command_Ok in H1|done].
Qed.

Lemma expect_text name parts t s c s' : expect name parts (JStr t) s = Some (Ok (c, s')) →
  exchanged s s' [parts] [RText t] ∧ c = passed_check name (JStr t).
Proof. intros (r & H & ->%reply_json_text & ->)%expect_Ok. done. Qed.

Lemma expect_none name parts s c s' : expect name parts JNull s = Some (Ok (c, s')) →
  exchanged s s' [parts] [RNone] ∧ c = passed_check name JNull.
Proof. intros (r & H & ->%reply_json_none & ->)%expect_Ok. done. Qed.

Lemma get_cached_Ok key field s cached v s' : get_cached key field s = Some (Ok ((cached, v), s')) →
  ∃ t, exchanged s s' [["GET"; key]] [RText t] ∧ json_loads t = Ok cached ∧
    (first ← first_item cached; j_getitem first field) = Ok v.
Proof.
  intros H. apply client_bind_Ok in H as (r & s1 & H1 & H). apply command_Ok in H1.
  apply client_bind_Ok in H as (c & s2 & H2 & H). apply lift_client_Ok in H2 as [H2 ->].
  apply client_bind_Ok in H as (x & s3 & H3 & H). apply lift_client_Ok in H3 as [H3 ->].
  injection H as <- <- <-. destruct r as [t| | |]; try discriminate H2. by exists t.
Qed.

Lemma assert_true_Ok name b detail c : assert_true name b detail = Ok c → b = true ∧ c = passed_check name detail.
Proof. unfold assert_true. destruct b; [|done]. by intros [= <-]. Qed.
End contract.

(** ** Properties *)

(** A client of the cache reads back whatever a server may reply, however
    the network cuts the bytes: any nesting of lists, texts, numbers and absent
    values, and the commands the client itself writes, which are lists of texts.
    It takes exactly the bytes of the reply, and more fuel changes nothing. *)
Theorem resp_roundtrip (r : reply) (parts : list string) (s : socket) (tail : list byte) :
  reply_wf r → incoming s = encode_reply r ++ tail →
  encode_command parts = encode_reply (RList (RText <$> parts)) ∧
  ∃ s', incoming s' = tail ∧ then_raises s' = then_raises s ∧
    ∀ fuel, (length (encode_reply r) <= fuel)%nat → read_resp fuel s = Some (Ok (r, s')).
Proof.
  intros Hwf Hs. split; [apply encode_command_reply|].
  destruct (reads_reply r Hwf (length (encode_reply r)) ltac:(lia) s tail Hs) as (s' & E & Hs' & Hr).
  exists s'. split; [done|]. split; [done|]. intros fuel Hf.
  replace fuel with (length (encode_reply r) + (fuel - length (encode_reply r)))%nat by lia. by apply read_resp_fuel.
Qed.

Definition sample_socket : socket :=
  mkSocket (utf8_encode <$> ["*2" +:+ String "013" ""; String "010" "$"; "3" +:+ String "013" (String "010" "a");
                             "bc" +:+ String "013" (String "010" ":-"); "7" +:+ String "013" (String "010" "+")]) None.

Lemma resp_roundtrip_witness :
  ∃ s', incoming s' = utf8_encode "+" ∧ read_resp 50 sample_socket = Some (Ok (RList [RText "abc"; RInt (-7)], s')).
Proof.
  assert (Hwf : reply_wf (RList [RText "abc"; RInt (-7)])).
  { split; [done|]. split; [split; [reflexivity|done]|]. split; [|done].
    apply (proj1 (Nat.leb_le (String.length (str_of_Z (-7))) 4300)). vm_compute. reflexivity. }
  destruct (resp_roundtrip _ ["GET"; "key"] sample_socket (utf8_encode "+") Hwf eq_refl) as (_ & s' & Hs & _ & Hr).
  exists s'. split; [exact Hs|]. apply Hr. vm_compute. lia.
Defined.

(** C39: Reading a reply ends whenever the connection ends with an exception (the
    client sets a timeout): the bytes that arrive before it are fuel enough.
    But when the peer closes the connection inside a bulk string that is the
    reply, of a size that [recv] can be asked for (near 2^63 it refuses, which is
    not modelled), it never ends, because the loop goes on reading nothing. *)
Theorem resp_read_termination (s : socket) :
  (then_raises s ≠ None → ∀ fuel, (length (incoming s) < fuel)%nat → read_resp fuel s ≠ None) ∧
  (∀ size partial, then_raises s = None → Z.of_nat size < 2 ^ 63 → (length partial < size + 2)%nat →
     incoming s = [Byte.x24] ++ utf8_encode (str_of_Z (Z.of_nat size)) ++ CRLF ++ partial →
     ∀ fuel, read_resp fuel s = None).
Proof.
  split.
  - intros He fuel Hf. destruct (then_raises s) as [e|] eqn:E; [|done].
    pose proof (guarded_read_resp e fuel (length (incoming s)) Hf s E ltac:(lia)) as H. by destruct (read_resp fuel s).
  - intros size partial Hend Hsize Hlen Hs fuel. destruct (read_resp fuel s) as [r|] eqn:E; [|done]. exfalso.
    pose proof (str_of_size_length (Z.of_nat size) ltac:(lia)) as Hd.
    apply (read_resp_fuel 30) in E. rewrite Nat.add_comm in E. cbn [read_resp Nat.add] in E.
    destruct (reads_byte Byte.x24 s _ Hs) as (s1 & E1 & Hs1 & He1). rewrite app_assoc in Hs1.
    apply reader_bind_Some in E as [(c & s1' & E1' & E)|[e E1']]; rewrite E1' in E1; [injection E1 as -> ->|done].
    destruct (reads_line_number (Z.of_nat size) (29 + fuel) ltac:(lia) ltac:(lia) s1 _ Hs1) as (s2 & E2 & Hs2 & He2).
    apply reader_bind_Some in E as [(line & s2' & E2' & E)|[e E2']];
      [pose proof (eq_trans (eq_sym E2') E2) as [= -> ->]|by pose proof (eq_trans (eq_sym E2') E2)].
    cbn [Byte.to_N] in E. pose proof (int_of_number (Z.of_nat size) ltac:(lia)) as Hi.
    apply reader_bind_Some in E as [(n & s3 & E3 & E)|[e E3]]; unfold lift_reader in E3; rewrite Hi in E3; [|done].
    injection E3 as <- <-. destruct (Z.ltb_spec (Z.of_nat size) 0) as [?|_]; [lia|]. rewrite Nat2Z.id in E.
    pose proof (read_payload_ended size (29 + fuel) [] s2 ltac:(cbn; rewrite Hs2; lia) ltac:(by rewrite He2, He1)) as Hp.
    apply reader_bind_Some in E as [(p & s4 & E4 & _)|[e E4]]; by pose proof (eq_trans (eq_sym E4) Hp).
Qed.

Lemma resp_read_termination_witness :
  read_resp 1000 (mkSocket [utf8_encode "$5"; CRLF; utf8_encode "ab"] None) = None ∧
  bool_decide (is_Some (read_resp 7 (mkSocket [utf8_encode "$5"; CRLF; utf8_encode "ab"]
                                       (Some (PyErr ExcOSError "timed out"))))) = true.
Proof.
  pose (s o := mkSocket [utf8_encode "$5"; CRLF; utf8_encode "ab"] o). split.
  - apply (proj2 (resp_read_termination (s None)) 5%nat (utf8_encode "ab"));
      [reflexivity|lia|cbn; lia|reflexivity].
  - apply bool_decide_eq_true_2, not_eq_None_Some.
    apply (proj1 (resp_read_termination (s (Some (PyErr ExcOSError "timed out")))));
      [discriminate|]. change (6 < 7)%nat. lia.
Defined.

(** The commands of the contract, in order. *)
Definition contract_commands (json_dumps : jval → string) (password prefix : string) : list (list string) :=
  let key name := prefix +:+ name in
  let principal := key "auth-policy:access-principal:sha256" in
  let refresh := key "auth-policy:refresh-session:sha256" in
  let ice := key "media-control:ice-servers" in
  let streams := key "media-control:stream-list" in
  let presence := key "media-control:stream-presence:raw.mobile.front" in
  [["AUTH"; password]; ["PING"]; ["SETEX"; principal; "30"; principal_value]; ["GET"; principal]; ["TTL"; principal];
   ["SETEX"; refresh; "30"; principal_value]; ["GETDEL"; refresh]; ["GETDEL"; refresh];
   ["SETEX"; ice; "10"; json_dumps ice_document]; ["GET"; ice];
   ["SETEX"; streams; "1"; json_dumps stream_document]; ["GET"; streams];
   ["SETEX"; presence; "6"; "ready"]; ["GET"; presence]; ["DEL"; principal; refresh; ice; streams; presence]].

Definition CHECK_NAMES : list string :=
  ["ping"; "principal.setex"; "principal.get"; "principal.ttl"; "refresh.setex"; "refresh.getdel.first";
   "refresh.getdel.second"; "ice.setex"; "ice.json"; "stream-list.setex"; "stream-list.json"; "stream-presence.setex";
   "stream-presence.get"; "cleanup.del"].

(** The contract passes only on a server that authenticates the client, keeps a
    value until it is taken, gives a refresh session to its first taker only and
    counts what it deletes.  The names it reports are always the same. *)
Theorem contract_sound (json_dumps : jval → string) (json_loads : string → result jval)
    (answer : list (list string) → result (list (list byte))) (fuel : nat) (password prefix : string)
    (s : session) (report : jval) (s' : session) :
  run_contract json_dumps json_loads answer fuel password prefix s = Some (Ok (report, s')) →
  ∃ auth ttl ice_text stream_text deleted checks,
    exchanged s s' (contract_commands json_dumps password prefix)
      [auth; RText "PONG"; RText "OK"; RText principal_value; RInt ttl; RText "OK"; RText principal_value; RNone;
       RText "OK"; RText ice_text; RText "OK"; RText stream_text; RText "OK"; RText "ready"; RInt deleted] ∧
    1 <= ttl ∧ 4 <= deleted ∧ is_ok (json_loads ice_text) = true ∧ is_ok (json_loads stream_text) = true ∧
    report = JObj [("passed", JBool true); ("checks", JList checks)] ∧
    mapM (λ c, j_getitem c "name") checks = Ok (JStr <$> CHECK_NAMES).
Proof.
  intros H. unfold run_contract in H. 
  apply client_bind_Ok in H as (auth & s1 & H1 & H). apply command_Ok in H1.
  apply client_bind_Ok in H as (c1 & s2 & H2 & H). apply expect_text in H2 as [H2 ->].
  apply client_bind_Ok in H as (c2 & s3 & H3 & H). apply expect_text in H3 as [H3 ->].
  apply client_bind_Ok in H as (c3 & s4 & H4 & H). apply expect_text in H4 as [H4 ->].
  apply client_bind_Ok in H as (ttl & s5 & H5 & H). apply command_Ok in H5.
  apply client_bind_Ok in H as (c4 & s5' & Ht & H). apply lift_client_Ok in Ht as [Ht ->].
  apply bind_Ok in Ht as (alive & Ht & [-> ->]%assert_true_Ok).
  apply client_bind_Ok in H as (c5 & s6 & H6 & H). apply expect_text in H6 as [H6 ->].
  apply client_bind_Ok in H as (c6 & s7 & H7 & H). apply expect_text in H7 as [H7 ->].
  apply client_bind_Ok in H as (c7 & s8 & H8 & H). apply expect_none in H8 as [H8 ->].
  apply client_bind_Ok in H as (c8 & s9 & H9 & H). apply expect_text in H9 as [H9 ->].
  apply client_bind_Ok in H as ([ice urls] & s10 & H10 & H). apply get_cached_Ok in H10 as (ice_text & H10 & Hice & _).
  apply client_bind_Ok in H as (c9 & s10' & Hu & H). apply lift_client_Ok in Hu as [Hu ->].
  apply bind_Ok in Hu as (stun & _ & [-> ->]%assert_true_Ok).
  apply client_bind_Ok in H as (c10 & s11 & H11 & H). apply expect_text in H11 as [H11 ->].
  apply client_bind_Ok in H as ([streams path] & s12 & H12 & H). apply get_cached_Ok in H12 as (stream_text & H12 & Hstream & _).
  apply client_bind_Ok in H as (c11 & s12' & Hp & H). apply lift_client_Ok in Hp as [[Hp ->]%assert_true_Ok ->].
  apply client_bind_Ok in H as (c12 & s13 & H13 & H). apply expect_text in H13 as [H13 ->].
  apply client_bind_Ok in H as (c13 & s14 & H14 & H). apply expect_text in H14 as [H14 ->].
  apply client_bind_Ok in H as (deleted & s15 & H15 & H). apply command_Ok in H15.
  apply client_bind_Ok in H as (c14 & s15' & Hd & H). apply lift_client_Ok in Hd as [Hd ->].
  apply bind_Ok in Hd as (cleaned & Hd & [-> ->]%assert_true_Ok). injection H as <- <-.
  destruct ttl as [|ttl| |]; try discriminate Ht. injection Ht as Ht.
  destruct deleted as [|deleted| |]; try discriminate Hd. injection Hd as Hd.
  eexists auth, ttl, ice_text, stream_text, deleted, _.
  split; [|split; [lia|split; [lia|split; [by rewrite Hice|split; [by rewrite Hstream|split; reflexivity]]]]].
  do 14 lazymatch goal with X : exchanged s ?m _ _, Y : exchanged ?m _ _ _ |- _ =>
    apply (exchanged_trans _ _ _ _ _ _ _ X) in Y; clear X end.
  lazymatch goal with X : exchanged s _ _ _ |- _ => exact X end.
Qed.

(** A cache of texts that never expire, for the example. *)
Definition cache_step (store : list (string * string)) (parts : list string) : list (string * string) * reply :=
  match parts with
  | ["SETEX"; key; _; value] => (dict_set store key value, RText "OK")
  | ["GET"; key] => (store, match dict_get store key with Some v => RText v | None => RNone end)
  | ["GETDEL"; key] => (dict_del store key, match dict_get store key with Some v => RText v | None => RNone end)
  | ["TTL"; key] => (store, RInt (if dict_has store key then 30 else -2))
  | "DEL" :: keys => (foldl dict_del store keys, RInt (Z.of_nat (length (List.filter (dict_has store) keys))))
  | ["PING"] => (store, RText "PONG")
  | _ => (store, RText "OK")
  end.

Definition cache_server (sent : list (list string)) : result (list (list byte)) :=
  let '(store, last) := foldl (λ '(store, _) parts, cache_step store parts) ([], RNone) sent in
  Ok [encode_reply last].

(** Stand-ins for the JSON codec on the two documents. *)
Definition sample_dumps (v : jval) : string := if py_eq v ice_document then "ice" else "streams".
Definition sample_loads (s : string) : result jval := Ok (if String.eqb s "ice" then ice_document else stream_document).

(** The contract can be passed. *)
Example contract_passes :
  match run_contract sample_dumps sample_loads cache_server 100 "s3cret" "smoke:" (mkSession (mkSocket [] None) [] []) with
  | Some (Ok (JObj d, _)) => obj_get d "passed"
  | _ => JNull
  end = JBool true.
Proof. vm_compute. reflexivity. Qed.
