(* ===== verification/CacheProfile.v ===== *)
(** Cache profile smoke test: [scripts/smoke/dragonfly_profile_smoke.py].

    The orchestration: both profiles are started from a filtered environment
    file, the client of [RespClient] runs in each, their checks are compared, and
    both are taken down.  Its processes are those of the machine; the JSON codec
    and the program text of the client are parameters. *)

From stdpp Require Import base list strings.
From Stdlib Require Import ZArith Lia Ascii Floats.
From S2P Require Import Prelude PyStr PyTime PyJson PyText Host Effects Evidence.

#[local] Open Scope Z_scope.

(** ** The orchestration *)

Definition SCHEMA_VERSION : string := "dragonfly-profile-smoke-v1".
Definition CLIENT_IMAGE : string := "python:3.12-alpine".
Definition DEFAULT_DRAGONFLY_IMAGE : string := "docker.dragonflydb.io/dragonflydb/dragonfly".

(** [scripts/smoke/dragonfly_profile_smoke.py:162-167] DragonflyProfileSmokeConfig *)
Record DragonflyProfileSmokeConfig : Type := mkSmokeConfig {
  compose_file : fs_path;
  override_file : fs_path;
  env_file : fs_path;
  project_prefix : string
}.

(** [scripts/smoke/dragonfly_profile_smoke.py:169-182] compose_command *)
Definition compose_command (self : DragonflyProfileSmokeConfig) (profile : string) (include_override : bool) : list string :=
  ["docker"; "compose"; "-p"; project_prefix self +:+ "-" +:+ profile; "--env-file"; path_str (env_file self);
   "-f"; path_str (compose_file self)]
  ++ (if include_override then ["-f"; path_str (override_file self)] else []).

(** [scripts/smoke/dragonfly_profile_smoke.py:184-189] config_command *)
Definition config_command self profile include_override : list string :=
  compose_command self profile include_override ++ ["config"; "--quiet"].

(** [scripts/smoke/dragonfly_profile_smoke.py:191-197] readiness_command *)
Definition readiness_command self profile include_override : list string :=
  compose_command self profile include_override ++ ["up"; "-d"; "redis"].

(** [scripts/smoke/dragonfly_profile_smoke.py:199-204] down_command *)
Definition down_command self profile include_override : list string :=
  compose_command self profile include_override ++ ["down"; "--remove-orphans"].

Section orchestration.
Context (CACHE_CONTRACT_CLIENT : string).

(** [scripts/smoke/dragonfly_profile_smoke.py:206-225] client_command *)
Definition client_command (self : DragonflyProfileSmokeConfig) (profile password : string) : list string :=
  ["docker"; "run"; "--rm"; "--network"; project_prefix self +:+ "-" +:+ profile +:+ "_control-net";
   "-e"; "REDIS_HOST=redis"; "-e"; "REDIS_PORT=6379"; "-e"; "REDIS_PASSWORD=" +:+ password;
   "-e"; "CACHE_SMOKE_PREFIX=gcs-saker:smoke:" +:+ profile +:+ ":"; CLIENT_IMAGE; "python"; "-c"; CACHE_CONTRACT_CLIENT].

(** [scripts/smoke/dragonfly_profile_smoke.py:426-430] compose_environment *)
Definition compose_environment (environ : list (string * string)) (dragonfly_image project_name : string) :
    list (string * string) :=
  let env := dict_set environ "COMPOSE_PROJECT_NAME" project_name in
  match dict_get env "DRAGONFLY_IMAGE" with
  | Some _ => env
  | None => dict_set env "DRAGONFLY_IMAGE" dragonfly_image
  end.

(** [scripts/smoke/dragonfly_profile_smoke.py:438-447] __enter__: the lines of an environment file without the
    project name *)
Definition filtered_env (text : string) : string :=
  join "" ((λ line, line +:+ String "010" "")
           <$> List.filter (λ line, negb (startswith "COMPOSE_PROJECT_NAME=" (strip line))) (splitlines text)).

Definition strip_quotes (s : string) : string :=
  let both c s := rstrip_char c (lstrip_char c s) in both "'"%char (both "034"%char s).

(** [scripts/smoke/dragonfly_profile_smoke.py:455-461] read_env_value: the line of a key *)
Fixpoint find_env_value (key : string) (lines : list string) : option string :=
  match lines with
  | [] => None
  | line :: lines =>
      let stripped := strip line in
      if negb (truthy stripped) || startswith "#" stripped then find_env_value key lines else
      match split_once "=" stripped with
      | (name, Some value) => if String.eqb name key then Some (strip_quotes (strip value)) else find_env_value key lines
      | (_, None) => find_env_value key lines
      end
  end.

(** [scripts/smoke/dragonfly_profile_smoke.py:454-464] read_env_value *)
Definition read_env_value (fs : files) (path : fs_path) (key : string) (default_ : option string) : result string :=
  text ← fs_text fs path;
  match find_env_value key (splitlines text), default_ with
  | Some value, _ | None, Some value => Ok value
  | None, None => throw ExcRuntimeError (key +:+ " is missing from " +:+ path_str path)
  end.

Context (w : world) (fs : history → files) (stderr : history → string) (json_loads : string → result jval).

(** The path [tempfile] chooses. *)
Context (temporary : history → fs_path).

(** The standard error of the last process, and a fresh temporary name. *)
Definition last_stderr : eff string := λ h, (Some (Ok (stderr h)), []).
Definition new_temporary : eff fs_path := λ h, (Some (Ok (temporary h)), []).

(** [subprocess.run(command, check=False, capture_output=True, text=True, ...)];
    the environment is that of the command's profile. *)
Definition run_process (command : list string) : eff (Z * string * string) :=
  '(returncode, stdout) ← execute w command;
  err ← last_stderr;
  mret (returncode, stdout, err).

Notation profile_result := (list (string * jval)).

Definition failed_profile (profile image step stdout err : string) : profile_result :=
  [("name", JStr profile); ("runtime", JStr image); ("passed", JBool false); ("failedStep", JStr step);
   ("reason", JStr (if truthy (strip err) then strip err else strip stdout))].

(** The steps in order, up to the first that fails. *)
Fixpoint run_steps (profile image : string) (steps : list (string * list string)) : eff (option profile_result) :=
  match steps with
  | [] => mret None
  | (step, command) :: steps =>
      '(returncode, stdout, err) ← run_process command;
      if negb (returncode =? 0) then mret (Some (failed_profile profile image step stdout err))
      else run_steps profile image steps
  end.

(** [scripts/smoke/dragonfly_profile_smoke.py:365-416] run_profile *)
Definition run_profile (config : DragonflyProfileSmokeConfig) (profile : string) (include_override : bool)
    (image password : string) : eff profile_result :=
  failed ← run_steps profile image
    [("config", config_command config profile include_override); ("up", readiness_command config profile include_override)];
  match failed with
  | Some result => mret result
  | None =>
      '(returncode, stdout, err) ← run_process (client_command config profile password);
      if negb (returncode =? 0) then mret (failed_profile profile image "cache-contract" stdout err) else
      contract ← lift (json_loads stdout);
      passed ← lift (j_getitem contract "passed");
      checks ← lift (j_getitem contract "checks");
      mret [("name", JStr profile); ("runtime", JStr image); ("passed", passed); ("checks", checks)]
  end.

(** [[check["name"] for check in result.get("checks", [])]] *)
Definition check_names (result_ : profile_result) : result (list jval) :=
  items ← j_items (default (JList []) (dict_get result_ "checks"));
  mapM (λ check, j_getitem check "name") items.

(** [scripts/smoke/dragonfly_profile_smoke.py:419-423] equivalent_check_names *)
Definition equivalent_check_names (results : list profile_result) : result bool :=
  match results with
  | [] => Ok false
  | first :: _ =>
      baseline ← check_names first;
      all_in (λ r, names ← check_names r; Ok (py_eq (JList names) (JList baseline))) results
  end.

Definition Profile : Type := string * bool * string.

(** What [run_profiles] returns, less its fixed texts. *)
Record ProfilesReport : Type := mkProfiles { passed : bool; profiles : list profile_result }.

(** [scripts/smoke/dragonfly_profile_smoke.py:353-362] run_profiles: the clean-up *)
Definition take_down (config : DragonflyProfileSmokeConfig) (profiles : list Profile) : eff () :=
  for_each (λ '(name, include_override, _), _ ← execute w (down_command config name include_override); mret ()) profiles.

Definition compare_profiles (config : DragonflyProfileSmokeConfig) (password : string) (profiles : list Profile) :
    eff ProfilesReport :=
  results ← mapM (λ '(name, include_override, image), run_profile config name include_override image password) profiles;
  equivalent ← lift (and_r (Ok (forallb (λ r, j_truthy (obj_get r "passed")) results)) (equivalent_check_names results));
  mret (mkProfiles equivalent results).

(** [scripts/smoke/dragonfly_profile_smoke.py:438-447] __enter__: the temporary file is made, empty, before the
    source is read; its content is put in by one write *)
Definition enter_filtered_env (source : fs_path) : eff fs_path :=
  path ← new_temporary;
  _ ← create w path (JStr "");
  text ← reading fs (λ fs, fs_text fs source);
  _ ← create w path (JStr (filtered_env text));
  mret path.

(** [scripts/smoke/dragonfly_profile_smoke.py:433-451] FilteredEnvFile: the body
    runs with the temporary file, which [__exit__] removes however the body ends;
    when [__enter__] raises, [__exit__] does not run *)
Definition with_filtered_env {A} (source : fs_path) (body : fs_path → eff A) : eff A :=
  path ← enter_filtered_env source;
  try_finally (body path) (remove path).

(** [scripts/smoke/dragonfly_profile_smoke.py:318-362] run_profiles *)
Definition run_profiles (config : DragonflyProfileSmokeConfig) : eff ProfilesReport :=
  password ← reading fs (λ fs, read_env_value fs (env_file config) "REDIS_PASSWORD" None);
  image ← reading fs (λ fs, read_env_value fs (env_file config) "DRAGONFLY_IMAGE" (Some DEFAULT_DRAGONFLY_IMAGE));
  let profiles := [("valkey", false, "valkey/valkey:8.1-alpine"); ("dragonfly", true, image)] in
  with_filtered_env (env_file config) (λ path,
    let smoke_config := mkSmokeConfig (compose_file config) (override_file config) path (project_prefix config) in
    try_finally (compare_profiles smoke_config password profiles) (take_down smoke_config profiles)).
(** ** The tool *)

Definition strs (l : list string) : jval := JList (JStr <$> l).

Definition profile_contract (self : DragonflyProfileSmokeConfig) (name : string) (include_override : bool) (runtime : string) :
    jval :=
  JObj [("name", JStr name);
        ("composeCommand", strs (compose_command self name include_override));
        ("configCommand", strs (config_command self name include_override));
        ("readinessCommand", strs (readiness_command self name include_override));
        ("runtime", JStr runtime)].

(** [scripts/smoke/dragonfly_profile_smoke.py:256-308] main: the contract it prints *)
Definition smoke_payload (config : DragonflyProfileSmokeConfig) : jval :=
  JObj [("schemaVersion", JStr SCHEMA_VERSION); ("status", JStr "profile-runtime-contract");
    ("profiles", JList [profile_contract config "redis" false "valkey/valkey:8.1-alpine";
                        profile_contract config "dragonfly" true "${DRAGONFLY_IMAGE}"]);
    ("cacheKeyContracts", strs [
       "auth-policy principal cache uses SETEX/GET/TTL on hashed access-token keys";
       "auth-policy refresh session uses SETEX/GETDEL and must consume a refresh token once";
       "media-control ICE server list uses SETEX/GET JSON cache with short TTL";
       "media-control stream list and stream presence use SETEX/GET JSON or status values"]);
    ("redisCommandSubset", strs ["AUTH"; "PING"; "SETEX"; "GET"; "GETDEL"; "TTL"; "DEL"]);
    ("degradedBehavior", strs [
       "media-control cache miss or cache error falls back to upstream registry and records degraded cache metrics";
       "auth-policy principal cache is best-effort and token verification can continue without the cache";
       "auth-policy refresh session store is authoritative when enabled, so Redis/DragonFly outage must surface in readiness before refresh reuse protection is weakened"]);
    ("license", JObj [
       ("dragonfly", JStr "BSL 1.1"); ("source", JStr "https://www.dragonflydb.io/docs/about/license");
       ("productionUseNote", JStr "Self-hosted production use is allowed by DragonFly FAQ as long as DragonFly is not offered as a managed in-memory data-store service.");
       ("faq", JStr "https://www.dragonflydb.io/docs/about/faq")]);
    ("runtimeChecks", strs [
       "default Redis profile and DragonFly override profile pass the same Redis-compatible command subset";
       "cache contract includes session, refresh, ICE list, stream list, and stream presence paths";
       "profile remains optional until benchmark and operational risk are accepted"]);
    ("promotionGate", JStr "Promote to active only after Redis and DragonFly runtime smoke results are equivalent.")].

(** The JSON of a report. *)
Definition profiles_json (r : ProfilesReport) : jval :=
  JObj [("schemaVersion", JStr SCHEMA_VERSION);
    ("status", JStr (if passed r then "runtime-validated" else "failed")); ("passed", JBool (passed r));
    ("profiles", JList (JObj <$> profiles r)); ("equivalentCommandSubset", JBool (passed r));
    ("promotionGate", JStr "Keep Redis as default until benchmark and operational risk review approve DragonFly promotion.")].

(** [scripts/smoke/dragonfly_profile_smoke.py:247-315] main, after parsing its arguments *)
Definition main (check run : bool) (config : DragonflyProfileSmokeConfig) : eff Z :=
  if check || negb run then _ ← print (smoke_payload config); mret 0 else
  report ← run_profiles config;
  _ ← print (profiles_json report);
  mret (if passed report then 0 else 1).
End orchestration.

(** ** It always answers, and always takes the profiles down *)

Definition answers {A} (m : eff A) : Prop := ∀ h, (m h).1 ≠ None.

Lemma answers_bind {A B} (m : eff A) (f : A → eff B) : answers m → (∀ a, answers (f a)) → answers (m ≫= f).
Proof.
  intros Hm Hf h. unfold mbind, eff_bind. specialize (Hm h). destruct (m h) as [[[a|e]|] t]; [|done|done].
  specialize (Hf a (h ++ t)). by destruct (f a (h ++ t)).
Qed.

Lemma answers_ret {A} (a : A) : answers (mret a).
Proof. done. Qed.

Lemma answers_lift {A} (r : result A) : answers (lift r).
Proof. done. Qed.

Lemma answers_execute w c : answers (execute w c).
Proof. done. Qed.

Lemma answers_mapM {A B} (f : A → eff B) l : (∀ a, answers (f a)) → answers (mapM f l).
Proof.
  intros Hf. induction l as [|a l IH]; cbn; [apply answers_ret|].
  apply answers_bind; [apply Hf|]. intros b. apply answers_bind; [exact IH|]. intros bs. apply answers_ret.
Qed.

Lemma try_finally_cases {A} (m : eff A) cleanup h : answers m →
  ∃ r t1, m h = (Some r, t1) ∧
  try_finally m cleanup h =
    (match (cleanup (h ++ t1)).1 with
     | Some (Ok _) => Some r | Some (Raise e) => Some (Raise e) | None => None
     end, t1 ++ (cleanup (h ++ t1)).2).
Proof.
  intros Hm. specialize (Hm h). unfold try_finally. destruct (m h) as [[r|] t1]; [|done].
  exists r, t1. split; [done|]. by destruct (cleanup (h ++ t1)) as [[[[]|e]|] t2].
Qed.

Section proofs.
Context (CACHE_CONTRACT_CLIENT : string) (w : world) (fs : history → files) (stderr : history → string)
  (json_loads : string → result jval) (temporary : history → fs_path).
Local Notation run_process := (run_process w stderr).
Local Notation run_steps := (run_steps w stderr).
Local Notation run_profile := (run_profile CACHE_CONTRACT_CLIENT w stderr json_loads).
Local Notation compare_profiles := (compare_profiles CACHE_CONTRACT_CLIENT w stderr json_loads).
Local Notation run_profiles := (run_profiles CACHE_CONTRACT_CLIENT w fs stderr json_loads temporary).

Lemma answers_run_process c : answers (run_process c).
Proof.
  apply answers_bind; [apply answers_execute|]. intros [rc out]. apply answers_bind; [done|]. intros err. apply answers_ret.
Qed.

Lemma answers_run_profile config name over image password : answers (run_profile config name over image password).
Proof.
  unfold CacheProfile.run_profile. apply answers_bind.
  - induction (_ : list (string * list string)) as [|[step command] steps IH]; cbn; [apply answers_ret|].
    apply answers_bind; [apply answers_run_process|]. intros [[rc out] err]. destruct (negb _); [apply answers_ret|exact IH].
  - intros [r|]; [apply answers_ret|]. apply answers_bind; [apply answers_run_process|]. intros [[rc out] err].
    destruct (negb _); [apply answers_ret|]. repeat (apply answers_bind; [apply answers_lift|]; intros ?). apply answers_ret.
Qed.

Lemma answers_compare_profiles config password profiles : answers (compare_profiles config password profiles).
Proof.
  apply answers_bind; [|intros rs; apply answers_bind; [apply answers_lift|intros b; apply answers_ret]].
  apply answers_mapM. intros [[name over] image]. apply answers_run_profile.
Qed.

(** A clean-up of two profiles: the [down] command of each is run, whatever
    exit status it answers with, and the outcome is that of the comparison; a
    command that cannot be run ends the clean-up with its error. *)
Definition cleaned_up (config : DragonflyProfileSmokeConfig) (compared outcome : result ProfilesReport) (d : history) : Prop :=
  let valkey := Executed (down_command config "valkey" false) in
  let dragonfly := Executed (down_command config "dragonfly" true) in
  (∃ o1 o2, d = [valkey (Ok o1); dragonfly (Ok o2)] ∧ outcome = compared) ∨
  (∃ o1 e, d = [valkey (Ok o1); dragonfly (Raise e)] ∧ outcome = Raise e) ∨
  (∃ e, d = [valkey (Raise e)] ∧ outcome = Raise e).

Lemma take_down_cases config v d h compared :
  ∃ o t, take_down w config [("valkey", false, v); ("dragonfly", true, d)] h = (Some o, t) ∧
    cleaned_up config compared (match o with Ok _ => compared | Raise e => Raise e end) t.
Proof.
  unfold take_down, cleaned_up. cbn [for_each]. unfold mbind, eff_bind, execute.
  destruct (w_exec w h (down_command config "valkey" false)) as [o1|e1]; cbn.
  - destruct (w_exec w (h ++ [_]) _) as [o2|e2]; cbn; eexists _, _; (split; [reflexivity|]);
      [left|right; left]; eauto.
  - eexists _, _. split; [reflexivity|]. right. right. eauto.
Qed.

(** The body of [run_profiles], once the environment file is written. *)
Lemma compared_and_removed smoke password image path h :
  let profiles := [("valkey", false, "valkey/valkey:8.1-alpine"); ("dragonfly", true, image)] in
  ∃ compared outcome t0 d,
    try_finally (try_finally (compare_profiles smoke password profiles) (take_down w smoke profiles)) (remove path) h
      = (Some outcome, t0 ++ d ++ [Removed path]) ∧
    compare_profiles smoke password profiles h = (Some compared, t0) ∧ cleaned_up smoke compared outcome d.
Proof.
  intros profiles. set (m := compare_profiles smoke password profiles).
  destruct (try_finally_cases m (take_down w smoke profiles) h (answers_compare_profiles _ _ _)) as (r & t0 & Em & Ef).
  destruct (take_down_cases smoke "valkey/valkey:8.1-alpine" image (h ++ t0) r) as (o & d & Ed & Hd).
  fold profiles in Ed. rewrite Ed in Ef. cbn [fst snd] in Ef.
  exists r, (match o with Ok _ => r | Raise e => Raise e end), t0, d. split; [|split; [exact Em|exact Hd]].
  unfold try_finally at 1. rewrite Ef. destruct o as [[]|e]; cbn; by rewrite <-app_assoc.
Qed.

(** How entering the environment file ends: without a file, or with one that
    nothing removes, or with the filtered file. *)
Lemma enter_filtered_env_cases source h r t : enter_filtered_env w fs temporary source h = (r, t) →
  (∃ e path, r = Some (Raise e) ∧
     (t = [Created path (JStr "") (Raise e)] ∨ t = [Created path (JStr "") (Ok ())] ∨
      ∃ document, t = [Created path (JStr "") (Ok ()); Created path document (Raise e)])) ∨
  ∃ path text, r = Some (Ok path) ∧ fs_text (fs (h ++ [Created path (JStr "") (Ok ())])) source = Ok text ∧
    t = [Created path (JStr "") (Ok ()); Created path (JStr (filtered_env text)) (Ok ())].
Proof.
  intros H. unfold enter_filtered_env in H.
  apply eff_bind_cases in H as [[[=] _]|[(e & [=] & _)|(tmp & t1 & t2 & [= <- <-] & H & ->)]].
  rewrite app_nil_r in H. set (path := temporary h) in *.
  apply eff_bind_cases in H as [[H1 _]|[(e & H1 & ->)|([] & t3 & t4 & H1 & H & ->)]];
    [unfold create in H1; by injection H1| |].
  { unfold create in H1. injection H1 as E <-. left. exists e, path. rewrite E. split; [done|]. by left. }
  apply create_Ok in H1 as ->.
  apply eff_bind_cases in H as [[[=] _]|[(e & [= E <-] & ->)|(text & t5 & t6 & [= E <-] & H & ->)]].
  { left. exists e, path. split; [done|]. right. by left. }
  rewrite app_nil_r in H.
  apply eff_bind_cases in H as [[H1 _]|[(e & H1 & ->)|([] & t7 & t8 & H1 & H & ->)]];
    [unfold create in H1; by injection H1| |].
  { unfold create in H1. injection H1 as E1 <-. left. exists e, path. rewrite E1. split; [done|]. right. right. by eexists. }
  apply create_Ok in H1 as ->. injection H as <- <-. right. by exists path, text.
Qed.

(** Before the file is there, nothing runs. *)
Lemma run_profiles_cases config h r t : run_profiles config h = (r, t) →
  (∃ e, r = Some (Raise e) ∧
     (t = [] ∨ ∃ path, t = [Created path (JStr "") (Raise e)] ∨ t = [Created path (JStr "") (Ok ())] ∨
      ∃ document, t = [Created path (JStr "") (Ok ()); Created path document (Raise e)])) ∨
  ∃ path text password image compared outcome t0 d,
    let made := [Created path (JStr "") (Ok ()); Created path (JStr (filtered_env text)) (Ok ())] in
    let smoke := mkSmokeConfig (compose_file config) (override_file config) path (project_prefix config) in
    r = Some outcome ∧ t = made ++ t0 ++ d ++ [Removed path] ∧
    fs_text (fs (h ++ [Created path (JStr "") (Ok ())])) (env_file config) = Ok text ∧
    read_env_value (fs h) (env_file config) "REDIS_PASSWORD" None = Ok password ∧
    compare_profiles smoke password [("valkey", false, "valkey/valkey:8.1-alpine"); ("dragonfly", true, image)] (h ++ made)
      = (Some compared, t0) ∧
    cleaned_up smoke compared outcome d.
Proof.
  intros H. unfold CacheProfile.run_profiles in H.
  apply eff_bind_cases in H as [[[=] _]|[(e & [= E <-] & ->)|(password & t1 & t2 & [= E1 <-] & H & ->)]]; [left; eauto|].
  apply eff_bind_cases in H as [[[=] _]|[(e & [= E <-] & ->)|(image & t1 & t3 & [= E2 <-] & H & ->)]]; [left; eauto|].
  rewrite !app_nil_r in H. unfold with_filtered_env in H.
  apply eff_bind_cases in H as [[H1 ->]|[(e & H1 & ->)|(tmp & t4 & t5 & H1 & H & ->)]];
    destruct (enter_filtered_env_cases _ _ _ _ H1) as [(e' & path & He & Ht)|(path & text & Hp & Htext & Ht)]; try discriminate.
  - injection He as <-. left. exists e. split; [done|]. right. by exists path.
  - injection Hp as ->. subst t4. right. set (smoke := mkSmokeConfig _ _ path _) in H.
    set (made := [Created path (JStr "") (Ok ()); Created path (JStr (filtered_env text)) (Ok ())]) in *.
    destruct (compared_and_removed smoke password image path (h ++ made)) as (compared & outcome & t0 & d & E & Hc & Hd).
    rewrite E in H. injection H as <- <-. exists path, text, password, image, compared, outcome, t0, d. by split_and!.
Qed.

(** A profile was configured, started, and passed the contract of its client:
    these three commands, in this order and no other. *)
Definition profile_ran (config : DragonflyProfileSmokeConfig) (password name : string) (include_override : bool)
    (contract : jval) (t : history) : Prop :=
  ∃ o1 o2 out p,
    t = [Executed (config_command config name include_override) (Ok (0, o1));
         Executed (readiness_command config name include_override) (Ok (0, o2));
         Executed (client_command CACHE_CONTRACT_CLIENT config name password) (Ok (0, out))] ∧
    json_loads out = Ok contract ∧ j_getitem contract "passed" = Ok p ∧ j_truthy p = true.

Lemma run_process_Ok c h rc out err t : run_process c h = (Some (Ok (rc, out, err)), t) → t = [Executed c (Ok (rc, out))].
Proof.
  intros H. apply eff_bind_Ok in H as ([rc' out'] & t1 & t2 & H1 & H & ->). apply execute_Ok in H1 as ->.
  apply eff_bind_Ok in H as (e & t3 & t4 & [= <- <-] & H & ->). by apply mret_Ok in H as [[= <- <- _] ->].
Qed.

Lemma run_step_Ok profile image step c steps h result_ t : 
  run_steps profile image ((step, c) :: steps) h = (Some (Ok result_), t) →
  ∃ out t', (∃ err, result_ = Some (failed_profile profile image step out err)) ∨
    t = Executed c (Ok (0, out)) :: t' ∧ run_steps profile image steps (h ++ [Executed c (Ok (0, out))]) = (Some (Ok result_), t').
Proof.
  intros H. cbn in H. apply eff_bind_Ok in H as ([[rc out] err] & t1 & t2 & H1 & H & ->). apply run_process_Ok in H1 as ->.
  exists out, t2. destruct (Z.eqb_spec rc 0) as [->|Hne]; cbn [negb] in H; [by right|].
  left. apply mret_Ok in H as [<- _]. eauto.
Qed.

Lemma run_profile_passed config name over image password h result_ t :
  run_profile config name over image password h = (Some (Ok result_), t) → j_truthy (obj_get result_ "passed") = true →
  ∃ contract, profile_ran config password name over contract t ∧
    j_getitem contract "checks" = Ok (default JNull (dict_get result_ "checks")) ∧ dict_get result_ "checks" ≠ None.
Proof.
  clear fs temporary. intros H Hp. apply eff_bind_Ok in H as (failed & t1 & t2 & H1 & H & ->).
  destruct failed as [r|].
  { exfalso. apply mret_Ok in H as [-> _].
    apply run_step_Ok in H1 as (out & t1' & [[err [= ->]]|[_ H1]]); [discriminate Hp|].
    apply run_step_Ok in H1 as (out' & t1'' & [[err [= ->]]|[_ H1]]); [discriminate Hp|]. discriminate H1. }
  apply run_step_Ok in H1 as (o1 & t1' & [[err [=]]|[-> H1]]).
  apply run_step_Ok in H1 as (o2 & t1'' & [[err [=]]|[-> H1]]). injection H1 as <-.
  apply eff_bind_Ok in H as ([[rc out] err] & t3 & t4 & H2 & H & ->). apply run_process_Ok in H2 as ->.
  destruct (Z.eqb_spec rc 0) as [->|Hne]; cbn [negb] in H; [|apply mret_Ok in H as [<- _]; discriminate Hp].
  eff_ok_in H. subst. cbn in Hp.
  lazymatch goal with E : json_loads out = Ok ?c |- _ => exists c end. split; [|done].
  by eexists o1, o2, out, _.
Qed.
End proofs.

(** ** Properties *)

(** The names of the checks a contract reports. *)
Definition contract_names (contract : jval) : result (list jval) :=
  checks ← j_getitem contract "checks"; items ← j_items checks; mapM (λ check, j_getitem check "name") items.

(** C33: However the smoke test ends, once its filtered environment file is
    written, what follows the comparison of the two profiles is the clean-up and
    the removal of that file, in this order and nothing else.  The clean-up runs
    the [down] command of each profile; their exit statuses are not looked at, so
    that a project is really gone is not shown.  A clean-up command that cannot be
    run at all replaces the outcome by its error, and if it is the first, the
    second is not run.  Before the file is written nothing is started, and a
    temporary file made before an error in reading the source or in writing its
    content is left behind.  The test passes only if the comparison consists, for
    one profile after the other, of an accepted configuration, a start that
    succeeded, and a client whose contract passed, and both contracts report the
    same names of checks. *)
Theorem cache_profiles_removed (CACHE_CONTRACT_CLIENT : string) (w : world) (fs : history → files)
    (stderr : history → string) (json_loads : string → result jval) (temporary : history → fs_path)
    (config : DragonflyProfileSmokeConfig) (h : history) (r : option (result ProfilesReport)) (t : history) :
  run_profiles CACHE_CONTRACT_CLIENT w fs stderr json_loads temporary config h = (r, t) →
  (∃ e, r = Some (Raise e) ∧
     (t = [] ∨ ∃ path, t = [Created path (JStr "") (Raise e)] ∨ t = [Created path (JStr "") (Ok ())] ∨
      ∃ document, t = [Created path (JStr "") (Ok ()); Created path document (Raise e)])) ∨
  ∃ path text password compared outcome t0 d,
    let smoke := mkSmokeConfig (compose_file config) (override_file config) path (project_prefix config) in
    r = Some outcome ∧
    t = [Created path (JStr "") (Ok ()); Created path (JStr (filtered_env text)) (Ok ())] ++ t0 ++ d ++ [Removed path] ∧
    fs_text (fs (h ++ [Created path (JStr "") (Ok ())])) (env_file config) = Ok text ∧
    read_env_value (fs h) (env_file config) "REDIS_PASSWORD" None = Ok password ∧
    cleaned_up smoke compared outcome d ∧
    ∀ report, outcome = Ok report → passed report = true →
      ∃ t1 t2 c1 c2 names1 names2,
        t0 = t1 ++ t2 ∧
        profile_ran CACHE_CONTRACT_CLIENT json_loads smoke password "valkey" false c1 t1 ∧
        profile_ran CACHE_CONTRACT_CLIENT json_loads smoke password "dragonfly" true c2 t2 ∧
        contract_names c1 = Ok names1 ∧ contract_names c2 = Ok names2 ∧ py_eq (JList names2) (JList names1) = true.
Proof.
  intros H. apply run_profiles_cases in H as [H|(path & text & password & image & compared & outcome & t0 & d & Ho & Ht & Htext & Hpw & Hc & Hd)];
    [by left|right]. exists path, text, password, compared, outcome, t0, d. split_and!; try done.
  intros report -> Hpass. assert (compared = Ok report) as ->.
  { destruct Hd as [(? & ? & _ & ->)|[(? & ? & _ & [=])|(? & _ & [=])]]. done. }
  clear Hd Ho Ht. set (smoke := mkSmokeConfig _ _ _ _) in *.
  apply eff_bind_Ok in Hc as (results & t1 & t2 & Hm & Hr & ->).
  apply eff_bind_Ok in Hr as (equivalent & t3 & t4 & He & Hr & ->). apply lift_Ok in He as [He ->].
  apply mret_Ok in Hr as [<- ->]. cbn in Hpass. subst equivalent. apply and_r_Ok in He as [Hall He].
  cbn [mapM] in Hm. apply eff_bind_Ok in Hm as (r1 & u1 & u2 & H1 & Hm & ->).
  apply eff_bind_Ok in Hm as (rs & u3 & u4 & Hm & Hr & ->). apply mret_Ok in Hr as [<- ->].
  apply eff_bind_Ok in Hm as (r2 & u5 & u6 & H2 & Hm & ->).
  apply eff_bind_Ok in Hm as (rs' & u7 & u8 & Hm & Hr & ->). apply mret_Ok in Hr as [<- ->].
  apply mret_Ok in Hm as [<- ->]. injection Hall as Hall. cbn in Hall. split_bools.
  apply run_profile_passed in H1 as (c1 & Hran1 & Hc1 & Hs1); [|done].
  apply run_profile_passed in H2 as (c2 & Hran2 & Hc2 & Hs2); [|done].
  cbn [equivalent_check_names] in He. apply bind_Ok in He as (names1 & Hn1 & He). apply all_in_Ok in He.
  apply Forall_cons in He as [_ [He _]%Forall_cons]. apply bind_Ok in He as (names2 & Hn2 & [= He]).
  exists u1, u5, c1, c2, names1, names2.
  assert (Hnames : ∀ c r names, j_getitem c "checks" = Ok (default JNull (dict_get r "checks")) →
    dict_get r "checks" ≠ None → check_names r = Ok names → contract_names c = Ok names).
  { intros c r' names Hcc Hs Hn. unfold check_names in Hn. unfold contract_names. rewrite Hcc. cbn.
    destruct (dict_get r' "checks"); [|done]. exact Hn. }
  split_and!; [by rewrite !app_nil_r|done|done|by eapply Hnames|by eapply Hnames|done].
Qed.

Definition sample_env_files : files :=
  mkFiles (λ _, Ok true) (λ _, Ok true) (λ _, Ok 0) (λ _, Ok 384) (λ _, Ok (utf8_encode (join (String "010" "") ["# cache"; "REDIS_PASSWORD='s3cret'"; "COMPOSE_PROJECT_NAME=live"]))).

Definition sample_smoke_world : world :=
  mkWorld (λ _ _ _, Ok "") (λ _ _, Ok (0, "{}")) (λ _, 0%float) (λ _, mkDatetime 0 (Some 0)) (λ _ _, NoResponse)
    (λ _ _ _, Ok ()) (λ _ _ _, Ok ()).

Definition sample_smoke_config : DragonflyProfileSmokeConfig :=
  mkSmokeConfig (parse_path "/repo/compose.yml") (parse_path "/repo/override.yml") (parse_path "/repo/.env") "cache".

Definition sample_contract : jval :=
  JObj [("passed", JBool true); ("checks", JList [JObj [("name", JStr "ping")]])].

Definition sample_smoke : option (result ProfilesReport) * history :=
  run_profiles "client" sample_smoke_world (λ _, sample_env_files) (λ _, "") (λ _, Ok sample_contract)
    (λ _, parse_path "/tmp/env") sample_smoke_config [].

(** The project name of the source file is left out of the temporary one. *)
Example project_name_filtered :
  sample_smoke.2 !! 1%nat
  = Some (Created (parse_path "/tmp/env") (JStr ("# cache" +:+ String "010" "" +:+ "REDIS_PASSWORD='s3cret'" +:+ String "010" "")) (Ok ())).
Proof. vm_compute. reflexivity. Qed.

(** A source file that can no longer be read when the temporary one has been made
    leaves the temporary one behind. *)
Example temporary_left_behind :
  with_filtered_env sample_smoke_world (λ _, mkFiles (λ _, Ok true) (λ _, Ok true) (λ _, Ok 0) (λ _, Ok 384) (λ _, throw ExcOSError "gone"))
    (λ _, parse_path "/tmp/env") (parse_path "/repo/.env") (λ _, mret tt) []
  = (Some (throw ExcOSError "gone"), [Created (parse_path "/tmp/env") (JStr "") (Ok ())]).
Proof. vm_compute. reflexivity. Qed.

(** An image set in the environment wins over the one the report names. *)
Example environment_image_wins :
  dict_get (compose_environment [("DRAGONFLY_IMAGE", "dragonfly:old")] "dragonfly:candidate" "cache-dragonfly") "DRAGONFLY_IMAGE"
  = Some "dragonfly:old".
Proof. reflexivity. Qed.

Lemma cache_profiles_removed_witness :
  ∃ path t1 password c1,
    last sample_smoke.2 = Some (Removed path) ∧
    profile_ran "client" (λ _, Ok sample_contract)
      (mkSmokeConfig (compose_file sample_smoke_config) (override_file sample_smoke_config) path
         (project_prefix sample_smoke_config)) password "valkey" false c1 t1.
Proof.
  assert (Hp : ((λ r, match r with Ok report => passed report | Raise _ => false end) <$> sample_smoke.1) = Some true)
    by (vm_compute; reflexivity).
  destruct sample_smoke as [r t] eqn:E.
  destruct (cache_profiles_removed "client" sample_smoke_world (λ _, sample_env_files) (λ _, "") (λ _, Ok sample_contract)
    (λ _, parse_path "/tmp/env") sample_smoke_config [] r t E)
    as [(e & -> & _)|(path & text & password & compared & outcome & t0 & d & -> & -> & _ & _ & _ & Hr)]; [discriminate Hp|].
  destruct outcome as [report|e]; [|discriminate Hp].
  destruct (Hr report eq_refl ltac:(by injection Hp)) as (t1 & t2 & c1 & c2 & names1 & names2 & _ & Hran & _).
  exists path, t1, password, c1. split; [|exact Hran]. cbn [snd]. by rewrite !app_assoc, last_snoc.
Defined.
