(* ===== verification/PyRegex.v ===== *)
(** Regular expressions as [re] matches them: a backtracking matcher over the
    characters of a string, its declarative meaning, and searching, iterating
    over and removing matches.  Patterns are written as terms of [regex].  No
    pattern of the sources repeats a part that may match the empty string, and
    those they iterate over match no empty string. *)

From stdpp Require Import base list strings.
From Stdlib Require Import ZArith Lia Ascii.
From S2P Require Import Prelude PyStr PyStrFacts PyJson PyText.

(** ** Tests on characters *)

Definition one (a : ascii) : char := String a "".
Definition is_char (a : ascii) (x : char) : bool := String.eqb x (one a).
Definition ascii_char (P : ascii → bool) (x : char) : bool :=
  match x with String a "" => P a | _ => false end.
Definition is_space_char (x : char) : bool := Nat.ltb 0 (space_head x).

(** ** Patterns and their meaning *)

Inductive regex : Type :=
  | Cls (p : char → bool)
  | Eps
  | Seq (r1 r2 : regex)
  | Alt (r1 r2 : regex)
  | Rep (r : regex)
  | Grp (n : nat) (r : regex)
  | At (p : list char → list char → bool).

(** A place in a text: what lies behind it, the nearest character first, what
    lies ahead, and what the groups hold, the last mark first. *)
Record cursor : Type := mkCursor { behind : list char; ahead : list char; marks : list (nat * list char) }.

(** The text between a place and a later one. *)
Definition between (c c' : cursor) : list char :=
  reverse (take (length (behind c') - length (behind c)) (behind c')).

Definition mark (n : nat) (c c' : cursor) : cursor := mkCursor (behind c') (ahead c') ((n, between c c') :: marks c').

Inductive derives : regex → cursor → cursor → Prop :=
  | d_cls p x b a m : p x = true → derives (Cls p) (mkCursor b (x :: a) m) (mkCursor (x :: b) a m)
  | d_eps c : derives Eps c c
  | d_seq r1 r2 c c' c'' : derives r1 c c' → derives r2 c' c'' → derives (Seq r1 r2) c c''
  | d_alt_l r1 r2 c c' : derives r1 c c' → derives (Alt r1 r2) c c'
  | d_alt_r r1 r2 c c' : derives r2 c c' → derives (Alt r1 r2) c c'
  | d_rep_stop r c : derives (Rep r) c c
  | d_rep_more r c c' c'' : derives r c c' → (length (ahead c') < length (ahead c))%nat →
      derives (Rep r) c' c'' → derives (Rep r) c c''
  | d_grp n r c c' : derives r c c' → derives (Grp n r) c (mark n c c')
  | d_at p c : p (behind c) (ahead c) = true → derives (At p) c c.

#[local] Hint Constructors derives : core.

Lemma derives_moves r c c' : derives r c c' →
  ∃ taken, ahead c = taken ++ ahead c' ∧ behind c' = reverse taken ++ behind c.
Proof.
  induction 1 as [p x b a m _|c|r1 r2 c c' c'' _ (t1 & E1 & F1) _ (t2 & E2 & F2)|r1 r2 c c' _ IH|r1 r2 c c' _ IH|r c
                 |r c c' c'' _ (t1 & E1 & F1) _ _ (t2 & E2 & F2)|n r c c' _ IH|p c _]; try done; try by exists [].
  - by exists [x].
  - exists (t1 ++ t2). rewrite E1, E2, F2, F1, reverse_app. by rewrite <-!app_assoc.
  - exists (t1 ++ t2). rewrite E1, E2, F2, F1, reverse_app. by rewrite <-!app_assoc.
Qed.

(** ** The matcher

    The continuation [k] is what remains of the pattern: when it fails, the
    matcher goes back to its last choice. *)
Section matcher.
Context {A : Type}.

Definition or_else (o : option A) (alternative : unit → option A) : option A :=
  match o with Some a => Some a | None => alternative () end.

(** Every repetition takes a character, so what lies ahead bounds their number. *)
Fixpoint repeat_match (step : (cursor → option A) → cursor → option A) (k : cursor → option A) (n : nat) (c : cursor) :
    option A :=
  match n with
  | O => k c
  | S n =>
      or_else (step (λ c', if Nat.ltb (length (ahead c')) (length (ahead c)) then repeat_match step k n c' else None) c)
        (λ _, k c)
  end.

Fixpoint match_at (r : regex) (k : cursor → option A) (c : cursor) : option A :=
  match r with
  | Cls p =>
      match ahead c with
      | x :: rest => if p x then k (mkCursor (x :: behind c) rest (marks c)) else None
      | [] => None
      end
  | Eps => k c
  | Seq r1 r2 => match_at r1 (match_at r2 k) c
  | Alt r1 r2 => or_else (match_at r1 k c) (λ _, match_at r2 k c)
  | Rep r => repeat_match (match_at r) k (length (ahead c)) c
  | Grp n r => match_at r (λ c', k (mark n c c')) c
  | At p => if p (behind c) (ahead c) then k c else None
  end.

Lemma or_else_Some o f a : or_else o f = Some a ↔ o = Some a ∨ (o = None ∧ f () = Some a).
Proof. destruct o; cbn; naive_solver. Qed.

Lemma or_else_None o f : or_else o f = None ↔ o = None ∧ f () = None.
Proof. destruct o; cbn; naive_solver. Qed.

Lemma match_at_sound r : ∀ k c a, match_at r k c = Some a → ∃ c', derives r c c' ∧ k c' = Some a.
Proof.
  induction r as [p| |r1 IH1 r2 IH2|r1 IH1 r2 IH2|r IH|n r IH|p]; intros k c a H; cbn [match_at] in H.
  - destruct c as [b [|x l] m]; [done|]. cbn in H. destruct (p x) eqn:E; [|done]. eauto.
  - eauto.
  - apply IH1 in H as (c1 & H1 & H). apply IH2 in H as (c2 & H2 & H). eauto.
  - apply or_else_Some in H as [H|[_ H]]; [apply IH1 in H|apply IH2 in H]; naive_solver.
  - revert H. generalize (length (ahead c)). intros n. revert c. induction n as [|n IHn]; intros c H; cbn [repeat_match] in H; [by eauto|].
    apply or_else_Some in H as [H|[_ H]]; [|by eauto].
    apply IH in H as (c1 & H1 & H). destruct (Nat.ltb_spec (length (ahead c1)) (length (ahead c))); [|done].
    apply IHn in H as (c2 & H2 & H). eauto.
  - apply IH in H as (c1 & H1 & H). eauto.
  - destruct (p _ _) eqn:E; [|done]. eauto.
Qed.

Lemma match_at_complete r : ∀ k c, match_at r k c = None → ∀ c', derives r c c' → k c' = None.
Proof.
  induction r as [p| |r1 IH1 r2 IH2|r1 IH1 r2 IH2|r IH|n r IH|p]; intros k c H c' Hd; cbn [match_at] in H.
  - inversion Hd as [? x b l m E| | | | | | | | ]; subst. cbn in H. by rewrite E in H.
  - by inversion Hd; subst.
  - inversion Hd; subst. eapply IH2; [|done]. by eapply IH1.
  - apply or_else_None in H as [H1 H2]. inversion Hd; subst; eauto.
  - assert (∀ n c, (length (ahead c) <= n)%nat → repeat_match (match_at r) k n c = None →
              ∀ c', derives (Rep r) c c' → k c' = None) as Hn; [|by eapply Hn].
    clear c c' H Hd. induction n as [|n IHn]; intros c Hl H c' Hd; inversion Hd as [| | | | | ? c0|? ? c1 ? Hr Hlt Hs| |]; subst;
      cbn [repeat_match] in H; try done; try lia.
    + by apply or_else_None in H as [_ H].
    + apply or_else_None in H as [H _]. apply IH with (c' := c1) in H; [|done].
      destruct (Nat.ltb_spec (length (ahead c1)) (length (ahead c))); [|lia]. eapply IHn; [|done|done]. lia.
  - inversion Hd; subst. by apply (IH _ _ H).
  - inversion Hd as [| | | | | | | |? ? E]; subst. by rewrite E in H.
Qed.
End matcher.

(** ** Searching *)

Record found : Type := mkFound { m_start : cursor; m_end : cursor }.

Definition matched (m : found) : list char := between (m_start m) (m_end m).

(** [match.group(n)] *)
Definition group (n : nat) (m : found) : option string :=
  (λ mk, text_of_chars mk.2) <$> List.find (λ mk : nat * list char, Nat.eqb mk.1 n) (marks (m_end m)).

Fixpoint search_from (r : regex) (before rest : list char) : option found :=
  let c := mkCursor before rest [] in
  match match_at r Some c with
  | Some c' => Some (mkFound c c')
  | None => match rest with [] => None | x :: rest => search_from r (x :: before) rest end
  end.

(** [pattern.search(s)] *)
Definition re_search (r : regex) (s : string) : option found := search_from r [] (chars s).

(** [pattern.match(s)] *)
Definition re_match (r : regex) (s : string) : option found :=
  let c := mkCursor [] (chars s) [] in mkFound c <$> match_at r Some c.

(** [pattern.fullmatch(s)] *)
Definition re_fullmatch (r : regex) (s : string) : option found :=
  let c := mkCursor [] (chars s) [] in
  mkFound c <$> match_at r (λ c', match ahead c' with [] => Some c' | _ => None end) c.

Fixpoint finditer_from (fuel : nat) (r : regex) (before rest : list char) : list found :=
  match fuel with
  | O => []
  | S fuel =>
      match search_from r before rest with
      | Some m => m :: finditer_from fuel r (behind (m_end m)) (ahead (m_end m))
      | None => []
      end
  end.

(** [pattern.finditer(s)]; every match takes a character. *)
Definition re_finditer (r : regex) (s : string) : list found := finditer_from (S (String.length s)) r [] (chars s).

(** What [sub] with an empty replacement keeps: the text up to each match, and after the last. *)
Fixpoint gaps (from : cursor) (ms : list found) : list char :=
  match ms with
  | [] => ahead from
  | m :: ms => between from (m_start m) ++ gaps (m_end m) ms
  end.

(** [re.sub(pattern, "", s)] *)
Definition re_remove (r : regex) (s : string) : string :=
  text_of_chars (gaps (mkCursor [] (chars s) []) (re_finditer r s)).

(** A pattern that matches no empty text. *)
Definition consuming (r : regex) : Prop := ∀ c c', derives r c c' → (length (ahead c') < length (ahead c))%nat.

Lemma search_from_Some r : ∀ rest before m, search_from r before rest = Some m →
  derives r (m_start m) (m_end m)
  ∧ ∃ skipped, rest = skipped ++ ahead (m_start m) ∧ behind (m_start m) = reverse skipped ++ before
    ∧ marks (m_start m) = []
    ∧ ∀ pre post, skipped = pre ++ post → post ≠ [] →
        ∀ c', ¬ derives r (mkCursor (reverse pre ++ before) (post ++ ahead (m_start m)) []) c'.
Proof.
  induction rest as [|x rest IH]; intros before m H; cbn [search_from] in H;
    destruct (match_at r Some _) as [c'|] eqn:E; try done.
  1,2: injection H as <-; apply match_at_sound in E as (c1 & Hd & [= ->]); split; [done|]; exists [];
    split_and!; try done; intros pre post Hp; by destruct pre, post.
  pose proof (match_at_complete r _ _ E) as Hno.
  apply IH in H as (Hd & skipped & -> & Hb & Hm & Hn). split; [done|]. exists (x :: skipped).
  split_and!; [done|by rewrite reverse_cons, <-app_assoc|done|].
  intros [|y pre] post Hp Hpost c' Hc.
  - cbn in Hp. subst post. cbn in Hc. by apply Hno in Hc.
  - injection Hp as <- ->. rewrite reverse_cons, <-app_assoc in Hc. by eapply Hn.
Qed.

Lemma search_from_None r : ∀ rest before, search_from r before rest = None →
  ∀ pre post, rest = pre ++ post → ∀ c', ¬ derives r (mkCursor (reverse pre ++ before) post []) c'.
Proof.
  induction rest as [|x rest IH]; intros before H pre post Hp c' Hc; cbn [search_from] in H;
    destruct (match_at r Some _) as [|] eqn:E; try done; pose proof (match_at_complete r _ _ E) as Hno.
  - destruct pre, post; try done. discriminate (Hno _ Hc).
  - destruct pre as [|y pre]; [cbn in Hp; subst post; discriminate (Hno _ Hc)|]. injection Hp as <- ->.
    rewrite reverse_cons, <-app_assoc in Hc. by eapply IH.
Qed.

(** ** Iterating

    The place before the [n]th character of a text. *)
Definition place (t : list char) (n : nat) : cursor := mkCursor (reverse (take n t)) (drop n t) [].

Definition offset (c : cursor) : nat := length (behind c).

Lemma place_app w rest : place (w ++ rest) (length w) = mkCursor (reverse w) rest [].
Proof. unfold place. by rewrite take_app_length, drop_app_length. Qed.

Lemma place_offset t n c' r : (n <= length t)%nat → derives r (place t n) c' →
  (n <= offset c' <= length t)%nat ∧ mkCursor (behind c') (ahead c') [] = place t (offset c').
Proof.
  intros Hn (taken & Ha & Hb)%derives_moves. cbn in Ha, Hb. unfold offset, place.
  assert (t = take n t ++ taken ++ ahead c') as Ht by (by rewrite <-Ha, take_drop).
  assert (length (behind c') = length (take n t ++ taken)) as Hl
    by (rewrite Hb, !length_app, !length_reverse; lia).
  assert (behind c' = reverse (take n t ++ taken)) as Hb' by (by rewrite reverse_app).
  pose proof (f_equal length Ht) as Hl'. rewrite !length_app, length_take in Hl'. split.
  - rewrite Hl, length_app, length_take. lia.
  - fold (place t (length (behind c'))). rewrite app_assoc in Ht. rewrite Hl, Hb', <-place_app. by f_equal.
Qed.

Lemma search_from_place r t k m : (k <= length t)%nat → search_from r (reverse (take k t)) (drop k t) = Some m →
  derives r (m_start m) (m_end m) ∧ m_start m = place t (offset (m_start m)) ∧ (k <= offset (m_start m) <= length t)%nat
  ∧ ∀ n c', (k <= n < offset (m_start m))%nat → ¬ derives r (place t n) c'.
Proof.
  intros Hk (Hd & skipped & Ha & Hb & Hm & Hno)%search_from_Some. set (p := (k + length skipped)%nat).
  assert (t = take k t ++ skipped ++ ahead (m_start m)) as Ht by (by rewrite <-Ha, take_drop).
  assert (length (take k t) = k) as Hlk by (rewrite length_take; lia).
  assert (offset (m_start m) = p) as Ho by (unfold offset; rewrite Hb, length_app, !length_reverse, Hlk; lia).
  assert (p <= length t)%nat by (rewrite Ht, !length_app; lia).
  assert (∀ pre post, skipped = pre ++ post →
            place t (k + length pre) = mkCursor (reverse pre ++ reverse (take k t)) (post ++ ahead (m_start m)) []) as Hp.
  { intros pre post E. rewrite <-reverse_app, <-place_app, length_app, Hlk. f_equal.
    by rewrite Ht at 1; rewrite E, <-!app_assoc. }
  rewrite Ho. split_and!; try done; try lia.
  - unfold p. rewrite (Hp skipped []) by (by rewrite app_nil_r). cbn. destruct (m_start m). cbn in *. by subst.
  - intros n c' Hn Hc. set (pre := take (n - k) skipped). set (post := drop (n - k) skipped).
    assert (skipped = pre ++ post) as Hs by (unfold pre, post; by rewrite take_drop).
    assert (length pre = n - k)%nat by (unfold pre; rewrite length_take; lia).
    replace n with (k + length pre)%nat in Hc by lia. rewrite (Hp _ _ Hs) in Hc.
    apply (Hno pre post Hs) in Hc; [done|]. intros E. apply (f_equal length) in E. unfold post in E. rewrite length_drop in E. cbn in E. lia.
Qed.

Section iteration.
Context (r : regex) (t : list char).

Lemma finditer_from_sound fuel : ∀ k m, (k <= length t)%nat → m ∈ finditer_from fuel r (reverse (take k t)) (drop k t) →
  derives r (m_start m) (m_end m) ∧ m_start m = place t (offset (m_start m)) ∧ (k <= offset (m_start m) <= length t)%nat.
Proof.
  induction fuel as [|fuel IH]; intros k m Hk Hm; [by apply elem_of_nil in Hm|]. cbn [finditer_from] in Hm.
  destruct (search_from _ _ _) as [m0|] eqn:E; [|by apply elem_of_nil in Hm].
  apply (search_from_place _ _ _ _ Hk) in E as (Hd & Hs & Hr & _).
  apply elem_of_cons in Hm as [->|Hm]; [done|].
  rewrite Hs in Hd. apply place_offset in Hd as [Hle He]; [|lia]. injection He as Hb Ha. rewrite Hb, Ha in Hm.
  apply IH in Hm as (? & ? & ?); [|lia]. split_and!; try done; lia.
Qed.

Lemma finditer_from_covers fuel : consuming r → ∀ k n c', (k <= n <= length t)%nat → (length t - k < fuel)%nat →
  derives r (place t n) c' →
  ∃ m, m ∈ finditer_from fuel r (reverse (take k t)) (drop k t) ∧ (offset (m_start m) <= n < offset (m_end m))%nat.
Proof.
  intros Hr. induction fuel as [|fuel IH]; intros k n c' Hn Hf Hc; [lia|]. cbn [finditer_from].
  destruct (search_from _ _ _) as [m0|] eqn:E.
  - apply search_from_place in E as (Hd & Hs & Hk & Hno); [|lia].
    destruct (decide (n < offset (m_start m0))%nat); [exfalso; eapply (Hno n); [lia|done]|].
    destruct (decide (n < offset (m_end m0))%nat); [exists m0; split; [left|lia]|].
    pose proof (Hr _ _ Hd) as Hlt. rewrite Hs in Hd.
    apply place_offset in Hd as [Hle He]; [|lia]. injection He as Hb Ha.
    assert (offset (m_start m0) < offset (m_end m0))%nat as Hprog.
    { rewrite Hs, Ha in Hlt. cbn in Hlt. rewrite !length_drop in Hlt. lia. }
    destruct (IH (offset (m_end m0)) n c') as (m & Hm & ?); [lia|lia|done|].
    rewrite <-Hb, <-Ha in Hm. exists m. split; [by right|done].
  - exfalso. pose proof (search_from_None r _ _ E (take (n - k) (drop k t)) (drop (n - k) (drop k t))
      (eq_sym (take_drop _ _)) c') as Hno. apply Hno. rewrite <-reverse_app, drop_drop.
    replace (k + (n - k))%nat with n by lia. replace (take k t ++ take (n - k) (drop k t)) with (take n t); [done|].
    replace n with (k + (n - k))%nat at 1 by lia. by rewrite take_take_drop.
Qed.
End iteration.

Lemma length_chars_fuel fuel : ∀ s, (length (chars_fuel fuel s) <= String.length s)%nat.
Proof.
  induction fuel as [|fuel IH]; intros [|a s]; cbn [chars_fuel length]; try (cbn; lia).
  set (n := Nat.max _ _). assert (1 <= n)%nat by lia. clearbody n.
  pose proof (IH (string_drop n (String a s))). pose proof (length_drop_string n (String a s)). cbn in *. lia.
Qed.

(** The iteration reports matches of the pattern only, and a match over every
    place of the text at which the pattern matches. *)
Lemma re_finditer_sound r s m : m ∈ re_finditer r s →
  derives r (m_start m) (m_end m) ∧ m_start m = place (chars s) (offset (m_start m)) ∧ (offset (m_start m) <= length (chars s))%nat.
Proof.
  intros H. destruct (finditer_from_sound r (chars s) (S (String.length s)) 0 m) as (? & ? & ?); [lia|exact H|].
  split_and!; try done; lia.
Qed.

Lemma re_finditer_covers r s n c' : consuming r → (n <= length (chars s))%nat → derives r (place (chars s) n) c' →
  ∃ m, m ∈ re_finditer r s ∧ (offset (m_start m) <= n < offset (m_end m))%nat.
Proof.
  intros Hr Hn Hd. apply (finditer_from_covers r (chars s) _ Hr 0 n c'); [lia| |done].
  pose proof (length_chars_fuel (String.length s) s). unfold chars. lia.
Qed.

(** Nothing is found exactly where nothing matches. *)
Lemma re_finditer_nil r s : consuming r →
  re_finditer r s = [] ↔ ∀ n c', (n <= length (chars s))%nat → ¬ derives r (place (chars s) n) c'.
Proof.
  intros Hr. split.
  - intros H n c' Hn Hd. apply re_finditer_covers in Hd as (m & Hm & _); [|done..]. rewrite H in Hm. by apply elem_of_nil in Hm.
  - intros H. destruct (re_finditer r s) as [|m l] eqn:E; [done|]. exfalso.
    destruct (re_finditer_sound r s m) as (Hd & Hs & Hle); [rewrite E; left|]. rewrite Hs in Hd. by apply H in Hd.
Qed.

Lemma re_search_None r s : re_search r s = None ↔ ∀ n c', (n <= length (chars s))%nat → ¬ derives r (place (chars s) n) c'.
Proof.
  unfold re_search. split.
  - intros E n c' Hn Hd. apply (search_from_None r _ _ E (take n (chars s)) (drop n (chars s)) (eq_sym (take_drop _ _)) c').
    by rewrite app_nil_r.
  - intros H. destruct (search_from r [] (chars s)) as [m|] eqn:E; [|done]. exfalso.
    destruct (search_from_place r (chars s) 0 m) as (Hd & Hs & Hle & _); [lia|done|]. rewrite Hs in Hd. by apply H in Hd; [|lia].
Qed.

Lemma re_search_Some r s m : re_search r s = Some m →
  derives r (m_start m) (m_end m) ∧ m_start m = place (chars s) (offset (m_start m))
  ∧ ∀ n c', (n < offset (m_start m))%nat → ¬ derives r (place (chars s) n) c'.
Proof.
  intros E. apply (search_from_place r (chars s) 0) in E as (? & ? & ? & Hno); [|lia]. split_and!; try done.
  intros n c' Hn. apply Hno. lia.
Qed.

Lemma re_fullmatch_spec r s : (∃ m, re_fullmatch r s = Some m) ↔ ∃ c', derives r (place (chars s) 0) c' ∧ ahead c' = [].
Proof.
  unfold re_fullmatch. set (k := λ c' : cursor, _). split.
  - intros [m H]. destruct (match_at r k _) as [c|] eqn:E; [|done]. apply match_at_sound in E as (c1 & Hd & Hk).
    exists c1. split; [done|]. unfold k in Hk. by destruct (ahead c1).
  - intros (c' & Hd & Ha). destruct (match_at r k _) as [c|] eqn:E; [by eexists|].
    pose proof (match_at_complete r _ _ E c' Hd) as Hk. unfold k in Hk. by rewrite Ha in Hk.
Qed.

(** ** Patterns as they are written *)

Definition ch (a : ascii) : regex := Cls (is_char a).
Definition any_char : regex := Cls (λ x, negb (is_char "010" x)).
Definition none_of (s : string) : regex := Cls (λ x, forallb (λ a, negb (is_char a x)) (String.list_ascii_of_string s)).
Definition lit (s : string) : regex := fold_right (λ a r, Seq (ch a) r) Eps (String.list_ascii_of_string s).
Definition opt (r : regex) : regex := Alt r Eps.
Definition plus (r : regex) : regex := Seq r (Rep r).
Definition times (n : nat) (r : regex) : regex := Nat.iter n (Seq r) Eps.
Definition alts (rs : list regex) : regex :=
  match rs with [] => Cls (λ _, false) | r :: rs => foldl Alt r rs end.
Definition seqs (rs : list regex) : regex := fold_right Seq Eps rs.
Definition space : regex := Cls is_space_char.
Definition spaces : regex := Rep space.

(** [^] and [$] without the multi-line flag. *)
Definition text_start : regex := At (λ before _, match before with [] => true | _ => false end).
Definition text_end : regex := At (λ _ rest, match rest with [] => true | [x] => is_char "010" x | _ => false end).

(** One character that must not follow, or precede. *)
Definition not_ahead (p : char → bool) : regex := At (λ _ rest, match rest with x :: _ => negb (p x) | [] => true end).
Definition not_behind (p : char → bool) : regex := At (λ before _, match before with x :: _ => negb (p x) | [] => true end).

(** [\w], [\d] and [\b]: what a character above ASCII is depends on the
    Unicode tables, which are parameters. *)
Definition word_char (word_other : char → bool) (x : char) : bool :=
  match x with String a "" => is_alnum a || Ascii.eqb a "_" | _ => word_other x end.

Definition word_edge (word_other : char → bool) : regex :=
  let first l := match l with x :: _ => word_char word_other x | [] => false end in
  At (λ before rest, xorb (first before) (first rest)).

Definition digit_char (digit_other : char → bool) (x : char) : bool :=
  match x with String a "" => is_digit a | _ => digit_other x end.

Lemma derives_shrinks r c c' : derives r c c' → (length (ahead c') <= length (ahead c))%nat.
Proof. intros (taken & -> & _)%derives_moves. rewrite length_app. lia. Qed.

(** Which patterns match no empty text. *)
Lemma consuming_cls p : consuming (Cls p).
Proof. intros c c' Hd. inversion Hd; subst. cbn. lia. Qed.

Lemma consuming_seq_l r1 r2 : consuming r1 → consuming (Seq r1 r2).
Proof. intros H c c' Hd. inversion Hd as [| |? ? ? c1 ? H1 H2| | | | | |]; subst. apply H in H1. apply derives_shrinks in H2. lia. Qed.

Lemma consuming_seq_r r1 r2 : consuming r2 → consuming (Seq r1 r2).
Proof. intros H c c' Hd. inversion Hd as [| |? ? ? c1 ? H1 H2| | | | | |]; subst. apply H in H2. apply derives_shrinks in H1. lia. Qed.

Lemma consuming_alt r1 r2 : consuming r1 → consuming r2 → consuming (Alt r1 r2).
Proof. intros H1 H2 c c' Hd. inversion Hd; subst; auto. Qed.

Lemma consuming_grp n r : consuming r → consuming (Grp n r).
Proof. intros H c c' Hd. inversion Hd as [| | | | | | |? ? ? c1 H1|]; subst. exact (H _ _ H1). Qed.

Lemma consuming_lit s : s ≠ "" → consuming (lit s).
Proof. destruct s as [|a s]; [done|]. intros _. apply consuming_seq_l, consuming_cls. Qed.

(** What the text of a group can hold: the characters its part consumes. *)
Fixpoint only (P : char → Prop) (r : regex) : Prop :=
  match r with
  | Cls p => ∀ x, p x = true → P x
  | Eps | At _ => True
  | Seq r1 r2 | Alt r1 r2 => only P r1 ∧ only P r2
  | Rep r | Grp _ r => only P r
  end.

Fixpoint groups_only (P : char → Prop) (r : regex) : Prop :=
  match r with
  | Cls _ | Eps | At _ => True
  | Seq r1 r2 | Alt r1 r2 => groups_only P r1 ∧ groups_only P r2
  | Rep r => groups_only P r
  | Grp _ r => only P r ∧ groups_only P r
  end.

Lemma derives_only P r c c' : only P r → derives r c c' →
  ∃ taken, behind c' = reverse taken ++ behind c ∧ Forall P taken.
Proof.
  intros H Hd. revert H. induction Hd as [p x b a m Hp|c|r1 r2 c c' c'' _ IH1 _ IH2|r1 r2 c c' _ IH|r1 r2 c c' _ IH|r c
    |r c c' c'' _ IH1 _ _ IH2|n r c c' _ IH|p c _]; cbn [only]; intros H; try (by exists []); try (apply IH; tauto).
  - exists [x]. split; [done|]. auto.
  - destruct IH1 as (t1 & E1 & F1), IH2 as (t2 & E2 & F2); try tauto. exists (t1 ++ t2).
    rewrite E2, E1, reverse_app, <-app_assoc. by rewrite Forall_app.
  - destruct IH1 as (t1 & E1 & F1), IH2 as (t2 & E2 & F2); try done. exists (t1 ++ t2).
    rewrite E2, E1, reverse_app, <-app_assoc. by rewrite Forall_app.
Qed.

Lemma derives_groups P r c c' : groups_only P r → derives r c c' →
  Forall (λ mk, Forall P mk.2) (marks c) → Forall (λ mk, Forall P mk.2) (marks c').
Proof.
  intros H Hd. revert H. induction Hd as [p x b a m Hp|c|r1 r2 c c' c'' _ IH1 _ IH2|r1 r2 c c' _ IH|r1 r2 c c' _ IH|r c
    |r c c' c'' _ IH1 _ _ IH2|n r c c' Hd IH|p c _]; cbn [groups_only]; intros H Hm; try tauto.
  destruct H as [Ho H]. constructor; [|by apply IH]. destruct (derives_only P r c c' Ho Hd) as (taken & E & F).
  cbn. unfold between. rewrite E, length_app, Nat.add_sub, take_app_length, reverse_involutive. done.
Qed.

Lemma group_only P r s m n t : groups_only P r → re_search r s = Some m → group n m = Some t →
  ∃ l, t = text_of_chars l ∧ Forall P l.
Proof.
  intros H (Hd & Hs & _)%re_search_Some Hg. unfold group in Hg.
  assert (Forall (λ mk : nat * list char, Forall P mk.2) (marks (m_end m))) as Hm.
  { eapply derives_groups; [exact H|exact Hd|]. rewrite Hs. constructor. }
  destruct (List.find _ _) as [[k l]|] eqn:E; [|done]. injection Hg as <-. exists l. split; [done|].
  apply List.find_some in E as [E _]. rewrite Forall_forall in Hm. by apply (Hm (k, l)), list_elem_of_In.
Qed.

(** A literal matches its text. *)
Lemma derives_lit s b rest m :
  derives (lit s) (mkCursor b (map one (String.list_ascii_of_string s) ++ rest) m)
    (mkCursor (reverse (map one (String.list_ascii_of_string s)) ++ b) rest m).
Proof.
  unfold lit. generalize (String.list_ascii_of_string s) as l. intros l. revert b.
  induction l as [|a l IH]; intros b; [constructor|]. cbn [map fold_right app]. rewrite reverse_cons, <-app_assoc.
  apply d_seq with (mkCursor (one a :: b) (map one l ++ rest) m); [|apply IH].
  constructor. unfold is_char. apply String.eqb_refl.
Qed.

(** Of an ASCII text the characters are its bytes. *)
Lemma chars_ascii s : forall_chars is_ascii s = true → chars s = map one (String.list_ascii_of_string s).
Proof.
  unfold chars. generalize (Nat.le_refl (String.length s)). generalize (String.length s) at 2 3. intros fuel. revert s.
  induction fuel as [|fuel IH]; intros [|a s] Hl H; try done; [cbn in Hl; lia|].
  cbn [forall_chars] in H. apply andb_true_iff in H as [Ha H]. cbn [chars_fuel].
  assert (utf8_step (utf8_encode (string_take 4 (String a s))) = 1%nat) as ->.
  { revert Ha. clear. change (utf8_encode (string_take 4 (String a s))) with (byte_of_ascii a :: utf8_encode (string_take 3 s)).
    generalize (utf8_encode (string_take 3 s)). intros l Ha. destruct a as [[] [] [] [] [] [] [] []]; first [discriminate Ha|reflexivity]. }
  cbn [Nat.max string_take string_drop map String.list_ascii_of_string]. rewrite IH; [done| |done]. cbn in Hl. lia.
Qed.

Definition QUOTE : ascii := "034".

Example remove_quoted :
  re_remove (seqs [ch QUOTE; Rep (none_of (String QUOTE "")); ch QUOTE]) ("a = " +:+ String QUOTE ("b{" +:+ String QUOTE ";")) = "a = ;".
Proof. vm_compute. reflexivity. Qed.

(** ** What simple parts match *)

Lemma derives_cls p c c' : derives (Cls p) c c' ↔
  ∃ x, p x = true ∧ ahead c = x :: ahead c' ∧ c' = mkCursor (x :: behind c) (ahead c') (marks c).
Proof.
  split.
  - intros Hd. inversion Hd as [? x b a m Hp| | | | | | | |]; subst. by exists x.
  - intros (x & Hp & Ha & Hc). destruct c as [b a m], c' as [b' a' m']. cbn in *. subst a. injection Hc as -> ->. by constructor.
Qed.

Lemma derives_eps c c' : derives Eps c c' ↔ c' = c.
Proof. split; [by inversion 1|intros ->; constructor]. Qed.

Lemma derives_seq r1 r2 c c' : derives (Seq r1 r2) c c' ↔ ∃ d, derives r1 c d ∧ derives r2 d c'.
Proof. split; [inversion 1; subst; eauto|intros (d & ? & ?); by eapply d_seq]. Qed.

Lemma derives_alt r1 r2 c c' : derives (Alt r1 r2) c c' ↔ derives r1 c c' ∨ derives r2 c c'.
Proof. split; [inversion 1; subst; eauto|intros [?|?]; [by apply d_alt_l|by apply d_alt_r]]. Qed.

Lemma derives_at p c c' : derives (At p) c c' ↔ p (behind c) (ahead c) = true ∧ c' = c.
Proof. split; [by inversion 1; subst|intros [? ->]; by constructor]. Qed.

(** A cursor after some characters. *)
Definition after (l : list char) (c : cursor) (rest : list char) : cursor := mkCursor (reverse l ++ behind c) rest (marks c).

(** A repeated class takes some of the characters that belong to it. *)
Lemma derives_rep_cls p c c' : derives (Rep (Cls p)) c c' ↔
  ∃ l, Forall (λ x, p x = true) l ∧ ahead c = l ++ ahead c' ∧ c' = after l c (ahead c').
Proof.
  split.
  - intros Hd. remember (Rep (Cls p)) as r eqn:Er. induction Hd as [| | | | |r c|r c d c' Hd _ _ _ IH| |]; try discriminate Er.
    + exists []. split_and!; [constructor|done|]. unfold after. cbn. by destruct c.
    + injection Er as ->. destruct (IH eq_refl) as (l & Hl & Ha & Hc). apply derives_cls in Hd as (x & Hp & Hx & Hd).
      exists (x :: l). split_and!; [by constructor|by rewrite Hx, Ha|]. rewrite Hc at 1. unfold after. rewrite Hd.
      cbn [behind marks]. by rewrite reverse_cons, <-app_assoc.
  - intros (l & Hl & Ha & Hc). revert c Ha Hc. induction Hl as [|x l Hx Hl IH]; intros c Ha Hc.
    + rewrite Hc. unfold after. cbn in *. rewrite <-Ha. destruct c. apply d_rep_stop.
    + apply d_rep_more with (mkCursor (x :: behind c) (l ++ ahead c') (marks c)).
      * apply derives_cls. exists x. by rewrite Ha.
      * rewrite Ha. cbn. lia.
      * apply IH; [done|]. rewrite Hc at 1. unfold after. cbn [behind marks]. by rewrite reverse_cons, <-app_assoc.
Qed.

Lemma derives_lit_iff s c c' : derives (lit s) c c' ↔
  ahead c = map one (String.list_ascii_of_string s) ++ ahead c' ∧ c' = after (map one (String.list_ascii_of_string s)) c (ahead c').
Proof.
  unfold lit. generalize (String.list_ascii_of_string s) as l. intros l. revert c.
  induction l as [|a l IH]; intros c; cbn [fold_right map].
  - rewrite derives_eps. split; [intros ->; by destruct c|]. intros [Ha ->]. unfold after. cbn in *. rewrite <-Ha. by destruct c.
  - rewrite derives_seq. setoid_rewrite derives_cls. setoid_rewrite IH. unfold after. split.
    + intros (d & (x & Hx & Ha & Hd) & Hl & Hc). apply String.eqb_eq in Hx as ->. split; [by rewrite Ha, Hl|].
      rewrite Hc at 1. rewrite Hd. cbn [behind marks]. by rewrite reverse_cons, <-app_assoc.
    + intros [Ha Hc]. exists (mkCursor (one a :: behind c) (map one l ++ ahead c') (marks c)). split.
      * exists (one a). split; [apply String.eqb_refl|]. by rewrite Ha.
      * split; [done|]. rewrite Hc at 1. cbn [behind marks]. by rewrite reverse_cons, <-app_assoc.
Qed.
