(* ===== verification/PyAst.v ===== *)
(** Python's syntax trees as the sources read them: nodes with their class,
    their lines and their fields, and the walk of [ast.walk].  The parser itself
    is a parameter of the files that use it. *)

From stdpp Require Import base list strings.
From Stdlib Require Import ZArith Lia.
From S2P Require Import Prelude PyJson.

#[local] Open Scope Z_scope.

(** Constants: JSON's, [...], bytes and complex numbers. *)
Inductive constant : Type :=
  | CJson (v : jval)
  | CEllipsis
  | CBytes (s : string)
  | CComplex (is_zero : bool).

(** A node, or what a field of one may hold besides. *)
Inductive ast : Type :=
  | Const (c : constant)
  | Many (l : list ast)
  | Node (cls : string) (lineno : Z) (end_lineno : option Z) (fields : list (string * ast)).

Definition ast_none : ast := Const (CJson JNull).

Definition is_node (v : ast) : bool := match v with Node _ _ _ _ => true | _ => false end.

(** [isinstance(node, (ast.A, ast.B))] *)
Definition isinstance (v : ast) (classes : list string) : bool :=
  match v with Node cls _ _ _ => existsb (String.eqb cls) classes | _ => false end.

Definition node_lineno (v : ast) : Z := match v with Node _ l _ _ => l | _ => 0 end.
Definition node_end_lineno (v : ast) : option Z := match v with Node _ _ e _ => e | _ => None end.

(** [node.name] for the fields of the node's class; an absent one is [None]. *)
Definition node_field (v : ast) (name : string) : ast :=
  match v with Node _ _ _ fields => default ast_none (dict_get fields name) | _ => ast_none end.

Definition ast_items (v : ast) : list ast := match v with Many l => l | _ => [] end.
Definition ast_str (v : ast) : string := match v with Const (CJson (JStr s)) => s | _ => "" end.
Definition is_none (v : ast) : bool := match v with Const (CJson JNull) => true | _ => false end.

(** [ast.iter_child_nodes(node)] *)
Definition field_nodes (v : ast) : list ast :=
  match v with Node _ _ _ _ => [v] | Many l => List.filter is_node l | Const _ => [] end.
Definition child_nodes (v : ast) : list ast :=
  match v with Node _ _ _ fields => flat_map (λ f, field_nodes f.2) fields | _ => [] end.

(** The nodes of a tree, each before its descendants. *)
Fixpoint preorder (v : ast) : list ast :=
  match v with
  | Node _ _ _ fields =>
      v :: flat_map (λ f : string * ast, match f.2 with Many l => flat_map preorder l | _ => preorder f.2 end) fields
  | _ => []
  end.

Fixpoint walk_from (fuel : nat) (todo : list ast) : list ast :=
  match fuel, todo with
  | S fuel, node :: todo => node :: walk_from fuel (todo ++ child_nodes node)
  | _, _ => []
  end.

(** [ast.walk(node)]: level by level.  Every node is visited once, so their
    number is fuel enough. *)
Definition walk (v : ast) : list ast := walk_from (length (preorder v)) [v].

Lemma flat_map_preorder_nodes l : flat_map preorder (List.filter is_node l) = flat_map preorder l.
Proof. induction l as [|[c|l'|cls n e fs] l IH]; [done|done|done|]. cbn [List.filter is_node flat_map]. by rewrite IH. Qed.

Lemma preorder_children v : is_node v = true → preorder v = v :: flat_map preorder (child_nodes v).
Proof.
  destruct v as [| |cls n e fs]; try done. intros _. cbn [preorder child_nodes]. f_equal.
  induction fs as [|[name f] fs IH]; [done|]. cbn [flat_map]. rewrite flat_map_app, <-IH. f_equal.
  destruct f as [| |]; cbn [snd field_nodes]; [done|by rewrite flat_map_preorder_nodes|]. cbn [flat_map]. by rewrite app_nil_r.
Qed.

Lemma child_nodes_are_nodes v x : x ∈ child_nodes v → is_node x = true.
Proof.
  rewrite list_elem_of_In. destruct v as [| |cls n e fs]; try done. cbn. intros ([name f] & _ & H)%in_flat_map.
  destruct f; cbn in H; [done|by apply filter_In in H as [_ H]|]. by destruct H as [<-|[]].
Qed.

Lemma walk_from_preorder fuel : ∀ todo, Forall (λ x, is_node x = true) todo →
  (length (flat_map preorder todo) <= fuel)%nat → walk_from fuel todo ≡ₚ flat_map preorder todo.
Proof.
  induction fuel as [|fuel IH]; intros [|x todo] Hn Hl; try done.
  { apply Forall_cons in Hn as [Hx _]. cbn [flat_map] in Hl. rewrite preorder_children in Hl by done. cbn in Hl. lia. }
  apply Forall_cons in Hn as [Hx Hn]. cbn [walk_from flat_map] in *. rewrite preorder_children in * by done.
  cbn [app length] in *. constructor. rewrite length_app in Hl. rewrite IH.
  - by rewrite flat_map_app, Permutation_app_comm.
  - apply Forall_app. split; [done|]. apply Forall_forall, child_nodes_are_nodes.
  - rewrite flat_map_app, length_app. lia.
Qed.

(** The walk visits every node of the tree, and each once. *)
Lemma walk_preorder v : is_node v = true → walk v ≡ₚ preorder v.
Proof.
  intros Hv. unfold walk. rewrite walk_from_preorder; [|by repeat constructor|]; cbn [flat_map]; rewrite app_nil_r; [done|lia].
Qed.

(** A node lies inside another: itself, or a node of one of its fields. *)
Definition inside (x v : ast) : Prop := rtc (λ a b, b ∈ child_nodes a) v x.

Lemma preorder_trans v x y : x ∈ preorder v → y ∈ child_nodes x → y ∈ preorder v.
Proof.
  enough (∀ n v, (length (preorder v) <= n)%nat → x ∈ preorder v → y ∈ child_nodes x → y ∈ preorder v) by eauto.
  clear v. intros n. induction n as [|n IH]; intros v Hl Hx Hy.
  - destruct (preorder v); [by apply elem_of_nil in Hx|cbn in Hl; lia].
  - assert (is_node v = true) as Hv by (destruct v; try done; by apply elem_of_nil in Hx).
    rewrite preorder_children in * by done. cbn in Hl. right. apply list_elem_of_In, in_flat_map.
    apply elem_of_cons in Hx as [->|Hx].
    + exists y. split; [by apply list_elem_of_In|]. apply list_elem_of_In.
      rewrite preorder_children by (by eapply child_nodes_are_nodes). left.
    + apply list_elem_of_In, in_flat_map in Hx as (c & Hc & Hx). exists c. split; [done|].
      apply list_elem_of_In. apply IH; [|by apply list_elem_of_In|done].
      apply in_split in Hc as (l1 & l2 & E). rewrite E, flat_map_app in Hl. cbn [flat_map] in Hl. rewrite !length_app in Hl. lia.
Qed.

Lemma walk_inside v x : is_node v = true → inside x v → x ∈ walk v.
Proof.
  intros Hv Hx. rewrite walk_preorder by done. unfold inside in Hx. apply rtc_ind_r with (P := λ x, x ∈ preorder v) in Hx; [done| |].
  - rewrite preorder_children by done. left.
  - intros a b _ Hb Ha. by eapply preorder_trans.
Qed.

Lemma preorder_inside v x : x ∈ preorder v → inside x v.
Proof.
  enough (∀ n v, (length (preorder v) <= n)%nat → x ∈ preorder v → inside x v) by eauto.
  clear v. intros n. induction n as [|n IH]; intros v Hl Hx.
  - destruct (preorder v); [by apply elem_of_nil in Hx|cbn in Hl; lia].
  - assert (is_node v = true) as Hv by (destruct v; try done; by apply elem_of_nil in Hx).
    rewrite preorder_children in * by done. cbn in Hl. apply elem_of_cons in Hx as [->|Hx]; [apply rtc_refl|].
    apply list_elem_of_In, in_flat_map in Hx as (c & Hc & Hx). apply rtc_l with c; [by apply list_elem_of_In|].
    apply IH; [|by apply list_elem_of_In]. apply in_split in Hc as (l1 & l2 & E). rewrite E, flat_map_app in Hl.
    cbn [flat_map] in Hl. rewrite !length_app in Hl. lia.
Qed.

(** The walk of a tree visits exactly the nodes inside it. *)
Lemma elem_of_walk v x : is_node v = true → x ∈ walk v ↔ inside x v.
Proof.
  intros Hv. split; [|by apply walk_inside]. rewrite walk_preorder by done. apply preorder_inside.
Qed.
