(* ===== verification/SourceTree.v ===== *)
(** Source trees as the gates over the repository walk them: paths under a
    root, their order, and the texts of the files.  What [rglob] lists below a
    directory is a parameter. *)

From stdpp Require Import base list strings sorting.
From Stdlib Require Import ZArith Lia.
From S2P Require Import Prelude PyStr PyStrFacts PyText Host Evidence.

#[local] Open Scope Z_scope.

Definition in_list (s : string) (l : list string) : bool := bool_decide (s ∈ l).

(** [path.parts] *)
Definition path_parts (p : fs_path) : list string := if p_absolute p then "/" :: p_parts p else p_parts p.

Fixpoint strip_parts (root parts : list string) : option (list string) :=
  match root, parts with
  | [], _ => Some parts
  | x :: root, y :: parts => if String.eqb x y then strip_parts root parts else None
  | _ :: _, [] => None
  end.

(** [path.relative_to(root)] *)
Definition relative_to (p root : fs_path) : result fs_path :=
  match strip_parts (path_parts root) (path_parts p) with
  | Some parts => Ok (mkPath false parts)
  | None => value_error "is not in the subpath of"
  end.

(** The order of paths: their parts, one after the other. *)
Fixpoint parts_leb (a b : list string) : bool :=
  match a, b with
  | [], _ => true
  | _ :: _, [] => false
  | x :: a, y :: b => if String.eqb x y then parts_leb a b else String.leb x y
  end.
Definition path_le (p q : fs_path) : Prop := parts_leb (path_parts p) (path_parts q) = true.
#[export] Instance path_le_dec : RelDecision path_le.
Proof. intros p q. unfold path_le. apply _. Defined.

Definition sorted_paths (l : list fs_path) : list fs_path := merge_sort path_le l.

Lemma sorted_paths_perm l : sorted_paths l ≡ₚ l.
Proof. apply merge_sort_Permutation. Qed.

(** The files below some roots that a test accepts, in order. *)
Definition files_below (rglob : fs_path → list fs_path) (accept : fs_path → result bool) (roots : list fs_path) :
    result (list fs_path) := sorted_paths <$> filter_in accept (flat_map rglob roots).

Lemma filter_in_spec {A} (f : A → result bool) l k : filter_in f l = Ok k →
  Forall (λ a, is_ok (f a) = true) l ∧ k = List.filter (λ a, match f a with Ok b => b | _ => false end) l.
Proof.
  revert k. induction l as [|a l IH]; intros k; cbn [filter_in]; [by intros [= <-]|].
  intros (b & Hb & (k' & Hk & H)%bind_Ok)%bind_Ok. apply IH in Hk as [Hf ->]. injection H as <-.
  cbn [List.filter]. rewrite Hb. split; [constructor; [by rewrite Hb|done]|]. by destruct b.
Qed.

Lemma files_below_spec rglob accept roots l : files_below rglob accept roots = Ok l →
  ∀ p, p ∈ l ↔ (∃ root, root ∈ roots ∧ p ∈ rglob root) ∧ accept p = Ok true.
Proof.
  unfold files_below. destruct (filter_in _ _) as [k|] eqn:E; [|done]. intros [= <-] p.
  rewrite sorted_paths_perm. apply filter_in_spec in E as [Hf ->].
  rewrite list_elem_of_In, filter_In, in_flat_map. setoid_rewrite <-list_elem_of_In. split.
  - intros [H Ha]. split; [done|]. by destruct (accept p) as [[]|].
  - intros [H Ha]. split; [done|]. by rewrite Ha.
Qed.

Lemma strip_parts_spec root parts rest : strip_parts root parts = Some rest ↔ parts = root ++ rest.
Proof.
  revert parts. induction root as [|x root IH]; intros parts; cbn; [naive_solver|].
  destruct parts as [|y parts]; [done|]. destruct (String.eqb_spec x y) as [->|]; [|naive_solver].
  rewrite IH. naive_solver.
Qed.

Lemma relative_to_inj root p q r : p_absolute p = p_absolute q →
  relative_to p root = Ok r → relative_to q root = Ok r → p = q.
Proof.
  unfold relative_to. destruct (strip_parts _ _) as [a|] eqn:Ea; [|done]. destruct (strip_parts (path_parts root) (path_parts q)) as [b|] eqn:Eb; [|done].
  intros Habs [= <-] [= ->]. apply strip_parts_spec in Ea, Eb. destruct p as [[] p], q as [[] q]; unfold path_parts in *; cbn in *; congruence.
Qed.
