(* ===== verification/CodeQuality.v ===== *)
(** The function-quality baseline: [scripts/gates/code_quality_baseline.py].

    Functions of four languages are measured, and a baseline records those over
    the limits: the gate refuses new ones and ones that grow.  Parameters: the
    Python parser, SHA-256, the JSON codec, [repr], which characters above ASCII
    are word characters, and what [rglob] lists. *)

From stdpp Require Import base list strings sorting.
From Stdlib Require Import ZArith Lia Floats Ascii.
From S2P Require Import Prelude PyStr PyStrFacts PyDecimal PyTime PyJson PyText Host Effects Evidence PyRegex PyAst SourceTree.

#[local] Open Scope Z_scope.

(** [scripts/gates/code_quality_baseline.py:25-28] the suffixes, the excluded directories and the limits *)
Definition SUFFIX_LANGUAGE : list (string * string) :=
  [(".go", "go"); (".kt", "kotlin"); (".py", "python"); (".ts", "typescript"); (".tsx", "typescript")].
Definition EXCLUDED_PARTS : list string := ["__pycache__"; "generated"; "node_modules"].
Definition MAX_FUNCTION_LINES : Z := 60.
Definition MAX_COMPLEXITY : Z := 10.

(** [scripts/gates/code_quality_baseline.py:31-40] FunctionMetric *)
Record FunctionMetric : Type := mkMetric {
  key : string;
  path : string;
  language : string;
  name : string;
  start_line : Z;
  line_count : Z;
  complexity : Z;
  content_hash : string
}.

(** Orders of what is sorted. *)
Definition fst_le {V} (a b : string * V) : Prop := str_le a.1 b.1.
#[local] Instance fst_le_dec {V} : RelDecision (@fst_le V).
Proof. intros a b. unfold fst_le. apply _. Defined.

Definition key_le (a b : FunctionMetric) : Prop := str_le (key a) (key b).
#[local] Instance key_le_dec : RelDecision key_le.
Proof. intros a b. unfold key_le. apply _. Defined.

Definition worse (a b : FunctionMetric) : Prop :=
  complexity b < complexity a ∨ complexity a = complexity b ∧ line_count b <= line_count a.
#[local] Instance worse_dec : RelDecision worse.
Proof. intros a b. unfold worse. apply _. Defined.

(** ** Python sources *)

(** What one node adds to the complexity. *)
Definition python_decisions (child : ast) : Z :=
  if isinstance child ["If"; "For"; "AsyncFor"; "While"; "IfExp"; "comprehension"] then 1
  else if isinstance child ["BoolOp"] then Z.max 1 (Z.of_nat (length (ast_items (node_field child "values"))) - 1)
  else if isinstance child ["Try"] then
    Z.of_nat (length (ast_items (node_field child "handlers")))
    + (if Nat.ltb 0 (length (ast_items (node_field child "orelse"))) then 1 else 0)
  else if isinstance child ["Match"] then Z.max 0 (Z.of_nat (length (ast_items (node_field child "cases"))) - 1)
  else 0.

(** [scripts/gates/code_quality_baseline.py:94-105] python_complexity *)
Definition python_complexity (node : ast) : Z := foldl (λ complexity child, complexity + python_decisions child) 1 (walk node).

(** ** Braced languages *)

Section patterns.
Context (word_other : char → bool).

Definition identifier : regex := Seq (Cls (ascii_char (λ a, is_alpha a || Ascii.eqb a "_"))) (Rep (Cls (word_char word_other))).
Definition ts_identifier : regex :=
  Seq (Cls (ascii_char (λ a, is_alpha a || Ascii.eqb a "_" || Ascii.eqb a "$")))
    (Rep (Cls (λ x, word_char word_other x || is_char "$" x))).

(** [scripts/gates/code_quality_baseline.py:108-116] FUNCTION_PATTERNS *)
Definition FUNCTION_PATTERNS (language : string) : regex :=
  if String.eqb language "go" then
    seqs [text_start; spaces; lit "func"; plus space; opt (seqs [ch "("; Rep (none_of ")"); ch ")"; spaces]);
          Grp 1 identifier; spaces; ch "("]
  else if String.eqb language "kotlin" then
    seqs [text_start; spaces;
          Rep (Seq (alts (lit <$> ["public"; "private"; "protected"; "internal"; "open"; "override"; "suspend"; "inline";
                                   "operator"; "tailrec"])) (plus space));
          lit "fun"; plus space; opt (seqs [ch "<"; plus (none_of ">"); ch ">"; spaces]); Grp 1 identifier; spaces; ch "("]
  else
    seqs [text_start; spaces; Rep (Seq (alts (lit <$> ["export"; "default"; "async"])) (plus space));
          Alt (seqs [lit "function"; plus space; Grp 1 ts_identifier; spaces; ch "("])
              (seqs [alts [lit "const"; lit "let"]; plus space; Grp 2 ts_identifier; spaces; ch "="; Rep any_char; lit "=>"])].

(** [next(group for group in match.groups() if group)]: a name is never empty *)
Definition first_group (m : found) : string := default (default "" (group 2 m)) (group 1 m).

Definition LINE_COMMENT : regex := seqs [lit "//"; Rep any_char; text_end].
Definition quoted (q : ascii) : regex :=
  seqs [ch q; Rep (Alt (Seq (ch "\") any_char) (none_of (String q "\"))); ch q].

(** [scripts/gates/code_quality_baseline.py:173-175] strip_strings_and_comments *)
Definition strip_strings_and_comments (line : string) : string :=
  re_remove (alts [quoted QUOTE; quoted "'"; quoted "`"]) (re_remove LINE_COMMENT line).

Fixpoint count_char (a : ascii) (s : string) : Z :=
  match s with "" => 0 | String b s => (if Ascii.eqb a b then 1 else 0) + count_char a s end.

(** The lines from [index] on, for [find_braced_end]. *)
Fixpoint braced_end_from (rest : list string) (index : nat) (depth : Z) (opened : bool) : option nat :=
  match rest with
  | [] => None
  | raw :: rest =>
      let line := strip_strings_and_comments raw in
      let opened := opened || negb (count_char "{" line =? 0) in
      let depth := depth + count_char "{" line - count_char "}" line in
      if opened && (depth <=? 0) then Some index else braced_end_from rest (S index) depth opened
  end.

(** [scripts/gates/code_quality_baseline.py:159-170] find_braced_end *)
Definition find_braced_end (lines : list string) (start : nat) : option nat :=
  braced_end_from (drop start lines) start 0 false.

(** [(?<![=!<>])=(?!=)] *)
Definition ASSIGNMENT : regex :=
  seqs [not_behind (λ x, existsb (λ a, is_char a x) ["="; "!"; "<"; ">"]%char); ch "="; not_ahead (is_char "=")].

Fixpoint kotlin_end_from (lines : list string) (start : nat) (rest : list string) (index : nat) (paren_depth : Z)
    (expression_body : bool) : option nat :=
  match rest with
  | [] => None
  | raw :: rest =>
      let line := strip_strings_and_comments raw in
      if negb expression_body && has_char "{" line then find_braced_end lines start else
      let expression_body := expression_body || bool_decide (is_Some (re_search ASSIGNMENT line)) in
      let paren_depth := paren_depth + (count_char "(" line + count_char "[" line)
                         - (count_char ")" line + count_char "]" line) in
      let next_line := default "" (lstrip <$> head rest) in
      if expression_body && (paren_depth <=? 0) && negb (startswith "." next_line) then Some index
      else kotlin_end_from lines start rest (S index) paren_depth expression_body
  end.

(** [scripts/gates/code_quality_baseline.py:141-156] find_kotlin_function_end *)
Definition find_kotlin_function_end (lines : list string) (start : nat) : option nat :=
  kotlin_end_from lines start (drop start lines) start 0 false.

(** The tokens [lexical_complexity] counts. *)
Definition DECISION : regex :=
  alts [seqs [word_edge word_other; Grp 1 (alts (lit <$> ["if"; "for"; "while"; "case"; "catch"; "when"])); word_edge word_other];
        lit "&&"; lit "||"; lit "??"].

(** [scripts/gates/code_quality_baseline.py:178-181] lexical_complexity *)
Definition lexical_complexity (body : string) : Z :=
  let cleaned := join (String "010" "") (strip_strings_and_comments <$> splitlines body) in
  1 + Z.of_nat (length (re_finditer DECISION cleaned)).

(** ** Measuring *)

Context (sha256_hex : string → string) (parse : string → result ast) (py_repr : jval → string)
  (json_loads : string → result jval) (json_dumps : jval → string)
  (REPO_ROOT : fs_path) (rglob : fs_path → list fs_path).

Definition NEWLINE : string := String "010" "".

(** [scripts/gates/code_quality_baseline.py:184-204] build_metric *)
Definition build_metric (p : fs_path) (language name : string) (occurrence : Z) (start_line : Z) (body : string) (complexity : Z) :
    result FunctionMetric :=
  relative ← relative_to p REPO_ROOT;
  let relative_path := path_str relative in
  let normalized := strip (join NEWLINE (rstrip <$> splitlines body)) in
  Ok (mkMetric (relative_path +:+ "::" +:+ name +:+ "::" +:+ str_of_Z occurrence) relative_path language name start_line
        (Z.of_nat (length (splitlines body))) complexity (string_take 16 (sha256_hex normalized))).

(** [occurrences[name] += 1] *)
Definition occurrence_of (occurrences : list (string * Z)) (name : string) : Z := default 0 (dict_get occurrences name) + 1.

(** One node of the walk in [scan_python]. *)
Definition scan_python_node (p : fs_path) (lines : list string) (s : list (string * Z) * list FunctionMetric) (node : ast) :
    result (list (string * Z) * list FunctionMetric) :=
  let '(occurrences, metrics) := s in
  if negb (isinstance node ["FunctionDef"; "AsyncFunctionDef"]) then Ok s else
  match node_end_lineno node with
  | None => Ok s
  | Some end_lineno =>
      let name := ast_str (node_field node "name") in
      let n := occurrence_of occurrences name in
      let first := Z.to_nat (node_lineno node - 1) in
      let body := join NEWLINE (take (Z.to_nat end_lineno - first) (drop first lines)) in
      metric ← build_metric p "python" name n (node_lineno node) body (python_complexity node);
      Ok (dict_set occurrences name n, metrics ++ [metric])
  end.

(** [scripts/gates/code_quality_baseline.py:78-91] scan_python *)
Definition scan_python (p : fs_path) (text : string) : result (list FunctionMetric) :=
  tree ← parse text;
  s ← for_in (scan_python_node p (splitlines text)) ([], []) (walk tree);
  Ok s.2.

Definition function_end (language : string) (lines : list string) (index : nat) : option nat :=
  if String.eqb language "kotlin" then find_kotlin_function_end lines index else find_braced_end lines index.

(** The loop of [scan_braced_language]; the index grows in every round. *)
Fixpoint scan_lines (fuel : nat) (p : fs_path) (language : string) (lines : list string) (index : nat)
    (occurrences : list (string * Z)) : result (list FunctionMetric) :=
  match fuel, lines !! index with
  | S fuel, Some line =>
      match re_search (FUNCTION_PATTERNS language) line with
      | None => scan_lines fuel p language lines (S index) occurrences
      | Some m =>
          let name := first_group m in
          match function_end language lines index with
          | None => scan_lines fuel p language lines (S index) occurrences
          | Some end_ =>
              let n := occurrence_of occurrences name in
              let body := join NEWLINE (take (S end_ - index) (drop index lines)) in
              metric ← build_metric p language name n (Z.of_nat index + 1) body (lexical_complexity body);
              rest ← scan_lines fuel p language lines (S end_) (dict_set occurrences name n);
              Ok (metric :: rest)
          end
      end
  | _, _ => Ok []
  end.

(** [scripts/gates/code_quality_baseline.py:119-138] scan_braced_language *)
Definition scan_braced_language (p : fs_path) (text language : string) : result (list FunctionMetric) :=
  let lines := splitlines text in scan_lines (length lines) p language lines 0 [].

(** [scripts/gates/code_quality_baseline.py:18-24] SOURCE_ROOTS *)
Definition SOURCE_ROOTS : list fs_path :=
  path_div REPO_ROOT <$> ["backend"; "gcs-dashboard/src"; "services/auth-policy/src/main"; "services/media-control/cmd";
                          "services/media-control/internal"].

(** [scripts/gates/code_quality_baseline.py:55-64] is_test_source *)
Definition is_test_source (p : fs_path) : bool :=
  let name := path_name p in
  String.eqb name "setupTests.ts" || String.eqb name "setupTests.tsx" || in_list "tests" (path_parts p)
  || in_list "test" (path_parts p) || contains ".test." name || contains "_test." name || endswith "Test.kt" name.

(** [scripts/gates/code_quality_baseline.py:43-52] production_sources: the test of one path, and the list *)
Definition is_production_source (fs : files) (p : fs_path) : result bool :=
  is_file ← fs_is_file fs p;
  Ok (is_file && dict_has SUFFIX_LANGUAGE (path_suffix p)
      && negb (existsb (λ part, in_list part EXCLUDED_PARTS) (path_parts p)) && negb (is_test_source p)).
Definition production_sources (fs : files) : result (list fs_path) := files_below rglob (is_production_source fs) SOURCE_ROOTS.

Definition scan_file (fs : files) (p : fs_path) : result (list FunctionMetric) :=
  text ← fs_text fs p;
  if String.eqb (path_suffix p) ".py" then scan_python p text
  else scan_braced_language p text (default "" (dict_get SUFFIX_LANGUAGE (path_suffix p))).

(** [scripts/gates/code_quality_baseline.py:67-75] scan_functions *)
Definition scan_functions (fs : files) : result (list FunctionMetric) :=
  sources ← production_sources fs;
  metrics ← mapM (scan_file fs) sources;
  Ok (concat metrics).

(** ** The baseline *)

(** [scripts/gates/code_quality_baseline.py:17] BASELINE_PATH *)
Definition BASELINE_PATH : fs_path := path_div REPO_ROOT "scripts/gates/code_quality_baseline.json".

(** [scripts/gates/code_quality_baseline.py:220-221] is_offender *)
Definition is_offender (metric : FunctionMetric) : bool :=
  (MAX_FUNCTION_LINES <? line_count metric) || (MAX_COMPLEXITY <? complexity metric).

(** [Counter] of the languages. *)
Definition count_languages (metrics : list FunctionMetric) : list (string * Z) :=
  foldl (λ d metric, dict_set d (language metric) (default 0 (dict_get d (language metric)) + 1)) [] metrics.

Definition max_of (l : list Z) : Z := match l with [] => 0 | x :: l => foldl Z.max x l end.
Definition count_where (f : FunctionMetric → bool) (metrics : list FunctionMetric) : Z := Z.of_nat (length (List.filter f metrics)).

(** [scripts/gates/code_quality_baseline.py:224-235] summarize *)
Definition summarize (metrics : list FunctionMetric) : jval :=
  JObj [("functionCount", JInt (Z.of_nat (length metrics)));
        ("functionCountByLanguage", JObj (map (λ kv, (kv.1, JInt kv.2)) (merge_sort fst_le (count_languages metrics))));
        ("longFunctionCount", JInt (count_where (λ metric, MAX_FUNCTION_LINES <? line_count metric) metrics));
        ("complexFunctionCount", JInt (count_where (λ metric, MAX_COMPLEXITY <? complexity metric) metrics));
        ("maxFunctionLines", JInt (max_of (map line_count metrics)));
        ("maxComplexity", JInt (max_of (map complexity metrics)))].

(** What the baseline holds of an offender. *)
Definition metric_entry (metric : FunctionMetric) : jval :=
  JList [JStr (content_hash metric); JInt (line_count metric); JInt (complexity metric)].

(** A dict comprehension: a later metric of the same key replaces an earlier one. *)
Definition by_key {V} (f : FunctionMetric → V) (metrics : list FunctionMetric) : list (string * V) :=
  foldl (λ d metric, dict_set d (key metric) (f metric)) [] metrics.

(** [scripts/gates/code_quality_baseline.py:207-217] baseline_payload *)
Definition baseline_payload (metrics : list FunctionMetric) : jval :=
  JObj [("schemaVersion", JInt 1);
        ("limits", JObj [("maxFunctionLines", JInt MAX_FUNCTION_LINES); ("maxComplexity", JInt MAX_COMPLEXITY)]);
        ("summary", summarize metrics);
        ("functions", JObj (by_key metric_entry (merge_sort key_le (List.filter is_offender metrics))))].

Definition where_ (metric : FunctionMetric) : string := path metric +:+ ":" +:+ str_of_Z (start_line metric).

(** One current offender against the recorded ones. *)
Definition offender_violation (previous : jval) (metric : FunctionMetric) : result (list string) :=
  old ← j_get previous (key metric);
  Ok (match old with
      | JNull => [where_ metric +:+ " new or changed function " +:+ name metric +:+ " exceeds the strict quality limits"]
      | _ => if py_eq old (metric_entry metric) then []
             else [where_ metric +:+ " offender baseline is stale for " +:+ name metric
                   +:+ "; refactor it before updating the baseline"]
      end).

(** [scripts/gates/code_quality_baseline.py:238-260] check_baseline: against the recorded baseline.  Keys of the
    baseline are texts. *)
Definition check_recorded (payload : jval) (metrics : list FunctionMetric) : result (list string) :=
  previous ← j_getitem payload "functions";
  let current_offenders := by_key id (List.filter is_offender metrics) in
  violations ← mapM (λ kv, offender_violation previous kv.2) current_offenders;
  recorded ← j_set previous;
  keys ← mapM as_str recorded;
  let stale_keys := List.filter (λ k, negb (dict_has current_offenders k)) keys in
  summary ← j_getitem payload "summary";
  Ok (concat violations
      ++ (if Nat.ltb 0 (length stale_keys)
          then ["quality baseline contains " +:+ str_of_Z (Z.of_nat (length stale_keys))
                +:+ " resolved functions; regenerate it to lock in the reduction"] else [])
      ++ (if py_eq (summarize metrics) summary then []
          else ["quality baseline summary does not match the current source inventory"])).

Definition SUMMARY_FIELDS : list string := ["longFunctionCount"; "complexFunctionCount"; "maxFunctionLines"; "maxComplexity"].

Definition field_violation (current_summary reference_summary : jval) (reference_ref field : string) : result (list string) :=
  c ← j_getitem current_summary field;
  r ← j_getitem reference_summary field;
  grew ← j_lt r c;
  Ok (if grew : bool
      then ["quality baseline increased from " +:+ reference_ref +:+ ": " +:+ field +:+ " " +:+ py_str py_repr r
            +:+ " -> " +:+ py_str py_repr c] else []).

(** [metric[i] > old[i]] *)
Definition grew_at (i : nat) (metric old : jval) : result bool := c ← j_index metric i; r ← j_index old i; j_lt r c.

Definition entry_violation (reference_functions : jval) (reference_ref : string) (kv : string * jval) : result (list string) :=
  old ← j_get reference_functions kv.1;
  match old with
  | JNull => Ok ["new baseline offender is prohibited: " +:+ kv.1]
  | _ =>
      grew ← or_r (grew_at 1 kv.2 old) (grew_at 2 kv.2 old);
      Ok (if grew : bool then ["baseline offender grew from " +:+ reference_ref +:+ ": " +:+ kv.1] else [])
  end.

(** [v.items()] *)
Definition j_dict (v : jval) : result (list (string * jval)) :=
  match v with JObj d => Ok d | _ => throw ExcAttributeError "items" end.

(** [scripts/gates/code_quality_baseline.py:282-302] compare_reference_baseline *)
Definition compare_reference_baseline (current reference : jval) (reference_ref : string) : result (list string) :=
  current_summary ← j_getitem current "summary";
  reference_summary ← j_getitem reference "summary";
  fields ← mapM (field_violation current_summary reference_summary reference_ref) SUMMARY_FIELDS;
  reference_functions ← j_getitem reference "functions";
  functions ← j_getitem current "functions";
  items ← j_dict functions;
  entries ← mapM (entry_violation reference_functions reference_ref) items;
  Ok (concat fields ++ concat entries).

(** ** The command *)

Section command.
Context (w : world) (fs : history → files).

(** [scripts/gates/code_quality_baseline.py:268-279] load_reference_baseline *)
Definition load_reference_baseline (reference_ref : string) : eff (option jval) :=
  '(returncode, stdout) ← execute w ["git"; "show"; reference_ref +:+ ":scripts/gates/code_quality_baseline.json"];
  if negb (returncode =? 0) then mret None else
  reference ← lift (json_loads stdout);
  mret (Some reference).

(** [scripts/gates/code_quality_baseline.py:238-265] check_baseline *)
Definition check_baseline (metrics : list FunctionMetric) (reference_ref : option string) : eff (list string) :=
  payload ← reading fs (λ fs, text ← fs_text fs BASELINE_PATH; json_loads text);
  violations ← lift (check_recorded payload metrics);
  let ref := default "" reference_ref in
  if is_empty ref then mret violations else
  reference ← load_reference_baseline ref;
  match reference with
  | None => mret violations
  | Some reference =>
      grown ← lift (compare_reference_baseline payload reference ref);
      mret (violations ++ grown)
  end.

Definition report_line (metric : FunctionMetric) : string :=
  where_ metric +:+ " " +:+ name metric +:+ " lines=" +:+ str_of_Z (line_count metric) +:+ " complexity="
  +:+ str_of_Z (complexity metric).

(** [scripts/gates/code_quality_baseline.py:305-315] print_report: offenders by complexity and length, descending *)
Definition print_report (metrics : list FunctionMetric) : eff () :=
  _ ← print (summarize metrics);
  for_each (λ metric, print (JStr (report_line metric))) (merge_sort worse (List.filter is_offender metrics)).

(** [scripts/gates/code_quality_baseline.py:318-343] main, from the parsed arguments *)
Definition main (write_baseline check : bool) (reference_ref : option string) : eff Z :=
  metrics ← reading fs scan_functions;
  if write_baseline then
    _ ← create w BASELINE_PATH (JStr (json_dumps (baseline_payload metrics) +:+ NEWLINE));
    _ ← print (JStr ("wrote code quality baseline for " +:+ str_of_Z (Z.of_nat (length metrics)) +:+ " functions"));
    mret 0
  else if check then
    present ← reading fs (λ fs, Ok (fs_exists fs BASELINE_PATH));
    if negb present then _ ← print (JStr "code quality baseline is missing"); mret 1 else
    violations ← check_baseline metrics reference_ref;
    if Nat.ltb 0 (length violations) then _ ← print (JStr (join NEWLINE violations)); mret 1 else
    _ ← print (JStr ("code quality baseline contract passed for " +:+ str_of_Z (Z.of_nat (length metrics)) +:+ " functions"));
    mret 0
  else _ ← print_report metrics; mret 0.
End command.
End patterns.

(** ** Keys *)

Definition no_colon (s : string) : Prop := has_char ":" s = false.

Lemma last_colon x s y t : no_colon s → no_colon t → x +:+ String ":" s = y +:+ String ":" t → x = y ∧ s = t.
Proof.
  intros Hs Ht H. apply (f_equal (split_on ":")) in H. rewrite !split_on_app, !(split_on_free _ _ Hs), !(split_on_free _ _ Ht) in H.
  apply app_inj_tail in H as [Hx ->]. split; [|done]. by rewrite <-(split_on_join ":" x), Hx, split_on_join.
Qed.

Definition make_key (relative name : string) (occurrence : Z) : string :=
  relative +:+ "::" +:+ name +:+ "::" +:+ str_of_Z occurrence.

Lemma str_of_Z_no_colon n : no_colon (str_of_Z n).
Proof.
  unfold no_colon. rewrite str_of_Z_sign, has_char_app. apply orb_false_iff. split; [by destruct (n <? 0)|].
  apply (has_char_forall is_digit); [apply pretty_N_digits|done].
Qed.

Lemma str_of_Z_inj m n : str_of_Z m = str_of_Z n → m = n.
Proof. apply (inj pretty). Qed.

Lemma make_key_inj p q a b m n : no_colon a → no_colon b → make_key p a m = make_key q b n → p = q ∧ a = b ∧ m = n.
Proof.
  intros Ha Hb. unfold make_key. set (colons := "::"). assert (colons = String ":" "" +:+ String ":" "") as Hc by done. clearbody colons.
  assert (∀ x y z, x +:+ colons +:+ y +:+ colons +:+ z = ((((x +:+ String ":" "") +:+ String ":" y) +:+ String ":" "") +:+ String ":" z)) as E.
  { intros x y z. subst colons. by rewrite !app_assoc_str. }
  rewrite !E. intros H.
  apply last_colon in H as [H ->%str_of_Z_inj]; [|apply str_of_Z_no_colon..].
  apply last_colon in H as [H _]; [|done..]. apply last_colon in H as [H ->]; [|done..].
  apply last_colon in H as [-> _]; done.
Qed.

(** The counter of occurrences goes up. *)
Lemma occurrence_after occurrences name n other : occurrence_of occurrences name = n →
  occurrence_of (dict_set occurrences name n) other = if decide (other = name) then n + 1 else occurrence_of occurrences other.
Proof.
  intros <-. unfold occurrence_of at 1. destruct (decide (other = name)) as [->|Hne].
  - by rewrite dict_get_set_eq.
  - by rewrite dict_get_set_ne.
Qed.

(** The keys one file gives from some counts on: colon-free names, each numbered from its count up. *)
Definition numbered (relative : string) (occurrences : list (string * Z)) (metrics : list FunctionMetric) : Prop :=
  ∃ ids : list (string * Z), map key metrics = map (λ id, make_key relative id.1 id.2) ids ∧ NoDup ids
    ∧ Forall (λ id, no_colon id.1 ∧ occurrence_of occurrences id.1 <= id.2) ids.

Lemma numbered_nil relative occurrences : numbered relative occurrences [].
Proof. exists []. split_and!; [done|constructor|constructor]. Qed.

Lemma numbered_cons relative occurrences name n metric metrics :
  no_colon name → occurrence_of occurrences name = n → key metric = make_key relative name n →
  numbered relative (dict_set occurrences name n) metrics → numbered relative occurrences (metric :: metrics).
Proof.
  intros Hn Ho Hk (ids & Hids & Hnd & Hf). exists ((name, n) :: ids). split_and!.
  - cbn. by rewrite Hk, Hids.
  - constructor; [|done]. intros Hin. rewrite Forall_forall in Hf. destruct (Hf _ Hin) as [_ Hle]. cbn in Hle.
    rewrite (occurrence_after _ _ _ _ Ho), decide_True in Hle by done. lia.
  - constructor; [cbn; split; [done|lia]|]. eapply Forall_impl; [exact Hf|]. intros [a m] [Ha Hle]. cbn in *. split; [done|].
    rewrite (occurrence_after _ _ _ _ Ho) in Hle. destruct (decide (a = name)) as [->|]; lia.
Qed.

Lemma numbered_NoDup relative occurrences metrics : numbered relative occurrences metrics → NoDup (map key metrics).
Proof.
  intros (ids & -> & Hnd & Hf). apply NoDup_fmap_2_strong; [|done]. intros [a m] [b n] Ha Hb E. cbn in E.
  rewrite Forall_forall in Hf. apply make_key_inj in E as (_ & -> & ->); [done|apply (Hf _ Ha)|apply (Hf _ Hb)].
Qed.

Lemma numbered_key relative occurrences metrics k : numbered relative occurrences metrics → k ∈ map key metrics →
  ∃ a n, no_colon a ∧ k = make_key relative a n.
Proof.
  intros (ids & -> & _ & Hf) ([a n] & -> & Hin)%list_elem_of_fmap. rewrite Forall_forall in Hf. exists a, n. split; [apply (Hf _ Hin)|done].
Qed.

Section scanning.
Context (word_other : char → bool) (sha256_hex : string → string) (parse : string → result ast)
  (REPO_ROOT : fs_path) (rglob : fs_path → list fs_path).

(** What the code relies on: word characters above ASCII hold no colon, and the
    parser's function names are identifiers. *)
Hypothesis word_other_plain : ∀ x, word_other x = true → has_char ":" x = false.
Hypothesis parse_names : ∀ text tree node, parse text = Ok tree → node ∈ walk tree → no_colon (ast_str (node_field node "name")).

Local Notation build_metric := (build_metric sha256_hex REPO_ROOT).
Local Notation FUNCTION_PATTERNS := (FUNCTION_PATTERNS word_other).

(** [str(path.relative_to(REPO_ROOT))] *)
Definition relative_name (p : fs_path) : string := match relative_to p REPO_ROOT with Ok r => path_str r | Raise _ => "" end.

Lemma build_metric_key p language name n start body c metric : build_metric p language name n start body c = Ok metric →
  key metric = make_key (relative_name p) name n ∧ path metric = relative_name p
  ∧ start_line metric = start ∧ line_count metric = Z.of_nat (length (splitlines body)) ∧ complexity metric = c.
Proof. intros (r & Hr & [= <-])%bind_Ok. unfold relative_name. by rewrite Hr. Qed.

Lemma text_no_colon l : Forall (λ x, has_char ":" x = false) l → no_colon (text_of_chars l).
Proof.
  unfold no_colon. induction 1 as [|x l Hx _ IH]; [done|]. change (has_char ":" (x +:+ text_of_chars l) = false).
  by rewrite has_char_app, Hx, IH.
Qed.

Lemma ascii_char_plain P x : ascii_char P x = true → P ":"%char = false → has_char ":" x = false.
Proof.
  destruct x as [|a [|]]; try done. cbn [ascii_char has_char]. intros Ha Hc.
  destruct (Ascii.eqb_spec a ":") as [->|]; [congruence|done].
Qed.

Lemma word_char_plain x : word_char word_other x = true → has_char ":" x = false.
Proof using word_other_plain.
  destruct x as [|a [|b s]]; [done| |apply word_other_plain]. intros H.
  by apply (ascii_char_plain (λ a, is_alnum a || Ascii.eqb a "_")).
Qed.

Lemma identifier_only : only (λ x, has_char ":" x = false) (identifier word_other).
Proof using word_other_plain. split; cbn; intros x Hx; [by eapply ascii_char_plain|by apply word_char_plain]. Qed.

Lemma ts_identifier_only : only (λ x, has_char ":" x = false) (ts_identifier word_other).
Proof using word_other_plain.
  split; cbn; intros x Hx; [by eapply ascii_char_plain|]. apply orb_true_iff in Hx as [Hx|Hx]; [by apply word_char_plain|].
  apply String.eqb_eq in Hx. by subst.
Qed.

Lemma pattern_groups language : groups_only (λ x, has_char ":" x = false) (FUNCTION_PATTERNS language).
Proof using word_other_plain.
  pose proof identifier_only. pose proof ts_identifier_only. unfold CodeQuality.FUNCTION_PATTERNS.
  destruct (String.eqb _ "go"); [|destruct (String.eqb _ "kotlin")]; cbn; repeat split; try done; first [apply H|apply H0].
Qed.

Lemma first_group_no_colon language line m : re_search (FUNCTION_PATTERNS language) line = Some m → no_colon (first_group m).
Proof using word_other_plain.
  intros H. assert (∀ n s, group n m = Some s → no_colon s) as Hg.
  { intros n s Hs. destruct (group_only _ _ _ _ _ _ (pattern_groups language) H Hs) as (l & -> & Hl). by apply text_no_colon. }
  unfold first_group. destruct (group 1 m) eqn:E1; cbn; [by eapply Hg|]. destruct (group 2 m) eqn:E2; cbn; [by eapply Hg|done].
Qed.

Lemma scan_lines_numbered p language lines fuel : ∀ index occurrences metrics,
  scan_lines word_other sha256_hex REPO_ROOT fuel p language lines index occurrences = Ok metrics →
  numbered (relative_name p) occurrences metrics.
Proof using word_other_plain.
  induction fuel as [|fuel IH]; intros index occurrences metrics; cbn [scan_lines].
  { intros [= <-]. apply numbered_nil. }
  destruct (lines !! index) as [line|]; [|intros [= <-]; apply numbered_nil].
  destruct (re_search _ line) as [m|] eqn:Em; [|apply IH]. destruct (function_end language lines index) as [e|]; [|apply IH].
  intros (metric & Hm & (rest & Hrest & [= <-])%bind_Ok)%bind_Ok. apply build_metric_key in Hm as (Hk & _).
  eapply numbered_cons; [by eapply first_group_no_colon|reflexivity|done|]. by apply IH in Hrest.
Qed.

Lemma scan_python_numbered p lines nodes : (∀ node, node ∈ nodes → no_colon (ast_str (node_field node "name"))) →
  ∀ occurrences before s, for_in (scan_python_node sha256_hex REPO_ROOT p lines) (occurrences, before) nodes = Ok s →
  ∃ metrics, s.2 = before ++ metrics ∧ numbered (relative_name p) occurrences metrics.
Proof.
  induction nodes as [|node nodes IH]; intros Hn occurrences before s; cbn [for_in].
  { intros [= <-]. exists []. split; [by rewrite app_nil_r|apply numbered_nil]. }
  assert (∀ node, node ∈ nodes → no_colon (ast_str (node_field node "name"))) as Hns by (intros; apply Hn; by right).
  intros (s1 & H1 & H)%bind_Ok. unfold scan_python_node in H1.
  destruct (negb _); [injection H1 as <-; by apply IH in H|].
  destruct (node_end_lineno node); [|injection H1 as <-; by apply IH in H].
  apply bind_Ok in H1 as (metric & Hm & [= <-]). apply build_metric_key in Hm as (Hk & _).
  apply IH in H as (metrics & Hs & Hnum); [|done].
  exists (metric :: metrics). split; [by rewrite Hs, <-app_assoc|].
  eapply numbered_cons; [apply Hn; left|reflexivity|done|done].
Qed.

Lemma scan_file_numbered fs p metrics : scan_file word_other sha256_hex parse REPO_ROOT fs p = Ok metrics →
  numbered (relative_name p) [] metrics.
Proof using word_other_plain parse_names.
  intros (text & _ & H)%bind_Ok. destruct (String.eqb _ _); [|by apply scan_lines_numbered in H].
  apply bind_Ok in H as (tree & Ht & (s & Hs & [= <-])%bind_Ok).
  apply scan_python_numbered in Hs as (ms & -> & Hn); [done|]. intros node. by apply parse_names with text.
Qed.

(** Paths as [pathlib] lists them below a directory: no part is empty, a dot or holds a slash. *)
Definition listed (root p : fs_path) : Prop :=
  ∃ rest, rest ≠ [] ∧ p = mkPath (p_absolute root) (p_parts root ++ rest)
    ∧ Forall (λ part, part ≠ "" ∧ part ≠ "." ∧ has_char "/" part = false) rest.

Hypothesis rglob_lists : ∀ root p, p ∈ rglob root → listed root p.
Hypothesis rglob_once : ∀ root, NoDup (rglob root).

Definition below_root (parts : list string) : fs_path := mkPath (p_absolute REPO_ROOT) (p_parts REPO_ROOT ++ parts).

Lemma source_roots_parts : SOURCE_ROOTS REPO_ROOT =
  below_root <$> [["backend"]; ["gcs-dashboard"; "src"]; ["services"; "auth-policy"; "src"; "main"];
                  ["services"; "media-control"; "cmd"]; ["services"; "media-control"; "internal"]].
Proof. reflexivity. Qed.

Definition plain_parts (parts : list string) : Prop := Forall (λ part, part ≠ "" ∧ part ≠ "." ∧ has_char "/" part = false) parts.

Lemma below_root_relative parts : relative_to (below_root parts) REPO_ROOT = Ok (mkPath false parts).
Proof.
  unfold relative_to. assert (strip_parts (path_parts REPO_ROOT) (path_parts (below_root parts)) = Some parts) as ->; [|done].
  apply strip_parts_spec. unfold path_parts, below_root. cbn. by destruct (p_absolute REPO_ROOT).
Qed.

Lemma relative_name_inj parts parts' : plain_parts parts → plain_parts parts' → parts ≠ [] → parts' ≠ [] →
  relative_name (below_root parts) = relative_name (below_root parts') → parts = parts'.
Proof.
  unfold relative_name. rewrite !below_root_relative. unfold path_str. cbn [p_absolute p_parts]. intros Hp Hq Hne Hne' H.
  assert (∀ l, plain_parts l → l ≠ [] → split_on "/" (join "/" l) = l) as Hs.
  { intros l Hl Hl'. apply split_join_plain; [done|]. intros s Hs.
    unfold plain_parts in Hl. rewrite Forall_forall in Hl. by apply Hl. }
  destruct parts as [|x l]; [done|]. destruct parts' as [|y k]; [done|].
  etrans; [symmetry; by apply Hs|]. etrans; [exact (f_equal (split_on "/") H)|by apply Hs].
Qed.

Lemma listed_below root_parts p : listed (below_root root_parts) p → plain_parts root_parts →
  ∃ rest, rest ≠ [] ∧ plain_parts (root_parts ++ rest) ∧ p = below_root (root_parts ++ rest).
Proof.
  intros (rest & Hne & -> & Hf) Hp. exists rest. split_and!; [done|by apply Forall_app|]. unfold below_root. cbn. by rewrite app_assoc.
Qed.

Lemma flat_map_bind {A B} (f : A → list B) l : flat_map f l = l ≫= f.
Proof. induction l as [|a l IH]; [done|]. cbn. by rewrite IH. Qed.

Lemma below_root_inj parts parts' : below_root parts = below_root parts' → parts = parts'.
Proof. intros [= H]. by apply app_inv_head in H. Qed.

(** The sources have distinct names below the repository. *)
Lemma sources_NoDup fs l : production_sources REPO_ROOT rglob fs = Ok l → NoDup (map relative_name l).
Proof using rglob_lists rglob_once.
  unfold production_sources, files_below. destruct (filter_in _ _) as [k|] eqn:E; [|done]. intros [= <-].
  apply filter_in_spec in E as [_ ->]. set (f := λ a, _).
  assert (NoDup (flat_map rglob (SOURCE_ROOTS REPO_ROOT))) as Hnd.
  { rewrite flat_map_bind, source_roots_parts. apply NoDup_bind; [|done|].
    - intros x1 x2 y H1 H2 Hy1 Hy2. apply rglob_lists in Hy1, Hy2.
      apply list_elem_of_fmap in H1 as (p1 & -> & H1). apply list_elem_of_fmap in H2 as (p2 & -> & H2).
      destruct Hy1 as (r1 & _ & -> & _), Hy2 as (r2 & _ & Hy & _). injection Hy as Hy. rewrite <-!app_assoc in Hy.
      apply app_inv_head in Hy. rewrite !elem_of_cons in H1, H2.
      destruct_or? H1; destruct_or? H2; subst; try done; by apply elem_of_nil in H1 || by apply elem_of_nil in H2.
    - apply NoDup_fmap_2; [intros ? ?; apply below_root_inj|]. apply (bool_decide_unpack _). vm_compute. exact I. }
  assert (∀ p, p ∈ sorted_paths (List.filter f (flat_map rglob (SOURCE_ROOTS REPO_ROOT))) →
            ∃ parts, parts ≠ [] ∧ plain_parts parts ∧ p = below_root parts) as Hb.
  { intros p. rewrite sorted_paths_perm, list_elem_of_In, filter_In, source_roots_parts. intros [H _].
    apply in_flat_map in H as (root & Hroot & H). apply list_elem_of_In in Hroot, H. apply rglob_lists in H.
    apply list_elem_of_fmap in Hroot as (rp & -> & Hrp). apply listed_below in H as (rest & Hne & Hp & ->).
    - exists (rp ++ rest). split_and!; try done. intros [_ ?]%app_eq_nil. done.
    - assert (Forall plain_parts [["backend"]; ["gcs-dashboard"; "src"]; ["services"; "auth-policy"; "src"; "main"];
                  ["services"; "media-control"; "cmd"]; ["services"; "media-control"; "internal"]]) as Hall
        by (repeat constructor; done).
      rewrite Forall_forall in Hall. by apply Hall. }
  apply NoDup_fmap_2_strong.
  - intros p q Hp Hq H. apply Hb in Hp as (a & ? & ? & ->). apply Hb in Hq as (b & ? & ? & ->).
    f_equal. by apply relative_name_inj.
  - rewrite sorted_paths_perm. apply NoDup_ListNoDup, List.NoDup_filter, NoDup_ListNoDup, Hnd.
Qed.

(** The functions of all sources have distinct keys. *)
Lemma scan_functions_keys fs metrics :
  scan_functions word_other sha256_hex parse REPO_ROOT rglob fs = Ok metrics → NoDup (map key metrics).
Proof using word_other_plain parse_names rglob_lists rglob_once.
  intros (l & Hl%sources_NoDup & (ms & Hms%mapM_Ok & [= <-])%bind_Ok)%bind_Ok.
  induction Hms as [|p m l ms Hm Hms IH]; [constructor|]. cbn [map concat] in *. rewrite map_app.
  apply NoDup_cons in Hl as [Hp Hl]. apply scan_file_numbered in Hm.
  apply NoDup_app. split_and!; [by eapply numbered_NoDup| |by apply IH].
  intros k Hk Hk'. destruct (numbered_key _ _ _ _ Hm Hk) as (a & n & Ha & ->).
  apply list_elem_of_fmap in Hk' as (metric & Hk' & Hin). apply list_elem_of_In, in_concat in Hin as (m' & Hm' & Hin).
  apply list_elem_of_In in Hm', Hin. apply list_elem_of_lookup in Hm' as [j Hj].
  destruct (Forall2_lookup_r _ _ _ _ _ Hms Hj) as (q & Hq & Hscan). apply scan_file_numbered in Hscan.
  destruct (numbered_key _ _ _ (key metric) Hscan) as (b & n' & Hb & Hk''); [by apply list_elem_of_fmap_2|].
  rewrite Hk'' in Hk'. apply make_key_inj in Hk' as (Hpq & _); [|done..]. apply Hp. rewrite Hpq.
  apply list_elem_of_fmap_2. by eapply list_elem_of_lookup_2.
Qed.
End scanning.

(** ** The recorded baseline *)

Lemma by_key_NoDup {V} (f : FunctionMetric → V) metrics : NoDup (map key metrics) →
  by_key f metrics = map (λ m, (key m, f m)) metrics.
Proof.
  intros H. assert (∀ d, foldl (λ d m, dict_set d (key m) (f m)) d metrics
    = foldl (λ d p, dict_set d p.1 p.2) d (map (λ m, (key m, f m)) metrics)) as E.
  { clear H. induction metrics as [|m metrics IH]; intros d; [done|]. apply IH. }
  unfold by_key. rewrite E, foldl_dict_set_NoDup; [done|].
  cbn. rewrite <-list_fmap_compose. exact H.
Qed.

Lemma by_key_wf {V} (f : FunctionMetric → V) metrics : NoDup (by_key f metrics).*1.
Proof.
  unfold by_key. assert (NoDup (@nil (string * V)).*1) as H by constructor. revert H. generalize (@nil (string * V)).
  induction metrics as [|m metrics IH]; intros d Hd; [done|]. cbn [foldl]. apply IH. by apply dict_set_wf.
Qed.

Definition offenders (metrics : list FunctionMetric) : list FunctionMetric := List.filter is_offender metrics.

Lemma elem_of_offenders metrics m : m ∈ offenders metrics ↔ m ∈ metrics ∧ is_offender m = true.
Proof. unfold offenders. by rewrite !list_elem_of_In, filter_In. Qed.

Lemma offenders_NoDup metrics : NoDup (map key metrics) → NoDup (map key (offenders metrics)).
Proof.
  unfold offenders. induction metrics as [|m metrics IH]; [done|]. intros [Hm H]%NoDup_cons. cbn.
  destruct (is_offender m); [|by apply IH]. constructor; [|by apply IH]. intros Hin. apply Hm.
  apply list_elem_of_fmap in Hin as (m' & -> & [Hin _]%elem_of_offenders). by apply list_elem_of_fmap_2.
Qed.

(** The functions part of a written baseline: the entries of the offenders, by key. *)
Lemma written_functions metrics : NoDup (map key metrics) →
  ∃ d, by_key metric_entry (merge_sort key_le (offenders metrics)) = d ∧ NoDup d.*1
    ∧ ∀ k v, dict_get d k = Some v ↔ ∃ m, m ∈ offenders metrics ∧ k = key m ∧ v = metric_entry m.
Proof.
  intros H. eexists. split; [reflexivity|]. assert (NoDup (map key (merge_sort key_le (offenders metrics)))) as Hs.
  { rewrite (Permutation_map key (merge_sort_Permutation key_le (offenders metrics))). by apply offenders_NoDup. }
  split; [apply by_key_wf|]. rewrite by_key_NoDup by done. intros k v. split.
  - intros Hk%dict_get_elem. apply list_elem_of_fmap in Hk as (m & [= -> ->] & Hin). rewrite merge_sort_Permutation in Hin. eauto.
  - intros (m & Hin & -> & ->). apply dict_elem_get.
    + unfold dict_wf, dict_keys. by rewrite <-list_fmap_compose.
    + apply list_elem_of_fmap. exists m. by rewrite merge_sort_Permutation.
Qed.

Lemma count_languages_wf metrics : NoDup (count_languages metrics).*1.
Proof.
  unfold count_languages. assert (NoDup (@nil (string * Z)).*1) as H by constructor. revert H. generalize (@nil (string * Z)).
  induction metrics as [|m metrics IH]; intros d Hd; [done|]. cbn [foldl]. apply IH. by apply dict_set_wf.
Qed.

Lemma summarize_plain metrics : json_plain (summarize metrics) = true.
Proof.
  unfold summarize. set (counts := map _ (merge_sort _ _)). cbn [json_plain forallb snd].
  assert (bool_decide (NoDup counts.*1) = true) as ->.
  { apply bool_decide_eq_true. unfold counts. rewrite <-list_fmap_compose.
    change (NoDup (map fst (merge_sort fst_le (count_languages metrics)))).
    rewrite (Permutation_map fst (merge_sort_Permutation fst_le (count_languages metrics))). apply count_languages_wf. }
  assert (forallb (λ kv : string * jval, json_plain kv.2) counts = true) as ->; [|by vm_compute].
  apply forallb_forall. intros kv Hin. by apply in_map_iff in Hin as (x & <- & _).
Qed.

Lemma payload_plain metrics : json_plain (baseline_payload metrics) = true.
Proof.
  unfold baseline_payload. fold (offenders metrics). set (entries := by_key _ _). set (summary := summarize metrics).
  assert (json_plain summary = true) as Hs by apply summarize_plain. cbn [json_plain forallb snd]. rewrite Hs.
  assert (bool_decide (NoDup entries.*1) = true) as -> by (apply bool_decide_eq_true, by_key_wf).
  assert (forallb (λ kv : string * jval, json_plain kv.2) entries = true) as ->; [|by vm_compute].
  apply forallb_forall. intros [k v] Hin. apply list_elem_of_In in Hin.
  assert (∀ l d, Forall (λ kv : string * jval, json_plain kv.2 = true) d →
            Forall (λ kv : string * jval, json_plain kv.2 = true) (foldl (λ d m, dict_set d (key m) (metric_entry m)) d l)) as Hd.
  { intros l. induction l as [|m l IH]; intros d Hd; [done|]. apply IH. clear IH.
    induction Hd as [|[k0 v0] d H0 Hd IH]; cbn; [by repeat constructor|]. destruct (decide _); by constructor. }
  pose proof (Hd (merge_sort key_le (offenders metrics)) [] ltac:(constructor)) as H. rewrite Forall_forall in H. apply (H _ Hin).
Qed.

Section baseline.
Context (py_repr : jval → string).

Local Notation compare := (compare_reference_baseline py_repr).

Lemma offender_recorded d metric v : dict_get d (key metric) = Some v → v = metric_entry metric →
  offender_violation (JObj d) metric = Ok [].
Proof.
  intros Hk ->. unfold offender_violation. cbn [j_get]. rewrite Hk. cbn [default mbind result_bind].
  pose proof (py_eq_refl (metric_entry metric) eq_refl) as E. unfold metric_entry in *. cbn [id]. by rewrite E.
Qed.

Lemma mapM_all {A B} (f : A → result B) (b : B) l : (∀ a, a ∈ l → f a = Ok b) → mapM f l = Ok (replicate (length l) b).
Proof.
  induction l as [|a l IH]; intros H; [done|]. cbn. rewrite H by left. cbn. rewrite IH; [done|]. intros. apply H. by right.
Qed.

Lemma concat_replicate_nil {A} n : concat (replicate n (@nil A)) = [].
Proof. by induction n. Qed.

Lemma written_payload_checks metrics : NoDup (map key metrics) → check_recorded (baseline_payload metrics) metrics = Ok [].
Proof.
  intros Hnd. destruct (written_functions metrics Hnd) as (d & Hd & Hwf & Hget).
  unfold check_recorded, baseline_payload. fold (offenders metrics). rewrite Hd.
  change (j_getitem (JObj _) "functions") with (Ok (JObj d)). cbn [mbind result_bind].
  rewrite by_key_NoDup by (by apply offenders_NoDup). cbn [id].
  rewrite (mapM_all _ []).
  2: { intros [k m] Hin. apply list_elem_of_fmap in Hin as (m' & [= -> ->] & Hin). eapply offender_recorded; [|reflexivity].
       apply Hget. eauto. }
  cbn [mbind result_bind]. unfold j_set. cbn [j_items mbind result_bind].
  assert (forallb hashable (JStr <$> dict_keys d) = true) as ->.
  { apply forallb_forall. intros x Hx. by apply in_map_iff in Hx as (? & <- & _). }
  cbn [mbind result_bind]. assert (mapM as_str (JStr <$> dict_keys d) = Ok (dict_keys d)) as ->.
  { induction (dict_keys d) as [|x l IH]; [done|]. cbn. by rewrite IH. }
  cbn [mbind result_bind].
  set (stale := List.filter _ _). assert (stale = []) as ->.
  { unfold stale. destruct (List.filter _ (dict_keys d)) as [|k l] eqn:E; [done|]. exfalso.
    assert (In k (k :: l)) as Hk by (by left). rewrite <-E in Hk. apply filter_In in Hk as [Hk Hn]. apply list_elem_of_In in Hk.
    apply list_elem_of_fmap in Hk as ([k' v] & -> & Hin). apply dict_elem_get in Hin; [|done].
    apply Hget in Hin as (m & Hm & -> & _). apply negb_true_iff in Hn. unfold dict_has in Hn.
    assert (dict_get (map (λ m, (key m, m)) (offenders metrics)) (key m) = Some m) as Hg.
    { apply dict_elem_get; [|apply list_elem_of_fmap; by exists m]. unfold dict_wf, dict_keys. rewrite <-list_fmap_compose. by apply offenders_NoDup. }
    cbn [fst] in Hn. unfold id in Hn. by rewrite Hg in Hn. }
  change (j_getitem (JObj _) "summary") with (Ok (summarize metrics)). cbn [mbind result_bind].
  rewrite (py_eq_refl (summarize metrics)) by apply summarize_plain. by rewrite concat_replicate_nil.
Qed.

(** The figures of a summary that must not grow. *)
Definition figure (metrics : list FunctionMetric) (field : string) : Z :=
  if String.eqb field "longFunctionCount" then count_where (λ metric, MAX_FUNCTION_LINES <? line_count metric) metrics
  else if String.eqb field "complexFunctionCount" then count_where (λ metric, MAX_COMPLEXITY <? complexity metric) metrics
  else if String.eqb field "maxFunctionLines" then max_of (map line_count metrics)
  else max_of (map complexity metrics).

Lemma summary_figure metrics field : field ∈ SUMMARY_FIELDS →
  j_getitem (summarize metrics) field = Ok (JInt (figure metrics field)).
Proof. unfold SUMMARY_FIELDS. rewrite !elem_of_cons, elem_of_nil. by intros [->|[->|[->|[->|[]]]]]. Qed.

Lemma j_lt_ints m n : j_lt (JInt m) (JInt n) = Ok (m <? n).
Proof. reflexivity. Qed.

Lemma written_payload_not_grown metrics ref : NoDup (map key metrics) →
  compare (baseline_payload metrics) (baseline_payload metrics) ref = Ok [].
Proof.
  intros Hnd. destruct (written_functions metrics Hnd) as (d & Hd & Hwf & Hget).
  unfold compare_reference_baseline, baseline_payload. fold (offenders metrics). rewrite Hd.
  change (j_getitem (JObj _) "summary") with (Ok (summarize metrics)). cbn [mbind result_bind].
  rewrite (mapM_all _ []).
  2: { intros f Hf. unfold field_violation. rewrite summary_figure by done. cbn [mbind result_bind].
       by rewrite j_lt_ints, Z.ltb_irrefl. }
  cbn [mbind result_bind]. change (j_getitem (JObj _) "functions") with (Ok (JObj d)). cbn [mbind result_bind j_dict].
  rewrite (mapM_all _ []); [cbn [mbind result_bind]; by rewrite !concat_replicate_nil|].
  intros [k v] Hin. apply dict_elem_get in Hin; [|done]. unfold entry_violation. cbn [j_get fst snd]. rewrite Hin.
  apply Hget in Hin as (m & _ & _ & ->). unfold metric_entry, grew_at, or_r. cbn [default id mbind result_bind j_index].
  cbn [lookup list_lookup mbind result_bind]. by rewrite !j_lt_ints, !Z.ltb_irrefl.
Qed.

(** ** What a passed check says *)

(** A baseline as the tool writes one: entries of a hash and two integers, and integer figures. *)
Definition integral (payload : jval) : Prop :=
  (∃ d, j_getitem payload "functions" = Ok (JObj d) ∧ NoDup d.*1
     ∧ ∀ k v, dict_get d k = Some v → ∃ hash lines complexity, v = JList [JStr hash; JInt lines; JInt complexity])
  ∧ ∃ s, j_getitem payload "summary" = Ok (JObj s) ∧ ∀ field, field ∈ SUMMARY_FIELDS → ∃ n, dict_get s field = Some (JInt n).

Lemma py_eq_entry hash lines c metric :
  py_eq (JList [JStr hash; JInt lines; JInt c]) (metric_entry metric) = true →
  hash = content_hash metric ∧ lines = line_count metric ∧ c = complexity metric.
Proof.
  unfold py_eq, metric_entry. cbn [depth fold_right Nat.max py_eq_fuel length Nat.eqb zip zip_with forallb fst snd as_int andb].
  rewrite !andb_true_iff, String.eqb_eq, !Z.eqb_eq. naive_solver.
Qed.

Lemma py_eq_dict_get d e k n m : py_eq (JObj d) (JObj e) = true →
  dict_get d k = Some (JInt n) → dict_get e k = Some (JInt m) → n = m.
Proof.
  unfold py_eq. cbn [depth]. set (fuel := fold_right _ _ d). cbn [py_eq_fuel]. intros [_ H]%andb_true_iff Hd%dict_get_elem He.
  rewrite forallb_forall in H. apply list_elem_of_In in Hd. specialize (H _ Hd). cbn [fst snd] in H. rewrite He in H.
  destruct fuel; [done|]. cbn in H. by apply Z.eqb_eq in H.
Qed.

Lemma concat_nil {A} (l : list (list A)) : concat l = [] ↔ Forall (λ x, x = []) l.
Proof.
  induction l as [|x l IH]; [done|]. cbn. rewrite Forall_cons, <-IH. split; [by intros ?%app_eq_nil|by intros [-> ->]].
Qed.

(** A recorded check that finds nothing: the baseline is exactly the current offenders and figures. *)
Lemma check_recorded_nil payload metrics : integral payload → NoDup (map key metrics) →
  check_recorded payload metrics = Ok [] →
  (∃ d, j_getitem payload "functions" = Ok (JObj d)
     ∧ ∀ k v, dict_get d k = Some v ↔ ∃ m, m ∈ offenders metrics ∧ k = key m ∧ v = metric_entry m)
  ∧ (∃ s, j_getitem payload "summary" = Ok (JObj s)
     ∧ ∀ field, field ∈ SUMMARY_FIELDS → dict_get s field = Some (JInt (figure metrics field))).
Proof.
  intros [(d & Hd & Hwf & Hint) (s & Hs & Hfig)] Hnd. unfold check_recorded. rewrite Hd. cbn [mbind result_bind].
  rewrite by_key_NoDup by (by apply offenders_NoDup). intros (vs & Hvs%mapM_Ok & H)%bind_Ok.
  apply bind_Ok in H as (recorded & Hr & H). apply bind_Ok in H as (keys & Hkeys & H). rewrite Hs in H. cbn [mbind result_bind] in H.
  injection H as H. apply app_eq_nil in H as [Hc H]. apply app_eq_nil in H as [Hstale Hsum].
  assert (keys = dict_keys d) as ->.
  { unfold j_set in Hr. cbn [j_items mbind result_bind] in Hr. destruct (forallb _ _); [|done]. injection Hr as <-.
    apply mapM_Ok in Hkeys. revert Hkeys. generalize keys. generalize (dict_keys d) as l. clear.
    induction l as [|x l IH]; intros keys H; inversion H as [|? ? ? ? Hx Hl]; subst; [done|]. cbn in Hx. injection Hx as <-. by rewrite (IH _ Hl). }
  split.
  - exists d. split; [done|]. apply concat_nil in Hc.
    assert (∀ m, m ∈ offenders metrics → dict_get d (key m) = Some (metric_entry m)) as Hall.
    { intros m Hm. assert ((key m, id m) ∈ map (λ m, (key m, id m)) (offenders metrics)) as Hin by (apply list_elem_of_fmap; by exists m).
      apply list_elem_of_lookup in Hin as [i Hi]. destruct (Forall2_lookup_l _ _ _ _ _ Hvs Hi) as (x & Hx & Hv).
      rewrite Forall_forall in Hc. rewrite (Hc x) in Hv by (by eapply list_elem_of_lookup_2). unfold offender_violation in Hv.
      cbn [j_get mbind result_bind snd id] in Hv. destruct (dict_get d (key m)) as [v|] eqn:E; [|done].
      destruct (Hint _ _ E) as (h & l & c & ->). cbn [default id] in Hv.
      destruct (py_eq (JList _) _) eqn:Eq; [|done].
      apply py_eq_entry in Eq as (-> & -> & ->). done. }
    intros k v. split; [|by intros (m & Hm & -> & ->); apply Hall]. intros Hk.
    assert (k ∈ dict_keys d) as Hin by (by eapply dict_get_Some_key).
    destruct (Nat.ltb 0 _) eqn:Hl in Hstale; [done|]. apply Nat.ltb_ge in Hl.
    destruct (dict_has (map (λ m, (key m, id m)) (offenders metrics)) k) eqn:Eh.
    + unfold dict_has in Eh. destruct (dict_get (map _ _) k) as [m|] eqn:Em; [|done]. apply dict_get_elem, list_elem_of_fmap in Em as (m' & [= -> ->] & Hm').
      exists m'. split_and!; [done|done|]. pose proof (Hall _ Hm'). congruence.
    + assert (In k (List.filter (λ k, negb (dict_has (map (λ m, (key m, id m)) (offenders metrics)) k)) (dict_keys d))) as Hf
        by (apply filter_In; split; [by apply list_elem_of_In|by rewrite Eh]).
      destruct (List.filter _ (dict_keys d)); [destruct Hf|cbn in Hl; lia].
  - exists s. split; [done|]. intros field Hf. destruct (Hfig _ Hf) as [n Hn]. rewrite Hn. f_equal. f_equal.
    destruct (py_eq (summarize metrics) (JObj s)) eqn:Eq; [|done]. pose proof (summary_figure metrics _ Hf) as Hg.
    unfold summarize in Eq, Hg. cbn [j_getitem] in Hg.
    destruct (dict_get _ field) as [w|] eqn:Ew in Hg; [|done]. injection Hg as ->.
    symmetry. eapply py_eq_dict_get; [exact Eq|exact Ew|exact Hn].
Qed.

(** No offender of the second list is new, or larger than in the first, and no figure is higher. *)
Definition no_growth (before after : list FunctionMetric) : Prop :=
  (∀ m, m ∈ offenders after →
     ∃ m0, m0 ∈ offenders before ∧ key m0 = key m ∧ line_count m <= line_count m0 ∧ complexity m <= complexity m0)
  ∧ ∀ field, field ∈ SUMMARY_FIELDS → figure after field <= figure before field.

Lemma no_growth_refl metrics : no_growth metrics metrics.
Proof. split; [|done]. intros m Hm. by exists m. Qed.

Lemma no_growth_trans a b c : no_growth a b → no_growth b c → no_growth a c.
Proof.
  intros [H1 F1] [H2 F2]. split.
  - intros m Hm. destruct (H2 m Hm) as (m1 & Hm1 & K1 & ? & ?). destruct (H1 m1 Hm1) as (m0 & Hm0 & K0 & ? & ?).
    exists m0. split_and!; [done|congruence|lia|lia].
  - intros f Hf. specialize (F1 f Hf). specialize (F2 f Hf). lia.
Qed.

(** The comparison of two baselines that both say what their sources are. *)
Lemma compare_no_growth current before after reference ref :
  integral current → integral reference → NoDup (map key before) → NoDup (map key after) →
  check_recorded reference before = Ok [] → check_recorded current after = Ok [] →
  compare current reference ref = Ok [] → no_growth before after.
Proof.
  intros Hic Hir Hnb Hna Hb Ha. apply check_recorded_nil in Hb as [(d & Hd & Hdget) (s & Hs & Hsget)]; [|done..].
  apply check_recorded_nil in Ha as [(e & He & Heget) (s' & Hs' & Hsget')]; [|done..].
  unfold compare_reference_baseline. rewrite Hs, Hs', Hd, He. cbn [mbind result_bind j_dict].
  intros (fields & Hf%mapM_Ok & (entries & Hen%mapM_Ok & [= H])%bind_Ok)%bind_Ok. apply app_eq_nil in H as [H1 H2].
  apply concat_nil in H1, H2. rewrite Forall_forall in H1, H2. split.
  - intros m Hm. assert (dict_get e (key m) = Some (metric_entry m)) as Hk by (apply Heget; eauto).
    apply dict_get_elem, list_elem_of_lookup in Hk as [i Hi]. destruct (Forall2_lookup_l _ _ _ _ _ Hen Hi) as (x & Hx & Hv).
    rewrite (H2 x) in Hv by (by eapply list_elem_of_lookup_2). unfold entry_violation in Hv.
    cbn [j_get mbind result_bind fst snd] in Hv. destruct (dict_get d (key m)) as [v|] eqn:E; [|done].
    apply Hdget in E as (m0 & Hm0 & Hkey & ->). exists m0. split; [done|]. split; [done|].
    unfold metric_entry, grew_at, or_r in Hv. cbn [default id mbind result_bind j_index lookup list_lookup] in Hv.
    rewrite !j_lt_ints in Hv. cbn [mbind result_bind] in Hv. destruct (Z.ltb_spec (line_count m0) (line_count m)); [done|].
    cbn [mbind result_bind] in Hv. destruct (Z.ltb_spec (complexity m0) (complexity m)); [done|]. lia.
  - intros f Hin. pose proof Hin as Hin'. apply list_elem_of_lookup in Hin' as [i Hi].
    destruct (Forall2_lookup_l _ _ _ _ _ Hf Hi) as (x & Hx & Hv). rewrite (H1 x) in Hv by (by eapply list_elem_of_lookup_2).
    unfold field_violation in Hv. cbn [j_getitem] in Hv. rewrite (Hsget f Hin), (Hsget' f Hin) in Hv. cbn [mbind result_bind] in Hv.
    rewrite j_lt_ints in Hv. cbn [mbind result_bind] in Hv. destruct (Z.ltb_spec (figure before f) (figure after f)); [done|lia].
Qed.
End baseline.

(** ** The gate over a history of commits *)

Section history.
Context (word_other : char → bool) (sha256_hex : string → string) (parse : string → result ast)
  (py_repr : jval → string) (json_loads : string → result jval) (json_dumps : jval → string)
  (REPO_ROOT : fs_path) (rglob : fs_path → list fs_path).

Local Notation scan := (scan_functions word_other sha256_hex parse REPO_ROOT rglob).
Local Notation gate := (main word_other sha256_hex parse py_repr json_loads json_dumps REPO_ROOT rglob).
Local Notation compare := (compare_reference_baseline py_repr).
Local Notation BASELINE_PATH := (BASELINE_PATH REPO_ROOT).

Definition baseline_of (tree : files) : result jval := text ← fs_text tree BASELINE_PATH; json_loads text.
Definition show_command (ref : string) : list string := ["git"; "show"; ref +:+ ":scripts/gates/code_quality_baseline.json"].

(** What a check that exits with zero has found. *)
Lemma gate_passed w fs ref h t : gate w fs false true ref h = (Some (Ok 0), t) →
  ∃ metrics payload, scan (fs h) = Ok metrics ∧ baseline_of (fs h) = Ok payload ∧ check_recorded payload metrics = Ok []
    ∧ (default "" ref ≠ "" → ∃ rc out, w_exec w h (show_command (default "" ref)) = Ok (rc, out)
         ∧ (rc = 0 → ∃ reference, json_loads out = Ok reference ∧ compare payload reference (default "" ref) = Ok [])).
Proof.
  unfold main. intros (metrics & t1 & t2 & Hm & H & ->)%eff_bind_Ok. injection Hm as Hm <-. rewrite app_nil_r in H.
  apply eff_bind_Ok in H as (present & t3 & t4 & Hp & H & ->). injection Hp as Hp <-. rewrite app_nil_r in H.
  destruct present; [|by apply eff_bind_Ok in H as (? & ? & ? & _ & [= ?] & _)]. cbn [negb] in H.
  apply eff_bind_Ok in H as (violations & t5 & t6 & Hv & H & ->).
  destruct violations as [|v vs]; [|by apply eff_bind_Ok in H as (? & ? & ? & _ & [= ?] & _)]. clear H.
  unfold check_baseline in Hv. apply eff_bind_Ok in Hv as (payload & t7 & t8 & Hpl & Hv & ->). injection Hpl as Hpl <-.
  rewrite app_nil_r in Hv. apply eff_bind_Ok in Hv as (found & t9 & t10 & [Hc ->]%lift_Ok & Hv & ->). rewrite app_nil_r in Hv.
  exists metrics, payload. split; [done|]. split; [done|]. destruct (is_empty (default "" ref)) eqn:Er.
  - apply mret_Ok in Hv as [-> _]. split; [done|]. intros Hne. by apply is_empty_true in Er.
  - apply eff_bind_Ok in Hv as (reference & t11 & t12 & Hl & Hv & ->). unfold load_reference_baseline in Hl.
    apply eff_bind_Ok in Hl as ([rc out] & t13 & t14 & Hx & Hl & ->). unfold execute in Hx. injection Hx as Hx _.
    destruct (Z.eqb_spec rc 0) as [->|Hne]; cbn [negb] in Hl.
    + apply eff_bind_Ok in Hl as (r & t15 & t16 & [Hj _]%lift_Ok & Hl & ->). apply mret_Ok in Hl as [<- _].
      apply eff_bind_Ok in Hv as (grown & t17 & t18 & [Hg _]%lift_Ok & Hv & _). apply mret_Ok in Hv as [Hv _].
      apply app_eq_nil in Hv as [-> ->]. split; [done|]. intros _. exists 0, out. split; [done|]. by exists r.
    + apply mret_Ok in Hl as [<- _]. apply mret_Ok in Hv as [-> _]. split; [done|]. intros _. by exists rc, out.
Qed.

(** What the code relies on. *)
Hypothesis word_other_plain : ∀ x, word_other x = true → has_char ":" x = false.
Hypothesis parse_names : ∀ text tree node, parse text = Ok tree → node ∈ walk tree → no_colon (ast_str (node_field node "name")).
Hypothesis rglob_lists : ∀ root p, p ∈ rglob root → listed root p.
Hypothesis rglob_once : ∀ root, NoDup (rglob root).

(** A tree whose baseline the gate accepts on its own. *)
Definition accepted (c : files) : Prop :=
  (∃ w h t, gate w (λ _, c) false true None h = (Some (Ok 0), t)) ∧ ∃ payload, baseline_of c = Ok payload ∧ integral payload.

(** A tree the gate accepts after another one, whose baseline is the reference. *)
Definition admitted (c c' : files) : Prop :=
  (∃ w ref h t, ref ≠ "" ∧ gate w (λ _, c') false true (Some ref) h = (Some (Ok 0), t)
     ∧ ∃ text, fs_text c BASELINE_PATH = Ok text ∧ ∀ h, w_exec w h (show_command ref) = Ok (0, text))
  ∧ ∃ payload, baseline_of c' = Ok payload ∧ integral payload.

(** What a tree that was checked is. *)
Definition measured (c : files) (metrics : list FunctionMetric) : Prop :=
  scan c = Ok metrics ∧ ∃ payload, baseline_of c = Ok payload ∧ integral payload ∧ check_recorded payload metrics = Ok [].

Lemma accepted_measured c : accepted c → ∃ metrics, measured c metrics.
Proof.
  intros ((w & h & t & (metrics & payload & Hs & Hb & Hc & _)%gate_passed) & p & Hp & Hi).
  exists metrics. split; [done|]. exists payload. assert (p = payload) as -> by congruence. done.
Qed.

Lemma admitted_measured c c' before : measured c before → admitted c c' → ∃ after, measured c' after ∧ no_growth before after.
Proof using word_other_plain parse_names rglob_lists rglob_once.
  intros (Hs & payload & Hb & Hi & Hc)
    ((w & ref & h & t & Hne & (after & payload' & Hs' & Hb' & Hc' & Hr)%gate_passed & text & Ht & Hgit) & p & Hp & Hi').
  assert (p = payload') as -> by congruence. destruct (Hr Hne) as (rc & out & Hx & Hz). cbn [default id] in Hx, Hz.
  rewrite Hgit in Hx. injection Hx as <- <-. destruct (Hz eq_refl) as (reference & Hj & Hg).
  unfold baseline_of in Hb. rewrite Ht in Hb. cbn [mbind result_bind] in Hb. assert (reference = payload) as -> by congruence.
  exists after. split; [split; [done|]; by exists payload'|].
  eapply compare_no_growth; [exact Hi'|exact Hi| | |exact Hc|exact Hc'|exact Hg]; by eapply scan_functions_keys.
Qed.

(** C19: The ratchet: along any chain of trees, each of which the gate accepts
    against the one before it, no function over the limits is ever new and none
    ever grows, in lines or in complexity, and none of the four figures rises.
    The baselines are taken to hold integers, as the tool writes them. *)
Theorem offenders_never_grow (c0 cn : files) (before after : list FunctionMetric) :
  accepted c0 → rtc admitted c0 cn → scan c0 = Ok before → scan cn = Ok after → no_growth before after.
Proof using word_other_plain parse_names rglob_lists rglob_once.
  intros (metrics & H0)%accepted_measured Hrtc Hs Hsn. pose proof H0 as [Hs' _]. assert (metrics = before) as -> by congruence. clear Hs Hs'.
  assert (∃ after, measured cn after ∧ no_growth before after) as (after' & [Hs' _] & Hg); [|by assert (after' = after) as -> by congruence].
  clear Hsn after. revert H0. apply rtc_ind_r with (P := λ c, measured c0 before → ∃ after, measured c after ∧ no_growth before after) in Hrtc; [done| |].
  - intros H. exists before. split; [done|apply no_growth_refl].
  - intros a b _ Hab IH H0. destruct (IH H0) as (mid & Hmid & Hg). destruct (admitted_measured _ _ _ Hmid Hab) as (after & Ha & Hg').
    exists after. split; [done|]. by eapply no_growth_trans.
Qed.

Lemma eff_run_step {A B} (m : eff A) (f : A → eff B) h a t : m h = (Some (Ok a), t) → ((m ≫= f) h).1 = (f a (h ++ t)).1.
Proof. intros H. unfold mbind, eff_bind. rewrite H. by destruct (f a (h ++ t)). Qed.

(** A baseline the tool has written passes its own check: on any tree with
    the same functions and the written file, and whether there is no reference
    or the reference is that file too.  The keys of a scan are distinct, so no
    entry replaces another.  The codec is taken to read the plain value of the
    baseline back. *)
Theorem written_baseline_passes w fs check ref h t :
  (∀ metrics, scan (fs h) = Ok metrics → let payload := baseline_payload metrics in
     json_plain payload = true → json_loads (json_dumps payload +:+ NEWLINE) = Ok payload) →
  gate w fs true check ref h = (Some (Ok 0), t) →
  ∃ text line, t = [Created BASELINE_PATH (JStr text) (Ok ()); Printed line]
    ∧ ∀ w' tree ref' h', scan tree = scan (fs h) → fs_text tree BASELINE_PATH = Ok text → fs_exists tree BASELINE_PATH = true →
        (∀ h, w_exec w' h (show_command (default "" ref')) = Ok (0, text)) →
        (gate w' (λ _, tree) false true ref' h').1 = Some (Ok 0).
Proof using word_other_plain parse_names rglob_lists rglob_once.
  intros json_roundtrip. unfold main. intros (metrics & t1 & t2 & Hm & H & ->)%eff_bind_Ok. injection Hm as Hm <-. rewrite app_nil_r in H.
  apply eff_bind_Ok in H as ([] & t3 & t4 & ->%create_Ok & H & ->). apply eff_bind_Ok in H as (u & t5 & t6 & [= <- <-] & H & ->).
  apply mret_Ok in H as [_ ->]. eexists _, _. split; [reflexivity|]. intros w' tree ref' h' Hs Ht He Hgit.
  assert (NoDup (map key metrics)) as Hnd by (by eapply scan_functions_keys). rewrite Hm in Hs.
  pose proof (json_roundtrip _ Hm (payload_plain metrics)) as Hj.
  rewrite (eff_run_step _ _ _ metrics []) by (unfold reading; by rewrite Hs). rewrite app_nil_r. cbn iota.
  rewrite (eff_run_step _ _ _ true []) by (unfold reading; by rewrite He). rewrite app_nil_r. cbn [negb].
  assert (∃ t, check_baseline py_repr json_loads REPO_ROOT w' (λ _, tree) metrics ref' h' = (Some (Ok []), t)) as [tc Hc];
    [|rewrite (eff_run_step _ _ _ [] tc) by done; done].
  unfold check_baseline, reading. unfold mbind at 1, eff_bind at 1. rewrite Ht. cbn [mbind result_bind]. rewrite Hj, app_nil_r.
  rewrite eff_bind_lift, written_payload_checks by done. destruct (is_empty (default "" ref')); [by eexists|].
  unfold load_reference_baseline. unfold mbind at 1, eff_bind at 1. unfold mbind at 1, eff_bind at 1. unfold execute.
  pose proof (Hgit h') as Hg. unfold show_command in Hg. rewrite Hg. cbn [Z.eqb negb]. rewrite eff_bind_lift, Hj. cbn [mret eff_ret].
  rewrite eff_bind_lift, written_payload_not_grown by done. by eexists.
Qed.
End history.

(** ** Where functions end *)

Definition opens (line : string) : Z := count_char "{" (strip_strings_and_comments line).
Definition closes (line : string) : Z := count_char "}" (strip_strings_and_comments line).

(** The reference: over the lines so far a brace has opened, and as many have closed. *)
Definition balanced (lines : list string) : Prop :=
  existsb (λ line, negb (opens line =? 0)) lines = true
  ∧ foldr Z.add 0 (map opens lines) <= foldr Z.add 0 (map closes lines).

Definition segment (lines : list string) (first last : nat) : list string := take (S last - first) (drop first lines).

Lemma braced_end_from_spec rest : ∀ before index depth opened,
  opened = existsb (λ line, negb (opens line =? 0)) before →
  depth = foldr Z.add 0 (map opens before) - foldr Z.add 0 (map closes before) →
  match braced_end_from rest index depth opened with
  | Some e => (index <= e < index + length rest)%nat ∧ balanced (before ++ take (S e - index) rest)
      ∧ ∀ j, (j < e - index)%nat → ¬ balanced (before ++ take (S j) rest)
  | None => ∀ j, (j < length rest)%nat → ¬ balanced (before ++ take (S j) rest)
  end.
Proof.
  induction rest as [|raw rest IH]; intros before index depth opened Ho Hd; [intros j Hj; cbn in Hj; lia|].
  cbn [braced_end_from]. fold (opens raw) (closes raw). set (opened' := opened || _). set (depth' := depth + _ - _).
  assert (opened' = existsb (λ line, negb (opens line =? 0)) (before ++ [raw])) as Ho'
    by (unfold opened'; rewrite existsb_app, Ho; cbn; by rewrite orb_false_r).
  assert (∀ l x, foldr Z.add 0 (l ++ [x]) = foldr Z.add 0 l + x) as Hsum by (intros l x; induction l; cbn in *; lia).
  assert (depth' = foldr Z.add 0 (map opens (before ++ [raw])) - foldr Z.add 0 (map closes (before ++ [raw]))) as Hd'
    by (unfold depth'; rewrite !map_app; cbn [map]; rewrite !Hsum; lia).
  assert (balanced (before ++ [raw]) ↔ opened' && (depth' <=? 0) = true) as Hb.
  { unfold balanced. rewrite <-Ho', andb_true_iff, Z.leb_le. intuition lia. }
  destruct (opened' && (depth' <=? 0)) eqn:E.
  - replace (S index - index)%nat with 1%nat by lia. cbn [take length]. split; [lia|]. split; [by apply Hb|]. intros j Hj. lia.
  - specialize (IH (before ++ [raw]) (S index) depth' opened' Ho' Hd').
    assert (∀ k, (before ++ [raw]) ++ take k rest = before ++ take (S k) (raw :: rest)) as Happ by (intros k; by rewrite <-app_assoc).
    destruct (braced_end_from rest (S index) depth' opened') as [e|].
    + destruct IH as (Hr & Hbal & Hno). cbn [length]. split; [lia|]. split.
      * rewrite Happ in Hbal. by replace (S e - index)%nat with (S (S e - S index)) by lia.
      * intros [|j] Hj; [cbn [take]; by rewrite Hb|]. rewrite <-Happ. apply Hno. lia.
    + intros [|j] Hj; [cbn [take]; by rewrite Hb|]. rewrite <-Happ. apply IH. cbn in Hj. lia.
Qed.

(** [find_braced_end] finds the first line up to which the braces balance. *)
Lemma find_braced_end_spec lines start e : (start <= length lines)%nat →
  find_braced_end lines start = Some e ↔
  (start <= e < length lines)%nat ∧ balanced (segment lines start e)
  ∧ ∀ j, (start <= j < e)%nat → ¬ balanced (segment lines start j).
Proof.
  intros Hs. unfold find_braced_end, segment.
  pose proof (braced_end_from_spec (drop start lines) [] start 0 false eq_refl eq_refl) as H. rewrite length_drop in H.
  destruct (braced_end_from _ _ _ _) as [e'|]; cbn [app] in H.
  - destruct H as (Hr & Hb & Hno). split.
    + intros [= ->]. split_and!; [lia|lia|done|]. intros j Hj Hbj. apply (Hno (j - start)%nat); [lia|].
      by replace (S (j - start)) with (S j - start)%nat by lia.
    + intros (Hr' & Hb' & Hno'). f_equal. destruct (Nat.lt_trichotomy e e') as [Hl|[->|Hl]]; [|done|].
      * exfalso. apply (Hno (e - start)%nat); [lia|]. by replace (S (e - start)) with (S e - start)%nat by lia.
      * exfalso. apply (Hno' e'); [lia|done].
  - split; [done|]. intros (Hr' & Hb' & _). exfalso. apply (H (e - start)%nat); [lia|].
    by replace (S (e - start)) with (S e - start)%nat by lia.
Qed.

Lemma kotlin_end_from_range lines start rest : ∀ index paren expression e, (start <= index)%nat → (start <= length lines)%nat →
  (index + length rest <= length lines)%nat →
  kotlin_end_from lines start rest index paren expression = Some e → (start <= e < length lines)%nat.
Proof.
  induction rest as [|raw rest IH]; intros index paren expression e Hi Hs Hl; [done|]. cbn [kotlin_end_from length] in *.
  destruct (negb expression && _); [intros H; by apply find_braced_end_spec in H as [? _]|].
  destruct (_ && _); [intros [= <-]; lia|]. intros H. apply IH in H; lia.
Qed.

Lemma function_end_range language lines index e : (index <= length lines)%nat →
  function_end language lines index = Some e → (index <= e < length lines)%nat.
Proof.
  intros Hi. unfold function_end. destruct (String.eqb _ _).
  - unfold find_kotlin_function_end. intros H. eapply kotlin_end_from_range; [| | |exact H]; rewrite ?length_drop; lia.
  - intros H. by apply find_braced_end_spec in H as [? _].
Qed.

Section extents.
Context (word_other : char → bool) (sha256_hex : string → string) (REPO_ROOT : fs_path).

(** A line that starts a function whose end is found. *)
Definition starts (language : string) (lines : list string) (i e : nat) : Prop :=
  ∃ line m, lines !! i = Some line ∧ re_search (FUNCTION_PATTERNS word_other language) line = Some m
    ∧ function_end language lines i = Some e.

(** Extents one after the other, from a line on. *)
Fixpoint in_order (from : nat) (spans : list (nat * nat)) : Prop :=
  match spans with [] => True | (s, e) :: spans => (from <= s <= e)%nat ∧ in_order (S e) spans end.

Lemma in_order_mono from from' spans : (from' <= from)%nat → in_order from spans → in_order from' spans.
Proof. destruct spans as [|[s e] spans]; [done|]. cbn. intuition lia. Qed.

Lemma scan_lines_spans p language lines fuel : ∀ index occurrences metrics, (length lines - index <= fuel)%nat → (index <= length lines)%nat →
  scan_lines word_other sha256_hex REPO_ROOT fuel p language lines index occurrences = Ok metrics →
  ∃ spans, Forall2 (λ m s, start_line m = Z.of_nat s.1 + 1 ∧ starts language lines s.1 s.2
                     ∧ complexity m = lexical_complexity word_other (join NEWLINE (segment lines s.1 s.2))) metrics spans
    ∧ in_order index spans
    ∧ ∀ i e, (index <= i)%nat → starts language lines i e → ∃ s, s ∈ spans ∧ (s.1 <= i <= s.2)%nat.
Proof.
  induction fuel as [|fuel IH]; intros index occurrences metrics Hf Hi; cbn [scan_lines].
  { intros [= <-]. exists []. split_and!; [constructor|done|]. intros i e Hle (line & m & Hl & _).
    apply lookup_lt_Some in Hl. lia. }
  destruct (lines !! index) as [line|] eqn:El.
  2: { intros [= <-]. exists []. split_and!; [constructor|done|]. intros i e Hle (line & m & Hl & _).
       apply lookup_lt_Some in Hl. apply lookup_ge_None in El. lia. }
  pose proof (lookup_lt_Some _ _ _ El) as Hlt.
  assert (∀ metrics, scan_lines word_other sha256_hex REPO_ROOT fuel p language lines (S index) occurrences = Ok metrics →
            (∀ e, ¬ starts language lines index e) →
            ∃ spans, Forall2 (λ m s, start_line m = Z.of_nat s.1 + 1 ∧ starts language lines s.1 s.2
                     ∧ complexity m = lexical_complexity word_other (join NEWLINE (segment lines s.1 s.2))) metrics spans
              ∧ in_order index spans
              ∧ ∀ i e, (index <= i)%nat → starts language lines i e → ∃ s, s ∈ spans ∧ (s.1 <= i <= s.2)%nat) as Hskip.
  { intros ms Hms Hno. destruct (IH (S index) occurrences ms ltac:(lia) ltac:(lia) Hms) as (spans & H1 & H2 & H3). exists spans. split; [done|].
    split; [by apply in_order_mono with (S index); [lia|]|]. intros i e Hle Hst. apply (H3 i e); [|done].
    destruct (decide (i = index)) as [->|]; [by apply Hno in Hst|lia]. }
  destruct (re_search _ line) as [m|] eqn:Em.
  2: { intros H. apply Hskip; [done|]. intros e (line' & m & Hl & Hm & _). congruence. }
  destruct (function_end language lines index) as [e|] eqn:Ee.
  2: { intros H. apply Hskip; [done|]. intros e (line' & m' & Hl & Hm & He). congruence. }
  intros (metric & Hm & (rest & Hrest & [= <-])%bind_Ok)%bind_Ok.
  apply build_metric_key in Hm as (_ & _ & Hstart & _ & Hc). pose proof Ee as Hr. apply function_end_range in Hr; [|lia].
  apply IH in Hrest as (spans & H1 & H2 & H3); [|lia|lia]. exists ((index, e) :: spans). split_and!.
  - constructor; [|done]. cbn. split_and!; [done| |done]. by exists line, m.
  - cbn. split; [lia|done].
  - intros i e' Hle Hst. destruct (decide (i <= e)%nat); [exists (index, e); split; [left|cbn; lia]|].
    destruct (H3 i e' ltac:(lia) Hst) as (s & Hs & ?). exists s. split; [by right|done].
Qed.

(** The functions measured in a braced source are the ones that start on a
    line of the pattern and have an end: in the order of the source, without
    overlap, and every such line lies in one of them.  In Go and TypeScript the
    end is the first line up to which the braces balance. *)
Theorem braced_functions_measured p text language metrics :
  scan_braced_language word_other sha256_hex REPO_ROOT p text language = Ok metrics →
  ∃ spans, Forall2 (λ m s, start_line m = Z.of_nat s.1 + 1 ∧ starts language (splitlines text) s.1 s.2
                     ∧ complexity m = lexical_complexity word_other (join NEWLINE (segment (splitlines text) s.1 s.2))) metrics spans
    ∧ in_order 0 spans
    ∧ (∀ i e, starts language (splitlines text) i e → ∃ s, s ∈ spans ∧ (s.1 <= i <= s.2)%nat)
    ∧ (language ≠ "kotlin" → ∀ s, s ∈ spans → balanced (segment (splitlines text) s.1 s.2)
         ∧ ∀ j, (s.1 <= j < s.2)%nat → ¬ balanced (segment (splitlines text) s.1 j)).
Proof.
  intros H. apply scan_lines_spans in H as (spans & H1 & H2 & H3); [|lia|lia]. exists spans. split_and!; [done|done| |].
  - intros i e. apply H3. lia.
  - intros Hl s Hs. apply list_elem_of_lookup in Hs as [i Hi]. destruct (Forall2_lookup_r _ _ _ _ _ H1 Hi) as (m & _ & _ & Hst & _).
    destruct Hst as (line & m' & Hline & _ & He). apply lookup_lt_Some in Hline. unfold function_end in He.
    destruct (String.eqb_spec language "kotlin"); [done|]. apply find_braced_end_spec in He as (_ & ? & ?); [done|lia].
Qed.
End extents.

(** The complexity of a Python function does not depend on the order of the
    walk: one, and what each node of its tree adds. *)
Lemma python_complexity_nodes node : is_node node = true →
  python_complexity node = 1 + foldr Z.add 0 (map python_decisions (preorder node)).
Proof.
  intros Hn. unfold python_complexity.
  assert (∀ l n, foldl (λ complexity child, complexity + python_decisions child) n l = n + foldr Z.add 0 (map python_decisions l)) as E.
  { induction l as [|x l IH]; intros n; cbn; [lia|]. rewrite IH. lia. }
  rewrite E. f_equal. assert (Proper ((≡ₚ) ==> eq) (foldr Z.add 0)) as Hp
    by (apply (foldr_permutation_proper' eq); intros; subst; lia || apply _).
  rewrite (Permutation_map python_decisions (walk_preorder node Hn)). done.
Qed.

(** ** Examples *)

Definition no_word : char → bool := λ _, false.
Definition sample_root : fs_path := mkPath true ["r"].
Definition sample_source : fs_path := mkPath true ["r"; "services"; "media-control"; "cmd"; "a.go"].
Definition sample_rglob (root : fs_path) : list fs_path :=
  if bool_decide (root = mkPath true ["r"; "services"; "media-control"; "cmd"]) then [sample_source] else [].

(** A tree with one Go function of [n] conditions, and a baseline file. *)
Definition sample_text (n : nat) : string := "func f() { " +:+ join " " (replicate n "if") +:+ " }".
Definition sample_tree (n : nat) (baseline : string) : files :=
  mkFiles (λ p, Ok (bool_decide (p = sample_source))) (λ _, Ok false) (λ _, Ok 0) (λ _, Ok 0)
    (λ p, if bool_decide (p = sample_source) then Ok (utf8_encode (sample_text n)) else Ok (utf8_encode baseline)).

Definition sample_scan (n : nat) : result (list FunctionMetric) :=
  scan_functions no_word id (λ _, Ok ast_none) sample_root sample_rglob (sample_tree n "").

Definition sample_metric (n : nat) : FunctionMetric :=
  mkMetric "services/media-control/cmd/a.go::f::1" "services/media-control/cmd/a.go" "go" "f" 1 1 (1 + Z.of_nat n) "func f() { if if".

Example sample_measured : sample_scan 11 = Ok [sample_metric 11].
Proof. vm_compute. reflexivity. Qed.

Definition sample_loads (text : string) : result jval :=
  Ok (baseline_payload [sample_metric (if startswith "old" text then 11 else 10)]).

(** A machine on which [git show] prints a text. *)
Definition sample_world (shown : string) : world :=
  mkWorld (λ _ _ _, Ok "") (λ _ _, Ok (0, shown)) (λ _, PrimFloat.zero) (λ _, mkDatetime 0 (Some 0)) (λ _ _, NoResponse)
    (λ _ _ _, Ok ()) (λ _ _ _, Ok ()).

Lemma sample_rglob_lists root p : p ∈ sample_rglob root → listed root p.
Proof.
  unfold sample_rglob. destruct (bool_decide_reflect (root = mkPath true ["r"; "services"; "media-control"; "cmd"])) as [->|];
    [|by intros ?%elem_of_nil].
  intros ->%list_elem_of_singleton. exists ["a.go"]. split_and!; [done|done|]. by repeat constructor.
Qed.

Lemma sample_rglob_once root : NoDup (sample_rglob root).
Proof. unfold sample_rglob. destruct (bool_decide _); [apply NoDup_singleton|constructor]. Qed.

Lemma no_word_plain x : no_word x = true → has_char ":" x = false.
Proof. done. Qed.

Lemma sample_names (text : string) (tree node : ast) :
  Ok ast_none = Ok tree → node ∈ walk tree → no_colon (ast_str (node_field node "name")).
Proof. intros [= <-] H. by apply elem_of_nil in H. Qed.

Lemma sample_integral n : integral (baseline_payload [sample_metric n]).
Proof.
  split.
  - destruct (written_functions [sample_metric n]) as (d & Hd & Hwf & Hget); [by repeat constructor; intros ?%elem_of_nil|].
    exists d. rewrite <-Hd. split; [done|]. rewrite Hd. split; [done|]. intros k v (m & _ & _ & ->)%Hget. by eexists _, _, _.
  - eexists. split; [reflexivity|]. intros f Hf. pose proof (summary_figure [sample_metric n] f Hf) as H. unfold summarize in *.
    cbn [j_getitem] in H. destruct (dict_get _ f) as [v|]; [|done]. injection H as ->. by eexists.
Qed.

Local Notation sample_gate := (main no_word id (λ _, Ok ast_none) (λ _, "") sample_loads (λ _, "old") sample_root sample_rglob).

Lemma sample_accepts :
  sample_gate (sample_world "old") (λ _, sample_tree 11 "old") false true None []
  = (Some (Ok 0), [Printed (JStr "code quality baseline contract passed for 1 functions")]).
Proof. vm_compute. reflexivity. Qed.

Lemma sample_admits :
  sample_gate (sample_world "old") (λ _, sample_tree 10 "new") false true (Some "HEAD~1") []
  = (Some (Ok 0), [Executed (show_command "HEAD~1") (Ok (0, "old"));
                   Printed (JStr "code quality baseline contract passed for 1 functions")]).
Proof. vm_compute. reflexivity. Qed.

Lemma sample_scanned n baseline : n = 11%nat ∨ n = 10%nat →
  scan_functions no_word id (λ _, Ok ast_none) sample_root sample_rglob (sample_tree n baseline) = Ok [sample_metric n].
Proof. by intros [-> | ->]; vm_compute. Qed.

Lemma sample_baseline n baseline : baseline = "old" ∨ baseline = "new" →
  baseline_of sample_loads sample_root (sample_tree n baseline) = Ok (baseline_payload [sample_metric (if startswith "old" baseline then 11 else 10)]).
Proof. by intros [-> | ->]; vm_compute. Qed.

Lemma sample_tree_text n baseline : baseline = "old" ∨ baseline = "new" →
  fs_text (sample_tree n baseline) (BASELINE_PATH sample_root) = Ok baseline.
Proof. by intros [-> | ->]; vm_compute. Qed.

Local Notation sample_fact P := (P no_word id (λ _, Ok ast_none) (λ _, "") sample_loads (λ _, "old") sample_root sample_rglob).

Lemma sample_accepted : sample_fact accepted (sample_tree 11 "old").
Proof.
  split; [exists (sample_world "old"), []; eexists; apply sample_accepts|].
  exists (baseline_payload [sample_metric 11]). split; [by apply (sample_baseline 11 "old"); left|apply sample_integral].
Qed.

Lemma sample_admitted : sample_fact admitted (sample_tree 11 "old") (sample_tree 10 "new").
Proof.
  split.
  - exists (sample_world "old"), "HEAD~1", []. eexists. split; [discriminate|]. split; [apply sample_admits|].
    exists "old". split; [apply sample_tree_text; by left|]. intros h. reflexivity.
  - exists (baseline_payload [sample_metric 10]). split; [by apply (sample_baseline 10 "new"); right|apply sample_integral].
Qed.

Lemma offenders_never_grow_witness : no_growth [sample_metric 11] [sample_metric 10].
Proof.
  apply (sample_fact offenders_never_grow no_word_plain sample_names sample_rglob_lists sample_rglob_once
           (sample_tree 11 "old") (sample_tree 10 "new")).
  - apply sample_accepted.
  - apply rtc_once, sample_admitted.
  - apply sample_scanned. by left.
  - apply sample_scanned. by right.
Defined.

Lemma sample_writes :
  sample_gate (sample_world "") (λ _, sample_tree 11 "new") true false None []
  = (Some (Ok 0), [Created (BASELINE_PATH sample_root) (JStr ("old" +:+ NEWLINE)) (Ok ());
                   Printed (JStr "wrote code quality baseline for 1 functions")]).
Proof. vm_compute. reflexivity. Qed.

Lemma sample_written :
  fs_text (sample_tree 11 ("old" +:+ NEWLINE)) (BASELINE_PATH sample_root) = Ok ("old" +:+ NEWLINE)
  ∧ fs_exists (sample_tree 11 ("old" +:+ NEWLINE)) (BASELINE_PATH sample_root) = true
  ∧ sample_loads ("old" +:+ NEWLINE) = Ok (baseline_payload [sample_metric 11]).
Proof. by vm_compute. Qed.

Lemma written_baseline_passes_witness :
  (sample_gate (sample_world ("old" +:+ NEWLINE)) (λ _, sample_tree 11 ("old" +:+ NEWLINE)) false true (Some "HEAD") []).1 = Some (Ok 0).
Proof.
  destruct sample_written as (Ht & He & Hj).
  destruct (sample_fact written_baseline_passes no_word_plain sample_names sample_rglob_lists sample_rglob_once
              (sample_world "") (λ _, sample_tree 11 "new") false None [] _ ltac:(intros metrics Hm; cbn beta in Hm;
                rewrite (sample_scanned 11 "new" (or_introl eq_refl)) in Hm; assert (metrics = [sample_metric 11]) as -> by congruence; intros payload _; exact Hj) sample_writes)
    as (text & line & E & H).
  injection E as <- <-. apply H; [|exact Ht|exact He|intros h; reflexivity].
  cbn beta. by rewrite !sample_scanned by (by left).
Defined.

Lemma braced_functions_measured_witness :
  ∃ spans, in_order 0 spans ∧ length spans = 1%nat.
Proof.
  destruct (braced_functions_measured no_word id sample_root sample_source (sample_text 11) "go" [sample_metric 11]) as (spans & H & Ho & _).
  - vm_compute. reflexivity.
  - exists spans. split; [done|]. apply Forall2_length in H. done.
Defined.

(** A comment marker inside a text hides the brace after it: the function has no
    end, and is not measured. *)
Definition url_text : string :=
  "func f() { get(" +:+ String QUOTE ("http://x" +:+ String QUOTE (") }" +:+ NEWLINE +:+ "func g() { }")).

Example url_hides_function :
  scan_braced_language no_word id sample_root sample_source url_text "go"
  = Ok [mkMetric "services/media-control/cmd/a.go::g::1" "services/media-control/cmd/a.go" "go" "g" 2 1 1 "func g() { }"].
Proof. vm_compute. reflexivity. Qed.

(** Generic functions in Go and extension functions in Kotlin match no pattern. *)
Example generic_function_unmeasured :
  re_search (FUNCTION_PATTERNS no_word "go") "func Map[T any](x T) {" = None
  ∧ re_search (FUNCTION_PATTERNS no_word "kotlin") "fun String.shout() {" = None.
Proof. vm_compute. done. Qed.

(** An edited offender passes, whatever its new text, when it has not grown: the
    hash is compared with the baseline of the same tree only. *)
Example edited_offender_passes :
  let edited := mkMetric (key (sample_metric 11)) (path (sample_metric 11)) "go" "f" 1 1 12 "another text" in
  check_recorded (baseline_payload [edited]) [edited] = Ok []
  ∧ compare_reference_baseline (λ _, "") (baseline_payload [edited]) (baseline_payload [sample_metric 11]) "HEAD" = Ok [].
Proof. vm_compute. done. Qed.

(** Below a directory named test nothing is a source. *)
Example checkout_below_test :
  production_sources (mkPath true ["test"; "r"]) (λ root, [path_div root "main.go"])
    (mkFiles (λ _, Ok true) (λ _, Ok false) (λ _, Ok 0) (λ _, Ok 0) (λ _, Ok [])) = Ok [].
Proof. vm_compute. reflexivity. Qed.
