(* ===== verification/CriticalCode.v ===== *)
(** The critical code contract: [scripts/gates/critical_code_contract.py].

    Patterns that hide errors, leak credentials or own no timeout are refused,
    in the text of every source and in the syntax tree of the Python ones.
    Parameters: the Python parser, which characters above ASCII are word
    characters, and what [rglob] lists. *)

From stdpp Require Import base list strings.
From Stdlib Require Import ZArith Lia Floats Ascii.
From S2P Require Import Prelude PyStr PyStrFacts PyTime PyJson PyText Host Effects Evidence PyRegex PyAst SourceTree.

#[local] Open Scope Z_scope.

(** [scripts/gates/critical_code_contract.py:19-20] the suffixes and the excluded directories *)
Definition SOURCE_SUFFIXES : list string := [".go"; ".kt"; ".py"; ".ts"; ".tsx"].
Definition EXCLUDED_PARTS : list string := ["__pycache__"; "generated"; "node_modules"; "test"; "tests"].

(** [scripts/gates/critical_code_contract.py:28-33] Violation *)
Record Violation : Type := mkViolation { v_path : fs_path; v_line : Z; v_rule : string; v_detail : string }.

(** ** Syntax trees *)

(** [scripts/gates/critical_code_contract.py:100-113] is_unbounded_python_http_call *)
Definition is_unbounded_python_http_call (node : ast) : bool :=
  let func := node_field node "func" in
  let module_ := node_field func "value" in
  if negb (isinstance func ["Attribute"]) || negb (isinstance module_ ["Name"]) then false
  else if negb (in_list (ast_str (node_field module_ "id")) ["requests"; "httpx"])
          || negb (in_list (ast_str (node_field func "attr")) ["delete"; "get"; "head"; "patch"; "post"; "put"; "request"]) then false
  else negb (existsb (λ keyword, String.eqb (ast_str (node_field keyword "arg")) "timeout") (ast_items (node_field node "keywords"))).

(** [scripts/gates/critical_code_contract.py:116-117] is_broad_exception *)
Definition is_broad_exception (node : ast) : bool :=
  isinstance node ["Name"] && in_list (ast_str (node_field node "id")) ["Exception"; "BaseException"].

(** [value in {None, False, ""}] of a constant: numbers that are zero equal [False]. *)
Definition plausible_constant (c : ast) : bool :=
  match c with
  | Const (CJson v) => py_eq v JNull || py_eq v (JBool false) || py_eq v (JStr "")
  | Const (CComplex is_zero) => is_zero
  | _ => false
  end.

Definition no_items (v : ast) : bool := match ast_items v with [] => true | _ => false end.

(** [scripts/gates/critical_code_contract.py:120-132] handler_returns_plausible_default *)
Definition handler_returns_plausible_default (body : list ast) : bool :=
  match body with
  | [statement] =>
      if negb (isinstance statement ["Return"]) then false else
      let value := node_field statement "value" in
      if is_none value then true
      else if isinstance value ["Constant"] then plausible_constant (node_field value "value")
      else if isinstance value ["Dict"] then no_items (node_field value "keys")
      else if isinstance value ["List"; "Set"; "Tuple"] then no_items (node_field value "elts")
      else false
  | _ => false
  end.

Definition is_ellipsis (v : ast) : bool := match v with Const CEllipsis => true | _ => false end.

(** A body of one statement that does nothing. *)
Definition discards_failure (body : list ast) : bool :=
  match body with
  | [expression] =>
      isinstance expression ["Pass"] || isinstance expression ["Expr"] && is_ellipsis (node_field expression "value")
  | _ => false
  end.

Definition flag (b : bool) (v : Violation) : list Violation := if b then [v] else [].

(** What one node of the walk adds in [scan_python]. *)
Definition scan_node (p : fs_path) (node : ast) : list Violation :=
  flag (isinstance node ["Call"] && is_unbounded_python_http_call node)
    (mkViolation p (node_lineno node) "PY_HTTP_NO_TIMEOUT" "package-level HTTP call has no explicit timeout")
  ++ (if negb (isinstance node ["ExceptHandler"]) then [] else
      let body := ast_items (node_field node "body") in
      flag (is_none (node_field node "type"))
        (mkViolation p (node_lineno node) "PY_BARE_EXCEPT" "bare except hides the failure class")
      ++ flag (discards_failure body)
           (mkViolation p (node_lineno node) "PY_EMPTY_EXCEPT" "exception handler discards the failure")
      ++ flag (is_broad_exception (node_field node "type") && handler_returns_plausible_default body)
           (mkViolation p (node_lineno node) "PY_SWALLOWED_EXCEPTION" "broad exception becomes a success-like default")).

(** ** Texts *)

(** A letter without regard to case; four letters above ASCII fold to [i], [k] or [s]. *)
Definition ci_char (a : ascii) (x : char) : bool :=
  match x with
  | String b "" => Ascii.eqb (lower_ascii a) (lower_ascii b)
  | String b (String c "") =>
      (Z.eqb (code b) 197 && Z.eqb (code c) 191 && Ascii.eqb (lower_ascii a) "s")
      || (Z.eqb (code b) 196 && (Z.eqb (code c) 176 || Z.eqb (code c) 177) && Ascii.eqb (lower_ascii a) "i")
  | String b (String c (String d "")) =>
      Z.eqb (code b) 226 && Z.eqb (code c) 132 && Z.eqb (code d) 170 && Ascii.eqb (lower_ascii a) "k"
  | _ => false
  end.
Definition ci_lit (s : string) : regex := fold_right (λ a r, Seq (Cls (ci_char a)) r) Eps (String.list_ascii_of_string s).

(** [scripts/gates/critical_code_contract.py:21-25] SENSITIVE_NAME and LOG_CALL *)
Definition SENSITIVE_NAME : regex :=
  alts (ci_lit <$> ["credential"; "password"; "secret"; "bearer"; "authorization"; "cookie"; "refresh_token"; "access_token";
                    "publish_token"; "playback_token"; "uuid"; "device_uuid"; "stream_id"]).
Definition LOG_CALL : regex :=
  seqs [alts (ci_lit <$> ["log"; "logger"]); ch ".";
        alts (ci_lit <$> ["trace"; "debug"; "info"; "warn"; "warning"; "error"; "exception"; "critical"])].

Section contract.
Context (word_other : char → bool) (parse : string → result ast) (REPO_ROOT : fs_path) (rglob : fs_path → list fs_path).

Local Notation edge := (word_edge word_other).

(** The patterns of [scan_text]: their rules, and their details. *)
Definition PATTERNS : list (string * regex * string) :=
  [("EMPTY_CATCH", seqs [lit "catch"; spaces; opt (seqs [ch "("; Rep (none_of ")"); ch ")"]); spaces; ch "{"; spaces; ch "}"],
    "empty catch discards the failure");
   ("GO_HTTP_NO_TIMEOUT", seqs [opt (Seq (ch "&") spaces); lit "http.Client"; spaces; ch "{"; spaces; ch "}"],
    "Go HTTP client has no timeout");
   ("GO_PACKAGE_HTTP_CALL",
    seqs [edge; lit "http."; alts (lit <$> ["Get"; "Post"; "PostForm"; "Head"]); spaces; ch "("],
    "package-level Go HTTP call has no owned timeout");
   ("GO_UNSTOPPABLE_TICKER", seqs [edge; lit "time.Tick"; spaces; ch "("],
    "time.Tick cannot be stopped; own a time.NewTicker lifecycle");
   ("KOTLIN_GLOBAL_SCOPE", seqs [edge; lit "GlobalScope"; spaces; ch "."], "global coroutine scope has no bounded owner");
   ("SENSITIVE_LOG_INTERPOLATION",
    seqs [LOG_CALL; Rep any_char;
          alts [seqs [lit "${"; spaces; SENSITIVE_NAME; edge]; seqs [ch "{"; spaces; SENSITIVE_NAME; spaces; ch "}"];
                seqs [ch ","; spaces; SENSITIVE_NAME; edge]]],
    "credential-bearing value is interpolated into a log call")].

(** [text.count("\n", 0, match.start()) + 1] *)
Definition line_of (m : found) : Z := Z.of_nat (length (List.filter (is_char "010") (behind (m_start m)))) + 1.

(** [scripts/gates/critical_code_contract.py:135-175] scan_text *)
Definition scan_text (p : fs_path) (text : string) : list Violation :=
  flat_map (λ '(rule, pattern, detail), map (λ m, mkViolation p (line_of m) rule detail) (re_finditer pattern text)) PATTERNS.

(** [scripts/gates/critical_code_contract.py:53-97] scan_python *)
Definition scan_python (p : fs_path) (text : string) : result (list Violation) :=
  tree ← parse text;
  Ok (flat_map (scan_node p) (walk tree)).

(** [scripts/gates/critical_code_contract.py:12-18] SOURCE_ROOTS *)
Definition SOURCE_ROOTS : list fs_path :=
  path_div REPO_ROOT <$> ["backend"; "gcs-dashboard/src"; "services/auth-policy/src/main"; "services/media-control/cmd";
                          "services/media-control/internal"].

(** [scripts/gates/critical_code_contract.py:36-50] sources: the test of one path, and the list *)
Definition is_source (fs : files) (p : fs_path) : result bool :=
  is_file ← fs_is_file fs p;
  Ok (is_file && in_list (path_suffix p) SOURCE_SUFFIXES
      && negb (existsb (λ part, in_list part EXCLUDED_PARTS) (path_parts p) || contains ".test." (path_name p)
               || contains "_test." (path_name p) || endswith "Test.kt" (path_name p))).
Definition sources (fs : files) : result (list fs_path) := files_below rglob (is_source fs) SOURCE_ROOTS.

Definition scan_source (fs : files) (p : fs_path) : result (list Violation) :=
  text ← fs_text fs p;
  found ← (if String.eqb (path_suffix p) ".py" then scan_python p text else Ok []);
  Ok (found ++ scan_text p text).

Definition violation_line (v : Violation) : result string :=
  relative ← relative_to (v_path v) REPO_ROOT;
  Ok (path_str relative +:+ ":" +:+ str_of_Z (v_line v) +:+ ": " +:+ v_rule v +:+ " " +:+ v_detail v).

(** [scripts/gates/critical_code_contract.py:178-192] main *)
Definition main (fs : history → files) : eff Z :=
  checked ← reading fs sources;
  found ← reading fs (λ fs, mapM (scan_source fs) checked);
  match concat found with
  | [] =>
      _ ← print (JStr ("critical code contract passed for " +:+ str_of_Z (Z.of_nat (length checked)) +:+ " production files"));
      mret 0
  | violations =>
      _ ← for_each (λ v, line ← lift (violation_line v); print (JStr line)) violations;
      mret 1
  end.
End contract.

(** ** What a passed contract says *)

Lemma flat_map_nil {A B} (f : A → list B) l : flat_map f l = [] ↔ ∀ a, a ∈ l → f a = [].
Proof.
  induction l as [|a l IH]; cbn; [by split; [intros _ ? ?%elem_of_nil|]|]. rewrite app_nil, IH. setoid_rewrite elem_of_cons. naive_solver.
Qed.

Section facts.
Context (word_other : char → bool) (parse : string → result ast).

(** The parser's tree is a node, its module. *)
Hypothesis parse_node : ∀ text tree, parse text = Ok tree → is_node tree = true.

Lemma patterns_consuming rule pattern detail : (rule, pattern, detail) ∈ PATTERNS word_other → consuming pattern.
Proof.
  unfold PATTERNS. rewrite !elem_of_cons, elem_of_nil.
  intros [[= -> -> ->]|[[= -> -> ->]|[[= -> -> ->]|[[= -> -> ->]|[[= -> -> ->]|[[= -> -> ->]|[]]]]]]].
  - by apply consuming_seq_l, consuming_lit.
  - by apply consuming_seq_r, consuming_seq_l, consuming_lit.
  - by apply consuming_seq_r, consuming_seq_l, consuming_lit.
  - by apply consuming_seq_r, consuming_seq_l, consuming_lit.
  - by apply consuming_seq_r, consuming_seq_l, consuming_lit.
  - apply consuming_seq_l, consuming_seq_r, consuming_seq_l, consuming_cls.
Qed.

(** No pattern matches anywhere in the text. *)
Definition text_clean (text : string) : Prop :=
  ∀ rule pattern detail n c', (rule, pattern, detail) ∈ PATTERNS word_other → (n <= length (chars text))%nat →
    ¬ derives pattern (place (chars text) n) c'.

Lemma scan_text_nil p text : scan_text word_other p text = [] ↔ text_clean text.
Proof.
  unfold scan_text, text_clean. rewrite flat_map_nil. split.
  - intros H rule pattern detail n c' Hin. specialize (H _ Hin). cbn beta iota in H. apply map_eq_nil in H.
    rewrite re_finditer_nil in H by (by eapply patterns_consuming). apply H.
  - intros H [[rule pattern] detail] Hin. assert (re_finditer pattern text = []) as ->; [|done].
    apply re_finditer_nil; [by eapply patterns_consuming|]. intros n c'. by eapply H.
Qed.

(** A node that the contract accepts. *)
Definition node_clean (node : ast) : Prop :=
  (isinstance node ["Call"] = true → is_unbounded_python_http_call node = false)
  ∧ (isinstance node ["ExceptHandler"] = true → let body := ast_items (node_field node "body") in
       is_none (node_field node "type") = false ∧ discards_failure body = false
       ∧ (is_broad_exception (node_field node "type") = true → handler_returns_plausible_default body = false)).

Lemma scan_node_nil p node : scan_node p node = [] ↔ node_clean node.
Proof.
  unfold scan_node, node_clean, flag.
  destruct (isinstance node ["Call"]), (isinstance node ["ExceptHandler"]); cbn [andb negb];
    destruct (is_unbounded_python_http_call node), (is_none _), (discards_failure _), (is_broad_exception _),
      (handler_returns_plausible_default _); cbn; naive_solver.
Qed.

(** A source that the contract accepts. *)
Definition source_clean (fs : files) (p : fs_path) : Prop :=
  ∃ text, fs_text fs p = Ok text ∧ text_clean text
    ∧ (path_suffix p = ".py" → ∃ tree, parse text = Ok tree ∧ ∀ node, inside node tree → node_clean node).

Lemma scan_python_nil p text : scan_python parse p text = Ok [] ↔
  ∃ tree, parse text = Ok tree ∧ ∀ node, inside node tree → node_clean node.
Proof using parse_node.
  unfold scan_python. split.
  - intros (tree & Ht & [= H])%bind_Ok. exists tree. split; [done|]. rewrite flat_map_nil in H. intros node Hn.
    apply (scan_node_nil p), H. apply elem_of_walk; [by eapply parse_node|done].
  - intros (tree & -> & H). cbn. f_equal. apply flat_map_nil. intros node Hn. apply scan_node_nil, H.
    apply elem_of_walk; [|done]. destruct tree; try done; by apply elem_of_nil in Hn.
Qed.

Lemma scan_source_nil fs p : scan_source word_other parse fs p = Ok [] ↔ source_clean fs p.
Proof using parse_node.
  unfold scan_source, source_clean. split.
  - intros (text & Ht & (found & Hf & [= H])%bind_Ok)%bind_Ok. apply app_eq_nil in H as [-> H]. apply scan_text_nil in H.
    exists text. split_and!; [done|done|]. intros Hs. rewrite Hs in Hf. by apply scan_python_nil in Hf.
  - intros (text & -> & Hc & Hp). cbn [mbind result_bind]. apply (scan_text_nil p) in Hc. rewrite Hc.
    destruct (String.eqb_spec (path_suffix p) ".py") as [Hs|]; [|done]. apply Hp, scan_python_nil with (p := p) in Hs. by rewrite Hs.
Qed.

Context (REPO_ROOT : fs_path) (rglob : fs_path → list fs_path).

(** C20: The contract passes exactly when every source below the roots can be
    read and is clean: no pattern matches anywhere in its text, and in a Python
    source no node, however deep, is an HTTP call without a time-out, a bare
    [except], a handler that only passes, or a broad one that returns a
    plausible default. *)
Theorem contract_passes_iff fs h :
  (∃ t, main word_other parse REPO_ROOT rglob fs h = (Some (Ok 0), t)) ↔
  ∃ checked, sources REPO_ROOT rglob (fs h) = Ok checked ∧ Forall (source_clean (fs h)) checked
    ∧ ∀ p, p ∈ checked ↔ (∃ root, root ∈ SOURCE_ROOTS REPO_ROOT ∧ p ∈ rglob root) ∧ is_source (fs h) p = Ok true.
Proof using parse_node.
  unfold main. split.
  - intros (t & H). apply eff_bind_Ok in H as (checked & t1 & t2 & Hc & H & ->). injection Hc as Hc <-. rewrite app_nil_r in H.
    apply eff_bind_Ok in H as (found & t3 & t4 & Hf & H & ->). injection Hf as Hf <-.
    destruct (concat found) as [|v vs] eqn:E; [|by apply eff_bind_Ok in H as (? & ? & ? & _ & [= ?] & _)].
    exists checked. split; [done|]. split; [|by eapply files_below_spec]. apply mapM_Ok in Hf. apply Forall_forall. intros p Hp.
    apply scan_source_nil. apply list_elem_of_lookup in Hp as [i Hi]. destruct (Forall2_lookup_l _ _ _ _ _ Hf Hi) as (x & Hx & ->).
    f_equal. apply list_elem_of_lookup_2 in Hx. clear -E Hx. induction Hx as [x l|x y l _ IH]; cbn in E; apply app_eq_nil in E as [E1 E2]; [done|by apply IH].
  - intros (checked & Hc & Hf & _). unfold reading. unfold mbind at 1, eff_bind at 1. rewrite Hc, app_nil_r.
    unfold mbind at 1, eff_bind at 1.
    assert (mapM (scan_source word_other parse (fs h)) checked = Ok (replicate (length checked) [])) as ->.
    { clear Hc. induction Hf as [|p l Hp Hf IH]; [done|]. cbn. apply scan_source_nil in Hp. rewrite Hp. cbn. by rewrite IH. }
    assert (concat (replicate (length checked) (@nil Violation)) = []) as -> by (by induction (length checked)). by eexists.
Qed.
End facts.

(** ** Examples *)

Definition plain_word : char → bool := λ _, false.
Definition repository : fs_path := mkPath true ["r"].
Definition one_source : fs_path := mkPath true ["r"; "services"; "media-control"; "cmd"; "a.go"].
Definition one_file (root : fs_path) : list fs_path :=
  if bool_decide (root = mkPath true ["r"; "services"; "media-control"; "cmd"]) then [one_source] else [].
Definition holding (text : string) : files :=
  mkFiles (λ _, Ok true) (λ _, Ok false) (λ _, Ok 0) (λ _, Ok 0) (λ _, Ok (utf8_encode text)).

Lemma parse_module (text : string) tree : Ok (Node "Module" 0 None []) = Ok tree → is_node tree = true.
Proof. by intros [= <-]. Qed.

Lemma holding_passes : main plain_word (λ _, Ok (Node "Module" 0 None [])) repository one_file (λ _, holding "catch (e) { log(e) }") []
  = (Some (Ok 0), [Printed (JStr "critical code contract passed for 1 production files")]).
Proof. vm_compute. reflexivity. Qed.

Lemma contract_passes_iff_witness : text_clean plain_word "catch (e) { log(e) }".
Proof.
  destruct (proj1 (contract_passes_iff plain_word (λ _, Ok (Node "Module" 0 None [])) parse_module
                     repository one_file (λ _, holding "catch (e) { log(e) }") []) (ex_intro _ _ holding_passes))
    as (checked & _ & Hf & Hc).
  rewrite Forall_forall in Hf. destruct (Hf one_source) as (text & Ht & Hclean & _).
  - apply Hc. split; [|reflexivity]. exists (mkPath true ["r"; "services"; "media-control"; "cmd"]). split; [right; right; right; left|left].
  - injection Ht as <-. exact Hclean.
Defined.

(** What is reported, and on which line. *)
Example empty_catch_reported :
  map v_line (scan_text plain_word one_source ("try {" +:+ String "010" ("} catch (e) {" +:+ String "010" "}"))) = [2].
Proof. vm_compute. reflexivity. Qed.

Example password_in_log_reported :
  map v_rule (scan_text plain_word one_source "Logger.INFO(user, PASSWORD)") = ["SENSITIVE_LOG_INTERPOLATION"].
Proof. vm_compute. reflexivity. Qed.

(** The value of an expression statement is a node, which is never the object
    [Ellipsis]: a handler whose body is [...] is not reported. *)
Definition ellipsis_handler : ast :=
  Node "ExceptHandler" 3 (Some 4)
    [("type", Node "Name" 3 (Some 3) [("id", Const (CJson (JStr "ValueError")))]); ("name", ast_none);
     ("body", Many [Node "Expr" 4 (Some 4) [("value", Node "Constant" 4 (Some 4) [("value", Const CEllipsis)])]])].

Example ellipsis_handler_undetected : scan_node one_source ellipsis_handler = [].
Proof. reflexivity. Qed.

(** Below a directory named test every source is excluded, and the contract
    passes for no file. *)
Example contract_below_test :
  main plain_word (λ _, Ok ast_none) (mkPath true ["test"; "r"]) (λ root, [path_div root "a.go"]) (λ _, holding "catch {}") []
  = (Some (Ok 0), [Printed (JStr "critical code contract passed for 0 production files")]).
Proof. vm_compute. reflexivity. Qed.
