(* ===== verification/PostgisSmoke.v ===== *)
(** The PostGIS smoke test: [scripts/smoke/postgis_runtime_smoke.py].

    Six SQL commands run through [psql] in the database container, and the plan
    of the viewport query is summarised.  Parameters: the JSON parser, [repr],
    [lower] and [int] beyond ASCII.  The report is what [FinalEvidence] reads. *)

From stdpp Require Import base list strings.
From Stdlib Require Import ZArith Lia Floats Ascii.
From S2P Require Import Prelude PyStr PyStrFacts PyTime PyJson PyText Host Effects Evidence FinalEvidence.

#[local] Open Scope Z_scope.

Definition SCHEMA_VERSION : string := "postgis-runtime-smoke-v1".

(** [scripts/smoke/postgis_runtime_smoke.py:17-23] PostGISSmokeConfig *)
Record PostGISSmokeConfig : Type := mkConfig {
  compose_file : fs_path;
  env_file : fs_path;
  service : string;
  database : string;
  user : string
}.

(** [scripts/smoke/postgis_runtime_smoke.py:25-45] PostGISSmokeConfig.docker_compose_command *)
Definition docker_compose_command (self : PostGISSmokeConfig) : list string :=
  ["docker"; "compose"; "--env-file"; path_str (env_file self); "-f"; path_str (compose_file self); "--profile"; "geo"; "exec"; "-T";
   service self; "psql"; "-U"; user self; "-d"; database self; "-v"; "ON_ERROR_STOP=1"].

(** [scripts/smoke/postgis_runtime_smoke.py:47-56] PostGISSmokeConfig.psql_command *)
Definition psql_command (self : PostGISSmokeConfig) (sql : string) : list string :=
  docker_compose_command self ++ ["-X"; "-q"; "-t"; "-A"; "-c"; sql].

(** ** The statements *)

Definition LINE : string := String "010" "".

(** A text between triple quotes: a line break, the lines, a line break. *)
Definition text_block (lines : list string) : string := LINE +:+ join LINE lines +:+ LINE.
Definition quote (s : string) : string := String "034" (s +:+ String "034" "").

Definition TELEMETRY_COLUMNS : list string :=
  ["    org_id,"; "    group_id,"; "    asset_id,"; "    stream_id,"; "    event_id,"; "    observed_at,"; "    position,";
   "    altitude_m,"; "    heading_deg,"; "    speed_mps,"; "    battery_percent,"; "    source_protocol,"; "    payload_format"].

Definition telemetry_values (event observed point altitude heading speed battery : string) : list string :=
  ["    'co-a',"; "    'alpha',"; "    'drn-01',"; "    'raw.mobile.front',"; "    '" +:+ event +:+ "',"; "    " +:+ observed +:+ ",";
   "    ST_SetSRID(ST_MakePoint(" +:+ point +:+ "), 4326),"; "    " +:+ altitude +:+ ","; "    " +:+ heading +:+ ",";
   "    " +:+ speed +:+ ","; "    " +:+ battery +:+ ","; "    'protobuf',"; "    'telemetry.v1'"].

(** [scripts/smoke/postgis_runtime_smoke.py:59-145] POSTGIS_HISTORY_LATEST_SQL *)
Definition POSTGIS_HISTORY_LATEST_SQL : string :=
  text_block
    (["INSERT INTO gcs_geo.stream_telemetry_points ("] ++ TELEMETRY_COLUMNS ++ [") VALUES"; "("]
     ++ telemetry_values "smoke-history-001" "now() - interval '2 seconds'" "128.6004, 35.8704" "118.0" "6.0" "10.5" "92.0"
     ++ ["),"; "("]
     ++ telemetry_values "smoke-history-002" "now()" "128.6014, 35.8714" "120.0" "7.0" "12.5" "91.0"
     ++ [") ON CONFLICT (org_id, group_id, asset_id, event_id) DO NOTHING;"; "INSERT INTO gcs_geo.stream_telemetry_latest ("]
     ++ TELEMETRY_COLUMNS ++ [") VALUES ("]
     ++ telemetry_values "smoke-history-002" "now()" "128.6014, 35.8714" "120.0" "7.0" "12.5" "91.0"
     ++ [") ON CONFLICT (org_id, group_id, stream_id) DO UPDATE SET"; "    event_id = EXCLUDED.event_id,";
         "    observed_at = EXCLUDED.observed_at,"; "    position = EXCLUDED.position,"; "    altitude_m = EXCLUDED.altitude_m,";
         "    heading_deg = EXCLUDED.heading_deg,"; "    speed_mps = EXCLUDED.speed_mps,";
         "    battery_percent = EXCLUDED.battery_percent,"; "    source_protocol = EXCLUDED.source_protocol,";
         "    payload_format = EXCLUDED.payload_format,"; "    received_at = now()"; "RETURNING stream_id;"]).

(** [scripts/smoke/postgis_runtime_smoke.py:147-164] POSTGIS_LATEST_JSON_SQL *)
Definition POSTGIS_LATEST_JSON_SQL : string :=
  text_block
    ["SELECT json_build_object("; "    'streamId', stream_id,"; "    'assetId', asset_id,"; "    'longitude', ST_X(position),";
     "    'latitude', ST_Y(position),"; "    'altitudeM', altitude_m,"; "    'headingDeg', heading_deg,"; "    'speedMps', speed_mps,";
     "    'batteryPercent', battery_percent,"; "    'sourceProtocol', source_protocol,"; "    'payloadFormat', payload_format"; ")::text";
     "FROM gcs_geo.stream_telemetry_latest"; "WHERE org_id = 'co-a'"; "  AND group_id = 'alpha'"; "  AND stream_id = 'raw.mobile.front';"].

(** [scripts/smoke/postgis_runtime_smoke.py:166-173] POSTGIS_HISTORY_COUNT_SQL *)
Definition POSTGIS_HISTORY_COUNT_SQL : string :=
  text_block
    ["SELECT count(*)::int"; "FROM gcs_geo.stream_telemetry_points"; "WHERE org_id = 'co-a'"; "  AND group_id = 'alpha'";
     "  AND stream_id = 'raw.mobile.front'"; "  AND event_id IN ('smoke-history-001', 'smoke-history-002');"].

(** [scripts/smoke/postgis_runtime_smoke.py:175-190] POSTGIS_VIEWPORT_JSON_SQL *)
Definition POSTGIS_VIEWPORT_JSON_SQL : string :=
  text_block
    ["SELECT coalesce(json_agg(row_to_json(viewport_rows)), '[]'::json)::text"; "FROM (";
     "    SELECT stream_id AS " +:+ quote "streamId" +:+ ","; "           asset_id AS " +:+ quote "assetId" +:+ ",";
     "           ST_X(position) AS longitude,"; "           ST_Y(position) AS latitude,";
     "           observed_at AS " +:+ quote "observedAt"; "    FROM gcs_geo.stream_telemetry_latest"; "    WHERE org_id = 'co-a'";
     "      AND group_id = 'alpha'"; "      AND position && ST_MakeEnvelope(128.55, 35.84, 128.65, 35.9, 4326)";
     "    ORDER BY observed_at DESC"; "    LIMIT 10"; ") AS viewport_rows;"].

(** [scripts/smoke/postgis_runtime_smoke.py:192-201] POSTGIS_VIEWPORT_EXPLAIN_SQL *)
Definition POSTGIS_VIEWPORT_EXPLAIN_SQL : string :=
  text_block
    ["EXPLAIN (ANALYZE, BUFFERS, WAL)"; "SELECT stream_id, asset_id, ST_X(position) AS longitude, ST_Y(position) AS latitude";
     "FROM gcs_geo.stream_telemetry_latest"; "WHERE org_id = 'co-a'"; "  AND group_id = 'alpha'";
     "  AND position && ST_MakeEnvelope(128.55, 35.84, 128.65, 35.9, 4326)"; "ORDER BY observed_at DESC"; "LIMIT 10;"].

(** [scripts/smoke/postgis_runtime_smoke.py:203-206] POSTGIS_VIEWPORT_EXPLAIN_JSON_SQL: the text occurs once *)
Definition POSTGIS_VIEWPORT_EXPLAIN_JSON_SQL : string :=
  replace_first "EXPLAIN (ANALYZE, BUFFERS, WAL)" "EXPLAIN (ANALYZE, BUFFERS, WAL, FORMAT JSON)" POSTGIS_VIEWPORT_EXPLAIN_SQL.

(** [scripts/smoke/postgis_runtime_smoke.py:208-216] POSTGIS_RUNTIME_SQL *)
Definition POSTGIS_RUNTIME_SQL : string :=
  join LINE (strip <$> [POSTGIS_HISTORY_LATEST_SQL; POSTGIS_LATEST_JSON_SQL; POSTGIS_HISTORY_COUNT_SQL; POSTGIS_VIEWPORT_JSON_SQL;
                        POSTGIS_VIEWPORT_EXPLAIN_SQL]).

(** ** The plan *)

(** [scripts/smoke/postgis_runtime_smoke.py:345-349] flatten_plan; every level of nesting takes one unit of fuel *)
Fixpoint flatten_plan_fuel (fuel : nat) (node : jval) : result (list jval) :=
  match fuel with
  | O => Ok []
  | S fuel =>
      plans ← j_get_or node "Plans" (JList []);
      children ← j_items plans;
      below ← mapM (flatten_plan_fuel fuel) children;
      Ok (node :: concat below)
  end.
Definition flatten_plan (node : jval) : result (list jval) := flatten_plan_fuel (depth node) node.

Section smoke.
Context (json_loads : string → result jval) (py_repr : jval → string) (unicode_lower : string → string)
  (int_other : string → option Z).

(** [sum(int(node.get(key, 0)) for node in nodes)] *)
Definition sum_of (nodes : list jval) (key : string) : result jval :=
  values ← mapM (λ node, v ← j_get_or node key (JInt 0); j_int int_other v) nodes;
  Ok (JInt (foldr Z.add 0 values)).

Definition FILTER_KEYS : list string := ["Index Cond"; "Filter"; "Recheck Cond"].

Definition filter_texts (node : jval) : result (list string) :=
  mapM (λ key, v ← j_get_or node key (JStr ""); Ok (py_str py_repr v)) FILTER_KEYS.

(** [scripts/smoke/postgis_runtime_smoke.py:324-342] summarize_plan *)
Definition summarize_plan (explain : jval) : result jval :=
  first ← j_index explain 0;
  root ← j_getitem first "Plan";
  nodes ← flatten_plan root;
  node_types ← mapM (λ node, j_get node "Node Type") nodes;
  names ← mapM (λ node, j_get node "Index Name") nodes;
  texts ← mapM filter_texts nodes;
  let filters := join " " (concat texts) in
  root_type ← j_get root "Node Type";
  hit ← sum_of nodes "Shared Hit Blocks";
  read ← sum_of nodes "Shared Read Blocks";
  dirtied ← sum_of nodes "Shared Dirtied Blocks";
  written ← sum_of nodes "Shared Written Blocks";
  wal_records ← sum_of nodes "WAL Records";
  wal_bytes ← sum_of nodes "WAL Bytes";
  execution_time ← j_get first "Execution Time";
  Ok (JObj [("rootNode", root_type); ("nodeTypes", JList node_types); ("indexNames", JList (List.filter j_truthy names));
            ("usesSpatialCondition", JBool (contains "st_makeenvelope" (lower unicode_lower filters) || contains "&&" filters));
            ("sharedHitBlocks", hit); ("sharedReadBlocks", read); ("sharedDirtiedBlocks", dirtied); ("sharedWrittenBlocks", written);
            ("walRecords", wal_records); ("walBytes", wal_bytes); ("executionTimeMs", execution_time)]).

(** ** The run *)

Context (w : world) (stderr : history → string).

(** The standard error of the last process. *)
Definition last_stderr : eff string := λ h, (Some (Ok (stderr h)), []).

(** [scripts/smoke/postgis_runtime_smoke.py:318-321] answer_text: the answer without blank lines and outer white space *)
Definition answer_text (stdout : string) : string := join LINE (List.filter truthy (strip <$> splitlines stdout)).

(** [scripts/smoke/postgis_runtime_smoke.py:308-321] run_psql *)
Definition run_psql (config : PostGISSmokeConfig) (sql : string) : eff string :=
  '(returncode, stdout) ← execute w (psql_command config sql);
  err ← last_stderr;
  if negb (returncode =? 0) then raise ExcRuntimeError (if truthy (strip err) then strip err else strip stdout) else
  mret (answer_text stdout).

(** The verdict of [run_runtime]. *)
Definition runtime_passed (postgis_version upserted_stream : string) (latest : jval) (history_count : Z) (viewport_rows summary : jval) :
    result bool :=
  and_r (Ok (truthy postgis_version)) (and_r (Ok (String.eqb upserted_stream "raw.mobile.front"))
    (and_r (v ← j_getitem latest "streamId"; Ok (py_eq v (JStr "raw.mobile.front")))
      (and_r (v ← j_getitem latest "assetId"; Ok (py_eq v (JStr "drn-01")))
        (and_r (Ok (2 <=? history_count))
          (and_r (rows ← j_items viewport_rows; any_in (λ row, v ← j_getitem row "streamId"; Ok (py_eq v (JStr "raw.mobile.front"))) rows)
            (v ← j_getitem summary "usesSpatialCondition"; Ok (j_truthy v))))))).

(** [scripts/smoke/postgis_runtime_smoke.py:279-305] run_runtime *)
Definition run_runtime (config : PostGISSmokeConfig) : eff jval :=
  postgis_version ← run_psql config "SELECT postgis_version();";
  upserted_stream ← run_psql config POSTGIS_HISTORY_LATEST_SQL;
  latest_text ← run_psql config POSTGIS_LATEST_JSON_SQL;
  latest ← lift (json_loads latest_text);
  count_text ← run_psql config POSTGIS_HISTORY_COUNT_SQL;
  history_count ← lift (py_int int_other count_text);
  viewport_text ← run_psql config POSTGIS_VIEWPORT_JSON_SQL;
  viewport_rows ← lift (json_loads viewport_text);
  explain_text ← run_psql config POSTGIS_VIEWPORT_EXPLAIN_JSON_SQL;
  explain ← lift (json_loads explain_text);
  plan_summary ← lift (summarize_plan explain);
  passed ← lift (runtime_passed postgis_version upserted_stream latest history_count viewport_rows plan_summary);
  mret (JObj [("schemaVersion", JStr SCHEMA_VERSION); ("passed", JBool passed); ("postgisVersion", JStr postgis_version);
              ("historyRowsForSmoke", JInt history_count); ("latest", latest); ("viewportRows", viewport_rows); ("explain", plan_summary)]).

Definition failed_report (reason : string) : jval :=
  JObj [("schemaVersion", JStr SCHEMA_VERSION); ("passed", JBool false); ("reason", JStr reason)].

(** [scripts/smoke/postgis_runtime_smoke.py:247-263] contract: what [--check] prints *)
Definition contract (config : PostGISSmokeConfig) : jval :=
  JObj [("schemaVersion", JStr SCHEMA_VERSION); ("command", JList (JStr <$> docker_compose_command config));
        ("checks", JList (JStr <$> ["postgis_version"; "history_append"; "latest_upsert_conflict"; "latest_selected_stream_read";
                                    "bounded_map_query_json"; "bounded_map_query_explain_analyze_buffers_wal"]));
        ("sql", JStr (strip POSTGIS_RUNTIME_SQL))].

(** [scripts/smoke/postgis_runtime_smoke.py:236-276] main, from the parsed arguments *)
Definition main (check : bool) (config : PostGISSmokeConfig) : eff Z :=
  if check then
    _ ← print (contract config);
    mret 0
  else
    runtime ← try_except (run_runtime config) [ExcRuntimeError] (λ reason, mret (failed_report reason));
    _ ← print runtime;
    passed ← lift (j_getitem runtime "passed");
    mret (if j_truthy passed then 0 else 1).
End smoke.

(** ** The plan, once more *)

Lemma depth_dict d k v : dict_get d k = Some v → (depth v < depth (JObj d))%nat.
Proof.
  intros H%dict_get_elem. cbn [depth]. apply Nat.lt_succ_r. induction d as [|[k' v'] d IH]; [by apply elem_of_nil in H|].
  cbn [fold_right snd]. apply elem_of_cons in H as [[= <- <-]|H]; [lia|]. specialize (IH H). lia.
Qed.

Lemma depth_item v items x : j_items v = Ok items → x ∈ items → (depth x <= depth v)%nat.
Proof.
  assert (∀ v, 1 <= depth v)%nat as H1 by (intros []; cbn; lia).
  destruct v as [| | | |s|l|d]; cbn [j_items]; try done; intros [= <-] Hx.
  - apply list_elem_of_fmap in Hx as (a & -> & _). cbn. lia.
  - cbn [depth]. induction Hx as [x l|x y l _ IH]; cbn [fold_right]; lia.
  - apply list_elem_of_fmap in Hx as (k & -> & _). apply H1.
Qed.

Lemma mapM_ext_elem {A B} (f g : A → result B) l : (∀ a, a ∈ l → f a = g a) → mapM f l = mapM g l.
Proof.
  induction l as [|a l IH]; intros H; [done|]. cbn. rewrite H by left. destruct (g a); [|done]. cbn. rewrite IH; [done|].
  intros b Hb. apply H. by right.
Qed.

Lemma flatten_plan_fuel_eq fuel : ∀ fuel' node, (depth node <= fuel)%nat → (depth node <= fuel')%nat →
  flatten_plan_fuel fuel node = flatten_plan_fuel fuel' node.
Proof.
  induction fuel as [|fuel IH]; intros [|fuel'] node H1 H2; try (by destruct node; cbn in H1, H2; lia). cbn [flatten_plan_fuel].
  destruct (j_get_or node "Plans" (JList [])) as [plans|] eqn:Hp; [|done]. cbn [mbind result_bind].
  destruct (j_items plans) as [children|] eqn:Hc; [|done]. cbn [mbind result_bind].
  assert (mapM (flatten_plan_fuel fuel) children = mapM (flatten_plan_fuel fuel') children) as ->; [|done].
  apply mapM_ext_elem. intros x Hx. pose proof (depth_item _ _ _ Hc Hx). destruct node as [| | | | | |d]; try done. injection Hp as Hp.
  destruct (dict_get d "Plans") as [v|] eqn:E; cbn in Hp; subst plans; [|injection Hc as <-; by apply elem_of_nil in Hx].
  apply depth_dict in E. apply IH; lia.
Qed.

(** The nesting depth is fuel enough: more changes nothing. *)
Lemma flatten_plan_enough fuel node : (depth node <= fuel)%nat → flatten_plan_fuel fuel node = flatten_plan node.
Proof. intros H. by apply flatten_plan_fuel_eq. Qed.

(** ** A passing run *)

Section facts.
Context (json_loads : string → result jval) (py_repr : jval → string) (unicode_lower : string → string)
  (int_other : string → option Z) (w : world) (stderr : history → string).

Local Notation run_psql := (run_psql w stderr).
Local Notation run_runtime := (run_runtime json_loads py_repr unicode_lower int_other w stderr).
Local Notation main := (main json_loads py_repr unicode_lower int_other w stderr).

(** A statement that ran and succeeded, with its output. *)
Definition answered (config : PostGISSmokeConfig) (sql stdout : string) : event :=
  Executed (psql_command config sql) (Ok (0, stdout)).

Lemma run_psql_Ok config sql h text t : run_psql config sql h = (Some (Ok text), t) →
  ∃ stdout, t = [answered config sql stdout] ∧ text = answer_text stdout.
Proof.
  intros H. apply eff_bind_Ok in H as ([returncode stdout] & t1 & t2 & Hx & H & ->). apply execute_Ok in Hx as ->.
  apply eff_bind_Ok in H as (err & t3 & t4 & [= <- <-] & H & ->).
  destruct (Z.eqb_spec returncode 0) as [->|]; [|discriminate H]. cbn [negb] in H. apply mret_Ok in H as [<- ->].
  by exists stdout.
Qed.

(** The outputs of the six statements, in their order. *)
Record answers : Type := mkAnswers {
  a_version : string;
  a_upsert : string;
  a_latest : string;
  a_count : string;
  a_viewport : string;
  a_explain : string
}.

Definition statements_answered (config : PostGISSmokeConfig) (o : answers) : history :=
  [answered config "SELECT postgis_version();" (a_version o); answered config POSTGIS_HISTORY_LATEST_SQL (a_upsert o);
   answered config POSTGIS_LATEST_JSON_SQL (a_latest o); answered config POSTGIS_HISTORY_COUNT_SQL (a_count o);
   answered config POSTGIS_VIEWPORT_JSON_SQL (a_viewport o); answered config POSTGIS_VIEWPORT_EXPLAIN_JSON_SQL (a_explain o)].

(** What was read from the outputs. *)
Definition answers_read (o : answers) (count : Z) (latest rows summary : jval) : Prop :=
  json_loads (answer_text (a_latest o)) = Ok latest ∧ py_int int_other (answer_text (a_count o)) = Ok count
  ∧ json_loads (answer_text (a_viewport o)) = Ok rows
  ∧ ∃ explain, json_loads (answer_text (a_explain o)) = Ok explain
      ∧ summarize_plan py_repr unicode_lower int_other explain = Ok summary.

Definition runtime_report (passed : bool) (version : string) (count : Z) (latest rows summary : jval) : jval :=
  JObj [("schemaVersion", JStr SCHEMA_VERSION); ("passed", JBool passed); ("postgisVersion", JStr version);
        ("historyRowsForSmoke", JInt count); ("latest", latest); ("viewportRows", rows); ("explain", summary)].

Lemma run_runtime_Ok config h report t : run_runtime config h = (Some (Ok report), t) →
  ∃ passed o count latest rows summary,
    report = runtime_report passed (answer_text (a_version o)) count latest rows summary
    ∧ runtime_passed (answer_text (a_version o)) (answer_text (a_upsert o)) latest count rows summary = Ok passed
    ∧ answers_read o count latest rows summary ∧ t = statements_answered config o.
Proof.
  intros H.
  apply eff_bind_Ok in H as (version & t1 & u1 & (o1 & -> & ->)%run_psql_Ok & H & ->).
  apply eff_bind_Ok in H as (upserted & t2 & u2 & (o2 & -> & ->)%run_psql_Ok & H & ->).
  apply eff_bind_Ok in H as (latest_text & t3 & u3 & (o3 & -> & ->)%run_psql_Ok & H & ->).
  apply eff_bind_Ok in H as (latest & ? & u4 & [L3 ->]%lift_Ok & H & ->).
  apply eff_bind_Ok in H as (count_text & t5 & u5 & (o5 & -> & ->)%run_psql_Ok & H & ->).
  apply eff_bind_Ok in H as (count & ? & u6 & [L5 ->]%lift_Ok & H & ->).
  apply eff_bind_Ok in H as (rows_text & t7 & u7 & (o7 & -> & ->)%run_psql_Ok & H & ->).
  apply eff_bind_Ok in H as (rows & ? & u8 & [L7 ->]%lift_Ok & H & ->).
  apply eff_bind_Ok in H as (explain_text & t9 & u9 & (o9 & -> & ->)%run_psql_Ok & H & ->).
  apply eff_bind_Ok in H as (explain & ? & u10 & [L9 ->]%lift_Ok & H & ->).
  apply eff_bind_Ok in H as (summary & ? & u11 & [Hs ->]%lift_Ok & H & ->).
  apply eff_bind_Ok in H as (passed & ? & u12 & [Hp ->]%lift_Ok & H & ->).
  apply mret_Ok in H as [<- ->]. exists passed, (mkAnswers o1 o2 o3 o5 o7 o9), count, latest, rows, summary.
  split_and!; [done|done| |done]. by split_and!; [..|exists explain].
Qed.

Lemma summary_keys explain summary : summarize_plan py_repr unicode_lower int_other explain = Ok summary →
  filter_in (λ key, not_r (j_contains key summary)) EXPLAIN_KEYS = Ok [].
Proof.
  unfold summarize_plan. intros H. repeat (apply bind_Ok in H as (? & _ & H)). by injection H as <-.
Qed.

(** C22: The smoke test exits with zero in two cases.  With [--check] it prints
    its contract and runs nothing.  Otherwise six statements ran in their order
    and succeeded: the version, the upsert, the latest row, the history count, the
    viewport and its plan; and what it prints is a report that the runtime
    evidence gate validates with no metric missing.  That report is what they
    answered: the version is the first answer and is not empty, the upsert
    returned the stream of the smoke, the latest row read from the third answer is
    that stream's and of the smoke's asset, the count read from the fourth is at
    least two, the viewport read from the fifth holds a row of the stream, and the
    summary of the plan read from the sixth shows a spatial condition. *)
Theorem passing_smoke_validates check config h t : main check config h = (Some (Ok 0), t) →
  check = true ∧ t = [Printed (contract config)]
  ∨ check = false ∧ ∃ o count latest rows summary items row v,
    let report := runtime_report true (answer_text (a_version o)) count latest rows summary in
    t = statements_answered config o ++ [Printed report]
    ∧ validate_postgis_runtime report = Ok v ∧ v_passed v = true ∧ v_missing v = []
    ∧ answers_read o count latest rows summary
    ∧ answer_text (a_version o) ≠ "" ∧ answer_text (a_upsert o) = "raw.mobile.front"
    ∧ j_getitem latest "streamId" = Ok (JStr "raw.mobile.front") ∧ j_getitem latest "assetId" = Ok (JStr "drn-01")
    ∧ 2 <= count
    ∧ j_items rows = Ok items ∧ row ∈ items ∧ j_getitem row "streamId" = Ok (JStr "raw.mobile.front")
    ∧ j_getitem summary "usesSpatialCondition" = Ok (JBool true).
Proof.
  destruct check; intros H.
  { apply eff_bind_Ok in H as ([] & t1 & t2 & [= <-] & H & ->). apply mret_Ok in H as [_ ->]. by left. }
  right. split; [done|]. apply eff_bind_Ok in H as (report & t1 & t2 & Hr & H & ->).
  apply eff_bind_Ok in H as ([] & t3 & t4 & [= <-] & H & ->). apply eff_bind_Ok in H as (passed & t5 & t6 & [Hp ->]%lift_Ok & H & ->).
  apply mret_Ok in H as [H ->]. cbn [app]. unfold try_except in Hr.
  destruct (run_runtime config h) as [[[a|[c msg|]]|] u] eqn:E; try discriminate Hr.
  - injection Hr as -> ->. apply run_runtime_Ok in E as (b & o & count & latest & rows & summary & -> & Hv & Hread & ->).
    injection Hp as <-. destruct b; [|discriminate H]. pose proof Hread as (_ & _ & _ & explain & _ & Hs).
    pose proof (summary_keys _ _ Hs) as Hk.
    unfold runtime_passed in Hv. apply and_r_Ok in Hv as [[= Hv1] Hv]. apply and_r_Ok in Hv as [[= Hv2%String.eqb_eq] Hv].
    apply and_r_Ok in Hv as [Hv3 Hv]. apply and_r_Ok in Hv as [Hv4 Hv]. apply and_r_Ok in Hv as [[= Hv5] Hv].
    apply and_r_Ok in Hv as [Hv6 Hv]. apply bind_Ok in Hv6 as (items & Hi & Hv6). apply any_in_true in Hv6 as (row & Hin & Hrow).
    apply bind_Ok in Hrow as (r & Hrow & [= ->%py_eq_str]).
    apply bind_Ok in Hv3 as (x & Hx & [= ->%py_eq_str]). apply bind_Ok in Hv4 as (y & Hy & [= ->%py_eq_str]). apply bind_Ok in Hv as (z & Hz & [= Hzt]).
    exists o, count, latest, rows, summary, items, row, (mkValidation "validated" true []
      [("missingMetrics", JList []); ("metrics", JObj [("postgisVersion", JStr (answer_text (a_version o)));
        ("historyRowsForSmoke", JInt count); ("explain", summary)])]).
    cbn zeta. split_and!; try done.
    + unfold validate_postgis_runtime. set (report := runtime_report _ _ _ _ _ _).
      assert (j_get_or report "explain" (JObj []) = Ok summary) as -> by reflexivity.
      assert (j_get report "postgisVersion" = Ok (JStr (answer_text (a_version o)))) as -> by reflexivity.
      assert (j_contains "historyRowsForSmoke" report = Ok true) as -> by reflexivity. cbn [mbind result_bind]. rewrite Hk.
      assert (j_get report "historyRowsForSmoke" = Ok (JInt count)) as -> by reflexivity.
      assert (j_get report "passed" = Ok (JBool true)) as -> by reflexivity. cbn [mbind result_bind j_truthy]. by rewrite Hv1.
    + by apply truthy_true in Hv1.
    + by apply Z.leb_le in Hv5.
    + unfold summarize_plan in Hs. repeat (apply bind_Ok in Hs as (? & _ & Hs)). injection Hs as <-. cbn in Hz. injection Hz as <-.
      cbn in Hzt. by rewrite Hzt.
  - destruct (existsb _ _); [|discriminate Hr]. injection Hr as <- _. injection Hp as <-. discriminate H.
Qed.
End facts.

(** ** Examples *)

Definition sample_config : PostGISSmokeConfig :=
  mkConfig (mkPath true ["r"; "compose.yml"]) (mkPath true ["r"; ".env"]) "postgres-geo" "gcs_geo" "gcs_geo".

(** The documents of the answers, by a letter each. *)
Definition sample_json (text : string) : result jval :=
  if String.eqb text "L" then Ok (JObj [("streamId", JStr "raw.mobile.front"); ("assetId", JStr "drn-01")])
  else if String.eqb text "V" then Ok (JList [JObj [("streamId", JStr "raw.mobile.front")]])
  else if String.eqb text "E" then
    Ok (JList [JObj [("Plan", JObj [("Node Type", JStr "Limit");
                                    ("Plans", JList [JObj [("Node Type", JStr "Index Scan"); ("Index Cond", JStr "position && box");
                                                           ("Shared Hit Blocks", JInt 3)]])]);
                     ("Execution Time", JInt 1)]])
  else throw ExcJSONDecodeError "Expecting value".

(** A database that answers the statements; the latest row is as given. *)
Definition sample_psql (latest : string) (command : list string) : string :=
  let sql := default "" (last command) in
  if String.eqb sql "SELECT postgis_version();" then "3.4"
  else if String.eqb sql POSTGIS_HISTORY_LATEST_SQL then "raw.mobile.front"
  else if String.eqb sql POSTGIS_LATEST_JSON_SQL then latest
  else if String.eqb sql POSTGIS_HISTORY_COUNT_SQL then " 2 "
  else if String.eqb sql POSTGIS_VIEWPORT_JSON_SQL then "V" else "E".

Definition database_world (latest : string) : world :=
  mkWorld (λ _ _ _, Ok "") (λ _ c, Ok (0, sample_psql latest c)) (λ _, PrimFloat.zero) (λ _, mkDatetime 0 (Some 0))
    (λ _ _, NoResponse) (λ _ _ _, Ok ()) (λ _ _ _, Ok ()).

Definition sample_report : jval :=
  runtime_report true "3.4" 2 (JObj [("streamId", JStr "raw.mobile.front"); ("assetId", JStr "drn-01")])
    (JList [JObj [("streamId", JStr "raw.mobile.front")]])
    (JObj [("rootNode", JStr "Limit"); ("nodeTypes", JList [JStr "Limit"; JStr "Index Scan"]); ("indexNames", JList []);
           ("usesSpatialCondition", JBool true); ("sharedHitBlocks", JInt 3); ("sharedReadBlocks", JInt 0);
           ("sharedDirtiedBlocks", JInt 0); ("sharedWrittenBlocks", JInt 0); ("walRecords", JInt 0); ("walBytes", JInt 0);
           ("executionTimeMs", JInt 1)]).

Definition sample_answers : answers := mkAnswers "3.4" "raw.mobile.front" "L" " 2 " "V" "E".

Definition sample_trace : history := statements_answered sample_config sample_answers ++ [Printed sample_report].

Lemma sample_smoke_passes :
  main sample_json (λ _, "") id (λ _, None) (database_world "L") (λ _, "") false sample_config [] = (Some (Ok 0), sample_trace).
Proof. vm_compute. reflexivity. Qed.

Lemma passing_smoke_validates_witness : ∃ v, validate_postgis_runtime sample_report = Ok v ∧ v_passed v = true.
Proof.
  destruct (passing_smoke_validates sample_json (λ _, "") id (λ _, None) (database_world "L") (λ _, "") false sample_config [] sample_trace
              sample_smoke_passes) as [[[=] _]|(_ & o & count & latest & rows & summary & items & row & v & Ht & Hv & Hp & _)].
  apply app_inj_tail in Ht as [_ [= Hr <- <- <- <-]]. exists v. split; [|exact Hp]. unfold sample_report. rewrite Hr. exact Hv.
Defined.

(** Without a latest row the answer is empty, which is no JSON: the smoke test
    ends with an exception instead of a report that did not pass. *)
Example missing_latest_row_escapes :
  (main sample_json (λ _, "") id (λ _, None) (database_world "") (λ _, "") false sample_config []).1
  = Some (Raise (PyErr ExcJSONDecodeError "Expecting value")).
Proof. vm_compute. reflexivity. Qed.
