(* ===== verification/Hygiene.v ===== *)
(** The repository hygiene contract: [scripts/gates/repository_hygiene_contract.py].

    The tracked files, as git lists them, obey the naming, size and migration
    rules of the repository.  Parameters: digits and letters above ASCII. *)

From stdpp Require Import base list strings.
From Stdlib Require Import ZArith Lia Floats Ascii.
From S2P Require Import Prelude PyStr PyStrFacts PyTime PyJson PyText Host Effects Evidence PyRegex SourceTree.

#[local] Open Scope Z_scope.

(** [scripts/gates/repository_hygiene_contract.py:17-17] *)
Definition SOURCE_SUFFIXES : list string := [".go"; ".kt"; ".py"; ".ts"; ".tsx"].
(** [scripts/gates/repository_hygiene_contract.py:18-18] *)
Definition MAX_PRODUCTION_LINES : Z := 350.

(** [scripts/gates/repository_hygiene_contract.py:26-45] FORBIDDEN_TRACKED_PARTS *)
Definition FORBIDDEN_TRACKED_PARTS : list string :=
  [".agents"; ".benchmarks"; ".codex"; ".gradle"; ".hypothesis"; ".idea"; ".mypy_cache"; ".pytest_cache"; ".ruff_cache"; ".vscode";
   "__pycache__"; "build"; "coverage"; "dist"; "node_modules"; "playwright-report"; "test-results"; "tmp"].

(** [scripts/gates/repository_hygiene_contract.py:46-55] FORBIDDEN_TRACKED_SUFFIXES *)
Definition FORBIDDEN_TRACKED_SUFFIXES : list string := [".bak"; ".class"; ".log"; ".orig"; ".pid"; ".pyc"; ".rej"; ".tmp"].

Definition lower_letter : regex := Cls (ascii_char (λ a, (97 <=? code a) && (code a <=? 122))).
Definition snake_char (x : char) : bool := ascii_char (λ a, ((97 <=? code a) && (code a <=? 122)) || is_digit a || Ascii.eqb a "_") x.
Definition upper_letter : regex := Cls (ascii_char (λ a, (65 <=? code a) && (code a <=? 90))).
Definition pascal_char (x : char) : bool := ascii_char is_alnum x.

(** The names of Python modules and of Kotlin files. *)
Definition SNAKE_CASE : regex := seqs [Alt (lit "__init__") (Seq lower_letter (Rep (Cls snake_char))); lit ".py"; text_end].
Definition PASCAL_CASE : regex := seqs [upper_letter; Rep (Cls pascal_char); lit ".kt"; text_end].

Definition when (b : bool) (message : string) : list string := if b then [message] else [].

Section contract.
Context (unicode_lower : string → string) (digit_other : char → bool) (int_other : string → option Z) (ROOT : fs_path).

(** [scripts/gates/repository_hygiene_contract.py:11-16] PRODUCTION_ROOTS *)
Definition PRODUCTION_ROOTS : list fs_path :=
  path_div ROOT <$> ["backend"; "gcs-dashboard/src"; "services/auth-policy/src/main"; "services/media-control"].

(** [scripts/gates/repository_hygiene_contract.py:19-25] REQUIRED_AGREEMENTS *)
Definition REQUIRED_AGREEMENTS : list fs_path :=
  path_div ROOT <$> ["AGENTS.md"; "backend/AGENTS.md"; "gcs-dashboard/AGENTS.md"; "services/auth-policy/AGENTS.md";
                     "services/media-control/AGENTS.md"].

(** [scripts/gates/repository_hygiene_contract.py:70-77] is_test_file *)
Definition is_test_file (p : fs_path) : result bool :=
  relative ← relative_to p ROOT;
  Ok (in_list "tests" (path_parts relative) || contains ".test." (path_name p) || endswith "_test.go" (path_name p)
      || endswith "Test.kt" (path_name p)).

(** [scripts/gates/repository_hygiene_contract.py:80-86] validate_tracked_hygiene, for one path *)
Definition tracked_hygiene (p : fs_path) : result (list string) :=
  relative ← relative_to p ROOT;
  Ok (when (existsb (λ part, in_list part FORBIDDEN_TRACKED_PARTS) (path_parts relative))
        ("generated or personal path is tracked: " +:+ path_str relative)
      ++ when (in_list (lower unicode_lower (path_suffix p)) FORBIDDEN_TRACKED_SUFFIXES)
           ("generated artifact is tracked: " +:+ path_str relative)).

Definition unmatched (r : regex) (s : string) : bool := negb (bool_decide (is_Some (re_fullmatch r s))).

(** [scripts/gates/repository_hygiene_contract.py:89-93] validate_python_names, for one path *)
Definition python_name (p : fs_path) : result (list string) :=
  if String.eqb (path_suffix p) ".py" && unmatched SNAKE_CASE (path_name p)
  then relative ← relative_to p ROOT; Ok ["Python module must use snake_case: " +:+ path_str relative] else Ok [].

(** [scripts/gates/repository_hygiene_contract.py:96-100] validate_kotlin_names, for one path *)
Definition kotlin_name (p : fs_path) : result (list string) :=
  if String.eqb (path_suffix p) ".kt" && contains "/src/" (path_str p) && unmatched PASCAL_CASE (path_name p)
  then relative ← relative_to p ROOT; Ok ["Kotlin source file must use PascalCase: " +:+ path_str relative] else Ok [].

(** A file whose length is limited. *)
Definition is_production (p relative : fs_path) : result bool :=
  test ← (if in_list (path_suffix p) SOURCE_SUFFIXES then is_test_file p else Ok true);
  Ok (in_list (path_suffix p) SOURCE_SUFFIXES && negb test && negb (in_list "generated" (path_parts relative))
      && existsb (λ root, is_ok (relative_to p root)) PRODUCTION_ROOTS).

(** [scripts/gates/repository_hygiene_contract.py:103-112] validate_production_file_sizes, for one path *)
Definition file_size (fs : files) (p : fs_path) : result (list string) :=
  relative ← relative_to p ROOT;
  production ← is_production p relative;
  if negb production then Ok [] else
  text ← fs_text fs p;
  let line_count := Z.of_nat (length (splitlines text)) in
  Ok (when (MAX_PRODUCTION_LINES <? line_count)
        ("production source exceeds " +:+ str_of_Z MAX_PRODUCTION_LINES +:+ " lines (" +:+ str_of_Z line_count +:+ "): "
         +:+ path_str relative)).

Definition MIGRATION : regex :=
  seqs [ch "V"; Grp 1 (plus (Cls (digit_char digit_other))); lit "__"; plus any_char; lit ".sql"].

(** The version of a migration: the integer of the first group. *)
Definition migration_version (p relative : fs_path) : result (option Z) :=
  if negb (in_list "db" (path_parts relative)) || negb (endswith ".sql" (path_name p)) then Ok None else
  match re_fullmatch MIGRATION (path_name p) with
  | None => Ok None
  | Some m => version ← py_int int_other (default "" (group 1 m)); Ok (Some version)
  end.

Definition flyway_step (s : list (Z * fs_path) * list string) (p : fs_path) : result (list (Z * fs_path) * list string) :=
  let '(versions, errors) := s in
  relative ← relative_to p ROOT;
  version ← migration_version p relative;
  match version with
  | None => Ok s
  | Some version =>
      match dict_get versions version with
      | Some previous =>
          before ← relative_to previous ROOT;
          Ok (versions, errors ++ ["duplicate Flyway version V" +:+ str_of_Z version +:+ ": " +:+ path_str before +:+ " and "
                                   +:+ path_str relative])
      | None => Ok (dict_set versions version p, errors)
      end
  end.

(** [scripts/gates/repository_hygiene_contract.py:115-130] validate_unique_flyway_versions *)
Definition validate_unique_flyway_versions (paths : list fs_path) : result (list string) :=
  s ← for_in flyway_step ([], []) paths; Ok s.2.

Definition missing_agreement (fs : files) (p : fs_path) : result (list string) :=
  present ← fs_is_file fs p;
  if present : bool then Ok [] else
  relative ← relative_to p ROOT; Ok ["required code agreement is missing: " +:+ path_str relative].

(** [errors] after the validators, each of which walks all paths. *)
Definition collect (f : fs_path → result (list string)) (paths : list fs_path) : result (list string) :=
  found ← mapM f paths; Ok (concat found).

Definition all_errors (fs : files) (paths : list fs_path) : result (list string) :=
  hygiene ← collect tracked_hygiene paths;
  python ← collect python_name paths;
  kotlin ← collect kotlin_name paths;
  sizes ← collect (file_size fs) paths;
  versions ← validate_unique_flyway_versions paths;
  agreements ← collect (missing_agreement fs) REQUIRED_AGREEMENTS;
  Ok (hygiene ++ python ++ kotlin ++ sizes ++ versions ++ agreements).

Context (w : world) (fs : history → files).

(** The lines of the listing that name a file. *)
Definition listed_files (fs : files) (stdout : string) : result (list fs_path) :=
  filter_in (fs_is_file fs) (path_div ROOT <$> List.filter truthy (splitlines stdout)).

(** [scripts/gates/repository_hygiene_contract.py:58-67] tracked_files *)
Definition tracked_files : eff (list fs_path) :=
  '(returncode, stdout) ← execute w ["git"; "ls-files"];
  if negb (returncode =? 0) then raise ExcSubprocessError "git ls-files" else
  reading fs (λ fs, listed_files fs stdout).

(** [scripts/gates/repository_hygiene_contract.py:133-149] main *)
Definition main : eff Z :=
  paths ← tracked_files;
  errors ← reading fs (λ fs, all_errors fs paths);
  match errors with
  | [] =>
      _ ← print (JStr ("repository hygiene contract passed for " +:+ str_of_Z (Z.of_nat (length paths)) +:+ " tracked files"));
      mret 0
  | _ => _ ← for_each (λ error, print (JStr ("ERROR: " +:+ error))) errors; mret 1
  end.
End contract.

(** ** What a passed contract says *)

Lemma collect_nil {A} (f : A → result (list string)) l : (found ← mapM f l; Ok (concat found)) = Ok [] ↔ ∀ a, a ∈ l → f a = Ok [].
Proof.
  split.
  - intros (found & Hf%mapM_Ok & [= H])%bind_Ok a (i & Hi)%list_elem_of_lookup.
    destruct (Forall2_lookup_l _ _ _ _ _ Hf Hi) as (x & Hx%list_elem_of_lookup_2 & ->). f_equal. clear -H Hx.
    induction Hx as [x l|x y l _ IH]; cbn in H; apply app_eq_nil in H as [H1 H2]; [done|by apply IH].
  - intros H. rewrite (mapM_Ok_fmap f (λ _, []) l H). cbn. f_equal. clear H. by induction l.
Qed.

Lemma unless_reported b message : when b message = [] ↔ b = false.
Proof. by destruct b. Qed.

(** The names that the two patterns accept. *)
Definition snake_case (name : list char) : Prop :=
  ∃ stem, name = stem ++ map one (String.list_ascii_of_string ".py")
    ∧ (stem = map one (String.list_ascii_of_string "__init__")
       ∨ ∃ x l, stem = x :: l ∧ ascii_char (λ a, (97 <=? code a) && (code a <=? 122)) x = true
           ∧ Forall (λ y, snake_char y = true) l).

Definition pascal_case (name : list char) : Prop :=
  ∃ x l, name = x :: l ++ map one (String.list_ascii_of_string ".kt")
    ∧ ascii_char (λ a, (65 <=? code a) && (code a <=? 90)) x = true ∧ Forall (λ y, pascal_char y = true) l.

(** A literal that ends the text. *)
Lemma derives_last s c : (∃ c', derives (seqs [lit s; text_end]) c c' ∧ ahead c' = [])
  ↔ ahead c = map one (String.list_ascii_of_string s).
Proof.
  unfold seqs. cbn [fold_right]. setoid_rewrite derives_seq. setoid_rewrite derives_seq.
  setoid_rewrite derives_at. setoid_rewrite derives_eps. setoid_rewrite derives_lit_iff. split.
  - intros (c' & (d & [Ha Hd] & (e & [_ ->] & ->)) & Hn). by rewrite Ha, Hn, app_nil_r.
  - intros Ha. set (d := after (map one (String.list_ascii_of_string s)) c []). exists d. split; [|done]. exists d.
    split; [split; [cbn; by rewrite Ha, app_nil_r|done]|]. by exists d.
Qed.

Lemma place_start t : place t 0 = mkCursor [] t [].
Proof. unfold place. by rewrite take_0, drop_0. Qed.

Lemma fullmatch_then r s name : is_Some (re_fullmatch (seqs [r; lit s; text_end]) name) ↔
  ∃ d, derives r (mkCursor [] (chars name) []) d ∧ ahead d = map one (String.list_ascii_of_string s).
Proof.
  unfold is_Some. rewrite re_fullmatch_spec, place_start. change (seqs [r; lit s; text_end]) with (Seq r (seqs [lit s; text_end])).
  setoid_rewrite derives_seq. setoid_rewrite <-derives_last. naive_solver.
Qed.

Lemma snake_case_spec name : is_Some (re_fullmatch SNAKE_CASE name) ↔ snake_case (chars name).
Proof.
  unfold SNAKE_CASE, snake_case, lower_letter. rewrite fullmatch_then. split.
  - intros (d & [Hl|(e & (x & Hx & Ha & ->)%derives_cls & (l & Hl & Hb & _)%derives_rep_cls)%derives_seq]%derives_alt & Hd).
    + apply derives_lit_iff in Hl as [Ha _]. cbn [ahead] in Ha. rewrite Ha, Hd. eexists. split; [done|by left].
    + cbn [ahead] in Ha, Hb. exists (x :: l). rewrite Ha. cbn [ahead] in *. rewrite Hb, Hd. split; [done|]. right. by exists x, l.
  - intros (stem & -> & [->|(x & l & -> & Hx & Hl)]).
    + eexists. split; [apply d_alt_l, derives_lit|done].
    + exists (mkCursor (reverse l ++ [x]) (map one (String.list_ascii_of_string ".py")) []). split; [|done].
      apply d_alt_r, derives_seq. eexists. split; [by apply d_cls|]. apply derives_rep_cls. by exists l.
Qed.

Lemma pascal_case_spec name : is_Some (re_fullmatch PASCAL_CASE name) ↔ pascal_case (chars name).
Proof.
  unfold PASCAL_CASE, pascal_case, upper_letter. unfold is_Some. rewrite re_fullmatch_spec, place_start.
  change (seqs (Cls ?p :: ?q :: ?rs)) with (Seq (Cls p) (Seq q (seqs rs))). setoid_rewrite derives_seq. setoid_rewrite derives_seq. split.
  - intros (c' & (d & (x & Hx & Ha & Hd)%derives_cls & (e & (l & Hl & Hb & _)%derives_rep_cls & He)) & Hn).
    assert (ahead e = map one (String.list_ascii_of_string ".kt")) as Hk by (apply derives_last; by exists c').
    cbn [ahead] in Ha. exists x, l. rewrite Ha, Hb, Hk. by split_and!.
  - intros (x & l & -> & Hx & Hl).
    set (e := mkCursor (reverse l ++ [x]) (map one (String.list_ascii_of_string ".kt")) []).
    destruct (proj2 (derives_last ".kt" e) eq_refl) as (c' & Hc & Hn). exists c'. split; [|done].
    eexists. split; [by apply d_cls|]. exists e. split; [|done]. apply derives_rep_cls. by exists l.
Qed.

(** The validator reports nothing exactly when the versions differ. *)
Section versions.
Context (digit_other : char → bool) (int_other : string → option Z) (ROOT : fs_path).

(** The version of one tracked path, if it is a migration. *)
Definition version_of (p : fs_path) : result (option Z) :=
  relative ← relative_to p ROOT; migration_version digit_other int_other p relative.

Local Notation step := (flyway_step digit_other int_other ROOT).

Lemma flyway_errors_stay s p s' : step s p = Ok s' → s.2 ≠ [] → s'.2 ≠ [].
Proof.
  destruct s as [versions errors]. intros (relative & _ & ([version|] & _ & H)%bind_Ok)%bind_Ok He.
  - destruct (dict_get versions version) as [previous|]; [|by injection H as <-].
    apply bind_Ok in H as (before & _ & [= <-]). cbn in *. by destruct errors.
  - by injection H as <-.
Qed.

Lemma flyway_steps_errors l s s' : for_in step s l = Ok s' → s.2 ≠ [] → s'.2 ≠ [].
Proof. intros H Hs. by eapply (for_in_invariant (λ s, s.2 ≠ [])); [exact Hs|intros ? ? ? _ ? ?; by eapply flyway_errors_stay|]. Qed.

Lemma flyway_step_eq versions errors p :
  match version_of p with
  | Raise e => step (versions, errors) p = Raise e
  | Ok None => step (versions, errors) p = Ok (versions, errors)
  | Ok (Some v) =>
      match dict_get versions v with
      | None => step (versions, errors) p = Ok (dict_set versions v p, errors)
      | Some _ => ∀ s', step (versions, errors) p = Ok s' → s'.2 ≠ []
      end
  end.
Proof.
  unfold flyway_step, version_of. destruct (relative_to p ROOT) as [relative|e]; cbn [mbind result_bind]; [|done].
  destruct (migration_version _ _ p relative) as [[v|]|e]; cbn [mbind result_bind]; try done.
  destruct (dict_get versions v) as [previous|]; [|done]. intros s' (before & _ & [= <-])%bind_Ok. cbn. by destruct errors.
Qed.

Lemma flyway_versions l : ∀ versions,
  (∃ versions', for_in step (versions, []) l = Ok (versions', [])) ↔
  ∃ found, mapM version_of l = Ok found ∧ NoDup (omap id found) ∧ ∀ v, v ∈ omap id found → dict_get versions v = None.
Proof.
  induction l as [|p l IH]; intros versions; cbn [for_in].
  - split; [|by eexists]. intros _. exists []. split_and!; [done|constructor|by intros ? ?%elem_of_nil].
  - change (mapM version_of (p :: l)) with (y ← version_of p; k ← mapM version_of l; Ok (y :: k)).
    pose proof (flyway_step_eq versions [] p) as Hs. destruct (version_of p) as [[v|]|e]; cbn [mbind result_bind].
    + destruct (dict_get versions v) as [previous|] eqn:Hv.
      * split.
        -- intros [versions' (s & Hp & H)%bind_Ok]. apply flyway_steps_errors in H; [done|]. by apply Hs.
        -- intros (found & (found' & Hf & [= <-])%bind_Ok & _ & H). cbn in H. by rewrite (H v) in Hv by left.
      * rewrite Hs. cbn [mbind result_bind]. rewrite IH. split.
        -- intros (found & Hf & Hnd & H). exists (Some v :: found). rewrite Hf. split; [done|]. cbn.
           assert (v ∉ omap id found) as Hn by (intros Hin; specialize (H _ Hin); by rewrite dict_get_set_eq in H).
           split; [by constructor|]. intros v' [->|Hin]%elem_of_cons; [done|]. rewrite <-(H _ Hin). symmetry.
           apply dict_get_set_ne. by intros ->.
        -- intros (found & (found' & Hf & [= <-])%bind_Ok & [Hn Hnd]%NoDup_cons & H). exists found'. split_and!; [done|done|].
           intros v' Hin. rewrite dict_get_set_ne by (by intros ->). apply H. by right.
    + rewrite Hs. cbn [mbind result_bind]. rewrite IH. split.
      * intros (found & Hf & H). exists (None :: found). by rewrite Hf.
      * intros (found & (found' & Hf & [= <-])%bind_Ok & H). by exists found'.
    + rewrite Hs. split; [by intros [? ?]|by intros (? & ? & _)].
Qed.

Lemma unique_versions_nil l : validate_unique_flyway_versions digit_other int_other ROOT l = Ok [] ↔
  ∃ found, mapM version_of l = Ok found ∧ NoDup (omap id found).
Proof.
  unfold validate_unique_flyway_versions. transitivity (∃ versions', for_in step ([], []) l = Ok (versions', [])).
  - split; [intros ([versions errors] & H & [= E])%bind_Ok; cbn in E; subst; by exists versions|].
    intros [versions' ->]. done.
  - rewrite flyway_versions. naive_solver.
Qed.
End versions.

Section facts.
Context (unicode_lower : string → string) (ROOT : fs_path).

(** A tracked file that obeys the rules. *)
Record acceptable (fs : files) (p : fs_path) : Prop := mkAcceptable {
  ok_parts : ∃ relative, relative_to p ROOT = Ok relative ∧ ∀ part, part ∈ path_parts relative → part ∉ FORBIDDEN_TRACKED_PARTS;
  ok_suffix : lower unicode_lower (path_suffix p) ∉ FORBIDDEN_TRACKED_SUFFIXES;
  ok_python : path_suffix p = ".py" → snake_case (chars (path_name p));
  ok_kotlin : path_suffix p = ".kt" → contains "/src/" (path_str p) = true → pascal_case (chars (path_name p));
  ok_size : ∀ relative, relative_to p ROOT = Ok relative → is_production ROOT p relative = Ok true →
    ∃ text, fs_text fs p = Ok text ∧ Z.of_nat (length (splitlines text)) <= MAX_PRODUCTION_LINES
}.

Lemma tracked_hygiene_nil p : tracked_hygiene unicode_lower ROOT p = Ok [] ↔
  (∃ relative, relative_to p ROOT = Ok relative ∧ ∀ part, part ∈ path_parts relative → part ∉ FORBIDDEN_TRACKED_PARTS)
  ∧ lower unicode_lower (path_suffix p) ∉ FORBIDDEN_TRACKED_SUFFIXES.
Proof.
  unfold tracked_hygiene. destruct (relative_to p ROOT) as [relative|e]; cbn [mbind result_bind]; [|naive_solver].
  assert ((∀ part, part ∈ path_parts relative → part ∉ FORBIDDEN_TRACKED_PARTS) ↔
            existsb (λ part, in_list part FORBIDDEN_TRACKED_PARTS) (path_parts relative) = false) as Hp.
  { rewrite <-not_true_iff_false, existsb_exists. setoid_rewrite bool_decide_eq_true. setoid_rewrite <-list_elem_of_In. naive_solver. }
  unfold in_list at 2. split.
  - intros [= [H1%unless_reported H2%unless_reported]%app_eq_nil]. apply bool_decide_eq_false in H2. split; [|done]. exists relative. by rewrite Hp.
  - intros [(? & [= <-] & H1%Hp) H2]. rewrite H1, bool_decide_false by done. done.
Qed.

Lemma unmatched_false r s : unmatched r s = false ↔ is_Some (re_fullmatch r s).
Proof. unfold unmatched. rewrite negb_false_iff. apply bool_decide_eq_true. Qed.

Lemma python_name_nil p : python_name ROOT p = Ok [] ↔ (path_suffix p = ".py" → snake_case (chars (path_name p))).
Proof.
  unfold python_name. rewrite <-snake_case_spec, <-unmatched_false. destruct (String.eqb_spec (path_suffix p) ".py") as [E|E]; cbn [andb].
  - destruct (unmatched _ _); [|done]. split; [intros (? & _ & ?)%bind_Ok; done|intros H; by specialize (H E)].
  - by split.
Qed.

Lemma kotlin_name_nil p : kotlin_name ROOT p = Ok [] ↔
  (path_suffix p = ".kt" → contains "/src/" (path_str p) = true → pascal_case (chars (path_name p))).
Proof.
  unfold kotlin_name. rewrite <-pascal_case_spec, <-unmatched_false.
  destruct (String.eqb_spec (path_suffix p) ".kt") as [E|E]; cbn [andb]; [|by split].
  destruct (contains "/src/" (path_str p)); cbn [andb]; [|by split].
  destruct (unmatched _ _); [|done]. split; [intros (? & _ & ?)%bind_Ok; done|intros H; by specialize (H E eq_refl)].
Qed.

Lemma is_production_total p relative : relative_to p ROOT = Ok relative → ∃ b, is_production ROOT p relative = Ok b.
Proof.
  intros Hr. unfold is_production, is_test_file. rewrite Hr. destruct (in_list (path_suffix p) SOURCE_SUFFIXES); by eexists.
Qed.

Lemma file_size_nil fs p relative : relative_to p ROOT = Ok relative →
  file_size ROOT fs p = Ok [] ↔ (is_production ROOT p relative = Ok true →
    ∃ text, fs_text fs p = Ok text ∧ Z.of_nat (length (splitlines text)) <= MAX_PRODUCTION_LINES).
Proof.
  intros Hr. unfold file_size. rewrite Hr. cbn [mbind result_bind].
  destruct (is_production_total p relative Hr) as [[] ->]; cbn [mbind result_bind negb]; [|by split].
  destruct (fs_text fs p) as [text|e]; cbn [mbind result_bind]; [|split; [done|intros H; destruct (H eq_refl) as (? & ? & _); done]].
  destruct (Z.ltb_spec MAX_PRODUCTION_LINES (Z.of_nat (length (splitlines text)))) as [Hl|Hl].
  - split; [done|]. intros H. destruct (H eq_refl) as (? & [= <-] & ?). lia.
  - split; [|done]. intros _ _. by exists text.
Qed.

Lemma acceptable_iff fs p : acceptable fs p ↔
  tracked_hygiene unicode_lower ROOT p = Ok [] ∧ python_name ROOT p = Ok [] ∧ kotlin_name ROOT p = Ok [] ∧ file_size ROOT fs p = Ok [].
Proof.
  rewrite tracked_hygiene_nil, python_name_nil, kotlin_name_nil. split.
  - intros [(relative & Hr & Hp) Hs Hpy Hkt Hsz]. split_and!; [by exists relative|done|done|done|].
    apply (file_size_nil _ _ relative); [done|]. by apply Hsz.
  - intros ([(relative & Hr & Hp) Hs] & Hpy & Hkt & Hsz). constructor; [by exists relative|done|done|done|].
    intros relative' Hr'. by apply file_size_nil.
Qed.

Context (digit_other : char → bool) (int_other : string → option Z).

Lemma all_errors_nil fs paths : all_errors unicode_lower digit_other int_other ROOT fs paths = Ok [] ↔
  Forall (acceptable fs) paths
  ∧ (∃ versions, mapM (version_of digit_other int_other ROOT) paths = Ok versions ∧ NoDup (omap id versions))
  ∧ Forall (λ p, fs_is_file fs p = Ok true) (REQUIRED_AGREEMENTS ROOT).
Proof.
  assert (Forall (acceptable fs) paths ↔
    collect (tracked_hygiene unicode_lower ROOT) paths = Ok [] ∧ collect (python_name ROOT) paths = Ok []
    ∧ collect (kotlin_name ROOT) paths = Ok [] ∧ collect (file_size ROOT fs) paths = Ok []) as ->.
  { unfold collect. rewrite !collect_nil, Forall_forall. setoid_rewrite acceptable_iff. naive_solver. }
  assert (Forall (λ p, fs_is_file fs p = Ok true) (REQUIRED_AGREEMENTS ROOT) ↔
    collect (missing_agreement ROOT fs) (REQUIRED_AGREEMENTS ROOT) = Ok []) as ->.
  { unfold collect. rewrite collect_nil, Forall_forall. apply forall_proper. intros p. unfold missing_agreement.
    destruct (fs_is_file fs p) as [[]|e]; cbn [mbind result_bind]; try naive_solver.
    split; [naive_solver|]. intros H Hp. by apply H, bind_Ok in Hp as (? & _ & ?). }
  rewrite <-unique_versions_nil. unfold all_errors. split.
  - intros (l1 & -> & (l2 & -> & (l3 & -> & (l4 & -> & (l5 & -> & (l6 & -> & [= H])%bind_Ok)%bind_Ok)%bind_Ok)%bind_Ok)%bind_Ok)%bind_Ok.
    repeat (apply app_eq_nil in H as [-> H]). by subst.
  - intros ((-> & -> & -> & ->) & -> & ->). done.
Qed.

Context (w : world) (fs : history → files).

(** C21: The contract passes exactly when git lists the tracked files, every
    required agreement is present, and every listed path that is a file obeys
    the rules: no part of its path and no suffix is forbidden, a Python module
    is in snake case, a Kotlin source in Pascal case, a production source has
    no more than 350 lines; and no two migrations have the same version,
    whatever the digits it is written with. *)
Theorem hygiene_passes_iff h :
  (∃ t, main unicode_lower digit_other int_other ROOT w fs h = (Some (Ok 0), t)) ↔
  ∃ stdout paths, let h1 := h ++ [Executed ["git"; "ls-files"] (Ok (0, stdout))] in
    w_exec w h ["git"; "ls-files"] = Ok (0, stdout) ∧ listed_files ROOT (fs h1) stdout = Ok paths
    ∧ Forall (acceptable (fs h1)) paths
    ∧ (∃ versions, mapM (version_of digit_other int_other ROOT) paths = Ok versions ∧ NoDup (omap id versions))
    ∧ Forall (λ p, fs_is_file (fs h1) p = Ok true) (REQUIRED_AGREEMENTS ROOT).
Proof.
  unfold main, tracked_files. setoid_rewrite <-all_errors_nil. split.
  - intros (t & H). apply eff_bind_Ok in H as (paths & t1 & t2 & Hp & H & ->).
    apply eff_bind_Ok in Hp as ([returncode stdout] & t3 & t4 & Hx & Hp & ->).
    pose proof Hx as Hx'. apply execute_Ok in Hx' as ->. injection Hx as Hx.
    destruct (Z.eqb_spec returncode 0) as [->|]; [|discriminate Hp]. cbn [negb] in Hp. injection Hp as Hp <-. rewrite app_nil_r in H.
    apply eff_bind_Ok in H as (errors & t5 & t6 & He & H & ->). injection He as He <-.
    destruct errors as [|error errors]; [by exists stdout, paths|].
    by apply eff_bind_Ok in H as (? & ? & ? & _ & [= ?] & _).
  - intros (stdout & paths & Hx & Hp & He). unfold mbind at 1, eff_bind at 1. unfold mbind at 1, eff_bind at 1.
    unfold execute. rewrite Hx. cbn [Z.eqb negb]. unfold reading at 1. rewrite Hp, app_nil_r. unfold mbind at 1, eff_bind at 1.
    unfold reading at 1. rewrite He. by eexists.
Qed.
End facts.

(** ** Examples *)

Definition tracked_root : fs_path := mkPath true ["r"].
Definition git_lists (lines : list string) : world :=
  mkWorld (λ _ _ _, Ok "") (λ _ _, Ok (0, text_of_chars (map (λ line, line +:+ String "010" "") lines))) (λ _, PrimFloat.zero)
    (λ _, mkDatetime 0 (Some 0)) (λ _ _, NoResponse) (λ _ _ _, Ok ()) (λ _ _ _, Ok ()).
(** The files of a tree, all of them empty. *)
Definition holding_files (names : list string) : files :=
  mkFiles (λ p, Ok (in_list (path_str p) names || bool_decide (p ∈ REQUIRED_AGREEMENTS tracked_root))) (λ _, Ok false) (λ _, Ok 0) (λ _, Ok 0) (λ _, Ok []).

Definition sample_listing : list string := ["backend/server.py"; "services/db/V2__init.sql"; "services/db/V3__users.sql"].
Definition sample_tree : files := holding_files ["/r/backend/server.py"; "/r/services/db/V2__init.sql"; "/r/services/db/V3__users.sql"].
Definition checked_listing (lines : list string) (fs : files) : option (result Z) * history :=
  main id (λ _, false) (λ _, None) tracked_root (git_lists lines) (λ _, fs) [].
Lemma sample_listing_passes : ∃ t, checked_listing sample_listing sample_tree = (Some (Ok 0), t).
Proof. eexists. vm_compute. reflexivity. Qed.

Lemma sample_paths : listed_files tracked_root sample_tree (text_of_chars (map (λ line, line +:+ String "010" "") sample_listing))
  = Ok (path_div tracked_root <$> sample_listing).
Proof. vm_compute. reflexivity. Qed.

Lemma hygiene_passes_iff_witness : snake_case (chars "server.py").
Proof.
  destruct (proj1 (hygiene_passes_iff id tracked_root (λ _, false) (λ _, None) (git_lists sample_listing) (λ _, sample_tree) [])
              sample_listing_passes) as (stdout & paths & Hx & Hp & Hok & _).
  injection Hx as <-. assert (paths = path_div tracked_root <$> sample_listing) as ->.
  { apply (f_equal (λ r, match r with Ok l => l | Raise _ => [] end)) in Hp. symmetry. etransitivity; [|exact Hp]. exact (f_equal (λ r, match r with Ok l => l | Raise _ => [] end) (eq_sym sample_paths)). }
  rewrite Forall_forall in Hok.
  apply (ok_python _ _ _ _ (Hok _ (list_elem_of_here _ _))). reflexivity.
Defined.

(** What the contract reports. *)
Example module_name_reported : python_name tracked_root (path_div tracked_root "backend/Server.py")
  = Ok ["Python module must use snake_case: backend/Server.py"].
Proof. vm_compute. reflexivity. Qed.

Example same_version_reported :
  validate_unique_flyway_versions (λ _, false) (λ _, None) tracked_root
    (path_div tracked_root <$> ["services/db/V2__init.sql"; "services/db/V02__users.sql"])
  = Ok ["duplicate Flyway version V2: services/db/V2__init.sql and services/db/V02__users.sql"].
Proof. vm_compute. reflexivity. Qed.

(** A name with a character above ASCII: git lists it quoted, with the bytes
    as octal numbers, so that no listed path names the file, and the contract
    passes for a tree with a log under a temporary directory. *)
Definition quoted_log : string :=
  String "034" ("tmp/" +:+ String "\" ("353" +:+ String "\" ("241" +:+ String "\" ("234" +:+ ".log")))) +:+ String "034" "".
Definition log_name : string := "/r/tmp/" +:+ String "235" (String "161" (String "156" ".log")).

Example quoted_name_unchecked :
  checked_listing [quoted_log] (holding_files [log_name])
  = (Some (Ok 0), [Executed ["git"; "ls-files"] (Ok (0, quoted_log +:+ String "010" ""));
                   Printed (JStr "repository hygiene contract passed for 0 tracked files")]).
Proof. vm_compute. reflexivity. Qed.
