(* ===== verification/PyQuote.v ===== *)
(** Percent-encoding: [urllib.parse.quote] and [unquote] (Python 3.12).

    A text is quoted byte by byte of its UTF-8 form.  [unquote] decodes each run
    of ASCII characters on its own, replacing what is not UTF-8; what replaces it
    is a parameter. *)

From stdpp Require Import base list strings.
From Stdlib Require Import ZArith Lia Ascii Strings.Byte.
From S2P Require Import Prelude PyStr PyStrFacts.

#[local] Open Scope Z_scope.

(** ** Quoting *)

(** Hexadecimal digits, upper case. *)
Definition hex_digit (n : Z) : ascii := ascii_of_N (Z.to_N (if n <? 10 then 48 + n else 55 + n)).

Definition hex_value (a : ascii) : option Z :=
  if is_digit a then Some (code a - 48)
  else if (65 <=? code a) && (code a <=? 70) then Some (code a - 55)
  else if (97 <=? code a) && (code a <=? 102) then Some (code a - 87)
  else None.

(** The characters that are never quoted: letters, digits and [_.-~]. *)
Definition always_safe (a : ascii) : bool := is_alnum a || has_char a "_.-~".

Definition quote_char (safe : string) (a : ascii) : string :=
  if always_safe a || (is_ascii a && has_char a safe) then String a ""
  else String "%" (String (hex_digit (code a / 16)) (String (hex_digit (code a mod 16)) "")).

(** [quote(s, safe)] *)
Fixpoint quote (safe : string) (s : string) : string :=
  match s with "" => "" | String a s' => quote_char safe a +:+ quote safe s' end.

(** ** Unquoting *)

(** [unquote_to_bytes] of ASCII text: a percent sign that two hexadecimal digits
    do not follow stays. *)
Fixpoint unquote_bytes (s : string) : string :=
  match s with
  | "" => ""
  | String a s' =>
      if Ascii.eqb a "%" then
        match s' with
        | String x (String y rest) =>
            match hex_value x, hex_value y with
            | Some h, Some l => String (ascii_of_N (Z.to_N (16 * h + l))) (unquote_bytes rest)
            | _, _ => String a (unquote_bytes s')
            end
        | _ => String a (unquote_bytes s')
        end
      else String a (unquote_bytes s')
  end.

Section unquote.
Context (utf8_replace : string → string).

(** [bytes.decode("utf-8", "replace")] *)
Definition decode_replace (s : string) : string := if wf_str s then s else utf8_replace s.

(** The text after [run], the ASCII characters read since the last other one. *)
Fixpoint unquote_runs (run s : string) : string :=
  match s with
  | "" => decode_replace (unquote_bytes run)
  | String a s' => if is_ascii a then unquote_runs (run +:+ String a "") s'
                   else decode_replace (unquote_bytes run) +:+ String a (unquote_runs "" s')
  end.

(** [unquote(s)] *)
Definition unquote (s : string) : string := if has_char "%" s then unquote_runs "" s else s.
End unquote.

(** ** Facts *)

Lemma hex_value_digit n : 0 <= n < 16 → hex_value (hex_digit n) = Some n.
Proof.
  intros H. assert (n ∈ [0; 1; 2; 3; 4; 5; 6; 7; 8; 9; 10; 11; 12; 13; 14; 15]) as Hin.
  { rewrite !elem_of_cons. lia. }
  revert Hin. clear. rewrite !elem_of_cons, elem_of_nil. intros Hin.
  by repeat destruct Hin as [->|Hin].
Qed.

Lemma code_range a : 0 <= code a < 256.
Proof. unfold code. pose proof (N_ascii_bounded a). lia. Qed.

Lemma code_hex a : ascii_of_N (Z.to_N (16 * (code a / 16) + code a mod 16)) = a.
Proof. rewrite <-Z_div_mod_eq_full. unfold code. rewrite N2Z.id. apply ascii_N_embedding. Qed.

Lemma hex_digit_safe n : 0 <= n < 16 → always_safe (hex_digit n) = true ∧ is_ascii (hex_digit n) = true.
Proof.
  intros H. assert (n ∈ [0; 1; 2; 3; 4; 5; 6; 7; 8; 9; 10; 11; 12; 13; 14; 15]) as Hin by (rewrite !elem_of_cons; lia).
  revert Hin. clear. rewrite !elem_of_cons, elem_of_nil. intros Hin.
  by repeat destruct Hin as [->|Hin].
Qed.

Lemma always_safe_ascii a : always_safe a = true → is_ascii a = true.
Proof. destruct a as [[] [] [] [] [] [] [] []]; vm_compute; done. Qed.

Lemma quote_digits a : 0 <= code a / 16 < 16 ∧ 0 <= code a mod 16 < 16.
Proof. pose proof (code_range a). split; [|apply Z.mod_pos_bound; lia]. split; [apply Z.div_pos; lia|apply Z.div_lt_upper_bound; lia]. Qed.

(** Quoted text holds the safe characters, the percent sign and nothing else. *)
Lemma has_char_quote c safe s : always_safe c = false → has_char c safe = false → c ≠ "%"%char → has_char c (quote safe s) = false.
Proof.
  intros Hc Hs Hp. induction s as [|a s IH]; [done|]. cbn [quote]. rewrite has_char_app, IH, orb_false_r.
  unfold quote_char. destruct (always_safe a || _) eqn:E.
  - cbn. rewrite orb_false_r. apply not_true_iff_false. intros ->%Ascii.eqb_eq. by rewrite Hc, Hs, andb_false_r in E.
  - cbn [has_char]. rewrite !orb_false_r. destruct (quote_digits a) as [H1%hex_digit_safe H2%hex_digit_safe].
    apply not_true_iff_false. rewrite !orb_true_iff, !Ascii.eqb_eq. naive_solver congruence.
Qed.

Lemma quote_ascii safe s : forall_chars is_ascii (quote safe s) = true.
Proof.
  induction s as [|a s IH]; [done|]. cbn [quote]. rewrite forall_chars_app, IH, andb_true_r.
  unfold quote_char. destruct (always_safe a || _) eqn:E.
  - cbn. rewrite andb_true_r. apply orb_true_iff in E as [E|E]; [by apply always_safe_ascii|by apply andb_true_iff in E as [E _]].
  - cbn [forall_chars]. destruct (quote_digits a) as [[_ H1]%hex_digit_safe [_ H2]%hex_digit_safe]. by rewrite H1, H2.
Qed.

Lemma unquote_bytes_quote safe s : has_char "%" safe = false → unquote_bytes (quote safe s) = s.
Proof.
  intros Hs. induction s as [|a s IH]; [done|]. cbn [quote]. unfold quote_char. destruct (always_safe a || _) eqn:E.
  - change (String a "" +:+ quote safe s) with (String a (quote safe s)). cbn [unquote_bytes]. destruct (Ascii.eqb_spec a "%") as [->|]; [|by rewrite IH].
    by rewrite Hs, andb_false_r in E.
  - change (String "%" (String ?x (String ?y "")) +:+ ?t) with (String "%" (String x (String y t))).
    cbn [unquote_bytes]. destruct (quote_digits a) as [H1%hex_value_digit H2%hex_value_digit].
    rewrite Ascii.eqb_refl, H1, H2, code_hex. by rewrite IH.
Qed.

Lemma quote_plain safe s : has_char "%" (quote safe s) = false → quote safe s = s.
Proof.
  induction s as [|a s IH]; [done|]. cbn [quote]. rewrite has_char_app. intros [H1 H2]%orb_false_iff.
  unfold quote_char in *. destruct (always_safe a || _); [|done]. cbn. by rewrite IH.
Qed.

Section roundtrip.
Context (utf8_replace : string → string).

Lemma unquote_runs_ascii s : ∀ run, forall_chars is_ascii s = true →
  unquote_runs utf8_replace run s = decode_replace utf8_replace (unquote_bytes (run +:+ s)).
Proof.
  induction s as [|a s IH]; intros run H; cbn [unquote_runs]; [by rewrite app_nil_str|].
  cbn in H. apply andb_true_iff in H as [-> H]. rewrite IH by done. by rewrite app_assoc_str.
Qed.

(** What is quoted is read back. *)
Lemma unquote_quote safe s : wf_str s = true → has_char "%" safe = false → unquote utf8_replace (quote safe s) = s.
Proof.
  intros Hw Hs. unfold unquote. destruct (has_char "%" (quote safe s)) eqn:E; [|by apply quote_plain].
  rewrite unquote_runs_ascii by apply quote_ascii. change ("" +:+ ?t) with t. rewrite unquote_bytes_quote by done.
  unfold decode_replace. by rewrite Hw.
Qed.
End roundtrip.

Example quote_purl : quote "." "org.a b/c@1" = "org.a%20b%2Fc%401".
Proof. reflexivity. Qed.

Example unquote_broken : unquote id "100%25 of %zz" = "100% of %zz".
Proof. reflexivity. Qed.
