(* ===== verification/MavenSbom.v ===== *)
(** The Maven coordinates of an SBOM: [scripts/reports/reconcile_maven_sbom.py].

    The package URLs of an SPDX document are compared with the coordinates that
    Gradle resolved, and those that name the right artifact and version in the
    wrong group are corrected.  The JSON codec and [repr] are parameters. *)

From stdpp Require Import base list strings.
From Stdlib Require Import ZArith Lia Ascii Floats.
From S2P Require Import Prelude PyStr PyStrFacts PyJson PyText PyTime Host Effects Evidence PyQuote.

#[local] Open Scope Z_scope.

(** [scripts/reports/reconcile_maven_sbom.py:14-14] *)
Definition MAVEN_PURL_PREFIX : string := "pkg:maven/".

Definition reconciliation_error {A} (msg : string) : result A := throw ExcMavenReconciliationError msg.

(** [scripts/reports/reconcile_maven_sbom.py:21-25] MavenCoordinate *)
Record MavenCoordinate : Type := mkCoordinate { group : string; name : string; version : string }.

#[export] Instance MavenCoordinate_eq_dec : EqDecision MavenCoordinate.
Proof. solve_decision. Defined.

(** [scripts/reports/reconcile_maven_sbom.py:27-32] MavenCoordinate.purl *)
Definition purl (c : MavenCoordinate) : string :=
  MAVEN_PURL_PREFIX +:+ (quote "." (group c) +:+ "/" +:+ quote ".-_" (name c)) +:+ "@" +:+ quote ".-_" (version c).

Record Change : Type := mkChange { spdxId : string; originalPurl : string; canonicalPurl : string }.

Definition change_json (c : Change) : jval :=
  JObj [("spdxId", JStr (spdxId c)); ("originalPurl", JStr (originalPurl c)); ("canonicalPurl", JStr (canonicalPurl c))].

Section reconciliation.
Context (utf8_replace : string → string) (py_repr : jval → string) (json_loads : string → result jval).

Local Notation unquote := (unquote utf8_replace).
Local Notation str := (py_str py_repr).

(** [scripts/reports/reconcile_maven_sbom.py:35-39] load_json *)
Definition load_json (fs : files) (path : fs_path) : result (list (string * jval)) :=
  text ← fs_text fs path;
  document ← json_loads text;
  match document with
  | JObj d => Ok d
  | _ => reconciliation_error ("expected JSON object: " +:+ path_str path)
  end.

Definition dependency_coordinate (dependency : jval) : result MavenCoordinate :=
  match dependency with
  | JObj d =>
      let field k := strip (str (default (JStr "") (dict_get d k))) in
      if truthy (field "group") && truthy (field "name") && truthy (field "version")
      then Ok (mkCoordinate (field "group") (field "name") (field "version"))
      else reconciliation_error "manifest dependency coordinates must be non-empty"
  | _ => reconciliation_error "manifest dependency must be an object"
  end.

(** [scripts/reports/reconcile_maven_sbom.py:42-56] load_manifest *)
Definition load_manifest (fs : files) (path : fs_path) : result (list MavenCoordinate) :=
  manifest ← load_json fs path;
  match obj_get manifest "dependencies" with
  | JList dependencies =>
      coordinates ← mapM dependency_coordinate dependencies;
      if bool_decide (NoDup coordinates) then Ok coordinates
      else reconciliation_error "manifest contains duplicate coordinates"
  | _ => reconciliation_error "manifest dependencies must be a list"
  end.

(** [scripts/reports/reconcile_maven_sbom.py:59-67] parse_maven_purl *)
Definition parse_maven_purl (purl : string) : option MavenCoordinate :=
  if negb (startswith MAVEN_PURL_PREFIX purl) || negb (has_char "@" purl) then None else
  match rsplit_once "@" (string_drop (String.length MAVEN_PURL_PREFIX) purl) with
  | None => None
  | Some (path, version_with_qualifiers) =>
      match rsplit_once "/" path with
      | None => None
      | Some (group, name) =>
          let version := (split_once "#" (split_once "?" version_with_qualifiers).1).1 in
          Some (mkCoordinate (unquote group) (unquote name) (unquote version))
      end
  end.

(** A reference to a Maven package. *)
Definition is_maven_reference (reference : jval) : bool :=
  match reference with
  | JObj r => py_eq (obj_get r "referenceType") (JStr "purl")
              && startswith MAVEN_PURL_PREFIX (str (default (JStr "") (dict_get r "referenceLocator")))
  | _ => false
  end.

(** The positions of the Maven references in a list. *)
Definition maven_positions (references : list jval) : list nat :=
  List.filter (λ i, match references !! i with Some r => is_maven_reference r | None => false end) (seq 0 (length references)).

(** [scripts/reports/reconcile_maven_sbom.py:70-83] package_purl_reference, as the list and the position in it *)
Definition package_purl_reference (package : list (string * jval)) : result (option (list jval * nat)) :=
  match default (JList []) (dict_get package "externalRefs") with
  | JList references =>
      match maven_positions references with
      | [] => Ok None
      | [i] => Ok (Some (references, i))
      | _ => reconciliation_error ("package has multiple Maven PURLs: " +:+ str (default (JStr "") (dict_get package "name")))
      end
  | _ => reconciliation_error "package externalRefs must be a list"
  end.

(** The coordinates by artifact and version, in the order of the manifest. *)
Definition by_artifact_version (coordinates : list MavenCoordinate) : list (string * string * list MavenCoordinate) :=
  foldl (λ d c, dict_append d (name c, version c) c) [] coordinates.

(** [reference["referenceLocator"] = locator] for the reference at a position. *)
Definition relocate (package : list (string * jval)) (references : list jval) (i : nat) (locator : string) : jval :=
  let moved reference := match reference with JObj r => JObj (dict_set r "referenceLocator" (JStr locator)) | v => v end in
  JObj (dict_set package "externalRefs" (JList (alter moved i references))).

(** [scripts/reports/reconcile_maven_sbom.py:98-117] reconcile_document, one round of its loop *)
Definition reconcile_package (coordinates : list MavenCoordinate) (package : jval) : result (jval * list Change) :=
  match package with
  | JObj p =>
      found ← package_purl_reference p;
      match found with
      | None => Ok (package, [])
      | Some (references, i) =>
          locator ← j_getitem (default JNull (references !! i)) "referenceLocator";
          let original := str locator in
          match parse_maven_purl original with
          | None => Ok (package, [])
          | Some parsed =>
              if bool_decide (original ∈ purl <$> coordinates) then Ok (package, []) else
              match default [] (dict_get (by_artifact_version coordinates) (name parsed, version parsed)) with
              | [] => Ok (package, [])
              | [candidate] =>
                  Ok (relocate p references i (purl candidate),
                      [mkChange (str (default (JStr "") (dict_get p "SPDXID"))) original (purl candidate)])
              | _ => reconciliation_error ("ambiguous coordinate for " +:+ name parsed +:+ "@" +:+ version parsed)
              end
          end
      end
  | _ => reconciliation_error "SPDX package must be an object"
  end.

(** [scripts/reports/reconcile_maven_sbom.py:86-118] reconcile_document; the copy keeps the input as it is *)
Definition reconcile_document (sbom : list (string * jval)) (coordinates : list MavenCoordinate) :
    result (list (string * jval) * list Change) :=
  match obj_get sbom "packages" with
  | JList packages =>
      reconciled ← mapM (reconcile_package coordinates) packages;
      Ok (dict_set sbom "packages" (JList reconciled.*1), concat reconciled.*2)
  | _ => reconciliation_error "SPDX packages must be a list"
  end.

(** [scripts/reports/reconcile_maven_sbom.py:126-128] validate_correction_count *)
Definition validate_correction_count (changes : list Change) (expected : option Z) : result () :=
  match expected with
  | Some n => if Z.of_nat (length changes) =? n then Ok () else
              reconciliation_error ("expected " +:+ str_of_Z n +:+ " Maven coordinate corrections, found "
                                    +:+ str_of_Z (Z.of_nat (length changes)))
  | None => Ok ()
  end.

Context (json_dumps : jval → string) (w : world) (fs : history → files).

(** [scripts/reports/reconcile_maven_sbom.py:121-123] write_json; the missing parents are made too *)
Definition write_json (path : fs_path) (document : jval) : eff () :=
  create w path (JStr (json_dumps document +:+ String "010" "")).

Record arguments : Type := mkArguments {
  a_sbom : fs_path; a_manifest : fs_path; a_output : fs_path; a_report : fs_path; a_expected_corrections : option Z
}.

(** [scripts/reports/reconcile_maven_sbom.py:131-144] main, from the parsed arguments *)
Definition main (a : arguments) : eff Z :=
  sbom ← reading fs (λ fs, load_json fs (a_sbom a));
  coordinates ← reading fs (λ fs, load_manifest fs (a_manifest a));
  '(normalized, changes) ← lift (reconcile_document sbom coordinates);
  _ ← lift (validate_correction_count changes (a_expected_corrections a));
  _ ← write_json (a_output a) (JObj normalized);
  _ ← write_json (a_report a) (JObj [("schemaVersion", JStr "gcs-saker.maven-reconciliation.v1");
                                     ("changes", JList (change_json <$> changes))]);
  _ ← print (JObj [("corrected", JInt (Z.of_nat (length changes)))]);
  mret 0.
End reconciliation.

(** ** Package URLs *)

Section facts.
Context (utf8_replace : string → string) (py_repr : jval → string).

Definition wf_coordinate (c : MavenCoordinate) : bool := wf_str (group c) && wf_str (name c) && wf_str (version c).

(** The package URL of a coordinate is read back as that coordinate,
    whatever characters its parts hold: the separators are quoted in the parts,
    and none of them is taken for a qualifier. *)
Theorem purl_roundtrip c : wf_coordinate c = true → parse_maven_purl utf8_replace (purl c) = Some c.
Proof.
  unfold wf_coordinate. rewrite !andb_true_iff. intros [[Hg Hn] Hv]. unfold parse_maven_purl, purl.
  assert (startswith MAVEN_PURL_PREFIX (MAVEN_PURL_PREFIX +:+ (quote "." (group c) +:+ "/" +:+ quote ".-_" (name c)) +:+ "@"
            +:+ quote ".-_" (version c)) = true) as -> by (apply startswith_spec; by eexists).
  rewrite !has_char_app, !orb_true_r. cbn [negb orb]. rewrite string_drop_app.
  rewrite rsplit_once_found by (by apply has_char_quote). rewrite rsplit_once_found by (by apply has_char_quote).
  rewrite (split_once_none "?") by (by apply has_char_quote). cbn [fst].
  rewrite (split_once_none "#") by (by apply has_char_quote). cbn [fst].
  rewrite !unquote_quote by done. by destruct c.
Qed.

(** ** Reconciliation *)

Lemma by_artifact_version_get coordinates key :
  default [] (dict_get (by_artifact_version coordinates) key) = List.filter (λ c, bool_decide ((name c, version c) = key)) coordinates.
Proof.
  unfold by_artifact_version. rewrite (dict_append_all (λ c, (name c, version c)) id). cbn. apply map_id.
Qed.

(** A changed reference is still the only Maven reference of its package. *)
Lemma is_maven_moved r locator : is_maven_reference py_repr (JObj r) = true → startswith MAVEN_PURL_PREFIX locator = true →
  is_maven_reference py_repr (JObj (dict_set r "referenceLocator" (JStr locator))) = true.
Proof.
  cbn [is_maven_reference]. rewrite !andb_true_iff. intros [Ht _] Hl. unfold obj_get in *.
  rewrite dict_get_set_ne by done. split; [done|]. by rewrite dict_get_set_eq.
Qed.

Lemma maven_positions_alter references i f : (∀ r, references !! i = Some r → is_maven_reference py_repr (f r) = is_maven_reference py_repr r) →
  maven_positions py_repr (alter f i references) = maven_positions py_repr references.
Proof.
  intros H. unfold maven_positions. rewrite length_alter. apply filter_ext. intros j.
  destruct (decide (i = j)) as [->|Hne]; [|by rewrite (list_lookup_alter_ne f references i j Hne)].
  rewrite list_lookup_alter_eq. destruct (references !! j) as [r|] eqn:E; [|done]. cbn. by apply H.
Qed.

Lemma maven_position_in references i : maven_positions py_repr references = [i] →
  ∃ r, references !! i = Some (JObj r) ∧ is_maven_reference py_repr (JObj r) = true.
Proof.
  intros H. assert (i ∈ maven_positions py_repr references) as Hin by (rewrite H; left).
  unfold maven_positions in Hin. apply list_elem_of_In, filter_In in Hin as [_ Hi].
  destruct (references !! i) as [[]|] eqn:E; try done. by eexists.
Qed.

Lemma filter_none_iff {A} (f : A → bool) l : List.filter f l = [] ↔ ∀ a, In a l → f a = false.
Proof.
  split.
  - intros H a Ha. apply filter_none in H. rewrite Forall_forall in H. by apply H, list_elem_of_In.
  - intros H. induction l as [|a l IH]; [done|]. cbn. rewrite H by by left. apply IH. intros b Hb. apply H. by right.
Qed.

(** The only Maven reference of a list, between references of other kinds. *)
Lemma maven_position_split references i : maven_positions py_repr references = [i] →
  ∃ before r after, references = before ++ JObj r :: after ∧ i = length before
    ∧ is_maven_reference py_repr (JObj r) = true
    ∧ ∀ x, x ∈ before ∨ x ∈ after → is_maven_reference py_repr x = false.
Proof.
  intros H. destruct (maven_position_in _ _ H) as (r & Hr & Hm).
  destruct (list_elem_of_split_length _ _ _ Hr) as (before & after & -> & ->). exists before, r, after. split_and!; try done.
  assert (∀ j x, (before ++ JObj r :: after) !! j = Some x → is_maven_reference py_repr x = true → j = length before) as Hj.
  { intros j x Hx Hmx. apply list_elem_of_singleton. rewrite <-H. unfold maven_positions. apply list_elem_of_In, filter_In.
    rewrite Hx. split; [|done]. apply in_seq. apply lookup_lt_Some in Hx. lia. }
  intros x Hx. apply not_true_iff_false. intros Hmx. destruct Hx as [Hx|Hx]; apply list_elem_of_lookup in Hx as [j Hx].
  - pose proof (lookup_lt_Some _ _ _ Hx). assert (j = length before); [|lia]. apply (Hj j x); [|done]. by rewrite lookup_app_l.
  - assert (length before + S j = length before)%nat; [|lia]. apply (Hj _ x); [|done].
    rewrite lookup_app_r by lia. by replace (length before + S j - length before)%nat with (S j) by lia.
Qed.

Lemma maven_positions_middle before x after : is_maven_reference py_repr x = true →
  (∀ y, y ∈ before ∨ y ∈ after → is_maven_reference py_repr y = false) →
  maven_positions py_repr (before ++ x :: after) = [length before].
Proof.
  intros Hx Hy. unfold maven_positions. rewrite length_app. cbn [length].
  rewrite seq_app. cbn [seq]. rewrite List.filter_app. cbn [List.filter]. rewrite list_lookup_middle, Hx by done.
  rewrite (proj2 (filter_none_iff _ _)), (proj2 (filter_none_iff _ _)); [done| |].
  - intros j [H1 H2]%in_seq. rewrite lookup_app_r by lia. destruct (j - length before)%nat as [|k] eqn:Ek; [lia|]. cbn [lookup list_lookup].
    destruct (after !! k) as [y|] eqn:E; [|done]. apply Hy. right. by eapply list_elem_of_lookup_2.
  - intros j [H1 H2]%in_seq. rewrite lookup_app_l by lia. destruct (before !! j) as [y|] eqn:E; [|done].
    apply Hy. left. by eapply list_elem_of_lookup_2.
Qed.

Lemma alter_middle (f : jval → jval) before x after :
  alter f (length before) (before ++ x :: after) = before ++ f x :: after.
Proof. induction before as [|y before IH]; [done|]. cbn. by f_equal. Qed.

Context (coordinates : list MavenCoordinate).

(** The one coordinate that has the artifact and the version of another. *)
Definition only_match (parsed c : MavenCoordinate) : Prop :=
  c ∈ coordinates ∧ name c = name parsed ∧ version c = version parsed
  ∧ ∀ c', c' ∈ coordinates → name c' = name parsed → version c' = version parsed → c' = c.

(** A package whose Maven reference, if it has one, is none that could be
    corrected: its URL does not parse, or is that of a resolved coordinate, or no
    resolved coordinate has its artifact and version. *)
Definition stays (p : list (string * jval)) : Prop :=
  ∀ references r locator parsed, dict_get p "externalRefs" = Some (JList references) → JObj r ∈ references →
    is_maven_reference py_repr (JObj r) = true → dict_get r "referenceLocator" = Some locator →
    parse_maven_purl utf8_replace (py_str py_repr locator) = Some parsed →
    py_str py_repr locator ∈ purl <$> coordinates
    ∨ ∀ c, c ∈ coordinates → ¬ (name c = name parsed ∧ version c = version parsed).

(** What reconciliation makes of one package, with the changes it lists: nothing
    where nothing is due; otherwise the locator of the only Maven reference, with
    the artifact and version of exactly one resolved coordinate and a URL of none,
    becomes the URL of that coordinate, and all other fields and references stay. *)
Inductive package_reconciled : jval → jval → list Change → Prop :=
  | package_kept p : stays p → package_reconciled (JObj p) (JObj p) []
  | package_corrected p before r after locator parsed c :
      dict_get p "externalRefs" = Some (JList (before ++ JObj r :: after)) →
      is_maven_reference py_repr (JObj r) = true →
      (∀ x, x ∈ before ∨ x ∈ after → is_maven_reference py_repr x = false) →
      dict_get r "referenceLocator" = Some locator →
      py_str py_repr locator ∉ purl <$> coordinates →
      parse_maven_purl utf8_replace (py_str py_repr locator) = Some parsed → only_match parsed c →
      package_reconciled (JObj p)
        (JObj (dict_set p "externalRefs"
                 (JList (before ++ JObj (dict_set r "referenceLocator" (JStr (purl c))) :: after))))
        [mkChange (py_str py_repr (default (JStr "") (dict_get p "SPDXID"))) (py_str py_repr locator) (purl c)].

Lemma elem_of_matching parsed c :
  c ∈ List.filter (λ c, bool_decide ((name c, version c) = (name parsed, version parsed))) coordinates
  ↔ c ∈ coordinates ∧ name c = name parsed ∧ version c = version parsed.
Proof.
  rewrite !list_elem_of_In, filter_In, bool_decide_eq_true. split; [by intros [? [= -> ->]]|by intros (? & -> & ->)].
Qed.

Lemma filter_one parsed c : List.filter (λ c, bool_decide ((name c, version c) = (name parsed, version parsed))) coordinates = [c] →
  only_match parsed c.
Proof.
  intros H. pose proof (elem_of_matching parsed) as Hc. rewrite H in Hc.
  destruct (proj1 (Hc c) (list_elem_of_here _ _)) as (Hin & Hn & Hv). split_and!; [done|done|done|].
  intros c' Hin' Hn' Hv'. by apply list_elem_of_singleton, Hc.
Qed.

Lemma maven_locator r : is_maven_reference py_repr (JObj r) = true → ∃ locator, dict_get r "referenceLocator" = Some locator.
Proof.
  cbn [is_maven_reference]. intros [_ H]%andb_true_iff. destruct (dict_get r "referenceLocator") as [l|]; [by exists l|discriminate H].
Qed.

(** The Maven references of a list are at its Maven positions. *)
Lemma maven_elem_position references r : JObj r ∈ references → is_maven_reference py_repr (JObj r) = true →
  ∃ i, i ∈ maven_positions py_repr references ∧ references !! i = Some (JObj r).
Proof.
  intros [i Hi]%list_elem_of_lookup Hm. exists i. split; [|done]. unfold maven_positions. apply list_elem_of_In, filter_In.
  rewrite Hi. split; [|done]. apply in_seq. apply lookup_lt_Some in Hi. lia.
Qed.

Lemma reconcile_package_cases package package' changes :
  reconcile_package utf8_replace py_repr coordinates package = Ok (package', changes) →
  package_reconciled package package' changes.
Proof.
  destruct package as [| | | | | |p]; try done. cbn [reconcile_package]. intros (found & Hf & H)%bind_Ok.
  unfold package_purl_reference in Hf.
  destruct (dict_get p "externalRefs") as [[| | | | |l|]|] eqn:Hd; cbn in Hf; try discriminate Hf.
  2: { injection Hf as <-. injection H as <- <-. constructor. intros ? ? ? ?. congruence. }
  destruct (maven_positions py_repr l) as [|j [|]] eqn:Hpos; try discriminate Hf; injection Hf as <-.
  { injection H as <- <-. constructor. intros refs r loc parsed Hrefs Hin Hm. assert (refs = l) as -> by congruence.
    destruct (maven_elem_position _ _ Hin Hm) as (i & Hi & _). rewrite Hpos in Hi. by apply not_elem_of_nil in Hi. }
  destruct (maven_position_split _ _ Hpos) as (before & r & after & -> & -> & Hm & Hother).
  destruct (maven_locator r Hm) as [locator Hloc].
  assert (Hstays : (∀ parsed, parse_maven_purl utf8_replace (py_str py_repr locator) = Some parsed →
      py_str py_repr locator ∈ purl <$> coordinates ∨ ∀ c, c ∈ coordinates → ¬ (name c = name parsed ∧ version c = version parsed)) → stays p).
  { intros Hs refs r' loc parsed Hrefs Hin Hm' Hloc'. assert (refs = before ++ JObj r :: after) as -> by congruence.
    assert (r' = r) as ->.
    { apply elem_of_app in Hin as [Hin|[E|Hin]%elem_of_cons]; [|by injection E|];
        rewrite Hother in Hm'; [done|by left|done|by right]. }
    assert (loc = locator) as -> by congruence. apply Hs. }
  rewrite list_lookup_middle in H by done. cbn [default id j_getitem] in H. rewrite Hloc in H. cbn [mbind result_bind] in H.
  destruct (parse_maven_purl utf8_replace (py_str py_repr locator)) as [parsed|] eqn:Hp;
    [|injection H as <- <-; constructor; by apply Hstays].
  destruct (bool_decide _) eqn:Hc.
  { injection H as <- <-. constructor. apply Hstays. intros ? _. left. by apply bool_decide_eq_true_1 in Hc. }
  apply bool_decide_eq_false in Hc.
  rewrite by_artifact_version_get in H. destruct (List.filter _ _) as [|c [|]] eqn:Hmatch; [| |done].
  - injection H as <- <-. constructor. apply Hstays. intros parsed' [= <-]. right. intros c Hin [Hn Hv].
    assert (c ∈ @nil MavenCoordinate) as Hnil by (rewrite <-Hmatch; by apply elem_of_matching). by apply not_elem_of_nil in Hnil.
  - injection H as <- <-. unfold relocate. rewrite alter_middle. econstructor; try done. by apply filter_one.
Qed.

Lemma dict_set_set {V} (d : list (string * V)) k v v' : dict_set (dict_set d k v) k v' = dict_set d k v'.
Proof.
  induction d as [|[k0 v0] d IH]; cbn.
  - by rewrite decide_True.
  - destruct (decide (k = k0)) as [->|Hk]; cbn; [by rewrite decide_True|by rewrite decide_False, IH].
Qed.

(** A changed package is left as it is by another round. *)
Lemma reconcile_package_again package package' changes :
  reconcile_package utf8_replace py_repr coordinates package = Ok (package', changes) →
  reconcile_package utf8_replace py_repr coordinates package' = Ok (package', []).
Proof.
  intros H. pose proof (reconcile_package_cases _ _ _ H) as Hcases.
  destruct Hcases as [p Hs|p before r after locator parsed c Hd Hm Hother Hloc Hnot Hp Hmatch].
  - exact H.
  - clear H. cbn [reconcile_package]. unfold package_purl_reference. rewrite dict_get_set_eq. cbn [default id].
    assert (maven_positions py_repr (before ++ JObj (dict_set r "referenceLocator" (JStr (purl c))) :: after) = [length before]) as ->.
    { apply maven_positions_middle; [|done]. apply is_maven_moved; [done|]. apply startswith_spec. by eexists. }
    cbn [mbind result_bind]. rewrite list_lookup_middle by done. cbn [default id j_getitem].
    rewrite dict_get_set_eq. cbn [mbind result_bind py_str].
    rewrite bool_decide_true; [by destruct (parse_maven_purl utf8_replace (purl c))|].
    apply list_elem_of_fmap. exists c. split; [done|]. by destruct Hmatch.
Qed.

(** C32: Reconciliation changes exactly what is due, and leaves nothing to
    correct: a second run changes nothing.  Package by package, in order, the
    document holds either the package as it was, which then had no reference to
    correct, or the package with one locator replaced: that of its only Maven
    reference, whose URL is of no resolved coordinate while exactly one resolved
    coordinate has its artifact and version, becomes the URL of that coordinate;
    every other reference and field is as it was.  The changes listed are those
    replacements in the order of the packages, each with the package's SPDX
    identifier and the URL that was there. *)
Theorem reconcile_settles sbom normalized changes :
  reconcile_document utf8_replace py_repr sbom coordinates = Ok (normalized, changes) →
  (∃ packages reconciled, obj_get sbom "packages" = JList packages
     ∧ Forall2 (λ package '(package', listed), package_reconciled package package' listed) packages reconciled
     ∧ normalized = dict_set sbom "packages" (JList reconciled.*1) ∧ changes = concat reconciled.*2)
  ∧ reconcile_document utf8_replace py_repr normalized coordinates = Ok (normalized, []).
Proof.
  unfold reconcile_document. destruct (obj_get sbom "packages") as [| | | | |packages|] eqn:Hp; try done.
  intros (reconciled & Hr & [= <- <-])%bind_Ok. apply mapM_Ok in Hr. split.
  - exists packages, reconciled. split; [done|]. split; [|done].
    eapply Forall2_impl; [exact Hr|]. intros x [y ch] H. by apply reconcile_package_cases.
  - unfold obj_get. rewrite dict_get_set_eq. cbn [default id].
    assert (mapM (reconcile_package utf8_replace py_repr coordinates) reconciled.*1 = Ok ((λ y, (y, [])) <$> reconciled.*1)) as ->.
    { apply mapM_Ok_fmap. intros y (z & -> & Hz)%list_elem_of_fmap. clear -Hr Hz.
      apply list_elem_of_lookup in Hz as [i Hi]. destruct (Forall2_lookup_r _ _ _ _ _ Hr Hi) as (x & _ & Hx). destruct z as [y ch].
      by eapply reconcile_package_again. }
    cbn [mbind result_bind]. rewrite dict_set_set. do 3 f_equal.
    + f_equal. clear. by induction reconciled as [|[] ? IH]; cbn; [|f_equal].
    + clear. by induction reconciled as [|[] ? IH].
Qed.
End facts.

(** ** Examples *)

Definition spring : MavenCoordinate := mkCoordinate "org.springframework" "spring-core" "6.2.1".

Lemma purl_roundtrip_witness : purl spring = "pkg:maven/org.springframework/spring-core@6.2.1"
  ∧ parse_maven_purl id (purl spring) = Some spring.
Proof. split; [reflexivity|]. apply purl_roundtrip. reflexivity. Defined.

Definition sample_package (locator : string) : jval :=
  JObj [("SPDXID", JStr "SPDXRef-1");
        ("externalRefs", JList [JObj [("referenceType", JStr "cpe23Type"); ("referenceLocator", JStr "cpe:2.3")];
                                JObj [("referenceType", JStr "purl"); ("referenceLocator", JStr locator)]])].
Definition sample_sbom : list (string * jval) := [("packages", JList [sample_package "pkg:maven/spring-core/spring-core@6.2.1"])].
Definition sample_change : Change :=
  mkChange "SPDXRef-1" "pkg:maven/spring-core/spring-core@6.2.1" "pkg:maven/org.springframework/spring-core@6.2.1".

Lemma sample_reconciled : reconcile_document id (λ _, "") sample_sbom [spring]
  = Ok ([("packages", JList [sample_package "pkg:maven/org.springframework/spring-core@6.2.1"])], [sample_change]).
Proof. vm_compute. reflexivity. Qed.

Lemma reconcile_settles_witness : ∃ package', package_reconciled id (λ _, "") [spring]
  (sample_package "pkg:maven/spring-core/spring-core@6.2.1") package' [sample_change].
Proof.
  destruct (reconcile_settles id (λ _, "") [spring] sample_sbom _ _ sample_reconciled) as [(packages & reconciled & Hp & H & _ & Hc) _].
  injection Hp as <-. apply Forall2_cons_inv_l in H as ([package' listed] & rest & Hone & Hnone & ->).
  apply Forall2_nil_inv_l in Hnone as ->.
  exists package'. assert (listed = [sample_change]) as <- by (rewrite Hc; symmetry; apply app_nil_r). exact Hone.
Defined.

(** Two groups with the same artifact and version are refused. *)
Example ambiguous_refused :
  is_ok (reconcile_document id (λ _, "") sample_sbom [spring; mkCoordinate "org.other" "spring-core" "6.2.1"]) = false.
Proof. vm_compute. reflexivity. Qed.

(** A URL with qualifiers is replaced without them. *)
Example qualifiers_parsed : parse_maven_purl id "pkg:maven/a.b/c@1?type=jar#x" = Some (mkCoordinate "a.b" "c" "1").
Proof. reflexivity. Qed.
