(* ===== verification/MavenLicense.v ===== *)
(** License evidence of Maven packages: [scripts/reports/maven_license_evidence.py].

    A package whose license the report does not know is looked up in Maven
    Central: its POM, then the POMs of its parents, until one declares licenses.
    The network is the machine; the bodies it delivers, the XML parser and the
    JSON codec are parameters. *)

From stdpp Require Import base list strings.
From Stdlib Require Import ZArith Lia Ascii Floats Strings.Byte.
From S2P Require Import Prelude PyStr PyStrFacts PyTime PyJson PyText Host Effects Evidence PyXml PyQuote.

#[local] Open Scope Z_scope.

(** [scripts/reports/maven_license_evidence.py:15-15] *)
Definition MAVEN_PREFIX : string := "pkg:maven/".
(** [scripts/reports/maven_license_evidence.py:16-16] *)
Definition CENTRAL : string := "https://repo1.maven.org/maven2".
(** [scripts/reports/maven_license_evidence.py:17-17] *)
Definition MAX_PARENT_DEPTH : nat := 3.

(** [scripts/reports/maven_license_evidence.py:18-41] SPDX_BY_POM_NAME *)
Definition SPDX_BY_POM_NAME : list (string * string) :=
  [("Apache 2.0", "Apache-2.0");
   ("Apache License Version 2.0", "Apache-2.0");
   ("Apache License, Version 2.0", "Apache-2.0");
   ("Apache-2.0", "Apache-2.0");
   ("The Apache License, Version 2.0", "Apache-2.0");
   ("The Apache Software License, Version 2.0", "Apache-2.0");
   ("BSD-2-Clause", "BSD-2-Clause");
   ("BSD-3-Clause", "BSD-3-Clause");
   ("Eclipse Distribution License - v 1.0", "EDL-1.0");
   ("Eclipse Distribution License v. 1.0", "EDL-1.0");
   ("Eclipse Public License - v 2.0", "EPL-2.0");
   ("Eclipse Public License v. 2.0", "EPL-2.0");
   ("EPL 2.0", "EPL-2.0");
   ("EPL-2.0", "EPL-2.0");
   ("GNU Library General Public License v2.1 or later", "LGPL-2.1-or-later");
   ("GPL2 w/ CPE", "GPL-2.0-only WITH Classpath-exception-2.0");
   ("LGPL-2.1-only", "LGPL-2.1-only");
   ("MIT", "MIT");
   ("MIT license", "MIT");
   ("The MIT License (MIT)", "MIT");
   ("MIT-0", "MIT-0");
   ("Public Domain, per Creative Commons CC0", "CC0-1.0")].

Definition evidence_error {A} (msg : string) : result A := throw ExcMavenLicenseEvidenceError msg.

(** [scripts/reports/maven_license_evidence.py:48-52] Coordinate *)
Record Coordinate : Type := mkCoordinate { group : string; artifact : string; version : string }.

(** [scripts/reports/maven_license_evidence.py:54-59] Coordinate.pom_url *)
Definition pom_url (c : Coordinate) : string :=
  let group_path := join "/" (quote "" <$> split_on "." (group c)) in
  let artifact := quote ".-_" (artifact c) in
  let version := quote ".-_" (version c) in
  CENTRAL +:+ "/" +:+ group_path +:+ "/" +:+ artifact +:+ "/" +:+ version +:+ "/" +:+ artifact +:+ "-" +:+ version +:+ ".pom".

(** ** POMs *)

Record License : Type := mkLicense { license_name : string; license_url : string }.

(** [scripts/reports/maven_license_evidence.py:82-84] child_text *)
Definition child_text (element : xml) (name : string) : string :=
  match find_any name element with
  | Some child => match text_content child with Some text => strip text | None => "" end
  | None => ""
  end.

(** [scripts/reports/maven_license_evidence.py:87-94] pom_licenses *)
Definition pom_licenses (root : xml) : list License :=
  List.filter (λ l, truthy (license_name l) || truthy (license_url l))
    (map (λ e, mkLicense (child_text e "name") (child_text e "url"))
       (flat_map (findall_any "license") (findall_any "licenses" root))).

(** [scripts/reports/maven_license_evidence.py:97-105] spdx_expression *)
Fixpoint expressions (licenses : list License) (found : list string) : option (list string) :=
  match licenses with
  | [] => Some found
  | l :: licenses =>
      match dict_get SPDX_BY_POM_NAME (license_name l) with
      | None => None
      | Some expression => expressions licenses (if bool_decide (expression ∈ found) then found else found ++ [expression])
      end
  end.
Definition spdx_expression (licenses : list License) : option string :=
  match expressions licenses [] with
  | Some ((_ :: _) as found) => Some (join " OR " found)
  | _ => None
  end.

(** [scripts/reports/maven_license_evidence.py:108-113] parent_coordinate *)
Definition parent_coordinate (root : xml) : option Coordinate :=
  match find_any "parent" root with
  | None => None
  | Some parent =>
      let c := mkCoordinate (child_text parent "groupId") (child_text parent "artifactId") (child_text parent "version") in
      if truthy (group c) && truthy (artifact c) && truthy (version c) then Some c else None
  end.

(** ** Evidence *)

Inductive outcome : Type := RESOLVED (spdx : option string) | UNRESOLVED | UNAVAILABLE (error : string).

Record evidence : Type := mkEvidence {
  e_coordinate : Coordinate; e_licenses : list License; e_chain : list string; e_outcome : outcome
}.

Definition is_resolved (e : evidence) : bool := match e_outcome e with RESOLVED _ => true | _ => false end.

Definition record_json (e : evidence) : jval :=
  JObj ([("coordinate", JObj [("group", JStr (group (e_coordinate e))); ("artifact", JStr (artifact (e_coordinate e)));
                              ("version", JStr (version (e_coordinate e)))]);
         ("licenses", JList (map (λ l, JObj [("name", JStr (license_name l)); ("url", JStr (license_url l))]) (e_licenses e)));
         ("pomChain", JList (JStr <$> e_chain e))]
        ++ match e_outcome e with
           | RESOLVED spdx => [("spdxExpression", match spdx with Some s => JStr s | None => JNull end); ("status", JStr "RESOLVED")]
           | UNRESOLVED => [("status", JStr "UNRESOLVED")]
           | UNAVAILABLE error => [("status", JStr "UNAVAILABLE"); ("error", JStr error)]
           end).

Section network.
Context (utf8_replace : string → string) (et_fromstring : list byte → result xml) (json_loads : string → result jval).
(** The machine, and the bytes of the last response. *)
Context (w : world) (body : history → result (list byte)).

(** [scripts/reports/maven_license_evidence.py:62-67] coordinate_from_purl *)
Definition coordinate_from_purl (purl : string) : result Coordinate :=
  if negb (startswith MAVEN_PREFIX purl) || negb (has_char "@" purl) then evidence_error ("invalid Maven PURL: " +:+ purl) else
  match rsplit_once "@" (string_drop (String.length MAVEN_PREFIX) purl) with
  | None => value_error "not enough values to unpack"
  | Some (path, version) =>
      match rsplit_once "/" path with
      | None => value_error "not enough values to unpack"
      | Some (group, artifact) =>
          let unquote := PyQuote.unquote utf8_replace in
          Ok (mkCoordinate (unquote group) (unquote artifact) (unquote (split_once "?" version).1))
      end
  end.

(** [scripts/reports/maven_license_evidence.py:70-79] fetch_pom *)
Definition fetch_pom (c : Coordinate) : eff xml :=
  outcome ← fetch w (pom_url c);
  match outcome with
  | Response _ =>
      payload ← (λ h, (Some (body h), []) : option (result (list byte)) * history);
      match et_fromstring (read_at_most (2 * 1024 * 1024) payload) with
      | Raise (PyErr ExcParseError _) => raise ExcMavenLicenseEvidenceError ("invalid POM XML: " +:+ pom_url c)
      | r => lift r
      end
  | HttpStatusError _ | NoResponse => raise ExcMavenLicenseEvidenceError ("POM unavailable: " +:+ pom_url c)
  | FetchRaised e => lift (Raise e)
  end.

(** The loop of [resolve_evidence], from the number of rounds left. *)
Fixpoint resolve_from (rounds : nat) (coordinate : Coordinate) (chain : list string) (current : Coordinate) : eff evidence :=
  match rounds with
  | O => mret (mkEvidence coordinate [] chain UNRESOLVED)
  | S rounds =>
      fetched ← try_except (root ← fetch_pom current; mret (inl root)) [ExcMavenLicenseEvidenceError] (λ error, mret (inr error));
      match fetched with
      | inr error => mret (mkEvidence coordinate [] chain (UNAVAILABLE error))
      | inl root =>
          let chain := chain ++ [pom_url current] in
          match pom_licenses root with
          | (_ :: _) as licenses => mret (mkEvidence coordinate licenses chain (RESOLVED (spdx_expression licenses)))
          | [] =>
              match parent_coordinate root with
              | None => mret (mkEvidence coordinate [] chain UNRESOLVED)
              | Some parent => resolve_from rounds coordinate chain parent
              end
          end
      end
  end.

(** [scripts/reports/maven_license_evidence.py:116-144] resolve_evidence *)
Definition resolve_evidence (coordinate : Coordinate) : eff evidence :=
  resolve_from (S MAX_PARENT_DEPTH) coordinate [] coordinate.

(** The URL of a package whose license is not known, if it is one of Maven's; a
    value whose text starts with the prefix is a text. *)
Definition unresolved_purl (package : jval) : result (option string) :=
  disposition ← j_get package "disposition";
  purl ← j_get_or package "purl" (JStr "");
  Ok match purl with
     | JStr purl => if py_eq disposition (JStr "UNKNOWN") && startswith MAVEN_PREFIX purl then Some purl else None
     | _ => None
     end.

(** [scripts/reports/maven_license_evidence.py:147-153] unresolved_maven_purls *)
Definition unresolved_maven_purls (fs : files) (report_path : fs_path) : result (list string) :=
  text ← fs_text fs report_path;
  report ← json_loads text;
  packages ← j_get_or report "packages" (JList []);
  items ← j_items packages;
  purls ← mapM unresolved_purl items;
  Ok (py_sorted (omap id purls)).

(** [scripts/reports/maven_license_evidence.py:156-162] main, from the parsed arguments *)
Definition main (fs : history → files) (license_report : fs_path) : eff Z :=
  purls ← reading fs (λ fs, unresolved_maven_purls fs license_report);
  records ← map_eff (λ purl, c ← lift (coordinate_from_purl purl); resolve_evidence c) purls;
  _ ← print (JObj [("schemaVersion", JStr "gcs-saker.maven-license-evidence.v1"); ("records", JList (record_json <$> records))]);
  mret (if forallb is_resolved records then 0 else 1).

(** [scripts/reports/maven_license_evidence.py:165-170] the entry point *)
Definition entry (fs : history → files) (license_report : fs_path) : eff Z :=
  try_except (main fs license_report) [ExcMavenLicenseEvidenceError]
    (λ error, _ ← complain (JStr ("maven license evidence failed: " +:+ error)); mret 1).
End network.

(** ** What resolved evidence shows *)

(** The expression names every license of the table once. *)
Lemma expressions_spec licenses : ∀ found k, NoDup found → expressions licenses found = Some k →
  NoDup k ∧ ∀ x, x ∈ k ↔ x ∈ found ∨ x ∈ omap (λ l, dict_get SPDX_BY_POM_NAME (license_name l)) licenses.
Proof.
  set (f := λ l, dict_get SPDX_BY_POM_NAME (license_name l)).
  induction licenses as [|l licenses IH]; intros found k Hnd H; cbn [expressions] in H.
  - injection H as <-. split; [done|]. intros x. cbn. rewrite elem_of_nil. tauto.
  - change (dict_get SPDX_BY_POM_NAME (license_name l)) with (f l) in H. cbn [omap list_omap]. destruct (f l) as [e|]; [|done].
    case_bool_decide as Hin; apply IH in H as [Hk Hx].
    + split; [done|]. intros x. rewrite Hx, elem_of_cons. destruct (decide (x = e)) as [->|]; tauto.
    + done.
    + split; [done|]. intros x. rewrite Hx, elem_of_cons, elem_of_app, list_elem_of_singleton. tauto.
    + apply NoDup_app. split_and!; [done| |apply NoDup_singleton]. by intros y Hy ->%list_elem_of_singleton.
Qed.

Lemma spdx_expression_Some licenses e : spdx_expression licenses = Some e →
  ∃ found, e = join " OR " found ∧ NoDup found
    ∧ ∀ x, x ∈ found ↔ ∃ l, l ∈ licenses ∧ dict_get SPDX_BY_POM_NAME (license_name l) = Some x.
Proof.
  unfold spdx_expression. destruct (expressions licenses []) as [[|x found]|] eqn:H; try done. intros [= <-].
  apply expressions_spec in H as [Hnd Hx]; [|constructor]. exists (x :: found). split; [reflexivity|]. split; [exact Hnd|].
  intros y. rewrite Hx, elem_of_nil, list_elem_of_omap. tauto.
Qed.

Section facts.
Context (utf8_replace : string → string) (et_fromstring : list byte → result xml) (json_loads : string → result jval).
Context (w : world) (body : history → result (list byte)).

Local Notation fetch_pom := (fetch_pom et_fromstring w body).
Local Notation resolve_from := (resolve_from et_fromstring w body).
Local Notation resolve_evidence := (resolve_evidence et_fromstring w body).

(** From a coordinate to the first POM that declares licenses: every POM on the
    way is delivered, has none and names the next as its parent. *)
Inductive climbs : history → Coordinate → list string → xml → history → Prop :=
  | climb_here h c root t : fetch_pom c h = (Some (Ok root), t) → pom_licenses root ≠ [] → climbs h c [pom_url c] root t
  | climb_up h c root t parent urls top u : fetch_pom c h = (Some (Ok root), t) → pom_licenses root = [] →
      parent_coordinate root = Some parent → climbs (h ++ t) parent urls top u → climbs h c (pom_url c :: urls) top (t ++ u).

(** The fetch as the loop sees it. *)
Lemma try_fetch_cases c h :
  let m := try_except (root ← fetch_pom c; mret (inl root)) [ExcMavenLicenseEvidenceError] (λ error, mret (inr error)) in
  ∃ t, (fetch_pom c h).2 = t ∧ length t = 1%nat
    ∧ ((∃ root, fetch_pom c h = (Some (Ok root), t) ∧ m h = (Some (Ok (inl root)), t))
       ∨ (∃ e, fetch_pom c h = (Some (Raise e), t) ∧ (m h = (Some (Raise e), t) ∨ ∃ error, m h = (Some (Ok (inr error)), t)))).
Proof.
  cbn zeta. assert (∃ r t, fetch_pom c h = (Some r, t) ∧ length t = 1%nat) as (r & t & Hf & Hl).
  { unfold MavenLicense.fetch_pom, fetch, mbind, eff_bind. destruct (w_fetch w h (pom_url c)); cbn;
      [destruct (body _) as [payload|e]; cbn; [destruct (et_fromstring _) as [root|[[] msg|]]|]|..]; eexists _, _; by split. }
  exists t. rewrite Hf. split; [done|]. split; [done|]. unfold try_except. unfold mbind, eff_bind. rewrite Hf.
  destruct r as [root|e]; [left; exists root; split; [done|]; cbn; by rewrite app_nil_r|]. right. exists e. split; [done|].
  destruct e as [cl msg|]; cbn -[existsb subclass]; [|by left]. destruct (existsb (subclass cl) [ExcMavenLicenseEvidenceError]); [right; exists msg; cbn; by rewrite app_nil_r|by left].
Qed.

Lemma resolve_from_iff rounds : ∀ origin chain c h r t,
  (resolve_from rounds origin chain c h = (Some (Ok r), t) ∧ is_resolved r = true) ↔
  ∃ urls top, climbs h c urls top t ∧ (length urls <= rounds)%nat
    ∧ r = mkEvidence origin (pom_licenses top) (chain ++ urls) (RESOLVED (spdx_expression (pom_licenses top))).
Proof.
  induction rounds as [|rounds IH]; intros origin chain c h r t.
  { cbn [MavenLicense.resolve_from]. split.
    - by intros [[<- _]%mret_Ok H].
    - intros (urls & top & Hc & Hl & _). by destruct Hc; cbn in Hl; lia. }
  cbn [MavenLicense.resolve_from]. destruct (try_fetch_cases c h) as (t1 & Ht1 & Hl1 & Hcases).
  set (m := try_except _ _ _) in *.
  assert (∀ urls top u, climbs h c urls top u → ∃ root, fetch_pom c h = (Some (Ok root), t1)) as Hcl.
  { intros urls top u Hc. destruct Hc as [? ? root u Hf _|? ? root u ? ? ? ? Hf _ _ _]; exists root; rewrite Hf in Ht1 |- *; by rewrite <-Ht1. }
  destruct Hcases as [(root & Hf & Hm)|(e & Hf & Hm)].
  - unfold mbind at 1, eff_bind at 1. rewrite Hm. destruct (pom_licenses root) as [|l licenses] eqn:Hp.
    + destruct (parent_coordinate root) as [parent|] eqn:Hpar.
      * split.
        -- intros [H Hr]. destruct (resolve_from rounds origin (chain ++ [pom_url c]) parent (h ++ t1)) as [o u] eqn:E.
           injection H as -> <-. destruct (proj1 (IH _ _ _ _ _ _) (conj E Hr)) as (urls & top & Hc & Hl & ->).
           exists (pom_url c :: urls), top. split_and!; [by eapply climb_up|cbn; lia|]. by rewrite <-app_assoc.
        -- intros (urls & top & Hc & Hl & ->). destruct Hc as [? ? root' u Hf' Hne|? ? root' u parent' urls top u' Hf' _ Hpar' Hc];
             rewrite Hf in Hf'; injection Hf' as <- <-; [done|]. rewrite Hpar in Hpar'. injection Hpar' as <-.
           destruct (proj2 (IH origin (chain ++ [pom_url c]) parent (h ++ t1) _ u')
                       (ex_intro _ urls (ex_intro _ top (conj Hc (conj (le_S_n _ _ Hl) eq_refl))))) as [E Hr].
           rewrite E. split; [|done]. by rewrite <-app_assoc.
      * split.
        -- intros [[= <- <-] Hr]. done.
        -- intros (urls & top & Hc & _). destruct Hc as [? ? root' u Hf' Hne|? ? root' u parent' urls top u' Hf' _ Hpar' Hc];
             rewrite Hf in Hf'; injection Hf' as <- <-; [done|]. by rewrite Hpar in Hpar'.
    + split.
      * intros [[= <- <-] _]. exists [pom_url c], root. rewrite app_nil_r. split_and!; [apply climb_here; [done|by rewrite Hp]|cbn; lia|by rewrite Hp].
      * intros (urls & top & Hc & _ & ->). destruct Hc as [? ? root' u Hf' Hne|? ? root' u parent' urls top u' Hf' Hno _ _];
          rewrite Hf in Hf'; injection Hf' as <- <-; [|by rewrite Hp in Hno]. cbn. by rewrite Hp, app_nil_r.
  - split.
    + intros [H Hr]. apply eff_bind_Ok in H as (x & u & u' & Hx & H & ->).
      destruct Hm as [Hm|(error & Hm)]; rewrite Hm in Hx; [done|]. injection Hx as <- <-. by apply mret_Ok in H as [<- _].
    + intros (urls & top & Hc & _). apply Hcl in Hc as (root & Hc). congruence.
Qed.

(** C31: The license of a package is resolved exactly when climbing from its POM
    through at most three parents reaches one that declares licenses, every POM
    below it having none: the evidence then holds those licenses, the expression
    they form, and the POMs in the order they were read, which are also all that
    was requested. *)
Theorem resolved_iff_climbs c h r t :
  (resolve_evidence c h = (Some (Ok r), t) ∧ is_resolved r = true) ↔
  ∃ urls top, climbs h c urls top t ∧ (length urls <= 4)%nat
    ∧ r = mkEvidence c (pom_licenses top) urls (RESOLVED (spdx_expression (pom_licenses top))).
Proof. apply resolve_from_iff. Qed.

(** Whatever happens, four POMs at most are requested. *)
Lemma resolve_from_bounded rounds : ∀ origin chain c h, (length (resolve_from rounds origin chain c h).2 <= rounds)%nat.
Proof.
  induction rounds as [|rounds IH]; intros origin chain c h; cbn [MavenLicense.resolve_from]; [cbn; lia|].
  destruct (try_fetch_cases c h) as (t1 & _ & Hl & Hcases). set (m := try_except _ _ _) in *. unfold mbind at 1, eff_bind at 1.
  destruct Hcases as [(root & _ & Hm)|(e & _ & [Hm|(error & Hm)])]; rewrite Hm; [|cbn; lia|cbn; rewrite app_nil_r; lia].
  destruct (pom_licenses root) as [|l licenses]; [|cbn; rewrite app_nil_r; lia].
  destruct (parent_coordinate root) as [parent|]; [|cbn; rewrite app_nil_r; lia].
  specialize (IH origin (chain ++ [pom_url c]) parent (h ++ t1)). destruct (resolve_from rounds _ _ _ _) as [o u].
  cbn in *. rewrite length_app. lia.
Qed.
End facts.

(** ** Examples *)

Definition child_pom : xml :=
  Element "{http://maven.apache.org/POM/4.0.0}project" [] None
    [Element "{http://maven.apache.org/POM/4.0.0}parent" [] None
       [Element "{http://maven.apache.org/POM/4.0.0}groupId" [] (Some "org.a") [];
        Element "{http://maven.apache.org/POM/4.0.0}artifactId" [] (Some " parent ") [];
        Element "{http://maven.apache.org/POM/4.0.0}version" [] (Some "1") []]].
Definition parent_pom : xml :=
  Element "project" [] None
    [Element "licenses" [] None
       [Element "license" [] None [Element "name" [] (Some "The MIT License (MIT)") []];
        Element "license" [] None [Element "name" [] (Some "MIT") []; Element "url" [] (Some "https://mit") []]]].

(** A machine that delivers the first POM, then the second. *)
Definition central : world :=
  mkWorld (λ _ _ _, Ok "") (λ _ _, Ok (0, "")) (λ _, PrimFloat.zero) (λ _, mkDatetime 0 (Some 0)) (λ _ _, Response 200)
    (λ _ _ _, Ok ()) (λ _ _ _, Ok ()).
Definition central_body (h : history) : result (list byte) := Ok (replicate (length h) Byte.x00).
Definition central_parse (bytes : list byte) : result xml := Ok (if Nat.eqb (length bytes) 1 then child_pom else parent_pom).

Example parent_license : (resolve_evidence central_parse central central_body (mkCoordinate "org.a" "child" "1") []).1
  = Some (Ok (mkEvidence (mkCoordinate "org.a" "child" "1")
                [mkLicense "The MIT License (MIT)" ""; mkLicense "MIT" "https://mit"]
                ["https://repo1.maven.org/maven2/org/a/child/1/child-1.pom"; "https://repo1.maven.org/maven2/org/a/parent/1/parent-1.pom"]
                (RESOLVED (Some "MIT")))).
Proof. vm_compute. reflexivity. Qed.

(** A package URL without a group: the unpacking fails with an exception that
    the entry point does not catch. *)
Definition report_of (purl : string) (text : string) : result jval :=
  Ok (JObj [("packages", JList [JObj [("disposition", JStr "UNKNOWN"); ("purl", JStr purl)]])]).
Definition some_files : history → files :=
  λ _, mkFiles (λ _, Ok true) (λ _, Ok false) (λ _, Ok 0) (λ _, Ok 0) (λ _, Ok []).

Example missing_group_escapes :
  (entry id central_parse (report_of "pkg:maven/artifact@1") central central_body some_files (mkPath true ["report"]) []).1
  = Some (Raise (PyErr ExcValueError "not enough values to unpack")).
Proof. vm_compute. reflexivity. Qed.
