(* ===== verification/OsLicense.v ===== *)
(** License evidence of operating-system packages:
    [scripts/reports/os_package_license_evidence.py].

    The copyright files of packages are read from an image, their hashes are
    grouped and the license labels they declare are mapped to SPDX.  Docker is
    the machine, and what a command writes is held as its bytes; SHA-256 and the
    JSON codec are parameters. *)

From stdpp Require Import base list strings sorting.
From Stdlib Require Import ZArith Lia Ascii Floats.
From S2P Require Import Prelude PyStr PyStrFacts PyTime PyJson PyText Host Effects Evidence PyRegex PyQuote.

#[local] Open Scope Z_scope.

(** [scripts/reports/os_package_license_evidence.py:19-48] SPDX_BY_DEBIAN_LABEL *)
Definition SPDX_BY_DEBIAN_LABEL : list (string * string) :=
  [("Apache-2.0", "Apache-2.0");
   ("BSD-2-clause", "BSD-2-Clause");
   ("BSD-3-clause", "BSD-3-Clause");
   ("Expat", "MIT");
   ("GPL-2", "GPL-2.0-only");
   ("GPL-2+", "GPL-2.0-or-later");
   ("GPL-3", "GPL-3.0-only");
   ("GPL-3+", "GPL-3.0-or-later");
   ("ISC", "ISC");
   ("LGPL-2", "LGPL-2.0-only");
   ("LGPL-2+", "LGPL-2.0-or-later");
   ("LGPL-2.1", "LGPL-2.1-only");
   ("LGPL-2.1+", "LGPL-2.1-or-later");
   ("LGPL-3", "LGPL-3.0-only");
   ("LGPL-3+", "LGPL-3.0-or-later");
   ("MIT", "MIT");
   ("public-domain", "LicenseRef-Public-Domain");
   ("PD", "LicenseRef-Public-Domain");
   ("zlib", "Zlib");
   ("X11", "X11");
   ("Sleepycat", "Sleepycat");
   ("GPLv3+", "GPL-3.0-or-later");
   ("LGPLv2.1+", "LGPL-2.1-or-later");
   ("GFDL-NIV-1.3+", "GFDL-1.3-no-invariants-or-later");
   ("LGPL-3+ or GPL-2+", "LGPL-3.0-or-later OR GPL-2.0-or-later");
   ("LGPLv3+_or_GPLv2+", "LGPL-3.0-or-later OR GPL-2.0-or-later");
   ("GPL-3+ with Autoconf exception", "GPL-3.0-or-later WITH Autoconf-exception-3.0");
   ("GPL-3+-WITH-BISON-EXCEPTION", "GPL-3.0-or-later WITH Bison-exception-2.2")].

(** The text after the last separator, or all of it. *)
Definition last_part (c : ascii) (s : string) : string := match rsplit_once c s with Some (_, last) => last | None => s end.

Definition LICENSE_LINE : regex := seqs [text_start; lit "License:"; spaces; Grp 1 (plus any_char); text_end].

(** [scripts/reports/os_package_license_evidence.py:107-113] declared_license_labels *)
Definition declared_license_labels (copyright_text : string) : list string :=
  sorted_set (List.filter truthy
    (omap (λ line, m ← re_match LICENSE_LINE line; strip <$> PyRegex.group 1 m) (splitlines copyright_text))).

(** [scripts/reports/os_package_license_evidence.py:116-123] normalize_debian_labels *)
Definition add_new (l : list string) (x : string) : list string := if bool_decide (x ∈ l) then l else l ++ [x].
Definition normalize_step (s : list string * list string) (label : string) : list string * list string :=
  match dict_get SPDX_BY_DEBIAN_LABEL label with
  | Some expression => (add_new s.1 expression, s.2)
  | None => (s.1, add_new s.2 label)
  end.
Definition normalize_debian_labels (labels : list string) : list string * list string :=
  let s := foldl normalize_step ([], []) labels in (py_sorted s.1, py_sorted s.2).

Record collected : Type := mkCollected {
  c_sha256 : string; c_size : Z; c_labels : list string; c_normalized : list string; c_unresolved : list string
}.

(** A record: what was collected, if a copyright file was found. *)
Record package_record : Type := mkRecord { r_package : string; r_path : string; r_collected : option collected }.

Definition is_collected (r : package_record) : bool := match r_collected r with Some _ => true | None => false end.

Definition strings_json (l : list string) : jval := JList (JStr <$> l).
Definition record_json (r : package_record) : jval :=
  JObj ([("package", JStr (r_package r)); ("path", JStr (r_path r))]
        ++ match r_collected r with
           | Some c => [("sha256", JStr (c_sha256 c)); ("sizeBytes", JInt (c_size c)); ("declaredLicenseLabels", strings_json (c_labels c));
                        ("normalizedSpdxLicenses", strings_json (c_normalized c));
                        ("unresolvedLicenseLabels", strings_json (c_unresolved c)); ("status", JStr "COLLECTED")]
           | None => [("status", JStr "MISSING")]
           end).

(** The records that have a hash, with it. *)
Definition digests (records : list package_record) : list (string * string) :=
  omap (λ r, c ← r_collected r; if truthy (c_sha256 c) then Some (c_sha256 c, r_package r) else None) records.

(** The order of pairs: the hashes differ, so their lists are not compared. *)
Definition pair_le (a b : string * list string) : Prop := str_le a.1 b.1.
#[export] Instance pair_le_dec : RelDecision pair_le.
Proof. intros a b. unfold pair_le. apply _. Defined.

(** [scripts/reports/os_package_license_evidence.py:126-135] copyright_groups *)
Definition copyright_groups (records : list package_record) : list (string * list string) :=
  map (λ '(digest, packages), (digest, py_sorted packages)) (merge_sort pair_le (foldl (λ grouped r, dict_append grouped r.1 r.2) [] (digests records))).

Definition group_json (g : string * list string) : jval :=
  JObj [("sha256", JStr g.1); ("packages", strings_json g.2); ("packageCount", JInt (Z.of_nat (length g.2)))].

Section collection.
Context (utf8_replace : string → string) (py_repr : jval → string) (json_loads : string → result jval) (sha256 : string → string).
Context (w : world).

(** [scripts/reports/os_package_license_evidence.py:51-55] run *)
Definition run (args : list string) : eff string :=
  '(returncode, stdout) ← execute w args;
  if negb (returncode =? 0) then raise ExcOsLicenseEvidenceError ("command failed: " +:+ default "" (head args)) else mret stdout.

(** [scripts/reports/os_package_license_evidence.py:58-62] package_name *)
Definition package_name (purl : string) : option string :=
  if negb (startswith "pkg:deb/" purl || startswith "pkg:apk/" purl) then None
  else Some (PyQuote.unquote utf8_replace (last_part "/" (split_once "@" purl).1)).

Definition unknown_package (package : jval) : result (option string) :=
  disposition ← j_get package "disposition";
  if negb (py_eq disposition (JStr "UNKNOWN")) then Ok None else
  purl ← j_get_or package "purl" (JStr "");
  Ok (package_name (py_str py_repr purl)).

(** [scripts/reports/os_package_license_evidence.py:65-73] unknown_packages *)
Definition unknown_packages (fs : files) (report_path : fs_path) : result (list string) :=
  text ← fs_text fs report_path;
  report ← json_loads text;
  packages ← j_get_or report "packages" (JList []);
  items ← j_items packages;
  names ← mapM unknown_package items;
  Ok (sorted_set (omap id names)).

Definition copyright_paths (package : string) : list string :=
  ["/usr/share/doc/" +:+ package +:+ "/copyright"; "/usr/share/licenses/" +:+ package +:+ "/COPYRIGHT"].
Definition cat_command (image candidate : string) : list string := ["docker"; "run"; "--rm"; "--entrypoint"; "cat"; image; candidate].

(** The first candidate that can be read, and its bytes. *)
Fixpoint first_readable (image : string) (candidates : list string) : eff (option (string * string)) :=
  match candidates with
  | [] => mret None
  | candidate :: candidates =>
      '(returncode, stdout) ← execute w (cat_command image candidate);
      if returncode =? 0 then mret (Some (candidate, stdout)) else first_readable image candidates
  end.

(** [scripts/reports/os_package_license_evidence.py:76-104] copyright_record *)
Definition copyright_record (image package : string) : eff package_record :=
  result ← first_readable image (copyright_paths package);
  mret match result with
       | None => mkRecord package (default "" (head (copyright_paths package))) None
       | Some (path, stdout) =>
           let labels := declared_license_labels (decode_replace utf8_replace stdout) in
           let '(normalized, unresolved) := normalize_debian_labels labels in
           mkRecord package path (Some (mkCollected (sha256 stdout) (Z.of_nat (String.length stdout)) labels normalized unresolved))
       end.

Context (fs : history → files).

(** [scripts/reports/os_package_license_evidence.py:138-155] main, from the parsed arguments *)
Definition main (image : string) (license_report : fs_path) : eff Z :=
  image_id ← run ["docker"; "image"; "inspect"; image; "--format"; "{{.Id}}"];
  image_id ← lift (strip <$> utf8_decode (utf8_encode image_id));
  packages ← reading fs (λ fs, unknown_packages fs license_report);
  records ← map_eff (copyright_record image) packages;
  _ ← print (JObj [("schemaVersion", JStr "gcs-saker.os-license-evidence.v1"); ("imageId", JStr image_id);
                   ("records", JList (record_json <$> records)); ("copyrightGroups", JList (group_json <$> copyright_groups records))]);
  mret (if forallb is_collected records then 0 else 1).

(** [scripts/reports/os_package_license_evidence.py:158-163] the entry point *)
Definition entry (image : string) (license_report : fs_path) : eff Z :=
  try_except (main image license_report) [ExcOsLicenseEvidenceError]
    (λ error, _ ← complain (JStr ("OS license evidence failed: " +:+ error)); mret 1).
End collection.

(** ** Labels and groups *)

Lemma elem_of_add_new x y l : x ∈ add_new l y ↔ x ∈ l ∨ x = y.
Proof.
  unfold add_new. case_bool_decide; [|by rewrite elem_of_app, list_elem_of_singleton]. split; [by left|]. by intros [?| ->].
Qed.

(** Every label is either mapped to its SPDX identifier or reported as unresolved. *)
Lemma normalize_spec labels :
  (∀ x, x ∈ (normalize_debian_labels labels).1 ↔ ∃ label, label ∈ labels ∧ dict_get SPDX_BY_DEBIAN_LABEL label = Some x)
  ∧ (∀ x, x ∈ (normalize_debian_labels labels).2 ↔ x ∈ labels ∧ dict_get SPDX_BY_DEBIAN_LABEL x = None).
Proof.
  set (f := dict_get SPDX_BY_DEBIAN_LABEL). unfold normalize_debian_labels. cbn [fst snd]. setoid_rewrite elem_of_py_sorted.
  assert (∀ s x, (x ∈ (foldl normalize_step s labels).1 ↔ x ∈ s.1 ∨ x ∈ omap f labels)
                 ∧ (x ∈ (foldl normalize_step s labels).2 ↔ x ∈ s.2 ∨ x ∈ List.filter (λ l, bool_decide (f l = None)) labels)) as H.
  { induction labels as [|l labels IH]; intros s x; cbn [foldl List.filter].
    - cbn. rewrite elem_of_nil. tauto.
    - destruct (IH (normalize_step s l) x) as [-> ->]. unfold normalize_step. fold f. cbn [omap list_omap].
      destruct (f l) as [e|] eqn:He; cbn [fst snd].
      + rewrite bool_decide_false by done. rewrite elem_of_add_new, elem_of_cons. tauto.
      + rewrite bool_decide_true by done. rewrite elem_of_add_new, elem_of_cons. tauto. }
  split; intros x; destruct (H ([], []) x) as [H1 H2]; [rewrite H1|rewrite H2]; cbn [fst snd]; rewrite elem_of_nil.
  - rewrite list_elem_of_omap. tauto.
  - rewrite list_elem_of_In, filter_In, bool_decide_eq_true, <-list_elem_of_In. tauto.
Qed.

(** The groups are the hashes of the records, each once and in order, with the
    packages that have it. *)
Lemma copyright_groups_spec records digest packages : (digest, packages) ∈ copyright_groups records ↔
  digest ∈ (digests records).*1
  ∧ packages = py_sorted (map snd (List.filter (λ r, bool_decide (r.1 = digest)) (digests records))).
Proof.
  unfold copyright_groups. rewrite list_elem_of_In, in_map_iff. set (d := foldl _ _ _).
  destruct (dict_append_keys (@fst string string) snd (digests records) []) as [Hw Hk]; [constructor|]. fold d in Hw, Hk.
  assert (∀ kv, In kv (merge_sort pair_le d) ↔ kv ∈ d) as Hp by (intros kv; by rewrite <-list_elem_of_In, merge_sort_Permutation).
  pose proof (dict_append_all (@fst string string) snd (digests records) [] digest) as Hget. fold d in Hget.
  change (default [] (dict_get [] digest) ++ ?x) with x in Hget.
  assert (digest ∈ (digests records).*1 ↔ digest ∈ dict_keys d) as ->.
  { rewrite Hk, list_elem_of_fmap. setoid_rewrite elem_of_nil. naive_solver. }
  split.
  - intros ([k v] & [= -> <-] & Hin). apply Hp in Hin. rewrite <-Hget.
    assert (dict_get d digest = Some v) as -> by (by apply dict_elem_get). split; [|done]. apply list_elem_of_fmap. by exists (digest, v).
  - intros [Hd ->]. destruct (dict_get d digest) as [v|] eqn:E; [|by apply dict_get_None in E].
    exists (digest, v). split; [by rewrite <-Hget|]. by apply Hp, dict_get_elem.
Qed.

Section facts.
Context (utf8_replace : string → string) (sha256 : string → string) (w : world).

Lemma first_readable_cases image candidates h r t : first_readable w image candidates h = (Some (Ok r), t) →
  match r with
  | Some (path, stdout) => path ∈ candidates ∧ Executed (cat_command image path) (Ok (0, stdout)) ∈ t
  | None => ∀ path, path ∈ candidates → ∃ returncode stdout, returncode ≠ 0 ∧ Executed (cat_command image path) (Ok (returncode, stdout)) ∈ t
  end.
Proof.
  revert h t. induction candidates as [|c candidates IH]; intros h t H; cbn [first_readable] in H.
  - apply mret_Ok in H as [<- _]. by intros ? ?%elem_of_nil.
  - apply eff_bind_Ok in H as ([returncode stdout] & t1 & t2 & Hx%execute_Ok & H & ->). subst t1.
    destruct (Z.eqb_spec returncode 0) as [->|Hne].
    + apply mret_Ok in H as [<- _]. split; left.
    + apply IH in H. destruct r as [[path out]|].
      * destruct H as [Hin He]. split; by right.
      * intros path [->|Hin]%elem_of_cons; [exists returncode, stdout; split; [done|left]|].
        apply H in Hin as (rc & out & ? & ?). exists rc, out. split; [done|by right].
Qed.

(** A record is collected exactly from a copyright file that was read, whose
    bytes it hashes, and it is missing only when no candidate could be read. *)
Lemma copyright_record_sound image package h r t : copyright_record utf8_replace sha256 w image package h = (Some (Ok r), t) →
  r_package r = package
  ∧ match r_collected r with
    | Some c => ∃ stdout, Executed (cat_command image (r_path r)) (Ok (0, stdout)) ∈ t ∧ r_path r ∈ copyright_paths package
        ∧ c_sha256 c = sha256 stdout ∧ c_size c = Z.of_nat (String.length stdout)
        ∧ c_labels c = declared_license_labels (decode_replace utf8_replace stdout)
        ∧ (c_normalized c, c_unresolved c) = normalize_debian_labels (c_labels c)
    | None => ∀ path, path ∈ copyright_paths package →
        ∃ returncode stdout, returncode ≠ 0 ∧ Executed (cat_command image path) (Ok (returncode, stdout)) ∈ t
    end.
Proof.
  intros H. apply eff_bind_Ok in H as (o & t1 & t2 & Ho & H & ->). apply first_readable_cases in Ho. apply mret_Ok in H as [<- ->].
  rewrite app_nil_r. destruct o as [[path stdout]|]; [|by split]. destruct Ho as [Hin He].
  destruct (normalize_debian_labels (declared_license_labels (decode_replace utf8_replace stdout))) as [normalized unresolved] eqn:E.
  split; [done|]. exists stdout. cbn. by split_and!.
Qed.
End facts.

(** ** Examples *)

Definition sample_copyright : string :=
  join (String "010" "") ["Files: *"; "License: GPL-2+"; " more"; "License:  Expat "; "License: custom"; "License:"].

Example labels_declared : declared_license_labels sample_copyright = ["Expat"; "GPL-2+"; "custom"].
Proof. vm_compute. reflexivity. Qed.

Example labels_normalized : normalize_debian_labels ["Expat"; "GPL-2+"; "MIT"; "custom"] = (["GPL-2.0-or-later"; "MIT"], ["custom"]).
Proof. vm_compute. reflexivity. Qed.

Example package_unquoted : package_name id "pkg:deb/debian/libstdc%2B%2B6@14?arch=amd64" = Some "libstdc++6".
Proof. vm_compute. reflexivity. Qed.
