(* ===== verification/SuiteEvidence.v ===== *)
(** What the evidence reports over test suites share: [scripts/reports/*_evidence.py].

    Each report reads the JUnit file of a suite it owns, compares the counts the
    file states with its test cases, and extracts the measurements that the
    tests printed as [key=value] lines.  A report only passes on measurements
    that meet its contract; what goes wrong while it is built is an outcome of
    its own.  The XML parser, [float] of a text and digits above ASCII are
    parameters.  Every report declares an exception class of its own, which only
    its [main] catches: they are one class here. *)

From stdpp Require Import base list strings.
From Stdlib Require Import ZArith Lia Ascii Floats Strings.Byte.
From S2P Require Import Prelude PyStr PyStrFacts PyTime PyJson PyText Host Effects Evidence PyRegex PyXml.

#[local] Open Scope Z_scope.

Definition suite_error {A} (msg : string) : result A := throw ExcSuiteEvidenceError msg.

(** [scripts/reports/telemetry_mixed_evidence.py:18-18] *)
Definition MAX_XML_BYTES : Z := 2 * 1024 * 1024.

(** A document type or an entity is declared, or the file is too large. *)
Definition xml_unsafe (payload : list byte) : bool :=
  let upper := map_chars upper_ascii (String.string_of_list_byte payload) in
  (MAX_XML_BYTES <? Z.of_nat (length payload)) || contains "<!DOCTYPE" upper || contains "<!ENTITY" upper.

(** ** Counts *)

Record Counts : Type := mkCounts { tests : Z; failures : Z; errors : Z; skipped : Z }.

#[export] Instance Counts_eq_dec : EqDecision Counts.
Proof. solve_decision. Defined.

Definition counts_json (c : Counts) : jval :=
  JObj [("tests", JInt (tests c)); ("failures", JInt (failures c)); ("errors", JInt (errors c)); ("skipped", JInt (skipped c))].

(** The counts of the test cases in the file. *)
Definition actual_counts (root : xml) : Counts :=
  let cases := findall "testcase" root in
  let having tag := Z.of_nat (length (List.filter (has_child tag) cases)) in
  mkCounts (Z.of_nat (length cases)) (having "failure") (having "error") (having "skipped").

Inductive Verdict : Type := PASS | BLOCKED | FAIL.

Definition verdict_name (v : Verdict) : string := match v with PASS => "PASS" | BLOCKED => "BLOCKED" | FAIL => "FAIL" end.

(** The verdict of the counts alone. *)
Definition counts_verdict (c : Counts) : Verdict :=
  if negb (failures c =? 0) || negb (errors c =? 0) then FAIL else if negb (skipped c =? 0) then BLOCKED else PASS.

(** ** Measurements *)

(** [[token.split("=", 1) for token in line.split()[1:]]]; [None] is a token without the sign. *)
Definition measurement_pairs (line : string) : list (string * option string) := split_once "=" <$> drop 1 (words line).

Definition all_pairs (pairs : list (string * option string)) : option (list (string * string)) :=
  mapM (λ kv, v ← kv.2; Some (kv.1, v)) pairs.

(** [dict(pairs)] *)
Definition dict_of (pairs : list (string * string)) : list (string * string) := foldl (λ d kv, dict_set d kv.1 kv.2) [] pairs.
Definition dict_of_pairs (pairs : list (string * option string)) : result (list (string * string)) :=
  match all_pairs pairs with
  | Some pairs => Ok (dict_of pairs)
  | None => value_error "dictionary update sequence element has length 1; 2 is required"
  end.

(** [d.keys() == names] *)
Definition keys_are {V} (d : list (string * V)) (names : list string) : bool :=
  forallb (λ k, bool_decide (k ∈ names)) (dict_keys d) && forallb (λ k, bool_decide (k ∈ dict_keys d)) names.

Definition field_is (d : list (string * string)) (key value : string) : bool := bool_decide (dict_get d key = Some value).

(** A measurement: its labels, its counts and its times. *)
Record Row : Type := mkRow { labels : list (string * string); integers : list (string * Z); decimals : list (string * float) }.

Definition row_json (r : Row) : jval :=
  JObj ((prod_map id JStr <$> labels r) ++ (prod_map id JInt <$> integers r) ++ (prod_map id JFloat <$> decimals r)).

(** [row[key]] *)
Definition label (r : Row) (key : string) : option string := dict_get (labels r) key.
Definition integer (r : Row) (key : string) : option Z := dict_get (integers r) key.
Definition decimal (r : Row) (key : string) : option float := dict_get (decimals r) key.

Section numbers.
Context (int_other : string → option Z) (float_text : string → result float).

(** [{key: int(fields[key]) for key in keys}] *)
Definition int_fields (fields : list (string * string)) (keys : list string) : result (list (string * Z)) :=
  mapM (λ key, match dict_get fields key with
               | Some text => n ← py_int int_other text; Ok (key, n)
               | None => throw ExcKeyError key
               end) keys.

Definition float_fields (fields : list (string * string)) (keys : list string) : result (list (string * float)) :=
  mapM (λ key, match dict_get fields key with
               | Some text => x ← float_text text; Ok (key, x)
               | None => throw ExcKeyError key
               end) keys.
End numbers.

Definition nonnegative (ints : list (string * Z)) : bool := forallb (λ kv, 0 <=? kv.2) ints.
Definition finite_nonnegative (x : float) : bool := is_finite x && negb (x <? 0)%float.
Definition all_finite (floats : list (string * float)) : bool := forallb (λ kv, finite_nonnegative kv.2) floats.

(** The counts of a row are the expected ones. *)
Definition counts_are (ints : list (string * Z)) (expected : list (string * Z)) : bool :=
  forallb (λ kv, bool_decide (dict_get ints kv.1 = Some kv.2)) expected.

(** [a < b] of two times of a row. *)
Definition decimal_lt (floats : list (string * float)) (a b : string) : bool :=
  match dict_get floats a, dict_get floats b with Some x, Some y => (x <? y)%float | _, _ => false end.

(** ** Suites *)

Section suites.
Context (et_fromstring : list byte → result xml) (int_other : string → option Z).

Definition suite_path (directory : fs_path) (name : string) : fs_path := path_div directory ("TEST-" +:+ name +:+ ".xml").

(** [with path.open("rb") as stream: payload = stream.read(MAX_XML_BYTES + 1)] *)
Definition read_opened (fs : files) (path : fs_path) : result (list byte) := read_at_most (MAX_XML_BYTES + 1) <$> fs_read fs path.

(** [path.read_bytes()] of a file whose size is checked first. *)
Definition read_checked (error : string) (fs : files) (path : fs_path) : result (list byte) :=
  size ← fs_size fs path;
  if MAX_XML_BYTES <? size then suite_error error else fs_read fs path.

(** The element of a file that is the named suite. *)
Definition suite_element (name : string) (payload : list byte) : result xml :=
  root ← et_fromstring payload;
  if negb (String.eqb (tag_of root) "testsuite") || negb (bool_decide (get_attribute "name" root = Some name))
  then suite_error "suite_identity_invalid" else Ok root.

Definition safe_suite (name : string) (payload : list byte) : result xml :=
  if xml_unsafe payload then suite_error "suite_xml_unsafe" else suite_element name payload.

(** [{key: int(root.get(key, "-1")) for key in (...)}] *)
Definition stated_counts (root : xml) : result Counts :=
  let count key := py_int int_other (default "-1" (get_attribute key root)) in
  tests ← count "tests"; failures ← count "failures"; errors ← count "errors"; skipped ← count "skipped";
  Ok (mkCounts tests failures errors skipped).

(** Counts that agree with the test cases, and a number of tests that is accepted. *)
Definition agreeing_counts (accepted : Z → bool) (root : xml) : result Counts :=
  counts ← stated_counts root;
  if negb (bool_decide (counts = actual_counts root)) || negb (accepted (tests counts))
  then suite_error "suite_counts_invalid" else Ok counts.

(** Counts as the file states them. *)
Definition plausible_counts (root : xml) : result Counts :=
  counts ← stated_counts root;
  if (tests counts <=? 0) || (tests counts <? 0) || (failures counts <? 0) || (errors counts <? 0) || (skipped counts <? 0)
  then suite_error "suite_counts_invalid" else Ok counts.

(** The lines of a suite's output that start with one of some prefixes. *)
Definition output_lines (prefixes : list string) (root : xml) : list string :=
  List.filter (λ line, existsb (λ p, startswith p line) prefixes) (splitlines (findtext "system-out" root)).

(** The fields of a line: pairs only, no key twice, exactly the names, and a passed result. *)
Definition strict_fields (names : list string) (error : string) (line : string) : result (list (string * string)) :=
  match all_pairs (measurement_pairs line) with
  | None => suite_error "measurement_invalid"
  | Some pairs =>
      let fields := dict_of pairs in
      if negb (Nat.eqb (length fields) (length pairs)) || negb (keys_are fields names) || negb (field_is fields "result" "PASS")
      then suite_error error else Ok fields
  end.
End suites.

(** ** The entry point *)

Definition failed_report (schema result error_code : string) : jval :=
  JObj [("schema_version", JStr schema); ("result", JStr result); ("error_code", JStr error_code)].

(** [main] of a report, from the parsed arguments.  The keys of what is printed
    are sorted; they are listed here in the order they are built. *)
Definition evidence_main (schema error_code : string) (fs : history → files) (build : files → result (Verdict * jval)) : eff Z :=
  let failed result := _ ← print (failed_report schema result error_code); mret 1 in
  try_except
    (try_except
       (report ← reading fs build; _ ← print report.2; mret (match report.1 with PASS => 0 | _ => 1 end))
       [ExcFileNotFoundError] (λ _, failed "NOT_RUN"))
    [ExcSuiteEvidenceError; ExcOSError; ExcValueError; ExcParseError] (λ _, failed "FAIL").

(** It exits with zero exactly when a report is built that passes, which is
    then all it prints. *)
Lemma evidence_main_pass schema error_code fs build h t :
  evidence_main schema error_code fs build h = (Some (Ok 0), t) ↔ ∃ report, build (fs h) = Ok (PASS, report) ∧ t = [Printed report].
Proof.
  unfold evidence_main, try_except, reading, mbind, eff_bind. destruct (build (fs h)) as [[v report]|[c msg|]]; cbn -[existsb subclass].
  - destruct v; cbn; split; try (intros [= <-]; by eexists); try done; by intros (? & [= <-] & ->).
  - split; [|by intros (? & ? & _)]. destruct (existsb (subclass c) [ExcFileNotFoundError]); [done|].
    cbn -[existsb subclass]. by destruct (existsb (subclass c) _).
  - split; [done|by intros (? & ? & _)].
Qed.

(** ** What a suite shows *)

(** Every test case of the suite passed. *)
Definition all_passed (root : xml) : Prop :=
  ∀ case, case ∈ findall "testcase" root → has_child "failure" case = false ∧ has_child "error" case = false ∧ has_child "skipped" case = false.

(** The named suite, read from a file that declares no entity, whose test cases
    are as many as accepted, and all passed. *)
Definition clean_suite (et_fromstring : list byte → result xml) (name : string) (accepted : Z → bool) (root : xml) : Prop :=
  (∃ payload, et_fromstring payload = Ok root ∧ xml_unsafe payload = false)
  ∧ tag_of root = "testsuite" ∧ get_attribute "name" root = Some name
  ∧ accepted (Z.of_nat (length (findall "testcase" root))) = true ∧ all_passed root.

Lemma counts_verdict_PASS c : counts_verdict c = PASS ↔ failures c = 0 ∧ errors c = 0 ∧ skipped c = 0.
Proof.
  unfold counts_verdict. destruct (Z.eqb_spec (failures c) 0), (Z.eqb_spec (errors c) 0), (Z.eqb_spec (skipped c) 0); cbn; naive_solver.
Qed.

Lemma safe_suite_Ok et name payload root : safe_suite et name payload = Ok root →
  xml_unsafe payload = false ∧ et payload = Ok root ∧ tag_of root = "testsuite" ∧ get_attribute "name" root = Some name.
Proof.
  unfold safe_suite, suite_element. destruct (xml_unsafe payload); [done|]. intros (root' & He & H)%bind_Ok.
  destruct (String.eqb_spec (tag_of root') "testsuite") as [Ht|], (bool_decide _) eqn:Hn; cbn in H; try done.
  injection H as ->. by apply bool_decide_eq_true in Hn.
Qed.

Lemma agreeing_counts_Ok int_other accepted root c : agreeing_counts int_other accepted root = Ok c →
  c = actual_counts root ∧ accepted (tests c) = true.
Proof.
  unfold agreeing_counts. intros (c' & _ & H)%bind_Ok. destruct (bool_decide _) eqn:Hc; [|done]. destruct (accepted (tests c')) eqn:Ha; [|done].
  injection H as <-. by apply bool_decide_eq_true in Hc.
Qed.

Lemma clean_suite_intro et int_other name accepted payload root c :
  safe_suite et name payload = Ok root → agreeing_counts int_other accepted root = Ok c → counts_verdict c = PASS →
  clean_suite et name accepted root ∧ tests c = Z.of_nat (length (findall "testcase" root)).
Proof.
  intros (Hu & He & Ht & Hn)%safe_suite_Ok [-> Ha]%agreeing_counts_Ok (Hf & Hr & Hs)%counts_verdict_PASS. split; [|done].
  split; [by exists payload|]. do 3 (split; [done|]). intros case Hc.
  assert (∀ tag, Z.of_nat (length (List.filter (has_child tag) (findall "testcase" root))) = 0 → has_child tag case = false) as Hnone.
  { intros tag H. assert (length (List.filter (has_child tag) (findall "testcase" root)) = 0%nat) as H0 by lia.
    apply length_zero_iff_nil, filter_none in H0. rewrite Forall_forall in H0. by apply H0. }
  split_and!; by apply Hnone.
Qed.

Lemma strict_fields_Ok names error line fields : strict_fields names error line = Ok fields →
  dict_get fields "result" = Some "PASS" ∧ keys_are fields names = true
  ∧ ∃ pairs, all_pairs (measurement_pairs line) = Some pairs ∧ fields = dict_of pairs ∧ length fields = length pairs.
Proof.
  unfold strict_fields. destruct (all_pairs _) as [pairs|]; [|done].
  destruct (Nat.eqb_spec (length (dict_of pairs)) (length pairs)), (keys_are _ _) eqn:Hk, (field_is _ _ _) eqn:Hr; try done.
  intros [= <-]. apply bool_decide_eq_true in Hr. split_and!; [done|done|]. by exists pairs.
Qed.

Lemma forallb_elem {A} (f : A → bool) l a : forallb f l = true → a ∈ l → f a = true.
Proof. rewrite forallb_forall. intros H Ha%list_elem_of_In. by apply H. Qed.

Lemma counts_are_get ints expected k n : counts_are ints expected = true → (k, n) ∈ expected → dict_get ints k = Some n.
Proof. intros H Hin. apply (forallb_elem _ _ _ H) in Hin. by apply bool_decide_eq_true in Hin. Qed.

(** The numbers of a field that was read. *)
Lemma int_fields_keys int_other fields keys ints : int_fields int_other fields keys = Ok ints → ints.*1 = keys.
Proof.
  intros H%mapM_Ok. induction H as [|k kv keys ints Hk _ IH]; [done|]. cbn. rewrite IH. f_equal.
  destruct (dict_get fields k); [|done]. by apply bind_Ok in Hk as (n & _ & [= <-]).
Qed.

Lemma float_fields_keys float_text fields keys floats : float_fields float_text fields keys = Ok floats → floats.*1 = keys.
Proof.
  intros H%mapM_Ok. induction H as [|k kv keys floats Hk _ IH]; [done|]. cbn. rewrite IH. f_equal.
  destruct (dict_get fields k); [|done]. by apply bind_Ok in Hk as (n & _ & [= <-]).
Qed.

(** A key that is present has a value. *)
Lemma key_has_value {V} (d : list (string * V)) k : k ∈ d.*1 → ∃ v, dict_get d k = Some v.
Proof. intros H. destruct (dict_get d k) as [v|] eqn:E; [by exists v|]. by apply dict_get_None in E. Qed.

Lemma all_finite_get floats k x : all_finite floats = true → dict_get floats k = Some x → finite_nonnegative x = true.
Proof. intros H Hx%dict_get_elem. by apply (forallb_elem _ _ _ H) in Hx. Qed.

(** ** Reports over one suite *)

Section owned.
Context (et_fromstring : list byte → result xml) (int_other : string → option Z) (float_text : string → result float).

(** The numbers of a measurement: counts and times that are not negative. *)
Definition checked_numbers (int_keys float_keys : list string) (fields : list (string * string)) :
    result (list (string * Z) * list (string * float)) :=
  ints ← int_fields int_other fields int_keys;
  floats ← float_fields float_text fields float_keys;
  if negb (nonnegative ints) || negb (all_finite floats) then suite_error "measurement_numbers_invalid" else Ok (ints, floats).

Lemma checked_numbers_Ok int_keys float_keys fields ints floats : checked_numbers int_keys float_keys fields = Ok (ints, floats) →
  ints.*1 = int_keys ∧ floats.*1 = float_keys ∧ nonnegative ints = true ∧ all_finite floats = true.
Proof.
  intros (i & Hi%int_fields_keys & (f & Hf%float_fields_keys & H)%bind_Ok)%bind_Ok.
  destruct (nonnegative i) eqn:Hn, (all_finite f) eqn:Ha; try done. by injection H as -> ->.
Qed.

(** The time under one of the keys: finite and not negative. *)
Lemma checked_time floats keys k : floats.*1 = keys → all_finite floats = true → k ∈ keys →
  ∃ x, dict_get floats k = Some x ∧ finite_nonnegative x = true.
Proof. intros <- Ha Hk. destruct (key_has_value floats k Hk) as [x Hx]. exists x. split; [done|]. by eapply all_finite_get. Qed.

(** A report up to its text: the source revision, the suite with its counts, the
    measurements its output holds, and the verdict. *)
Definition owned_report (suite : string) (accepted : Z → bool) (read : files → fs_path → result (list byte)) (prefixes : list string)
    (measurement : string → result Row) (judge : Counts → list Row → result Verdict)
    (directory : fs_path) (source_commit : string) (fs : files) : result (Counts * list Row * Verdict) :=
  if negb (lower_hex 40 source_commit) then suite_error "source_revision_invalid" else
  payload ← read fs (suite_path directory suite);
  root ← safe_suite et_fromstring suite payload;
  counts ← agreeing_counts int_other accepted root;
  rows ← mapM measurement (output_lines prefixes root);
  verdict ← judge counts rows;
  Ok (counts, rows, verdict).

Lemma owned_report_verdict suite accepted read prefixes measurement judge directory source_commit fs counts rows v :
  owned_report suite accepted read prefixes measurement judge directory source_commit fs = Ok (counts, rows, v) → judge counts rows = Ok v.
Proof.
  unfold owned_report. destruct (lower_hex 40 source_commit); [|done].
  intros (payload & _ & (root & Hs & (c & Hc & (rs & Hm & (v' & Hj & H)%bind_Ok)%bind_Ok)%bind_Ok)%bind_Ok)%bind_Ok.
  by injection H as -> -> ->.
Qed.

(** A report that passes, on counts that do. *)
Lemma owned_report_pass suite accepted read prefixes measurement judge directory source_commit fs counts rows :
  owned_report suite accepted read prefixes measurement judge directory source_commit fs = Ok (counts, rows, PASS) →
  counts_verdict counts = PASS →
  ∃ root, clean_suite et_fromstring suite accepted root ∧ tests counts = Z.of_nat (length (findall "testcase" root))
      ∧ Forall2 (λ line r, measurement line = Ok r) (output_lines prefixes root) rows.
Proof.
  unfold owned_report. destruct (lower_hex 40 source_commit); [|done].
  intros (payload & _ & (root & Hs & (c & Hc & (rs & Hm%mapM_Ok & (v & Hj & H)%bind_Ok)%bind_Ok)%bind_Ok)%bind_Ok)%bind_Ok.
  injection H as -> -> ->. intros Hv. exists root.
  destruct (clean_suite_intro _ _ _ _ _ _ _ Hs Hc Hv) as [Hclean Hlen]. by split_and!.
Qed.
End owned.

(** The verdict of the counts, with a check of the rows when it is a pass. *)
Definition judged (check : Counts → list Row → result ()) (counts : Counts) (rows : list Row) : result Verdict :=
  match counts_verdict counts with
  | PASS => _ ← check counts rows; Ok PASS
  | v => Ok v
  end.

Lemma judged_PASS check counts rows : judged check counts rows = Ok PASS → counts_verdict counts = PASS ∧ check counts rows = Ok ().
Proof.
  unfold judged. destruct (counts_verdict counts); try done. intros ([] & H & _)%bind_Ok. done.
Qed.

Definition demand (b : bool) (error : string) : result () := if b then Ok () else suite_error error.

Lemma demand_Ok b error : demand b error = Ok () ↔ b = true.
Proof. by destruct b. Qed.

(** The median and the 95th percentile of a row, in order. *)
Definition times_ordered (r : Row) : Prop :=
  ∃ p50 p95, decimal r "p50_ms" = Some p50 ∧ decimal r "p95_ms" = Some p95 ∧ (p95 <? p50)%float = false
    ∧ finite_nonnegative p50 = true ∧ finite_nonnegative p95 = true.

Lemma times_ordered_intro labels ints floats keys : floats.*1 = keys → all_finite floats = true → "p50_ms" ∈ keys → "p95_ms" ∈ keys →
  decimal_lt floats "p95_ms" "p50_ms" = false → times_ordered (mkRow labels ints floats).
Proof.
  intros Hf Ha H50 H95 Hd. destruct (checked_time _ _ _ Hf Ha H50) as (p50 & E50 & ?), (checked_time _ _ _ Hf Ha H95) as (p95 & E95 & ?).
  exists p50, p95. unfold decimal_lt in Hd. rewrite E50, E95 in Hd. by split_and!.
Qed.

(** The fields of a line in the reports that build the dict first: a token that
    is no pair is an error of [dict]. *)
Definition dict_fields (names : list string) (error line : string) : result (list (string * string)) :=
  let pairs := measurement_pairs line in
  fields ← dict_of_pairs pairs;
  if negb (Nat.eqb (length fields) (length pairs)) || negb (keys_are fields names) then suite_error error else Ok fields.
