(* ===== verification/MixedEvidence.v ===== *)
(** Mixed reader and writer evidence: [scripts/reports/telemetry_mixed_evidence.py]. *)

From stdpp Require Import base list strings.
From Stdlib Require Import ZArith Lia Ascii Floats Strings.Byte.
From S2P Require Import Prelude PyStr PyTime PyJson PyText Host Effects Evidence PyXml SuiteEvidence.

#[local] Open Scope Z_scope.

(** [scripts/reports/telemetry_mixed_evidence.py:15-15] *)
Definition SCHEMA_VERSION : string := "telemetry-mixed-evidence-v1".
(** [scripts/reports/telemetry_mixed_evidence.py:16-16] *)
Definition SUITE : string := "kr.co.a4ai.gcssaker.authpolicy.TelemetryMixedLoadPostgresTest".
(** [scripts/reports/telemetry_mixed_evidence.py:17-17] *)
Definition PREFIX : string := "telemetry_mixed ".
(** [scripts/reports/telemetry_mixed_evidence.py:19-19] *)
Definition PROFILES : list (string * Z) := [("small_page", 1); ("max_page", 500)].
(** [scripts/reports/telemetry_mixed_evidence.py:20-20] *)
Definition OPERATIONS : list string := ["read"; "write"].
(** [scripts/reports/telemetry_mixed_evidence.py:21-33] *)
Definition INTEGER_FIELDS : list string :=
  ["page_size"; "workers"; "samples"; "rows"; "history_added"; "calls"; "shared_hits"; "shared_reads"; "temp_written"].
(** [scripts/reports/telemetry_mixed_evidence.py:34-34] *)
Definition DECIMAL_FIELDS : list string := ["p50_ms"; "p95_ms"; "exec_ms"; "wal_bytes"].
(** [scripts/reports/telemetry_mixed_evidence.py:35-35] *)
Definition FIELDS : list string := INTEGER_FIELDS ++ DECIMAL_FIELDS ++ ["result"; "profile"; "operation"].

Definition expected_counts : list (string * Z) :=
  [("workers", 4); ("samples", 64); ("calls", 64); ("rows", 100001); ("history_added", 64); ("temp_written", 0)].

Section report.
Context (et_fromstring : list byte → result xml) (int_other : string → option Z) (float_text : string → result float).

(** [scripts/reports/telemetry_mixed_evidence.py:69-76] measurement_fields *)
Definition measurement_fields : string → result (list (string * string)) := strict_fields FIELDS "measurement_fields_invalid".

(** [scripts/reports/telemetry_mixed_evidence.py:79-86] measurement_values *)
Definition measurement_values : list (string * string) → result (list (string * Z) * list (string * float)) :=
  checked_numbers int_other float_text INTEGER_FIELDS DECIMAL_FIELDS.

(** [scripts/reports/telemetry_mixed_evidence.py:89-94] validate_profile *)
Definition validate_profile (fields : list (string * string)) (ints : list (string * Z)) : result () :=
  let profile := default "" (dict_get fields "profile") in
  let operation := default "" (dict_get fields "operation") in
  if negb (bool_decide (operation ∈ OPERATIONS)) || negb (bool_decide (dict_get PROFILES profile = dict_get ints "page_size"))
  then suite_error "measurement_profile_invalid" else
  if negb (counts_are ints expected_counts) then suite_error "measurement_counts_invalid" else Ok ().

(** [scripts/reports/telemetry_mixed_evidence.py:97-103] measurement *)
Definition measurement (line : string) : result Row :=
  fields ← measurement_fields line;
  '(ints, floats) ← measurement_values fields;
  _ ← validate_profile fields ints;
  if decimal_lt floats "p95_ms" "p50_ms" then suite_error "measurement_percentile_invalid" else
  Ok (mkRow [("profile", default "" (dict_get fields "profile")); ("operation", default "" (dict_get fields "operation"))] ints floats).

(** The profile and the operation of a row. *)
Definition cell (r : Row) : option string * option string := (label r "profile", label r "operation").
Definition expected_cells : list (option string * option string) :=
  (λ '(profile, operation), (Some profile, Some operation)) <$> list_prod PROFILES.*1 OPERATIONS.

(** [scripts/reports/telemetry_mixed_evidence.py:106-110] validate_matrix *)
Definition validate_matrix (counts : Counts) (measurements : list Row) : result () :=
  demand ((tests counts =? 4) && Nat.eqb (length measurements) 4 && same_set (cell <$> measurements) expected_cells)
    "measurement_profiles_missing_or_duplicate".

(** [scripts/reports/telemetry_mixed_evidence.py:42-66] read_suite and suite_counts, and the checks of [build_report] *)
Definition checked_report : fs_path → string → files → result (Counts * list Row * Verdict) :=
  owned_report et_fromstring int_other SUITE (λ tests, 0 <? tests) read_opened [PREFIX] measurement (judged validate_matrix).

(** [scripts/reports/telemetry_mixed_evidence.py:113-135] build_report *)
Definition build_report (directory : fs_path) (source_commit : string) (fs : files) : result (Verdict * jval) :=
  '(counts, measurements, result) ← checked_report directory source_commit fs;
  Ok (result,
      JObj [("schema_version", JStr SCHEMA_VERSION); ("source_commit", JStr source_commit); ("result", JStr (verdict_name result));
            ("tests", counts_json counts); ("measurements", JList (row_json <$> measurements));
            ("scope", JStr "100001 latest rows, two readers and two writers in bounded waves; read timings include invariant assertions; staged commit/rollback visibility is separately verified");
            ("statistics_scope", JStr "owned top-level SELECT and writer CTE only; not all round trips, whole-server WAL, capacity or soak qualification");
            ("production_deployment", JStr "NOT_RUN"); ("physical_mobile", JStr "BLOCKED"); ("media_e2e", JStr "NOT_RUN")]).

(** [scripts/reports/telemetry_mixed_evidence.py:138-152] main, from the parsed arguments *)
Definition main (fs : history → files) (directory : fs_path) (source_commit : string) : eff Z :=
  evidence_main SCHEMA_VERSION "mixed_evidence_unavailable" fs (build_report directory source_commit).

(** ** What a passing report shows *)

(** A measurement within its contract. *)
Definition row_within (r : Row) : Prop :=
  (∀ k n, (k, n) ∈ expected_counts → integer r k = Some n)
  ∧ (∃ profile size, label r "profile" = Some profile ∧ (profile, size) ∈ PROFILES ∧ integer r "page_size" = Some size)
  ∧ times_ordered r.

Lemma mixed_measurement_within line r : measurement line = Ok r → row_within r.
Proof.
  intros (fields & _ & ([ints floats] & (Hi & Hf & _ & Ha)%checked_numbers_Ok & (u & Hp & H)%bind_Ok)%bind_Ok)%bind_Ok.
  destruct (decimal_lt floats "p95_ms" "p50_ms") eqn:Hd; [done|]. injection H as <-.
  unfold validate_profile in Hp. destruct (bool_decide (_ ∈ OPERATIONS)), (bool_decide (dict_get PROFILES _ = _)) eqn:Hs; try done.
  destruct (counts_are ints expected_counts) eqn:Hc; [|done]. apply bool_decide_eq_true in Hs. split_and!.
  - intros k n Hk. by apply (counts_are_get ints expected_counts).
  - destruct (key_has_value ints "page_size") as [size Hsize]; [by rewrite Hi; repeat constructor|].
    rewrite Hsize in Hs. exists (default "" (dict_get fields "profile")), size. split_and!; [done|by apply dict_get_elem|done].
  - eapply times_ordered_intro; [exact Hf|done|by repeat constructor..|done].
Qed.

(** A report that passes (the only way to exit with zero) is built on the
    suite it names, four test cases that all passed, and on one measurement for
    each profile and operation, each within its contract: the fixed counts, the
    page size of its profile, and finite times with the 95th percentile not
    below the median. *)
Theorem mixed_pass_sound fs directory source_commit h t : main fs directory source_commit h = (Some (Ok 0), t) →
  ∃ root measurements report, t = [Printed report] ∧ clean_suite et_fromstring SUITE (λ tests, 0 <? tests) root
    ∧ length (findall "testcase" root) = 4%nat
    ∧ Forall2 (λ line r, measurement line = Ok r ∧ row_within r) (output_lines [PREFIX] root) measurements
    ∧ cell <$> measurements ≡ₚ expected_cells.
Proof.
  unfold main. intros (report & Hb & ->)%evidence_main_pass. unfold build_report in Hb.
  apply bind_Ok in Hb as ([[counts measurements] v] & Hr & [= -> Hrep]).
  apply owned_report_verdict in Hr as Hj. apply judged_PASS in Hj as [Hv Hx].
  destruct (owned_report_pass _ _ _ _ _ _ _ _ _ _ _ _ _ Hr Hv) as (root & Hclean & Hlen & Hm).
  apply demand_Ok, andb_true_iff in Hx as [[H4%Z.eqb_eq Hl%Nat.eqb_eq]%andb_true_iff Hset].
  exists root, measurements, report. do 2 (split; [done|]). split; [lia|]. split.
  - eapply Forall2_impl; [exact Hm|]. intros line r H. split; [exact H|exact (mixed_measurement_within _ _ H)].
  - apply same_set_perm; [done|by apply (bool_decide_unpack _); vm_compute|]. by rewrite length_fmap, Hl.
Qed.
End report.
