(* ===== verification/WriterEvidence.v ===== *)
(** Writer evidence: [scripts/reports/telemetry_writer_evidence.py]. *)

From stdpp Require Import base list strings.
From Stdlib Require Import ZArith Lia Ascii Floats Strings.Byte.
From S2P Require Import Prelude PyStr PyTime PyJson PyText Host Effects Evidence PyXml SuiteEvidence.

#[local] Open Scope Z_scope.

(** [scripts/reports/telemetry_writer_evidence.py:14-14] *)
Definition SCHEMA_VERSION : string := "telemetry-writer-evidence-v1".
(** [scripts/reports/telemetry_writer_evidence.py:15-15] *)
Definition SUITE : string := "kr.co.a4ai.gcssaker.authpolicy.TelemetryWriterLoadPostgresTest".
(** [scripts/reports/telemetry_writer_evidence.py:16-16] *)
Definition PREFIX : string := "telemetry_writer ".
(** [scripts/reports/telemetry_writer_evidence.py:18-18] *)
Definition EXPECTED_COUNTS : list (string * (Z * Z)) := [("distinct_identities", (64, 64)); ("same_identity", (64, 1)); ("duplicate_event", (1, 1))].
(** [scripts/reports/telemetry_writer_evidence.py:19-21] *)
Definition INTEGER_FIELDS : list string := ["workers"; "samples"; "history"; "latest"; "calls"; "shared_hits"; "shared_reads"; "temp_written"].
(** [scripts/reports/telemetry_writer_evidence.py:22-22] *)
Definition DECIMAL_FIELDS : list string := ["p50_ms"; "p95_ms"; "exec_ms"; "wal_bytes"].
(** [scripts/reports/telemetry_writer_evidence.py:23-23] *)
Definition FIELDS : list string := INTEGER_FIELDS ++ DECIMAL_FIELDS ++ ["result"; "case"].

Section report.
Context (et_fromstring : list byte → result xml) (int_other : string → option Z) (float_text : string → result float).

(** [scripts/reports/telemetry_writer_evidence.py:57-64] measurement_fields *)
Definition measurement_fields : string → result (list (string * string)) := strict_fields FIELDS "measurement_fields_invalid".

(** [scripts/reports/telemetry_writer_evidence.py:67-74] measurement_values *)
Definition measurement_values : list (string * string) → result (list (string * Z) * list (string * float)) :=
  checked_numbers int_other float_text INTEGER_FIELDS DECIMAL_FIELDS.

(** The counts that every case has. *)
Definition fixed_counts : list (string * Z) := [("workers", 4); ("samples", 64); ("calls", 64)].
Definition history_and_latest (ints : list (string * Z)) : option (Z * Z) :=
  history ← dict_get ints "history"; latest ← dict_get ints "latest"; Some (history, latest).

(** [scripts/reports/telemetry_writer_evidence.py:77-89] measurement *)
Definition measurement (line : string) : result Row :=
  fields ← measurement_fields line;
  '(ints, floats) ← measurement_values fields;
  let case := default "" (dict_get fields "case") in
  if negb (bool_decide (dict_get EXPECTED_COUNTS case = history_and_latest ints)) || negb (counts_are ints fixed_counts)
  then suite_error "measurement_counts_invalid" else
  if negb (counts_are ints [("temp_written", 0)]) || decimal_lt floats "p95_ms" "p50_ms"
  then suite_error "measurement_contract_invalid" else Ok (mkRow [("case", case)] ints floats).

Definition case_of (r : Row) : option string := label r "case".

(** The cases are those that are expected, each once. *)
Definition check_cases (counts : Counts) (measurements : list Row) : result () :=
  demand (Nat.eqb (length measurements) 3 && same_set (case_of <$> measurements) (Some <$> EXPECTED_COUNTS.*1))
    "measurement_profiles_missing_or_duplicate".

(** [scripts/reports/telemetry_writer_evidence.py:30-54] read_suite and suite_counts, and the checks of [build_report] *)
Definition checked_report : fs_path → string → files → result (Counts * list Row * Verdict) :=
  owned_report et_fromstring int_other SUITE (λ tests, tests =? 5) (read_checked "suite_too_large") [PREFIX] measurement (judged check_cases).

(** [scripts/reports/telemetry_writer_evidence.py:92-113] build_report *)
Definition build_report (directory : fs_path) (source_commit : string) (fs : files) : result (Verdict * jval) :=
  '(counts, measurements, result) ← checked_report directory source_commit fs;
  Ok (result,
      JObj [("schema_version", JStr SCHEMA_VERSION); ("source_commit", JStr source_commit); ("result", JStr (verdict_name result));
            ("tests", counts_json counts); ("measurements", JList (row_json <$> measurements));
            ("scope", JStr "real migrated PostgreSQL, canonical writer, four pooled workers; bounded correctness/cost fixture, not capacity or soak qualification");
            ("statistics_scope", JStr "top-level owned writer CTE only; transaction/SET/trigger work is not a separate counted statement; exec_ms excludes client queue/commit time");
            ("production_deployment", JStr "NOT_RUN"); ("physical_mobile", JStr "BLOCKED")]).

(** [scripts/reports/telemetry_writer_evidence.py:116-130] main, from the parsed arguments *)
Definition main (fs : history → files) (directory : fs_path) (source_commit : string) : eff Z :=
  evidence_main SCHEMA_VERSION "writer_evidence_unavailable" fs (build_report directory source_commit).

(** ** What a passing report shows *)

Definition row_within (r : Row) : Prop :=
  (∃ case history latest, case_of r = Some case ∧ (case, (history, latest)) ∈ EXPECTED_COUNTS
     ∧ integer r "history" = Some history ∧ integer r "latest" = Some latest)
  ∧ (∀ k n, (k, n) ∈ fixed_counts ++ [("temp_written", 0)] → integer r k = Some n)
  ∧ times_ordered r.

Lemma writer_measurement_within line r : measurement line = Ok r → row_within r.
Proof.
  intros (fields & _ & ([ints floats] & (Hi & Hf & _ & Ha)%checked_numbers_Ok & H)%bind_Ok)%bind_Ok.
  cbn zeta in H. destruct (bool_decide (dict_get EXPECTED_COUNTS _ = _)) eqn:He; [|done]. destruct (counts_are ints fixed_counts) eqn:Hc; [|done].
  destruct (counts_are ints [("temp_written", 0)]) eqn:H0; [|done]. destruct (decimal_lt _ _ _) eqn:Hd; [done|]. injection H as <-.
  apply bool_decide_eq_true in He. split_and!.
  - destruct (key_has_value ints "history") as [history Hh]; [by rewrite Hi; repeat constructor|].
    destruct (key_has_value ints "latest") as [latest Hl]; [by rewrite Hi; repeat constructor|].
    unfold history_and_latest in He. rewrite Hh, Hl in He. exists (default "" (dict_get fields "case")), history, latest.
    split_and!; [done|by apply dict_get_elem|done|done].
  - intros k n [Hk|Hk]%elem_of_app; [by apply (counts_are_get ints fixed_counts)|by apply (counts_are_get ints [("temp_written", 0)])].
  - eapply times_ordered_intro; [exact Hf|done|by repeat constructor..|done].
Qed.

(** A report that passes holds the three cases, each within its contract, of
    five test cases that all passed. *)
Lemma writer_pass_sound fs directory source_commit h t : main fs directory source_commit h = (Some (Ok 0), t) →
  ∃ root measurements report, t = [Printed report] ∧ clean_suite et_fromstring SUITE (λ tests, tests =? 5) root
    ∧ Forall2 (λ line r, measurement line = Ok r ∧ row_within r) (output_lines [PREFIX] root) measurements
    ∧ case_of <$> measurements ≡ₚ Some <$> EXPECTED_COUNTS.*1.
Proof.
  unfold main. intros (report & Hb & ->)%evidence_main_pass. unfold build_report in Hb.
  apply bind_Ok in Hb as ([[counts measurements] v] & Hr & [= -> Hrep]).
  apply owned_report_verdict in Hr as Hj. apply judged_PASS in Hj as [Hv Hx].
  destruct (owned_report_pass _ _ _ _ _ _ _ _ _ _ _ _ _ Hr Hv) as (root & Hclean & _ & Hm).
  apply demand_Ok, andb_true_iff in Hx as [Hl%Nat.eqb_eq Hset].
  exists root, measurements, report. do 2 (split; [done|]). split.
  - eapply Forall2_impl; [exact Hm|]. intros line r H. split; [exact H|exact (writer_measurement_within _ _ H)].
  - apply same_set_perm; [done|by apply (bool_decide_unpack _); vm_compute|]. by rewrite length_fmap, Hl.
Qed.
End report.
