(* ===== verification/RetentionEvidence.v ===== *)
(** Bounded-retention evidence of telemetry: [scripts/reports/telemetry_retention_evidence.py]. *)

From stdpp Require Import base list strings.
From Stdlib Require Import ZArith Lia Ascii Floats Strings.Byte.
From S2P Require Import Prelude PyStr PyTime PyJson PyText Host Effects Evidence PyXml SuiteEvidence.

#[local] Open Scope Z_scope.

(** [scripts/reports/telemetry_retention_evidence.py:15-15] *)
Definition SCHEMA_VERSION : string := "telemetry-retention-evidence-v1".
(** [scripts/reports/telemetry_retention_evidence.py:16-16] *)
Definition SUITE : string := "kr.co.a4ai.gcssaker.authpolicy.TelemetryRetentionPostgresTest".
(** [scripts/reports/telemetry_retention_evidence.py:18-30] *)
Definition EXPECTED : list (string * Z) :=
  [("rows", 100000); ("samples", 9); ("batch_size", 1000); ("history_deleted", 9000); ("points_deleted", 9000);
   ("history_remaining", 91001); ("points_remaining", 91000); ("calls", 9); ("history_index_used", 1)].
(** [scripts/reports/telemetry_retention_evidence.py:31-33] *)
Definition INTEGER_FIELDS : list string :=
  EXPECTED.*1 ++ ["shared_hits"; "shared_reads"; "temp_written"; "history_temp_written"; "points_sort_nodes"; "points_temp_written"].
(** [scripts/reports/telemetry_retention_evidence.py:34-34] *)
Definition DECIMAL_FIELDS : list string := ["p50_ms"; "p95_ms"; "exec_ms"; "wal_bytes"].
(** [scripts/reports/telemetry_retention_evidence.py:35-35] *)
Definition FIELDS : list string := INTEGER_FIELDS ++ DECIMAL_FIELDS ++ ["result"].

Section report.
Context (et_fromstring : list byte → result xml) (int_other : string → option Z) (float_text : string → result float).

(** [scripts/reports/telemetry_retention_evidence.py:68-75] measurement_fields *)
Definition measurement_fields : string → result (list (string * string)) := strict_fields FIELDS "measurement_fields_invalid".

(** [scripts/reports/telemetry_retention_evidence.py:78-85] measurement_values *)
Definition measurement_values : list (string * string) → result (list (string * Z) * list (string * float)) :=
  checked_numbers int_other float_text INTEGER_FIELDS DECIMAL_FIELDS.

(** A time that is below a limit. *)
Definition below (limit : float) (floats : list (string * float)) (key : string) : bool :=
  match dict_get floats key with Some x => negb (limit <=? x)%float | None => false end.

(** [scripts/reports/telemetry_retention_evidence.py:88-94] measurement *)
Definition measurement (line : string) : result Row :=
  fields ← measurement_fields line;
  '(ints, floats) ← measurement_values fields;
  if negb (counts_are ints EXPECTED) then suite_error "measurement_counts_invalid" else
  if decimal_lt floats "p95_ms" "p50_ms" || negb (below 3000 floats "p95_ms") then suite_error "measurement_latency_invalid" else
  Ok (mkRow [] ints floats).

(** [scripts/reports/telemetry_retention_evidence.py:97-104] verification_result *)
Definition verification_result : Counts → list Row → result Verdict :=
  judged (λ counts measurements, demand ((tests counts =? 20) && Nat.eqb (length measurements) 1) "verification_cases_missing_or_duplicate").

(** [scripts/reports/telemetry_retention_evidence.py:42-65] read_suite and suite_counts, and the checks of [build_report] *)
Definition checked_report : fs_path → string → files → result (Counts * list Row * Verdict) :=
  owned_report et_fromstring int_other SUITE (λ tests, 0 <? tests) read_opened ["telemetry_retention "] measurement verification_result.

(** [scripts/reports/telemetry_retention_evidence.py:107-133] build_report *)
Definition build_report (directory : fs_path) (source_commit : string) (fs : files) : result (Verdict * jval) :=
  '(counts, measurements, result) ← checked_report directory source_commit fs;
  let spilled r := match integer r "points_temp_written" with Some n => 0 <? n | None => false end in
  Ok (result,
      JObj [("schema_version", JStr SCHEMA_VERSION); ("source_commit", JStr source_commit); ("result", JStr (verdict_name result));
            ("tests", counts_json counts); ("measurements", JList (row_json <$> measurements));
            ("scope", JStr "pinned production PostGIS image/schema, real migrations/ownership triggers; 100000 expired rows per history, nine bounded batches, not a full drain or capacity qualification");
            ("statistics_scope", JStr "top-level batch function only; not all round trips or commit WAL; retained latest and fresh history verified");
            ("performance_qualification", JStr (if existsb spilled measurements then "FAIL" else "NOT_RUN"));
            ("legacy_scheduler", JStr "UNCHANGED_UNBOUNDED"); ("production_deployment", JStr "NOT_RUN");
            ("physical_mobile", JStr "BLOCKED"); ("media_e2e", JStr "NOT_RUN")]).

(** [scripts/reports/telemetry_retention_evidence.py:136-152] main, from the parsed arguments *)
Definition main (fs : history → files) (directory : fs_path) (source_commit : string) : eff Z :=
  evidence_main SCHEMA_VERSION "retention_evidence_unavailable" fs (build_report directory source_commit).

(** ** What a passing report shows *)

Definition row_within (r : Row) : Prop :=
  (∀ k n, (k, n) ∈ EXPECTED → integer r k = Some n) ∧ times_ordered r
  ∧ ∃ p95, decimal r "p95_ms" = Some p95 ∧ (3000 <=? p95)%float = false.

Lemma retention_measurement_within line r : measurement line = Ok r → row_within r.
Proof.
  intros (fields & _ & ([ints floats] & (Hi & Hf & _ & Ha)%checked_numbers_Ok & H)%bind_Ok)%bind_Ok.
  destruct (counts_are ints EXPECTED) eqn:Hc, (decimal_lt _ _ _) eqn:Hd, (below _ _ _) eqn:Hb; try done. injection H as <-. split_and!.
  - intros k n Hk. by apply (counts_are_get ints EXPECTED).
  - eapply times_ordered_intro; [exact Hf|done|by repeat constructor..|done].
  - unfold below in Hb. unfold decimal. cbn [decimals]. destruct (dict_get floats "p95_ms") as [p95|]; [|done].
    exists p95. split; [done|]. by apply negb_true_iff.
Qed.

(** A report that passes holds one measurement within its contract, of twenty
    test cases that all passed. *)
Lemma retention_pass_sound fs directory source_commit h t : main fs directory source_commit h = (Some (Ok 0), t) →
  ∃ root line r report, t = [Printed report] ∧ clean_suite et_fromstring SUITE (λ tests, 0 <? tests) root
    ∧ length (findall "testcase" root) = 20%nat ∧ output_lines ["telemetry_retention "] root = [line]
    ∧ measurement line = Ok r ∧ row_within r.
Proof.
  unfold main. intros (report & Hb & ->)%evidence_main_pass. unfold build_report in Hb.
  apply bind_Ok in Hb as ([[counts measurements] v] & Hr & [= -> Hrep]).
  apply owned_report_verdict in Hr as Hj. apply judged_PASS in Hj as [Hv Hx].
  destruct (owned_report_pass _ _ _ _ _ _ _ _ _ _ _ _ _ Hr Hv) as (root & Hclean & Hlen & Hm).
  apply demand_Ok, andb_true_iff in Hx as [H20%Z.eqb_eq Hl%Nat.eqb_eq].
  destruct measurements as [|r [|]]; try done. apply Forall2_cons_inv_r in Hm as (line & rest & Hline & Hrest%Forall2_nil_inv_r & Heq).
  subst rest. exists root, line, r, report. split_and!; [done|done|lia|done|done|by eapply retention_measurement_within].
Qed.
End report.
