(* ===== verification/GeoIndexEvidence.v ===== *)
(** Evidence on the retention index candidate: [scripts/reports/geo_retention_index_evidence.py]. *)

From stdpp Require Import base list strings.
From Stdlib Require Import ZArith Lia Ascii Floats Strings.Byte.
From S2P Require Import Prelude PyStr PyTime PyJson PyText Host Effects Evidence PyXml SuiteEvidence.

#[local] Open Scope Z_scope.

(** [scripts/reports/geo_retention_index_evidence.py:15-15] *)
Definition SCHEMA_VERSION : string := "geo-retention-index-evidence-v1".
(** [scripts/reports/geo_retention_index_evidence.py:16-16] *)
Definition SUITE : string := "kr.co.a4ai.gcssaker.authpolicy.GeoRetentionIndexCandidatePostgresTest".
(** [scripts/reports/geo_retention_index_evidence.py:18-26] *)
Definition EXPECTED : list (string * Z) :=
  [("rows", 100000); ("insert_rows", 10000); ("candidate_index_used", 1); ("candidate_sort_nodes", 0); ("candidate_temp_written", 0)].
(** [scripts/reports/geo_retention_index_evidence.py:27-27] *)
Definition INTEGER_FIELDS : list string := EXPECTED.*1 ++ ["baseline_sort_nodes"; "baseline_temp_written"; "index_bytes"].
(** [scripts/reports/geo_retention_index_evidence.py:28-38] *)
Definition DECIMAL_FIELDS : list string :=
  ["build_ms"; "baseline_plan_ms"; "candidate_plan_ms"; "baseline_insert_ms"; "candidate_insert_ms"; "baseline_insert_wal";
   "candidate_insert_wal"].
(** [scripts/reports/geo_retention_index_evidence.py:39-39] *)
Definition FIELDS : list string := INTEGER_FIELDS ++ DECIMAL_FIELDS ++ ["result"].

Definition positive : list string := ["baseline_plan_ms"; "candidate_plan_ms"; "baseline_insert_wal"; "candidate_insert_wal"].

Section report.
Context (et_fromstring : list byte → result xml) (int_other : string → option Z) (float_text : string → result float).

(** [scripts/reports/geo_retention_index_evidence.py:73-83] measurement_fields *)
Definition measurement_fields (line : string) : result (list (string * string)) :=
  fields ← dict_fields FIELDS "measurement_fields_invalid" line;
  if negb (field_is fields "result" "PASS") then suite_error "measurement_fields_invalid" else Ok fields.

(** [scripts/reports/geo_retention_index_evidence.py:86-93] measurement_values *)
Definition measurement_values : list (string * string) → result (list (string * Z) * list (string * float)) :=
  checked_numbers int_other float_text INTEGER_FIELDS DECIMAL_FIELDS.

Definition at_least_one (ints : list (string * Z)) (key : string) : bool :=
  match dict_get ints key with Some n => 1 <=? n | None => false end.
Definition is_positive (floats : list (string * float)) (key : string) : bool :=
  match dict_get floats key with Some x => negb (x <=? 0)%float | None => false end.
Definition built_in_time (floats : list (string * float)) : bool :=
  match dict_get floats "build_ms" with Some x => negb (3000 <=? x)%float | None => false end.

(** [scripts/reports/geo_retention_index_evidence.py:96-105] measurement *)
Definition measurement (line : string) : result Row :=
  fields ← measurement_fields line;
  '(ints, floats) ← measurement_values fields;
  if negb (counts_are ints EXPECTED) then suite_error "candidate_contract_invalid" else
  if negb (forallb (at_least_one ints) ["baseline_sort_nodes"; "baseline_temp_written"; "index_bytes"])
  then suite_error "baseline_or_space_evidence_invalid" else
  if negb (built_in_time floats) || negb (forallb (is_positive floats) positive) then suite_error "candidate_cost_invalid" else
  Ok (mkRow [] ints floats).

(** [scripts/reports/geo_retention_index_evidence.py:46-70] suite and counts, and the checks of [build_report] *)
Definition checked_report : fs_path → string → files → result (Counts * list Row * Verdict) :=
  owned_report et_fromstring int_other SUITE (λ tests, 0 <? tests) read_opened ["geo_retention_index "] measurement
    (judged (λ counts rows, demand ((tests counts =? 1) && Nat.eqb (length rows) 1) "measurement_missing_or_duplicate")).

(** [scripts/reports/geo_retention_index_evidence.py:108-133] build_report *)
Definition build_report (directory : fs_path) (source_commit : string) (fs : files) : result (Verdict * jval) :=
  '(counts, rows, result) ← checked_report directory source_commit fs;
  Ok (result,
      JObj [("schema_version", JStr SCHEMA_VERSION); ("source_commit", JStr source_commit); ("result", JStr (verdict_name result));
            ("tests", counts_json counts); ("measurements", JList (row_json <$> rows));
            ("scope", JStr "test-only observed_at,id index on pinned PostGIS; one warm-cache 100k plan and sequential 10k inserts; not production qualification");
            ("production_schema_change", JStr "NOT_RUN"); ("production_deployment", JStr "NOT_RUN"); ("physical_mobile", JStr "BLOCKED")]).

(** [scripts/reports/geo_retention_index_evidence.py:136-152] main, from the parsed arguments *)
Definition main (fs : history → files) (directory : fs_path) (source_commit : string) : eff Z :=
  evidence_main SCHEMA_VERSION "geo_index_evidence_unavailable" fs (build_report directory source_commit).

(** ** What a passing report shows *)

(** The candidate used its index without sorting or spilling, where the baseline
    did both, and was built in less than three seconds. *)
Definition row_within (r : Row) : Prop :=
  (∀ k n, (k, n) ∈ EXPECTED → integer r k = Some n)
  ∧ (∀ k, k ∈ ["baseline_sort_nodes"; "baseline_temp_written"; "index_bytes"] → ∃ n, integer r k = Some n ∧ 1 <= n)
  ∧ (∃ x, decimal r "build_ms" = Some x ∧ (3000 <=? x)%float = false)
  ∧ (∀ k, k ∈ positive → ∃ x, decimal r k = Some x ∧ (x <=? 0)%float = false).

Lemma geo_index_measurement_within line r : measurement line = Ok r → row_within r.
Proof.
  intros (fields & _ & ([ints floats] & _ & H)%bind_Ok)%bind_Ok.
  destruct (counts_are ints EXPECTED) eqn:Hc; [|done]. destruct (forallb (at_least_one ints) _) eqn:Hi; [|done].
  destruct (built_in_time floats) eqn:Hb; [|done]. destruct (forallb (is_positive floats) positive) eqn:Hp; [|done]. injection H as <-.
  split_and!.
  - intros k n Hk. by apply (counts_are_get ints EXPECTED).
  - intros k Hk. apply (forallb_elem _ _ _ Hi) in Hk. unfold at_least_one in Hk. unfold integer. cbn [integers].
    destruct (dict_get ints k) as [n|]; [|done]. exists n. split; [done|lia].
  - unfold built_in_time in Hb. unfold decimal. cbn [decimals]. destruct (dict_get floats "build_ms") as [x|]; [|done].
    exists x. split; [done|]. by apply negb_true_iff.
  - intros k Hk. apply (forallb_elem _ _ _ Hp) in Hk. unfold is_positive in Hk. unfold decimal. cbn [decimals].
    destruct (dict_get floats k) as [x|]; [|done]. exists x. split; [done|]. by apply negb_true_iff.
Qed.

(** A report that passes holds one measurement within its contract, of one test
    case that passed. *)
Lemma geo_index_pass_sound fs directory source_commit h t : main fs directory source_commit h = (Some (Ok 0), t) →
  ∃ root line r report, t = [Printed report] ∧ clean_suite et_fromstring SUITE (λ tests, 0 <? tests) root
    ∧ length (findall "testcase" root) = 1%nat ∧ output_lines ["geo_retention_index "] root = [line]
    ∧ measurement line = Ok r ∧ row_within r.
Proof.
  unfold main. intros (report & Hb & ->)%evidence_main_pass. unfold build_report in Hb.
  apply bind_Ok in Hb as ([[counts measurements] v] & Hr & [= -> Hrep]).
  apply owned_report_verdict in Hr as Hj. apply judged_PASS in Hj as [Hv Hx].
  destruct (owned_report_pass _ _ _ _ _ _ _ _ _ _ _ _ _ Hr Hv) as (root & Hclean & Hlen & Hm).
  apply demand_Ok, andb_true_iff in Hx as [H1%Z.eqb_eq Hl%Nat.eqb_eq].
  destruct measurements as [|r [|]]; try done. apply Forall2_cons_inv_r in Hm as (line & rest & Hline & Hrest%Forall2_nil_inv_r & Heq).
  subst rest. exists root, line, r, report. split_and!; [done|done|lia|done|done|by eapply geo_index_measurement_within].
Qed.
End report.
