(* ===== verification/BoundedEvidence.v ===== *)
(** Evidence on the bounded retention runner: [scripts/reports/bounded_retention_evidence.py]. *)

From stdpp Require Import base list strings.
From Stdlib Require Import ZArith Lia Ascii Floats Strings.Byte.
From S2P Require Import Prelude PyStr PyTime PyJson PyText Host Effects Evidence PyXml SuiteEvidence.

#[local] Open Scope Z_scope.

(** [scripts/reports/bounded_retention_evidence.py:14-14] *)
Definition SCHEMA_VERSION : string := "bounded-retention-evidence-v1".
(** [scripts/reports/bounded_retention_evidence.py:15-15] *)
Definition SUITE : string := "kr.co.a4ai.gcssaker.authpolicy.BoundedRetentionRunnerPostgresTest".
(** [scripts/reports/bounded_retention_evidence.py:17-23] *)
Definition EXPECTED : list (string * list (string * Z)) :=
  [("complete", [("batches", 3); ("history_deleted", 2501); ("points_deleted", 2501); ("exit_code", 0)]);
   ("resume", [("batches", 4); ("history_deleted", 2501); ("points_deleted", 2501); ("exit_code", 0)]);
   ("locked_recovery", [("batches", 4); ("history_deleted", 1); ("points_deleted", 1); ("exit_code", 0)])].
(** [scripts/reports/bounded_retention_evidence.py:24-24] *)
Definition FIELDS : list string := ["result"; "profile"; "batches"; "history_deleted"; "points_deleted"; "exit_code"].

Section report.
Context (et_fromstring : list byte → result xml) (int_other : string → option Z).

(** [scripts/reports/bounded_retention_evidence.py:57-67] measurement *)
Definition measurement (line : string) : result Row :=
  fields ← dict_fields FIELDS "measurement_fields_invalid" line;
  let profile := default "" (dict_get fields "profile") in
  match dict_get EXPECTED profile with
  | None => suite_error "measurement_profile_invalid"
  | Some expected =>
      if negb (field_is fields "result" "PASS") then suite_error "measurement_profile_invalid" else
      numbers ← int_fields int_other fields ["batches"; "history_deleted"; "points_deleted"; "exit_code"];
      if negb (bool_decide (numbers = expected)) then suite_error "measurement_contract_invalid" else
      Ok (mkRow [("profile", profile)] numbers [])
  end.

Definition profile_of (r : Row) : option string := label r "profile".

(** [scripts/reports/bounded_retention_evidence.py:70-77] verification_result *)
Definition verification_result : Counts → list Row → result Verdict :=
  judged (λ counts rows,
    demand ((tests counts =? 4) && Nat.eqb (length rows) 3 && same_set (profile_of <$> rows) (Some <$> EXPECTED.*1))
      "verification_cases_missing_or_duplicate").

(** [scripts/reports/bounded_retention_evidence.py:31-54] read_suite and suite_counts, and the checks of [build_report] *)
Definition checked_report : fs_path → string → files → result (Counts * list Row * Verdict) :=
  owned_report et_fromstring int_other SUITE (λ tests, 0 <? tests) read_opened ["bounded_retention "] measurement verification_result.

(** [scripts/reports/bounded_retention_evidence.py:80-100] build_report *)
Definition build_report (directory : fs_path) (source_commit : string) (fs : files) : result (Verdict * jval) :=
  '(counts, rows, result) ← checked_report directory source_commit fs;
  Ok (result,
      JObj [("schema_version", JStr SCHEMA_VERSION); ("source_commit", JStr source_commit); ("result", JStr (verdict_name result));
            ("tests", counts_json counts); ("measurements", JList (row_json <$> rows));
            ("scope", JStr "qualified-index gate, fixed-anchor separate commits, complete/partial resume/zero-progress lock recovery on pinned PostGIS");
            ("runtime_scheduler_connected", JStr "NO"); ("production_execution", JStr "NOT_RUN"); ("physical_mobile", JStr "BLOCKED")]).

(** [scripts/reports/bounded_retention_evidence.py:103-121] main, from the parsed arguments *)
Definition main (fs : history → files) (directory : fs_path) (source_commit : string) : eff Z :=
  evidence_main SCHEMA_VERSION "bounded_retention_evidence_unavailable" fs (build_report directory source_commit).

(** ** What a passing report shows *)

Lemma bounded_measurement_exact line r : measurement line = Ok r →
  ∃ profile expected, (profile, expected) ∈ EXPECTED ∧ r = mkRow [("profile", profile)] expected [].
Proof.
  intros (fields & _ & H)%bind_Ok. cbn zeta in H. destruct (dict_get EXPECTED _) as [expected|] eqn:He; [|done].
  destruct (field_is _ _ _); [|done]. apply bind_Ok in H as (numbers & _ & H). destruct (bool_decide _) eqn:Hn; [|done].
  apply bool_decide_eq_true in Hn as ->. injection H as <-. eexists _, expected. split; [by apply dict_get_elem|done].
Qed.

(** A report that passes holds exactly the three expected runs, of four test
    cases that all passed. *)
Lemma bounded_pass_sound fs directory source_commit h t : main fs directory source_commit h = (Some (Ok 0), t) →
  ∃ root measurements report, t = [Printed report] ∧ clean_suite et_fromstring SUITE (λ tests, 0 <? tests) root
    ∧ length (findall "testcase" root) = 4%nat
    ∧ Forall2 (λ line r, measurement line = Ok r) (output_lines ["bounded_retention "] root) measurements
    ∧ measurements ≡ₚ (λ '(profile, expected), mkRow [("profile", profile)] expected []) <$> EXPECTED.
Proof.
  unfold main. intros (report & Hb & ->)%evidence_main_pass. unfold build_report in Hb.
  apply bind_Ok in Hb as ([[counts measurements] v] & Hr & [= -> Hrep]).
  apply owned_report_verdict in Hr as Hj. apply judged_PASS in Hj as [Hv Hx].
  destruct (owned_report_pass _ _ _ _ _ _ _ _ _ _ _ _ _ Hr Hv) as (root & Hclean & Hlen & Hm).
  apply demand_Ok, andb_true_iff in Hx as [[H4%Z.eqb_eq Hl%Nat.eqb_eq]%andb_true_iff Hset].
  exists root, measurements, report. do 2 (split; [done|]). split; [lia|]. split; [done|].
  set (row := λ '(profile, expected), mkRow [("profile", profile)] expected []).
  assert (Forall (λ r, ∃ pe, pe ∈ EXPECTED ∧ r = row pe) measurements) as Hrows.
  { apply Forall_forall. intros r (i & Hi)%list_elem_of_lookup. destruct (Forall2_lookup_r _ _ _ _ _ Hm Hi) as (line & _ & Hline).
    destruct (bounded_measurement_exact _ _ Hline) as (profile & expected & Hin & ->). by exists (profile, expected). }
  assert (profile_of <$> measurements ≡ₚ Some <$> EXPECTED.*1) as Hp.
  { apply same_set_perm; [done|by apply (bool_decide_unpack _); vm_compute|]. by rewrite length_fmap, Hl. }
  assert (measurements = (λ o, row (default "" o, default [] (dict_get EXPECTED (default "" o)))) <$> (profile_of <$> measurements)) as ->.
  { clear -Hrows. induction Hrows as [|r l ([profile expected] & Hin & ->) _ IH]; [done|]. rewrite !fmap_cons. f_equal; [|exact IH].
    revert Hin. unfold EXPECTED at 1. rewrite !elem_of_cons, elem_of_nil. by intros [[= -> ->]|[[= -> ->]|[[= -> ->]|[]]]]. }
  rewrite Hp. done.
Qed.
End report.
