(* ===== verification/MigrationEvidence.v ===== *)
(** Evidence on the schema migration runner: [scripts/reports/geo_schema_migration_evidence.py]. *)

From stdpp Require Import base list strings.
From Stdlib Require Import ZArith Lia Ascii Floats Strings.Byte.
From S2P Require Import Prelude PyStr PyTime PyJson PyText Host Effects Evidence PyXml SuiteEvidence.

#[local] Open Scope Z_scope.

(** [scripts/reports/geo_schema_migration_evidence.py:14-14] *)
Definition SCHEMA_VERSION : string := "geo-schema-migration-evidence-v1".
(** [scripts/reports/geo_schema_migration_evidence.py:15-15] *)
Definition SUITE : string := "kr.co.a4ai.gcssaker.authpolicy.GeoSchemaMigrationRunnerPostgresTest".

Definition BACKUP_NUMBERS : list string := ["dump_bytes"; "digest_verified"; "source_tables"; "restored_tables"; "migrations"; "index_valid"].
Definition LOAD_INTEGERS : list string := ["repetition"; "rows"; "writes"; "reads"; "progress_seen"; "retention_temp_written"].
Definition LOAD_TIMINGS : list string := ["write_p95_ms"; "read_p95_ms"].
Definition expected_integers : list (string * Z) :=
  [("rows", 500000); ("writes", 16); ("reads", 16); ("progress_seen", 1); ("retention_temp_written", 0)].

Section report.
Context (et_fromstring : list byte → result xml) (int_other : string → option Z) (float_text : string → result float).

(** [scripts/reports/geo_schema_migration_evidence.py:56-73] backup_measurement *)
Definition backup_measurement (fields : list (string * string)) : result Row :=
  if negb (keys_are fields ("result" :: BACKUP_NUMBERS)) || negb (field_is fields "result" "PASS")
  then suite_error "backup_measurement_invalid" else
  numbers ← int_fields int_other fields BACKUP_NUMBERS;
  let positive := match dict_get numbers "dump_bytes" with Some n => 0 <? n | None => false end in
  let restored := bool_decide (dict_get numbers "source_tables" = dict_get numbers "restored_tables") in
  if negb (positive && counts_are numbers [("digest_verified", 1)] && restored)
     || negb (counts_are numbers [("migrations", 1); ("index_valid", 1)])
  then suite_error "backup_contract_invalid" else Ok (mkRow [("profile", "backup_restore")] numbers []).

(** A time within the budget. *)
Definition within_budget (x : float) : bool := is_finite x && negb (x <? 0)%float && negb (500 <=? x)%float.

(** [scripts/reports/geo_schema_migration_evidence.py:99-106] validate_load_values *)
Definition validate_load_values (ints : list (string * Z)) (timings : list (string * float)) : result () :=
  demand (bool_decide (dict_get ints "repetition" ∈ [Some 1; Some 2; Some 3]) && counts_are ints expected_integers
           && forallb (λ kv, within_budget kv.2) timings) "load_contract_invalid".

(** [scripts/reports/geo_schema_migration_evidence.py:76-96] load_measurement *)
Definition load_measurement (fields : list (string * string)) : result Row :=
  if negb (keys_are fields ("result" :: LOAD_INTEGERS ++ LOAD_TIMINGS)) || negb (field_is fields "result" "PASS")
  then suite_error "load_measurement_invalid" else
  ints ← int_fields int_other fields LOAD_INTEGERS;
  timings ← float_fields float_text fields LOAD_TIMINGS;
  _ ← validate_load_values ints timings;
  Ok (mkRow [("profile", "concurrent_load")] ints timings).

(** [scripts/reports/geo_schema_migration_evidence.py:49-53] measurement *)
Definition measurement (line : string) : result Row :=
  fields ← dict_of_pairs (measurement_pairs line);
  if startswith "geo_migration_backup " line then backup_measurement fields else load_measurement fields.

Definition is_load (r : Row) : bool := bool_decide (label r "profile" = Some "concurrent_load").
Definition repetition_of (r : Row) : option Z := integer r "repetition".

(** [scripts/reports/geo_schema_migration_evidence.py:109-117] verification_result *)
Definition verification_result : Counts → list Row → result Verdict :=
  judged (λ counts measurements,
    demand ((tests counts =? 9) && Nat.eqb (length measurements) 4
             && same_set (repetition_of <$> List.filter is_load measurements) [Some 1; Some 2; Some 3]) "verification_cases_missing").

(** [scripts/reports/geo_schema_migration_evidence.py:23-46] read_suite and suite_counts, and the checks of [build_report] *)
Definition checked_report : fs_path → string → files → result (Counts * list Row * Verdict) :=
  owned_report et_fromstring int_other SUITE (λ tests, 0 <? tests) read_opened ["geo_migration_backup "; "geo_migration_load "]
    measurement verification_result.

(** [scripts/reports/geo_schema_migration_evidence.py:120-147] build_report *)
Definition build_report (directory : fs_path) (source_commit : string) (fs : files) : result (Verdict * jval) :=
  '(counts, measurements, result) ← checked_report directory source_commit fs;
  Ok (result,
      JObj [("schema_version", JStr SCHEMA_VERSION); ("source_commit", JStr source_commit); ("result", JStr (verdict_name result));
            ("tests", counts_json counts); ("measurements", JList (row_json <$> measurements));
            ("acceptance_budget", JObj [("repetitions", JInt 3); ("write_p95_ms_max", JInt 500); ("read_p95_ms_max", JInt 500);
                                        ("retention_temp_written", JInt 0)]);
            ("scope", JStr "shared runner recovery plus custom dump restore and concurrent index read/write on pinned PostGIS");
            ("production_execution", JStr "NOT_RUN"); ("backup_restore", JStr "PASS"); ("physical_mobile", JStr "BLOCKED")]).

(** [scripts/reports/geo_schema_migration_evidence.py:150-168] main, from the parsed arguments *)
Definition main (fs : history → files) (directory : fs_path) (source_commit : string) : eff Z :=
  evidence_main SCHEMA_VERSION "geo_migration_evidence_unavailable" fs (build_report directory source_commit).

(** ** What a passing report shows *)

(** A repetition of the concurrent load within its contract. *)
Definition load_within (r : Row) : Prop :=
  (∀ k n, (k, n) ∈ expected_integers → integer r k = Some n)
  ∧ ∀ k, k ∈ LOAD_TIMINGS → ∃ x, decimal r k = Some x ∧ within_budget x = true.

Lemma load_measurement_within fields r : load_measurement fields = Ok r → is_load r = true ∧ load_within r.
Proof.
  unfold load_measurement. destruct (keys_are _ _), (field_is _ _ _); try done.
  intros (ints & _ & (timings & Ht%float_fields_keys & ([] & Hv & [= <-])%bind_Ok)%bind_Ok)%bind_Ok.
  unfold validate_load_values in Hv. apply demand_Ok in Hv.
  apply andb_true_iff in Hv as [[_ Hc]%andb_true_iff Hb]. split; [done|]. split.
  - intros k n Hk. by apply (counts_are_get ints expected_integers).
  - intros k Hk. destruct (key_has_value timings k) as [x Hx]; [by rewrite Ht|]. exists x. split; [done|].
    apply dict_get_elem in Hx. by apply (forallb_elem _ _ _ Hb) in Hx.
Qed.

Lemma measurement_load line r : measurement line = Ok r → is_load r = true → load_within r.
Proof.
  intros (fields & _ & H)%bind_Ok. destruct (startswith _ line); [|by apply load_measurement_within in H as [_ H]].
  unfold backup_measurement in H. destruct (keys_are _ _), (field_is _ _ _); try done. apply bind_Ok in H as (numbers & _ & H).
  cbn zeta in H. by destruct (negb (_ && _ && _) || _); [|injection H as <-].
Qed.

(** A report that passes holds the three repetitions of the load, each within
    its contract, of nine test cases that all passed. *)
Lemma migration_pass_sound fs directory source_commit h t : main fs directory source_commit h = (Some (Ok 0), t) →
  ∃ root measurements report, t = [Printed report] ∧ clean_suite et_fromstring SUITE (λ tests, 0 <? tests) root
    ∧ length (findall "testcase" root) = 9%nat ∧ length measurements = 4%nat
    ∧ Forall2 (λ line r, measurement line = Ok r ∧ (is_load r = true → load_within r))
        (output_lines ["geo_migration_backup "; "geo_migration_load "] root) measurements
    ∧ ∀ n, Some n ∈ repetition_of <$> List.filter is_load measurements ↔ n ∈ [1; 2; 3].
Proof.
  unfold main. intros (report & Hb & ->)%evidence_main_pass. unfold build_report in Hb.
  apply bind_Ok in Hb as ([[counts measurements] v] & Hr & [= -> Hrep]).
  apply owned_report_verdict in Hr as Hj. apply judged_PASS in Hj as [Hv Hx].
  destruct (owned_report_pass _ _ _ _ _ _ _ _ _ _ _ _ _ Hr Hv) as (root & Hclean & Hlen & Hm).
  apply demand_Ok, andb_true_iff in Hx as [[H9%Z.eqb_eq Hl%Nat.eqb_eq]%andb_true_iff Hset].
  exists root, measurements, report. do 2 (split; [done|]). split; [lia|]. split; [done|]. split.
  - eapply Forall2_impl; [exact Hm|]. intros line r H. split; [exact H|exact (measurement_load _ _ H)].
  - intros n. rewrite (proj1 (same_set_spec _ _) Hset). rewrite !elem_of_cons, !elem_of_nil. naive_solver.
Qed.
End report.

(** ** Examples *)

Definition load_line (repetition : string) : string :=
  "geo_migration_load result=PASS repetition=" +:+ repetition
  +:+ " rows=500000 writes=16 reads=16 write_p95_ms=1 read_p95_ms=1 progress_seen=1 retention_temp_written=0".
Definition migration_suite (lines : list string) : xml :=
  Element "testsuite" [("name", SUITE); ("tests", "9"); ("failures", "0"); ("errors", "0"); ("skipped", "0")] None
    (Element "system-out" [] (Some (join (String "010" "") lines)) [] :: replicate 9 (Element "testcase" [] None [])).
Definition suite_file : files := mkFiles (λ _, Ok true) (λ _, Ok false) (λ _, Ok 0) (λ _, Ok 0) (λ _, Ok []).

(** Four repetitions, one of them twice, and no backup measurement: the report
    passes and states that the backup was restored. *)
Example passes_without_backup : ∃ report,
  main (λ _, Ok (migration_suite (load_line <$> ["1"; "2"; "3"; "3"]))) (λ _, None) (λ _, Ok 1%float) (λ _, suite_file)
    (mkPath true ["results"]) "0123456789012345678901234567890123456789" [] = (Some (Ok 0), [Printed report])
  ∧ j_getitem report "backup_restore" = Ok (JStr "PASS").
Proof. eexists. split; [vm_compute; reflexivity|reflexivity]. Qed.
