(* ===== verification/OwnScopeEvidence.v ===== *)
(** Evidence on owned scopes over JDBC: [scripts/reports/telemetry_own_scope_evidence.py]. *)

From stdpp Require Import base list strings.
From Stdlib Require Import ZArith Lia Ascii Floats Strings.Byte.
From S2P Require Import Prelude PyStr PyTime PyJson PyText Url Host Effects Evidence PyRegex PyXml SuiteEvidence.

#[local] Open Scope Z_scope.

(** [scripts/reports/telemetry_own_scope_evidence.py:14-14] *)
Definition SCHEMA_VERSION : string := "telemetry-own-jdbc-evidence-v1".
(** [scripts/reports/telemetry_own_scope_evidence.py:15-21] *)
Definition SUITES : list string :=
  ["kr.co.a4ai.gcssaker.authpolicy.TelemetryReadScopeTest"; "kr.co.a4ai.gcssaker.authpolicy.TelemetryOwnGroupJdbcPostgresTest";
   "kr.co.a4ai.gcssaker.authpolicy.TelemetryPagePostgresTest"; "kr.co.a4ai.gcssaker.authpolicy.TelemetryCursorCodecTest";
   "kr.co.a4ai.gcssaker.authpolicy.api.TelemetryPageControllerTest"].
(** [scripts/reports/telemetry_own_scope_evidence.py:22-22] *)
Definition MODES : list string := ["auto"; "force_custom_plan"; "force_generic_plan"].
(** [scripts/reports/telemetry_own_scope_evidence.py:23-23] *)
Definition CASES : list string := ["dense"; "sparse"; "empty"].
Definition TIMINGS : list string := ["legacy_p50_ms"; "bounded_p50_ms"; "legacy_p95_ms"; "bounded_p95_ms"].
(** [scripts/reports/telemetry_own_scope_evidence.py:25-38] *)
Definition FIELDS : list string := ["result"; "mode"; "case"; "pgjdbc"; "rows"; "samples"] ++ TIMINGS.

(** A suite as the report lists it, by the last part of its name. *)
Record suite_counts : Type := mkSuite { suite_name : string; suite_tests : Counts }.

Definition suite_json (s : suite_counts) : jval :=
  match counts_json (suite_tests s) with JObj d => JObj (("suite", JStr (suite_name s)) :: d) | v => v end.

Section report.
Context (et_fromstring : list byte → result xml) (int_other : string → option Z) (float_text : string → result float).
Context (digit_other : char → bool).

(** [scripts/reports/telemetry_own_scope_evidence.py:45-58] read_suite *)
Definition read_suite (fs : files) (path : fs_path) (name : string) : result (suite_counts * list string) :=
  payload ← read_checked "suite_too_large" fs path;
  root ← safe_suite et_fromstring name payload;
  counts ← plausible_counts int_other root;
  Ok (mkSuite (after_last "." name) counts, output_lines ["telemetry_own_jdbc "] root).

(** The version of the driver. *)
Definition DRIVER_VERSION : regex :=
  let digits := plus (Cls (digit_char digit_other)) in seqs [digits; ch "."; digits; ch "."; digits].

(** [scripts/reports/telemetry_own_scope_evidence.py:61-87] measurement *)
Definition measurement (line : string) : result Row :=
  fields ← strict_fields FIELDS "measurement_fields_invalid" line;
  let field key := default "" (dict_get fields key) in
  if negb (bool_decide (field "mode" ∈ MODES)) || negb (bool_decide (field "case" ∈ CASES))
     || negb (bool_decide (is_Some (re_fullmatch DRIVER_VERSION (field "pgjdbc"))))
  then suite_error "measurement_profile_invalid" else
  rows ← py_int int_other (field "rows");
  samples ← py_int int_other (field "samples");
  timings ← float_fields float_text fields TIMINGS;
  if (rows <=? 0) || (samples <? 3) || negb (all_finite timings) then suite_error "measurement_bounds_invalid" else
  if decimal_lt timings "legacy_p95_ms" "legacy_p50_ms" || decimal_lt timings "bounded_p95_ms" "bounded_p50_ms"
  then suite_error "measurement_percentile_invalid" else
  Ok (mkRow [("mode", field "mode"); ("case", field "case"); ("pgjdbc", field "pgjdbc")] [("rows", rows); ("samples", samples)] timings).

Definition cell (r : Row) : option string * option string := (label r "mode", label r "case").
Definition expected_cells : list (option string * option string) := (λ '(mode, case), (Some mode, Some case)) <$> list_prod MODES CASES.

(** All elements are the same, and there is one. *)
Definition one_value {A} `{EqDecision A} (l : list A) : bool :=
  match l with x :: l => forallb (λ y, bool_decide (y = x)) l | [] => false end.

(** The verdict of the suites, and the checks of the measurements when it is a pass. *)
Definition own_verdict (suites : list suite_counts) (measurements : list Row) : result Verdict :=
  let broken s := negb (failures (suite_tests s) =? 0) || negb (errors (suite_tests s) =? 0) in
  if existsb broken suites then Ok FAIL else
  if existsb (λ s, negb (skipped (suite_tests s) =? 0)) suites then Ok BLOCKED else
  _ ← demand (Nat.eqb (length measurements) 9 && same_set (cell <$> measurements) expected_cells)
        "measurement_profiles_missing_or_duplicate";
  _ ← demand (one_value ((λ r, integer r "rows") <$> measurements) && one_value ((λ r, integer r "samples") <$> measurements)
               && one_value ((λ r, label r "pgjdbc") <$> measurements)) "measurement_inputs_inconsistent";
  Ok PASS.

(** One suite after the other: its counts and its measurements. *)
Definition suite_measurements (fs : files) (directory : fs_path) (name : string) : result (suite_counts * list Row) :=
  '(suite, lines) ← read_suite fs (suite_path directory name) name;
  rows ← mapM measurement lines;
  Ok (suite, rows).

(** [scripts/reports/telemetry_own_scope_evidence.py:90-117] build_report *)
Definition build_report (directory : fs_path) (source_commit : string) (fs : files) : result (Verdict * jval) :=
  if negb (lower_hex 40 source_commit) then suite_error "source_revision_invalid" else
  read ← mapM (suite_measurements fs directory) SUITES;
  let suites := read.*1 in
  let measurements := concat read.*2 in
  result ← own_verdict suites measurements;
  Ok (result,
      JObj [("schema_version", JStr SCHEMA_VERSION); ("source_commit", JStr source_commit); ("result", JStr (verdict_name result));
            ("suites", JList (suite_json <$> suites)); ("measurements", JList (row_json <$> measurements));
            ("scope", JStr "synthetic real pgJDBC/Hikari pooled reader, DTO/scope/bounds and cursor/controller tests; not a production SLO");
            ("production_deployment", JStr "NOT_RUN"); ("physical_media_qualification", JStr "NOT_RUN")]).

(** [scripts/reports/telemetry_own_scope_evidence.py:120-136] main, from the parsed arguments *)
Definition main (fs : history → files) (directory : fs_path) (source_commit : string) : eff Z :=
  evidence_main SCHEMA_VERSION "own_jdbc_evidence_unavailable" fs (build_report directory source_commit).

(** ** What a passing report shows *)

Lemma own_verdict_PASS suites measurements : own_verdict suites measurements = Ok PASS →
  Forall (λ s, counts_verdict (suite_tests s) = PASS) suites ∧ cell <$> measurements ≡ₚ expected_cells
  ∧ ∃ rows samples driver, Forall (λ r, integer r "rows" = rows ∧ integer r "samples" = samples ∧ label r "pgjdbc" = driver) measurements.
Proof.
  unfold own_verdict. cbn zeta. destruct (existsb _ suites) eqn:Hb; [done|]. destruct (existsb _ suites) eqn:Hs in |- *; [done|].
  intros ([] & [Hl%Nat.eqb_eq Hset]%demand_Ok%andb_true_iff & ([] & [[Hr Hn]%andb_true_iff Hd]%demand_Ok%andb_true_iff & _)%bind_Ok)%bind_Ok.
  split_and!.
  - apply Forall_forall. intros s Hin. apply counts_verdict_PASS.
    rewrite <-not_true_iff_false, existsb_exists in Hb, Hs. setoid_rewrite <-list_elem_of_In in Hb. setoid_rewrite <-list_elem_of_In in Hs.
    destruct (Z.eqb_spec (failures (suite_tests s)) 0) as [|Hf]; [|exfalso; apply Hb; exists s; split; [done|]; by rewrite (proj2 (Z.eqb_neq _ _) Hf)].
    destruct (Z.eqb_spec (errors (suite_tests s)) 0) as [|Hf]; [|exfalso; apply Hb; exists s; split; [done|]; by rewrite (proj2 (Z.eqb_neq _ _) Hf), orb_true_r].
    destruct (Z.eqb_spec (skipped (suite_tests s)) 0) as [|Hf]; [done|exfalso; apply Hs; exists s; split; [done|]; by rewrite (proj2 (Z.eqb_neq _ _) Hf)].
  - apply same_set_perm; [done|by apply (bool_decide_unpack _); vm_compute|]. by rewrite length_fmap, Hl.
  - destruct measurements as [|r0 measurements]; [done|]. exists (integer r0 "rows"), (integer r0 "samples"), (label r0 "pgjdbc").
    constructor; [done|]. apply Forall_forall. intros r Hin. cbn in Hr, Hn, Hd.
    assert (∀ A (dec : EqDecision A) (f : Row → A), forallb (λ y, bool_decide (y = f r0)) (f <$> measurements) = true → f r = f r0) as Hone.
    { intros A dec f H. apply (forallb_elem _ _ (f r)) in H; [by apply bool_decide_eq_true in H|]. apply list_elem_of_fmap. by exists r. }
    split_and!; [by apply (Hone _ _ (λ r, integer r "rows"))|by apply (Hone _ _ (λ r, integer r "samples"))|by apply (Hone _ _ (λ r, label r "pgjdbc"))].
Qed.

(** A report that passes lists the five suites, which state no failed and no
    skipped test, and holds one measurement for each plan mode and case, all of
    the same table, number of samples and driver. *)
Lemma own_scope_pass_sound fs directory source_commit h t : main fs directory source_commit h = (Some (Ok 0), t) →
  ∃ read report, t = [Printed report] ∧ Forall2 (λ name s, suite_measurements (fs h) directory name = Ok s) SUITES read
    ∧ Forall (λ s, counts_verdict (suite_tests s) = PASS) read.*1 ∧ cell <$> concat read.*2 ≡ₚ expected_cells
    ∧ ∃ rows samples driver,
        Forall (λ r, integer r "rows" = rows ∧ integer r "samples" = samples ∧ label r "pgjdbc" = driver) (concat read.*2).
Proof.
  unfold main. intros (report & Hb & ->)%evidence_main_pass. unfold build_report in Hb. destruct (lower_hex 40 source_commit); [|done].
  apply bind_Ok in Hb as (read & Hr%mapM_Ok & (v & Hv & [= -> _])%bind_Ok). exists read, report. do 2 (split; [done|]).
  by apply own_verdict_PASS.
Qed.
End report.

(** ** Examples *)

(** The stated counts are not compared with the test cases: a suite whose only
    test case failed is read as one that passed. *)
Definition contradicting_suite : xml :=
  Element "testsuite" [("name", "s.Test"); ("tests", "1"); ("failures", "0"); ("errors", "0"); ("skipped", "0")] None
    [Element "testcase" [] None [Element "failure" [] None []]].
Definition empty_files : files := mkFiles (λ _, Ok true) (λ _, Ok false) (λ _, Ok 0) (λ _, Ok 0) (λ _, Ok []).

Example failed_case_unseen :
  read_suite (λ _, Ok contradicting_suite) (λ _, None) empty_files (mkPath true ["s.xml"]) "s.Test"
  = Ok (mkSuite "Test" (mkCounts 1 0 0 0), []).
Proof. vm_compute. reflexivity. Qed.
