(* ===== verification/GroupEvidence.v ===== *)
(** Evidence on the group hierarchy: [scripts/reports/group_closure_evidence.py]. *)

From stdpp Require Import base list strings.
From Stdlib Require Import ZArith Lia Ascii Floats Strings.Byte.
From S2P Require Import Prelude PyStr PyTime PyJson PyText Url Host Effects Evidence PyXml SuiteEvidence.

#[local] Open Scope Z_scope.

(** [scripts/reports/group_closure_evidence.py:14-14] *)
Definition SCHEMA_VERSION : string := "group-closure-evidence-v1".
(** [scripts/reports/group_closure_evidence.py:16-21] *)
Definition SUITES : list string :=
  ["kr.co.a4ai.gcssaker.authpolicy.domain.GroupClosurePlanTest"; "kr.co.a4ai.gcssaker.authpolicy.GroupHierarchyTransactionsTest";
   "kr.co.a4ai.gcssaker.authpolicy.GroupClosurePostgresTest"; "kr.co.a4ai.gcssaker.authpolicy.GroupClosureBenchmarkPostgresTest"].
(** [scripts/reports/group_closure_evidence.py:22-24] *)
Definition MEASUREMENT_FIELDS : list string :=
  ["result"; "variant"; "groups"; "closure_rows"; "row_mutations"; "samples"; "p50_ms"; "p95_ms"].

(** A suite as the report lists it, by the last part of its name. *)
Record suite_counts : Type := mkSuite { suite_name : string; suite_tests : Counts }.

Definition suite_json (s : suite_counts) : jval :=
  match counts_json (suite_tests s) with JObj d => JObj (("suite", JStr (suite_name s)) :: d) | v => v end.

(** [scripts/reports/group_closure_evidence.py:96-101] status_for *)
Definition status_for (suites : list suite_counts) : Verdict :=
  if existsb (λ s, negb (failures (suite_tests s) =? 0) || negb (errors (suite_tests s) =? 0)) suites then FAIL
  else if existsb (λ s, negb (skipped (suite_tests s) =? 0)) suites then BLOCKED
  else PASS.

Section report.
Context (et_fromstring : list byte → result xml) (int_other : string → option Z) (float_text : string → result float).

(** [scripts/reports/group_closure_evidence.py:31-42] suite_result *)
Definition suite_result (fs : files) (path : fs_path) (expected : string) : result (suite_counts * list string) :=
  payload ← read_checked "report_too_large" fs path;
  root ← suite_element et_fromstring expected payload;
  counts ← plausible_counts int_other root;
  Ok (mkSuite (after_last "." expected) counts, strip <$> output_lines ["group_closure_benchmark "] root).

(** [scripts/reports/group_closure_evidence.py:45-63] measurement *)
Definition measurement (line : string) : result Row :=
  fields ← strict_fields MEASUREMENT_FIELDS "measurement_contract_invalid" line;
  let variant := default "" (dict_get fields "variant") in
  if negb (bool_decide (variant ∈ ["legacy"; "delta"])) then suite_error "measurement_variant_invalid" else
  ints ← int_fields int_other fields ["groups"; "closure_rows"; "row_mutations"; "samples"];
  timings ← float_fields float_text fields ["p50_ms"; "p95_ms"];
  if negb (nonnegative ints) || match dict_get ints "samples" with Some n => n <? 3 | None => true end
  then suite_error "measurement_bounds_invalid" else
  if negb (all_finite timings) || decimal_lt timings "p95_ms" "p50_ms" then suite_error "measurement_duration_invalid" else
  Ok (mkRow [("variant", variant)] ints timings).

Definition variant_of (r : Row) : option string := label r "variant".

(** One suite after the other: its counts and its measurements. *)
Definition suite_measurements (fs : files) (directory : fs_path) (name : string) : result (suite_counts * list Row) :=
  '(suite, lines) ← suite_result fs (suite_path directory name) name;
  rows ← mapM measurement lines;
  Ok (suite, rows).

(** Both variants measured the same hierarchy. *)
Definition same_inputs (measurements : list Row) : bool :=
  match measurements with
  | [a; b] => forallb (λ key, bool_decide (integer a key = integer b key)) ["groups"; "closure_rows"; "samples"]
  | _ => false
  end.

(** [scripts/reports/group_closure_evidence.py:66-93] build_report *)
Definition build_report (directory : fs_path) (source_commit : string) (fs : files) : result (Verdict * jval) :=
  if negb (lower_hex 40 source_commit) then suite_error "source_revision_invalid" else
  read ← mapM (suite_measurements fs directory) SUITES;
  let suites := read.*1 in
  let measurements := concat read.*2 in
  let status := status_for suites in
  _ ← match status with
      | PASS =>
          _ ← demand (Nat.eqb (length measurements) 2 && same_set (variant_of <$> measurements) [Some "legacy"; Some "delta"])
                "measurement_pair_missing";
          demand (same_inputs measurements) "measurement_pair_inconsistent"
      | _ => Ok ()
      end;
  Ok (status,
      JObj [("schema_version", JStr SCHEMA_VERSION); ("source_commit", JStr source_commit); ("result", JStr (verdict_name status));
            ("suites", JList (suite_json <$> suites)); ("measurements", JList (row_json <$> measurements));
            ("scope", JStr "synthetic local hierarchy repository/transaction only; not HTTP or physical media qualification");
            ("production_deployment", JStr "NOT_RUN"); ("physical_media_qualification", JStr "NOT_RUN")]).

(** [scripts/reports/group_closure_evidence.py:104-123] main, from the parsed arguments; a missing report has a code of its own *)
Definition main (fs : history → files) (directory : fs_path) (source_commit : string) : eff Z :=
  let failed result error_code := _ ← print (failed_report SCHEMA_VERSION result error_code); mret 1 in
  try_except
    (try_except
       (report ← reading fs (build_report directory source_commit);
        _ ← print report.2;
        mret (match report.1 with PASS => 0 | _ => 1 end))
       [ExcFileNotFoundError] (λ _, failed "NOT_RUN" "hierarchy_evidence_missing"))
    [ExcSuiteEvidenceError; ExcOSError; ExcValueError; ExcParseError] (λ _, failed "FAIL" "hierarchy_evidence_invalid").

(** ** What a passing report shows *)

Lemma status_for_PASS suites : status_for suites = PASS ↔ Forall (λ s, counts_verdict (suite_tests s) = PASS) suites.
Proof.
  unfold status_for. induction suites as [|s suites IH]; [by split|]. cbn [existsb]. rewrite Forall_cons, <-IH, counts_verdict_PASS.
  destruct (Z.eqb_spec (failures (suite_tests s)) 0), (Z.eqb_spec (errors (suite_tests s)) 0), (Z.eqb_spec (skipped (suite_tests s)) 0); cbn;
    destruct (existsb _ suites); cbn; try destruct (existsb _ suites); naive_solver.
Qed.

(** A report that passes lists the four suites, which state no failed and no
    skipped test, and holds one measurement for each variant, both of the same
    hierarchy. *)
Lemma group_pass_sound fs directory source_commit h t : main fs directory source_commit h = (Some (Ok 0), t) →
  ∃ read report a b, t = [Printed report] ∧ Forall2 (λ name s, suite_measurements (fs h) directory name = Ok s) SUITES read
    ∧ Forall (λ s, counts_verdict (suite_tests s) = PASS) read.*1 ∧ concat read.*2 = [a; b]
    ∧ [variant_of a; variant_of b] ≡ₚ [Some "legacy"; Some "delta"]
    ∧ ∀ key, key ∈ ["groups"; "closure_rows"; "samples"] → integer a key = integer b key.
Proof.
  unfold main, try_except, reading, mbind at 1, eff_bind at 1. destruct (build_report directory source_commit (fs h)) as [[v report]|[c msg|]] eqn:Hb;
    cbn -[existsb subclass]; [|by destruct (existsb (subclass c) _); [|destruct (existsb (subclass c) _)]|done].
  destruct v; try done. intros [= <-]. unfold build_report in Hb. destruct (lower_hex 40 source_commit); [|done].
  apply bind_Ok in Hb as (read & Hr%mapM_Ok & ([] & Hc & [= Hs _])%bind_Ok). rewrite Hs in Hc.
  apply bind_Ok in Hc as ([] & [Hl%Nat.eqb_eq Hset]%demand_Ok%andb_true_iff & Hin%demand_Ok).
  destruct (concat read.*2) as [|a [|b [|]]] eqn:E; try done. exists read, report, a, b. split_and!; try done.
  - by apply status_for_PASS.
  - apply (same_set_perm [_; _]); [exact Hset|by apply (bool_decide_unpack _); vm_compute|done].
  - intros key Hk. apply (forallb_elem _ _ _ Hin) in Hk. by apply bool_decide_eq_true in Hk.
Qed.
End report.
